(* ===== verification/_CoqProject ===== *)
-Q . S2P
Prelude.v
RingBuf.v
Crc.v
FlashStore.v
FlashStoreProofs.v
FlashStoreApi.v
StoreClient.v
FlashStoreSim.v
Text.v
TextProofs.v
Str.v
AtParse.v
Layout.v
SettingsData.v
Calendar.v
OtaFlash.v
OtaFlashProofs.v
OtaFlashSim.v
Prog.v
Settings.v
AtCmd.v
AtHandlers.v
AtProofs.v
AtSafety.v
AtLine.v
AtSim.v
ScanParse.v
Scan.v
ScanSafe.v
ScanFound.v
ScanSensor.v
ScanSamples.v
ScanUpload.v
ScanEvents.v
ScanSim.v
Ymodem.v
YmodemSafety.v
YmodemSend.v
YmodemTransfer.v
YmodemFile.v
DfuJimi.v
DfuJimiProofs.v
DfuJimiPhone.v
DfuJimiSim.v
DfuLte.v
DfuLteProofs.v
DfuLteSim.v
Pm.v
Lte.v
LteProofs.v
LteSafety.v
LteSend.v
LteRx.v
BleLink.v
BleCrypto.v
BleApp.v
BleAppProofs.v
BleDelivery.v
BleKey.v
BleReply.v
BleSafety.v
BleDfu.v
BleLog.v
BleSim.v
Float32.v
Attitude.v
Board.v
Battery.v
BatteryProofs.v
Ctrl.v
CtrlProofs.v
GsensorWindow.v
Gsensor.v
GsensorProofs.v
Main.v
MainProofs.v
BoardSim.v
LteCmd.v
LteCmdProofs.v
LteSim.v
