(* ===== verification/Prelude.v ===== *)
(** * Verification of the LL320D tracker firmware

    The firmware ([src/nrf/applications/LL320D_EM01_BLE]) runs on an nRF54L15
    next to an LTE module.  It collects records of BLE tags and sensors, keeps
    them in flash until the LTE module has uploaded them, talks to a phone
    app over an encrypted BLE link, and updates itself over BLE or from the LTE
    module.  The rest of [src/] is the vendored SDK, whose drivers and stacks
    appear here as classes of operations with the laws the code relies on.

    ** Conventions

    Integers are [Z] with the wrap-around of their C type written out ([u8],
    [u16], [u32], [i32]); arrays are lists with checked access.  Code without
    unbounded loops is a function into [option], where [None] is an access
    outside an object or a division by zero.  The protocol code is written in
    the monad of [Prog]: a private state, an outside world, and [Done],
    [NoFuel] or [Undef] as results, with weakest preconditions for partial
    ([wp]) and total ([twp]) correctness.  Hardware, drivers and the other
    end of a link are type classes ([StorageIO], [ImageFlash], [LteUart],
    [Gatt], [Psa], ...), their documented behaviour separate law classes; each
    law class has an instance in a [...Sim] file, on which the theorems are
    evaluated.

    ** Files and sources

    Shared: [Prelude] (integers, arrays, tactics), [Prog] (programs and weakest
    preconditions), [Str] (strings of the C library), [Layout] (C structures
    as bytes), [Float32] (single precision).

    Storage and transfers:
    - [RingBuf]: [my_ring_buf.c], as a queue and as a step relation of one
      producer and one consumer.
    - [Crc]: the checksums of [my_tool.c] and [my_ymodem.c].
    - [Text], [TextProofs], [Calendar]: parsing, printing, schedule and date
      functions of [my_tool.c].
    - [FlashStore] (definitions), [FlashStoreProofs] (one region as a queue),
      [FlashStoreApi] (the public functions), [StoreClient] (what its users
      rely on), [FlashStoreSim]: [my_flash_store.c] and the user data of
      [my_zms_param.c].
    - [OtaFlash], [OtaFlashProofs], [OtaFlashSim]: [my_ota_flash.c], the
      writer of firmware images used by both updates.
    - [Ymodem] (receiver), [YmodemSend] (sender), [YmodemSafety],
      [YmodemTransfer], [YmodemFile]: [my_ymodem.c].
    - [DfuLte], [DfuLteProofs], [DfuLteSim]: [my_dfu_lte.c]; ring buffer, YModem
      receiver, CRC32 and image writer composed as the code composes them.
    - [DfuJimi], [DfuJimiProofs], [DfuJimiPhone], [DfuJimiSim]:
      [my_dfu_jimi.c], the update over BLE.

    Settings and commands:
    - [SettingsData], [Settings]: [my_zms_param.c] and
      [my_zms_param.h], the settings in memory and in flash.
    - [AtParse] (splitting a line), [AtCmd], [AtHandlers] (one definition per
      handler), [AtProofs], [AtSafety], [AtLine] (whole lines), [AtSim]:
      [my_cmd_setting.c].

    The BLE thread:
    - [BleLink]: connection state and notification buffer of [my_ble_core.c].
    - [BleCrypto], [BleApp]: [my_ble_app.c], padding and AES-ECB, packets, key
      exchange, replies, dispatch; [BleAppProofs], [BleDelivery], [BleReply]
      (replies over a lossy link), [BleKey] (key exchange), [BleSafety] (state
      invariant), [BleDfu] ([BleApp] and [DfuJimi] put together), [BleLog]
      ([my_ble_log.c]), [BleSim].
    - [ScanParse] (advertising data), [Scan] (the module), [ScanSafe],
      [ScanFound], [ScanSensor], [ScanSamples], [ScanUpload],
      [ScanEvents], [ScanSim]: [my_ble_scan.c].

    The LTE thread:
    - [Pm]: [my_pm.c], through which the LTE UART and the motion sensor are
      powered.
    - [Lte]: UART with its interrupts, queues, heap blocks, line assembly and
      message loop of [my_lte.c]; [LteProofs], [LteSafety] (ownership of the
      blocks), [LteSend] (messages reach the module), [LteRx] (lines of the
      byte stream).
    - [LteCmd]: the protocol of [my_lte.c], one definition per command of the
      module, production test, answers, retransmission queue, update command,
      and the dispatch of a line; they are the handlers of the thread of [Lte]
      and use [Settings], [AtHandlers], [DfuLte] and [Main].
      [LteCmdProofs]; [LteSim]: a device on which the thread runs.

    The control, motion and main threads:
    - [Board]: the device they see, levels and alarm messages of [my_ctrl.c].
    - [Battery], [BatteryProofs]: [my_battery.c].
    - [Ctrl], [CtrlProofs]: [my_ctrl.c].
    - [Attitude]: [my_gsensor_algorithm.c]; [GsensorWindow], [Gsensor],
      [GsensorProofs]: [my_gsensor.c], with [Pm].
    - [Main], [MainProofs]: [main.c] with power off and start-up of
      [my_ctrl.c]; [BoardSim]: a concrete device for all of them.

    ** What the theorems show

    - Queues: the ring buffer is a bounded queue, also with producer and
      consumer interleaved at single memory accesses; a record store region
      is a queue of records, an upload session delivers and removes exactly
      its records, and a restart, also after a power cut, recovers the records
      that the saved metadata describes; the window of motion interrupts
      counts exactly the recent ones.
    - Transfers arrive: a file sent with YModem is received exactly, with
      repeated blocks saved once; the image writer leaves exactly the bytes it
      was given; a phone that follows the protocol gets its firmware
      installed, in clear and over the encrypted link; a text reply reaches
      the phone although packets are lost; messages queued for the LTE module
      are sent once it is ready, each answer releases the message it answers,
      and one that is never answered is given up; found devices and stored samples are uploaded
      once each, in order.
    - Memory safety: whatever the peer sends, the YModem receiver, the update
      sessions, the BLE protocol, the command interpreter, the scanner, the LTE
      thread with its protocol, the control thread and the motion thread stay within their
      buffers, use their heap blocks correctly and return; where the source
      does not guarantee this, the theorem names the assumption and a second
      theorem shows the defect.
    - Settings: every command line that fits its buffer leaves every setting
      within its documented range; refused commands other than [BT_PARMAC]
      change nothing; what the commands set, except [BT_PARMAC] and the factory
      resets, survives a restart.
    - Behaviour over time: the battery level that is shown, the modes and the
      low-battery sleep, presses of the key, alarms of motion, tilt, pressure
      and temperature, the bias of the gyroscope, usage counts of power.
    - Checksums and parsers: the CRC builds agree and detect bursts; parsers
      agree with their specification on valid and invalid input; round trips
      of hexadecimal and MAC text, padding, encryption, structures in flash.
    - Defects: theorems whose comment starts with "a defect" or "a weakness"
      describe inputs on which the code misbehaves.

    ** Fuel

    Loops over a buffer are structural on its length.  Fuel is only used
    where the C code loops until something else happens: the frame and retry
    loops of YModem, polling the LTE UART, reading the ring buffer of the LTE
    thread until it is empty, the phone's side of an update session, and
    waiting for the key to be held.  The two loops over the window of motion
    interrupts have the size of the window, 500, as fuel, more than their
    number of turns.  Theorems that something succeeds or returns exhibit
    enough fuel (the number of bytes, frames or polls); safety theorems hold
    for every fuel.

    ** Not modelled

    - Threads are interleaved at the granularity of handlers, except in the
      ring buffer and the UART of the LTE module, whose interrupts also come
      while the thread sleeps; the BLE disconnect callback is an event between
      handlers.
    - The parameters that wait for a retransmission are owned by their slot and
      not part of the heap of [Lte]; [my_lte_handle_cmd], which the BLE thread
      runs, and the replies that come later are defined in [LteCmd] but not
      part of the safety theorem of the LTE thread.
    - The distance functions of [my_tool.c] compute in double precision with
      trigonometric functions; the YModem sender that reads a file through a
      callback is not used by the application.
    - Advertising and the GATT table of [my_ble_core.c], the order in which
      [main] initialises the modules, the wrappers of timers and queues, the
      shell ([my_shell.c]), the magnetic UART ([my_magnetic_uart.c]), the
      watchdog ([my_wdt.c]) and the chip drivers ([ext_module]) consist of
      calls into the SDK or vendor code whose effect is outside this code. *)

(** ** Machine integers, C arrays and shared automation

    The fixed-width integer types of the firmware written out on [Z], C arrays
    as lists with explicit bounds, the [option] monad, C strings, and the
    tactics and hint databases the proofs use. *)

From stdpp Require Export base list option numbers strings relations.
From Stdlib Require Export ZArith Lia Ascii.
From Stdlib Require Import Bool.

(** The names of the C integer types live in a scope of their own. *)
Declare Scope fw_scope.
Delimit Scope fw_scope with fw.
#[global] Open Scope Z_scope.
#[global] Open Scope fw_scope.

(** ** Fixed-width integers

    [uN z] is the value of [z] after conversion to an unsigned N-bit type and
    [i32 z] after conversion to [int32_t] (two's complement; the firmware is
    built with wrapping signed arithmetic). *)

Definition u8 (z : Z) : Z := z mod 256.
Definition u16 (z : Z) : Z := z mod 65536.
Definition u32 (z : Z) : Z := z mod 4294967296.
Definition i32 (z : Z) : Z := (z + 2147483648) mod 4294967296 - 2147483648.

(** A byte and a string of bytes. *)
Definition is_byte (b : Z) : Prop := 0 <= b < 256.
Definition bytes_ok (l : list Z) : Prop := Forall is_byte l.

Lemma u8_range z : 0 <= u8 z < 256.
Proof. unfold u8; apply Z.mod_pos_bound; lia. Qed.

Lemma u16_range z : 0 <= u16 z < 65536.
Proof. unfold u16; apply Z.mod_pos_bound; lia. Qed.

Lemma u32_range z : 0 <= u32 z < 4294967296.
Proof. unfold u32; apply Z.mod_pos_bound; lia. Qed.

Lemma i32_range z : -2147483648 <= i32 z < 2147483648.
Proof.
  unfold i32.
  pose proof (Z.mod_pos_bound (z + 2147483648) 4294967296 ltac:(lia)); lia.
Qed.

Lemma u8_small z : 0 <= z < 256 -> u8 z = z.
Proof. apply Z.mod_small. Qed.

Lemma u16_small z : 0 <= z < 65536 -> u16 z = z.
Proof. apply Z.mod_small. Qed.

Lemma u32_small z : 0 <= z < 4294967296 -> u32 z = z.
Proof. apply Z.mod_small. Qed.

Lemma i32_small z : -2147483648 <= z < 2147483648 -> i32 z = z.
Proof. intros H; unfold i32; rewrite Z.mod_small; lia. Qed.

(** Wrapping below zero by less than the modulus. *)
Lemma u32_neg z : -4294967296 <= z < 0 -> u32 z = z + 4294967296.
Proof.
  intros H; unfold u32.
  rewrite <- (Z.mod_add z 1 4294967296) by lia.
  rewrite Z.mod_small; lia.
Qed.

Lemma u8_is_byte z : is_byte (u8 z).
Proof. apply u8_range. Qed.

Create HintDb fw.
Create Rewrite HintDb fw.
#[export] Hint Resolve u8_range u16_range u32_range i32_range u8_is_byte : fw.
#[export] Hint Rewrite u8_small u16_small u32_small i32_small using lia : fw.

(** ** C arrays

    An array object is the list of its elements.  Every access is checked:
    [None] stands for an access outside the object, which in C is undefined
    behaviour.  Theorems that a routine is memory safe say that the result
    is [Some]. *)

Definition zlen {A} (l : list A) : Z := Z.of_nat (length l).

Definition arr_get {A} (l : list A) (i : Z) : option A :=
  if 0 <=? i then l !! Z.to_nat i else None.

Definition arr_set {A} (l : list A) (i : Z) (x : A) : option (list A) :=
  if (0 <=? i) && (i <? zlen l) then Some (<[Z.to_nat i := x]> l) else None.

(** [memcpy (l + off, src, |src|)]. *)
Definition arr_blit {A} (l : list A) (off : Z) (src : list A) : option (list A) :=
  if (0 <=? off) && (off + zlen src <=? zlen l)
  then Some (take (Z.to_nat off) l ++ src ++ drop (Z.to_nat off + length src) l)
  else None.

(** The [len] elements from [off]. *)
Definition arr_slice {A} (l : list A) (off len : Z) : option (list A) :=
  if (0 <=? off) && (0 <=? len) && (off + len <=? zlen l)
  then Some (take (Z.to_nat len) (drop (Z.to_nat off) l))
  else None.

(** [memset (l + off, x, len)]. *)
Definition arr_fill {A} (l : list A) (off len : Z) (x : A) : option (list A) :=
  arr_blit l off (replicate (Z.to_nat len) x).

Lemma zlen_nonneg {A} (l : list A) : 0 <= zlen l.
Proof. unfold zlen; lia. Qed.

Lemma zlen_nil {A} : zlen (@nil A) = 0.
Proof. reflexivity. Qed.

Lemma zlen_cons {A} (x : A) l : zlen (x :: l) = 1 + zlen l.
Proof. unfold zlen; simpl; lia. Qed.

Lemma zlen_app {A} (l k : list A) : zlen (l ++ k) = zlen l + zlen k.
Proof. unfold zlen; rewrite length_app; lia. Qed.

Lemma zlen_take {A} (n : nat) (l : list A) : zlen (take n l) = Z.min (Z.of_nat n) (zlen l).
Proof. unfold zlen; rewrite length_take; lia. Qed.

Lemma zlen_drop {A} (n : nat) (l : list A) : zlen (drop n l) = Z.max 0 (zlen l - Z.of_nat n).
Proof. unfold zlen; rewrite length_drop; lia. Qed.

Lemma zlen_replicate {A} (n : nat) (x : A) : zlen (replicate n x) = Z.of_nat n.
Proof. unfold zlen; rewrite length_replicate; done. Qed.

Lemma zlen_insert {A} (n : nat) (x : A) l : zlen (<[n := x]> l) = zlen l.
Proof. unfold zlen; rewrite length_insert; done. Qed.

#[export] Hint Rewrite @zlen_nil @zlen_cons @zlen_app @zlen_take @zlen_drop
  @zlen_replicate @zlen_insert : fw.
#[export] Hint Resolve zlen_nonneg : fw.

Lemma arr_get_Some {A} (l : list A) i :
  0 <= i < zlen l -> is_Some (arr_get l i).
Proof.
  unfold arr_get, zlen; intros H.
  rewrite (proj2 (Z.leb_le _ _)) by lia.
  apply lookup_lt_is_Some_2; lia.
Qed.

Lemma arr_get_inv {A} (l : list A) i x :
  arr_get l i = Some x -> 0 <= i < zlen l /\ l !! Z.to_nat i = Some x.
Proof.
  unfold arr_get, zlen; destruct (Z.leb_spec 0 i); [|done].
  intros E; split; [|done]. apply lookup_lt_Some in E; lia.
Qed.

Lemma arr_set_Some {A} (l : list A) i x :
  0 <= i < zlen l -> arr_set l i x = Some (<[Z.to_nat i := x]> l).
Proof.
  unfold arr_set; intros H.
  rewrite (proj2 (Z.leb_le _ _)), (proj2 (Z.ltb_lt _ _)) by lia; done.
Qed.

Lemma arr_set_length {A} (l l' : list A) i x :
  arr_set l i x = Some l' -> zlen l' = zlen l.
Proof.
  unfold arr_set; destruct (_ && _); [|done].
  intros [= <-]; apply zlen_insert.
Qed.

Lemma arr_blit_Some {A} (l : list A) off src :
  0 <= off -> off + zlen src <= zlen l ->
  arr_blit l off src =
    Some (take (Z.to_nat off) l ++ src ++ drop (Z.to_nat off + length src) l).
Proof.
  intros H1 H2; unfold arr_blit.
  rewrite (proj2 (Z.leb_le 0 off)), (proj2 (Z.leb_le _ (zlen l))) by lia; done.
Qed.

Lemma arr_blit_overflow {A} (l : list A) off src : zlen l < off + zlen src -> arr_blit l off src = None.
Proof.
  intros H. unfold arr_blit. rewrite (proj2 (Z.leb_gt (off + zlen src) (zlen l))) by lia. by destruct (0 <=? off).
Qed.

Lemma arr_blit_length {A} (l l' : list A) off src :
  arr_blit l off src = Some l' -> zlen l' = zlen l.
Proof.
  unfold arr_blit. destruct (Z.leb_spec 0 off); [|done].
  destruct (Z.leb_spec (off + zlen src) (zlen l)); [|done].
  intros [= <-]. unfold zlen in *.
  rewrite !length_app, length_take, length_drop; lia.
Qed.

Lemma arr_slice_Some {A} (l : list A) off len :
  0 <= off -> 0 <= len -> off + len <= zlen l ->
  arr_slice l off len = Some (take (Z.to_nat len) (drop (Z.to_nat off) l)).
Proof.
  intros H1 H2 H3; unfold arr_slice.
  rewrite (proj2 (Z.leb_le 0 off)), (proj2 (Z.leb_le 0 len)),
    (proj2 (Z.leb_le _ (zlen l))) by lia; done.
Qed.

Lemma arr_slice_inv {A} (l : list A) off len s :
  arr_slice l off len = Some s ->
  0 <= off /\ 0 <= len /\ off + len <= zlen l /\
  s = take (Z.to_nat len) (drop (Z.to_nat off) l).
Proof.
  unfold arr_slice.
  destruct (Z.leb_spec 0 off); [|done].
  destruct (Z.leb_spec 0 len); [|done].
  destruct (Z.leb_spec (off + len) (zlen l)); [|done].
  intros [= <-]; auto.
Qed.

Lemma arr_slice_length {A} (l : list A) off len s :
  arr_slice l off len = Some s -> zlen s = len.
Proof.
  intros (H1 & H2 & H3 & ->)%arr_slice_inv.
  unfold zlen in *; rewrite length_take, length_drop; lia.
Qed.

(** Reading back what was just written. *)
Lemma arr_slice_blit {A} (l l' : list A) off src :
  arr_blit l off src = Some l' -> arr_slice l' off (zlen src) = Some src.
Proof.
  intros E. pose proof (arr_blit_length _ _ _ _ E) as HL.
  unfold arr_blit in E. destruct (Z.leb_spec 0 off); [|done].
  destruct (Z.leb_spec (off + zlen src) (zlen l)); [|done].
  rewrite arr_slice_Some by (unfold zlen in *; lia).
  injection E as <-. f_equal.
  assert (Hoff : length (take (Z.to_nat off) l) = Z.to_nat off)
    by (unfold zlen in *; rewrite length_take; lia).
  rewrite drop_app_length' by done.
  rewrite take_app_length'; [done|unfold zlen; lia].
Qed.

(** Reading inside the range that was written. *)
Lemma arr_slice_blit_in {A} (l l' : list A) off src o n :
  arr_blit l off src = Some l' -> 0 <= o -> 0 <= n -> o + n <= zlen src ->
  arr_slice l' (off + o) n = arr_slice src o n.
Proof.
  intros E Ho Hn Hon. pose proof (arr_blit_length _ _ _ _ E) as HL.
  unfold arr_blit in E. destruct (Z.leb_spec 0 off); [|done].
  destruct (Z.leb_spec (off + zlen src) (zlen l)); [|done]. injection E as E.
  rewrite !arr_slice_Some by lia. f_equal. rewrite <- E. unfold zlen in *.
  rewrite Z2Nat.inj_add, <- drop_drop by lia.
  rewrite drop_app_length' by (rewrite length_take; lia).
  rewrite drop_app_le, take_app_le by (rewrite ?length_drop; lia). done.
Qed.

(** A slice of a slice. *)
Lemma arr_slice_slice {A} (l s : list A) a m o n :
  arr_slice l a m = Some s -> 0 <= o -> 0 <= n -> o + n <= m ->
  arr_slice s o n = arr_slice l (a + o) n.
Proof.
  intros (Ha & Hm & Hlen & ->)%arr_slice_inv Ho Hn Hon. unfold zlen in *.
  rewrite !arr_slice_Some by (unfold zlen; rewrite ?length_take, ?length_drop; lia).
  f_equal. apply list_eq; intros i.
  destruct (decide (i < Z.to_nat n)%nat) as [Hi|Hi];
    [|rewrite !lookup_take_ge; [done|lia..]].
  rewrite !lookup_take_lt, !lookup_drop by lia.
  rewrite lookup_take_lt, lookup_drop by lia. f_equal; lia.
Qed.

Lemma arr_slice_lookup {A} (l s : list A) off n i :
  arr_slice l off n = Some s -> (i < Z.to_nat n)%nat -> s !! i = l !! (Z.to_nat off + i)%nat.
Proof.
  intros (Ha & Hm & Hlen & ->)%arr_slice_inv Hi.
  by rewrite lookup_take_lt, lookup_drop by lia.
Qed.

Lemma arr_slice_is_Some {A} (l : list A) off n :
  0 <= off -> 0 <= n -> off + n <= zlen l -> is_Some (arr_slice l off n).
Proof. intros; rewrite arr_slice_Some by lia; eauto. Qed.

(** A slice that does not meet the written range is unchanged. *)
Lemma arr_slice_blit_disj {A} (l l' : list A) off src off' len' :
  arr_blit l off src = Some l' ->
  off' + len' <= off \/ off + zlen src <= off' ->
  arr_slice l' off' len' = arr_slice l off' len'.
Proof.
  intros E Hd. pose proof (arr_blit_length _ _ _ _ E) as HL.
  unfold arr_slice; rewrite HL.
  destruct (Z.leb_spec 0 off'); [|done].
  destruct (Z.leb_spec 0 len'); [|done].
  destruct (Z.leb_spec (off' + len') (zlen l)); [|done]; simpl.
  unfold arr_blit in E. destruct (Z.leb_spec 0 off); [|done].
  destruct (Z.leb_spec (off + zlen src) (zlen l)); [|done].
  injection E as <-. f_equal. unfold zlen in *.
  assert (Hoff : length (take (Z.to_nat off) l) = Z.to_nat off)
    by (rewrite length_take; lia).
  apply list_eq; intros i.
  destruct (decide (i < Z.to_nat len')%nat) as [Hi|Hi];
    [|rewrite !lookup_take_ge; [done|lia..]].
  rewrite !lookup_take_lt, !lookup_drop by lia.
  destruct Hd as [Hd|Hd].
  - rewrite lookup_app_l, lookup_take_lt by lia; done.
  - rewrite lookup_app_r, lookup_app_r, lookup_drop by lia.
    f_equal; lia.
Qed.

(** Two adjacent slices. *)
Lemma arr_slice_split {A} (l a b : list A) off n m :
  arr_slice l off n = Some a -> arr_slice l (off + n) m = Some b ->
  arr_slice l off (n + m) = Some (a ++ b).
Proof.
  intros (H1 & H2 & H3 & ->)%arr_slice_inv (H4 & H5 & H6 & ->)%arr_slice_inv.
  rewrite arr_slice_Some by lia. f_equal.
  rewrite !Z2Nat.inj_add by lia. rewrite <- drop_drop, <- take_take_drop. done.
Qed.

Lemma arr_set_blit {A} (l : list A) i x : arr_set l i x = arr_blit l i [x].
Proof.
  unfold arr_set, arr_blit. change (zlen [x]) with 1.
  destruct (Z.leb_spec 0 i); [|done]. simpl.
  destruct (Z.ltb_spec i (zlen l)), (Z.leb_spec (i + 1) (zlen l)); try lia; [|done].
  f_equal. rewrite insert_take_drop by (unfold zlen in *; lia).
  simpl. by rewrite Nat.add_1_r.
Qed.

(** Writing over the middle part of a concatenation, and reading it. *)
Lemma arr_blit_app {A} (a b c s : list A) off :
  off = zlen a -> length b = length s -> arr_blit (a ++ b ++ c) off s = Some (a ++ s ++ c).
Proof.
  intros -> Hl. rewrite arr_blit_Some; rewrite ?zlen_app; unfold zlen; [|lia..].
  rewrite Nat2Z.id, take_app_length. f_equal. f_equal. f_equal.
  rewrite <- drop_drop, drop_app_length, <- Hl. apply drop_app_length.
Qed.

Lemma arr_slice_app {A} (a b c : list A) off n :
  off = zlen a -> n = zlen b -> arr_slice (a ++ b ++ c) off n = Some b.
Proof.
  intros -> ->. rewrite arr_slice_Some; rewrite ?zlen_app; unfold zlen; [|lia..].
  by rewrite !Nat2Z.id, drop_app_length, take_app_length.
Qed.

Lemma arr_get_app {A} (a c : list A) (x : A) off :
  off = zlen a -> arr_get (a ++ x :: c) off = Some x.
Proof.
  intros ->. unfold arr_get, zlen. rewrite (proj2 (Z.leb_le _ _)) by lia.
  by rewrite Nat2Z.id, list_lookup_middle.
Qed.

(** ** Ranges of integers *)

Section seqZ.
Context {A : Type}.
Implicit Types f g : Z -> A.

Lemma fmap_seqZ_ext f g a n :
  (forall k, a <= k < a + n -> f k = g k) -> f <$> seqZ a n = g <$> seqZ a n.
Proof.
  intros H. apply list_fmap_ext. intros i k Hk.
  apply lookup_seqZ in Hk as [-> Hi]. apply H. lia.
Qed.

Lemma fmap_seqZ_shift f a d n : f <$> seqZ (a + d) n = (fun k => f (k + d)) <$> seqZ a n.
Proof.
  rewrite Z.add_comm, <- fmap_add_seqZ, <- list_fmap_compose.
  apply fmap_seqZ_ext. intros k _. unfold compose. f_equal. lia.
Qed.

Lemma fmap_seqZ_app f a n m :
  0 <= n -> 0 <= m -> f <$> seqZ a (n + m) = (f <$> seqZ a n) ++ (f <$> seqZ (a + n) m).
Proof. intros. by rewrite seqZ_app, fmap_app by lia. Qed.

Lemma drop_fmap_seqZ f a n d :
  0 <= d <= n -> drop (Z.to_nat d) (f <$> seqZ a n) = f <$> seqZ (a + d) (n - d).
Proof.
  intros H. replace n with (d + (n - d)) at 1 by lia.
  rewrite fmap_seqZ_app by lia. rewrite drop_app_length'; [done|].
  rewrite length_fmap, length_seqZ. done.
Qed.

Lemma fmap_seqZ_S f a n :
  0 <= n -> f <$> seqZ a (n + 1) = (f <$> seqZ a n) ++ [f (a + n)].
Proof. intros. rewrite fmap_seqZ_app by lia. done. Qed.
End seqZ.

(** ** C strings

    A NUL-terminated string is the list of its characters before the NUL. *)

Definition char_code (c : ascii) : Z := Z.of_nat (nat_of_ascii c).

Fixpoint cstr (s : string) : list Z :=
  match s with
  | EmptyString => []
  | String c s' => char_code c :: cstr s'
  end.

(** [isdigit]; the range tests the sources write out by hand are the same. *)
Definition is_digit (c : Z) : bool := (48 <=? c) && (c <=? 57).

Lemma is_digit_spec c : is_digit c = true <-> 48 <= c <= 57.
Proof. unfold is_digit; rewrite andb_true_iff, !Z.leb_le; lia. Qed.

(** ** Automation *)

(** Case analysis on the boolean comparison under a match or an [if] of the
    goal, with its [Prop] meaning in the context. *)
Ltac zcase :=
  match goal with
  | |- context [if (?a <=? ?b) then _ else _] => destruct (Z.leb_spec a b)
  | |- context [if (?a <? ?b) then _ else _] => destruct (Z.ltb_spec a b)
  | |- context [if (?a =? ?b) then _ else _] => destruct (Z.eqb_spec a b)
  end.

Ltac zcase_in H :=
  match type of H with
  | context [if (?a <=? ?b) then _ else _] => destruct (Z.leb_spec a b)
  | context [if (?a <? ?b) then _ else _] => destruct (Z.ltb_spec a b)
  | context [if (?a =? ?b) then _ else _] => destruct (Z.eqb_spec a b)
  end.

(** Turn boolean hypotheses into linear arithmetic and close the goal. *)
Ltac bool2prop :=
  repeat match goal with
  | H : _ && _ = true |- _ => apply andb_true_iff in H as [? ?]
  | H : _ || _ = false |- _ => apply orb_false_iff in H as [? ?]
  | H : negb _ = true |- _ => apply negb_true_iff in H
  | H : negb _ = false |- _ => apply negb_false_iff in H
  | H : (_ <=? _) = true |- _ => apply Z.leb_le in H
  | H : (_ <=? _) = false |- _ => apply Z.leb_gt in H
  | H : (_ <? _) = true |- _ => apply Z.ltb_lt in H
  | H : (_ <? _) = false |- _ => apply Z.ltb_ge in H
  | H : (_ =? _) = true |- _ => apply Z.eqb_eq in H
  | H : (_ =? _) = false |- _ => apply Z.eqb_neq in H
  end.

Ltac fw := autorewrite with fw in *; try done; try lia.

(** [mod] as a case split, for indices that wrap at most once. *)
Lemma mod_once a n : 0 <= a < 2 * n -> a mod n = if a <? n then a else a - n.
Proof.
  intros H. zcase.
  - apply Z.mod_small; lia.
  - rewrite <- (Z.mod_add a (-1) n) by lia. rewrite Z.mod_small; lia.
Qed.

(** A 16-bit number from its two bytes. *)
Lemma land_255 z : Z.land z 255 = z mod 256.
Proof. change 255 with (Z.ones 8). by rewrite Z.land_ones. Qed.

Lemma split_u16 c : 0 <= c < 65536 -> u16 (Z.lor (Z.shiftl (u8 (Z.shiftr c 8)) 8) (Z.land c 255)) = c.
Proof.
  intros Hc. unfold u8. rewrite Z.shiftr_div_pow2 by lia. change (2 ^ 8) with 256.
  rewrite (Z.mod_small (c / 256))
    by (split; [apply Z.div_pos|apply Z.div_lt_upper_bound]; lia).
  rewrite land_255, Z.shiftl_mul_pow2 by lia. change (2 ^ 8) with 256.
  assert (Hz : Z.land (c / 256 * 256) (c mod 256) = 0).
  { change 256 with (2 ^ 8) at 2. rewrite <- Z.shiftl_mul_pow2 by lia.
    apply Z.bits_inj'. intros n Hn. rewrite Z.land_spec, Z.bits_0.
    destruct (Z.ltb_spec n 8).
    - rewrite Z.shiftl_spec_low by lia. done.
    - change 256 with (2 ^ 8). rewrite Z.mod_pow2_bits_high by lia. apply andb_false_r. }
  pose proof (Z.add_lor_land (c / 256 * 256) (c mod 256)) as Ha. rewrite Hz in Ha.
  pose proof (Z.div_mod c 256 ltac:(lia)). unfold u16. rewrite Z.mod_small; lia.
Qed.
