(* ===== verification/RingBuf.v ===== *)
(** * The UART ring buffer ([src/my_ring_buf.c], [inc/my_ring_buf.h])

    A single-producer single-consumer byte queue: the UART receive callback
    writes, the module's thread reads.  One slot is kept free so that
    [head = tail] means empty.  The file gives the sequential operations, the
    byte queue they implement, and the interleaving semantics of one producer
    and one consumer. *)

From S2P Require Import Prelude.

(** The structure [ring_buffer_t]; [buf] is the array the [buf] pointer names. *)
Record ring_buffer_t := mk_rb {
  head : Z;
  tail : Z;
  buf : list Z;
  size : Z
}.

(** [(i + 1) % rb->size] on [uint32_t]; [None] is the division by zero. *)
Definition next_index (rb : ring_buffer_t) (i : Z) : option Z :=
  if size rb =? 0 then None else Some (u32 (i + 1) mod size rb).

(** [my_rb_init]: a null pointer is [None]. *)
Definition my_rb_init (rb : option ring_buffer_t) (b : option (list Z)) (sz : Z)
  : option ring_buffer_t * Z :=
  match rb, b with
  | Some _, Some arr =>
      if sz <? 2 then (rb, -1) else (Some (mk_rb 0 0 arr sz), 0)
  | _, _ => (rb, -1)
  end.

Definition my_rb_clear (rb : option ring_buffer_t) : option ring_buffer_t :=
  match rb with
  | None => None
  | Some r => Some (mk_rb 0 0 (buf r) (size r))
  end.

(** The [while (written < len)] loop; [n] is [len - written]. *)
Fixpoint write_loop (n : nat) (rb : ring_buffer_t) (data : list Z) (written : Z)
  : option (ring_buffer_t * Z) :=
  match n with
  | O => Some (rb, written)
  | S n' =>
      next_head ← next_index rb (head rb);
      if next_head =? tail rb then Some (rb, written)
      else
        c ← arr_get data written;
        b ← arr_set (buf rb) (head rb) c;
        write_loop n' (mk_rb next_head (tail rb) b (size rb)) data (u32 (written + 1))
  end.

Definition my_rb_write (rb : ring_buffer_t) (data : list Z) (len : Z)
  : option (ring_buffer_t * Z) :=
  '(rb', written) ← write_loop (Z.to_nat len) rb data 0;
  Some (rb', i32 written).

(** The [while (read < len)] loop; [n] is [len - read]. *)
Fixpoint read_loop (n : nat) (rb : ring_buffer_t) (data : list Z) (read : Z)
  : option (ring_buffer_t * list Z * Z) :=
  match n with
  | O => Some (rb, data, read)
  | S n' =>
      if head rb =? tail rb then Some (rb, data, read)
      else
        c ← arr_get (buf rb) (tail rb);
        data' ← arr_set data read c;
        next_tail ← next_index rb (tail rb);
        read_loop n' (mk_rb (head rb) next_tail (buf rb) (size rb)) data' (u32 (read + 1))
  end.

Definition my_rb_read (rb : ring_buffer_t) (data : list Z) (len : Z)
  : option (ring_buffer_t * list Z * Z) :=
  '(rb', data', read) ← read_loop (Z.to_nat len) rb data 0;
  Some (rb', data', i32 read).

Definition my_rb_get_used_size (rb : option ring_buffer_t) : option Z :=
  match rb with
  | None => Some 0
  | Some r =>
      if size r =? 0 then None
      else Some (u32 (u32 (head r - tail r) + size r) mod size r)
  end.

Definition my_rb_get_free_size (rb : option ring_buffer_t) : option Z :=
  match rb with
  | None => Some 0
  | Some r =>
      used ← my_rb_get_used_size (Some r);
      Some (u32 (u32 (size r - 1) - used))
  end.

(** ** The abstract queue *)

(** Well-formedness.  The bound on [size] is what [my_rb_get_used_size] needs
    for [head - tail + size] not to wrap; the firmware's buffers are a few
    kilobytes. *)
Record rb_ok (rb : ring_buffer_t) : Prop := {
  ok_size : 2 <= size rb <= 2147483648;
  ok_buf : zlen (buf rb) = size rb;
  ok_head : 0 <= head rb < size rb;
  ok_tail : 0 <= tail rb < size rb
}.

Definition cell (rb : ring_buffer_t) (i : Z) : Z :=
  default 0 (buf rb !! Z.to_nat (i mod size rb)).

Definition used (rb : ring_buffer_t) : Z := (head rb - tail rb) mod size rb.

(** The queued bytes, oldest first. *)
Definition contents (rb : ring_buffer_t) : list Z :=
  cell rb <$> seqZ (tail rb) (used rb).

Section lemmas.
Implicit Types rb : ring_buffer_t.

Lemma used_cases rb :
  rb_ok rb ->
  used rb = if tail rb <=? head rb then head rb - tail rb
            else head rb - tail rb + size rb.
Proof.
  intros [Hs Hb Hh Ht]; unfold used. zcase.
  - apply Z.mod_small; lia.
  - rewrite <- (Z.mod_add _ 1) by lia. rewrite Z.mod_small; lia.
Qed.

Lemma used_range rb : rb_ok rb -> 0 <= used rb < size rb.
Proof. intros [Hs _ _ _]; apply Z.mod_pos_bound; lia. Qed.

Lemma next_index_eq rb i :
  rb_ok rb -> 0 <= i < size rb ->
  next_index rb i = Some (if i + 1 =? size rb then 0 else i + 1).
Proof.
  intros [Hs _ _ _] Hi; unfold next_index.
  destruct (Z.eqb_spec (size rb) 0); [lia|]. f_equal.
  rewrite u32_small by lia. zcase.
  - rewrite e; apply Z.mod_same; lia.
  - apply Z.mod_small; lia.
Qed.

Lemma zlen_contents rb : rb_ok rb -> zlen (contents rb) = used rb.
Proof.
  intros H; unfold contents, zlen; rewrite length_fmap, length_seqZ.
  pose proof (used_range rb H); lia.
Qed.

Lemma contents_nil rb : rb_ok rb -> head rb = tail rb -> contents rb = [].
Proof.
  intros H E. unfold contents, used. rewrite E, Z.sub_diag.
  by rewrite Z.mod_0_l by (destruct H; lia).
Qed.

(** The slot the producer fills is not one the consumer can see. *)
Lemma cell_disj rb i :
  rb_ok rb -> 0 <= i < used rb -> (tail rb + i) mod size rb <> head rb.
Proof.
  intros H Hi. pose proof (used_cases rb H) as Hu. destruct H as [Hs Hb Hh Ht].
  rewrite mod_once by (revert Hu; zcase; lia).
  revert Hu; zcase; zcase; lia.
Qed.

(** Storing at [head] leaves the queued bytes alone. *)
Lemma contents_store rb c :
  rb_ok rb ->
  contents (mk_rb (head rb) (tail rb) (<[Z.to_nat (head rb) := c]> (buf rb)) (size rb))
  = contents rb.
Proof.
  intros H. unfold contents; simpl. apply list_fmap_ext; intros k x Hk.
  apply lookup_seqZ in Hk as [-> Hk].
  unfold cell; simpl. f_equal. apply list_lookup_insert_ne.
  intros E. apply (cell_disj rb (Z.of_nat k) H); [unfold used in *; simpl in *; lia|].
  assert (0 <= (tail rb + Z.of_nat k) mod size rb) by (apply Z.mod_pos_bound; destruct H; lia).
  destruct H; lia.
Qed.

(** Publishing the new head appends the stored byte. *)
Lemma contents_publish rb c nh :
  rb_ok rb -> next_index rb (head rb) = Some nh -> nh <> tail rb ->
  buf rb !! Z.to_nat (head rb) = Some c ->
  contents (mk_rb nh (tail rb) (buf rb) (size rb)) = contents rb ++ [c] /\
  rb_ok (mk_rb nh (tail rb) (buf rb) (size rb)) /\ used rb < size rb - 1.
Proof.
  intros H Hn Hne Hc.
  rewrite next_index_eq in Hn by auto using ok_head, ok_tail. injection Hn as <-.
  pose proof (used_cases rb H) as Hu.
  set (rb' := mk_rb _ _ _ _).
  assert (H' : rb_ok rb').
  { destruct H; split; simpl; auto. zcase; lia. }
  assert (Hu' : used rb' = used rb + 1).
  { rewrite (used_cases rb' H'), Hu; simpl. destruct H.
    revert Hne; zcase; zcase; zcase; lia. }
  pose proof (used_range rb H). pose proof (used_range rb' H') as Hr'.
  split; [|split; [exact H'|simpl in Hr'; lia]].
  unfold contents. rewrite Hu'. replace (tail rb') with (tail rb) by done.
  rewrite seqZ_app, fmap_app by lia. f_equal.
  replace 1 with (Z.succ 0) by lia.
  rewrite seqZ_cons by lia. cbn -[Z.add Z.modulo]. f_equal.
  unfold cell; simpl.
  replace ((tail rb + used rb) mod size rb) with (head rb); [by rewrite Hc|].
  destruct H. rewrite mod_once by lia. revert Hu; zcase; zcase; lia.
Qed.

(** Reading the oldest byte and advancing the tail. *)
Lemma contents_pop rb :
  rb_ok rb -> head rb <> tail rb ->
  exists c nt,
    arr_get (buf rb) (tail rb) = Some c /\
    next_index rb (tail rb) = Some nt /\
    contents rb = c :: contents (mk_rb (head rb) nt (buf rb) (size rb)) /\
    rb_ok (mk_rb (head rb) nt (buf rb) (size rb)).
Proof.
  intros H Hne.
  destruct (arr_get_Some (buf rb) (tail rb)) as [c Hc]; [destruct H; lia|].
  exists c. rewrite next_index_eq by auto using ok_head, ok_tail.
  eexists; split; [done|]; split; [done|].
  set (rb' := mk_rb _ _ _ _).
  assert (H' : rb_ok rb').
  { destruct H; split; simpl; auto. zcase; lia. }
  split; [|exact H'].
  assert (Hu : used rb = used rb' + 1).
  { rewrite (used_cases rb H), (used_cases rb' H'); simpl. destruct H.
    zcase; zcase; zcase; lia. }
  unfold contents. pose proof (used_range rb' H').
  rewrite Hu. replace (used rb' + 1) with (Z.succ (used rb')) by lia.
  rewrite seqZ_cons by lia. cbn [fmap list_fmap]. rewrite Z.pred_succ. f_equal.
  - apply arr_get_inv in Hc as [_ Hc]. unfold cell.
    rewrite Z.mod_small by (destruct H; lia). by rewrite Hc.
  - apply list_eq; intros k. rewrite !list_lookup_fmap.
    destruct (decide (Z.of_nat k < used rb')) as [Hk|Hk].
    + rewrite !lookup_seqZ_lt by lia. simpl. f_equal. unfold cell; simpl.
      do 3 f_equal. destruct H. zcase.
      * replace (Z.succ (tail rb) + Z.of_nat k) with (0 + Z.of_nat k + 1 * size rb) by lia.
        by rewrite Z.mod_add by lia.
      * f_equal; lia.
    + rewrite !lookup_seqZ_ge by lia. done.
Qed.

Lemma write_loop_spec n rb data w :
  rb_ok rb -> 0 <= w -> w + Z.of_nat n <= zlen data ->
  zlen data < 4294967296 ->
  exists rb' k,
    write_loop n rb data w = Some (rb', w + Z.of_nat k) /\
    rb_ok rb' /\ size rb' = size rb /\
    Z.of_nat k = Z.min (Z.of_nat n) (size rb - 1 - used rb) /\
    contents rb' = contents rb ++ take k (drop (Z.to_nat w) data).
Proof.
  revert rb w; induction n as [|n IH]; intros rb w H Hw Hlen Hmax.
  { exists rb, 0%nat. simpl. pose proof (used_range rb H).
    rewrite app_nil_r, Z.add_0_r. repeat (split; [done|]). split; [lia|done]. }
  cbn [write_loop].
  destruct (next_index rb (head rb)) as [nh|] eqn:Hn;
    [|rewrite next_index_eq in Hn by auto using ok_head, ok_tail; done].
  simpl. destruct (Z.eqb_spec nh (tail rb)) as [E|E].
  { exists rb, 0%nat. rewrite Z.add_0_r, app_nil_r.
    pose proof (used_cases rb H) as Hu.
    rewrite next_index_eq in Hn by auto using ok_head, ok_tail. injection Hn as Hn.
    split; [done|]. split; [done|]. split; [done|]. split; [|done].
    destruct H. revert Hu Hn; zcase; zcase; lia. }
  destruct (arr_get_Some data w) as [c Hc]; [lia|]. rewrite Hc; simpl.
  rewrite arr_set_Some by (destruct H; lia). simpl.
  set (st := mk_rb (head rb) (tail rb) (<[Z.to_nat (head rb):=c]> (buf rb)) (size rb)).
  assert (Hst : rb_ok st).
  { destruct H; split; simpl; auto. by rewrite zlen_insert. }
  destruct (contents_publish st c nh) as (Hct & Hok & Hfree); auto.
  { simpl. apply list_lookup_insert_eq. destruct H; unfold zlen in *; lia. }
  simpl in Hct, Hok.
  rewrite u32_small by lia.
  destruct (IH _ (w + 1) Hok) as (rb' & k & E1 & E2 & E3 & E4 & E5); [lia..|].
  exists rb', (S k). rewrite E1. split; [f_equal; f_equal; lia|].
  split; [done|]. split; [done|].
  pose proof (used_range st Hst) as Hur.
  assert (Hus : used st = used rb) by done. simpl in E4, Hfree, Hur.
  split.
  - rewrite <- (zlen_contents _ Hok), Hct, zlen_app, (zlen_contents st Hst), Hus in E4.
    rewrite zlen_cons, zlen_nil in E4. rewrite Hus in Hfree. lia.
  - rewrite E5, Hct. unfold st. rewrite contents_store by done.
    rewrite <- app_assoc. f_equal. simpl.
    apply arr_get_inv in Hc as [_ Hc].
    rewrite (drop_S data c (Z.to_nat w)) by exact Hc.
    replace (Z.to_nat (w + 1)) with (S (Z.to_nat w)) by lia. done.
Qed.

Lemma rb_read_loop_spec n rb data r :
  rb_ok rb -> 0 <= r -> r + Z.of_nat n <= zlen data ->
  zlen data < 4294967296 ->
  exists rb' data' k,
    read_loop n rb data r = Some (rb', data', r + Z.of_nat k) /\
    rb_ok rb' /\ size rb' = size rb /\
    Z.of_nat k = Z.min (Z.of_nat n) (used rb) /\
    contents rb' = drop k (contents rb) /\
    arr_blit data r (take k (contents rb)) = Some data'.
Proof.
  revert rb data r; induction n as [|n IH]; intros rb data r H Hr Hlen Hmax.
  { exists rb, data, 0%nat. simpl. pose proof (used_range rb H).
    rewrite Z.add_0_r. repeat (split; [done|]). split; [lia|]. split; [done|].
    rewrite take_0, arr_blit_Some by (rewrite ?zlen_nil; lia).
    simpl. rewrite Nat.add_0_r, take_drop. done. }
  cbn [read_loop]. destruct (Z.eqb_spec (head rb) (tail rb)) as [E|E].
  { exists rb, data, 0%nat. rewrite Z.add_0_r. pose proof (zlen_contents rb H) as Hz.
    rewrite contents_nil, zlen_nil in Hz by done.
    rewrite contents_nil by done.
    repeat (split; [done|]). split; [lia|]. split; [done|].
    rewrite take_nil, arr_blit_Some by (rewrite ?zlen_nil; lia).
    simpl. rewrite Nat.add_0_r, take_drop. done. }
  destruct (contents_pop rb H E) as (c & nt & Hc & Hn & Hct & Hok).
  rewrite Hc; simpl. rewrite arr_set_Some by lia; simpl. rewrite Hn; simpl.
  rewrite u32_small by lia.
  destruct (IH _ (<[Z.to_nat r:=c]> data) (r + 1) Hok)
    as (rb' & data' & k & E1 & E2 & E3 & E4 & E5 & E6);
    [lia|rewrite zlen_insert; lia|rewrite zlen_insert; lia|].
  exists rb', data', (S k). rewrite E1. split; [f_equal; f_equal; lia|].
  split; [done|]. split; [done|].
  pose proof (zlen_contents rb H) as Hz. rewrite Hct, zlen_cons, (zlen_contents _ Hok) in Hz.
  split; [lia|]. rewrite Hct. split; [done|].
  simpl. rewrite <- E6. assert (Hk : Z.of_nat k <= Z.of_nat n) by lia.
  set (cs := take k _). assert (Hcs : zlen cs <= Z.of_nat n)
    by (unfold cs; rewrite zlen_take; lia).
  rewrite !arr_blit_Some by (rewrite ?zlen_cons, ?zlen_insert; lia).
  f_equal. simpl length.
  rewrite Z2Nat.inj_add by lia. rewrite Nat.add_1_r.
  rewrite (take_S_r _ _ c) by (apply list_lookup_insert_eq; unfold zlen in *; lia).
  rewrite take_insert_ge, drop_insert_lt by lia.
  rewrite <- app_assoc. simpl. do 3 f_equal. f_equal; lia.
Qed.
End lemmas.

(** ** The queue specification and its refinement *)

(** A bounded byte queue: a write takes the longest prefix that fits, a read
    takes the oldest bytes. *)
Definition queue_write (cap : Z) (q data : list Z) : list Z * Z :=
  let n := Z.min (zlen data) (cap - zlen q) in
  (q ++ take (Z.to_nat n) data, n).

Definition queue_read (q : list Z) (len : Z) : list Z * list Z :=
  (take (Z.to_nat len) q, drop (Z.to_nat len) q).

Definition sample_rb : ring_buffer_t := mk_rb 3 2 [10; 11; 12; 13] 4.

Lemma sample_rb_ok : rb_ok sample_rb.
Proof. split; vm_compute; repeat split; discriminate. Qed.

Lemma rb_write_spec rb data :
  rb_ok rb -> zlen data < 2147483648 ->
  exists rb',
    my_rb_write rb data (zlen data) =
      Some (rb', (queue_write (size rb - 1) (contents rb) data).2) /\
    rb_ok rb' /\ size rb' = size rb /\
    contents rb' = (queue_write (size rb - 1) (contents rb) data).1.
Proof.
  intros H Hd. pose proof (zlen_nonneg data). pose proof (used_range rb H).
  destruct (write_loop_spec (Z.to_nat (zlen data)) rb data 0)
    as (rb' & k & E1 & E2 & E3 & E4 & E5); [done|lia..|].
  exists rb'. unfold my_rb_write, queue_write; simpl. rewrite E1; simpl.
  rewrite (zlen_contents rb H). rewrite Z2Nat.id in E4 by lia.
  rewrite i32_small by lia. rewrite <- E4, Nat2Z.id. rewrite Z.add_0_l. done.
Qed.

(** [my_rb_write] implements the bounded queue: on a well-formed ring it
    never leaves the array, it stays well-formed, it returns the number of
    bytes stored and the queue grows by exactly that prefix of the data. *)
Theorem my_rb_write_refines rb data :
  rb_ok rb -> zlen data < 2147483648 ->
  exists rb',
    my_rb_write rb data (zlen data) =
      Some (rb', (queue_write (size rb - 1) (contents rb) data).2) /\
    rb_ok rb' /\ size rb' = size rb /\
    contents rb' = (queue_write (size rb - 1) (contents rb) data).1.
Proof. exact (rb_write_spec rb data). Qed.

Lemma my_rb_write_refines_witness :
  exists rb', my_rb_write sample_rb [20; 21; 22] 3 = Some (rb', 2) /\ contents rb' = [12; 20; 21].
Proof.
  destruct (my_rb_write_refines sample_rb [20; 21; 22] sample_rb_ok eq_refl)
    as (rb' & E & _ & _ & C).
  exists rb'. split; [exact E | exact C].
Defined.

Lemma rb_read_spec rb data len :
  rb_ok rb -> 0 <= len <= zlen data -> zlen data < 2147483648 ->
  exists rb',
    my_rb_read rb data len =
      Some (rb', (queue_read (contents rb) len).1
                   ++ drop (length (queue_read (contents rb) len).1) data,
            zlen (queue_read (contents rb) len).1) /\
    rb_ok rb' /\ size rb' = size rb /\
    contents rb' = (queue_read (contents rb) len).2.
Proof.
  intros H Hl Hd. pose proof (used_range rb H).
  destruct (rb_read_loop_spec (Z.to_nat len) rb data 0)
    as (rb' & data' & k & E1 & E2 & E3 & E4 & E5 & E6); [done|lia..|].
  exists rb'. unfold my_rb_read, queue_read; simpl. rewrite E1; simpl.
  pose proof (zlen_contents rb H) as Hz.
  assert (Ht : take k (contents rb) = take (Z.to_nat len) (contents rb)).
  { destruct (decide (Z.of_nat k = len)); [f_equal; lia|].
    rewrite !take_ge; [done|unfold zlen in Hz; lia..]. }
  assert (Hdr : drop k (contents rb) = drop (Z.to_nat len) (contents rb)).
  { destruct (decide (Z.of_nat k = len)); [f_equal; lia|].
    rewrite !drop_ge; [done|unfold zlen in Hz; lia..]. }
  rewrite arr_blit_Some in E6 by (rewrite ?zlen_take; lia). injection E6 as <-.
  rewrite <- Ht, <- Hdr. simpl. rewrite zlen_take, Hz, i32_small by lia.
  split; [|done]. do 2 f_equal. lia.
Qed.

(** [my_rb_read] implements the read of the bounded queue: the oldest
    [min len used] bytes are copied to the front of the caller's array, the
    rest of the array is untouched and exactly those bytes leave the queue. *)
Theorem my_rb_read_refines rb data len :
  rb_ok rb -> 0 <= len <= zlen data -> zlen data < 2147483648 ->
  exists rb',
    my_rb_read rb data len =
      Some (rb', (queue_read (contents rb) len).1
                   ++ drop (length (queue_read (contents rb) len).1) data,
            zlen (queue_read (contents rb) len).1) /\
    rb_ok rb' /\ size rb' = size rb /\
    contents rb' = (queue_read (contents rb) len).2.
Proof. exact (rb_read_spec rb data len). Qed.

Lemma my_rb_read_refines_witness :
  exists rb', my_rb_read (mk_rb 1 2 [20; 21; 12; 13] 4) [0; 0; 0; 0] 2 =
    Some (rb', [12; 13; 0; 0], 2) /\ contents rb' = [20].
Proof.
  destruct (my_rb_read_refines (mk_rb 1 2 [20; 21; 12; 13] 4) [0; 0; 0; 0] 2)
    as (rb' & E & _ & _ & C).
  - split; vm_compute; repeat split; discriminate.
  - vm_compute; split; discriminate.
  - reflexivity.
  - exists rb'. split; [exact E | exact C].
Defined.

(** The two size queries agree with the queue: the used size is the number
    of queued bytes and the free size is what a write can still take, although
    [head - tail + size] is computed on [uint32_t]. *)
Theorem my_rb_sizes_exact rb :
  rb_ok rb ->
  my_rb_get_used_size (Some rb) = Some (zlen (contents rb)) /\
  my_rb_get_free_size (Some rb) = Some (size rb - 1 - zlen (contents rb)).
Proof.
  intros H. assert (E : my_rb_get_used_size (Some rb) = Some (used rb)).
  { pose proof (used_cases rb H) as Hu. unfold my_rb_get_used_size.
    destruct H. destruct (Z.eqb_spec (size rb) 0); [lia|]. f_equal.
    revert Hu; zcase; intros ->.
    - rewrite (u32_small (_ - _)), u32_small by lia.
      rewrite mod_once by lia. zcase; lia.
    - rewrite (u32_neg (_ - _)) by lia.
      replace (head rb - tail rb + 4294967296 + size rb)
        with (head rb - tail rb + size rb + 1 * 4294967296) by lia.
      unfold u32. rewrite Z.mod_add, (Z.mod_small _ 4294967296), Z.mod_small by lia. lia. }
  unfold my_rb_get_free_size. rewrite E; simpl. rewrite (zlen_contents rb H).
  pose proof (used_range rb H). split; [done|].
  destruct H. rewrite (u32_small (size rb - 1)), u32_small by lia. done.
Qed.

Lemma my_rb_sizes_exact_witness :
  my_rb_get_used_size (Some (mk_rb 1 3 [0; 0; 0; 0] 4)) = Some 2 /\
  my_rb_get_free_size (Some (mk_rb 1 3 [0; 0; 0; 0] 4)) = Some 1.
Proof.
  apply (my_rb_sizes_exact (mk_rb 1 3 [0; 0; 0; 0] 4)).
  split; vm_compute; repeat split; discriminate.
Defined.

(** ** One producer and one consumer

    The receive callback runs [my_rb_write] while the thread runs
    [my_rb_read].  The statements of the two loop bodies that touch shared
    memory are the steps; they interleave in any order. *)
Module Spsc.

Inductive prod_pc :=
  | PIdle                       (* before the full test *)
  | PChecked (next c : Z)       (* the test passed, the byte is not stored *)
  | PStored (next c : Z).       (* the byte is in [buf], [head] not moved *)

Inductive cons_pc :=
  | CIdle                       (* before the empty test *)
  | CChecked                    (* the queue was not empty *)
  | CLoaded (c : Z).            (* the byte was read, [tail] not moved *)

Record state := mk_st {
  rb : ring_buffer_t;
  ppc : prod_pc;
  cpc : cons_pc;
  produced : list Z;            (* bytes whose write has completed *)
  consumed : list Z             (* bytes whose read has completed *)
}.

Inductive step : state -> state -> Prop :=
  | p_check r k P C next c :
      next_index r (head r) = Some next -> next <> tail r ->
      step (mk_st r PIdle k P C) (mk_st r (PChecked next c) k P C)
  | p_store r k P C next c b :
      arr_set (buf r) (head r) c = Some b ->
      step (mk_st r (PChecked next c) k P C)
           (mk_st (mk_rb (head r) (tail r) b (size r)) (PStored next c) k P C)
  | p_publish r k P C next c :
      step (mk_st r (PStored next c) k P C)
           (mk_st (mk_rb next (tail r) (buf r) (size r)) PIdle k (P ++ [c]) C)
  | c_check r p P C :
      head r <> tail r ->
      step (mk_st r p CIdle P C) (mk_st r p CChecked P C)
  | c_load r p P C c :
      arr_get (buf r) (tail r) = Some c ->
      step (mk_st r p CChecked P C) (mk_st r p (CLoaded c) P C)
  | c_publish r p P C c next :
      next_index r (tail r) = Some next ->
      step (mk_st r p (CLoaded c) P C)
           (mk_st (mk_rb (head r) next (buf r) (size r)) p CIdle P (C ++ [c])).

Definition prod_inv (r : ring_buffer_t) (p : prod_pc) : Prop :=
  match p with
  | PIdle => True
  | PChecked next _ => next_index r (head r) = Some next /\ next <> tail r
  | PStored next c =>
      next_index r (head r) = Some next /\ next <> tail r /\
      buf r !! Z.to_nat (head r) = Some c
  end.

Definition cons_inv (r : ring_buffer_t) (k : cons_pc) : Prop :=
  match k with
  | CIdle => True
  | CChecked => head r <> tail r
  | CLoaded c => head r <> tail r /\ arr_get (buf r) (tail r) = Some c
  end.

Record inv (s : state) : Prop := {
  inv_ok : rb_ok (rb s);
  inv_prod : prod_inv (rb s) (ppc s);
  inv_cons : cons_inv (rb s) (cpc s);
  inv_fifo : produced s = consumed s ++ contents (rb s)
}.

(** The consumer's step does not make the ring full. *)
Lemma not_full_pop r next nt :
  rb_ok r -> head r <> tail r ->
  next_index r (head r) = Some next -> next <> tail r ->
  next_index r (tail r) = Some nt -> next <> nt.
Proof.
  intros H Hne. rewrite !next_index_eq by auto using ok_head, ok_tail.
  intros [= <-] _ [= <-]. destruct H. repeat zcase; lia.
Qed.

Lemma spsc_step_inv s s' : inv s -> step s s' -> inv s'.
Proof.
  intros [Hok Hp Hc Hf] Hs.
  destruct Hs as [r k P C next c Hn Hne|r k P C next c b Hb|r k P C next c
                 |r p P C Hne|r p P C c Hg|r p P C c next Hn]; simpl in *.
  - split; simpl; auto.
  - destruct Hp as [Hn Hne].
    rewrite arr_set_Some in Hb by (destruct Hok; lia). injection Hb as <-.
    assert (Hlt : (Z.to_nat (head r) < length (buf r))%nat)
      by (destruct Hok; unfold zlen in *; lia).
    split; simpl.
    + destruct Hok; split; simpl; auto. by rewrite zlen_insert.
    + split; [done|split; [done|]]. by apply list_lookup_insert_eq.
    + destruct k as [| |v]; simpl in *; auto. destruct Hc as [Hc1 Hc2].
      split; [done|]. apply arr_get_inv in Hc2 as [Hi Hc2]. unfold arr_get.
      rewrite (proj2 (Z.leb_le _ _)) by lia.
      rewrite list_lookup_insert_ne by (destruct Hok; lia). done.
    + by rewrite contents_store.
  - destruct Hp as (Hn & Hne & Hcell).
    destruct (contents_publish r c next Hok Hn Hne Hcell) as (Hct & Hok' & _).
    split; simpl; auto.
    + destruct k as [| |v]; simpl in *; auto; destruct Hc; auto.
    + rewrite Hct, Hf, app_assoc. done.
  - split; simpl; auto.
  - split; simpl; auto.
  - destruct Hc as [Hne Hg].
    destruct (contents_pop r Hok Hne) as (c' & nt & Hg' & Hn' & Hct & Hok').
    rewrite Hg in Hg'; injection Hg' as <-. rewrite Hn in Hn'; injection Hn' as <-.
    split; simpl; auto.
    + destruct p as [|n0 c0|n0 c0]; simpl in *; auto.
      * destruct Hp as [Hp1 Hp2]; split; [done|]. eapply (not_full_pop r); eauto.
      * destruct Hp as (Hp1 & Hp2 & Hp3). split; [done|split; [|done]].
        eapply (not_full_pop r); eauto.
    + rewrite Hf, Hct, <- app_assoc. done.
Qed.

Definition initial (s : state) : Prop :=
  rb_ok (rb s) /\ contents (rb s) = [] /\ ppc s = PIdle /\ cpc s = CIdle /\
  produced s = [] /\ consumed s = [].

Lemma initial_inv s : initial s -> inv s.
Proof.
  intros (Hok & Hct & Hp & Hc & HP & HC).
  split; [done|rewrite Hp; done|rewrite Hc; done|]. by rewrite HP, HC, Hct.
Qed.

Definition demo0 : state := mk_st (mk_rb 1 1 [0; 0] 2) PIdle CIdle [] [].
Definition demo1 : state := mk_st (mk_rb 0 1 [0; 7] 2) PIdle CIdle [7] [].

Lemma demo_run : rtc step demo0 demo1.
Proof.
  eapply rtc_l; [apply (p_check (mk_rb 1 1 [0; 0] 2) CIdle [] [] 0 7); done|].
  eapply rtc_l; [apply (p_store (mk_rb 1 1 [0; 0] 2) CIdle [] [] 0 7 [0; 7]); done|].
  eapply rtc_l; [apply (p_publish (mk_rb 1 1 [0; 7] 2) CIdle [] [] 0 7)|].
  apply rtc_refl.
Qed.

(** C5: under every interleaving of the producer's and the consumer's memory
    accesses the ring stays well-formed and the bytes consumed so far followed
    by the bytes still queued are exactly the bytes produced: nothing is lost,
    duplicated or reordered, without a lock. *)
Theorem spsc_fifo s0 s :
  initial s0 -> rtc step s0 s ->
  rb_ok (rb s) /\ produced s = consumed s ++ contents (rb s).
Proof.
  intros Hi Hr. assert (Hv : inv s).
  { apply initial_inv in Hi. induction Hr; eauto using spsc_step_inv. }
  split; [apply Hv | apply Hv].
Qed.

Lemma spsc_fifo_witness : produced demo1 = consumed demo1 ++ contents (rb demo1).
Proof.
  apply (spsc_fifo demo0 demo1).
  - repeat split; vm_compute; try reflexivity; discriminate.
  - apply demo_run.
Defined.

(** The comment at [my_rb_clear] calls the unlocked reset safe for one producer
    and one consumer.  It is when the producer is not between its test and its
    publication (the receive interrupt runs to completion); a producer thread
    caught there republishes a stale head and the ring then reports bytes that
    were never written. *)
Lemma clear_during_write_resurrects :
  exists r r' : ring_buffer_t,
    rb_ok r /\ prod_inv r (PStored 3 9) /\ my_rb_clear (Some r) = Some r' /\
    contents (mk_rb 3 (tail r') (buf r') (size r')) = [5; 6; 9].
Proof.
  exists (mk_rb 2 2 [5; 6; 9; 0] 4), (mk_rb 0 0 [5; 6; 9; 0] 4).
  split; [split; vm_compute; repeat split; discriminate|].
  repeat split; vm_compute; try reflexivity; discriminate.
Qed.

End Spsc.
