(* ===== verification/Crc.v ===== *)
(** * Checksums ([src/my_tool.c], [src/my_ymodem.c])

    The CRC16 of the OTA path (reflected, polynomial passed by the caller),
    the streaming CRC32 of the LTE update, and the CRC16 and 8-bit sum of the
    Ymodem frames, with the table-driven variant of the latter. *)

From Stdlib Require Import Btauto.
From coqutil Require Import Z.bitblast.
From S2P Require Import Prelude.

(** ** The routines *)

(** The inner loop body of [my_crc16_calc]. *)
Definition crc16_bit (polynomial crc : Z) : Z :=
  if Z.land crc 1 =? 0 then Z.shiftr crc 1 else Z.lxor (Z.shiftr crc 1) polynomial.

Definition crc16_byte (polynomial crc b : Z) : Z :=
  Nat.iter 8 (crc16_bit polynomial) (Z.lxor crc b).

(** [len] is a [uint16_t] parameter; [None] when the loop leaves the array. *)
Definition my_crc16_calc (data : list Z) (len polynomial : Z) : option Z :=
  bs ← arr_slice data 0 (u16 len);
  Some (foldl (crc16_byte polynomial) 0 bs).

Definition my_crc32_init : Z := 0xFFFFFFFF.

Definition crc32_bit (crc : Z) : Z :=
  if Z.land crc 1 =? 0 then Z.shiftr crc 1 else Z.lxor (Z.shiftr crc 1) 0xEDB88320.

Definition crc32_byte (crc b : Z) : Z := Nat.iter 8 crc32_bit (Z.lxor crc b).

Definition my_crc32_update (crc : Z) (data : list Z) (len : Z) : option Z :=
  bs ← arr_slice data 0 len;
  Some (foldl crc32_byte crc bs).

(** [~crc] on [uint32_t]. *)
Definition my_crc32_final (crc : Z) : Z := u32 (Z.lnot crc).

(** The bitwise [calc_crc16] of the Ymodem module. *)
Definition ym_crc_bit (crc : Z) : Z :=
  if Z.land crc 0x8000 =? 0 then u16 (Z.shiftl crc 1)
  else u16 (Z.lxor (Z.shiftl crc 1) 0x1021).

Definition ym_crc_byte (crc b : Z) : Z :=
  Nat.iter 8 ym_crc_bit (u16 (Z.lxor crc (Z.shiftl b 8))).

Definition calc_crc16 (bs : list Z) : Z := foldl ym_crc_byte 0 bs.

Definition calc_checksum (bs : list Z) : Z := foldl (fun sum b => u8 (sum + b)) 0 bs.

(** The table of the [MY_YMODEM_USE_CRC_TABLE] variant. *)
Definition crc16_table : list Z := [
    0x0000; 0x1021; 0x2042; 0x3063; 0x4084; 0x50A5; 0x60C6; 0x70E7;
    0x8108; 0x9129; 0xA14A; 0xB16B; 0xC18C; 0xD1AD; 0xE1CE; 0xF1EF;
    0x1231; 0x0210; 0x3273; 0x2252; 0x52B5; 0x4294; 0x72F7; 0x62D6;
    0x9339; 0x8318; 0xB37B; 0xA35A; 0xD3BD; 0xC39C; 0xF3FF; 0xE3DE;
    0x2462; 0x3443; 0x0420; 0x1401; 0x64E6; 0x74C7; 0x44A4; 0x5485;
    0xA56A; 0xB54B; 0x8528; 0x9509; 0xE5EE; 0xF5CF; 0xC5AC; 0xD58D;
    0x3653; 0x2672; 0x1611; 0x0630; 0x76D7; 0x66F6; 0x5695; 0x46B4;
    0xB75B; 0xA77A; 0x9719; 0x8738; 0xF7DF; 0xE7FE; 0xD79D; 0xC7BC;
    0x48C4; 0x58E5; 0x6886; 0x78A7; 0x0840; 0x1861; 0x2802; 0x3823;
    0xC9CC; 0xD9ED; 0xE98E; 0xF9AF; 0x8948; 0x9969; 0xA90A; 0xB92B;
    0x5AF5; 0x4AD4; 0x7AB7; 0x6A96; 0x1A71; 0x0A50; 0x3A33; 0x2A12;
    0xDBFD; 0xCBDC; 0xFBBF; 0xEB9E; 0x9B79; 0x8B58; 0xBB3B; 0xAB1A;
    0x6CA6; 0x7C87; 0x4CE4; 0x5CC5; 0x2C22; 0x3C03; 0x0C60; 0x1C41;
    0xEDAE; 0xFD8F; 0xCDEC; 0xDDCD; 0xAD2A; 0xBD0B; 0x8D68; 0x9D49;
    0x7E97; 0x6EB6; 0x5ED5; 0x4EF4; 0x3E13; 0x2E32; 0x1E51; 0x0E70;
    0xFF9F; 0xEFBE; 0xDFDD; 0xCFFC; 0xBF1B; 0xAF3A; 0x9F59; 0x8F78;
    0x9188; 0x81A9; 0xB1CA; 0xA1EB; 0xD10C; 0xC12D; 0xF14E; 0xE16F;
    0x1080; 0x00A1; 0x30C2; 0x20E3; 0x5004; 0x4025; 0x7046; 0x6067;
    0x83B9; 0x9398; 0xA3FB; 0xB3DA; 0xC33D; 0xD31C; 0xE37F; 0xF35E;
    0x02B1; 0x1290; 0x22F3; 0x32D2; 0x4235; 0x5214; 0x6277; 0x7256;
    0xB5EA; 0xA5CB; 0x95A8; 0x8589; 0xF56E; 0xE54F; 0xD52C; 0xC50D;
    0x34E2; 0x24C3; 0x14A0; 0x0481; 0x7466; 0x6447; 0x5424; 0x4405;
    0xA7DB; 0xB7FA; 0x8799; 0x97B8; 0xE75F; 0xF77E; 0xC71D; 0xD73C;
    0x26D3; 0x36F2; 0x0691; 0x16B0; 0x6657; 0x7676; 0x4615; 0x5634;
    0xD94C; 0xC96D; 0xF90E; 0xE92F; 0x99C8; 0x89E9; 0xB98A; 0xA9AB;
    0x5844; 0x4865; 0x7806; 0x6827; 0x18C0; 0x08E1; 0x3882; 0x28A3;
    0xCB7D; 0xDB5C; 0xEB3F; 0xFB1E; 0x8BF9; 0x9BD8; 0xABBB; 0xBB9A;
    0x4A75; 0x5A54; 0x6A37; 0x7A16; 0x0AF1; 0x1AD0; 0x2AB3; 0x3A92;
    0xFD2E; 0xED0F; 0xDD6C; 0xCD4D; 0xBDAA; 0xAD8B; 0x9DE8; 0x8DC9;
    0x7C26; 0x6C07; 0x5C64; 0x4C45; 0x3CA2; 0x2C83; 0x1CE0; 0x0CC1;
    0xEF1F; 0xFF3E; 0xCF5D; 0xDF7C; 0xAF9B; 0xBFBA; 0x8FD9; 0x9FF8;
    0x6E17; 0x7E36; 0x4E55; 0x5E74; 0x2E93; 0x3EB2; 0x0ED1; 0x1EF0].

Definition crc16_table_byte (crc b : Z) : Z :=
  u16 (Z.lxor (Z.shiftl crc 8)
              (default 0 (arr_get crc16_table (Z.land (Z.lxor (Z.shiftr crc 8) b) 0xFF)))).

Definition calc_crc16_table (bs : list Z) : Z := foldl crc16_table_byte 0 bs.

(** ** Bit-level lemmas *)

Lemma testbit_high x n i : 0 <= x < 2 ^ n -> n <= i -> Z.testbit x i = false.
Proof.
  intros Hx Hi. destruct (decide (x = 0)) as [->|]; [apply Z.bits_0|].
  apply Z.bits_above_log2; [lia|].
  destruct (Z.leb_spec 0 n) as [Hn|Hn]; [|rewrite Z.pow_neg_r in Hx by done; lia].
  apply (Z.lt_le_trans _ n); [|lia]. apply Z.log2_lt_pow2; lia.
Qed.

Lemma range_of_bits x n :
  0 <= n -> 0 <= x -> (forall i, n <= i -> Z.testbit x i = false) -> 0 <= x < 2 ^ n.
Proof.
  intros Hn Hx Hb. split; [done|].
  destruct (Z.ltb_spec x (2 ^ n)) as [|Hge]; [done|exfalso].
  assert (Hpow : 0 < 2 ^ n) by (apply Z.pow_pos_nonneg; lia).
  assert (Hpos : 0 < x) by lia.
  pose proof (Z.bit_log2 x Hpos) as Hl. rewrite Hb in Hl; [done|].
  by apply Z.log2_le_pow2.
Qed.

Lemma lxor_range n a b : 0 <= n -> 0 <= a < 2 ^ n -> 0 <= b < 2 ^ n -> 0 <= Z.lxor a b < 2 ^ n.
Proof.
  intros Hn Ha Hb. apply range_of_bits; [done| |].
  - apply Z.lxor_nonneg; lia.
  - intros i Hi. rewrite Z.lxor_spec, !(testbit_high _ n) by lia. done.
Qed.

Lemma land1_odd x : (Z.land x 1 =? 0) = negb (Z.odd x).
Proof.
  replace 1 with (Z.ones 1) by done. rewrite Z.land_ones by lia.
  rewrite Zmod_odd. by destruct (Z.odd x).
Qed.

Lemma land_8000 x : (Z.land x 0x8000 =? 0) = negb (Z.testbit x 15).
Proof.
  destruct (Z.testbit x 15) eqn:E; simpl.
  - apply Z.eqb_neq. intros H. apply (f_equal (fun z => Z.testbit z 15)) in H.
    rewrite Z.land_spec, E in H. done.
  - apply Z.eqb_eq. apply Z.bits_inj'; intros i Hi. rewrite Z.land_spec, Z.bits_0.
    change 0x8000 with (2 ^ 15). rewrite Z.pow2_bits_eqb by lia.
    destruct (Z.eqb_spec 15 i); [subst; by rewrite E|apply andb_false_r].
Qed.

(** ** Reflected CRCs of any width

    [rstep poly] is the common loop body of the CRC16 and the CRC32. *)
Definition rstep (poly x : Z) : Z :=
  Z.lxor (Z.shiftr x 1) (if Z.odd x then poly else 0).

Lemma crc16_bit_rstep p x : crc16_bit p x = rstep p x.
Proof.
  unfold crc16_bit, rstep. rewrite land1_odd. destruct (Z.odd x); simpl; [done|].
  by rewrite Z.lxor_0_r.
Qed.

Lemma crc32_bit_rstep x : crc32_bit x = rstep 0xEDB88320 x.
Proof. apply crc16_bit_rstep. Qed.

Lemma iter_ext {A} (f g : A -> A) n x : (forall y, f y = g y) -> Nat.iter n f x = Nat.iter n g x.
Proof. intros H; induction n as [|n IH]; simpl; [done|]. by rewrite IH, H. Qed.

(** The little-endian number of a byte string. *)
Fixpoint le_val (bs : list Z) : Z :=
  match bs with
  | [] => 0
  | b :: bs' => Z.lxor b (Z.shiftl (le_val bs') 8)
  end.

Lemma rstep_shift p x u : rstep p (Z.lxor x (Z.shiftl u 1)) = Z.lxor (rstep p x) u.
Proof.
  unfold rstep. rewrite Z.shiftr_lxor, Z.shiftr_shiftl_l, Z.shiftl_0_r by lia.
  replace (Z.odd (Z.lxor x (Z.shiftl u 1))) with (Z.odd x).
  - rewrite !Z.lxor_assoc. f_equal. apply Z.lxor_comm.
  - rewrite <- !Z.bit0_odd, Z.lxor_spec, Z.shiftl_spec_low, xorb_false_r by lia. done.
Qed.

Lemma iter_rstep_shift p n x u :
  Nat.iter n (rstep p) (Z.lxor x (Z.shiftl u (Z.of_nat n))) =
  Z.lxor (Nat.iter n (rstep p) x) u.
Proof.
  revert u; induction n as [|n IH]; intros u; simpl.
  - by rewrite Z.shiftl_0_r.
  - rewrite <- (rstep_shift p). f_equal. rewrite <- IH, Z.shiftl_shiftl by lia.
    do 2 f_equal. f_equal. lia.
Qed.

(** Feeding bytes one at a time is one long division of their number. *)
Lemma fold_le p s bs :
  foldl (crc16_byte p) s bs = Nat.iter (8 * length bs) (rstep p) (Z.lxor s (le_val bs)).
Proof.
  revert s; induction bs as [|b bs IH]; intros s; cbn [foldl le_val length].
  - by rewrite Z.lxor_0_r.
  - rewrite IH. replace (8 * S (length bs))%nat with (8 * length bs + 8)%nat by lia.
    rewrite Nat.iter_add. f_equal. unfold crc16_byte.
    rewrite (iter_ext _ (rstep p)) by apply crc16_bit_rstep.
    rewrite <- (iter_rstep_shift p 8), <- Z.lxor_assoc. done.
Qed.

Lemma le_val_range bs : bytes_ok bs -> 0 <= le_val bs < 2 ^ (8 * zlen bs).
Proof.
  induction 1 as [|b bs Hb Hbs IH]; simpl; [split; done|].
  rewrite zlen_cons. apply lxor_range; pose proof (zlen_nonneg bs).
  - lia.
  - unfold is_byte in Hb. split; [lia|]. apply (Z.lt_le_trans _ (2 ^ 8)); [lia|].
    apply Z.pow_le_mono_r; lia.
  - rewrite Z.shiftl_mul_pow2 by lia. rewrite Z.mul_add_distr_l, Z.pow_add_r by lia.
    change (2 ^ (8 * 1)) with (2 ^ 8). nia.
Qed.

Lemma le_val_inj a b :
  bytes_ok a -> bytes_ok b -> length a = length b -> le_val a = le_val b -> a = b.
Proof.
  intros Ha; revert b; induction Ha as [|x a Hx Ha IH]; intros [|y b] Hb Hl E;
    try done; simpl in *.
  apply Forall_cons in Hb as [Hy Hb].
  assert (Exy : x = y).
  { apply Z.bits_inj'; intros i Hi. destruct (Z.ltb_spec i 8).
    - apply (f_equal (fun z => Z.testbit z i)) in E.
      rewrite !Z.lxor_spec, !(Z.shiftl_spec_low _ 8 i), !xorb_false_r in E by lia. done.
    - rewrite !(testbit_high _ 8) by (unfold is_byte in *; lia). done. }
  subst y. f_equal. apply IH; [done|lia|].
  apply (f_equal (fun z => Z.lxor x z)) in E.
  rewrite <- !Z.lxor_assoc, Z.lxor_nilpotent, !Z.lxor_0_l in E.
  apply (f_equal (fun z => Z.shiftr z 8)) in E.
  rewrite !Z.shiftr_shiftl_l, !Z.shiftl_0_r in E by lia. done.
Qed.

Section width.
Context (w p : Z) (Hw : 1 <= w) (Hp : 0 <= p < 2 ^ w) (Htop : Z.testbit p (w - 1) = true).

Lemma rstep_range x : 0 <= x < 2 ^ w -> 0 <= rstep p x < 2 ^ w.
Proof.
  intros Hx. unfold rstep. apply lxor_range; [lia| |destruct (Z.odd x); lia].
  rewrite Z.shiftr_div_pow2 by lia. change (2 ^ 1) with 2.
  pose proof (Z.div_mod x 2). pose proof (Z.mod_pos_bound x 2). lia.
Qed.

(** The top bit of the result tells whether the polynomial was added, so a
    step can be undone. *)
Lemma rstep_top x : 0 <= x < 2 ^ w -> Z.testbit (rstep p x) (w - 1) = Z.odd x.
Proof.
  intros Hx. unfold rstep. rewrite Z.lxor_spec, Z.shiftr_spec by lia.
  rewrite (testbit_high x w) by lia. destruct (Z.odd x); simpl; [done|].
  apply Z.bits_0.
Qed.

Lemma rstep_inj x y :
  0 <= x < 2 ^ w -> 0 <= y < 2 ^ w -> rstep p x = rstep p y -> x = y.
Proof.
  intros Hx Hy E.
  assert (Ho : Z.odd x = Z.odd y) by (rewrite <- !rstep_top, E by done; done).
  unfold rstep in E. rewrite Ho in E.
  apply (f_equal (fun z => Z.lxor z (if Z.odd y then p else 0))) in E.
  rewrite !Z.lxor_assoc, Z.lxor_nilpotent, !Z.lxor_0_r in E.
  rewrite !Z.shiftr_div_pow2 in E by lia. change (2 ^ 1) with 2 in E.
  rewrite (Z.div_mod x 2), (Z.div_mod y 2), E by lia.
  by rewrite !Zmod_odd, Ho.
Qed.

Lemma iter_rstep_range n x : 0 <= x < 2 ^ w -> 0 <= Nat.iter n (rstep p) x < 2 ^ w.
Proof. intros Hx; induction n as [|n IH]; simpl; [done|]. by apply rstep_range. Qed.

Lemma iter_rstep_inj n x y :
  0 <= x < 2 ^ w -> 0 <= y < 2 ^ w ->
  Nat.iter n (rstep p) x = Nat.iter n (rstep p) y -> x = y.
Proof.
  intros Hx Hy; induction n as [|n IH]; simpl; [done|].
  intros E. apply IH. apply rstep_inj; auto using iter_rstep_range.
Qed.

Lemma fold_range s bs :
  8 <= w -> 0 <= s < 2 ^ w -> bytes_ok bs -> 0 <= foldl (crc16_byte p) s bs < 2 ^ w.
Proof.
  intros Hw8 Hs Hbs. revert s Hs; induction Hbs as [|b bs Hb Hbs IH]; intros s Hs; simpl; [done|].
  apply IH. unfold crc16_byte. rewrite (iter_ext _ (rstep p)) by apply crc16_bit_rstep.
  apply iter_rstep_range, lxor_range; [lia|done|]. unfold is_byte in Hb.
  split; [lia|]. apply (Z.lt_le_trans _ (2 ^ 8)); [lia|]. apply Z.pow_le_mono_r; lia.
Qed.

(** Different states stay different under any common suffix. *)
Lemma fold_state_inj s t bs :
  8 <= w -> 0 <= s < 2 ^ w -> 0 <= t < 2 ^ w -> bytes_ok bs ->
  foldl (crc16_byte p) s bs = foldl (crc16_byte p) t bs -> s = t.
Proof.
  intros Hw8 Hs Ht Hbs. revert s t Hs Ht.
  induction Hbs as [|b bs Hb Hbs IH]; intros s t Hs Ht; simpl; [done|].
  intros E. assert (Hr : forall u, 0 <= u < 2 ^ w -> 0 <= Z.lxor u b < 2 ^ w).
  { intros u Hu. apply lxor_range; [lia|done|]. unfold is_byte in Hb.
    split; [lia|]. apply (Z.lt_le_trans _ (2 ^ 8)); [lia|]. apply Z.pow_le_mono_r; lia. }
  unfold crc16_byte at 2 4 in E.
  rewrite !(iter_ext (crc16_bit p) (rstep p)) in E by apply crc16_bit_rstep.
  apply IH in E; [|apply iter_rstep_range; auto..].
  apply iter_rstep_inj in E; auto.
  apply (f_equal (fun z => Z.lxor z b)) in E.
  by rewrite !Z.lxor_assoc, Z.lxor_nilpotent, !Z.lxor_0_r in E.
Qed.

(** A burst no longer than the register is always seen. *)
Lemma fold_detects s pre x y post :
  8 <= w -> 0 <= s < 2 ^ w ->
  bytes_ok pre -> bytes_ok x -> bytes_ok y -> bytes_ok post ->
  length x = length y -> 8 * zlen x <= w -> x <> y ->
  foldl (crc16_byte p) s (pre ++ x ++ post) <> foldl (crc16_byte p) s (pre ++ y ++ post).
Proof.
  intros Hw8 Hs Hpre Hx Hy Hpost Hl Hlen Hne E. apply Hne.
  rewrite !foldl_app in E.
  pose proof (fold_range s pre Hw8 Hs Hpre) as Hm.
  apply fold_state_inj in E; [|done|by apply fold_range..|done].
  set (m := foldl (crc16_byte p) s pre) in *.
  rewrite !fold_le, <- Hl in E. pose proof (le_val_range x Hx). pose proof (le_val_range y Hy).
  assert (Hpow : 2 ^ (8 * zlen x) <= 2 ^ w) by (apply Z.pow_le_mono_r; lia).
  assert (Hzl : zlen y = zlen x) by (unfold zlen; lia). rewrite Hzl in *.
  apply iter_rstep_inj in E; [|apply lxor_range; lia..].
  apply (f_equal (fun z => Z.lxor m z)) in E.
  rewrite <- !Z.lxor_assoc, Z.lxor_nilpotent, !Z.lxor_0_l in E.
  by apply le_val_inj.
Qed.
End width.

Lemma arr_slice_all {A} (l : list A) : arr_slice l 0 (zlen l) = Some l.
Proof.
  pose proof (zlen_nonneg l). rewrite arr_slice_Some by lia. f_equal. simpl.
  rewrite drop_0. apply take_ge. unfold zlen; lia.
Qed.

Lemma my_crc16_calc_all data p :
  zlen data < 65536 -> my_crc16_calc data (zlen data) p = Some (foldl (crc16_byte p) 0 data).
Proof.
  intros H. unfold my_crc16_calc. pose proof (zlen_nonneg data).
  by rewrite u16_small, arr_slice_all by lia.
Qed.

Lemma my_crc32_update_all crc data :
  my_crc32_update crc data (zlen data) = Some (foldl crc32_byte crc data).
Proof. unfold my_crc32_update. by rewrite arr_slice_all. Qed.

Lemma crc32_byte_eq crc b : crc32_byte crc b = crc16_byte 0xEDB88320 crc b.
Proof. reflexivity. Qed.

(** The read-back CRC16 of the OTA path detects every corruption confined
    to two adjacent bytes, wherever it is in the block: for a polynomial with
    its top bit set (0xA001 has it) two blocks that differ only there have
    different CRCs. *)
Theorem crc16_detects_burst p pre x y post :
  0 <= p < 65536 -> Z.testbit p 15 = true ->
  bytes_ok pre -> bytes_ok x -> bytes_ok y -> bytes_ok post ->
  length x = length y -> zlen x <= 2 -> x <> y ->
  zlen (pre ++ x ++ post) < 65536 ->
  my_crc16_calc (pre ++ x ++ post) (zlen (pre ++ x ++ post)) p <>
  my_crc16_calc (pre ++ y ++ post) (zlen (pre ++ y ++ post)) p.
Proof.
  intros Hp Ht Hpre Hx Hy Hpost Hl Hlen Hne Hsz.
  assert (Hsz' : zlen (pre ++ y ++ post) < 65536)
    by (revert Hsz; rewrite !zlen_app; unfold zlen; lia).
  rewrite !my_crc16_calc_all by done. intros [= E]. revert E.
  apply (fold_detects 16 p); (done || lia || idtac).
Qed.

Lemma crc16_detects_burst_witness :
  my_crc16_calc ([1; 2] ++ [3; 4] ++ [5]) 5 0xA001 <>
  my_crc16_calc ([1; 2] ++ [3; 5] ++ [5]) 5 0xA001.
Proof.
  apply (crc16_detects_burst 0xA001 [1; 2] [3; 4] [3; 5] [5]);
    try reflexivity; try discriminate;
    try (repeat constructor; unfold is_byte; lia); vm_compute; split; done.
Defined.

(** [my_crc32_update] is a stream: feeding the blocks of a firmware image
    one after the other gives the CRC of the whole image, whatever the split,
    as its header comment promises. *)
Theorem crc32_stream crc a b :
  (c ← my_crc32_update crc a (zlen a); my_crc32_update c b (zlen b)) =
  my_crc32_update crc (a ++ b) (zlen (a ++ b)).
Proof.
  rewrite !my_crc32_update_all. simpl. by rewrite my_crc32_update_all, foldl_app.
Qed.

(** The file CRC32 detects every corruption confined to four adjacent
    bytes of the image. *)
Theorem crc32_detects_burst pre x y post :
  bytes_ok pre -> bytes_ok x -> bytes_ok y -> bytes_ok post ->
  length x = length y -> zlen x <= 4 -> x <> y ->
  (my_crc32_final <$> my_crc32_update my_crc32_init (pre ++ x ++ post) (zlen (pre ++ x ++ post)))
  <> (my_crc32_final <$> my_crc32_update my_crc32_init (pre ++ y ++ post) (zlen (pre ++ y ++ post))).
Proof.
  intros Hpre Hx Hy Hpost Hl Hlen Hne. rewrite !my_crc32_update_all. simpl.
  set (p := 0xEDB88320). assert (Hp : 0 <= p < 2 ^ 32) by (vm_compute; done).
  assert (Ht : Z.testbit p (32 - 1) = true) by done.
  assert (Hs : 0 <= my_crc32_init < 2 ^ 32) by (vm_compute; done).
  assert (Hr : forall z, bytes_ok z -> 0 <= foldl crc32_byte my_crc32_init z < 4294967296).
  { intros z Hz. apply (fold_range 32 p); (done || lia || idtac). }
  assert (Hok : forall z, bytes_ok z -> bytes_ok (pre ++ z ++ post))
    by (intros z Hz; unfold bytes_ok; rewrite !Forall_app; done).
  pose proof (Hr _ (Hok x Hx)) as Hrx. pose proof (Hr _ (Hok y Hy)) as Hry.
  intros [= E]. unfold my_crc32_final in E.
  assert (Hfin : forall u v, 0 <= u < 4294967296 -> 0 <= v < 4294967296 ->
            u32 (Z.lnot u) = u32 (Z.lnot v) -> u = v).
  { intros u v Hu Hv. unfold Z.lnot, Z.pred. rewrite !u32_neg by lia. lia. }
  apply Hfin in E; [|done|done]. revert E.
  apply (fold_detects 32 p); (done || lia || idtac).
Qed.

Lemma crc32_detects_burst_witness :
  (my_crc32_final <$> my_crc32_update my_crc32_init ([1] ++ [2; 3; 4; 5] ++ []) 5) <>
  (my_crc32_final <$> my_crc32_update my_crc32_init ([1] ++ [9; 3; 4; 5] ++ []) 5).
Proof.
  apply (crc32_detects_burst [1] [2; 3; 4; 5] [9; 3; 4; 5] []);
    try reflexivity; try discriminate;
    try (repeat constructor; unfold is_byte; lia); vm_compute; done.
Defined.

(** The published check values of the three CRCs on ["123456789"]. *)
Example crc16_check : my_crc16_calc (cstr "123456789") 9 0xA001 = Some 0xBB3D.
Proof. vm_compute. reflexivity. Qed.

Example crc32_check :
  my_crc32_final <$> my_crc32_update my_crc32_init (cstr "123456789") 9 = Some 0xCBF43926.
Proof. vm_compute. reflexivity. Qed.

Example ym_crc_check : calc_crc16 (cstr "123456789") = 0x31C3.
Proof. vm_compute. reflexivity. Qed.

(** ** The Ymodem CRC, most significant bit first *)

Lemma u16_land x : u16 x = Z.land x (Z.ones 16).
Proof. unfold u16. rewrite Z.land_ones by lia. done. Qed.

Lemma u16_lxor x y : u16 (Z.lxor x y) = Z.lxor (u16 x) (u16 y).
Proof.
  rewrite !u16_land. apply Z.bits_inj'; intros i Hi.
  rewrite !Z.land_spec, !Z.lxor_spec, !Z.land_spec. btauto.
Qed.

Definition mstep (x : Z) : Z :=
  Z.lxor (u16 (Z.shiftl x 1)) (if Z.testbit x 15 then 0x1021 else 0).

Lemma ym_crc_bit_mstep x : ym_crc_bit x = mstep x.
Proof.
  unfold ym_crc_bit, mstep. rewrite land_8000.
  destruct (Z.testbit x 15); simpl; [apply u16_lxor|]. by rewrite Z.lxor_0_r.
Qed.

Lemma mstep_lxor x y : mstep (Z.lxor x y) = Z.lxor (mstep x) (mstep y).
Proof.
  unfold mstep. rewrite Z.shiftl_lxor, u16_lxor, Z.lxor_spec.
  apply Z.bits_inj'; intros i Hi. rewrite !Z.lxor_spec.
  destruct (Z.testbit x 15), (Z.testbit y 15); simpl; rewrite ?Z.bits_0; btauto.
Qed.

Lemma iter_mstep_lxor n x y :
  Nat.iter n mstep (Z.lxor x y) = Z.lxor (Nat.iter n mstep x) (Nat.iter n mstep y).
Proof. induction n as [|n IH]; simpl; [done|]. by rewrite IH, mstep_lxor. Qed.

(** Check a statement on every byte. *)
Lemma forall_byte (P : Z -> bool) :
  forallb P (seqZ 0 256) = true -> forall b, is_byte b -> P b = true.
Proof.
  intros H b Hb. rewrite forallb_forall in H. apply H.
  apply list_elem_of_In, elem_of_seqZ. unfold is_byte in Hb; lia.
Qed.

Lemma iter8_low b : is_byte b -> Nat.iter 8 mstep b = Z.shiftl b 8.
Proof.
  intros Hb. apply Z.eqb_eq.
  by apply (forall_byte (fun b => Nat.iter 8 mstep b =? Z.shiftl b 8)).
Qed.

Lemma iter8_high b :
  is_byte b -> arr_get crc16_table b = Some (Nat.iter 8 mstep (Z.shiftl b 8)).
Proof.
  intros Hb.
  pose proof (forall_byte (fun b => bool_decide
    (arr_get crc16_table b = Some (Nat.iter 8 mstep (Z.shiftl b 8)))) eq_refl b Hb) as H.
  by apply bool_decide_eq_true in H.
Qed.

Lemma shiftl8_range b : is_byte b -> 0 <= Z.shiftl b 8 < 2 ^ 16.
Proof. unfold is_byte; intros Hb. rewrite Z.shiftl_mul_pow2 by lia. change (2 ^ 8) with 256. lia. Qed.

Lemma ym_crc_byte_eq crc b :
  0 <= crc < 2 ^ 16 -> is_byte b ->
  ym_crc_byte crc b = Nat.iter 8 mstep (Z.lxor crc (Z.shiftl b 8)).
Proof.
  intros Hc Hb. unfold ym_crc_byte.
  rewrite (iter_ext _ mstep) by apply ym_crc_bit_mstep.
  rewrite u16_small; [done|]. apply (lxor_range 16); auto using shiftl8_range; lia.
Qed.

Lemma mstep_range x : 0 <= mstep x < 2 ^ 16.
Proof.
  apply lxor_range; [lia|apply u16_range|]. destruct (Z.testbit x 15); done.
Qed.

Lemma iter_mstep_range n x : 0 <= x < 2 ^ 16 -> 0 <= Nat.iter n mstep x < 2 ^ 16.
Proof. intros Hx; destruct n; simpl; [done|]. apply mstep_range. Qed.

(** A 16-bit register as its two bytes. *)
Lemma split_bytes x :
  0 <= x < 2 ^ 16 ->
  is_byte (Z.shiftr x 8) /\ is_byte (Z.land x 0xFF) /\
  x = Z.lxor (Z.shiftl (Z.shiftr x 8) 8) (Z.land x 0xFF).
Proof.
  intros Hx. unfold is_byte. change 0xFF with (Z.ones 8). rewrite Z.land_ones by lia.
  split; [|split].
  - rewrite Z.shiftr_div_pow2 by lia. change (2 ^ 8) with 256. change (2 ^ 16) with 65536 in Hx.
    pose proof (Z.div_mod x 256). pose proof (Z.mod_pos_bound x 256). lia.
  - apply Z.mod_pos_bound; lia.
  - rewrite <- Z.land_ones by lia. apply Z.bits_inj'; intros i Hi.
    rewrite Z.lxor_spec, Z.land_spec. destruct (Z.ltb_spec i 8).
    + rewrite Z.shiftl_spec_low, Z.ones_spec_low by lia. btauto.
    + rewrite Z.shiftl_spec, Z.shiftr_spec, Z.ones_spec_high by lia.
      rewrite Z.sub_add. btauto.
Qed.

Lemma crc16_table_byte_eq crc b :
  0 <= crc < 2 ^ 16 -> is_byte b -> crc16_table_byte crc b = ym_crc_byte crc b.
Proof.
  intros Hc Hb. rewrite ym_crc_byte_eq by done.
  destruct (split_bytes crc Hc) as (Hhi & Hlo & Hsplit).
  set (hi := Z.shiftr crc 8) in *. set (lo := Z.land crc 0xFF) in *.
  assert (Hx : is_byte (Z.lxor hi b)) by (apply (lxor_range 8); (done || lia)).
  assert (Hmask : Z.land (Z.lxor hi b) 0xFF = Z.lxor hi b).
  { change 0xFF with (Z.ones 8). rewrite Z.land_ones by lia. by apply Z.mod_small. }
  unfold crc16_table_byte. fold hi. rewrite Hmask, iter8_high by done.
  change (default 0 (Some ?t)) with t.
  replace (Z.lxor crc (Z.shiftl b 8)) with (Z.lxor lo (Z.shiftl (Z.lxor hi b) 8)).
  2:{ rewrite Hsplit at 1. rewrite Z.shiftl_lxor, (Z.lxor_comm (Z.shiftl hi 8) lo).
      by rewrite Z.lxor_assoc. }
  rewrite iter_mstep_lxor, (iter8_low lo) by done.
  rewrite u16_lxor, (u16_small (Nat.iter _ _ _)) by (apply iter_mstep_range, shiftl8_range; done).
  f_equal. rewrite Hsplit at 1.
  rewrite Z.shiftl_lxor, u16_lxor, Z.shiftl_shiftl by lia.
  rewrite (u16_small (Z.shiftl lo 8)) by (apply shiftl8_range; done).
  rewrite u16_land, Z.land_ones by lia.
  rewrite Z.shiftl_mul_pow2, Z.mod_mul by lia. apply Z.lxor_0_l.
Qed.

Lemma ym_crc_byte_range crc b : 0 <= ym_crc_byte crc b < 2 ^ 16.
Proof.
  unfold ym_crc_byte. rewrite (iter_ext _ mstep) by apply ym_crc_bit_mstep.
  apply mstep_range.
Qed.

(** The table-driven [calc_crc16] (compiled with
    [MY_YMODEM_USE_CRC_TABLE]) and the bitwise one compute the same checksum
    of every byte string, so the two builds interoperate. *)
Theorem calc_crc16_table_equiv bs :
  bytes_ok bs -> calc_crc16_table bs = calc_crc16 bs.
Proof.
  intros Hbs. unfold calc_crc16_table, calc_crc16.
  enough (H : forall s, 0 <= s < 2 ^ 16 ->
    foldl crc16_table_byte s bs = foldl ym_crc_byte s bs) by (apply H; lia).
  induction Hbs as [|b bs Hb Hbs IH]; intros s Hs; simpl; [done|].
  rewrite crc16_table_byte_eq by done. apply IH, ym_crc_byte_range.
Qed.

Lemma calc_crc16_table_equiv_witness :
  calc_crc16_table (cstr "123456789") = calc_crc16 (cstr "123456789").
Proof.
  apply (calc_crc16_table_equiv (cstr "123456789")).
  repeat constructor; vm_compute; done.
Defined.

Lemma mstep_inj x y : 0 <= x < 2 ^ 16 -> 0 <= y < 2 ^ 16 -> mstep x = mstep y -> x = y.
Proof.
  intros Hx Hy E.
  assert (Hb : forall z i, 0 <= i -> Z.testbit (mstep z) i =
     xorb ((i <? 16) && negb (i <? 1) && Z.testbit z (i - 1)) (Z.testbit z 15 && Z.testbit 0x1021 i)).
  { intros z i Hi. unfold mstep. rewrite Z.lxor_spec, u16_land, Z.land_spec.
    rewrite Z.testbit_ones_nonneg by lia.
    replace (Z.testbit (if Z.testbit z 15 then 4129 else 0) i)
      with (Z.testbit z 15 && Z.testbit 4129 i)
      by (destruct (Z.testbit z 15); rewrite ?Z.bits_0; done).
    f_equal. destruct (Z.ltb_spec i 1).
    - rewrite Z.shiftl_spec_low by lia. simpl. btauto.
    - rewrite Z.shiftl_spec by lia. simpl. btauto. }
  assert (Htop : Z.testbit x 15 = Z.testbit y 15).
  { apply (f_equal (fun z => Z.testbit z 0)) in E. rewrite !Hb in E by lia.
    simpl in E. by rewrite !andb_true_r in E. }
  apply Z.bits_inj'; intros i Hi. destruct (Z.ltb_spec i 15).
  - apply (f_equal (fun z => Z.testbit z (i + 1))) in E. rewrite !Hb, Htop in E by lia.
    rewrite (proj2 (Z.ltb_lt (i + 1) 16)), (proj2 (Z.ltb_ge (i + 1) 1)) in E by lia.
    rewrite Z.add_simpl_r in E. simpl in E.
    destruct (Z.testbit x i), (Z.testbit y i), (_ && _); done.
  - destruct (Z.eqb_spec i 15) as [->|]; [done|].
    rewrite !(testbit_high _ 16) by lia. done.
Qed.

Lemma iter_mstep_inj n x y :
  0 <= x < 2 ^ 16 -> 0 <= y < 2 ^ 16 -> Nat.iter n mstep x = Nat.iter n mstep y -> x = y.
Proof.
  intros Hx Hy; induction n as [|n IH]; simpl; [done|].
  intros E. apply IH. apply mstep_inj; auto using iter_mstep_range.
Qed.

Lemma ym_fold_range s bs : 0 <= s < 2 ^ 16 -> 0 <= foldl ym_crc_byte s bs < 2 ^ 16.
Proof.
  revert s; induction bs as [|b bs IH]; intros s Hs; simpl; [done|].
  apply IH, ym_crc_byte_range.
Qed.

Lemma ym_fold_state_inj s t bs :
  0 <= s < 2 ^ 16 -> 0 <= t < 2 ^ 16 -> bytes_ok bs ->
  foldl ym_crc_byte s bs = foldl ym_crc_byte t bs -> s = t.
Proof.
  intros Hs Ht Hbs. revert s t Hs Ht.
  induction Hbs as [|b bs Hb Hbs IH]; intros s t Hs Ht; simpl; [done|].
  intros E. apply IH in E; [|apply ym_crc_byte_range..].
  rewrite !ym_crc_byte_eq in E by done.
  apply iter_mstep_inj in E; [|apply lxor_range; auto using shiftl8_range; lia..].
  apply (f_equal (fun z => Z.lxor z (Z.shiftl b 8))) in E.
  by rewrite !Z.lxor_assoc, Z.lxor_nilpotent, !Z.lxor_0_r in E.
Qed.

(** One byte changed anywhere in a frame changes the frame's CRC. *)
Lemma calc_crc16_detects_byte pre x y post :
  is_byte x -> is_byte y -> bytes_ok post -> x <> y ->
  calc_crc16 (pre ++ x :: post) <> calc_crc16 (pre ++ y :: post).
Proof.
  intros Hx Hy Hpost Hne E. apply Hne. unfold calc_crc16 in E. rewrite !foldl_app in E.
  simpl in E. pose proof (ym_fold_range 0 pre ltac:(lia)) as Hm.
  set (m := foldl ym_crc_byte 0 pre) in *.
  apply ym_fold_state_inj in E; [|apply ym_crc_byte_range..|done].
  rewrite !ym_crc_byte_eq in E by done.
  apply iter_mstep_inj in E; [|apply lxor_range; auto using shiftl8_range; lia..].
  apply (f_equal (fun z => Z.lxor m z)) in E.
  rewrite <- !Z.lxor_assoc, Z.lxor_nilpotent, !Z.lxor_0_l in E.
  apply (f_equal (fun z => Z.shiftr z 8)) in E.
  by rewrite !Z.shiftr_shiftl_l, !Z.shiftl_0_r in E by lia.
Qed.
