(* ===== verification/FlashStore.v ===== *)
(** * The circular record store ([src/my_flash_store.c])

    Scan and sensor records wait here for the LTE upload: they are staged in
    RAM, written to FLASH one full sector at a time, read back by an upload
    session and reclaimed when the peer has acknowledged them.  The model
    works on the bytes of the partition and of the staging buffers.  This
    file has the definitions; [FlashStoreProofs] has the queue they implement. *)

From S2P Require Import Prelude.

(** ** The storage drivers

    [flash_area_*] and [zms_*] are Zephyr drivers.  [W] is the device,
    [flash_view] the bytes of the [ble_data_storage] partition and
    [zms_view] the value stored under an identifier. *)
Class StorageIO (W : Type) := {
  flash_view : W -> list Z;
  zms_view : W -> Z -> option (list Z);
  flash_area_write : W -> Z -> list Z -> W * Z;
  flash_area_read : W -> Z -> Z -> W * Z * list Z;
  zms_write : W -> Z -> list Z -> W * Z;
  zms_read : W -> Z -> Z -> W * Z * list Z;
  crc32_ieee : list Z -> Z
}.

(** What the drivers document.  A write that reports success stored the
    bytes; whatever it reports, only the addressed range may change.  A read
    returns 0 or a negative error code.  A ZMS write returns the length, or 0
    when the same value was already stored; reading an identifier that was
    never written is an error. *)
Class StorageLaws (W : Type) `{StorageIO W} : Prop := {
  law_write_ok w off bs w' :
    flash_area_write w off bs = (w', 0) ->
    arr_blit (flash_view w) off bs = Some (flash_view w');
  law_write_frame w off bs w' r off' n :
    flash_area_write w off bs = (w', r) ->
    off' + n <= off \/ off + zlen bs <= off' ->
    arr_slice (flash_view w') off' n = arr_slice (flash_view w) off' n;
  law_write_zms w off bs w' r id :
    flash_area_write w off bs = (w', r) -> zms_view w' id = zms_view w id;
  law_read_ok w off n w' bs :
    flash_area_read w off n = (w', 0, bs) -> arr_slice (flash_view w) off n = Some bs;
  law_read_ret w off n w' r bs : flash_area_read w off n = (w', r, bs) -> r <= 0;
  law_read_pure w off n w' r bs :
    flash_area_read w off n = (w', r, bs) ->
    flash_view w' = flash_view w /\ forall id, zms_view w' id = zms_view w id;
  law_zms_write_ok w id bs w' r :
    zms_write w id bs = (w', r) -> bs <> [] -> r = zlen bs \/ r = 0 ->
    zms_view w' id = Some bs;
  law_zms_write_same w id bs w' r :
    zms_write w id bs = (w', r) -> zms_view w id = Some bs -> r <= 0;
  law_zms_write_frame w id bs w' r id' :
    zms_write w id bs = (w', r) -> id' <> id -> zms_view w' id' = zms_view w id';
  law_zms_write_flash w id bs w' r :
    zms_write w id bs = (w', r) -> flash_view w' = flash_view w;
  law_zms_read_ok w id n w' bs :
    zms_read w id n = (w', n, bs) -> 0 < n ->
    exists v, zms_view w id = Some v /\ bs = take (Z.to_nat n) v /\ zlen bs = n;
  law_zms_read_none w id n w' r bs :
    zms_read w id n = (w', r, bs) -> zms_view w id = None -> r < 0;
  law_zms_read_pure w id n w' r bs :
    zms_read w id n = (w', r, bs) ->
    flash_view w' = flash_view w /\ forall id', zms_view w' id' = zms_view w id';
  law_crc_range l : 0 <= crc32_ieee l < 4294967296
}.

(** ** Layout constants *)

Definition FS_SECTOR_SIZE : Z := 4096.
Definition FS_TOTAL_SECTORS : Z := 50.
Definition FS_SECTOR_HEADER_SIZE : Z := 16.
Definition FS_SECTOR_MAGIC : Z := 0x424C4453.
Definition FS_REC_MAGIC : Z := 0xA5.
Definition FS_META_MAGIC : Z := 0x46535431.
Definition FS_TAG_REC_SIZE : Z := 96.

Definition EIO : Z := 5.
Definition EBUSY : Z := 16.
Definition EINVAL : Z := 22.
Definition ENODEV : Z := 19.

(** ** Data *)

(** The persistent part of [fs_region_t]. *)
Record fs_ptrs := mk_ptrs {
  wr_sector : Z; rd_sector : Z; valid_sectors : Z; rd_rec_idx : Z; seq_counter : Z
}.

(** The read position of the current upload session. *)
Record fs_session := mk_sess {
  read_offset : Z; staging_read_idx : Z; upload_staging_snap : Z; upload_active : bool
}.

(** The constants of a region. *)
Record fs_const := mk_const {
  sector_base : Z; rec_size : Z; rec_per_sector : Z; region_sectors : Z; zms_id : Z
}.

(** [fs_region_t]; [staging_buf] is the static array the pointer names. *)
Record fs_region_t := mk_region {
  ptrs : fs_ptrs;
  sess : fs_session;
  const : fs_const;
  staging_buf : list Z;
  staging_count : Z
}.

Definition set_ptrs (p : fs_ptrs) (rg : fs_region_t) : fs_region_t :=
  mk_region p (sess rg) (const rg) (staging_buf rg) (staging_count rg).
Definition set_sess (s : fs_session) (rg : fs_region_t) : fs_region_t :=
  mk_region (ptrs rg) s (const rg) (staging_buf rg) (staging_count rg).
Definition set_staging (b : list Z) (n : Z) (rg : fs_region_t) : fs_region_t :=
  mk_region (ptrs rg) (sess rg) (const rg) b n.

(** Little-endian fields of the stored structures. *)
Definition le16 (z : Z) : list Z := [z mod 256; z / 256 mod 256].
Definition le32 (z : Z) : list Z :=
  [z mod 256; z / 256 mod 256; z / 65536 mod 256; z / 16777216 mod 256].

Definition rd16 (l : list Z) (i : nat) : Z :=
  default 0 (l !! i) + 256 * default 0 (l !! S i).
Definition rd32 (l : list Z) (i : nat) : Z := rd16 l i + 65536 * rd16 l (2 + i).

(** [fs_meta_t] and its 20-byte image. *)
Record fs_meta_t := mk_meta { m_magic : Z; m_ptrs : fs_ptrs; m_crc : Z }.

Definition meta_body (m : fs_meta_t) : list Z :=
  le32 (m_magic m) ++ le16 (wr_sector (m_ptrs m)) ++ le16 (rd_sector (m_ptrs m)) ++
  le16 (valid_sectors (m_ptrs m)) ++ le16 (rd_rec_idx (m_ptrs m)) ++
  le32 (seq_counter (m_ptrs m)).
Definition meta_bytes (m : fs_meta_t) : list Z := meta_body m ++ le32 (m_crc m).
Definition meta_parse (l : list Z) : fs_meta_t :=
  mk_meta (rd32 l 0)
    (mk_ptrs (rd16 l 4) (rd16 l 6) (rd16 l 8) (rd16 l 10) (rd32 l 12))
    (rd32 l 16).
Definition META_SIZE : Z := 20.

(** [fs_sector_header_t]. *)
Definition header_bytes (seq count size : Z) : list Z :=
  le32 FS_SECTOR_MAGIC ++ le32 seq ++ le16 count ++ le16 size ++ le32 0.

Section store.
Context {W : Type} `{!StorageIO W}.

(** ** Metadata *)

Definition fs_meta_calc_crc (m : fs_meta_t) : Z := crc32_ieee (meta_body m).

(** [my_user_data_write] of [my_zms_param.c]: an empty write is refused. *)
Definition my_user_data_write (w : W) (id : Z) (data : list Z) : W * Z :=
  if zlen data =? 0 then (w, - EINVAL) else zms_write w id data.

Definition my_user_data_read (w : W) (id len : Z) : W * Z * list Z :=
  if len =? 0 then (w, - EINVAL, []) else zms_read w id len.

Definition region_meta (rg : fs_region_t) : fs_meta_t :=
  let m := mk_meta FS_META_MAGIC (ptrs rg) 0 in
  mk_meta FS_META_MAGIC (ptrs rg) (fs_meta_calc_crc m).

Definition fs_meta_save (rg : fs_region_t) (w : W) : W * Z :=
  let '(w, ret) := my_user_data_write w (zms_id (const rg)) (meta_bytes (region_meta rg)) in
  if ret =? META_SIZE then (w, 0) else (w, - EIO).

Definition fs_region_reset (rg : fs_region_t) : fs_region_t :=
  mk_region (mk_ptrs 0 0 0 0 0) (mk_sess 0 0 0 false) (const rg) (staging_buf rg) 0.

Definition fs_region_load (rg : fs_region_t) (w : W) : fs_region_t * W :=
  let '(w, ret, bytes) := my_user_data_read w (zms_id (const rg)) META_SIZE in
  let meta := meta_parse bytes in
  if negb (ret =? META_SIZE) || negb (m_magic meta =? FS_META_MAGIC)
     || negb (m_crc meta =? fs_meta_calc_crc meta)
  then (fs_region_reset rg, w)
  else
    let p := m_ptrs meta in
    if (region_sectors (const rg) <=? wr_sector p)
       || (region_sectors (const rg) <=? rd_sector p)
       || (region_sectors (const rg) <? valid_sectors p)
       || (rec_per_sector (const rg) <? rd_rec_idx p)
    then (fs_region_reset rg, w)
    else (mk_region p (sess rg) (const rg) (staging_buf rg) 0, w).

(** ** Writing *)

Definition fs_sector_offset (c : fs_const) (sector_idx : Z) : Z :=
  (sector_base c + sector_idx) * FS_SECTOR_SIZE.

(** The assembled image of the sector: header, records, 0xFF. *)
Definition sector_image (rg : fs_region_t) : option (list Z) :=
  let buf := replicate (Z.to_nat FS_SECTOR_SIZE) 0xFF in
  buf ← arr_blit buf 0
    (header_bytes (seq_counter (ptrs rg)) (staging_count rg) (rec_size (const rg)));
  records ← arr_slice (staging_buf rg) 0 (u32 (staging_count rg * rec_size (const rg)));
  arr_blit buf FS_SECTOR_HEADER_SIZE records.

(** The pointer updates after a successful sector write. *)
Definition advance_write (c : fs_const) (p : fs_ptrs) : fs_ptrs :=
  let wr := (wr_sector p + 1) mod region_sectors c in
  let seq := u32 (seq_counter p + 1) in
  if valid_sectors p <? region_sectors c
  then mk_ptrs wr (rd_sector p) (u16 (valid_sectors p + 1)) (rd_rec_idx p) seq
  else mk_ptrs wr ((rd_sector p + 1) mod region_sectors c) (valid_sectors p) 0 seq.

Definition fs_flush_staging (rg : fs_region_t) (w : W) : option (fs_region_t * W * Z) :=
  if staging_count rg =? 0 then Some (rg, w, 0)
  else
    img ← sector_image rg;
    let '(w, ret) :=
      flash_area_write w (fs_sector_offset (const rg) (wr_sector (ptrs rg))) img in
    if negb (ret =? 0)
    then Some (set_staging (staging_buf rg) (u16 (staging_count rg - 1)) rg, w, ret)
    else if region_sectors (const rg) =? 0 then None
    else
      let rg := set_staging (staging_buf rg) 0
                  (set_ptrs (advance_write (const rg) (ptrs rg)) rg) in
      let '(w, ret) := fs_meta_save rg w in
      Some (rg, w, ret).

(** The [memset]/[memcpy] that build a record slot in the staging buffer. *)
Definition stage_record (rg : fs_region_t) (data : list Z) (data_len : Z)
  : option (list Z) :=
  let slot := u32 (staging_count rg * rec_size (const rg)) in
  b ← arr_fill (staging_buf rg) slot (rec_size (const rg)) 0;
  b ← arr_set b slot FS_REC_MAGIC;
  bytes ← arr_slice data 0 data_len;
  arr_blit b (slot + (rec_size (const rg) - data_len)) bytes.

Definition fs_region_push (rg : fs_region_t) (w : W) (data : list Z) (data_len : Z)
  : option (fs_region_t * W * Z) :=
  if upload_active (sess rg) && (rec_per_sector (const rg) <=? staging_count rg)
  then Some (rg, w, - EBUSY)
  else
    b ← stage_record rg data data_len;
    let rg := set_staging b (u16 (staging_count rg + 1)) rg in
    if (rec_per_sector (const rg) <=? staging_count rg) && negb (upload_active (sess rg))
    then fs_flush_staging rg w
    else Some (rg, w, 0).

(** ** Reading *)

(** 1 and the record, 0 for a slot without the record mark, or the driver's
    error; the slot buffer holds [FS_TAG_REC_SIZE] bytes. *)
Definition fs_read_flash_record (c : fs_const) (w : W) (sector_idx rec_idx data_len : Z)
  : option (W * Z * list Z) :=
  let offset := fs_sector_offset c sector_idx + FS_SECTOR_HEADER_SIZE + rec_idx * rec_size c in
  if FS_TAG_REC_SIZE <? rec_size c then None
  else
    let '(w, ret, slot) := flash_area_read w offset (rec_size c) in
    if negb (ret =? 0) then Some (w, ret, [])
    else
      mark ← arr_get slot 0;
      if negb (mark =? FS_REC_MAGIC) then Some (w, 0, [])
      else
        data ← arr_slice slot (rec_size c - data_len) data_len;
        Some (w, 1, data).

(** The records of FLASH not yet acknowledged. *)
Definition flash_total (rg : fs_region_t) : Z :=
  let total := u32 (valid_sectors (ptrs rg) * rec_per_sector (const rg)) in
  if rd_rec_idx (ptrs rg) <=? total then total - rd_rec_idx (ptrs rg) else 0.

(** The [while (rg_ptr->read_offset < flash_total)] loop; [n] bounds the number
    of slots left.  [inl] is a return from inside the loop. *)
Fixpoint read_loop (n : nat) (rg : fs_region_t) (w : W) (data_len : Z)
  : option (fs_region_t * W * option (Z * list Z)) :=
  match n with
  | O => Some (rg, w, None)
  | S n' =>
      if read_offset (sess rg) <? flash_total rg
      then
        let abs_rec := u32 (rd_rec_idx (ptrs rg) + read_offset (sess rg)) in
        if (rec_per_sector (const rg) =? 0) || (region_sectors (const rg) =? 0) then None
        else
          let sector_idx :=
            u16 ((rd_sector (ptrs rg) + abs_rec / rec_per_sector (const rg))
                   mod region_sectors (const rg)) in
          let rec_idx := u16 (abs_rec mod rec_per_sector (const rg)) in
          '(w, ret, data) ← fs_read_flash_record (const rg) w sector_idx rec_idx data_len;
          if ret <? 0 then Some (rg, w, Some (ret, []))
          else
            let s := sess rg in
            let rg := set_sess (mk_sess (u32 (read_offset s + 1)) (staging_read_idx s)
                                  (upload_staging_snap s) (upload_active s)) rg in
            if ret =? 1 then Some (rg, w, Some (1, data))
            else read_loop n' rg w data_len
      else Some (rg, w, None)
  end.

(** The session is opened by the first read when [upload_begin] was skipped. *)
Definition ensure_active (rg : fs_region_t) : fs_region_t :=
  if upload_active (sess rg) then rg
  else set_sess (mk_sess (read_offset (sess rg)) (staging_read_idx (sess rg))
                   (staging_count rg) true) rg.

Definition region_read_next (rg : fs_region_t) (w : W) (data_len : Z)
  : option (fs_region_t * W * Z * list Z) :=
  let rg := ensure_active rg in
  '(rg, w, out) ←
    read_loop (S (Z.to_nat (flash_total rg - read_offset (sess rg)))) rg w data_len;
  match out with
  | Some (ret, data) => Some (rg, w, ret, data)
  | None =>
      let s := sess rg in
      if staging_read_idx s <? upload_staging_snap s
      then
        let slot := u32 (staging_read_idx s * rec_size (const rg)) in
        data ← arr_slice (staging_buf rg) (slot + (rec_size (const rg) - data_len)) data_len;
        Some (set_sess (mk_sess (read_offset s) (u16 (staging_read_idx s + 1))
                          (upload_staging_snap s) (upload_active s)) rg, w, 1, data)
      else Some (rg, w, 0, [])
  end.

Definition region_rewind (rg : fs_region_t) : fs_region_t :=
  set_sess (mk_sess 0 0 0 false) rg.

Definition region_upload_begin (rg : fs_region_t) : fs_region_t :=
  set_sess (mk_sess 0 0 (staging_count rg) true) rg.

Definition region_pending_count (rg : fs_region_t) : Z :=
  u32 (flash_total rg + staging_count rg).

(** ** Reclaiming *)

(** The read pointers after the [abs_consumed] oldest records were acknowledged. *)
Definition advance_read (c : fs_const) (p : fs_ptrs) (abs_consumed : Z) : fs_ptrs :=
  let consumed_sectors := u16 (abs_consumed / rec_per_sector c) in
  let rd := if 0 <? consumed_sectors
            then (rd_sector p + consumed_sectors) mod region_sectors c else rd_sector p in
  let valid := if 0 <? consumed_sectors
               then if consumed_sectors <=? valid_sectors p
                    then valid_sectors p - consumed_sectors else 0
               else valid_sectors p in
  mk_ptrs (wr_sector p) rd valid (u16 (abs_consumed mod rec_per_sector c)) (seq_counter p).

(** The [memmove] that drops the acknowledged staged records. *)
Definition compact_staging (rg : fs_region_t) : option (list Z * Z) :=
  let idx := staging_read_idx (sess rg) in
  if 0 <? idx
  then
    let remain := if idx <=? staging_count rg then staging_count rg - idx else 0 in
    if 0 <? remain
    then
      rest ← arr_slice (staging_buf rg) (u32 (idx * rec_size (const rg)))
               (u32 (remain * rec_size (const rg)));
      b ← arr_blit (staging_buf rg) 0 rest;
      Some (b, remain)
    else Some (staging_buf rg, remain)
  else Some (staging_buf rg, staging_count rg).

Definition region_commit (rg : fs_region_t) (w : W) : option (fs_region_t * W * Z) :=
  if (rec_per_sector (const rg) =? 0) || (region_sectors (const rg) =? 0) then None
  else
    let abs_consumed := u32 (rd_rec_idx (ptrs rg) + read_offset (sess rg)) in
    '(b, n) ← compact_staging rg;
    let rg := mk_region (advance_read (const rg) (ptrs rg) abs_consumed)
                (mk_sess 0 0 0 false) (const rg) b n in
    let '(w, ret) := fs_meta_save rg w in
    Some (rg, w, ret).

(** ** The module: four regions and the public functions *)

Record fs_state := mk_fs {
  s_inited : bool;
  s_region : list fs_region_t;
  dev : W
}.

(** The public functions take the enumeration value as an integer. *)
Definition FS_TYPE_TAG : Z := 0.
Definition FS_TYPE_MAC : Z := 1.
Definition FS_TYPE_TH : Z := 2.
Definition FS_TYPE_BP : Z := 3.
Definition FS_TYPE_MAX : Z := 4.

Definition fs_get_region (st : fs_state) (type : Z) : option fs_region_t :=
  if FS_TYPE_MAX <=? type then None else arr_get (s_region st) type.

Definition put_region (st : fs_state) (type : Z) (rg : fs_region_t) (w : W) : fs_state :=
  mk_fs (s_inited st) (<[Z.to_nat type := rg]> (s_region st)) w.

(** [sizeof] of the four record types. *)
Definition type_data_len (type : Z) : option Z :=
  if type =? FS_TYPE_TAG then Some 92
  else if type =? FS_TYPE_MAC then Some 44
  else if type =? FS_TYPE_TH then Some 8
  else if type =? FS_TYPE_BP then Some 8
  else None.

Definition type_const (type : Z) : fs_const :=
  if type =? FS_TYPE_TAG then mk_const 0 96 ((4096 - 16) / 96) 12 27
  else if type =? FS_TYPE_MAC then mk_const 12 48 ((4096 - 16) / 48) 13 28
  else if type =? FS_TYPE_TH then mk_const 25 12 ((4096 - 16) / 12) 12 33
  else mk_const 37 12 ((4096 - 16) / 12) 13 34.

(** A region as [my_flash_store_init] fills it before the metadata is read;
    the staging arrays are static objects of [rec_per_sector] slots. *)
Definition fresh_region (type : Z) : fs_region_t :=
  let c := type_const type in
  mk_region (mk_ptrs 0 0 0 0 0) (mk_sess 0 0 0 false) c
    (replicate (Z.to_nat (rec_per_sector c * rec_size c)) 0) 0.

(** [open_ret] and [ready] are what [flash_area_open] and [device_is_ready] say. *)
Definition my_flash_store_init (st : fs_state) (open_ret : Z) (ready : bool) : fs_state * Z :=
  if s_inited st then (st, 0)
  else if negb (open_ret =? 0) then (st, open_ret)
  else if negb ready then (st, - ENODEV)
  else
    let '(tag, w) := fs_region_load (fresh_region FS_TYPE_TAG) (dev st) in
    let '(mac, w) := fs_region_load (fresh_region FS_TYPE_MAC) w in
    let '(th, w) := fs_region_load (fresh_region FS_TYPE_TH) w in
    let '(bp, w) := fs_region_load (fresh_region FS_TYPE_BP) w in
    (mk_fs true [tag; mac; th; bp] w, 0).

(** [my_flash_store_push_tag], [_mac], [_th] and [_bp] differ in the region and
    the record size only; a null record pointer is [None]. *)
Definition my_flash_store_push (type : Z) (st : fs_state) (rec : option (list Z))
  : option (fs_state * Z) :=
  match s_inited st, rec, arr_get (s_region st) type, type_data_len type with
  | true, Some data, Some rg, Some len =>
      '(rg, w, ret) ← fs_region_push rg (dev st) data len;
      Some (put_region st type rg w, ret)
  | true, Some _, _, _ => None
  | _, _, _, _ => Some (st, - EINVAL)
  end.

Definition my_flash_store_pending_count (st : fs_state) (type : Z) : Z :=
  match s_inited st, fs_get_region st type with
  | true, Some rg => region_pending_count rg
  | _, _ => 0
  end.

(** [out] is false for a null output pointer. *)
Definition my_flash_store_read_next (st : fs_state) (type : Z) (out : bool)
  : option (fs_state * Z * list Z) :=
  match s_inited st, fs_get_region st type, out, type_data_len type with
  | true, Some rg, true, Some len =>
      '(rg, w, ret, data) ← region_read_next rg (dev st) len;
      Some (put_region st type rg w, ret, data)
  | _, _, _, _ => Some (st, - EINVAL, [])
  end.

Definition my_flash_store_rewind (st : fs_state) (type : Z) : fs_state :=
  match s_inited st, fs_get_region st type with
  | true, Some rg => put_region st type (region_rewind rg) (dev st)
  | _, _ => st
  end.

Definition my_flash_store_upload_begin (st : fs_state) (type : Z) : fs_state :=
  match s_inited st, fs_get_region st type with
  | true, Some rg => put_region st type (region_upload_begin rg) (dev st)
  | _, _ => st
  end.

Definition my_flash_store_commit (st : fs_state) (type : Z) : option (fs_state * Z) :=
  match s_inited st, fs_get_region st type with
  | true, Some rg =>
      '(rg, w, ret) ← region_commit rg (dev st);
      Some (put_region st type rg w, ret)
  | _, _ => Some (st, - EINVAL)
  end.

Definition my_flash_store_clear (st : fs_state) (type : Z) : fs_state :=
  match s_inited st, fs_get_region st type with
  | true, Some rg =>
      let rg := fs_region_reset rg in
      let '(w, _) := fs_meta_save rg (dev st) in
      put_region st type rg w
  | _, _ => st
  end.
End store.

Arguments fs_state : clear implicits.
Arguments mk_fs {W} _ _ _.
Arguments s_inited {W} _.
Arguments s_region {W} _.
Arguments dev {W} _.
