(* ===== verification/FlashStoreProofs.v ===== *)
(** * The record queue implemented by [FlashStore]

    The invariant of a region, the list of pending records it stands for, and
    the behaviour of every operation on that list: a push appends, an upload
    session reads in order, a commit removes what was read, a power cut keeps
    what is in FLASH. *)

From S2P Require Import Prelude FlashStore.

(** ** Slots *)

Record const_ok (c : fs_const) : Prop := {
  co_rec : 5 <= rec_size c <= 96;
  co_rps : 1 <= rec_per_sector c;
  co_fit : 16 + rec_per_sector c * rec_size c <= 4096;
  co_rs : 1 <= region_sectors c;
  co_base : 0 <= sector_base c;
  co_part : sector_base c + region_sectors c <= 50
}.

(** The 4-byte mark in front of the payload. *)
Definition data_len (c : fs_const) : Z := rec_size c - 4.
Definition payload (s : list Z) : list Z := drop 4 s.
Definition marked (s : list Z) : Prop := s !! 0%nat = Some FS_REC_MAGIC.

(** The sector holding record [k] counted from the start of sector [rd]. *)
Definition slot_sector (c : fs_const) (rd k : Z) : Z :=
  (rd + k / rec_per_sector c) mod region_sectors c.

Definition slot_off (c : fs_const) (rd k : Z) : Z :=
  fs_sector_offset c (slot_sector c rd k) + FS_SECTOR_HEADER_SIZE
  + (k mod rec_per_sector c) * rec_size c.

Definition flash_slot (c : fs_const) (rd : Z) (mem : list Z) (k : Z) : option (list Z) :=
  arr_slice mem (slot_off c rd k) (rec_size c).

Definition staged_slot (c : fs_const) (b : list Z) (j : Z) : option (list Z) :=
  arr_slice b (j * rec_size c) (rec_size c).

Definition flash_rec c rd mem k : list Z := payload (default [] (flash_slot c rd mem k)).
Definition staged_rec c b j : list Z := payload (default [] (staged_slot c b j)).

Definition PARTITION : Z := FS_TOTAL_SECTORS * FS_SECTOR_SIZE.

Section slots.
Context (c : fs_const) (Hc : const_ok c).

Lemma slot_sector_range rd k : 0 <= slot_sector c rd k < region_sectors c.
Proof. apply Z.mod_pos_bound. destruct Hc; lia. Qed.

Lemma slot_rec_range k : 0 <= k mod rec_per_sector c < rec_per_sector c.
Proof. apply Z.mod_pos_bound. destruct Hc; lia. Qed.

(** A slot lies inside its sector, after the header. *)
Lemma slot_in_sector rd k :
  fs_sector_offset c (slot_sector c rd k) + 16 <= slot_off c rd k /\
  slot_off c rd k + rec_size c <= fs_sector_offset c (slot_sector c rd k) + 4096.
Proof.
  unfold slot_off, FS_SECTOR_HEADER_SIZE. pose proof (slot_rec_range k) as Hk.
  destruct Hc. split; nia.
Qed.

Lemma sector_in_partition i :
  0 <= i < region_sectors c ->
  0 <= fs_sector_offset c i /\ fs_sector_offset c i + 4096 <= PARTITION.
Proof.
  unfold fs_sector_offset, PARTITION, FS_SECTOR_SIZE, FS_TOTAL_SECTORS. destruct Hc. lia.
Qed.

Lemma flash_slot_Some rd mem k :
  zlen mem = PARTITION -> is_Some (flash_slot c rd mem k).
Proof.
  intros Hm. pose proof (slot_in_sector rd k) as [H1 H2].
  pose proof (sector_in_partition _ (slot_sector_range rd k)) as [H3 H4].
  apply arr_slice_is_Some; destruct Hc; lia.
Qed.

Lemma staged_slot_Some b j :
  zlen b = rec_per_sector c * rec_size c -> 0 <= j < rec_per_sector c ->
  is_Some (staged_slot c b j).
Proof. intros Hb Hj. apply arr_slice_is_Some; destruct Hc; nia. Qed.

(** Two sectors of the region do not overlap. *)
Lemma sectors_disjoint i j :
  i <> j ->
  fs_sector_offset c i + 4096 <= fs_sector_offset c j \/
  fs_sector_offset c j + 4096 <= fs_sector_offset c i.
Proof. unfold fs_sector_offset, FS_SECTOR_SIZE. lia. Qed.

(** Moving the origin by whole sectors. *)
Lemma slot_off_shift rd n k :
  slot_off c ((rd + n) mod region_sectors c) k
  = slot_off c rd (k + n * rec_per_sector c).
Proof.
  unfold slot_off, slot_sector. destruct Hc.
  rewrite Z.div_add, Z.mod_add by lia.
  rewrite Zplus_mod_idemp_l. do 4 f_equal. lia.
Qed.

(** A write to one sector leaves the slots of the others. *)
Lemma flash_slot_frame mem mem' rd k i :
  (forall off n, off + n <= fs_sector_offset c i \/ fs_sector_offset c i + 4096 <= off ->
     arr_slice mem' off n = arr_slice mem off n) ->
  slot_sector c rd k <> i -> flash_slot c rd mem' k = flash_slot c rd mem k.
Proof.
  intros Hf Hne. apply Hf. pose proof (slot_in_sector rd k) as [H1 H2].
  destruct (sectors_disjoint _ _ Hne); lia.
Qed.

(** The slots of the sector that was written are the staged slots. *)
Lemma flash_slot_written mem mem' rd q j b img :
  arr_blit mem (fs_sector_offset c ((rd + q) mod region_sectors c)) img = Some mem' ->
  (forall o n, 0 <= o -> 0 <= n -> o + n <= rec_per_sector c * rec_size c ->
     arr_slice img (16 + o) n = arr_slice b o n) ->
  zlen img = 4096 -> 0 <= j < rec_per_sector c ->
  flash_slot c rd mem' (q * rec_per_sector c + j) = staged_slot c b j.
Proof.
  intros Hb Himg Hl Hj. unfold flash_slot, staged_slot, slot_off, slot_sector.
  destruct Hc. rewrite (Z.add_comm (q * _)).
  rewrite Z.div_add, Z.mod_add, (Z.div_small j), (Z.mod_small j), Z.add_0_l by lia.
  rewrite <- Z.add_assoc. unfold FS_SECTOR_HEADER_SIZE.
  rewrite (arr_slice_blit_in _ _ _ _ _ _ Hb) by nia.
  apply Himg; nia.
Qed.
End slots.

(** ** The invariant of a region *)

Record region_inv (rg : fs_region_t) (mem : list Z) : Prop := {
  ri_const : const_ok (const rg);
  ri_buf : zlen (staging_buf rg) = rec_per_sector (const rg) * rec_size (const rg);
  ri_mem : zlen mem = PARTITION;
  ri_rd : 0 <= rd_sector (ptrs rg) < region_sectors (const rg);
  ri_valid : 0 <= valid_sectors (ptrs rg) <= region_sectors (const rg);
  ri_wr : wr_sector (ptrs rg)
          = (rd_sector (ptrs rg) + valid_sectors (ptrs rg)) mod region_sectors (const rg);
  ri_seq : 0 <= seq_counter (ptrs rg) < 4294967296;
  ri_rec : 0 <= rd_rec_idx (ptrs rg) < rec_per_sector (const rg);
  ri_empty : valid_sectors (ptrs rg) = 0 -> rd_rec_idx (ptrs rg) = 0;
  ri_count : 0 <= staging_count rg <= rec_per_sector (const rg);
  ri_read : 0 <= read_offset (sess rg) /\
            rd_rec_idx (ptrs rg) + read_offset (sess rg)
            <= valid_sectors (ptrs rg) * rec_per_sector (const rg);
  ri_sread : 0 <= staging_read_idx (sess rg) <= upload_staging_snap (sess rg) /\
             upload_staging_snap (sess rg) <= staging_count rg;
  ri_order : 0 < staging_read_idx (sess rg) ->
             rd_rec_idx (ptrs rg) + read_offset (sess rg)
             = valid_sectors (ptrs rg) * rec_per_sector (const rg);
  ri_idle : upload_active (sess rg) = false -> sess rg = mk_sess 0 0 0 false;
  ri_flash k :
    rd_rec_idx (ptrs rg) <= k < valid_sectors (ptrs rg) * rec_per_sector (const rg) ->
    exists s, flash_slot (const rg) (rd_sector (ptrs rg)) mem k = Some s /\ marked s;
  ri_staged j :
    0 <= j < staging_count rg ->
    exists s, staged_slot (const rg) (staging_buf rg) j = Some s /\ marked s
}.

(** The records in FLASH, the records in RAM, and all that wait for upload. *)
Definition flash_len (rg : fs_region_t) : Z :=
  valid_sectors (ptrs rg) * rec_per_sector (const rg) - rd_rec_idx (ptrs rg).
Definition flash_records (rg : fs_region_t) (mem : list Z) : list (list Z) :=
  flash_rec (const rg) (rd_sector (ptrs rg)) mem <$> seqZ (rd_rec_idx (ptrs rg)) (flash_len rg).
Definition staged_records (rg : fs_region_t) : list (list Z) :=
  staged_rec (const rg) (staging_buf rg) <$> seqZ 0 (staging_count rg).
Definition pending (rg : fs_region_t) (mem : list Z) : list (list Z) :=
  flash_records rg mem ++ staged_records rg.

(** What the current session has read, and what it will read at most. *)
Definition cursor (rg : fs_region_t) : Z :=
  read_offset (sess rg) + staging_read_idx (sess rg).
Definition snapshot (rg : fs_region_t) (mem : list Z) : list (list Z) :=
  take (Z.to_nat (flash_len rg + upload_staging_snap (sess rg))) (pending rg mem).

(** The next push cannot leave the staging buffer. *)
Definition push_safe (rg : fs_region_t) : Prop :=
  upload_active (sess rg) = true \/ staging_count rg < rec_per_sector (const rg).

Section region.
Implicit Types (rg : fs_region_t) (mem : list Z).

Lemma flash_len_nonneg rg mem : region_inv rg mem -> 0 <= flash_len rg.
Proof. intros []; unfold flash_len. lia. Qed.

Lemma zlen_flash_records rg mem : region_inv rg mem -> zlen (flash_records rg mem) = flash_len rg.
Proof.
  intros H. unfold flash_records, zlen. rewrite length_fmap, length_seqZ.
  pose proof (flash_len_nonneg rg mem H). lia.
Qed.

Lemma zlen_staged_records rg mem : region_inv rg mem -> zlen (staged_records rg) = staging_count rg.
Proof.
  intros H. unfold staged_records, zlen. rewrite length_fmap, length_seqZ. destruct H; lia.
Qed.

Lemma zlen_pending rg mem :
  region_inv rg mem -> zlen (pending rg mem) = flash_len rg + staging_count rg.
Proof.
  intros H. unfold pending. rewrite zlen_app, (zlen_flash_records rg mem H).
  by rewrite (zlen_staged_records rg mem H).
Qed.

Lemma flash_total_eq rg mem : region_inv rg mem -> flash_total rg = flash_len rg.
Proof.
  intros H. pose proof (flash_len_nonneg rg mem H). revert H0.
  unfold flash_total, flash_len. intros Hn. destruct H as [Hc]. destruct Hc.
  rewrite u32_small by nia. zcase; lia.
Qed.

(** Looking up a pending record. *)
Lemma pending_flash rg mem i :
  region_inv rg mem -> 0 <= i < flash_len rg ->
  pending rg mem !! Z.to_nat i =
    Some (flash_rec (const rg) (rd_sector (ptrs rg)) mem (rd_rec_idx (ptrs rg) + i)).
Proof.
  intros H Hi. unfold pending. rewrite lookup_app_l.
  - unfold flash_records. rewrite list_lookup_fmap, lookup_seqZ_lt by lia. simpl.
    do 2 f_equal. lia.
  - pose proof (zlen_flash_records rg mem H). unfold zlen in *. lia.
Qed.

Lemma pending_staged rg mem j :
  region_inv rg mem -> 0 <= j < staging_count rg ->
  pending rg mem !! Z.to_nat (flash_len rg + j) =
    Some (staged_rec (const rg) (staging_buf rg) j).
Proof.
  intros H Hj. pose proof (zlen_flash_records rg mem H) as Hz. unfold zlen in Hz.
  pose proof (flash_len_nonneg rg mem H).
  unfold pending. rewrite lookup_app_r by lia.
  unfold staged_records. rewrite list_lookup_fmap, lookup_seqZ_lt by lia. simpl.
  do 2 f_equal. lia.
Qed.
End region.

(** ** Staging a record *)

Section staging.
Context (rg : fs_region_t) (mem : list Z) (Hinv : region_inv rg mem).

Lemma stage_record_spec data :
  staging_count rg < rec_per_sector (const rg) ->
  zlen data = data_len (const rg) ->
  exists b,
    stage_record rg data (data_len (const rg)) = Some b /\
    zlen b = zlen (staging_buf rg) /\
    staged_slot (const rg) b (staging_count rg) = Some ([FS_REC_MAGIC; 0; 0; 0] ++ data) /\
    (forall j, 0 <= j < staging_count rg ->
       staged_slot (const rg) b j = staged_slot (const rg) (staging_buf rg) j).
Proof.
  intros Hcnt Hd. destruct Hinv as [Hc Hb _ _ _ _ _ _ _ Hn _ _ _ _ _ _].
  pose proof Hc as []. unfold data_len in *.
  set (rs := rec_size (const rg)) in *. set (n := staging_count rg) in *.
  unfold stage_record, arr_fill. fold rs n.
  rewrite u32_small by nia.
  assert (Hr4 : rs - (rs - 4) = 4) by lia. rewrite Hr4.
  destruct (arr_blit (staging_buf rg) (n * rs) (replicate (Z.to_nat rs) 0)) as [b1|] eqn:E1.
  2:{ rewrite arr_blit_Some in E1 by (rewrite ?zlen_replicate; nia). done. }
  pose proof (arr_blit_length _ _ _ _ E1) as L1. simpl.
  rewrite arr_set_blit.
  destruct (arr_blit b1 (n * rs) [FS_REC_MAGIC]) as [b2|] eqn:E2.
  2:{ rewrite arr_blit_Some in E2 by (rewrite ?zlen_cons, ?zlen_nil; nia). done. }
  pose proof (arr_blit_length _ _ _ _ E2) as L2. simpl.
  rewrite arr_slice_Some by (rewrite <- ?Hd; pose proof (zlen_nonneg data); lia).
  replace (take _ (drop (Z.to_nat 0) data)) with data
    by (rewrite drop_0, take_ge; [done|unfold zlen in Hd; lia]). simpl.
  destruct (arr_blit b2 (n * rs + 4) data) as [b3|] eqn:E3.
  2:{ rewrite arr_blit_Some in E3 by nia. done. }
  pose proof (arr_blit_length _ _ _ _ E3) as L3.
  exists b3. split; [done|]. split; [lia|]. split.
  - unfold staged_slot. fold rs. replace rs with (4 + zlen data) at 2 by lia.
    apply (arr_slice_split b3 [FS_REC_MAGIC; 0; 0; 0] data);
      [|by apply (arr_slice_blit b2)].
    rewrite (arr_slice_blit_disj _ _ _ _ _ _ E3) by lia.
    change 4 with (1 + 3). apply (arr_slice_split _ [FS_REC_MAGIC] [0; 0; 0]).
    + change 1 with (zlen [FS_REC_MAGIC]). by apply (arr_slice_blit b1).
    + rewrite (arr_slice_blit_disj _ _ _ _ _ _ E2) by (rewrite zlen_cons, zlen_nil; lia).
      rewrite (arr_slice_blit_in _ _ _ _ _ _ E1) by (rewrite ?zlen_replicate; lia).
      rewrite arr_slice_Some by (rewrite ?zlen_replicate; lia).
      f_equal. change (Z.to_nat 1) with 1%nat. change (Z.to_nat 3) with 3%nat.
      replace (Z.to_nat rs) with (S (S (S (S (Z.to_nat (rs - 4)))))) by lia. done.
  - intros j Hj. unfold staged_slot. fold rs.
    rewrite (arr_slice_blit_disj _ _ _ _ _ _ E3) by nia.
    rewrite (arr_slice_blit_disj _ _ _ _ _ _ E2) by nia.
    rewrite (arr_slice_blit_disj _ _ _ _ _ _ E1) by nia. done.
Qed.

(** The image of a full staging buffer. *)
Lemma sector_image_spec :
  staging_count rg = rec_per_sector (const rg) ->
  exists img,
    sector_image rg = Some img /\ zlen img = 4096 /\
    (forall o n, 0 <= o -> 0 <= n ->
       o + n <= rec_per_sector (const rg) * rec_size (const rg) ->
       arr_slice img (16 + o) n = arr_slice (staging_buf rg) o n).
Proof.
  intros Hcnt. destruct Hinv as [Hc Hb _ _ _ _ _ _ _ _ _ _ _ _ _ _].
  pose proof Hc as []. unfold sector_image.
  set (hdr := header_bytes _ _ _).
  assert (Hh : zlen hdr = 16) by reflexivity.
  set (buf0 := replicate (Z.to_nat FS_SECTOR_SIZE) 255).
  assert (H0 : zlen buf0 = 4096) by (unfold buf0; rewrite zlen_replicate; reflexivity).
  destruct (arr_blit buf0 0 hdr) as [b1|] eqn:E1.
  2:{ rewrite arr_blit_Some in E1 by lia. done. }
  pose proof (arr_blit_length _ _ _ _ E1) as L1. simpl.
  rewrite Hcnt, u32_small by nia.
  destruct (arr_slice (staging_buf rg) 0 (rec_per_sector (const rg) * rec_size (const rg)))
    as [recs|] eqn:E2.
  2:{ rewrite arr_slice_Some in E2 by nia. done. }
  pose proof (arr_slice_length _ _ _ _ E2) as L2. simpl.
  unfold FS_SECTOR_HEADER_SIZE.
  destruct (arr_blit b1 16 recs) as [img|] eqn:E3.
  2:{ rewrite arr_blit_Some in E3 by lia. done. }
  pose proof (arr_blit_length _ _ _ _ E3) as L3.
  exists img. split; [done|]. split; [lia|]. intros o n Ho Hn Hon.
  rewrite (arr_slice_blit_in _ _ _ _ _ _ E3) by lia.
  by rewrite (arr_slice_slice _ _ _ _ _ _ E2) by lia.
Qed.
End staging.

(** ** What pushes and flushes do to the pending records *)

Section push.
Implicit Types (rg : fs_region_t) (mem : list Z).

Lemma inv_stage rg mem data b :
  region_inv rg mem -> staging_count rg < rec_per_sector (const rg) ->
  zlen b = zlen (staging_buf rg) ->
  staged_slot (const rg) b (staging_count rg) = Some ([FS_REC_MAGIC; 0; 0; 0] ++ data) ->
  (forall j, 0 <= j < staging_count rg ->
     staged_slot (const rg) b j = staged_slot (const rg) (staging_buf rg) j) ->
  region_inv (set_staging b (staging_count rg + 1) rg) mem /\
  pending (set_staging b (staging_count rg + 1) rg) mem = pending rg mem ++ [data].
Proof.
  intros H Hlt Hb Hnew Hold. split.
  - destruct H. split; simpl; auto; try lia.
    intros j Hj. destruct (Z.eqb_spec j (staging_count rg)) as [->|].
    + rewrite Hnew. eexists; split; [done|]. done.
    + rewrite Hold by lia. apply ri_staged0. lia.
  - unfold pending. rewrite <- app_assoc. f_equal.
    unfold staged_records. simpl. rewrite fmap_seqZ_S by (destruct H; lia).
    f_equal.
    + apply fmap_seqZ_ext. intros j Hj. unfold staged_rec. rewrite Hold by lia. done.
    + unfold staged_rec. rewrite Z.add_0_l, Hnew. done.
Qed.

(** The sector that is written holds none of the records that stay. *)
Lemma wr_not_slot c rd valid k :
  const_ok c -> 0 <= valid <= region_sectors c ->
  0 <= k -> k / rec_per_sector c < valid -> 
  valid < region_sectors c \/ 1 <= k / rec_per_sector c ->
  slot_sector c rd k <> (rd + valid) mod region_sectors c.
Proof.
  intros Hc Hv Hk Hq Hor E. unfold slot_sector in E.
  assert (0 <= k / rec_per_sector c) by (apply Z.div_pos; destruct Hc; lia).
  assert (Hm : (valid - k / rec_per_sector c) mod region_sectors c = 0).
  { replace (valid - k / rec_per_sector c)
      with ((rd + valid) - (rd + k / rec_per_sector c)) by lia.
    rewrite Zminus_mod, E, Z.sub_diag. apply Z.mod_0_l. destruct Hc; lia. }
  rewrite Z.mod_small in Hm by lia. lia.
Qed.

(** A window of [n] records that slides by [m] over [f] and then [h]. *)
Lemma records_slide (f g h : Z -> list Z) r m n :
  0 <= r <= m -> m <= n ->
  (forall k, m <= k < n -> g (k - m) = f k) ->
  (forall j, 0 <= j < m -> g (n - m + j) = h j) ->
  g <$> seqZ 0 n = drop (Z.to_nat (m - r)) ((f <$> seqZ r (n - r)) ++ (h <$> seqZ 0 m)).
Proof.
  intros Hr Hm Hf Hh.
  rewrite drop_app_le by (rewrite length_fmap, length_seqZ; lia).
  rewrite drop_fmap_seqZ by lia.
  replace n with ((n - m) + m) at 1 by lia. rewrite fmap_seqZ_app by lia. f_equal.
  - replace (r + (m - r)) with (0 + m) by lia. replace (n - r - (m - r)) with (n - m) by lia.
    rewrite fmap_seqZ_shift. apply fmap_seqZ_ext. intros k Hk.
    rewrite <- Hf by lia. f_equal. lia.
  - rewrite fmap_seqZ_shift. apply fmap_seqZ_ext. intros j Hj.
    rewrite <- Hh by lia. f_equal. lia.
Qed.

Definition flushed rg : fs_region_t :=
  set_staging (staging_buf rg) 0 (set_ptrs (advance_write (const rg) (ptrs rg)) rg).

Section flush.
Context rg mem mem' img
  (Hinv : region_inv rg mem)
  (Hfull : staging_count rg = rec_per_sector (const rg))
  (Hidle : upload_active (sess rg) = false)
  (Himg : forall o n, 0 <= o -> 0 <= n ->
     o + n <= rec_per_sector (const rg) * rec_size (const rg) ->
     arr_slice img (16 + o) n = arr_slice (staging_buf rg) o n)
  (Hlen : zlen img = 4096)
  (Hw : arr_blit mem (fs_sector_offset (const rg) (wr_sector (ptrs rg))) img = Some mem').

Lemma flush_frame k :
  0 <= k -> k / rec_per_sector (const rg) < valid_sectors (ptrs rg) ->
  valid_sectors (ptrs rg) < region_sectors (const rg) \/ 1 <= k / rec_per_sector (const rg) ->
  flash_slot (const rg) (rd_sector (ptrs rg)) mem' k
  = flash_slot (const rg) (rd_sector (ptrs rg)) mem k.
Proof.
  intros Hk Hq Hor. pose proof (ri_const _ _ Hinv) as Hc.
  apply (flash_slot_frame _ Hc) with (i := wr_sector (ptrs rg)).
  - intros off n Hd. apply (arr_slice_blit_disj _ _ _ _ _ _ Hw). lia.
  - rewrite (ri_wr _ _ Hinv). apply wr_not_slot; auto. apply (ri_valid _ _ Hinv).
Qed.

Lemma flush_new rd q j :
  wr_sector (ptrs rg) = (rd + q) mod region_sectors (const rg) ->
  0 <= j < rec_per_sector (const rg) ->
  flash_slot (const rg) rd mem' (q * rec_per_sector (const rg) + j)
  = staged_slot (const rg) (staging_buf rg) j.
Proof.
  intros E Hj. pose proof (ri_const _ _ Hinv) as Hc. rewrite E in Hw.
  by apply (flash_slot_written _ Hc mem mem' rd q j (staging_buf rg) img).
Qed.

(** Room left: every record is kept. *)
Lemma flush_room :
  valid_sectors (ptrs rg) < region_sectors (const rg) ->
  region_inv (flushed rg) mem' /\ pending (flushed rg) mem' = pending rg mem.
Proof.
  intros Hroom. pose proof (ri_const _ _ Hinv) as Hc. pose proof Hc as [].
  pose proof (ri_rec _ _ Hinv). pose proof (ri_valid _ _ Hinv).
  set (c := const rg) in *. set (p := ptrs rg) in *.
  assert (Hp : advance_write c p =
    mk_ptrs ((wr_sector p + 1) mod region_sectors c) (rd_sector p)
      (valid_sectors p + 1) (rd_rec_idx p) (u32 (seq_counter p + 1))).
  { unfold advance_write. rewrite (proj2 (Z.ltb_lt _ _)) by lia.
    rewrite u16_small by lia. done. }
  assert (Hold : forall k, rd_rec_idx p <= k < valid_sectors p * rec_per_sector c ->
    flash_slot c (rd_sector p) mem' k = flash_slot c (rd_sector p) mem k).
  { intros k Hk. apply flush_frame; [lia| |left; done].
    apply Z.div_lt_upper_bound; fold c p; lia. }
  assert (Hnew : forall j, 0 <= j < rec_per_sector c ->
    flash_slot c (rd_sector p) mem' (valid_sectors p * rec_per_sector c + j)
    = staged_slot c (staging_buf rg) j).
  { intros j Hj. apply flush_new; [apply (ri_wr _ _ Hinv)|done]. }
  unfold flushed. fold c p. rewrite Hp. split.
  - destruct Hinv as [_ Hb Hm Hrd _ Hwr Hseq _ Hempty _ _ _ _ Hi Hf Hs].
    pose proof (Hi Hidle) as Hse.
    split; simpl; fold c p; rewrite ?Hse; simpl; auto; try lia.
    + by rewrite (arr_blit_length _ _ _ _ Hw).
    + fold c p in Hwr. rewrite Hwr, Zplus_mod_idemp_l. f_equal; lia.
    + apply u32_range.
    + intros k Hk. destruct (Z.ltb_spec k (valid_sectors p * rec_per_sector c)).
      * rewrite Hold by lia. apply Hf. fold c p. lia.
      * replace k with (valid_sectors p * rec_per_sector c
                        + (k - valid_sectors p * rec_per_sector c)) by lia.
        rewrite Hnew by lia. apply Hs. rewrite Hfull. lia.
  - unfold pending, flash_records, staged_records, flash_len; simpl. fold c p.
    rewrite Hfull. rewrite app_nil_r.
    replace ((valid_sectors p + 1) * rec_per_sector c - rd_rec_idx p)
      with (valid_sectors p * rec_per_sector c - rd_rec_idx p + rec_per_sector c) by lia.
    assert (0 <= valid_sectors p * rec_per_sector c - rd_rec_idx p)
      by apply (flash_len_nonneg _ _ Hinv).
    rewrite fmap_seqZ_app by lia. f_equal.
    + apply fmap_seqZ_ext. intros k Hk. unfold flash_rec. by rewrite Hold by lia.
    + replace (rd_rec_idx p + (valid_sectors p * rec_per_sector c - rd_rec_idx p))
        with (0 + valid_sectors p * rec_per_sector c) by lia.
      rewrite fmap_seqZ_shift. apply fmap_seqZ_ext. intros j Hj.
      unfold flash_rec, staged_rec. rewrite Z.add_comm, Hnew by lia. done.
Qed.

(** Region full: the oldest sector is given up. *)
Lemma flush_full :
  valid_sectors (ptrs rg) = region_sectors (const rg) ->
  region_inv (flushed rg) mem' /\
  pending (flushed rg) mem'
  = drop (Z.to_nat (rec_per_sector (const rg) - rd_rec_idx (ptrs rg))) (pending rg mem).
Proof.
  intros Hfl. pose proof (ri_const _ _ Hinv) as Hc. pose proof Hc as [].
  pose proof (ri_rec _ _ Hinv).
  set (c := const rg) in *. set (p := ptrs rg) in *.
  assert (Hp : advance_write c p =
    mk_ptrs ((wr_sector p + 1) mod region_sectors c) ((rd_sector p + 1) mod region_sectors c)
      (region_sectors c) 0 (u32 (seq_counter p + 1))).
  { unfold advance_write. rewrite (proj2 (Z.ltb_ge _ _)) by lia. by rewrite Hfl. }
  assert (Hsh : forall m k, flash_slot c ((rd_sector p + 1) mod region_sectors c) m k
                            = flash_slot c (rd_sector p) m (k + rec_per_sector c)).
  { intros m k. unfold flash_slot. rewrite slot_off_shift by done. do 2 f_equal. lia. }
  assert (Hold : forall k, rec_per_sector c <= k < region_sectors c * rec_per_sector c ->
    flash_slot c (rd_sector p) mem' k = flash_slot c (rd_sector p) mem k).
  { intros k Hk. apply flush_frame; [lia| |right; apply Z.div_le_lower_bound; fold c p; lia].
    apply Z.div_lt_upper_bound; fold c p; lia. }
  assert (Hnew : forall j, 0 <= j < rec_per_sector c ->
    flash_slot c (rd_sector p) mem' (region_sectors c * rec_per_sector c + j)
    = staged_slot c (staging_buf rg) j).
  { intros j Hj. apply flush_new; [|done]. rewrite (ri_wr _ _ Hinv). by fold p c; rewrite Hfl. }
  unfold flushed. fold c p. rewrite Hp. split.
  - destruct Hinv as [_ Hb Hm Hrd _ Hwr Hseq _ Hempty _ _ _ _ Hi Hf Hs].
    pose proof (Hi Hidle) as Hse. fold c p in Hwr, Hf. rewrite Hfl in Hf.
    split; simpl; fold c p; rewrite ?Hse; simpl; auto; try lia.
    + by rewrite (arr_blit_length _ _ _ _ Hw).
    + apply Z.mod_pos_bound. lia.
    + rewrite Hwr, Hfl, !Zplus_mod_idemp_l. f_equal; lia.
    + apply u32_range.
    + intros k Hk. rewrite Hsh.
      destruct (Z.ltb_spec (k + rec_per_sector c) (region_sectors c * rec_per_sector c)).
      * rewrite Hold by lia. apply Hf. lia.
      * replace (k + rec_per_sector c) with (region_sectors c * rec_per_sector c
          + (k + rec_per_sector c - region_sectors c * rec_per_sector c)) by lia.
        rewrite Hnew by lia. apply Hs. rewrite Hfull. lia.
  - unfold pending, flash_records, staged_records, flash_len; simpl. fold c p.
    rewrite Hfull, Hfl, app_nil_r, Z.sub_0_r.
    apply records_slide; [lia|nia| |].
    + intros k Hk. unfold flash_rec. rewrite Hsh, Z.sub_add, Hold by lia. done.
    + intros j Hj. unfold flash_rec, staged_rec. rewrite Hsh, <- Hnew by lia.
      do 3 f_equal. lia.
Qed.
End flush.
End push.

(** ** The operations on a device *)

Section ops.
Context {W : Type} {SIO : StorageIO W} {HL : StorageLaws W}.
Implicit Types (rg : fs_region_t) (w : W).

(** A write of one sector, whatever it reports, keeps the size of the
    partition. *)
Lemma flash_write_size w w' off bs r :
  flash_area_write w off bs = (w', r) -> 0 <= off -> off + zlen bs <= PARTITION ->
  zlen (flash_view w) = PARTITION -> zlen (flash_view w') = PARTITION.
Proof.
  intros E Ho Hb Hl. pose proof (zlen_nonneg bs).
  pose proof (law_write_frame _ _ _ _ _ PARTITION 0 E ltac:(lia)) as E0.
  pose proof (law_write_frame _ _ _ _ _ PARTITION 1 E ltac:(lia)) as E1.
  unfold arr_slice in E0, E1.
  change (0 <=? PARTITION) with true in *. simpl in E0, E1.
  destruct (Z.leb_spec (PARTITION + 0) (zlen (flash_view w))); [|lia].
  destruct (Z.leb_spec (PARTITION + 1) (zlen (flash_view w))); [lia|].
  destruct (Z.leb_spec (PARTITION + 0) (zlen (flash_view w'))); [|done].
  destruct (Z.leb_spec (PARTITION + 1) (zlen (flash_view w'))); [done|]. lia.
Qed.

(** The metadata of a region, saved. *)
Definition synced rg w : Prop :=
  zms_view w (zms_id (const rg)) = Some (meta_bytes (region_meta rg)).

Lemma fs_meta_save_flash rg w w' r :
  fs_meta_save rg w = (w', r) -> flash_view w' = flash_view w.
Proof.
  unfold fs_meta_save, my_user_data_write. simpl.
  destruct (zms_write w _ _) as [w1 r1] eqn:E. apply law_zms_write_flash in E.
  by zcase; intros [= <- <-].
Qed.

Lemma fs_meta_save_sync rg w w' :
  fs_meta_save rg w = (w', 0) -> synced rg w'.
Proof.
  unfold fs_meta_save, my_user_data_write. simpl.
  destruct (zms_write w _ _) as [w1 r1] eqn:E. zcase; [|done]. intros [= <-].
  apply (law_zms_write_ok _ _ _ _ _ E); [done|]. left. done.
Qed.

Lemma fs_meta_save_ret rg w w' r : fs_meta_save rg w = (w', r) -> r = 0 \/ r = - EIO.
Proof.
  unfold fs_meta_save, my_user_data_write. simpl.
  destruct (zms_write w _ _) as [w1 r1]. zcase; intros [= <- <-]; auto.
Qed.

(** What a push does to the queue. *)
Inductive push_outcome rg w (data : list Z) : fs_region_t -> W -> Z -> Prop :=
| push_busy :
    upload_active (sess rg) = true -> staging_count rg = rec_per_sector (const rg) ->
    push_outcome rg w data rg w (- EBUSY)
| push_kept rg' w' r :
    region_inv rg' (flash_view w') -> push_safe rg' -> sess rg' = sess rg ->
    pending rg' (flash_view w') = pending rg (flash_view w) ++ [data] ->
    r = 0 \/ (r = - EIO /\ upload_active (sess rg) = false) ->
    push_outcome rg w data rg' w' r
| push_evicts rg' w' r :
    region_inv rg' (flash_view w') -> push_safe rg' ->
    upload_active (sess rg) = false ->
    valid_sectors (ptrs rg) = region_sectors (const rg) ->
    pending rg' (flash_view w')
    = drop (Z.to_nat (rec_per_sector (const rg) - rd_rec_idx (ptrs rg)))
        (pending rg (flash_view w) ++ [data]) ->
    r = 0 \/ r = - EIO ->
    push_outcome rg w data rg' w' r
| push_fails rg' w' r :
    r <> 0 -> push_safe rg' ->
    upload_active (sess rg) = false ->
    staging_count rg + 1 = rec_per_sector (const rg) ->
    ptrs rg' = ptrs rg -> sess rg' = sess rg -> const rg' = const rg ->
    staged_records rg' = staged_records rg ->
    (forall k, rec_per_sector (const rg) <= k < valid_sectors (ptrs rg) * rec_per_sector (const rg) ->
       flash_slot (const rg) (rd_sector (ptrs rg)) (flash_view w') k
       = flash_slot (const rg) (rd_sector (ptrs rg)) (flash_view w) k) ->
    (valid_sectors (ptrs rg) < region_sectors (const rg) ->
       region_inv rg' (flash_view w') /\
       pending rg' (flash_view w') = pending rg (flash_view w)) ->
    push_outcome rg w data rg' w' r.

(** A flush of a full staging buffer writes one sector and nothing else. *)
Lemma fs_flush_outcome rg w :
  region_inv rg (flash_view w) -> upload_active (sess rg) = false ->
  staging_count rg = rec_per_sector (const rg) ->
  exists rg' w' r, fs_flush_staging rg w = Some (rg', w', r) /\
    ((rg' = flushed rg /\ (r = 0 \/ r = - EIO) /\ region_inv rg' (flash_view w') /\
      pending rg' (flash_view w') =
        if valid_sectors (ptrs rg) <? region_sectors (const rg)
        then pending rg (flash_view w)
        else drop (Z.to_nat (rec_per_sector (const rg) - rd_rec_idx (ptrs rg)))
               (pending rg (flash_view w)))
     \/ (r <> 0 /\ rg' = set_staging (staging_buf rg) (u16 (staging_count rg - 1)) rg /\
         zlen (flash_view w') = PARTITION /\
         forall k, 0 <= k < valid_sectors (ptrs rg) * rec_per_sector (const rg) ->
           valid_sectors (ptrs rg) < region_sectors (const rg)
             \/ rec_per_sector (const rg) <= k ->
           flash_slot (const rg) (rd_sector (ptrs rg)) (flash_view w') k
           = flash_slot (const rg) (rd_sector (ptrs rg)) (flash_view w) k)).
Proof.
  intros Hinv Hidle Hfull. pose proof (ri_const _ _ Hinv) as Hc. pose proof Hc as [].
  destruct (sector_image_spec rg _ Hinv Hfull) as (img & Eimg & Hl & Himg).
  unfold fs_flush_staging. rewrite (proj2 (Z.eqb_neq _ _)) by lia. rewrite Eimg. simpl.
  destruct (flash_area_write w _ img) as [w1 r1] eqn:Ew.
  destruct (Z.eqb_spec r1 0) as [->|Hr1]; simpl.
  - rewrite (proj2 (Z.eqb_neq _ _)) by lia.
    fold (flushed rg). destruct (fs_meta_save (flushed rg) w1) as [w2 r2] eqn:Em.
    exists (flushed rg), w2, r2. split; [done|]. left. split; [done|].
    split; [eapply fs_meta_save_ret; done|]. rewrite (fs_meta_save_flash _ _ _ _ Em).
    pose proof (law_write_ok _ _ _ _ Ew) as Hb. pose proof (ri_valid _ _ Hinv).
    destruct (Z.ltb_spec (valid_sectors (ptrs rg)) (region_sectors (const rg))).
    + by apply (flush_room rg (flash_view w) (flash_view w1) img).
    + apply (flush_full rg (flash_view w) (flash_view w1) img); auto; lia.
  - eexists _, _, _. split; [done|]. right. split; [done|]. split; [done|].
    pose proof (ri_wr _ _ Hinv) as Hwr. pose proof (ri_valid _ _ Hinv).
    assert (Hs : 0 <= wr_sector (ptrs rg) < region_sectors (const rg))
      by (rewrite Hwr; apply Z.mod_pos_bound; lia).
    pose proof (sector_in_partition _ Hc _ Hs) as [Hlo Hhi]. split.
    + apply (flash_write_size _ _ _ _ _ Ew); [lia|lia|apply (ri_mem _ _ Hinv)].
    + intros k Hk Hor. apply (flash_slot_frame _ Hc _ _ _ _ (wr_sector (ptrs rg))).
      * intros off n Hd. apply (law_write_frame _ _ _ _ _ _ _ Ew). lia.
      * rewrite Hwr. apply wr_not_slot; auto; [lia|apply Z.div_lt_upper_bound; lia|].
        destruct Hor; [by left|right; apply Z.div_le_lower_bound; lia].
Qed.

(** Taking the record back out of the staging buffer. *)
Lemma inv_unstage rg mem b :
  region_inv rg mem -> zlen b = zlen (staging_buf rg) ->
  (forall j, 0 <= j < staging_count rg ->
     staged_slot (const rg) b j = staged_slot (const rg) (staging_buf rg) j) ->
  forall mem', zlen mem' = PARTITION ->
  (forall k, 0 <= k < valid_sectors (ptrs rg) * rec_per_sector (const rg) ->
     flash_slot (const rg) (rd_sector (ptrs rg)) mem' k
     = flash_slot (const rg) (rd_sector (ptrs rg)) mem k) ->
  region_inv (set_staging b (staging_count rg) rg) mem' /\
  pending (set_staging b (staging_count rg) rg) mem' = pending rg mem.
Proof.
  intros H Hb Hold mem' Hm Hfr. split.
  - destruct H. split; simpl; auto; try lia.
    + intros k Hk. rewrite Hfr by lia. auto.
    + intros j Hj. rewrite Hold by lia. auto.
  - unfold pending, flash_records, staged_records, flash_len; simpl. f_equal.
    + apply fmap_seqZ_ext. intros k Hk. unfold flash_rec. rewrite Hfr; [done|].
      destruct H; lia.
    + apply fmap_seqZ_ext. intros j Hj. unfold staged_rec. by rewrite Hold by lia.
Qed.

(** A push never leaves the staging buffer, as long as the buffer is not
    already full outside a session.  It appends the record to the pending
    queue; or it refuses the record because a session is open and the
    buffer is full; or the region was full and the oldest sector's unread
    records are given up for it; or the sector could not be written, the
    record is taken back, and nothing else is lost unless the region was
    full, in which case at most the oldest sector is. *)
Lemma fs_region_push_spec rg w data :
  region_inv rg (flash_view w) -> push_safe rg -> zlen data = data_len (const rg) ->
  exists rg' w' r,
    fs_region_push rg w data (data_len (const rg)) = Some (rg', w', r) /\
    push_outcome rg w data rg' w' r.
Proof.
  intros Hinv Hsafe Hd. pose proof (ri_const _ _ Hinv) as Hc. pose proof Hc as [].
  pose proof (ri_count _ _ Hinv) as Hn. unfold fs_region_push.
  destruct (Z.leb_spec (rec_per_sector (const rg)) (staging_count rg)) as [Hge|Hlt].
  { destruct Hsafe as [Ha|]; [|lia]. rewrite Ha. simpl.
    eexists _, _, _. split; [done|]. constructor; [done|lia]. }
  rewrite andb_false_r.
  destruct (stage_record_spec rg _ Hinv data Hlt Hd) as (b & -> & Hb & Hnew & Hold).
  simpl. rewrite u16_small by nia.
  destruct (inv_stage rg _ data b Hinv Hlt Hb Hnew Hold) as [Hinv1 Hp1].
  set (rg1 := set_staging b (staging_count rg + 1) rg) in *.
  destruct (Z.leb_spec (rec_per_sector (const rg)) (staging_count rg + 1)); simpl.
  2:{ eexists _, _, _. split; [done|]. apply push_kept; auto. right. simpl. lia. }
  destruct (upload_active (sess rg)) eqn:Ha; simpl.
  { eexists _, _, _. split; [done|]. apply push_kept; auto. left. done. }
  destruct (fs_flush_outcome rg1 w Hinv1 Ha ltac:(simpl; lia))
    as (rg' & w' & r & Ef & [(-> & Hr & Hi' & Hp')|(Hr & -> & Hsz & Hfr)]);
    eexists _, _, _; (split; [exact Ef|]).
  - pose proof (ri_valid _ _ Hinv). assert (push_safe (flushed rg1)) by (right; simpl; lia).
    simpl in Hp'. zcase_in Hp'.
    + apply push_kept; auto; [congruence|]. destruct Hr; auto.
    + apply push_evicts; auto; [lia|]. congruence.
  - simpl in *. rewrite u16_small by nia. rewrite Z.add_simpl_r.
    apply push_fails; auto; [lia| | |].
    + apply fmap_seqZ_ext. intros j Hj. unfold staged_rec; simpl. by rewrite Hold by lia.
    + intros k Hk. apply Hfr; lia.
    + intros Hroom. apply (inv_unstage rg _ b Hinv Hb Hold _ Hsz). auto.
Qed.

(** *** Reading *)

Lemma payload_slice rs s : 4 <= rs -> zlen s = rs ->
  arr_slice s (rs - (rs - 4)) (rs - 4) = Some (payload s).
Proof.
  intros H4 Hs. rewrite arr_slice_Some by lia. f_equal. unfold payload.
  replace (Z.to_nat (rs - (rs - 4))) with 4%nat by lia.
  apply take_ge. rewrite length_drop. unfold zlen in Hs. lia.
Qed.

(** The driver reports error [r] for a read inside the partition. *)
Definition read_fails w (r : Z) : Prop :=
  r < 0 /\ exists off n w' bs, 0 <= off /\ 0 <= n /\ off + n <= PARTITION /\
    flash_area_read w off n = (w', r, bs).

(** Reading slot [k] of FLASH through the driver. *)
Lemma fs_read_flash_record_spec rg w k :
  region_inv rg (flash_view w) ->
  rd_rec_idx (ptrs rg) <= k < valid_sectors (ptrs rg) * rec_per_sector (const rg) ->
  exists w' r data,
    fs_read_flash_record (const rg) w (slot_sector (const rg) (rd_sector (ptrs rg)) k)
      (k mod rec_per_sector (const rg)) (data_len (const rg)) = Some (w', r, data) /\
    flash_view w' = flash_view w /\ (forall id, zms_view w' id = zms_view w id) /\
    (read_fails w r \/
     r = 1 /\ data = flash_rec (const rg) (rd_sector (ptrs rg)) (flash_view w) k).
Proof.
  intros Hinv Hk. pose proof (ri_const _ _ Hinv) as Hc. pose proof Hc as [].
  unfold fs_read_flash_record, FS_TAG_REC_SIZE. rewrite (proj2 (Z.ltb_ge _ _)) by lia.
  destruct (flash_area_read w _ _) as [[w1 r1] slot] eqn:Er.
  pose proof (law_read_pure _ _ _ _ _ _ Er) as [Hv Hz].
  pose proof (law_read_ret _ _ _ _ _ _ Er) as Hret.
  destruct (Z.eqb_spec r1 0) as [->|]; simpl.
  2:{ eexists _, _, _. repeat (split; [done|]). left. split; [lia|].
      pose proof (slot_in_sector _ Hc (rd_sector (ptrs rg)) k) as [H1 H2].
      pose proof (sector_in_partition _ Hc _ (slot_sector_range _ Hc (rd_sector (ptrs rg)) k)).
      unfold slot_off in *. eexists _, _, _, _. split; [|split; [|split; [|exact Er]]]; lia. }
  apply law_read_ok in Er.
  fold (slot_off (const rg) (rd_sector (ptrs rg)) k) in Er.
  destruct (ri_flash _ _ Hinv k Hk) as (s & Es & Hs).
  unfold flash_slot in Es. rewrite Er in Es. injection Es as ->.
  pose proof (arr_slice_length _ _ _ _ Er) as Hl.
  unfold arr_get. simpl. change (Z.to_nat 0) with 0%nat. rewrite Hs. simpl.
  unfold data_len. rewrite payload_slice by lia. simpl.
  eexists _, _, _. repeat (split; [done|]). right. split; [done|].
  unfold flash_rec, flash_slot. by rewrite Er.
Qed.

(** The session state after reading one record. *)
Definition bump_flash rg : fs_region_t :=
  set_sess (mk_sess (read_offset (sess rg) + 1) (staging_read_idx (sess rg))
              (upload_staging_snap (sess rg)) (upload_active (sess rg))) rg.
Definition bump_staged rg : fs_region_t :=
  set_sess (mk_sess (read_offset (sess rg)) (staging_read_idx (sess rg) + 1)
              (upload_staging_snap (sess rg)) (upload_active (sess rg))) rg.

Lemma inv_bump_flash rg mem :
  region_inv rg mem -> upload_active (sess rg) = true ->
  read_offset (sess rg) < flash_len rg -> region_inv (bump_flash rg) mem.
Proof.
  intros Hinv Ha Hlt. unfold flash_len in Hlt. destruct Hinv.
  split; simpl; auto; try lia; congruence.
Qed.

Lemma inv_bump_staged rg mem :
  region_inv rg mem -> upload_active (sess rg) = true ->
  read_offset (sess rg) = flash_len rg ->
  staging_read_idx (sess rg) < upload_staging_snap (sess rg) ->
  region_inv (bump_staged rg) mem.
Proof.
  intros Hinv Ha Heq Hlt. unfold flash_len in Heq. destruct Hinv.
  split; simpl; auto; try lia; congruence.
Qed.

Lemma read_offset_le rg mem : region_inv rg mem -> 0 <= read_offset (sess rg) <= flash_len rg.
Proof. intros []. unfold flash_len. lia. Qed.

Lemma flash_len_bound rg mem : region_inv rg mem -> flash_len rg < 4294967295.
Proof. intros [Hc]. destruct Hc. unfold flash_len. nia. Qed.

(** The loop over FLASH ends in its first round: a record, an error, or
    nothing left. *)
Lemma read_loop_spec rg w n :
  region_inv rg (flash_view w) ->
  exists w', flash_view w' = flash_view w /\ (forall id, zms_view w' id = zms_view w id) /\
    ((flash_len rg <= read_offset (sess rg) /\
      read_loop (S n) rg w (data_len (const rg)) = Some (rg, w', None)) \/
     (read_offset (sess rg) < flash_len rg /\
      ((exists r, read_fails w r /\
          read_loop (S n) rg w (data_len (const rg)) = Some (rg, w', Some (r, []))) \/
       read_loop (S n) rg w (data_len (const rg))
       = Some (bump_flash rg, w',
           Some (1, flash_rec (const rg) (rd_sector (ptrs rg)) (flash_view w)
                      (rd_rec_idx (ptrs rg) + read_offset (sess rg))))))).
Proof.
  intros Hinv. pose proof (ri_const _ _ Hinv) as Hc. pose proof Hc as [].
  pose proof (flash_len_bound _ _ Hinv). pose proof (read_offset_le _ _ Hinv).
  pose proof (ri_rec _ _ Hinv). simpl. rewrite (flash_total_eq _ _ Hinv).
  destruct (Z.ltb_spec (read_offset (sess rg)) (flash_len rg)) as [Hlt|Hge].
  2:{ exists w. auto. }
  rewrite !(proj2 (Z.eqb_neq _ 0)) by lia. simpl.
  set (k := rd_rec_idx (ptrs rg) + read_offset (sess rg)).
  assert (Hk : rd_rec_idx (ptrs rg) <= k < valid_sectors (ptrs rg) * rec_per_sector (const rg))
    by (unfold k, flash_len in *; lia).
  pose proof (ri_valid _ _ Hinv).
  rewrite (u32_small k) by nia.
  fold (slot_sector (const rg) (rd_sector (ptrs rg)) k).
  pose proof (slot_sector_range _ Hc (rd_sector (ptrs rg)) k).
  pose proof (slot_rec_range _ Hc k).
  rewrite (u16_small (slot_sector _ _ _)), (u16_small (k mod _)) by nia.
  destruct (fs_read_flash_record_spec rg w k Hinv Hk)
    as (w' & r & data & -> & Hv & Hz & [Hneg|[-> ->]]); exists w';
    (split; [done|]); (split; [done|]); right; (split; [done|]); simpl.
  - left. exists r. split; [done|]. destruct Hneg. by rewrite (proj2 (Z.ltb_lt _ _)) by lia.
  - right. simpl. unfold bump_flash. by rewrite u32_small by lia.
Qed.

(** The staged record under the read position. *)
Lemma staged_read rg mem :
  region_inv rg mem -> staging_read_idx (sess rg) < upload_staging_snap (sess rg) ->
  let slot := u32 (staging_read_idx (sess rg) * rec_size (const rg)) in
  u16 (staging_read_idx (sess rg) + 1) = staging_read_idx (sess rg) + 1 /\
  exists data,
    arr_slice (staging_buf rg) (slot + (rec_size (const rg) - data_len (const rg)))
      (data_len (const rg)) = Some data /\
    pending rg mem !! Z.to_nat (flash_len rg + staging_read_idx (sess rg)) = Some data.
Proof.
  intros Hinv Hlt. pose proof (ri_const _ _ Hinv) as Hc. pose proof Hc as [].
  pose proof (ri_sread _ _ Hinv). pose proof (ri_count _ _ Hinv).
  simpl. rewrite u32_small by nia. split; [apply u16_small; nia|].
  rewrite (pending_staged rg mem) by (auto; lia). eexists. split; [|done].
  destruct (staged_slot_Some _ Hc (staging_buf rg) (staging_read_idx (sess rg))
              (ri_buf _ _ Hinv) ltac:(lia)) as [s Es].
  unfold staged_rec. rewrite Es. simpl. unfold staged_slot in Es.
  rewrite <- (arr_slice_slice _ _ _ _ _ _ Es) by (unfold data_len; lia).
  apply payload_slice; [lia|]. by apply arr_slice_length in Es.
Qed.

Lemma inv_begin rg mem : region_inv rg mem -> region_inv (region_upload_begin rg) mem.
Proof. intros []. split; simpl; auto; try lia; congruence. Qed.

Lemma inv_rewind rg mem : region_inv rg mem -> region_inv (region_rewind rg) mem.
Proof. intros []. split; simpl; auto; lia. Qed.

(** A first read opens the session exactly like [upload_begin]. *)
Lemma ensure_active_begin rg mem :
  region_inv rg mem ->
  ensure_active rg = if upload_active (sess rg) then rg else region_upload_begin rg.
Proof.
  intros Hinv. unfold ensure_active. destruct (upload_active (sess rg)) eqn:Ha; [done|].
  pose proof (ri_idle _ _ Hinv Ha) as E. unfold region_upload_begin. by rewrite E.
Qed.

Lemma ensure_active_inv rg mem :
  region_inv rg mem ->
  region_inv (ensure_active rg) mem /\ upload_active (sess (ensure_active rg)) = true /\
  const (ensure_active rg) = const rg.
Proof.
  intros Hinv. rewrite (ensure_active_begin _ _ Hinv).
  destruct (upload_active (sess rg)) eqn:Ha; auto using inv_begin.
Qed.

Lemma snapshot_len rg mem :
  region_inv rg mem -> zlen (snapshot rg mem) = flash_len rg + upload_staging_snap (sess rg).
Proof.
  intros Hinv. unfold snapshot. pose proof (zlen_pending _ _ Hinv) as Hl.
  pose proof (flash_len_nonneg _ _ Hinv). pose proof (ri_sread _ _ Hinv).
  rewrite zlen_take. lia.
Qed.

Lemma snapshot_lookup rg mem i :
  region_inv rg mem -> 0 <= i < flash_len rg + upload_staging_snap (sess rg) ->
  snapshot rg mem !! Z.to_nat i = pending rg mem !! Z.to_nat i.
Proof. intros Hinv Hi. unfold snapshot. apply lookup_take_lt. lia. Qed.

(** A read returns the records of the session in order and each once: the
    next record of the queue as it was when the session was opened, 0
    exactly when all of them were returned, or the driver's error with the
    read position kept.  The queue itself is not touched. *)
Lemma region_read_next_spec rg w :
  region_inv rg (flash_view w) ->
  exists rg' w' r data,
    region_read_next rg w (data_len (const rg)) = Some (rg', w', r, data) /\
    flash_view w' = flash_view w /\ const rg' = const rg /\
    region_inv rg' (flash_view w') /\ upload_active (sess rg') = true /\
    ptrs rg' = ptrs rg /\ staging_count rg' = staging_count rg /\
    pending rg' (flash_view w') = pending rg (flash_view w) /\
    let s := snapshot (ensure_active rg) (flash_view w) in
    snapshot rg' (flash_view w') = s /\
    let i := cursor (ensure_active rg) in
    (r = 1 /\ s !! Z.to_nat i = Some data /\ cursor rg' = i + 1) \/
    (r = 0 /\ i = zlen s /\ cursor rg' = i) \/
    (read_fails w r /\ i < zlen s /\ cursor rg' = i).
Proof.
  intros Hinv0. destruct (ensure_active_inv _ _ Hinv0) as (Hinv & Ha & Hc).
  assert (Hq : forall mem, pending (ensure_active rg) mem = pending rg mem /\
            ptrs (ensure_active rg) = ptrs rg /\
            staging_count (ensure_active rg) = staging_count rg)
    by (intros; unfold ensure_active; destruct (upload_active (sess rg)); auto).
  destruct (Hq (flash_view w)) as (Hpe & Hpt & Hsc). rewrite <- Hpe, <- Hpt, <- Hsc.
  unfold region_read_next. rewrite <- Hc. clear Hq Hpe Hpt Hsc Hc Hinv0.
  set (rg0 := ensure_active rg) in *. clearbody rg0. clear rg.
  pose proof (snapshot_len _ _ Hinv) as Hsn. pose proof (ri_sread _ _ Hinv) as Hsr.
  pose proof (read_offset_le _ _ Hinv) as Hro. pose proof (ri_order _ _ Hinv) as Hord.
  assert (Hz : read_offset (sess rg0) < flash_len rg0 -> staging_read_idx (sess rg0) = 0)
    by (unfold flash_len; lia).
  destruct (read_loop_spec rg0 w (Z.to_nat (flash_total rg0 - read_offset (sess rg0))) Hinv)
    as (w' & Hv & _ & [[Hge ->]|[Hlt [(r & Hr & ->)| ->]]]); simpl.
  - destruct (Z.ltb_spec (staging_read_idx (sess rg0)) (upload_staging_snap (sess rg0))).
    + destruct (staged_read _ _ Hinv) as (Hu & data & -> & Hp); [lia|]. simpl. rewrite Hu.
      eexists _, _, _, _. split; [done|]. rewrite Hv. do 2 (split; [done|]).
      split; [apply inv_bump_staged; auto; lia|]. repeat (split; [done|]).
      left. split; [done|]. split; [|unfold cursor; simpl; lia].
      unfold cursor. rewrite snapshot_lookup by (auto; lia).
      replace (read_offset (sess rg0)) with (flash_len rg0) by lia. done.
    + eexists _, _, _, _. split; [done|]. rewrite Hv. do 2 (split; [done|]). repeat (split; [done|]).
      right; left. unfold cursor. lia.
  - eexists _, _, _, _. split; [done|]. rewrite Hv. do 2 (split; [done|]). repeat (split; [done|]).
    right; right. split; [done|]. unfold cursor. lia.
  - eexists _, _, _, _. split; [done|]. rewrite Hv. do 2 (split; [done|]). split; [by apply inv_bump_flash|].
    repeat (split; [done|]). left. split; [done|].
    split; [|unfold cursor; simpl; lia].
    unfold cursor. rewrite snapshot_lookup, pending_flash by (auto; lia).
    rewrite Hz, Z.add_0_r by lia. done.
Qed.

(** *** Reclaiming *)

(** [compact_staging] drops the staged records that were read. *)
Lemma compact_staging_spec rg mem :
  region_inv rg mem ->
  let i := staging_read_idx (sess rg) in
  exists b, compact_staging rg = Some (b, staging_count rg - i) /\
    zlen b = zlen (staging_buf rg) /\
    forall j, 0 <= j < staging_count rg - i ->
      staged_slot (const rg) b j = staged_slot (const rg) (staging_buf rg) (j + i).
Proof.
  intros Hinv. pose proof (ri_const _ _ Hinv) as Hc. pose proof Hc as [].
  pose proof (ri_buf _ _ Hinv) as Hb. pose proof (ri_sread _ _ Hinv).
  pose proof (ri_count _ _ Hinv). simpl. unfold compact_staging.
  set (i := staging_read_idx (sess rg)) in *. set (n := staging_count rg) in *.
  destruct (Z.ltb_spec 0 i) as [Hi|Hi].
  2:{ exists (staging_buf rg). replace i with 0 by lia. rewrite Z.sub_0_r.
      split; [done|]. split; [done|]. intros j _. by rewrite Z.add_0_r. }
  rewrite (proj2 (Z.leb_le _ _)) by lia.
  destruct (Z.ltb_spec 0 (n - i)) as [Hn|Hn].
  2:{ eexists. split; [done|]. split; [done|]. lia. }
  rewrite !u32_small by nia.
  destruct (arr_slice (staging_buf rg) (i * rec_size (const rg)) ((n - i) * rec_size (const rg)))
    as [rest|] eqn:Es; [|rewrite arr_slice_Some in Es by nia; done].
  pose proof (arr_slice_length _ _ _ _ Es) as Hl. simpl.
  destruct (arr_blit (staging_buf rg) 0 rest) as [b|] eqn:Eb;
    [|rewrite arr_blit_Some in Eb by nia; done]. simpl.
  exists b. split; [done|]. split; [by apply arr_blit_length in Eb|].
  intros j Hj. unfold staged_slot.
  rewrite <- (Z.add_0_l (j * _)), (arr_slice_blit_in _ _ _ _ _ _ Eb) by nia.
  rewrite (arr_slice_slice _ _ _ _ _ _ Es) by nia. f_equal. lia.
Qed.

(** The read pointers after [r] more records of FLASH were acknowledged. *)
Lemma advance_read_spec rg mem :
  region_inv rg mem ->
  let c := const rg in let p := ptrs rg in
  let a := rd_rec_idx p + read_offset (sess rg) in
  let q := a / rec_per_sector c in
  advance_read c p (u32 a) =
    mk_ptrs (wr_sector p) ((rd_sector p + q) mod region_sectors c)
      (valid_sectors p - q) (a mod rec_per_sector c) (seq_counter p) /\
  0 <= q <= valid_sectors p.
Proof.
  intros Hinv. pose proof (ri_const _ _ Hinv) as Hc. pose proof Hc as [].
  pose proof (ri_read _ _ Hinv). pose proof (ri_rec _ _ Hinv). pose proof (ri_valid _ _ Hinv).
  pose proof (ri_rd _ _ Hinv). simpl.
  set (c := const rg) in *. set (p := ptrs rg) in *.
  set (a := rd_rec_idx p + read_offset (sess rg)) in *.
  assert (Hq : 0 <= a / rec_per_sector c <= valid_sectors p).
  { split; [apply Z.div_pos; lia|]. apply Z.div_le_upper_bound; lia. }
  split; [|done]. unfold advance_read.
  rewrite (u32_small a) by nia. rewrite (u16_small (a / _)) by lia.
  pose proof (Z.mod_pos_bound a (rec_per_sector c) ltac:(lia)).
  rewrite (u16_small (a mod _)) by nia.
  destruct (Z.ltb_spec 0 (a / rec_per_sector c)).
  - by rewrite (proj2 (Z.leb_le _ _)) by lia.
  - replace (a / rec_per_sector c) with 0 by lia.
    rewrite Z.add_0_r, (Z.mod_small (rd_sector p)), Z.sub_0_r by lia. done.
Qed.

(** The region after a commit. *)
Definition committed rg (b : list Z) : fs_region_t :=
  mk_region (advance_read (const rg) (ptrs rg)
               (u32 (rd_rec_idx (ptrs rg) + read_offset (sess rg))))
    (mk_sess 0 0 0 false) (const rg) b (staging_count rg - staging_read_idx (sess rg)).

Lemma committed_flash rg mem b :
  region_inv rg mem ->
  flash_len (committed rg b) = flash_len rg - read_offset (sess rg) /\
  forall k, flash_slot (const rg) (rd_sector (ptrs (committed rg b))) mem k
            = flash_slot (const rg) (rd_sector (ptrs rg)) mem
                (k - rd_rec_idx (ptrs (committed rg b))
                 + rd_rec_idx (ptrs rg) + read_offset (sess rg)).
Proof.
  intros Hinv. destruct (advance_read_spec _ _ Hinv) as [E Hq].
  pose proof (ri_const _ _ Hinv) as Hc. pose proof Hc as [].
  unfold committed, flash_len. cbn [ptrs const]. rewrite E. simpl.
  pose proof (Z.div_mod (rd_rec_idx (ptrs rg) + read_offset (sess rg))
                (rec_per_sector (const rg)) ltac:(lia)) as Hdm.
  split; [nia|]. intros k. unfold flash_slot. rewrite slot_off_shift by done.
  do 2 f_equal. lia.
Qed.

Lemma committed_inv rg mem b :
  region_inv rg mem -> zlen b = zlen (staging_buf rg) ->
  (forall j, 0 <= j < staging_count rg - staging_read_idx (sess rg) ->
     staged_slot (const rg) b j
     = staged_slot (const rg) (staging_buf rg) (j + staging_read_idx (sess rg))) ->
  region_inv (committed rg b) mem.
Proof.
  intros Hinv Hb Hst. destruct (committed_flash _ _ b Hinv) as [Hl Hs].
  destruct (advance_read_spec _ _ Hinv) as [E Hq].
  pose proof (ri_const _ _ Hinv) as Hc. pose proof Hc as [].
  set (a := rd_rec_idx (ptrs rg) + read_offset (sess rg)) in *.
  pose proof (Z.mod_pos_bound a (rec_per_sector (const rg)) ltac:(lia)) as Hm.
  pose proof (Z.div_mod a (rec_per_sector (const rg)) ltac:(lia)) as Hdm.
  assert (Hr := ri_read _ _ Hinv). fold a in Hr.
  unfold committed, flash_len in *. fold a in Hl, Hs |- *.
  cbn [ptrs const] in Hl, Hs. rewrite E in *. simpl in *.
  pose proof (ri_sread _ _ Hinv). pose proof (ri_count _ _ Hinv).
  split; simpl; auto; try lia.
  - rewrite Hb. apply (ri_buf _ _ Hinv).
  - apply (ri_mem _ _ Hinv).
  - apply Z.mod_pos_bound. lia.
  - pose proof (ri_valid _ _ Hinv). lia.
  - rewrite (ri_wr _ _ Hinv), Zplus_mod_idemp_l. f_equal. lia.
  - apply (ri_seq _ _ Hinv).
  - intros k Hk. rewrite Hs. apply (ri_flash _ _ Hinv). pose proof (ri_rec _ _ Hinv). nia.
  - intros j Hj. rewrite Hst by lia. apply (ri_staged _ _ Hinv). lia.
Qed.

Lemma committed_pending rg mem b :
  region_inv rg mem ->
  (forall j, 0 <= j < staging_count rg - staging_read_idx (sess rg) ->
     staged_slot (const rg) b j
     = staged_slot (const rg) (staging_buf rg) (j + staging_read_idx (sess rg))) ->
  pending (committed rg b) mem = drop (Z.to_nat (cursor rg)) (pending rg mem).
Proof.
  intros Hinv Hst. destruct (committed_flash _ _ b Hinv) as [Hl Hs].
  pose proof (read_offset_le _ _ Hinv) as Hro. pose proof (ri_sread _ _ Hinv) as Hsr.
  assert (HF : flash_records (committed rg b) mem
               = drop (Z.to_nat (read_offset (sess rg))) (flash_records rg mem)).
  { unfold flash_records. rewrite drop_fmap_seqZ, Hl by lia.
    set (r' := rd_rec_idx (ptrs (committed rg b))) in *.
    replace (rd_rec_idx (ptrs rg) + read_offset (sess rg))
      with (r' + (rd_rec_idx (ptrs rg) + read_offset (sess rg) - r')) by lia.
    rewrite fmap_seqZ_shift. apply fmap_seqZ_ext. intros k Hk. unfold flash_rec.
    simpl. rewrite Hs. do 3 f_equal. lia. }
  assert (HS : staged_records (committed rg b)
               = drop (Z.to_nat (staging_read_idx (sess rg))) (staged_records rg)).
  { unfold staged_records. rewrite drop_fmap_seqZ by lia. simpl.
    rewrite fmap_seqZ_shift. apply fmap_seqZ_ext. intros j Hj.
    unfold staged_rec. by rewrite Hst by lia. }
  pose proof (zlen_flash_records _ _ Hinv) as HlF. unfold zlen in HlF.
  unfold pending, cursor. rewrite HF, HS.
  destruct (Z.eqb_spec (staging_read_idx (sess rg)) 0) as [->|Hne].
  - rewrite Z.add_0_r, drop_0, drop_app_le by lia. done.
  - pose proof (ri_order _ _ Hinv ltac:(lia)) as Ho. unfold flash_len in *.
    rewrite drop_ge, drop_app_ge by lia. simpl. f_equal. lia.
Qed.

(** A commit removes from the queue exactly the records the session read. *)
Lemma region_commit_spec rg w :
  region_inv rg (flash_view w) ->
  exists rg' w' r, region_commit rg w = Some (rg', w', r) /\
    flash_view w' = flash_view w /\ region_inv rg' (flash_view w') /\
    sess rg' = mk_sess 0 0 0 false /\ const rg' = const rg /\
    staging_count rg' = staging_count rg - staging_read_idx (sess rg) /\
    pending rg' (flash_view w') = drop (Z.to_nat (cursor rg)) (pending rg (flash_view w)) /\
    (r = 0 -> synced rg' w').
Proof.
  intros Hinv. pose proof (ri_const _ _ Hinv) as Hc. pose proof Hc as [].
  unfold region_commit. rewrite !(proj2 (Z.eqb_neq _ 0)) by lia. simpl.
  destruct (compact_staging_spec _ _ Hinv) as (b & -> & Hb & Hst). simpl.
  fold (committed rg b). destruct (fs_meta_save (committed rg b) w) as [w' r] eqn:Em.
  pose proof (fs_meta_save_flash _ _ _ _ Em) as Hv.
  eexists _, _, _. split; [done|]. split; [done|]. rewrite Hv.
  split; [by apply committed_inv|]. repeat (split; [done|]).
  split; [by apply committed_pending|]. intros ->. by eapply fs_meta_save_sync.
Qed.
End ops.
