(* ===== verification/FlashStoreApi.v ===== *)
(** * The public functions of the record store

    The four regions share one partition and one ZMS store.  Here the region
    lemmas of [FlashStoreProofs] are lifted to the functions the firmware
    calls: a function on one data type leaves the queues of the others alone,
    a session delivers and reclaims exactly its records, and a restart finds
    the records that were in FLASH. *)

From S2P Require Import Prelude FlashStore FlashStoreProofs.

(** ** The metadata image *)

Lemma rd16_le16 l z : 0 <= z < 65536 -> rd16 (le16 z ++ l) 0 = z.
Proof.
  intros Hz. unfold rd16, le16. simpl.
  rewrite (Z.mod_small (z / 256)) by (split; [apply Z.div_pos|apply Z.div_lt_upper_bound]; lia).
  pose proof (Z.div_mod z 256). lia.
Qed.

Lemma rd32_le32 l z : 0 <= z < 4294967296 -> rd32 (le32 z ++ l) 0 = z.
Proof.
  intros Hz. unfold rd32, rd16, le32. simpl.
  pose proof (Z.div_mod z 256). pose proof (Z.div_mod (z / 256) 256).
  pose proof (Z.div_mod (z / 65536) 256).
  rewrite (Z.mod_small (z / 16777216)) by (split; [apply Z.div_pos|apply Z.div_lt_upper_bound]; lia).
  rewrite Z.div_div in * by lia. change (256 * 256) with 65536 in *.
  change (65536 * 256) with 16777216 in *. lia.
Qed.

Lemma rd16_app a l i : rd16 (a ++ l) (length a + i) = rd16 l i.
Proof.
  unfold rd16. rewrite <- Nat.add_succ_r, !lookup_app_r by lia. by rewrite !Nat.add_sub'.
Qed.

Lemma rd32_app a l i : rd32 (a ++ l) (length a + i) = rd32 l i.
Proof.
  unfold rd32. rewrite rd16_app.
  replace (2 + (length a + i))%nat with (length a + (2 + i))%nat by lia. by rewrite rd16_app.
Qed.

Record ptrs_fit (p : fs_ptrs) : Prop := {
  pf_wr : 0 <= wr_sector p < 65536;
  pf_rd : 0 <= rd_sector p < 65536;
  pf_valid : 0 <= valid_sectors p < 65536;
  pf_rec : 0 <= rd_rec_idx p < 65536;
  pf_seq : 0 <= seq_counter p < 4294967296
}.

(** The record read back is the record written. *)
Lemma meta_parse_bytes m :
  0 <= m_magic m < 4294967296 -> 0 <= m_crc m < 4294967296 -> ptrs_fit (m_ptrs m) ->
  meta_parse (meta_bytes m) = m.
Proof.
  destruct m as [mg [wr rd va re sq] crc]; simpl. intros Hm Hc []; simpl in *.
  unfold meta_parse, meta_bytes, meta_body; simpl m_magic; simpl m_ptrs; simpl m_crc;
    cbn [wr_sector rd_sector valid_sectors rd_rec_idx seq_counter].
  rewrite <- !app_assoc.
  assert (H0 : rd32 (le32 mg ++ le16 wr ++ le16 rd ++ le16 va ++ le16 re ++ le32 sq ++ le32 crc) 0 = mg)
    by by apply rd32_le32.
  f_equal; [done|f_equal|].
  - rewrite (rd16_app (le32 mg) _ 0). by apply rd16_le16.
  - rewrite (rd16_app (le32 mg) _ 2), (rd16_app (le16 wr) _ 0). by apply rd16_le16.
  - rewrite (rd16_app (le32 mg) _ 4), (rd16_app (le16 wr) _ 2), (rd16_app (le16 rd) _ 0).
    by apply rd16_le16.
  - rewrite (rd16_app (le32 mg) _ 6), (rd16_app (le16 wr) _ 4), (rd16_app (le16 rd) _ 2),
      (rd16_app (le16 va) _ 0). by apply rd16_le16.
  - rewrite (rd32_app (le32 mg) _ 8), (rd32_app (le16 wr) _ 6), (rd32_app (le16 rd) _ 4),
      (rd32_app (le16 va) _ 2), (rd32_app (le16 re) _ 0). by apply rd32_le32.
  - rewrite (rd32_app (le32 mg) _ 12), (rd32_app (le16 wr) _ 10), (rd32_app (le16 rd) _ 8),
      (rd32_app (le16 va) _ 6), (rd32_app (le16 re) _ 4), (rd32_app (le32 sq) _ 0).
    rewrite <- (app_nil_r (le32 crc)). by apply rd32_le32.
Qed.

Section region.
Context {W : Type} {SIO : StorageIO W} {HL : StorageLaws W}.
Implicit Types (rg : fs_region_t) (w : W).

Lemma inv_ptrs_fit rg mem : region_inv rg mem -> ptrs_fit (ptrs rg).
Proof.
  intros [Hc _ _ Hrd Hv Hwr Hs Hr]. destruct Hc.
  pose proof (Z.mod_pos_bound (rd_sector (ptrs rg) + valid_sectors (ptrs rg))
                (region_sectors (const rg)) ltac:(lia)).
  split; try lia. nia.
Qed.

(** A region whose RAM was lost, reloaded from saved metadata. *)
Lemma fs_region_load_synced rg0 rg w w1 bs :
  region_inv rg (flash_view w) -> synced rg w ->
  const rg0 = const rg -> sess rg0 = mk_sess 0 0 0 false ->
  zlen (staging_buf rg0) = zlen (staging_buf rg) ->
  zms_read w (zms_id (const rg)) META_SIZE = (w1, META_SIZE, bs) ->
  let rg' := mk_region (ptrs rg) (mk_sess 0 0 0 false) (const rg) (staging_buf rg0) 0 in
  fs_region_load rg0 w = (rg', w1) /\ region_inv rg' (flash_view w1) /\
  pending rg' (flash_view w1) = flash_records rg (flash_view w).
Proof.
  intros Hinv Hsy Hc Hs Hb Er rg'.
  pose proof (law_zms_read_pure _ _ _ _ _ _ Er) as [Hv _]. rewrite Hv.
  split; [|split].
  - unfold fs_region_load, my_user_data_read. rewrite Hc, Hs.
    change (META_SIZE =? 0) with false. rewrite Er.
    destruct (law_zms_read_ok _ _ _ _ _ Er) as (v & Ev & -> & _); [done|].
    unfold synced in Hsy. rewrite Hsy in Ev. injection Ev as <-.
    rewrite take_ge by done. rewrite meta_parse_bytes;
      [|done|apply law_crc_range|by eapply inv_ptrs_fit].
    change (fs_meta_calc_crc (region_meta rg)) with (m_crc (region_meta rg)).
    rewrite !Z.eqb_refl. cbn [negb orb m_ptrs region_meta].
    destruct Hinv as [Hco _ _ Hrd Hva Hwr _ Hre]. destruct Hco.
    pose proof (Z.mod_pos_bound (rd_sector (ptrs rg) + valid_sectors (ptrs rg))
                  (region_sectors (const rg)) ltac:(lia)).
    rewrite (proj2 (Z.leb_gt _ (wr_sector _))), (proj2 (Z.leb_gt _ (rd_sector _))) by lia.
    rewrite (proj2 (Z.ltb_ge _ (valid_sectors _))), (proj2 (Z.ltb_ge _ (rd_rec_idx _))) by lia.
    done.
  - destruct Hinv. split; simpl; auto; lia.
  - unfold pending, rg', staged_records. simpl. apply app_nil_r.
Qed.

(** Saving metadata that is already stored is reported as an error. *)
Lemma fs_meta_save_same rg w :
  synced rg w -> exists w', fs_meta_save rg w = (w', - EIO).
Proof.
  intros Hs. unfold fs_meta_save, my_user_data_write. simpl.
  destruct (zms_write w _ _) as [w1 r1] eqn:E. exists w1.
  pose proof (law_zms_write_same _ _ _ _ _ E Hs). unfold META_SIZE. zcase; [lia|done].
Qed.
End region.

(** ** The four regions *)

(** [mem'] agrees with [mem] outside the sectors of region [c]. *)
Definition outside (c : fs_const) (mem mem' : list Z) : Prop :=
  forall off n, off + n <= sector_base c * 4096
                \/ (sector_base c + region_sectors c) * 4096 <= off ->
    arr_slice mem' off n = arr_slice mem off n.

Lemma outside_refl c mem : outside c mem mem.
Proof. by intros off n _. Qed.

(** What a region holds depends on its own sectors only. *)
Lemma region_frame rg mem mem' :
  region_inv rg mem -> zlen mem' = PARTITION ->
  (forall off n, sector_base (const rg) * 4096 <= off ->
     off + n <= (sector_base (const rg) + region_sectors (const rg)) * 4096 ->
     arr_slice mem' off n = arr_slice mem off n) ->
  region_inv rg mem' /\ pending rg mem' = pending rg mem.
Proof.
  intros Hinv Hm Hs. pose proof (ri_const _ _ Hinv) as Hc.
  assert (Hf : forall k, flash_slot (const rg) (rd_sector (ptrs rg)) mem' k
                         = flash_slot (const rg) (rd_sector (ptrs rg)) mem k).
  { intros k. pose proof (slot_in_sector _ Hc (rd_sector (ptrs rg)) k) as [H1 H2].
    pose proof (slot_sector_range _ Hc (rd_sector (ptrs rg)) k).
    unfold fs_sector_offset, FS_SECTOR_SIZE in *. apply Hs; lia. }
  split.
  - destruct Hinv. split; auto. intros k Hk. rewrite Hf. auto.
  - unfold pending. f_equal. apply fmap_seqZ_ext. intros k _. unfold flash_rec. by rewrite Hf.
Qed.

Lemma type_const_ok t : const_ok (type_const t).
Proof.
  unfold type_const. repeat zcase; split; vm_compute; intuition congruence.
Qed.

(** The regions of two data types share no sector. *)
Lemma type_const_disjoint t t' :
  0 <= t < 4 -> 0 <= t' < 4 -> t <> t' ->
  sector_base (type_const t) + region_sectors (type_const t) <= sector_base (type_const t') \/
  sector_base (type_const t') + region_sectors (type_const t') <= sector_base (type_const t).
Proof.
  intros Ht Ht' Hne.
  assert (t = 0 \/ t = 1 \/ t = 2 \/ t = 3) as [-> | [-> | [-> | ->]]] by lia;
  assert (t' = 0 \/ t' = 1 \/ t' = 2 \/ t' = 3) as [-> | [-> | [-> | ->]]] by lia;
  try lia; vm_compute; (left; congruence) || (right; congruence).
Qed.

Lemma type_data_len_spec t : 0 <= t < 4 -> type_data_len t = Some (data_len (type_const t)).
Proof.
  intros Ht.
  assert (t = 0 \/ t = 1 \/ t = 2 \/ t = 3) as [-> | [-> | [-> | ->]]] by lia; reflexivity.
Qed.

Section module.
Context {W : Type} {SIO : StorageIO W} {HL : StorageLaws W}.
Implicit Types (rg : fs_region_t) (w : W) (st : fs_state W).

Record fs_inv st : Prop := {
  fi_init : s_inited st = true;
  fi_len : zlen (s_region st) = 4;
  fi_region t rg :
    arr_get (s_region st) t = Some rg ->
    const rg = type_const t /\ region_inv rg (flash_view (dev st))
}.

(** The records of type [t] that wait for upload. *)
Definition queue st (t : Z) : list (list Z) :=
  match arr_get (s_region st) t with
  | Some rg => pending rg (flash_view (dev st))
  | None => []
  end.

Lemma fi_get st t : fs_inv st -> 0 <= t < 4 ->
  exists rg, arr_get (s_region st) t = Some rg /\ const rg = type_const t /\
    region_inv rg (flash_view (dev st)) /\ queue st t = pending rg (flash_view (dev st)).
Proof.
  intros Hi Ht. destruct (arr_get_Some (s_region st) t) as [rg E].
  { rewrite (fi_len _ Hi). lia. }
  destruct (fi_region _ Hi t rg E). exists rg. unfold queue. by rewrite E.
Qed.

Lemma fs_get_region_get st t : 0 <= t < 4 -> fs_get_region st t = arr_get (s_region st) t.
Proof. intros Ht. unfold fs_get_region, FS_TYPE_MAX. zcase; [lia|done]. Qed.

Lemma arr_get_put st t t' rg w :
  zlen (s_region st) = 4 -> 0 <= t < 4 ->
  arr_get (s_region (put_region st t rg w)) t'
  = if t' =? t then Some rg else arr_get (s_region st) t'.
Proof.
  intros Hl Ht. unfold arr_get, put_region. simpl. unfold zlen in Hl.
  destruct (Z.leb_spec 0 t'); [|zcase; [lia|done]].
  zcase; [subst; apply list_lookup_insert_eq; lia|].
  apply list_lookup_insert_ne. lia.
Qed.

(** The other regions are not concerned by a step of region [t]. *)
Lemma others_kept st t rg rg' w' :
  fs_inv st -> 0 <= t < 4 -> arr_get (s_region st) t = Some rg ->
  zlen (flash_view w') = PARTITION ->
  outside (const rg) (flash_view (dev st)) (flash_view w') ->
  forall t' rg2, t' <> t -> arr_get (s_region (put_region st t rg' w')) t' = Some rg2 ->
    arr_get (s_region st) t' = Some rg2 /\ const rg2 = type_const t' /\
    region_inv rg2 (flash_view w') /\
    pending rg2 (flash_view w') = pending rg2 (flash_view (dev st)).
Proof.
  intros Hi Ht E Hz Ho t' rg2 Hne E2.
  rewrite arr_get_put, (proj2 (Z.eqb_neq _ _)) in E2 by (auto; apply (fi_len _ Hi)).
  destruct (fi_region _ Hi _ _ E) as [Hc _]. destruct (fi_region _ Hi _ _ E2) as [Hc2 Hi2].
  split; [done|]. split; [done|].
  apply region_frame; [done|done|]. intros off n H1 H2. apply Ho. rewrite Hc, Hc2 in *.
  pose proof (arr_get_inv _ _ _ E2) as [Ht' _]. rewrite (fi_len _ Hi) in Ht'.
  destruct (type_const_disjoint t t' Ht Ht' ltac:(congruence)); lia.
Qed.

Lemma queue_others st t rg rg' w' :
  fs_inv st -> 0 <= t < 4 -> arr_get (s_region st) t = Some rg ->
  zlen (flash_view w') = PARTITION ->
  outside (const rg) (flash_view (dev st)) (flash_view w') ->
  forall t', t' <> t -> queue (put_region st t rg' w') t' = queue st t'.
Proof.
  intros Hi Ht E Hz Ho t' Hne. unfold queue at 1.
  destruct (arr_get _ t') as [rg2|] eqn:E2.
  - destruct (others_kept _ _ _ _ _ Hi Ht E Hz Ho _ _ Hne E2) as (E2' & _ & _ & Hp).
    unfold queue. by rewrite E2'.
  - rewrite arr_get_put, (proj2 (Z.eqb_neq _ _)) in E2 by (auto; apply (fi_len _ Hi)).
    unfold queue. by rewrite E2.
Qed.

(** A step of region [t] that keeps its invariant keeps the module's. *)
Lemma put_region_inv st t rg rg' w' :
  fs_inv st -> 0 <= t < 4 -> arr_get (s_region st) t = Some rg ->
  region_inv rg' (flash_view w') -> const rg' = const rg ->
  outside (const rg) (flash_view (dev st)) (flash_view w') ->
  fs_inv (put_region st t rg' w') /\
  arr_get (s_region (put_region st t rg' w')) t = Some rg' /\
  queue (put_region st t rg' w') t = pending rg' (flash_view w') /\
  forall t', t' <> t -> queue (put_region st t rg' w') t' = queue st t'.
Proof.
  intros Hi Ht E Hi' Hc Ho. pose proof (ri_mem _ _ Hi') as Hz.
  assert (Eg : arr_get (s_region (put_region st t rg' w')) t = Some rg')
    by (rewrite arr_get_put, Z.eqb_refl by (auto; apply (fi_len _ Hi)); done).
  split; [|split; [done|split; [unfold queue; by rewrite Eg|by eapply queue_others]]].
  split.
  - apply (fi_init _ Hi).
  - simpl. rewrite zlen_insert. apply (fi_len _ Hi).
  - intros t' rg2 E2. destruct (Z.eqb_spec t' t) as [->|Hne].
    + rewrite Eg in E2. injection E2 as <-. rewrite Hc.
      by destruct (fi_region _ Hi _ _ E) as [-> _].
    + by destruct (others_kept _ _ _ _ _ Hi Ht E Hz Ho _ _ Hne E2) as (_ & ? & ? & _).
Qed.
End module.

(** ** The functions *)

Section api.
Context {W : Type} {SIO : StorageIO W} {HL : StorageLaws W}.
Implicit Types (rg : fs_region_t) (w : W) (st : fs_state W).

Lemma sector_image_len rg img : sector_image rg = Some img -> zlen img = 4096.
Proof.
  unfold sector_image. intros (b1 & E1 & (recs & E2 & E3)%bind_Some)%bind_Some.
  rewrite (arr_blit_length _ _ _ _ E3), (arr_blit_length _ _ _ _ E1).
  by rewrite zlen_replicate.
Qed.

(** A push writes inside its region, and keeps the saved metadata current
    unless it reports an error. *)
Lemma fs_region_push_frame rg w data n rg' w' r :
  region_inv rg (flash_view w) -> fs_region_push rg w data n = Some (rg', w', r) ->
  const rg' = const rg /\ zlen (flash_view w') = PARTITION /\
  outside (const rg) (flash_view w) (flash_view w') /\
  (synced rg w -> r = 0 -> synced rg' w').
Proof.
  intros Hinv. pose proof (ri_const _ _ Hinv) as Hc. pose proof Hc as [].
  pose proof (ri_mem _ _ Hinv) as Hm. unfold fs_region_push.
  destruct (_ && _); [intros [= <- <- <-]; auto using outside_refl|].
  intros (b & _ & E)%bind_Some. revert E.
  destruct (_ && _); [|intros [= <- <- <-]; auto using outside_refl].
  unfold fs_flush_staging. simpl. zcase; [intros [= <- <- <-]; auto using outside_refl|].
  intros (img & Eimg & E)%bind_Some. apply sector_image_len in Eimg. revert E.
  destruct (flash_area_write w _ img) as [w1 r1] eqn:Ew.
  assert (Hs : 0 <= wr_sector (ptrs rg) < region_sectors (const rg))
    by (rewrite (ri_wr _ _ Hinv); apply Z.mod_pos_bound; lia).
  pose proof (sector_in_partition _ Hc _ Hs) as [Hlo Hhi].
  assert (Hw : zlen (flash_view w1) = PARTITION /\ outside (const rg) (flash_view w) (flash_view w1)).
  { split; [apply (flash_write_size _ _ _ _ _ Ew); lia|].
    intros off m Ho. apply (law_write_frame _ _ _ _ _ _ _ Ew).
    unfold fs_sector_offset, FS_SECTOR_SIZE in *. lia. }
  destruct Hw as [Hz Ho].
  destruct (Z.eqb_spec r1 0) as [->|Hr]; simpl; [|intros [= <- <- <-]; tauto].
  zcase; [done|]. destruct (fs_meta_save _ w1) as [w2 r2] eqn:Em. intros [= <- <- <-].
  pose proof (fs_meta_save_flash _ _ _ _ Em) as ->.
  repeat (split; [done|]). intros _ ->. by apply fs_meta_save_sync in Em.
Qed.

(** C29: a push of one record of any type, whenever its staging buffer is not
    full outside a session, stays within its buffers and the flash sectors
    of its region; the queue of that type changes as described by
    [push_outcome] and the queues of the three other types do not change;
    a push that reports success leaves the saved metadata current. *)
Theorem my_flash_store_push_refines st t rg data :
  fs_inv st -> 0 <= t < 4 -> arr_get (s_region st) t = Some rg ->
  push_safe rg -> type_data_len t = Some (zlen data) ->
  exists st' rg' r,
    my_flash_store_push t st (Some data) = Some (st', r) /\
    arr_get (s_region st') t = Some rg' /\
    push_outcome rg (dev st) data rg' (dev st') r /\
    (forall t', t' <> t -> queue st' t' = queue st t') /\
    (region_inv rg' (flash_view (dev st')) -> fs_inv st') /\
    (synced rg (dev st) -> r = 0 -> synced rg' (dev st')).
Proof.
  intros Hi Ht E Hs Hd. destruct (fi_region _ Hi _ _ E) as [Hc Hinv].
  rewrite type_data_len_spec in Hd by done. injection Hd as Hd. rewrite <- Hc in Hd.
  destruct (fs_region_push_spec rg (dev st) data Hinv Hs (eq_sym Hd))
    as (rg' & w' & r & Ep & Ho).
  destruct (fs_region_push_frame _ _ _ _ _ _ _ Hinv Ep) as (Hc' & Hz & Hout & Hsy).
  exists (put_region st t rg' w'), rg', r. split.
  { unfold my_flash_store_push. rewrite (fi_init _ Hi), E, type_data_len_spec by done.
    rewrite <- Hc, Ep. done. }
  split; [rewrite arr_get_put, Z.eqb_refl by (auto; apply (fi_len _ Hi)); done|].
  split; [done|]. split; [by eapply queue_others|]. split; [|done].
  intros Hi'. by apply (put_region_inv st t rg rg' w').
Qed.

(** *** Inside a session *)

Lemma api_read st t rg :
  fs_inv st -> 0 <= t < 4 -> arr_get (s_region st) t = Some rg ->
  upload_active (sess rg) = true ->
  exists st' rg' r data,
    my_flash_store_read_next st t true = Some (st', r, data) /\ fs_inv st' /\
    arr_get (s_region st') t = Some rg' /\ upload_active (sess rg') = true /\
    queue st' t = queue st t /\ (forall t', t' <> t -> queue st' t' = queue st t') /\
    snapshot rg' (flash_view (dev st')) = snapshot rg (flash_view (dev st)) /\
    ((r = 1 /\ queue st t !! Z.to_nat (cursor rg) = Some data /\ cursor rg' = cursor rg + 1) \/
     (r = 0 /\ cursor rg = zlen (snapshot rg (flash_view (dev st))) /\ cursor rg' = cursor rg) \/
     (read_fails (dev st) r /\ cursor rg < zlen (snapshot rg (flash_view (dev st))) /\ cursor rg' = cursor rg)).
Proof.
  intros Hi Ht E Ha. destruct (fi_region _ Hi _ _ E) as [Hc Hinv].
  destruct (region_read_next_spec rg (dev st) Hinv)
    as (rg' & w' & r & data & Er & Hv & Hc' & Hinv' & Ha' & _ & _ & Hp & Hsn & Hcase).
  assert (Hen : ensure_active rg = rg) by (unfold ensure_active; by rewrite Ha).
  rewrite Hen in Hsn, Hcase. cbv zeta in Hcase.
  assert (Hout : outside (const rg) (flash_view (dev st)) (flash_view w'))
    by (rewrite Hv; apply outside_refl).
  destruct (put_region_inv st t rg rg' w' Hi Ht E Hinv' Hc' Hout) as (Hi' & Eg & Hq & Hqo).
  assert (Hqt : queue st t = pending rg (flash_view (dev st))) by (unfold queue; by rewrite E).
  exists (put_region st t rg' w'), rg', r, data. split.
  { unfold my_flash_store_read_next.
    rewrite (fi_init _ Hi), fs_get_region_get, E, type_data_len_spec by done.
    by rewrite <- Hc, Er. }
  split; [done|]. split; [done|]. split; [done|]. split; [congruence|].
  split; [done|]. split; [done|]. rewrite Hqt.
  destruct Hcase as [(Hr & Hl & Hcu)|Hcase]; [left|by right].
  split; [done|]. split; [|done]. rewrite <- Hl. unfold snapshot. symmetry.
  apply lookup_take_lt. apply lookup_lt_Some in Hl. unfold snapshot in Hl.
  rewrite length_take in Hl. lia.
Qed.

(** A push inside a session is staged or refused; FLASH is not touched. *)
Lemma api_push_active st t rg data :
  fs_inv st -> 0 <= t < 4 -> arr_get (s_region st) t = Some rg ->
  upload_active (sess rg) = true -> type_data_len t = Some (zlen data) ->
  exists st' rg' r,
    my_flash_store_push t st (Some data) = Some (st', r) /\ fs_inv st' /\
    arr_get (s_region st') t = Some rg' /\ sess rg' = sess rg /\
    (forall t', t' <> t -> queue st' t' = queue st t') /\
    ((r = 0 /\ queue st' t = queue st t ++ [data] /\
      staging_count rg' = staging_count rg + 1) \/
     (r = - EBUSY /\ queue st' t = queue st t /\ staging_count rg' = staging_count rg /\
      staging_count rg = rec_per_sector (const rg))).
Proof.
  intros Hi Ht E Ha Hd. destruct (fi_region _ Hi _ _ E) as [Hc Hinv].
  rewrite type_data_len_spec in Hd by done. injection Hd as Hd. rewrite <- Hc in Hd.
  pose proof (ri_const _ _ Hinv) as []. pose proof (ri_count _ _ Hinv) as Hn.
  assert (Hqt : queue st t = pending rg (flash_view (dev st))) by (unfold queue; by rewrite E).
  unfold my_flash_store_push. rewrite (fi_init _ Hi), E, type_data_len_spec by done.
  rewrite <- Hc, Hqt. unfold fs_region_push. rewrite Ha.
  destruct (Z.leb_spec (rec_per_sector (const rg)) (staging_count rg)) as [Hge|Hlt]; simpl.
  - destruct (put_region_inv st t rg rg (dev st) Hi Ht E Hinv eq_refl (outside_refl _ _))
      as (Hi' & Eg & Hq & Hqo).
    eexists _, _, _. repeat (split; [done|]). right. repeat (split; [done|]). lia.
  - destruct (stage_record_spec rg _ Hinv data Hlt (eq_sym Hd)) as (b & -> & Hb & Hnew & Hold).
    simpl. rewrite Ha, andb_false_r, u16_small by nia.
    destruct (inv_stage rg _ data b Hinv Hlt Hb Hnew Hold) as [Hinv1 Hp1].
    destruct (put_region_inv st t rg _ (dev st) Hi Ht E Hinv1 eq_refl (outside_refl _ _))
      as (Hi' & Eg & Hq & Hqo).
    eexists _, _, _. repeat (split; [done|]). left. split; [done|]. split; [|done]. congruence.
Qed.

Lemma api_begin st t rg :
  fs_inv st -> 0 <= t < 4 -> arr_get (s_region st) t = Some rg ->
  let st' := my_flash_store_upload_begin st t in
  fs_inv st' /\ arr_get (s_region st') t = Some (region_upload_begin rg) /\
  forall t', queue st' t' = queue st t'.
Proof.
  intros Hi Ht E. destruct (fi_region _ Hi _ _ E) as [Hc Hinv].
  unfold my_flash_store_upload_begin. rewrite (fi_init _ Hi), fs_get_region_get, E by done.
  destruct (put_region_inv st t rg _ (dev st) Hi Ht E (inv_begin _ _ Hinv) eq_refl
              (outside_refl _ _)) as (Hi' & Eg & Hq & Hqo).
  split; [done|]. split; [done|]. intros t'. destruct (Z.eqb_spec t' t) as [->|]; [|auto].
  rewrite Hq. unfold queue. by rewrite E.
Qed.

Lemma api_rewind st t rg :
  fs_inv st -> 0 <= t < 4 -> arr_get (s_region st) t = Some rg ->
  let st' := my_flash_store_rewind st t in
  fs_inv st' /\ arr_get (s_region st') t = Some (region_rewind rg) /\
  forall t', queue st' t' = queue st t'.
Proof.
  intros Hi Ht E. destruct (fi_region _ Hi _ _ E) as [Hc Hinv].
  unfold my_flash_store_rewind. rewrite (fi_init _ Hi), fs_get_region_get, E by done.
  destruct (put_region_inv st t rg _ (dev st) Hi Ht E (inv_rewind _ _ Hinv) eq_refl
              (outside_refl _ _)) as (Hi' & Eg & Hq & Hqo).
  split; [done|]. split; [done|]. intros t'. destruct (Z.eqb_spec t' t) as [->|]; [|auto].
  rewrite Hq. unfold queue. by rewrite E.
Qed.

Lemma api_commit st t rg :
  fs_inv st -> 0 <= t < 4 -> arr_get (s_region st) t = Some rg ->
  exists st' rg' r, my_flash_store_commit st t = Some (st', r) /\ fs_inv st' /\
    arr_get (s_region st') t = Some rg' /\ sess rg' = mk_sess 0 0 0 false /\
    queue st' t = drop (Z.to_nat (cursor rg)) (queue st t) /\
    (forall t', t' <> t -> queue st' t' = queue st t') /\
    (r = 0 -> synced rg' (dev st')).
Proof.
  intros Hi Ht E. destruct (fi_region _ Hi _ _ E) as [Hc Hinv].
  destruct (region_commit_spec rg (dev st) Hinv)
    as (rg' & w' & r & Ec & Hv & Hinv' & Hs & Hc' & _ & Hp & Hsy).
  unfold my_flash_store_commit. rewrite (fi_init _ Hi), fs_get_region_get, E by done.
  rewrite Ec. simpl.
  destruct (put_region_inv st t rg rg' w' Hi Ht E Hinv' Hc') as (Hi' & Eg & Hq & Hqo).
  { rewrite Hv. apply outside_refl. }
  exists (put_region st t rg' w'), rg', r. repeat (split; [done|]).
  split; [|auto]. rewrite Hq, Hp. unfold queue. by rewrite E.
Qed.

(** *** A whole session *)

Inductive event := EvRead | EvPush (data : list Z).

(** Reads and pushes of type [t] in any order: what the reads delivered and
    which pushes were accepted. *)
Fixpoint run_events (t : Z) (evs : list event) st
  : option (fs_state W * list (list Z) * list (list Z)) :=
  match evs with
  | [] => Some (st, [], [])
  | EvRead :: evs =>
      '(st, r, data) ← my_flash_store_read_next st t true;
      '(st, del, acc) ← run_events t evs st;
      Some (st, (if r =? 1 then [data] else []) ++ del, acc)
  | EvPush data :: evs =>
      '(st, r) ← my_flash_store_push t st (Some data);
      '(st, del, acc) ← run_events t evs st;
      Some (st, del, (if r =? 0 then [data] else []) ++ acc)
  end.

Definition event_ok (t : Z) (e : event) : Prop :=
  match e with EvRead => True | EvPush data => type_data_len t = Some (zlen data) end.

Lemma cursor_range rg mem :
  region_inv rg mem -> 0 <= cursor rg <= zlen (pending rg mem).
Proof.
  intros Hinv. rewrite (zlen_pending _ _ Hinv). unfold cursor.
  pose proof (read_offset_le _ _ Hinv). pose proof (ri_sread _ _ Hinv). lia.
Qed.

Lemma run_events_spec t evs : forall st rg,
  fs_inv st -> 0 <= t < 4 -> arr_get (s_region st) t = Some rg ->
  upload_active (sess rg) = true -> Forall (event_ok t) evs ->
  exists st' rg' del acc,
    run_events t evs st = Some (st', del, acc) /\ fs_inv st' /\
    arr_get (s_region st') t = Some rg' /\
    queue st' t = queue st t ++ acc /\
    take (Z.to_nat (cursor rg')) (queue st' t)
    = take (Z.to_nat (cursor rg)) (queue st t) ++ del /\
    forall t', t' <> t -> queue st' t' = queue st t'.
Proof.
  induction evs as [|[|data] evs IH]; intros st rg Hi Ht E Ha Hok; simpl.
  - exists st, rg, [], []. rewrite !app_nil_r. repeat (split; [done|]). done.
  - apply Forall_cons in Hok as [_ Hok]. destruct (fi_region _ Hi _ _ E) as [_ Hinv].
    pose proof (cursor_range _ _ Hinv) as Hcu.
    destruct (api_read st t rg Hi Ht E Ha)
      as (st1 & rg1 & r & data & -> & Hi1 & E1 & Ha1 & Hq1 & Hqo1 & _ & Hcase). simpl.
    destruct (IH st1 rg1 Hi1 Ht E1 Ha1 Hok) as (st' & rg' & del & acc & -> & Hi' & E' & Hq & Htk & Hqo).
    simpl. eexists _, _, _, _. split; [done|]. split; [done|]. split; [done|].
    split; [congruence|]. split; [|intros; rewrite Hqo, Hqo1 by done; done].
    rewrite Htk, Hq1, app_assoc. f_equal.
    destruct Hcase as [(-> & Hl & ->)|[(-> & _ & ->)|([Hr _] & _ & ->)]]; simpl.
    + replace (Z.to_nat (cursor rg + 1)) with (S (Z.to_nat (cursor rg))) by lia.
      by apply take_S_r.
    + by rewrite app_nil_r.
    + rewrite (proj2 (Z.eqb_neq r 1)) by lia. by rewrite app_nil_r.
  - apply Forall_cons in Hok as [Hd Hok]. destruct (fi_region _ Hi _ _ E) as [_ Hinv].
    pose proof (cursor_range _ _ Hinv) as Hcu.
    assert (Hqt : queue st t = pending rg (flash_view (dev st))) by (unfold queue; by rewrite E).
    destruct (api_push_active st t rg data Hi Ht E Ha Hd)
      as (st1 & rg1 & r & -> & Hi1 & E1 & Hs & Hqo1 & Hcase). simpl.
    assert (Ec : cursor rg1 = cursor rg) by (unfold cursor; by rewrite Hs).
    destruct (IH st1 rg1 Hi1 Ht E1 ltac:(by rewrite Hs) Hok)
      as (st' & rg' & del & acc & -> & Hi' & E' & Hq & Htk & Hqo).
    simpl. eexists _, _, _, _. split; [done|]. split; [done|]. split; [done|].
    split; [rewrite Hq|split; [rewrite Htk, Ec|intros; rewrite Hqo, Hqo1 by done; done]].
    + destruct Hcase as [(-> & -> & _)|(-> & -> & _)]; simpl; by rewrite <- ?app_assoc.
    + f_equal.
      destruct Hcase as [(-> & -> & _)|(-> & -> & _)]; [|done].
      rewrite take_app_le; [done|]. rewrite Hqt. unfold zlen in Hcu. lia.
Qed.

(** C4: between the start of an upload session and its commit, reads and
    pushes may come in any order: the records delivered by the reads,
    followed by what is still queued after the commit, are the records that
    were queued at the start followed by the accepted pushes, each once and
    in order.  The other types are not disturbed. *)
Theorem upload_session_exact t evs st :
  fs_inv st -> 0 <= t < 4 -> Forall (event_ok t) evs ->
  exists st1 del acc st2 r,
    run_events t evs (my_flash_store_upload_begin st t) = Some (st1, del, acc) /\
    my_flash_store_commit st1 t = Some (st2, r) /\
    fs_inv st2 /\ del ++ queue st2 t = queue st t ++ acc /\
    forall t', t' <> t -> queue st2 t' = queue st t'.
Proof.
  intros Hi Ht Hok. destruct (fi_get _ _ Hi Ht) as (rg & E & _).
  destruct (api_begin _ _ _ Hi Ht E) as (Hi0 & E0 & Hq0).
  destruct (run_events_spec t evs _ _ Hi0 Ht E0 eq_refl Hok)
    as (st1 & rg1 & del & acc & Er & Hi1 & E1 & Hq1 & Htk & Hqo1).
  destruct (api_commit _ _ _ Hi1 Ht E1) as (st2 & rg2 & r & Ec & Hi2 & _ & _ & Hq2 & Hqo2 & _).
  exists st1, del, acc, st2, r. split; [done|]. split; [done|]. split; [done|].
  change (take (Z.to_nat (cursor (region_upload_begin rg))) _) with (@nil (list Z)) in Htk.
  split; [|intros t' Ht'; rewrite Hqo2, Hqo1, Hq0 by done; done].
  rewrite Hq2. simpl in Htk. rewrite <- Htk, take_drop, Hq1, Hq0. done.
Qed.

Lemma run_reads_spec t n : forall st rg,
  (forall w r, zlen (flash_view w) = PARTITION -> ~ read_fails w r) ->
  fs_inv st -> 0 <= t < 4 -> arr_get (s_region st) t = Some rg ->
  upload_active (sess rg) = true ->
  cursor rg <= zlen (snapshot rg (flash_view (dev st))) ->
  exists st' rg' del,
    run_events t (replicate n EvRead) st = Some (st', del, []) /\ fs_inv st' /\
    arr_get (s_region st') t = Some rg' /\
    cursor rg' = Z.min (cursor rg + Z.of_nat n) (zlen (snapshot rg (flash_view (dev st)))).
Proof.
  induction n as [|n IH]; intros st rg Hrd Hi Ht E Ha Hle; simpl.
  - exists st, rg, []. repeat (split; [done|]). lia.
  - destruct (api_read st t rg Hi Ht E Ha)
      as (st1 & rg1 & r & data & -> & Hi1 & E1 & Ha1 & Hq1 & Hqo1 & Hsn & Hcase). simpl.
    assert (Hc1 : cursor rg1 = Z.min (cursor rg + 1) (zlen (snapshot rg (flash_view (dev st))))).
    { destruct Hcase as [(_ & Hl & Hc1)|[(_ & ? & ?)|(Hf & _)]]; [|lia|].
      2:{ destruct (fi_region _ Hi _ _ E) as [_ Hinv]. by apply Hrd in Hf; [|apply (ri_mem _ _ Hinv)]. }
      destruct (fi_region _ Hi1 _ _ E1) as [_ Hinv1].
      pose proof (read_offset_le _ _ Hinv1). pose proof (ri_sread _ _ Hinv1).
      pose proof (snapshot_len _ _ Hinv1) as Hlen. rewrite Hsn in Hlen.
      unfold cursor in *. lia. }
    destruct (IH st1 rg1 Hrd Hi1 Ht E1 Ha1) as (st' & rg' & del & -> & Hi' & E' & Hc').
    { rewrite Hsn. lia. }
    simpl. eexists _, _, _. repeat (split; [done|]). rewrite Hc', Hsn. lia.
Qed.

(** When the flash driver does not fail, a session that reads as often as
    there are records delivers the whole queue in order, and its commit
    leaves the queue empty. *)
Theorem upload_session_complete t n st :
  (forall w r, zlen (flash_view w) = PARTITION -> ~ read_fails w r) ->
  fs_inv st -> 0 <= t < 4 -> zlen (queue st t) <= Z.of_nat n ->
  exists st1 st2 r,
    run_events t (replicate n EvRead) (my_flash_store_upload_begin st t)
    = Some (st1, queue st t, []) /\
    my_flash_store_commit st1 t = Some (st2, r) /\ fs_inv st2 /\ queue st2 t = [].
Proof.
  intros Hrd Hi Ht Hn. destruct (fi_get _ _ Hi Ht) as (rg & E & _ & Hinv & Hqt).
  destruct (api_begin _ _ _ Hi Ht E) as (Hi0 & E0 & Hq0).
  assert (Hok : Forall (event_ok t) (replicate n EvRead)) by (by apply Forall_replicate).
  destruct (run_events_spec t _ _ _ Hi0 Ht E0 eq_refl Hok)
    as (st1 & rg1 & del & acc & Er & Hi1 & E1 & Hq1 & Htk & _).
  destruct (fi_region _ Hi0 _ _ E0) as [_ Hinv0].
  pose proof (snapshot_len _ _ Hinv0) as Hsl. pose proof (zlen_pending _ _ Hinv) as Hpl.
  change (upload_staging_snap _) with (staging_count rg) in Hsl.
  change (flash_len (region_upload_begin rg)) with (flash_len rg) in Hsl.
  destruct (run_reads_spec t n _ _ Hrd Hi0 Ht E0 eq_refl) as (st1' & rg1' & del' & Er' & _ & E1' & Hc).
  { rewrite Hsl. change (cursor _) with 0. pose proof (zlen_nonneg (pending rg (flash_view (dev st)))).
    lia. }
  rewrite Er in Er'. injection Er' as -> -> ->. rewrite E1 in E1'. injection E1' as ->.
  rewrite Hsl in Hc. change (cursor (region_upload_begin rg)) with 0 in Hc.
  assert (Hcur : Z.to_nat (cursor rg1') = length (queue st t))
    by (rewrite Hqt in *; unfold zlen in *; lia).
  destruct (api_commit _ _ _ Hi1 Ht E1) as (st2 & rg2 & r & Ec & Hi2 & _ & _ & Hq2 & _).
  rewrite app_nil_r, Hq0 in Hq1. rewrite Hq1, Hcur in Htk, Hq2.
  rewrite take_ge in Htk by done. rewrite drop_ge in Hq2 by done.
  exists st1', st2, r. rewrite Er, Htk. done.
Qed.

(** *** Counting, clearing, giving up *)

(** [pending_count] is the length of the queue, in and outside a session;
    [clear] empties the queue of its type and [rewind] keeps every record;
    the other queues are not changed. *)
Theorem count_clear_rewind st t :
  fs_inv st -> 0 <= t < 4 ->
  my_flash_store_pending_count st t = zlen (queue st t) /\
  (fs_inv (my_flash_store_clear st t) /\ queue (my_flash_store_clear st t) t = [] /\
   forall t', t' <> t -> queue (my_flash_store_clear st t) t' = queue st t') /\
  (fs_inv (my_flash_store_rewind st t) /\
   forall t', queue (my_flash_store_rewind st t) t' = queue st t').
Proof.
  intros Hi Ht. destruct (fi_get _ _ Hi Ht) as (rg & E & Hc & Hinv & Hq).
  pose proof (zlen_pending _ _ Hinv) as Hl. pose proof (ri_const _ _ Hinv) as [].
  split; [|split].
  - unfold my_flash_store_pending_count. rewrite (fi_init _ Hi), fs_get_region_get, E by done.
    unfold region_pending_count. rewrite (flash_total_eq _ _ Hinv), Hq, Hl.
    pose proof (flash_len_nonneg _ _ Hinv). pose proof (ri_count _ _ Hinv).
    pose proof (ri_valid _ _ Hinv). pose proof (ri_rec _ _ Hinv).
    apply u32_small. unfold flash_len in *. nia.
  - unfold my_flash_store_clear. rewrite (fi_init _ Hi), fs_get_region_get, E by done.
    destruct (fs_meta_save _ (dev st)) as [w' r] eqn:Em.
    pose proof (fs_meta_save_flash _ _ _ _ Em) as Hv.
    assert (Hr : region_inv (fs_region_reset rg) (flash_view w')).
    { rewrite Hv. destruct Hinv. split; simpl; auto; try lia. }
    destruct (put_region_inv st t rg _ w' Hi Ht E Hr eq_refl) as (Hi' & Eg & Hq' & Hqo).
    { rewrite Hv. apply outside_refl. }
    split; [done|]. split; [|done]. rewrite Hq'. done.
  - by destruct (api_rewind _ _ _ Hi Ht E) as (? & _ & ?).
Qed.

(** The pushes of a session that is never read fill the staging buffer. *)
Lemma run_pushes_spec t datas : forall st rg,
  fs_inv st -> 0 <= t < 4 -> arr_get (s_region st) t = Some rg ->
  upload_active (sess rg) = true ->
  Forall (fun d => type_data_len t = Some (zlen d)) datas ->
  staging_count rg + zlen datas <= rec_per_sector (const rg) ->
  exists st' rg',
    run_events t (EvPush <$> datas) st = Some (st', [], datas) /\ fs_inv st' /\
    arr_get (s_region st') t = Some rg' /\ const rg' = const rg /\
    staging_count rg' = staging_count rg + zlen datas.
Proof.
  induction datas as [|d datas IH]; intros st rg Hi Ht E Ha Hok Hle.
  - exists st, rg. rewrite zlen_nil, Z.add_0_r. done.
  - apply Forall_cons in Hok as [Hd Hok]. rewrite zlen_cons in *.
    pose proof (zlen_nonneg datas). rewrite fmap_cons. cbn [run_events].
    destruct (api_push_active st t rg d Hi Ht E Ha Hd)
      as (st1 & rg1 & r & -> & Hi1 & E1 & Hs & _ & Hcase).
    destruct Hcase as [(-> & _ & Hn)|(_ & _ & _ & Hf)]; [|lia]. cbn [mbind option_bind].
    destruct (fi_region _ Hi _ _ E) as [Hc _]. destruct (fi_region _ Hi1 _ _ E1) as [Hc1 _].
    destruct (IH st1 rg1 Hi1 Ht E1 ltac:(by rewrite Hs) Hok) as (st' & rg' & -> & Hi' & E' & Hc' & Hn').
    { rewrite Hc1, <- Hc. lia. }
    simpl. exists st', rg'. repeat (split; [done|]). split; [congruence|]. lia.
Qed.

Lemma idle_full_push_overflows st t rg data :
  fs_inv st -> 0 <= t < 4 -> arr_get (s_region st) t = Some rg ->
  upload_active (sess rg) = false -> staging_count rg = rec_per_sector (const rg) ->
  my_flash_store_push t st (Some data) = None.
Proof.
  intros Hi Ht E Ha Hn. destruct (fi_region _ Hi _ _ E) as [_ Hinv].
  pose proof (ri_const _ _ Hinv) as []. pose proof (ri_buf _ _ Hinv) as Hb.
  unfold my_flash_store_push. rewrite (fi_init _ Hi), E, type_data_len_spec by done.
  unfold fs_region_push, stage_record. rewrite Ha, Hn, u32_small by nia. simpl.
  assert (Ef : arr_fill (staging_buf rg) (rec_per_sector (const rg) * rec_size (const rg))
                 (rec_size (const rg)) 0 = None); [|by rewrite Ef].
  unfold arr_fill, arr_blit. rewrite zlen_replicate, Hb.
  rewrite (proj2 (Z.leb_gt (_ + _) _)) by lia. by rewrite andb_false_r.
Qed.

(** A defect.  If the staging buffer fills up while a session is open and
    the session is then given up ([rewind]), the buffer stays full and the
    next push writes past its end. *)
Theorem push_after_aborted_session_overflows st t rg datas data :
  fs_inv st -> 0 <= t < 4 -> arr_get (s_region st) t = Some rg ->
  Forall (fun d => type_data_len t = Some (zlen d)) datas ->
  staging_count rg + zlen datas = rec_per_sector (const rg) ->
  exists st1,
    run_events t (EvPush <$> datas) (my_flash_store_upload_begin st t) = Some (st1, [], datas) /\
    my_flash_store_push t (my_flash_store_rewind st1 t) (Some data) = None.
Proof.
  intros Hi Ht E Hok Hn.
  destruct (api_begin _ _ _ Hi Ht E) as (Hi0 & E0 & _).
  destruct (run_pushes_spec t datas _ _ Hi0 Ht E0 eq_refl Hok ltac:(simpl; lia))
    as (st1 & rg1 & Er & Hi1 & E1 & Hc1 & Hn1).
  exists st1. split; [done|]. destruct (api_rewind _ _ _ Hi1 Ht E1) as (Hi2 & E2 & _).
  apply (idle_full_push_overflows _ _ _ _ Hi2 Ht E2); [done|].
  change (staging_count rg1 = rec_per_sector (const rg1)). rewrite Hc1, Hn1. done.
Qed.

(** A defect.  The commit of a session that read staged records only, when
    the metadata is up to date, always reports [-EIO]: nothing has to be
    saved, ZMS says so by returning 0, and the code takes that for an error. *)
Theorem commit_staged_only_reports_EIO st t rg :
  fs_inv st -> 0 <= t < 4 -> arr_get (s_region st) t = Some rg ->
  synced rg (dev st) -> read_offset (sess rg) = 0 ->
  exists st', my_flash_store_commit st t = Some (st', - EIO) /\
    queue st' t = drop (Z.to_nat (staging_read_idx (sess rg))) (queue st t).
Proof.
  intros Hi Ht E Hsy Hr. destruct (fi_region _ Hi _ _ E) as [_ Hinv].
  destruct (api_commit _ _ _ Hi Ht E) as (st' & rg' & r & Ec & _ & _ & _ & Hq & _).
  assert (Er : r = - EIO); [|subst r; exists st'; split; [done|by unfold cursor in Hq; rewrite Hr in Hq]].
  revert Ec. unfold my_flash_store_commit.
  rewrite (fi_init _ Hi), fs_get_region_get, E by done.
  pose proof (ri_const _ _ Hinv) as []. unfold region_commit.
  rewrite !(proj2 (Z.eqb_neq _ 0)) by lia. simpl.
  destruct (compact_staging_spec _ _ Hinv) as (b & -> & _). simpl.
  destruct (advance_read_spec _ _ Hinv) as [-> _]. rewrite Hr, Z.add_0_r.
  pose proof (ri_rec _ _ Hinv). pose proof (ri_rd _ _ Hinv).
  rewrite Z.div_small, (Z.mod_small (rd_rec_idx _)) by lia.
  rewrite Z.add_0_r, (Z.mod_small (rd_sector _)), Z.sub_0_r by lia.
  match goal with |- context [fs_meta_save ?r0 _] => set (rg0 := r0) end.
  assert (Hs0 : synced rg0 (dev st)).
  { unfold synced, region_meta, rg0. simpl. unfold synced, region_meta in Hsy.
    rewrite Hsy. by destruct (ptrs rg). }
  destruct (fs_meta_save_same rg0 _ Hs0) as [w' ->]. simpl. by intros [= _ <-].
Qed.

(** *** Restart *)

(** What the device holds for data type [t]: nothing yet, or the metadata of
    a region whose records are in FLASH. *)
Definition stored w (t : Z) (old : option fs_region_t) : Prop :=
  match old with
  | None => zms_view w (zms_id (type_const t)) = None
  | Some rg => const rg = type_const t /\ region_inv rg (flash_view w) /\ synced rg w
  end.

Definition old_records w (old : option fs_region_t) : list (list Z) :=
  match old with None => [] | Some rg => flash_records rg (flash_view w) end.

Definition zms_reads_ok : Prop :=
  forall w id v, zms_view w id = Some v -> exists w', zms_read w id (zlen v) = (w', zlen v, v).

Lemma fresh_buf t :
  zlen (staging_buf (fresh_region t)) = rec_per_sector (type_const t) * rec_size (type_const t).
Proof.
  simpl. rewrite zlen_replicate. pose proof (type_const_ok t) as []. nia.
Qed.

Lemma fresh_inv t mem : zlen mem = PARTITION -> region_inv (fresh_region t) mem.
Proof.
  intros Hm. pose proof (type_const_ok t) as Hc. pose proof Hc as [].
  split; simpl; auto; try lia. apply (fresh_buf t).
Qed.

Lemma load_stored w t old :
  zms_reads_ok -> zlen (flash_view w) = PARTITION -> stored w t old ->
  exists rg w', fs_region_load (fresh_region t) w = (rg, w') /\
    flash_view w' = flash_view w /\ (forall id, zms_view w' id = zms_view w id) /\
    const rg = type_const t /\ region_inv rg (flash_view w) /\
    pending rg (flash_view w) = old_records w old.
Proof.
  intros Hok Hm Hst. destruct old as [rg|]; simpl in Hst.
  - destruct Hst as (Hc & Hinv & Hsy). destruct (Hok _ _ _ Hsy) as [w' Er].
    pose proof (law_zms_read_pure _ _ _ _ _ _ Er) as [Hv Hz].
    destruct (fs_region_load_synced (fresh_region t) rg w w'
                (meta_bytes (region_meta rg)) Hinv Hsy)
      as (El & Hi' & Hp); [done|done| |exact Er|].
    { rewrite fresh_buf, (ri_buf _ _ Hinv). by rewrite Hc. }
    rewrite Hv in *. eexists _, _. split; [exact El|]. do 3 (split; [done|]). done.
  - unfold fs_region_load, my_user_data_read. change (META_SIZE =? 0) with false. cbv iota.
    destruct (zms_read w _ META_SIZE) as [[w' r] bs] eqn:Er.
    pose proof (law_zms_read_none _ _ _ _ _ _ Er Hst) as Hr.
    pose proof (law_zms_read_pure _ _ _ _ _ _ Er) as [Hv Hz].
    rewrite (proj2 (Z.eqb_neq r META_SIZE)) by (unfold META_SIZE; lia). simpl.
    eexists _, _. split; [done|]. do 3 (split; [done|]). split; [by apply fresh_inv|done].
Qed.

Lemma stored_ext w w' t old :
  flash_view w' = flash_view w -> (forall id, zms_view w' id = zms_view w id) ->
  stored w t old -> stored w' t old /\ old_records w' old = old_records w old.
Proof.
  intros Hv Hz. destruct old as [rg|]; simpl; unfold synced; rewrite ?Hv, ?Hz; auto.
Qed.

(** What is stored is loaded. *)
Lemma init_loads w regions (old : Z -> option fs_region_t) :
  zms_reads_ok -> zlen (flash_view w) = PARTITION ->
  (forall t, 0 <= t < 4 -> stored w t (old t)) ->
  exists st, my_flash_store_init (mk_fs false regions w) 0 true = (st, 0) /\
    fs_inv st /\ forall t, 0 <= t < 4 -> queue st t = old_records w (old t).
Proof.
  intros Hok Hm Hst. unfold my_flash_store_init. cbn [s_inited dev].
  change (negb (0 =? 0)) with false. change (negb true) with false. cbv iota.
  unfold FS_TYPE_TAG, FS_TYPE_MAC, FS_TYPE_TH, FS_TYPE_BP.
  destruct (load_stored w 0 (old 0) Hok Hm (Hst 0 ltac:(lia)))
    as (r0 & w0 & -> & Hv0 & Hz0 & Hc0 & Hi0 & Hp0).
  destruct (stored_ext w w0 1 (old 1) Hv0 Hz0 (Hst 1 ltac:(lia))) as [Hs1 Ho1].
  destruct (load_stored w0 1 (old 1) Hok ltac:(congruence) Hs1)
    as (r1 & w1 & -> & Hv1 & Hz1 & Hc1 & Hi1 & Hp1). rewrite Hv0 in Hv1.
  assert (Hz1' : forall id, zms_view w1 id = zms_view w id) by (intros; congruence).
  destruct (stored_ext w w1 2 (old 2) Hv1 Hz1' (Hst 2 ltac:(lia))) as [Hs2 Ho2].
  destruct (load_stored w1 2 (old 2) Hok ltac:(congruence) Hs2)
    as (r2 & w2 & -> & Hv2 & Hz2 & Hc2 & Hi2 & Hp2). rewrite Hv1 in Hv2.
  assert (Hz2' : forall id, zms_view w2 id = zms_view w id) by (intros; congruence).
  destruct (stored_ext w w2 3 (old 3) Hv2 Hz2' (Hst 3 ltac:(lia))) as [Hs3 Ho3].
  destruct (load_stored w2 3 (old 3) Hok ltac:(congruence) Hs3)
    as (r3 & w3 & -> & Hv3 & Hz3 & Hc3 & Hi3 & Hp3). rewrite Hv2 in Hv3.
  eexists. split; [done|].
  assert (Hget : forall t rg, arr_get [r0; r1; r2; r3] t = Some rg ->
    (t = 0 /\ rg = r0) \/ (t = 1 /\ rg = r1) \/ (t = 2 /\ rg = r2) \/ (t = 3 /\ rg = r3)).
  { intros t rg E. pose proof (arr_get_inv _ _ _ E) as [Hr _].
    assert (t = 0 \/ t = 1 \/ t = 2 \/ t = 3) as [-> | [-> | [-> | ->]]]
      by (change (zlen [r0; r1; r2; r3]) with 4 in Hr; lia);
      vm_compute in E; injection E as <-; auto. }
  split.
  - split; [done|done|]. intros t rg E. simpl in *. rewrite Hv3.
    destruct (Hget _ _ E) as [[-> ->]|[[-> ->]|[[-> ->]|[-> ->]]]]; split; congruence.
  - intros t Ht. unfold queue. simpl. rewrite Hv3.
    assert (t = 0 \/ t = 1 \/ t = 2 \/ t = 3) as [-> | [-> | [-> | ->]]] by lia;
      cbn [arr_get]; simpl; congruence.
Qed.

(** The sector that is written next, while the region has a free one. *)
Definition free_sector (old : option fs_region_t) : option Z :=
  match old with
  | None => Some 0
  | Some rg => if valid_sectors (ptrs rg) <? region_sectors (const rg) then Some (wr_sector (ptrs rg)) else None
  end.

(** [w'] is [w], or what is left of it when the power was cut after the write
    of a free sector had begun and before its metadata was saved. *)
Definition power_cut (old : Z -> option fs_region_t) w w' : Prop :=
  w' = w \/ exists t i img r, 0 <= t < 4 /\ free_sector (old t) = Some i /\ zlen img = FS_SECTOR_SIZE /\
    flash_area_write w (fs_sector_offset (type_const t) i) img = (w', r).

Lemma set_staging_same rg : set_staging (staging_buf rg) (staging_count rg) rg = rg.
Proof. by destruct rg. Qed.

(** The write touches no record that the saved metadata describes. *)
Lemma free_write_stored w w' t t' i img r old old' :
  0 <= t < 4 -> 0 <= t' < 4 -> zlen (flash_view w) = PARTITION -> (t' = t -> old' = old) -> free_sector old = Some i -> stored w t old ->
  zlen img = FS_SECTOR_SIZE -> flash_area_write w (fs_sector_offset (type_const t) i) img = (w', r) -> stored w t' old' ->
  zlen (flash_view w') = PARTITION /\ stored w' t' old' /\ old_records w' old' = old_records w old'.
Proof.
  intros Ht Ht' Hm Heq Hf Hst Hl Ew Hst'. pose proof (type_const_ok t) as Hc. unfold FS_SECTOR_SIZE in Hl.
  assert (Hi : 0 <= i < region_sectors (type_const t)).
  { destruct old as [rg|]; cbn in Hf, Hst; [|injection Hf as <-; destruct Hc; lia]. destruct Hst as (Hcr & Hinv & _). revert Hf. zcase; [|done]. intros [= <-].
    rewrite (ri_wr _ _ Hinv), <- Hcr. apply Z.mod_pos_bound. rewrite Hcr. destruct Hc; lia. }
  pose proof (sector_in_partition _ Hc _ Hi) as [Hlo Hhi].
  assert (Hm' : zlen (flash_view w') = PARTITION) by (apply (flash_write_size _ _ _ _ _ Ew); lia). split; [done|].
  assert (Hz : forall id, zms_view w' id = zms_view w id) by (intros id; by eapply law_write_zms).
  destruct old' as [rg|]; [|cbn in *; by rewrite Hz]. destruct Hst' as (Hcr & Hinv & Hsy).
  assert (Hk : region_inv rg (flash_view w') /\ pending rg (flash_view w') = pending rg (flash_view w)).
  { destruct (Z.eq_dec t' t) as [->|Hne].
    - rewrite <- (Heq eq_refl) in Hf. cbn in Hf. revert Hf. zcase; [|done]. intros [= <-].
      rewrite <- (set_staging_same rg) at 1 2. apply (inv_unstage rg _ (staging_buf rg) Hinv); [done|done|done|]. intros k Hk.
      rewrite <- Hcr in Ew, Hc. apply (flash_slot_frame _ Hc _ _ _ _ (wr_sector (ptrs rg))).
      + intros off n Hd. apply (law_write_frame _ _ _ _ _ _ _ Ew). lia.
      + rewrite (ri_wr _ _ Hinv). apply wr_not_slot; [done|apply (ri_valid _ _ Hinv)|lia|destruct Hc; apply Z.div_lt_upper_bound; lia|by left].
    - apply region_frame; [done|done|]. intros off n H1 H2. apply (law_write_frame _ _ _ _ _ _ _ Ew). rewrite Hcr in *.
      unfold fs_sector_offset, FS_SECTOR_SIZE in *. destruct (type_const_disjoint t t' Ht Ht' ltac:(congruence)); lia. }
  destruct Hk as [Hi' Hp]. split; [split; [done|]; split; [done|]; unfold synced; by rewrite Hz|]. cbn.
  unfold pending in Hp. by apply app_inv_tail in Hp.
Qed.

Lemma power_cut_stored old w w' :
  zlen (flash_view w) = PARTITION -> (forall t, 0 <= t < 4 -> stored w t (old t)) -> power_cut old w w' ->
  zlen (flash_view w') = PARTITION /\ forall t, 0 <= t < 4 -> stored w' t (old t) /\ old_records w' (old t) = old_records w (old t).
Proof.
  intros Hm Hst [->|(t & i & img & r & Ht & Hf & Hl & Ew)]; [by auto|].
  assert (H : forall t', 0 <= t' < 4 -> zlen (flash_view w') = PARTITION /\ stored w' t' (old t') /\ old_records w' (old t') = old_records w (old t')).
  { intros t' Ht'. eapply (free_write_stored w w' t t' i img r (old t)); auto. by intros ->. }
  split; [by apply (H 0)|]. intros t' Ht'. by destruct (H t' Ht') as (_ & ?).
Qed.

(** C33: initialisation after a first boot or a power cut, with drivers that
    read what was stored and saved metadata that describes intact regions:
    the module comes up with, for every data type, exactly the records that
    the last saved metadata describes, in order, and with an empty queue for a
    type that was never saved.  It does so also when the power was cut while
    the next sector of a region that is not full was being written, or between
    that write and the saving of its metadata; the records of that sector,
    and those that were only staged, are gone. *)
Theorem init_recovers w w' regions (old : Z -> option fs_region_t) :
  zms_reads_ok -> zlen (flash_view w) = PARTITION ->
  (forall t, 0 <= t < 4 -> stored w t (old t)) -> power_cut old w w' ->
  exists st, my_flash_store_init (mk_fs false regions w') 0 true = (st, 0) /\
    fs_inv st /\ forall t, 0 <= t < 4 -> queue st t = old_records w (old t).
Proof.
  intros Hok Hm Hst Hcut. apply power_cut_stored in Hcut as [Hm' Hst']; [|done|done].
  destruct (init_loads w' regions old Hok Hm' (fun t Ht => proj1 (Hst' t Ht))) as (st & E & Hi & Hq).
  exists st. split; [done|]. split; [done|]. intros t Ht. rewrite Hq by done. by apply Hst'.
Qed.
End api.
