(* ===== verification/StoreClient.v ===== *)
(** * The record store seen by its users

    What the modules that store and upload records rely on: the store is
    intact, every record in it was put there by them, and there is room in the
    staging buffers.  The functions of [FlashStore] keep this. *)

From S2P Require Import Prelude FlashStore FlashStoreProofs FlashStoreApi.

(** A flash that accepts writes inside the partition. *)
Class FlashWorks (W : Type) `{StorageIO W} : Prop := {
  works_flash_write w off bs : 0 <= off -> off + zlen bs <= zlen (flash_view w) -> snd (flash_area_write w off bs) = 0
}.

(** [k] more records can be staged in an open session; a closed region is not full. *)
Definition room (k : Z) (rg : fs_region_t) : Prop :=
  staging_count rg + (if upload_active (sess rg) then k else 1) <= rec_per_sector (const rg).

Section client.
Context {W : Type} {SIO : StorageIO W} {HL : StorageLaws W}.
Implicit Types (rg : fs_region_t) (w : W) (st : fs_state W).

(** Every record of type [t] satisfies [P t]. *)
Context (P : Z -> list Z -> Prop).

Record store_ok st : Prop := {
  so_inv : fs_inv st;
  so_recs t : Forall (P t) (queue st t)
}.

Definition roomy (k : Z) st : Prop := forall t rg, arr_get (s_region st) t = Some rg -> room k rg.

(** An upload of type [t] is open. *)
Definition open st (t : Z) : Prop := exists rg, arr_get (s_region st) t = Some rg /\ upload_active (sess rg) = true.

Lemma roomy_le k k' st : roomy k st -> k' <= k -> roomy k' st.
Proof. intros H Hk t rg E. specialize (H t rg E). unfold room in *. destruct (upload_active _); lia. Qed.

(** The other modules change the device but not the flash. *)
Lemma store_dev st d : store_ok st -> flash_view d = flash_view (dev st) ->
  let st' := mk_fs (s_inited st) (s_region st) d in
  store_ok st' /\ (forall k, roomy k st -> roomy k st') /\ (forall t, open st t -> open st' t) /\ forall t, queue st' t = queue st t.
Proof.
  intros [Hi Hr] Ed st'. assert (Hq : forall t, queue st' t = queue st t) by (intros t; unfold queue, st'; cbn; by rewrite Ed).
  split; [|split; [done|split; [done|done]]]. split; [|intros t; by rewrite Hq].
  destruct Hi as [H1 H2 H3]. split; [done|done|]. intros t rg E. unfold st'. cbn. rewrite Ed. by apply H3.
Qed.

(** A push with room stages the record; a closed region flushes a full staging buffer. *)
Lemma push_count {HF : FlashWorks W} rg w data n rg' w' r :
  region_inv rg (flash_view w) -> staging_count rg < rec_per_sector (const rg) ->
  fs_region_push rg w data n = Some (rg', w', r) ->
  sess rg' = sess rg /\ (upload_active (sess rg) = true -> ptrs rg' = ptrs rg) /\
  staging_count rg' = if negb (upload_active (sess rg)) && (staging_count rg + 1 =? rec_per_sector (const rg)) then 0
                      else staging_count rg + 1.
Proof.
  intros Hinv Hn. pose proof (ri_const _ _ Hinv) as Hc. pose proof Hc as []. pose proof (ri_count _ _ Hinv). unfold fs_region_push.
  rewrite (proj2 (Z.leb_gt _ _)), andb_false_r by done. intros (b & _ & E)%bind_Some. revert E. cbn. rewrite u16_small by nia.
  destruct (upload_active (sess rg)) eqn:Ha; [rewrite andb_false_r; by intros [= <- _ _]|]. rewrite andb_true_r. cbn [negb andb].
  destruct (Z.leb_spec (rec_per_sector (const rg)) (staging_count rg + 1)) as [Hf|Hf].
  2:{ rewrite (proj2 (Z.eqb_neq _ _)) by lia. by intros [= <- _ _]. }
  rewrite (proj2 (Z.eqb_eq _ _)) by lia. unfold fs_flush_staging. cbn. rewrite (proj2 (Z.eqb_neq _ _)) by lia.
  intros (img & Eimg & E)%bind_Some. apply sector_image_len in Eimg. revert E.
  assert (Hs : 0 <= wr_sector (ptrs rg) < region_sectors (const rg)) by (rewrite (ri_wr _ _ Hinv); apply Z.mod_pos_bound; lia).
  pose proof (sector_in_partition _ Hc _ Hs) as [Hlo Hhi]. pose proof (ri_mem _ _ Hinv) as Hm.
  pose proof (works_flash_write w (fs_sector_offset (const rg) (wr_sector (ptrs rg))) img) as Hw.
  destruct (flash_area_write w _ img) as [w1 r1]. cbn in Hw. rewrite Hw by lia. cbn. zcase; [done|].
  destruct (fs_meta_save _ w1). by intros [= <- _ _].
Qed.

(** No push can write behind a staging buffer: a full one belongs to an open upload. *)
Definition unfilled st : Prop := forall t rg, arr_get (s_region st) t = Some rg -> push_safe rg.

Lemma unfilled_roomy st : store_ok st -> unfilled st -> roomy 0 st.
Proof.
  intros [Hi _] Hu t rg E. destruct (fi_region _ Hi _ _ E) as [_ Hinv]. pose proof (ri_count _ _ Hinv). unfold room.
  destruct (Hu t rg E) as [->|Hn]; [lia|]. destruct (upload_active _); lia.
Qed.

(** A push with room: the record is appended, or the oldest records give way to it.
    Only an open upload without room, the case of a negative [k], drops the record. *)
Lemma region_push {HF : FlashWorks W} k rg w data :
  region_inv rg (flash_view w) -> room (k + 1) rg -> 1 < rec_per_sector (const rg) -> zlen data = data_len (const rg) ->
  exists rg' w' r, fs_region_push rg w data (data_len (const rg)) = Some (rg', w', r) /\ region_inv rg' (flash_view w') /\
    room k rg' /\ sess rg' = sess rg /\ const rg' = const rg /\ outside (const rg) (flash_view w) (flash_view w') /\
    ((k < 0 /\ rg' = rg /\ w' = w) \/
     exists n, pending rg' (flash_view w') = drop n (pending rg (flash_view w) ++ [data]) /\ (upload_active (sess rg) = true -> n = O /\ ptrs rg' = ptrs rg)).
Proof.
  intros Hinv Hr Hp Hd. pose proof (ri_count _ _ Hinv) as Hcnt.
  assert (Hsafe : push_safe rg) by (unfold push_safe, room in *; destruct (upload_active _); [by left|right; lia]).
  destruct (fs_region_push_spec rg w data Hinv Hsafe Hd) as (rg' & w' & r & E & Ho).
  destruct (fs_region_push_frame _ _ _ _ _ _ _ Hinv E) as (Hco & _ & Hout & _).
  destruct (decide (staging_count rg = rec_per_sector (const rg))) as [Hfull|Hnf].
  { assert (Ha : upload_active (sess rg) = true) by (destruct Hsafe; [done|lia]).
    unfold fs_region_push in E. rewrite Ha, Hfull, Z.leb_refl in E. injection E as <- <- <-. exists rg, w, (- EBUSY).
    unfold room in *. rewrite Ha in *. split; [unfold fs_region_push; by rewrite Ha, Hfull, Z.leb_refl|]. split; [done|]. split; [lia|]. split; [done|]. split; [done|].
    split; [apply outside_refl|]. left. split; [lia|done]. }
  assert (Hn : staging_count rg < rec_per_sector (const rg)) by lia.
  destruct (push_count rg w data _ rg' w' r Hinv Hn E) as (Hs & Hpt & Hc).
  assert (Hr' : room k rg').
  { unfold room in *. rewrite Hs, Hc, Hco. destruct (upload_active (sess rg)); cbn [negb andb] in *; [lia|zcase; lia]. }
  destruct Ho as [Ha Hf|rg' w' r Hi _ _ Hq _|rg' w' r Hi _ Ha _ Hq _|rg' w' r _ _ Ha Hf _ _ _ Hst _ _]; [lia| | |].
  - exists rg', w', r. do 6 (split; [done|]). right. exists O. rewrite drop_0. auto.
  - exists rg', w', r. do 6 (split; [done|]). right. eexists. split; [exact Hq|]. congruence.
  - exfalso. apply (f_equal length) in Hst. unfold staged_records in Hst. rewrite !length_fmap, !length_seqZ, Hc, Ha in Hst. cbn [negb andb] in Hst.
    rewrite (proj2 (Z.eqb_eq _ _)) in Hst by done. lia.
Qed.

Lemma type_rps t : 1 < rec_per_sector (type_const t).
Proof. unfold type_const. repeat zcase; by vm_compute. Qed.

(** ** The functions *)

(** Only the records of type [t] are concerned. *)
Definition only (t : Z) st st' : Prop :=
  forall t', t' <> t -> arr_get (s_region st') t' = arr_get (s_region st) t' /\ queue st' t' = queue st t'.

Lemma only_refl t st : only t st st.
Proof. by intros t' _. Qed.

Lemma only_trans t st1 st2 st3 : only t st1 st2 -> only t st2 st3 -> only t st1 st3.
Proof. intros H1 H2 t' Hne. destruct (H1 t' Hne) as [E1 E2], (H2 t' Hne) as [E3 E4]. split; congruence. Qed.

(** An open upload: [sent] has been read, [rest] will be, [new] was stored since it began. *)
Definition session st (t : Z) (sent rest new : list (list Z)) : Prop :=
  exists rg, arr_get (s_region st) t = Some rg /\ upload_active (sess rg) = true /\ cursor rg = zlen sent /\
    take (Z.to_nat (flash_len rg + upload_staging_snap (sess rg))) (queue st t) = sent ++ rest /\ queue st t = sent ++ rest ++ new.

Lemma session_eq st st' t sent rest new : arr_get (s_region st') t = arr_get (s_region st) t -> queue st' t = queue st t ->
  session st t sent rest new -> session st' t sent rest new.
Proof. unfold session. by intros -> ->. Qed.

Lemma session_open st t sent rest new : session st t sent rest new -> open st t.
Proof. intros (rg & E & Ha & _). by exists rg. Qed.

Lemma only_open t st st' t' : only t st st' -> t' <> t -> open st t' -> open st' t'.
Proof. intros Ho Hne (rg & E & Ha). exists rg. by rewrite (proj1 (Ho t' Hne)). Qed.

Lemma open_session st t : store_ok st -> 0 <= t < 4 -> open st t -> exists sent rest new, session st t sent rest new.
Proof.
  intros [Hi _] Ht (rg & E & Ha). destruct (fi_region _ Hi _ _ E) as [_ Hinv].
  pose proof (snapshot_len _ _ Hinv) as Hl. pose proof (cursor_range _ _ Hinv).
  set (sn := snapshot rg (flash_view (dev st))) in *.
  assert (Hq : queue st t = pending rg (flash_view (dev st))) by (unfold queue; by rewrite E).
  exists (take (Z.to_nat (cursor rg)) sn), (drop (Z.to_nat (cursor rg)) sn), (drop (Z.to_nat (flash_len rg + upload_staging_snap (sess rg))) (queue st t)).
  exists rg. split; [done|]. split; [done|].
  assert (Hc : cursor rg <= zlen sn).
  { rewrite Hl. unfold cursor. pose proof (read_offset_le _ _ Hinv). pose proof (ri_sread _ _ Hinv). lia. }
  split; [rewrite zlen_take; unfold zlen in *; lia|]. rewrite take_drop, app_assoc, take_drop, Hq. split; [done|]. unfold sn, snapshot. by rewrite take_drop.
Qed.

Lemma put_only st t rg rg' w' : fs_inv st -> 0 <= t < 4 -> arr_get (s_region st) t = Some rg ->
  region_inv rg' (flash_view w') -> const rg' = const rg -> outside (const rg) (flash_view (dev st)) (flash_view w') ->
  only t st (put_region st t rg' w').
Proof.
  intros Hi Ht E Hi' Hc Ho t' Hne. destruct (put_region_inv st t rg rg' w' Hi Ht E Hi' Hc Ho) as (_ & _ & _ & Hq).
  split; [|by apply Hq]. rewrite arr_get_put by (auto; by apply fi_len). by rewrite (proj2 (Z.eqb_neq _ _)).
Qed.

Lemma store_only st st' t : store_ok st -> fs_inv st' -> only t st st' -> Forall (P t) (queue st' t) -> store_ok st'.
Proof.
  intros [_ Hq] Hi Ho Ht. split; [done|]. intros t'. destruct (Z.eq_dec t' t) as [->|Hne]; [done|]. by rewrite (proj2 (Ho t' Hne)).
Qed.

Lemma store_push {HF : FlashWorks W} k st t data :
  store_ok st -> roomy (k + 1) st -> 0 <= t < 4 -> type_data_len t = Some (zlen data) -> P t data ->
  exists st' r, my_flash_store_push t st (Some data) = Some (st', r) /\ store_ok st' /\ roomy k st' /\ only t st st' /\
    (open st t -> open st' t) /\
    (0 <= k -> exists n, queue st' t = drop n (queue st t ++ [data]) /\
       forall sent rest new, session st t sent rest new -> session st' t sent rest (new ++ [data])).
Proof.
  intros Hst Hr Ht Hd HP. pose proof Hst as [Hi Hq]. destruct (fi_get st t Hi Ht) as (rg & E & Hc & Hinv & Hqt).
  rewrite type_data_len_spec in Hd by done. injection Hd as Hd. rewrite <- Hc in Hd. pose proof (type_rps t) as Hp. rewrite <- Hc in Hp.
  destruct (region_push k rg (dev st) data Hinv (Hr t rg E) Hp (eq_sym Hd)) as (rg' & w' & r & Ep & Hi' & Hr' & Hs & Hc' & Hout & Hcase).
  destruct (put_region_inv st t rg rg' w' Hi Ht E Hi' Hc' Hout) as (Hfi & Eg & Hq' & _). pose proof (fi_len _ Hi) as Hlen.
  pose proof (put_only st t rg rg' w' Hi Ht E Hi' Hc' Hout) as Hon.
  exists (put_region st t rg' w'), r. split.
  { unfold my_flash_store_push. rewrite (fi_init _ Hi), E, type_data_len_spec by done. by rewrite <- Hc, Ep. }
  split; [|split; [|split; [done|split]]].
  - eapply store_only; [done..|]. rewrite Hq'. destruct Hcase as [(_ & -> & ->)|(n & Hpe & _)]; [by rewrite <- Hqt|].
    rewrite Hpe, <- Hqt. apply Forall_drop, Forall_app. auto.
  - intros t' rg2 E2. rewrite arr_get_put in E2 by done. revert E2. zcase; [by intros [= <-]|].
    intros E2. specialize (Hr t' rg2 E2). unfold room in *. destruct (upload_active _); lia.
  - intros (rg2 & E2 & Ha). exists rg'. simplify_eq. split; [done|]. congruence.
  - intros Hk. destruct Hcase as [(? & _)|(n & Hpe & Hact)]; [lia|]. exists n. rewrite Hq', Hpe, <- Hqt. split; [done|].
    intros sent rest new (rg2 & E2 & Ha & Hcu & Hta & Hqu). simplify_eq. destruct (Hact Ha) as [-> Hpt]. rewrite drop_0 in Hpe.
    exists rg'. rewrite Hq', Hpe, <- Hqt. split; [done|]. split; [congruence|]. unfold cursor, flash_len in *. rewrite Hs, Hc', Hpt.
    split; [done|]. split; [|by rewrite Hqu, <- !app_assoc]. rewrite <- Hta, take_app_le; [done|].
    rewrite Hqt. pose proof (snapshot_len _ _ Hinv) as Hl. unfold snapshot, flash_len, zlen in Hl. rewrite length_take in Hl. lia.
Qed.

Lemma store_begin st t : store_ok st -> 0 <= t < 4 ->
  let st' := my_flash_store_upload_begin st t in
  store_ok st' /\ only t st st' /\ session st' t [] (queue st t) [] /\ queue st' t = queue st t.
Proof.
  intros H Ht. pose proof H as [Hi Hr]. destruct (fi_get st t Hi Ht) as (rg & E & Hc & Hinv & Hq).
  pose proof (api_begin st t rg Hi Ht E) as (Hi' & E' & Hq'). cbv zeta.
  assert (Ho : only t st (my_flash_store_upload_begin st t)).
  { unfold my_flash_store_upload_begin. rewrite (fi_init _ Hi), fs_get_region_get, E by done.
    by apply (put_only st t rg); auto using inv_begin, outside_refl. }
  split; [by eapply store_only; [..|rewrite Hq']|]. split; [done|]. split; [|done].
  exists (region_upload_begin rg). split; [done|]. split; [done|]. split; [done|]. rewrite Hq', app_nil_r. split; [|done].
  cbn [upload_staging_snap]. pose proof (zlen_pending _ _ Hinv) as Hl. apply take_ge. rewrite Hq. unfold zlen in Hl. cbn. unfold flash_len in *. cbn. lia.
Qed.

Lemma store_rewind st t : store_ok st -> 0 <= t < 4 ->
  let st' := my_flash_store_rewind st t in store_ok st' /\ only t st st' /\ queue st' t = queue st t.
Proof.
  intros H Ht. pose proof H as [Hi Hr]. destruct (fi_get st t Hi Ht) as (rg & E & Hc & Hinv & Hq).
  pose proof (api_rewind st t rg Hi Ht E) as (Hi' & E' & Hq'). cbv zeta.
  assert (Ho : only t st (my_flash_store_rewind st t)).
  { unfold my_flash_store_rewind. rewrite (fi_init _ Hi), fs_get_region_get, E by done.
    by apply (put_only st t rg); auto using inv_rewind, outside_refl. }
  split; [by eapply store_only; [..|rewrite Hq']|done].
Qed.

Lemma store_count st t : store_ok st -> 0 <= t < 4 -> my_flash_store_pending_count st t = zlen (queue st t).
Proof. intros H Ht. by destruct (count_clear_rewind st t (so_inv _ H) Ht). Qed.

Lemma read_others st t st' r data t' : my_flash_store_read_next st t true = Some (st', r, data) -> 0 <= t < 4 -> zlen (s_region st) = 4 -> t' <> t ->
  arr_get (s_region st') t' = arr_get (s_region st) t'.
Proof.
  intros E Ht Hl Hne. unfold my_flash_store_read_next in E. destruct (s_inited st), (fs_get_region st t), (type_data_len t); try by injection E as <- _ _.
  apply bind_Some in E as ([[[rg w] r'] d'] & _ & E). injection E as <- _ _. rewrite arr_get_put by done. by rewrite (proj2 (Z.eqb_neq _ _)).
Qed.

Lemma commit_others st t st' r t' : my_flash_store_commit st t = Some (st', r) -> 0 <= t < 4 -> zlen (s_region st) = 4 -> t' <> t ->
  arr_get (s_region st') t' = arr_get (s_region st) t'.
Proof.
  intros E Ht Hl Hne. unfold my_flash_store_commit in E. destruct (s_inited st), (fs_get_region st t); try by injection E as <- _.
  apply bind_Some in E as ([[rg w] r'] & _ & E). injection E as <- _. rewrite arr_get_put by done. by rewrite (proj2 (Z.eqb_neq _ _)).
Qed.

(** A record is read, or there is none left, or the flash could not be read. *)
Lemma store_read st t sent rest new : store_ok st -> 0 <= t < 4 -> session st t sent rest new ->
  exists st' r data, my_flash_store_read_next st t true = Some (st', r, data) /\ store_ok st' /\ only t st st' /\ queue st' t = queue st t /\
    ((r = 1 /\ P t data /\ exists rest', rest = data :: rest' /\ session st' t (sent ++ [data]) rest' new) \/
     (r <= 0 /\ session st' t sent rest new /\ (r = 0 /\ rest = [] \/ read_fails (dev st) r))).
Proof.
  intros H Ht (rg & E & Ha & Hcu & Hta & Hqu). pose proof H as [Hi Hr]. destruct (fi_get st t Hi Ht) as (rg0 & E0 & Hc & Hinv & Hq). simplify_eq.
  destruct (api_read st t rg Hi Ht E Ha) as (st' & rg' & r & data & Er & Hi' & E' & Ha' & Hq' & Hqo & Hsn & Hcase).
  assert (Ho : only t st st') by (intros t' Hne; split; [eapply read_others; eauto; by apply fi_len|by apply Hqo]).
  destruct (fi_get st' t Hi' Ht) as (rg1 & E1 & _ & _ & Hq1). simplify_eq.
  assert (Hsn' : snapshot rg (flash_view (dev st)) = sent ++ rest) by (unfold snapshot; by rewrite <- Hq).
  assert (Hta' : take (Z.to_nat (flash_len rg' + upload_staging_snap (sess rg'))) (queue st' t) = sent ++ rest) by (rewrite Hq1; by rewrite <- Hsn', <- Hsn).
  exists st', r, data. split; [done|]. split; [eapply store_only; [done..|by rewrite Hq']|]. split; [done|]. split; [done|].
  destruct Hcase as [(-> & Hl & Hc')|[(-> & Hc' & Hc2)|(Hf & _ & Hc')]].
  - left. split; [done|]. split; [eapply Forall_lookup_1; [apply Hr|done]|].
    assert (Hl' : (rest ++ new) !! O = Some data) by (rewrite Hqu, Hcu, lookup_app_r in Hl by (unfold zlen; lia); unfold zlen in Hl; by rewrite Nat2Z.id, Nat.sub_diag in Hl).
    destruct rest as [|d rest'].
    { exfalso. pose proof (cursor_range _ _ (proj2 (fi_region _ Hi' _ _ E'))). pose proof (snapshot_len _ _ (proj2 (fi_region _ Hi' _ _ E'))) as Hsl.
      pose proof (read_offset_le _ _ (proj2 (fi_region _ Hi' _ _ E'))). pose proof (ri_sread _ _ (proj2 (fi_region _ Hi' _ _ E'))).
      rewrite Hsn, Hsn', app_nil_r in Hsl. unfold cursor in *. lia. }
    injection Hl' as ->. exists rest'. split; [done|]. exists rg'. rewrite Hq', <- !app_assoc. cbn [app]. rewrite Hc', zlen_app. rewrite Hq' in Hta'. by rewrite Hcu.
  - right. split; [done|]. split; [exists rg'; by rewrite Hq' in *; rewrite Hc2|]. left. split; [done|].
    rewrite Hsn', zlen_app in Hc'. unfold zlen in *. destruct rest; [done|]. cbn in *. lia.
  - right. split; [destruct Hf; lia|]. split; [|by right]. exists rg'. rewrite Hq' in *. by rewrite Hc'.
Qed.

Lemma store_commit st t : store_ok st -> 0 <= t < 4 ->
  exists st' r, my_flash_store_commit st t = Some (st', r) /\ store_ok st' /\ only t st st' /\
    forall sent rest new, session st t sent rest new -> queue st' t = rest ++ new.
Proof.
  intros H Ht. pose proof H as [Hi Hr]. destruct (fi_get st t Hi Ht) as (rg & E & Hc & Hinv & Hq).
  destruct (api_commit st t rg Hi Ht E) as (st' & rg' & r & Ec & Hi' & E' & _ & Hq' & Hqo & _).
  assert (Ho : only t st st') by (intros t' Hne; split; [eapply commit_others; eauto; by apply fi_len|by apply Hqo]).
  exists st', r. split; [done|]. split; [eapply store_only; [done..|rewrite Hq'; by apply Forall_drop]|]. split; [done|].
  intros sent rest new (rg2 & E2 & _ & Hcu & _ & Hqu). simplify_eq. rewrite Hq', Hqu, Hcu. unfold zlen. by rewrite Nat2Z.id, drop_app_length.
Qed.

(** *** What the store does not touch *)

Section view.
Context {T : Type} (view : W -> T).

Lemma read_loop_view n : forall rg w len rg' w' o, (forall w off k, view (fst (fst (flash_area_read w off k))) = view w) ->
  read_loop n rg w len = Some (rg', w', o) -> view w' = view w.
Proof.
  induction n as [|n IH]; intros rg w len rg' w' o Hv E; cbn [read_loop] in E; [by injection E as _ <- _|]. revert E. zcase; [|by intros [= _ <- _]].
  destruct (rec_per_sector (const rg) =? 0); [done|]. destruct (region_sectors (const rg) =? 0); [done|]. cbn [orb]. cbv zeta.
  intros ([[w1 r1] d1] & E1 & E)%bind_Some.
  assert (H1 : view w1 = view w).
  { unfold fs_read_flash_record in E1. destruct (FS_TAG_REC_SIZE <? rec_size (const rg)); [done|]. cbv zeta in E1.
    match type of E1 with context [flash_area_read w ?o ?k] => specialize (Hv w o k); destruct (flash_area_read w o k) as [[w2 r2] s2] end. cbn in Hv.
    destruct (negb (r2 =? 0)); [injection E1 as <- _ _; done|]. apply bind_Some in E1 as (mark & _ & E1). destruct (negb _); [injection E1 as <- _ _; done|].
    apply bind_Some in E1 as (data & _ & E1). injection E1 as <- _ _. done. }
  revert E. repeat case_match; try (intros [= _ <- _]; done); intros E; rewrite <- H1; eapply IH; eauto.
Qed.

Lemma read_view st t st' r data : (forall w off k, view (fst (fst (flash_area_read w off k))) = view w) ->
  my_flash_store_read_next st t true = Some (st', r, data) -> view (dev st') = view (dev st).
Proof.
  intros Hv E. unfold my_flash_store_read_next in E. destruct (s_inited st), (fs_get_region st t), (type_data_len t); try by injection E as <- _ _.
  apply bind_Some in E as ([[[rg w] r'] d'] & E & Es). injection Es as <- _ _. cbn. unfold region_read_next in E.
  apply bind_Some in E as ([[rg1 w1] o] & E1 & E). apply read_loop_view in E1; [|done]. rewrite <- E1. destruct o as [[]|]; [by injection E as _ <- _ _|].
  revert E. zcase; [|by intros [= _ <- _ _]]. intros (d & _ & E)%bind_Some. by injection E as _ <- _ _.
Qed.

Lemma commit_view st t st' r : (forall w id bs, view (fst (zms_write w id bs)) = view w) ->
  my_flash_store_commit st t = Some (st', r) -> view (dev st') = view (dev st).
Proof.
  intros Hv E. unfold my_flash_store_commit in E. destruct (s_inited st), (fs_get_region st t); try by injection E as <- _.
  apply bind_Some in E as ([[rg w] r'] & E & Es). injection Es as <- _. cbn. unfold region_commit in E. destruct (_ || _); [done|].
  apply bind_Some in E as ([b n] & _ & E). unfold fs_meta_save, my_user_data_write in E. cbn [zlen] in E. revert E. zcase; [by intros [= _ <- _]|].
  match goal with |- context [zms_write ?w ?id ?bs] => specialize (Hv w id bs); destruct (zms_write w id bs) as [w2 r2] end. cbn in Hv.
  destruct (r2 =? META_SIZE); by intros [= _ <- _].
Qed.
End view.
End client.
