(* ===== verification/FlashStoreSim.v ===== *)
(** * A simulated device for the record store

    An in-memory partition and key-value store that satisfy [StorageLaws],
    and the theorems of [FlashStoreApi] evaluated on it. *)

From S2P Require Import Prelude Crc FlashStore FlashStoreProofs FlashStoreApi StoreClient.

Record sim := mk_sim { sim_flash : list Z; sim_zms : Z -> option (list Z) }.

(** Accesses outside the partition are errors; saving an equal value writes
    nothing. *)
#[export] Instance sim_io : StorageIO sim := {
  flash_view := sim_flash;
  zms_view := sim_zms;
  flash_area_write w off bs :=
    match arr_blit (sim_flash w) off bs with
    | Some m => (mk_sim m (sim_zms w), 0)
    | None => (w, - EINVAL)
    end;
  flash_area_read w off n :=
    match arr_slice (sim_flash w) off n with
    | Some bs => (w, 0, bs)
    | None => (w, - EINVAL, [])
    end;
  zms_write w id bs :=
    if decide (sim_zms w id = Some bs) then (w, 0)
    else (mk_sim (sim_flash w) (fun i => if i =? id then Some bs else sim_zms w i), zlen bs);
  zms_read w id n :=
    match sim_zms w id with
    | Some v => (w, Z.min (Z.max 0 n) (zlen v), take (Z.to_nat n) v)
    | None => (w, -2, [])
    end;
  crc32_ieee l := default 0 (my_crc32_final <$> my_crc32_update my_crc32_init l (zlen l))
}.

#[export] Instance sim_laws : StorageLaws sim.
Proof.
  split; simpl.
  - intros w off bs w'. destruct (arr_blit _ _ _) as [m|]; [by intros [= <-]|done].
  - intros w off bs w' r off' n. destruct (arr_blit _ _ _) as [m|] eqn:E.
    + intros [= <- <-] Hd. by apply (arr_slice_blit_disj _ _ _ _ _ _ E).
    + by intros [= <- <-].
  - intros w off bs w' r id. by destruct (arr_blit _ _ _); intros [= <- <-].
  - intros w off n w' bs. by destruct (arr_slice _ _ _); intros [= <- <-].
  - intros w off n w' r bs. by destruct (arr_slice _ _ _); intros [= <- <- <-].
  - intros w off n w' r bs. by destruct (arr_slice _ _ _); intros [= <- <- <-].
  - intros w id bs w' r. destruct (decide _) as [E|E]; intros [= <- <-]; [done|].
    intros _ _. simpl. by rewrite Z.eqb_refl.
  - intros w id bs w' r. destruct (decide _) as [E|E]; by intros [= <- <-].
  - intros w id bs w' r id'. destruct (decide _) as [E|E]; intros [= <- <-]; [done|].
    intros Hne. simpl. by rewrite (proj2 (Z.eqb_neq _ _)).
  - intros w id bs w' r. by destruct (decide _) as [E|E]; intros [= <- <-].
  - intros w id n w' bs. destruct (sim_zms w id) as [v|]; [|intros [= _ <- _]; lia].
    intros [= <- Hn <-] H. exists v. split; [done|]. split; [done|].
    rewrite zlen_take. pose proof (zlen_nonneg v). lia.
  - intros w id n w' r bs. by destruct (sim_zms w id) as [v|]; intros [= <- <- <-].
  - intros w id n w' r bs. by destruct (sim_zms w id) as [v|]; intros [= <- <- <-].
  - intros l. unfold default. destruct (_ <$> _) as [x|] eqn:E; [|lia].
    destruct (my_crc32_update _ _ _); [|done]. injection E as <-. apply u32_range.
Qed.

(** A blank device and the module after its first boot. *)
Definition blank : sim := mk_sim (replicate (Z.to_nat PARTITION) 255) (fun _ => None).

Definition sim0 : fs_state sim :=
  mk_fs true [fresh_region 0; fresh_region 1; fresh_region 2; fresh_region 3] blank.

Example sim0_is_first_boot :
  my_flash_store_init (mk_fs false [] blank) 0 true = (sim0, 0).
Proof. reflexivity. Qed.

Lemma blank_size : zlen (flash_view blank) = PARTITION.
Proof.
  change (flash_view blank) with (replicate (Z.to_nat PARTITION) 255).
  rewrite zlen_replicate. apply Z2Nat.id. unfold PARTITION, FS_TOTAL_SECTORS, FS_SECTOR_SIZE. lia.
Qed.

Lemma sim0_inv : fs_inv sim0.
Proof.
  split; [reflexivity|reflexivity|]. intros t rg E.
  pose proof (arr_get_inv _ _ _ E) as [Hr _]. change (zlen (s_region sim0)) with 4 in Hr.
  assert (t = 0 \/ t = 1 \/ t = 2 \/ t = 3) as [-> | [-> | [-> | ->]]] by lia;
    injection E as <-; (split; [reflexivity|]); apply fresh_inv, blank_size.
Qed.

Definition rec_a : list Z := [1; 2; 3; 4; 5; 6; 7; 8].
Definition rec_b : list Z := [8; 7; 6; 5; 4; 3; 2; 1].

(** Two temperature records staged while a session is open. *)
Definition sim1 : fs_state sim :=
  match run_events 2 (EvPush <$> [rec_a; rec_b]) (my_flash_store_upload_begin sim0 2) with
  | Some (st, _, _) => st
  | None => sim0
  end.

Lemma sim1_inv : fs_inv sim1.
Proof.
  destruct (api_begin sim0 2 (fresh_region 2) sim0_inv ltac:(lia) eq_refl) as (Hi & E & _).
  destruct (run_pushes_spec 2 [rec_a; rec_b] _ _ Hi ltac:(lia) E eq_refl)
    as (st & rg & Er & Hi' & _); [repeat constructor|vm_compute; congruence|].
  unfold sim1. rewrite Er. exact Hi'.
Qed.

Lemma my_flash_store_push_refines_witness :
  exists st' rg' r, my_flash_store_push 2 sim0 (Some rec_a) = Some (st', r) /\
    arr_get (s_region st') 2 = Some rg' /\
    push_outcome (fresh_region 2) blank rec_a rg' (dev st') r.
Proof.
  destruct (my_flash_store_push_refines sim0 2 (fresh_region 2) rec_a)
    as (st' & rg' & r & H1 & H2 & H3 & _).
  - exact sim0_inv.
  - lia.
  - reflexivity.
  - right. reflexivity.
  - reflexivity.
  - exists st', rg', r. exact (conj H1 (conj H2 H3)).
Defined.

Lemma upload_session_exact_witness :
  exists st1 del acc st2 r,
    run_events 2 [EvRead; EvPush rec_a; EvRead; EvRead] (my_flash_store_upload_begin sim1 2)
    = Some (st1, del, acc) /\
    my_flash_store_commit st1 2 = Some (st2, r) /\
    del ++ queue st2 2 = [rec_a; rec_b] ++ acc.
Proof.
  destruct (upload_session_exact 2 [EvRead; EvPush rec_a; EvRead; EvRead] sim1)
    as (st1 & del & acc & st2 & r & H1 & H2 & _ & H3 & _).
  - exact sim1_inv.
  - lia.
  - repeat constructor.
  - exists st1, del, acc, st2, r. split; [exact H1|]. split; [exact H2|].
    rewrite H3. reflexivity.
Defined.

Lemma sim_reads_ok : forall (w : sim) r, zlen (sim_flash w) = PARTITION -> ~ read_fails w r.
Proof.
  intros w r Hw (Hr & off & n & w' & bs & H1 & H2 & H3 & E). simpl in E.
  rewrite arr_slice_Some in E by lia. injection E as <- <- <-. lia.
Qed.

Lemma upload_session_complete_witness :
  exists st1 st2 r,
    run_events 2 (replicate 2 EvRead) (my_flash_store_upload_begin sim1 2)
    = Some (st1, [rec_a; rec_b], []) /\
    my_flash_store_commit st1 2 = Some (st2, r) /\ queue st2 2 = [].
Proof.
  destruct (upload_session_complete 2 2 sim1) as (st1 & st2 & r & H1 & H2 & _ & H3).
  - exact sim_reads_ok.
  - exact sim1_inv.
  - lia.
  - vm_compute. congruence.
  - exists st1, st2, r. exact (conj H1 (conj H2 H3)).
Defined.

Lemma count_clear_rewind_witness :
  my_flash_store_pending_count sim1 2 = 2 /\ queue (my_flash_store_clear sim1 2) 2 = [].
Proof.
  destruct (count_clear_rewind sim1 2) as (H1 & (_ & H2 & _) & _).
  - exact sim1_inv.
  - lia.
  - split; [rewrite H1; reflexivity|exact H2].
Defined.

Lemma push_after_aborted_session_overflows_witness :
  exists st1,
    run_events 0 (EvPush <$> replicate 42 (replicate 92 7)) (my_flash_store_upload_begin sim0 0)
    = Some (st1, [], replicate 42 (replicate 92 7)) /\
    my_flash_store_push 0 (my_flash_store_rewind st1 0) (Some (replicate 92 7)) = None.
Proof.
  apply (push_after_aborted_session_overflows sim0 0 (fresh_region 0)).
  - exact sim0_inv.
  - lia.
  - reflexivity.
  - apply Forall_replicate. reflexivity.
  - reflexivity.
Defined.

(** [blank] with the metadata of an empty temperature region saved. *)
Definition saved : sim := fst (fs_meta_save (fresh_region 2) blank).

Lemma saved_synced : synced (fresh_region 2) saved.
Proof.
  apply (fs_meta_save_sync _ blank). unfold saved.
  destruct (fs_meta_save (fresh_region 2) blank) as [w r] eqn:E.
  assert (r = 0) as ->; [|done]. change r with (snd (w, r)). rewrite <- E. vm_compute. done.
Qed.

Lemma saved_flash : flash_view saved = flash_view blank.
Proof.
  unfold saved. destruct (fs_meta_save (fresh_region 2) blank) as [w r] eqn:E.
  exact (fs_meta_save_flash _ _ _ _ E).
Qed.

Definition sim2 : fs_state sim := mk_fs true (s_region sim0) saved.

Lemma sim2_inv : fs_inv sim2.
Proof.
  split; [reflexivity|reflexivity|]. intros t rg E.
  change (dev sim2) with saved. rewrite saved_flash.
  exact (fi_region _ sim0_inv t rg E).
Qed.

Lemma commit_staged_only_reports_EIO_witness :
  exists st', my_flash_store_commit sim2 2 = Some (st', - EIO) /\ queue st' 2 = [].
Proof.
  destruct (commit_staged_only_reports_EIO sim2 2 (fresh_region 2)) as (st' & H1 & H2).
  - exact sim2_inv.
  - lia.
  - reflexivity.
  - exact saved_synced.
  - reflexivity.
  - exists st'. split; [exact H1|]. rewrite H2. reflexivity.
Defined.

(** A sector of records of the first type, one push after the other. *)
Definition sector_of_records : list (list Z) := replicate 42 (replicate 92 7).

Fixpoint pushes (t : Z) (datas : list (list Z)) (st : fs_state sim) : fs_state sim :=
  match datas with
  | [] => st
  | data :: datas => pushes t datas match my_flash_store_push t st (Some data) with Some (st, _) => st | None => st end
  end.

Definition sim3 : fs_state sim := pushes 0 sector_of_records sim0.
Definition region3 : fs_region_t := default (fresh_region 0) (arr_get (s_region sim3) 0).
Definition known (_ : Z) (_ : list Z) : Prop := True.

#[export] Instance sim_flash_works : FlashWorks sim.
Proof. split. intros w off bs H1 H2. cbn in *. by rewrite arr_blit_Some by lia. Qed.

Lemma pushes_ok t datas : forall st, 0 <= t < 4 -> Forall (fun d => type_data_len t = Some (zlen d)) datas ->
  store_ok known st -> roomy (zlen datas) st -> store_ok known (pushes t datas st).
Proof.
  induction datas as [|d datas IH]; intros st Ht Hd Hs Hr; cbn [pushes]; [done|]. apply Forall_cons in Hd as [Hd Hds].
  rewrite zlen_cons, Z.add_comm in Hr. destruct (store_push known (zlen datas) st t d Hs Hr Ht Hd I) as (st' & r & -> & Hs' & Hr' & _). by apply IH.
Qed.

Lemma sim0_regions t rg : arr_get (s_region sim0) t = Some rg -> exists t', rg = fresh_region t'.
Proof.
  intros E. apply arr_get_inv in E as [_ E]. apply list_elem_of_lookup_2 in E. cbn in E.
  repeat (apply elem_of_cons in E as [->|E]; [by eexists|]). by apply not_elem_of_nil in E.
Qed.

Lemma sim3_ok : store_ok known sim3.
Proof.
  apply pushes_ok; [lia|by apply Forall_replicate| |].
  - split; [exact sim0_inv|]. intros t. by apply Forall_true.
  - intros t rg E. destruct (sim0_regions t rg E) as [t' ->]. unfold room. cbn. pose proof (type_rps t'). lia.
Qed.

Lemma region3_synced : synced region3 (dev sim3).
Proof. vm_compute. reflexivity. Qed.

Lemma region3_stored : stored (dev sim3) 0 (Some region3).
Proof.
  destruct (fi_get _ 0 (so_inv _ _ sim3_ok) ltac:(lia)) as (rg & E & Hc & Hinv & _).
  assert (Er : region3 = rg) by (unfold region3; rewrite E; reflexivity). rewrite <- Er in Hc, Hinv. exact (conj Hc (conj Hinv region3_synced)).
Qed.

(** The first sector is full and its metadata saved; the power is cut while the second one is written. *)
Definition half_written : sim := fst (flash_area_write (dev sim3) (fs_sector_offset (type_const 0) 1) (replicate 4096 7)).

Lemma init_recovers_witness :
  exists st, my_flash_store_init (mk_fs false [] half_written) 0 true = (st, 0) /\ fs_inv st /\
    queue st 0 = sector_of_records /\ queue st 3 = [].
Proof.
  destruct (init_recovers (dev sim3) half_written [] (fun t => if t =? 0 then Some region3 else None))
    as (st & H1 & H2 & H3).
  - intros w id v E. exists w. simpl in *. rewrite E. pose proof (zlen_nonneg v).
    rewrite Z.max_r, Z.min_id by lia. unfold zlen at 2. rewrite Nat2Z.id, firstn_all. reflexivity.
  - destruct (fi_get _ 0 (so_inv _ _ sim3_ok) ltac:(lia)) as (rg & _ & _ & Hinv & _). exact (ri_mem _ _ Hinv).
  - intros t Ht. destruct (Z.eqb_spec t 0) as [->|Hne]; [exact region3_stored|].
    assert (t = 1 \/ t = 2 \/ t = 3) as [-> | [-> | ->]] by lia; vm_compute; reflexivity.
  - right. exists 0, 1, (replicate 4096 7), (snd (flash_area_write (dev sim3) (fs_sector_offset (type_const 0) 1) (replicate 4096 7))).
    split; [lia|]. split; [vm_compute; reflexivity|]. split; [reflexivity|]. apply surjective_pairing.
  - exists st. split; [exact H1|]. split; [exact H2|].
    split; [rewrite (H3 0 ltac:(lia)); vm_compute; reflexivity|exact (H3 3 ltac:(lia))].
Defined.
