(* ===== verification/Text.v ===== *)
(** * Text and byte helpers ([src/my_tool.c])

    Field extraction, hexadecimal and MAC conversions, number checks,
    coordinates and case-insensitive comparison, as the command and protocol
    code uses them.  A C string is the list of its non-zero character codes;
    a null pointer is [None]. *)

From S2P Require Import Prelude.

(** ** Character classes *)

Definition in_range (lo hi c : Z) : bool := (lo <=? c) && (c <=? hi).

(** [temp_data] of the conversion loops; [None] for any other character. *)
Definition hex_value (c : Z) : option Z :=
  if in_range 48 57 c then Some (u8 (c - 48))
  else if in_range 65 70 c then Some (u8 (c - 65 + 10))
  else if in_range 97 102 c then Some (u8 (c - 97 + 10))
  else None.

Definition isupper (c : Z) : bool := in_range 65 90 c.
Definition islower (c : Z) : bool := in_range 97 122 c.
Definition isalpha (c : Z) : bool := isupper c || islower c.
Definition isspace (c : Z) : bool := (c =? 32) || in_range 9 13 c.
Definition tolower (c : Z) : Z := if isupper c then c + 32 else c.

(** ** Fields of a delimited string *)

(** The scan of [my_get_str_at_pos]: [i] counts separators, [k] is the number
    of characters written to the output buffer. *)
Fixpoint get_str_loop (s : list Z) (i iPos cSplit : Z) (out : list Z) (k iBuffLen : Z)
  : option (list Z * Z * bool) :=
  match s with
  | [] => Some (out, k, false)
  | c :: s' =>
      let next_i := if c =? cSplit then u16 (i + 1) else i in
      if (i =? iPos) && negb (c =? cSplit)
      then
        out ← arr_set out k c;
        if iBuffLen - 1 <=? k + 1 then Some (out, k + 1, false)
        else get_str_loop s' next_i iPos cSplit out (k + 1) iBuffLen
      else if iPos <? i then Some (out, k, true)
      else get_str_loop s' next_i iPos cSplit out k iBuffLen
  end.

Definition my_get_str_at_pos (szInput : option (list Z)) (iPos cSplit : Z)
    (szOutBuf : list Z) (iBuffLen : Z) : option (list Z * bool) :=
  match szInput with
  | None => Some (szOutBuf, false)
  | Some s =>
      '(out, k, bHasMore) ← get_str_loop s 0 iPos cSplit szOutBuf 0 iBuffLen;
      out ← arr_set out k 0;
      Some (out, bHasMore)
  end.

(** The bytes of a C string in an array. *)
Fixpoint c_string (l : list Z) : option (list Z) :=
  match l with
  | [] => None
  | c :: l' => if c =? 0 then Some [] else s ← c_string l'; Some (c :: s)
  end.

Lemma c_string_app s t : Forall (fun c => c <> 0) s -> c_string (s ++ 0 :: t) = Some s.
Proof.
  induction 1 as [|c s Hc _ IH]; [done|]. cbn [c_string app]. rewrite (proj2 (Z.eqb_neq _ _) Hc), IH. done.
Qed.

Lemma c_string_no_nul l s : c_string l = Some s -> Forall (fun c => c <> 0) s.
Proof.
  revert s. induction l as [|c l IH]; intros s; [done|]. cbn [c_string]. destruct (Z.eqb_spec c 0); [by intros [= <-]|].
  destruct (c_string l); [|done]. intros [= <-]. constructor; [done|by apply IH].
Qed.

Lemma c_string_defined l : Exists (eq 0) l -> exists s, c_string l = Some s /\ zlen s < zlen l.
Proof.
  induction l as [|c l IH]; intros H; [by apply Exists_nil in H|]. cbn [c_string].
  rewrite zlen_cons. pose proof (zlen_nonneg l).
  destruct (Z.eqb_spec c 0) as [->|Hc]; [exists []; split; [done|]; change (zlen []) with 0; lia|].
  apply Exists_cons in H as [H|H]; [congruence|]. destruct (IH H) as (s & -> & Hs).
  exists (c :: s). split; [done|]. rewrite zlen_cons. lia.
Qed.

(** ** Hexadecimal text *)

Fixpoint hex_count (s : list Z) (no_count : Z) : Z :=
  match s with
  | [] => no_count
  | c :: s' =>
      if in_range 48 57 c || in_range 97 102 c || in_range 65 70 c
      then hex_count s' (u8 (no_count + 1)) else 0
  end.

Definition string_check_is_hex_str (str : option (list Z)) : Z :=
  match str with None => 0 | Some s => hex_count s 0 end.

(** The loop of [hexstr_to_hex]; the 8-bit counters wrap. *)
Fixpoint hexstr_loop (src : list Z) (dest : list Z) (dest_size offset hex_data byte_count : Z)
  : option (list Z * Z) :=
  match src with
  | [] => Some (dest, u8 (offset / 2 + offset mod 2))
  | c :: src' =>
      match hex_value c with
      | None => Some (dest, 0)
      | Some temp_data =>
          if offset mod 2 =? 0
          then hexstr_loop src' dest dest_size (u8 (offset + 1))
                 (Z.land (Z.shiftl temp_data 4) 0xf0) byte_count
          else
            let hex_data := Z.lor hex_data (Z.land temp_data 0x0F) in
            dest ← arr_set dest byte_count hex_data;
            let byte_count := u8 (byte_count + 1) in
            if dest_size <=? byte_count
            then Some (dest, u8 (offset / 2 + offset mod 2))
            else hexstr_loop src' dest dest_size (u8 (offset + 1)) hex_data byte_count
      end
  end.

Definition hexstr_to_hex (dest : list Z) (dest_size : Z) (src : option (list Z))
  : option (list Z * Z) :=
  match src with
  | None => Some (dest, 0)
  | Some s => if dest_size =? 0 then Some (dest, 0) else hexstr_loop s dest dest_size 0 0 0
  end.

Definition hex2ascii (digit : Z) : Z :=
  if digit <=? 9 then u8 (digit - 0 + 48) else u8 (digit - 0xA + 65).

Fixpoint hex2hexstr_loop (hex : list Z) (buf : list Z) (j : Z) : option (list Z) :=
  match hex with
  | [] => arr_set buf j 0
  | b :: hex' =>
      buf ← arr_set buf j (hex2ascii (Z.land (Z.shiftr b 4) 0x0f));
      buf ← arr_set buf (u16 (j + 1)) (hex2ascii (Z.land b 0x0f));
      hex2hexstr_loop hex' buf (u16 (j + 2))
  end.

(** [hex] are the [hex_len] bytes to print, [str] the destination array. *)
Definition hex2hexstr (hex : list Z) (str : list Z) (str_len : Z) : option (list Z) :=
  if str_len <? 2 * zlen hex then Some str else hex2hexstr_loop hex str 0.

(** ** Numbers *)

(** Bit 0 of [flag] allows a sign, bit 1 one decimal point. *)
Fixpoint number_loop (flag : Z) (s : list Z) (no_count : Z) : Z :=
  match s with
  | [] => no_count
  | c :: s' =>
      if Z.testbit flag 0 && (no_count =? 0) && ((c =? 43) || (c =? 45))
      then number_loop flag s' (u8 (no_count + 1))
      else if Z.testbit flag 1 && (c =? 46)
      then number_loop (Z.land flag (255 - 2)) s' (u8 (no_count + 1))
      else if in_range 48 57 c then number_loop flag s' (u8 (no_count + 1))
      else 0
  end.

Definition string_check_is_number (flag : Z) (str : list Z) : Z := number_loop flag str 0.

Definition is_integer_array (arr : option (list Z)) : bool :=
  match arr with
  | None | Some [] => false
  | Some (c :: rest) =>
      if (c =? 43) || (c =? 45)
      then match rest with [] => false | _ => forallb is_digit rest end
      else forallb is_digit (c :: rest)
  end.

(** ** MAC addresses *)

Definition HexChar2HexData (c : Z) : Z := default 0xFF (hex_value c).

Definition colon_ok (offset : Z) : bool :=
  (offset =? 2) || (offset =? 5) || (offset =? 8) || (offset =? 11) || (offset =? 14).

(** The loop over [mystr]; each round consumes one or two characters, so [n]
    rounds are enough for a string of [n] characters. *)
Fixpoint mac_loop (n : nat) (mystr : list Z) (len offset hex_data_count : Z) (hex : list Z)
  : option (list Z * bool) :=
  match n with
  | O => Some (hex, true)
  | S n' =>
      if offset <? len
      then
        c ← arr_get mystr offset;
        if c =? 58
        then if colon_ok offset then mac_loop n' mystr len (offset + 1) hex_data_count hex
             else Some (hex, false)
        else
          let hex_H := HexChar2HexData c in
          d ← arr_get mystr (offset + 1);
          let hex_L := HexChar2HexData d in
          if (hex_H =? 0xFF) || (hex_L =? 0xFF) then Some (hex, false)
          else
            let count := u8 (hex_data_count + 1) in
            if 6 <? count then Some (hex, false)
            else
              hex ← arr_set hex hex_data_count
                (u8 (Z.land (Z.shiftl hex_H 4) 0xF0 + Z.land hex_L 0x0F));
              mac_loop n' mystr len (offset + 2) count hex
      else Some (hex, true)
  end.

Definition macstr_to_hex (mac_str : option (list Z)) (hex : list Z) : option (list Z * bool) :=
  match mac_str with
  | None => Some (hex, false)
  | Some s =>
      let len := u16 (zlen s) in
      if (len =? 12) || (len =? 17)
      then
        mystr ← arr_blit (replicate 20 0) 0 (s ++ [0]);
        mac_loop (Z.to_nat len) mystr len 0 0 hex
      else Some (hex, false)
  end.

(** ** Arrays *)

Fixpoint reverse_loop (n : nat) (i : Z) (src dest : list Z) (src_len : Z) : option (list Z) :=
  match n with
  | O => Some dest
  | S n' =>
      x ← arr_get src (u32 (src_len - 1 - i));
      dest ← arr_set dest i x;
      reverse_loop n' (i + 1) src dest src_len
  end.

Definition char_array_reverse (src : option (list Z)) (src_len : Z)
    (dest : option (list Z)) (dest_len : Z) : option (option (list Z) * Z) :=
  match src, dest with
  | Some s, Some d =>
      if (src_len =? 0) || (dest_len =? 0) then Some (dest, -1)
      else if negb (src_len =? dest_len) then Some (dest, -2)
      else d ← reverse_loop (Z.to_nat src_len) 0 s d src_len; Some (Some d, 0)
  | _, _ => Some (dest, -1)
  end.

(** ** Coordinates *)

Definition is_dir (c : Z) : bool := (c =? 78) || (c =? 83) || (c =? 69) || (c =? 87).

(** The digits after the prefix, in [int32_t]. *)
Fixpoint coord_digits (s : list Z) (abs_value : Z) (digit_count : nat) : option (Z * nat) :=
  match s with
  | [] => Some (abs_value, digit_count)
  | c :: s' =>
      if in_range 48 57 c
      then coord_digits s' (i32 (i32 (abs_value * 10) + (c - 48))) (S digit_count)
      else None
  end.

(** The sign a first character stands for, or [None] when it is refused. *)
Definition coord_sign (is_latitude : bool) (c : Z) : option Z :=
  if is_dir c
  then if is_latitude
       then if (c =? 78) || (c =? 83) then Some (if c =? 83 then -1 else 1) else None
       else if (c =? 69) || (c =? 87) then Some (if c =? 87 then -1 else 1) else None
  else if (c =? 43) || (c =? 45) then Some (if c =? 45 then -1 else 1)
  else if in_range 48 57 c then Some 1 else None.

(** [None] is the error return -1; otherwise [*value] and [*valid]. *)
Definition parse_coordinate_value (coord_str : option (list Z)) (is_latitude : bool)
  : option (Z * Z) :=
  match coord_str with
  | None => None
  | Some [] => Some (0, 0)
  | Some (c :: rest) =>
      sign ← coord_sign is_latitude c;
      '(abs_value, digit_count) ←
        coord_digits (if is_dir c || (c =? 43) || (c =? 45) then rest else c :: rest) 0 0;
      if (digit_count =? 0)%nat then None
      else
        let microdegrees := i32 (abs_value * sign) in
        let limit := if is_latitude then 90000000 else 180000000 in
        if (microdegrees <? - limit) || (limit <? microdegrees) then None
        else Some (microdegrees, 1)
  end.

(** ** Case-insensitive comparison *)

Fixpoint case_loop (s : list Z) (has_upper has_lower : bool) : bool :=
  match s with
  | [] => true
  | c :: s' =>
      if isalpha c
      then
        let has_upper := has_upper || isupper c in
        let has_lower := has_lower || islower c in
        if has_upper && has_lower then false else case_loop s' has_upper has_lower
      else case_loop s' has_upper has_lower
  end.

Definition is_all_upper_or_lower (s : list Z) : bool := case_loop s false false.

(** [strcasecmp] of the C library. *)
Fixpoint strcasecmp (s1 s2 : list Z) : Z :=
  match s1, s2 with
  | [], [] => 0
  | [], d :: _ => - tolower d
  | c :: _, [] => tolower c
  | c :: s1', d :: s2' =>
      if tolower c =? tolower d then strcasecmp s1' s2' else tolower c - tolower d
  end.

Definition my_strcasecmp (s1 s2 : list Z) : Z :=
  if negb (is_all_upper_or_lower s1) || negb (is_all_upper_or_lower s2) then 0xff
  else strcasecmp s1 s2.
