(* ===== verification/TextProofs.v ===== *)
(** * Correctness of the text helpers of [Text] *)

From S2P Require Import Prelude Text.

(** ** Buffers filled from the front *)

(** [put out k w]: the first [k] cells of [out] hold [w]. *)
Definition put (out : list Z) (w : list Z) : Prop := arr_slice out 0 (zlen w) = Some w.

Lemma put_nil out : put out [].
Proof. unfold put. change (zlen []) with 0. rewrite arr_slice_Some; [done|done|done|apply zlen_nonneg]. Qed.

Lemma put_set out w x :
  put out w -> zlen w < zlen out ->
  exists out', arr_set out (zlen w) x = Some out' /\ zlen out' = zlen out /\ put out' (w ++ [x]).
Proof.
  intros Hp Hlt. rewrite arr_set_blit.
  destruct (arr_blit out (zlen w) [x]) as [out'|] eqn:E.
  2:{ rewrite arr_blit_Some in E; [done|apply zlen_nonneg|]. rewrite zlen_cons, zlen_nil. lia. }
  exists out'. split; [done|]. split; [by apply arr_blit_length in E|].
  unfold put. rewrite zlen_app. apply arr_slice_split.
  - rewrite (arr_slice_blit_disj _ _ _ _ _ _ E); [done|]. lia.
  - rewrite Z.add_0_l. by apply (arr_slice_blit out).
Qed.

Lemma put_eq out w : put out w -> out = w ++ drop (length w) out.
Proof.
  intros (_ & _ & Hl & E)%arr_slice_inv. unfold zlen in *.
  rewrite Nat2Z.id, drop_0 in E. rewrite E at 1. symmetry. apply take_drop.
Qed.

(** ** Fields *)

Fixpoint split_on (sep : Z) (s : list Z) : list (list Z) :=
  match s with
  | [] => [[]]
  | c :: s' =>
      if c =? sep then [] :: split_on sep s'
      else match split_on sep s' with
           | f :: fs => (c :: f) :: fs
           | [] => [[c]]
           end
  end.

Definition field (sep : Z) (s : list Z) (n : nat) : list Z := default [] (split_on sep s !! n).

(** Whether anything follows the separator that ends field [n]. *)
Definition more_after (sep : Z) (s : list Z) (n : nat) : bool :=
  match drop (S n) (split_on sep s) with [] => false | [[]] => false | _ => true end.

Lemma split_on_cons sep s : exists f fs, split_on sep s = f :: fs.
Proof.
  destruct s as [|c s]; simpl; [eauto|].
  destruct (c =? sep); [eauto|]. destruct (split_on sep s); eauto.
Qed.

Lemma split_on_char sep c s n :
  c <> sep ->
  field sep (c :: s) n = (if (n =? 0)%nat then [c] else []) ++ field sep s n /\
  more_after sep (c :: s) n = more_after sep s n.
Proof.
  intros Hc. unfold field, more_after. simpl. rewrite (proj2 (Z.eqb_neq _ _)) by done.
  destruct (split_on_cons sep s) as (f & fs & ->). by destruct n.
Qed.

Lemma split_on_sep sep s n :
  field sep (sep :: s) (S n) = field sep s n /\ field sep (sep :: s) 0 = [] /\
  more_after sep (sep :: s) (S n) = more_after sep s n /\
  more_after sep (sep :: s) 0 = match s with [] => false | _ => true end.
Proof.
  unfold field, more_after. simpl. rewrite Z.eqb_refl. simpl. repeat (split; [done|]).
  destruct s as [|c s]; [done|]. simpl. destruct (split_on_cons sep s) as (f & fs & ->).
  by destruct (c =? sep).
Qed.

Definition seps (sep : Z) (s : list Z) : Z := zlen (filter (eq sep) s).

Lemma seps_cons sep c s : seps sep (c :: s) = (if c =? sep then 1 else 0) + seps sep s.
Proof.
  unfold seps. rewrite filter_cons.
  destruct (decide (sep = c)), (Z.eqb_spec c sep); try congruence; rewrite ?zlen_cons; lia.
Qed.

(** The scan from separator [i] on, [w] being in the buffer already. *)
Lemma get_str_loop_spec sep iPos n : forall s i out w,
  0 <= i <= iPos -> i + seps sep s < 65536 ->
  put out w -> n <= zlen out -> zlen w + 1 < n -> (i < iPos -> w = []) ->
  let j := Z.to_nat (iPos - i) in
  let f := take (Z.to_nat (n - 1 - zlen w)) (field sep s j) in
  exists out',
    get_str_loop s i iPos sep out (zlen w) n
    = Some (out', zlen (w ++ f),
        (zlen w + zlen (field sep s j) <? n - 1) && more_after sep s j) /\
    put out' (w ++ f) /\ zlen out' = zlen out.
Proof.
  induction s as [|c s IH]; intros i out w Hi Hs Hp Hn Hw Hempty; simpl.
  - exists out. unfold field, more_after. simpl.
    replace (default [] ([[]] !! Z.to_nat (iPos - i))) with (@nil Z)
      by (by destruct (Z.to_nat _) as [|[]]).
    rewrite take_nil, app_nil_r. split; [|done]. do 2 f_equal.
    destruct (Z.to_nat (iPos - i)) as [|[]]; by rewrite andb_false_r.
  - rewrite seps_cons in Hs. assert (0 <= seps sep s) by apply zlen_nonneg.
    destruct (Z.eqb_spec c sep) as [->|Hc].
    + rewrite andb_false_r. rewrite (proj2 (Z.ltb_ge _ _)) by lia. rewrite u16_small by lia.
      destruct (Z.eqb_spec i iPos) as [->|Hne].
      * rewrite Z.sub_diag. change (Z.to_nat 0) with 0%nat.
        destruct (split_on_sep sep s 0) as (_ & -> & _ & ->).
        rewrite take_nil, app_nil_r, zlen_nil, Z.add_0_r.
        rewrite (proj2 (Z.ltb_lt _ _)) by lia. exists out. split; [|done].
        destruct s as [|d s]; [done|]. simpl.
        rewrite (proj2 (Z.eqb_neq (iPos + 1) _)), (proj2 (Z.ltb_lt iPos _)) by lia. done.
      * replace (Z.to_nat (iPos - i)) with (S (Z.to_nat (iPos - (i + 1)))) by lia.
        destruct (split_on_sep sep s (Z.to_nat (iPos - (i + 1)))) as (-> & _ & -> & _).
        apply IH; auto; try lia. intros _. apply Hempty. lia.
    + destruct (split_on_char sep c s (Z.to_nat (iPos - i)) Hc) as [-> ->].
      destruct (Z.eqb_spec i iPos) as [->|Hne]; simpl.
      * rewrite Z.sub_diag. change (Z.to_nat 0) with 0%nat. simpl.
        destruct (put_set out w c Hp ltac:(lia)) as (out1 & -> & Hl1 & Hp1). simpl.
        replace (Z.to_nat (n - 1 - zlen w)) with (S (Z.to_nat (n - 1 - zlen (w ++ [c]))))
          by (rewrite zlen_app, zlen_cons, zlen_nil; lia).
        rewrite firstn_cons, cons_middle, app_assoc, zlen_cons.
        destruct (Z.leb_spec (n - 1) (zlen w + 1)).
        -- replace (Z.to_nat (n - 1 - zlen (w ++ [c]))) with 0%nat
             by (rewrite zlen_app, zlen_cons, zlen_nil; lia).
           rewrite take_0, app_nil_r, zlen_app. exists out1. split; [|split; [done|lia]].
           do 2 f_equal. pose proof (zlen_nonneg (field sep s 0)).
           by rewrite (proj2 (Z.ltb_ge _ _)) by lia.
        -- destruct (IH iPos out1 (w ++ [c])) as (out' & E & Hp' & Hl'); auto; try lia.
           { rewrite zlen_app, zlen_cons, zlen_nil. lia. }
           rewrite Z.sub_diag in *. change (Z.to_nat 0) with 0%nat in *.
           exists out'. split; [|split; [done|lia]].
           rewrite zlen_app, zlen_cons, zlen_nil in E at 1. rewrite Z.add_0_r in E.
           rewrite E. do 2 f_equal. rewrite zlen_app, zlen_cons, zlen_nil. f_equal.
           f_equal. lia.
      * rewrite (proj2 (Nat.eqb_neq _ _)), app_nil_l by lia.
        rewrite (proj2 (Z.ltb_ge iPos i)) by lia. apply IH; auto.
Qed.

(** [my_get_str_at_pos] extracts field [iPos] of the string split at
    [cSplit], cut to fit the buffer with its terminator and written nowhere
    else than inside the buffer; it answers whether more text follows, unless
    the field filled the buffer.  A field that does not exist reads as empty. *)
Theorem my_get_str_at_pos_field s iPos cSplit out iBuffLen :
  0 <= iPos -> seps cSplit s < 65536 -> 2 <= iBuffLen <= zlen out ->
  let whole := field cSplit s (Z.to_nat iPos) in
  let f := take (Z.to_nat (iBuffLen - 1)) whole in
  exists out',
    my_get_str_at_pos (Some s) iPos cSplit out iBuffLen
    = Some (out', (zlen whole <? iBuffLen - 1) && more_after cSplit s (Z.to_nat iPos)) /\
    zlen out' = zlen out /\ arr_slice out' 0 (zlen (f ++ [0])) = Some (f ++ [0]).
Proof.
  intros Hi Hs Hb whole f.
  destruct (get_str_loop_spec cSplit iPos iBuffLen s 0 out []) as (out1 & E & Hp & Hl);
    auto using put_nil; rewrite ?zlen_nil; try lia.
  change (zlen []) with 0 in E, Hp. rewrite !Z.sub_0_r in Hp.
  rewrite !Z.sub_0_r, Z.add_0_l in E. fold whole in E, Hp. fold f in E, Hp.
  unfold my_get_str_at_pos. rewrite E. simpl in *.
  destruct (put_set out1 f 0 Hp) as (out' & -> & Hl' & Hp').
  { unfold f. rewrite zlen_take. lia. }
  simpl. exists out'. split; [done|]. split; [lia|]. exact Hp'.
Qed.

Lemma my_get_str_at_pos_field_witness :
  exists out',
    my_get_str_at_pos (Some (cstr "ab,cd,e")) 1 44 (replicate 4 7) 4 = Some (out', true) /\
    arr_slice out' 0 3 = Some (cstr "cd" ++ [0]).
Proof.
  destruct (my_get_str_at_pos_field (cstr "ab,cd,e") 1 44 (replicate 4 7) 4)
    as (out' & H1 & _ & H2); [lia|reflexivity|vm_compute; split; congruence|].
  exists out'. exact (conj H1 H2).
Defined.

(** With a buffer of one byte the terminator is written past its end. *)
Example my_get_str_at_pos_one_byte : my_get_str_at_pos (Some (cstr "a")) 0 44 [7] 1 = None.
Proof. reflexivity. Qed.

(** ** Hexadecimal *)

Definition hex_pair (b : Z) : list Z :=
  [hex2ascii (Z.land (Z.shiftr b 4) 0x0f); hex2ascii (Z.land b 0x0f)].
Definition hex_text (l : list Z) : list Z := l ≫= hex_pair.

Lemma zlen_hex_text l : zlen (hex_text l) = 2 * zlen l.
Proof.
  induction l as [|b l IH]; [done|]. change (hex_text (b :: l)) with (hex_pair b ++ hex_text l).
  rewrite zlen_app, IH, zlen_cons. change (zlen (hex_pair b)) with 2. lia.
Qed.

(** Statements over all bytes, checked by evaluation. *)
Definition byte_range : list Z := seqZ 0 256.

Lemma forall_bytes (P : Z -> bool) :
  forallb P byte_range = true -> forall b, is_byte b -> P b = true.
Proof.
  intros H b Hb. eapply forallb_forall in H; [exact H|].
  apply list_elem_of_In, elem_of_seqZ. unfold is_byte in Hb. lia.
Qed.

Lemma hex_pair_value b :
  is_byte b ->
  exists h l, hex_value (hex2ascii (Z.land (Z.shiftr b 4) 0x0f)) = Some h /\
    hex_value (hex2ascii (Z.land b 0x0f)) = Some l /\
    Z.lor (Z.land (Z.shiftl h 4) 0xf0) (Z.land l 0x0F) = b /\
    u8 (Z.land (Z.shiftl h 4) 0xF0 + Z.land l 0x0F) = b.
Proof.
  intros Hb.
  assert (H : (match hex_value (hex2ascii (Z.land (Z.shiftr b 4) 0x0f)),
                     hex_value (hex2ascii (Z.land b 0x0f)) with
               | Some h, Some l => (Z.lor (Z.land (Z.shiftl h 4) 0xf0) (Z.land l 0x0F) =? b)
                                   && (u8 (Z.land (Z.shiftl h 4) 0xF0 + Z.land l 0x0F) =? b)
               | _, _ => false
               end) = true).
  { revert b Hb. by apply forall_bytes. }
  destruct (hex_value _) as [h|]; [|done]. destruct (hex_value _) as [l|]; [|done].
  exists h, l. bool2prop. auto.
Qed.

Lemma hex2hexstr_loop_spec l : forall buf w,
  put buf w -> zlen w + 2 * zlen l < 65536 -> zlen w + 2 * zlen l + 1 <= zlen buf ->
  exists buf', hex2hexstr_loop l buf (zlen w) = Some buf' /\ zlen buf' = zlen buf /\
    put buf' (w ++ hex_text l ++ [0]).
Proof.
  induction l as [|b l IH]; intros buf w Hp Hs Hb.
  - change (zlen []) with 0 in Hs, Hb. destruct (put_set buf w 0 Hp) as (buf' & E & Hl & Hp'); [lia|].
    exists buf'. auto.
  - rewrite zlen_cons in *. pose proof (zlen_nonneg l). pose proof (zlen_nonneg w).
    cbn [hex2hexstr_loop].
    destruct (put_set buf w (hex2ascii (Z.land (Z.shiftr b 4) 15)) Hp) as (b1 & -> & Hl1 & Hp1); [lia|].
    cbn [mbind option_bind].
    destruct (put_set b1 _ (hex2ascii (Z.land b 15)) Hp1) as (b2 & E2 & Hl2 & Hp2);
      rewrite zlen_app in *; change (zlen [_]) with 1 in *; [lia|].
    rewrite (u16_small (zlen w + 1)) by lia. rewrite E2. cbn [mbind option_bind].
    destruct (IH b2 (w ++ hex_pair b)) as (b3 & E3 & Hl3 & Hp3).
    + by rewrite <- app_assoc in Hp2.
    + rewrite zlen_app. change (zlen (hex_pair b)) with 2. lia.
    + rewrite zlen_app. change (zlen (hex_pair b)) with 2. lia.
    + exists b3. rewrite zlen_app in E3. change (zlen (hex_pair b)) with 2 in E3.
      rewrite u16_small by lia. split; [done|]. split; [lia|].
      by rewrite <- app_assoc in Hp3.
Qed.

Lemma hex_text_cons b l : hex_text (b :: l) = hex_pair b ++ hex_text l.
Proof. done. Qed.

Lemma hexstr_loop_spec l : forall dest n hd w,
  bytes_ok l -> put dest w -> n <= zlen dest -> n < 256 ->
  zlen w + zlen l < 128 -> zlen w + zlen l <= n -> 1 <= zlen l \/ zlen w < n ->
  exists dest',
    hexstr_loop (hex_text l) dest n (2 * zlen w) hd (zlen w) = Some (dest', zlen w + zlen l) /\
    zlen dest' = zlen dest /\ put dest' (w ++ l).
Proof.
  induction l as [|b l IH]; intros dest n hd w Hok Hp Hn Hn8 Hs Hle Hor.
  - change (zlen []) with 0 in *. simpl. pose proof (zlen_nonneg w). exists dest.
    rewrite (Z.mul_comm 2), Z.div_mul, Z.mod_mul, u8_small by lia. by rewrite app_nil_r.
  - apply Forall_cons in Hok as [Hb Hok]. rewrite zlen_cons in *.
    pose proof (zlen_nonneg w). pose proof (zlen_nonneg l).
    destruct (hex_pair_value b Hb) as (h & lo & Eh & El & Ev & _).
    rewrite hex_text_cons. unfold hex_pair. cbn [app hexstr_loop]. rewrite Eh, El.
    rewrite (Z.mul_comm 2), Z.mod_mul by lia. change (0 =? 0) with true. cbv iota.
    rewrite (u8_small (zlen w * 2 + 1)) by lia.
    replace ((zlen w * 2 + 1) mod 2) with 1 by (rewrite Z.add_comm, Z.mod_add; [done|lia]).
    change (1 =? 0) with false. cbv iota. rewrite Ev.
    destruct (put_set dest w b Hp) as (d1 & -> & Hl1 & Hp1); [lia|]. cbn [mbind option_bind].
    replace ((zlen w * 2 + 1) / 2) with (zlen w)
      by (rewrite Z.add_comm, Z.div_add; [done|lia]).
    rewrite (u8_small (zlen w + 1)) by lia.
    destruct (Z.leb_spec n (zlen w + 1)).
    + exists d1. assert (zlen l = 0) as El0 by lia. rewrite El0.
      destruct l; [|rewrite zlen_cons in El0; pose proof (zlen_nonneg l); lia].
      split; [done|]. split; [lia|done].
    + rewrite (u8_small (zlen w * 2 + 1 + 1)) by lia.
      destruct (IH d1 n b (w ++ [b])) as (d2 & E & Hl2 & Hp2); auto;
        rewrite ?zlen_app; change (zlen [b]) with 1; try lia.
      exists d2. rewrite zlen_app in E. change (zlen [b]) with 1 in E.
      replace (zlen w * 2 + 1 + 1) with (2 * (zlen w + 1)) by lia.
      rewrite E. split; [do 2 f_equal; lia|]. split; [lia|]. by rewrite <- app_assoc in Hp2.
Qed.

Definition hex_char (c : Z) : bool := in_range 48 57 c || in_range 97 102 c || in_range 65 70 c.

Lemma hex_count_spec s : forall k, 0 <= k -> k + zlen s < 256 ->
  hex_count s k = if forallb hex_char s then k + zlen s else 0.
Proof.
  induction s as [|c s IH]; intros k Hk Hs; simpl; [change (zlen []) with 0; lia|].
  rewrite zlen_cons in *. pose proof (zlen_nonneg s). fold (hex_char c).
  destruct (hex_char c); [|done]. rewrite u8_small, IH by lia. simpl.
  destruct (forallb _ _); lia.
Qed.

Lemma hex_text_chars l : bytes_ok l -> forallb hex_char (hex_text l) = true.
Proof.
  induction 1 as [|b l Hb _ IH]; [done|]. rewrite hex_text_cons, forallb_app, IH, andb_true_r.
  revert b Hb. by apply forall_bytes.
Qed.

(** Printing bytes in hexadecimal and reading the text back gives the bytes
    again, for up to 127 bytes, with both buffers respected: the text takes
    [2n+1] cells of a buffer declared that large, it passes the hexadecimal
    check, and the parser fills the first [n] cells of its destination and
    returns [n]. *)
Theorem hex_roundtrip l str str_len dest dest_size :
  bytes_ok l -> 1 <= zlen l <= 127 -> 2 * zlen l + 1 <= str_len <= zlen str ->
  zlen l <= dest_size <= zlen dest -> dest_size < 256 ->
  exists str' dest',
    hex2hexstr l str str_len = Some str' /\ zlen str' = zlen str /\
    arr_slice str' 0 (2 * zlen l + 1) = Some (hex_text l ++ [0]) /\
    string_check_is_hex_str (Some (hex_text l)) = 2 * zlen l /\
    hexstr_to_hex dest dest_size (Some (hex_text l)) = Some (dest', zlen l) /\
    zlen dest' = zlen dest /\ arr_slice dest' 0 (zlen l) = Some l.
Proof.
  intros Hok Hl Hstr Hd Hd8. pose proof (zlen_hex_text l) as Ht.
  destruct (hex2hexstr_loop_spec l str [] (put_nil _)) as (str' & Es & Hls & Hps);
    [change (zlen []) with 0; lia..|].
  destruct (hexstr_loop_spec l dest dest_size 0 [] Hok (put_nil _)) as (dest' & Ed & Hld & Hpd);
    [change (zlen []) with 0; lia..|].
  exists str', dest'. split; [|split; [done|split; [|split; [|split; [|done]]]]].
  - unfold hex2hexstr. by rewrite (proj2 (Z.ltb_ge _ _)) by lia.
  - rewrite <- Ht. change 1 with (zlen [0]). by rewrite <- zlen_app.
  - simpl. rewrite hex_count_spec, hex_text_chars by (auto; lia). lia.
  - unfold hexstr_to_hex. by rewrite (proj2 (Z.eqb_neq _ 0)) by lia.
Qed.

Lemma hex_roundtrip_witness :
  exists str' dest',
    hex2hexstr [0xA5; 0x0F] (replicate 5 7) 5 = Some str' /\
    hexstr_to_hex (replicate 8 7) 8 (Some (hex_text [0xA5; 0x0F])) = Some (dest', 2) /\
    arr_slice dest' 0 2 = Some [0xA5; 0x0F].
Proof.
  destruct (hex_roundtrip [0xA5; 0x0F] (replicate 5 7) 5 (replicate 8 7) 8)
    as (str' & dest' & H1 & _ & _ & _ & H2 & _ & H3);
    [repeat constructor; vm_compute; congruence
    |vm_compute; split; congruence|vm_compute; split; congruence
    |vm_compute; split; congruence|lia|].
  exists str', dest'. exact (conj H1 (conj H2 H3)).
Defined.

(** A defect.  [hex2hexstr] accepts a buffer of exactly [2n] bytes and
    then writes the terminator one byte past its end. *)
Theorem hex2hexstr_off_by_one l str :
  zlen l < 32768 -> zlen str = 2 * zlen l -> hex2hexstr l str (zlen str) = None.
Proof.
  intros Hl Hs. unfold hex2hexstr. rewrite (proj2 (Z.ltb_ge _ _)) by lia.
  cut (forall buf j, 0 <= j -> zlen buf = j + 2 * zlen l -> j + 2 * zlen l < 65536 ->
         hex2hexstr_loop l buf j = None); [intros H; apply H; lia|]. clear str Hs Hl.
  induction l as [|b l IH]; intros buf j Hj Hb Hlt.
  - change (zlen []) with 0 in *. simpl. unfold arr_set.
    by rewrite (proj2 (Z.ltb_ge _ _)), andb_false_r by lia.
  - rewrite zlen_cons in *. pose proof (zlen_nonneg l). cbn [hex2hexstr_loop].
    rewrite (u16_small (j + 1)), (u16_small (j + 2)) by lia.
    rewrite arr_set_Some by lia. cbn [mbind option_bind].
    rewrite arr_set_Some by (rewrite zlen_insert; lia). cbn [mbind option_bind].
    apply IH; rewrite ?zlen_insert; lia.
Qed.

Lemma hex2hexstr_off_by_one_witness : hex2hexstr [0xA5; 0x0F] (replicate 4 7) 4 = None.
Proof. apply (hex2hexstr_off_by_one [0xA5; 0x0F] (replicate 4 7)); reflexivity. Defined.

(** The 8-bit character counter of [hexstr_to_hex] wraps after 256 characters. *)
Example hexstr_to_hex_wraps :
  snd <$> hexstr_to_hex (replicate 200 7) 200 (Some (hex_text (replicate 130 0x11))) = Some 2.
Proof. reflexivity. Qed.

(** ** MAC addresses *)

Lemma mac_loop_safe n : forall mystr len offset count hex,
  zlen mystr = 20 -> len <= 17 -> 0 <= offset <= len + 1 -> 0 <= count <= 6 -> 6 <= zlen hex ->
  exists hex' ok, mac_loop n mystr len offset count hex = Some (hex', ok) /\
    zlen hex' = zlen hex /\ drop 6 hex' = drop 6 hex.
Proof.
  induction n as [|n IH]; intros mystr len offset count hex Hm Hl Ho Hc Hh; cbn [mac_loop]; [eauto|].
  destruct (Z.ltb_spec offset len); [|eauto].
  destruct (arr_get_Some mystr offset) as [c ->]; [lia|]. cbn [mbind option_bind].
  destruct (c =? 58). { destruct (colon_ok offset); [apply IH; lia|eauto]. }
  destruct (arr_get_Some mystr (offset + 1)) as [d ->]; [lia|]. cbn [mbind option_bind].
  destruct (_ || _); [eauto|]. rewrite u8_small by lia.
  destruct (Z.ltb_spec 6 (count + 1)); [eauto|].
  rewrite arr_set_Some by lia. cbn [mbind option_bind].
  destruct (IH mystr len (offset + 2) (count + 1)
    (<[Z.to_nat count := u8 (Z.land (Z.shiftl (HexChar2HexData c) 4) 240
                             + Z.land (HexChar2HexData d) 15)]> hex))
    as (hex' & ok & -> & Hz & Hd); rewrite ?zlen_insert; try lia.
  exists hex', ok. split; [done|]. split; [by rewrite Hz, zlen_insert|].
  rewrite Hd, drop_insert_lt by lia. done.
Qed.

(** Whatever string is given, [macstr_to_hex] stays inside its 20-byte
    copy and changes at most the six bytes of the address. *)
Theorem macstr_to_hex_safe s hex :
  zlen s < 65536 -> 6 <= zlen hex ->
  exists hex' ok, macstr_to_hex (Some s) hex = Some (hex', ok) /\
    zlen hex' = zlen hex /\ drop 6 hex' = drop 6 hex.
Proof.
  intros Hs Hh. unfold macstr_to_hex. rewrite u16_small by (pose proof (zlen_nonneg s); lia).
  destruct ((zlen s =? 12) || (zlen s =? 17)) eqn:E; [|eauto].
  assert (Hl : 0 <= zlen s <= 17) by (apply orb_true_iff in E as [E|E]; bool2prop; lia).
  destruct (arr_blit (replicate 20 0) 0 (s ++ [0])) as [my|] eqn:Eb.
  - pose proof (arr_blit_length _ _ _ _ Eb). cbn [mbind option_bind].
    apply mac_loop_safe; try lia. done.
  - rewrite arr_blit_Some in Eb; [done|done|].
    rewrite zlen_app. change (zlen [0]) with 1. rewrite zlen_replicate. lia.
Qed.

Lemma macstr_to_hex_safe_witness :
  exists hex' ok, macstr_to_hex (Some (cstr "AA:BB:CC:DD:EE:FF")) (replicate 8 9)
                  = Some (hex', ok) /\ drop 6 hex' = [9; 9].
Proof.
  destruct (macstr_to_hex_safe (cstr "AA:BB:CC:DD:EE:FF") (replicate 8 9))
    as (hex' & ok & H1 & _ & H2); [reflexivity|vm_compute; congruence|].
  exists hex', ok. exact (conj H1 H2).
Defined.

Definition mac_text (l : list Z) : list Z :=
  match l with
  | [a; b; c; d; e; f] =>
      hex_pair a ++ [58] ++ hex_pair b ++ [58] ++ hex_pair c ++ [58] ++
      hex_pair d ++ [58] ++ hex_pair e ++ [58] ++ hex_pair f
  | _ => []
  end.

Lemma hex2ascii_no_colon b :
  is_byte b -> (hex2ascii (Z.land (Z.shiftr b 4) 0x0f) =? 58) = false.
Proof.
  intros Hb. apply negb_true_iff. revert b Hb. by apply forall_bytes.
Qed.

Lemma HexChar2HexData_pair b :
  is_byte b ->
  let H := HexChar2HexData (hex2ascii (Z.land (Z.shiftr b 4) 0x0f)) in
  let L := HexChar2HexData (hex2ascii (Z.land b 0x0f)) in
  (H =? 255) || (L =? 255) = false /\ u8 (Z.land (Z.shiftl H 4) 0xF0 + Z.land L 0x0F) = b.
Proof.
  intros Hb. simpl.
  assert (E : negb ((HexChar2HexData (hex2ascii (Z.land (Z.shiftr b 4) 0x0f)) =? 255)
                 || (HexChar2HexData (hex2ascii (Z.land b 0x0f)) =? 255)) = true)
    by (revert b Hb; by apply forall_bytes).
  apply negb_true_iff in E. split; [exact E|].
  destruct (hex_pair_value b Hb) as (h & l & Eh & El & _ & Ev).
  unfold HexChar2HexData. by rewrite Eh, El.
Qed.

(** One round of the loop on the two digits of byte [b]. *)
Lemma mac_loop_byte n mystr len o k hex b :
  is_byte b -> o < len ->
  arr_get mystr o = Some (hex2ascii (Z.land (Z.shiftr b 4) 0x0f)) ->
  arr_get mystr (o + 1) = Some (hex2ascii (Z.land b 0x0f)) ->
  0 <= k < 6 -> 6 <= zlen hex ->
  mac_loop (S n) mystr len o k hex
  = mac_loop n mystr len (o + 2) (k + 1) (<[Z.to_nat k := b]> hex).
Proof.
  intros Hb Ho E1 E2 Hk Hh. cbn [mac_loop]. rewrite (proj2 (Z.ltb_lt _ _)) by lia.
  rewrite E1. cbn [mbind option_bind]. rewrite hex2ascii_no_colon by done.
  rewrite E2. cbn [mbind option_bind].
  destruct (HexChar2HexData_pair b Hb) as [-> ->].
  rewrite u8_small, (proj2 (Z.ltb_ge _ _)) by lia. by rewrite arr_set_Some by lia.
Qed.

Lemma mac_loop_colon n mystr len o k hex :
  o < len -> arr_get mystr o = Some 58 -> colon_ok o = true ->
  mac_loop (S n) mystr len o k hex = mac_loop n mystr len (o + 1) k hex.
Proof.
  intros Ho E Hc. cbn [mac_loop]. rewrite (proj2 (Z.ltb_lt _ _)) by lia.
  rewrite E. cbn [mbind option_bind]. change (58 =? 58) with true. cbv iota. by rewrite Hc.
Qed.

Ltac mac_byte b :=
  rewrite (mac_loop_byte _ _ _ _ _ _ b)
    by (assumption || reflexivity || (unfold is_byte; rewrite ?zlen_insert; lia)); cbn [Z.add].
Ltac mac_colon := rewrite mac_loop_colon by (reflexivity || lia).

(** The text of a MAC address, two hexadecimal digits per byte separated by
    colons, is read back as its six bytes. *)
Theorem mac_roundtrip l rest :
  bytes_ok l -> length l = 6%nat ->
  macstr_to_hex (Some (mac_text l)) (replicate 6 0 ++ rest) = Some (l ++ rest, true).
Proof.
  intros Hok Hl. destruct l as [|a [|b [|c [|d [|e [|f [|]]]]]]]; try done.
  unfold bytes_ok in Hok. rewrite !Forall_cons in Hok.
  destruct Hok as (Ha & Hb & Hc & Hd & He & Hf & _).
  unfold macstr_to_hex. change (zlen (mac_text [a; b; c; d; e; f])) with 17.
  change (u16 17) with 17. change ((17 =? 12) || (17 =? 17)) with true. cbv iota.
  set (t := mac_text _). rewrite arr_blit_Some; [|done|vm_compute; congruence].
  cbn [mbind option_bind]. change (Z.to_nat 17) with (11 + 6)%nat. cbn [Nat.add].
  set (my := take _ _ ++ _).
  set (hx := replicate 6 0 ++ rest). assert (Hx : 6 <= zlen hx)
    by (unfold hx; rewrite zlen_app; pose proof (zlen_nonneg rest); change (zlen (replicate 6 0)) with 6; lia).
  mac_byte a. mac_colon. mac_byte b. mac_colon. mac_byte c. mac_colon.
  mac_byte d. mac_colon. mac_byte e. mac_colon. mac_byte f.
  reflexivity.
Qed.

Lemma mac_roundtrip_witness :
  macstr_to_hex (Some (mac_text [0xAA; 0xBB; 0xCC; 0x0D; 0xEE; 0xFF])) (replicate 6 0 ++ [])
  = Some ([0xAA; 0xBB; 0xCC; 0x0D; 0xEE; 0xFF] ++ [], true).
Proof.
  apply mac_roundtrip; [repeat constructor; vm_compute; congruence|reflexivity].
Defined.

(** A defect.  A 12-character string with colons in it is accepted although
    it holds fewer than six bytes; the rest of the address is left as it was. *)
Theorem mac_accepts_short_address hex :
  6 <= zlen hex ->
  exists hex', macstr_to_hex (Some (cstr "AA:BB:CC:DD:")) hex = Some (hex', true) /\
    drop 4 hex' = drop 4 hex.
Proof.
  intros Hh. unfold macstr_to_hex. change (u16 (zlen (cstr "AA:BB:CC:DD:"))) with 12.
  change ((12 =? 12) || (12 =? 17)) with true. cbv iota.
  rewrite arr_blit_Some; [|done|vm_compute; congruence].
  cbn [mbind option_bind]. change (Z.to_nat 12) with (8 + 4)%nat. cbn [Nat.add].
  set (my := take _ _ ++ _).
  mac_byte 0xAA. mac_colon. mac_byte 0xBB. mac_colon. mac_byte 0xCC. mac_colon.
  mac_byte 0xDD. mac_colon. eexists. split; [reflexivity|].
  by rewrite !drop_insert_lt by lia.
Qed.

Lemma mac_accepts_short_address_witness :
  exists hex', macstr_to_hex (Some (cstr "AA:BB:CC:DD:")) [1; 2; 3; 4; 5; 6] = Some (hex', true) /\
    drop 4 hex' = [5; 6].
Proof. apply (mac_accepts_short_address [1; 2; 3; 4; 5; 6]). vm_compute. congruence. Defined.

(** ** Bytes *)

Lemma byte_land_mod a : Z.land a 255 = a mod 256.
Proof. exact (Z.land_ones a 8 ltac:(lia)). Qed.

Lemma byte_lor a b : is_byte a -> is_byte b -> is_byte (Z.lor a b).
Proof.
  unfold is_byte. intros Ha Hb. assert (E : Z.lor a b = Z.lor a b mod 256); [|rewrite E; apply Z.mod_pos_bound; lia].
  rewrite <- byte_land_mod, Z.land_lor_distr_l, !byte_land_mod, !Z.mod_small by lia. done.
Qed.

Lemma byte_land a m : is_byte m -> is_byte (Z.land a m).
Proof.
  unfold is_byte. intros Hm. assert (E : Z.land a m = Z.land a m mod 256); [|rewrite E; apply Z.mod_pos_bound; lia].
  rewrite <- byte_land_mod, <- Z.land_assoc, (byte_land_mod m), Z.mod_small by lia. done.
Qed.

Lemma bytes_insert l (i : nat) x : bytes_ok l -> is_byte x -> bytes_ok (<[i := x]> l).
Proof. intros Hl Hx. by apply Forall_insert. Qed.

(** Whatever the text, [hexstr_to_hex] stays inside its destination. *)
Lemma hexstr_loop_safe s : forall dest n offset hd count,
  bytes_ok dest -> is_byte hd -> zlen dest = n -> n < 256 -> 0 <= count < n ->
  exists dest' r, hexstr_loop s dest n offset hd count = Some (dest', r) /\ zlen dest' = n /\ bytes_ok dest'.
Proof.
  induction s as [|c s IH]; intros dest n offset hd count Hd Hh Hn H8 Hc; cbn [hexstr_loop]; [by eexists _, _|].
  destruct (hex_value c) as [t|]; [|by eexists _, _].
  destruct (offset mod 2 =? 0); [apply IH; try done; by apply byte_land|].
  assert (Hx : is_byte (Z.lor hd (Z.land t 15))) by (by apply byte_lor, byte_land).
  rewrite arr_set_Some by lia. cbn [mbind option_bind]. rewrite u8_small by lia.
  assert (Hd' : bytes_ok (<[Z.to_nat count := Z.lor hd (Z.land t 15)]> dest)) by (by apply bytes_insert).
  assert (Hl : zlen (<[Z.to_nat count := Z.lor hd (Z.land t 15)]> dest) = n) by (by rewrite zlen_insert).
  destruct (Z.leb_spec n (count + 1)); [by eexists _, _|]. apply IH; try done. lia.
Qed.

Lemma hexstr_to_hex_safe dest n src :
  bytes_ok dest -> zlen dest = n -> 0 < n < 256 ->
  exists dest' r, hexstr_to_hex dest n (Some src) = Some (dest', r) /\ zlen dest' = n /\ bytes_ok dest'.
Proof.
  intros Hd Hn H8. unfold hexstr_to_hex. rewrite (proj2 (Z.eqb_neq _ _)) by lia. apply hexstr_loop_safe; [done|done|done|lia|lia].
Qed.

Lemma mac_loop_bytes n : forall mystr len offset count hex hex' ok,
  mac_loop n mystr len offset count hex = Some (hex', ok) -> bytes_ok hex -> bytes_ok hex'.
Proof.
  induction n as [|n IH]; intros mystr len offset count hex hex' ok; cbn [mac_loop]; [by intros [= <- <-]|].
  destruct (offset <? len); [|by intros [= <- <-]]. destruct (arr_get mystr offset) as [c|]; [|done]. cbn [mbind option_bind].
  destruct (c =? 58); [destruct (colon_ok offset); [apply IH|by intros [= <- <-]]|].
  destruct (arr_get mystr (offset + 1)) as [d|]; [|done]. cbn [mbind option_bind].
  destruct (_ || _); [by intros [= <- <-]|]. destruct (6 <? _); [by intros [= <- <-]|].
  destruct (arr_set hex count _) as [h|] eqn:E; [|done]. cbn [mbind option_bind]. intros H Hb. apply (IH _ _ _ _ _ _ _ H).
  unfold arr_set in E. destruct (_ && _); [|done]. injection E as <-. apply bytes_insert; [done|apply u8_range].
Qed.

Lemma macstr_to_hex_bytes s hex hex' ok : macstr_to_hex (Some s) hex = Some (hex', ok) -> bytes_ok hex -> bytes_ok hex'.
Proof.
  unfold macstr_to_hex. destruct (_ || _); [|by intros [= <- <-]]. destruct (arr_blit _ _ _); [|done]. cbn [mbind option_bind]. apply mac_loop_bytes.
Qed.

(** ** Reversal *)

Lemma reverse_loop_spec n : forall i src dest,
  0 <= i -> i + Z.of_nat n = zlen src -> zlen src < 4294967296 -> zlen dest = zlen src ->
  put dest (take (Z.to_nat i) (reverse src)) ->
  exists dest', reverse_loop n i src dest (zlen src) = Some dest' /\ zlen dest' = zlen src /\
    put dest' (reverse src).
Proof.
  induction n as [|n IH]; intros i src dest Hi Hn Hs Hd Hp; simpl.
  - exists dest. split; [done|]. split; [done|].
    rewrite take_ge in Hp; [done|]. rewrite length_reverse. unfold zlen in Hn. lia.
  - rewrite u32_small by lia. destruct (arr_get_Some src (zlen src - 1 - i)) as [x Ex]; [lia|].
    rewrite Ex. simpl. apply arr_get_inv in Ex as [_ Ex].
    assert (Hl : zlen (take (Z.to_nat i) (reverse src)) = i)
      by (rewrite zlen_take; unfold zlen in *; rewrite length_reverse; lia).
    destruct (put_set dest _ x Hp) as (d1 & E & Hl1 & Hp1); [lia|]. rewrite Hl in E.
    rewrite E. simpl. apply IH; try lia.
    replace (Z.to_nat (i + 1)) with (S (Z.to_nat i)) by lia.
    rewrite (take_S_r _ _ x); [done|]. unfold zlen in *.
    rewrite reverse_lookup by lia. rewrite <- Ex. f_equal. lia.
Qed.

(** [char_array_reverse] writes the reversed array and reports success;
    reversing twice restores the array.  Unequal or zero lengths and null
    pointers are refused with the destination unchanged. *)
Theorem char_array_reverse_spec src dest :
  0 < zlen src < 4294967296 -> zlen dest = zlen src ->
  char_array_reverse (Some src) (zlen src) (Some dest) (zlen src) = Some (Some (reverse src), 0) /\
  char_array_reverse (Some (reverse src)) (zlen src) (Some dest) (zlen src) = Some (Some src, 0) /\
  (forall n, n <> zlen src -> 0 < n ->
     char_array_reverse (Some src) (zlen src) (Some dest) n = Some (Some dest, -2)) /\
  char_array_reverse None (zlen src) (Some dest) (zlen src) = Some (Some dest, -1).
Proof.
  intros Hs Hd.
  assert (H : forall src, 0 < zlen src < 4294967296 -> zlen dest = zlen src ->
    char_array_reverse (Some src) (zlen src) (Some dest) (zlen src) = Some (Some (reverse src), 0)).
  { clear. intros src Hs Hd. unfold char_array_reverse.
    rewrite (proj2 (Z.eqb_neq _ 0)), Z.eqb_refl by lia. simpl.
    destruct (reverse_loop_spec (Z.to_nat (zlen src)) 0 src dest) as (d & -> & Hl & Hp);
      [lia|lia|lia|done|apply put_nil|].
    simpl. do 3 f_equal. rewrite (put_eq _ _ Hp), drop_ge; [by rewrite app_nil_r|].
    rewrite length_reverse. unfold zlen in Hl. lia. }
  split; [by apply H|]. split; [|split; [|done]].
  - assert (Hr : zlen (reverse src) = zlen src) by (unfold zlen; by rewrite length_reverse).
    rewrite <- Hr. rewrite H by (rewrite Hr; lia). by rewrite reverse_involutive.
  - intros n Hn Hn0. unfold char_array_reverse.
    rewrite !(proj2 (Z.eqb_neq _ 0)) by lia. simpl. by rewrite (proj2 (Z.eqb_neq _ _)) by lia.
Qed.

Lemma char_array_reverse_spec_witness :
  char_array_reverse (Some [1; 2; 3]) 3 (Some [0; 0; 0]) 3 = Some (Some [3; 2; 1], 0).
Proof. apply (char_array_reverse_spec [1; 2; 3] [0; 0; 0]); vm_compute; auto. Defined.

(** ** Coordinates *)

(** The value of a string of digits. *)
Definition dec_value (s : list Z) : Z := foldl (fun v c => v * 10 + (c - 48)) 0 s.

Lemma dec_fold_mono s : forall v, Forall (fun c => 48 <= c <= 57) s -> 0 <= v ->
  v <= foldl (fun v c => v * 10 + (c - 48)) v s.
Proof.
  induction s as [|c s IH]; intros v Hs Hv; simpl; [lia|].
  apply Forall_cons in Hs as [Hc Hs]. specialize (IH (v * 10 + (c - 48)) Hs ltac:(lia)). lia.
Qed.

Lemma coord_digits_spec s : forall v k, Forall (fun c => 48 <= c <= 57) s -> 0 <= v ->
  foldl (fun v c => v * 10 + (c - 48)) v s < 2147483648 ->
  coord_digits s v k = Some (foldl (fun v c => v * 10 + (c - 48)) v s, (k + length s)%nat).
Proof.
  induction s as [|c s IH]; intros v k Hs Hv Hlt; simpl in *; [by rewrite Nat.add_0_r|].
  apply Forall_cons in Hs as [Hc Hs].
  pose proof (dec_fold_mono s (v * 10 + (c - 48)) Hs ltac:(lia)).
  unfold in_range. rewrite !(proj2 (Z.leb_le _ _)) by lia. simpl.
  rewrite !i32_small by (rewrite ?i32_small; lia). rewrite IH by (auto; lia).
  do 2 f_equal. lia.
Qed.

(** An optional sign or hemisphere letter followed by decimal digits, whose
    value is below 2^31, is accepted exactly when it is within +-90 (latitude)
    or +-180 (longitude) degrees, with its signed value in microdegrees; the
    letter must suit the axis, and an empty string means no coordinate. *)
Theorem parse_coordinate_exact is_latitude (pre digits : list Z) sign :
  Forall (fun c => 48 <= c <= 57) digits -> digits <> [] -> dec_value digits < 2147483648 ->
  (pre = [] /\ sign = 1 \/
   exists c, pre = [c] /\ ~ 48 <= c <= 57 /\ coord_sign is_latitude c = Some sign) ->
  let v := dec_value digits * sign in
  let limit := if is_latitude then 90000000 else 180000000 in
  parse_coordinate_value (Some (pre ++ digits)) is_latitude
  = if decide (- limit <= v <= limit) then Some (v, 1) else None.
Proof.
  intros Hd Hne Hlt Hpre v limit.
  pose proof (dec_fold_mono digits 0 Hd ltac:(lia)) as Hv0. fold (dec_value digits) in Hv0.
  assert (Hsign : sign = 1 \/ sign = -1).
  { destruct Hpre as [[_ ->]|(c & _ & _ & E)]; [by left|]. revert E. unfold coord_sign.
    repeat case_match; intros [= <-]; auto. }
  assert (Hcd : coord_digits digits 0 0 = Some (dec_value digits, length digits))
    by (by apply coord_digits_spec).
  assert (Hres : forall c rest, pre ++ digits = c :: rest ->
     coord_sign is_latitude c = Some sign ->
     (if is_dir c || (c =? 43) || (c =? 45) then rest else c :: rest) = digits ->
     parse_coordinate_value (Some (pre ++ digits)) is_latitude
     = if decide (- limit <= v <= limit) then Some (v, 1) else None).
  { intros c rest -> Es Er. unfold parse_coordinate_value. rewrite Es. simpl.
    rewrite Er, Hcd. simpl. destruct (length digits) eqn:El; [by destruct digits|]. simpl.
    fold limit. rewrite i32_small by (destruct Hsign; subst; lia). fold v.
    destruct (decide _) as [Hr|Hr].
    - by rewrite !(proj2 (Z.ltb_ge _ _)) by lia.
    - destruct (Z.ltb_spec v (- limit)), (Z.ltb_spec limit v); try done. lia. }
  destruct Hpre as [[-> ->]|(c & -> & Hc & E)].
  - destruct digits as [|c rest]; [done|]. apply Forall_cons in Hd as [Hc _].
    apply (Hres c rest); [done| |]; unfold coord_sign, is_dir, in_range;
      rewrite !(proj2 (Z.eqb_neq c _)) by lia; [|done].
    simpl. by rewrite !(proj2 (Z.leb_le _ _)) by lia.
  - apply (Hres c digits); [done|done|]. revert E. unfold coord_sign.
    destruct (is_dir c); [done|]. simpl. destruct (_ || _); [done|].
    unfold in_range. destruct (Z.leb_spec 48 c), (Z.leb_spec c 57); simpl; try done. lia.
Qed.

Lemma parse_coordinate_exact_witness :
  parse_coordinate_value (Some (cstr "S" ++ cstr "22277120")) true = Some (-22277120, 1).
Proof.
  rewrite (parse_coordinate_exact true (cstr "S") (cstr "22277120") (-1));
    [reflexivity|repeat constructor; vm_compute; congruence|done|reflexivity|].
  right. exists 83. split; [reflexivity|]. split; [lia|reflexivity].
Defined.

(** A defect.  The digits are accumulated in 32 bits without a range check,
    so a number far outside the globe wraps around and is accepted. *)
Theorem parse_coordinate_wraps :
  parse_coordinate_value (Some (cstr "4294967297")) true = Some (1, 1) /\
  parse_coordinate_value (Some (cstr "E4474967296")) false = Some (180000000, 1).
Proof. split; reflexivity. Qed.

(** ** Case-insensitive comparison *)

Lemma strcasecmp_zero s1 : forall s2,
  Forall (fun c => 0 < c < 256) s1 -> Forall (fun c => 0 < c < 256) s2 ->
  strcasecmp s1 s2 = 0 <-> tolower <$> s1 = tolower <$> s2.
Proof.
  assert (Hpos : forall c, 0 < c < 256 -> 0 < tolower c)
    by (intros c Hc; unfold tolower; destruct (isupper c); lia).
  induction s1 as [|c s1 IH]; intros [|d s2] H1 H2; simpl; [done| | |];
    rewrite ?Forall_cons in *.
  - destruct H2 as [Hd _]. specialize (Hpos d Hd). split; [lia|done].
  - destruct H1 as [Hc _]. specialize (Hpos c Hc). split; [lia|done].
  - destruct H1 as [_ H1], H2 as [_ H2].
    destruct (Z.eqb_spec (tolower c) (tolower d)) as [->|Hne].
    + rewrite IH by done. split; [intros E|intros [= E]]; [by f_equal|done].
    + split; [lia|]. intros [= E _]. done.
Qed.

Lemma case_loop_spec s : forall hu hl,
  hu && hl = false ->
  case_loop s hu hl = negb ((hu || existsb isupper s) && (hl || existsb islower s)).
Proof.
  induction s as [|c s IH]; intros hu hl H; cbn [case_loop existsb].
  - rewrite !orb_false_r, H. done.
  - unfold isalpha. destruct (isupper c) eqn:Eu, (islower c) eqn:El; simpl;
      rewrite ?orb_true_r, ?orb_false_r; simpl.
    + unfold isupper, islower, in_range in *. bool2prop. lia.
    + destruct hl; simpl; [done|]. rewrite IH by done. done.
    + destruct hu; simpl; [done|]. rewrite IH by done. simpl. by rewrite andb_true_r.
    + by apply IH.
Qed.

(** [my_strcasecmp] answers 0 exactly when the two strings are equal up to
    case and neither of them mixes upper- and lower-case letters. *)
Theorem my_strcasecmp_zero s1 s2 :
  Forall (fun c => 0 < c < 256) s1 -> Forall (fun c => 0 < c < 256) s2 ->
  my_strcasecmp s1 s2 = 0 <->
  existsb isupper s1 && existsb islower s1 = false /\
  existsb isupper s2 && existsb islower s2 = false /\
  tolower <$> s1 = tolower <$> s2.
Proof.
  intros H1 H2. unfold my_strcasecmp, is_all_upper_or_lower.
  rewrite !case_loop_spec by done. rewrite !negb_involutive. simpl.
  destruct (existsb isupper s1 && existsb islower s1); simpl; [by split; [|intros [? _]]|].
  destruct (existsb isupper s2 && existsb islower s2); simpl; [by split; [|intros (_ & ? & _)]|].
  rewrite strcasecmp_zero by done. tauto.
Qed.

Lemma my_strcasecmp_zero_witness : my_strcasecmp (cstr "APN") (cstr "apn") = 0.
Proof.
  apply my_strcasecmp_zero; [repeat constructor; vm_compute; congruence..|].
  split; [reflexivity|]. split; reflexivity.
Defined.
