(* ===== verification/Str.v ===== *)
(** * Strings of the C library

    Conversion of numbers, printing, comparison with command words, and the
    checks of numeric and on/off arguments that the command handlers share. *)

From S2P Require Import Prelude Text.

(** ** Numbers to text *)

(** [%d], [%u] and [%lld]: numbers of up to twenty digits. *)
Fixpoint dec_digits (n : nat) (v : Z) (acc : list Z) : list Z :=
  match n with
  | O => acc
  | S n => if v <? 10 then (48 + v) :: acc else dec_digits n (v / 10) ((48 + v mod 10) :: acc)
  end.

Definition dec (v : Z) : list Z := if v <? 0 then 45 :: dec_digits 20 (- v) [] else dec_digits 20 v [].

(** [%02X] and [%02x] of a byte. *)
Definition hex_digit (upper : bool) (d : Z) : Z := if d <? 10 then 48 + d else (if upper then 55 else 87) + d.
Definition hex2 (upper : bool) (b : Z) : list Z := [hex_digit upper (b / 16 mod 16); hex_digit upper (b mod 16)].

(** [snprintf] into [n] bytes: the characters stored before the terminator and
    the length the whole text has. *)
Definition snprintf (n : Z) (text : list Z) : list Z * Z := (take (Z.to_nat (n - 1)) text, zlen text).

(** [snprintf(buf + off, size, ...)]: the buffer and the length of the text. *)
Definition snprintf_at (buf : list Z) (off size : Z) (text : list Z) : option (list Z * Z) :=
  let '(stored, n) := snprintf size text in
  buf ← arr_blit buf off (stored ++ [0]);
  Some (buf, n).

(** ** Text to numbers *)

Fixpoint skip_space (s : list Z) : list Z :=
  match s with
  | c :: s' => if isspace c then skip_space s' else s
  | [] => []
  end.

Fixpoint digits_value (s : list Z) (v : Z) : Z :=
  match s with
  | c :: s => if is_digit c then digits_value s (v * 10 + (c - 48)) else v
  | [] => v
  end.

(** The C library reads up to the first character that is not a digit; a value
    outside the type saturates. *)
Definition read_int (lo hi : Z) (s : list Z) : Z :=
  match skip_space s with
  | c :: s =>
      if c =? 43 then Z.min hi (digits_value s 0)
      else if c =? 45 then Z.max lo (- digits_value s 0)
      else Z.min hi (digits_value (c :: s) 0)
  | [] => 0
  end.

Definition atoi : list Z -> Z := read_int (-2147483648) 2147483647.
Definition atoll : list Z -> Z := read_int (-9223372036854775808) 9223372036854775807.

(** ** Command words *)

(** [strncmp(data, header, strlen(header)) == 0]. *)
Fixpoint CMD_MATCHED (data header : list Z) {struct header} : bool :=
  match header, data with
  | [], _ => true
  | h :: header, d :: data => (h =? d) && CMD_MATCHED data header
  | _ :: _, [] => false
  end.

Definition CMD_EQUAL (data header : list Z) : bool := bool_decide (data = header).

(** ** Arguments *)

(** [no_count = string_check_is_number(flag, s); if (no_count == 0 || no_count > 9) goto param_invalid; v = atoi(s)]. *)
Definition number_arg (flag : Z) (s : list Z) : option Z :=
  let no_count := string_check_is_number flag s in
  if (no_count =? 0) || (9 <? no_count) then None else Some (atoi s).

(** "ON" is 1, "OFF" is 0, in lower or upper case. *)
Definition on_off (s : list Z) : option Z :=
  if my_strcasecmp s (cstr "ON") =? 0 then Some 1
  else if my_strcasecmp s (cstr "OFF") =? 0 then Some 0
  else None.

Definition on_off_text (v : Z) : list Z := if v =? 0 then cstr "OFF" else cstr "ON".

(** ** Properties *)

Lemma CMD_MATCHED_spec data header : CMD_MATCHED data header = true <-> exists rest, data = header ++ rest.
Proof.
  revert data. induction header as [|h header IH]; intros data; cbn [CMD_MATCHED app]; [by split; [exists data|]|].
  destruct data as [|d data]; [split; [done|by intros [? [=]]]|]. rewrite andb_true_iff, Z.eqb_eq, IH. split.
  - intros [-> [rest ->]]. by exists rest.
  - intros [rest [= -> ->]]. split; [done|by exists rest].
Qed.

(** Reading back the digits that were printed. *)
Lemma dec_digits_value n v acc : (0 < n)%nat -> 0 <= v < 10 ^ Z.of_nat n ->
  digits_value (dec_digits n v acc) 0 = digits_value acc v.
Proof.
  revert v acc. induction n as [|n IH]; intros v acc Hn Hv; [lia|]. cbn [dec_digits].
  destruct (Z.ltb_spec v 10) as [Hlt|Hge].
  - cbn [digits_value]. rewrite (proj2 (is_digit_spec (48 + v))) by lia. f_equal. lia.
  - assert (Hn' : (0 < n)%nat) by (destruct n; [cbn in *; lia|lia]).
    pose proof (Z.mod_pos_bound v 10 ltac:(lia)). pose proof (Z.div_mod v 10 ltac:(lia)).
    rewrite Nat2Z.inj_succ, Z.pow_succ_r in Hv by lia.
    rewrite IH; [|lia|split; [apply Z.div_pos; lia|apply Z.div_lt_upper_bound; lia]].
    cbn [digits_value]. rewrite (proj2 (is_digit_spec (48 + v mod 10))) by lia. f_equal. lia.
Qed.

Lemma dec_digits_digit n v acc : 0 <= v -> Forall (fun c => 48 <= c <= 57) acc -> v < 10 ^ Z.of_nat n ->
  Forall (fun c => 48 <= c <= 57) (dec_digits n v acc).
Proof.
  revert v acc. induction n as [|n IH]; intros v acc Hv Ha Hlt; cbn [dec_digits]; [done|].
  destruct (Z.ltb_spec v 10); [constructor; [lia|done]|].
  pose proof (Z.mod_pos_bound v 10 ltac:(lia)). rewrite Nat2Z.inj_succ, Z.pow_succ_r in Hlt by lia.
  apply IH; [apply Z.div_pos; lia|constructor; [lia|done]|apply Z.div_lt_upper_bound; lia].
Qed.

Lemma dec_digits_cons n v acc : (0 < n)%nat -> exists c s, dec_digits n v acc = c :: s.
Proof.
  revert v acc. induction n as [|n IH]; intros v acc Hn; [lia|]. cbn [dec_digits]. destruct (v <? 10); [by eexists _, _|].
  destruct n; [by eexists _, _|]. apply IH. lia.
Qed.

Lemma dec_digits_len n v acc : zlen (dec_digits n v acc) <= Z.of_nat n + zlen acc.
Proof.
  revert v acc. induction n as [|n IH]; intros v acc; cbn [dec_digits]; [lia|].
  destruct (v <? 10); [rewrite zlen_cons; lia|]. etrans; [apply IH|]. rewrite zlen_cons. lia.
Qed.

Lemma dec_len v : zlen (dec v) <= 21.
Proof. unfold dec. pose proof (dec_digits_len 20 v []). pose proof (dec_digits_len 20 (- v) []). destruct (v <? 0); rewrite ?zlen_cons; fw. Qed.

Lemma not_space c : 48 <= c <= 57 -> isspace c = false /\ c <> 43 /\ c <> 45.
Proof.
  intros Hc. unfold isspace, in_range. rewrite (proj2 (Z.eqb_neq c 32)), (proj2 (Z.leb_gt c 13)) by lia.
  by rewrite andb_false_r; split_and!; try lia.
Qed.

(** [atoi] reads back what [%d] printed. *)
Lemma read_int_dec lo hi v : -10 ^ 20 < lo -> hi < 10 ^ 20 -> lo <= v <= hi -> read_int lo hi (dec v) = v.
Proof.
  intros Hlo Hhi Hv. unfold read_int, dec.
  destruct (Z.ltb_spec v 0).
  - cbn [skip_space]. change (isspace 45) with false. cbv iota. change (45 =? 43) with false. change (45 =? 45) with true. cbv iota.
    rewrite dec_digits_value by lia. cbn [digits_value]. lia.
  - pose proof (dec_digits_digit 20 v [] ltac:(lia) ltac:(done) ltac:(cbn; lia)) as Hd.
    pose proof (dec_digits_value 20 v [] ltac:(lia) ltac:(cbn; lia)) as Hx.
    destruct (dec_digits_cons 20 v [] ltac:(lia)) as (c & s & E). rewrite E in *. apply Forall_cons in Hd as [Hc _].
    destruct (not_space c Hc) as (Hs & H1 & H2). cbn [skip_space]. rewrite Hs, (proj2 (Z.eqb_neq c 43)), (proj2 (Z.eqb_neq c 45)) by done.
    rewrite Hx. cbn. lia.
Qed.

Lemma digits_value_bound s v n : (length s <= n)%nat -> 0 <= v ->
  v <= digits_value s v < (v + 1) * 10 ^ Z.of_nat n.
Proof.
  revert v n. induction s as [|c s IH]; intros v n Hn Hv; cbn [digits_value].
  - pose proof (Z.pow_pos_nonneg 10 (Z.of_nat n) ltac:(lia) ltac:(lia)). nia.
  - destruct n as [|n]; [cbn in Hn; lia|]. rewrite Nat2Z.inj_succ, Z.pow_succ_r by lia.
    pose proof (Z.pow_pos_nonneg 10 (Z.of_nat n) ltac:(lia) ltac:(lia)).
    destruct (is_digit c) eqn:Ed; [|nia]. apply is_digit_spec in Ed.
    specialize (IH (v * 10 + (c - 48)) n ltac:(cbn in Hn; lia) ltac:(lia)). nia.
Qed.

Lemma on_off_range s v : on_off s = Some v -> 0 <= v <= 1.
Proof. unfold on_off. repeat case_match; intros [= <-]; lia. Qed.

(** A number without sign is not negative. *)
Lemma number_loop_pos s k : number_loop 0 s k <> 0 -> Forall (fun c => 48 <= c <= 57) s \/ s = [].
Proof.
  revert k. induction s as [|c s IH]; intros k; cbn [number_loop]; [by right|].
  change (Z.testbit 0 0) with false. change (Z.testbit 0 1) with false. cbn [andb]. unfold in_range.
  destruct (Z.leb_spec 48 c); [|done]. destruct (Z.leb_spec c 57); [|done]. cbn [andb]. intros Hx.
  left. destruct (IH _ Hx) as [Hs| ->]; by constructor.
Qed.

Lemma number_arg_nonneg s v : number_arg 0 s = Some v -> 0 <= v.
Proof.
  unfold number_arg, string_check_is_number. destruct (_ =? 0) eqn:E; [done|]. apply Z.eqb_neq in E. cbn [orb].
  destruct (9 <? _); [done|]. intros [= <-]. unfold atoi, read_int.
  destruct (number_loop_pos s 0 E) as [Hs| ->]; [|done].
  destruct Hs as [|c s Hc Hs]; [done|]. destruct (not_space c Hc) as (Hsp & H1 & H2). cbn [skip_space].
  rewrite Hsp, (proj2 (Z.eqb_neq c 43)), (proj2 (Z.eqb_neq c 45)) by done.
  pose proof (digits_value_bound (c :: s) 0 (length (c :: s)) ltac:(done) ltac:(lia)). lia.
Qed.

Lemma snprintf_at_spec a b off size text :
  off = zlen a -> zlen text < size -> zlen text < zlen b ->
  snprintf_at (a ++ b) off size text = Some (a ++ text ++ 0 :: drop (length text + 1) b, zlen text).
Proof.
  intros -> Hs Hb. unfold snprintf_at, snprintf. rewrite take_ge by (unfold zlen in *; lia).
  rewrite <- (take_drop (length text + 1) b) at 1. rewrite arr_blit_app; [|done|rewrite length_take, length_app; cbn; unfold zlen in *; lia].
  cbn [mbind option_bind]. by rewrite <- app_assoc.
Qed.
