(* ===== verification/AtParse.v ===== *)
(** * Splitting a command line ([at_cmd_str_analyse] of [my_cmd_setting.c])

    The routine splits the received text in place: it overwrites separators
    with terminators and returns pointers into the buffer.  It is shown to
    agree with a plain scanner over the list of characters. *)

From S2P Require Import Prelude Text.

(** ** The routine *)

(** A pointer is an offset into the buffer, or the static empty string. *)
Definition pointer := option Z.

(** [strchr(set, c) != NULL]; the terminator of [set] is found too. *)
Definition strchr (set : list Z) (c : Z) : bool := (c =? 0) || existsb (Z.eqb c) set.

Definition set_last (tar : list pointer) (p : pointer) : list pointer := take (length tar - 1) tar ++ [p].

(** How the loop ends: at the end character, at the end of the text, or with an error. *)
Inductive outcome :=
  | EndFound (buf : list Z) (tar : list pointer) (in_quote : bool)
  | NoEnd (buf : list Z) (tar : list pointer)
  | Error (code : Z) (buf : list Z) (tar : list pointer).

Section analyse.
Context (limit startChar : Z) (endChars : list Z) (splitChar : Z).

(** The loop from position [p] on, [n] characters before the end. *)
Fixpoint analyse_loop (n : nat) (p : Z) (buf : list Z) (tar : list pointer) (status in_quote : bool) : option outcome :=
  match n with
  | O => Some (NoEnd buf tar)
  | S n =>
      c ← arr_get buf p;
      if c =? 34 then
        if in_quote then
          buf ← arr_set buf p 0;
          analyse_loop n (p + 1) buf tar status false
        else
          let tar := if status && (0 <? zlen tar) then set_last tar (Some (p + 1)) else tar in
          analyse_loop n (p + 1) buf tar status true
      else
        let starts := negb status && ((c =? startChar) || (startChar =? 0)) in
        if starts && (limit <=? zlen tar) then Some (Error (-2) buf tar) else
        tar ← (if starts then
                 if startChar =? 0 then Some (tar ++ [Some p])
                 else d ← arr_get buf (p + 1); Some (tar ++ [if d =? splitChar then None else Some (p + 1)])
               else Some tar);
        if negb (status || starts) then analyse_loop n (p + 1) buf tar false in_quote else
        if negb in_quote && strchr endChars c then
          buf ← arr_set buf p 0;
          Some (EndFound buf tar in_quote)
        else if negb in_quote && (c =? splitChar) then
          buf ← arr_set buf p 0;
          if limit <=? zlen tar then Some (Error (-3) buf tar) else
          d ← arr_get buf (p + 1);
          analyse_loop n (p + 1) buf (tar ++ [if strchr endChars d || (d =? splitChar) then None else Some (p + 1)]) true in_quote
        else analyse_loop n (p + 1) buf tar true in_quote
  end.

(** The result with the buffer and the pointers; [None] is an access outside the buffer. *)
Definition at_cmd_str_analyse (str_data : option (list Z)) : option (Z * list Z * list pointer) :=
  match str_data with
  | None => Some (-1, [], [])
  | Some buf =>
      s ← c_string buf;
      o ← analyse_loop (length s) 0 buf [] false false;
      match o with
      | Error code buf tar => Some (code, buf, tar)
      | NoEnd buf tar => Some (-4, buf, tar)
      | EndFound buf tar in_quote =>
          Some (if in_quote : bool then -1 else zlen tar, buf, tar ++ replicate (Z.to_nat limit - length tar) None)
      end
  end.
End analyse.

(** The text a pointer refers to. *)
Definition text_at (buf : list Z) (p : pointer) : option (list Z) :=
  match p with None => Some [] | Some o => c_string (drop (Z.to_nat o) buf) end.

(** ** The scanner *)

(** The parameter being read: its text, and whether more characters belong to
    it (none do between a closing quote and the next separator). *)
Inductive parsed := Params (ps : list (list Z)) | Failed (code : Z).

Fixpoint scan (limit : nat) (s : list Z) (ps : list (list Z)) (cur : option (list Z * bool)) (in_quote : bool) : parsed :=
  match s with
  | [] => Failed (-4)
  | c :: s =>
      if c =? 34 then
        if in_quote then scan limit s ps (option_map (fun t => (fst t, false)) cur) false
        else scan limit s ps (option_map (fun _ => ([], true)) cur) true
      else
        let '(text, open) := default ([], true) cur in
        if negb in_quote && (c =? 35) then Params (ps ++ [text])
        else if negb in_quote && (c =? 44) then
          if (limit <=? length ps + 1)%nat then Failed (-3) else scan limit s (ps ++ [text]) (Some ([], true)) in_quote
        else scan limit s ps (Some (if open : bool then text ++ [c] else text, open)) in_quote
  end.

Definition PARM_MAX : Z := 20.

(** The parameters of a command line. *)
Definition params (s : list Z) : parsed := scan (Z.to_nat PARM_MAX) s [] None false.

(** ** Agreement *)

Notation no_nul := (Forall (fun c => c <> 0)).

(** The text of a finished parameter lies in the part [pre] of the buffer already visited. *)
Definition fixed (pre text : list Z) (p : pointer) : Prop :=
  no_nul text /\
  match p with
  | None => text = []
  | Some o => exists a tail, zlen a = o /\ pre = a ++ text ++ 0 :: tail
  end.

(** The parameter being read, before the remaining characters [s]. *)
Definition current (pre s text : list Z) (open : bool) (p : pointer) : Prop :=
  no_nul text /\
  match p with
  | None => text = [] /\ open = true /\ match s with [] => True | c :: _ => c = 35 \/ c = 44 end
  | Some o => exists a tail, zlen a = o /\ pre = a ++ text ++ tail /\ (if open then tail = [] else exists tl, tail = 0 :: tl)
  end.

Definition scan_inv (pre s : list Z) (ps : list (list Z)) (tar : list pointer) (cur : option (list Z * bool))
    (in_quote : bool) : Prop :=
  match cur with
  | None => ps = [] /\ tar = []
  | Some (text, open) => exists tar' q, tar = tar' ++ [q] /\ Forall2 (fixed pre) ps tar' /\ current pre s text open q /\
      (in_quote = true -> q <> None)
  end.

Lemma fixed_more pre c text p : fixed pre text p -> fixed (pre ++ [c]) text p.
Proof.
  intros [Hn H]. split; [done|]. destruct p as [o|]; [|done]. destruct H as (a & tail & Ha & ->).
  exists a, (tail ++ [c]). by rewrite <- !app_assoc.
Qed.

Lemma fixed_all_more pre c ps tar : Forall2 (fixed pre) ps tar -> Forall2 (fixed (pre ++ [c])) ps tar.
Proof. intros H. eapply Forall2_impl; [done|]. intros. by apply fixed_more. Qed.

(** A parameter ends where a terminator is written. *)
Lemma current_fixed pre s text open p : current pre s text open p -> fixed (pre ++ [0]) text p.
Proof.
  intros [Hn H]. split; [done|]. destruct p as [o|]; [|by destruct H]. destruct H as (a & tail & Ha & -> & Ht). exists a.
  destruct open; [subst; exists []|destruct Ht as [tl ->]; exists (tl ++ [0])]; (split; [done|]); by rewrite <- !app_assoc.
Qed.

Lemma fixed_text pre rest text p : fixed pre text p -> text_at (pre ++ rest) p = Some text.
Proof.
  intros [Hn H]. destruct p as [o|]; [|by subst]. destruct H as (a & tail & <- & ->). cbn [text_at].
  unfold zlen. rewrite Nat2Z.id, <- !app_assoc, drop_app_length. cbn [app]. by apply c_string_app.
Qed.

Lemma buf_set pre c s : arr_set (pre ++ c :: s) (zlen pre) 0 = Some ((pre ++ [0]) ++ s).
Proof. rewrite arr_set_blit. rewrite (arr_blit_app pre [c] s [0]) by done. by rewrite <- app_assoc. Qed.

Lemma set_last_app tar q p : set_last (tar ++ [q]) p = tar ++ [p].
Proof. unfold set_last. rewrite length_app. cbn [length]. rewrite Nat.add_sub, take_app_length. done. Qed.

(** What the two ways of reading a line must agree on. *)
Definition agree (o : option outcome) (r : parsed) : Prop :=
  match o, r with
  | Some (EndFound buf tar q), Params ps => q = false /\ Forall2 (fun p t => text_at buf p = Some t) tar ps
  | Some (NoEnd _ _), Failed code => code = -4
  | Some (Error code _ _), Failed code' => code = code'
  | _, _ => False
  end.

Lemma end_found pre s rest ps text open tar q :
  Forall2 (fixed pre) ps tar -> current pre s text open q ->
  agree (Some (EndFound ((pre ++ [0]) ++ rest) (tar ++ [q]) false)) (Params (ps ++ [text])).
Proof.
  intros Hps Hc. split; [done|]. apply Forall2_app.
  - apply Forall2_flip. eapply Forall2_impl; [done|]. intros. by apply fixed_text, fixed_more.
  - repeat constructor. by eapply fixed_text, current_fixed.
Qed.

(** One more character of the parameter. *)
Lemma current_step pre c s text open q :
  c <> 0 -> current pre (c :: s) text open q -> (q = None -> c = 35 \/ c = 44 -> False) ->
  current (pre ++ [c]) s (if open then text ++ [c] else text) open q.
Proof.
  intros Hc [Hn H] Hq. destruct q as [o|]; [|destruct H as (_ & _ & H); by destruct Hq]. destruct H as (a & tail & Ha & -> & Ht). split.
  - destruct open; [by apply Forall_app; split; [|constructor]|done].
  - destruct open; [subst; exists a, []|destruct Ht as [tl ->]; exists a, (0 :: tl ++ [c])]; rewrite <- !app_assoc; (split; [done|]); (split; [done|eauto]).
Qed.

(** A quote restarts the parameter, or ends it. *)
Lemma inv_open pre s ps tar cur :
  scan_inv pre (34 :: s) ps tar cur false ->
  let tar' := if (if cur then true else false) && (0 <? zlen tar) then set_last tar (Some (zlen pre + 1)) else tar in
  scan_inv (pre ++ [34]) s ps tar' (option_map (fun _ => ([], true)) cur) true.
Proof.
  destruct cur as [[text open]|]; [|done]. intros (tar' & q & -> & Hf & Hc & _). cbn [option_map scan_inv].
  rewrite zlen_app, (proj2 (Z.ltb_lt _ _)), set_last_app by (unfold zlen; cbn; lia). exists tar', (Some (zlen pre + 1)).
  split; [done|]. split; [by apply fixed_all_more|]. split; [|done]. split; [done|].
  exists (pre ++ [34]), []. rewrite zlen_app. by rewrite app_nil_r.
Qed.

Lemma inv_close pre s ps tar cur :
  scan_inv pre (34 :: s) ps tar cur true ->
  scan_inv (pre ++ [0]) s ps tar (option_map (fun t => (fst t, false)) cur) false.
Proof.
  destruct cur as [[text open]|]; [|done]. intros (tar' & q & -> & Hf & Hc & Hq). cbn [option_map scan_inv fst].
  exists tar', q. split; [done|]. split; [by apply fixed_all_more|]. split; [|done].
  destruct q as [o|]; [|by destruct Hq]. pose proof Hc as [Hn _]. apply current_fixed in Hc as (_ & a & tail & Ha & E).
  split; [done|]. exists a, (0 :: tail). rewrite E. eauto.
Qed.

(** A separator starts the next parameter. *)
Lemma inv_split pre s ps tar text open q rest :
  no_nul s -> Forall2 (fixed pre) ps tar -> current pre (44 :: s) text open q ->
  exists d, arr_get ((pre ++ [0]) ++ s ++ 0 :: rest) (zlen pre + 1) = Some d /\
    scan_inv (pre ++ [0]) s (ps ++ [text]) ((tar ++ [q]) ++ [if strchr [35] d || (d =? 44) then None else Some (zlen pre + 1)])
      (Some ([], true)) false.
Proof.
  intros Hs Hf Hc. assert (Hp : zlen pre + 1 = zlen (pre ++ [0])) by (by rewrite zlen_app).
  exists (match s with [] => 0 | d :: _ => d end). split.
  { rewrite Hp. destruct s; by apply arr_get_app. }
  eexists _, _. split; [done|]. split.
  { apply Forall2_app; [by apply fixed_all_more|]. repeat constructor; by eapply current_fixed. }
  split; [|done]. split; [done|]. destruct s as [|d s]; [done|]. apply Forall_cons in Hs as [Hd _]. cbn [strchr existsb].
  unfold strchr. cbn [existsb]. rewrite (proj2 (Z.eqb_neq _ _) Hd). cbn [orb].
  destruct (Z.eqb_spec d 35); [by cbn; tauto|]. destruct (Z.eqb_spec d 44); [by cbn; tauto|]. cbn [orb].
  exists (pre ++ [0]), []. rewrite <- Hp, app_nil_r. done.
Qed.

(** A character of a parameter, when the rest of the line is known to agree. *)
Lemma char_agree pre c s rest ps tar q text open in_quote :
  (forall pre' ps' tar' cur' in_quote', scan_inv pre' s ps' tar' cur' in_quote' ->
     agree (analyse_loop PARM_MAX 0 [35] 44 (length s) (zlen pre') (pre' ++ s ++ 0 :: rest) tar' (if cur' then true else false) in_quote')
           (scan (Z.to_nat PARM_MAX) s ps' cur' in_quote')) ->
  c <> 0 -> no_nul s -> Forall2 (fixed pre) ps tar -> current pre (c :: s) text open q -> (in_quote = true -> q <> None) ->
  agree
    (if negb in_quote && strchr [35] c then Some (EndFound ((pre ++ [0]) ++ s ++ 0 :: rest) (tar ++ [q]) in_quote)
     else if negb in_quote && (c =? 44) then
       if PARM_MAX <=? zlen (tar ++ [q]) then Some (Error (-3) ((pre ++ [0]) ++ s ++ 0 :: rest) (tar ++ [q])) else
       d ← arr_get ((pre ++ [0]) ++ s ++ 0 :: rest) (zlen pre + 1);
       analyse_loop PARM_MAX 0 [35] 44 (length s) (zlen pre + 1) ((pre ++ [0]) ++ s ++ 0 :: rest)
         ((tar ++ [q]) ++ [if strchr [35] d || (d =? 44) then None else Some (zlen pre + 1)]) true in_quote
     else analyse_loop PARM_MAX 0 [35] 44 (length s) (zlen pre + 1) ((pre ++ [c]) ++ s ++ 0 :: rest) (tar ++ [q]) true in_quote)
    (if negb in_quote && (c =? 35) then Params (ps ++ [text])
     else if negb in_quote && (c =? 44) then
       if (Z.to_nat PARM_MAX <=? length ps + 1)%nat then Failed (-3)
       else scan (Z.to_nat PARM_MAX) s (ps ++ [text]) (Some ([], true)) in_quote
     else scan (Z.to_nat PARM_MAX) s ps (Some (if open then text ++ [c] else text, open)) in_quote).
Proof.
  intros IH Hc Hs Hf Hcur Hq. assert (Hp : forall x, zlen pre + 1 = zlen (pre ++ [x])) by (intros; by rewrite zlen_app).
  unfold strchr at 1. cbn [existsb]. rewrite (proj2 (Z.eqb_neq _ _) Hc), orb_false_r. cbn [orb].
  assert (Hstep : (q = None -> c = 35 \/ c = 44 -> False) ->
    agree (analyse_loop PARM_MAX 0 [35] 44 (length s) (zlen pre + 1) ((pre ++ [c]) ++ s ++ 0 :: rest) (tar ++ [q]) true in_quote)
      (scan (Z.to_nat PARM_MAX) s ps (Some (if open then text ++ [c] else text, open)) in_quote)).
  { intros H. rewrite (Hp c). apply (IH (pre ++ [c]) ps _ (Some _)). exists tar, q. split; [done|]. split; [by apply fixed_all_more|].
    split; [by apply current_step|done]. }
  destruct in_quote; cbn [negb andb]; [apply Hstep; intros ->; by destruct Hq|].
  destruct (Z.eqb_spec c 35) as [->|H35]; [by eapply end_found|].
  destruct (Z.eqb_spec c 44) as [->|H44]; [|apply Hstep; intros _ [?|?]; done].
  pose proof (Forall2_length _ _ _ Hf) as Hl. rewrite zlen_app. change (zlen [q]) with 1.
  destruct (Nat.leb_spec (Z.to_nat PARM_MAX) (length ps + 1)); [rewrite (proj2 (Z.leb_le _ _)) by (unfold zlen, PARM_MAX in *; lia); done|].
  rewrite (proj2 (Z.leb_gt _ _)) by (unfold zlen, PARM_MAX in *; lia).
  destruct (inv_split pre s ps tar text open q rest Hs Hf Hcur) as (d & -> & Hi). cbn [mbind option_bind]. rewrite (Hp 0) in *. by apply (IH (pre ++ [0]) _ _ (Some _)).
Qed.

(** The routine started in the middle of a line. *)
Lemma analyse_loop_scan s : forall pre rest ps tar cur in_quote,
  no_nul s -> scan_inv pre s ps tar cur in_quote ->
  agree (analyse_loop PARM_MAX 0 [35] 44 (length s) (zlen pre) (pre ++ s ++ 0 :: rest) tar (if cur then true else false) in_quote)
        (scan (Z.to_nat PARM_MAX) s ps cur in_quote).
Proof.
  induction s as [|c s IH]; intros pre rest ps tar cur in_quote Hs Hi; [done|].
  apply Forall_cons in Hs as [Hc Hs]. cbn [length app analyse_loop scan].
  assert (Hp : forall x, zlen pre + 1 = zlen (pre ++ [x])) by (intros; by rewrite zlen_app).
  assert (Hb : forall x, pre ++ x :: s ++ 0 :: rest = (pre ++ [x]) ++ s ++ 0 :: rest) by (intros; by rewrite <- app_assoc).
  rewrite (arr_get_app pre (s ++ 0 :: rest) c _ eq_refl). cbn [mbind option_bind]. rewrite (buf_set pre c).
  destruct (Z.eqb_spec c 34) as [->|Hq].
  { destruct in_quote; cbn [mbind option_bind].
    - apply inv_close in Hi. rewrite (Hp 0). apply (IH (pre ++ [0]) rest) in Hi; [|done]. by destruct cur.
    - apply inv_open in Hi. rewrite Hb. apply (IH (pre ++ [34]) rest) in Hi; [|done]. rewrite <- Hp in Hi. by destruct cur. }
  rewrite Hb. cbn [mbind option_bind]. change (0 =? 0) with true. rewrite orb_true_r.
  destruct cur as [[text open]|]; cbn [negb andb orb default].
  - destruct Hi as (tar' & q & -> & Hf & Hcur & Hqn). apply char_agree; try done. intros. by apply IH.
  - destruct Hi as [-> ->]. change (PARM_MAX <=? zlen []) with false. cbn [mbind option_bind].
    apply (char_agree pre c s rest [] [] (Some (zlen pre)) [] true in_quote); try done; [intros; by apply IH|].
    split; [done|]. exists pre, []. by rewrite app_nil_r.
Qed.

(** The whole line. *)
Lemma analyse_params s rest :
  no_nul s ->
  exists buf tar code, at_cmd_str_analyse PARM_MAX 0 [35] 44 (Some (s ++ 0 :: rest)) = Some (code, buf, tar) /\
    match params s with
    | Params ps => code = zlen ps /\ Forall2 (fun p t => text_at buf p = Some t) tar (ps ++ replicate (Z.to_nat PARM_MAX - length ps) [])
    | Failed e => code = e
    end.
Proof.
  intros Hs. unfold at_cmd_str_analyse. rewrite c_string_app by done. cbn [mbind option_bind].
  pose proof (analyse_loop_scan s [] rest [] [] None false Hs ltac:(done)) as H. cbn [app] in H. change (zlen (@nil Z)) with 0 in H.
  unfold params. destruct (analyse_loop _ _ _ _ _ _ _ _ _ _) as [[b t q|b t|e b t]|]; destruct (scan _ _ _ _ _) as [ps|e']; try done; cbn [mbind option_bind].
  - destruct H as [-> H]. eexists _, _, _. split; [done|]. pose proof (Forall2_length _ _ _ H) as Hl. split; [unfold zlen; by rewrite Hl|].
    apply Forall2_app; [done|]. rewrite Hl. apply Forall2_replicate. done.
  - cbn in H. subst. by eexists _, _, _.
  - cbn in H. subst. by eexists _, _, _.
Qed.

(** C26: splitting the received text in place gives the parameters that a scan of its characters gives: as many pointers, each to the text of its parameter, the rest of the twenty to the empty string; and the same error code when the scan fails.  No access leaves the buffer. *)
Theorem analyse_agrees s rest :
  no_nul s ->
  exists buf tar code, at_cmd_str_analyse PARM_MAX 0 [35] 44 (Some (s ++ 0 :: rest)) = Some (code, buf, tar) /\
    match params s with
    | Params ps => code = zlen ps /\ Forall2 (fun p t => text_at buf p = Some t) tar (ps ++ replicate (Z.to_nat PARM_MAX - length ps) [])
    | Failed e => code = e
    end.
Proof. apply analyse_params. Qed.

Lemma analyse_agrees_witness : exists buf tar, at_cmd_str_analyse PARM_MAX 0 [35] 44 (Some ((cstr "APN," ++ 34 :: cstr "cm,net" ++ [34; 35]) ++ 0 :: [7])) = Some (2, buf, tar).
Proof.
  destruct (analyse_agrees (cstr "APN," ++ 34 :: cstr "cm,net" ++ [34; 35]) [7]) as (buf & tar & code & E & H); [by repeat constructor|].
  destruct (params _) as [ps|] eqn:Ep in H; [|done]. vm_compute in Ep. injection Ep as <-. destruct H as [-> _]. by exists buf, tar.
Defined.

(** ** Sizes *)

(** The length of parameters written one after the other, each with a separator. *)
Definition line_len (ps : list (list Z)) : Z := Z.of_nat (sum_list_with (fun p => length p + 1)%nat ps).

Lemma line_len_snoc ps p : line_len (ps ++ [p]) = line_len ps + zlen p + 1.
Proof. unfold line_len, zlen. rewrite sum_list_with_app. cbn. lia. Qed.

Lemma scan_size limit s : forall ps cur in_quote ps', scan limit s ps cur in_quote = Params ps' ->
  line_len ps' <= line_len ps + zlen (fst (default ([], true) cur)) + zlen s /\
  ((length ps < limit)%nat -> (length ps' <= limit)%nat) /\ ps' <> [].
Proof.
  induction s as [|c s IH]; intros ps cur in_quote ps'; cbn [scan]; [done|]. rewrite zlen_cons.
  destruct (c =? 34).
  - destruct in_quote; intros H; apply IH in H; destruct cur as [[text open]|]; cbn in *; unfold zlen in *; cbn in *; intuition lia.
  - destruct (default ([], true) cur) as [text open]. cbn [fst]. destruct (negb in_quote && (c =? 35)).
    { intros [= <-]. rewrite line_len_snoc, length_app. cbn [length]. unfold zlen. split; [lia|]. split; [lia|]. by destruct ps. }
    destruct (negb in_quote && (c =? 44)).
    + destruct (Nat.leb_spec limit (length ps + 1)); [done|]. intros H1. apply IH in H1. rewrite line_len_snoc, length_app in H1. cbn [default from_option id fst length] in H1.
      change (zlen (@nil Z)) with 0 in H1. intuition lia.
    + intros H. apply IH in H. cbn [default from_option id fst] in H. destruct open; rewrite ?zlen_app in H; change (zlen [c]) with 1 in H; intuition lia.
Qed.

(** The parameters, written out again with separators, are no longer than the line. *)
Lemma params_size s ps : params s = Params ps -> line_len ps <= zlen s /\ 0 < zlen ps <= PARM_MAX.
Proof.
  intros H. apply scan_size in H as (H1 & H2 & H3). cbn [default from_option id fst] in H1. change (line_len []) with 0 in H1. change (zlen (@nil Z)) with 0 in H1. split; [lia|].
  specialize (H2 ltac:(unfold PARM_MAX; cbn; lia)). unfold zlen, PARM_MAX in *. destruct ps; [done|]. cbn [length] in *. lia.
Qed.

(** ** Writing a line *)

Definition render (p : bool * list Z) : list Z := if fst p then 34 :: snd p ++ [34] else snd p.

(** A parameter without quotes may not contain quotes, [#] or commas; between
    quotes only a quote is excluded. *)
Definition param_ok (p : bool * list Z) : bool := forallb (fun c => negb (c =? 34) && (fst p || negb ((c =? 35) || (c =? 44)))) (snd p).

Fixpoint line (ps : list (bool * list Z)) : list Z :=
  match ps with
  | [] => []
  | [p] => render p ++ [35]
  | p :: ps => render p ++ 44 :: line ps
  end.

Lemma scan_plain limit p s ps text in_quote :
  forallb (fun c => negb (c =? 34) && (in_quote || negb ((c =? 35) || (c =? 44)))) p = true ->
  scan limit (p ++ s) ps (Some (text, true)) in_quote = scan limit s ps (Some (text ++ p, true)) in_quote.
Proof.
  revert text. induction p as [|c p IH]; intros text; cbn [forallb app scan]; [by rewrite app_nil_r|].
  intros H. apply andb_true_iff in H as [Hc Hp]. apply andb_true_iff in Hc as [Hq Hs]. apply negb_true_iff in Hq. rewrite Hq. cbn [default from_option id].
  destruct in_quote; cbn [negb andb orb] in *; [rewrite IH, <- app_assoc by done; done|].
  apply negb_true_iff, orb_false_iff in Hs as [-> ->]. rewrite IH, <- app_assoc by done. done.
Qed.

(** A rendered parameter at the beginning of the line or after a comma. *)
Lemma scan_render limit p c s ps cur :
  param_ok p = true -> c = 35 \/ c = 44 -> cur = None \/ cur = Some ([], true) ->
  scan limit (render p ++ c :: s) ps cur false = scan limit (c :: s) ps (Some (snd p, true)) false.
Proof.
  destruct p as [[] p]; unfold param_ok, render; cbn [fst snd orb negb]; intros Hp Hc Hcur.
  - assert (Hend : forall o, scan limit (c :: s) ps (Some (p, o)) false = scan limit (c :: s) ps (Some (p, true)) false)
      by (intros o; cbn [scan default from_option id]; destruct Hc as [-> | ->]; done).
    cbn [app scan]. change (34 =? 34) with true. cbv iota. rewrite <- app_assoc. cbn [app].
    destruct Hcur as [-> | ->]; cbn [option_map].
    + destruct p as [|x p]; [cbn [app scan]; change (34 =? 34) with true; destruct Hc as [-> | ->]; done|].
      cbn [forallb] in Hp. apply andb_true_iff in Hp as [Hx Hp]. cbn [app scan]. apply andb_true_iff in Hx as [Hx _]. apply negb_true_iff in Hx.
      rewrite Hx. cbn [default from_option id negb andb app]. rewrite scan_plain by done. cbn [app scan]. change (34 =? 34) with true. cbv iota. apply Hend.
    + rewrite scan_plain by done. cbn [app scan]. change (34 =? 34) with true. cbv iota. apply Hend.
  - destruct Hcur as [-> | ->]; [|by rewrite scan_plain].
    destruct p as [|x p]; [destruct Hc as [-> | ->]; done|]. cbn [forallb] in Hp. apply andb_true_iff in Hp as [Hx Hp].
    cbn [app scan]. apply andb_true_iff in Hx as [Hq Hs]. apply negb_true_iff in Hq. apply negb_true_iff, orb_false_iff in Hs as [H1 H2].
    rewrite Hq, H1, H2. cbn [default from_option id negb andb app]. by rewrite scan_plain.
Qed.

Lemma scan_line limit ps : forall acc cur, ps <> [] -> forallb param_ok ps = true -> (length acc + length ps <= limit)%nat ->
  cur = None \/ cur = Some ([], true) -> scan limit (line ps) acc cur false = Params (acc ++ (snd <$> ps)).
Proof.
  induction ps as [|p ps IH]; intros acc cur Hne Hok Hl Hcur; [done|]. cbn [forallb] in Hok. apply andb_true_iff in Hok as [Hp Hok].
  destruct ps as [|p' ps].
  - cbn [line]. rewrite scan_render by auto. done.
  - change (line (p :: p' :: ps)) with (render p ++ 44 :: line (p' :: ps)). rewrite scan_render by auto.
    cbn [scan default from_option id]. change (44 =? 34) with false. change (44 =? 35) with false. change (44 =? 44) with true. cbn [negb andb].
    cbn [length] in Hl. rewrite (proj2 (Nat.leb_gt _ _)) by lia. rewrite IH; [|done..|rewrite length_app; cbn [length]; lia|by right].
    cbn [fmap list_fmap]. by rewrite <- app_assoc.
Qed.

Lemma params_of_line ps :
  ps <> [] -> zlen ps <= PARM_MAX -> forallb param_ok ps = true -> params (line ps) = Params (snd <$> ps).
Proof. intros Hne Hl Hok. unfold params. rewrite scan_line; [done|done|done| |by left]. unfold zlen, PARM_MAX in *. cbn [length]. lia. Qed.

(** Up to twenty parameters, each written plainly or between quotes, separated by commas and ended by [#], are read back as they were; a parameter between quotes may contain commas and [#]. *)
Theorem params_line ps rest :
  ps <> [] -> zlen ps <= PARM_MAX -> forallb param_ok ps = true -> no_nul (line ps) ->
  exists buf tar, at_cmd_str_analyse PARM_MAX 0 [35] 44 (Some (line ps ++ 0 :: rest)) = Some (zlen ps, buf, tar) /\
    Forall2 (fun p t => text_at buf p = Some t) tar ((snd <$> ps) ++ replicate (Z.to_nat PARM_MAX - length ps) []).
Proof.
  intros Hne Hl Hok Hn. destruct (analyse_params (line ps) rest Hn) as (buf & tar & code & E & H). rewrite params_of_line in H by done.
  destruct H as [-> H]. rewrite length_fmap in H. exists buf, tar. split; [|done]. rewrite E. unfold zlen. by rewrite length_fmap.
Qed.

Lemma params_line_witness : exists buf tar,
  at_cmd_str_analyse PARM_MAX 0 [35] 44 (Some (line [(false, cstr "APN"); (true, cstr "cm,net#")] ++ 0 :: [])) = Some (2, buf, tar) /\
  Forall2 (fun p t => text_at buf p = Some t) tar (cstr "APN" :: cstr "cm,net#" :: replicate 18 []).
Proof. by apply (params_line [(false, cstr "APN"); (true, cstr "cm,net#")] []); [..|apply (bool_decide_unpack _)]. Defined.
