(* ===== verification/Layout.v ===== *)
(** * Structures in memory

    A setting is stored as the bytes of a C structure: little-endian members
    at their natural alignment, with padding between them.  A structure is
    described by the list of its members; each record type of the settings has
    such a description, and reading back the bytes of a record gives the record. *)

From S2P Require Import Prelude.

(** A member of [w] bytes, or padding. *)
Inductive item := Int (w : nat) (signed : bool) | Pad (n : nat).

Notation u8t := (Int 1 false).
Notation i8t := (Int 1 true).
Notation u16t := (Int 2 false).
Notation u32t := (Int 4 false).
Notation i32t := (Int 4 true).

Definition item_size (i : item) : nat := match i with Int w _ => w | Pad n => n end.
Definition sizeof (l : list item) : Z := Z.of_nat (sum_list (item_size <$> l)).

(** ** Bytes of a value *)

Fixpoint le_bytes (w : nat) (v : Z) : list Z :=
  match w with
  | O => []
  | S w => v mod 256 :: le_bytes w (v / 256)
  end.

Fixpoint le_value (bs : list Z) : Z :=
  match bs with
  | [] => 0
  | b :: bs => b + 256 * le_value bs
  end.

Definition int_value (w : nat) (signed : bool) (bs : list Z) : Z :=
  let v := le_value bs in
  if signed && (2 ^ (8 * Z.of_nat w - 1) <=? v) then v - 2 ^ (8 * Z.of_nat w) else v.

Definition in_type (w : nat) (signed : bool) (v : Z) : bool :=
  if signed then (- 2 ^ (8 * Z.of_nat w - 1) <=? v) && (v <? 2 ^ (8 * Z.of_nat w - 1))
  else (0 <=? v) && (v <? 2 ^ (8 * Z.of_nat w)).

(** ** Bytes of a structure *)

Fixpoint encode (l : list item) (vs : list Z) : list Z :=
  match l with
  | [] => []
  | Int w _ :: l => le_bytes w (nth 0 vs 0) ++ encode l (drop 1 vs)
  | Pad n :: l => replicate n 0 ++ encode l vs
  end.

Fixpoint decode (l : list item) (bs : list Z) : list Z :=
  match l with
  | [] => []
  | Int w s :: l => int_value w s (take w bs) :: decode l (drop w bs)
  | Pad n :: l => decode l (drop n bs)
  end.

(** The values have the number and the types of the members. *)
Fixpoint fits (l : list item) (vs : list Z) : bool :=
  match l, vs with
  | [], [] => true
  | Int w s :: l, v :: vs => in_type w s v && fits l vs
  | Pad _ :: l, vs => fits l vs
  | _, _ => false
  end.

Lemma length_le_bytes w v : length (le_bytes w v) = w.
Proof. revert v. induction w as [|w IH]; intros v; cbn; [done|by rewrite IH]. Qed.

Lemma le_value_bytes w v : le_value (le_bytes w v) = v mod 2 ^ (8 * Z.of_nat w).
Proof.
  revert v. induction w as [|w IH]; intros v; cbn [le_bytes le_value]; [cbn; by rewrite Z.mod_1_r|].
  rewrite IH. replace (8 * Z.of_nat (S w)) with (8 + 8 * Z.of_nat w) by lia. rewrite Z.pow_add_r by lia.
  change (2 ^ 8) with 256. rewrite Z.rem_mul_r; [done|done|]. apply Z.pow_pos_nonneg; lia.
Qed.

Lemma int_value_bytes w s v : (0 < w)%nat -> in_type w s v = true -> int_value w s (le_bytes w v) = v.
Proof.
  intros Hw Hv. unfold int_value. rewrite le_value_bytes. unfold in_type in Hv.
  assert (H2 : 2 ^ (8 * Z.of_nat w) = 2 * 2 ^ (8 * Z.of_nat w - 1)) by (rewrite <- Z.pow_succ_r by lia; f_equal; lia).
  assert (Hp : 0 < 2 ^ (8 * Z.of_nat w - 1)) by (apply Z.pow_pos_nonneg; lia).
  destruct s; bool2prop; cbn [andb].
  - destruct (Z.leb_spec 0 v).
    + rewrite Z.mod_small by lia. rewrite (proj2 (Z.leb_gt _ _)) by lia. done.
    + assert (E : v mod 2 ^ (8 * Z.of_nat w) = v + 2 ^ (8 * Z.of_nat w)).
      { symmetry. apply (Z.mod_unique_pos _ _ (-1)); lia. }
      rewrite E, (proj2 (Z.leb_le _ _)) by lia. lia.
  - apply Z.mod_small. lia.
Qed.

Definition ints_ok (l : list item) : bool := forallb (fun i => match i with Int O _ => false | _ => true end) l.

Lemma decode_encode l vs : ints_ok l = true -> fits l vs = true -> decode l (encode l vs) = vs.
Proof.
  revert vs. induction l as [|i l IH]; intros vs Hl Hf; [by destruct vs|]. unfold ints_ok in Hl. cbn [forallb] in Hl.
  destruct i as [w s|n]; cbn [fits encode decode] in *.
  - destruct vs as [|v vs]; [done|]. destruct w as [|w]; [done|]. bool2prop. cbn [nth drop].
    rewrite take_app_length', drop_app_length' by (by rewrite length_le_bytes). rewrite int_value_bytes by (done || lia). f_equal.
    by apply IH.
  - rewrite drop_app_length' by (by rewrite length_replicate). by apply IH.
Qed.

Lemma zlen_encode l vs : zlen (encode l vs) = sizeof l.
Proof.
  unfold zlen, sizeof. f_equal. revert vs. induction l as [|i l IH]; intros vs; [done|].
  destruct i as [w s|n]; cbn; rewrite length_app, IH, ?length_le_bytes, ?length_replicate; done.
Qed.

(** Values read from bytes have the types of the members. *)
Definition members (l : list item) : nat := sum_list ((fun i => match i with Int _ _ => 1%nat | Pad _ => 0%nat end) <$> l).

Lemma length_decode l bs : length (decode l bs) = members l.
Proof. revert bs. induction l as [|[w s|n] l IH]; intros bs; cbn; [done|by rewrite IH|by rewrite IH]. Qed.

Lemma le_value_bound bs : Forall (fun b => 0 <= b < 256) bs -> 0 <= le_value bs < 2 ^ (8 * zlen bs).
Proof.
  induction 1 as [|b bs Hb _ IH]; cbn [le_value]; [fw|]. rewrite zlen_cons.
  replace (8 * (1 + zlen bs)) with (8 + 8 * zlen bs) by lia. rewrite Z.pow_add_r by (unfold zlen; lia). change (2 ^ 8) with 256. lia.
Qed.

Lemma int_value_type w s bs : (0 < w)%nat -> Forall (fun b => 0 <= b < 256) bs -> (length bs <= w)%nat -> in_type w s (int_value w s bs) = true.
Proof.
  intros Hw Hb Hl. pose proof (le_value_bound bs Hb) as Hv.
  assert (Hp : 2 ^ (8 * zlen bs) <= 2 ^ (8 * Z.of_nat w)) by (apply Z.pow_le_mono_r; unfold zlen; lia).
  assert (H2 : 2 ^ (8 * Z.of_nat w) = 2 * 2 ^ (8 * Z.of_nat w - 1)) by (rewrite <- Z.pow_succ_r by lia; f_equal; lia).
  unfold in_type, int_value. destruct s; cbn [andb]; [|apply andb_true_iff; rewrite Z.leb_le, Z.ltb_lt; lia].
  destruct (Z.leb_spec (2 ^ (8 * Z.of_nat w - 1)) (le_value bs)); apply andb_true_iff; rewrite Z.leb_le, Z.ltb_lt; lia.
Qed.

Lemma fits_decode l bs : ints_ok l = true -> Forall (fun b => 0 <= b < 256) bs -> fits l (decode l bs) = true.
Proof.
  revert bs. induction l as [|[w s|n] l IH]; intros bs Hi Hb; [done|..]; unfold ints_ok in Hi; cbn [forallb] in Hi; cbn [decode fits].
  - destruct w as [|w]; [done|]. rewrite int_value_type, IH; [done|by bool2prop|by apply Forall_drop|lia|by apply Forall_take|].
    rewrite length_take. lia.
  - apply IH; [by bool2prop|by apply Forall_drop].
Qed.

(** ** Records that are stored *)

Class Stored (A : Type) := {
  items : list item;
  to_vals : A -> list Z;
  of_vals : list Z -> A;
  wf : A -> Prop;
  items_ints : ints_ok items = true;
  of_to_vals a : wf a -> of_vals (to_vals a) = a;
  to_of_vals v : length v = members items -> to_vals (of_vals v) = v;
  wf_of_vals v : length v = members items -> wf (of_vals v)
}.

(** The members of [a] have the values their C types allow. *)
Definition typed {A} `{Stored A} (a : A) : Prop := wf a /\ fits items (to_vals a) = true.

Definition bytes_of {A} `{Stored A} (a : A) : list Z := encode items (to_vals a).
Definition of_bytes {A} `{Stored A} (bs : list Z) : A := of_vals (decode items bs).

(** The first member of each structure marks it as valid. *)
Definition flag {A} `{Stored A} (a : A) : Z := nth 0 (to_vals a) 0.

Lemma of_bytes_of {A} `{Stored A} (a : A) : typed a -> of_bytes (bytes_of a) = a.
Proof. intros [Hw Hf]. unfold of_bytes, bytes_of. rewrite decode_encode by (done || apply items_ints). by apply of_to_vals. Qed.

Lemma typed_of_bytes {A} `{Stored A} bs : Forall (fun b => 0 <= b < 256) bs -> typed (of_bytes bs).
Proof.
  intros Hb. split; [apply wf_of_vals, length_decode|]. unfold of_bytes. rewrite to_of_vals by apply length_decode.
  apply fits_decode; [apply items_ints|done].
Qed.

Lemma zlen_bytes_of {A} `{Stored A} (a : A) : zlen (bytes_of a) = sizeof items.
Proof. apply zlen_encode. Qed.

(** Cut a list into [n] pieces of [k] values. *)
Fixpoint chunks (k n : nat) (l : list Z) : list (list Z) :=
  match n with
  | O => []
  | S n => take k l :: chunks k n (drop k l)
  end.

Lemma chunks_concat k n ls rest : length ls = n -> Forall (fun a => length a = k) ls -> chunks k n (concat ls ++ rest) = ls.
Proof.
  revert ls. induction n as [|n IH]; intros ls Hn Hk; destruct ls as [|a ls]; try done; cbn in Hn.
  apply Forall_cons in Hk as [Ha Hk]. cbn [chunks concat]. rewrite <- app_assoc.
  rewrite take_app_length', drop_app_length' by done. f_equal. apply IH; [lia|done].
Qed.

Lemma length_concat_const k (ls : list (list Z)) : Forall (fun a => length a = k) ls -> length (concat ls) = (k * length ls)%nat.
Proof. induction 1 as [|a ls Ha _ IH]; cbn; [lia|]. rewrite length_app, IH, Ha. lia. Qed.

(** The laws of a concrete record: split its lists into their members and compute. *)
Ltac explode :=
  repeat match goal with
  | H : length ?l = S _ |- _ => destruct l; [discriminate H|cbn [length] in H; apply Nat.succ_inj in H]
  | H : length ?l = O |- _ => destruct l; [clear H|discriminate H]
  | H : _ /\ _ |- _ => destruct H
  end.

Ltac stored_laws :=
  cbn [app replicate members fmap list_fmap sum_list sum_list_with foldr Nat.add];
  first [ reflexivity
        | intros []; cbn; intros; explode; reflexivity
        | solve [intros v Hv; cbn in Hv; explode; cbn; repeat split; repeat constructor] ].
