(* ===== verification/SettingsData.v ===== *)
(** * The stored settings

    The structures of [my_zms_param.h], with the layout they have in flash, and
    the default values of [my_zms_param.c].  Every structure begins with a flag
    that marks it as valid. *)

From S2P Require Import Prelude Text Layout.

#[local] Obligation Tactic := try stored_laws.

Definition FLAG_VALID : Z := 0xAA.
Definition DEFAULT_ECDH_G_VALUE : Z := 0x83A5.

(** ** Identifiers *)

Definition ZMS_ID_FF : Z := 0.
Definition ZMS_ID_GG : Z := 1.
Definition ZMS_ID_ADV_VALID : Z := 2.
Definition ZMS_ID_ECDH_G : Z := 3.
Definition ZMS_ID_SN : Z := 4.
Definition ZMS_ID_MAC : Z := 5.
Definition ZMS_ID_BLE_TX_POWER : Z := 6.
Definition ZMS_ID_BLE_LOG_CONFIG : Z := 7.
Definition ZMS_ID_WORK_MODE_CONFIG : Z := 8.
Definition ZMS_ID_REM_ALM_CONFIG : Z := 9.
Definition ZMS_ID_PULL_ALM_CONFIG : Z := 10.
Definition ZMS_ID_PATMALM_CONFIG : Z := 11.
Definition ZMS_ID_TEMPALM_CONFIG : Z := 12.
Definition ZMS_ID_MOT_DET_CONFIG : Z := 13.
Definition ZMS_ID_MOTDETALM_CONFIG : Z := 14.
Definition ZMS_ID_BAT_LEVEL_CONFIG : Z := 15.
Definition ZMS_ID_STARTR_CONFIG : Z := 16.
Definition ZMS_ID_PWRLIMIT_CONFIG : Z := 17.
Definition ZMS_ID_BT_UPDATA_CONFIG : Z := 18.
Definition ZMS_ID_BLUETOOTH_CONFIG : Z := 19.
Definition ZMS_ID_BTCONNECT_CONFIG : Z := 20.
Definition ZMS_ID_TAG_CONFIG : Z := 21.
Definition ZMS_ID_LED_CONFIG : Z := 22.
Definition ZMS_ID_LTINT_CONFIG : Z := 23.
Definition ZMS_ID_BUZZER_CONFIG : Z := 24.
Definition ZMS_ID_BT_PARMAC_CONFIG : Z := 25.
Definition ZMS_ID_LPSLEEP_CONFIG : Z := 26.
Definition ZMS_ID_BLE_TAG_STORE_META : Z := 27.
Definition ZMS_ID_BLE_MAC_STORE_META : Z := 28.
Definition ZMS_ID_PATM_TIMER_CONFIG : Z := 29.
Definition ZMS_ID_TEMP_TIMER_CONFIG : Z := 30.
Definition ZMS_ID_IMU_ALM_CONFIG : Z := 31.
Definition ZMS_ID_IMU_ZERO_BIAS_CONFIG : Z := 32.
Definition ZMS_ID_BLE_TH_STORE_META : Z := 33.
Definition ZMS_ID_BLE_BP_STORE_META : Z := 34.
Definition ZMS_ID_SHUTDOWN_CONFIG : Z := 35.

(** ** Structures *)

Record lic_ff_t := mk_ff { ff_flag : Z; ff_hex : list Z }.
#[export] Program Instance ff_stored : Stored lic_ff_t := {|
  items := [u8t] ++ replicate 29 u8t;
  to_vals r := [ff_flag r] ++ ff_hex r;
  of_vals v := mk_ff (nth 0 v 0) (take 29 (drop 1 v));
  wf r := length (ff_hex r) = 29%nat
|}.

Record lic_gg_t := mk_gg { gg_flag : Z; gg_hex : list Z }.
#[export] Program Instance gg_stored : Stored lic_gg_t := {|
  items := [u8t] ++ replicate 24 u8t;
  to_vals r := [gg_flag r] ++ gg_hex r;
  of_vals v := mk_gg (nth 0 v 0) (take 24 (drop 1 v));
  wf r := length (gg_hex r) = 24%nat
|}.

Record adv_valid_value_t := mk_adv_valid { adv_valid_flag : Z; AppleValid : Z; GoogleValid : Z }.
#[export] Program Instance adv_valid_stored : Stored adv_valid_value_t := {|
  items := [u8t; u8t; u8t];
  to_vals r := [adv_valid_flag r; AppleValid r; GoogleValid r];
  of_vals v := mk_adv_valid (nth 0 v 0) (nth 1 v 0) (nth 2 v 0);
  wf r := True
|}.

Record ecdh_g_t := mk_ecdh { ecdh_flag : Z; ecdh_g : Z }.
#[export] Program Instance ecdh_stored : Stored ecdh_g_t := {|
  items := [u8t; Pad 1; u16t];
  to_vals r := [ecdh_flag r; ecdh_g r];
  of_vals v := mk_ecdh (nth 0 v 0) (nth 1 v 0);
  wf r := True
|}.

Record gsm_sn_t := mk_sn { sn_flag : Z; sn_hex : list Z }.
#[export] Program Instance sn_stored : Stored gsm_sn_t := {|
  items := [u8t] ++ replicate 12 u8t;
  to_vals r := [sn_flag r] ++ sn_hex r;
  of_vals v := mk_sn (nth 0 v 0) (take 12 (drop 1 v));
  wf r := length (sn_hex r) = 12%nat
|}.

Record macaddr_t := mk_mac { mac_flag : Z; mac_hex : list Z }.
#[export] Program Instance mac_stored : Stored macaddr_t := {|
  items := [u8t] ++ replicate 6 u8t;
  to_vals r := [mac_flag r] ++ mac_hex r;
  of_vals v := mk_mac (nth 0 v 0) (take 6 (drop 1 v));
  wf r := length (mac_hex r) = 6%nat
|}.

Record ble_tx_power_t := mk_tx_power { tx_power_flag : Z; tx_power : Z }.
#[export] Program Instance tx_power_stored : Stored ble_tx_power_t := {|
  items := [u8t; i8t];
  to_vals r := [tx_power_flag r; tx_power r];
  of_vals v := mk_tx_power (nth 0 v 0) (nth 1 v 0);
  wf r := True
|}.

Record ble_log_config_t := mk_log { log_flag : Z; global_en : Z; log_reserved : list Z; mod_en : Z; mod_level : list Z }.
#[export] Program Instance log_stored : Stored ble_log_config_t := {|
  items := [u8t; u8t] ++ replicate 2 u8t ++ [u32t] ++ replicate 15 u8t ++ [Pad 1];
  to_vals r := [log_flag r; global_en r] ++ log_reserved r ++ [mod_en r] ++ mod_level r;
  of_vals v := mk_log (nth 0 v 0) (nth 1 v 0) (take 2 (drop 2 v)) (nth 4 v 0) (take 15 (drop 5 v));
  wf r := length (log_reserved r) = 2%nat /\ length (mod_level r) = 15%nat
|}.

Record work_mode_config_t := mk_workmode { workmode_flag : Z; current_mode : Z; reporting_interval_sec : Z;
  reporting_interval_dis : Z; reporting_interval_min : Z; start_time : list Z; gnss_sw : Z; sub_mode : Z; static_interval
  : list Z; moving_interval : list Z }.
#[export] Program Instance workmode_stored : Stored work_mode_config_t := {|
  items := [u8t; Pad 3; u32t; u32t; u32t; u32t] ++ replicate 5 u8t ++ [u8t; Pad 2; u8t; Pad 3] ++ replicate 6 u32t ++
    replicate 6 u32t;
  to_vals r := [workmode_flag r; current_mode r; reporting_interval_sec r; reporting_interval_dis r;
    reporting_interval_min r] ++ start_time r ++ [gnss_sw r; sub_mode r] ++ static_interval r ++ moving_interval r;
  of_vals v := mk_workmode (nth 0 v 0) (nth 1 v 0) (nth 2 v 0) (nth 3 v 0) (nth 4 v 0) (take 5 (drop 5 v)) (nth 10 v 0)
    (nth 11 v 0) (take 6 (drop 12 v)) (take 6 (drop 18 v));
  wf r := length (start_time r) = 5%nat /\ length (static_interval r) = 6%nat /\ length (moving_interval r) = 6%nat
|}.

Record remalm_config_t := mk_remalm { remalm_flag : Z; remalm_sw : Z; remalm_mode : Z }.
#[export] Program Instance remalm_stored : Stored remalm_config_t := {|
  items := [u8t; u8t; u8t];
  to_vals r := [remalm_flag r; remalm_sw r; remalm_mode r];
  of_vals v := mk_remalm (nth 0 v 0) (nth 1 v 0) (nth 2 v 0);
  wf r := True
|}.

Record pullalm_config_t := mk_pullalm { pullalm_flag : Z; pullalm_sw : Z; pullalm_mode : Z }.
#[export] Program Instance pullalm_stored : Stored pullalm_config_t := {|
  items := [u8t; u8t; u8t];
  to_vals r := [pullalm_flag r; pullalm_sw r; pullalm_mode r];
  of_vals v := mk_pullalm (nth 0 v 0) (nth 1 v 0) (nth 2 v 0);
  wf r := True
|}.

Record patalm_config_t := mk_patalm { patalm_flag : Z; patalm_sw : Z; patalm_low_threshold : Z; patalm_high_threshold : Z;
  patalm_report_type : Z; patalm_report_interval : Z }.
#[export] Program Instance patalm_stored : Stored patalm_config_t := {|
  items := [u8t; u8t; u8t; u8t; u8t; u8t];
  to_vals r := [patalm_flag r; patalm_sw r; patalm_low_threshold r; patalm_high_threshold r; patalm_report_type r;
    patalm_report_interval r];
  of_vals v := mk_patalm (nth 0 v 0) (nth 1 v 0) (nth 2 v 0) (nth 3 v 0) (nth 4 v 0) (nth 5 v 0);
  wf r := True
|}.

Record tempalm_config_t := mk_tempalm { tempalm_flag : Z; tempalm_sw : Z; temp_low_threshold : Z; temp_high_threshold : Z;
  humi_low_threshold : Z; humi_high_threshold : Z; tempalm_report_type : Z; tempalm_report_interval : Z }.
#[export] Program Instance tempalm_stored : Stored tempalm_config_t := {|
  items := [u8t; u8t; Pad 2; i32t; i32t; u8t; u8t; u8t; u8t];
  to_vals r := [tempalm_flag r; tempalm_sw r; temp_low_threshold r; temp_high_threshold r; humi_low_threshold r;
    humi_high_threshold r; tempalm_report_type r; tempalm_report_interval r];
  of_vals v := mk_tempalm (nth 0 v 0) (nth 1 v 0) (nth 2 v 0) (nth 3 v 0) (nth 4 v 0) (nth 5 v 0) (nth 6 v 0) (nth 7 v 0);
  wf r := True
|}.

Record mot_det_config_t := mk_motdet { motdet_flag : Z; motdet_vibration : Z; motdet_duration : Z }.
#[export] Program Instance motdet_stored : Stored mot_det_config_t := {|
  items := [u8t; Pad 1; u16t; u16t];
  to_vals r := [motdet_flag r; motdet_vibration r; motdet_duration r];
  of_vals v := mk_motdet (nth 0 v 0) (nth 1 v 0) (nth 2 v 0);
  wf r := True
|}.

Record motdetalm_config_t := mk_motdetalm { motdetalm_flag : Z; motdetalm_sw : Z; motdetalm_report_type : Z }.
#[export] Program Instance motdetalm_stored : Stored motdetalm_config_t := {|
  items := [u8t; u8t; u8t];
  to_vals r := [motdetalm_flag r; motdetalm_sw r; motdetalm_report_type r];
  of_vals v := mk_motdetalm (nth 0 v 0) (nth 1 v 0) (nth 2 v 0);
  wf r := True
|}.

Record bat_level_config_t := mk_batlevel { batlevel_flag : Z; batlevel_empty_rpt : Z; batlevel_low_rpt : Z;
  batlevel_normal_rpt : Z; batlevel_fair_rpt : Z; batlevel_high_rpt : Z; batlevel_full_rpt : Z; chargesta_report : Z }.
#[export] Program Instance batlevel_stored : Stored bat_level_config_t := {|
  items := [u8t; u8t; u8t; u8t; u8t; u8t; u8t; u8t];
  to_vals r := [batlevel_flag r; batlevel_empty_rpt r; batlevel_low_rpt r; batlevel_normal_rpt r; batlevel_fair_rpt r;
    batlevel_high_rpt r; batlevel_full_rpt r; chargesta_report r];
  of_vals v := mk_batlevel (nth 0 v 0) (nth 1 v 0) (nth 2 v 0) (nth 3 v 0) (nth 4 v 0) (nth 5 v 0) (nth 6 v 0) (nth 7 v 0);
  wf r := True
|}.

Record startr_config_t := mk_startr { startr_flag : Z; startr_sw : Z }.
#[export] Program Instance startr_stored : Stored startr_config_t := {|
  items := [u8t; u8t];
  to_vals r := [startr_flag r; startr_sw r];
  of_vals v := mk_startr (nth 0 v 0) (nth 1 v 0);
  wf r := True
|}.

Record pwrlimit_config_t := mk_pwrlimit { pwrlimit_flag : Z; pwrlimit_sw : Z }.
#[export] Program Instance pwrlimit_stored : Stored pwrlimit_config_t := {|
  items := [u8t; u8t];
  to_vals r := [pwrlimit_flag r; pwrlimit_sw r];
  of_vals v := mk_pwrlimit (nth 0 v 0) (nth 1 v 0);
  wf r := True
|}.

Record lprunning_config_t := mk_lprunning { lprunning_flag : Z; lprunning_sw : Z; lprunning_threshold : Z;
  lprunning_interval : Z }.
#[export] Program Instance lprunning_stored : Stored lprunning_config_t := {|
  items := [u8t; u8t; u8t; u8t];
  to_vals r := [lprunning_flag r; lprunning_sw r; lprunning_threshold r; lprunning_interval r];
  of_vals v := mk_lprunning (nth 0 v 0) (nth 1 v 0) (nth 2 v 0) (nth 3 v 0);
  wf r := True
|}.

Record bt_updata_config_t := mk_bt_updata { bt_updata_flag : Z; bt_updata_mode : Z; bt_updata_scan_interval : Z;
  bt_updata_scan_length : Z; bt_updata_updata_interval : Z }.
#[export] Program Instance bt_updata_stored : Stored bt_updata_config_t := {|
  items := [u8t; u8t; Pad 2; u32t; u32t; u32t];
  to_vals r := [bt_updata_flag r; bt_updata_mode r; bt_updata_scan_interval r; bt_updata_scan_length r;
    bt_updata_updata_interval r];
  of_vals v := mk_bt_updata (nth 0 v 0) (nth 1 v 0) (nth 2 v 0) (nth 3 v 0) (nth 4 v 0);
  wf r := True
|}.

Record bluetooth_config_t := mk_bluetooth_cfg { bluetooth_cfg_flag : Z; bluetooth_sw : Z; bluetooth_a : Z; bluetooth_b :
  Z; bluetooth_flag : Z }.
#[export] Program Instance bluetooth_cfg_stored : Stored bluetooth_config_t := {|
  items := [u8t; u8t; u8t; u8t; u8t];
  to_vals r := [bluetooth_cfg_flag r; bluetooth_sw r; bluetooth_a r; bluetooth_b r; bluetooth_flag r];
  of_vals v := mk_bluetooth_cfg (nth 0 v 0) (nth 1 v 0) (nth 2 v 0) (nth 3 v 0) (nth 4 v 0);
  wf r := True
|}.

Record btconnect_config_t := mk_btconnect { btconnect_flag : Z; btconnect_sw : Z; btconnect_interval : Z; btconnect_report
  : Z }.
#[export] Program Instance btconnect_stored : Stored btconnect_config_t := {|
  items := [u8t; u8t; u16t; u8t; Pad 1];
  to_vals r := [btconnect_flag r; btconnect_sw r; btconnect_interval r; btconnect_report r];
  of_vals v := mk_btconnect (nth 0 v 0) (nth 1 v 0) (nth 2 v 0) (nth 3 v 0);
  wf r := True
|}.

Record tag_config_t := mk_tag { tag_flag : Z; tag_sw : Z; tag_interval : Z }.
#[export] Program Instance tag_stored : Stored tag_config_t := {|
  items := [u8t; u8t; u16t];
  to_vals r := [tag_flag r; tag_sw r; tag_interval r];
  of_vals v := mk_tag (nth 0 v 0) (nth 1 v 0) (nth 2 v 0);
  wf r := True
|}.

Record led_config_t := mk_led { led_flag : Z; led_display : Z }.
#[export] Program Instance led_stored : Stored led_config_t := {|
  items := [u8t; u8t];
  to_vals r := [led_flag r; led_display r];
  of_vals v := mk_led (nth 0 v 0) (nth 1 v 0);
  wf r := True
|}.

Record ltint_config_t := mk_ltint { ltint_flag : Z; T1 : Z; T2 : Z }.
#[export] Program Instance ltint_stored : Stored ltint_config_t := {|
  items := [u8t; Pad 1; u16t; u16t];
  to_vals r := [ltint_flag r; T1 r; T2 r];
  of_vals v := mk_ltint (nth 0 v 0) (nth 1 v 0) (nth 2 v 0);
  wf r := True
|}.

Record buzzer_config_t := mk_buzzer { buzzer_flag : Z; buzzer_operator : Z }.
#[export] Program Instance buzzer_stored : Stored buzzer_config_t := {|
  items := [u8t; u8t];
  to_vals r := [buzzer_flag r; buzzer_operator r];
  of_vals v := mk_buzzer (nth 0 v 0) (nth 1 v 0);
  wf r := True
|}.

Record bparmac_config_t := mk_bparmac { bparmac_flag : Z; bt_parmac_macs : list (list Z); bt_parmac_mac_count : Z }.
#[export] Program Instance bparmac_stored : Stored bparmac_config_t := {|
  items := [u8t] ++ replicate 140 u8t ++ [u8t];
  to_vals r := [bparmac_flag r] ++ concat (bt_parmac_macs r) ++ [bt_parmac_mac_count r];
  of_vals v := mk_bparmac (nth 0 v 0) (chunks 7 20 (drop 1 v)) (nth 141 v 0);
  wf r := length (bt_parmac_macs r) = 20%nat /\ Forall (fun a => length a = 7%nat) (bt_parmac_macs r)
|}.
Next Obligation.
  intros [f macs c] [Hl Hk]. cbn [bparmac_flag bt_parmac_macs bt_parmac_mac_count] in *.
  assert (Hc : length (concat macs) = 140%nat) by (rewrite (length_concat_const 7), Hl by done; done).
  f_equal; [by apply (chunks_concat 7 20)|]. cbn [app]. change (nth 140 (concat macs ++ [c]) 0 = c).
  rewrite app_nth2, Hc by lia. done.
Qed.

Record patm_timer_config_t := mk_patm_timer { patm_timer_flag : Z; patm_interval_min : Z; patm_wakeup_cell_sw : Z }.
#[export] Program Instance patm_timer_stored : Stored patm_timer_config_t := {|
  items := [u8t; Pad 1; u16t; u8t; Pad 1];
  to_vals r := [patm_timer_flag r; patm_interval_min r; patm_wakeup_cell_sw r];
  of_vals v := mk_patm_timer (nth 0 v 0) (nth 1 v 0) (nth 2 v 0);
  wf r := True
|}.

Record temp_timer_config_t := mk_temp_timer { temp_timer_flag : Z; temp_interval_min : Z; temp_wakeup_cell_sw : Z }.
#[export] Program Instance temp_timer_stored : Stored temp_timer_config_t := {|
  items := [u8t; Pad 1; u16t; u8t; Pad 1];
  to_vals r := [temp_timer_flag r; temp_interval_min r; temp_wakeup_cell_sw r];
  of_vals v := mk_temp_timer (nth 0 v 0) (nth 1 v 0) (nth 2 v 0);
  wf r := True
|}.

Record imu_alm_config_t := mk_imu_alm { imu_alm_flag : Z; imu_alm_sw : Z; imu_alm_report : Z; imu_roll_threshold : Z;
  imu_pitch_threshold : Z; imu_yaw_threshold : Z; imu_duration_time : Z; imu_duration_count : Z; recover_time : Z }.
#[export] Program Instance imu_alm_stored : Stored imu_alm_config_t := {|
  items := [u8t; u8t; u8t; u8t; u8t; u8t; u8t; u8t; u8t];
  to_vals r := [imu_alm_flag r; imu_alm_sw r; imu_alm_report r; imu_roll_threshold r; imu_pitch_threshold r;
    imu_yaw_threshold r; imu_duration_time r; imu_duration_count r; recover_time r];
  of_vals v := mk_imu_alm (nth 0 v 0) (nth 1 v 0) (nth 2 v 0) (nth 3 v 0) (nth 4 v 0) (nth 5 v 0) (nth 6 v 0) (nth 7 v 0)
    (nth 8 v 0);
  wf r := True
|}.

Record imu_zero_bias_config_t := mk_imu_zero_bias { imu_zero_bias_flag : Z; gyro_bias_x : Z; gyro_bias_y : Z; gyro_bias_z
  : Z }.
#[export] Program Instance imu_zero_bias_stored : Stored imu_zero_bias_config_t := {|
  items := [u8t; Pad 3; u32t; u32t; u32t];
  to_vals r := [imu_zero_bias_flag r; gyro_bias_x r; gyro_bias_y r; gyro_bias_z r];
  of_vals v := mk_imu_zero_bias (nth 0 v 0) (nth 1 v 0) (nth 2 v 0) (nth 3 v 0);
  wf r := True
|}.

Record shutdown_config_t := mk_shutdown_cfg { shutdown_cfg_flag : Z; shutdown_flag : Z }.
#[export] Program Instance shutdown_cfg_stored : Stored shutdown_config_t := {|
  items := [u8t; u8t];
  to_vals r := [shutdown_cfg_flag r; shutdown_flag r];
  of_vals v := mk_shutdown_cfg (nth 0 v 0) (nth 1 v 0);
  wf r := True
|}.


(** ** Work modes *)

Definition MY_MODE_CONTINUOUS : Z := 0.
Definition MY_MODE_LONG_LIFE : Z := 1.
Definition MY_MODE_SMART : Z := 2.
Definition MY_MODE_ALWAYS_ONLINE : Z := 3.
Definition MY_MODE_MAX : Z := 4.
Definition MY_MODE_SHUTDOWN : Z := 0xFF.

(** ** Default values *)

Definition BLE_LOG_MOD_MAX : Z := 15.
Definition LOG_LEVEL_NONE : Z := 0.
Definition LOG_LEVEL_INF : Z := 3.

(** The modules whose log is enabled: main, sensor, LTE, control, battery, tool, parameters, watchdog, magnetic UART. *)
Definition LOG_MODULES : Z := foldr (fun b m => Z.lor (Z.shiftl 1 b) m) 0 [0; 3; 4; 5; 7; 9; 10; 11; 13].
Definition LOG_LEVELS : list Z :=
  [LOG_LEVEL_INF; LOG_LEVEL_NONE; LOG_LEVEL_NONE; LOG_LEVEL_INF; LOG_LEVEL_INF; LOG_LEVEL_INF; LOG_LEVEL_INF; LOG_LEVEL_INF;
   LOG_LEVEL_NONE; LOG_LEVEL_INF; LOG_LEVEL_INF; LOG_LEVEL_INF; LOG_LEVEL_NONE; LOG_LEVEL_INF; LOG_LEVEL_NONE].

Definition no_ff : lic_ff_t := mk_ff 0 (replicate 29 0).
Definition no_gg : lic_gg_t := mk_gg 0 (replicate 24 0).
Definition gDefaultAdvValidValue : adv_valid_value_t := mk_adv_valid FLAG_VALID 1 0.
Definition gDefaultEcdhGValue : ecdh_g_t := mk_ecdh FLAG_VALID DEFAULT_ECDH_G_VALUE.
Definition gDefaultSnValue : gsm_sn_t := mk_sn 0 (cstr "000000000000").
Definition gDefaultMacAddr : macaddr_t := mk_mac 0 [0x66; 0x55; 0x44; 0x33; 0x22; 0x11].
Definition gDefaultBleTxPower : ble_tx_power_t := mk_tx_power FLAG_VALID 0.
Definition gDefaultBleLogConfig : ble_log_config_t := mk_log FLAG_VALID 0 [0; 0] LOG_MODULES LOG_LEVELS.
Definition gDefaultWorkModeConfig : work_mode_config_t := mk_workmode FLAG_VALID MY_MODE_SMART 30 100 240 (cstr "0001" ++
  [0]) 1 5 [300; 300; 300; 300; 300; 10] [300; 300; 10; 300; 10; 10].
Definition gDefaultRemAlmConfig : remalm_config_t := mk_remalm FLAG_VALID 0 1.
Definition gDefaultPullAlmConfig : pullalm_config_t := mk_pullalm FLAG_VALID 0 1.
Definition gDefaultPatAlmConfig : patalm_config_t := mk_patalm FLAG_VALID 0 255 255 1 0.
Definition gDefaultTempAlmConfig : tempalm_config_t := mk_tempalm FLAG_VALID 0 255 255 255 255 1 0.
Definition gDefaultMotDetConfig : mot_det_config_t := mk_motdet FLAG_VALID 5 10.
Definition gDefaultMotDetAlmConfig : motdetalm_config_t := mk_motdetalm FLAG_VALID 1 1.
Definition gDefaultBatlevelConfig : bat_level_config_t := mk_batlevel FLAG_VALID 1 1 1 1 1 1 1.
Definition gDefaultStartrConfig : startr_config_t := mk_startr FLAG_VALID 0.
Definition gDefaultPWRlimitConfig : pwrlimit_config_t := mk_pwrlimit FLAG_VALID 0.
Definition gDefaultlprunningConfig : lprunning_config_t := mk_lprunning FLAG_VALID 0 20 24.
Definition gDefaultBtUpdataConfig : bt_updata_config_t := mk_bt_updata FLAG_VALID 0 600 10 14400.
Definition gDefaultBluetoothConfig : bluetooth_config_t := mk_bluetooth_cfg FLAG_VALID 0 5 2 0.
Definition gDefaultBtconnectConfig : btconnect_config_t := mk_btconnect FLAG_VALID 1 1800 1.
Definition gDefaultTagConfig : tag_config_t := mk_tag FLAG_VALID 0 2000.
Definition gDefaultLedConfig : led_config_t := mk_led FLAG_VALID 1.
Definition gDefaultLtintConfig : ltint_config_t := mk_ltint FLAG_VALID 1000 1000.
Definition gDefaultBuzzerConfig : buzzer_config_t := mk_buzzer FLAG_VALID 0.
Definition gDefaultBparmacConfig : bparmac_config_t := mk_bparmac FLAG_VALID (replicate 20 (replicate 7 0)) 0.
Definition gDefaultPatmTimerConfig : patm_timer_config_t := mk_patm_timer FLAG_VALID 20 0.
Definition gDefaultTempTimerConfig : temp_timer_config_t := mk_temp_timer FLAG_VALID 20 0.
Definition gDefaultImuAlmConfig : imu_alm_config_t := mk_imu_alm FLAG_VALID 1 1 30 25 255 3 3 10.
Definition gDefaultImuZeroBiasConfig : imu_zero_bias_config_t := mk_imu_zero_bias FLAG_VALID 0 0 0.
Definition gDefaultShutdownConfig : shutdown_config_t := mk_shutdown_cfg FLAG_VALID 0.

(** ** Documented values

    What the command descriptions of [my_cmd_setting.c] allow for each setting. *)

Definition upto (n v : Z) : bool := (0 <=? v) && (v <=? n).
Definition within (lo hi v : Z) : bool := (lo <=? v) && (v <=? hi).
(** 255 stands for "no alarm". *)
Definition threshold_ok (lo hi v : Z) : bool := within lo hi v || (v =? 255).
Definition ordered_ok (low high : Z) : bool := (low <=? high) || (low =? 255).

Definition adv_valid_ok (r : adv_valid_value_t) : bool :=
  upto 1 (AppleValid r) && upto 1 (GoogleValid r) && ((AppleValid r =? 1) || (GoogleValid r =? 1)).
Definition ecdh_ok (r : ecdh_g_t) : bool := within 10000 60000 (ecdh_g r).
Definition tx_power_ok (r : ble_tx_power_t) : bool := existsb (Z.eqb (tx_power r)) [-8; -4; 0; 3; 5; 7].
Definition log_ok (r : ble_log_config_t) : bool := upto 1 (global_en r).

(** Hours and minutes of the day, or 2400. *)
Definition start_time_ok (t : list Z) : bool :=
  match t with
  | [h1; h2; m1; m2; z] =>
      let hh := (h1 - 48) * 10 + (h2 - 48) in
      let mm := (m1 - 48) * 10 + (m2 - 48) in
      forallb is_digit [h1; h2; m1; m2] && (z =? 0) && (hh <=? 24) && (mm <=? 59) && negb ((hh =? 24) && negb (mm =? 0))
  | _ => false
  end.

Definition static_ok (sub : nat) (v : Z) : bool := (v =? 0) || (if (sub <=? 4)%nat then within 180 3600 v else within 10 86400 v).
Definition moving_ok (sub : nat) (v : Z) : bool :=
  if existsb (Nat.eqb sub) [0; 1; 3]%nat then within 180 3600 v else within 10 86400 v.

Definition workmode_ok (r : work_mode_config_t) : bool :=
  upto 3 (current_mode r) && within 5 86400 (reporting_interval_sec r) &&
  ((reporting_interval_dis r =? 0) || within 5 1000 (reporting_interval_dis r)) && within 5 1440 (reporting_interval_min r) &&
  start_time_ok (start_time r) && upto 1 (gnss_sw r) && upto 5 (sub_mode r) &&
  forallb (fun i => static_ok i (nth i (static_interval r) 0) && moving_ok i (nth i (moving_interval r) 0)) (seq 0 6).

Definition remalm_ok (r : remalm_config_t) : bool := upto 1 (remalm_sw r) && upto 3 (remalm_mode r).
Definition pullalm_ok (r : pullalm_config_t) : bool := upto 1 (pullalm_sw r) && upto 3 (pullalm_mode r).
Definition patalm_ok (r : patalm_config_t) : bool :=
  upto 1 (patalm_sw r) && threshold_ok 30 250 (patalm_low_threshold r) && threshold_ok 30 250 (patalm_high_threshold r) &&
  ordered_ok (patalm_low_threshold r) (patalm_high_threshold r) && upto 3 (patalm_report_type r) && upto 60 (patalm_report_interval r).
Definition tempalm_ok (r : tempalm_config_t) : bool :=
  upto 1 (tempalm_sw r) && threshold_ok (-30) 100 (temp_low_threshold r) && threshold_ok 30 100 (temp_high_threshold r) &&
  ordered_ok (temp_low_threshold r) (temp_high_threshold r) && threshold_ok 0 100 (humi_low_threshold r) &&
  threshold_ok 0 100 (humi_high_threshold r) && ordered_ok (humi_low_threshold r) (humi_high_threshold r) &&
  upto 3 (tempalm_report_type r) && upto 60 (tempalm_report_interval r).
Definition motdet_ok (r : mot_det_config_t) : bool := within 1 500 (motdet_vibration r) && within 1 3600 (motdet_duration r).
Definition motdetalm_ok (r : motdetalm_config_t) : bool := upto 1 (motdetalm_sw r) && upto 3 (motdetalm_report_type r).
Definition batlevel_ok (r : bat_level_config_t) : bool :=
  forallb (upto 3) [batlevel_empty_rpt r; batlevel_low_rpt r; batlevel_normal_rpt r; batlevel_fair_rpt r; batlevel_high_rpt r;
    batlevel_full_rpt r; chargesta_report r].
Definition startr_ok (r : startr_config_t) : bool := upto 1 (startr_sw r).
Definition pwrlimit_ok (r : pwrlimit_config_t) : bool := upto 1 (pwrlimit_sw r).
Definition lprunning_ok (r : lprunning_config_t) : bool :=
  upto 1 (lprunning_sw r) && within 10 50 (lprunning_threshold r) && within 1 48 (lprunning_interval r).
Definition bt_updata_ok (r : bt_updata_config_t) : bool :=
  upto 2 (bt_updata_mode r) && within 5 86400 (bt_updata_scan_interval r) && within 5 86400 (bt_updata_scan_length r) &&
  within 120 86400 (bt_updata_updata_interval r) && (bt_updata_scan_length r <? bt_updata_scan_interval r).
Definition bluetooth_ok (r : bluetooth_config_t) : bool :=
  upto 1 (bluetooth_sw r) && (bluetooth_a r =? 5) && upto 30 (bluetooth_b r) && upto 1 (bluetooth_flag r).
Definition btconnect_ok (r : btconnect_config_t) : bool :=
  upto 1 (btconnect_sw r) && within 300 43200 (btconnect_interval r) && upto 3 (btconnect_report r).
Definition tag_ok (r : tag_config_t) : bool := upto 1 (tag_sw r) && within 100 60000 (tag_interval r).
Definition led_ok (r : led_config_t) : bool := upto 2 (led_display r).
Definition ltint_ok (r : ltint_config_t) : bool := within 100 5000 (T1 r) && within 100 5000 (T2 r).
Definition buzzer_ok (r : buzzer_config_t) : bool := upto 5 (buzzer_operator r).
(** At most twenty addresses, none twice. *)
Definition bparmac_ok (r : bparmac_config_t) : bool :=
  upto 20 (bt_parmac_mac_count r) && bool_decide (NoDup (take (Z.to_nat (bt_parmac_mac_count r)) (bt_parmac_macs r))).
Definition timer_ok (m : Z) : bool := (m =? 0) || within 10 1440 m.
Definition patm_timer_ok (r : patm_timer_config_t) : bool := timer_ok (patm_interval_min r) && upto 1 (patm_wakeup_cell_sw r).
Definition temp_timer_ok (r : temp_timer_config_t) : bool := timer_ok (temp_interval_min r) && upto 1 (temp_wakeup_cell_sw r).
Definition imu_alm_ok (r : imu_alm_config_t) : bool :=
  upto 1 (imu_alm_sw r) && upto 3 (imu_alm_report r) && threshold_ok 5 60 (imu_roll_threshold r) &&
  threshold_ok 5 60 (imu_pitch_threshold r) && threshold_ok 5 60 (imu_yaw_threshold r) && within 1 180 (imu_duration_time r) &&
  within 1 30 (recover_time r).
(** Settings without a documented range. *)
Definition any_ok {A} (r : A) : bool := true.
