(* ===== verification/Calendar.v ===== *)
(** * Reporting times and dates ([src/my_tool.c])

    The time to the next scheduled report, the validation of the
    [YYMMDDHHMM] strings that delimit a working period, and the test that the
    clock is inside one. *)

From S2P Require Import Prelude Text TextProofs.

Definition DAY_SECONDS : Z := 86400.

(** [(s[0] - '0') * 10 + (s[1] - '0')]. *)
Definition two_digits (a b : Z) : Z := (a - 48) * 10 + (b - 48).

(** ** The next report *)

(** [None] stands for the division by zero that follows when the interval in
    seconds wraps to 0. *)
Definition calculate_remaining_seconds (start_time : option (list Z))
    (interval_min utc_timestamp : Z) : option Z :=
  match start_time with
  | Some [a; b; c; d] =>
      if negb (is_digit a && is_digit b && is_digit c && is_digit d) then Some (-1)
      else if interval_min <=? 0 then Some (-1)
      else if utc_timestamp <? 0 then Some (-1)
      else
        let hour := two_digits a b in
        let minute := two_digits c d in
        if (hour <? 0) || (23 <? hour) || (minute <? 0) || (59 <? minute) then Some (-1)
        else
          let base_seconds := hour * 3600 + minute * 60 in
          let interval_seconds := i32 (interval_min * 60) in
          let current_seconds_of_day := Z.rem utc_timestamp DAY_SECONDS in
          if current_seconds_of_day <? base_seconds
          then Some (base_seconds - current_seconds_of_day)
          else if interval_seconds =? 0 then None
          else
            let n := Z.quot (current_seconds_of_day - base_seconds) interval_seconds in
            let next_point := i32 (base_seconds + i32 (i32 (n + 1) * interval_seconds)) in
            if next_point <? DAY_SECONDS
            then Some (i32 (next_point - current_seconds_of_day))
            else Some (base_seconds + DAY_SECONDS - current_seconds_of_day)
  | _ => Some (-1)
  end.

(** ** Dates *)

Definition leap_year (year : Z) : bool :=
  ((year mod 4 =? 0) && negb (year mod 100 =? 0)) || (year mod 400 =? 0).

Definition max_day (year month : Z) : Z :=
  if (month =? 4) || (month =? 6) || (month =? 9) || (month =? 11) then 30
  else if month =? 2 then if leap_year year then 29 else 28
  else 31.

(** [None] is the error return -1; otherwise the value of [*valid].  The
    arguments of the five fields are the two-digit numbers of the string. *)
Definition validate_time_format (time_str : option (list Z)) : option Z :=
  match time_str with
  | Some [] => Some 0
  | Some [y1; y2; mo1; mo2; d1; d2; h1; h2; mi1; mi2] =>
      if negb (forallb is_digit [y1; y2; mo1; mo2; d1; d2; h1; h2; mi1; mi2]) then None
      else
        let year := two_digits y1 y2 in
        let month := two_digits mo1 mo2 in
        let day := two_digits d1 d2 in
        let hour := two_digits h1 h2 in
        let minute := two_digits mi1 mi2 in
        if (month <? 1) || (12 <? month) then None
        else if (day <? 1) || (max_day year month <? day) then None
        else if (hour <? 0) || (23 <? hour) then None
        else if (minute <? 0) || (59 <? minute) then None
        else Some 1
  | _ => None
  end.

(** ** Time stamps *)

(** [%<n>d] of [sscanf]: white space, then at most [n] characters of an
    optionally signed decimal number. *)
Fixpoint scan_digits (n : nat) (s : list Z) (v : Z) (seen : bool) : option (Z * list Z) :=
  match n, s with
  | S n', c :: s' =>
      if is_digit c then scan_digits n' s' (v * 10 + (c - 48)) true
      else if seen then Some (v, s) else None
  | _, _ => if seen then Some (v, s) else None
  end.

Fixpoint scan_int (n : nat) (s : list Z) : option (Z * list Z) :=
  match s with
  | c :: s' =>
      if isspace c then scan_int n s'
      else if c =? 43 then scan_digits (pred n) s' 0 false
      else if c =? 45 then '(v, r) ← scan_digits (pred n) s' 0 false; Some (- v, r)
      else scan_digits n s 0 false
  | [] => None
  end.

(** Days since 1970-01-01 of day 1 of month [mon] (0 to 11) of [year]. *)
Definition days_to_month (year mon : Z) : Z :=
  let y := if mon <? 2 then year - 1 else year in
  let mp := if mon <? 2 then mon + 10 else mon - 2 in
  365 * y + y / 4 - y / 100 + y / 400 + (153 * mp + 2) / 5 - 719468.

(** [mktime] of a broken-down UTC time; out-of-range fields are normalised. *)
Definition mktime (tm_year tm_mon tm_mday tm_hour tm_min tm_sec : Z) : Z :=
  let year := 1900 + tm_year + tm_mon / 12 in
  let mon := tm_mon mod 12 in
  (days_to_month year mon + (tm_mday - 1)) * 86400 + tm_hour * 3600 + tm_min * 60 + tm_sec.

Definition time_str_to_timestamp (time_str : option (list Z)) : Z :=
  match time_str with
  | None => -1
  | Some s =>
      match
        '(year, s) ← scan_int 2 s;
        '(month, s) ← scan_int 2 s;
        '(day, s) ← scan_int 2 s;
        '(hour, s) ← scan_int 2 s;
        '(min, s) ← scan_int 2 s;
        Some (mktime (year + 100) (month - 1) day hour min 0)
      with
      | Some t => t
      | None => -1
      end
  end.

Definition is_time_in_range (start_time end_time : option (list Z)) (current_ts : Z) : Z :=
  match start_time, end_time with
  | Some _, Some _ =>
      let start_ts := time_str_to_timestamp start_time in
      let end_ts := time_str_to_timestamp end_time in
      if (start_ts =? -1) || (end_ts =? -1) then -1
      else if (start_ts <=? current_ts) && (current_ts <=? end_ts) then 1 else 0
  | _, _ => -1
  end.

(** ** The clock and the random report offset *)

(** [settime_ret] is what [sys_clock_settime] returns; the second component
    tells whether the clock was set. *)
Definition my_set_system_time (sec settime_ret : Z) : Z * bool :=
  if sec <? 1770000000 then (-1, false)
  else if settime_ret <? 0 then (settime_ret, true) else (0, true).

(** [status] and [rnd] are what [psa_generate_random] returns; 0 is
    [PSA_SUCCESS]. *)
Definition my_generate_random (status : Z) (rnd : list Z) : option (Z + Z) :=
  if negb (status =? 0) then Some (inr status)
  else
    r0 ← arr_get rnd 0; r1 ← arr_get rnd 1; r2 ← arr_get rnd 2; r3 ← arr_get rnd 3;
    Some (inl (Z.lor (Z.lor (Z.lor (Z.shiftl r0 24) (Z.shiftl r1 16)) (Z.shiftl r2 8)) r3)).

Definition PSA_ERROR_INVALID_ARGUMENT : Z := -135.

(** [inl] is the value stored, [inr] the error returned. *)
Definition rand_0_to_120_seconds (p_seconds : bool) (status : Z) (rnd : list Z) : option (Z + Z) :=
  if negb p_seconds then Some (inr PSA_ERROR_INVALID_ARGUMENT)
  else
    r ← my_generate_random status rnd;
    Some (match r with inr e => inr e | inl val => inl (val mod 121) end).

(** ** The schedule *)

(** A report is due at the start time of each day and every interval after it
    until midnight. *)
Definition report_due (base interval t : Z) : Prop :=
  exists k, 0 <= k /\ t mod 86400 = base + k * interval.

Lemma day_shift ts r :
  0 <= ts -> 0 <= r <= 86400 ->
  (ts + r) mod 86400
  = if ts mod 86400 + r <? 86400 then ts mod 86400 + r else ts mod 86400 + r - 86400.
Proof.
  intros Ht Hr. pose proof (Z.mod_pos_bound ts 86400 ltac:(lia)).
  rewrite <- mod_once by lia. by rewrite Zplus_mod_idemp_l.
Qed.

(** No multiple of the interval lies strictly between two consecutive ones. *)
Lemma between_points base interval k n x :
  0 < interval -> base + n * interval <= x -> x < base + k * interval ->
  base + k * interval < base + (n + 1) * interval -> False.
Proof.
  intros Hi H1 H2 H3. assert (n * interval < k * interval) as Hk by lia.
  assert (k * interval < (n + 1) * interval) as Hk' by lia.
  apply Z.mul_lt_mono_pos_r in Hk, Hk'; lia.
Qed.

(** For a valid start time [HHMM] and an interval of up to 24,852 days, the
    result is the time to the next report: a report is due that many seconds
    from now, at least one second ahead, and none is due earlier. *)
Theorem calculate_remaining_seconds_next a b c d interval_min ts :
  let hour := two_digits a b in
  let minute := two_digits c d in
  let base := hour * 3600 + minute * 60 in
  Forall (fun x => 48 <= x <= 57) [a; b; c; d] -> hour <= 23 -> minute <= 59 ->
  0 < interval_min <= 35788000 -> 0 <= ts ->
  exists r,
    calculate_remaining_seconds (Some [a; b; c; d]) interval_min ts = Some r /\ 0 < r <= 86400 /\
    report_due base (interval_min * 60) (ts + r) /\
    forall r', 0 < r' < r -> ~ report_due base (interval_min * 60) (ts + r').
Proof.
  intros hour minute base Hd Hh Hm Hi Ht.
  rewrite !Forall_cons in Hd. destruct Hd as (Ha & Hb & Hc & Hdd & _).
  assert (0 <= hour) by (unfold hour, two_digits; lia).
  assert (0 <= minute) by (unfold minute, two_digits; lia).
  assert (Hbase : 0 <= base < 86400) by (unfold base; lia).
  unfold calculate_remaining_seconds, is_digit.
  rewrite !(proj2 (Z.leb_le _ _)) by lia. cbn [andb negb].
  rewrite (proj2 (Z.leb_gt interval_min 0)), (proj2 (Z.ltb_ge ts 0)) by lia.
  fold hour minute. rewrite (proj2 (Z.ltb_ge hour 0)), (proj2 (Z.ltb_ge 23 hour)),
    (proj2 (Z.ltb_ge minute 0)), (proj2 (Z.ltb_ge 59 minute)) by lia. cbn [orb].
  fold base. rewrite Z.rem_mod_nonneg by (unfold DAY_SECONDS; lia). unfold DAY_SECONDS.
  pose proof (Z.mod_pos_bound ts 86400 ltac:(lia)) as Hcur.
  set (iv := interval_min * 60). rewrite (i32_small iv) by (unfold iv; lia).
  set (cur := ts mod 86400) in *.
  assert (Hiv : 0 < iv <= 2147280000) by (unfold iv; lia).
  destruct (Z.ltb_spec cur base).
  { exists (base - cur). split; [done|]. split; [lia|]. split.
    - exists 0. split; [lia|]. rewrite day_shift by lia. fold cur. zcase; lia.
    - intros r' Hr' (k & Hk & E). rewrite day_shift in E by lia. fold cur in E.
      zcase_in E; [nia|lia]. }
  rewrite (proj2 (Z.eqb_neq iv 0)), Z.quot_div_nonneg by lia.
  set (n := (cur - base) / iv).
  assert (Hn : 0 <= n) by (apply Z.div_pos; lia).
  pose proof (Z.div_mod (cur - base) iv ltac:(lia)) as Hdm. fold n in Hdm.
  pose proof (Z.mod_pos_bound (cur - base) iv ltac:(lia)).
  assert (Hnx : cur < base + (n + 1) * iv <= cur + iv) by nia.
  rewrite (i32_small (n + 1)) by nia. rewrite (i32_small ((n + 1) * iv)) by nia.
  rewrite (i32_small (base + (n + 1) * iv)) by nia.
  assert (Hno : forall r' k, 0 < r' -> cur + r' < base + (n + 1) * iv ->
     cur + r' = base + k * iv -> False).
  { intros r' k Hr' Hlt E. apply (between_points base iv k n cur); nia. }
  destruct (Z.ltb_spec (base + (n + 1) * iv) 86400).
  - rewrite i32_small by lia. exists (base + (n + 1) * iv - cur). split; [done|]. split; [lia|].
    split.
    + exists (n + 1). split; [lia|]. rewrite day_shift by lia. fold cur. zcase; lia.
    + intros r' Hr' (k & Hk & E). rewrite day_shift in E by lia. fold cur in E.
      zcase_in E; [|lia]. apply (Hno r' k); lia.
  - exists (base + 86400 - cur). split; [done|]. split; [lia|]. split.
    + exists 0. split; [lia|]. rewrite day_shift by lia. fold cur. zcase; lia.
    + intros r' Hr' (k & Hk & E). rewrite day_shift in E by lia. fold cur in E.
      zcase_in E; [apply (Hno r' k); lia|nia].
Qed.

Lemma calculate_remaining_seconds_next_witness :
  exists r, calculate_remaining_seconds (Some (cstr "0130")) 600 1770000000 = Some r /\
    0 < r <= 86400 /\ report_due 5400 36000 (1770000000 + r).
Proof.
  destruct (calculate_remaining_seconds_next 48 49 51 48 600 1770000000)
    as (r & H1 & H2 & H3 & _); [repeat constructor; vm_compute; congruence
    |vm_compute; congruence|vm_compute; congruence|lia|lia|].
  exists r. exact (conj H1 (conj H2 H3)).
Defined.

(** An interval of 2^30 minutes wraps to zero seconds and divides by zero. *)
Example calculate_remaining_seconds_div0 :
  calculate_remaining_seconds (Some (cstr "0000")) 1073741824 0 = None.
Proof. reflexivity. Qed.

(** ** Valid dates *)

(** Month [q] counted from January 2000. *)
Definition month_start (q : Z) : Z := days_to_month (2000 + q / 12) (q mod 12).

Lemma month_step q :
  0 <= q < 1200 -> month_start q + max_day (q / 12) (q mod 12 + 1) = month_start (q + 1).
Proof.
  intros Hq. apply Z.eqb_eq. revert q Hq.
  assert (H : forallb (fun q => month_start q + max_day (q / 12) (q mod 12 + 1)
                                =? month_start (q + 1)) (seqZ 0 1200) = true)
    by (vm_compute; reflexivity).
  intros q Hq. eapply forallb_forall in H; [exact H|]. apply list_elem_of_In, elem_of_seqZ. lia.
Qed.

Lemma max_day_pos y m : 28 <= max_day y m <= 31.
Proof. unfold max_day. repeat case_match; lia. Qed.

Lemma month_start_mono q q' :
  0 <= q < q' -> q' < 1200 -> month_start q + max_day (q / 12) (q mod 12 + 1) <= month_start q'.
Proof.
  intros Hq Hq'. replace q' with (q + 1 + Z.of_nat (Z.to_nat (q' - q - 1))) in * by lia.
  induction (Z.to_nat (q' - q - 1)) as [|n IH].
  - rewrite month_step by lia. replace (q + 1 + Z.of_nat 0) with (q + 1) by lia. lia.
  - specialize (IH ltac:(lia) ltac:(lia)).
    replace (q + 1 + Z.of_nat (S n)) with (q + 1 + Z.of_nat n + 1) by lia.
    rewrite <- month_step by lia.
    pose proof (max_day_pos ((q + 1 + Z.of_nat n) / 12) ((q + 1 + Z.of_nat n) mod 12 + 1)). lia.
Qed.

(** The fields of a valid string. *)
Record valid_date (s : list Z) (y mo d h mi : Z) : Prop := {
  vd_year : 0 <= y <= 99;
  vd_month : 1 <= mo <= 12;
  vd_day : 1 <= d <= max_day y mo;
  vd_hour : 0 <= h <= 23;
  vd_minute : 0 <= mi <= 59;
  vd_text : dec_value s = y * 100000000 + mo * 1000000 + d * 10000 + h * 100 + mi;
  vd_stamp : time_str_to_timestamp (Some s)
             = (month_start (y * 12 + (mo - 1)) + (d - 1)) * 86400 + h * 3600 + mi * 60
}.

Lemma scan_int_two a b s :
  is_digit a = true -> is_digit b = true -> scan_int 2 (a :: b :: s) = Some (two_digits a b, s).
Proof.
  intros Ha Hb. apply is_digit_spec in Ha as Ha'. apply is_digit_spec in Hb as Hb'.
  unfold scan_int, isspace, in_range. rewrite !(proj2 (Z.eqb_neq a _)) by lia.
  rewrite (proj2 (Z.leb_gt a 13)), andb_false_r by lia. simpl. rewrite Ha, Hb.
  unfold two_digits. done.
Qed.

Lemma two_digits_range a b :
  is_digit a = true -> is_digit b = true -> 0 <= two_digits a b <= 99.
Proof. rewrite !is_digit_spec. unfold two_digits. lia. Qed.

Lemma validate_fields s :
  validate_time_format (Some s) = Some 1 -> exists y mo d h mi, valid_date s y mo d h mi.
Proof.
  destruct s as [|y1 [|y2 [|mo1 [|mo2 [|d1 [|d2 [|h1 [|h2 [|mi1 [|mi2 [|]]]]]]]]]]]; try done.
  cbn [validate_time_format]. destruct (forallb _ _) eqn:Ef; [|done]. cbn [negb].
  cbn [forallb] in Ef. bool2prop.
  destruct (Z.ltb_spec (two_digits mo1 mo2) 1); [done|].
  destruct (Z.ltb_spec 12 (two_digits mo1 mo2)); [done|].
  destruct (Z.ltb_spec (two_digits d1 d2) 1); [done|].
  destruct (Z.ltb_spec (max_day (two_digits y1 y2) (two_digits mo1 mo2)) (two_digits d1 d2)); [done|].
  destruct (Z.ltb_spec (two_digits h1 h2) 0); [done|].
  destruct (Z.ltb_spec 23 (two_digits h1 h2)); [done|].
  destruct (Z.ltb_spec (two_digits mi1 mi2) 0); [done|].
  destruct (Z.ltb_spec 59 (two_digits mi1 mi2)); [done|]. intros _.
  exists (two_digits y1 y2), (two_digits mo1 mo2), (two_digits d1 d2), (two_digits h1 h2),
    (two_digits mi1 mi2).
  split; try (split; assumption); [by apply two_digits_range|..].
  - unfold dec_value, two_digits. simpl. lia.
  - unfold time_str_to_timestamp. rewrite scan_int_two by done. cbn [mbind option_bind].
    do 4 (rewrite scan_int_two by done; cbn [mbind option_bind]).
    unfold mktime, month_start. set (mo := two_digits mo1 mo2) in *.
    rewrite (Z.div_small (mo - 1)), (Z.mod_small (mo - 1)) by lia.
    rewrite Z.div_add_l, Z.div_small by lia.
    rewrite (Z.add_comm (two_digits y1 y2 * 12)), Z.mod_add, Z.mod_small by lia.
    replace (1900 + (two_digits y1 y2 + 100) + 0) with (2000 + (two_digits y1 y2 + 0)) by lia. lia.
Qed.

(** Chronological order is the order of the digits. *)
Lemma valid_date_lt s y mo d h mi s' y' mo' d' h' mi' :
  valid_date s y mo d h mi -> valid_date s' y' mo' d' h' mi' ->
  dec_value s < dec_value s' -> 
  time_str_to_timestamp (Some s) < time_str_to_timestamp (Some s').
Proof.
  intros [Hy Hm Hd Hh Hi Ht ->] [Hy' Hm' Hd' Hh' Hi' Ht' ->] Hlt.
  pose proof (max_day_pos y mo). pose proof (max_day_pos y' mo').
  destruct (Z.lt_trichotomy (y * 12 + (mo - 1)) (y' * 12 + (mo' - 1))) as [Hq|[Hq|Hq]].
  - pose proof (month_start_mono (y * 12 + (mo - 1)) (y' * 12 + (mo' - 1))
                  ltac:(lia) ltac:(lia)) as Hs.
    replace ((y * 12 + (mo - 1)) / 12) with y in Hs
      by (rewrite Z.div_add_l, Z.div_small; lia).
    replace ((y * 12 + (mo - 1)) mod 12 + 1) with mo in Hs
      by (rewrite (Z.add_comm (y * 12)), Z.mod_add, Z.mod_small; lia). lia.
  - assert (y = y' /\ mo = mo') as [-> ->] by lia. lia.
  - lia.
Qed.

Lemma valid_stamp_positive s y mo d h mi :
  valid_date s y mo d h mi -> 946684800 <= time_str_to_timestamp (Some s).
Proof.
  intros [Hy Hm Hd Hh Hi Ht ->].
  assert (10957 <= month_start (y * 12 + (mo - 1))).
  { destruct (Z.eqb_spec (y * 12 + (mo - 1)) 0) as [->|Hne]; [vm_compute; congruence|].
    pose proof (month_start_mono 0 (y * 12 + (mo - 1)) ltac:(lia) ltac:(lia)) as Hs.
    change (month_start 0) with 10957 in Hs. pose proof (max_day_pos (0 / 12) (0 mod 12 + 1)). lia. }
  lia.
Qed.

(** Two valid [YYMMDDHHMM] strings are ordered in time as their digits are,
    and the current time, if it is the time of a valid string, is found in the
    range exactly when it lies between the two ends.  In particular the
    calendar used to validate a day is the calendar used to compute its time. *)
Theorem is_time_in_range_valid s e c :
  validate_time_format (Some s) = Some 1 -> validate_time_format (Some e) = Some 1 ->
  validate_time_format (Some c) = Some 1 ->
  is_time_in_range (Some s) (Some e) (time_str_to_timestamp (Some c))
  = if decide (dec_value s <= dec_value c <= dec_value e) then 1 else 0.
Proof.
  intros (ys & ms & ds & hs & mis & Hs)%validate_fields (ye & me & de & he & mie & He)%validate_fields
    (yc & mc & dc & hc & ic & Hc)%validate_fields.
  pose proof (valid_stamp_positive _ _ _ _ _ _ Hs). pose proof (valid_stamp_positive _ _ _ _ _ _ He).
  pose proof (valid_date_lt _ _ _ _ _ _ _ _ _ _ _ _ Hs Hc).
  pose proof (valid_date_lt _ _ _ _ _ _ _ _ _ _ _ _ Hc Hs).
  pose proof (valid_date_lt _ _ _ _ _ _ _ _ _ _ _ _ He Hc).
  pose proof (valid_date_lt _ _ _ _ _ _ _ _ _ _ _ _ Hc He).
  assert (Hsame : forall u y mo d h mi v y' mo' d' h' mi',
    valid_date u y mo d h mi -> valid_date v y' mo' d' h' mi' -> dec_value u = dec_value v ->
    time_str_to_timestamp (Some u) = time_str_to_timestamp (Some v)).
  { clear. intros u y mo d h mi v y' mo' d' h' mi' [Hy Hm Hd Hh Hi Ht ->] [Hy' Hm' Hd' Hh' Hi' Ht' ->] E.
    pose proof (max_day_pos y mo). pose proof (max_day_pos y' mo').
    assert (y = y' /\ mo = mo' /\ d = d' /\ h = h' /\ mi = mi') as (-> & -> & -> & -> & ->) by lia.
    done. }
  pose proof (Hsame _ _ _ _ _ _ _ _ _ _ _ _ Hs Hc). pose proof (Hsame _ _ _ _ _ _ _ _ _ _ _ _ Hc He).
  unfold is_time_in_range. rewrite !(proj2 (Z.eqb_neq _ (-1))) by lia. cbn [orb].
  destruct (decide _).
  - by rewrite !(proj2 (Z.leb_le _ _)) by lia.
  - destruct (Z.leb_spec (time_str_to_timestamp (Some s)) (time_str_to_timestamp (Some c))); [|done].
    destruct (Z.leb_spec (time_str_to_timestamp (Some c)) (time_str_to_timestamp (Some e))); [|done].
    lia.
Qed.

Lemma is_time_in_range_valid_witness :
  is_time_in_range (Some (cstr "2402290000")) (Some (cstr "2412312359"))
    (time_str_to_timestamp (Some (cstr "2403010830"))) = 1.
Proof.
  rewrite (is_time_in_range_valid (cstr "2402290000") (cstr "2412312359") (cstr "2403010830"));
    reflexivity.
Defined.

(** A valid string never names a date that does not exist: its day is at
    most the number of days [mktime]'s calendar has between the starts of its
    month and of the next, for every month of 2000 to 2099. *)
Theorem validated_day_exists s :
  validate_time_format (Some s) = Some 1 ->
  exists q d t, 0 <= q < 1200 /\ 1 <= d /\ 0 <= t < 86400 /\
    time_str_to_timestamp (Some s) = (month_start q + (d - 1)) * 86400 + t /\
    month_start q + (d - 1) < month_start (q + 1).
Proof.
  intros (y & mo & d & h & mi & [Hy Hm Hd Hh Hi Ht Hs])%validate_fields.
  exists (y * 12 + (mo - 1)), d, (h * 3600 + mi * 60). rewrite Hs.
  repeat split; try lia. rewrite <- month_step by lia.
  replace ((y * 12 + (mo - 1)) / 12) with y by (rewrite Z.div_add_l, Z.div_small; lia).
  replace ((y * 12 + (mo - 1)) mod 12 + 1) with mo
    by (rewrite (Z.add_comm (y * 12)), Z.mod_add, Z.mod_small; lia). lia.
Qed.

Lemma validated_day_exists_witness :
  exists q d t, 0 <= q < 1200 /\ 1 <= d /\ 0 <= t < 86400 /\
    time_str_to_timestamp (Some (cstr "2402291200")) = (month_start q + (d - 1)) * 86400 + t /\
    month_start q + (d - 1) < month_start (q + 1).
Proof. apply (validated_day_exists (cstr "2402291200")). reflexivity. Defined.
