(* ===== verification/OtaFlash.v ===== *)
(** * Writing a firmware image ([src/my_ota_flash.c])

    One OTA session at a time collects firmware data in a 1 KiB buffer and
    writes it block by block to the secondary image partition, reading every
    block back.  Both transports, [DfuJimi] (BLE) and [DfuLte] (YModem), use
    this module. *)

From S2P Require Import Prelude Crc.

(** ** The flash driver

    Addresses are relative to the partition [image_1].  [img_view] are the
    bytes of the partition; a read returns what it left in the buffer. *)
Class ImageFlash (W : Type) := {
  flash_dev : W -> bool;
  img_view : W -> list Z;
  flash_write : W -> Z -> list Z -> W * Z;
  flash_read : W -> Z -> Z -> W * Z * list Z;
  flash_erase : W -> Z -> Z -> W * Z
}.

(** What the driver documents: a successful write or erase has done it, a read
    fills the buffer and changes nothing. *)
Class ImageFlashLaws (W : Type) `{ImageFlash W} : Prop := {
  ifl_write w off bs w' :
    flash_write w off bs = (w', 0) -> arr_blit (img_view w) off bs = Some (img_view w');
  ifl_read w off n w' r bs :
    flash_read w off n = (w', r, bs) -> 0 <= n ->
    zlen bs = n /\ img_view w' = img_view w /\
    (r = 0 -> arr_slice (img_view w) off n = Some bs);
  ifl_erase w off n w' :
    flash_erase w off n = (w', 0) -> arr_fill (img_view w) off n 255 = Some (img_view w')
}.

(** ** State *)

Definition FLASH_SECTOR_SIZE : Z := 4096.
Definition MY_OTA_BUFFER_SIZE : Z := 1024.
Definition MY_OTA_CRC16_POLYNOMIAL : Z := 0xA001.

(** The static variables of the module. *)
Record ota_state := mk_ota {
  s_ota_busy : bool;
  s_ota_buf : list Z;
  s_ota_buf_offset : Z;
  s_ota_block_addr : Z;
  s_ota_total_written : Z;
  s_ota_file_size : Z
}.

Definition EBUSY : Z := 16.
Definition EINVAL : Z := 22.
Definition EFBIG : Z := 27.
Definition EIO : Z := 5.
Definition ENODEV : Z := 19.
Definition EOVERFLOW : Z := 139.

Section ota.
Context {W : Type} `{!ImageFlash W}.

(** ** Primitives *)

(** The erase loop over 4 KiB sectors; [n] bounds the number of sectors. *)
Fixpoint erase_loop (n : nat) (w : W) (erase_addr erase_size : Z) : W * Z :=
  match n with
  | O => (w, 0)
  | S n' =>
      if 0 <? erase_size
      then
        let '(w, ret) := flash_erase w erase_addr FLASH_SECTOR_SIZE in
        if negb (ret =? 0) then (w, ret)
        else if FLASH_SECTOR_SIZE <? erase_size
        then erase_loop n' w (u32 (erase_addr + FLASH_SECTOR_SIZE)) (erase_size - FLASH_SECTOR_SIZE)
        else (w, 0)
      else (w, 0)
  end.

Definition my_ota_flash_erase (w : W) (off_set size : Z) : W * Z :=
  if negb (flash_dev w) then (w, - ENODEV)
  else erase_loop (S (Z.to_nat (size / FLASH_SECTOR_SIZE))) w off_set size.

Definition my_ota_flash_write (w : W) (wrt_addr : Z) (in_buf : list Z) : W * Z :=
  if negb (flash_dev w) then (w, - ENODEV)
  else
    let '(w, ret) := flash_write w wrt_addr in_buf in
    if negb (ret =? 0) then (w, ret) else (w, 0).

(** The buffer as the driver left it, with the new offset. *)
Definition my_ota_flash_read (w : W) (off_addr out_buf_size : Z) (out_buf : list Z)
  : W * Z * Z * list Z :=
  if negb (flash_dev w) then (w, - ENODEV, off_addr, out_buf)
  else
    let '(w, ret, bytes) := flash_read w off_addr out_buf_size in
    if negb (ret =? 0) then (w, ret, off_addr, bytes)
    else (w, 0, u32 (off_addr + out_buf_size), bytes).

(** ** The write buffer *)

Definition my_ota_flash_flush (st : ota_state) (w : W) (is_last : bool)
  : option (ota_state * W * Z) :=
  if (s_ota_buf_offset st =? 0) && negb is_last then Some (st, w, 0)
  else
    buf ← (if s_ota_buf_offset st <? MY_OTA_BUFFER_SIZE
           then arr_fill (s_ota_buf st) (s_ota_buf_offset st)
                  (MY_OTA_BUFFER_SIZE - s_ota_buf_offset st) 0xFF
           else Some (s_ota_buf st));
    let with_buf b := mk_ota (s_ota_busy st) b (s_ota_buf_offset st) (s_ota_block_addr st)
                        (s_ota_total_written st) (s_ota_file_size st) in
    write_crc ← my_crc16_calc buf MY_OTA_BUFFER_SIZE MY_OTA_CRC16_POLYNOMIAL;
    block ← arr_slice buf 0 MY_OTA_BUFFER_SIZE;
    let '(w, ret) := my_ota_flash_write w (s_ota_block_addr st) block in
    if negb (ret =? 0) then Some (with_buf buf, w, ret)
    else
      let '(w, ret, _, buf) :=
        my_ota_flash_read w (s_ota_block_addr st) MY_OTA_BUFFER_SIZE buf in
      if negb (ret =? 0) then Some (with_buf buf, w, ret)
      else
        read_crc ← my_crc16_calc buf MY_OTA_BUFFER_SIZE MY_OTA_CRC16_POLYNOMIAL;
        if negb (write_crc =? read_crc) then Some (with_buf buf, w, - EIO)
        else
          buf ← arr_fill buf 0 MY_OTA_BUFFER_SIZE 0xFF;
          Some (mk_ota (s_ota_busy st) buf 0 (u32 (s_ota_block_addr st + MY_OTA_BUFFER_SIZE))
                  (s_ota_total_written st) (s_ota_file_size st), w, 0).

(** ** The session *)

(** [atomic_cas (&s_ota_busy, 0, 1)]. *)
Definition my_ota_flash_occupy (st : ota_state) : ota_state * bool :=
  if s_ota_busy st then (st, false)
  else (mk_ota true (s_ota_buf st) (s_ota_buf_offset st) (s_ota_block_addr st)
          (s_ota_total_written st) (s_ota_file_size st), true).

(** [area] is [FLASH_AREA_SIZE(image_1)]. *)
Definition my_ota_flash_open (area : Z) (st : ota_state) (w : W) (file_size : Z)
  : option (ota_state * W * Z) :=
  if negb (s_ota_busy st) then Some (st, w, - EBUSY)
  else if file_size =? 0 then Some (st, w, - EINVAL)
  else if area <? file_size then Some (st, w, - EFBIG)
  else
    let '(w, ret) := my_ota_flash_erase w 0 file_size in
    if negb (ret =? 0) then Some (st, w, - EIO)
    else
      buf ← arr_fill (s_ota_buf st) 0 MY_OTA_BUFFER_SIZE 0xFF;
      Some (mk_ota (s_ota_busy st) buf 0 0 0 file_size, w, 0).

(** [data] is the object the pointer names, [None] for a null pointer; the
    last component is the value of [*is_last]. *)
Definition my_ota_flash_write_block (st : ota_state) (w : W) (data : option (list Z)) (len : Z)
  : option (ota_state * W * Z * bool) :=
  if negb (s_ota_busy st) then Some (st, w, - EIO, false)
  else
    match data with
    | None => Some (st, w, - EINVAL, false)
    | Some d =>
        if len =? 0
        then Some (st, w, 0, s_ota_file_size st <=? s_ota_total_written st)
        else if MY_OTA_BUFFER_SIZE <? u32 (s_ota_buf_offset st + len)
        then Some (st, w, - EOVERFLOW, false)
        else
          src ← arr_slice d 0 len;
          buf ← arr_blit (s_ota_buf st) (s_ota_buf_offset st) src;
          let st := mk_ota (s_ota_busy st) buf (u16 (s_ota_buf_offset st + u16 len))
                      (s_ota_block_addr st) (u32 (s_ota_total_written st + len))
                      (s_ota_file_size st) in
          let last := s_ota_file_size st <=? s_ota_total_written st in
          if (MY_OTA_BUFFER_SIZE <=? s_ota_buf_offset st) || last
          then
            '(st, w, ret) ← my_ota_flash_flush st w last;
            Some (st, w, ret, last)
          else Some (st, w, 0, last)
    end.

Definition my_ota_flash_close (st : ota_state) (w : W) (result_ok : bool)
  : option (ota_state * W * Z) :=
  if negb (s_ota_busy st) then Some (st, w, 0)
  else
    '(st, w, ret) ← (if result_ok && (0 <? s_ota_buf_offset st)
                     then my_ota_flash_flush st w true else Some (st, w, 0));
    Some (mk_ota false (s_ota_buf st) 0 0 0 (s_ota_file_size st), w, ret).

Definition my_ota_flash_cache_remain (st : ota_state) : Z :=
  u16 (MY_OTA_BUFFER_SIZE - s_ota_buf_offset st).

Definition my_ota_flash_is_busy (st : ota_state) : bool := s_ota_busy st.
End ota.
