(* ===== verification/OtaFlashProofs.v ===== *)
(** * The image written by [OtaFlash]

    What is in the partition when every block was reported written: exactly
    the bytes handed over, in order, padded with 0xFF to the end of the last
    block. *)

From S2P Require Import Prelude Crc OtaFlash.

Section ota.
Context {W : Type} {IF : ImageFlash W} {HL : ImageFlashLaws W}.
Implicit Types (st : ota_state) (w : W).

(** A session that has accepted [data] and expects more. *)
Record ota_inv st (mem data : list Z) : Prop := {
  oi_busy : s_ota_busy st = true;
  oi_buf : zlen (s_ota_buf st) = 1024;
  oi_off : 0 <= s_ota_buf_offset st < 1024;
  oi_addr : 0 <= s_ota_block_addr st;
  oi_align : s_ota_block_addr st mod 1024 = 0;
  oi_len : s_ota_block_addr st + s_ota_buf_offset st = zlen data;
  oi_total : s_ota_total_written st = zlen data;
  oi_size : zlen data < s_ota_file_size st < 4294960000;
  oi_flash : arr_slice mem 0 (s_ota_block_addr st) = Some (take (Z.to_nat (s_ota_block_addr st)) data);
  oi_cache : arr_slice (s_ota_buf st) 0 (s_ota_buf_offset st)
             = Some (drop (Z.to_nat (s_ota_block_addr st)) data)
}.

(** The block a flush writes: the cached bytes and 0xFF. *)
Definition block_of (cached : list Z) : list Z :=
  cached ++ replicate (Z.to_nat (1024 - zlen cached)) 255.

Lemma zlen_block_of cached : zlen cached <= 1024 -> zlen (block_of cached) = 1024.
Proof. intros H. unfold block_of. rewrite zlen_app, zlen_replicate. lia. Qed.

Lemma crc16_1024 buf : zlen buf = 1024 ->
  exists c, my_crc16_calc buf MY_OTA_BUFFER_SIZE MY_OTA_CRC16_POLYNOMIAL = Some c.
Proof.
  intros H. change MY_OTA_BUFFER_SIZE with 1024. rewrite <- H, my_crc16_calc_all by lia. eauto.
Qed.

(** Padding the buffer. *)
Lemma pad_buf buf off cached :
  zlen buf = 1024 -> 0 <= off <= 1024 -> arr_slice buf 0 off = Some cached ->
  (if off <? MY_OTA_BUFFER_SIZE
   then arr_fill buf off (MY_OTA_BUFFER_SIZE - off) 0xFF else Some buf) = Some (block_of cached).
Proof.
  intros Hb Ho Hc. pose proof (arr_slice_length _ _ _ _ Hc) as Hl.
  apply arr_slice_inv in Hc as (_ & _ & _ & Hc). rewrite drop_0 in Hc.
  unfold block_of, arr_fill, MY_OTA_BUFFER_SIZE. rewrite Hl.
  destruct (Z.ltb_spec off 1024).
  - rewrite arr_blit_Some by (rewrite ?zlen_replicate; lia). f_equal.
    rewrite drop_ge by (rewrite length_replicate; unfold zlen in Hb; lia).
    by rewrite app_nil_r, Hc.
  - replace (Z.to_nat (1024 - off)) with 0%nat by lia. simpl. rewrite app_nil_r, Hc.
    rewrite take_ge; [done|]. unfold zlen in Hb. lia.
Qed.

Lemma flush_spec st w last cached :
  zlen (s_ota_buf st) = 1024 -> 0 <= s_ota_buf_offset st <= 1024 ->
  0 <= s_ota_block_addr st < 4294960000 ->
  arr_slice (s_ota_buf st) 0 (s_ota_buf_offset st) = Some cached ->
  0 < s_ota_buf_offset st \/ last = true ->
  exists st' w' r, my_ota_flash_flush st w last = Some (st', w', r) /\
    zlen (s_ota_buf st') = 1024 /\
    (r = 0 ->
     arr_blit (img_view w) (s_ota_block_addr st) (block_of cached) = Some (img_view w') /\
     st' = mk_ota (s_ota_busy st) (replicate 1024 255) 0 (s_ota_block_addr st + 1024)
             (s_ota_total_written st) (s_ota_file_size st)).
Proof.
  intros Hb Ho Ha Hc Hor. unfold my_ota_flash_flush.
  destruct ((s_ota_buf_offset st =? 0) && negb last) eqn:E0.
  { apply andb_true_iff in E0 as [E0 El]. apply Z.eqb_eq in E0. destruct Hor; [lia|by subst]. }
  pose proof (arr_slice_length _ _ _ _ Hc) as Hl.
  rewrite (pad_buf _ _ cached Hb Ho Hc). cbn [mbind option_bind].
  pose proof (zlen_block_of cached ltac:(lia)) as Hbl.
  destruct (crc16_1024 (block_of cached) Hbl) as [c Ec]. rewrite Ec. cbn [mbind option_bind].
  assert (Es : arr_slice (block_of cached) 0 MY_OTA_BUFFER_SIZE = Some (block_of cached)).
  { change MY_OTA_BUFFER_SIZE with 1024. rewrite arr_slice_Some by lia. f_equal.
    rewrite drop_0, take_ge; [done|]. unfold zlen in Hbl. lia. }
  rewrite Es. cbn [mbind option_bind]. unfold my_ota_flash_write.
  destruct (flash_dev w); cbn [negb]; [|eexists _, _, _; split; [done|]; split; [done|]; done].
  destruct (flash_write w _ _) as [w1 r1] eqn:Ew.
  destruct (Z.eqb_spec r1 0) as [->|Hr1]; cbn [negb].
  2:{ rewrite (proj2 (Z.eqb_neq r1 0)) by done. cbn [negb].
      eexists _, _, _. split; [done|]. split; [done|]. done. }
  change (0 =? 0) with true. cbn [negb]. unfold my_ota_flash_read.
  destruct (flash_dev w1); cbn [negb]; [|eexists _, _, _; split; [done|]; split; [done|]; done].
  destruct (flash_read w1 _ _) as [[w2 r2] rb] eqn:Er.
  destruct (ifl_read _ _ _ _ _ _ Er ltac:(done)) as (Hrl & Hv & Hok).
  destruct (Z.eqb_spec r2 0) as [->|Hr2]; cbn [negb].
  2:{ rewrite (proj2 (Z.eqb_neq r2 0)) by done. cbn [negb].
      eexists _, _, _. split; [done|]. split; [done|]. done. }
  change (0 =? 0) with true. cbn [negb].
  destruct (crc16_1024 rb Hrl) as [c' Ec']. rewrite Ec'. cbn [mbind option_bind].
  destruct (Z.eqb_spec c c') as [Hcc|Hcc]; cbn [negb].
  2:{ eexists _, _, _. split; [done|]. split; [done|]. done. }
  unfold arr_fill. change (Z.to_nat MY_OTA_BUFFER_SIZE) with 1024%nat.
  rewrite arr_blit_Some by (rewrite ?zlen_replicate; change MY_OTA_BUFFER_SIZE with 1024 in *; lia).
  cbn [mbind option_bind]. rewrite drop_ge; [|rewrite length_replicate; unfold zlen in Hrl; change MY_OTA_BUFFER_SIZE with 1024 in *; lia].
  rewrite take_0, app_nil_r. cbn [app].
  eexists _, _, _. split; [done|]. split; [cbn [s_ota_buf]; by rewrite zlen_replicate|]. intros _. split.
  - rewrite Hv. by apply ifl_write.
  - change MY_OTA_BUFFER_SIZE with 1024. by rewrite u32_small by lia.
Qed.

Lemma block_slice cached n : n = zlen cached -> arr_slice (block_of cached) 0 n = Some cached.
Proof.
  intros ->. unfold block_of. pose proof (zlen_nonneg cached).
  rewrite arr_slice_Some by (rewrite ?zlen_app, ?zlen_replicate; lia).
  unfold zlen. by rewrite Nat2Z.id, drop_0, take_app_length.
Qed.

(** Appending a written block to the image in flash. *)
Lemma image_extend mem mem' a data cached :
  0 <= a -> a + zlen cached = zlen data -> zlen cached <= 1024 ->
  arr_slice mem 0 a = Some (take (Z.to_nat a) data) -> cached = drop (Z.to_nat a) data ->
  arr_blit mem a (block_of cached) = Some mem' ->
  arr_slice mem' 0 (zlen data) = Some data.
Proof.
  intros Ha Hl Hc Hm Ed Eb. rewrite <- Hl.
  replace data with (take (Z.to_nat a) data ++ cached) by (rewrite Ed; apply take_drop).
  apply arr_slice_split.
  - rewrite (arr_slice_blit_disj _ _ _ _ _ _ Eb) by lia. done.
  - rewrite Z.add_0_l. rewrite <- (Z.add_0_r a).
    pose proof (zlen_nonneg cached). pose proof (zlen_block_of cached Hc).
    rewrite (arr_slice_blit_in _ _ _ _ _ _ Eb) by lia. by apply block_slice.
Qed.

(** The state after the bytes were copied to the buffer. *)
Lemma copy_spec st mem data chunk :
  ota_inv st mem data -> zlen chunk <= 1024 - s_ota_buf_offset st ->
  exists buf, arr_blit (s_ota_buf st) (s_ota_buf_offset st) chunk = Some buf /\
    zlen buf = 1024 /\
    arr_slice buf 0 (s_ota_buf_offset st + zlen chunk)
    = Some (drop (Z.to_nat (s_ota_block_addr st)) (data ++ chunk)).
Proof.
  intros Hi Hc. pose proof (zlen_nonneg chunk). destruct Hi.
  destruct (arr_blit (s_ota_buf st) (s_ota_buf_offset st) chunk) as [buf|] eqn:E;
    [|rewrite arr_blit_Some in E by lia; done].
  exists buf. split; [done|]. split; [rewrite (arr_blit_length _ _ _ _ E); lia|].
  rewrite drop_app_le by (unfold zlen in *; lia). apply arr_slice_split.
  - rewrite (arr_slice_blit_disj _ _ _ _ _ _ E) by lia. done.
  - rewrite Z.add_0_l. by apply (arr_slice_blit (s_ota_buf st)).
Qed.

(** One block: nothing is lost or reordered unless an error is reported. *)
Lemma write_block_spec st w data d len :
  ota_inv st (img_view w) data -> 0 < len <= 1024 - s_ota_buf_offset st -> len <= zlen d ->
  let data' := data ++ take (Z.to_nat len) d in
  exists st' w' r,
    my_ota_flash_write_block st w (Some d) len
    = Some (st', w', r, s_ota_file_size st <=? zlen data') /\
    (r = 0 ->
     if s_ota_file_size st <=? zlen data'
     then arr_slice (img_view w') 0 (zlen data') = Some data' /\ s_ota_busy st' = true /\
          s_ota_buf_offset st' = 0 /\ s_ota_file_size st' = s_ota_file_size st
     else ota_inv st' (img_view w') data' /\ s_ota_file_size st' = s_ota_file_size st).
Proof.
  intros Hi Hlen Hd data'. pose proof Hi as [Hbusy Hbuf Hoff Haddr Hal Hl Htot Hsz Hfl Hca].
  set (chunk := take (Z.to_nat len) d) in *.
  assert (Hch : zlen chunk = len) by (unfold chunk; rewrite zlen_take; lia).
  assert (Hd' : zlen data' = zlen data + len) by (unfold data'; rewrite zlen_app; lia).
  unfold my_ota_flash_write_block. rewrite Hbusy. cbn [negb].
  rewrite (proj2 (Z.eqb_neq len 0)) by lia.
  rewrite u32_small, (proj2 (Z.ltb_ge _ _)) by (unfold MY_OTA_BUFFER_SIZE; lia).
  rewrite arr_slice_Some by lia. rewrite drop_0. fold chunk. cbn [mbind option_bind].
  destruct (copy_spec st _ data chunk Hi ltac:(lia)) as (buf & -> & Hbl & Hbs).
  cbn [mbind option_bind]. cbn [s_ota_file_size s_ota_total_written s_ota_buf_offset].
  rewrite Htot, (u32_small (_ + len)) by lia. rewrite <- Hd'.
  rewrite !u16_small by (rewrite ?u16_small; lia). unfold MY_OTA_BUFFER_SIZE.
  set (last := s_ota_file_size st <=? zlen data') in *.
  rewrite Hch in Hbs. fold data' in Hbs.
  set (st1 := mk_ota true buf (s_ota_buf_offset st + len) (s_ota_block_addr st)
                (zlen data') (s_ota_file_size st)).
  set (cached := drop (Z.to_nat (s_ota_block_addr st)) data') in *.
  pose proof (arr_slice_length _ _ _ _ Hbs) as Hcl.
  assert (Hpre : take (Z.to_nat (s_ota_block_addr st)) data'
                 = take (Z.to_nat (s_ota_block_addr st)) data)
    by (unfold data'; rewrite take_app_le; [done|unfold zlen in *; lia]).
  destruct ((1024 <=? s_ota_buf_offset st + len) || last) eqn:Efl.
  - destruct (flush_spec st1 w last cached) as (st' & w' & r & -> & _ & Hok);
      cbn [s_ota_buf s_ota_buf_offset s_ota_block_addr st1]; auto; try lia.
    cbn [mbind option_bind]. exists st', w', r. split; [done|]. intros ->.
    destruct (Hok eq_refl) as [Hb ->]. cbn [s_ota_block_addr st1] in Hb.
    assert (Himg : arr_slice (img_view w') 0 (zlen data') = Some data').
    { apply (image_extend (img_view w) _ (s_ota_block_addr st) data' cached); auto; try lia.
      by rewrite Hpre. }
    destruct last eqn:El; [done|]. split; [|done].
    rewrite orb_false_r in Efl. apply Z.leb_le in Efl. apply Z.leb_gt in El.
    assert (Hnb : s_ota_block_addr st + 1024 = zlen data') by lia.
    split; cbn [s_ota_busy s_ota_buf s_ota_buf_offset s_ota_block_addr s_ota_total_written
                s_ota_file_size st1]; auto; try lia.
    + rewrite <- Zplus_mod_idemp_l, Hal. done.
    + rewrite Hnb, Himg. f_equal. rewrite take_ge; [done|unfold zlen; lia].
    + rewrite drop_ge by (unfold zlen in Hnb; lia). rewrite arr_slice_Some; [done|done|done|].
      rewrite zlen_replicate. done.
  - apply orb_false_iff in Efl as [Efl El]. apply Z.leb_gt in Efl, El.
    exists st1, w, 0. split; [done|]. intros _.
    assert (last = false) as -> by (apply Z.leb_gt; lia). split; [|done].
    split; cbn [s_ota_busy s_ota_buf s_ota_buf_offset s_ota_block_addr s_ota_total_written
                s_ota_file_size st1]; auto; try lia.
    rewrite Hpre. done.
Qed.

(** *** Opening a session *)

Lemma erase_loop_spec n : forall w addr size w',
  erase_loop n w addr size = (w', 0) -> 0 <= addr -> 0 < size -> addr + size < 4294960000 ->
  size / 4096 < Z.of_nat n ->
  zlen (img_view w') = zlen (img_view w) /\
  (forall k, 0 <= k -> k + 0 <= addr -> arr_slice (img_view w') 0 k = arr_slice (img_view w) 0 k) /\
  arr_slice (img_view w') addr size = Some (replicate (Z.to_nat size) 255).
Proof.
  induction n as [|n IH]; intros w addr size w' E Ha Hs Hb Hn.
  { pose proof (Z.div_pos size 4096 ltac:(lia) ltac:(lia)). lia. }
  cbn [erase_loop] in E. rewrite (proj2 (Z.ltb_lt 0 size)) in E by lia.
  destruct (flash_erase w addr FLASH_SECTOR_SIZE) as [w1 r1] eqn:Ee.
  destruct (Z.eqb_spec r1 0) as [->|]; cbn [negb] in E; [|by injection E].
  apply ifl_erase in Ee. unfold FLASH_SECTOR_SIZE in *.
  pose proof (arr_blit_length _ _ _ _ Ee) as Hl.
  assert (Hfirst : forall m, 0 <= m <= 4096 ->
    arr_slice (img_view w1) addr m = Some (replicate (Z.to_nat m) 255)).
  { intros m Hm. rewrite <- (Z.add_0_r addr).
    rewrite (arr_slice_blit_in _ _ _ _ _ _ Ee) by (rewrite ?zlen_replicate; lia).
    rewrite arr_slice_Some by (rewrite ?zlen_replicate; lia).
    rewrite drop_0, take_replicate. do 2 f_equal. lia. }
  assert (Hbefore : forall k, 0 <= k -> k + 0 <= addr ->
    arr_slice (img_view w1) 0 k = arr_slice (img_view w) 0 k)
    by (intros k Hk Hka; apply (arr_slice_blit_disj _ _ _ _ _ _ Ee); lia).
  destruct (Z.ltb_spec 4096 size) as [Hbig|Hsmall].
  - rewrite u32_small in E by lia.
    destruct (IH w1 (addr + 4096) (size - 4096) w' E) as (Hl' & Hk' & Hs'); try lia.
    { replace size with (size - 4096 + 1 * 4096) in Hn by lia.
      rewrite Z.div_add in Hn by lia. lia. }
    split; [lia|]. split; [intros k Hk Hka; rewrite Hk', Hbefore by lia; done|].
    replace size with (4096 + (size - 4096)) by lia.
    rewrite Z2Nat.inj_add, replicate_add by lia. apply arr_slice_split; [|done].
    assert (Hpre : arr_slice (img_view w') 0 (addr + 4096)
                   = arr_slice (img_view w1) 0 (addr + 4096)) by (apply Hk'; lia).
    destruct (arr_slice (img_view w1) 0 (addr + 4096)) as [s|] eqn:Es.
    + rewrite <- (Z.add_0_l addr), <- (arr_slice_slice _ _ _ _ _ _ Hpre) by lia.
      rewrite (arr_slice_slice _ _ _ _ _ _ Es) by lia. apply (Hfirst 4096). lia.
    + pose proof (Hfirst 4096 ltac:(lia)) as (_ & _ & Hx & _)%arr_slice_inv.
      rewrite arr_slice_Some in Es by lia. done.
  - injection E as <-. split; [done|]. split; [done|]. apply Hfirst. lia.
Qed.

Lemma open_spec area st w fs st' w' :
  zlen (s_ota_buf st) = 1024 -> 0 <= fs -> area < 4294960000 ->
  my_ota_flash_open area st w fs = Some (st', w', 0) ->
  ota_inv st' (img_view w') [] /\ s_ota_file_size st' = fs /\
  arr_slice (img_view w') 0 fs = Some (replicate (Z.to_nat fs) 255).
Proof.
  intros Hb Hfs Ha. unfold my_ota_flash_open.
  destruct (s_ota_busy st) eqn:Ebusy; cbn [negb]; [|done].
  destruct (Z.eqb_spec fs 0); [done|]. destruct (Z.ltb_spec area fs); [done|].
  destruct (my_ota_flash_erase w 0 fs) as [w1 r1] eqn:Ee.
  destruct (Z.eqb_spec r1 0) as [->|]; cbn [negb]; [|done].
  unfold arr_fill, MY_OTA_BUFFER_SIZE. rewrite arr_blit_Some by (rewrite ?zlen_replicate; lia).
  cbn [mbind option_bind]. set (buf := take _ _ ++ _ ++ _).
  assert (Hbuf : zlen buf = 1024).
  { unfold buf. rewrite take_0, drop_ge, app_nil_r; [by rewrite app_nil_l, zlen_replicate|].
    rewrite length_replicate. unfold zlen in Hb. lia. }
  clearbody buf. intros [= <- <-]. revert Ee. unfold my_ota_flash_erase.
  destruct (flash_dev w); cbn [negb]; [|done]. intros Ee.
  apply erase_loop_spec in Ee as (Hl & _ & Hs); try lia.
  2:{ unfold FLASH_SECTOR_SIZE. pose proof (Z.div_pos fs 4096 ltac:(lia) ltac:(lia)). lia. }
  split; [|done].
  split; cbn [s_ota_busy s_ota_buf s_ota_buf_offset s_ota_block_addr s_ota_total_written
              s_ota_file_size]; try (change (zlen []) with 0); try lia; auto.
  - rewrite arr_slice_Some; [done|done|done|apply zlen_nonneg].
  - rewrite arr_slice_Some; [done|done|done|apply zlen_nonneg].
Qed.

(** *** A whole transfer *)

(** Hand over the chunks one by one, until one is refused. *)
Fixpoint write_all st w (chunks : list (list Z)) : option (ota_state * W * Z * bool) :=
  match chunks with
  | [] => Some (st, w, 0, false)
  | c :: cs =>
      '(st, w, r, last) ← my_ota_flash_write_block st w (Some c) (zlen c);
      match cs with
      | [] => Some (st, w, r, last)
      | _ => if r =? 0 then write_all st w cs else Some (st, w, r, last)
      end
  end.

(** Chunks that fit the buffer at their turn, after [got] bytes, and of which
    the last one completes the [fs] bytes. *)
Fixpoint transfer (fs got : Z) (chunks : list (list Z)) : Prop :=
  match chunks with
  | [] => False
  | c :: cs =>
      0 < zlen c <= 1024 - got mod 1024 /\
      match cs with
      | [] => fs <= got + zlen c
      | _ => got + zlen c < fs /\ transfer fs (got + zlen c) cs
      end
  end.

Lemma oi_off_mod st mem data : ota_inv st mem data -> s_ota_buf_offset st = zlen data mod 1024.
Proof.
  intros []. rewrite <- oi_len0, Zplus_mod, oi_align0, Z.add_0_l, Zmod_mod.
  rewrite Z.mod_small; lia.
Qed.

Lemma write_all_spec chunks : forall st w data,
  ota_inv st (img_view w) data -> transfer (s_ota_file_size st) (zlen data) chunks ->
  exists st' w' r last, write_all st w chunks = Some (st', w', r, last) /\
    (r = 0 -> last = true /\ s_ota_busy st' = true /\ s_ota_buf_offset st' = 0 /\
      let image := data ++ concat chunks in
      arr_slice (img_view w') 0 (zlen image) = Some image).
Proof.
  induction chunks as [|c cs IH]; intros st w data Hi Ht; [done|].
  destruct Ht as [Hc Ht]. rewrite <- (oi_off_mod _ _ _ Hi) in Hc.
  destruct (write_block_spec st w data c (zlen c) Hi ltac:(lia) ltac:(lia))
    as (st1 & w1 & r1 & E1 & Hok).
  assert (Hall : take (Z.to_nat (zlen c)) c = c)
    by (apply take_ge; unfold zlen; lia).
  rewrite Hall, zlen_app in *. cbn [write_all]. rewrite E1. cbn [mbind option_bind].
  destruct cs as [|c' cs].
  - rewrite (proj2 (Z.leb_le _ _)) in * by lia. eexists _, _, _, _. split; [done|].
    intros ->. destruct (Hok eq_refl) as (Him & Hb & Ho & _). cbn [concat]. rewrite app_nil_r.
    by rewrite zlen_app.
  - destruct Ht as [Hlt Ht]. rewrite (proj2 (Z.leb_gt _ _)) in * by lia.
    destruct (Z.eqb_spec r1 0) as [->|Hr1]; [|eexists _, _, _, _; split; [done|]; done].
    destruct (Hok eq_refl) as [Hi1 Hfs].
    destruct (IH st1 w1 (data ++ c) Hi1) as (st' & w' & r & last & E & Hres).
    { by rewrite Hfs, zlen_app. }
    exists st', w', r, last. split; [done|]. intros Hr. specialize (Hres Hr).
    by rewrite <- app_assoc in Hres.
Qed.

(** C31: an update session writes the image it is given.  After a successful
    open, hand over the firmware in chunks that fit the 1 KiB buffer: no
    access leaves the buffers, and if the last write reports success then the
    partition starts with exactly the concatenated chunks, the last write is
    flagged as such, and closing succeeds, releases the session and leaves the
    image untouched. *)
Theorem ota_transfer_exact area st w fs st0 w0 chunks :
  zlen (s_ota_buf st) = 1024 -> 0 <= fs -> area < 4294960000 ->
  my_ota_flash_open area st w fs = Some (st0, w0, 0) -> transfer fs 0 chunks ->
  exists st1 w1 r last, write_all st0 w0 chunks = Some (st1, w1, r, last) /\
    (r = 0 -> last = true /\
      arr_slice (img_view w1) 0 (zlen (concat chunks)) = Some (concat chunks) /\
      exists st2, my_ota_flash_close st1 w1 true = Some (st2, w1, 0) /\
        my_ota_flash_is_busy st2 = false).
Proof.
  intros Hb Hfs Ha Eo Ht. destruct (open_spec _ _ _ _ _ _ Hb Hfs Ha Eo) as (Hi & Hsz & _).
  destruct (write_all_spec chunks st0 w0 [] Hi ltac:(by rewrite Hsz))
    as (st1 & w1 & r & last & E & Hok).
  exists st1, w1, r, last. split; [done|]. intros Hr.
  destruct (Hok Hr) as (Hl & Hbusy & Hoff & Him). split; [done|]. split; [done|].
  unfold my_ota_flash_close. rewrite Hbusy, Hoff. cbn. eauto.
Qed.

(** A block that the flash stored wrongly in one or two adjacent bytes is
    never taken for good, even though the driver reported success: the
    read-back check ends the flush with [-EIO]. *)
Theorem flush_detects_corruption st w w1 w2 cached pre x y post last :
  zlen (s_ota_buf st) = 1024 -> 0 < s_ota_buf_offset st <= 1024 ->
  arr_slice (s_ota_buf st) 0 (s_ota_buf_offset st) = Some cached ->
  flash_dev w = true -> flash_dev w1 = true ->
  flash_write w (s_ota_block_addr st) (block_of cached) = (w1, 0) ->
  flash_read w1 (s_ota_block_addr st) 1024 = (w2, 0, pre ++ y ++ post) ->
  block_of cached = pre ++ x ++ post ->
  bytes_ok (pre ++ x ++ post) -> bytes_ok y -> length x = length y -> zlen x <= 2 -> x <> y ->
  exists st', my_ota_flash_flush st w last = Some (st', w2, - EIO).
Proof.
  intros Hb Ho Hc Hd Hd1 Ew Er Eb Hok Hy Hlen Hx2 Hne.
  pose proof (arr_slice_length _ _ _ _ Hc) as Hl.
  pose proof (zlen_block_of cached ltac:(lia)) as Hbl.
  assert (Hyl : zlen (pre ++ y ++ post) = 1024)
    by (rewrite <- Hbl, Eb, !zlen_app; unfold zlen; lia).
  unfold my_ota_flash_flush. rewrite (proj2 (Z.eqb_neq _ 0)) by lia. cbn [andb].
  rewrite (pad_buf _ (s_ota_buf_offset st) cached Hb ltac:(lia) Hc). cbn [mbind option_bind].
  destruct (crc16_1024 (block_of cached) Hbl) as [c Ec]. rewrite Ec. cbn [mbind option_bind].
  change MY_OTA_BUFFER_SIZE with 1024 in *.
  assert (Es : arr_slice (block_of cached) 0 1024 = Some (block_of cached))
    by (rewrite <- Hbl at 1; apply arr_slice_all).
  rewrite Es. cbn [mbind option_bind]. unfold my_ota_flash_write. rewrite Hd, Ew. cbn [negb].
  change (negb (0 =? 0)) with false. cbv iota. change (negb (0 =? 0)) with false. cbv iota.
  unfold my_ota_flash_read. rewrite Hd1, Er. cbn [negb].
  change (negb (0 =? 0)) with false. cbv iota. change (negb (0 =? 0)) with false. cbv iota.
  destruct (crc16_1024 (pre ++ y ++ post) Hyl) as [c' Ec'].
  change MY_OTA_BUFFER_SIZE with 1024 in Ec'. rewrite Ec'. cbn [mbind option_bind].
  destruct (Z.eqb_spec c c') as [->|Hcc]; cbn [negb]; [exfalso|eauto].
  unfold bytes_ok in Hok. rewrite !Forall_app in Hok. destruct Hok as (Hp & Hx & Hq).
  apply (fold_detects 16 MY_OTA_CRC16_POLYNOMIAL ltac:(lia) ltac:(done) ltac:(done)
           0 pre x y post); auto; try lia.
  rewrite <- Eb. rewrite <- Hbl in Ec. rewrite <- Hyl in Ec'.
  rewrite my_crc16_calc_all in Ec, Ec' by lia. congruence.
Qed.
End ota.

(** ** The image writer never leaves its buffer *)

Record ota_ok (o : ota_state) : Prop := {
  oo_buf : zlen (s_ota_buf o) = 1024;
  oo_off : 0 <= s_ota_buf_offset o <= 1024
}.

Ltac writer_done :=
  eexists _, _, _; split; [reflexivity|]; split; [split; cbn; done || lia|done].

Section writer.
Context {D : Type} `{!ImageFlash D} `{!ImageFlashLaws D}.
Implicit Types (o : ota_state) (d : D).

Lemma arr_fill_1024 (l : list Z) off x :
  zlen l = 1024 -> 0 <= off <= 1024 -> exists l', arr_fill l off (1024 - off) x = Some l' /\ zlen l' = 1024.
Proof.
  intros Hl Ho. unfold arr_fill.
  destruct (arr_blit l off (replicate (Z.to_nat (1024 - off)) x)) as [l'|] eqn:E.
  - exists l'. split; [done|]. by rewrite (arr_blit_length _ _ _ _ E).
  - rewrite arr_blit_Some in E; [done|lia|]. rewrite zlen_replicate. lia.
Qed.

Lemma flush_total o d last :
  ota_ok o -> exists o' d' r, my_ota_flash_flush o d last = Some (o', d', r) /\
    ota_ok o' /\ s_ota_busy o' = s_ota_busy o.
Proof.
  intros [Hb Ho]. unfold my_ota_flash_flush. destruct (_ && _); [by exists o, d, 0|].
  destruct (arr_fill_1024 (s_ota_buf o) (s_ota_buf_offset o) 0xFF Hb Ho) as (b & Eb & Hlb).
  assert (exists b', (if s_ota_buf_offset o <? MY_OTA_BUFFER_SIZE
           then arr_fill (s_ota_buf o) (s_ota_buf_offset o) (MY_OTA_BUFFER_SIZE - s_ota_buf_offset o) 0xFF
           else Some (s_ota_buf o)) = Some b' /\ zlen b' = 1024) as (b' & -> & Hb').
  { destruct (_ <? _); [by exists b|by exists (s_ota_buf o)]. }
  cbn [mbind option_bind]. destruct (crc16_1024 b' Hb') as [c Ec]. change MY_OTA_BUFFER_SIZE with 1024 in *.
  rewrite Ec. cbn [mbind option_bind]. rewrite arr_slice_Some by lia. cbn [mbind option_bind].
  destruct (my_ota_flash_write d _ _) as [d1 r1]. destruct (negb (r1 =? 0)); [writer_done|].
  unfold my_ota_flash_read. destruct (negb (flash_dev d1)).
  { change (negb (- ENODEV =? 0)) with true. cbv iota. writer_done. }
  destruct (flash_read d1 _ 1024) as [[d2 r2] bytes] eqn:Er.
  destruct (ifl_read _ _ _ _ _ _ Er ltac:(lia)) as (Hbl & _ & _).
  destruct (negb (r2 =? 0)) eqn:E2; [rewrite E2; writer_done|].
  change (negb (0 =? 0)) with false. cbv iota.
  destruct (crc16_1024 bytes Hbl) as [c' Ec']. change MY_OTA_BUFFER_SIZE with 1024 in Ec'. rewrite Ec'.
  cbn [mbind option_bind]. destruct (negb (c =? c')); [writer_done|].
  destruct (arr_fill_1024 bytes 0 0xFF Hbl ltac:(lia)) as (b2 & E3 & Hl2).
  change (1024 - 0) with 1024 in E3. rewrite E3. cbn [mbind option_bind].
  writer_done.
Qed.

Lemma open_total area o d sz :
  ota_ok o -> exists o' d' r, my_ota_flash_open area o d sz = Some (o', d', r) /\
    ota_ok o' /\ s_ota_busy o' = s_ota_busy o.
Proof.
  intros [Hb Ho]. unfold my_ota_flash_open.
  destruct (negb _); [writer_done|]. destruct (sz =? 0); [writer_done|].
  destruct (area <? sz); [writer_done|]. destruct (my_ota_flash_erase d 0 sz) as [d' r].
  destruct (negb (r =? 0)); [writer_done|].
  destruct (arr_fill_1024 (s_ota_buf o) 0 0xFF Hb ltac:(lia)) as (b & Eb & Hlb).
  change (1024 - 0) with 1024 in Eb. change MY_OTA_BUFFER_SIZE with 1024. rewrite Eb.
  cbn [mbind option_bind]. writer_done.
Qed.

Lemma write_block_total o d data len :
  ota_ok o -> 0 < len <= 1024 -> len <= zlen data ->
  exists o' d' r last, my_ota_flash_write_block o d (Some data) len = Some (o', d', r, last) /\
    ota_ok o' /\ s_ota_busy o' = s_ota_busy o.
Proof.
  intros Hok Hl Hd. pose proof Hok as [Hb Ho]. unfold my_ota_flash_write_block.
  destruct (negb _) eqn:Ebusy; [by eexists _, _, _, _|]. rewrite (proj2 (Z.eqb_neq len 0)) by lia.
  rewrite u32_small by lia. change MY_OTA_BUFFER_SIZE with 1024.
  destruct (Z.ltb_spec 1024 (s_ota_buf_offset o + len)); [by eexists _, _, _, _|].
  rewrite arr_slice_Some by lia. cbn [mbind option_bind]. set (src := take _ _).
  assert (Hs : zlen src = len) by (unfold src; rewrite zlen_take, zlen_drop; lia).
  destruct (arr_blit (s_ota_buf o) (s_ota_buf_offset o) src) as [b|] eqn:Eb;
    [|rewrite arr_blit_Some in Eb by lia; done].
  pose proof (arr_blit_length _ _ _ _ Eb) as Hlb. cbn [mbind option_bind].
  rewrite (u16_small len), u16_small by lia. set (o1 := mk_ota _ b _ _ _ _).
  assert (Hok1 : ota_ok o1) by (split; cbn; lia).
  destruct (flush_total o1 d (s_ota_file_size o1 <=? s_ota_total_written o1) Hok1)
    as (o2 & d2 & r2 & E2 & Hok2 & Hbusy2).
  destruct (_ || _); [rewrite E2; cbn [mbind option_bind]; eexists _, _, _, _; eauto|].
  by eexists _, _, _, _.
Qed.

Lemma close_total o d ok :
  ota_ok o -> exists o' d' r, my_ota_flash_close o d ok = Some (o', d', r) /\
    ota_ok o' /\ s_ota_busy o' = false.
Proof.
  intros Hok. unfold my_ota_flash_close. destruct (s_ota_busy o) eqn:Eb; cbn [negb]; [|by eexists _, _, _].
  destruct (flush_total o d true Hok) as (o2 & d2 & r2 & E2 & [Hb2 Ho2] & _). pose proof Hok as [Hb Ho].
  destruct (ok && _); [rewrite E2|]; cbn [mbind option_bind]; writer_done.
Qed.
End writer.

(** ** A flash that works *)

(** Accesses inside the partition succeed. *)
Class ImageFlashWorks (W : Type) `{ImageFlash W} : Prop := {
  ifw_dev w : flash_dev w = true;
  ifw_write w off bs : 0 <= off -> off + zlen bs <= zlen (img_view w) ->
    exists w', flash_write w off bs = (w', 0);
  ifw_read w off n : 0 <= off -> 0 <= n -> off + n <= zlen (img_view w) ->
    exists w' bs, flash_read w off n = (w', 0, bs);
  ifw_erase w off n : 0 <= off -> 0 <= n -> off + n <= zlen (img_view w) ->
    exists w', flash_erase w off n = (w', 0)
}.

Section works.
Context {W : Type} {IF : ImageFlash W} {HL : ImageFlashLaws W} {HW : ImageFlashWorks W}.
Implicit Types (st : ota_state) (w : W).

Lemma flush_works st w last :
  ota_ok st -> 0 <= s_ota_block_addr st -> s_ota_block_addr st + 1024 <= zlen (img_view w) ->
  exists st' w', my_ota_flash_flush st w last = Some (st', w', 0) /\ zlen (img_view w') = zlen (img_view w).
Proof.
  intros [Hb Ho] Ha Hc. unfold my_ota_flash_flush. destruct (_ && _); [by eauto|].
  destruct (arr_slice_is_Some (s_ota_buf st) 0 (s_ota_buf_offset st)) as [cached Es]; [lia..|].
  rewrite (pad_buf _ _ cached Hb Ho Es). cbn [mbind option_bind].
  pose proof (arr_slice_length _ _ _ _ Es) as Hl. pose proof (zlen_block_of cached ltac:(lia)) as Hbl.
  set (b := block_of cached) in *. clearbody b. destruct (crc16_1024 b Hbl) as [c Ec].
  change MY_OTA_BUFFER_SIZE with 1024 in *. rewrite Ec. cbn [mbind option_bind].
  assert (Eb : arr_slice b 0 1024 = Some b) by (rewrite <- Hbl at 1; apply arr_slice_all). rewrite Eb. cbn [mbind option_bind].
  unfold my_ota_flash_write. rewrite ifw_dev. cbn [negb].
  destruct (ifw_write w (s_ota_block_addr st) b) as [w1 E1]; [lia..|]. rewrite E1. change (negb (0 =? 0)) with false. cbv iota.
  change (negb (0 =? 0)) with false. cbv iota.
  pose proof (ifl_write _ _ _ _ E1) as Hw1. pose proof (arr_blit_length _ _ _ _ Hw1) as Hl1.
  unfold my_ota_flash_read. rewrite ifw_dev. cbn [negb].
  destruct (ifw_read w1 (s_ota_block_addr st) 1024) as (w2 & bs & E2); [lia..|]. rewrite E2.
  change (negb (0 =? 0)) with false. cbv iota. change (negb (0 =? 0)) with false. cbv iota.
  destruct (ifl_read _ _ _ _ _ _ E2 ltac:(lia)) as (Hbs & Hv2 & Hs2). specialize (Hs2 eq_refl).
  pose proof (arr_slice_blit _ _ _ _ Hw1) as Hsb. rewrite Hbl, Hs2 in Hsb. injection Hsb as ->.
  rewrite Ec. cbn [mbind option_bind]. rewrite Z.eqb_refl. cbn [negb].
  destruct (arr_fill_1024 b 0 0xFF Hbl ltac:(lia)) as (b2 & E3 & _). change (1024 - 0) with 1024 in E3. rewrite E3.
  cbn [mbind option_bind]. eexists _, _. split; [reflexivity|]. by rewrite Hv2.
Qed.

Lemma write_block_works st w data d len :
  ota_inv st (img_view w) data -> ota_ok st -> 0 < len <= 1024 - s_ota_buf_offset st -> len <= zlen d ->
  s_ota_block_addr st + 1024 <= zlen (img_view w) ->
  exists st' w' last, my_ota_flash_write_block st w (Some d) len = Some (st', w', 0, last) /\
    zlen (img_view w') = zlen (img_view w).
Proof.
  intros Hi Hok Hlen Hd Hcap. pose proof Hi as [Hbusy Hbuf Hoff Haddr _ _ Htot Hsz _ _].
  unfold my_ota_flash_write_block. rewrite Hbusy. cbn [negb]. rewrite (proj2 (Z.eqb_neq len 0)) by lia.
  rewrite u32_small, (proj2 (Z.ltb_ge _ _)) by (unfold MY_OTA_BUFFER_SIZE; lia).
  rewrite arr_slice_Some by lia. rewrite drop_0. cbn [mbind option_bind].
  destruct (copy_spec st _ data (take (Z.to_nat len) d) Hi) as (buf & -> & Hbl & _); [rewrite zlen_take; lia|].
  cbn [mbind option_bind]. rewrite (u16_small len), u16_small by lia.
  match goal with |- context [my_ota_flash_flush ?s w ?l] =>
    destruct (flush_works s w l) as (st' & w' & E & Hl'); [split; cbn; lia|cbn; lia..|] end.
  destruct (_ || _); [|by eauto]. rewrite E. cbn [mbind option_bind]. by eauto.
Qed.

Lemma erase_works n : forall w addr size,
  0 <= addr -> addr mod 4096 = 0 -> 0 < size -> addr + size <= zlen (img_view w) ->
  zlen (img_view w) mod 4096 = 0 -> zlen (img_view w) < 4294960000 ->
  exists w', erase_loop n w addr size = (w', 0) /\ zlen (img_view w') = zlen (img_view w).
Proof.
  induction n as [|n IH]; intros w addr size Ha Hal Hs Hle Hm Hmax; cbn [erase_loop]; [by eauto|].
  rewrite (proj2 (Z.ltb_lt 0 size)) by lia. unfold FLASH_SECTOR_SIZE.
  assert (Hcap : addr + 4096 <= zlen (img_view w)) by (Z.div_mod_to_equations; lia).
  destruct (ifw_erase w addr 4096) as [w1 E1]; [lia..|]. rewrite E1. change (negb (0 =? 0)) with false. cbv iota.
  pose proof (ifl_erase _ _ _ _ E1) as Hw1. pose proof (arr_blit_length _ _ _ _ Hw1) as Hl1.
  destruct (Z.ltb_spec 4096 size); [|by eauto]. rewrite u32_small by lia.
  destruct (IH w1 (addr + 4096) (size - 4096)) as (w' & E & Hl'); try lia.
  - rewrite <- Zplus_mod_idemp_l, Hal. done.
  - by rewrite Hl1.
  - exists w'. split; [done|lia].
Qed.

Lemma open_works area st w fs :
  ota_ok st -> s_ota_busy st = true -> 0 < fs <= area -> area <= zlen (img_view w) ->
  zlen (img_view w) mod 4096 = 0 -> zlen (img_view w) < 4294960000 ->
  exists st' w', my_ota_flash_open area st w fs = Some (st', w', 0) /\ zlen (img_view w') = zlen (img_view w).
Proof.
  intros [Hb Ho] Hbusy Hfs Har Hm Hmax. unfold my_ota_flash_open. rewrite Hbusy. cbn [negb].
  rewrite (proj2 (Z.eqb_neq fs 0)), (proj2 (Z.ltb_ge area fs)) by lia. unfold my_ota_flash_erase. rewrite ifw_dev. cbn [negb].
  destruct (erase_works (S (Z.to_nat (fs / FLASH_SECTOR_SIZE))) w 0 fs) as (w' & E & Hl'); [lia|done|lia..|].
  rewrite E. change (negb (0 =? 0)) with false. cbv iota.
  destruct (arr_fill_1024 (s_ota_buf st) 0 0xFF Hb ltac:(lia)) as (b & Eb & _). change (1024 - 0) with 1024 in Eb.
  change MY_OTA_BUFFER_SIZE with 1024. rewrite Eb. cbn [mbind option_bind]. by eauto.
Qed.
End works.
