(* ===== verification/OtaFlashSim.v ===== *)
(** * Simulated image partitions

    A partition in memory that satisfies [ImageFlashLaws], one whose first
    cell loses a bit, and the theorems of [OtaFlashProofs] on them. *)

From S2P Require Import Prelude Crc OtaFlash OtaFlashProofs.

(** Accesses outside the partition are errors. *)
Definition ram_write (w : list Z) (off : Z) (bs : list Z) : list Z * Z :=
  match arr_blit w off bs with Some m => (m, 0) | None => (w, - EINVAL) end.

Definition ram_read (w : list Z) (off n : Z) : list Z * Z * list Z :=
  match arr_slice w off n with
  | Some bs => (w, 0, bs)
  | None => (w, - EINVAL, replicate (Z.to_nat n) 0)
  end.

Definition ram_erase (w : list Z) (off n : Z) : list Z * Z :=
  match arr_fill w off n 255 with Some m => (m, 0) | None => (w, - EINVAL) end.

#[export] Instance ram_flash : ImageFlash (list Z) := {
  flash_dev _ := true;
  img_view w := w;
  flash_write := ram_write;
  flash_read := ram_read;
  flash_erase := ram_erase
}.

#[export] Instance ram_laws : ImageFlashLaws (list Z).
Proof.
  split; simpl.
  - intros w off bs w'. unfold ram_write. by destruct (arr_blit _ _ _); intros [= <-].
  - intros w off n w' r bs. unfold ram_read. destruct (arr_slice w off n) as [s|] eqn:E.
    + intros [= <- <- <-] Hn. split; [by apply arr_slice_length in E|done].
    + intros [= <- <- <-] Hn. rewrite zlen_replicate. split; [lia|done].
  - intros w off n w'. unfold ram_erase. by destruct (arr_fill _ _ _ _); intros [= <-].
Qed.

#[export] Instance ram_works : ImageFlashWorks (list Z).
Proof.
  split; simpl.
  - done.
  - intros w off bs H1 H2. unfold ram_write. rewrite arr_blit_Some by lia. eauto.
  - intros w off n H1 H2 H3. unfold ram_read. rewrite arr_slice_Some by lia. eauto.
  - intros w off n H1 H2 H3. unfold ram_erase, arr_fill. rewrite arr_blit_Some by (rewrite ?zlen_replicate; lia). eauto.
Qed.

Definition idle : ota_state := mk_ota false (replicate 1024 0) 0 0 0 0.
Definition part : list Z := replicate (Z.to_nat 8192) 0.
Definition fw_chunks : list (list Z) := [replicate 1024 1; replicate 128 2; replicate 48 3].

(** The session after [occupy] and [open] of a 1200-byte image. *)
Definition opened : ota_state * list Z :=
  match my_ota_flash_open 8192 (fst (my_ota_flash_occupy idle)) part 1200 with
  | Some (st, w, _) => (st, w)
  | None => (idle, part)
  end.

Lemma ota_transfer_exact_witness :
  exists st1 w1 r last,
    write_all (fst opened) (snd opened) fw_chunks = Some (st1, w1, r, last) /\
    (r = 0 -> arr_slice w1 0 1200 = Some (concat fw_chunks)).
Proof.
  destruct (ota_transfer_exact 8192 (fst (my_ota_flash_occupy idle)) part 1200
              (fst opened) (snd opened) fw_chunks) as (st1 & w1 & r & last & E & H).
  - reflexivity.
  - lia.
  - lia.
  - vm_compute. reflexivity.
  - vm_compute. intuition congruence.
  - exists st1, w1, r, last. split; [exact E|]. intros Hr. apply (H Hr).
Defined.

Example fw_transfer_ok :
  (fun '(_, _, r, last) => (r, last)) <$> write_all (fst opened) (snd opened) fw_chunks
  = Some (0, true).
Proof. vm_compute. reflexivity. Qed.

(** A partition whose first cell drops its low bit. *)
Definition worn_flash : ImageFlash (list Z) := {|
  flash_dev _ := true;
  img_view w := w;
  flash_write w off bs :=
    let '(m, r) := ram_write w off bs in (alter (fun b => Z.land b 254) 0%nat m, r);
  flash_read := ram_read;
  flash_erase := ram_erase
|}.

Lemma flush_detects_corruption_witness :
  exists st' w2,
    @my_ota_flash_flush (list Z) worn_flash (mk_ota true (replicate 1024 1) 1024 0 1024 4096)
      part false = Some (st', w2, - EIO).
Proof.
  destruct (@flush_detects_corruption (list Z) worn_flash
    (mk_ota true (replicate 1024 1) 1024 0 1024 4096) part
    (0 :: replicate 1023 1 ++ replicate (Z.to_nat 7168) 0)
    (0 :: replicate 1023 1 ++ replicate (Z.to_nat 7168) 0)
    (replicate 1024 1) [] [1] [0] (replicate 1023 1) false) as [st' H];
    try (vm_compute; reflexivity); try (vm_compute; intuition congruence).
  - apply (Forall_replicate is_byte 1024 1). unfold is_byte. lia.
  - repeat constructor; unfold is_byte; lia.
  - exists st', (0 :: replicate 1023 1 ++ replicate (Z.to_nat 7168) 0). exact H.
Defined.
