(* ===== verification/Prog.v ===== *)
(** * Programs with state, a world and failure

    The monad in which the protocol code is written: a private state [S] (the
    handle of the module), the outside world [W] its callbacks act on, and
    three ways to end: a result, the fuel of an unbounded loop used up, or an
    access outside an object. *)

From S2P Require Import Prelude.

Inductive res (A : Type) := Done (a : A) | NoFuel | Undef.
Arguments Done {A} _.
Arguments NoFuel {A}.
Arguments Undef {A}.

Definition prog (S W A : Type) : Type := S -> W -> res (A * S * W).

Section prog.
Context {S W : Type}.

Definition ret {A} (a : A) : prog S W A := fun y w => Done (a, y, w).
Definition bind {A B} (m : prog S W A) (k : A -> prog S W B) : prog S W B := fun y w =>
  match m y w with
  | Done (a, y', w') => k a y' w'
  | NoFuel => NoFuel
  | Undef => Undef
  end.
Definition get {A} (f : S -> A) : prog S W A := fun y w => Done (f y, y, w).
Definition modify (f : S -> S) : prog S W unit := fun y w => Done (tt, f y, w).
Definition checked {A} (o : option A) : prog S W A := fun y w =>
  match o with Some a => Done (a, y, w) | None => Undef end.
Definition world {A} (f : W -> W * A) : prog S W A := fun y w =>
  let '(w', a) := f w in Done (a, y, w').
Definition world_checked {A} (f : W -> option (W * A)) : prog S W A := fun y w =>
  match f w with Some (w', a) => Done (a, y, w') | None => Undef end.
Definition no_fuel {A} : prog S W A := fun _ _ => NoFuel.
End prog.

Declare Scope prog_scope.
Delimit Scope prog_scope with prog.
Notation "x <- m ;; k" := (bind m (fun x => k))
  (at level 100, m at next level, right associativity) : prog_scope.
Notation "m ;; k" := (bind m (fun _ => k)) (at level 100, right associativity) : prog_scope.

(** ** Weakest preconditions *)

Section wp.
Context {S W : Type}.
Implicit Types (y : S) (w : W).

(** No access out of bounds, and [Q] if the code returns. *)
Definition wp {A} (m : prog S W A) (Q : A -> S -> W -> Prop) y w : Prop :=
  match m y w with
  | Done (a, y', w') => Q a y' w'
  | NoFuel => True
  | Undef => False
  end.

Lemma wp_bind {A B} (m : prog S W A) (k : A -> prog S W B) Q y w :
  wp m (fun a => wp (k a) Q) y w -> wp (bind m k) Q y w.
Proof. unfold wp, bind. by destruct (m y w) as [[[a y'] w']| |]. Qed.

Lemma wp_ret {A} (a : A) (Q : A -> S -> W -> Prop) y w : Q a y w -> wp (ret a) Q y w.
Proof. done. Qed.

Lemma wp_get {A} (f : S -> A) (Q : A -> S -> W -> Prop) y w : Q (f y) y w -> wp (get f) Q y w.
Proof. done. Qed.

Lemma wp_modify f (Q : unit -> S -> W -> Prop) y w : Q tt (f y) w -> wp (modify f) Q y w.
Proof. done. Qed.

Lemma wp_checked {A} (o : option A) (Q : A -> S -> W -> Prop) y w a :
  o = Some a -> Q a y w -> wp (checked o) Q y w.
Proof. intros -> H. exact H. Qed.

Lemma wp_world {A} (f : W -> W * A) (Q : A -> S -> W -> Prop) y w :
  (forall a w', f w = (w', a) -> Q a y w') -> wp (world f) Q y w.
Proof. intros H. unfold wp, world. destruct (f w) as [w' a]. by apply H. Qed.

Lemma wp_world_checked {A} (f : W -> option (W * A)) (Q : A -> S -> W -> Prop) y w :
  (exists w' a, f w = Some (w', a) /\ Q a y w') -> wp (world_checked f) Q y w.
Proof. intros (w' & a & E & H). unfold wp, world_checked. by rewrite E. Qed.

Lemma wp_mono {A} (m : prog S W A) (P Q : A -> S -> W -> Prop) y w :
  wp m P y w -> (forall a y' w', P a y' w' -> Q a y' w') -> wp m Q y w.
Proof. unfold wp. destruct (m y w) as [[[a y'] w']| |]; auto. Qed.

(** Running the first half of a sequence. *)
Lemma bind_done {A B} (m : prog S W A) (k : A -> prog S W B) y w a y' w' :
  m y w = Done (a, y', w') -> bind m k y w = k a y' w'.
Proof. intros E. unfold bind. by rewrite E. Qed.

(** The first half may be replaced by what it comes down to. *)
Lemma bind_first {A B} (m m' : prog S W A) (k : A -> prog S W B) y w y' w' :
  m y w = m' y' w' -> bind m k y w = bind m' k y' w'.
Proof. intros E. unfold bind. by rewrite E. Qed.
End wp.

(** One step of symbolic execution. *)
Ltac wstep :=
  lazymatch goal with
  | |- wp (bind _ _) _ _ _ => apply wp_bind
  | |- wp (ret _) _ _ _ => apply wp_ret
  | |- wp (get _) _ _ _ => apply wp_get
  | |- wp (modify _) _ _ _ => apply wp_modify
  | |- wp (if ?b then _ else _) _ _ _ => destruct b eqn:?
  end.

(** ** Total correctness *)

Section twp.
Context {S W : Type}.
Implicit Types (y : S) (w : W).

(** The code returns, without an access out of bounds, and [Q] holds. *)
Definition twp {A} (m : prog S W A) (Q : A -> S -> W -> Prop) y w : Prop :=
  match m y w with
  | Done (a, y', w') => Q a y' w'
  | _ => False
  end.

Lemma twp_done {A} (m : prog S W A) Q y w :
  twp m Q y w -> exists a y' w', m y w = Done (a, y', w') /\ Q a y' w'.
Proof. unfold twp. destruct (m y w) as [[[a y'] w']| |]; [|done..]. by exists a, y', w'. Qed.

Lemma twp_intro {A} (m : prog S W A) (Q : A -> S -> W -> Prop) y w a y' w' :
  m y w = Done (a, y', w') -> Q a y' w' -> twp m Q y w.
Proof. intros E H. unfold twp. by rewrite E. Qed.

Lemma twp_bind {A B} (m : prog S W A) (k : A -> prog S W B) Q y w :
  twp m (fun a => twp (k a) Q) y w -> twp (bind m k) Q y w.
Proof. unfold twp, bind. by destruct (m y w) as [[[a y'] w']| |]. Qed.

Lemma twp_ret {A} (a : A) (Q : A -> S -> W -> Prop) y w : Q a y w -> twp (ret a) Q y w.
Proof. done. Qed.

Lemma twp_get {A} (f : S -> A) (Q : A -> S -> W -> Prop) y w : Q (f y) y w -> twp (get f) Q y w.
Proof. done. Qed.

Lemma twp_modify f (Q : unit -> S -> W -> Prop) y w : Q tt (f y) w -> twp (modify f) Q y w.
Proof. done. Qed.

Lemma twp_checked {A} (o : option A) (Q : A -> S -> W -> Prop) y w a :
  o = Some a -> Q a y w -> twp (checked o) Q y w.
Proof. intros -> H. exact H. Qed.

Lemma twp_world {A} (f : W -> W * A) (Q : A -> S -> W -> Prop) y w :
  (forall a w', f w = (w', a) -> Q a y w') -> twp (world f) Q y w.
Proof. intros H. unfold twp, world. destruct (f w) as [w' a]. by apply H. Qed.

Lemma twp_world_checked {A} (f : W -> option (W * A)) (Q : A -> S -> W -> Prop) y w :
  (exists w' a, f w = Some (w', a) /\ Q a y w') -> twp (world_checked f) Q y w.
Proof. intros (w' & a & E & H). unfold twp, world_checked. by rewrite E. Qed.

Lemma twp_mono {A} (m : prog S W A) (P Q : A -> S -> W -> Prop) y w :
  twp m P y w -> (forall a y' w', P a y' w' -> Q a y' w') -> twp m Q y w.
Proof. unfold twp. destruct (m y w) as [[[a y'] w']| |]; auto. Qed.

Lemma twp_and {A} (m : prog S W A) (P Q : A -> S -> W -> Prop) y w :
  twp m P y w -> twp m Q y w -> twp m (fun a y' w' => P a y' w' /\ Q a y' w') y w.
Proof. unfold twp. by destruct (m y w) as [[[a y'] w']| |]. Qed.
End twp.

Ltac tstep :=
  lazymatch goal with
  | |- twp (bind _ _) _ _ _ => apply twp_bind
  | |- twp (ret _) _ _ _ => apply twp_ret
  | |- twp (get _) _ _ _ => apply twp_get; repeat match goal with |- context [id ?y] => change (id y) with y end
  | |- twp (modify _) _ _ _ => apply twp_modify
  | |- twp (if ?b then _ else _) _ _ _ => destruct b eqn:?
  end.

(** ** What holds if the code returns *)

Section post.
Context {S W : Type}.
Implicit Types (y : S) (w : W).

Definition post {A} (m : prog S W A) (Q : A -> S -> W -> Prop) y w : Prop :=
  forall a y' w', m y w = Done (a, y', w') -> Q a y' w'.

Lemma post_bind {A B} (m : prog S W A) (k : A -> prog S W B) Q y w :
  post m (fun a => post (k a) Q) y w -> post (bind m k) Q y w.
Proof.
  intros H b y2 w2 E. unfold bind in E. destruct (m y w) as [[[a y'] w']| |] eqn:Em; [|done..]. exact (H a y' w' Em _ _ _ E).
Qed.

Lemma post_ret {A} (a : A) (Q : A -> S -> W -> Prop) y w : Q a y w -> post (ret a) Q y w.
Proof. by intros H b y' w' [= <- <- <-]. Qed.

Lemma post_get {A} (f : S -> A) (Q : A -> S -> W -> Prop) y w : Q (f y) y w -> post (get f) Q y w.
Proof. by intros H b y' w' [= <- <- <-]. Qed.

Lemma post_modify f (Q : unit -> S -> W -> Prop) y w : Q tt (f y) w -> post (modify f) Q y w.
Proof. by intros H b y' w' [= <- <- <-]. Qed.

Lemma post_checked {A} (o : option A) (Q : A -> S -> W -> Prop) y w :
  (forall a, o = Some a -> Q a y w) -> post (checked o) Q y w.
Proof. intros H b y' w' E. unfold checked in E. destruct o; [|done]. injection E as <- <- <-. by apply H. Qed.

Lemma post_world {A} (f : W -> W * A) (Q : A -> S -> W -> Prop) y w :
  (forall a w', f w = (w', a) -> Q a y w') -> post (world f) Q y w.
Proof. intros H b y' w' E. unfold world in E. destruct (f w) as [w1 a]. injection E as <- <- <-. by apply H. Qed.

Lemma post_mono {A} (m : prog S W A) (P Q : A -> S -> W -> Prop) y w :
  post m P y w -> (forall a y' w', P a y' w' -> Q a y' w') -> post m Q y w.
Proof. intros Hp HQ a y' w' E. by apply HQ, Hp. Qed.

(** The code is deterministic. *)
Lemma twp_post {A} (m : prog S W A) (P Q : A -> S -> W -> Prop) y w :
  twp m P y w -> post m Q y w -> twp m (fun a y' w' => P a y' w' /\ Q a y' w') y w.
Proof. intros Hp HQ. apply twp_done in Hp as (a & y' & w' & E & H). eapply twp_intro; [exact E|]. split; [done|by apply HQ]. Qed.
End post.

Ltac pstep :=
  lazymatch goal with
  | |- post (bind _ _) _ _ _ => apply post_bind
  | |- post (ret _) _ _ _ => apply post_ret
  | |- post (get _) _ _ _ => apply post_get; repeat match goal with |- context [id ?y] => change (id y) with y end
  | |- post (modify _) _ _ _ => apply post_modify
  | |- post (checked _) _ _ _ => apply post_checked
  | |- post (world _) _ _ _ => apply post_world
  | |- post (if ?b then _ else _) _ _ _ => destruct b eqn:?
  end.

(** ** Properties of the world that code does not touch *)

Section keeps.
Context {S W : Type} (P : W -> Prop).

Definition keeps {A} (m : prog S W A) : Prop :=
  forall y w a y' w', m y w = Done (a, y', w') -> P w -> P w'.

Lemma keeps_bind {A B} (m : prog S W A) (k : A -> prog S W B) :
  keeps m -> (forall a, keeps (k a)) -> keeps (bind m k).
Proof.
  intros Hm Hk y w b y' w' E HP. unfold bind in E. destruct (m y w) as [[[a y1] w1]| |] eqn:Em; [|done..].
  eapply Hk; [exact E|]. by eapply Hm.
Qed.

Lemma keeps_ret {A} (a : A) : keeps (ret a).
Proof. by intros y w b y' w' [= _ _ <-]. Qed.

Lemma keeps_get {A} (f : S -> A) : keeps (get f).
Proof. by intros y w b y' w' [= _ _ <-]. Qed.

Lemma keeps_modify (f : S -> S) : keeps (modify f).
Proof. by intros y w b y' w' [= _ _ <-]. Qed.

Lemma keeps_checked {A} (o : option A) : keeps (checked o).
Proof. intros y w b y' w' E. unfold checked in E. destruct o; [|done]. by injection E as _ _ <-. Qed.

Lemma keeps_world {A} (f : W -> W * A) : (forall w, P w -> P (fst (f w))) -> keeps (world f).
Proof.
  intros Hf y w b y' w' E HP. unfold world in E. specialize (Hf w HP). destruct (f w) as [w1 a]. by injection E as _ _ <-.
Qed.
End keeps.

Create HintDb keeps.
#[export] Hint Resolve keeps_bind keeps_ret keeps_get keeps_modify keeps_checked keeps_world : keeps.
