(* ===== verification/Settings.v ===== *)
(** * Settings in memory and in flash ([my_zms_param.c])

    [gConfigParam] holds every setting; each is also stored in flash under its
    own identifier.  At start the settings are read back, and a setting that is
    missing, short or not marked valid gets its default. *)

From S2P Require Import Prelude Text Str FlashStore Prog Layout SettingsData.

Open Scope prog_scope.

(** ** All settings *)

Record config_param_t := mk_config {
  lic_ff : lic_ff_t;
  lic_gg : lic_gg_t;
  adv_valid_value : adv_valid_value_t;
  ECDH_GValue : ecdh_g_t;
  gsm_sn : gsm_sn_t;
  my_macaddr : macaddr_t;
  ble_tx_power : ble_tx_power_t;
  ble_log_config : ble_log_config_t;
  device_workmode_config : work_mode_config_t;
  remalm_config : remalm_config_t;
  pullalm_config : pullalm_config_t;
  patalm_config : patalm_config_t;
  tempalm_config : tempalm_config_t;
  motdet_config : mot_det_config_t;
  motdetalm_config : motdetalm_config_t;
  batlevel_config : bat_level_config_t;
  startr_config : startr_config_t;
  pwrlimit_config : pwrlimit_config_t;
  lprunning_config : lprunning_config_t;
  bt_updata_config : bt_updata_config_t;
  bluetooth_config : bluetooth_config_t;
  btconnect_config : btconnect_config_t;
  tag_config : tag_config_t;
  led_config : led_config_t;
  ltint_config : ltint_config_t;
  buzzer_config : buzzer_config_t;
  bparmac_config : bparmac_config_t;
  patm_timer_config : patm_timer_config_t;
  temp_timer_config : temp_timer_config_t;
  imu_alm_config : imu_alm_config_t;
  imu_zero_bias_config : imu_zero_bias_config_t;
  shutdown_config : shutdown_config_t
}.

(** Where a setting is stored, its default, its documented values, and its place in [gConfigParam]. *)
Class Setting (A : Type) := {
  setting_stored :: Stored A;
  store_id : Z;
  dflt : A;
  documented : A -> bool;
  field : config_param_t -> A;
  put : A -> config_param_t -> config_param_t
}.

(** [gConfigParam] with one member, the one of the type of [a], replaced. *)
Ltac put_field a c :=
  constructor; first [exact a
    | exact (lic_ff c) | exact (lic_gg c) | exact (adv_valid_value c) | exact (ECDH_GValue c) | exact (gsm_sn c) |
      exact (my_macaddr c) | exact (ble_tx_power c) | exact (ble_log_config c) | exact (device_workmode_config c) |
      exact (remalm_config c) | exact (pullalm_config c) | exact (patalm_config c) | exact (tempalm_config c) | exact
      (motdet_config c) | exact (motdetalm_config c) | exact (batlevel_config c) | exact (startr_config c) | exact
      (pwrlimit_config c) | exact (lprunning_config c) | exact (bt_updata_config c) | exact (bluetooth_config c) |
      exact (btconnect_config c) | exact (tag_config c) | exact (led_config c) | exact (ltint_config c) | exact
      (buzzer_config c) | exact (bparmac_config c) | exact (patm_timer_config c) | exact (temp_timer_config c) | exact
      (imu_alm_config c) | exact (imu_zero_bias_config c) | exact (shutdown_config c)].

#[export] Instance ff_setting : Setting lic_ff_t :=
  {| store_id := ZMS_ID_FF; dflt := no_ff; documented := any_ok; field := lic_ff; put a c := ltac:(put_field a c) |}.
#[export] Instance gg_setting : Setting lic_gg_t :=
  {| store_id := ZMS_ID_GG; dflt := no_gg; documented := any_ok; field := lic_gg; put a c := ltac:(put_field a c) |}.
#[export] Instance adv_valid_setting : Setting adv_valid_value_t :=
  {| store_id := ZMS_ID_ADV_VALID; dflt := gDefaultAdvValidValue; documented := adv_valid_ok; field := adv_valid_value; put a c := ltac:(put_field a c) |}.
#[export] Instance ecdh_setting : Setting ecdh_g_t :=
  {| store_id := ZMS_ID_ECDH_G; dflt := gDefaultEcdhGValue; documented := ecdh_ok; field := ECDH_GValue; put a c := ltac:(put_field a c) |}.
#[export] Instance sn_setting : Setting gsm_sn_t :=
  {| store_id := ZMS_ID_SN; dflt := gDefaultSnValue; documented := any_ok; field := gsm_sn; put a c := ltac:(put_field a c) |}.
#[export] Instance mac_setting : Setting macaddr_t :=
  {| store_id := ZMS_ID_MAC; dflt := gDefaultMacAddr; documented := any_ok; field := my_macaddr; put a c := ltac:(put_field a c) |}.
#[export] Instance tx_power_setting : Setting ble_tx_power_t :=
  {| store_id := ZMS_ID_BLE_TX_POWER; dflt := gDefaultBleTxPower; documented := tx_power_ok; field := ble_tx_power; put a c := ltac:(put_field a c) |}.
#[export] Instance log_setting : Setting ble_log_config_t :=
  {| store_id := ZMS_ID_BLE_LOG_CONFIG; dflt := gDefaultBleLogConfig; documented := log_ok; field := ble_log_config; put a c := ltac:(put_field a c) |}.
#[export] Instance workmode_setting : Setting work_mode_config_t :=
  {| store_id := ZMS_ID_WORK_MODE_CONFIG; dflt := gDefaultWorkModeConfig; documented := workmode_ok; field := device_workmode_config; put a c := ltac:(put_field a c) |}.
#[export] Instance remalm_setting : Setting remalm_config_t :=
  {| store_id := ZMS_ID_REM_ALM_CONFIG; dflt := gDefaultRemAlmConfig; documented := remalm_ok; field := remalm_config; put a c := ltac:(put_field a c) |}.
#[export] Instance pullalm_setting : Setting pullalm_config_t :=
  {| store_id := ZMS_ID_PULL_ALM_CONFIG; dflt := gDefaultPullAlmConfig; documented := pullalm_ok; field := pullalm_config; put a c := ltac:(put_field a c) |}.
#[export] Instance patalm_setting : Setting patalm_config_t :=
  {| store_id := ZMS_ID_PATMALM_CONFIG; dflt := gDefaultPatAlmConfig; documented := patalm_ok; field := patalm_config; put a c := ltac:(put_field a c) |}.
#[export] Instance tempalm_setting : Setting tempalm_config_t :=
  {| store_id := ZMS_ID_TEMPALM_CONFIG; dflt := gDefaultTempAlmConfig; documented := tempalm_ok; field := tempalm_config; put a c := ltac:(put_field a c) |}.
#[export] Instance motdet_setting : Setting mot_det_config_t :=
  {| store_id := ZMS_ID_MOT_DET_CONFIG; dflt := gDefaultMotDetConfig; documented := motdet_ok; field := motdet_config; put a c := ltac:(put_field a c) |}.
#[export] Instance motdetalm_setting : Setting motdetalm_config_t :=
  {| store_id := ZMS_ID_MOTDETALM_CONFIG; dflt := gDefaultMotDetAlmConfig; documented := motdetalm_ok; field := motdetalm_config; put a c := ltac:(put_field a c) |}.
#[export] Instance batlevel_setting : Setting bat_level_config_t :=
  {| store_id := ZMS_ID_BAT_LEVEL_CONFIG; dflt := gDefaultBatlevelConfig; documented := batlevel_ok; field := batlevel_config; put a c := ltac:(put_field a c) |}.
#[export] Instance startr_setting : Setting startr_config_t :=
  {| store_id := ZMS_ID_STARTR_CONFIG; dflt := gDefaultStartrConfig; documented := startr_ok; field := startr_config; put a c := ltac:(put_field a c) |}.
#[export] Instance pwrlimit_setting : Setting pwrlimit_config_t :=
  {| store_id := ZMS_ID_PWRLIMIT_CONFIG; dflt := gDefaultPWRlimitConfig; documented := pwrlimit_ok; field := pwrlimit_config; put a c := ltac:(put_field a c) |}.
#[export] Instance lprunning_setting : Setting lprunning_config_t :=
  {| store_id := ZMS_ID_LPSLEEP_CONFIG; dflt := gDefaultlprunningConfig; documented := lprunning_ok; field := lprunning_config; put a c := ltac:(put_field a c) |}.
#[export] Instance bt_updata_setting : Setting bt_updata_config_t :=
  {| store_id := ZMS_ID_BT_UPDATA_CONFIG; dflt := gDefaultBtUpdataConfig; documented := bt_updata_ok; field := bt_updata_config; put a c := ltac:(put_field a c) |}.
#[export] Instance bluetooth_cfg_setting : Setting bluetooth_config_t :=
  {| store_id := ZMS_ID_BLUETOOTH_CONFIG; dflt := gDefaultBluetoothConfig; documented := bluetooth_ok; field := bluetooth_config; put a c := ltac:(put_field a c) |}.
#[export] Instance btconnect_setting : Setting btconnect_config_t :=
  {| store_id := ZMS_ID_BTCONNECT_CONFIG; dflt := gDefaultBtconnectConfig; documented := btconnect_ok; field := btconnect_config; put a c := ltac:(put_field a c) |}.
#[export] Instance tag_setting : Setting tag_config_t :=
  {| store_id := ZMS_ID_TAG_CONFIG; dflt := gDefaultTagConfig; documented := tag_ok; field := tag_config; put a c := ltac:(put_field a c) |}.
#[export] Instance led_setting : Setting led_config_t :=
  {| store_id := ZMS_ID_LED_CONFIG; dflt := gDefaultLedConfig; documented := led_ok; field := led_config; put a c := ltac:(put_field a c) |}.
#[export] Instance ltint_setting : Setting ltint_config_t :=
  {| store_id := ZMS_ID_LTINT_CONFIG; dflt := gDefaultLtintConfig; documented := ltint_ok; field := ltint_config; put a c := ltac:(put_field a c) |}.
#[export] Instance buzzer_setting : Setting buzzer_config_t :=
  {| store_id := ZMS_ID_BUZZER_CONFIG; dflt := gDefaultBuzzerConfig; documented := buzzer_ok; field := buzzer_config; put a c := ltac:(put_field a c) |}.
#[export] Instance bparmac_setting : Setting bparmac_config_t :=
  {| store_id := ZMS_ID_BT_PARMAC_CONFIG; dflt := gDefaultBparmacConfig; documented := bparmac_ok; field := bparmac_config; put a c := ltac:(put_field a c) |}.
#[export] Instance patm_timer_setting : Setting patm_timer_config_t :=
  {| store_id := ZMS_ID_PATM_TIMER_CONFIG; dflt := gDefaultPatmTimerConfig; documented := patm_timer_ok; field := patm_timer_config; put a c := ltac:(put_field a c) |}.
#[export] Instance temp_timer_setting : Setting temp_timer_config_t :=
  {| store_id := ZMS_ID_TEMP_TIMER_CONFIG; dflt := gDefaultTempTimerConfig; documented := temp_timer_ok; field := temp_timer_config; put a c := ltac:(put_field a c) |}.
#[export] Instance imu_alm_setting : Setting imu_alm_config_t :=
  {| store_id := ZMS_ID_IMU_ALM_CONFIG; dflt := gDefaultImuAlmConfig; documented := imu_alm_ok; field := imu_alm_config; put a c := ltac:(put_field a c) |}.
#[export] Instance imu_zero_bias_setting : Setting imu_zero_bias_config_t :=
  {| store_id := ZMS_ID_IMU_ZERO_BIAS_CONFIG; dflt := gDefaultImuZeroBiasConfig; documented := any_ok; field := imu_zero_bias_config; put a c := ltac:(put_field a c) |}.
#[export] Instance shutdown_cfg_setting : Setting shutdown_config_t :=
  {| store_id := ZMS_ID_SHUTDOWN_CONFIG; dflt := gDefaultShutdownConfig; documented := any_ok; field := shutdown_config; put a c := ltac:(put_field a c) |}.

(** A statement about every setting. *)
Definition for_all (P : forall A : Type, Setting A -> A -> Prop) (c : config_param_t) : Prop :=
  P _ _ (lic_ff c) /\ P _ _ (lic_gg c) /\ P _ _ (adv_valid_value c) /\ P _ _ (ECDH_GValue c) /\ P _ _ (gsm_sn c) /\ P _ _
    (my_macaddr c) /\ P _ _ (ble_tx_power c) /\ P _ _ (ble_log_config c) /\ P _ _ (device_workmode_config c) /\ P _ _
    (remalm_config c) /\ P _ _ (pullalm_config c) /\ P _ _ (patalm_config c) /\ P _ _ (tempalm_config c) /\ P _ _
    (motdet_config c) /\ P _ _ (motdetalm_config c) /\ P _ _ (batlevel_config c) /\ P _ _ (startr_config c) /\ P _ _
    (pwrlimit_config c) /\ P _ _ (lprunning_config c) /\ P _ _ (bt_updata_config c) /\ P _ _ (bluetooth_config c) /\ P _ _
    (btconnect_config c) /\ P _ _ (tag_config c) /\ P _ _ (led_config c) /\ P _ _ (ltint_config c) /\ P _ _ (buzzer_config
    c) /\ P _ _ (bparmac_config c) /\ P _ _ (patm_timer_config c) /\ P _ _ (temp_timer_config c) /\ P _ _ (imu_alm_config
    c) /\ P _ _ (imu_zero_bias_config c) /\ P _ _ (shutdown_config c).

(** What an update of one setting does to such a statement. *)
Class SettingLaws (A : Type) `{Setting A} : Prop := {
  setting_size : 0 < sizeof (items (A := A));
  dflt_ok : typed (dflt (A := A)) /\ documented (dflt (A := A)) = true;
  field_put a c : field (put a c) = a;
  put_put a b c : put a (put b c) = put a c;
  for_all_field (P : forall B : Type, Setting B -> B -> Prop) c : for_all P c -> P A _ (field c);
  for_all_put (P Q : forall B : Type, Setting B -> B -> Prop) a c : for_all P c -> Q A _ a ->
    (forall B (SB : Setting B) b, store_id (Setting := SB) <> store_id (A := A) -> P B SB b -> Q B SB b) ->
    for_all Q (put a c)
}.

Ltac setting_laws :=
  split; [done|repeat split; vm_compute; try done; repeat constructor|done|done|unfold for_all; cbn; tauto|];
  intros P Q a c Hc Ha Hne; unfold for_all in *; cbn [put] in *;
  repeat match goal with H : _ /\ _ |- _ => destruct H end;
  repeat split; first [exact Ha | apply Hne; [discriminate|assumption]].

#[export] Instance ff_laws : SettingLaws lic_ff_t.
Proof. setting_laws. Qed.
#[export] Instance gg_laws : SettingLaws lic_gg_t.
Proof. setting_laws. Qed.
#[export] Instance adv_valid_laws : SettingLaws adv_valid_value_t.
Proof. setting_laws. Qed.
#[export] Instance ecdh_laws : SettingLaws ecdh_g_t.
Proof. setting_laws. Qed.
#[export] Instance sn_laws : SettingLaws gsm_sn_t.
Proof. setting_laws. Qed.
#[export] Instance mac_laws : SettingLaws macaddr_t.
Proof. setting_laws. Qed.
#[export] Instance tx_power_laws : SettingLaws ble_tx_power_t.
Proof. setting_laws. Qed.
#[export] Instance log_laws : SettingLaws ble_log_config_t.
Proof. setting_laws. Qed.
#[export] Instance workmode_laws : SettingLaws work_mode_config_t.
Proof. setting_laws. Qed.
#[export] Instance remalm_laws : SettingLaws remalm_config_t.
Proof. setting_laws. Qed.
#[export] Instance pullalm_laws : SettingLaws pullalm_config_t.
Proof. setting_laws. Qed.
#[export] Instance patalm_laws : SettingLaws patalm_config_t.
Proof. setting_laws. Qed.
#[export] Instance tempalm_laws : SettingLaws tempalm_config_t.
Proof. setting_laws. Qed.
#[export] Instance motdet_laws : SettingLaws mot_det_config_t.
Proof. setting_laws. Qed.
#[export] Instance motdetalm_laws : SettingLaws motdetalm_config_t.
Proof. setting_laws. Qed.
#[export] Instance batlevel_laws : SettingLaws bat_level_config_t.
Proof. setting_laws. Qed.
#[export] Instance startr_laws : SettingLaws startr_config_t.
Proof. setting_laws. Qed.
#[export] Instance pwrlimit_laws : SettingLaws pwrlimit_config_t.
Proof. setting_laws. Qed.
#[export] Instance lprunning_laws : SettingLaws lprunning_config_t.
Proof. setting_laws. Qed.
#[export] Instance bt_updata_laws : SettingLaws bt_updata_config_t.
Proof. setting_laws. Qed.
#[export] Instance bluetooth_cfg_laws : SettingLaws bluetooth_config_t.
Proof. setting_laws. Qed.
#[export] Instance btconnect_laws : SettingLaws btconnect_config_t.
Proof. setting_laws. Qed.
#[export] Instance tag_laws : SettingLaws tag_config_t.
Proof. setting_laws. Qed.
#[export] Instance led_laws : SettingLaws led_config_t.
Proof. setting_laws. Qed.
#[export] Instance ltint_laws : SettingLaws ltint_config_t.
Proof. setting_laws. Qed.
#[export] Instance buzzer_laws : SettingLaws buzzer_config_t.
Proof. setting_laws. Qed.
#[export] Instance bparmac_laws : SettingLaws bparmac_config_t.
Proof. setting_laws. Qed.
#[export] Instance patm_timer_laws : SettingLaws patm_timer_config_t.
Proof. setting_laws. Qed.
#[export] Instance temp_timer_laws : SettingLaws temp_timer_config_t.
Proof. setting_laws. Qed.
#[export] Instance imu_alm_laws : SettingLaws imu_alm_config_t.
Proof. setting_laws. Qed.
#[export] Instance imu_zero_bias_laws : SettingLaws imu_zero_bias_config_t.
Proof. setting_laws. Qed.
#[export] Instance shutdown_cfg_laws : SettingLaws shutdown_config_t.
Proof. setting_laws. Qed.

Lemma for_all_mono (P Q : forall A : Type, Setting A -> A -> Prop) c :
  for_all P c -> (forall A (SA : Setting A) a, P A SA a -> Q A SA a) -> for_all Q c.
Proof. unfold for_all. intros Hc H. repeat match goal with H : _ /\ _ |- _ => destruct H end. repeat split; by apply H. Qed.

(** ** State and device *)

(** The global variables of [my_zms_param.c] and [my_cmd_setting.c]. *)
Record globals := mk_globals {
  gConfigParam : config_param_t;
  inited : bool;
  g_factory_mode : bool;
  g_lte_cmdSource : Z
}.

Definition set_config (c : config_param_t) (g : globals) : globals := mk_globals c (inited g) (g_factory_mode g) (g_lte_cmdSource g).

(** [my_adv_t]. *)
Definition APPLE_ADV_TYPE : Z := 0.
Definition GOOGLE_ADV_TYPE : Z := 1.

(** Storage, and the switches of the two advertisers. *)
Class SettingsIO (W : Type) := {
  settings_storage :: StorageIO W;
  flash_area_open : W -> W * Z;
  device_is_ready : W -> bool;
  zms_mount : W -> W * Z;
  zms_clear : W -> W * Z;
  set_adv_valid_status : Z -> Z -> W -> W
}.

(** Opening and mounting keep what is stored; [zms_clear] erases it. *)
Class SettingsLaws (W : Type) `{SettingsIO W} : Prop := {
  settings_storage_laws :: StorageLaws W;
  law_open_zms w id : zms_view (fst (flash_area_open w)) id = zms_view w id;
  law_mount_zms w id : zms_view (fst (zms_mount w)) id = zms_view w id;
  law_clear_zms w w' r : zms_clear w = (w', r) -> 0 <= r -> forall id, zms_view w' id = None;
  law_adv_zms i v w id : zms_view (set_adv_valid_status i v w) id = zms_view w id
}.

(** The storage of a working device: the partition opens and mounts, and a
    stored value can be read. *)
Class StorageWorks (W : Type) `{SettingsIO W} : Prop := {
  works_open w : snd (flash_area_open w) = 0;
  works_ready w : device_is_ready w = true;
  works_mount w : snd (zms_mount w) = 0;
  works_read w id n v : zms_view w id = Some v -> 0 < n ->
    exists w', zms_read w id n = (w', Z.min n (zlen v), take (Z.to_nat n) v)
}.

Definition LICENSE_FF_STR_LEN : Z := 58.
Definition LICENSE_GG_STR_LEN : Z := 48.
Definition GSM_SN_LENGTH : Z := 12.
Definition MY_MAC_LENGTH : Z := 6.

Section settings.
Context {W : Type} `{!SettingsIO W}.

Definition device (f : W -> W) : prog globals W unit := world (fun w => (f w, tt)).

(** Assignments to members of one setting. *)
Definition update {A} `{Setting A} (f : A -> A) : prog globals W unit :=
  modify (fun g => set_config (put (f (field (gConfigParam g))) (gConfigParam g)) g).

(** [my_user_data_write(id, &gConfigParam.x, sizeof(gConfigParam.x))]. *)
Definition save (A : Type) `{Setting A} : prog globals W Z :=
  c <- get gConfigParam;;
  world (fun w => my_user_data_write w (store_id (A := A)) (bytes_of (field (A := A) c))).

(** ** Start *)

Definition my_user_data_storage_init : prog globals W Z :=
  i <- get inited;;
  if i then ret 0 else
  err <- world flash_area_open;;
  if negb (err =? 0) then ret err else
  ready <- world (fun w => (w, device_is_ready w));;
  if negb ready then ret (- ENODEV) else
  err <- world zms_mount;;
  if negb (err =? 0) then ret err else
  modify (fun g => mk_globals (gConfigParam g) true (g_factory_mode g) (g_lte_cmdSource g));;
  ret 0.

(** Read one setting; the default unless all of it was read and it is marked valid. *)
Definition load (A : Type) `{Setting A} : prog globals W unit :=
  let length := sizeof (items (A := A)) in
  r <- world (fun w => let '(w, ret, bytes) := my_user_data_read w (store_id (A := A)) length in (w, (ret, bytes)));;
  let '(ret, bytes) := r in
  let a : A := of_bytes bytes in
  update (fun _ => if negb (flag a =? FLAG_VALID) || negb (ret =? length) then dflt else a).

Definition my_param_load_config : prog globals W unit :=
  ret <- my_user_data_storage_init;;
  if negb (ret =? 0) then Prog.ret tt else
  load lic_ff_t;;
  load lic_gg_t;;
  load adv_valid_value_t;;
  c <- get gConfigParam;;
  device (set_adv_valid_status APPLE_ADV_TYPE (AppleValid (adv_valid_value c)));;
  device (set_adv_valid_status GOOGLE_ADV_TYPE (GoogleValid (adv_valid_value c)));;
  load ecdh_g_t;;
  load gsm_sn_t;;
  load macaddr_t;;
  load ble_tx_power_t;;
  load ble_log_config_t;;
  load work_mode_config_t;;
  load remalm_config_t;;
  load pullalm_config_t;;
  load patalm_config_t;;
  load tempalm_config_t;;
  load mot_det_config_t;;
  load motdetalm_config_t;;
  load bat_level_config_t;;
  load startr_config_t;;
  load pwrlimit_config_t;;
  load lprunning_config_t;;
  load bt_updata_config_t;;
  load bluetooth_config_t;;
  load btconnect_config_t;;
  load tag_config_t;;
  load led_config_t;;
  load ltint_config_t;;
  load buzzer_config_t;;
  load bparmac_config_t;;
  load patm_timer_config_t;;
  load temp_timer_config_t;;
  load imu_alm_config_t;;
  load imu_zero_bias_config_t;;
  load shutdown_config_t.

(** Erase every stored setting; those in memory are kept until the restart. *)
Definition my_param_factory_reset : prog globals W Z :=
  ret <- my_user_data_storage_init;;
  if negb (ret =? 0) then Prog.ret ret else
  ret <- world zms_clear;;
  if ret <? 0 then Prog.ret ret else Prog.ret 0.

(** ** Licences and identity *)

Definition my_param_check_license (param : list Z) (len id : Z) : bool :=
  if id =? ZMS_ID_FF then
    (len =? LICENSE_FF_STR_LEN) && (string_check_is_hex_str (Some param) =? LICENSE_FF_STR_LEN)
  else if id =? ZMS_ID_GG then
    (len =? LICENSE_GG_STR_LEN) && (string_check_is_hex_str (Some param) =? LICENSE_GG_STR_LEN)
  else if id =? ZMS_ID_SN then
    (len =? GSM_SN_LENGTH) && (string_check_is_hex_str (Some param) =? GSM_SN_LENGTH)
  else false.

(** Store the setting; success only when the whole structure was written. *)
Definition saved (A : Type) `{Setting A} : prog globals W bool :=
  ret <- save A;;
  Prog.ret (ret =? sizeof (items (A := A))).

Definition my_param_set_ff (param : list Z) (len : Z) : prog globals W bool :=
  if negb (my_param_check_license param len ZMS_ID_FF) then ret false else
  c <- get gConfigParam;;
  r <- checked (hexstr_to_hex (ff_hex (lic_ff c)) 29 (Some param));;
  update (fun _ => mk_ff FLAG_VALID (fst r));;
  saved lic_ff_t.

Definition my_param_set_gg (param : list Z) (len : Z) : prog globals W bool :=
  if negb (my_param_check_license param len ZMS_ID_GG) then ret false else
  c <- get gConfigParam;;
  r <- checked (hexstr_to_hex (gg_hex (lic_gg c)) 24 (Some param));;
  update (fun _ => mk_gg FLAG_VALID (fst r));;
  saved lic_gg_t.

Definition my_param_set_sn (param : list Z) (len : Z) : prog globals W Z :=
  if negb (my_param_check_license param len ZMS_ID_SN) then ret (-1) else
  c <- get gConfigParam;;
  hex <- checked (arr_blit (sn_hex (gsm_sn c)) 0 (take (Z.to_nat len) param));;
  update (fun _ => mk_sn FLAG_VALID hex);;
  ok <- saved gsm_sn_t;;
  ret (if ok then 0 else -2).

(** The address is stored in the byte order of the Bluetooth stack. *)
Definition my_param_set_mac (param : list Z) : prog globals W Z :=
  m <- checked (macstr_to_hex (Some param) (replicate 6 0));;
  let '(my_macaddr, ok) := m in
  if negb ok then ret (-1) else
  r <- checked (char_array_reverse (Some my_macaddr) MY_MAC_LENGTH (Some (replicate 6 0)) MY_MAC_LENGTH);;
  hex <- checked (fst r);;
  update (fun _ => mk_mac FLAG_VALID hex);;
  ok <- saved macaddr_t;;
  ret (if ok then 0 else -1).

Definition my_param_set_Gvalue (param : list Z) : prog globals W Z :=
  if string_check_is_number 0 param =? 0 then ret (-1) else
  let Gvalue := u16 (atoi param) in
  if (Gvalue <? 10000) || (60000 <? Gvalue) then ret (-1) else
  update (fun _ => mk_ecdh FLAG_VALID Gvalue);;
  ok <- saved ecdh_g_t;;
  ret (if ok then 0 else -1).

(** ** The two advertisers *)

Definition set_apple (v : Z) : prog globals W Z :=
  device (set_adv_valid_status APPLE_ADV_TYPE v);;
  update (fun a => mk_adv_valid (adv_valid_flag a) v (GoogleValid a));;
  ok <- saved adv_valid_value_t;;
  ret (if ok then 0 else -1).

Definition set_google (v : Z) : prog globals W Z :=
  device (set_adv_valid_status GOOGLE_ADV_TYPE v);;
  update (fun a => mk_adv_valid (adv_valid_flag a) (AppleValid a) v);;
  ok <- saved adv_valid_value_t;;
  ret (if ok then 0 else -1).

(** One of the two is always on: switching one off needs the other on. *)
Definition my_param_set_jatag_or_jgtag (cmd param : option (list Z)) : prog globals W Z :=
  match cmd, param with
  | Some cmd, Some param =>
      c <- get gConfigParam;;
      if CMD_MATCHED cmd (cstr "JATAG") then
        if CMD_MATCHED param (cstr "ON") then set_apple 1
        else if CMD_MATCHED param (cstr "OFF") then
          if GoogleValid (adv_valid_value c) =? 1 then set_apple 0 else ret (-1)
        else ret (-1)
      else if CMD_MATCHED cmd (cstr "JGTAG") then
        if CMD_MATCHED param (cstr "ON") then set_google 1
        else if CMD_MATCHED param (cstr "OFF") then
          if AppleValid (adv_valid_value c) =? 1 then set_google 0 else ret (-1)
        else ret (-1)
      else ret 0
  | _, _ => ret (-1)
  end.

(** ** Log over Bluetooth *)

Definition my_param_set_ble_log_config (config : option ble_log_config_t) : prog globals W Z :=
  match config with
  | None => ret (- EINVAL)
  | Some config =>
      update (fun _ => mk_log FLAG_VALID (global_en config) (log_reserved config) (mod_en config) (mod_level config));;
      ok <- saved ble_log_config_t;;
      ret (if ok then 0 else -1)
  end.

Definition my_param_set_ble_log_global (en : Z) : prog globals W Z :=
  update (fun c => mk_log (log_flag c) (if en =? 0 then 0 else 1) (log_reserved c) (mod_en c) (mod_level c));;
  c <- get gConfigParam;;
  my_param_set_ble_log_config (Some (ble_log_config c)).

Definition my_param_set_ble_log_mod (mod_id en : Z) : prog globals W Z :=
  if (BLE_LOG_MOD_MAX <=? mod_id) || (32 <=? mod_id) then ret (- EINVAL) else
  update (fun c => mk_log (log_flag c) (global_en c) (log_reserved c)
    (if en =? 0 then Z.land (mod_en c) (u32 (Z.lnot (Z.shiftl 1 mod_id))) else Z.lor (mod_en c) (Z.shiftl 1 mod_id))
    (mod_level c));;
  c <- get gConfigParam;;
  my_param_set_ble_log_config (Some (ble_log_config c)).

Definition my_param_set_ble_log_level (mod_id level : Z) : prog globals W Z :=
  if BLE_LOG_MOD_MAX <=? mod_id then ret (- EINVAL) else
  c <- get gConfigParam;;
  levels <- checked (arr_set (mod_level (ble_log_config c)) mod_id level);;
  update (fun c => mk_log (log_flag c) (global_en c) (log_reserved c) (mod_en c) levels);;
  c <- get gConfigParam;;
  my_param_set_ble_log_config (Some (ble_log_config c)).
End settings.

(** ** What is read at start

    When a setting in memory is the one that will be read after the next start. *)

(** Every member has a value of its C type, and every setting a documented value. *)
Definition setting_ok {A} `{Setting A} (a : A) : Prop := typed a /\ documented a = true.
Definition settings_ok (c : config_param_t) : Prop := for_all (fun A _ a => setting_ok a) c.

Section load.
Context {W : Type} `{!SettingsIO W}.
Implicit Types (g : globals) (w : W).

(** The value a start would read. *)
Definition stored {A} `{Setting A} (w : W) : A :=
  match zms_view w store_id with
  | Some v => if (sizeof (items (A := A)) <=? zlen v) && (flag (of_bytes (A := A) (take (Z.to_nat (sizeof (items (A := A)))) v)) =? FLAG_VALID)
              then of_bytes (take (Z.to_nat (sizeof (items (A := A)))) v) else dflt
  | None => dflt
  end.

(** Memory and flash agree. *)
Definition synced (c : config_param_t) (w : W) : Prop := for_all (fun A _ a => a = stored w) c.

(** What is stored is unchanged. *)
Definition same_zms (w w' : W) : Prop := forall id, zms_view w' id = zms_view w id.

Lemma same_zms_refl w : same_zms w w.
Proof. done. Qed.

Lemma same_zms_trans w1 w2 w3 : same_zms w1 w2 -> same_zms w2 w3 -> same_zms w1 w3.
Proof. intros H1 H2 id. by rewrite H2, H1. Qed.

Lemma stored_same {A} `{Setting A} w w' : same_zms w w' -> stored (A := A) w' = stored w.
Proof. intros H1. unfold stored. by rewrite H1. Qed.

Lemma synced_same c w w' : synced c w -> same_zms w w' -> synced c w'.
Proof. intros Hs Hz. apply (for_all_mono _ _ _ Hs). intros A SA a ->. by rewrite (stored_same w w'). Qed.

(** A setting that was written is the one a start reads. *)
Lemma stored_written {A} `{SettingLaws A} (a : A) w :
  zms_view w store_id = Some (bytes_of a) -> typed a -> flag a = FLAG_VALID -> stored w = a.
Proof.
  intros Hv Ht Hf. unfold stored. rewrite Hv, zlen_bytes_of, Z.leb_refl.
  assert (E : take (Z.to_nat (sizeof (items (A := A)))) (bytes_of a) = bytes_of a).
  { apply take_ge. pose proof (zlen_bytes_of a). unfold zlen in *. lia. }
  rewrite E, of_bytes_of, Hf by done. done.
Qed.
End load.
#[export] Hint Resolve same_zms_refl : core.

Section spec.
Context {W : Type} `{!SettingsIO W} {HL : SettingsLaws W}.
Implicit Types (g : globals) (w : W).

(** Storing one setting. *)
Lemma save_written {A} `{SettingLaws A} (a : A) w w' r :
  my_user_data_write w (store_id (A := A)) (bytes_of a) = (w', r) ->
  (forall id, id <> store_id (A := A) -> zms_view w' id = zms_view w id) /\
  (0 <= r -> r = zlen (bytes_of a) \/ r = 0 -> zms_view w' (store_id (A := A)) = Some (bytes_of a)).
Proof.
  pose proof (zlen_bytes_of a) as Hz. pose proof (setting_size (A := A)) as Hp. unfold my_user_data_write.
  rewrite (proj2 (Z.eqb_neq _ _)) by lia. intros E. split; [intros id; by apply law_zms_write_frame with (1 := E)|].
  intros _ Hr. apply (law_zms_write_ok _ _ _ _ _ E); [|done]. intros En. rewrite En in Hz. fw.
Qed.

(** A stored setting is in step again; the others are not touched. *)
Lemma synced_put {A} `{SettingLaws A} (a : A) c w w' r :
  synced c w -> typed a -> flag a = FLAG_VALID ->
  my_user_data_write w (store_id (A := A)) (bytes_of a) = (w', r) -> r = zlen (bytes_of a) \/ r = 0 ->
  synced (put a c) w'.
Proof.
  intros Hs Ht Hf E Hr. apply save_written in E as [Hfr Hok].
  assert (0 <= r) by (destruct Hr as [-> | ->]; [apply zlen_nonneg|lia]).
  apply (for_all_put _ _ a c Hs).
  - symmetry. apply stored_written; [by apply Hok|done..].
  - intros B SB b Hne ->. unfold stored. by rewrite Hfr.
Qed.
End spec.

Section start.
Context {W : Type} `{!SettingsIO W} {HL : SettingsLaws W} {HW : StorageWorks W}.
Implicit Types (g : globals) (w : W).

(** Opening the storage keeps what is stored. *)
Lemma storage_init_spec g w :
  twp my_user_data_storage_init (fun r g' w' => r = 0 /\ same_zms w w' /\
    g' = mk_globals (gConfigParam g) true (g_factory_mode g) (g_lte_cmdSource g)) g w.
Proof.
  unfold my_user_data_storage_init. do 2 tstep. destruct (inited g) eqn:Ei; [apply twp_ret; by destruct g; cbn in *; subst|].
  tstep. apply twp_world. intros r w1 E1. pose proof (works_open w) as Ho. pose proof (fun id => law_open_zms w id) as Hz. rewrite E1 in *. cbn in *. subst r.
  rewrite Z.eqb_refl. cbn [negb]. tstep. apply twp_world. intros b w2 [= <- <-]. rewrite works_ready. cbn [negb].
  tstep. apply twp_world. intros r w2 E2. pose proof (works_mount w1) as Hm. pose proof (fun id => law_mount_zms w1 id) as Hz2. rewrite E2 in *. cbn in *. subst r.
  rewrite Z.eqb_refl. cbn [negb]. repeat tstep. split; [done|]. split; [|done]. intros id. by rewrite Hz2, Hz.
Qed.

(** Reading one setting. *)
Lemma load_spec {A} `{SettingLaws A} g w :
  twp (load A) (fun _ g' w' => same_zms w w' /\ g' = set_config (put (stored w) (gConfigParam g)) g) g w.
Proof.
  unfold load. tstep. apply twp_world. intros [r bs] w1. pose proof (setting_size (A := A)) as Hp. unfold my_user_data_read.
  rewrite (proj2 (Z.eqb_neq _ _)) by lia. destruct (zms_read w _ _) as [[w2 r2] bs2] eqn:E. intros [= -> -> ->].
  apply twp_modify. pose proof (law_zms_read_pure _ _ _ _ _ _ E) as [_ Hz]. split; [done|]. f_equal. f_equal.
  unfold stored. destruct (zms_view w store_id) as [v|] eqn:Ev.
  - destruct (works_read w store_id (sizeof (items (A := A))) v Ev Hp) as [w' E']. rewrite E in E'. injection E' as -> -> ->.
    destruct (Z.leb_spec (sizeof (items (A := A))) (zlen v)).
    + rewrite Z.min_l, Z.eqb_refl, orb_false_r by lia. by destruct (flag _ =? FLAG_VALID).
    + rewrite Z.min_r by lia. rewrite (proj2 (Z.eqb_neq _ (sizeof (items (A := A))))) by lia. by rewrite orb_true_r.
  - pose proof (law_zms_read_none _ _ _ _ _ _ E Ev). rewrite (proj2 (Z.eqb_neq r _)) by lia. by rewrite orb_true_r.
Qed.

(** The settings whose identifiers are in [ids] have been read. *)
Definition loaded (w0 : W) (ids : list Z) (c : config_param_t) : Prop :=
  for_all (fun A _ a => store_id ∈ ids -> a = stored w0) c.

Lemma twp_load {A} `{SettingLaws A} w0 ids (Q : unit -> globals -> W -> Prop) g w :
  same_zms w0 w -> loaded w0 ids (gConfigParam g) ->
  (forall c w', same_zms w0 w' -> loaded w0 (store_id (A := A) :: ids) c -> Q tt (set_config c g) w') ->
  twp (load A) Q g w.
Proof.
  intros Hz Hl HQ. eapply twp_mono; [apply load_spec|]. intros [] g' w' [Hz' ->]. apply HQ; [by eapply same_zms_trans|].
  apply (for_all_put _ _ _ _ Hl).
  - intros _. by apply stored_same.
  - intros B SB b Hne Hb Hin. apply Hb. apply elem_of_cons in Hin as [E|Hin]; [by destruct Hne|done].
Qed.

(** At start every setting becomes the one that was stored, or its default. *)
Lemma load_config_spec g w :
  twp my_param_load_config (fun _ g' w' => same_zms w w' /\ synced (gConfigParam g') w' /\ inited g' = true) g w.
Proof.
  unfold my_param_load_config. tstep. eapply twp_mono; [apply storage_init_spec|]. intros r g1 w1 (-> & Hz & ->). cbn [negb Z.eqb].
  set (g1 := mk_globals _ _ _ _). assert (Hi : inited g1 = true) by done. assert (Hl : loaded w [] (gConfigParam g1)).
  { unfold loaded, for_all. repeat split; intros Hin; by apply elem_of_nil in Hin. }
  clearbody g1.
  repeat match goal with
  | |- twp (bind (load ?A) _) _ _ _ => apply twp_bind, (twp_load w _ _ _ _ Hz Hl); clear w1 Hz Hl; intros c w1 Hz Hl;
      match goal with |- context [set_config c ?g1] => let g2 := fresh "g" in
        set (g2 := set_config c g1); assert (Hi' : inited g2 = true) by done; change c with (gConfigParam g2) in Hl; clearbody g2; clear c Hi; rename Hi' into Hi end
  | |- twp (bind (get _) _) _ _ _ => apply twp_bind, twp_get
  | |- twp (bind (device ?f) _) _ _ _ => apply twp_bind, twp_world; intros [] w2 [= <-];
      assert (Hz2 : same_zms w (f w1)) by (intros id; by rewrite law_adv_zms); clear Hz; set (w3 := f w1) in *; clearbody w3; clear w1; rename w3 into w1, Hz2 into Hz
  end.
  apply (twp_load w _ _ _ _ Hz Hl). clear Hz Hl. intros c w' Hz Hl. split; [done|]. split; [|done]. cbn [gConfigParam set_config].
  unfold loaded, for_all in Hl. unfold synced, for_all. cbv beta in Hl |- *.
  repeat match goal with H : _ /\ _ |- _ => destruct H end.
  repeat split; rewrite (stored_same w w' Hz); match goal with H : _ -> ?x = _ |- ?x = _ => apply H; apply (bool_decide_unpack _); vm_compute; exact I end.
Qed.
End start.
