(* ===== verification/AtCmd.v ===== *)
(** * Commands ([my_cmd_setting.c])

    A command line is split into parameters, looked up in the command table,
    and handled: the handler checks the parameters, changes and stores the
    setting, tells the other threads, and writes a reply.  Commands of the
    second table are passed on to the LTE module. *)

From S2P Require Import Prelude Text Str FlashStore Prog AtParse Layout SettingsData Settings.

Open Scope prog_scope.

(** ** The rest of the device *)

Inductive module_type := MOD_MAIN | MOD_BLE | MOD_CTRL | MOD_LTE.

Inductive cmd_msg :=
  | MY_MSG_LPSLEEP_EXIT | MY_MSG_LPSLEEP_CLEAR_HOLD_OFF | MY_MSG_BLE_OPEN_ADV | MY_MSG_BLE_CLOSE_ADV
  | MY_MSG_LED_ENABLE | MY_MSG_LED_DISABLE | MY_MSG_RESET_LTE_TIMER | MY_MSG_CTRL_PATM_RELOAD | MY_MSG_CTRL_TEMP_RELOAD
  | MY_MSG_CTRL_PATM_READ | MY_MSG_CTRL_TEMP_READ | MY_MSG_CTRL_STATUS_READ.

(** Calls of other modules that return nothing the commands use. *)
Inductive dev_call :=
  | my_send_msg (src dst : module_type) (msg : cmd_msg)
  | ble_set_tx_power (tx_power : Z)
  | my_scan_set_config (mode scan_interval scan_length updata_interval : Z)
  | my_ble_updata_adv_param (interval : Z)
  | my_no_con_start_adv (sw : Z)
  | my_set_buzzer_mode (mode : Z)
  | send_led_command
  | switch_work_mode (mode : Z)
  | send_work_mode_command (mode : Z)
  | smart_mode_apply_lte_policy
  | my_start_timer_cmdsource_clear (ms : Z)
  | k_free.

(** [malloc_bytes] and [stack_bytes] are what fresh memory happens to contain.
    [lte_send_command] is modelled with the LTE thread ([Lte.v]). *)
Class CmdIO (W : Type) := {
  cmd_settings :: SettingsIO W;
  call : dev_call -> W -> W;
  go_to_shutdown : W -> W * Z;
  get_batt_mv : W -> Z;
  g_charg_state : W -> Z;
  get_lprunning_active : W -> bool;
  get_last_work_mode : W -> Z;
  g_bLteReady : W -> bool;
  g_lte4GVersion : W -> list Z;
  lte_send_command : list Z -> option (list Z) -> W -> W * Z;
  k_malloc : Z -> W -> W * option (list Z);
  stack_bytes : Z -> W -> list Z
}.

(** The other modules do not touch the stored settings; memory has the size asked for. *)
Class CmdLaws (W : Type) `{CmdIO W} : Prop := {
  cmd_settings_laws :: SettingsLaws W;
  law_call_zms c w id : zms_view (call c w) id = zms_view w id;
  law_shutdown_zms w id : zms_view (fst (go_to_shutdown w)) id = zms_view w id;
  law_lte_zms n p w id : zms_view (fst (lte_send_command n p w)) id = zms_view w id;
  law_malloc_zms n w id : zms_view (fst (k_malloc n w)) id = zms_view w id;
  law_malloc n w w' b : k_malloc n w = (w', Some b) -> zlen b = n;
  law_stack n w : 0 <= n -> zlen (stack_bytes n w) = n /\ bytes_ok (stack_bytes n w);
  law_version w : zlen (g_lte4GVersion w) < 32
}.

(** ** Messages *)

Definition RESP_STRING_LENGTH_MAX : Z := 1024.
Definition CMD_STRING_LENGTH_MAX : Z := 128.
Definition LTE_CMD_BUF_SIZE : Z := CMD_STRING_LENGTH_MAX.
Definition BLE_DATA_TYPE_PACKET_MULTIPLE : Z := 0xFF02.
Definition SOFTWARE_VERSION : list Z := cstr "LL320D_EM01_NRF54L15_V1.0_260814".

(** The parameters after the split, and the reply. *)
Record at_cmd_t := mk_at_cmd {
  parms : list (list Z);
  parm_count : Z;
  resp_msg : list Z;
  resp_length : Z
}.

Definition parm (msg : at_cmd_t) (k : nat) : list Z := nth k (parms msg) [].
Definition set_resp (text : list Z) (n : Z) (msg : at_cmd_t) : at_cmd_t := mk_at_cmd (parms msg) (parm_count msg) text n.

(** The items of a reply with commas between them. *)
Fixpoint csv (l : list (list Z)) : list Z :=
  match l with
  | [] => []
  | [s] => s
  | s :: l => s ++ cstr "," ++ csv l
  end.

Section commands.
Context {W : Type} `{!CmdIO W}.

(** The type of the reply and the message with the reply in it. *)
Definition handler : Type := at_cmd_t -> prog globals W (Z * at_cmd_t).

Definition do (c : dev_call) : prog globals W unit := device (call c).
Definition ask {A} (f : W -> A) : prog globals W A := world (fun w => (w, f w)).

(** [msg->resp_length = snprintf(msg->resp_msg, RESP_STRING_LENGTH_MAX, ...)]. *)
Definition respond (msg : at_cmd_t) (text : list Z) : prog globals W (Z * at_cmd_t) :=
  let '(stored, n) := snprintf RESP_STRING_LENGTH_MAX text in
  ret (BLE_DATA_TYPE_PACKET_MULTIPLE, set_resp stored (u16 n) msg).

Definition param_invalid (msg : at_cmd_t) : prog globals W (Z * at_cmd_t) := respond msg (cstr "Set Fail! InvalidParam").

(** [ret = snprintf(...)], the length only taken when the text fits. *)
Definition respond_fitting (msg : at_cmd_t) (text : list Z) : prog globals W (Z * at_cmd_t) :=
  if (0 <? zlen text) && (zlen text <? RESP_STRING_LENGTH_MAX) then respond msg text else param_invalid msg.
End commands.

(** A parameter that must be valid. *)
Notation "x <-? o 'in' msg ;; k" := (match o with Some x => k | None => param_invalid msg end)
  (at level 100, o at next level, msg at level 0, right associativity) : prog_scope.
