(* ===== verification/AtHandlers.v ===== *)
(** * Command handlers ([my_cmd_setting.c])

    One definition per handler, in the order of the source: without parameters
    a query, otherwise the checks, the assignment, the store and the reply. *)

From S2P Require Import Prelude Text Str FlashStore Prog AtParse Layout SettingsData Settings AtCmd.

Open Scope prog_scope.

(** ** Work modes *)

Definition set_long_battery_params (m : work_mode_config_t) (reporting_interval : Z) (start_time_str : list Z) (gnss : Z)
  : option work_mode_config_t :=
  if (reporting_interval <? 5) || (1440 <? reporting_interval) then None else
  if negb (zlen start_time_str =? 4) then None else
  if negb (forallb is_digit start_time_str) then None else
  let start := u16 (atoi start_time_str) in
  let hh := u8 (start / 100) in
  let mm := u8 (start mod 100) in
  if negb ((hh <=? 24) && (mm <=? 59) && negb ((hh =? 24) && negb (mm =? 0))) then None else
  if 1 <? gnss then None else
  Some (mk_workmode (workmode_flag m) (current_mode m) (reporting_interval_sec m) (reporting_interval_dis m)
    reporting_interval (start_time_str ++ [0]) gnss (sub_mode m) (static_interval m) (moving_interval m)).

(** [sub <= 5] after the first check, and the arrays have six elements. *)
Definition set_intelligent_params (m : work_mode_config_t) (sub static_int moving_int : Z) : option work_mode_config_t :=
  if 5 <? sub then None else
  if negb (static_int =? 0) &&
     (if sub <=? 4 then (static_int <? 180) || (3600 <? static_int) else (static_int <? 10) || (86400 <? static_int))
  then None else
  if (if (sub =? 0) || (sub =? 1) || (sub =? 3) then (moving_int <? 180) || (3600 <? moving_int)
      else (moving_int <? 10) || (86400 <? moving_int))
  then None else
  Some (mk_workmode (workmode_flag m) (current_mode m) (reporting_interval_sec m) (reporting_interval_dis m)
    (reporting_interval_min m) (start_time m) (gnss_sw m) sub
    (<[Z.to_nat sub := static_int]> (static_interval m)) (<[Z.to_nat sub := moving_int]> (moving_interval m))).

Definition with_mode (mode : Z) (m : work_mode_config_t) : work_mode_config_t :=
  mk_workmode FLAG_VALID mode (reporting_interval_sec m) (reporting_interval_dis m) (reporting_interval_min m)
    (start_time m) (gnss_sw m) (sub_mode m) (static_interval m) (moving_interval m).

Definition with_tracking (sec dis : Z) (m : work_mode_config_t) : work_mode_config_t :=
  mk_workmode FLAG_VALID (current_mode m) sec dis (reporting_interval_min m)
    (start_time m) (gnss_sw m) (sub_mode m) (static_interval m) (moving_interval m).

Definition with_sub_mode (sub : Z) (m : work_mode_config_t) : work_mode_config_t :=
  mk_workmode (workmode_flag m) (current_mode m) (reporting_interval_sec m) (reporting_interval_dis m) (reporting_interval_min m)
    (start_time m) (gnss_sw m) sub (static_interval m) (moving_interval m).

Definition with_valid (m : work_mode_config_t) : work_mode_config_t := with_mode (current_mode m) m.

(** ** Forwarded addresses ([my_ble_scan.c]) *)

Definition TRAN_MAC_MAX_NUM : Z := 20.

Definition my_tran_mac_check (b : bparmac_config_t) (addr : list Z) : bool :=
  existsb (fun a => bool_decide (a = addr)) (take (Z.to_nat (bt_parmac_mac_count b)) (bt_parmac_macs b)).

(** The new list, or [None] when it is full or already has the address. *)
Definition my_tran_mac_add (b : bparmac_config_t) (addr : list Z) : option bparmac_config_t :=
  if TRAN_MAC_MAX_NUM <=? bt_parmac_mac_count b then None else
  if my_tran_mac_check b addr then None else
  Some (mk_bparmac (bparmac_flag b) (<[Z.to_nat (bt_parmac_mac_count b) := addr]> (bt_parmac_macs b)) (u8 (bt_parmac_mac_count b + 1))).

(** The place of an address among the first [count]. *)
Fixpoint mac_index (macs : list (list Z)) (addr : list Z) (i : nat) : option nat :=
  match macs with
  | [] => None
  | a :: macs => if decide (a = addr) then Some i else mac_index macs addr (S i)
  end.

(** Later addresses move up by one; the last place is cleared. *)
Definition my_tran_mac_del (b : bparmac_config_t) (addr : list Z) : option bparmac_config_t :=
  let count := Z.to_nat (bt_parmac_mac_count b) in
  let macs := bt_parmac_macs b in
  match mac_index (take count macs) addr 0 with
  | Some i => Some (mk_bparmac (bparmac_flag b)
      (take i macs ++ take (count - 1 - i) (drop (S i) macs) ++ replicate 7 0 :: drop count macs) (bt_parmac_mac_count b - 1))
  | None => None
  end.

Definition my_tran_mac_del_all (b : bparmac_config_t) : bparmac_config_t :=
  mk_bparmac (bparmac_flag b) (replicate 20 (replicate 7 0)) 0.

Section handlers.
Context {W : Type} `{!CmdIO W}.
Notation handler := (handler (W := W)).

(** ** Alarms *)

Definition remalm_cmd_handler : handler := fun msg =>
  c <- get gConfigParam;;
  let r := remalm_config c in
  if parm_count msg =? 0 then respond msg (parm msg 0 ++ cstr ":" ++ csv [on_off_text (remalm_sw r); dec (remalm_mode r)]) else
  if negb (parm_count msg =? 2) then param_invalid msg else
  sw_value <-? on_off (parm msg 1) in msg;;
  m_value <-? number_arg 0 (parm msg 2) in msg;;
  if (m_value <? 0) || (3 <? m_value) then param_invalid msg else
  update (fun _ => mk_remalm FLAG_VALID (u8 sw_value) (u8 m_value));;
  save remalm_config_t;;
  respond msg (cstr "Set OK").

Definition pullalm_cmd_handler : handler := fun msg =>
  c <- get gConfigParam;;
  let r := pullalm_config c in
  if parm_count msg =? 0 then respond msg (parm msg 0 ++ cstr ":" ++ csv [on_off_text (pullalm_sw r); dec (pullalm_mode r)]) else
  if negb (parm_count msg =? 2) then param_invalid msg else
  sw_value <-? on_off (parm msg 1) in msg;;
  m_value <-? number_arg 0 (parm msg 2) in msg;;
  if (m_value <? 0) || (3 <? m_value) then param_invalid msg else
  update (fun _ => mk_pullalm FLAG_VALID (u8 sw_value) (u8 m_value));;
  save pullalm_config_t;;
  respond msg (cstr "Set OK").

Definition patalm_cmd_handler : handler := fun msg =>
  c <- get gConfigParam;;
  let r := patalm_config c in
  if parm_count msg =? 0 then
    respond msg (parm msg 0 ++ cstr ":" ++ csv [on_off_text (patalm_sw r); dec (patalm_low_threshold r); dec (patalm_high_threshold r);
      dec (patalm_report_type r); dec (patalm_report_interval r)]) else
  if negb (parm_count msg =? 5) then param_invalid msg else
  sw_value <-? on_off (parm msg 1) in msg;;
  low <-? number_arg 0 (parm msg 2) in msg;;
  if ((low <? 30) || (250 <? low)) && negb (low =? 255) then param_invalid msg else
  high <-? number_arg 0 (parm msg 3) in msg;;
  if ((high <? 30) || (250 <? high)) && negb (high =? 255) then param_invalid msg else
  if (high <? low) && negb (low =? 255) then
    respond msg (cstr "The low pressure alarm threshold must be less than the high pressure alarm threshold, except 255.") else
  report_type <-? number_arg 0 (parm msg 4) in msg;;
  if (report_type <? 0) || (3 <? report_type) then param_invalid msg else
  report_interval <-? number_arg 0 (parm msg 5) in msg;;
  if (report_interval <? 0) || (60 <? report_interval) then param_invalid msg else
  update (fun _ => mk_patalm FLAG_VALID (u8 sw_value) (u8 low) (u8 high) (u8 report_type) (u8 report_interval));;
  save patalm_config_t;;
  respond msg (cstr "Set OK").

Definition tempalm_cmd_handler : handler := fun msg =>
  c <- get gConfigParam;;
  let r := tempalm_config c in
  if parm_count msg =? 0 then
    respond msg (parm msg 0 ++ cstr ":" ++ csv [on_off_text (tempalm_sw r); dec (temp_low_threshold r); dec (temp_high_threshold r);
      dec (humi_low_threshold r); dec (humi_high_threshold r); dec (tempalm_report_type r); dec (tempalm_report_interval r)]) else
  if negb (parm_count msg =? 7) then param_invalid msg else
  sw_value <-? on_off (parm msg 1) in msg;;
  temp_low <-? number_arg 1 (parm msg 2) in msg;;
  if ((temp_low <? -30) || (100 <? temp_low)) && negb (temp_low =? 255) then param_invalid msg else
  temp_high <-? number_arg 1 (parm msg 3) in msg;;
  if ((temp_high <? 30) || (100 <? temp_high)) && negb (temp_high =? 255) then param_invalid msg else
  if (temp_high <? temp_low) && negb (temp_low =? 255) then
    respond msg (cstr "The low temperature alarm threshold must be less than the high temperature alarm threshold, except 255.") else
  humi_low <-? number_arg 0 (parm msg 4) in msg;;
  if ((humi_low <? 0) || (100 <? humi_low)) && negb (humi_low =? 255) then param_invalid msg else
  humi_high <-? number_arg 0 (parm msg 5) in msg;;
  if ((humi_high <? 0) || (100 <? humi_high)) && negb (humi_high =? 255) then param_invalid msg else
  if (humi_high <? humi_low) && negb (humi_low =? 255) then
    respond msg (cstr "The low humidity alarm threshold must be less than the high humidity alarm threshold, except 255.") else
  report_type <-? number_arg 0 (parm msg 6) in msg;;
  if (report_type <? 0) || (3 <? report_type) then param_invalid msg else
  report_interval <-? number_arg 0 (parm msg 7) in msg;;
  if (report_interval <? 0) || (60 <? report_interval) then param_invalid msg else
  update (fun _ => mk_tempalm FLAG_VALID (u8 sw_value) temp_low temp_high (u8 humi_low) (u8 humi_high) (u8 report_type) (u8 report_interval));;
  save tempalm_config_t;;
  respond msg (cstr "Set OK").

(** The query prints a third number that is not passed; [stack_bytes] stands for what is printed. *)
Definition motdet_cmd_handler : handler := fun msg =>
  c <- get gConfigParam;;
  let r := motdet_config c in
  junk <- ask (stack_bytes 4);;
  if parm_count msg =? 0 then
    respond msg (parm msg 0 ++ cstr ":" ++ csv [dec (motdet_vibration r); dec (motdet_duration r); dec (int_value 4 true junk)]) else
  if negb (parm_count msg =? 2) then param_invalid msg else
  vibration_value <-? number_arg 0 (parm msg 1) in msg;;
  if (vibration_value <? 1) || (500 <? vibration_value) then param_invalid msg else
  duration_value <-? number_arg 0 (parm msg 2) in msg;;
  if (duration_value <? 1) || (3600 <? duration_value) then param_invalid msg else
  update (fun _ => mk_motdet FLAG_VALID (u16 vibration_value) (u16 duration_value));;
  save mot_det_config_t;;
  respond msg (cstr "Set OK").

Definition motdetalm_cmd_handler : handler := fun msg =>
  c <- get gConfigParam;;
  let r := motdetalm_config c in
  if parm_count msg =? 0 then
    respond msg (parm msg 0 ++ cstr ":" ++ csv [on_off_text (motdetalm_sw r); dec (motdetalm_report_type r)]) else
  if negb (parm_count msg =? 2) then param_invalid msg else
  sw_value <-? on_off (parm msg 1) in msg;;
  report_type <-? number_arg 0 (parm msg 2) in msg;;
  if (report_type <? 0) || (3 <? report_type) then param_invalid msg else
  update (fun _ => mk_motdetalm FLAG_VALID (u8 sw_value) (u8 report_type));;
  save motdetalm_config_t;;
  respond msg (cstr "Set OK").

(** ** Battery and power *)

(** The six parameters of [BATLEVEL], each from 0 to 3. *)
Definition report_modes (msg : at_cmd_t) : option (list Z) :=
  mapM (fun i => v ← number_arg 0 (parm msg i); if (v <? 0) || (3 <? v) then None else Some v) (seq 1 6).

Definition batlevel_cmd_handler : handler := fun msg =>
  c <- get gConfigParam;;
  let r := batlevel_config c in
  if parm_count msg =? 0 then
    respond msg (parm msg 0 ++ cstr ":" ++ csv [dec (batlevel_empty_rpt r); dec (batlevel_low_rpt r); dec (batlevel_normal_rpt r);
      dec (batlevel_fair_rpt r); dec (batlevel_high_rpt r); dec (batlevel_full_rpt r)]) else
  if negb (parm_count msg =? 6) then param_invalid msg else
  v <-? report_modes msg in msg;;
  let value i := u8 (nth i v 0) in
  update (fun r => mk_batlevel FLAG_VALID (value 0%nat) (value 1%nat) (value 2%nat) (value 3%nat) (value 4%nat) (value 5%nat) (chargesta_report r));;
  save bat_level_config_t;;
  respond msg (cstr "Set OK").

Definition chargesta_cmd_handler : handler := fun msg =>
  c <- get gConfigParam;;
  if parm_count msg =? 0 then respond msg (parm msg 0 ++ cstr ":" ++ dec (chargesta_report (batlevel_config c))) else
  if negb (parm_count msg =? 1) then param_invalid msg else
  report_value <-? number_arg 0 (parm msg 1) in msg;;
  if (report_value <? 0) || (3 <? report_value) then param_invalid msg else
  update (fun r => mk_batlevel FLAG_VALID (batlevel_empty_rpt r) (batlevel_low_rpt r) (batlevel_normal_rpt r) (batlevel_fair_rpt r)
    (batlevel_high_rpt r) (batlevel_full_rpt r) (u8 report_value));;
  save bat_level_config_t;;
  respond msg (cstr "Set OK").

Definition pwsave_cmd_handler : handler := fun msg =>
  if parm_count msg =? 1 then
    if my_strcasecmp (parm msg 1) (cstr "ON") =? 0 then
      r <- world go_to_shutdown;;
      if r =? 0 then respond msg (cstr "Poweroff OK") else respond msg (cstr "Poweroff error! Device is charging.")
    else param_invalid msg
  else param_invalid msg.

Definition pwrlimit_cmd_handler : handler := fun msg =>
  c <- get gConfigParam;;
  if parm_count msg =? 0 then respond msg (parm msg 0 ++ cstr ":" ++ on_off_text (pwrlimit_sw (pwrlimit_config c))) else
  if negb (parm_count msg =? 1) then param_invalid msg else
  sw <-? on_off (parm msg 1) in msg;;
  update (fun _ => mk_pwrlimit FLAG_VALID sw);;
  save pwrlimit_config_t;;
  respond msg (cstr "set OK").

(** The threshold and the interval are cut to eight bits before they are checked. *)
Definition lprunning_cmd_handler : handler := fun msg =>
  c <- get gConfigParam;;
  let r := lprunning_config c in
  if parm_count msg =? 0 then
    respond msg (cstr "LPSLEEP:" ++ csv [on_off_text (lprunning_sw r); dec (lprunning_threshold r); dec (lprunning_interval r)]) else
  if (parm_count msg =? 1) && (my_strcasecmp (parm msg 1) (cstr "OFF") =? 0) then
    update (fun r => mk_lprunning FLAG_VALID 0 (lprunning_threshold r) (lprunning_interval r));;
    save lprunning_config_t;;
    do (my_send_msg MOD_MAIN MOD_MAIN MY_MSG_LPSLEEP_EXIT);;
    respond msg (cstr "Set OK")
  else if (parm_count msg =? 1) && (my_strcasecmp (parm msg 1) (cstr "ON") =? 0) then
    update (fun r => mk_lprunning FLAG_VALID 1 (lprunning_threshold r) (lprunning_interval r));;
    save lprunning_config_t;;
    do (my_send_msg MOD_MAIN MOD_MAIN MY_MSG_LPSLEEP_CLEAR_HOLD_OFF);;
    respond msg (cstr "Set OK")
  else if (parm_count msg =? 3) && (my_strcasecmp (parm msg 1) (cstr "ON") =? 0) then
    t <-? number_arg 0 (parm msg 2) in msg;;
    i <-? number_arg 0 (parm msg 3) in msg;;
    let threshold := u8 t in
    let interval := u8 i in
    if (threshold <? 10) || (50 <? threshold) then param_invalid msg else
    if (interval <? 1) || (48 <? interval) then param_invalid msg else
    update (fun _ => mk_lprunning FLAG_VALID 1 threshold interval);;
    save lprunning_config_t;;
    do (my_send_msg MOD_MAIN MOD_MAIN MY_MSG_LPSLEEP_CLEAR_HOLD_OFF);;
    respond msg (cstr "Set OK")
  else param_invalid msg.

Definition startr_cmd_handler : handler := fun msg =>
  c <- get gConfigParam;;
  if parm_count msg =? 0 then
    respond msg (if startr_sw (startr_config c) =? 1 then cstr "STARTR:ON" else cstr "STARTR:OFF") else
  if negb (parm_count msg =? 1) then param_invalid msg else
  sw <-? on_off (parm msg 1) in msg;;
  update (fun _ => mk_startr FLAG_VALID sw);;
  save startr_config_t;;
  respond msg (cstr "Set OK").

Definition NO_CHARGING : Z := 0.

Definition cbmt_cmd_handler : handler := fun msg =>
  if parm_count msg =? 0 then
    mv <- ask get_batt_mv;;
    state <- ask g_charg_state;;
    respond_fitting msg (cstr "RETURN_CBMT:CHARGNIG=" ++ (if state =? NO_CHARGING then cstr "CHARGE_OUT" else cstr "CHARGE_IN") ++
      cstr ",VBAT=" ++ dec (u16 mv))
  else param_invalid msg.

(** ** Bluetooth *)

(** The bytes of an address, most significant first. *)
Definition mac_text (upper : bool) (sep : list Z) (hex : list Z) : list Z :=
  match (hex2 upper <$> rev hex) with
  | [] => []
  | h :: t => h ++ concat ((fun x => sep ++ x) <$> t)
  end.

Definition bt_mac_cmd_handler : handler := fun msg =>
  c <- get gConfigParam;;
  if parm_count msg =? 0 then
    respond_fitting msg (parm msg 0 ++ cstr ":" ++ mac_text false (cstr ":") (mac_hex (my_macaddr c)))
  else param_invalid msg.

Definition bt_crfpwr_cmd_handler : handler := fun msg =>
  c <- get gConfigParam;;
  if parm_count msg =? 0 then respond msg (parm msg 0 ++ cstr ":" ++ dec (tx_power (ble_tx_power c))) else
  if negb (parm_count msg =? 1) then param_invalid msg else
  a_value <-? number_arg 1 (parm msg 1) in msg;;
  if negb (existsb (Z.eqb a_value) [-8; -4; 0; 3; 5; 7]) then param_invalid msg else
  update (fun _ => mk_tx_power FLAG_VALID a_value);;
  do (ble_set_tx_power a_value);;
  save ble_tx_power_t;;
  respond msg (cstr "Set OK!").

Definition bt_updata_cmd_handler : handler := fun msg =>
  c <- get gConfigParam;;
  let r := bt_updata_config c in
  if parm_count msg =? 0 then
    respond msg (parm msg 0 ++ cstr ":" ++ csv [dec (bt_updata_mode r); dec (i32 (bt_updata_scan_interval r)); dec (i32 (bt_updata_scan_length r));
      dec (i32 (bt_updata_updata_interval r))]) else
  active <- ask get_lprunning_active;;
  if active : bool then respond msg (cstr "Set Fail! Unauthorized") else
  if negb (parm_count msg =? 4) then param_invalid msg else
  mode_value <-? number_arg 0 (parm msg 1) in msg;;
  if (mode_value <? 0) || (2 <? mode_value) then param_invalid msg else
  scan_interval_value <-? number_arg 0 (parm msg 2) in msg;;
  if (scan_interval_value <? 5) || (86400 <? scan_interval_value) then param_invalid msg else
  scan_length_value <-? number_arg 0 (parm msg 3) in msg;;
  if (scan_length_value <? 5) || (86400 <? scan_length_value) then param_invalid msg else
  updata_interval_value <-? number_arg 0 (parm msg 4) in msg;;
  if (updata_interval_value <? 120) || (86400 <? updata_interval_value) then param_invalid msg else
  if scan_interval_value <=? scan_length_value then param_invalid msg else
  if (mode_value =? 3) && (updata_interval_value <=? scan_interval_value) then param_invalid msg else
  update (fun _ => mk_bt_updata FLAG_VALID (u8 mode_value) scan_interval_value scan_length_value updata_interval_value);;
  save bt_updata_config_t;;
  do (my_scan_set_config mode_value scan_interval_value scan_length_value updata_interval_value);;
  respond msg (cstr "Set OK!").

Definition bluetooth_cmd_handler : handler := fun msg =>
  c <- get gConfigParam;;
  let r := bluetooth_config c in
  if parm_count msg =? 0 then
    respond msg (if bluetooth_flag r =? 0 then parm msg 0 ++ cstr ":" ++ on_off_text (bluetooth_sw r)
                 else parm msg 0 ++ cstr ":" ++ csv [on_off_text (bluetooth_sw r); dec (bluetooth_a r); dec (bluetooth_b r)]) else
  if parm_count msg =? 1 then
    sw <-? on_off (parm msg 1) in msg;;
    update (fun r => mk_bluetooth_cfg FLAG_VALID sw (bluetooth_a r) (bluetooth_b r) 0);;
    do (my_send_msg MOD_BLE MOD_BLE (if sw =? 0 then MY_MSG_BLE_CLOSE_ADV else MY_MSG_BLE_OPEN_ADV));;
    save bluetooth_config_t;;
    respond msg (cstr "Set OK!")
  else if parm_count msg =? 3 then
    if negb (my_strcasecmp (parm msg 1) (cstr "ON") =? 0) then param_invalid msg else
    a <-? number_arg 0 (parm msg 2) in msg;;
    if negb (a =? 5) then param_invalid msg else
    b <-? number_arg 0 (parm msg 3) in msg;;
    if 30 <? b then param_invalid msg else
    update (fun _ => mk_bluetooth_cfg FLAG_VALID 1 (u8 a) (u8 b) 1);;
    do (my_send_msg MOD_BLE MOD_BLE MY_MSG_BLE_CLOSE_ADV);;
    save bluetooth_config_t;;
    respond msg (cstr "Set OK!")
  else param_invalid msg.

Definition btconnect_cmd_handler : handler := fun msg =>
  c <- get gConfigParam;;
  let r := btconnect_config c in
  if parm_count msg =? 0 then
    respond msg (parm msg 0 ++ cstr ":" ++ csv [on_off_text (btconnect_sw r); dec (btconnect_interval r); dec (btconnect_report r)]) else
  if negb (parm_count msg =? 3) then param_invalid msg else
  sw_value <-? on_off (parm msg 1) in msg;;
  interval_value <-? number_arg 0 (parm msg 2) in msg;;
  if (interval_value <? 300) || (43200 <? interval_value) then param_invalid msg else
  report_value <-? number_arg 0 (parm msg 3) in msg;;
  if (report_value <? 0) || (3 <? report_value) then param_invalid msg else
  update (fun _ => mk_btconnect FLAG_VALID (u8 sw_value) (u16 interval_value) (u8 report_value));;
  save btconnect_config_t;;
  respond msg (cstr "Set OK").

(** ** Tag *)

(** Without an interval the previous one is kept. *)
Definition tag_interval_arg (msg : at_cmd_t) (old : Z) : option Z :=
  if parm_count msg =? 2 then
    v ← number_arg 0 (parm msg 2);
    if (v <? 100) || (60000 <? v) then None else Some (u16 v)
  else Some old.

Definition tag_cmd_handler : handler := fun msg =>
  c <- get gConfigParam;;
  let r := tag_config c in
  if parm_count msg =? 0 then respond msg (parm msg 0 ++ cstr ":" ++ csv [on_off_text (tag_sw r); dec (tag_interval r)]) else
  if negb (parm_count msg =? 1) && negb (parm_count msg =? 2) then param_invalid msg else
  sw_value <-? on_off (parm msg 1) in msg;;
  interval_value <-? tag_interval_arg msg (tag_interval r) in msg;;
  update (fun _ => mk_tag FLAG_VALID (u8 sw_value) interval_value);;
  save tag_config_t;;
  do (my_ble_updata_adv_param interval_value);;
  respond msg (cstr "Set OK!").

Definition jatag_cmd_handler : handler := fun msg =>
  c <- get gConfigParam;;
  let r := adv_valid_value c in
  if parm_count msg =? 0 then respond msg (parm msg 0 ++ cstr ":" ++ on_off_text (AppleValid r)) else
  if negb (parm_count msg =? 1) then param_invalid msg else
  sw_value <-? on_off (parm msg 1) in msg;;
  if GoogleValid r =? 0 then param_invalid msg else
  update (fun r => mk_adv_valid FLAG_VALID (u8 sw_value) (GoogleValid r));;
  device (set_adv_valid_status APPLE_ADV_TYPE (u8 sw_value));;
  do (my_no_con_start_adv (tag_sw (tag_config c)));;
  save adv_valid_value_t;;
  respond msg (cstr "Set OK!").

Definition jgtag_cmd_handler : handler := fun msg =>
  c <- get gConfigParam;;
  let r := adv_valid_value c in
  if parm_count msg =? 0 then respond msg (parm msg 0 ++ cstr ":" ++ on_off_text (GoogleValid r)) else
  if negb (parm_count msg =? 1) then param_invalid msg else
  sw_value <-? on_off (parm msg 1) in msg;;
  if AppleValid r =? 0 then param_invalid msg else
  update (fun r => mk_adv_valid FLAG_VALID (AppleValid r) (u8 sw_value));;
  device (set_adv_valid_status GOOGLE_ADV_TYPE (u8 sw_value));;
  do (my_no_con_start_adv (tag_sw (tag_config c)));;
  save adv_valid_value_t;;
  respond msg (cstr "Set OK!").

(** The text is printed up to its terminator; [ff_buff] and [sn_buff] have one. *)
Definition taginit_param_cmd_handler : handler := fun msg =>
  c <- get gConfigParam;;
  if parm_count msg =? 0 then
    ff <- checked (hex2hexstr (ff_hex (lic_ff c)) (replicate 59 0) 59);;
    ff_text <- checked (c_string ff);;
    sn <- checked (arr_blit (replicate 13 0) 0 (sn_hex (gsm_sn c)));;
    sn_text <- checked (c_string sn);;
    respond msg (cstr "TAG:FF:" ++ ff_text ++ cstr ";SN:" ++ sn_text)
  else
  if negb (parm_count msg =? 2) then param_invalid msg else
  if negb (my_param_check_license (parm msg 1) (u8 (zlen (parm msg 1))) ZMS_ID_FF) then param_invalid msg else
  if negb (my_param_check_license (parm msg 2) (u8 (zlen (parm msg 2))) ZMS_ID_SN) then param_invalid msg else
  r <- checked (hexstr_to_hex (ff_hex (lic_ff c)) 29 (Some (parm msg 1)));;
  update (fun _ => mk_ff FLAG_VALID (fst r));;
  save lic_ff_t;;
  sn <- checked (arr_slice (parm msg 2 ++ [0]) 0 12);;
  update (fun _ => mk_sn FLAG_VALID sn);;
  save gsm_sn_t;;
  respond msg (cstr "Set OK!").

(** ** Lights, buzzer, log, version *)

Definition led_cmd_handler : handler := fun msg =>
  c <- get gConfigParam;;
  if parm_count msg =? 0 then respond msg (parm msg 0 ++ cstr ":" ++ dec (led_display (led_config c))) else
  if negb (parm_count msg =? 1) then param_invalid msg else
  mode <-? number_arg 0 (parm msg 1) in msg;;
  if 2 <? mode then param_invalid msg else
  update (fun _ => mk_led FLAG_VALID (u8 mode));;
  do (my_send_msg MOD_BLE MOD_CTRL (if u8 mode =? 2 then MY_MSG_LED_ENABLE else MY_MSG_LED_DISABLE));;
  ready <- ask g_bLteReady;;
  (if ready : bool then do send_led_command else ret tt);;
  save led_config_t;;
  respond msg (cstr "Set OK!").

Definition ltint_cmd_handler : handler := fun msg =>
  c <- get gConfigParam;;
  if parm_count msg =? 0 then respond msg (parm msg 0 ++ cstr ":" ++ csv [dec (T1 (ltint_config c)); dec (T2 (ltint_config c))]) else
  if negb (parm_count msg =? 2) then param_invalid msg else
  t1 <-? number_arg 0 (parm msg 1) in msg;;
  t2 <-? number_arg 0 (parm msg 2) in msg;;
  if (t1 <? 100) || (5000 <? t1) || (t2 <? 100) || (5000 <? t2) then param_invalid msg else
  update (fun _ => mk_ltint FLAG_VALID (u16 t1) (u16 t2));;
  save ltint_config_t;;
  respond msg (cstr "Set OK!").

Definition buzzer_cmd_handler : handler := fun msg =>
  c <- get gConfigParam;;
  if parm_count msg =? 0 then respond msg (parm msg 0 ++ cstr ":" ++ dec (buzzer_operator (buzzer_config c))) else
  if negb (parm_count msg =? 1) then param_invalid msg else
  operator_value <-? number_arg 0 (parm msg 1) in msg;;
  if (operator_value <? 0) || (5 <? operator_value) then param_invalid msg else
  update (fun _ => mk_buzzer FLAG_VALID (u8 operator_value));;
  save buzzer_config_t;;
  do (my_set_buzzer_mode operator_value);;
  respond msg (cstr "Set OK!").

(** The configuration is changed through the pointer before it is stored. *)
Definition btlog_cmd_handler : handler := fun msg =>
  c <- get gConfigParam;;
  if parm_count msg =? 0 then respond msg (cstr "BTLOG:" ++ on_off_text (global_en (ble_log_config c))) else
  if parm_count msg =? 1 then
    sw <-? on_off (parm msg 1) in msg;;
    update (fun r => mk_log (log_flag r) sw (log_reserved r) (mod_en r) (mod_level r));;
    c <- get gConfigParam;;
    r <- my_param_set_ble_log_config (Some (ble_log_config c));;
    respond msg (if r =? 0 then cstr "Set OK!" else cstr "Set Fail! Unauthorized")
  else param_invalid msg.

Definition version_cmd_handler : handler := fun msg =>
  if parm_count msg =? 0 then
    v <- ask g_lte4GVersion;;
    respond_fitting msg (cstr "[Cell VERSION]" ++ v ++ cstr ";" ++ [10] ++ cstr "[BT VERSION]" ++ SOFTWARE_VERSION)
  else param_invalid msg.

(** ** Work mode *)

Definition modeset_continuous (msg : at_cmd_t) : prog globals W (Z * at_cmd_t) :=
  if negb (parm_count msg =? 3) then param_invalid msg else
  sec <-? number_arg 0 (parm msg 2) in msg;;
  dis <-? number_arg 0 (parm msg 3) in msg;;
  if (sec <? 5) || (86400 <? sec) then param_invalid msg else
  if negb (dis =? 0) && ((dis <? 5) || (1000 <? dis)) then param_invalid msg else
  update (with_tracking sec dis);;
  save work_mode_config_t;;
  c <- get gConfigParam;;
  (if current_mode (device_workmode_config c) =? MY_MODE_CONTINUOUS then do (send_work_mode_command MY_MODE_CONTINUOUS) else ret tt);;
  respond msg (cstr "Set OK!").

(** The interval is passed on as a 16-bit number. *)
Definition modeset_long_life (msg : at_cmd_t) : prog globals W (Z * at_cmd_t) :=
  if negb (parm_count msg =? 4) then param_invalid msg else
  minutes <-? number_arg 0 (parm msg 2) in msg;;
  gnss <-? on_off (parm msg 4) in msg;;
  c <- get gConfigParam;;
  m <-? set_long_battery_params (device_workmode_config c) (u16 minutes) (parm msg 3) gnss in msg;;
  update (fun _ => with_valid m);;
  save work_mode_config_t;;
  (if current_mode m =? MY_MODE_LONG_LIFE then
     do (send_work_mode_command MY_MODE_LONG_LIFE);;
     do (my_send_msg MOD_MAIN MOD_MAIN MY_MSG_RESET_LTE_TIMER)
   else ret tt);;
  respond msg (cstr "Set OK!").

(** The new configuration of the smart mode; the sub mode of the long form is cut to eight bits. *)
Definition smart_params (msg : at_cmd_t) (m : work_mode_config_t) : option work_mode_config_t :=
  sub ← number_arg 0 (parm msg 2);
  if parm_count msg =? 4 then
    s ← number_arg 0 (parm msg 3);
    v ← number_arg 0 (parm msg 4);
    set_intelligent_params m (u8 sub) s v
  else if 5 <? sub then None else Some (with_sub_mode sub m).

Definition modeset_smart (msg : at_cmd_t) : prog globals W (Z * at_cmd_t) :=
  if negb (parm_count msg =? 2) && negb (parm_count msg =? 4) then param_invalid msg else
  c <- get gConfigParam;;
  m <-? smart_params msg (device_workmode_config c) in msg;;
  update (fun _ => with_valid m);;
  save work_mode_config_t;;
  (if current_mode m =? MY_MODE_SMART then
     do (send_work_mode_command MY_MODE_SMART);;
     do smart_mode_apply_lte_policy
   else ret tt);;
  respond msg (cstr "Set OK!").

Definition modeset_cmd_handler : handler := fun msg =>
  if parm_count msg =? 0 then param_invalid msg else
  mode <-? number_arg 0 (parm msg 1) in msg;;
  if MY_MODE_MAX <=? mode then param_invalid msg else
  if parm_count msg =? 1 then
    last <- ask get_last_work_mode;;
    (if negb (last =? mode) then
       update (with_mode mode);;
       save work_mode_config_t;;
       ret tt
     else ret tt);;
    do (switch_work_mode mode);;
    respond msg (cstr "Set OK!")
  else if mode =? MY_MODE_CONTINUOUS then modeset_continuous msg
  else if mode =? MY_MODE_LONG_LIFE then modeset_long_life msg
  else if mode =? MY_MODE_SMART then modeset_smart msg
  else param_invalid msg.

(** The texts of the modes; the smart mode prints the intervals of its sub mode. *)
Definition continuous_text (m : work_mode_config_t) (mode : Z) : list Z :=
  cstr "MODE:" ++ csv [dec mode; dec (i32 (reporting_interval_sec m)); dec (i32 (reporting_interval_dis m))].
Definition long_life_text (m : work_mode_config_t) (mode : Z) : option (list Z) :=
  t ← c_string (start_time m);
  Some (cstr "MODE:" ++ csv [dec mode; dec (i32 (reporting_interval_min m)); t; on_off_text (gnss_sw m)]).
Definition smart_text (m : work_mode_config_t) (mode : Z) : option (list Z) :=
  s ← arr_get (static_interval m) (sub_mode m);
  v ← arr_get (moving_interval m) (sub_mode m);
  Some (cstr "MODE:" ++ csv [dec mode; dec (sub_mode m); dec (i32 s); dec (i32 v)]).

Definition modeget_cmd_handler : handler := fun msg =>
  c <- get gConfigParam;;
  let m := device_workmode_config c in
  let mode := current_mode m in
  if parm_count msg =? 0 then
    if mode =? MY_MODE_CONTINUOUS then respond_fitting msg (continuous_text m mode)
    else if mode =? MY_MODE_LONG_LIFE then t <- checked (long_life_text m mode);; respond_fitting msg t
    else if mode =? MY_MODE_SMART then t <- checked (smart_text m mode);; respond_fitting msg t
    else if mode =? MY_MODE_ALWAYS_ONLINE then respond_fitting msg (cstr "MODE:" ++ dec mode)
    else param_invalid msg
  else param_invalid msg.

Definition modeparam_cmd_handler : handler := fun msg =>
  c <- get gConfigParam;;
  let m := device_workmode_config c in
  if parm_count msg =? 0 then
    l <- checked (long_life_text m MY_MODE_LONG_LIFE);;
    s <- checked (smart_text m MY_MODE_SMART);;
    respond_fitting msg (continuous_text m MY_MODE_CONTINUOUS ++ [10] ++ l ++ [10] ++ s ++ [10] ++ cstr "MODE:" ++ dec MY_MODE_ALWAYS_ONLINE)
  else param_invalid msg.

(** ** Forwarded addresses *)

Definition BT_ADDR_LE_PUBLIC : Z := 0.

(** The address of a parameter; [hex_buf] keeps its contents where the text has fewer digits. *)
Definition parmac_addr (text : list Z) (hex_buf : list Z) : prog globals W (list Z * option (list Z)) :=
  m <- checked (macstr_to_hex (Some text) hex_buf);;
  let '(hex_buf, ok) := m in
  if negb ok then ret (hex_buf, None) else
  r <- checked (char_array_reverse (Some hex_buf) 6 (Some (replicate 6 0)) 6);;
  addr <- checked (fst r);;
  ret (hex_buf, Some (BT_ADDR_LE_PUBLIC :: addr)).

(** [false] at the first parameter that is not an address; those before it have been added. *)
Fixpoint parmac_add (texts : list (list Z)) (hex_buf : list Z) : prog globals W bool :=
  match texts with
  | [] => ret true
  | text :: texts =>
      r <- parmac_addr text hex_buf;;
      match snd r with
      | None => ret false
      | Some addr =>
          update (fun b => default b (my_tran_mac_add b addr));;
          parmac_add texts (fst r)
      end
  end.

Definition parmac_valid (b : bparmac_config_t) : bparmac_config_t := mk_bparmac FLAG_VALID (bt_parmac_macs b) (bt_parmac_mac_count b).

(** The addresses appended to the reply one after the other, a semicolon between them. *)
Fixpoint parmac_list (macs : list (list Z)) (text : list Z) (n : Z) : list Z * Z :=
  match macs with
  | [] => (text, n)
  | a :: macs =>
      let item := mac_text true [] (drop 1 a) ++ (if macs then [] else cstr ";") in
      let '(stored, k) := snprintf (RESP_STRING_LENGTH_MAX - n) item in
      parmac_list macs (text ++ stored) (u16 (n + k))
  end.

Definition bt_parmac_cmd_handler : handler := fun msg =>
  c <- get gConfigParam;;
  let b := bparmac_config c in
  hex_buf <- ask (stack_bytes 6);;
  if parm_count msg <? 1 then param_invalid msg else
  if my_strcasecmp (parm msg 1) (cstr "ADD") =? 0 then
    let add_count := parm_count msg - 1 in
    if (add_count <? 1) || (6 <? add_count) then param_invalid msg else
    if TRAN_MAC_MAX_NUM <? bt_parmac_mac_count b + add_count then param_invalid msg else
    ok <- parmac_add (take (Z.to_nat add_count) (drop 2 (parms msg))) hex_buf;;
    if negb ok then param_invalid msg else
    update parmac_valid;;
    save bparmac_config_t;;
    respond msg (cstr "Set OK!")
  else if my_strcasecmp (parm msg 1) (cstr "DEL") =? 0 then
    if negb (parm_count msg =? 2) then param_invalid msg else
    if my_strcasecmp (parm msg 2) (cstr "ALL") =? 0 then
      update (fun b => parmac_valid (my_tran_mac_del_all b));;
      save bparmac_config_t;;
      respond msg (cstr "Set OK!")
    else
      r <- parmac_addr (parm msg 2) hex_buf;;
      match snd r with
      | None => param_invalid msg
      | Some addr =>
          match my_tran_mac_del b addr with
          | Some b => update (fun _ => b);; respond msg (cstr "Set OK!")
          | None => param_invalid msg
          end
      end
  else if my_strcasecmp (parm msg 1) (cstr "CHECK") =? 0 then
    if negb (parm_count msg =? 1) then param_invalid msg else
    if bt_parmac_mac_count b =? 0 then respond msg (cstr "Set Fail! Unauthorized.") else
    macs <- checked (arr_slice (bt_parmac_macs b) 0 (bt_parmac_mac_count b));;
    let '(text, n) := parmac_list macs (take (Z.to_nat (resp_length msg)) (resp_msg msg)) (resp_length msg) in
    ret (BLE_DATA_TYPE_PACKET_MULTIPLE, set_resp text n msg)
  else param_invalid msg.

(** ** Sensors *)

(** An interval of 0 or of 10 to 1440 minutes, checked after it is cut to sixteen bits. *)
Definition timer_arg (s : list Z) : option Z :=
  v ← number_arg 0 s;
  let m := u16 v in
  if (m =? 0) || ((10 <=? m) && (m <=? 1440)) then Some m else None.

Definition patmtimer_cmd_handler : handler := fun msg =>
  c <- get gConfigParam;;
  let r := patm_timer_config c in
  if parm_count msg =? 0 then respond msg (cstr "PATMTIMER:" ++ csv [dec (patm_interval_min r); on_off_text (patm_wakeup_cell_sw r)]) else
  if negb (parm_count msg =? 2) then param_invalid msg else
  interval_min <-? timer_arg (parm msg 1) in msg;;
  wakeup_sw <-? on_off (parm msg 2) in msg;;
  update (fun _ => mk_patm_timer FLAG_VALID interval_min wakeup_sw);;
  save patm_timer_config_t;;
  do (my_send_msg MOD_BLE MOD_CTRL MY_MSG_CTRL_PATM_RELOAD);;
  respond msg (cstr "Set OK!").

Definition temptimer_cmd_handler : handler := fun msg =>
  c <- get gConfigParam;;
  let r := temp_timer_config c in
  if parm_count msg =? 0 then respond msg (cstr "TEMPTIMER:" ++ csv [dec (temp_interval_min r); on_off_text (temp_wakeup_cell_sw r)]) else
  if negb (parm_count msg =? 2) then param_invalid msg else
  interval_min <-? timer_arg (parm msg 1) in msg;;
  wakeup_sw <-? on_off (parm msg 2) in msg;;
  update (fun _ => mk_temp_timer FLAG_VALID interval_min wakeup_sw);;
  save temp_timer_config_t;;
  do (my_send_msg MOD_BLE MOD_CTRL MY_MSG_CTRL_TEMP_RELOAD);;
  respond msg (cstr "Set OK!").

(** These three are answered later, by another thread. *)
Definition patm_cmd_handler : handler := fun msg =>
  if parm_count msg =? 0 then do (my_send_msg MOD_BLE MOD_CTRL MY_MSG_CTRL_PATM_READ);; ret (1, msg) else param_invalid msg.
Definition temp_cmd_handler : handler := fun msg =>
  if parm_count msg =? 0 then do (my_send_msg MOD_BLE MOD_CTRL MY_MSG_CTRL_TEMP_READ);; ret (1, msg) else param_invalid msg.
Definition status_cmd_handler : handler := fun msg =>
  if parm_count msg =? 0 then do (my_send_msg MOD_BLE MOD_CTRL MY_MSG_CTRL_STATUS_READ);; ret (1, msg) else param_invalid msg.

(** An angle from 5 to 60 degrees, or 255 for none. *)
Definition angle_arg (s : list Z) : option Z :=
  v ← number_arg 0 s;
  if ((v <? 5) || (60 <? v)) && negb (v =? 255) then None else Some v.

Definition imu_alm_cmd_handler : handler := fun msg =>
  c <- get gConfigParam;;
  let r := imu_alm_config c in
  if parm_count msg =? 0 then
    respond msg (parm msg 0 ++ cstr ":" ++ csv [on_off_text (imu_alm_sw r); dec (imu_alm_report r); dec (imu_roll_threshold r);
      dec (imu_pitch_threshold r); dec (imu_yaw_threshold r); dec (imu_duration_time r); dec (recover_time r)]) else
  if negb (parm_count msg =? 7) then param_invalid msg else
  sw_value <-? on_off (parm msg 1) in msg;;
  report <-? number_arg 0 (parm msg 2) in msg;;
  if (report <? 0) || (3 <? report) then param_invalid msg else
  roll <-? angle_arg (parm msg 3) in msg;;
  pitch <-? angle_arg (parm msg 4) in msg;;
  yaw <-? angle_arg (parm msg 5) in msg;;
  duration <-? number_arg 0 (parm msg 6) in msg;;
  if (duration <? 1) || (180 <? duration) then param_invalid msg else
  recover <-? number_arg 0 (parm msg 7) in msg;;
  if (recover <? 1) || (30 <? recover) then param_invalid msg else
  update (fun r => mk_imu_alm FLAG_VALID (u8 sw_value) (u8 report) (u8 roll) (u8 pitch) (u8 yaw) (u8 duration) (imu_duration_count r) (u8 recover));;
  save imu_alm_config_t;;
  respond msg (cstr "Set OK").

(** ** Factory reset *)

Definition factory (kind : list Z) : handler := fun msg =>
  if parm_count msg =? 0 then
    my_param_factory_reset;;
    world (lte_send_command (cstr "FACTORY") (Some kind));;
    modify (fun g => mk_globals (gConfigParam g) (inited g) true (g_lte_cmdSource g));;
    respond msg (cstr "Set OK")
  else param_invalid msg.

Definition factory_cmd_handler : handler := factory (cstr "0").
Definition factoryall_cmd_handler : handler := factory (cstr "1").

(** ** Commands for the LTE module *)

(** The parameters appended with commas; the size given is that of the whole buffer each time. *)
Fixpoint append_parms (ps : list (list Z)) (buf : list Z) (offset : Z) : option (list Z * Z) :=
  match ps with
  | [] => Some (buf, offset)
  | p :: ps =>
      r ← snprintf_at buf offset LTE_CMD_BUF_SIZE (44 :: p);
      append_parms ps (fst r) (offset + snd r)
  end.

Definition lte_cmd_text (msg : at_cmd_t) (buf : list Z) : option (list Z) :=
  r ← snprintf_at buf 0 LTE_CMD_BUF_SIZE (parm msg 0);
  r ← append_parms (take (Z.to_nat (parm_count msg)) (drop 1 (parms msg))) (fst r) (snd r);
  r ← snprintf_at (fst r) (snd r) LTE_CMD_BUF_SIZE [35];
  c_string (fst r).

(** After a failure only the text of the reply is written, not its length. *)
Definition lte_cmd_handler : handler := fun msg =>
  b <- world (k_malloc LTE_CMD_BUF_SIZE);;
  match b with
  | None => ret (u16 (-1), msg)
  | Some buf =>
      text <- checked (lte_cmd_text msg buf);;
      r <- world (lte_send_command (cstr "CMD") (Some text));;
      do k_free;;
      if r <? 0 then
        ret (BLE_DATA_TYPE_PACKET_MULTIPLE, set_resp (fst (snprintf RESP_STRING_LENGTH_MAX (cstr "RETURN_" ++ parm msg 0 ++ cstr "_FAIL"))) (resp_length msg) msg)
      else
        let '(stored, n) := snprintf RESP_STRING_LENGTH_MAX (cstr "RETURN_" ++ parm msg 0 ++ cstr "_OK") in
        ret (BLE_DATA_TYPE_PACKET_MULTIPLE, set_resp stored (if (0 <? n) && (n <? RESP_STRING_LENGTH_MAX) then n else resp_length msg) msg)
  end.

(** ** Dispatch *)

Definition at_cmd_attr_table : list (list Z * handler) :=
  [(cstr "REMALM", remalm_cmd_handler); (cstr "PULLALM", pullalm_cmd_handler); (cstr "PATMALM", patalm_cmd_handler);
   (cstr "TEMPALM", tempalm_cmd_handler); (cstr "MOTDET", motdet_cmd_handler); (cstr "MOTDETALM", motdetalm_cmd_handler);
   (cstr "BATLEVEL", batlevel_cmd_handler); (cstr "CHARGESTA", chargesta_cmd_handler); (cstr "PWRSAVE", pwsave_cmd_handler);
   (cstr "PWRLIMIT", pwrlimit_cmd_handler); (cstr "LPSLEEP", lprunning_cmd_handler); (cstr "STARTR", startr_cmd_handler);
   (cstr "CBMT", cbmt_cmd_handler); (cstr "BT_MAC", bt_mac_cmd_handler); (cstr "BT_CRFPWR", bt_crfpwr_cmd_handler);
   (cstr "BT_UPDATA", bt_updata_cmd_handler); (cstr "BLUETOOTH", bluetooth_cmd_handler); (cstr "BTCONNECT", btconnect_cmd_handler);
   (cstr "TAG", tag_cmd_handler); (cstr "JATAG", jatag_cmd_handler); (cstr "JGTAG", jgtag_cmd_handler);
   (cstr "TAGINIT_PARAM", taginit_param_cmd_handler); (cstr "LED", led_cmd_handler); (cstr "LTINT", ltint_cmd_handler);
   (cstr "BUZZER", buzzer_cmd_handler); (cstr "BTLOG", btlog_cmd_handler); (cstr "VERSION", version_cmd_handler);
   (cstr "MODESET", modeset_cmd_handler); (cstr "MODEGET", modeget_cmd_handler); (cstr "MODEPARAM", modeparam_cmd_handler);
   (cstr "BT_PARMAC", bt_parmac_cmd_handler); (cstr "STATUS", status_cmd_handler); (cstr "PATMTIMER", patmtimer_cmd_handler);
   (cstr "PATM", patm_cmd_handler); (cstr "TEMPTIMER", temptimer_cmd_handler); (cstr "TEMP", temp_cmd_handler);
   (cstr "IMUALM", imu_alm_cmd_handler); (cstr "FACTORY", factory_cmd_handler); (cstr "FACTORYALL", factoryall_cmd_handler)].

Definition lte_cmd_attr_table : list (list Z) :=
  cstr <$> ["MILEAGE"; "TRIP"; "BOOTLOC"; "SF"; "GFENCE"; "APN"; "HBT"; "SERVER"; "SIMPRI"; "DEEPSLEEPDT"; "CENTER"; "SECOND_SERVER"; "CHECK";
    "GPSDMODE"; "POSITIONIMMED"; "BATCH"; "ANGLEREP"; "GPSCOLD"; "NETSET"; "ICCID"; "IMSI"; "ASETGMT"; "GMT"; "AMSSERVER"; "NETLOG"]%string.

Fixpoint find_cmd (name : list Z) (table : list (list Z * handler)) : option handler :=
  match table with
  | [] => None
  | (cmd_str, f) :: table => if my_strcasecmp cmd_str name =? 0 then Some f else find_cmd name table
  end.

Definition find_lte (name : list Z) : bool := existsb (fun s => my_strcasecmp s name =? 0) lte_cmd_attr_table.

(** The type of the reply is cut to sixteen bits. *)
Definition dispatch : handler := fun msg =>
  match find_cmd (parm msg 0) at_cmd_attr_table with
  | Some f => r <- f msg;; ret (u16 (fst r), snd r)
  | None =>
      if find_lte (parm msg 0) then r <- lte_cmd_handler msg;; ret (u16 (fst r), snd r)
      else let '(stored, n) := snprintf RESP_STRING_LENGTH_MAX (cstr "Set Fail! UnknownCmd") in ret (0, set_resp stored n msg)
  end.

(** [rcv_msg] as received; the message has no reply yet. *)
Definition at_recv_cmd_handler (rcv_msg : list Z) (msg : at_cmd_t) : prog globals W (Z * at_cmd_t) :=
  r <- checked (at_cmd_str_analyse PARM_MAX 0 [35] 44 (Some rcv_msg));;
  let '(par_len, buf, tar) := r in
  if (PARM_MAX <? par_len) || (par_len <=? 0) then ret (0, msg) else
  ps <- checked (mapM (text_at buf) tar);;
  dispatch (mk_at_cmd ps (par_len - 1) (resp_msg msg) (resp_length msg)).

Definition run_lte_cmd (rcv_msg : list Z) (msg : at_cmd_t) : prog globals W (Z * at_cmd_t) :=
  modify (fun g => mk_globals (gConfigParam g) (inited g) (g_factory_mode g) 1);;
  r <- at_recv_cmd_handler rcv_msg msg;;
  do (my_start_timer_cmdsource_clear 2000);;
  ret r.

Definition lte_cmd_source_clear_callback : prog globals W unit :=
  modify (fun g => mk_globals (gConfigParam g) (inited g) (g_factory_mode g) 0).
End handlers.
