(* ===== verification/AtProofs.v ===== *)
(** * What a command does

    Every handler returns, without an access out of bounds; its reply fits the
    buffer; and it leaves the settings alone, or sets one of them to a
    documented value. *)

From Stdlib Require Import ZifyBool.
From S2P Require Import Prelude Text TextProofs Str FlashStore Prog AtParse Layout SettingsData Settings AtCmd AtHandlers.

Open Scope prog_scope.

Definition INVALID : list Z := cstr "Set Fail! InvalidParam".

(** The reply lies in the buffer. *)
Definition reply_ok (msg : at_cmd_t) : Prop := 0 <= resp_length msg <= zlen (resp_msg msg) /\ zlen (resp_msg msg) < RESP_STRING_LENGTH_MAX.

(** The command was refused because of its parameters. *)
Definition rejected (r : Z * at_cmd_t) : Prop := u16 (fst r) = BLE_DATA_TYPE_PACKET_MULTIPLE /\ resp_msg (snd r) = INVALID.

Section effect.
Context {W : Type} `{!CmdIO W}.

(** What a command may do to the settings; only [lossy] commands change one
    without storing it, or erase what is stored. *)
Inductive effect (lossy : bool) (g : globals) (w : W) : globals -> W -> Prop :=
  | eff_none w' : same_zms w w' -> effect lossy g w g w'
  | eff_set {A} `{SettingLaws A} (a : A) w1 w2 w' r :
      setting_ok a -> flag a = FLAG_VALID -> same_zms w w1 ->
      my_user_data_write w1 (store_id (A := A)) (bytes_of a) = (w2, r) -> same_zms w2 w' ->
      effect lossy g w (set_config (put a (gConfigParam g)) g) w'
  | eff_seq g1 w1 g2 w2 : effect lossy g w g1 w1 -> effect lossy g1 w1 g2 w2 -> effect lossy g w g2 w2
  | eff_unsaved {A} `{SettingLaws A} (a : A) w' : lossy = true -> setting_ok a -> effect lossy g w (set_config (put a (gConfigParam g)) g) w'
  | eff_erase g' w' : lossy = true -> gConfigParam g' = gConfigParam g -> effect lossy g w g' w'.

Definition good (lossy : bool) (g : globals) (w : W) (r : Z * at_cmd_t) (g' : globals) (w' : W) : Prop :=
  reply_ok (snd r) /\ (lossy = false -> rejected r -> g' = g /\ w' = w) /\ effect lossy g w g' w'.

(** A message before its handler runs. *)
Record fresh (msg : at_cmd_t) : Prop := {
  fresh_len : resp_length msg = 0;
  fresh_text : zlen (resp_msg msg) < RESP_STRING_LENGTH_MAX;
  fresh_count : 0 <= parm_count msg < PARM_MAX;
  fresh_parms : zlen (parms msg) = PARM_MAX;
  fresh_line : line_len (take (Z.to_nat (parm_count msg + 1)) (parms msg)) < CMD_STRING_LENGTH_MAX;
  fresh_parm : Forall (fun p => zlen p < CMD_STRING_LENGTH_MAX /\ Forall (fun c => c <> 0) p) (parms msg)
}.

Definition handler_good (lossy : bool) (h : handler (W := W)) : Prop := forall msg g w,
  fresh msg -> settings_ok (gConfigParam g) -> twp (h msg) (good lossy g w) g w.

(** The settings stay documented. *)
Lemma effect_ok lossy g w g' w' : effect lossy g w g' w' -> settings_ok (gConfigParam g) -> settings_ok (gConfigParam g').
Proof.
  induction 1 as [ |g w A SA HA a w1 w2 w' r Ha Hf Hz Hw Hz'|g w g1 w1 g2 w2 H1 IH1 H2 IH2|g w A SA HA a w' Hl Ha|g w g' w' Hl E]; intros Hc; auto.
  - by apply (for_all_put _ _ a _ Hc).
  - by apply (for_all_put _ _ a _ Hc).
  - by rewrite E.
Qed.

(** ** Replies *)

Lemma respond_reply msg text (Q : Z * at_cmd_t -> globals -> W -> Prop) g w :
  zlen text < RESP_STRING_LENGTH_MAX -> Q (BLE_DATA_TYPE_PACKET_MULTIPLE, set_resp text (zlen text) msg) g w ->
  twp (respond msg text) Q g w.
Proof.
  intros Hl HQ. unfold respond, snprintf, RESP_STRING_LENGTH_MAX in *. pose proof (zlen_nonneg text). apply twp_ret.
  rewrite take_ge by (unfold zlen in *; lia). unfold u16. by rewrite Z.mod_small by lia.
Qed.

Lemma respond_keep lossy msg text g w : zlen text < RESP_STRING_LENGTH_MAX -> twp (respond msg text) (good lossy g w) g w.
Proof.
  intros Hl. apply respond_reply; [done|]. pose proof (zlen_nonneg text). split; [by unfold reply_ok; cbn; lia|]. split; [done|by apply eff_none].
Qed.

Lemma invalid_keep lossy msg g w : twp (param_invalid msg) (good lossy g w) g w.
Proof. by apply respond_keep. Qed.

Lemma respond_fitting_keep lossy msg text g w : zlen text < RESP_STRING_LENGTH_MAX -> twp (respond_fitting msg text) (good lossy g w) g w.
Proof. intros Hl. unfold respond_fitting. destruct (_ && _); [by apply respond_keep|apply invalid_keep]. Qed.

Lemma respond_done lossy msg text g0 w0 g w :
  zlen text < RESP_STRING_LENGTH_MAX -> text <> INVALID -> effect lossy g0 w0 g w -> twp (respond msg text) (good lossy g0 w0) g w.
Proof.
  intros Hl Hne He. apply respond_reply; [done|]. pose proof (zlen_nonneg text). split; [by unfold reply_ok; cbn; lia|].
  split; [|done]. intros _ [_ Ht]. by destruct Hne.
Qed.

(** ** Steps of a handler *)

Lemma twp_do c (Q : unit -> globals -> W -> Prop) g w : Q tt g (call c w) -> twp (do c) Q g w.
Proof. intros H. by apply twp_world; intros [] w' [= <-]. Qed.

Lemma twp_device f (Q : unit -> globals -> W -> Prop) g w : Q tt g (f w) -> twp (device f) Q g w.
Proof. intros H. by apply twp_world; intros [] w' [= <-]. Qed.

Lemma twp_ask {A} (f : W -> A) (Q : A -> globals -> W -> Prop) g w : Q (f w) g w -> twp (ask f) Q g w.
Proof. intros H. by apply twp_world; intros a w' [= <- <-]. Qed.

Lemma twp_update {A} `{Setting A} (f : A -> A) (Q : unit -> globals -> W -> Prop) g w :
  Q tt (set_config (put (f (field (gConfigParam g))) (gConfigParam g)) g) w -> twp (update f) Q g w.
Proof. done. Qed.

Lemma twp_save {A} `{SettingLaws A} (Q : Z -> globals -> W -> Prop) g w :
  (forall r w', my_user_data_write w (store_id (A := A)) (bytes_of (field (A := A) (gConfigParam g))) = (w', r) -> Q r g w') ->
  twp (save A) Q g w.
Proof. intros HQ. unfold save. apply twp_bind, twp_get. by apply twp_world. Qed.
End effect.

(** ** Automation *)

Lemma csv_len n l : Forall (fun s => zlen s <= n) l -> zlen (csv l) <= (n + 1) * zlen l.
Proof.
  induction 1 as [|s l Hs Hl IH]; [unfold zlen; cbn; lia|]. rewrite zlen_cons. pose proof (zlen_nonneg s). destruct l as [|s' l]; [cbn [csv]; fw|].
  change (csv (s :: s' :: l)) with (s ++ cstr "," ++ csv (s' :: l)). rewrite !zlen_app. change (zlen (cstr ",")) with 1. lia.
Qed.

Lemma on_off_text_len v : zlen (on_off_text v) <= 21.
Proof. unfold on_off_text. by destruct (v =? 0). Qed.

Lemma parm_len msg k : fresh msg -> 0 <= zlen (parm msg k) < CMD_STRING_LENGTH_MAX.
Proof.
  intros H. split; [apply zlen_nonneg|]. unfold parm. destruct (le_lt_dec (length (parms msg)) k); [by rewrite nth_overflow|].
  by apply (proj1 (Forall_nth (fun p => zlen p < CMD_STRING_LENGTH_MAX /\ _) [] (parms msg)) (fresh_parm _ H) k).
Qed.

(** The length of a query reply. *)
Lemma query_len msg sep l : fresh msg -> zlen sep = 1 -> zlen l <= 10 -> Forall (fun s => zlen s <= 21) l ->
  zlen (parm msg 0 ++ sep ++ csv l) < RESP_STRING_LENGTH_MAX.
Proof.
  intros Hm Hs Hl Hf. pose proof (parm_len msg 0 Hm). apply csv_len in Hf. rewrite !zlen_app, Hs.
  unfold CMD_STRING_LENGTH_MAX, RESP_STRING_LENGTH_MAX in *. lia.
Qed.

Lemma query1_len msg sep s : fresh msg -> zlen sep = 1 -> zlen s <= 21 -> zlen (parm msg 0 ++ sep ++ s) < RESP_STRING_LENGTH_MAX.
Proof.
  intros Hm Hs Hl. pose proof (parm_len msg 0 Hm). rewrite !zlen_app, Hs. unfold CMD_STRING_LENGTH_MAX, RESP_STRING_LENGTH_MAX in *. lia.
Qed.

Lemma titled_len pre l : zlen (cstr pre) <= 40 -> zlen l <= 10 -> Forall (fun s => zlen s <= 21) l ->
  zlen (cstr pre ++ csv l) < RESP_STRING_LENGTH_MAX.
Proof. intros Hs Hl Hf. apply csv_len in Hf. rewrite !zlen_app. unfold RESP_STRING_LENGTH_MAX in *. lia. Qed.

Lemma titled1_len pre s : zlen (cstr pre) <= 40 -> zlen s <= 21 -> zlen (cstr pre ++ s) < RESP_STRING_LENGTH_MAX.
Proof. intros Hs Hl. rewrite !zlen_app. unfold RESP_STRING_LENGTH_MAX in *. lia. Qed.
#[export] Hint Resolve on_off_text_len dec_len query_len query1_len titled_len titled1_len : reply.
#[export] Hint Extern 1 (Forall _ (_ :: _)) => constructor : reply.
#[export] Hint Extern 1 (Forall _ []) => constructor : reply.
#[export] Hint Extern 2 (zlen _ = _) => reflexivity : reply.
#[export] Hint Extern 2 (zlen (_ :: _) <= _) => vm_compute; discriminate : reply.
#[export] Hint Extern 2 (zlen (cstr _) < _) => reflexivity : reply.
#[export] Hint Extern 2 (zlen (cstr _) <= _) => vm_compute; discriminate : reply.

Ltac cstr_lens :=
  unfold CMD_STRING_LENGTH_MAX, RESP_STRING_LENGTH_MAX, SOFTWARE_VERSION in *;
  repeat match goal with |- context [zlen (cstr ?s)] => let n := eval vm_compute in (zlen (cstr s)) in change (zlen (cstr s)) with n end.

(** Other modules leave the stored settings alone. *)
Ltac zsame := intros ?; cbn [fst]; repeat first [rewrite law_call_zms | rewrite law_adv_zms]; try done.

Ltac hstep :=
  lazymatch goal with
  | |- twp (bind _ _) _ _ _ => apply twp_bind
  | |- twp (ret _) _ _ _ => apply twp_ret
  | |- twp (get _) _ _ _ => apply twp_get
  | |- twp (do _) _ _ _ => apply twp_do
  | |- twp (device _) _ _ _ => apply twp_device
  | |- twp (ask _) _ _ _ => apply twp_ask
  | |- twp (update _) _ _ _ => apply twp_update
  | |- twp (save _) _ _ _ => apply twp_save; intros ? ? ?
  | |- twp (param_invalid _) _ _ _ => apply invalid_keep
  | |- twp (if ?b then _ else _) _ _ _ => destruct b eqn:?
  | |- twp (match ?o with Some _ => _ | None => _ end) _ _ _ => destruct o eqn:?
  | |- twp (respond_fitting _ _) _ _ _ => apply respond_fitting_keep; auto 20 with reply
  | |- twp (respond _ _) (good _ ?g ?w) ?g ?w => apply respond_keep; auto 20 with reply
  end.

(** The bounds of the C types. *)
Ltac type_bounds :=
  unfold in_type, FLAG_VALID;
  change (2 ^ (8 * Z.of_nat 1)) with 256; change (2 ^ (8 * Z.of_nat 2)) with 65536; change (2 ^ (8 * Z.of_nat 4)) with 4294967296;
  change (2 ^ (8 * Z.of_nat 1 - 1)) with 128; change (2 ^ (8 * Z.of_nat 4 - 1)) with 2147483648.

Ltac type_bounds_in H :=
  cbn in H; unfold in_type, FLAG_VALID in H;
  change (2 ^ (8 * Z.of_nat 1)) with 256 in H; change (2 ^ (8 * Z.of_nat 2)) with 65536 in H; change (2 ^ (8 * Z.of_nat 4)) with 4294967296 in H.

Ltac documented_value :=
  unfold documented; cbn;
  unfold adv_valid_ok, ecdh_ok, tx_power_ok, log_ok, workmode_ok, remalm_ok, pullalm_ok, patalm_ok, tempalm_ok, motdet_ok, motdetalm_ok,
    batlevel_ok, startr_ok, pwrlimit_ok, lprunning_ok, bt_updata_ok, bluetooth_ok, btconnect_ok, tag_ok, led_ok, ltint_ok, buzzer_ok,
    patm_timer_ok, temp_timer_ok, imu_alm_ok, threshold_ok, ordered_ok, timer_ok, upto, within; cbn.

(** Facts about the arguments that were accepted. *)
Ltac arguments :=
  repeat match goal with
  | H : my_user_data_write _ _ _ = _ |- _ => clear H
  | H : number_arg 0 _ = Some _ |- _ => apply number_arg_nonneg in H
  | H : on_off _ = Some _ |- _ => apply on_off_range in H
  end.

(** A new value with the right types in the documented range. *)
Ltac value_ok :=
  arguments; unfold u8, u16; repeat rewrite Z.mod_small by lia;
  split; [split; [done|cbn; type_bounds; cbn; lia]|documented_value; lia].

Ltac accepted :=
  apply respond_done; [reflexivity|vm_compute; discriminate|];
  eapply eff_set; [apply _| | | |eassumption|]; [|reflexivity|zsame|zsame].

(** The present value of a setting is documented too. *)
Ltac old Hc f :=
  match type of Hc with settings_ok ?c =>
    let A := type of (f c) in
    let Ho := fresh "Ho" in assert (Ho : setting_ok (f c)) by exact (for_all_field (A := A) _ _ Hc);
    change (field (A := A) c) with (f c) in *;
    let v := fresh "v" in set (v := f c) in *; clearbody v; destruct v;
    let Ht := fresh "Ht" in let Hd := fresh "Hd" in let Hw := fresh "Hw" in destruct Ho as [[Hw Ht] Hd];
    type_bounds_in Ht;
    unfold documented in Hd; cbn in Hd
  end.

Ltac simple_handler := repeat hstep; accepted; value_ok.

Section simple.
Context {W : Type} `{!CmdIO W} {HL : CmdLaws W}.

Lemma remalm_good : handler_good false (remalm_cmd_handler (W := W)).
Proof. intros msg g w Hm Hc. unfold remalm_cmd_handler. simple_handler. Qed.

Lemma pullalm_good : handler_good false (pullalm_cmd_handler (W := W)).
Proof. intros msg g w Hm Hc. unfold pullalm_cmd_handler. simple_handler. Qed.

Lemma patalm_good : handler_good false (patalm_cmd_handler (W := W)).
Proof. intros msg g w Hm Hc. unfold patalm_cmd_handler. simple_handler. Qed.

Lemma tempalm_good : handler_good false (tempalm_cmd_handler (W := W)).
Proof. intros msg g w Hm Hc. unfold tempalm_cmd_handler. simple_handler. Qed.

Lemma motdetalm_good : handler_good false (motdetalm_cmd_handler (W := W)).
Proof. intros msg g w Hm Hc. unfold motdetalm_cmd_handler. simple_handler. Qed.

Lemma pwrlimit_good : handler_good false (pwrlimit_cmd_handler (W := W)).
Proof. intros msg g w Hm Hc. unfold pwrlimit_cmd_handler. simple_handler. Qed.

Lemma startr_good : handler_good false (startr_cmd_handler (W := W)).
Proof. intros msg g w Hm Hc. unfold startr_cmd_handler. repeat hstep; [by destruct (startr_sw _ =? 1)|]. accepted; value_ok. Qed.

Lemma btconnect_good : handler_good false (btconnect_cmd_handler (W := W)).
Proof. intros msg g w Hm Hc. unfold btconnect_cmd_handler. simple_handler. Qed.

Lemma ltint_good : handler_good false (ltint_cmd_handler (W := W)).
Proof. intros msg g w Hm Hc. unfold ltint_cmd_handler. simple_handler. Qed.

Lemma buzzer_good : handler_good false (buzzer_cmd_handler (W := W)).
Proof. intros msg g w Hm Hc. unfold buzzer_cmd_handler. simple_handler. Qed.

Lemma bt_updata_good : handler_good false (bt_updata_cmd_handler (W := W)).
Proof. intros msg g w Hm Hc. unfold bt_updata_cmd_handler. simple_handler. Qed.

Lemma motdet_good : handler_good false (motdet_cmd_handler (W := W)).
Proof. intros msg g w Hm Hc. unfold motdet_cmd_handler. simple_handler. Qed.

Lemma bt_crfpwr_good : handler_good false (bt_crfpwr_cmd_handler (W := W)).
Proof.
  intros msg g w Hm Hc. unfold bt_crfpwr_cmd_handler. repeat hstep. accepted. cbn [existsb] in *. value_ok.
Qed.

Lemma led_good : handler_good false (led_cmd_handler (W := W)).
Proof. intros msg g w Hm Hc. unfold led_cmd_handler. repeat hstep; accepted; value_ok. Qed.

Lemma timer_arg_range s v : timer_arg s = Some v -> v = 0 \/ 10 <= v <= 1440.
Proof. unfold timer_arg. destruct (number_arg 0 s) as [n|]; [|done]. cbn [mbind option_bind]. destruct (_ || _) eqn:E; [|done]. intros [= <-]. lia. Qed.

Lemma patmtimer_good : handler_good false (patmtimer_cmd_handler (W := W)).
Proof.
  intros msg g w Hm Hc. unfold patmtimer_cmd_handler. repeat hstep. accepted.
  match goal with H : timer_arg _ = _ |- _ => apply timer_arg_range in H end. value_ok.
Qed.

Lemma temptimer_good : handler_good false (temptimer_cmd_handler (W := W)).
Proof.
  intros msg g w Hm Hc. unfold temptimer_cmd_handler. repeat hstep. accepted.
  match goal with H : timer_arg _ = _ |- _ => apply timer_arg_range in H end. value_ok.
Qed.

Lemma report_modes_range msg v : report_modes msg = Some v -> length v = 6%nat /\ Forall (fun x => 0 <= x <= 3) v.
Proof.
  unfold report_modes. intros H. apply mapM_Some in H. split; [by apply Forall2_length in H|].
  eapply Forall2_Forall_r; [exact H|]. apply Forall_true. intros i x. destruct (number_arg 0 (parm msg i)) as [n|]; [|done]. cbn [mbind option_bind].
  destruct (_ || _) eqn:E; [done|]. intros [= <-]. lia.
Qed.

Lemma chargesta_good : handler_good false (chargesta_cmd_handler (W := W)).
Proof.
  intros msg g w Hm Hc. unfold chargesta_cmd_handler. repeat hstep. accepted. arguments. old Hc batlevel_config. unfold batlevel_ok, upto in Hd.
  cbn in Hd. value_ok.
Qed.

Lemma batlevel_good : handler_good false (batlevel_cmd_handler (W := W)).
Proof.
  intros msg g w Hm Hc. unfold batlevel_cmd_handler. repeat hstep. accepted. arguments. old Hc batlevel_config. unfold batlevel_ok, upto in Hd. cbn in Hd.
  match goal with H : report_modes _ = Some ?v |- _ => apply report_modes_range in H as [Hl Hr]; rename v into l end.
  explode. repeat match goal with H : Forall _ (_ :: _) |- _ => apply Forall_cons in H as [? ?] end. cbn [nth]. value_ok.
Qed.

Lemma lprunning_good : handler_good false (lprunning_cmd_handler (W := W)).
Proof.
  intros msg g w Hm Hc. unfold lprunning_cmd_handler. repeat hstep; accepted; arguments; old Hc lprunning_config; unfold lprunning_ok, upto, within in Hd; cbn in Hd.
  all: unfold u8 in *; pose proof Z.mod_pos_bound; split; [split; [done|cbn; type_bounds; cbn; lia]|documented_value; lia].
Qed.

Lemma bluetooth_good : handler_good false (bluetooth_cmd_handler (W := W)).
Proof.
  intros msg g w Hm Hc. unfold bluetooth_cmd_handler. repeat hstep; [by destruct (bluetooth_flag _ =? 0); auto 20 with reply|..].
  all: accepted; arguments; old Hc bluetooth_config; unfold bluetooth_ok, upto, within in Hd; cbn in Hd; value_ok.
Qed.

Lemma jatag_good : handler_good false (jatag_cmd_handler (W := W)).
Proof.
  intros msg g w Hm Hc. unfold jatag_cmd_handler. repeat hstep. accepted; arguments; old Hc adv_valid_value; unfold adv_valid_ok, upto, within in Hd; cbn in *; value_ok.
Qed.

Lemma jgtag_good : handler_good false (jgtag_cmd_handler (W := W)).
Proof.
  intros msg g w Hm Hc. unfold jgtag_cmd_handler. repeat hstep. accepted; arguments; old Hc adv_valid_value; unfold adv_valid_ok, upto, within in Hd; cbn in *; value_ok.
Qed.

Lemma pwsave_good : handler_good false (pwsave_cmd_handler (W := W)).
Proof.
  intros msg g w Hm Hc. unfold pwsave_cmd_handler. repeat hstep. apply twp_world. intros r w' E.
  assert (Hz : same_zms w w') by (intros id; pose proof (law_shutdown_zms w id) as Hz; by rewrite E in Hz).
  hstep; apply respond_done; try reflexivity; try (vm_compute; discriminate); by apply eff_none.
Qed.

Lemma cbmt_good : handler_good false (cbmt_cmd_handler (W := W)).
Proof.
  intros msg g w Hm Hc. unfold cbmt_cmd_handler. repeat hstep. rewrite !zlen_app. pose proof (dec_len (u16 (get_batt_mv w))).
  destruct (_ =? NO_CHARGING); cstr_lens; lia.
Qed.

Lemma mac_text_len upper sep hex n : 0 <= n -> zlen sep <= n -> zlen (mac_text upper sep hex) <= (n + 2) * zlen hex.
Proof.
  intros Hn Hs. unfold mac_text.
  assert (Hl : zlen hex = zlen (rev hex)) by (unfold zlen; by rewrite length_rev). rewrite Hl.
  destruct (rev hex) as [|h t]; [unfold zlen; cbn; lia|]. cbn [fmap list_fmap]. rewrite zlen_app, zlen_cons. change (zlen (hex2 upper h)) with 2.
  assert (zlen (concat ((fun x => sep ++ x) <$> (hex2 upper <$> t))) <= (n + 2) * zlen t); [|lia].
  clear Hl h. induction t as [|h t IH]; [unfold zlen; cbn; lia|]. cbn [fmap list_fmap concat]. rewrite !zlen_app, zlen_cons. change (zlen (hex2 upper h)) with 2. cbn [fmap] in IH. lia.
Qed.

Lemma bt_mac_good : handler_good false (bt_mac_cmd_handler (W := W)).
Proof.
  intros msg g w Hm Hc. unfold bt_mac_cmd_handler. repeat hstep. pose proof (parm_len msg 0 Hm).
  pose proof (for_all_field (A := macaddr_t) _ _ Hc) as [[Hw _] _]. cbn in Hw.
  pose proof (mac_text_len false (cstr ":") (mac_hex (my_macaddr (gConfigParam g))) 1 ltac:(lia) ltac:(done)) as Hx.
  rewrite !zlen_app. cstr_lens. unfold zlen in Hx at 2. lia.
Qed.

Lemma tag_interval_arg_range msg old v : tag_interval_arg msg old = Some v -> 100 <= old <= 60000 -> 100 <= v <= 60000.
Proof.
  unfold tag_interval_arg. destruct (_ =? 2); [|by intros [= ->]]. destruct (number_arg 0 _) as [n|]; [|done]. cbn [mbind option_bind].
  destruct (_ || _) eqn:E; [done|]. intros [= <-] _. unfold u16. rewrite Z.mod_small; lia.
Qed.

Lemma tag_good : handler_good false (tag_cmd_handler (W := W)).
Proof.
  intros msg g w Hm Hc. unfold tag_cmd_handler. repeat hstep. accepted; arguments; old Hc tag_config; unfold tag_ok, upto, within in Hd; cbn in *.
  match goal with H : tag_interval_arg _ _ = _ |- _ => apply tag_interval_arg_range in H; [|lia] end. value_ok.
Qed.

Lemma version_good : handler_good false (version_cmd_handler (W := W)).
Proof.
  intros msg g w Hm Hc. unfold version_cmd_handler. repeat hstep. rewrite !zlen_app. pose proof (law_version w). change (zlen [10]) with 1. cstr_lens. lia.
Qed.

(** A command that another thread will answer. *)
Lemma later_good msg c g w : fresh msg -> good false g w (1, msg) g (call c w).
Proof.
  intros [Hr Ht _ _ _ _]. pose proof (zlen_nonneg (resp_msg msg)). split; [split; cbn; lia|]. split; [by intros _ []|]. apply eff_none. zsame.
Qed.

Lemma patm_good : handler_good false (patm_cmd_handler (W := W)).
Proof. intros msg g w Hm Hc. unfold patm_cmd_handler. repeat hstep. by apply later_good. Qed.

Lemma temp_good : handler_good false (temp_cmd_handler (W := W)).
Proof. intros msg g w Hm Hc. unfold temp_cmd_handler. repeat hstep. by apply later_good. Qed.

Lemma status_good : handler_good false (status_cmd_handler (W := W)).
Proof. intros msg g w Hm Hc. unfold status_cmd_handler. repeat hstep. by apply later_good. Qed.

Lemma angle_arg_range s v : angle_arg s = Some v -> 5 <= v <= 60 \/ v = 255.
Proof. unfold angle_arg. destruct (number_arg 0 s) as [n|]; [|done]. cbn [mbind option_bind]. destruct (_ && _) eqn:E; [done|]. intros [= <-]. lia. Qed.

Lemma imu_alm_good : handler_good false (imu_alm_cmd_handler (W := W)).
Proof.
  intros msg g w Hm Hc. unfold imu_alm_cmd_handler. repeat hstep. accepted; arguments; old Hc imu_alm_config; unfold imu_alm_ok, threshold_ok, upto, within in Hd; cbn in *.
  repeat match goal with H : angle_arg _ = _ |- _ => apply angle_arg_range in H end. value_ok.
Qed.

(** The log setting is stored by [my_param_set_ble_log_config]. *)
Lemma btlog_good : handler_good false (btlog_cmd_handler (W := W)).
Proof.
  intros msg g w Hm Hc. unfold btlog_cmd_handler, my_param_set_ble_log_config, saved. repeat hstep.
  set (b := ble_log_config (gConfigParam g)). set (a := mk_log FLAG_VALID z (log_reserved b) (mod_en b) (mod_level b)).
  match goal with H : my_user_data_write _ _ _ = _ |- _ => change (my_user_data_write w (store_id (A := ble_log_config_t)) (bytes_of a) = (w', r)) in H end.
  match goal with |- twp (respond _ (if ?b then _ else _)) _ ?g' _ => change g' with (set_config (put a (gConfigParam g)) g); destruct b end.
  all: accepted; subst a b; arguments; old Hc ble_log_config; unfold log_ok, upto in Hd; cbn in *.
  all: destruct Hw; explode; type_bounds_in Ht; value_ok.
Qed.
End simple.
