(* ===== verification/AtSafety.v ===== *)
(** * What a command does: licences, work modes, addresses, and the whole line

    The handlers with several settings or loops, and the dispatch of a
    received line. *)

From Stdlib Require Import ZifyBool.
From S2P Require Import Prelude Text TextProofs Str FlashStore Prog AtParse Layout SettingsData Settings AtCmd AtHandlers AtProofs.

Open Scope prog_scope.

(** ** Licences *)

Lemma forall_fits l vs : forallb (fun v => (0 <=? v) && (v <? 256)) vs = true -> length vs = l -> fits (replicate l u8t) vs = true.
Proof.
  revert l. induction vs as [|v vs IH]; intros l Hv <-; [done|]. cbn [forallb] in Hv. apply andb_true_iff in Hv as [Hv Hvs].
  cbn [length replicate fits]. rewrite IH by done. unfold in_type. change (2 ^ (8 * Z.of_nat 1)) with 256. by rewrite Hv.
Qed.

Lemma bytes_forallb l : bytes_ok l <-> forallb (fun v => (0 <=? v) && (v <? 256)) l = true.
Proof.
  unfold bytes_ok, is_byte. rewrite forallb_forall, Forall_forall. setoid_rewrite list_elem_of_In.
  split; intros H x Hx; specialize (H x Hx); lia.
Qed.

Lemma fits_bytes l vs : fits (replicate l u8t) vs = true -> bytes_ok vs /\ length vs = l.
Proof.
  revert vs. induction l as [|l IH]; intros [|v vs]; cbn [replicate fits]; try done; [by split; constructor|]. intros H. apply andb_true_iff in H as [Hv H].
  apply IH in H as [Hb <-]. unfold in_type in Hv. change (2 ^ (8 * Z.of_nat 1)) with 256 in Hv. split; [constructor; [unfold is_byte; lia|done]|done].
Qed.

Lemma ff_ok flag hex : is_byte flag -> bytes_ok hex -> length hex = 29%nat -> setting_ok (mk_ff flag hex).
Proof.
  intros Hf Hb Hl. split; [|done]. split; [done|].
  transitivity (in_type 1 false flag && fits (replicate 29 u8t) hex); [reflexivity|].
  rewrite forall_fits by (done || by apply bytes_forallb). unfold in_type, is_byte in *. change (2 ^ (8 * Z.of_nat 1)) with 256. lia.
Qed.

Lemma sn_ok flag hex : is_byte flag -> bytes_ok hex -> length hex = 12%nat -> setting_ok (mk_sn flag hex).
Proof.
  intros Hf Hb Hl. split; [|done]. split; [done|].
  transitivity (in_type 1 false flag && fits (replicate 12 u8t) hex); [reflexivity|].
  rewrite forall_fits by (done || by apply bytes_forallb). unfold in_type, is_byte in *. change (2 ^ (8 * Z.of_nat 1)) with 256. lia.
Qed.

Lemma hex_char_byte c : hex_char c = true -> is_byte c /\ c <> 0.
Proof. unfold hex_char, in_range, is_byte. lia. Qed.

Lemma hex_chars_bytes s : forallb hex_char s = true -> bytes_ok s /\ Forall (fun c => c <> 0) s.
Proof.
  induction s as [|c s IH]; [by split; constructor|]. cbn [forallb]. intros H. apply andb_true_iff in H as [Hc H]. apply hex_char_byte in Hc as [Hc Hn].
  apply IH in H as [Hb Hz]. split; by constructor.
Qed.

(** An accepted serial number or licence consists of hexadecimal digits. *)
Lemma check_license_sn s : zlen s < 128 -> my_param_check_license s (u8 (zlen s)) ZMS_ID_SN = true -> zlen s = 12 /\ bytes_ok s.
Proof.
  intros Hl. unfold my_param_check_license, string_check_is_hex_str. cbn [Z.eqb ZMS_ID_SN ZMS_ID_FF ZMS_ID_GG Pos.eqb].
  pose proof (zlen_nonneg s). rewrite hex_count_spec by lia. rewrite u8_small by lia. unfold GSM_SN_LENGTH.
  destruct (forallb hex_char s) eqn:E; [|lia]. intros. split; [lia|]. by apply hex_chars_bytes.
Qed.

Section licence.
Context {W : Type} `{!CmdIO W} {HL : CmdLaws W}.

Lemma taginit_query_good msg g w :
  settings_ok (gConfigParam g) -> parm_count msg = 0 -> twp (taginit_param_cmd_handler msg) (good (W := W) false g w) g w.
Proof.
  intros Hc Hn. unfold taginit_param_cmd_handler. repeat hstep; [|lia..].
  pose proof (for_all_field (A := lic_ff_t) _ _ Hc) as [[Hf1 Hf2] _]. pose proof (for_all_field (A := gsm_sn_t) _ _ Hc) as [[Hs1 Hs2] _].
  cbn in Hf1, Hs1. set (ff := ff_hex (lic_ff (gConfigParam g))) in *. set (sn := sn_hex (gsm_sn (gConfigParam g))) in *.
  assert (Hb : bytes_ok ff).
  { apply (fits_bytes 29). cbn [field ff_setting to_vals items ff_stored setting_stored] in Hf2.
    change (in_type 1 false (ff_flag (lic_ff (gConfigParam g))) && fits (replicate 29 u8t) ff = true) in Hf2. by apply andb_true_iff in Hf2 as [_ ?]. }
  destruct (hex2hexstr_loop_spec ff (replicate 59 0) [] (put_nil _)) as (buf & Eb & Hlb & Hpb);
    [unfold zlen; rewrite ?Hf1, ?length_replicate; cbn; lia..|].
  eapply twp_checked; [unfold hex2hexstr; rewrite (proj2 (Z.ltb_ge _ _)) by (unfold zlen; rewrite Hf1; cbn; lia); exact Eb|].
  apply twp_bind. rewrite (put_eq _ _ Hpb). cbn [app].
  eapply twp_checked; [rewrite <- app_assoc; apply c_string_app, hex_chars_bytes, hex_text_chars, Hb|].
  assert (Esn : arr_blit (replicate 13 0) 0 sn = Some (sn ++ [0])).
  { rewrite arr_blit_Some by (done || unfold zlen; rewrite Hs1, length_replicate; cbn; lia). by rewrite Hs1. }
  apply twp_bind. eapply twp_checked; [exact Esn|]. apply twp_bind.
  destruct (c_string_defined (sn ++ [0])) as (t & Et & Ht); [apply Exists_app; right; by apply Exists_cons_hd|].
  eapply twp_checked; [exact Et|]. apply respond_keep. rewrite !zlen_app, zlen_hex_text. rewrite zlen_app in Ht.
  assert (zlen sn = 12 /\ zlen ff = 29) as [E1 E2] by (unfold zlen; lia). rewrite E1 in Ht. rewrite E2. cstr_lens. change (zlen [0]) with 1 in Ht. lia.
Qed.

Lemma taginit_good : handler_good false (taginit_param_cmd_handler (W := W)).
Proof.
  intros msg g w Hm Hc. destruct (Z.eqb_spec (parm_count msg) 0) as [E0|Hne]; [by apply taginit_query_good|].
  unfold taginit_param_cmd_handler. repeat hstep; [lia|]. pose proof (parm_len msg 2 Hm) as Hl. unfold CMD_STRING_LENGTH_MAX in Hl.
  destruct (check_license_sn (parm msg 2)) as [Hsl Hsb]; [lia|by apply negb_false_iff|].
  pose proof (for_all_field (A := lic_ff_t) _ _ Hc) as [[Hf1 Hf2] _]. cbn in Hf1.
  change (in_type 1 false (ff_flag (lic_ff (gConfigParam g))) && fits (replicate 29 u8t) (ff_hex (lic_ff (gConfigParam g))) = true) in Hf2.
  apply andb_true_iff in Hf2 as [_ Hf2]. apply fits_bytes in Hf2 as [Hfb _].
  destruct (hexstr_to_hex_safe (ff_hex (lic_ff (gConfigParam g))) 29 (parm msg 1)) as (hex & r & Eh & Hhl & Hhb); [done|unfold zlen; lia|lia|].
  eapply twp_checked; [exact Eh|]. repeat hstep. eapply twp_checked; [apply arr_slice_Some; rewrite ?zlen_app; change (zlen [0]) with 1; lia|].
  repeat hstep. apply respond_done; [reflexivity|vm_compute; discriminate|].
  eapply eff_seq; [eapply (eff_set _ _ _ (mk_ff FLAG_VALID hex)); [|reflexivity|apply same_zms_refl|eassumption|apply same_zms_refl]
                  |eapply eff_set; [apply _| |reflexivity|apply same_zms_refl|eassumption|apply same_zms_refl]].
  - apply ff_ok; [done|done|unfold zlen in Hhl; lia].
  - apply sn_ok; [done| |rewrite length_take, length_drop, length_app; cbn; unfold zlen in Hsl; lia].
    apply Forall_take, Forall_drop, Forall_app. split; [done|by constructor].
Qed.
End licence.

(** ** Work modes *)

(** Documented values have the types of the members. *)
Lemma workmode_typed m : wf m -> is_byte (workmode_flag m) -> workmode_ok m = true -> setting_ok m.
Proof.
  destruct m as [f mode sec dis min st gnss sub si mi]. cbn. intros (H1 & H2 & H3) Hf Hok. split; [split; [done|]|done].
  explode. unfold workmode_ok in Hok. cbn in Hok |- *. unfold upto, static_ok, moving_ok, within, start_time_ok, is_digit, is_byte in *. type_bounds. cbn in *.
  repeat match goal with H : _ && _ = true |- _ => apply andb_true_iff in H as [? ?] end.
  repeat (apply andb_true_iff; split); try done; lia.
Qed.

Lemma workmode_split m : workmode_ok m = true <->
  (0 <= current_mode m <= 3 /\ 5 <= reporting_interval_sec m <= 86400 /\
   (reporting_interval_dis m = 0 \/ 5 <= reporting_interval_dis m <= 1000) /\ 5 <= reporting_interval_min m <= 1440 /\
   start_time_ok (start_time m) = true /\ 0 <= gnss_sw m <= 1 /\ 0 <= sub_mode m <= 5 /\
   forallb (fun i => static_ok i (nth i (static_interval m) 0) && moving_ok i (nth i (moving_interval m) 0)) (seq 0 6) = true).
Proof. unfold workmode_ok, upto, within. rewrite !andb_true_iff. intuition lia. Qed.

Lemma atoi_4 a b c d : forallb is_digit [a; b; c; d] = true ->
  atoi [a; b; c; d] = (a - 48) * 1000 + (b - 48) * 100 + (c - 48) * 10 + (d - 48) /\
  48 <= a <= 57 /\ 48 <= b <= 57 /\ 48 <= c <= 57 /\ 48 <= d <= 57.
Proof.
  cbn [forallb]. rewrite !andb_true_iff. intros (Ha & Hb & Hc & Hd & _). pose proof (proj1 (is_digit_spec a) Ha) as Ha'.
  destruct (not_space a Ha') as (Hs & H1 & H2). unfold atoi, read_int. cbn [skip_space]. rewrite Hs, (proj2 (Z.eqb_neq a 43)), (proj2 (Z.eqb_neq a 45)) by done.
  cbn [digits_value]. rewrite Ha, Hb, Hc, Hd. apply is_digit_spec in Hb, Hc, Hd. split; [lia|done].
Qed.

Lemma long_battery_ok m minutes s gnss m' :
  setting_ok m -> 0 <= gnss -> set_long_battery_params m minutes s gnss = Some m' -> setting_ok (with_valid m') /\ current_mode m' = current_mode m.
Proof.
  intros [[Hw _] Hok] Hg. unfold set_long_battery_params. change (documented m) with (workmode_ok m) in Hok. apply workmode_split in Hok.
  destruct (_ || _) eqn:E1; [done|]. destruct (negb (zlen s =? 4)) eqn:E2; [done|]. destruct (negb (forallb is_digit s)) eqn:E3; [done|].
  destruct (negb (_ && _)) eqn:E4; [done|]. destruct (1 <? gnss) eqn:E5; [done|]. intros [= <-]. split; [|done].
  assert (Hl : length s = 4%nat) by (unfold zlen in E2; lia). apply negb_false_iff in E3.
  destruct Hok as (K1 & K2 & K3 & _ & _ & _ & K7 & K8). destruct s as [|z [|z0 [|z1 [|z2 [|]]]]]; try discriminate Hl. clear Hl.
  destruct (atoi_4 _ _ _ _ E3) as [Ea Hd]. rewrite Ea in E4. destruct Hw as (G1 & G2 & G3). apply workmode_typed; [done|done|].
  apply workmode_split. cbn [with_valid with_mode current_mode reporting_interval_sec reporting_interval_dis reporting_interval_min start_time gnss_sw sub_mode static_interval moving_interval] in *.
  split_and!; try done; try lia.
  cbn [app]. unfold start_time_ok. rewrite E3. unfold u8, u16 in E4. rewrite (Z.mod_small (_ + _) 65536) in E4 by lia.
  rewrite !(Z.mod_small _ 256) in E4 by (Z.div_mod_to_equations; lia).
  set (x := (z - 48) * 10 + (z0 - 48)) in *. set (y := (z1 - 48) * 10 + (z2 - 48)) in *.
  replace (_ + _ + _ + _) with (x * 100 + y) in E4 by lia.
  assert (Hx : (x * 100 + y) / 100 = x) by (rewrite Z.div_add_l, Z.div_small by lia; lia).
  assert (Hy : (x * 100 + y) mod 100 = y) by (rewrite Z.add_comm, Z.mod_add, Z.mod_small by lia; done).
  rewrite Hx, Hy in E4. lia.
Qed.

(** One interval of the table is replaced. *)
Lemma intervals_insert (P Q : nat -> Z -> bool) n l1 l2 x y :
  length l1 = 6%nat -> length l2 = 6%nat -> (n < 6)%nat -> P n x = true -> Q n y = true ->
  forallb (fun i => P i (nth i l1 0) && Q i (nth i l2 0)) (seq 0 6) = true ->
  forallb (fun i => P i (nth i (<[n := x]> l1) 0) && Q i (nth i (<[n := y]> l2) 0)) (seq 0 6) = true.
Proof.
  intros H1 H2 Hn HP HQ H. rewrite forallb_forall in H |- *. intros i Hi. specialize (H i Hi). rewrite !nth_lookup in *.
  destruct (decide (i = n)) as [->|Hne]; [rewrite !list_lookup_insert_eq by lia; cbn; by rewrite HP, HQ|].
  by rewrite !list_lookup_insert_ne.
Qed.

Lemma intelligent_ok m sub s v m' :
  setting_ok m -> 0 <= sub -> 0 <= s -> 0 <= v -> set_intelligent_params m sub s v = Some m' -> setting_ok (with_valid m') /\ current_mode m' = current_mode m.
Proof.
  intros [[Hw _] Hok] Hs Hsi Hmi. unfold set_intelligent_params. change (documented m) with (workmode_ok m) in Hok. apply workmode_split in Hok.
  destruct (5 <? sub) eqn:E1; [done|]. destruct (negb (s =? 0) && _) eqn:E2; [done|].
  match goal with |- context [if (if ?b then ?x else ?y) then _ else _] => destruct (if b then x else y) eqn:E3; [done|] end.
  intros [= <-]. split; [|done]. destruct m as [f mode sec dis min st gnss sub0 si mi]. cbn in Hw, Hok |- *.
  destruct Hw as (H1 & H2 & H3). destruct Hok as (K1 & K2 & K3 & K4 & K5 & K6 & _ & K8).
  assert (Hn : (Z.to_nat sub < 6)%nat) by (clear - Hs E1; lia).
  apply workmode_typed; [cbn; rewrite !length_insert; done|done|]. apply workmode_split. cbn [with_valid with_mode current_mode reporting_interval_sec reporting_interval_dis reporting_interval_min start_time gnss_sw sub_mode static_interval moving_interval].
  refine (conj K1 (conj K2 (conj K3 (conj K4 (conj K5 (conj K6 (conj _ _))))))); [clear - E1 Hs; lia|].
  apply intervals_insert; try done; clear K1 K2 K3 K4 K5 K6 K8 H1 H2 H3; unfold static_ok, moving_ok, within.
  - replace (Z.to_nat sub <=? 4)%nat with (sub <=? 4) by lia. destruct (sub <=? 4); lia.
  - replace (existsb (Nat.eqb (Z.to_nat sub)) [0; 1; 3]%nat) with ((sub =? 0) || (sub =? 1) || (sub =? 3)) by (cbn [existsb]; lia).
    destruct (_ || _ || _); lia.
Qed.

Section modes.
Context {W : Type} `{!CmdIO W} {HL : CmdLaws W}.
Implicit Types (g : globals) (w : W).

Lemma present_mode g : settings_ok (gConfigParam g) -> setting_ok (device_workmode_config (gConfigParam g)).
Proof. intros Hc. exact (for_all_field (A := work_mode_config_t) _ _ Hc). Qed.

Lemma modeset_continuous_good : handler_good false (modeset_continuous (W := W)).
Proof.
  intros msg g w Hm Hc. unfold modeset_continuous. repeat hstep.
  all: accepted; arguments; apply present_mode in Hc as [[Hw _] Hok]; apply workmode_split in Hok as (K1 & K2 & K3 & K4 & K5 & K6 & K7 & K8).
  all: apply workmode_typed; [done|done|]; apply workmode_split; cbn; split; [exact K1|].
  all: split; [lia|]; split; [lia|]; exact (conj K4 (conj K5 (conj K6 (conj K7 K8)))).
Qed.

Lemma modeset_long_life_good : handler_good false (modeset_long_life (W := W)).
Proof.
  intros msg g w Hm Hc. unfold modeset_long_life. repeat hstep.
  all: accepted; arguments; apply present_mode in Hc; match goal with H : set_long_battery_params _ _ _ _ = Some _ |- _ => by apply (long_battery_ok _ _ _ _ _ Hc) in H as [? _]; [|lia] end.
Qed.

Lemma smart_params_ok msg m m' : setting_ok m -> smart_params msg m = Some m' -> setting_ok (with_valid m') /\ current_mode m' = current_mode m.
Proof.
  intros Hm. unfold smart_params. destruct (number_arg 0 (parm msg 2)) as [sub|] eqn:E1; [|done]. apply number_arg_nonneg in E1. cbn [mbind option_bind].
  destruct (parm_count msg =? 4).
  - destruct (number_arg 0 (parm msg 3)) as [s|] eqn:E2; [|done]. destruct (number_arg 0 (parm msg 4)) as [v|] eqn:E3; [|done].
    apply number_arg_nonneg in E2, E3. cbn [mbind option_bind]. apply intelligent_ok; try done. apply u8_range.
  - destruct (5 <? sub) eqn:E; [done|]. intros [= <-]. split; [|done]. destruct Hm as [[Hw _] Hok].
    apply workmode_split in Hok as (K1 & K2 & K3 & K4 & K5 & K6 & _ & K8). apply workmode_typed; [done|done|]. apply workmode_split. cbn.
    refine (conj K1 (conj K2 (conj K3 (conj K4 (conj K5 (conj K6 (conj _ K8))))))). lia.
Qed.

Lemma modeset_smart_good : handler_good false (modeset_smart (W := W)).
Proof.
  intros msg g w Hm Hc. unfold modeset_smart. repeat hstep.
  all: accepted; apply present_mode in Hc; match goal with H : smart_params _ _ = Some _ |- _ => by apply (smart_params_ok _ _ _ Hc) in H as [? _] end.
Qed.

Lemma modeset_good : handler_good false (modeset_cmd_handler (W := W)).
Proof.
  intros msg g w Hm Hc. unfold modeset_cmd_handler. repeat hstep.
  - accepted. arguments. apply present_mode in Hc as [[Hw _] Hok]. apply workmode_split in Hok as (K1 & K2 & K3 & K4 & K5 & K6 & K7 & K8).
    apply workmode_typed; [done|done|]. apply workmode_split. cbn. split; [unfold MY_MODE_MAX in *; lia|]. exact (conj K2 (conj K3 (conj K4 (conj K5 (conj K6 (conj K7 K8)))))).
  - apply respond_done; [reflexivity|vm_compute; discriminate|]. apply eff_none. zsame.
  - by apply modeset_continuous_good.
  - by apply modeset_long_life_good.
  - by apply modeset_smart_good.
Qed.

Lemma mode_texts m mode : setting_ok m ->
  zlen (continuous_text m mode) <= 80 /\ (exists t, long_life_text m mode = Some t /\ zlen t <= 120) /\ (exists t, smart_text m mode = Some t /\ zlen t <= 120).
Proof.
  intros [[Hw _] Hok]. apply workmode_split in Hok as (_ & _ & _ & _ & K5 & _ & K7 & _). destruct Hw as (H1 & H2 & H3).
  pose proof (fun v => dec_len v) as Hd. pose proof (fun v => on_off_text_len v) as Ho. split_and!.
  - unfold continuous_text. rewrite zlen_app. cstr_lens. etrans; [apply Z.add_le_mono_l, (csv_len 21); repeat constructor; apply Hd|]. done.
  - unfold long_life_text. destruct (c_string_defined (start_time m)) as (t & -> & Ht).
    { destruct (start_time m) as [|a [|b [|c [|d [|z [|]]]]]]; try done. unfold start_time_ok in K5. rewrite !andb_true_iff in K5.
      destruct K5 as [[[[_ Hz] _] _] _]. apply Z.eqb_eq in Hz. subst. apply Exists_exists. exists 0. split; [set_solver|done]. }
    cbn [mbind option_bind]. eexists. split; [done|]. rewrite zlen_app. cstr_lens. etrans; [apply Z.add_le_mono_l, (csv_len 21)|done].
    repeat constructor; [apply Hd|apply Hd|unfold zlen in Ht |- *; rewrite H1 in Ht; lia|apply Ho].
  - unfold smart_text. destruct (arr_get_Some (static_interval m) (sub_mode m)) as [s ->]; [unfold zlen; lia|].
    destruct (arr_get_Some (moving_interval m) (sub_mode m)) as [v ->]; [unfold zlen; lia|]. cbn [mbind option_bind].
    eexists. split; [done|]. rewrite zlen_app. cstr_lens. etrans; [apply Z.add_le_mono_l, (csv_len 21); repeat constructor; apply Hd|]. done.
Qed.

Lemma modeget_good : handler_good false (modeget_cmd_handler (W := W)).
Proof.
  intros msg g w Hm Hc. unfold modeget_cmd_handler. set (m := device_workmode_config (gConfigParam g)).
  destruct (mode_texts m (current_mode m) (present_mode g Hc)) as (H1 & (t & Et & Ht) & (t' & Et' & Ht')).
  repeat hstep; fold m; [unfold RESP_STRING_LENGTH_MAX; lia|eapply twp_checked; [exact Et|]|eapply twp_checked; [exact Et'|]].
  all: apply respond_fitting_keep; unfold RESP_STRING_LENGTH_MAX; lia.
Qed.

Lemma modeparam_good : handler_good false (modeparam_cmd_handler (W := W)).
Proof.
  intros msg g w Hm Hc. unfold modeparam_cmd_handler. set (m := device_workmode_config (gConfigParam g)).
  destruct (mode_texts m MY_MODE_CONTINUOUS (present_mode g Hc)) as (H1 & _). destruct (mode_texts m MY_MODE_LONG_LIFE (present_mode g Hc)) as (_ & (t & Et & Ht) & _).
  destruct (mode_texts m MY_MODE_SMART (present_mode g Hc)) as (_ & _ & (t' & Et' & Ht')). repeat hstep. fold m.
  eapply twp_checked; [exact Et|]. hstep. eapply twp_checked; [exact Et'|]. apply respond_fitting_keep. rewrite !zlen_app.
  pose proof (dec_len MY_MODE_ALWAYS_ONLINE). change (zlen [10]) with 1. cstr_lens. lia.
Qed.
End modes.

(** ** Forwarded addresses *)

Definition addr_ok (a : list Z) : Prop := length a = 7%nat /\ bytes_ok a.

Lemma bparmac_typed f macs n :
  is_byte f -> length macs = 20%nat -> Forall addr_ok macs -> 0 <= n <= 20 -> NoDup (take (Z.to_nat n) macs) -> setting_ok (mk_bparmac f macs n).
Proof.
  intros Hf Hl Ha Hn Hd. assert (H7 : Forall (fun a => length a = 7%nat) macs) by (eapply Forall_impl; [exact Ha|by intros a []]). split.
  - split; [done|]. transitivity (fits (replicate 142 u8t) (f :: concat macs ++ [n])); [reflexivity|]. apply forall_fits.
    + apply bytes_forallb. constructor; [done|]. apply Forall_app. split; [|constructor; [unfold is_byte; lia|done]].
      apply Forall_concat. eapply Forall_impl; [exact Ha|by intros a []].
    + cbn [length]. rewrite length_app, (length_concat_const 7), Hl by done. done.
  - cbn. unfold bparmac_ok, upto. cbn. rewrite bool_decide_eq_true_2 by done. lia.
Qed.

Lemma concat_bytes ls : bytes_ok (concat ls) -> Forall bytes_ok ls.
Proof. induction ls as [|a ls IH]; [by constructor|]. cbn [concat]. intros H. apply Forall_app in H as [Ha H]. constructor; [done|by apply IH]. Qed.

Lemma bparmac_inv b : setting_ok b ->
  length (bt_parmac_macs b) = 20%nat /\ Forall addr_ok (bt_parmac_macs b) /\ 0 <= bt_parmac_mac_count b <= 20 /\
  NoDup (take (Z.to_nat (bt_parmac_mac_count b)) (bt_parmac_macs b)) /\ is_byte (bparmac_flag b).
Proof.
  destruct b as [f macs n]. intros [[[Hl H7] Ht] Hd]. cbn in Hl, H7, Hd |- *. unfold bparmac_ok, upto in Hd. cbn in Hd. apply andb_true_iff in Hd as [Hn Hd].
  apply bool_decide_eq_true_1 in Hd. change (fits (replicate 142 u8t) (f :: concat macs ++ [n]) = true) in Ht. apply fits_bytes in Ht as [Hb _].
  apply Forall_cons in Hb as [Hf Hb]. apply Forall_app in Hb as [Hb _]. split_and!; try done; try lia.
  apply Forall_and. split; [done|by apply concat_bytes].
Qed.

Lemma mac_add_ok b addr b' : setting_ok b -> addr_ok addr -> my_tran_mac_add b addr = Some b' -> setting_ok b'.
Proof.
  intros Hb Ha. apply bparmac_inv in Hb as (Hl & Hm & Hn & Hd & Hf). unfold my_tran_mac_add, TRAN_MAC_MAX_NUM.
  destruct (Z.leb_spec 20 (bt_parmac_mac_count b)); [done|]. destruct (my_tran_mac_check b addr) eqn:Ec; [done|]. intros [= <-].
  set (k := Z.to_nat (bt_parmac_mac_count b)) in *. assert (Hk : (k < 20)%nat) by lia.
  rewrite u8_small by lia. apply bparmac_typed; [done|by rewrite length_insert|by apply Forall_insert|lia|].
  replace (Z.to_nat (bt_parmac_mac_count b + 1)) with (S k) by lia.
  rewrite (take_S_r _ _ addr) by (apply list_lookup_insert_eq; lia). rewrite take_insert_ge by lia.
  apply NoDup_app. split; [done|]. split; [|apply NoDup_singleton]. intros a Ha1 ->%list_elem_of_singleton.
  unfold my_tran_mac_check in Ec. fold k in Ec. apply Bool.not_true_iff_false in Ec. apply Ec, existsb_exists. exists addr. split; [by apply list_elem_of_In|by apply bool_decide_eq_true].
Qed.

Lemma mac_index_spec macs addr i j : mac_index macs addr i = Some j -> exists k, j = (i + k)%nat /\ macs !! k = Some addr.
Proof.
  revert i. induction macs as [|a macs IH]; intros i; cbn [mac_index]; [done|]. destruct (decide (a = addr)) as [->|]; [intros [= <-]; exists 0%nat; split; [lia|done]|].
  intros H. apply IH in H as (k & -> & E). exists (S k). split; [lia|done].
Qed.

Lemma mac_del_ok b addr b' : setting_ok b -> my_tran_mac_del b addr = Some b' -> setting_ok b'.
Proof.
  intros Hb. apply bparmac_inv in Hb as (Hl & Hm & Hn & Hd & Hf). unfold my_tran_mac_del.
  set (k := Z.to_nat (bt_parmac_mac_count b)) in *. destruct (mac_index _ _ _) as [i|] eqn:Ei; [|done]. intros [= <-].
  apply mac_index_spec in Ei as (i' & -> & Ei). rewrite Nat.add_0_l in *. pose proof (lookup_lt_Some _ _ _ Ei) as Hi. rewrite length_take in Hi.
  set (macs := bt_parmac_macs b) in *. apply bparmac_typed; [done| | |lia|].
  - rewrite !length_app, length_take, length_take, length_drop. cbn [length]. rewrite length_drop. lia.
  - apply Forall_app. split; [by apply Forall_take|]. apply Forall_app. split; [by apply Forall_take, Forall_drop|]. constructor; [by split; [|repeat constructor]|by apply Forall_drop].
  - replace (Z.to_nat (bt_parmac_mac_count b - 1)) with (k - 1)%nat by lia.
    assert (Hlen : length (take i' macs ++ take (k - 1 - i') (drop (S i') macs)) = (k - 1)%nat) by (rewrite length_app, !length_take, length_drop; lia).
    rewrite app_assoc, take_app_length' by done. apply (sublist_NoDup _ (take k macs)); [done|].
    replace (take i' macs) with (take i' (take k macs)) by (rewrite take_take; f_equal; lia).
    rewrite take_drop_commute. replace (S i' + (k - 1 - i'))%nat with k by lia. rewrite <- delete_take_drop. apply sublist_delete.
Qed.

Section addresses.
Context {W : Type} `{!CmdIO W} {HL : CmdLaws W}.
Implicit Types (g : globals) (w : W).

Lemma parmac_addr_spec text hex_buf g w : zlen text < 65536 -> zlen hex_buf = 6 -> bytes_ok hex_buf ->
  twp (parmac_addr text hex_buf) (fun r g' w' => g' = g /\ w' = w /\ zlen (fst r) = 6 /\ bytes_ok (fst r) /\
    match snd r with Some a => addr_ok a | None => True end) g w.
Proof.
  intros Ht Hl Hb. unfold parmac_addr. destruct (macstr_to_hex_safe text hex_buf Ht ltac:(lia)) as (hex & ok & E & Hl' & _).
  pose proof (macstr_to_hex_bytes _ _ _ _ E Hb) as Hb'. hstep. eapply twp_checked; [exact E|]. cbv beta iota. hstep; [apply twp_ret; cbn [fst snd]; split_and!; (done || lia)|].
  hstep. destruct (char_array_reverse_spec hex (replicate 6 0)) as [Er _]; [lia|rewrite zlen_replicate; lia|]. rewrite Hl', Hl in Er.
  eapply twp_checked; [exact Er|]. hstep. eapply twp_checked; [done|]. apply twp_ret. cbn [fst snd]. split_and!; [done..|lia|done|].
  split; [cbn [length]; rewrite length_reverse; unfold zlen in *; lia|]. constructor; [done|by apply Forall_reverse].
Qed.

Lemma present_macs g : settings_ok (gConfigParam g) -> setting_ok (bparmac_config (gConfigParam g)).
Proof. intros Hc. exact (for_all_field (A := bparmac_config_t) _ _ Hc). Qed.

Lemma parmac_add_spec texts : forall hex_buf g0 w0 g w,
  Forall (fun t => zlen t < CMD_STRING_LENGTH_MAX /\ Forall (fun c => c <> 0) t) texts -> zlen hex_buf = 6 -> bytes_ok hex_buf ->
  effect true g0 w0 g w -> settings_ok (gConfigParam g0) ->
  twp (parmac_add texts hex_buf) (fun _ g' w' => effect true g0 w0 g' w') g w.
Proof.
  induction texts as [|t texts IH]; intros hex_buf g0 w0 g w Ht Hl Hb He Hc; cbn [parmac_add]; [by apply twp_ret|].
  apply Forall_cons in Ht as [[Ht _] Hts]. hstep. eapply twp_mono; [apply parmac_addr_spec; [unfold CMD_STRING_LENGTH_MAX in Ht; lia|done|done]|].
  intros [hb [a|]] g1 w1 (-> & -> & Hl1 & Hb1 & Ha); cbn [fst snd] in *; [|by apply twp_ret].
  repeat hstep. apply IH; try done. eapply eff_seq; [exact He|]. apply (eff_unsaved _ _ _ (default (bparmac_config (gConfigParam g)) (my_tran_mac_add (bparmac_config (gConfigParam g)) a))); [done|].
  pose proof (present_macs g (effect_ok _ _ _ _ _ He Hc)) as Hp. destruct (my_tran_mac_add _ a) as [b'|] eqn:E; [|done]. by apply (mac_add_ok _ _ _ Hp Ha E).
Qed.

Lemma parmac_list_len macs : forall text n, Forall addr_ok macs -> zlen text = n -> n + 13 * zlen macs < 1024 ->
  let '(t, k) := parmac_list macs text n in zlen t = k /\ k <= n + 13 * zlen macs.
Proof.
  induction macs as [|a macs IH]; intros text n Ha Ht Hn; cbn [parmac_list]; [unfold zlen in *; cbn [length] in *; lia|].
  apply Forall_cons in Ha as [[Ha _] Hm]. rewrite zlen_cons in *. pose proof (zlen_nonneg macs). pose proof (zlen_nonneg text).
  set (item := mac_text true [] (drop 1 a) ++ (if macs then [] else cstr ";")). assert (Hi : zlen item <= 13).
  { subst item. rewrite zlen_app. pose proof (mac_text_len true [] (drop 1 a) 0 ltac:(lia) ltac:(done)) as Hx.
    assert (zlen (drop 1 a) = 6) by (unfold zlen; rewrite length_drop; lia). destruct macs; [change (zlen (@nil Z)) with 0|cstr_lens]; lia. }
  pose proof (zlen_nonneg item). unfold snprintf, RESP_STRING_LENGTH_MAX. rewrite take_ge by (unfold zlen in *; lia).
  rewrite u16_small by lia. specialize (IH (text ++ item) (n + zlen item) Hm). rewrite zlen_app in IH.
  destruct (parmac_list _ _ _) as [t k]. destruct IH; lia.
Qed.

Lemma parmac_set_good msg b b' g0 w0 g w r w' :
  effect true g0 w0 g w -> settings_ok (gConfigParam g0) -> b = bparmac_config (gConfigParam g) -> b' = parmac_valid b ->
  my_user_data_write w (store_id (A := bparmac_config_t)) (bytes_of b') = (w', r) ->
  twp (respond msg (cstr "Set OK!")) (good (W := W) true g0 w0) (set_config (Settings.put b' (gConfigParam g)) g) w'.
Proof.
  intros He Hc -> -> E. apply respond_done; [reflexivity|vm_compute; discriminate|]. eapply eff_seq; [exact He|].
  eapply eff_set; [apply _| |reflexivity|apply same_zms_refl|exact E|apply same_zms_refl].
  destruct (bparmac_inv _ (present_macs g (effect_ok _ _ _ _ _ He Hc))) as (H1 & H2 & H3 & H4 & H5). by apply bparmac_typed.
Qed.

Lemma bt_parmac_good : handler_good true (bt_parmac_cmd_handler (W := W)).
Proof.
  intros msg g w Hm Hc. unfold bt_parmac_cmd_handler. pose proof (present_macs g Hc) as Hp. destruct (bparmac_inv _ Hp) as (H1 & H2 & H3 & H4 & H5).
  destruct (law_stack 6 w ltac:(lia)) as [Hs1 Hs2]. repeat hstep.
  - eapply twp_mono; [apply (parmac_add_spec _ _ g w g w); try done; [|by apply eff_none]|].
    { apply Forall_take, Forall_drop, (fresh_parm _ Hm). }
    intros ok g1 w1 He. destruct ok; cbn [negb]; [|apply respond_reply; [done|]; split; [by split; [|done]; cbn|by split]].
    repeat hstep. by eapply parmac_set_good.
  - apply respond_done; [reflexivity|vm_compute; discriminate|]. eapply eff_set; [apply _| |reflexivity|apply same_zms_refl|eassumption|apply same_zms_refl].
    apply bparmac_typed; [done|done| |done|constructor]. apply (Forall_replicate addr_ok 20). split; [done|]. by apply (Forall_replicate is_byte 7).
  - pose proof (parm_len msg 2 Hm) as Hl. unfold CMD_STRING_LENGTH_MAX in Hl. eapply twp_mono; [apply parmac_addr_spec; [lia|done|done]|].
    intros [hb [a|]] g1 w1 (-> & -> & _ & _ & Ha); cbn [fst snd] in *; [|apply invalid_keep].
    destruct (my_tran_mac_del _ a) as [b'|] eqn:E; [|apply invalid_keep]. repeat hstep. apply respond_done; [reflexivity|vm_compute; discriminate|].
    apply (eff_unsaved _ _ _ b'); [done|]. by apply (mac_del_ok _ _ _ Hp E).
  - eapply twp_checked; [apply arr_slice_Some; unfold zlen; lia|]. rewrite drop_0. destruct Hm as [Hr Ht _ _ _ _]. rewrite Hr.
    set (macs := take _ _). assert (Hma : Forall addr_ok macs) by (by apply Forall_take). assert (Hml : zlen macs <= 20) by (unfold zlen, macs; rewrite length_take; lia).
    pose proof (parmac_list_len macs [] 0 Hma eq_refl ltac:(lia)) as Hx. change (take (Z.to_nat 0) (resp_msg msg)) with (@nil Z).
    destruct (parmac_list macs [] 0) as [t k]. destruct Hx as [Ek Hk]. apply twp_ret. pose proof (zlen_nonneg t). split; [split; cbn; unfold RESP_STRING_LENGTH_MAX; lia|]. split; [done|by apply eff_none].
Qed.
End addresses.

(** ** Commands for the LTE module *)

Lemma csv_cons p ps : csv (p :: ps) = p ++ concat ((fun q => 44 :: q) <$> ps).
Proof.
  revert p. induction ps as [|q ps IH]; intros p; [cbn; by rewrite app_nil_r|].
  change (csv (p :: q :: ps)) with (p ++ cstr "," ++ csv (q :: ps)). by rewrite IH.
Qed.

Lemma append_parms_spec ps : forall text tail,
  zlen text + line_len ps < CMD_STRING_LENGTH_MAX -> zlen text + 1 + zlen tail = CMD_STRING_LENGTH_MAX ->
  exists tail', append_parms ps (text ++ 0 :: tail) (zlen text) = Some ((text ++ concat ((fun q => 44 :: q) <$> ps)) ++ 0 :: tail', zlen (text ++ concat ((fun q => 44 :: q) <$> ps))) /\
    zlen (text ++ concat ((fun q => 44 :: q) <$> ps)) + 1 + zlen tail' = CMD_STRING_LENGTH_MAX.
Proof.
  induction ps as [|p ps IH]; intros text tail Hl Ht; cbn [append_parms]; [exists tail; cbn; by rewrite app_nil_r|].
  change (line_len (p :: ps)) with (Z.of_nat ((length p + 1) + sum_list_with (fun p => length p + 1)%nat ps)) in Hl.
  assert (Hl' : zlen text + zlen p + 1 + line_len ps < CMD_STRING_LENGTH_MAX) by (unfold line_len, zlen in *; lia). clear Hl.
  assert (0 <= line_len ps) by (unfold line_len; lia). pose proof (zlen_nonneg text). pose proof (zlen_nonneg p).
  unfold LTE_CMD_BUF_SIZE. rewrite snprintf_at_spec; [|done|rewrite zlen_cons; lia|rewrite !zlen_cons; lia]. cbn [mbind option_bind fst snd].
  rewrite <- zlen_app. set (tl := drop _ _). assert (Htl : zlen (text ++ 44 :: p) + 1 + zlen tl = CMD_STRING_LENGTH_MAX).
  { subst tl. rewrite zlen_app, zlen_cons. unfold zlen in *. rewrite length_drop. cbn [length]. lia. }
  destruct (IH (text ++ 44 :: p) tl) as (tail' & E & Hz); [rewrite zlen_app, zlen_cons; lia|done|].
  exists tail'. cbn [fmap list_fmap concat]. rewrite !(app_assoc text (44 :: p)). done.
Qed.

(** The text passed on: the parameters with commas, and [#]. *)
Lemma lte_cmd_text_spec msg buf : fresh msg -> zlen buf = LTE_CMD_BUF_SIZE ->
  lte_cmd_text msg buf = Some (csv (take (Z.to_nat (parm_count msg + 1)) (parms msg)) ++ [35]).
Proof.
  intros [_ _ Hc Hp Hl Hf] Hb. unfold lte_cmd_text, LTE_CMD_BUF_SIZE, PARM_MAX in *.
  destruct (parms msg) as [|p0 ps] eqn:Ep; [done|]. unfold parm. rewrite Ep. cbn [nth drop] in *. change (drop 0 ps) with ps.
  replace (Z.to_nat (parm_count msg + 1)) with (S (Z.to_nat (parm_count msg))) in * by lia. cbn [take] in Hl |- *. set (qs := take _ ps) in *.
  change (line_len (p0 :: qs)) with (Z.of_nat ((length p0 + 1) + sum_list_with (fun p => length p + 1)%nat qs)) in Hl.
  assert (Hl' : zlen p0 + 1 + line_len qs < CMD_STRING_LENGTH_MAX) by (unfold line_len, zlen in *; lia). clear Hl.
  assert (Hq : 0 <= line_len qs) by (unfold line_len; lia). change buf with ([] ++ buf) at 1.
  rewrite snprintf_at_spec; [|done|lia|lia]. cbn [app mbind option_bind fst snd].
  destruct (append_parms_spec qs p0 (drop (length p0 + 1) buf)) as (tail & -> & Ht); [lia|unfold zlen in *; rewrite length_drop; lia|].
  cbn [mbind option_bind fst snd]. set (text := p0 ++ _) in *. pose proof (zlen_nonneg tail).
  assert (Htl : zlen text <= zlen p0 + line_len qs).
  { subst text. rewrite zlen_app. clear. assert (zlen (concat ((fun q => 44 :: q) <$> qs)) <= line_len qs); [|lia].
    induction qs as [|q qs IH]; [done|]. cbn [fmap list_fmap concat app]. rewrite zlen_cons, zlen_app.
    change (line_len (q :: qs)) with (Z.of_nat ((length q + 1) + sum_list_with (fun p => length p + 1)%nat qs)). unfold line_len, zlen in *. cbn [fmap] in IH. lia. }
  rewrite snprintf_at_spec; [|done|done|change (zlen [35]) with 1; rewrite zlen_cons; lia].
  cbn [mbind option_bind fst]. rewrite app_assoc, csv_cons. fold text. apply c_string_app. apply Forall_app. split; [|by constructor].
  apply Forall_cons in Hf as [[_ H0] Hf]. subst text. apply Forall_app. split; [done|]. apply Forall_concat, Forall_fmap.
  eapply Forall_impl; [exact (Forall_take _ (Z.to_nat (parm_count msg)) _ Hf)|]. intros q [_ H1]. by constructor.
Qed.

Section passing.
Context {W : Type} `{!CmdIO W} {HL : CmdLaws W}.

(** The reply to a command passed on, given its name. *)
Lemma return_len msg s : fresh msg -> zlen (cstr s) <= 5 -> zlen (cstr "RETURN_" ++ parm msg 0 ++ cstr s) < RESP_STRING_LENGTH_MAX.
Proof. intros Hm Hs. pose proof (parm_len msg 0 Hm). rewrite !zlen_app. change (zlen (cstr "RETURN_")) with 7. unfold CMD_STRING_LENGTH_MAX, RESP_STRING_LENGTH_MAX in *. lia. Qed.

Lemma return_fits msg s : fresh msg -> zlen (cstr s) <= 5 ->
  snprintf RESP_STRING_LENGTH_MAX (cstr "RETURN_" ++ parm msg 0 ++ cstr s) = (cstr "RETURN_" ++ parm msg 0 ++ cstr s, zlen (cstr "RETURN_" ++ parm msg 0 ++ cstr s)).
Proof. intros Hm Hs. unfold snprintf. rewrite take_ge; [done|]. pose proof (return_len msg s Hm Hs). unfold zlen, RESP_STRING_LENGTH_MAX in *. lia. Qed.

Lemma lte_cmd_good : handler_good false (lte_cmd_handler (W := W)).
Proof.
  intros msg g w Hm Hc. unfold lte_cmd_handler. pose proof (fresh_len _ Hm) as H0. pose proof (fresh_text _ Hm) as Ht. pose proof (zlen_nonneg (resp_msg msg)).
  apply twp_bind, twp_world. intros [buf|] w1 E1.
  2:{ apply twp_ret. split; [split; cbn; lia|]. split; [by intros _ [? _]|]. apply eff_none. intros id. change w1 with (fst (w1, @None (list Z))). rewrite <- E1. by rewrite law_malloc_zms. }
  assert (Hz : same_zms w w1) by (intros id; pose proof (law_malloc_zms LTE_CMD_BUF_SIZE w id) as Hx; by rewrite E1 in Hx).
  apply twp_bind. eapply twp_checked; [apply lte_cmd_text_spec; [done|exact (law_malloc _ _ _ _ E1)]|].
  apply twp_bind, twp_world. intros r w2 E2.
  assert (Hz2 : same_zms w (call k_free w2)).
  { intros id. rewrite law_call_zms. pose proof (law_lte_zms (cstr "CMD") (Some (csv (take (Z.to_nat (parm_count msg + 1)) (parms msg)) ++ [35])) w1 id) as Hx.
    rewrite E2 in Hx. cbn [fst] in Hx. by rewrite Hx. }
  clear E1 E2. apply twp_bind, twp_do. destruct (r <? 0); rewrite return_fits by done.
  - apply twp_ret. pose proof (return_len msg "_FAIL" Hm ltac:(done)) as Hl. cbn [fst snd].
    split; [split; cbn [resp_length resp_msg set_resp snd]; [pose proof (zlen_nonneg (cstr "RETURN_" ++ parm msg 0 ++ cstr "_FAIL")); lia|done]|].
    split; [by intros _ [_ Hx]|by apply eff_none].
  - apply twp_ret. pose proof (return_len msg "_OK" Hm ltac:(done)) as Hl. pose proof (zlen_nonneg (cstr "RETURN_" ++ parm msg 0 ++ cstr "_OK")).
    split; [split; cbn [resp_length resp_msg set_resp snd]; [destruct (_ && _); lia|done]|]. split; [by intros _ [_ Hx]|by apply eff_none].
Qed.
End passing.
