(* ===== verification/AtLine.v ===== *)
(** * Command lines

    A received line from its first character to the reply: the line is split,
    the command looked up and handled.  The theorems hold of every command of
    both tables. *)

From S2P Require Import Prelude Text TextProofs Str FlashStore Prog AtParse Layout SettingsData Settings AtCmd AtHandlers AtProofs AtSafety.

Open Scope prog_scope.

(** Commands that change a setting without storing it, or erase the settings. *)
Definition unsaving : list (list Z) := [cstr "BT_PARMAC"; cstr "FACTORY"; cstr "FACTORYALL"].
Definition loses (name : list Z) : bool := existsb (fun s => my_strcasecmp s name =? 0) unsaving.

Section dispatch.
Context {W : Type} `{!CmdIO W} {HL : CmdLaws W}.

Lemma effect_lossy lossy g w g' (w' : W) : effect false g w g' w' -> effect lossy g w g' w'.
Proof.
  induction 1 as [ |g w A SA HA a w1 w2 w' r Ha Hf Hz Hw Hz'|g w g1 w1 g2 w2 H1 IH1 H2 IH2| |]; [by apply eff_none|by eapply eff_set|by eapply eff_seq|done..].
Qed.

Lemma good_lossy lossy (h : handler (W := W)) : handler_good false h -> handler_good lossy h.
Proof.
  intros Hh msg g w Hm Hc. eapply twp_mono; [by apply Hh|]. intros r g' w' (Hr & Hk & He).
  split; [done|]. split; [intros _; by apply Hk|by apply effect_lossy].
Qed.

Lemma storage_init_keeps g (w : W) : twp my_user_data_storage_init (fun _ g' _ => gConfigParam g' = gConfigParam g) g w.
Proof.
  unfold my_user_data_storage_init. do 2 tstep. destruct (inited g); [by apply twp_ret|].
  tstep. apply twp_world. intros r w1 _. destruct (negb _); [by apply twp_ret|].
  tstep. apply twp_world. intros b w2 _. destruct (negb _); [by apply twp_ret|].
  tstep. apply twp_world. intros r2 w3 _. destruct (negb _); [by apply twp_ret|]. by repeat tstep.
Qed.

Lemma factory_good kind : handler_good true (factory (W := W) kind).
Proof.
  intros msg g w Hm Hc. unfold factory. destruct (_ =? 0); [|apply invalid_keep]. apply twp_bind.
  apply (twp_mono _ (fun _ g' _ => gConfigParam g' = gConfigParam g)).
  - unfold my_param_factory_reset. tstep. eapply twp_mono; [apply storage_init_keeps|]. intros r g' w' E. destruct (negb _); [by apply twp_ret|].
    tstep. apply twp_world. intros r2 w2 _. by destruct (r2 <? 0); apply twp_ret.
  - intros r g' w' E. tstep. apply twp_world. intros r2 w2 _. repeat tstep. apply respond_done; [reflexivity|vm_compute; discriminate|]. by apply eff_erase.
Qed.

(** A handler that changes nothing when it refuses its parameters. *)
Definition harmless (h : handler (W := W)) : Prop := forall msg g w,
  fresh msg -> settings_ok (gConfigParam g) -> twp (h msg) (fun r g' w' => rejected r -> g' = g /\ w' = w) g w.

Lemma good_harmless h : handler_good false h -> harmless h.
Proof. intros Hh msg g w Hm Hc. eapply twp_mono; [by apply Hh|]. intros r g' w' (_ & Hk & _). by apply Hk. Qed.

Lemma factory_harmless kind : harmless (factory (W := W) kind).
Proof.
  intros msg g w Hm Hc. unfold factory. destruct (_ =? 0); [|by apply twp_ret].
  apply twp_bind. apply (twp_mono _ (fun _ _ _ => True)).
  - unfold my_param_factory_reset. tstep. eapply twp_mono; [apply storage_init_keeps|]. intros r g' w' _. destruct (negb _); [by apply twp_ret|].
    tstep. apply twp_world. intros r2 w2 _. by destruct (r2 <? 0); apply twp_ret.
  - intros r g' w' _. tstep. apply twp_world. intros r2 w2 _. repeat tstep. unfold respond. apply twp_ret. by intros [_ ?].
Qed.

(** Every command of the table. *)
Definition entry_good (e : list Z * handler (W := W)) : Prop :=
  handler_good (bool_decide (fst e ∈ unsaving)) (snd e) /\ (fst e <> cstr "BT_PARMAC" -> harmless (snd e)).

Lemma entry_saving name h : handler_good false h -> entry_good (name, h).
Proof. intros Hh. split; [by apply good_lossy|]. intros _. by apply good_harmless. Qed.

Lemma table_good : Forall entry_good (at_cmd_attr_table (W := W)).
Proof.
  unfold at_cmd_attr_table. repeat (apply Forall_cons; split); [..|by apply Forall_nil].
  all: [> apply entry_saving, remalm_good|apply entry_saving, pullalm_good|apply entry_saving, patalm_good|apply entry_saving, tempalm_good|
   apply entry_saving, motdet_good|apply entry_saving, motdetalm_good|apply entry_saving, batlevel_good|apply entry_saving, chargesta_good|
   apply entry_saving, pwsave_good|apply entry_saving, pwrlimit_good|apply entry_saving, lprunning_good|apply entry_saving, startr_good|
   apply entry_saving, cbmt_good|apply entry_saving, bt_mac_good|apply entry_saving, bt_crfpwr_good|apply entry_saving, bt_updata_good|
   apply entry_saving, bluetooth_good|apply entry_saving, btconnect_good|apply entry_saving, tag_good|apply entry_saving, jatag_good|
   apply entry_saving, jgtag_good|apply entry_saving, taginit_good|apply entry_saving, led_good|apply entry_saving, ltint_good|apply entry_saving, buzzer_good|
   apply entry_saving, btlog_good|apply entry_saving, version_good|apply entry_saving, modeset_good|apply entry_saving, modeget_good|
   apply entry_saving, modeparam_good|split; [apply bt_parmac_good|by intros []]|apply entry_saving, status_good|apply entry_saving, patmtimer_good|apply entry_saving, patm_good|
   apply entry_saving, temptimer_good|apply entry_saving, temp_good|apply entry_saving, imu_alm_good|split; [apply factory_good|intros _; apply factory_harmless]|split; [apply factory_good|intros _; apply factory_harmless]].
Qed.

Lemma find_cmd_in name (table : list (list Z * handler (W := W))) f :
  find_cmd name table = Some f -> exists n, (n, f) ∈ table /\ my_strcasecmp n name = 0.
Proof.
  induction table as [|[n h] table IH]; [done|]. cbn [find_cmd]. destruct (Z.eqb_spec (my_strcasecmp n name) 0) as [E|_].
  - intros [= ->]. exists n. split; [by left|done].
  - intros H. destruct (IH H) as (m & Hm & E). exists m. split; [by right|done].
Qed.

Lemma reply_type lossy g w c m g' (w' : W) : good lossy g w (c, m) g' w' -> good lossy g w (u16 c, m) g' w'.
Proof.
  intros (Hr & Hk & He). split; [done|]. split; [|done]. intros Hl [Ht Hm]. apply Hk; [done|]. split; [|done].
  cbn [fst] in *. unfold u16 in *. by rewrite Z.mod_mod in Ht by done.
Qed.

Lemma dispatch_good msg g w : fresh msg -> settings_ok (gConfigParam g) ->
  twp (dispatch (W := W) msg) (good (loses (parm msg 0)) g w) g w.
Proof.
  intros Hm Hc. unfold dispatch. destruct (find_cmd _ _) as [f|] eqn:Ef; [|destruct (find_lte _)].
  - apply find_cmd_in in Ef as (n & Hin & En). destruct (proj1 (Forall_forall _ _) table_good _ Hin) as [Hg _]. cbn [fst snd] in Hg.
    assert (Hl : handler_good (loses (parm msg 0)) f).
    { case_bool_decide as Hu; [|by apply good_lossy]. replace (loses (parm msg 0)) with true; [done|]. symmetry. apply existsb_exists.
      exists n. rewrite En. split; [by apply list_elem_of_In|done]. }
    apply twp_bind. eapply twp_mono; [by apply Hl|]. intros [c m] g' w' Hx. apply twp_ret. by apply reply_type.
  - apply twp_bind. eapply twp_mono; [by apply (good_lossy (loses (parm msg 0)) _ lte_cmd_good)|]. intros [c m] g' w' Hx. apply twp_ret. by apply reply_type.
  - apply twp_ret. split; [by split|]. split; [done|by apply eff_none].
Qed.

(** Only [BT_PARMAC] may refuse its parameters and have changed something. *)
Lemma dispatch_harmless msg g w : fresh msg -> settings_ok (gConfigParam g) -> my_strcasecmp (cstr "BT_PARMAC") (parm msg 0) <> 0 ->
  twp (dispatch (W := W) msg) (fun r g' w' => rejected r -> g' = g /\ w' = w) g w.
Proof.
  intros Hm Hc Hn. unfold dispatch. destruct (find_cmd _ _) as [f|] eqn:Ef; [|destruct (find_lte _)].
  - apply find_cmd_in in Ef as (n & Hin & En). destruct (proj1 (Forall_forall _ _) table_good _ Hin) as [_ Hg]. cbn [fst snd] in Hg.
    apply twp_bind. eapply twp_mono; [apply Hg; [by intros ->|done|done]|]. intros [c m] g' w' Hx. apply twp_ret. intros [Ht Ei]. apply Hx. split; [|done].
    cbn [fst] in *. unfold u16 in *. by rewrite Z.mod_mod in Ht by done.
  - apply twp_bind. eapply twp_mono; [by apply (good_harmless _ lte_cmd_good)|]. intros [c m] g' w' Hx. apply twp_ret. intros [Ht Ei]. apply Hx. split; [|done].
    cbn [fst] in *. unfold u16 in *. by rewrite Z.mod_mod in Ht by done.
  - by apply twp_ret.
Qed.
End dispatch.

(** ** A line *)

Lemma text_at_no_nul buf p t : text_at buf p = Some t -> no_nul t.
Proof. destruct p; cbn; [apply c_string_no_nul|by intros [= <-]]. Qed.

Lemma line_len_elem ps p : p ∈ ps -> zlen p < line_len ps.
Proof.
  induction 1 as [p ps|p q ps Hin IH]; unfold line_len, zlen in *; cbn [sum_list_with]; lia.
Qed.

(** The message made from a line that was split. *)
Definition message (ps : list (list Z)) (msg : at_cmd_t) : at_cmd_t :=
  mk_at_cmd (ps ++ replicate (Z.to_nat PARM_MAX - length ps) []) (zlen ps - 1) (resp_msg msg) (resp_length msg).

(** A message with an empty reply. *)
Definition no_reply (msg : at_cmd_t) : Prop := resp_length msg = 0 /\ zlen (resp_msg msg) < RESP_STRING_LENGTH_MAX.

Lemma message_fresh s ps msg : params s = Params ps -> zlen s < CMD_STRING_LENGTH_MAX -> no_reply msg -> Forall (fun p => no_nul p) ps ->
  fresh (message ps msg).
Proof.
  intros Ep Hs [H0 Ht] Hn. apply params_size in Ep as [Hl Hc]. unfold PARM_MAX in *.
  assert (Hz : forall n, Forall (fun p : list Z => zlen p < CMD_STRING_LENGTH_MAX /\ no_nul p) (replicate n [])) by (intros n; by apply Forall_replicate).
  split; cbn [message parms parm_count resp_msg resp_length]; [done|done|unfold PARM_MAX; lia| | |].
  - unfold zlen, PARM_MAX in *. rewrite length_app, length_replicate. lia.
  - rewrite take_app_le, take_ge by (unfold zlen; lia). lia.
  - apply Forall_app. split; [|done]. apply Forall_forall. intros p Hp. split; [|by apply (proj1 (Forall_forall _ _) Hn)].
    pose proof (line_len_elem _ _ Hp). lia.
Qed.

Lemma params_failed s e : params s = Failed e -> e < 0.
Proof.
  unfold params. generalize (@nil (list Z)), (@None (list Z * bool)), false. induction s as [|c s IH]; intros ps cur q; cbn [scan]; [by intros [= <-]|].
  destruct (c =? 34); [destruct q; apply IH|]. destruct (default _ cur) as [text op]. destruct (_ && _); [done|].
  destruct (_ && _); [|apply IH]. destruct (_ <=? _)%nat; [by intros [= <-]|apply IH].
Qed.

Section lines.
Context {W : Type} `{!CmdIO W}.

(** A received line is split and dispatched, or ignored. *)
Lemma recv_spec s rest msg (Q : Z * at_cmd_t -> globals -> W -> Prop) g w :
  no_nul s ->
  match params s with
  | Params ps => Forall (fun p => no_nul p) ps -> twp (dispatch (message ps msg)) Q g w
  | Failed _ => Q (0, msg) g w
  end ->
  twp (at_recv_cmd_handler (s ++ 0 :: rest) msg) Q g w.
Proof.
  intros Hs HQ. unfold at_recv_cmd_handler. destruct (analyse_params s rest Hs) as (buf & tar & code & E & H).
  apply twp_bind. eapply twp_checked; [exact E|]. cbv beta iota. destruct (params s) as [ps|e] eqn:Ep.
  - destruct H as [-> H]. apply params_size in Ep as [_ Hc]. rewrite (proj2 (Z.ltb_ge _ _)), (proj2 (Z.leb_gt _ _)) by lia. cbn [orb].
    assert (Em : mapM (text_at buf) tar = Some (ps ++ replicate (Z.to_nat PARM_MAX - length ps) [])) by (apply mapM_Some; exact H).
    apply twp_bind. eapply twp_checked; [exact Em|]. apply HQ. apply Forall2_app_inv_r in H as (t1 & t2 & H1 & _ & _).
    eapply Forall2_Forall_r; [exact H1|]. apply Forall_true. intros p t. apply text_at_no_nul.
  - subst code. pose proof (params_failed _ _ Ep). rewrite (proj2 (Z.leb_le e 0)), orb_true_r by lia. by apply twp_ret.
Qed.
End lines.

(** ** What commands do *)

(** The command of a line. *)
Definition command (s : list Z) : list Z := match params s with Params (p :: _) => p | _ => [] end.

Section commands.
Context {W : Type} `{!CmdIO W} {HL : CmdLaws W}.

Lemma recv_good s rest msg g w : no_nul s -> zlen s < CMD_STRING_LENGTH_MAX -> no_reply msg -> settings_ok (gConfigParam g) ->
  twp (at_recv_cmd_handler (W := W) (s ++ 0 :: rest) msg) (fun r g' w' =>
    reply_ok (snd r) /\ (loses (command s) = false -> rejected r -> g' = g /\ w' = w) /\ effect (loses (command s)) g w g' w') g w.
Proof.
  intros Hs Hl Hm Hc. apply recv_spec; [done|]. unfold command. destruct (params s) as [ps|e] eqn:Ep.
  - intros Hn. pose proof (message_fresh s ps msg Ep Hl Hm Hn) as Hf. pose proof (dispatch_good _ g w Hf Hc) as Hg.
    destruct ps as [|p ps]; [by apply params_size in Ep as [_ [? _]]|exact Hg].
  - destruct Hm as [H0 Ht]. split; [split; cbn [snd]; [rewrite H0; pose proof (zlen_nonneg (resp_msg msg)); lia|done]|].
    split; [by intros _ [? _]|by apply eff_none].
Qed.

(** C23: for every line of fewer than 128 characters, so that the command buffer holds it with its final zero, and settings of their C type inside their documented range: the command handler returns without an access outside an object, its reply lies in the reply buffer, and every setting still has a value of its C type inside its documented range. *)
Theorem command_keeps_settings s rest msg g w :
  no_nul s -> zlen s < CMD_STRING_LENGTH_MAX -> no_reply msg -> settings_ok (gConfigParam g) ->
  twp (at_recv_cmd_handler (W := W) (s ++ 0 :: rest) msg) (fun r g' w' => reply_ok (snd r) /\ settings_ok (gConfigParam g')) g w.
Proof.
  intros Hs Hl Hm Hc. eapply twp_mono; [by apply recv_good|]. intros r g' w' (Hr & _ & He). split; [done|by eapply effect_ok].
Qed.

(** C25: when a line of fewer than 128 characters, received with all settings inside their documented range, is answered with [Set Fail! InvalidParam], it has changed neither the settings nor anything else, unless its command is [BT_PARMAC]. *)
Theorem rejected_command_no_effect s rest msg g w :
  no_nul s -> zlen s < CMD_STRING_LENGTH_MAX -> no_reply msg -> settings_ok (gConfigParam g) -> my_strcasecmp (cstr "BT_PARMAC") (command s) <> 0 ->
  twp (at_recv_cmd_handler (W := W) (s ++ 0 :: rest) msg) (fun r g' w' => rejected r -> g' = g /\ w' = w) g w.
Proof.
  intros Hs Hl Hm Hc Hn. apply recv_spec; [done|]. unfold command in Hn. destruct (params s) as [ps|e] eqn:Ep; [|by intros [? _]].
  intros Hp. apply dispatch_harmless; [by eapply message_fresh|done|]. destruct ps as [|p ps]; [by apply params_size in Ep as [_ [? _]]|done].
Qed.

(** A command of the second table is sent to the LTE module as its parameters with commas and a final [#], whatever they are; the buffer is large enough, and the settings do not change. *)
Theorem lte_command_passed_on s rest msg g w name ps buf w1 :
  no_nul s -> zlen s < CMD_STRING_LENGTH_MAX -> no_reply msg -> params s = Params (name :: ps) ->
  find_cmd name (at_cmd_attr_table (W := W)) = None -> find_lte name = true -> k_malloc LTE_CMD_BUF_SIZE w = (w1, Some buf) ->
  twp (at_recv_cmd_handler (s ++ 0 :: rest) msg) (fun r g' w' =>
    let '(w2, ret) := lte_send_command (cstr "CMD") (Some (csv (name :: ps) ++ [35])) w1 in
    g' = g /\ w' = call k_free w2 /\ fst r = BLE_DATA_TYPE_PACKET_MULTIPLE /\
    resp_msg (snd r) = cstr "RETURN_" ++ name ++ cstr (if ret <? 0 then "_FAIL" else "_OK")) g w.
Proof.
  intros Hs Hl Hm Ep Hf Hlte Ek. apply recv_spec; [done|]. rewrite Ep. intros Hn. pose proof (message_fresh s _ msg Ep Hl Hm Hn) as Hfr.
  unfold dispatch. change (parm (message (name :: ps) msg) 0) with name. rewrite Hf, Hlte. apply twp_bind. unfold lte_cmd_handler.
  apply twp_bind, twp_world. intros b w' E. rewrite Ek in E. injection E as <- <-.
  apply twp_bind. eapply twp_checked; [apply lte_cmd_text_spec; [done|exact (law_malloc _ _ _ _ Ek)]|].
  assert (Et : take (Z.to_nat (parm_count (message (name :: ps) msg) + 1)) (parms (message (name :: ps) msg)) = name :: ps).
  { cbn [message parms parm_count]. rewrite take_app_le, take_ge by (unfold zlen; lia). done. }
  rewrite Et. apply twp_bind, twp_world. intros r w2 E2. rewrite E2. apply twp_bind, twp_do. destruct (r <? 0); rewrite return_fits by done; by apply twp_ret.
Qed.
End commands.

(** ** Settings after a restart *)

(** Storage with room for what is written. *)
Class WritesWork (W : Type) `{SettingsIO W} : Prop := {
  works_write w id bs w' r : zms_write w id bs = (w', r) -> bs <> [] -> r = zlen bs \/ r = 0
}.

Lemma synced_eq {W} `{!SettingsIO W} c c' (w : W) : synced c w -> synced c' w -> c = c'.
Proof.
  unfold synced, for_all. intros H H'. repeat match goal with H : _ /\ _ |- _ => destruct H end.
  destruct c, c'. cbn [field Settings.field] in *. cbn in *. subst. reflexivity.
Qed.

Section restart.
Context {W : Type} `{!CmdIO W} {HL : CmdLaws W} {HS : StorageWorks W} {HW : WritesWork W}.

Lemma effect_synced g w g' (w' : W) : effect false g w g' w' -> synced (gConfigParam g) w -> synced (gConfigParam g') w'.
Proof.
  induction 1 as [g w w' Hz|g w A SA HA a w1 w2 w' r Ha Hf Hz Hw Hz'|g w g1 w1 g2 w2 H1 IH1 H2 IH2| |]; intros Hs; [by eapply synced_same| |auto|done..].
  apply (synced_same _ w2); [|done]. eapply synced_put; [by eapply synced_same|apply Ha|done|exact Hw|].
  pose proof (zlen_bytes_of a) as Hl. pose proof (setting_size (A := A)). unfold my_user_data_write in Hw. rewrite (proj2 (Z.eqb_neq _ _)) in Hw by lia.
  eapply works_write; [exact Hw|]. intros E. rewrite E in Hl. change (zlen (@nil Z)) with 0 in Hl. lia.
Qed.

(** Lines received one after the other, each with what follows it in the buffer. *)
Fixpoint receive (lines : list (list Z * list Z)) (msg : at_cmd_t) : prog globals W unit :=
  match lines with
  | [] => ret tt
  | (s, rest) :: lines => at_recv_cmd_handler (s ++ 0 :: rest) msg;; receive lines msg
  end.

Definition saving_line (line : list Z * list Z) : Prop :=
  no_nul (fst line) /\ zlen (fst line) < CMD_STRING_LENGTH_MAX /\ loses (command (fst line)) = false.

Lemma receive_synced lines msg g w : no_reply msg -> Forall saving_line lines -> settings_ok (gConfigParam g) -> synced (gConfigParam g) w ->
  twp (receive lines msg) (fun _ g' w' => settings_ok (gConfigParam g') /\ synced (gConfigParam g') w') g w.
Proof.
  intros Hm Hl. induction Hl as [|[s rest] lines (Hs & Hlen & Hn) _ IH] in g, w |- *; intros Hc Hy; cbn [receive]; [by apply twp_ret|]. cbn [fst] in *.
  apply twp_bind. eapply twp_mono; [by apply recv_good|]. rewrite Hn. intros r g1 w1 (_ & _ & He).
  apply IH; [by eapply effect_ok|by eapply effect_synced].
Qed.

(** C24: on a flash that accepts writes, starting with settings that are inside their documented range and, as after every start, the same in memory as in flash: after any sequence of lines of fewer than 128 characters, none of them a [BT_PARMAC], [FACTORY] or [FACTORYALL] command, the settings in memory are exactly those read back at the next start. *)
Theorem command_survives_restart lines msg g w reboot :
  no_reply msg -> Forall saving_line lines -> settings_ok (gConfigParam g) -> synced (gConfigParam g) w ->
  twp (receive lines msg) (fun _ g1 w1 =>
    twp my_param_load_config (fun _ g2 _ => gConfigParam g2 = gConfigParam g1) reboot w1) g w.
Proof.
  intros Hm Hl Hc Hy. eapply twp_mono; [by apply receive_synced|]. intros _ g1 w1 [_ Hy1].
  eapply twp_mono; [apply load_config_spec|]. intros [] g2 w2 (Hz & H2 & _).
  apply (synced_eq _ _ w2); [done|by eapply synced_same].
Qed.

Lemma parmac_del_keeps_store msg g w : fresh msg -> my_strcasecmp (parm msg 1) (cstr "ADD") <> 0 -> my_strcasecmp (parm msg 1) (cstr "DEL") = 0 ->
  my_strcasecmp (parm msg 2) (cstr "ALL") <> 0 -> twp (bt_parmac_cmd_handler msg) (fun _ _ w' => same_zms w w') g w.
Proof.
  intros Hm Ha Hd Hall. unfold bt_parmac_cmd_handler. destruct (law_stack 6 w ltac:(lia)) as [Hs1 Hs2]. apply twp_bind, twp_get, twp_bind, twp_ask.
  destruct (_ <? 1); [by unfold param_invalid, respond; apply twp_ret|]. rewrite (proj2 (Z.eqb_neq _ _) Ha), Hd. cbn [Z.eqb].
  destruct (negb _); [by unfold param_invalid, respond; apply twp_ret|]. rewrite (proj2 (Z.eqb_neq _ _) Hall).
  pose proof (parm_len msg 2 Hm) as Hl. unfold CMD_STRING_LENGTH_MAX in Hl. apply twp_bind. eapply twp_mono; [apply parmac_addr_spec; [lia|done|done]|].
  intros [hb [a|]] g1 w1 (-> & -> & _); cbn [snd]; [|by unfold param_invalid, respond; apply twp_ret].
  destruct (my_tran_mac_del _ a); [apply twp_bind, twp_update|]; by unfold param_invalid, respond; apply twp_ret.
Qed.

(** An address removed with [BT_PARMAC,DEL] is back after a restart: the command answers before the list is stored, so the settings read at the next start are those from before the command. *)
Theorem parmac_delete_undone rest msg g w reboot mac :
  zlen mac < 100 -> param_ok (false, mac) = true -> no_nul mac -> my_strcasecmp mac (cstr "ALL") <> 0 ->
  no_reply msg -> synced (gConfigParam g) w ->
  twp (at_recv_cmd_handler (W := W) ((cstr "BT_PARMAC,DEL," ++ mac ++ cstr "#") ++ 0 :: rest) msg) (fun _ _ w1 =>
    twp my_param_load_config (fun _ g2 _ => gConfigParam g2 = gConfigParam g) reboot w1) g w.
Proof.
  intros Hl Hp Hn Hall Hm Hy. set (s := cstr "BT_PARMAC,DEL," ++ mac ++ cstr "#").
  assert (Ep : params s = Params [cstr "BT_PARMAC"; cstr "DEL"; mac]).
  { apply (params_of_line [(false, cstr "BT_PARMAC"); (false, cstr "DEL"); (false, mac)]); [done|done|]. cbn [forallb]. by rewrite Hp. }
  assert (Hs : zlen s < CMD_STRING_LENGTH_MAX).
  { subst s. rewrite !zlen_app. change (zlen (cstr "BT_PARMAC,DEL,")) with 14. change (zlen (cstr "#")) with 1. unfold CMD_STRING_LENGTH_MAX. lia. }
  apply recv_spec; [subst s; apply Forall_app; split; [by apply (bool_decide_unpack _)|apply Forall_app; split; [done|by apply (bool_decide_unpack _)]]|].
  rewrite Ep. intros Hnn. pose proof (message_fresh s _ msg Ep Hs Hm Hnn) as Hf. unfold dispatch.
  change (find_cmd _ _) with (Some (bt_parmac_cmd_handler (W := W))). apply twp_bind.
  eapply twp_mono; [apply (parmac_del_keeps_store _ _ _ Hf); [done|done|exact Hall]|]. intros r g1 w1 Hz. apply twp_ret.
  eapply twp_mono; [apply load_config_spec|]. intros [] g2 w2 (Hz2 & H2 & _). apply (synced_eq _ _ w2); [done|].
  apply (synced_same _ w1); [by apply (synced_same _ w)|done].
Qed.
End restart.
