(* ===== verification/AtSim.v ===== *)
(** * Commands on a simulated device

    The device of [FlashStoreSim] with the rest of the modules doing nothing,
    and the theorems of [AtLine] evaluated on it. *)

From S2P Require Import Prelude Text Str FlashStore FlashStoreSim Prog AtParse Layout SettingsData Settings AtCmd AtHandlers AtProofs AtLine.

Open Scope prog_scope.

#[export] Instance sim_settings : SettingsIO sim := {
  flash_area_open w := (w, 0);
  device_is_ready _ := true;
  zms_mount w := (w, 0);
  zms_clear w := (mk_sim (sim_flash w) (fun _ => None), 0);
  set_adv_valid_status _ _ w := w
}.

#[export] Instance sim_settings_laws : SettingsLaws sim.
Proof. split; [apply _|done|done| |done]. by intros w w' r [= <- <-]. Qed.

#[export] Instance sim_works : StorageWorks sim.
Proof.
  split; [done..|]. intros w id n v E Hn. exists w. cbn in *. rewrite E. by rewrite Z.max_r by lia.
Qed.

#[export] Instance sim_writes : WritesWork sim.
Proof. split. intros w id bs w' r. cbn. destruct (decide _); intros [= <- <-]; auto. Qed.

(** Fresh memory contains zeros; the LTE module accepts every command. *)
#[export] Instance sim_cmd : CmdIO sim := {
  call _ w := w;
  go_to_shutdown w := (w, 0);
  get_batt_mv _ := 3900;
  g_charg_state _ := 0;
  get_lprunning_active _ := false;
  get_last_work_mode _ := 0;
  g_bLteReady _ := true;
  g_lte4GVersion _ := cstr "EC800";
  AtCmd.lte_send_command _ _ w := (w, 0);
  AtCmd.k_malloc n w := (w, if n <? 0 then None else Some (replicate (Z.to_nat n) 0));
  stack_bytes n _ := replicate (Z.to_nat n) 0
}.

#[export] Instance sim_cmd_laws : CmdLaws sim.
Proof.
  split; [apply _|done..| | |done].
  - intros n w w' b. cbn. destruct (Z.ltb_spec n 0); [done|]. intros [= <- <-]. rewrite zlen_replicate. lia.
  - intros n w Hn. cbn. rewrite zlen_replicate. split; [lia|]. by apply Forall_replicate.
Qed.

(** A new device: default settings and nothing stored. *)
Definition empty : sim := mk_sim [] (fun _ => None).
Definition new_config : config_param_t := mk_config dflt dflt dflt dflt dflt dflt dflt dflt dflt dflt dflt dflt dflt dflt dflt dflt
  dflt dflt dflt dflt dflt dflt dflt dflt dflt dflt dflt dflt dflt dflt dflt dflt.
Definition new_device : globals := mk_globals new_config true false 0.
Definition new_message : at_cmd_t := mk_at_cmd [] 0 [] 0.

Lemma new_message_ok : no_reply new_message.
Proof. by split. Qed.

Lemma new_config_ok : settings_ok new_config.
Proof.
  unfold settings_ok, for_all. cbv beta.
  repeat match goal with |- @setting_ok ?A ?S _ /\ _ => split; [exact (dflt_ok (A := A))|] end.
  match goal with |- @setting_ok ?A ?S _ => exact (dflt_ok (A := A)) end.
Qed.

Lemma new_config_synced : synced new_config empty.
Proof. unfold synced, for_all. repeat split. Qed.

Lemma command_keeps_settings_witness : twp (at_recv_cmd_handler (cstr "REMALM,ON,2#" ++ 0 :: [1]) new_message)
  (fun r g' w' => reply_ok (snd r) /\ settings_ok (gConfigParam g')) new_device empty.
Proof. apply (command_keeps_settings (cstr "REMALM,ON,2#") [1]); [by apply (bool_decide_unpack _)|reflexivity|apply new_message_ok|apply new_config_ok]. Defined.

(** The answer to a line on the new device. *)
Definition answer_to (line : string) : Z * at_cmd_t :=
  match at_recv_cmd_handler (cstr line ++ 0 :: []) new_message new_device empty with Done (r, _, _) => r | _ => (0, new_message) end.

Lemma rejected_command_no_effect_witness :
  twp (at_recv_cmd_handler (cstr "REMALM,ON,9#" ++ 0 :: []) new_message) (fun r g' w' => rejected r -> g' = new_device /\ w' = empty) new_device empty /\
  twp (at_recv_cmd_handler (cstr "FACTORY,1#" ++ 0 :: []) new_message) (fun r g' w' => rejected r -> g' = new_device /\ w' = empty) new_device empty /\
  rejected (answer_to "REMALM,ON,9#") /\ rejected (answer_to "FACTORY,1#").
Proof.
  pose proof (rejected_command_no_effect (cstr "REMALM,ON,9#") [] new_message new_device empty) as H1.
  pose proof (rejected_command_no_effect (cstr "FACTORY,1#") [] new_message new_device empty) as H2.
  split; [exact (H1 ltac:(by apply (bool_decide_unpack _)) ltac:(reflexivity) new_message_ok new_config_ok ltac:(vm_compute; discriminate))|].
  split; [exact (H2 ltac:(by apply (bool_decide_unpack _)) ltac:(reflexivity) new_message_ok new_config_ok ltac:(vm_compute; discriminate))|].
  split; split; vm_compute; reflexivity.
Defined.

Lemma lte_command_passed_on_witness : twp (at_recv_cmd_handler (cstr "apn,cmnet#" ++ 0 :: []) new_message)
  (fun r g' w' => g' = new_device /\ w' = empty /\ fst r = BLE_DATA_TYPE_PACKET_MULTIPLE /\ resp_msg (snd r) = cstr "RETURN_apn_OK") new_device empty.
Proof.
  pose proof (lte_command_passed_on (cstr "apn,cmnet#") [] new_message new_device empty (cstr "apn") [cstr "cmnet"] (replicate 128 0) empty) as H.
  eapply twp_mono; [apply H; [by apply (bool_decide_unpack _)|reflexivity|apply new_message_ok|vm_compute; reflexivity..]|].
  intros r g' w' Hx. exact Hx.
Defined.

(** An alarm is set, a refused command comes, another alarm is set. *)
Definition three_lines : list (list Z * list Z) := [(cstr "REMALM,ON,2#", []); (cstr "REMALM,ON,9#", [1]); (cstr "PULLALM,ON,3#", [])].

Lemma three_lines_saving : Forall saving_line three_lines.
Proof.
  unfold three_lines, saving_line. cbn [fst]. repeat (constructor; [split; [by apply (bool_decide_unpack _)|split; vm_compute; reflexivity]|]). constructor.
Qed.

Lemma command_survives_restart_witness : twp (receive three_lines new_message) (fun _ g1 w1 =>
  twp my_param_load_config (fun _ g2 _ => gConfigParam g2 = gConfigParam g1) new_device w1) new_device empty.
Proof. exact (command_survives_restart three_lines new_message new_device empty new_device new_message_ok three_lines_saving new_config_ok new_config_synced). Defined.

(** A device with one address, which is stored. *)
Definition one_address : bparmac_config_t :=
  mk_bparmac FLAG_VALID ([0; 6; 5; 4; 3; 2; 1] :: replicate 19 (replicate 7 0)) 1.
Definition one_device : globals := mk_globals (put one_address new_config) true false 0.
Definition one_stored : sim := mk_sim [] (fun id => if id =? store_id (A := bparmac_config_t) then Some (bytes_of one_address) else None).

Lemma one_synced : synced (gConfigParam one_device) one_stored.
Proof. unfold synced, for_all. repeat (apply conj; [vm_compute; reflexivity|]). vm_compute. reflexivity. Qed.

Lemma one_deleted : twp (at_recv_cmd_handler ((cstr "BT_PARMAC,DEL," ++ cstr "010203040506" ++ cstr "#") ++ 0 :: []) new_message) (fun r g1 _ =>
  resp_msg (snd r) = cstr "Set OK!" /\ bt_parmac_mac_count (bparmac_config (gConfigParam g1)) = 0) one_device one_stored.
Proof. vm_compute. split; reflexivity. Qed.

(** The address disappears from memory, and is read again at the next start. *)
Lemma parmac_delete_undone_witness :
  twp (at_recv_cmd_handler ((cstr "BT_PARMAC,DEL," ++ cstr "010203040506" ++ cstr "#") ++ 0 :: []) new_message) (fun r g1 w1 =>
    resp_msg (snd r) = cstr "Set OK!" /\ bt_parmac_mac_count (bparmac_config (gConfigParam g1)) = 0 /\
    twp my_param_load_config (fun _ g2 _ => bt_parmac_mac_count (bparmac_config (gConfigParam g2)) = 1) new_device w1) one_device one_stored.
Proof.
  pose proof (parmac_delete_undone [] new_message one_device one_stored new_device (cstr "010203040506")) as H.
  specialize (H ltac:(reflexivity) ltac:(reflexivity) ltac:(by apply (bool_decide_unpack _)) ltac:(vm_compute; discriminate) new_message_ok one_synced).
  eapply twp_mono; [exact (twp_and _ _ _ _ _ one_deleted H)|]. clear H. intros r g1 w1 [[H1 H2] H3].
  split; [exact H1|]. split; [exact H2|]. eapply twp_mono; [exact H3|]. intros [] g2 w2 ->. reflexivity.
Defined.
