(* ===== verification/ScanParse.v ===== *)
(** * Advertising data ([parse_scan_rsp_name], [parse_ff_data] and
    [parse_scan_rsp_payload] of [my_ble_scan.c])

    A received packet is a sequence of structures: a length, a type, and data.
    Packets come from any device nearby, so the lengths in them cannot be
    trusted.  The three parsers are shown to read nothing outside the packet
    and to find what a search in the list of structures finds. *)

From S2P Require Import Prelude Layout.

Definition ADV_NAME_MAX_LEN : Z := 32.
Definition TAG_FF_DATA_MAX_LEN : Z := 29.
Definition UUID_MAX_LEN : Z := 16.

(** Types of structures, assigned by the Bluetooth specification. *)
Definition BT_DATA_UUID16_SOME : Z := 0x02.
Definition BT_DATA_UUID32_SOME : Z := 0x04.
Definition BT_DATA_NAME_SHORTENED : Z := 0x08.
Definition BT_DATA_NAME_COMPLETE : Z := 0x09.
Definition BT_DATA_MANUFACTURER_DATA : Z := 0xFF.

(** A device that was found; arrays as lists of their elements. *)
Record tag_scan_result_t := mk_tag {
  tag_addr : list Z;
  tag_name : list Z;
  ff_data : list Z;
  ff_data_len : Z;
  uuid : list Z;
  uuid_len : Z;
  battery_percent : Z;
  rssi : Z;
  tag_timestamp : Z
}.

#[local] Obligation Tactic := try stored_laws.
#[export] Program Instance tag_stored : Stored tag_scan_result_t := {|
  items := replicate 7 u8t ++ replicate 32 u8t ++ replicate 29 u8t ++ [u8t] ++ replicate 16 u8t ++ [u8t; u8t; i8t; u32t];
  to_vals r := tag_addr r ++ tag_name r ++ ff_data r ++ [ff_data_len r] ++ uuid r ++ [uuid_len r; battery_percent r; rssi r; tag_timestamp r];
  of_vals v := mk_tag (take 7 v) (take 32 (drop 7 v)) (take 29 (drop 39 v)) (nth 68 v 0) (take 16 (drop 69 v))
    (nth 85 v 0) (nth 86 v 0) (nth 87 v 0) (nth 88 v 0);
  wf r := length (tag_addr r) = 7%nat /\ length (tag_name r) = 32%nat /\ length (ff_data r) = 29%nat /\ length (uuid r) = 16%nat
|}.

(** ** The packet buffer *)

(** [net_buf_simple_pull_u8] and [net_buf_simple_pull_mem] of a copy of the buffer header. *)
Definition pull_u8 (buf : list Z) : option (Z * list Z) := match buf with b :: buf => Some (b, buf) | [] => None end.
Definition pull_mem (n : Z) (buf : list Z) : option (list Z * list Z) :=
  if (0 <=? n) && (n <=? zlen buf) then Some (take (Z.to_nat n) buf, drop (Z.to_nat n) buf) else None.

(** The start of each turn of the three loops. *)
Inductive ad_head := AdEnd | AdShort | AdItem (type data_len : Z) (buf : list Z).

Definition ad_start (buf : list Z) : option ad_head :=
  if zlen buf <=? 1 then Some AdEnd else
  '(len, buf) ← pull_u8 buf;
  if len =? 0 then Some AdEnd else
  if zlen buf <? len then Some AdShort else
  '(type, buf) ← pull_u8 buf;
  Some (AdItem type (u8 (len - 1)) buf).

(** ** The parsers *)

Fixpoint name_loop (n : nat) (buf name : list Z) (max_len : Z) : option (list Z * bool) :=
  match n with
  | O => None
  | S n =>
      h ← ad_start buf;
      match h with
      | AdEnd | AdShort => Some (name, false)
      | AdItem type data_len buf =>
          if (type =? BT_DATA_NAME_SHORTENED) || (type =? BT_DATA_NAME_COMPLETE) then
            let copy_len := Z.min data_len (u8 (max_len - 1)) in
            '(data, buf) ← pull_mem copy_len buf;
            name ← arr_blit name 0 data;
            name ← arr_set name copy_len 0;
            if copy_len <? data_len then '(_, _) ← pull_mem (data_len - copy_len) buf; Some (name, true)
            else Some (name, true)
          else
            '(_, buf) ← pull_mem data_len buf;
            name_loop n buf name max_len
      end
  end.

(** Every turn takes at least one byte. *)
Definition parse_scan_rsp_name (buf name : list Z) (max_len : Z) : option (list Z * bool) :=
  name_loop (S (length buf)) buf name max_len.

(** The data, its length, and whether any was found. *)
Fixpoint ff_loop (n : nat) (buf ff : list Z) (max_len out_len : Z) : option (list Z * Z * bool) :=
  match n with
  | O => None
  | S n =>
      h ← ad_start buf;
      match h with
      | AdEnd | AdShort => Some (ff, out_len, false)
      | AdItem type data_len buf =>
          if (type =? BT_DATA_MANUFACTURER_DATA) && (data_len =? TAG_FF_DATA_MAX_LEN) then
            let copy_len := Z.min data_len max_len in
            '(data, buf) ← pull_mem copy_len buf;
            ff ← arr_blit ff 0 data;
            if copy_len <? data_len then '(_, _) ← pull_mem (data_len - copy_len) buf; Some (ff, copy_len, true)
            else Some (ff, copy_len, true)
          else
            '(_, buf) ← pull_mem data_len buf;
            ff_loop n buf ff max_len out_len
      end
  end.

Definition parse_ff_data (buf ff : list Z) (max_len out_len : Z) : option (list Z * Z * bool) :=
  ff_loop (S (length buf)) buf ff max_len out_len.

Definition set_uuid (u : list Z) (n : Z) (r : tag_scan_result_t) : tag_scan_result_t :=
  mk_tag (tag_addr r) (tag_name r) (ff_data r) (ff_data_len r) u n (battery_percent r) (rssi r) (tag_timestamp r).
Definition set_battery (b : Z) (r : tag_scan_result_t) : tag_scan_result_t :=
  mk_tag (tag_addr r) (tag_name r) (ff_data r) (ff_data_len r) (uuid r) (uuid_len r) b (rssi r) (tag_timestamp r).

Fixpoint payload_loop (n : nat) (buf : list Z) (r : tag_scan_result_t) (uuid_found battery_found : bool) : option (tag_scan_result_t * bool) :=
  match n with
  | O => None
  | S n =>
      h ← ad_start buf;
      match h with
      | AdEnd | AdShort => Some (r, uuid_found || battery_found)
      | AdItem type data_len buf =>
          '(data, buf) ← pull_mem data_len buf;
          if (type =? BT_DATA_UUID16_SOME) && negb uuid_found then
            let copy_len := Z.min data_len UUID_MAX_LEN in
            u ← arr_slice data 0 copy_len;
            u ← arr_blit (uuid r) 0 u;
            payload_loop n buf (set_uuid u copy_len r) true battery_found
          else if (type =? BT_DATA_UUID32_SOME) && negb battery_found && (8 <=? data_len) then
            x ← arr_get data 6;
            if x =? 0x02 then b ← arr_get data 7; payload_loop n buf (set_battery b r) uuid_found true
            else payload_loop n buf r uuid_found battery_found
          else payload_loop n buf r uuid_found battery_found
      end
  end.

Definition parse_scan_rsp_payload (buf : list Z) (r : tag_scan_result_t) : option (tag_scan_result_t * bool) :=
  payload_loop (S (length buf)) buf r false false.

(** ** What a packet contains *)

(** The structures of a packet, up to the first that is empty or cut off. *)
Fixpoint ads_loop (n : nat) (buf : list Z) : list (Z * list Z) :=
  match n, buf with
  | S n, len :: type :: rest =>
      if (len =? 0) || (zlen rest + 1 <? len) then []
      else (type, take (Z.to_nat (len - 1)) rest) :: ads_loop n (drop (Z.to_nat (len - 1)) rest)
  | _, _ => []
  end.

Definition ads (buf : list Z) : list (Z * list Z) := ads_loop (length buf) buf.

Definition is_name (a : Z * list Z) : bool := (fst a =? BT_DATA_NAME_SHORTENED) || (fst a =? BT_DATA_NAME_COMPLETE).
Definition is_ff (a : Z * list Z) : bool := (fst a =? BT_DATA_MANUFACTURER_DATA) && (zlen (snd a) =? TAG_FF_DATA_MAX_LEN).
Definition is_uuid (a : Z * list Z) : bool := fst a =? BT_DATA_UUID16_SOME.
Definition is_battery (a : Z * list Z) : bool := (fst a =? BT_DATA_UUID32_SOME) && (8 <=? zlen (snd a)) && (nth 6 (snd a) 0 =? 0x02).

(** A buffer with [s] at its start. *)
Definition over (s l : list Z) : list Z := s ++ drop (length s) l.

Lemma blit_over l s : zlen s <= zlen l -> arr_blit l 0 s = Some (over s l).
Proof.
  intros Hs. rewrite arr_blit_Some by lia. done.
Qed.

Lemma pull_mem_Some n buf : 0 <= n <= zlen buf -> pull_mem n buf = Some (take (Z.to_nat n) buf, drop (Z.to_nat n) buf).
Proof. intros Hn. unfold pull_mem. by rewrite (proj2 (Z.leb_le _ _)), (proj2 (Z.leb_le _ _)) by lia. Qed.

Lemma ad_start_spec buf : bytes_ok buf ->
  ad_start buf = Some (match buf with
    | len :: type :: rest => if len =? 0 then AdEnd else if zlen rest + 1 <? len then AdShort else AdItem type (len - 1) rest
    | _ => AdEnd
    end).
Proof.
  intros Hb. unfold ad_start. destruct buf as [|len [|type rest]]; [done..|]. rewrite !zlen_cons. pose proof (zlen_nonneg rest).
  rewrite (proj2 (Z.leb_gt _ _)) by lia. cbn [pull_u8 mbind option_bind]. apply Forall_cons in Hb as [Hl _]. unfold is_byte in Hl.
  destruct (Z.eqb_spec len 0); [done|]. rewrite zlen_cons, (Z.add_comm 1). destruct (_ <? len); [done|]. cbn. unfold u8. by rewrite Z.mod_small by lia.
Qed.

(** One turn of the loops: the packet ends, or its first structure is read. *)
Lemma ad_cases n buf : bytes_ok buf -> (length buf <= n)%nat ->
  (ads_loop n buf = [] /\ (ad_start buf = Some AdEnd \/ ad_start buf = Some AdShort)) \/
  (exists type data rest, ad_start buf = Some (AdItem type (zlen data) (data ++ rest)) /\ bytes_ok (data ++ rest) /\ bytes_ok rest /\ zlen data < 256 /\
     (length rest < n)%nat /\ ads_loop n buf = (type, data) :: ads_loop (n - 1) rest).
Proof.
  intros Hb Hn. rewrite ad_start_spec by done. destruct buf as [|len [|type rest]]; [left; destruct n; auto..|].
  destruct n as [|n]; [cbn in Hn; lia|]. cbn [ads_loop]. destruct (Z.eqb_spec len 0); [left; auto|]. cbn [orb].
  destruct (Z.ltb_spec (zlen rest + 1) len); [left; auto|]. right. apply Forall_cons in Hb as [Hl Hb]. apply Forall_cons in Hb as [_ Hb].
  unfold is_byte in Hl. exists type, (take (Z.to_nat (len - 1)) rest), (drop (Z.to_nat (len - 1)) rest). rewrite take_drop.
  assert (Hz : zlen (take (Z.to_nat (len - 1)) rest) = len - 1) by (rewrite zlen_take; lia). rewrite Hz.
  split; [done|]. split; [done|]. split; [by apply Forall_drop|]. split; [lia|]. split; [rewrite length_drop; cbn in Hn; lia|].
  cbn [Nat.sub]. by rewrite Nat.sub_0_r.
Qed.

Lemma pull_app data rest : pull_mem (zlen data) (data ++ rest) = Some (data, rest).
Proof. rewrite pull_mem_Some by (rewrite zlen_app; pose proof (zlen_nonneg data); pose proof (zlen_nonneg rest); lia). unfold zlen. rewrite Nat2Z.id, take_app_length, drop_app_length. done. Qed.

Lemma ad_name_spec n : forall buf name, bytes_ok buf -> (length buf <= n)%nat -> zlen name = ADV_NAME_MAX_LEN ->
  name_loop (S n) buf name ADV_NAME_MAX_LEN = Some (match List.find is_name (ads_loop n buf) with
    | Some (_, d) => (over (take 31 d ++ [0]) name, true)
    | None => (name, false)
    end).
Proof.
  induction n as [n IH] using lt_wf_ind. intros buf name Hb Hn Hz. cbn [name_loop].
  destruct (ad_cases n buf Hb Hn) as [[-> [-> | ->]]|(type & data & rest & -> & Hdr & Hr & Hd & Hl & ->)]; [done..|].
  cbn [mbind option_bind List.find]. destruct (is_name (type, data)) eqn:En; unfold is_name in En; cbn [fst] in En; rewrite En.
  - unfold ADV_NAME_MAX_LEN. change (u8 (32 - 1)) with 31. pose proof (zlen_nonneg data).
    assert (E : pull_mem (Z.min (zlen data) 31) (data ++ rest) = Some (take 31 data, drop 31 data ++ rest)).
    { rewrite pull_mem_Some by (rewrite zlen_app; pose proof (zlen_nonneg rest); lia). rewrite take_app_le, drop_app_le by (unfold zlen; lia).
      destruct (Z.le_gt_cases (zlen data) 31); [|by rewrite Z.min_r by lia]. rewrite Z.min_l by lia.
      rewrite (take_ge data 31), (drop_ge data 31), take_ge, drop_ge by (unfold zlen in *; lia). done. }
    rewrite E. cbn [mbind option_bind]. assert (Ht : zlen (take 31 data) = Z.min (zlen data) 31) by (rewrite zlen_take; lia).
    rewrite blit_over by (unfold ADV_NAME_MAX_LEN in *; lia). cbn [mbind option_bind].
    assert (Es : arr_set (over (take 31 data) name) (Z.min (zlen data) 31) 0 = Some (over (take 31 data ++ [0]) name)).
    { unfold over, ADV_NAME_MAX_LEN in *. destruct (drop (length (take 31 data)) name) as [|x tl] eqn:Ed.
      { apply (f_equal length) in Ed. rewrite length_drop in Ed. cbn [length] in Ed. unfold zlen in *. lia. }
      rewrite arr_set_blit, (arr_blit_app _ [x] tl [0]) by (unfold zlen in *; lia || done). rewrite length_app. cbn [length].
      rewrite <- (drop_drop name 1), Ed. by rewrite <- app_assoc. }
    rewrite Es. cbn [mbind option_bind]. destruct (Z.ltb_spec (Z.min (zlen data) 31) (zlen data)); [|done].
    rewrite pull_mem_Some by (rewrite zlen_app, zlen_drop; pose proof (zlen_nonneg rest); lia). done.
  - rewrite pull_app. cbn [mbind option_bind]. destruct n as [|n]; [lia|]. cbn [Nat.sub]. rewrite Nat.sub_0_r. apply IH; [lia|done|lia|done].
Qed.

Lemma ff_loop_spec n : forall buf ff, bytes_ok buf -> (length buf <= n)%nat -> zlen ff = TAG_FF_DATA_MAX_LEN ->
  ff_loop (S n) buf ff TAG_FF_DATA_MAX_LEN 0 = Some (match List.find is_ff (ads_loop n buf) with
    | Some (_, d) => (d, TAG_FF_DATA_MAX_LEN, true)
    | None => (ff, 0, false)
    end).
Proof.
  induction n as [n IH] using lt_wf_ind. intros buf ff Hb Hn Hz. cbn [ff_loop].
  destruct (ad_cases n buf Hb Hn) as [[-> [-> | ->]]|(type & data & rest & -> & Hdr & Hr & Hd & Hl & ->)]; [done..|].
  cbn [mbind option_bind List.find]. destruct (is_ff (type, data)) eqn:En; unfold is_ff in En; cbn [fst snd] in En; rewrite En.
  - apply andb_true_iff in En as [_ En]. apply Z.eqb_eq in En. rewrite <- En, Z.min_id, pull_app. cbn [mbind option_bind].
    rewrite blit_over by lia. cbn [mbind option_bind]. rewrite Z.ltb_irrefl. unfold over. rewrite drop_ge by (unfold zlen in *; lia). by rewrite app_nil_r.
  - rewrite pull_app. cbn [mbind option_bind]. destruct n as [|n]; [lia|]. cbn [Nat.sub]. rewrite Nat.sub_0_r. apply IH; [lia|done|lia|done].
Qed.

Definition with_uuid (o : option (Z * list Z)) (r : tag_scan_result_t) : tag_scan_result_t :=
  match o with Some (_, d) => set_uuid (over (take 16 d) (uuid r)) (Z.min (zlen d) UUID_MAX_LEN) r | None => r end.
Definition with_battery (o : option (Z * list Z)) (r : tag_scan_result_t) : tag_scan_result_t :=
  match o with Some (_, d) => set_battery (nth 7 d 0) r | None => r end.

(** A field that was found is not looked for again. *)
Definition find_new (found : bool) (f : Z * list Z -> bool) (l : list (Z * list Z)) : option (Z * list Z) := if found then None else List.find f l.
Definition present {A} (o : option A) : bool := match o with Some _ => true | None => false end.

Lemma find_new_skip found f a l : f a = false -> find_new found f (a :: l) = find_new found f l.
Proof. intros E. unfold find_new. destruct found; [done|]. cbn. by rewrite E. Qed.

Lemma arr_get_nth l i : 0 <= i < zlen l -> arr_get l i = Some (nth (Z.to_nat i) l 0).
Proof.
  intros Hi. unfold arr_get. rewrite (proj2 (Z.leb_le _ _)) by lia. destruct (nth_lookup_or_length l (Z.to_nat i) 0) as [E|E]; [done|]. unfold zlen in *. lia.
Qed.

Lemma payload_loop_spec n : forall buf r uf bf, bytes_ok buf -> (length buf <= n)%nat -> zlen (uuid r) = UUID_MAX_LEN ->
  payload_loop (S n) buf r uf bf = Some (let u := find_new uf is_uuid (ads_loop n buf) in let b := find_new bf is_battery (ads_loop n buf) in
    (with_battery b (with_uuid u r), (uf || present u) || (bf || present b))).
Proof.
  induction n as [n IH] using lt_wf_ind. intros buf r uf bf Hb Hn Hz. cbn [payload_loop].
  destruct (ad_cases n buf Hb Hn) as [[-> [-> | ->]]|(type & data & rest & -> & Hdr & Hr & Hd & Hl & ->)];
    [by destruct uf, bf|by destruct uf, bf|].
  cbn [mbind option_bind]. rewrite pull_app. cbn [mbind option_bind]. destruct n as [|n]; [lia|]. cbn [Nat.sub]. rewrite Nat.sub_0_r.
  assert (IH' : forall r uf bf, zlen (uuid r) = UUID_MAX_LEN -> payload_loop (S n) rest r uf bf = Some (let u := find_new uf is_uuid (ads_loop n rest) in
    let b := find_new bf is_battery (ads_loop n rest) in (with_battery b (with_uuid u r), (uf || present u) || (bf || present b)))).
  { intros r' uf' bf' Hz'. apply IH; [lia|done|lia|done]. }
  clear IH. pose proof (zlen_nonneg data). destruct (is_uuid (type, data)) eqn:Eu.
  - unfold is_uuid in Eu. cbn [fst] in Eu. rewrite Eu. apply Z.eqb_eq in Eu. subst type. rewrite (find_new_skip bf is_battery) by done.
    destruct uf; cbn [negb andb]; [rewrite IH' by done; done|].
    assert (Es : arr_slice data 0 (Z.min (zlen data) UUID_MAX_LEN) = Some (take 16 data)).
    { rewrite arr_slice_Some by (unfold UUID_MAX_LEN; lia). rewrite drop_0. f_equal. destruct (Z.le_gt_cases (zlen data) 16); [|by rewrite Z.min_r by (unfold UUID_MAX_LEN; lia)].
      rewrite Z.min_l by (unfold UUID_MAX_LEN; lia). rewrite !take_ge by (unfold zlen in *; lia). done. }
    rewrite Es. cbn [mbind option_bind]. rewrite blit_over by (rewrite zlen_take; unfold UUID_MAX_LEN in *; lia). cbn [mbind option_bind].
    rewrite IH'; [done|]. cbn [uuid set_uuid]. unfold over. rewrite zlen_app, zlen_drop, zlen_take. unfold UUID_MAX_LEN, zlen in *. rewrite length_take. lia.
  - unfold is_uuid in Eu. cbn [fst] in Eu. rewrite Eu. cbn [andb]. rewrite (find_new_skip uf is_uuid) by done.
    destruct (is_battery (type, data)) eqn:Eb.
    + pose proof Eb as Ea. unfold is_battery in Eb. cbn [fst snd] in Eb. apply andb_true_iff in Eb as [Eb E6]. apply andb_true_iff in Eb as [-> E8]. cbn [andb]. apply Z.leb_le in E8.
      destruct bf; cbn [negb andb]; [rewrite IH' by done; done|]. rewrite (proj2 (Z.leb_le _ _)) by lia.
      rewrite !arr_get_nth by lia. cbn [mbind option_bind]. change (Z.to_nat 6) with 6%nat. rewrite E6. rewrite IH' by done. f_equal.
      cbv zeta. cbn [find_new List.find]. rewrite Ea. f_equal. by destruct (find_new uf is_uuid _) as [[]|].
    + rewrite (find_new_skip bf is_battery) by done. unfold is_battery in Eb. cbn [fst snd] in Eb.
      destruct (type =? BT_DATA_UUID32_SOME); [|cbn [andb]; by rewrite IH']. cbn [andb] in Eb |- *. destruct (8 <=? zlen data) eqn:E8; [|rewrite andb_false_r; by rewrite IH'].
      rewrite andb_true_r. apply Z.leb_le in E8. destruct bf; cbn [negb]; [by rewrite IH'|].
      rewrite !arr_get_nth by lia. cbn [mbind option_bind]. change (Z.to_nat 6) with 6%nat. cbn [andb] in Eb. rewrite Eb. by rewrite IH'.
Qed.

(** C30: for every packet, whatever lengths it claims, the three parsers read only bytes of the packet and write only inside their arrays; they find the first complete name, the first manufacturer structure of 29 bytes, the first list of 16-bit identifiers and the first battery value, as a search in the list of complete structures does. *)
Theorem adv_parsers_agree buf name ff r :
  bytes_ok buf -> zlen name = ADV_NAME_MAX_LEN -> zlen ff = TAG_FF_DATA_MAX_LEN -> zlen (uuid r) = UUID_MAX_LEN ->
  parse_scan_rsp_name buf name ADV_NAME_MAX_LEN = Some (match List.find is_name (ads buf) with
    | Some (_, d) => (over (take 31 d ++ [0]) name, true)
    | None => (name, false)
    end) /\
  parse_ff_data buf ff TAG_FF_DATA_MAX_LEN 0 = Some (match List.find is_ff (ads buf) with
    | Some (_, d) => (d, TAG_FF_DATA_MAX_LEN, true)
    | None => (ff, 0, false)
    end) /\
  parse_scan_rsp_payload buf r = Some (with_battery (List.find is_battery (ads buf)) (with_uuid (List.find is_uuid (ads buf)) r),
    present (List.find is_uuid (ads buf)) || present (List.find is_battery (ads buf))).
Proof.
  intros Hb Hn Hf Hu. split; [by apply ad_name_spec|]. split; [by apply ff_loop_spec|]. by apply (payload_loop_spec (length buf)).
Qed.

Definition no_tag : tag_scan_result_t := mk_tag (replicate 7 0) (replicate 32 0) (replicate 29 0) 0 (replicate 16 0) 0 0 0 0.

Lemma adv_parsers_agree_witness :
  parse_scan_rsp_name [3; 2; 17; 18; 5; 9; 80; 66; 55; 49; 200; 1] (replicate 32 0) ADV_NAME_MAX_LEN = Some ([80; 66; 55; 49] ++ replicate 28 0, true).
Proof. by destruct (adv_parsers_agree [3; 2; 17; 18; 5; 9; 80; 66; 55; 49; 200; 1] (replicate 32 0) (replicate 29 0) no_tag) as [-> _]; [by apply (bool_decide_unpack _)|..]. Defined.
