(* ===== verification/Scan.v ===== *)
(** * Bluetooth scanner ([my_ble_scan.c])

    Devices found nearby go into two tables: tags, recognised by the prefix of
    their name, and devices whose address is in the settings, whose packets are
    passed on unchanged.  At the end of a scan the tables go to the record
    store; uploads read the store and then the tables.  Temperature and air
    pressure samples are sent at once or stored, and uploaded later in packets. *)

From S2P Require Import Prelude Text Str FlashStore Prog Layout SettingsData Settings AtHandlers ScanParse.

Open Scope prog_scope.

(** ** Data *)

Definition ENOMEM : Z := 12.
Definition TAG_PREFIX_MAX_NUM : Z := 10.
Definition TAG_PREFIX_MAX_LEN : Z := 16.
Definition ADV_CACHE_MAX_NUM : Z := 10.
Definition TAG_RESULT_MAX_NUM : Z := 10.
Definition TRAN_MAC_ADV_DATA_MAX_LEN : Z := 31.

Definition SCAN_MODE_OFF : Z := 0.
Definition SCAN_MODE_PERIOD_CACHE : Z := 1.
Definition SCAN_MODE_PERIOD_UPLOAD : Z := 2.

Inductive scan_state_t := SCAN_STATE_IDLE | SCAN_STATE_SCANNING | SCAN_STATE_WAITING_UPLOAD.
Inductive upload_state_t := UPLOAD_STATE_IDLE | UPLOAD_STATE_TAG_START | UPLOAD_STATE_TAG_END | UPLOAD_STATE_MAC_START | UPLOAD_STATE_MAC_END.
Inductive sensor_upload_state_t :=
  | SENSOR_UPLOAD_STATE_IDLE | SENSOR_UPLOAD_STATE_TH_WAIT_ACK | SENSOR_UPLOAD_STATE_BP_WAIT_ACK
  | SENSOR_UPLOAD_STATE_CDATA_WAIT_START_ACK | SENSOR_UPLOAD_STATE_CDATA_WAIT_DATA_ACK | SENSOR_UPLOAD_STATE_CDATA_WAIT_END_ACK.
#[export] Instance scan_state_dec : EqDecision scan_state_t.
Proof. solve_decision. Defined.
#[export] Instance upload_state_dec : EqDecision upload_state_t.
Proof. solve_decision. Defined.
#[export] Instance sensor_state_dec : EqDecision sensor_upload_state_t.
Proof. solve_decision. Defined.

(** An array and the number of its elements in use. *)
Record table (A : Type) := mk_table { t_items : list A; t_count : Z }.
Arguments mk_table {A} _ _.
Arguments t_items {A} _.
Arguments t_count {A} _.

Record tag_prefix_t := mk_prefix { prefix : list Z; prefix_len : Z; prefix_valid : bool }.
Record adv_cache_item_t := mk_cached { ca_addr : list Z; ca_ff : list Z; ca_len : Z; ca_valid : bool; ca_seq : Z }.
Record tag_scan_process_msg_t := mk_tag_msg { adv_type : Z; result : tag_scan_result_t }.
Record tran_mac_result_item_t := mk_tran { tran_addr : list Z; adv_data : list Z; adv_data_len : Z; tran_timestamp : Z }.
Record tran_mac_process_msg_t := mk_tran_msg { tm_addr : list Z; tm_data : list Z; tm_len : Z }.
Record scan_config_t := mk_scan_config { sc_mode : Z; scan_interval : Z; scan_length : Z; upload_interval : Z; scan_state : scan_state_t }.
Record sensor_upload_ctx_t := mk_sensor { sensor_state : sensor_upload_state_t; upload_type : Z; total_packets : Z; next_seq : Z }.

Notation i16t := (Int 2 true).
Record fs_temp_humi_record_t := mk_th { th_timestamp : Z; temperature_x10 : Z; humidity_x10 : Z }.
Record fs_barometer_record_t := mk_bp { bp_timestamp : Z; pressure_pa : Z }.

#[local] Obligation Tactic := try stored_laws.
#[export] Program Instance tran_stored : Stored tran_mac_result_item_t := {|
  items := replicate 7 u8t ++ replicate 31 u8t ++ [u8t; Pad 1; u32t];
  to_vals r := tran_addr r ++ adv_data r ++ [adv_data_len r; tran_timestamp r];
  of_vals v := mk_tran (take 7 v) (take 31 (drop 7 v)) (nth 38 v 0) (nth 39 v 0);
  wf r := length (tran_addr r) = 7%nat /\ length (adv_data r) = 31%nat
|}.
#[export] Program Instance th_stored : Stored fs_temp_humi_record_t := {|
  items := [u32t; i16t; u16t];
  to_vals r := [th_timestamp r; temperature_x10 r; humidity_x10 r];
  of_vals v := mk_th (nth 0 v 0) (nth 1 v 0) (nth 2 v 0);
  wf r := True
|}.
#[export] Program Instance bp_stored : Stored fs_barometer_record_t := {|
  items := [u32t; u32t];
  to_vals r := [bp_timestamp r; pressure_pa r];
  of_vals v := mk_bp (nth 0 v 0) (nth 1 v 0);
  wf r := True
|}.

(** Memory filled with zeros. *)
Definition zero {A} `{Stored A} : A := of_vals (replicate (members (items (A := A))) 0).
Definition clear {A} `{Stored A} (n : Z) : table A := mk_table (replicate (Z.to_nat n) zero) 0.

(** The variables of the module. *)
Record scan := mk_scan {
  s_prefix_table : table tag_prefix_t;
  s_result_table : table tag_scan_result_t;
  s_scan_config : scan_config_t;
  s_adv_cache_table : list adv_cache_item_t;
  s_cache_seq_counter : Z;
  s_tag_scan_process_msgq : list tag_scan_process_msg_t;
  s_tran_mac_result_table : table tran_mac_result_item_t;
  s_tran_mac_process_msgq : list tran_mac_process_msg_t;
  s_tag_macinfo_seq : Z;
  s_tag_macinfo_upload_state : upload_state_t;
  s_flash_consumed : Z;
  s_rt_count_snap : Z;
  s_sensor_upload_ctx : sensor_upload_ctx_t;
  s_sensor_upload_frame_buf : list Z
}.

Definition set_prefixes (x : table tag_prefix_t) (s : scan) : scan := mk_scan x (s_result_table s) (s_scan_config s) (s_adv_cache_table s) (s_cache_seq_counter s) (s_tag_scan_process_msgq s) (s_tran_mac_result_table s) (s_tran_mac_process_msgq s) (s_tag_macinfo_seq s) (s_tag_macinfo_upload_state s) (s_flash_consumed s) (s_rt_count_snap s) (s_sensor_upload_ctx s) (s_sensor_upload_frame_buf s).
Definition set_results (x : table tag_scan_result_t) (s : scan) : scan := mk_scan (s_prefix_table s) x (s_scan_config s) (s_adv_cache_table s) (s_cache_seq_counter s) (s_tag_scan_process_msgq s) (s_tran_mac_result_table s) (s_tran_mac_process_msgq s) (s_tag_macinfo_seq s) (s_tag_macinfo_upload_state s) (s_flash_consumed s) (s_rt_count_snap s) (s_sensor_upload_ctx s) (s_sensor_upload_frame_buf s).
Definition set_cfg (x : scan_config_t) (s : scan) : scan := mk_scan (s_prefix_table s) (s_result_table s) x (s_adv_cache_table s) (s_cache_seq_counter s) (s_tag_scan_process_msgq s) (s_tran_mac_result_table s) (s_tran_mac_process_msgq s) (s_tag_macinfo_seq s) (s_tag_macinfo_upload_state s) (s_flash_consumed s) (s_rt_count_snap s) (s_sensor_upload_ctx s) (s_sensor_upload_frame_buf s).
Definition set_cache (x : list adv_cache_item_t) (s : scan) : scan := mk_scan (s_prefix_table s) (s_result_table s) (s_scan_config s) x (s_cache_seq_counter s) (s_tag_scan_process_msgq s) (s_tran_mac_result_table s) (s_tran_mac_process_msgq s) (s_tag_macinfo_seq s) (s_tag_macinfo_upload_state s) (s_flash_consumed s) (s_rt_count_snap s) (s_sensor_upload_ctx s) (s_sensor_upload_frame_buf s).
Definition set_cache_seq (x : Z) (s : scan) : scan := mk_scan (s_prefix_table s) (s_result_table s) (s_scan_config s) (s_adv_cache_table s) x (s_tag_scan_process_msgq s) (s_tran_mac_result_table s) (s_tran_mac_process_msgq s) (s_tag_macinfo_seq s) (s_tag_macinfo_upload_state s) (s_flash_consumed s) (s_rt_count_snap s) (s_sensor_upload_ctx s) (s_sensor_upload_frame_buf s).
Definition set_tag_msgq (x : list tag_scan_process_msg_t) (s : scan) : scan := mk_scan (s_prefix_table s) (s_result_table s) (s_scan_config s) (s_adv_cache_table s) (s_cache_seq_counter s) x (s_tran_mac_result_table s) (s_tran_mac_process_msgq s) (s_tag_macinfo_seq s) (s_tag_macinfo_upload_state s) (s_flash_consumed s) (s_rt_count_snap s) (s_sensor_upload_ctx s) (s_sensor_upload_frame_buf s).
Definition set_trans (x : table tran_mac_result_item_t) (s : scan) : scan := mk_scan (s_prefix_table s) (s_result_table s) (s_scan_config s) (s_adv_cache_table s) (s_cache_seq_counter s) (s_tag_scan_process_msgq s) x (s_tran_mac_process_msgq s) (s_tag_macinfo_seq s) (s_tag_macinfo_upload_state s) (s_flash_consumed s) (s_rt_count_snap s) (s_sensor_upload_ctx s) (s_sensor_upload_frame_buf s).
Definition set_tran_msgq (x : list tran_mac_process_msg_t) (s : scan) : scan := mk_scan (s_prefix_table s) (s_result_table s) (s_scan_config s) (s_adv_cache_table s) (s_cache_seq_counter s) (s_tag_scan_process_msgq s) (s_tran_mac_result_table s) x (s_tag_macinfo_seq s) (s_tag_macinfo_upload_state s) (s_flash_consumed s) (s_rt_count_snap s) (s_sensor_upload_ctx s) (s_sensor_upload_frame_buf s).
Definition set_seq (x : Z) (s : scan) : scan := mk_scan (s_prefix_table s) (s_result_table s) (s_scan_config s) (s_adv_cache_table s) (s_cache_seq_counter s) (s_tag_scan_process_msgq s) (s_tran_mac_result_table s) (s_tran_mac_process_msgq s) x (s_tag_macinfo_upload_state s) (s_flash_consumed s) (s_rt_count_snap s) (s_sensor_upload_ctx s) (s_sensor_upload_frame_buf s).
Definition set_upload (x : upload_state_t) (s : scan) : scan := mk_scan (s_prefix_table s) (s_result_table s) (s_scan_config s) (s_adv_cache_table s) (s_cache_seq_counter s) (s_tag_scan_process_msgq s) (s_tran_mac_result_table s) (s_tran_mac_process_msgq s) (s_tag_macinfo_seq s) x (s_flash_consumed s) (s_rt_count_snap s) (s_sensor_upload_ctx s) (s_sensor_upload_frame_buf s).
Definition set_consumed (x : Z) (s : scan) : scan := mk_scan (s_prefix_table s) (s_result_table s) (s_scan_config s) (s_adv_cache_table s) (s_cache_seq_counter s) (s_tag_scan_process_msgq s) (s_tran_mac_result_table s) (s_tran_mac_process_msgq s) (s_tag_macinfo_seq s) (s_tag_macinfo_upload_state s) x (s_rt_count_snap s) (s_sensor_upload_ctx s) (s_sensor_upload_frame_buf s).
Definition set_snap (x : Z) (s : scan) : scan := mk_scan (s_prefix_table s) (s_result_table s) (s_scan_config s) (s_adv_cache_table s) (s_cache_seq_counter s) (s_tag_scan_process_msgq s) (s_tran_mac_result_table s) (s_tran_mac_process_msgq s) (s_tag_macinfo_seq s) (s_tag_macinfo_upload_state s) (s_flash_consumed s) x (s_sensor_upload_ctx s) (s_sensor_upload_frame_buf s).
Definition set_sensor (x : sensor_upload_ctx_t) (s : scan) : scan := mk_scan (s_prefix_table s) (s_result_table s) (s_scan_config s) (s_adv_cache_table s) (s_cache_seq_counter s) (s_tag_scan_process_msgq s) (s_tran_mac_result_table s) (s_tran_mac_process_msgq s) (s_tag_macinfo_seq s) (s_tag_macinfo_upload_state s) (s_flash_consumed s) (s_rt_count_snap s) x (s_sensor_upload_frame_buf s).
Definition set_frame (x : list Z) (s : scan) : scan := mk_scan (s_prefix_table s) (s_result_table s) (s_scan_config s) (s_adv_cache_table s) (s_cache_seq_counter s) (s_tag_scan_process_msgq s) (s_tran_mac_result_table s) (s_tran_mac_process_msgq s) (s_tag_macinfo_seq s) (s_tag_macinfo_upload_state s) (s_flash_consumed s) (s_rt_count_snap s) (s_sensor_upload_ctx s) x.

(** The messages of the BLE thread that concern the scanner. *)
Inductive scan_msg :=
  | MY_MSG_TAG_SCAN_PROCESS | MY_MSG_TRAN_MAC_PROCESS | MY_MSG_SCAN_INTERVAL | MY_MSG_SCAN_LENGTH | MY_MSG_SCAN_UPLOAD | MY_MSG_UPLOAD_WAKEUP
  | MY_MSG_BLE_SENSOR_TH_SAMPLE | MY_MSG_BLE_SENSOR_BP_SAMPLE | MY_MSG_BLE_SENSOR_LTE_ACK.

Inductive scan_timer := MY_TIMER_SCAN_INTERVAL | MY_TIMER_SCAN_LENGTH | MY_TIMER_UPLOAD_INTERVAL.

(** Calls of other modules that return nothing. *)
Inductive scan_call :=
  | my_start_timer (t : scan_timer) (ms : Z) (periodic : bool)
  | my_stop_timer (t : scan_timer)
  | send_ble (m : scan_msg)
  | send_lte_pwron
  | set_lte_boot_reason_scan.

(** Answers of the LTE module that concern the samples. *)
Inductive ble_rsp_t := BLE_RSP_TH | BLE_RSP_BP | BLE_RSP_CDATA | BLE_RSP_OTHER.

(** ** The rest of the device *)

Class ScanIO (D : Type) := {
  scan_storage :: StorageIO D;
  lte_send_command : list Z -> option (list Z) -> D -> D * Z;
  scan_do : scan_call -> D -> D;
  bt_le_scan_start : D -> D * Z;
  bt_le_scan_stop : D -> D * Z;
  my_get_system_time_sec : D -> Z;
  g_bLteReady : D -> bool;
  scan_settings : D -> config_param_t;
  g_temp_humi_sample : D -> fs_temp_humi_record_t;
  g_barometer_sample : D -> fs_barometer_record_t;
  s_sensor_ble_rsp : D -> ble_rsp_t;
  lte_commands : D -> list (list Z * option (list Z))
}.

(** None of them touches the stored records; [lte_commands] is the list of
    commands handed to the LTE module so far, which the flash drivers leave alone; the samples are values of their types. *)
Class ScanLaws (D : Type) `{ScanIO D} : Prop := {
  scan_storage_laws :: StorageLaws D;
  law_send_flash n p d : flash_view (fst (lte_send_command n p d)) = flash_view d;
  law_send_log n p d : lte_commands (fst (lte_send_command n p d)) = lte_commands d ++ [(n, p)];
  law_do_flash c d : flash_view (scan_do c d) = flash_view d;
  law_do_log c d : lte_commands (scan_do c d) = lte_commands d;
  law_start_flash d : flash_view (fst (bt_le_scan_start d)) = flash_view d;
  law_stop_flash d : flash_view (fst (bt_le_scan_stop d)) = flash_view d;
  law_read_log d off n : lte_commands (fst (fst (flash_area_read d off n))) = lte_commands d;
  law_zms_write_log d id bs : lte_commands (fst (zms_write d id bs)) = lte_commands d;
  law_th_typed d : typed (g_temp_humi_sample d);
  law_bp_typed d : typed (g_barometer_sample d)
}.

Section scanner.
Context {D : Type} `{!ScanIO D}.
Notation scanner := (prog scan (fs_state D)).

Definition on_dev {A} (f : D -> D * A) : scanner A :=
  world (fun st => let '(d, a) := f (dev st) in (mk_fs (s_inited st) (s_region st) d, a)).
Definition ask {A} (f : D -> A) : scanner A := on_dev (fun d => (d, f d)).
Definition do (c : scan_call) : scanner unit := on_dev (fun d => (scan_do c d, tt)).
Definition send (name : list Z) (param : list Z) : scanner Z := on_dev (lte_send_command name (Some param)).

(** The record store. *)
Definition push (type : Z) (rec : list Z) : scanner Z := world_checked (fun st => my_flash_store_push type st (Some rec)).
Definition read_next (type : Z) : scanner (Z * list Z) :=
  world_checked (fun st => '(st, r, data) ← my_flash_store_read_next st type true; Some (st, (r, data))).
Definition pending_count (type : Z) : scanner Z := world (fun st => (st, my_flash_store_pending_count st type)).
Definition rewind (type : Z) : scanner unit := world (fun st => (my_flash_store_rewind st type, tt)).
Definition upload_begin (type : Z) : scanner unit := world (fun st => (my_flash_store_upload_begin st type, tt)).
Definition commit (type : Z) : scanner Z := world_checked (fun st => my_flash_store_commit st type).

(** ** Names *)

(** [strncmp(a, b, n) == 0]. *)
Fixpoint strncmp_eq (n : nat) (a b : list Z) : option bool :=
  match n with
  | O => Some true
  | S n =>
      match a, b with
      | x :: a, y :: b => if negb (x =? y) then Some false else if x =? 0 then Some true else strncmp_eq n a b
      | _, _ => None
      end
  end.

(** The prefixes from the first of [ps] on. *)
Fixpoint match_loop (name : list Z) (len : Z) (ps : list tag_prefix_t) : option bool :=
  match ps with
  | [] => Some false
  | p :: ps =>
      if negb (prefix_valid p) then match_loop name len ps else
      if prefix_len p <=? len then
        eq ← strncmp_eq (Z.to_nat (prefix_len p)) name (prefix p);
        if eq : bool then Some true else match_loop name len ps
      else match_loop name len ps
  end.

Definition tag_name_match (t : table tag_prefix_t) (name : list Z) (len : Z) : option bool :=
  if len =? 0 then Some false else
  ps ← arr_slice (t_items t) 0 (t_count t);
  match_loop name len ps.

(** The new table and the result. *)
Definition my_tag_prefix_add (t : table tag_prefix_t) (s : list Z) : option (table tag_prefix_t * Z) :=
  if TAG_PREFIX_MAX_NUM <=? t_count t then Some (t, - ENOMEM) else
  let len := u8 (zlen s) in
  if (len =? 0) || (TAG_PREFIX_MAX_LEN <=? len) then Some (t, - EINVAL) else
  p ← arr_get (t_items t) (t_count t);
  data ← arr_slice s 0 len;
  text ← arr_blit (prefix p) 0 data;
  items ← arr_set (t_items t) (t_count t) (mk_prefix text len true);
  Some (mk_table items (u8 (t_count t + 1)), 0).

Definition no_prefixes : table tag_prefix_t :=
  mk_table (replicate (Z.to_nat TAG_PREFIX_MAX_NUM) (mk_prefix (replicate (Z.to_nat TAG_PREFIX_MAX_LEN) 0) 0 false)) 0.

Definition tag_prefix_table_init : option (table tag_prefix_t) :=
  foldl (fun t s => t ← t; fst <$> my_tag_prefix_add t (cstr s)) (Some no_prefixes) ["L780"; "PB7"; "LL311"; "PET"]%string.

(** ** Storing a table *)

Section tables.
Context {A : Type} `{!Stored A} (key : A -> Z).

(** The index of the smallest key, looking from [j] on. *)
Fixpoint min_loop (n : nat) (l : list A) (j min_idx : Z) : option Z :=
  match n with
  | O => Some min_idx
  | S n =>
      x ← arr_get l j;
      y ← arr_get l min_idx;
      min_loop n l (j + 1) (if key x <? key y then j else min_idx)
  end.

Fixpoint sort_loop (n : nat) (count i : Z) (l : list A) : option (list A) :=
  match n with
  | O => Some l
  | S n =>
      min_idx ← min_loop (Z.to_nat (count - (i + 1))) l (i + 1) i;
      if min_idx =? i then sort_loop n count (i + 1) l else
      tmp ← arr_get l i;
      x ← arr_get l min_idx;
      l ← arr_set l i x;
      l ← arr_set l min_idx tmp;
      sort_loop n count (i + 1) l
  end.

Fixpoint push_loop (type : Z) (l : list A) : scanner unit :=
  match l with
  | [] => ret tt
  | x :: l => push type (bytes_of x);; push_loop type l
  end.

(** What both tables have in common; [done] clears the table. *)
Definition flush_table (type : Z) (t : table A) (done : scanner unit) : scanner unit :=
  if t_count t =? 0 then ret tt else
  l <- checked (sort_loop (Z.to_nat (t_count t - 1)) (t_count t) 0 (t_items t));;
  l <- checked (arr_slice l 0 (t_count t));;
  push_loop type l;;
  done.
End tables.

Definition tag_table_flush_to_flash : scanner unit :=
  t <- get s_result_table;;
  flush_table tag_timestamp FS_TYPE_TAG t (modify (set_results (clear TAG_RESULT_MAX_NUM))).

Definition tran_mac_table_flush_to_flash : scanner unit :=
  t <- get s_tran_mac_result_table;;
  flush_table tran_timestamp FS_TYPE_MAC t (modify (set_trans (clear TRAN_MAC_MAX_NUM))).

(** ** Devices found *)

(** The [n] characters [strncpy] stores. *)
Fixpoint str_upto (n : nat) (src : list Z) : option (list Z) :=
  match n with
  | O => Some []
  | S n' =>
      match src with
      | [] => None
      | c :: src => if c =? 0 then Some (replicate n 0) else s ← str_upto n' src; Some (c :: s)
      end
  end.

Definition strncpy (dst src : list Z) (n : Z) : option (list Z) := s ← str_upto (Z.to_nat n) src; arr_blit dst 0 s.

(** [memcpy(dst, src, n)] and the new length, if there is anything to copy. *)
Definition copy_if (dst : list Z) (old : Z) (src : list Z) (n : Z) : option (list Z * Z) :=
  if 0 <? n then d ← arr_slice src 0 n; dst ← arr_blit dst 0 d; Some (dst, n) else Some (dst, old).

Definition update_tag (x r : tag_scan_result_t) (now : Z) : option tag_scan_result_t :=
  name ← strncpy (tag_name x) (tag_name r) (ADV_NAME_MAX_LEN - 1);
  '(ff, ffn) ← copy_if (ff_data x) (ff_data_len x) (ff_data r) (ff_data_len r);
  '(u, un) ← copy_if (uuid x) (uuid_len x) (uuid r) (uuid_len r);
  Some (mk_tag (tag_addr x) name ff ffn u un (battery_percent r) (rssi r) now).

Definition stamp (r : tag_scan_result_t) (now : Z) : tag_scan_result_t :=
  mk_tag (tag_addr r) (tag_name r) (ff_data r) (ff_data_len r) (uuid r) (uuid_len r) (battery_percent r) (rssi r) now.

Definition append_tag (r : tag_scan_result_t) : scanner unit :=
  t <- get s_result_table;;
  now <- ask my_get_system_time_sec;;
  l <- checked (arr_set (t_items t) (t_count t) (stamp r (u32 now)));;
  modify (set_results (mk_table l (u8 (t_count t + 1)))).

Definition tag_scan_result_save (r : tag_scan_result_t) : scanner unit :=
  t <- get s_result_table;;
  l <- checked (arr_slice (t_items t) 0 (t_count t));;
  match list_find (fun x => tag_addr x = tag_addr r) l with
  | Some (i, x) =>
      now <- ask my_get_system_time_sec;;
      x <- checked (update_tag x r (u32 now));;
      l <- checked (arr_set (t_items t) (Z.of_nat i) x);;
      modify (set_results (mk_table l (t_count t)))
  | None =>
      if t_count t <? TAG_RESULT_MAX_NUM then append_tag r
      else tag_table_flush_to_flash;; append_tag r
  end.

(** [bt_le_scan_recv_info]. *)
Definition BT_GAP_ADV_TYPE_ADV_IND : Z := 0x00.
Definition BT_GAP_ADV_TYPE_SCAN_RSP : Z := 0x04.
Record recv_info := mk_info { info_addr : list Z; info_rssi : Z; info_type : Z }.

Definition MSGQ_LEN : Z := 16.

Definition put_tag_msg (m : tag_scan_process_msg_t) : scanner bool :=
  q <- get s_tag_scan_process_msgq;;
  if MSGQ_LEN <=? zlen q then ret false else modify (set_tag_msgq (q ++ [m]));; ret true.
Definition put_tran_msg (m : tran_mac_process_msg_t) : scanner bool :=
  q <- get s_tran_mac_process_msgq;;
  if MSGQ_LEN <=? zlen q then ret false else modify (set_tran_msgq (q ++ [m]));; ret true.

(** The packet of a device whose address is in the settings. *)
Definition queue_tran_mac (info : recv_info) (buf : list Z) : scanner unit :=
  c <- ask scan_settings;;
  if my_tran_mac_check (bparmac_config c) (info_addr info) then
    let n := Z.min (zlen buf) TRAN_MAC_ADV_DATA_MAX_LEN in
    data <- checked (arr_slice buf 0 n);;
    data <- checked (arr_blit (replicate (Z.to_nat TRAN_MAC_ADV_DATA_MAX_LEN) 0) 0 data);;
    ok <- put_tran_msg (mk_tran_msg (info_addr info) data n);;
    if ok : bool then do (send_ble MY_MSG_TRAN_MAC_PROCESS) else ret tt
  else ret tt.

(** The callback of the Bluetooth stack.  The array [ff_temp] is not initialised;
    its contents are used after it was filled only. *)
Definition scan_recv_cb (info : recv_info) (buf : list Z) : scanner unit :=
  let r := mk_tag (info_addr info) (replicate 32 0) (replicate 29 0) 0 (replicate 16 0) 0 0 (info_rssi info) 0 in
  if info_type info =? BT_GAP_ADV_TYPE_ADV_IND then
    p <- checked (parse_ff_data buf (replicate 29 0) TAG_FF_DATA_MAX_LEN 0);;
    let '(ff_temp, ff_len, found) := p in
    if found : bool then
      d <- checked (arr_slice ff_temp 0 ff_len);;
      ff <- checked (arr_blit (ff_data r) 0 d);;
      ok <- put_tag_msg (mk_tag_msg (info_type info) (mk_tag (tag_addr r) (tag_name r) ff ff_len (uuid r) 0 0 (rssi r) 0));;
      if ok : bool then do (send_ble MY_MSG_TAG_SCAN_PROCESS);; queue_tran_mac info buf else ret tt
    else queue_tran_mac info buf
  else if info_type info =? BT_GAP_ADV_TYPE_SCAN_RSP then
    p <- checked (parse_scan_rsp_name buf (replicate 32 0) ADV_NAME_MAX_LEN);;
    let '(name, found) := p in
    if negb found then ret tt else
    name <- checked (strncpy (tag_name r) name (ADV_NAME_MAX_LEN - 1));;
    p <- checked (parse_scan_rsp_payload buf (mk_tag (tag_addr r) name (ff_data r) 0 (uuid r) 0 0 (rssi r) 0));;
    ok <- put_tag_msg (mk_tag_msg (info_type info) (fst p));;
    if ok : bool then do (send_ble MY_MSG_TAG_SCAN_PROCESS) else ret tt
  else ret tt.

(** ** Merging the two packets of a tag *)

Definition cached (addr : list Z) (c : adv_cache_item_t) : Prop := ca_valid c = true /\ ca_addr c = addr.
#[local] Instance cached_dec addr c : Decision (cached addr c).
Proof. unfold cached. apply _. Defined.

(** The oldest of the entries, [j] being the index of the first of [l]. *)
Fixpoint oldest_loop (l : list adv_cache_item_t) (j min_seq oldest_idx : Z) : Z :=
  match l with
  | [] => oldest_idx
  | c :: l => if ca_seq c <? min_seq then oldest_loop l (j + 1) (ca_seq c) j else oldest_loop l (j + 1) min_seq oldest_idx
  end.

(** The entry of the same device, a free entry, or the oldest. *)
Definition cache_slot (cache : list adv_cache_item_t) (addr : list Z) : option Z :=
  match list_find (cached addr) cache with
  | Some (i, _) => Some (Z.of_nat i)
  | None =>
      match list_find (fun c => ca_valid c = false) cache with
      | Some (i, _) => Some (Z.of_nat i)
      | None => match cache with c :: l => Some (oldest_loop l 1 (ca_seq c) 0) | [] => None end
      end
  end.

Definition cache_put (r : tag_scan_result_t) : scanner unit :=
  cache <- get s_adv_cache_table;;
  seq <- get s_cache_seq_counter;;
  i <- checked (cache_slot cache (tag_addr r));;
  c <- checked (arr_get cache i);;
  d <- checked (arr_slice (ff_data r) 0 (ff_data_len r));;
  ff <- checked (arr_blit (ca_ff c) 0 d);;
  cache <- checked (arr_set cache i (mk_cached (tag_addr r) ff (ff_data_len r) true seq));;
  modify (fun s => set_cache cache (set_cache_seq (u32 (seq + 1)) s)).

(** The entry of a device is given up. *)
Definition cache_release (i : nat) (c : adv_cache_item_t) : scanner unit :=
  cache <- get s_adv_cache_table;;
  modify (set_cache (<[i := mk_cached (ca_addr c) (ca_ff c) (ca_len c) false (ca_seq c)]> cache)).

Definition tag_scan_data_handle (m : tag_scan_process_msg_t) : scanner unit :=
  let r := result m in
  if adv_type m =? BT_GAP_ADV_TYPE_ADV_IND then cache_put r else
  prefixes <- get s_prefix_table;;
  name <- checked (c_string (tag_name r));;
  ok <- checked (tag_name_match prefixes (tag_name r) (u8 (zlen name)));;
  cache <- get s_adv_cache_table;;
  match list_find (cached (tag_addr r)) cache with
  | Some (i, c) =>
      if negb ok then cache_release i c else
      d <- checked (arr_slice (ca_ff c) 0 (ca_len c));;
      ff <- checked (arr_blit (ff_data r) 0 d);;
      cache_release i c;;
      tag_scan_result_save (mk_tag (tag_addr r) (tag_name r) ff (ca_len c) (uuid r) (uuid_len r) (battery_percent r) (rssi r) (tag_timestamp r))
  | None => if negb ok then ret tt else tag_scan_result_save r
  end.

Definition tran_mac_data_handle (m : tran_mac_process_msg_t) : scanner unit :=
  if tm_len m =? 0 then ret tt else
  t <- get s_tran_mac_result_table;;
  l <- checked (arr_slice (t_items t) 0 (t_count t));;
  now <- ask my_get_system_time_sec;;
  d <- checked (arr_slice (tm_data m) 0 (tm_len m));;
  match list_find (fun x => tran_addr x = tm_addr m) l with
  | Some (i, x) =>
      data <- checked (arr_blit (adv_data x) 0 d);;
      l <- checked (arr_set (t_items t) (Z.of_nat i) (mk_tran (tran_addr x) data (tm_len m) (u32 now)));;
      modify (set_trans (mk_table l (t_count t)))
  | None =>
      if t_count t <? TRAN_MAC_MAX_NUM then
        x <- checked (arr_get (t_items t) (t_count t));;
        data <- checked (arr_blit (adv_data x) 0 d);;
        l <- checked (arr_set (t_items t) (t_count t) (mk_tran (tm_addr m) data (tm_len m) (u32 now)));;
        modify (set_trans (mk_table l (u8 (t_count t + 1))))
      else ret tt
  end.

(** ** Scanning *)

Definition set_scan_state (x : scan_state_t) (s : scan) : scan :=
  let c := s_scan_config s in set_cfg (mk_scan_config (sc_mode c) (scan_interval c) (scan_length c) (upload_interval c) x) s.

Definition scan_start_internal : scanner Z :=
  c <- get s_scan_config;;
  if sc_mode c =? SCAN_MODE_OFF then ret (- EINVAL) else
  if decide (scan_state c = SCAN_STATE_SCANNING) then ret 0 else
  err <- on_dev bt_le_scan_start;;
  if negb (err =? 0) then ret err else
  modify (set_scan_state SCAN_STATE_SCANNING);;
  (if 0 <? scan_length c then do (my_start_timer MY_TIMER_SCAN_LENGTH (u32 (scan_length c * 1000)) false) else ret tt);;
  ret 0.

Definition no_cache : list adv_cache_item_t :=
  replicate (Z.to_nat ADV_CACHE_MAX_NUM) (mk_cached (replicate 7 0) (replicate 29 0) 0 false 0).

Definition scan_stop_internal : scanner Z :=
  c <- get s_scan_config;;
  if negb (bool_decide (scan_state c = SCAN_STATE_SCANNING)) then ret 0 else
  err <- on_dev bt_le_scan_stop;;
  if negb (err =? 0) then ret err else
  modify (fun s => set_cache_seq 0 (set_cache no_cache (set_scan_state SCAN_STATE_IDLE s)));;
  do (my_stop_timer MY_TIMER_SCAN_LENGTH);;
  ret 0.

(** ** Samples *)

Definition SENSOR_CDATA_UART_FRAME_MAX_LEN : Z := 1024.
Definition SENSOR_CDATA_CMD_PREFIX_LEN : Z := 10.
Definition SENSOR_CDATA_PARAM_MAX_LEN : Z := SENSOR_CDATA_UART_FRAME_MAX_LEN - SENSOR_CDATA_CMD_PREFIX_LEN - 2.
Definition SENSOR_CDATA_PREFIX_RESERVED_LEN : Z := 24.
Definition SENSOR_CDATA_TH_RECORD_MAX_TEXT_LEN : Z := 25.
Definition SENSOR_CDATA_BP_RECORD_MAX_TEXT_LEN : Z := 22.

Definition sensor_cdata_record_max_text_len_get (type : Z) : Z :=
  if type =? FS_TYPE_TH then SENSOR_CDATA_TH_RECORD_MAX_TEXT_LEN
  else if type =? FS_TYPE_BP then SENSOR_CDATA_BP_RECORD_MAX_TEXT_LEN else 0.

Definition sensor_cdata_max_records_per_packet (type : Z) : Z :=
  let record_max_len := sensor_cdata_record_max_text_len_get type in
  if record_max_len =? 0 then 0 else
  if SENSOR_CDATA_PARAM_MAX_LEN <=? SENSOR_CDATA_PREFIX_RESERVED_LEN then 0 else
  u16 ((SENSOR_CDATA_PARAM_MAX_LEN - SENSOR_CDATA_PREFIX_RESERVED_LEN - 1) / record_max_len).

Definition sensor_cdata_type_get (type : Z) : Z := if type =? FS_TYPE_TH then 1 else if type =? FS_TYPE_BP then 2 else 0.

Definition sensor_upload_busy (s : scan) : bool := negb (bool_decide (sensor_state (s_sensor_upload_ctx s) = SENSOR_UPLOAD_STATE_IDLE)).

Definition in_cdata (x : sensor_upload_state_t) : bool :=
  bool_decide (x = SENSOR_UPLOAD_STATE_CDATA_WAIT_START_ACK) || bool_decide (x = SENSOR_UPLOAD_STATE_CDATA_WAIT_DATA_ACK)
  || bool_decide (x = SENSOR_UPLOAD_STATE_CDATA_WAIT_END_ACK).

Definition sensor_upload_reset (rewind_flash : bool) : scanner unit :=
  c <- get s_sensor_upload_ctx;;
  (if rewind_flash && ((upload_type c =? FS_TYPE_TH) || (upload_type c =? FS_TYPE_BP)) && in_cdata (sensor_state c)
   then rewind (upload_type c) else ret tt);;
  modify (set_sensor (mk_sensor SENSOR_UPLOAD_STATE_IDLE FS_TYPE_MAX 0 0)).

Definition set_sensor_state (x : sensor_upload_state_t) (s : scan) : scan :=
  let c := s_sensor_upload_ctx s in set_sensor (mk_sensor x (upload_type c) (total_packets c) (next_seq c)) s.

(** The text of a record in a packet. *)
Definition record_text (type : Z) (data : list Z) : list Z :=
  if type =? FS_TYPE_TH then
    let r := of_bytes (A := fs_temp_humi_record_t) data in
    cstr "," ++ dec (th_timestamp r) ++ cstr "," ++ dec (temperature_x10 r) ++ cstr "," ++ dec (humidity_x10 r)
  else
    let r := of_bytes (A := fs_barometer_record_t) data in
    cstr "," ++ dec (bp_timestamp r) ++ cstr "," ++ dec (pressure_pa r).

(** Up to [n] more records; [None] is an error. *)
Fixpoint cdata_loop (n : nat) (type record_max_len : Z) (frame : list Z) (used_len data_sum : Z) : scanner (option (list Z * Z * Z)) :=
  match n with
  | O => ret (Some (frame, used_len, data_sum))
  | S n =>
      if SENSOR_CDATA_PARAM_MAX_LEN <? used_len + record_max_len + 1 then ret (Some (frame, used_len, data_sum)) else
      r <- read_next (if type =? FS_TYPE_TH then FS_TYPE_TH else FS_TYPE_BP);;
      if fst r <=? 0 then ret (Some (frame, used_len, data_sum)) else
      let text := record_text type (snd r) in
      f <- checked (snprintf_at frame used_len (SENSOR_CDATA_PARAM_MAX_LEN - used_len) text);;
      if (snd f <=? 0) || (SENSOR_CDATA_PARAM_MAX_LEN - used_len <=? snd f) then ret None
      else cdata_loop n type record_max_len (fst f) (u16 (used_len + snd f)) (u16 (data_sum + 1))
  end.

Definition sensor_cdata_send_next_packet : scanner Z :=
  modify (set_frame (replicate (Z.to_nat SENSOR_CDATA_PARAM_MAX_LEN) 0));;
  c <- get s_sensor_upload_ctx;;
  let max_records := sensor_cdata_max_records_per_packet (upload_type c) in
  let record_max_len := sensor_cdata_record_max_text_len_get (upload_type c) in
  if (max_records =? 0) || (record_max_len =? 0) then ret (- EINVAL) else
  frame <- get s_sensor_upload_frame_buf;;
  o <- cdata_loop (Z.to_nat max_records) (upload_type c) record_max_len frame SENSOR_CDATA_PREFIX_RESERVED_LEN 0;;
  match o with
  | None => ret (- ENOMEM)
  | Some (frame, used_len, data_sum) =>
      modify (set_frame frame);;
      if data_sum =? 0 then ret (- EINVAL) else
      p <- checked (snprintf_at (replicate (Z.to_nat SENSOR_CDATA_PREFIX_RESERVED_LEN) 0) 0 SENSOR_CDATA_PREFIX_RESERVED_LEN
             (dec (next_seq c) ++ cstr "," ++ dec data_sum));;
      let prefix_len := u16 (snd p) in
      if SENSOR_CDATA_PREFIX_RESERVED_LEN <=? prefix_len then ret (- ENOMEM) else
      let record_text_len := u16 (used_len - SENSOR_CDATA_PREFIX_RESERVED_LEN) in
      if SENSOR_CDATA_PARAM_MAX_LEN <? prefix_len + record_text_len + 1 then ret (- ENOMEM) else
      text <- checked (arr_slice frame SENSOR_CDATA_PREFIX_RESERVED_LEN (record_text_len + 1));;
      frame <- checked (arr_blit frame prefix_len text);;
      pre <- checked (arr_slice (fst p) 0 prefix_len);;
      frame <- checked (arr_blit frame 0 pre);;
      modify (set_frame frame);;
      msg <- checked (c_string frame);;
      ret <- send (cstr "CDATA") msg;;
      (if ret =? 0 then modify (set_sensor_state SENSOR_UPLOAD_STATE_CDATA_WAIT_DATA_ACK) else Prog.ret tt);;
      Prog.ret ret
  end.

Definition sensor_cached_upload_try_start : scanner unit :=
  s <- get id;;
  if sensor_upload_busy s || negb (bool_decide (s_tag_macinfo_upload_state s = UPLOAD_STATE_IDLE)) then ret tt else
  th <- pending_count FS_TYPE_TH;;
  bp <- pending_count FS_TYPE_BP;;
  let type := if 0 <? th then FS_TYPE_TH else if 0 <? bp then FS_TYPE_BP else FS_TYPE_MAX in
  ready <- ask g_bLteReady;;
  if (type =? FS_TYPE_MAX) || negb ready then ret tt else
  n <- pending_count type;;
  let max_records_per_packet := sensor_cdata_max_records_per_packet type in
  if (n =? 0) || (max_records_per_packet =? 0) then ret tt else
  upload_begin type;;
  let total := u16 (u32 (n + max_records_per_packet - 1) / max_records_per_packet) in
  modify (set_sensor (mk_sensor SENSOR_UPLOAD_STATE_CDATA_WAIT_START_ACK type total 1));;
  frame <- get s_sensor_upload_frame_buf;;
  f <- checked (snprintf_at frame 0 SENSOR_CDATA_PARAM_MAX_LEN (cstr "START," ++ dec (sensor_cdata_type_get type) ++ cstr "," ++ dec total));;
  modify (set_frame (fst f));;
  msg <- checked (c_string (fst f));;
  ret <- send (cstr "CDATA") msg;;
  if negb (ret =? 0) then sensor_upload_reset true else Prog.ret tt.

Definition sensor_realtime_upload_start (cmd_name : list Z) (type : Z) (param : list Z) : scanner Z :=
  s <- get id;;
  ready <- ask g_bLteReady;;
  if negb ready || sensor_upload_busy s || negb (bool_decide (s_tag_macinfo_upload_state s = UPLOAD_STATE_IDLE)) then ret (- EBUSY) else
  let c := s_sensor_upload_ctx s in
  modify (set_sensor (mk_sensor (if type =? FS_TYPE_TH then SENSOR_UPLOAD_STATE_TH_WAIT_ACK else SENSOR_UPLOAD_STATE_BP_WAIT_ACK)
    type (total_packets c) (next_seq c)));;
  ret <- send cmd_name param;;
  (if negb (ret =? 0) then sensor_upload_reset false else Prog.ret tt);;
  Prog.ret ret.

(** A sample that was not sent at once is stored, and the LTE module may be woken. *)
Definition sample (cmd_name : list Z) (type : Z) (text rec : list Z) (wakeup_cell_sw : config_param_t -> Z) : scanner unit :=
  ready <- ask g_bLteReady;;
  sent <- (if ready : bool then
             ret <- sensor_realtime_upload_start cmd_name type (fst (snprintf 48 text));;
             Prog.ret (ret =? 0)
           else Prog.ret false);;
  if sent : bool then ret tt else
  push type rec;;
  ready <- ask g_bLteReady;;
  c <- ask scan_settings;;
  if negb ready && negb (wakeup_cell_sw c =? 0) then do set_lte_boot_reason_scan;; do send_lte_pwron else ret tt.

Definition sensor_process_temp_humi_sample (r : fs_temp_humi_record_t) : scanner unit :=
  sample (cstr "TH") FS_TYPE_TH (dec (th_timestamp r) ++ cstr "," ++ dec (temperature_x10 r) ++ cstr "," ++ dec (humidity_x10 r))
    (bytes_of r) (fun c => temp_wakeup_cell_sw (temp_timer_config c)).

Definition sensor_process_barometer_sample (r : fs_barometer_record_t) : scanner unit :=
  sample (cstr "BP") FS_TYPE_BP (dec (bp_timestamp r) ++ cstr "," ++ dec (pressure_pa r))
    (bytes_of r) (fun c => patm_wakeup_cell_sw (patm_timer_config c)).

Definition sensor_handle_lte_ack (rsp : ble_rsp_t) : scanner unit :=
  c <- get s_sensor_upload_ctx;;
  match rsp, sensor_state c with
  | BLE_RSP_TH, SENSOR_UPLOAD_STATE_TH_WAIT_ACK | BLE_RSP_BP, SENSOR_UPLOAD_STATE_BP_WAIT_ACK =>
      sensor_upload_reset false;;
      sensor_cached_upload_try_start
  | BLE_RSP_CDATA, SENSOR_UPLOAD_STATE_CDATA_WAIT_START_ACK =>
      ret <- sensor_cdata_send_next_packet;;
      if negb (ret =? 0) then sensor_upload_reset true else Prog.ret tt
  | BLE_RSP_CDATA, SENSOR_UPLOAD_STATE_CDATA_WAIT_DATA_ACK =>
      if next_seq c <? total_packets c then
        modify (set_sensor (mk_sensor (sensor_state c) (upload_type c) (total_packets c) (u16 (next_seq c + 1))));;
        ret <- sensor_cdata_send_next_packet;;
        if negb (ret =? 0) then sensor_upload_reset true else Prog.ret tt
      else
        ret <- send (cstr "CDATA") (cstr "END");;
        if negb (ret =? 0) then sensor_upload_reset true
        else modify (set_sensor_state SENSOR_UPLOAD_STATE_CDATA_WAIT_END_ACK)
  | BLE_RSP_CDATA, SENSOR_UPLOAD_STATE_CDATA_WAIT_END_ACK =>
      commit (upload_type c);;
      sensor_upload_reset false;;
      sensor_cached_upload_try_start
  | _, _ => ret tt
  end.

(** ** Upload of devices *)

(** The variables of an upload. *)
Definition set_round (state : upload_state_t) (seq consumed : Z) (s : scan) : scan := set_upload state (set_seq seq (set_consumed consumed s)).

(** [%02X] of bytes. *)
Definition hex (bs : list Z) : list Z := concat (hex2 true <$> bs).

(** The address, last byte first; its first byte in memory is the type. *)
Definition mac_str (addr : list Z) : list Z := hex (reverse (take 6 (drop 1 addr))).

Definition tag_text (r : tag_scan_result_t) (seq : Z) : option (list Z) :=
  name ← c_string (tag_name r);
  u ← arr_slice (uuid r) 0 (Z.min (uuid_len r) UUID_MAX_LEN);
  ff ← arr_slice (ff_data r) 0 (Z.min (ff_data_len r) TAG_FF_DATA_MAX_LEN);
  Some (dec seq ++ cstr "," ++ dec (tag_timestamp r) ++ cstr "," ++ mac_str (tag_addr r) ++ cstr "," ++ dec (battery_percent r) ++ cstr ","
    ++ hex2 true (u8 (rssi r)) ++ cstr "," ++ dec (zlen name) ++ cstr "," ++ name ++ cstr ","
    ++ dec (uuid_len r) ++ cstr "," ++ (if 0 <? uuid_len r then hex u else cstr "N/A") ++ cstr ","
    ++ (if 0 <? ff_data_len r then dec (ff_data_len r) ++ cstr "," ++ hex ff else cstr "0,N/A")).

Definition tag_scan_upload_one (r : tag_scan_result_t) (seq : Z) : scanner unit :=
  text <- checked (tag_text r seq);;
  send (cstr "TAG") (fst (snprintf 256 text));;
  ret tt.

(** The bytes appended one by one to the text in the buffer. *)
Fixpoint hex_append (bs : list Z) (buf : list Z) (offset : Z) : option (list Z * Z) :=
  match bs with
  | [] => Some (buf, offset)
  | b :: bs =>
      f ← snprintf_at buf offset (256 - offset) (hex2 true b);
      hex_append bs (fst f) (offset + snd f)
  end.

Definition tran_text (r : tran_mac_result_item_t) (seq : Z) : option (list Z) :=
  f ← snprintf_at (replicate 256 0) 0 256 (dec seq ++ cstr "," ++ dec (tran_timestamp r) ++ cstr "," ++ mac_str (tran_addr r) ++ cstr "," ++ dec (adv_data_len r) ++ cstr ",");
  d ← arr_slice (adv_data r) 0 (adv_data_len r);
  f ← hex_append d (fst f) (snd f);
  c_string (fst f).

Definition tran_mac_upload_one (r : tran_mac_result_item_t) (seq : Z) : scanner unit :=
  text <- checked (tran_text r seq);;
  send (cstr "MACINFO") text;;
  ret tt.

(** The first message of an upload; [total] is what it announces. *)
Definition start_round (state : upload_state_t) (type count : Z) (name : list Z) (total : Z) : scanner unit :=
  modify (fun s => set_snap count (set_round state 0 0 s));;
  upload_begin type;;
  send name (fst (snprintf 32 (cstr "START," ++ dec total)));;
  ret tt.

(** The next stored record, then the next of the table, then the end. *)
Definition next_item {A} (type : Z) (items : list A) (of_record : list Z -> A) (upload_one : A -> Z -> scanner unit) (done : scanner unit) : scanner unit :=
  r <- read_next type;;
  s <- get id;;
  if fst r =? 1 then
    modify (fun s => set_seq (u16 (s_tag_macinfo_seq s + 1)) (set_consumed (u16 (s_flash_consumed s + 1)) s));;
    upload_one (of_record (snd r)) (u16 (s_tag_macinfo_seq s + 1))
  else
    let rt_idx := u16 (s_tag_macinfo_seq s - s_flash_consumed s) in
    if rt_idx <? s_rt_count_snap s then
      x <- checked (arr_get items rt_idx);;
      modify (set_seq (u16 (s_tag_macinfo_seq s + 1)));;
      upload_one x (u16 (s_tag_macinfo_seq s + 1))
    else done.

Definition tag_mac_scan_upload_data : scanner unit :=
  s <- get id;;
  if decide (scan_state (s_scan_config s) = SCAN_STATE_SCANNING) then ret tt else
  tags <- pending_count FS_TYPE_TAG;;
  macs <- pending_count FS_TYPE_MAC;;
  let tag_total := u32 (tags + t_count (s_result_table s)) in
  let mac_total := u32 (macs + t_count (s_tran_mac_result_table s)) in
  match s_tag_macinfo_upload_state s with
  | UPLOAD_STATE_IDLE =>
      if sensor_upload_busy s then ret tt else
      if tag_total =? 0 then
        if mac_total =? 0 then ret tt else
        start_round UPLOAD_STATE_MAC_START FS_TYPE_MAC (t_count (s_tran_mac_result_table s)) (cstr "MACINFO") mac_total;;
        modify (set_scan_state SCAN_STATE_WAITING_UPLOAD)
      else
        start_round UPLOAD_STATE_TAG_START FS_TYPE_TAG (t_count (s_result_table s)) (cstr "TAG") tag_total;;
        modify (set_scan_state SCAN_STATE_WAITING_UPLOAD)
  | UPLOAD_STATE_TAG_START =>
      next_item FS_TYPE_TAG (t_items (s_result_table s)) of_bytes tag_scan_upload_one
        (commit FS_TYPE_TAG;;
         modify (fun s => set_results (clear TAG_RESULT_MAX_NUM) (set_round UPLOAD_STATE_TAG_END 0 0 s));;
         send (cstr "TAG") (cstr "END");; ret tt)
  | UPLOAD_STATE_TAG_END =>
      if mac_total =? 0 then
        modify (fun s => set_scan_state SCAN_STATE_IDLE (set_round UPLOAD_STATE_IDLE 0 0 s));;
        sensor_cached_upload_try_start
      else start_round UPLOAD_STATE_MAC_START FS_TYPE_MAC (t_count (s_tran_mac_result_table s)) (cstr "MACINFO") mac_total
  | UPLOAD_STATE_MAC_START =>
      next_item FS_TYPE_MAC (t_items (s_tran_mac_result_table s)) of_bytes tran_mac_upload_one
        (commit FS_TYPE_MAC;;
         modify (set_round UPLOAD_STATE_MAC_END 0 0);;
         send (cstr "MACINFO") (cstr "END");;
         modify (set_trans (clear TRAN_MAC_MAX_NUM)))
  | UPLOAD_STATE_MAC_END =>
      modify (fun s => set_scan_state SCAN_STATE_IDLE (set_round UPLOAD_STATE_IDLE 0 0 s));;
      sensor_cached_upload_try_start
  end.

Definition clear_tag_macinfo : scanner unit :=
  modify (fun s => set_trans (clear TRAN_MAC_MAX_NUM) (set_results (clear TAG_RESULT_MAX_NUM)
    (set_scan_state SCAN_STATE_IDLE (set_snap 0 (set_round UPLOAD_STATE_IDLE 0 0 s)))));;
  rewind FS_TYPE_TAG;;
  rewind FS_TYPE_MAC;;
  sensor_upload_reset true.

Definition my_scan_set_config (mode interval length upload : Z) : scanner unit :=
  do (my_stop_timer MY_TIMER_SCAN_INTERVAL);;
  do (my_stop_timer MY_TIMER_SCAN_LENGTH);;
  do (my_stop_timer MY_TIMER_UPLOAD_INTERVAL);;
  scan_stop_internal;;
  tag_table_flush_to_flash;;
  tran_mac_table_flush_to_flash;;
  modify (fun s => set_snap 0 (set_round UPLOAD_STATE_IDLE 0 0 s));;
  rewind FS_TYPE_TAG;;
  rewind FS_TYPE_MAC;;
  sensor_upload_reset true;;
  modify (set_cfg (mk_scan_config mode interval length upload SCAN_STATE_IDLE));;
  if mode =? SCAN_MODE_PERIOD_CACHE then
    do (my_start_timer MY_TIMER_SCAN_INTERVAL (u32 (interval * 1000)) true);;
    scan_start_internal;; ret tt
  else if mode =? SCAN_MODE_PERIOD_UPLOAD then
    do (my_start_timer MY_TIMER_SCAN_INTERVAL (u32 (interval * 1000)) true);;
    do (my_start_timer MY_TIMER_UPLOAD_INTERVAL (u32 (upload * 1000)) true);;
    scan_start_internal;; ret tt
  else ret tt.

(** Something waits to be uploaded. *)
Definition anything_to_upload : scanner bool :=
  s <- get id;;
  tags <- pending_count FS_TYPE_TAG;;
  macs <- pending_count FS_TYPE_MAC;;
  ret ((0 <? t_count (s_result_table s)) || (0 <? t_count (s_tran_mac_result_table s)) || (0 <? tags) || (0 <? macs)).

Definition scan_trigger_upload : scanner unit :=
  c <- get s_scan_config;;
  (if decide (scan_state c = SCAN_STATE_SCANNING) then scan_stop_internal;; ret tt else ret tt);;
  any <- anything_to_upload;;
  if negb any then modify (set_scan_state SCAN_STATE_IDLE) else
  do set_lte_boot_reason_scan;;
  tag_mac_scan_upload_data.

(** The loops that empty the two queues, [n] being at least their length. *)
Fixpoint drain_tags (n : nat) : scanner unit :=
  match n with
  | O => ret tt
  | S n =>
      q <- get s_tag_scan_process_msgq;;
      match q with
      | [] => ret tt
      | m :: q => modify (set_tag_msgq q);; tag_scan_data_handle m;; drain_tags n
      end
  end.
Fixpoint drain_trans (n : nat) : scanner unit :=
  match n with
  | O => ret tt
  | S n =>
      q <- get s_tran_mac_process_msgq;;
      match q with
      | [] => ret tt
      | m :: q => modify (set_tran_msgq q);; tran_mac_data_handle m;; drain_trans n
      end
  end.

Definition my_scan_msg_handler (m : scan_msg) : scanner unit :=
  s <- get id;;
  let cfg := s_scan_config s in
  let periodic := (sc_mode cfg =? SCAN_MODE_PERIOD_CACHE) || (sc_mode cfg =? SCAN_MODE_PERIOD_UPLOAD) in
  match m with
  | MY_MSG_TAG_SCAN_PROCESS => drain_tags (length (s_tag_scan_process_msgq s))
  | MY_MSG_TRAN_MAC_PROCESS => drain_trans (length (s_tran_mac_process_msgq s))
  | MY_MSG_SCAN_INTERVAL =>
      if periodic && bool_decide (scan_state cfg = SCAN_STATE_IDLE) then scan_start_internal;; ret tt else ret tt
  | MY_MSG_SCAN_LENGTH =>
      scan_stop_internal;;
      tag_table_flush_to_flash;;
      tran_mac_table_flush_to_flash
  | MY_MSG_SCAN_UPLOAD =>
      any <- anything_to_upload;;
      if (sc_mode cfg =? SCAN_MODE_PERIOD_UPLOAD) && any && negb (bool_decide (scan_state cfg = SCAN_STATE_WAITING_UPLOAD))
      then scan_trigger_upload else ret tt
  | MY_MSG_UPLOAD_WAKEUP =>
      any <- anything_to_upload;;
      (if periodic && any then
         (if decide (scan_state cfg = SCAN_STATE_SCANNING) then scan_stop_internal;; ret tt else ret tt);;
         c <- get s_scan_config;;
         if decide (scan_state c = SCAN_STATE_WAITING_UPLOAD) then ret tt else tag_mac_scan_upload_data
       else ret tt);;
      sensor_cached_upload_try_start
  | MY_MSG_BLE_SENSOR_TH_SAMPLE => r <- ask g_temp_humi_sample;; sensor_process_temp_humi_sample r
  | MY_MSG_BLE_SENSOR_BP_SAMPLE => r <- ask g_barometer_sample;; sensor_process_barometer_sample r
  | MY_MSG_BLE_SENSOR_LTE_ACK => r <- ask s_sensor_ble_rsp;; sensor_handle_lte_ack r
  end.

(** [open_ret], [ready] and [register_ret] are the results of the drivers. *)
Definition my_scan_init (open_ret : Z) (ready : bool) (register_ret : Z) : scanner Z :=
  world (fun st => (fst (my_flash_store_init st open_ret ready), tt));;
  prefixes <- checked tag_prefix_table_init;;
  modify (fun s => set_trans (clear TRAN_MAC_MAX_NUM) (set_cache_seq 0 (set_cache no_cache
    (set_results (clear TAG_RESULT_MAX_NUM) (set_prefixes prefixes s)))));;
  if negb (register_ret =? 0) then ret register_ret else
  c <- ask scan_settings;;
  let b := bt_updata_config c in
  my_scan_set_config (bt_updata_mode b) (bt_updata_scan_interval b) (bt_updata_scan_length b) (bt_updata_updata_interval b);;
  ret 0.
End scanner.
