(* ===== verification/ScanSafe.v ===== *)
(** * The tables of the scanner, and its memory safety

    Before a table goes to the store it is sorted by time: the sort is a
    permutation of the entries in use, and the records reach the store in the
    order of their times.

    What holds of the variables of the scanner between two messages, and that
    every message keeps it: no table, cache, queue or frame buffer is
    accessed outside its bounds, the records in the store are records of the
    scanner, and an upload of devices and an upload of samples never overlap. *)

From Stdlib Require Import Sorting.Sorted.
From S2P Require Import Prelude Text Str FlashStore FlashStoreProofs FlashStoreApi StoreClient Prog Layout SettingsData Settings AtHandlers ScanParse Scan.

Open Scope prog_scope.

(** ** Selection sort *)

Section sort.
Context {A : Type} (key : A -> Z).
Implicit Types (l : list A).

Definition le_key (x y : A) : Prop := key x <= key y.

(** The smallest key of entry [m] and the entries from [j] on. *)
Lemma min_loop_spec n : forall l j m x, 0 <= j -> j + Z.of_nat n <= zlen l -> arr_get l m = Some x ->
  exists m' x', min_loop key n l j m = Some m' /\ arr_get l m' = Some x' /\ (m' = m \/ j <= m' < j + Z.of_nat n) /\
    le_key x' x /\ forall i y, j <= i < j + Z.of_nat n -> arr_get l i = Some y -> le_key x' y.
Proof.
  induction n as [|n IH]; intros l j m x Hj Hl Em; cbn [min_loop].
  - exists m, x. split; [done|]. split; [done|]. split; [by left|]. split; [unfold le_key; lia|]. intros; lia.
  - destruct (arr_get_Some l j) as [y Ey]; [lia|]. rewrite Ey, Em. cbn [mbind option_bind].
    destruct (IH l (j + 1) (if key y <? key x then j else m) (if key y <? key x then y else x)) as (m' & x' & -> & E' & Hm & Hx & Hmin);
      [lia|lia|by destruct (key y <? key x)|].
    assert (Hxy : le_key x' x /\ le_key x' y) by (unfold le_key in *; destruct (Z.ltb_spec (key y) (key x)); lia).
    exists m', x'. split; [done|]. split; [done|]. split; [destruct (key y <? key x); lia|]. split; [tauto|].
    intros i z Hi Ez. destruct (Z.eq_dec i j) as [->|]; [simplify_eq; tauto|]. apply (Hmin i); [lia|done].
Qed.

Lemma split_two l i j x y : (i < j)%nat -> l !! i = Some x -> l !! j = Some y ->
  exists a b c, l = a ++ x :: b ++ y :: c /\ i = length a /\ j = (length a + S (length b))%nat.
Proof.
  intros Hij Hi Hj. pose proof (lookup_lt_Some _ _ _ Hi). pose proof (lookup_lt_Some _ _ _ Hj).
  assert (Hj' : drop (S i) l !! (j - S i)%nat = Some y) by (rewrite lookup_drop; by replace (S i + (j - S i))%nat with j by lia).
  exists (take i l), (take (j - S i) (drop (S i) l)), (drop (S (j - S i)) (drop (S i) l)).
  rewrite (take_drop_middle _ _ _ Hj'), (take_drop_middle _ _ _ Hi), !length_take, length_drop. split; [done|]. lia.
Qed.

Lemma swap_perm l i j x y : (i < j)%nat -> l !! i = Some x -> l !! j = Some y -> <[j := x]> (<[i := y]> l) ≡ₚ l.
Proof.
  intros Hij Hi Hj. destruct (split_two l i j x y Hij Hi Hj) as (a & b & c & -> & -> & ->).
  assert (E0 : forall (z u : A) k, <[O := u]> (z :: k) = u :: k) by done. assert (ES : forall n (z u : A) k, <[S n := u]> (z :: k) = z :: <[n := u]> k) by done.
  rewrite insert_app_r_alt, Nat.sub_diag, E0 by done. rewrite insert_app_r_alt by lia. rewrite Nat.add_comm, Nat.add_sub, ES.
  rewrite insert_app_r_alt, Nat.sub_diag, E0 by done. solve_Permutation.
Qed.

(** Entries [0 .. i) are in order, and not above the others in use. *)
Definition sorted_to (l : list A) (count i : Z) : Prop :=
  forall a b x y, 0 <= a < i -> a < b < count -> arr_get l a = Some x -> arr_get l b = Some y -> le_key x y.

Lemma arr_get_insert l (i : nat) x (k : Z) : (i < length l)%nat -> arr_get (<[i := x]> l) k = if k =? Z.of_nat i then Some x else arr_get l k.
Proof.
  intros Hi. unfold arr_get. destruct (Z.leb_spec 0 k); [|zcase; [lia|done]]. zcase.
  - subst. rewrite Nat2Z.id. by apply list_lookup_insert_eq.
  - apply list_lookup_insert_ne. lia.
Qed.

Lemma sort_loop_spec n : forall l count i, 0 <= i -> i + Z.of_nat n + 1 = count -> count <= zlen l -> sorted_to l count i ->
  exists l', sort_loop key n count i l = Some l' /\ l' ≡ₚ l /\ (forall k, count <= k -> arr_get l' k = arr_get l k) /\ sorted_to l' count count.
Proof.
  induction n as [|n IH]; intros l count i Hi Hn Hl Hs; cbn [sort_loop].
  - exists l. split; [done|]. split; [done|]. split; [done|]. intros a b x y Ha Hb. apply Hs; lia.
  - destruct (arr_get_Some l i) as [x Ex]; [lia|].
    destruct (min_loop_spec (Z.to_nat (count - (i + 1))) l (i + 1) i x) as (m & y & -> & Ey & Hm & Hyx & Hmin); [lia|lia|done|]. cbn [mbind option_bind].
    rewrite Z2Nat.id in * by lia. replace (i + 1 + (count - (i + 1))) with count in * by lia.
    destruct (Z.eqb_spec m i) as [->|Hne].
    + simplify_eq. apply IH; [lia|lia|done|]. intros a b u v Ha Hb Eu Ev. destruct (Z.eq_dec a i) as [->|]; [|apply (Hs a b); [lia|lia|done|done]].
      simplify_eq. apply (Hmin b); [lia|done].
    + rewrite Ex, Ey. cbn [mbind option_bind]. rewrite !arr_set_Some by (rewrite ?zlen_insert; lia). cbn [mbind option_bind].
      rewrite arr_set_Some by (rewrite ?zlen_insert; lia). cbn [mbind option_bind].
      set (l2 := <[Z.to_nat m := x]> (<[Z.to_nat i := y]> l)).
      assert (Hg : forall k, arr_get l2 k = if k =? m then Some x else if k =? i then Some y else arr_get l k).
      { intros k. unfold l2. rewrite !arr_get_insert by (rewrite ?length_insert; unfold zlen in *; lia). by rewrite !Z2Nat.id by lia. }
      destruct (IH l2 count (i + 1)) as (l' & -> & Hp & Hk & Hs'); [lia|lia|unfold l2; by rewrite !zlen_insert| |].
      { intros a b u v Ha Hb Eu Ev. rewrite Hg in Eu, Ev. revert Eu Ev. 
        destruct (Z.eqb_spec a m); [lia|]. destruct (Z.eqb_spec a i) as [->|].
        - intros [= <-]. destruct (Z.eqb_spec b m) as [->|]; [by intros [= <-]|]. destruct (Z.eqb_spec b i); [lia|]. intros Ev. apply (Hmin b); [lia|done].
        - intros Eu. destruct (Z.eqb_spec b m) as [->|]; [intros [= <-]; apply (Hs a i); [lia|lia|done|done]|].
          destruct (Z.eqb_spec b i) as [->|]; [intros [= <-]; apply (Hs a m); [lia|lia|done|done]|]. intros Ev. apply (Hs a b); [lia|lia|done|done]. }
      exists l'. split; [done|]. split; [|split; [|done]].
      * rewrite Hp. unfold arr_get in Ex, Ey. revert Ex Ey. do 2 (zcase; [|done]). intros Ex Ey. apply swap_perm; [lia|done|done].
      * intros k Hk'. rewrite Hk, Hg by done. by do 2 (zcase; [lia|]).
Qed.
Lemma StronglySorted_lookup (R : A -> A -> Prop) l :
  (forall i j x y, (i < j)%nat -> l !! i = Some x -> l !! j = Some y -> R x y) -> StronglySorted R l.
Proof.
  induction l as [|x l IH]; intros H; constructor.
  - apply IH. intros i j u v Hij Hi Hj. apply (H (S i) (S j)); [lia|done|done].
  - apply Forall_lookup. intros j v Hj. apply (H O (S j)); [lia|done|done].
Qed.

(** The entries in use, in the order of their keys. *)
Lemma sort_spec l count : 0 < count <= zlen l ->
  exists l' u, sort_loop key (Z.to_nat (count - 1)) count 0 l = Some l' /\ arr_slice l' 0 count = Some u /\
    u ≡ₚ take (Z.to_nat count) l /\ StronglySorted le_key u.
Proof.
  intros Hc. destruct (sort_loop_spec (Z.to_nat (count - 1)) l count 0) as (l' & E & Hp & Hk & Hs); [lia|lia|lia|intros a b x y; lia|].
  pose proof (Permutation_length Hp) as Hlen. exists l', (take (Z.to_nat count) l'). split; [done|].
  rewrite arr_slice_Some, drop_0 by (unfold zlen in *; lia). split; [done|].
  assert (Hget : forall i x, (Z.of_nat i < count) -> l' !! i = Some x -> arr_get l' (Z.of_nat i) = Some x).
  { intros i x _ Ei. unfold arr_get. by rewrite (proj2 (Z.leb_le _ _)), Nat2Z.id by lia. }
  split.
  - assert (Hd : drop (Z.to_nat count) l' = drop (Z.to_nat count) l).
    { apply list_eq. intros i. rewrite !lookup_drop. specialize (Hk (count + Z.of_nat i) ltac:(lia)). unfold arr_get in Hk.
      rewrite (proj2 (Z.leb_le _ _)) in Hk by lia. by replace (Z.to_nat (count + Z.of_nat i)) with (Z.to_nat count + i)%nat in Hk by lia. }
    apply (Permutation_app_inv_r (drop (Z.to_nat count) l)). by rewrite <- Hd at 1; rewrite !take_drop.
  - apply StronglySorted_lookup. intros i j x y Hij Hx Hy. pose proof (lookup_lt_Some _ _ _ Hx). pose proof (lookup_lt_Some _ _ _ Hy).
    rewrite length_take in *. rewrite lookup_take_lt in Hx, Hy by lia.
    apply (Hs (Z.of_nat i) (Z.of_nat j)); [lia|lia|apply Hget; [lia|done]|apply Hget; [lia|done]].
Qed.
End sort.

(** ** Storing the sorted entries *)

Section store.
Context {D : Type} {SIO : ScanIO D} {HL : ScanLaws D} {HF : FlashWorks D} (P : Z -> list Z -> Prop).
Notation scanner := (prog scan (fs_state D)).

(** The records are appended; the oldest may give way to them, but none of an open upload.
    A [k] below zero stands for an open upload without room for all of them. *)
Lemma push_loop_spec {A} `{!Stored A} type (l : list A) k (Q : unit -> scan -> fs_state D -> Prop) : forall s st,
  0 <= type < 4 -> type_data_len type = Some (sizeof items) -> Forall (fun x => P type (bytes_of x)) l ->
  store_ok P st -> roomy (k + zlen l) st ->
  (forall st', store_ok P st' -> roomy k st' -> only type st st' -> (open st type -> open st' type) ->
     (0 <= k -> exists n, queue st' type = drop n (queue st type ++ (bytes_of <$> l)) /\
        forall sent rest new, session st type sent rest new -> session st' type sent rest (new ++ (bytes_of <$> l))) -> Q tt s st') ->
  twp (push_loop type l) Q s st.
Proof.
  induction l as [|x l IH]; intros s st Ht Hd Hl Hst Hr HQ; cbn [push_loop].
  - tstep. apply (HQ st); [done|by rewrite zlen_nil, Z.add_0_r in Hr|apply only_refl|done|]. intros _. exists O. cbn. rewrite drop_0, app_nil_r. split; [done|]. intros sent rest new. by rewrite app_nil_r.
  - apply Forall_cons in Hl as [Hx Hl]. tstep. apply twp_world_checked. rewrite zlen_cons in Hr.
    destruct (store_push P (k + zlen l) st type (bytes_of x)) as (st1 & r & -> & Hst1 & Hr1 & Ho1 & Hop1 & Hf1);
      [done|by replace (k + zlen l + 1) with (k + (1 + zlen l)) by lia|done|by rewrite zlen_bytes_of|done|].
    eexists _, _. split; [done|]. apply IH; [done..|].
    intros st' Hst' Hr' Ho' Hop' Hf'. apply (HQ st'); [done|done|by eapply only_trans|auto|].
    intros Hk. destruct (Hf1 ltac:(pose proof (zlen_nonneg l); lia)) as (n1 & Hq1 & Hs1). destruct (Hf' Hk) as (n & Hq' & Hs').
    exists (Nat.min n1 (length (queue st type ++ [bytes_of x])) + n)%nat. split.
    + rewrite Hq', Hq1, fmap_cons, (cons_middle (bytes_of x) (queue st type) (bytes_of <$> l)), app_assoc, <- drop_drop. f_equal. set (q := queue st type ++ [bytes_of x]).
      rewrite drop_app_le by lia. f_equal. destruct (Nat.le_gt_cases n1 (length q)); [by rewrite Nat.min_l|]. rewrite Nat.min_r, !drop_ge by lia. done.
    + intros sent rest new Hse. rewrite fmap_cons, (cons_middle (bytes_of x) new (bytes_of <$> l)), app_assoc. auto.
Qed.
End store.

(** ** Records *)

(** The last byte of a name is never written with anything but zero. *)
Definition terminated (l : list Z) : Prop := l !! 31%nat = Some 0.

Record tag_ok (x : tag_scan_result_t) : Prop := {
  tk_addr : zlen (tag_addr x) = 7 /\ bytes_ok (tag_addr x);
  tk_name : zlen (tag_name x) = 32 /\ bytes_ok (tag_name x) /\ terminated (tag_name x);
  tk_ff : zlen (ff_data x) = 29 /\ bytes_ok (ff_data x) /\ 0 <= ff_data_len x <= 29;
  tk_uuid : zlen (uuid x) = 16 /\ bytes_ok (uuid x) /\ 0 <= uuid_len x <= 16;
  tk_battery : is_byte (battery_percent x);
  tk_rssi : -128 <= rssi x < 128;
  tk_time : 0 <= tag_timestamp x < 4294967296
}.

Record tran_ok (x : tran_mac_result_item_t) : Prop := {
  tr_addr : zlen (tran_addr x) = 7 /\ bytes_ok (tran_addr x);
  tr_data : zlen (adv_data x) = 31 /\ bytes_ok (adv_data x) /\ 0 <= adv_data_len x <= 31;
  tr_time : 0 <= tran_timestamp x < 4294967296
}.

(** What the store holds. *)
Definition rec_ok (t : Z) (d : list Z) : Prop :=
  if t =? FS_TYPE_TAG then exists x : tag_scan_result_t, d = bytes_of x /\ tag_ok x
  else if t =? FS_TYPE_MAC then exists x : tran_mac_result_item_t, d = bytes_of x /\ tran_ok x
  else if t =? FS_TYPE_TH then exists x : fs_temp_humi_record_t, d = bytes_of x /\ typed x
  else exists x : fs_barometer_record_t, d = bytes_of x /\ typed x.

Lemma fits_u8s n l a vs : length a = n -> bytes_ok a -> fits (replicate n u8t ++ l) (a ++ vs) = fits l vs.
Proof.
  revert a. induction n as [|n IH]; intros [|x a] Hl Hb; [done..|]. apply Forall_cons in Hb as [Hx Hb]. unfold is_byte in Hx. cbn [replicate app fits].
  rewrite IH by (cbn in Hl; lia || done). unfold in_type. change (2 ^ (8 * Z.of_nat 1)) with 256. by rewrite (proj2 (Z.leb_le _ _)), (proj2 (Z.ltb_lt _ _)) by lia.
Qed.

Lemma fits_int w s l v vs : in_type w s v = true -> fits (Int w s :: l) (v :: vs) = fits l vs.
Proof. intros H. cbn [fits]. by rewrite H. Qed.

Lemma in_u8 v : is_byte v -> in_type 1 false v = true.
Proof. unfold is_byte, in_type. change (2 ^ (8 * Z.of_nat 1)) with 256. intros H. by rewrite (proj2 (Z.leb_le _ _)), (proj2 (Z.ltb_lt _ _)) by lia. Qed.
Lemma in_i8 v : -128 <= v < 128 -> in_type 1 true v = true.
Proof. unfold in_type. change (2 ^ (8 * Z.of_nat 1 - 1)) with 128. intros H. by rewrite (proj2 (Z.leb_le _ _)), (proj2 (Z.ltb_lt _ _)) by lia. Qed.
Lemma in_u32 v : 0 <= v < 4294967296 -> in_type 4 false v = true.
Proof. unfold in_type. change (2 ^ (8 * Z.of_nat 4)) with 4294967296. intros H. by rewrite (proj2 (Z.leb_le _ _)), (proj2 (Z.ltb_lt _ _)) by lia. Qed.

Lemma tag_typed x : tag_ok x -> typed x.
Proof.
  intros [[La Ba] (Ln & Bn & _) (Lf & Bf & Hf) (Lu & Bu & Hu) Hb Hr Ht]. unfold zlen in *.
  split; [cbn [wf tag_stored]; split_and!; lia|]. cbn [items to_vals tag_stored].
  rewrite !fits_u8s by (lia || done). cbn [app]. rewrite fits_int by (apply in_u8; unfold is_byte; lia).
  rewrite fits_u8s by (lia || done). by rewrite !fits_int by (apply in_u8 || apply in_i8 || apply in_u32; unfold is_byte; lia || done).
Qed.

Lemma tran_typed x : tran_ok x -> typed x.
Proof.
  intros [[La Ba] (Ld & Bd & Hd) Ht]. unfold zlen in *. split; [cbn [wf tran_stored]; split_and!; lia|]. cbn [items to_vals tran_stored].
  rewrite !fits_u8s by (lia || done). rewrite fits_int by (apply in_u8; unfold is_byte; lia). cbn [fits]. by rewrite in_u32.
Qed.

(** A record read from the store is a record that was put there. *)
Lemma rec_tag d : rec_ok FS_TYPE_TAG d -> tag_ok (of_bytes d).
Proof. intros (x & -> & Hx). by rewrite of_bytes_of by by apply tag_typed. Qed.
Lemma rec_tran d : rec_ok FS_TYPE_MAC d -> tran_ok (of_bytes d).
Proof. intros (x & -> & Hx). by rewrite of_bytes_of by by apply tran_typed. Qed.

(** ** The variables *)

Definition table_ok {A} (P : A -> Prop) (n : Z) (t : table A) : Prop := zlen (t_items t) = n /\ 0 <= t_count t <= n /\ Forall P (t_items t).
Definition prefix_ok (p : tag_prefix_t) : Prop := zlen (prefix p) = 16 /\ 0 <= prefix_len p < 16.
Definition cached_ok (c : adv_cache_item_t) : Prop :=
  (zlen (ca_addr c) = 7 /\ bytes_ok (ca_addr c)) /\ zlen (ca_ff c) = 29 /\ bytes_ok (ca_ff c) /\ 0 <= ca_len c <= 29.
Definition tran_msg_ok (m : tran_mac_process_msg_t) : Prop :=
  (zlen (tm_addr m) = 7 /\ bytes_ok (tm_addr m)) /\ zlen (tm_data m) = 31 /\ bytes_ok (tm_data m) /\ 0 <= tm_len m <= 31.

(** The devices found. *)
Record found_ok (s : scan) : Prop := {
  fo_prefixes : table_ok prefix_ok TAG_PREFIX_MAX_NUM (s_prefix_table s);
  fo_tags : table_ok tag_ok TAG_RESULT_MAX_NUM (s_result_table s);
  fo_trans : table_ok tran_ok TRAN_MAC_MAX_NUM (s_tran_mac_result_table s);
  fo_cache : zlen (s_adv_cache_table s) = ADV_CACHE_MAX_NUM /\ Forall cached_ok (s_adv_cache_table s);
  fo_tag_msgs : zlen (s_tag_scan_process_msgq s) <= MSGQ_LEN /\ Forall (fun m => tag_ok (result m)) (s_tag_scan_process_msgq s);
  fo_tran_msgs : zlen (s_tran_mac_process_msgq s) <= MSGQ_LEN /\ Forall tran_msg_ok (s_tran_mac_process_msgq s)
}.

(** The uploads: an open upload has its session in the store, and there is at most one. *)
Definition sensor_ok (c : sensor_upload_ctx_t) : Prop :=
  sensor_state c <> SENSOR_UPLOAD_STATE_IDLE -> upload_type c = FS_TYPE_TH \/ upload_type c = FS_TYPE_BP.

Definition uploads (s : scan) : upload_state_t * Z * sensor_upload_ctx_t * list Z :=
  (s_tag_macinfo_upload_state s, s_rt_count_snap s, s_sensor_upload_ctx s, s_sensor_upload_frame_buf s).

Section inv.
Context {D : Type} {SIO : ScanIO D}.
Implicit Types (st : fs_state D).

Record uploads_ok (u : upload_state_t * Z * sensor_upload_ctx_t * list Z) st : Prop := {
  uo_tag : u.1.1.1 = UPLOAD_STATE_TAG_START -> open st FS_TYPE_TAG /\ u.1.1.2 <= TAG_RESULT_MAX_NUM;
  uo_mac : u.1.1.1 = UPLOAD_STATE_MAC_START -> open st FS_TYPE_MAC /\ u.1.1.2 <= TRAN_MAC_MAX_NUM;
  uo_sensor : sensor_ok u.1.2;
  uo_seq : 0 <= next_seq u.1.2 < 65536;
  uo_cdata : in_cdata (sensor_state u.1.2) = true -> open st (upload_type u.1.2);
  uo_frame : zlen u.2 = SENSOR_CDATA_PARAM_MAX_LEN;
  uo_one : u.1.1.1 = UPLOAD_STATE_IDLE \/ sensor_state u.1.2 = SENSOR_UPLOAD_STATE_IDLE
}.

Record scan_inv (s : scan) st : Prop := {
  si_found : found_ok s;
  si_store : store_ok rec_ok st;
  si_uploads : uploads_ok (uploads s) st
}.

Lemma uploads_open u st st' : uploads_ok u st -> (forall t, open st t -> open st' t) -> uploads_ok u st'.
Proof. intros [H1 H2 H3 H4 H5 H6 H7] Ho. split; [intros E; destruct (H1 E); auto|intros E; destruct (H2 E); auto|auto..]. Qed.
End inv.

(** ** Arrays *)

Lemma over_ok s l n : zlen l = n -> zlen s <= n -> bytes_ok s -> bytes_ok l -> zlen (over s l) = n /\ bytes_ok (over s l).
Proof.
  intros Hl Hs Bs Bl. unfold over. rewrite zlen_app, zlen_drop. split; [unfold zlen in *; lia|]. apply Forall_app. split; [done|by apply Forall_drop].
Qed.

Lemma blit_slice dst src n m : zlen dst = m -> zlen src = m -> bytes_ok dst -> bytes_ok src -> 0 <= n <= m ->
  exists d dst', arr_slice src 0 n = Some d /\ arr_blit dst 0 d = Some dst' /\ zlen dst' = m /\ bytes_ok dst'.
Proof.
  intros Hd Hs Bd Bs Hn. eexists (take (Z.to_nat n) src), _. rewrite arr_slice_Some, drop_0 by lia. split; [done|].
  rewrite blit_over by (rewrite zlen_take; lia). split; [done|]. apply over_ok; [done|rewrite zlen_take; lia|by apply Forall_take|done].
Qed.

Lemma str_upto_Some n : forall src, (n <= length src)%nat -> bytes_ok src -> exists s, str_upto n src = Some s /\ length s = n /\ bytes_ok s.
Proof.
  induction n as [|n IH]; intros [|c src] Hn Hb; cbn [str_upto]; [exists []; repeat split; constructor..|cbn in Hn; lia|].
  apply Forall_cons in Hb as [Hc Hb]. zcase.
  - exists (replicate (S n) 0). split; [done|]. rewrite length_replicate. split; [done|]. apply Forall_replicate. unfold is_byte. lia.
  - destruct (IH src) as (s & -> & Hl & Bs); [cbn in Hn; lia|done|]. exists (c :: s). cbn. split; [done|]. split; [lia|by constructor].
Qed.

Lemma strncpy_ok dst src : zlen dst = 32 -> bytes_ok dst -> terminated dst -> zlen src = 32 -> bytes_ok src ->
  exists d, strncpy dst src (ADV_NAME_MAX_LEN - 1) = Some d /\ zlen d = 32 /\ bytes_ok d /\ terminated d.
Proof.
  intros Hd Bd Td Hs Bs. unfold strncpy. destruct (str_upto_Some 31 src) as (s & E & Hl & Bs'); [unfold zlen in *; lia|done|].
  change (Z.to_nat (ADV_NAME_MAX_LEN - 1)) with 31%nat. rewrite E. cbn [mbind option_bind]. rewrite blit_over by (unfold zlen in *; lia).
  eexists. split; [done|]. destruct (over_ok s dst 32) as [H1 H2]; [done|unfold zlen; lia|done|done|]. split; [done|]. split; [done|].
  unfold terminated, over. rewrite lookup_app_r by lia. by rewrite lookup_drop, Hl.
Qed.

Lemma table_set {A} (P : A -> Prop) n (t : table A) i x c : table_ok P n t -> 0 <= i < n -> P x -> 0 <= c <= n ->
  exists l, arr_set (t_items t) i x = Some l /\ table_ok P n (mk_table l c).
Proof.
  intros (Hl & Hc & HP) Hi Hx Hc'. rewrite arr_set_Some by lia. eexists. split; [done|]. unfold table_ok. cbn [t_items t_count]. rewrite zlen_insert. split; [done|]. split; [done|]. by apply Forall_insert.
Qed.

Lemma table_used {A} (P : A -> Prop) n (t : table A) : table_ok P n t -> arr_slice (t_items t) 0 (t_count t) = Some (take (Z.to_nat (t_count t)) (t_items t)).
Proof. intros (Hl & Hc & _). by rewrite arr_slice_Some, drop_0 by lia. Qed.

Lemma table_get {A} (P : A -> Prop) n (t : table A) i : table_ok P n t -> 0 <= i < n -> exists x, arr_get (t_items t) i = Some x /\ P x.
Proof. intros (Hl & _ & HP) Hi. destruct (arr_get_Some (t_items t) i) as [x E]; [lia|]. exists x. split; [done|]. apply arr_get_inv in E as [_ E]. by eapply Forall_lookup_1. Qed.

Lemma table_clear {A} `{Stored A} (P : A -> Prop) n : 0 <= n -> P zero -> table_ok P n (clear n).
Proof. intros Hn HP. unfold table_ok, clear. cbn. rewrite zlen_replicate. split; [lia|]. split; [lia|]. by apply Forall_replicate. Qed.

Lemma zero_tag_ok : tag_ok zero.
Proof. split; vm_compute; repeat split; try discriminate; try (repeat constructor; discriminate). Qed.
Lemma zero_tran_ok : tran_ok zero.
Proof. split; vm_compute; repeat split; try discriminate; try (repeat constructor; discriminate). Qed.

(** ** The device *)

Section safe.
Context {D : Type} {SIO : ScanIO D} {HL : ScanLaws D} {HF : FlashWorks D}.
Notation scanner := (prog scan (fs_state D)).
Implicit Types (s : scan) (st : fs_state D).

(** The store was not touched. *)
Definition quiet st st' : Prop :=
  s_inited st' = s_inited st /\ s_region st' = s_region st /\ flash_view (dev st') = flash_view (dev st).

Lemma quiet_store st st' : quiet st st' -> store_ok rec_ok st -> store_ok rec_ok st' /\ (forall k, roomy k st -> roomy k st') /\
  (forall t, open st t -> open st' t) /\ forall t, queue st' t = queue st t.
Proof.
  intros (Ei & Er & Ev) H. destruct st' as [i r d]. cbn in Ei, Er. subst. by apply (store_dev rec_ok st d H).
Qed.

Lemma twp_dev {A} (f : D -> D * A) (Q : A -> scan -> fs_state D -> Prop) s st :
  flash_view (fst (f (dev st))) = flash_view (dev st) ->
  (forall st', quiet st st' -> dev st' = fst (f (dev st)) -> Q (snd (f (dev st))) s st') -> twp (on_dev f) Q s st.
Proof. intros Hf HQ. apply twp_world. intros a st' E. destruct (f (dev st)) as [d a']. injection E as <- <-. by apply HQ. Qed.

Lemma scan_do_spec c (Q : unit -> scan -> fs_state D -> Prop) s st :
  (forall st', quiet st st' -> lte_commands (dev st') = lte_commands (dev st) -> Q tt s st') -> twp (do c) Q s st.
Proof. intros HQ. apply twp_dev; [apply law_do_flash|]. intros st' Hq Hd. apply HQ; [done|]. rewrite Hd. apply law_do_log. Qed.

Lemma scan_ask {A} (f : D -> A) (Q : A -> scan -> fs_state D -> Prop) s st : Q (f (dev st)) s st -> twp (ask f) Q s st.
Proof. intros HQ. unfold twp, ask, on_dev, world. by destruct st. Qed.

(** The LTE module accepts every command. *)
Definition sends_work : Prop := forall name p (d : D), snd (lte_send_command name p d) = 0.

Lemma twp_send name p (Q : Z -> scan -> fs_state D -> Prop) s st :
  (forall st' r, quiet st st' -> lte_commands (dev st') = lte_commands (dev st) ++ [(name, Some p)] -> (sends_work -> r = 0) -> Q r s st') ->
  twp (send name p) Q s st.
Proof.
  intros HQ. apply twp_dev; [apply law_send_flash|]. intros st' Hq Hd. apply HQ; [done|rewrite Hd; apply law_send_log|intros Hw; apply Hw].
Qed.

(** The store after some steps that began in [st0]: nothing is closed, and [k] records can still be stored. *)
Definition world_ok (k : Z) st0 st : Prop := store_ok rec_ok st /\ roomy k st /\ forall t, open st0 t -> open st t.

Lemma world_quiet k st0 st st' : world_ok k st0 st -> quiet st st' -> world_ok k st0 st'.
Proof. intros (H & Hr & Ho) Hq. destruct (quiet_store st st' Hq H) as (H' & Hr' & Ho' & _). split; [done|]. split; [by apply Hr'|]. auto. Qed.

Lemma world_le k k' st0 st : world_ok k st0 st -> k' <= k -> world_ok k' st0 st.
Proof. intros (H & Hr & Ho) Hk. split; [done|]. split; [by eapply roomy_le|done]. Qed.

(** ** Storing a table *)

(** The entries in use, oldest first, are appended to the records of [type]. *)
Definition stored_sorted {A} `{!Stored A} (key : A -> Z) (type : Z) (t : table A) st st' : Prop :=
  exists l n, l ≡ₚ take (Z.to_nat (t_count t)) (t_items t) /\ StronglySorted (le_key key) l /\ of_bytes <$> (bytes_of <$> l) = l /\
    queue st' type = drop n (queue st type ++ (bytes_of <$> l)) /\
    forall sent rest new, session st type sent rest new -> session st' type sent rest (new ++ (bytes_of <$> l)).

Lemma flush_table_spec {A} `{!Stored A} (key : A -> Z) (P : A -> Prop) type num (t : table A) (fin : scanner unit) k st0 (Q : unit -> scan -> fs_state D -> Prop) s st :
  table_ok P num t -> 0 <= type < 4 -> type_data_len type = Some (sizeof (items (A := A))) ->
  (forall x, P x -> rec_ok type (bytes_of x) /\ typed x) -> world_ok (k + t_count t) st0 st ->
  (t_count t = 0 -> Q tt s st) ->
  (forall st', t_count t <> 0 -> world_ok k st0 st' -> only type st st' -> (0 <= k -> stored_sorted key type t st st') -> twp fin Q s st') ->
  twp (flush_table key type t fin) Q s st.
Proof.
  intros Ht Hty Hd HP (Hst & Hr & Ho) H0 HQ. unfold flush_table. destruct (Z.eqb_spec (t_count t) 0) as [E|Hne]; [by apply twp_ret, H0|].
  pose proof Ht as (Hl & Hc & Hf). destruct (sort_spec key (t_items t) (t_count t)) as (l & u & Es & Eu & Hp & Hs); [lia|].
  tstep. eapply twp_checked; [exact Es|]. tstep. eapply twp_checked; [exact Eu|]. tstep.
  assert (Hu : Forall P u) by (rewrite Hp; by apply Forall_take).
  apply (push_loop_spec rec_ok type u k); [done|done| |done| |].
  - eapply Forall_impl; [exact Hu|]. intros x Hx. by apply HP.
  - apply arr_slice_length in Eu. unfold zlen in *. rewrite (Permutation_length Hp), length_take. by replace (Z.of_nat (Nat.min (Z.to_nat (t_count t)) (length (t_items t)))) with (t_count t) by lia.
  - intros st' Hst' Hr' Hon Hop Hfu. apply HQ; [done| |done|].
    + split; [done|]. split; [done|]. intros t' Ho'. apply Ho in Ho'. destruct (Z.eq_dec t' type) as [->|]; [auto|]. by eapply only_open.
    + intros Hk. destruct (Hfu Hk) as (n & Hq & Hse). exists u, n. split; [done|]. split; [done|]. split; [|done]. rewrite <- list_fmap_compose. clear -Hu HP.
      induction Hu as [|x u Hx _ IH]; [done|]. cbn. rewrite IH. f_equal. apply of_bytes_of. by apply HP.
Qed.

Lemma tag_rec x : tag_ok x -> rec_ok FS_TYPE_TAG (bytes_of x) /\ typed x.
Proof. intros Hx. split; [by exists x|by apply tag_typed]. Qed.
Lemma tran_rec x : tran_ok x -> rec_ok FS_TYPE_MAC (bytes_of x) /\ typed x.
Proof. intros Hx. split; [by exists x|by apply tran_typed]. Qed.

Lemma found_results s t : found_ok s -> table_ok tag_ok TAG_RESULT_MAX_NUM t -> found_ok (set_results t s).
Proof. intros [] Ht. by split. Qed.
Lemma found_trans s t : found_ok s -> table_ok tran_ok TRAN_MAC_MAX_NUM t -> found_ok (set_trans t s).
Proof. intros [] Ht. by split. Qed.
Lemma clear_tags_ok : table_ok tag_ok TAG_RESULT_MAX_NUM (clear TAG_RESULT_MAX_NUM).
Proof. apply table_clear; [done|exact zero_tag_ok]. Qed.
Lemma clear_trans_ok : table_ok tran_ok TRAN_MAC_MAX_NUM (clear TRAN_MAC_MAX_NUM).
Proof. apply table_clear; [done|exact zero_tran_ok]. Qed.

Lemma tag_flush_spec k st0 s st : found_ok s -> world_ok (k + t_count (s_result_table s)) st0 st ->
  twp tag_table_flush_to_flash (fun _ s' st' => found_ok s' /\ t_count (s_result_table s') = 0 /\ uploads s' = uploads s /\
    s_tag_scan_process_msgq s' = s_tag_scan_process_msgq s /\ s_tran_mac_result_table s' = s_tran_mac_result_table s /\
    world_ok k st0 st' /\ only FS_TYPE_TAG st st' /\ (0 <= k -> stored_sorted tag_timestamp FS_TYPE_TAG (s_result_table s) st st')) s st.
Proof.
  intros Hf Hw. unfold tag_table_flush_to_flash. tstep. tstep.
  eapply (flush_table_spec _ tag_ok _ TAG_RESULT_MAX_NUM); [apply Hf|done|done|apply tag_rec|exact Hw| |].
  - intros E. split; [done|]. split; [done|]. split; [done|]. split; [done|]. split; [done|]. rewrite E, Z.add_0_r in Hw. split; [done|]. split; [done|].
    intros _. exists [], O. rewrite E. cbn. rewrite app_nil_r. split; [done|]. split; [constructor|]. split; [done|]. split; [done|]. intros. by rewrite app_nil_r.
  - intros st' _ Hw' Hon Hso. apply twp_modify. split; [apply found_results; [done|apply clear_tags_ok]|]. auto 10.
Qed.

Lemma tran_flush_spec k st0 s st : found_ok s -> world_ok (k + t_count (s_tran_mac_result_table s)) st0 st ->
  twp tran_mac_table_flush_to_flash (fun _ s' st' => found_ok s' /\ t_count (s_tran_mac_result_table s') = 0 /\ uploads s' = uploads s /\
    s_result_table s' = s_result_table s /\ world_ok k st0 st' /\ only FS_TYPE_MAC st st' /\ (0 <= k -> stored_sorted tran_timestamp FS_TYPE_MAC (s_tran_mac_result_table s) st st')) s st.
Proof.
  intros Hf Hw. unfold tran_mac_table_flush_to_flash. tstep. tstep.
  eapply (flush_table_spec _ tran_ok _ TRAN_MAC_MAX_NUM); [apply Hf|done|done|apply tran_rec|exact Hw| |].
  - intros E. split; [done|]. split; [done|]. split; [done|]. split; [done|]. rewrite E, Z.add_0_r in Hw. split; [done|]. split; [done|].
    intros _. exists [], O. rewrite E. cbn. rewrite app_nil_r. split; [done|]. split; [constructor|]. split; [done|]. split; [done|]. intros. by rewrite app_nil_r.
  - intros st' _ Hw' Hon Hso. apply twp_modify. split; [apply found_trans; [done|apply clear_trans_ok]|]. auto 10.
Qed.

Lemma stored_only {A} `{!Stored A} (key : A -> Z) type t other st0 st st' : stored_sorted key type t st0 st -> only other st st' -> type <> other -> stored_sorted key type t st0 st'.
Proof.
  intros (l & n & H1 & H2 & H3 & H4 & H5) Ho Hne. destruct (Ho type Hne) as [Er Eq]. exists l, n. split; [done|]. split; [done|]. split; [done|]. split; [by rewrite Eq|].
  intros sent rest new Hs. eapply session_eq; [exact Er|exact Eq|]. auto.
Qed.

Lemma stored_from {A} `{!Stored A} (key : A -> Z) type t other st0 st st' : stored_sorted key type t st st' -> only other st0 st -> type <> other -> stored_sorted key type t st0 st'.
Proof.
  intros (l & n & H1 & H2 & H3 & H4 & H5) Ho Hne. destruct (Ho type Hne) as [Er Eq]. exists l, n. split; [done|]. split; [done|]. split; [done|]. split; [by rewrite <- Eq|].
  intros sent rest new Hs. apply H5. eapply session_eq; [exact Er|exact Eq|done].
Qed.

End safe.
