(* ===== verification/ScanFound.v ===== *)
(** * The devices the scanner finds

    Packets are checked and queued in the callback of the Bluetooth stack; the
    BLE thread merges the two packets of a tag and enters the device into its
    table.  Every step stays inside the arrays, and a full table is stored
    before the next device is entered. *)

From S2P Require Import Prelude Text Str FlashStore FlashStoreProofs FlashStoreApi StoreClient Prog Layout SettingsData Settings AtHandlers ScanParse Scan ScanSafe.

Open Scope prog_scope.

Lemma update_tag_ok x r now : tag_ok x -> tag_ok r -> 0 <= now < 4294967296 ->
  exists y, update_tag x r now = Some y /\ tag_ok y.
Proof.
  intros [Ha (Ln & Bn & Tn) (Lf & Bf & Hf) (Lu & Bu & Hu) _ _ _] [_ (Ln' & Bn' & Tn') (Lf' & Bf' & Hf') (Lu' & Bu' & Hu') Hb Hr _] Hnow.
  unfold update_tag. destruct (strncpy_ok (tag_name x) (tag_name r)) as (name & -> & Hname); [done..|]. cbn [mbind option_bind].
  assert (Hcopy : forall dst old src n m, zlen dst = m -> bytes_ok dst -> 0 <= old <= m -> zlen src = m -> bytes_ok src -> 0 <= n <= m ->
    exists d k, copy_if dst old src n = Some (d, k) /\ zlen d = m /\ bytes_ok d /\ 0 <= k <= m).
  { intros dst old src n m H1 H2 H3 H4 H5 H6. unfold copy_if. zcase; [|by exists dst, old].
    destruct (blit_slice dst src n m) as (d & dst' & -> & E & Hd1 & Hd2); [done..|]. cbn [mbind option_bind]. rewrite E. by exists dst', n. }
  destruct (Hcopy (ff_data x) (ff_data_len x) (ff_data r) (ff_data_len r) 29) as (ff & ffn & -> & Hff); [done..|]. cbn [mbind option_bind].
  destruct (Hcopy (uuid x) (uuid_len x) (uuid r) (uuid_len r) 16) as (u & un & -> & Hu2); [done..|]. cbn [mbind option_bind].
  eexists. split; [done|]. by split.
Qed.

Lemma stamp_ok r now : tag_ok r -> 0 <= now < 4294967296 -> tag_ok (stamp r now).
Proof. intros [] Hnow. by split. Qed.

(** The name compared with a prefix is longer than the prefix. *)
Lemma strncmp_eq_Some n : forall a b, (n <= length a)%nat -> (n <= length b)%nat -> exists r, strncmp_eq n a b = Some r.
Proof.
  induction n as [|n IH]; intros a b Ha Hb; cbn [strncmp_eq]; [by eexists|]. destruct a as [|x a], b as [|y b]; try (cbn in *; lia).
  destruct (negb (x =? y)); [by eexists|]. destruct (x =? 0); [by eexists|]. apply IH; cbn in *; lia.
Qed.

Lemma tag_name_match_Some t name len : table_ok prefix_ok TAG_PREFIX_MAX_NUM t -> zlen name = 32 -> exists r, tag_name_match t name len = Some r.
Proof.
  intros Ht Hn. unfold tag_name_match. zcase; [by eexists|]. rewrite (table_used _ _ _ Ht). cbn [mbind option_bind].
  assert (HP : Forall prefix_ok (take (Z.to_nat (t_count t)) (t_items t))) by apply Forall_take, Ht. revert HP.
  generalize (take (Z.to_nat (t_count t)) (t_items t)). induction 1 as [|p ps [Hp Hl] _ IH]; cbn [match_loop]; [by eexists|].
  destruct (negb (prefix_valid p)); [done|]. zcase; [|done].
  destruct (strncmp_eq_Some (Z.to_nat (prefix_len p)) name (prefix p)) as [r ->]; [unfold zlen in *; lia..|]. cbn [mbind option_bind]. destruct r; [by eexists|done].
Qed.

Lemma prefixes_init_ok : exists t, tag_prefix_table_init = Some t /\ table_ok prefix_ok TAG_PREFIX_MAX_NUM t.
Proof. eexists. split; [vm_compute; reflexivity|]. unfold table_ok, prefix_ok. vm_compute. split; [done|]. split; [by split|]. repeat constructor; done. Qed.

Lemma oldest_loop_range l : forall j m i, 0 <= i < j -> 0 <= oldest_loop l j m i < j + zlen l.
Proof.
  induction l as [|c l IH]; intros j m i Hi; cbn [oldest_loop]; [unfold zlen; cbn; lia|]. rewrite zlen_cons. pose proof (zlen_nonneg l).
  destruct (ca_seq c <? m).
  - specialize (IH (j + 1) (ca_seq c) j ltac:(lia)). lia.
  - specialize (IH (j + 1) m i ltac:(lia)). lia.
Qed.

Lemma cache_slot_range cache addr : cache <> [] -> exists i, cache_slot cache addr = Some i /\ 0 <= i < zlen cache.
Proof.
  intros Hne. unfold cache_slot. destruct (list_find _ cache) as [[i c]|] eqn:E1.
  - apply list_find_Some in E1 as [E1 _]. apply lookup_lt_Some in E1. exists (Z.of_nat i). unfold zlen. split; [done|lia].
  - clear E1. destruct (list_find _ cache) as [[i c]|] eqn:E2.
    + apply list_find_Some in E2 as [E2 _]. apply lookup_lt_Some in E2. exists (Z.of_nat i). unfold zlen. split; [done|lia].
    + destruct cache as [|c l]; [done|]. exists (oldest_loop l 1 (ca_seq c) 0). split; [reflexivity|]. rewrite zlen_cons. apply oldest_loop_range. lia.
Qed.

Section found.
Context {D : Type} {SIO : ScanIO D} {HL : ScanLaws D} {HF : FlashWorks D}.
Notation scanner := (prog scan (fs_state D)).
Implicit Types (s : scan) (st : fs_state D).

Lemma append_tag_spec k st0 s st r : found_ok s -> world_ok k st0 st -> t_count (s_result_table s) < TAG_RESULT_MAX_NUM -> tag_ok r ->
  twp (append_tag r) (fun _ s' st' => found_ok s' /\ t_count (s_result_table s') = t_count (s_result_table s) + 1 /\ uploads s' = uploads s /\
    s_tag_scan_process_msgq s' = s_tag_scan_process_msgq s /\ world_ok k st0 st') s st.
Proof.
  intros Hf Hw Hc Hr. unfold append_tag. tstep. tstep. tstep. apply scan_ask. pose proof (fo_tags _ Hf) as Ht. pose proof Ht as (_ & Hc' & _).
  destruct (table_set tag_ok TAG_RESULT_MAX_NUM (s_result_table s) (t_count (s_result_table s)) (stamp r (u32 (my_get_system_time_sec (dev st)))) (t_count (s_result_table s) + 1))
    as (l & E & Hl); [done|lia|apply stamp_ok; [done|apply u32_range]|unfold TAG_RESULT_MAX_NUM in *; lia|].
  tstep. eapply twp_checked; [exact E|]. apply twp_modify. rewrite u8_small by (unfold TAG_RESULT_MAX_NUM in *; lia).
  split; [by apply found_results|]. auto.
Qed.

(** With room for the entries of the table and one more, there is room for the entries afterwards. *)
Lemma tag_scan_result_save_spec k st0 s st r : found_ok s -> world_ok (k + t_count (s_result_table s) + 1) st0 st -> tag_ok r ->
  twp (tag_scan_result_save r) (fun _ s' st' => found_ok s' /\ uploads s' = uploads s /\ s_tag_scan_process_msgq s' = s_tag_scan_process_msgq s /\
    world_ok (k + t_count (s_result_table s')) st0 st') s st.
Proof.
  intros Hf Hw Hr. unfold tag_scan_result_save. tstep. tstep. pose proof (fo_tags _ Hf) as Ht. tstep. eapply twp_checked; [by eapply table_used|].
  destruct (list_find _ _) as [[i x]|] eqn:E.
  - apply list_find_Some in E as [E _]. pose proof (lookup_lt_Some _ _ _ E) as Hi. rewrite length_take in Hi. rewrite lookup_take_lt in E by lia.
    pose proof Ht as (Hl & Hc & HP). tstep. apply scan_ask.
    destruct (update_tag_ok x r (u32 (my_get_system_time_sec (dev st)))) as (y & Ey & Hy); [by eapply Forall_lookup_1|done|apply u32_range|].
    tstep. eapply twp_checked; [exact Ey|].
    destruct (table_set tag_ok TAG_RESULT_MAX_NUM (s_result_table s) (Z.of_nat i) y (t_count (s_result_table s))) as (l & El & Hl'); [done|lia|done|done|].
    tstep. eapply twp_checked; [exact El|]. apply twp_modify. split; [by apply found_results|]. split; [done|]. split; [done|]. eapply world_le; [done|]. cbn. lia.
  - destruct (Z.ltb_spec (t_count (s_result_table s)) TAG_RESULT_MAX_NUM).
    + eapply twp_mono; [by eapply append_tag_spec|]. cbn beta. intros _ s' st' (H1 & H2 & H3 & H4 & H5). rewrite H2. split; [done|]. split; [done|]. split; [done|].
      eapply world_le; [done|lia].
    + tstep. eapply twp_mono; [eapply (tag_flush_spec (k + 1)); [done|]|].
      { by replace (k + 1 + t_count (s_result_table s)) with (k + t_count (s_result_table s) + 1) by lia. }
      cbn beta. intros _ s1 st1 (Hf1 & Hc1 & Hu1 & Hm1 & _ & Hw1 & _).
      eapply twp_mono; [eapply (append_tag_spec (k + 1)); [done|done|rewrite Hc1; done|done]|].
      cbn beta. intros _ s' st' (H1 & H2 & H3 & H4 & H5). rewrite H2, Hc1. split; [done|]. split; [congruence|]. split; [congruence|]. done.
Qed.

Lemma cache_put_spec s st r : found_ok s -> tag_ok r ->
  twp (cache_put r) (fun _ s' st' => found_ok s' /\ uploads s' = uploads s /\ s_tag_scan_process_msgq s' = s_tag_scan_process_msgq s /\
    s_result_table s' = s_result_table s /\ st' = st) s st.
Proof.
  intros Hf Hr. unfold cache_put. do 4 tstep. pose proof (fo_cache _ Hf) as [Hl HP].
  destruct (cache_slot_range (s_adv_cache_table s) (tag_addr r)) as (i & Ei & Hi); [by intros E; rewrite E in Hl|].
  tstep. eapply twp_checked; [exact Ei|]. destruct (arr_get_Some (s_adv_cache_table s) i Hi) as [c Ec].
  tstep. eapply twp_checked; [exact Ec|]. apply arr_get_inv in Ec as [_ Ec].
  assert (Hc : cached_ok c) by (by eapply Forall_lookup_1). destruct Hc as (_ & Lc & Bc & _). destruct Hr as [Ha _ (Lf & Bf & Hff) _ _ _ _].
  destruct (blit_slice (ca_ff c) (ff_data r) (ff_data_len r) 29) as (d & ff & Ed & Eff & Hff'); [done..|].
  tstep. eapply twp_checked; [exact Ed|]. tstep. eapply twp_checked; [exact Eff|]. tstep. eapply twp_checked; [by apply arr_set_Some|]. apply twp_modify.
  split; [|done]. destruct Hf. split; [done..| |done|done]. cbn [s_adv_cache_table set_cache set_cache_seq].
  rewrite zlen_insert. split; [done|]. apply Forall_insert; [done|]. unfold cached_ok; cbn. tauto.
Qed.

Lemma cache_release_spec s st i c : found_ok s -> cached_ok c ->
  twp (cache_release i c) (fun _ s' st' => found_ok s' /\ uploads s' = uploads s /\ s_tag_scan_process_msgq s' = s_tag_scan_process_msgq s /\
    s_result_table s' = s_result_table s /\ st' = st) s st.
Proof.
  intros Hf Hc. unfold cache_release. tstep. tstep. apply twp_modify. split; [|done]. destruct Hf as [? ? ? [Hl HP] ? ?]. split; [done..| |done|done].
  cbn [s_adv_cache_table set_cache]. rewrite zlen_insert. split; [done|]. by apply Forall_insert.
Qed.

Lemma tag_scan_data_handle_spec k st0 s st m : found_ok s -> world_ok (k + t_count (s_result_table s) + 1) st0 st -> tag_ok (result m) ->
  twp (tag_scan_data_handle m) (fun _ s' st' => found_ok s' /\ uploads s' = uploads s /\ s_tag_scan_process_msgq s' = s_tag_scan_process_msgq s /\
    world_ok (k + t_count (s_result_table s')) st0 st') s st.
Proof.
  intros Hf Hw Hr. unfold tag_scan_data_handle.
  assert (Hw' : world_ok (k + t_count (s_result_table s)) st0 st) by (eapply world_le; [done|lia]). tstep.
  - eapply twp_mono; [by apply cache_put_spec|]. cbn beta. intros _ s' st' (H1 & H2 & H3 & H4 & ->). rewrite H4. auto.
  - tstep. tstep. pose proof Hr as [Ha (Ln & Bn & Tn) (Lf & Bf & Hff) Hu Hb Hrs Hti].
    destruct (c_string_defined (tag_name (result m))) as (name & En & _); [apply Exists_exists; exists 0; split; [|done]; by eapply list_elem_of_lookup_2|].
    tstep. eapply twp_checked; [exact En|]. destruct (tag_name_match_Some (s_prefix_table s) (tag_name (result m)) (u8 (zlen name)) (fo_prefixes _ Hf) Ln) as [ok Eok].
    tstep. eapply twp_checked; [exact Eok|]. tstep. tstep. destruct (list_find _ _) as [[i c]|] eqn:Ec.
    + apply list_find_Some in Ec as [Ec _]. assert (Hc : cached_ok c) by (eapply Forall_lookup_1; [apply (fo_cache _ Hf)|exact Ec]).
      tstep; [eapply twp_mono; [by apply cache_release_spec|]; cbn beta; intros _ s' st' (H1 & H2 & H3 & H4 & ->); rewrite H4; auto|].
      pose proof Hc as (_ & Lc & Bc & Hcl). destruct (blit_slice (ff_data (result m)) (ca_ff c) (ca_len c) 29) as (d & ff & Ed & Eff & Lff & Bff); [done..|].
      tstep. eapply twp_checked; [exact Ed|]. tstep. eapply twp_checked; [exact Eff|]. tstep.
      eapply twp_mono; [by apply cache_release_spec|]. cbn beta. intros _ s1 st1 (H1 & H2 & H3 & H4 & ->). rewrite <- H2, <- H3.
      apply tag_scan_result_save_spec; [done|by rewrite H4|by split].
    + tstep; [by apply twp_ret|]. by apply tag_scan_result_save_spec.
Qed.

Lemma drain_tags_spec n : forall k st0 s st, found_ok s -> world_ok (k + t_count (s_result_table s) + Z.of_nat n) st0 st ->
  twp (drain_tags n) (fun _ s' st' => found_ok s' /\ uploads s' = uploads s /\ world_ok k st0 st') s st.
Proof.
  induction n as [|n IH]; intros k st0 s st Hf Hw; cbn [drain_tags]; pose proof (fo_tags _ Hf) as (_ & Hc & _).
  - apply twp_ret. split; [done|]. split; [done|]. eapply world_le; [done|lia].
  - tstep. tstep. pose proof (fo_tag_msgs _ Hf) as [Hl HP]. destruct (s_tag_scan_process_msgq s) as [|m q] eqn:Eq.
    { apply twp_ret. split; [done|]. split; [done|]. eapply world_le; [done|lia]. }
    apply Forall_cons in HP as [Hm HP]. rewrite zlen_cons in Hl. tstep. tstep. tstep.
    assert (Hf1 : found_ok (set_tag_msgq q s)) by (destruct Hf; split; [done..| |done]; cbn; split; [lia|done]).
    eapply twp_mono; [apply (tag_scan_data_handle_spec (k + Z.of_nat n) st0); [done| |done]|].
    { cbn [s_result_table set_tag_msgq]. eapply world_le; [done|lia]. }
    cbn beta. intros _ s1 st1 (H1 & H2 & _ & H4). eapply twp_mono; [apply (IH k st0); [done|]|].
    { eapply world_le; [done|lia]. }
    cbn beta. intros _ s' st' (H5 & H6 & H7). split; [done|]. split; [|done]. rewrite H6, H2. done.
Qed.

Lemma tran_mac_data_handle_spec k st0 s st m : found_ok s -> world_ok k st0 st -> tran_msg_ok m ->
  twp (tran_mac_data_handle m) (fun _ s' st' => found_ok s' /\ uploads s' = uploads s /\ s_tran_mac_process_msgq s' = s_tran_mac_process_msgq s /\ world_ok k st0 st') s st.
Proof.
  intros Hf Hw (Ha & Ld & Bd & Hlen). unfold tran_mac_data_handle. tstep; [by apply twp_ret|]. pose proof (fo_trans _ Hf) as Ht. pose proof Ht as (Hl & Hc & HP).
  tstep. tstep. tstep. eapply twp_checked; [by eapply table_used|]. tstep. apply scan_ask. set (now := u32 (my_get_system_time_sec (dev st))).
  assert (Hx : forall x, tran_ok x -> exists d data, arr_slice (tm_data m) 0 (tm_len m) = Some d /\ arr_blit (adv_data x) 0 d = Some data /\
    forall a, zlen a = 7 /\ bytes_ok a -> tran_ok (mk_tran a data (tm_len m) now)).
  { intros x [_ (Lx & Bx & _) _]. destruct (blit_slice (adv_data x) (tm_data m) (tm_len m) 31) as (d & data & E1 & E2 & L & B); [done..|].
    exists d, data. split; [done|]. split; [done|]. intros a Ha'. split; [done|done|apply u32_range]. }
  destruct (list_find _ _) as [[i x]|] eqn:E.
  - apply list_find_Some in E as [E _]. pose proof (lookup_lt_Some _ _ _ E) as Hi. rewrite length_take in Hi. rewrite lookup_take_lt in E by lia.
    assert (Hxo : tran_ok x) by (by eapply Forall_lookup_1). destruct (Hx x Hxo) as (d & data & Ed & Eb & Hok).
    tstep. eapply twp_checked; [exact Ed|]. tstep. eapply twp_checked; [exact Eb|].
    destruct (table_set tran_ok TRAN_MAC_MAX_NUM (s_tran_mac_result_table s) (Z.of_nat i) (mk_tran (tran_addr x) data (tm_len m) now) (t_count (s_tran_mac_result_table s)))
      as (l & El & Hl'); [done|lia|apply Hok, Hxo|done|].
    tstep. eapply twp_checked; [exact El|]. apply twp_modify. split; [by apply found_trans|]. auto.
  - destruct (Z.ltb_spec (t_count (s_tran_mac_result_table s)) TRAN_MAC_MAX_NUM) as [Hlt|].
    + destruct (table_get tran_ok _ _ (t_count (s_tran_mac_result_table s)) Ht) as (x & Ex & Hxo); [lia|]. destruct (Hx x Hxo) as (d & data & Ed & Eb & Hok).
      tstep. eapply twp_checked; [exact Ed|]. tstep. eapply twp_checked; [exact Ex|]. tstep. eapply twp_checked; [exact Eb|].
      destruct (table_set tran_ok TRAN_MAC_MAX_NUM (s_tran_mac_result_table s) (t_count (s_tran_mac_result_table s)) (mk_tran (tm_addr m) data (tm_len m) now)
        (t_count (s_tran_mac_result_table s) + 1)) as (l & El & Hl'); [done|lia|by apply Hok|lia|].
      tstep. eapply twp_checked; [exact El|]. apply twp_modify. rewrite u8_small by (unfold TRAN_MAC_MAX_NUM in *; lia). split; [by apply found_trans|]. auto.
    + destruct (Hx zero zero_tran_ok) as (d & _ & Ed & _). tstep. eapply twp_checked; [exact Ed|]. by apply twp_ret.
Qed.

Lemma drain_trans_spec n : forall k st0 s st, found_ok s -> world_ok k st0 st ->
  twp (drain_trans n) (fun _ s' st' => found_ok s' /\ uploads s' = uploads s /\ world_ok k st0 st') s st.
Proof.
  induction n as [|n IH]; intros k st0 s st Hf Hw; cbn [drain_trans]; [by apply twp_ret|].
  tstep. tstep. pose proof (fo_tran_msgs _ Hf) as [Hl HP]. destruct (s_tran_mac_process_msgq s) as [|m q] eqn:Eq; [by apply twp_ret|].
  apply Forall_cons in HP as [Hm HP]. rewrite zlen_cons in Hl. tstep. tstep. tstep.
  assert (Hf1 : found_ok (set_tran_msgq q s)) by (destruct Hf; split; [done..|]; cbn; split; [lia|done]).
  eapply twp_mono; [by apply (tran_mac_data_handle_spec k st0)|]. cbn beta. intros _ s1 st1 (H1 & H2 & _ & H4).
  eapply twp_mono; [by apply (IH k st0)|]. cbn beta. intros _ s' st' (H5 & H6 & H7). split; [done|]. split; [|done]. rewrite H6, H2. done.
Qed.

(** *** The callback *)

Definition info_ok (info : recv_info) : Prop := (zlen (info_addr info) = 7 /\ bytes_ok (info_addr info)) /\ -128 <= info_rssi info < 128.

Lemma put_tag_msg_spec s st m (Q : bool -> scan -> fs_state D -> Prop) : found_ok s -> tag_ok (result m) ->
  (forall ok s', found_ok s' -> uploads s' = uploads s -> Q ok s' st) -> twp (put_tag_msg m) Q s st.
Proof.
  intros Hf Hm HQ. unfold put_tag_msg. tstep. tstep. destruct (Z.leb_spec MSGQ_LEN (zlen (s_tag_scan_process_msgq s))); [by apply twp_ret, HQ|].
  tstep. tstep. apply twp_ret, HQ; [|done]. destruct Hf as [? ? ? ? [Hl HP] ?]. split; [done..| |done]. cbn. rewrite zlen_app. unfold MSGQ_LEN in *.
  split; [change (zlen [m]) with 1; lia|]. apply Forall_app. auto.
Qed.

Lemma put_tran_msg_spec s st m (Q : bool -> scan -> fs_state D -> Prop) : found_ok s -> tran_msg_ok m ->
  (forall ok s', found_ok s' -> uploads s' = uploads s -> Q ok s' st) -> twp (put_tran_msg m) Q s st.
Proof.
  intros Hf Hm HQ. unfold put_tran_msg. tstep. tstep. destruct (Z.leb_spec MSGQ_LEN (zlen (s_tran_mac_process_msgq s))); [by apply twp_ret, HQ|].
  tstep. tstep. apply twp_ret, HQ; [|done]. destruct Hf as [? ? ? ? ? [Hl HP]]. split; [done..|]. cbn. rewrite zlen_app. unfold MSGQ_LEN in *.
  split; [change (zlen [m]) with 1; lia|]. apply Forall_app. auto.
Qed.

Lemma zeros_ok n : bytes_ok (replicate n 0).
Proof. apply Forall_replicate. unfold is_byte. lia. Qed.

Lemma ads_loop_bytes n : forall buf, bytes_ok buf -> Forall (fun a => bytes_ok (snd a)) (ads_loop n buf).
Proof.
  induction n as [|n IH]; intros buf Hb; cbn [ads_loop]; [constructor|]. destruct buf as [|len [|type rest]]; [constructor..|].
  apply Forall_cons in Hb as [_ Hb]. apply Forall_cons in Hb as [_ Hb]. destruct (_ || _); [constructor|].
  constructor; [by apply Forall_take|]. apply IH. by apply Forall_drop.
Qed.

Lemma ads_find f buf a : bytes_ok buf -> List.find f (ads buf) = Some a -> f a = true /\ bytes_ok (snd a).
Proof.
  intros Hb E. apply List.find_some in E as [Hi Hf]. split; [done|]. pose proof (ads_loop_bytes (length buf) buf Hb) as H.
  rewrite Forall_forall in H. apply H. by apply list_elem_of_In.
Qed.

Lemma name_terminated d : terminated (over (take 31 d ++ [0]) (replicate 32 0)).
Proof.
  unfold terminated, over. rewrite length_app. cbn [length]. assert (Hl : (length (take 31 d) <= 31)%nat) by (rewrite length_take; lia).
  destruct (Nat.eq_dec (length (take 31 d)) 31) as [E|E].
  - rewrite lookup_app_l by (rewrite length_app; cbn; lia). rewrite lookup_app_r by lia. by rewrite E.
  - rewrite lookup_app_r by (rewrite length_app; cbn; lia). rewrite length_app, lookup_drop. cbn [length]. rewrite lookup_replicate_2 by lia. done.
Qed.

Lemma payload_tag_ok buf r : bytes_ok buf -> tag_ok r ->
  tag_ok (with_battery (List.find is_battery (ads buf)) (with_uuid (List.find is_uuid (ads buf)) r)).
Proof.
  intros Hb Hr. assert (H1 : tag_ok (with_uuid (List.find is_uuid (ads buf)) r)).
  { destruct (List.find is_uuid (ads buf)) as [[ty d]|] eqn:E; [|done]. apply ads_find in E as [_ Bd]; [|done]. destruct Hr as [? ? ? (Lu & Bu & _) ? ? ?].
    cbn [snd] in Bd. split; [done..| |done|done|done]. cbn [uuid uuid_len with_uuid set_uuid]. pose proof (zlen_nonneg d).
    destruct (over_ok (take 16 d) (uuid r) 16) as [L B]; [done|rewrite zlen_take; lia|by apply Forall_take|done|]. unfold UUID_MAX_LEN. split; [done|]. split; [done|lia]. }
  destruct (List.find is_battery (ads buf)) as [[ty d]|] eqn:E; [|done]. apply ads_find in E as [_ Bd]; [|done]. destruct H1. split; [done..| |done|done].
  cbn [battery_percent with_battery set_battery]. cbn [snd] in Bd. destruct (nth_lookup_or_length d 7 0) as [E|E]; [by eapply Forall_lookup_1|].
  rewrite nth_overflow by lia. unfold is_byte. lia.
Qed.

Lemma queue_tran_mac_spec k st0 s st info buf : found_ok s -> world_ok k st0 st -> info_ok info -> bytes_ok buf ->
  twp (queue_tran_mac info buf) (fun _ s' st' => found_ok s' /\ uploads s' = uploads s /\ world_ok k st0 st') s st.
Proof.
  intros Hf Hw [Ha _] Hb. unfold queue_tran_mac. tstep. apply scan_ask. tstep; [|by apply twp_ret]. pose proof (zlen_nonneg buf).
  assert (Hn : 0 <= Z.min (zlen buf) TRAN_MAC_ADV_DATA_MAX_LEN <= 31) by (unfold TRAN_MAC_ADV_DATA_MAX_LEN; lia).
  set (n := Z.min (zlen buf) TRAN_MAC_ADV_DATA_MAX_LEN) in *. cbv zeta. tstep. eapply twp_checked; [apply arr_slice_Some; lia|]. rewrite drop_0. tstep.
  assert (Lt : zlen (take (Z.to_nat n) buf) = n) by (rewrite zlen_take; lia).
  eapply twp_checked; [apply blit_over; rewrite Lt, zlen_replicate; unfold TRAN_MAC_ADV_DATA_MAX_LEN; lia|]. tstep.
  apply put_tran_msg_spec; [done| |].
  - split; [done|]. cbn [tm_data tm_len]. destruct (over_ok (take (Z.to_nat n) buf) (replicate (Z.to_nat TRAN_MAC_ADV_DATA_MAX_LEN) 0) 31) as [L B];
      [by rewrite zlen_replicate|lia|by apply Forall_take|apply zeros_ok|]. split; [done|]. split; [done|lia].
  - intros ok s' Hf' Hu. tstep; [|by apply twp_ret]. apply scan_do_spec. intros st' Hq _. split; [done|]. split; [done|]. by eapply world_quiet.
Qed.

Lemma scan_recv_cb_spec k st0 s st info buf : found_ok s -> world_ok k st0 st -> info_ok info -> bytes_ok buf ->
  twp (scan_recv_cb info buf) (fun _ s' st' => found_ok s' /\ uploads s' = uploads s /\ world_ok k st0 st') s st.
Proof.
  intros Hf Hw Hi Hb. pose proof Hi as [Ha Hr]. unfold scan_recv_cb.
  assert (H0 : tag_ok (mk_tag (info_addr info) (replicate 32 0) (replicate 29 0) 0 (replicate 16 0) 0 0 (info_rssi info) 0)).
  { split; cbn [tag_addr tag_name ff_data ff_data_len uuid uuid_len battery_percent rssi tag_timestamp]; try done; try (unfold is_byte; lia).
    all: split; [done|]; split; [apply zeros_ok|done]. }
  set (r := mk_tag _ _ _ _ _ _ _ _ _) in *. cbv zeta. tstep.
  - tstep. eapply twp_checked; [apply ff_loop_spec; [done|lia|done]|]. fold (ads buf).
    destruct (List.find is_ff (ads buf)) as [[ty d]|] eqn:E; [|by apply queue_tran_mac_spec]. apply ads_find in E as [Ef Bd]; [|done].
    unfold is_ff in Ef. cbn [fst snd] in Ef, Bd. apply andb_true_iff in Ef as [_ Ef]. apply Z.eqb_eq in Ef.
    destruct (blit_slice (ff_data r) d TAG_FF_DATA_MAX_LEN 29) as (d' & ff & Ed & Eb & L & B); [done|done|apply H0|done|done|].
    tstep. eapply twp_checked; [exact Ed|]. tstep. eapply twp_checked; [exact Eb|]. tstep.
    apply put_tag_msg_spec; [done|destruct H0; by split|]. intros ok s' Hf' Hu. tstep; [|by apply twp_ret].
    tstep. apply scan_do_spec. intros st' Hq _. rewrite <- Hu. apply queue_tran_mac_spec; [done|by eapply world_quiet|done|done].
  - tstep; [|by apply twp_ret]. tstep. eapply twp_checked; [apply ad_name_spec; [done|lia|done]|]. fold (ads buf).
    destruct (List.find is_name (ads buf)) as [[ty d]|] eqn:E; [|by apply twp_ret]. apply ads_find in E as [_ Bd]; [|done]. cbn [negb snd] in *.
    destruct (over_ok (take 31 d ++ [0]) (replicate 32 0) 32) as [L B]; [done|rewrite zlen_app, zlen_take; change (zlen [0]) with 1; lia| |apply zeros_ok|].
    { apply Forall_app. split; [by apply Forall_take|]. constructor; [unfold is_byte; lia|constructor]. }
    destruct (strncpy_ok (tag_name r) (over (take 31 d ++ [0]) (replicate 32 0))) as (name & En & Ln & Bn & Tn); [apply H0|apply H0|apply H0|done|done|].
    tstep. eapply twp_checked; [exact En|]. tstep. eapply twp_checked; [apply (payload_loop_spec (length buf)); [done|lia|done]|]. fold (ads buf). cbn [find_new].
    tstep. apply put_tag_msg_spec; [done| |].
    { cbn [fst result]. apply payload_tag_ok; [done|]. destruct H0. by split. }
    intros ok s' Hf' Hu. tstep; [|by apply twp_ret]. apply scan_do_spec. intros st' Hq _. split; [done|]. split; [done|]. by eapply world_quiet.
Qed.
End found.
