(* ===== verification/ScanSensor.v ===== *)
(** * Upload of stored samples

    Samples wait in the store and are uploaded in packets of at most 1012
    characters.  A packet carries the next records of the session, as many as
    were announced per packet, and always fits the frame buffer. *)

From S2P Require Import Prelude Text Str FlashStore FlashStoreProofs FlashStoreApi StoreClient Prog Layout SettingsData Settings AtHandlers ScanParse Scan ScanSafe.

Open Scope prog_scope.

(** ** Text *)

Definition no_zero (s : list Z) : Prop := Forall (fun c => c <> 0) s.

Lemma dec_digits_no_zero n : forall v acc, 0 <= v -> no_zero acc -> no_zero (dec_digits n v acc).
Proof.
  induction n as [|n IH]; intros v acc Hv Ha; cbn [dec_digits]; [done|]. pose proof (Z.mod_pos_bound v 10 ltac:(lia)).
  destruct (v <? 10); [constructor; [lia|done]|]. apply IH; [by apply Z.div_pos|]. constructor; [lia|done].
Qed.

Lemma dec_no_zero v : no_zero (dec v).
Proof. unfold dec. destruct (Z.ltb_spec v 0); [constructor; [done|]|]; apply dec_digits_no_zero; (lia || constructor). Qed.

Lemma dec_digits_short n : forall k v acc, 0 <= v < 10 ^ Z.of_nat k -> (0 < k)%nat -> zlen (dec_digits n v acc) <= Z.of_nat k + zlen acc.
Proof.
  induction n as [|n IH]; intros k v acc Hv Hk; cbn [dec_digits]; [lia|]. destruct (Z.ltb_spec v 10); [rewrite zlen_cons; lia|].
  destruct k as [|[|k]]; [lia|cbn in Hv; lia|]. etrans; [apply (IH (S k)); [|lia]|rewrite zlen_cons; lia].
  rewrite (Nat2Z.inj_succ (S k)), Z.pow_succ_r in Hv by lia. split; [apply Z.div_pos; lia|apply Z.div_lt_upper_bound; lia].
Qed.

(** A number below [10 ^ k] has at most [k] digits. *)
Lemma dec_short k v : 0 <= v < 10 ^ Z.of_nat k -> (0 < k)%nat -> zlen (dec v) <= Z.of_nat k.
Proof. intros Hv Hk. unfold dec. destruct (Z.ltb_spec v 0); [lia|]. pose proof (dec_digits_short 20 k v [] Hv Hk). change (zlen (@nil Z)) with 0 in *. lia. Qed.

Lemma dec_signed k v : - 10 ^ Z.of_nat k < v < 10 ^ Z.of_nat k -> (0 < k)%nat -> zlen (dec v) <= Z.of_nat k + 1.
Proof.
  intros Hv Hk. unfold dec. destruct (Z.ltb_spec v 0).
  - rewrite zlen_cons. pose proof (dec_digits_short 20 k (- v) [] ltac:(lia) Hk). change (zlen (@nil Z)) with 0 in *. lia.
  - pose proof (dec_digits_short 20 k v [] ltac:(lia) Hk). change (zlen (@nil Z)) with 0 in *. lia.
Qed.

Definition zeros (n : Z) : list Z := replicate (Z.to_nat n) 0.

Lemma zlen_zeros n : 0 <= n -> zlen (zeros n) = n.
Proof. intros Hn. unfold zeros. rewrite zlen_replicate. lia. Qed.

Lemma zeros_split n m : 0 <= n -> 0 <= m -> zeros (n + m) = zeros n ++ zeros m.
Proof. intros Hn Hm. unfold zeros. rewrite Z2Nat.inj_add by lia. by rewrite replicate_add. Qed.

(** [snprintf] at the end of the text of a zeroed buffer. *)
Lemma snprintf_zeros a k size text : zlen text < size -> zlen text < k ->
  snprintf_at (a ++ zeros k) (zlen a) size text = Some ((a ++ text) ++ zeros (k - zlen text), zlen text).
Proof.
  intros Hs Hk. pose proof (zlen_nonneg text). rewrite snprintf_at_spec; [|done|done|rewrite zlen_zeros; lia]. f_equal. f_equal. rewrite <- app_assoc. do 2 f_equal.
  destruct (Z.lt_exists_pred 0 (k - zlen text)) as (m & Em & Hm); [lia|]. replace k with ((zlen text + 1) + m) by lia. rewrite zeros_split by lia.
  rewrite drop_app_length' by (unfold zeros; rewrite length_replicate; unfold zlen; lia).
  replace (zlen text + 1 + m - zlen text) with (1 + m) by lia. by rewrite zeros_split by lia.
Qed.

Lemma c_string_zeros s k : no_zero s -> 0 < k -> c_string (s ++ zeros k) = Some s.
Proof. intros Hs Hk. replace k with (1 + (k - 1)) by lia. rewrite zeros_split by lia. by apply c_string_app. Qed.

(** ** Records *)

Definition sample_type (t : Z) : Prop := t = FS_TYPE_TH \/ t = FS_TYPE_BP.

Lemma in_type_range w sgn v : in_type w sgn v = true ->
  if sgn then - 2 ^ (8 * Z.of_nat w - 1) <= v < 2 ^ (8 * Z.of_nat w - 1) else 0 <= v < 2 ^ (8 * Z.of_nat w).
Proof. unfold in_type. destruct sgn; intros [H1 H2]%andb_true_iff; bool2prop; lia. Qed.

(** The length the code reserves for a record is enough. *)
Lemma record_text_fits t d : sample_type t -> rec_ok t d ->
  0 < zlen (record_text t d) <= sensor_cdata_record_max_text_len_get t /\ no_zero (record_text t d).
Proof.
  intros [-> | ->] (x & -> & Hx); unfold record_text, sensor_cdata_record_max_text_len_get; cbn [Z.eqb FS_TYPE_TH FS_TYPE_BP Pos.eqb]; rewrite of_bytes_of by done.
  - destruct Hx as [_ Hf]. destruct x as [a b c]. cbn [items to_vals th_stored fits] in Hf. bool2prop.
    repeat match goal with H : in_type _ _ _ = true |- _ => apply in_type_range in H end.
    cbn [th_timestamp temperature_x10 humidity_x10]. rewrite !zlen_app. change (zlen (cstr ",")) with 1.
    pose proof (dec_short 10 a ltac:(cbn in *; lia) ltac:(lia)). pose proof (dec_signed 5 b ltac:(cbn in *; lia) ltac:(lia)). pose proof (dec_short 5 c ltac:(cbn in *; lia) ltac:(lia)).
    pose proof (zlen_nonneg (dec a)). pose proof (zlen_nonneg (dec b)). pose proof (zlen_nonneg (dec c)). unfold SENSOR_CDATA_TH_RECORD_MAX_TEXT_LEN. split; [lia|].
    repeat (apply Forall_app; split); try apply dec_no_zero; repeat constructor; done.
  - destruct Hx as [_ Hf]. destruct x as [a b]. cbn [items to_vals bp_stored fits] in Hf. bool2prop.
    repeat match goal with H : in_type _ _ _ = true |- _ => apply in_type_range in H end.
    cbn [bp_timestamp pressure_pa]. rewrite !zlen_app. change (zlen (cstr ",")) with 1.
    pose proof (dec_short 10 a ltac:(cbn in *; lia) ltac:(lia)). pose proof (dec_short 10 b ltac:(cbn in *; lia) ltac:(lia)).
    pose proof (zlen_nonneg (dec a)). pose proof (zlen_nonneg (dec b)). unfold SENSOR_CDATA_BP_RECORD_MAX_TEXT_LEN. split; [lia|].
    repeat (apply Forall_app; split); try apply dec_no_zero; repeat constructor; done.
Qed.

(** ** Packets *)

Definition texts (t : Z) (recs : list (list Z)) : list Z := concat (record_text t <$> recs).

Lemma texts_fit t recs : sample_type t -> Forall (rec_ok t) recs ->
  zlen (texts t recs) <= zlen recs * sensor_cdata_record_max_text_len_get t /\ no_zero (texts t recs).
Proof.
  intros Ht. induction 1 as [|d recs Hd _ [IH1 IH2]]; [split; [done|constructor]|]. unfold texts in *. cbn [fmap list_fmap concat].
  destruct (record_text_fits t d Ht Hd) as [Hl Hn]. rewrite zlen_app, zlen_cons. split; [lia|]. by apply Forall_app.
Qed.

(** The number of a packet, the number of its records, the records. *)
Definition packet (t seq : Z) (recs : list (list Z)) : list Z := (dec seq ++ cstr "," ++ dec (zlen recs)) ++ texts t recs.

(** The flash can be read. *)
Definition reads_work (D : Type) `{!StorageIO D} : Prop := forall w r, zlen (flash_view w) = PARTITION -> ~ read_fails w r.

Section sensor.
Context {D : Type} {SIO : ScanIO D} {HL : ScanLaws D}.
Notation scanner := (prog scan (fs_state D)).
Implicit Types (s : scan) (st : fs_state D).

Lemma store_partition st : store_ok rec_ok st -> zlen (flash_view (dev st)) = PARTITION.
Proof. intros [Hi _]. destruct (fi_get st 0 Hi ltac:(lia)) as (rg & _ & _ & Hinv & _). apply (ri_mem _ _ Hinv). Qed.

(** A read in a session, from the point of view of the scanner. *)
Lemma read_next_spec type sent rest new (Q : Z * list Z -> scan -> fs_state D -> Prop) s st :
  store_ok rec_ok st -> 0 <= type < 4 -> session st type sent rest new ->
  (forall st' d rest', rest = d :: rest' -> rec_ok type d -> store_ok rec_ok st' -> only type st st' -> queue st' type = queue st type ->
     lte_commands (dev st') = lte_commands (dev st) -> session st' type (sent ++ [d]) rest' new -> Q (1, d) s st') ->
  (forall st' r d, r <= 0 -> (reads_work D -> rest = []) -> store_ok rec_ok st' -> only type st st' -> queue st' type = queue st type ->
     lte_commands (dev st') = lte_commands (dev st) -> session st' type sent rest new -> Q (r, d) s st') ->
  twp (read_next type) Q s st.
Proof.
  intros Hst Ht Hse H1 H0. apply twp_world_checked. destruct (store_read rec_ok st type sent rest new Hst Ht Hse) as (st' & r & d & E & Hst' & Ho & Hq & Hc).
  rewrite E. cbn [mbind option_bind]. eexists _, _. split; [done|]. pose proof (read_view lte_commands st type st' r d law_read_log E) as Hlog.
  destruct Hc as [(-> & Hd & rest' & -> & Hs')|(Hr & Hs' & Hr')]; [by eapply H1|]. apply H0; [done| |done..]. intros Hw.
  destruct Hr' as [[_ ?]|Hf]; [done|]. exfalso. exact (Hw (dev st) r (store_partition st Hst) Hf).
Qed.

(** The loop reads up to [n] records and appends their texts to the frame. *)
Lemma cdata_loop_spec n type new (Q : option (list Z * Z * Z) -> scan -> fs_state D -> Prop) : forall sent rest a sum s st,
  sample_type type -> store_ok rec_ok st -> session st type sent rest new ->
  zlen a + Z.of_nat n * sensor_cdata_record_max_text_len_get type < SENSOR_CDATA_PARAM_MAX_LEN -> 0 <= sum -> sum + Z.of_nat n < 65536 ->
  (forall st' recs rest', rest = recs ++ rest' -> Forall (rec_ok type) recs -> (length recs <= n)%nat -> (reads_work D -> length recs = Nat.min n (length rest)) ->
     store_ok rec_ok st' -> only type st st' -> queue st' type = queue st type -> lte_commands (dev st') = lte_commands (dev st) ->
     session st' type (sent ++ recs) rest' new ->
     Q (Some ((a ++ texts type recs) ++ zeros (SENSOR_CDATA_PARAM_MAX_LEN - zlen (a ++ texts type recs)), zlen (a ++ texts type recs), sum + zlen recs)) s st') ->
  twp (cdata_loop n type (sensor_cdata_record_max_text_len_get type) (a ++ zeros (SENSOR_CDATA_PARAM_MAX_LEN - zlen a)) (zlen a) sum) Q s st.
Proof.
  set (rml := sensor_cdata_record_max_text_len_get type). induction n as [|n IH]; intros sent rest a sum s st Ht Hst Hse Hfit Hsum Hsum' HQ; cbn [cdata_loop].
  - apply twp_ret. specialize (HQ st [] rest). change (texts type []) with (@nil Z) in HQ. rewrite !app_nil_r in HQ. change (zlen (@nil (list Z))) with 0 in HQ. rewrite Z.add_0_r in HQ.
    apply HQ; auto using only_refl.
  - assert (Hrml : 0 < rml <= 25) by (destruct Ht as [-> | ->]; by vm_compute). pose proof (zlen_nonneg a).
    rewrite (proj2 (Z.ltb_ge _ _)) by lia. replace (if type =? FS_TYPE_TH then FS_TYPE_TH else FS_TYPE_BP) with type by (by destruct Ht as [-> | ->]).
    assert (Hstop : forall st', (reads_work D -> rest = []) -> store_ok rec_ok st' -> only type st st' -> queue st' type = queue st type ->
      lte_commands (dev st') = lte_commands (dev st) -> session st' type sent rest new ->
      Q (Some (a ++ zeros (SENSOR_CDATA_PARAM_MAX_LEN - zlen a), zlen a, sum)) s st').
    { intros st' Hw Hst' Ho Hq Hlog Hse'. specialize (HQ st' [] rest). change (texts type []) with (@nil Z) in HQ. rewrite !app_nil_r in HQ. change (zlen (@nil (list Z))) with 0 in HQ. rewrite Z.add_0_r in HQ.
      apply HQ; [done|constructor|cbn; lia|intros Hr'; by rewrite (Hw Hr')|done..]. }
    tstep. apply (read_next_spec type sent rest new); [done|destruct Ht as [-> | ->]; done|done| |].
    2:{ intros st' r d Hr Hw Hst' Ho Hq Hlog Hse'. cbn [fst]. rewrite (proj2 (Z.leb_le _ _)) by done. apply twp_ret. by eapply Hstop. }
    intros st' d rest' -> Hd Hst' Ho Hq Hlog Hse'. cbn [fst snd]. change (1 <=? 0) with false. cbv iota.
    destruct (record_text_fits type d Ht Hd) as [Hl Hnz]. fold rml in Hl. tstep.
    eapply twp_checked; [apply snprintf_zeros; lia|]. cbn [fst snd]. rewrite (proj2 (Z.leb_gt (zlen (record_text type d)) 0)), (proj2 (Z.leb_gt _ _)) by lia. cbn [orb].
    replace (SENSOR_CDATA_PARAM_MAX_LEN - zlen a - zlen (record_text type d)) with (SENSOR_CDATA_PARAM_MAX_LEN - zlen (a ++ record_text type d)) by (rewrite zlen_app; lia).
    replace (u16 (zlen a + zlen (record_text type d))) with (zlen (a ++ record_text type d)) by (rewrite zlen_app, u16_small; unfold SENSOR_CDATA_PARAM_MAX_LEN, SENSOR_CDATA_UART_FRAME_MAX_LEN, SENSOR_CDATA_CMD_PREFIX_LEN in *; lia).
    rewrite u16_small by lia. apply (IH (sent ++ [d]) rest'); [done|done|done|rewrite zlen_app; lia|lia|lia|].
    intros st2 recs rest2 -> Hrecs Hle Hmin Hst2 Ho2 Hq2 Hlog2 Hse2. specialize (HQ st2 (d :: recs) rest2).
    unfold texts in HQ |- *. cbn [fmap list_fmap concat] in HQ. rewrite zlen_cons, !app_assoc in HQ. rewrite <- !app_assoc in Hse2. rewrite <- Z.add_assoc.
    apply HQ; [done|by constructor|cbn; lia|intros Hw; specialize (Hmin Hw); cbn; rewrite Hmin; done|done|by eapply only_trans|congruence|congruence|done].
Qed.

Lemma max_records t : sample_type t -> let m := sensor_cdata_max_records_per_packet t in
  0 < m <= 44 /\ SENSOR_CDATA_PREFIX_RESERVED_LEN + m * sensor_cdata_record_max_text_len_get t < SENSOR_CDATA_PARAM_MAX_LEN.
Proof. by intros [-> | ->]; vm_compute. Qed.

(** The number and the count are put in front of the texts. *)
Lemma shift_frame pre body k : 0 <= k -> zlen pre < SENSOR_CDATA_PREFIX_RESERVED_LEN ->
  let frame := zeros SENSOR_CDATA_PREFIX_RESERVED_LEN ++ body ++ zeros (k + 1) in
  exists f1 f2 m, arr_slice frame SENSOR_CDATA_PREFIX_RESERVED_LEN (zlen body + 1) = Some (body ++ [0]) /\
    arr_blit frame (zlen pre) (body ++ [0]) = Some f1 /\ arr_blit f1 0 pre = Some f2 /\ f2 = (pre ++ body) ++ 0 :: m /\ zlen f2 = zlen frame.
Proof.
  intros Hk Hp frame. pose proof (zlen_nonneg pre). pose proof (zlen_nonneg body). unfold SENSOR_CDATA_PREFIX_RESERVED_LEN in *.
  assert (Ef : frame = zeros 24 ++ (body ++ [0]) ++ zeros k) by (unfold frame; rewrite Z.add_comm, zeros_split by lia; by rewrite <- app_assoc).
  assert (Lf : zlen frame = 24 + zlen body + 1 + k) by (rewrite Ef, !zlen_app, !zlen_zeros by lia; change (zlen [0]) with 1; lia).
  set (f1 := take (length pre) frame ++ (body ++ [0]) ++ drop (length pre + length (body ++ [0])) frame).
  assert (E1 : arr_blit frame (zlen pre) (body ++ [0]) = Some f1).
  { rewrite arr_blit_Some by (rewrite ?zlen_app; change (zlen [0]) with 1; lia). unfold f1, zlen. by rewrite Nat2Z.id. }
  assert (Ht : length (take (length pre) frame) = length pre) by (rewrite length_take; unfold zlen in *; lia).
  exists f1, (pre ++ (body ++ [0]) ++ drop (length pre + length (body ++ [0])) frame), (drop (length pre + length (body ++ [0])) frame).
  split; [rewrite Ef; apply arr_slice_app; [by rewrite zlen_zeros by lia|by rewrite zlen_app]|]. split; [done|].
  assert (E2 : arr_blit f1 0 pre = Some (pre ++ (body ++ [0]) ++ drop (length pre + length (body ++ [0])) frame)).
  { unfold f1. apply (arr_blit_app [] _ _ pre); [done|by rewrite Ht]. }
  split; [done|]. split; [by rewrite <- !app_assoc|]. apply arr_blit_length in E1. apply arr_blit_length in E2. congruence.
Qed.

(** The next packet: the next records of the session, at most [max_records], in one message that fits the frame. *)
Definition packet_sent (c : sensor_upload_ctx_t) (sent rest new recs rest' : list (list Z)) st st' : Prop :=
  let type := upload_type c in
  rest = recs ++ rest' /\ zlen recs <= sensor_cdata_max_records_per_packet type /\
  (reads_work D -> zlen recs = Z.min (sensor_cdata_max_records_per_packet type) (zlen rest)) /\
  zlen (packet type (next_seq c) recs) < SENSOR_CDATA_PARAM_MAX_LEN /\
  store_ok rec_ok st' /\ only type st st' /\ queue st' type = queue st type /\ session st' type (sent ++ recs) rest' new /\
  lte_commands (dev st') = lte_commands (dev st) ++ (if decide (recs = []) then [] else [(cstr "CDATA", Some (packet type (next_seq c) recs))]).

Lemma quiet_queues st st' type : quiet st st' -> store_ok rec_ok st -> store_ok rec_ok st' /\ (forall st0, only type st0 st -> only type st0 st') /\
  queue st' type = queue st type /\ forall sent rest new, session st type sent rest new -> session st' type sent rest new.
Proof.
  intros Hq Hst. pose proof Hq as (_ & Er & _). destruct (quiet_store st st' Hq Hst) as (H1 & _ & _ & H4). split; [done|]. split; [|split; [done|]].
  - intros st0 Ho t' Hne. destruct (Ho t' Hne). rewrite Er, H4. done.
  - intros sent rest new. apply session_eq; [by rewrite Er|done].
Qed.

Lemma send_next_packet_spec sent rest new (Q : Z -> scan -> fs_state D -> Prop) s st :
  let c := s_sensor_upload_ctx s in
  sample_type (upload_type c) -> 0 <= next_seq c < 65536 -> store_ok rec_ok st -> session st (upload_type c) sent rest new ->
  (forall recs rest' f st' r, packet_sent c sent rest new recs rest' st st' -> zlen f = SENSOR_CDATA_PARAM_MAX_LEN -> (recs = [] -> r = - EINVAL) -> (recs <> [] -> sends_work -> r = 0) ->
     Q r (if r =? 0 then set_sensor_state SENSOR_UPLOAD_STATE_CDATA_WAIT_DATA_ACK (set_frame f s) else set_frame f s) st') ->
  twp sensor_cdata_send_next_packet Q s st.
Proof.
  intros c Ht Hseq Hst Hse HQ. unfold sensor_cdata_send_next_packet. tstep. tstep. tstep. tstep. cbn [s_sensor_upload_ctx set_frame]. fold c. set (type := upload_type c) in *.
  destruct (max_records type Ht) as [Hm Hfit]. assert (Hrml : 0 < sensor_cdata_record_max_text_len_get type) by (destruct Ht as [-> | ->]; done).
  cbv zeta. rewrite (proj2 (Z.eqb_neq (sensor_cdata_max_records_per_packet type) 0)), (proj2 (Z.eqb_neq (sensor_cdata_record_max_text_len_get type) 0)) by lia. cbn [orb].
  tstep. tstep. tstep. cbn [s_sensor_upload_frame_buf set_frame].
  change (replicate (Z.to_nat SENSOR_CDATA_PARAM_MAX_LEN) 0) with (zeros SENSOR_CDATA_PREFIX_RESERVED_LEN ++ zeros (SENSOR_CDATA_PARAM_MAX_LEN - zlen (zeros SENSOR_CDATA_PREFIX_RESERVED_LEN))).
  change SENSOR_CDATA_PREFIX_RESERVED_LEN with (zlen (zeros SENSOR_CDATA_PREFIX_RESERVED_LEN)) at 3.
  apply (cdata_loop_spec _ type new _ sent rest); [done|done|done|rewrite zlen_zeros by done; lia|done|lia|].
  intros st' recs rest' Hrest Hrecs Hle Hmin Hst' Ho Hq Hlog Hse'. destruct (texts_fit type recs Ht Hrecs) as [Hlt Hnz].
  assert (Hcount : zlen recs <= sensor_cdata_max_records_per_packet type) by (unfold zlen; lia).
  assert (Hlt' : zlen (texts type recs) <= sensor_cdata_max_records_per_packet type * sensor_cdata_record_max_text_len_get type) by nia.
  pose proof (zlen_nonneg (texts type recs)) as Hpos. pose proof (zlen_nonneg recs).
  set (pre := dec (next_seq c) ++ cstr "," ++ dec (zlen recs)).
  assert (Hpre : zlen pre <= 8).
  { unfold pre. rewrite !zlen_app. change (zlen (cstr ",")) with 1. pose proof (dec_short 5 (next_seq c) ltac:(cbn; lia) ltac:(lia)).
    pose proof (dec_short 2 (zlen recs) ltac:(cbn; lia) ltac:(lia)). lia. }
  assert (Hpk : zlen (packet type (next_seq c) recs) < SENSOR_CDATA_PARAM_MAX_LEN).
  { unfold packet. fold pre. rewrite zlen_app. unfold SENSOR_CDATA_PREFIX_RESERVED_LEN in *. lia. }
  assert (Hmin' : reads_work D -> zlen recs = Z.min (sensor_cdata_max_records_per_packet type) (zlen rest)) by (intros Hw; specialize (Hmin Hw); unfold zlen; lia).
  assert (Lz : zlen (zeros SENSOR_CDATA_PREFIX_RESERVED_LEN) = SENSOR_CDATA_PREFIX_RESERVED_LEN) by (by rewrite zlen_zeros).
  set (body := texts type recs) in *. set (k := SENSOR_CDATA_PARAM_MAX_LEN - SENSOR_CDATA_PREFIX_RESERVED_LEN - zlen body - 1).
  assert (Hk : 0 <= k) by (unfold k; lia).
  replace (SENSOR_CDATA_PARAM_MAX_LEN - zlen (zeros SENSOR_CDATA_PREFIX_RESERVED_LEN ++ body)) with (k + 1) by (rewrite zlen_app, Lz; unfold k; lia).
  rewrite <- app_assoc, (zlen_app (zeros _)), Lz.
  assert (Lf : zlen (zeros SENSOR_CDATA_PREFIX_RESERVED_LEN ++ body ++ zeros (k + 1)) = SENSOR_CDATA_PARAM_MAX_LEN).
  { rewrite !zlen_app, Lz, zlen_zeros by lia. unfold k. lia. }
  assert (Hcase : forall st2, store_ok rec_ok st2 -> only type st st2 -> queue st2 type = queue st type -> session st2 type (sent ++ recs) rest' new ->
    lte_commands (dev st2) = lte_commands (dev st) ++ (if decide (recs = []) then [] else [(cstr "CDATA", Some (packet type (next_seq c) recs))]) ->
    packet_sent c sent rest new recs rest' st st2) by (unfold packet_sent; fold type; auto 10).
  tstep. tstep. destruct (Z.eqb_spec (0 + zlen recs) 0) as [E0|E0].
  { destruct recs as [|? recs]; [|exfalso; rewrite zlen_cons in E0; pose proof (zlen_nonneg recs); lia]. apply twp_ret.
    apply (HQ [] rest' _ st' (- EINVAL)); [|exact Lf|done|done]. apply Hcase; [done..|]. rewrite decide_True by done. by rewrite app_nil_r. }
  assert (Hne : recs <> []) by (intros ->; done). rewrite decide_False in Hcase by done.
  change (replicate (Z.to_nat SENSOR_CDATA_PREFIX_RESERVED_LEN) 0) with ([] ++ zeros SENSOR_CDATA_PREFIX_RESERVED_LEN). rewrite Z.add_0_l. fold pre.
  tstep. eapply twp_checked; [apply (snprintf_zeros [] SENSOR_CDATA_PREFIX_RESERVED_LEN _ pre); unfold SENSOR_CDATA_PREFIX_RESERVED_LEN; lia|].
  cbn [fst snd app]. pose proof (zlen_nonneg pre). rewrite Z.add_simpl_l, (u16_small (zlen pre)), (u16_small (zlen body)) by (unfold SENSOR_CDATA_PARAM_MAX_LEN, SENSOR_CDATA_UART_FRAME_MAX_LEN, SENSOR_CDATA_CMD_PREFIX_LEN, SENSOR_CDATA_PREFIX_RESERVED_LEN in *; lia).
  rewrite (proj2 (Z.leb_gt _ (zlen pre))), (proj2 (Z.ltb_ge SENSOR_CDATA_PARAM_MAX_LEN _)) by (unfold SENSOR_CDATA_PREFIX_RESERVED_LEN in *; lia).
  destruct (shift_frame pre body k Hk) as (f1 & f2 & m & E1 & E2 & E3 & Ef & Lf2); [unfold SENSOR_CDATA_PREFIX_RESERVED_LEN; lia|].
  tstep. eapply twp_checked; [exact E1|]. tstep. eapply twp_checked; [exact E2|]. tstep.
  eapply twp_checked; [apply (arr_slice_app [] pre); done|]. tstep. eapply twp_checked; [exact E3|]. tstep. tstep.
  assert (Hnp : no_zero (pre ++ body)).
  { apply Forall_app. split; [|done]. unfold pre. repeat (apply Forall_app; split); try apply dec_no_zero. by repeat constructor. }
  tstep. eapply twp_checked; [rewrite Ef; by apply c_string_app|]. tstep. apply twp_send. intros st2 r Hqu Hlog2 Hsw.
  destruct (quiet_queues st' st2 type Hqu Hst') as (Hst2 & Ho2 & Hq2 & Hse2).
  assert (Hp : packet_sent c sent rest new recs rest' st st2) by (apply Hcase; [done|auto|congruence|auto|rewrite Hlog2, Hlog; done]).
  rewrite Lf in Lf2. specialize (HQ recs rest' f2 st2 r Hp Lf2 ltac:(done) ltac:(done)). tstep. destruct (r =? 0); tstep; by tstep.
Qed.

(** ** Starting and ending an upload *)

(** The number of packets [n] records of a type need. *)
Definition packets_of (type n : Z) : Z := (n + sensor_cdata_max_records_per_packet type - 1) / sensor_cdata_max_records_per_packet type.

Definition start_text (type n : Z) : list Z := cstr "START," ++ dec (sensor_cdata_type_get type) ++ cstr "," ++ dec (packets_of type n).

(** The store holds fewer records than a 16-bit counter counts. *)
Lemma queue_bound st t : store_ok rec_ok st -> zlen (queue st t) <= 4760.
Proof.
  intros [Hi _]. unfold queue. destruct (arr_get (s_region st) t) as [rg|] eqn:E; [|done]. destruct (fi_region _ Hi _ _ E) as [Hc Hinv].
  rewrite (zlen_pending _ _ Hinv). pose proof (ri_count _ _ Hinv). pose proof (ri_valid _ _ Hinv). pose proof (ri_rec _ _ Hinv). unfold flash_len. rewrite Hc in *.
  revert H H0 H1. unfold type_const. repeat zcase; cbn [rec_per_sector region_sectors]; intros;
    change ((4096 - 16) / 96) with 42 in *; change ((4096 - 16) / 48) with 85 in *; change ((4096 - 16) / 12) with 340 in *; lia.
Qed.

Lemma packets_range type n : sample_type type -> 0 < n <= 4760 -> 0 < packets_of type n <= 4760.
Proof.
  intros Ht Hn. destruct (max_records type Ht) as [Hm _]. unfold packets_of. set (m := sensor_cdata_max_records_per_packet type) in *. clearbody m.
  split; [apply Z.div_str_pos; lia|]. apply Z.div_le_upper_bound; [lia|]. nia.
Qed.

Lemma reset_spec b (Q : unit -> scan -> fs_state D -> Prop) s st :
  let c := s_sensor_upload_ctx s in store_ok rec_ok st -> sensor_ok c ->
  (forall st', store_ok rec_ok st' -> (forall t, ~ sample_type t -> open st t -> open st' t) -> (forall t, queue st' t = queue st t) ->
     lte_commands (dev st') = lte_commands (dev st) -> Q tt (set_sensor (mk_sensor SENSOR_UPLOAD_STATE_IDLE FS_TYPE_MAX 0 0) s) st') ->
  twp (sensor_upload_reset b) Q s st.
Proof.
  intros c Hst Hc HQ. unfold sensor_upload_reset. tstep. tstep. tstep. fold c.
  destruct (b && ((upload_type c =? FS_TYPE_TH) || (upload_type c =? FS_TYPE_BP)) && in_cdata (sensor_state c)) eqn:Eb; [|tstep; tstep; apply HQ; auto].
  assert (Ht : sample_type (upload_type c)) by (apply andb_true_iff in Eb as [Eb _]; apply andb_true_iff in Eb as [_ Eb]; unfold sample_type; bool2prop; lia).
  apply twp_world. intros [] st' [= <-]. tstep. destruct (store_rewind rec_ok st (upload_type c)) as (Hst' & Ho & Hq); [done|destruct Ht as [-> | ->]; done|].
  apply HQ; [done| | |].
  - intros t Hn Hop. eapply only_open; [exact Ho| |done]. by intros ->.
  - intros t. destruct (Z.eq_dec t (upload_type c)) as [->|Hne]; [done|]. by destruct (Ho t Hne).
  - unfold my_flash_store_rewind. by destruct (s_inited st), (fs_get_region st (upload_type c)).
Qed.

(** What keeps an upload of samples from starting. *)
Definition not_now s st : Prop :=
  sensor_upload_busy s = true \/ s_tag_macinfo_upload_state s <> UPLOAD_STATE_IDLE \/ g_bLteReady (dev st) = false \/
  (queue st FS_TYPE_TH = [] /\ queue st FS_TYPE_BP = []).

Definition first_type st : Z := if decide (queue st FS_TYPE_TH = []) then FS_TYPE_BP else FS_TYPE_TH.

Lemma try_start_spec (Q : unit -> scan -> fs_state D -> Prop) s st :
  store_ok rec_ok st -> zlen (s_sensor_upload_frame_buf s) = SENSOR_CDATA_PARAM_MAX_LEN -> (not_now s st -> Q tt s st) ->
  (forall st' r f, let type := first_type st in let n := zlen (queue st type) in let c := mk_sensor SENSOR_UPLOAD_STATE_CDATA_WAIT_START_ACK type (packets_of type n) 1 in
     sensor_state (s_sensor_upload_ctx s) = SENSOR_UPLOAD_STATE_IDLE -> s_tag_macinfo_upload_state s = UPLOAD_STATE_IDLE -> 0 < n ->
     store_ok rec_ok st' -> only type st st' -> session st' type [] (queue st type) [] -> queue st' type = queue st type -> zlen f = SENSOR_CDATA_PARAM_MAX_LEN ->
     lte_commands (dev st') = lte_commands (dev st) ++ [(cstr "CDATA", Some (start_text type n))] -> (sends_work -> r = 0) ->
     twp (if negb (r =? 0) then sensor_upload_reset true else Prog.ret tt) Q (set_frame f (set_sensor c s)) st') ->
  twp sensor_cached_upload_try_start Q s st.
Proof.
  intros Hst Hf Hno Hgo. unfold sensor_cached_upload_try_start. tstep. tstep. destruct (sensor_upload_busy s) eqn:Eb; [by apply twp_ret, Hno; left|]. cbn [orb].
  destruct (decide (s_tag_macinfo_upload_state s = UPLOAD_STATE_IDLE)) as [Eu|Eu]; [rewrite bool_decide_true by done|rewrite bool_decide_false by done; apply twp_ret, Hno; right; by left].
  cbn [negb]. assert (Hcount : forall t (Q' : Z -> scan -> fs_state D -> Prop) s', 0 <= t < 4 -> Q' (zlen (queue st t)) s' st -> twp (pending_count t) Q' s' st).
  { intros t Q' s' Ht H. apply twp_world. intros a w [= <- <-]. by rewrite (store_count rec_ok). }
  tstep. apply Hcount; [done|]. tstep. apply Hcount; [done|]. cbv zeta. tstep. apply scan_ask.
  destruct (g_bLteReady (dev st)) eqn:Er; [|rewrite orb_true_r; apply twp_ret, Hno; right; right; by left].
  assert (Hpos : forall l : list (list Z), 0 <? zlen l = bool_decide (l <> [])) by (intros [|? l]; [done|rewrite zlen_cons; pose proof (zlen_nonneg l); rewrite (proj2 (Z.ltb_lt _ _)) by lia; done]).
  assert (Etype : (if 0 <? zlen (queue st FS_TYPE_TH) then FS_TYPE_TH else if 0 <? zlen (queue st FS_TYPE_BP) then FS_TYPE_BP else FS_TYPE_MAX)
    = if decide (queue st FS_TYPE_TH = [] /\ queue st FS_TYPE_BP = []) then FS_TYPE_MAX else first_type st).
  { rewrite !Hpos. unfold first_type. repeat case_decide; repeat case_bool_decide; tauto. }
  rewrite Etype. destruct (decide (_ /\ _)) as [Hn|Hn]; [apply twp_ret, Hno; right; right; by right|].
  assert (Hty : sample_type (first_type st)) by (unfold first_type, sample_type; case_decide; auto).
  set (type := first_type st) in *. assert (Ht4 : 0 <= type < 4) by (destruct Hty as [-> | ->]; done).
  replace (type =? FS_TYPE_MAX) with false by (destruct Hty as [-> | ->]; done). cbn [orb negb]. tstep. apply Hcount; [done|].
  assert (Hq : queue st type <> []) by (unfold type, first_type; case_decide; tauto).
  assert (Hn0 : 0 < zlen (queue st type)) by (apply Z.ltb_lt; rewrite Hpos; by apply bool_decide_true).
  pose proof (queue_bound st type Hst) as Hb. destruct (max_records type Hty) as [Hm _].
  rewrite (proj2 (Z.eqb_neq (zlen _) 0)), (proj2 (Z.eqb_neq (sensor_cdata_max_records_per_packet type) 0)) by lia. cbn [orb].
  rewrite (u32_small (_ + _ - 1)) by lia. fold (packets_of type (zlen (queue st type))). assert (Hp : 0 < packets_of type (zlen (queue st type)) <= 4760) by (apply packets_range; [done|lia]).
  rewrite u16_small by lia. tstep. apply twp_world. intros [] st1 [= <-]. destruct (store_begin rec_ok st type Hst Ht4) as (Hst1 & Ho1 & Hse1 & Hq1).
  tstep. tstep. tstep. tstep. cbn [s_sensor_upload_frame_buf set_sensor].
  fold (start_text type (zlen (queue st type))). set (text := start_text type (zlen (queue st type))).
  assert (Ht : zlen text < 50 /\ no_zero text).
  { unfold text, start_text. rewrite !zlen_app. change (zlen (cstr "START,")) with 6. change (zlen (cstr ",")) with 1.
    pose proof (dec_len (sensor_cdata_type_get type)). pose proof (dec_len (packets_of type (zlen (queue st type)))). split; [lia|].
    repeat (apply Forall_app; split); try apply dec_no_zero; by repeat constructor. }
  destruct Ht as [Htl Htz]. tstep. eapply twp_checked; [apply (snprintf_at_spec [] (s_sensor_upload_frame_buf s) 0); [done|fw|rewrite Hf; fw]|].
  { unfold SENSOR_CDATA_PARAM_MAX_LEN, SENSOR_CDATA_UART_FRAME_MAX_LEN, SENSOR_CDATA_CMD_PREFIX_LEN. lia. }
  { unfold SENSOR_CDATA_PARAM_MAX_LEN, SENSOR_CDATA_UART_FRAME_MAX_LEN, SENSOR_CDATA_CMD_PREFIX_LEN. lia. }
  cbn [fst snd app]. tstep. tstep. tstep. eapply twp_checked; [by apply c_string_app|]. tstep. apply twp_send. intros st2 r Hqu Hlog Hsw.
  destruct (quiet_queues _ st2 type Hqu Hst1) as (Hst2 & Ho2 & Hq2 & Hse2).
  apply Hgo; [unfold sensor_upload_busy in Eb; destruct (decide (sensor_state (s_sensor_upload_ctx s) = SENSOR_UPLOAD_STATE_IDLE)); [done|by rewrite bool_decide_false in Eb]
    |done|done|done|by apply Ho2|by apply Hse2|fold type; congruence| | |done].
  - rewrite zlen_app, zlen_cons, zlen_drop, Hf. unfold zlen in Htl |- *.
    unfold SENSOR_CDATA_PARAM_MAX_LEN, SENSOR_CDATA_UART_FRAME_MAX_LEN, SENSOR_CDATA_CMD_PREFIX_LEN. lia.
  - rewrite Hlog. unfold my_flash_store_upload_begin. by destruct (s_inited st), (fs_get_region st type).
Qed.
End sensor.
