(* ===== verification/ScanSamples.v ===== *)
(** * A whole upload of samples

    The packets of an upload, one per acknowledgement of the LTE module, carry
    exactly the records that waited when it began, in their order; they are
    removed from the store by the last acknowledgement. *)

From S2P Require Import Prelude Text Str FlashStore FlashStoreProofs FlashStoreApi StoreClient Prog Layout SettingsData Settings AtHandlers ScanParse Scan ScanSafe ScanSensor.

Open Scope prog_scope.

(** The packets with numbers from [seq] on, [n] of them. *)
Fixpoint packet_cmds (type seq : Z) (n : nat) (recs : list (list Z)) : list (list Z * option (list Z)) :=
  match n with
  | O => []
  | S n => let m := Z.to_nat (sensor_cdata_max_records_per_packet type) in
      (cstr "CDATA", Some (packet type seq (take m recs))) :: packet_cmds type (seq + 1) n (drop m recs)
  end.

Section samples.
Context {D : Type} {SIO : ScanIO D} {HL : ScanLaws D}.
Notation scanner := (prog scan (fs_state D)).
Implicit Types (s : scan) (st : fs_state D).

Fixpoint acks (n : nat) : scanner unit :=
  match n with O => ret tt | S n => sensor_handle_lte_ack BLE_RSP_CDATA;; acks n end.

(** Between two packets: [n] packets are still to be sent for the [rest] of the records. *)
Record between (type total seq : Z) (n : nat) (sent rest : list (list Z)) s st : Prop := {
  bt_ctx : s_sensor_upload_ctx s = mk_sensor SENSOR_UPLOAD_STATE_CDATA_WAIT_DATA_ACK type total seq;
  bt_seq : 1 <= seq /\ seq + Z.of_nat n = total /\ total < 65536;
  bt_frame : zlen (s_sensor_upload_frame_buf s) = SENSOR_CDATA_PARAM_MAX_LEN;
  bt_store : store_ok rec_ok st;
  bt_session : session st type sent rest [];
  bt_rest : (Z.of_nat n - 1) * sensor_cdata_max_records_per_packet type < zlen rest <= Z.of_nat n * sensor_cdata_max_records_per_packet type \/ (n = O /\ rest = [])
}.

(** The last packet takes what is left. *)
Lemma next_take type (recs rest' rest : list (list Z)) m n : m = Z.to_nat (sensor_cdata_max_records_per_packet type) ->
  rest = recs ++ rest' -> zlen recs = Z.min (sensor_cdata_max_records_per_packet type) (zlen rest) -> 0 < sensor_cdata_max_records_per_packet type ->
  (Z.of_nat (S n) - 1) * sensor_cdata_max_records_per_packet type < zlen rest <= Z.of_nat (S n) * sensor_cdata_max_records_per_packet type ->
  recs = take m rest /\ rest' = drop m rest /\ recs <> [] /\
  ((Z.of_nat n - 1) * sensor_cdata_max_records_per_packet type < zlen rest' <= Z.of_nat n * sensor_cdata_max_records_per_packet type \/ (n = O /\ rest' = [])).
Proof.
  set (k := sensor_cdata_max_records_per_packet type). clearbody k. intros -> -> Hl Hk Hr. rewrite zlen_app in Hl, Hr. pose proof (zlen_nonneg recs). pose proof (zlen_nonneg rest').
  assert (Hc : zlen recs = k \/ (zlen recs < k /\ rest' = [])).
  { destruct (Z.eq_dec (zlen recs) k); [by left|]. right. split; [lia|]. destruct rest' as [|? rest']; [done|]. rewrite zlen_cons in Hl. pose proof (zlen_nonneg rest'). lia. }
  assert (Hne : recs <> []) by (intros ->; change (zlen (@nil (list Z))) with 0 in *; lia).
  destruct Hc as [Hc|[Hc ->]].
  - rewrite take_app_length', drop_app_length' by (unfold zlen in Hc; lia). split; [done|]. split; [done|]. split; [done|].
    destruct n as [|n]; [right; split; [done|]; destruct rest' as [|? rest']; [done|rewrite zlen_cons in Hr; pose proof (zlen_nonneg rest'); lia]|left; lia].
  - rewrite app_nil_r, take_ge, drop_ge by (unfold zlen in Hc; lia). split; [done|]. split; [done|]. split; [done|]. right. split; [|done].
    rewrite Z.add_0_r in Hr. destruct n as [|n]; [done|nia].
Qed.

Lemma packets_loop type total n : forall seq sent rest s st, sample_type type -> reads_work D -> sends_work (D := D) -> between type total seq n sent rest s st ->
  twp (acks n) (fun _ s' st' => between type total total O (sent ++ rest) [] s' st' /\ queue st' type = queue st type /\ only type st st' /\
    s_tag_macinfo_upload_state s' = s_tag_macinfo_upload_state s /\
    lte_commands (dev st') = lte_commands (dev st) ++ packet_cmds type (seq + 1) n rest) s st.
Proof.
  induction n as [|n IH]; intros seq sent rest s st Ht Hrw Hsw [Hc (Hs1 & Hs2 & Hs3) Hfr Hst Hse Hr]; cbn [acks packet_cmds].
  - apply twp_ret. assert (rest = []) as ->.
    { destruct Hr as [Hr|[_ ->]]; [|done]. destruct rest as [|? rest]; [done|]. rewrite zlen_cons in Hr. pose proof (zlen_nonneg rest). lia. }
    rewrite !app_nil_r. split; [|auto using only_refl]. split; [rewrite Hc; by replace seq with total by lia|lia|done|done|done|by right].
  - destruct Hr as [Hr|[? _]]; [|done]. destruct (max_records type Ht) as [Hm _]. tstep. unfold sensor_handle_lte_ack. tstep. tstep. rewrite Hc. cbn [sensor_state next_seq total_packets upload_type].
    rewrite (proj2 (Z.ltb_lt _ _)) by lia. rewrite u16_small by lia. tstep. tstep. tstep.
    apply (send_next_packet_spec sent rest []); [done|cbn; lia|done|done|].
    intros recs rest' f st' r (Hrest & _ & Hmin & _ & Hst' & Ho & Hq & Hse' & Hlog) Hf _ Hr0. cbn [s_sensor_upload_ctx set_sensor upload_type next_seq] in *.
    destruct (next_take type recs rest' rest _ n eq_refl Hrest (Hmin Hrw) ltac:(lia) Hr) as (E1 & E2 & Hne & Hr'). specialize (Hr0 Hne Hsw). subst r. cbn [Z.eqb negb].
    tstep. eapply twp_mono; [apply (IH (seq + 1) (sent ++ recs) rest'); [done..|]|].
    { split; [done|lia|done|done|done|done]. }
    cbn beta. rewrite decide_False in Hlog by done. intros _ s2 st2 (Hb & Hq2 & Ho2 & Hu2 & Hlog2). rewrite Hrest, app_assoc. split; [done|]. split; [congruence|].
    split; [by eapply only_trans|]. split; [done|]. rewrite Hlog2, Hlog, <- app_assoc. cbn [app]. congruence.
Qed.

Lemma acks_split a b (Q : unit -> scan -> fs_state D -> Prop) : forall s st, twp (acks a) (fun _ => twp (acks b) Q) s st -> twp (acks (a + b)) Q s st.
Proof.
  induction a as [|a IH]; intros s st H; [done|]. cbn [acks Nat.add] in *. apply twp_bind. apply twp_done in H as (x & s2 & st2 & E & H).
  unfold bind in E. unfold twp at 1. destruct (sensor_handle_lte_ack BLE_RSP_CDATA s st) as [[[y s1] st1]| |]; [|done..].
  apply IH. by eapply twp_intro.
Qed.

(** The first packet, and how many are left. *)
Lemma packets_fit type n : sample_type type -> 0 < n ->
  (packets_of type n - 1) * sensor_cdata_max_records_per_packet type < n <= packets_of type n * sensor_cdata_max_records_per_packet type.
Proof.
  intros Ht Hn. destruct (max_records type Ht) as [Hm _]. unfold packets_of. set (m := sensor_cdata_max_records_per_packet type) in *. clearbody m.
  pose proof (Z.div_mod (n + m - 1) m ltac:(lia)). pose proof (Z.mod_pos_bound (n + m - 1) m ltac:(lia)). nia.
Qed.

Definition upload_commands (type : Z) (recs : list (list Z)) : list (list Z * option (list Z)) :=
  [(cstr "CDATA", Some (start_text type (zlen recs)))] ++ packet_cmds type 1 (Z.to_nat (packets_of type (zlen recs))) recs ++ [(cstr "CDATA", Some (cstr "END"))].

(** From the acknowledgement of the start to the message that ends the upload. *)
Lemma acked_upload type recs s st : sample_type type -> reads_work D -> sends_work (D := D) -> recs <> [] -> packets_of type (zlen recs) < 65536 ->
  store_ok rec_ok st -> session st type [] recs [] -> zlen (s_sensor_upload_frame_buf s) = SENSOR_CDATA_PARAM_MAX_LEN ->
  s_sensor_upload_ctx s = mk_sensor SENSOR_UPLOAD_STATE_CDATA_WAIT_START_ACK type (packets_of type (zlen recs)) 1 ->
  twp (acks (Z.to_nat (packets_of type (zlen recs)) + 1)) (fun _ s' st' =>
    s_sensor_upload_ctx s' = mk_sensor SENSOR_UPLOAD_STATE_CDATA_WAIT_END_ACK type (packets_of type (zlen recs)) (packets_of type (zlen recs)) /\
    s_tag_macinfo_upload_state s' = s_tag_macinfo_upload_state s /\ zlen (s_sensor_upload_frame_buf s') = SENSOR_CDATA_PARAM_MAX_LEN /\
    store_ok rec_ok st' /\ session st' type recs [] [] /\ queue st' type = queue st type /\ only type st st' /\
    lte_commands (dev st') = lte_commands (dev st) ++ packet_cmds type 1 (Z.to_nat (packets_of type (zlen recs))) recs ++ [(cstr "CDATA", Some (cstr "END"))]) s st.
Proof.
  intros Ht Hrw Hsw Hne Hbig Hst Hse Hf Hc. assert (Hn : 0 < zlen recs) by (destruct recs as [|? l]; [done|rewrite zlen_cons; pose proof (zlen_nonneg l); lia]).
  destruct (max_records type Ht) as [Hm _]. pose proof (packets_fit type (zlen recs) Ht Hn) as Hp. set (total := packets_of type (zlen recs)) in *.
  assert (Htot : 0 < total) by nia. replace (Z.to_nat total) with (S (Z.to_nat (total - 1))) by lia. cbn [acks Nat.add packet_cmds]. tstep.
  unfold sensor_handle_lte_ack at 1. tstep. tstep. rewrite Hc. cbn [sensor_state]. tstep. apply (send_next_packet_spec [] recs []); [rewrite Hc; done|rewrite Hc; cbn; lia|done|by rewrite Hc|].
  rewrite Hc. intros p1 rest f st1 r (Hrest & _ & Hmin & _ & Hst1 & Ho1 & Hq1 & Hse1 & Hlog1) Hf1 _ Hr0. cbn [upload_type next_seq app] in *.
  destruct (next_take type p1 rest recs _ (Z.to_nat (total - 1)) eq_refl Hrest (Hmin Hrw) ltac:(lia)) as (E1 & E2 & Hp1 & Hr'); [by replace (Z.of_nat (S (Z.to_nat (total - 1)))) with total by lia|].
  specialize (Hr0 Hp1 Hsw). subst r. cbn [Z.eqb negb]. rewrite decide_False in Hlog1 by done. tstep. apply acks_split.
  eapply twp_mono; [apply (packets_loop type total (Z.to_nat (total - 1)) 1 p1 rest); [done..|]|].
  { split; [unfold set_sensor_state; cbn [s_sensor_upload_ctx set_frame set_sensor]; by rewrite Hc|lia|done|done|done|done]. }
  cbn beta. intros _ s2 st2 ([Hc2 _ Hf2 Hst2 Hse2 _] & Hq2 & Ho2 & Hu2 & Hlog2). cbn [acks]. tstep. unfold sensor_handle_lte_ack. tstep. tstep. rewrite Hc2.
  cbn [sensor_state next_seq total_packets]. rewrite Z.ltb_irrefl. tstep. apply twp_send. intros st3 r Hqu Hlog3 Hr3. rewrite (Hr3 Hsw). cbn [Z.eqb negb]. tstep. tstep.
  destruct (quiet_queues st2 st3 type Hqu Hst2) as (Hst3 & Ho3 & Hq3 & Hse3).
  split; [unfold set_sensor_state; cbn [s_sensor_upload_ctx set_sensor]; by rewrite Hc2|]. split; [done|]. split; [done|]. split; [done|].
  split; [rewrite Hrest; by apply Hse3|]. split; [congruence|]. split; [apply Ho3; by eapply only_trans|].
  rewrite Hlog3, Hlog2, Hlog1, <- !app_assoc. cbn [app]. congruence.
Qed.

(** Starting the next upload leaves the records alone. *)
Lemma try_start_queues s st : store_ok rec_ok st -> zlen (s_sensor_upload_frame_buf s) = SENSOR_CDATA_PARAM_MAX_LEN ->
  twp sensor_cached_upload_try_start (fun _ _ st' => forall t, queue st' t = queue st t) s st.
Proof.
  intros Hst Hf. apply try_start_spec; [done|done|done|]. intros st' r f type n c _ _ _ Hst' Ho _ Hq _ _ _.
  assert (Hqs : forall t, queue st' t = queue st t) by (intros t; destruct (Z.eq_dec t type) as [->|Hne]; [done|by destruct (Ho t Hne)]).
  destruct (r =? 0); cbn [negb]; [by apply twp_ret|]. apply reset_spec; [done| |].
  - intros _. unfold c, type, first_type. cbn. case_decide; auto.
  - intros st2 _ _ Hq2 _ t. by rewrite Hq2.
Qed.

(** C12: on a flash that can be read and with an LTE module that takes every command, when samples wait, the LTE module is ready and no upload is going on, the upload of the type that comes first runs to its end: the commands sent are the announcement of the number of packets, exactly that many packets, numbered from one, with the waiting records in their order, as many as fit in each, and the end message; no record is removed before the end message is acknowledged, and all of them are then. *)
Theorem samples_upload_complete s st :
  let type := first_type st in
  let recs := queue st type in
  scan_inv s st -> reads_work D -> sends_work (D := D) -> g_bLteReady (dev st) = true -> recs <> [] ->
  sensor_state (s_sensor_upload_ctx s) = SENSOR_UPLOAD_STATE_IDLE -> s_tag_macinfo_upload_state s = UPLOAD_STATE_IDLE ->
  twp (sensor_cached_upload_try_start;; acks (Z.to_nat (packets_of type (zlen recs)) + 1)) (fun _ s' st' =>
    lte_commands (dev st') = lte_commands (dev st) ++ upload_commands type recs /\ queue st' type = recs /\
    twp (sensor_handle_lte_ack BLE_RSP_CDATA) (fun _ _ st'' => queue st'' type = [] /\ forall t, t <> type -> queue st'' t = queue st t) s' st') s st.
Proof.
  intros type recs [_ Hst Hu] Hrw Hsw Hrdy Hne Hidle Hup. assert (Hty : sample_type type) by (unfold type, first_type, sample_type; case_decide; auto).
  assert (Hsmall : packets_of type (zlen recs) < 65536).
  { pose proof (queue_bound st type Hst) as Hb. fold recs in Hb. clearbody recs. destruct recs as [|d l]; [done|]. rewrite zlen_cons in *. pose proof (zlen_nonneg l).
    destruct (packets_range type (1 + zlen l) Hty); lia. }
  tstep. apply try_start_spec; [done|apply Hu| |].
  { intros [Hb|[Hb|[Hb|[Hb1 Hb2]]]]; [unfold sensor_upload_busy in Hb; by rewrite Hidle in Hb|done|congruence|]. exfalso. revert Hne. unfold recs, type, first_type. rewrite decide_True by done. done. }
  intros st1 r f type' n c _ _ _ Hst1 Ho1 Hse1 Hq1 Hf1 Hlog1 Hr. rewrite (Hr Hsw). cbn [Z.eqb negb]. apply twp_ret.
  eapply twp_mono; [apply (acked_upload type recs); done|]. cbn beta. intros _ s2 st2 (Hc2 & Hu2 & Hf2 & Hst2 & Hse2 & Hq2 & Ho2 & Hlog2).
  split; [rewrite Hlog2, Hlog1; unfold upload_commands; by rewrite <- !app_assoc|]. split; [rewrite Hq2; exact Hq1|].
  unfold sensor_handle_lte_ack. tstep. tstep. rewrite Hc2. cbn [sensor_state upload_type]. tstep. apply twp_world_checked.
  destruct (store_commit rec_ok st2 type Hst2) as (st3 & r3 & -> & Hst3 & Ho3 & Hq3); [destruct Hty as [-> | ->]; done|]. eexists _, _. split; [done|].
  tstep. apply reset_spec; [done|intros _; rewrite Hc2; destruct Hty; auto|]. intros st4 Hst4 _ Hq4 _.
  eapply twp_mono; [apply try_start_queues; [done|exact Hf2]|]. cbn beta. intros _ _ st5 Hq5. rewrite Hq5, Hq4. split; [apply (Hq3 _ _ _ Hse2)|].
  intros t Ht. rewrite Hq5, Hq4. destruct (Ho1 t Ht), (Ho2 t Ht), (Ho3 t Ht). congruence.
Qed.
End samples.
