(* ===== verification/ScanUpload.v ===== *)
(** * A whole upload of devices

    Every answer of the LTE module triggers one message: the announcement of
    the number of devices, the devices of the store, the devices of the
    table, the end.  An upload that is not disturbed sends every device once,
    in order, and leaves nothing behind. *)

From S2P Require Import Prelude Text Str FlashStore FlashStoreProofs FlashStoreApi StoreClient Prog Layout SettingsData Settings AtHandlers ScanParse Scan ScanSafe ScanSensor.

Open Scope prog_scope.

(** ** The text of a device *)

Lemma hex_digit_nz d : 0 <= d < 16 -> hex_digit true d <> 0.
Proof. unfold hex_digit. destruct (d <? 10); lia. Qed.

Lemma hex_spec bs : zlen (hex bs) = 2 * zlen bs /\ no_zero (hex bs).
Proof.
  induction bs as [|b bs [IH1 IH2]]; [split; [done|constructor]|]. unfold hex in *. cbn [fmap list_fmap concat]. rewrite zlen_app, IH1, zlen_cons.
  split; [change (zlen (hex2 true b)) with 2; lia|]. apply Forall_app. split; [|done].
  unfold hex2. repeat constructor; apply hex_digit_nz; apply Z.mod_pos_bound; lia.
Qed.

Definition tag_command (x : tag_scan_result_t) (seq : Z) : list Z * option (list Z) :=
  (cstr "TAG", tag_text x seq).

Lemma c_string_short l s : c_string l = Some s -> zlen s <= zlen l.
Proof.
  revert s. induction l as [|c l IH]; intros s E; cbn [c_string] in E; [done|]. revert E. rewrite zlen_cons. pose proof (zlen_nonneg l).
  zcase; [intros [= <-]; change (zlen (@nil Z)) with 0; lia|]. intros (s' & E & [= <-])%bind_Some. specialize (IH s' E). rewrite zlen_cons. lia.
Qed.

(** The text of a tag is defined and fits the buffer of 256 bytes. *)
Lemma tag_text_fits x seq : tag_ok x -> 0 <= seq < 65536 -> exists t, tag_text x seq = Some t /\ zlen t < 256.
Proof.
  intros [[La _] (Ln & Bn & Tn) (Lf & Bf & Hf) (Lu & Bu & Hu) Hb Hr Ht] Hs. unfold tag_text, is_byte in *.
  destruct (c_string_defined (tag_name x)) as (name & -> & Hname); [apply Exists_exists; exists 0; split; [|done]; by eapply list_elem_of_lookup_2|]. cbn [mbind option_bind].
  rewrite !arr_slice_Some by (unfold UUID_MAX_LEN, TAG_FF_DATA_MAX_LEN; lia). cbn [mbind option_bind]. eexists. split; [done|].
  pose proof (dec_short 5 seq ltac:(cbn; lia) ltac:(lia)). pose proof (dec_short 10 (tag_timestamp x) ltac:(cbn; lia) ltac:(lia)).
  pose proof (dec_short 3 (battery_percent x) ltac:(cbn; lia) ltac:(lia)). pose proof (dec_short 2 (uuid_len x) ltac:(cbn; lia) ltac:(lia)).
  pose proof (dec_short 2 (ff_data_len x) ltac:(cbn; lia) ltac:(lia)). pose proof (zlen_nonneg name).
  pose proof (dec_short 2 (zlen name) ltac:(change (10 ^ Z.of_nat 2) with 100; lia) ltac:(lia)).
  assert (Hm : zlen (mac_str (tag_addr x)) <= 12) by (unfold mac_str; rewrite (proj1 (hex_spec _)); unfold zlen; rewrite length_reverse, length_take; lia).
  rewrite !zlen_app. change (zlen (cstr ",")) with 1. change (zlen (hex2 true (u8 (rssi x)))) with 2.
  assert (Hux : zlen (if 0 <? uuid_len x then hex (take (Z.to_nat (Z.min (uuid_len x) UUID_MAX_LEN)) (drop (Z.to_nat 0) (uuid x))) else cstr "N/A") <= 32).
  { destruct (0 <? uuid_len x); [|done]. rewrite (proj1 (hex_spec _)), drop_0, zlen_take. unfold UUID_MAX_LEN. lia. }
  match goal with |- context [zlen (if 0 <? ff_data_len x then ?a else ?b)] => assert (Hfx : zlen (if 0 <? ff_data_len x then a else b) <= 61) end.
  { destruct (0 <? ff_data_len x); [|done]. rewrite !zlen_app, (proj1 (hex_spec _)), drop_0, zlen_take. change (zlen (cstr ",")) with 1. unfold TAG_FF_DATA_MAX_LEN. lia. }
  lia.
Qed.

Lemma hex_append_spec bs : forall a k, zlen a + k = 256 -> 2 * zlen bs < k ->
  hex_append bs (a ++ zeros k) (zlen a) = Some ((a ++ hex bs) ++ zeros (k - 2 * zlen bs), zlen a + 2 * zlen bs).
Proof.
  induction bs as [|b bs IH]; intros a k Hk Hb; cbn [hex_append].
  - change (hex []) with (@nil Z). rewrite app_nil_r. change (zlen (@nil Z)) with 0. by rewrite Z.mul_0_r, Z.sub_0_r, Z.add_0_r.
  - rewrite zlen_cons in *. pose proof (zlen_nonneg bs). pose proof (zlen_nonneg a). change (zlen (hex2 true b)) with 2.
    rewrite snprintf_zeros by (change (zlen (hex2 true b)) with 2; lia). cbn [mbind option_bind fst snd]. change (zlen (hex2 true b)) with 2.
    replace (zlen a + 2) with (zlen (a ++ hex2 true b)) by (rewrite zlen_app; done). rewrite IH by (rewrite ?zlen_app; change (zlen (hex2 true b)) with 2; lia).
    unfold hex. cbn [fmap list_fmap concat]. rewrite <- !app_assoc. do 2 f_equal; [|rewrite zlen_app; change (zlen (hex2 true b)) with 2; lia].
    do 3 f_equal. f_equal. lia.
Qed.

Definition tran_full_text (x : tran_mac_result_item_t) (seq : Z) : list Z :=
  (dec seq ++ cstr "," ++ dec (tran_timestamp x) ++ cstr "," ++ mac_str (tran_addr x) ++ cstr "," ++ dec (adv_data_len x) ++ cstr ",")
  ++ hex (take (Z.to_nat (adv_data_len x)) (adv_data x)).

Definition tran_command (x : tran_mac_result_item_t) (seq : Z) : list Z * option (list Z) := (cstr "MACINFO", Some (tran_full_text x seq)).

(** The text built piece by piece in the buffer is complete. *)
Lemma tran_text_spec x seq : tran_ok x -> tran_text x seq = Some (tran_full_text x seq).
Proof.
  intros [[La _] (Ld & Bd & Hd) Ht]. unfold tran_text, tran_full_text. set (h := dec seq ++ _).
  assert (Hh : zlen h <= 79 /\ no_zero h).
  { unfold h. rewrite !zlen_app. change (zlen (cstr ",")) with 1. pose proof (dec_len seq). pose proof (dec_len (tran_timestamp x)). pose proof (dec_len (adv_data_len x)).
    assert (zlen (mac_str (tran_addr x)) <= 12) by (unfold mac_str; rewrite (proj1 (hex_spec _)); unfold zlen; rewrite length_reverse, length_take; lia). split; [lia|].
    unfold mac_str. repeat (apply Forall_app; split); try apply dec_no_zero; try apply hex_spec; by repeat constructor. }
  destruct Hh as [Hl Hn]. pose proof (zlen_nonneg h). change (snprintf_at (replicate 256 0) 0 256 h) with (snprintf_at ([] ++ zeros 256) (zlen (@nil Z)) 256 h).
  rewrite (snprintf_zeros [] 256 256 h) by lia. cbn [mbind option_bind fst snd app]. rewrite arr_slice_Some, drop_0 by lia. cbn [mbind option_bind].
  assert (Lt : zlen (take (Z.to_nat (adv_data_len x)) (adv_data x)) = adv_data_len x) by (rewrite zlen_take; lia).
  rewrite hex_append_spec by lia. cbn [mbind option_bind fst]. apply c_string_zeros; [|lia]. apply Forall_app. split; [done|apply hex_spec].
Qed.

Section upload.
Context {D : Type} {SIO : ScanIO D} {HL : ScanLaws D}.
Notation scanner := (prog scan (fs_state D)).
Implicit Types (s : scan) (st : fs_state D).

Lemma tag_upload_one_spec x seq (Q : unit -> scan -> fs_state D -> Prop) s st : tag_ok x -> 0 <= seq < 65536 ->
  (forall st', quiet st st' -> lte_commands (dev st') = lte_commands (dev st) ++ [tag_command x seq] -> Q tt s st') -> twp (tag_scan_upload_one x seq) Q s st.
Proof.
  intros Hx Hs HQ. unfold tag_scan_upload_one. destruct (tag_text_fits x seq Hx Hs) as (t & Et & Hl). tstep. eapply twp_checked; [exact Et|]. tstep.
  apply twp_send. intros st' r Hq Hlog _. apply twp_ret, HQ; [done|]. rewrite Hlog. unfold tag_command. rewrite Et. cbn [fst snprintf]. by rewrite take_ge by (unfold zlen in Hl; lia).
Qed.

Lemma tran_upload_one_spec x seq (Q : unit -> scan -> fs_state D -> Prop) s st : tran_ok x -> 0 <= seq < 65536 ->
  (forall st', quiet st st' -> lte_commands (dev st') = lte_commands (dev st) ++ [tran_command x seq] -> Q tt s st') -> twp (tran_mac_upload_one x seq) Q s st.
Proof.
  intros Hx Hs HQ. unfold tran_mac_upload_one. tstep. eapply twp_checked; [by apply tran_text_spec|]. tstep. apply twp_send. intros st' r Hq Hlog _. by apply twp_ret, HQ.
Qed.

(** One message of an upload: the next record of the store, the next entry of the table, or the end. *)
Lemma next_item_spec {A} type (l : list A) of_record upload_one fin sent rest new (Q : unit -> scan -> fs_state D -> Prop) s st :
  store_ok rec_ok st -> 0 <= type < 4 -> session st type sent rest new ->
  let seq := u16 (s_tag_macinfo_seq s + 1) in
  (forall st' d rest', rest = d :: rest' -> rec_ok type d -> store_ok rec_ok st' -> only type st st' -> queue st' type = queue st type ->
     lte_commands (dev st') = lte_commands (dev st) -> session st' type (sent ++ [d]) rest' new ->
     twp (upload_one (of_record d) seq) Q (set_seq seq (set_consumed (u16 (s_flash_consumed s + 1)) s)) st') ->
  (forall st', (reads_work D -> rest = []) -> store_ok rec_ok st' -> only type st st' -> queue st' type = queue st type ->
     lte_commands (dev st') = lte_commands (dev st) -> session st' type sent rest new ->
     let i := u16 (s_tag_macinfo_seq s - s_flash_consumed s) in
     if i <? s_rt_count_snap s then exists x, arr_get l i = Some x /\ twp (upload_one x seq) Q (set_seq seq s) st' else twp fin Q s st') ->
  twp (next_item type l of_record upload_one fin) Q s st.
Proof.
  intros Hst Ht Hse seq H1 H0. unfold next_item. tstep. apply (read_next_spec type sent rest new); [done|done|done| |].
  - intros st' d rest' Hr Hd Hst' Ho Hq Hlog Hse'. tstep. tstep. cbn [fst snd Z.eqb Pos.eqb]. tstep. tstep. by apply (H1 st' d rest').
  - intros st' r d Hr Hw Hst' Ho Hq Hlog Hse'. specialize (H0 st' Hw Hst' Ho Hq Hlog Hse'). tstep. tstep. cbn [fst]. rewrite (proj2 (Z.eqb_neq _ _)) by lia.
    cbv zeta in *. destruct (_ <? s_rt_count_snap s); [|done]. destruct H0 as (x & Ex & H0). tstep. eapply twp_checked; [exact Ex|]. tstep. tstep. done.
Qed.

(** ** A round: one kind of devices *)

Fixpoint calls (n : nat) : scanner unit := match n with O => ret tt | S n => tag_mac_scan_upload_data;; calls n end.

Lemma calls_split a b (Q : unit -> scan -> fs_state D -> Prop) : forall s st, twp (calls a) (fun _ => twp (calls b) Q) s st -> twp (calls (a + b)) Q s st.
Proof.
  induction a as [|a IH]; intros s st H; [done|]. cbn [calls Nat.add] in *. apply twp_bind. apply twp_done in H as (x & s2 & st2 & E & H).
  unfold bind in E. unfold twp at 1. destruct (tag_mac_scan_upload_data s st) as [[[y s1] st1]| |]; [|done..]. apply IH. by eapply twp_intro.
Qed.

Section round.
Context {A : Type} (type : Z) (ust : upload_state_t) (tbl : scan -> table A) (of_rec : list Z -> A) (one : A -> Z -> scanner unit)
  (cmd : A -> Z -> list Z * option (list Z)) (ok : A -> Prop) (fin : scanner unit).
Hypothesis Htype : 0 <= type < 4.
Hypothesis tbl_seq : forall s a b, tbl (set_seq a (set_consumed b s)) = tbl s.
Hypothesis step : forall s st (Q : unit -> scan -> fs_state D -> Prop), s_tag_macinfo_upload_state s = ust -> scan_state (s_scan_config s) <> SCAN_STATE_SCANNING ->
  twp (next_item type (t_items (tbl s)) of_rec one fin) Q s st -> twp tag_mac_scan_upload_data Q s st.
Hypothesis one_spec : forall x seq (Q : unit -> scan -> fs_state D -> Prop) s st, ok x -> 0 <= seq < 65536 ->
  (forall st', quiet st st' -> lte_commands (dev st') = lte_commands (dev st) ++ [cmd x seq] -> Q tt s st') -> twp (one x seq) Q s st.
Hypothesis rec_of : forall d, rec_ok type d -> ok (of_rec d).

Fixpoint item_cmds (seq : Z) (xs : list A) : list (list Z * option (list Z)) :=
  match xs with [] => [] | x :: xs => cmd x (seq + 1) :: item_cmds (seq + 1) xs end.

Lemma item_cmds_app xs ys : forall seq, item_cmds seq (xs ++ ys) = item_cmds seq xs ++ item_cmds (seq + zlen xs) ys.
Proof.
  induction xs as [|x xs IH]; intros seq; cbn [item_cmds app]; [by rewrite Z.add_0_r|]. rewrite IH, zlen_cons. do 2 f_equal. by rewrite <- Z.add_assoc.
Qed.

(** The variables during a round that has sent the records [sent] and [k] entries of the table; [s0] is the state at its start. *)
Definition at_item s0 (sent : list (list Z)) (k : Z) s : Prop := s = set_seq (zlen sent + k) (set_consumed (zlen sent) s0).

Lemma store_part s0 rest : forall sent s st, reads_work D -> s_tag_macinfo_upload_state s0 = ust -> scan_state (s_scan_config s0) <> SCAN_STATE_SCANNING ->
  store_ok rec_ok st -> session st type sent rest [] -> at_item s0 sent 0 s -> zlen (sent ++ rest) < 65536 ->
  twp (calls (length rest)) (fun _ s' st' => at_item s0 (sent ++ rest) 0 s' /\ store_ok rec_ok st' /\ session st' type (sent ++ rest) [] [] /\ only type st st' /\
    lte_commands (dev st') = lte_commands (dev st) ++ item_cmds (zlen sent) (of_rec <$> rest)) s st.
Proof.
  induction rest as [|d rest IH]; intros sent s st Hrw Hu Hsc Hst Hse Hat Hlen; cbn [calls length fmap list_fmap item_cmds].
  - apply twp_ret. rewrite !app_nil_r. auto using only_refl.
  - tstep. rewrite zlen_app, zlen_cons in Hlen. pose proof (zlen_nonneg rest). pose proof (zlen_nonneg sent). rewrite Hat. apply step; [done|done|].
    apply (next_item_spec type _ of_rec one fin sent (d :: rest) []); [done|done|done| |intros st' Hw; by specialize (Hw Hrw)].
    intros st' d' rest' [= <- <-] Hd Hst' Ho Hq Hlog Hse'. cbn [s_tag_macinfo_seq s_flash_consumed set_seq set_consumed]. rewrite Z.add_0_r, u16_small by lia.
    apply one_spec; [by apply rec_of|lia|]. intros st2 Hqu Hlog2. destruct (quiet_queues st' st2 type Hqu Hst') as (Hst2 & Ho2 & _ & Hse2).
    eapply twp_mono; [apply (IH (sent ++ [d])); [done..|by apply Hse2| |rewrite !zlen_app; change (zlen [d]) with 1; lia]|].
    { unfold at_item. rewrite zlen_app. change (zlen [d]) with 1. by rewrite Z.add_0_r. }
    cbn beta. rewrite <- !app_assoc. cbn [app]. intros _ s' st3 (H1 & H2 & H3 & H4 & H5). split; [done|]. split; [done|]. split; [done|].
    split; [eapply only_trans; [apply Ho2; exact Ho|done]|]. rewrite H5, Hlog2, Hlog, <- app_assoc. cbn [app]. rewrite zlen_app. done.
Qed.

Lemma table_part s0 sent n : forall k s st, reads_work D -> s_tag_macinfo_upload_state s0 = ust -> scan_state (s_scan_config s0) <> SCAN_STATE_SCANNING ->
  store_ok rec_ok st -> session st type sent [] [] -> at_item s0 sent k s -> 0 <= k -> k + Z.of_nat n = s_rt_count_snap s0 ->
  s_rt_count_snap s0 <= zlen (t_items (tbl s0)) -> Forall ok (t_items (tbl s0)) -> zlen sent + s_rt_count_snap s0 < 65536 ->
  twp (calls n) (fun _ s' st' => at_item s0 sent (s_rt_count_snap s0) s' /\ store_ok rec_ok st' /\ session st' type sent [] [] /\ only type st st' /\
    lte_commands (dev st') = lte_commands (dev st) ++ item_cmds (zlen sent + k) (take n (drop (Z.to_nat k) (t_items (tbl s0))))) s st.
Proof.
  induction n as [|n IH]; intros k s st Hrw Hu Hsc Hst Hse Hat Hk Hn Hsn Hok Hlen; cbn [calls].
  - apply twp_ret. replace (s_rt_count_snap s0) with k by lia. cbn. rewrite app_nil_r. auto using only_refl.
  - pose proof (zlen_nonneg sent). destruct (arr_get_Some (t_items (tbl s0)) k) as [x Ex]; [lia|]. pose proof (proj2 (arr_get_inv _ _ _ Ex)) as Ex'.
    tstep. rewrite Hat. apply step; [done|done|]. apply (next_item_spec type _ of_rec one fin sent [] []); [done|done|done|intros; done|].
    intros st' _ Hst' Ho Hq Hlog Hse'. cbn [s_tag_macinfo_seq s_flash_consumed s_rt_count_snap set_seq set_consumed]. rewrite Z.add_simpl_l, !u16_small by lia. rewrite (proj2 (Z.ltb_lt _ _)) by lia.
    exists x. split; [by rewrite tbl_seq|]. apply one_spec; [by eapply Forall_lookup_1|lia|]. intros st2 Hqu Hlog2.
    destruct (quiet_queues st' st2 type Hqu Hst') as (Hst2 & Ho2 & _ & Hse2).
    eapply twp_mono; [apply (IH (k + 1)); [done..|by apply Hse2| |lia|lia|done|done|done]|].
    { unfold at_item. by rewrite <- Z.add_assoc. }
    cbn beta. intros _ s' st3 (H1 & H2 & H3 & H4 & H5). split; [done|]. split; [done|]. split; [done|]. split; [eapply only_trans; [apply Ho2; exact Ho|done]|].
    rewrite H5, Hlog2, Hlog, <- app_assoc. cbn [app]. rewrite (drop_S _ x _ Ex'). cbn [take firstn item_cmds].
    replace (S (Z.to_nat k)) with (Z.to_nat (k + 1)) by lia. by rewrite Z.add_assoc.
Qed.

(** After the announcement: everything is sent, then the end. *)
Lemma round_spec s st recs (Q : unit -> scan -> fs_state D -> Prop) : reads_work D -> s_tag_macinfo_upload_state s = ust -> scan_state (s_scan_config s) <> SCAN_STATE_SCANNING ->
  s_tag_macinfo_seq s = 0 -> s_flash_consumed s = 0 -> store_ok rec_ok st -> session st type [] recs [] ->
  0 <= s_rt_count_snap s <= zlen (t_items (tbl s)) -> Forall ok (t_items (tbl s)) -> zlen recs + s_rt_count_snap s < 65536 ->
  (forall s' st', s' = set_seq (zlen recs + s_rt_count_snap s) (set_consumed (zlen recs) s) -> store_ok rec_ok st' -> session st' type recs [] [] -> only type st st' ->
     lte_commands (dev st') = lte_commands (dev st) ++ item_cmds 0 ((of_rec <$> recs) ++ take (Z.to_nat (s_rt_count_snap s)) (t_items (tbl s))) -> twp fin Q s' st') ->
  twp (calls (length recs + Z.to_nat (s_rt_count_snap s) + 1)) Q s st.
Proof.
  intros Hrw Hu Hsc Hz Hz2 Hst Hse Hsn Hok Hlen HQ. apply calls_split, calls_split. pose proof (zlen_nonneg recs).
  eapply twp_mono; [apply (store_part s recs []); [done..| |rewrite app_nil_l; lia]|].
  { unfold at_item. change (zlen (@nil (list Z))) with 0. destruct s. cbn in *. by subst. }
  cbn beta. cbn [app]. intros _ s1 st1 (Hat1 & Hst1 & Hse1 & Ho1 & Hlog1).
  eapply twp_mono; [apply (table_part s recs (Z.to_nat (s_rt_count_snap s)) 0); [done..|lia|lia|done|lia]|].
  cbn beta. intros _ s2 st2 (Hat2 & Hst2 & Hse2 & Ho2 & Hlog2). cbn [calls]. tstep. rewrite Hat2. apply step; [done|done|].
  apply (next_item_spec type _ of_rec one fin recs [] []); [done|done|done|intros; done|]. intros st3 _ Hst3 Ho3 Hq3 Hlog3 Hse3.
  cbn [s_tag_macinfo_seq s_flash_consumed s_rt_count_snap set_seq set_consumed]. rewrite Z.add_simpl_l, u16_small by lia. rewrite Z.ltb_irrefl.
  eapply twp_mono; [apply HQ; [done|done|done|eapply only_trans; [done|eapply only_trans; done]|]|].
  - rewrite Hlog3, Hlog2, Hlog1, item_cmds_app, <- app_assoc. cbn [app]. change (zlen (@nil (list Z))) with 0. rewrite drop_0.
    assert (zlen (of_rec <$> recs) = zlen recs) as -> by (unfold zlen; by rewrite length_fmap). by rewrite Z.add_0_r.
  - intros [] s' st' HQ'. by apply twp_ret.
Qed.
End round.

(** ** Tags, then the devices of the settings *)

Lemma pending_spec t (Q : Z -> scan -> fs_state D -> Prop) s st : store_ok rec_ok st -> 0 <= t < 4 -> Q (zlen (queue st t)) s st -> twp (pending_count t) Q s st.
Proof. intros Hst Ht HQ. apply twp_world. intros a w [= <- <-]. by rewrite (store_count rec_ok). Qed.

Lemma start_round_spec ust type count name total (Q : unit -> scan -> fs_state D -> Prop) s st : store_ok rec_ok st -> 0 <= type < 4 -> 0 <= total < 65536 ->
  (forall st', store_ok rec_ok st' -> only type st st' -> queue st' type = queue st type -> session st' type [] (queue st type) [] ->
     lte_commands (dev st') = lte_commands (dev st) ++ [(name, Some (cstr "START," ++ dec total))] -> Q tt (set_snap count (set_round ust 0 0 s)) st') ->
  twp (start_round ust type count name total) Q s st.
Proof.
  intros Hst Ht Htot HQ. unfold start_round. tstep. tstep. tstep. apply twp_world. intros [] st1 [= <-]. destruct (store_begin rec_ok st type Hst Ht) as (Hst1 & Ho1 & Hse1 & Hq1).
  tstep. apply twp_send. intros st2 r Hqu Hlog _. apply twp_ret. destruct (quiet_queues _ st2 type Hqu Hst1) as (Hst2 & Ho2 & Hq2 & Hse2).
  apply HQ; [done|by apply Ho2|congruence|by apply Hse2|]. rewrite Hlog. cbn [fst snprintf].
  rewrite take_ge by (rewrite length_app; pose proof (dec_short 5 total ltac:(cbn; lia) ltac:(lia)) as Hd; unfold zlen in Hd; change (length (cstr "START,")) with 6%nat; lia).
  f_equal. unfold my_flash_store_upload_begin. by destruct (s_inited st), (fs_get_region st type).
Qed.

Definition tags_waiting s st : Z := zlen (queue st FS_TYPE_TAG) + t_count (s_result_table s).
Definition macs_waiting s st : Z := zlen (queue st FS_TYPE_MAC) + t_count (s_tran_mac_result_table s).

(** The messages of a round: how many devices, the stored ones, those of the table, the end. *)
Definition tag_round s st : list (list Z * option (list Z)) :=
  if decide (tags_waiting s st = 0) then [] else
  [(cstr "TAG", Some (cstr "START," ++ dec (tags_waiting s st)))] ++
  item_cmds tag_command 0 ((of_bytes <$> queue st FS_TYPE_TAG) ++ take (Z.to_nat (t_count (s_result_table s))) (t_items (s_result_table s))) ++
  [(cstr "TAG", Some (cstr "END"))].
Definition mac_round s st : list (list Z * option (list Z)) :=
  if decide (macs_waiting s st = 0) then [] else
  [(cstr "MACINFO", Some (cstr "START," ++ dec (macs_waiting s st)))] ++
  item_cmds tran_command 0 ((of_bytes <$> queue st FS_TYPE_MAC) ++ take (Z.to_nat (t_count (s_tran_mac_result_table s))) (t_items (s_tran_mac_result_table s))) ++
  [(cstr "MACINFO", Some (cstr "END"))].

(** The number of messages of a round of [n] devices. *)
Definition messages (n : Z) : nat := if decide (n = 0) then O else Z.to_nat (n + 2).

Definition tag_done : scanner unit :=
  commit FS_TYPE_TAG;;
  modify (fun s => set_results (clear TAG_RESULT_MAX_NUM) (set_round UPLOAD_STATE_TAG_END 0 0 s));;
  send (cstr "TAG") (cstr "END");; ret tt.
Definition mac_done : scanner unit :=
  commit FS_TYPE_MAC;;
  modify (set_round UPLOAD_STATE_MAC_END 0 0);;
  send (cstr "MACINFO") (cstr "END");;
  modify (set_trans (clear TRAN_MAC_MAX_NUM)).

Lemma tag_step s st (Q : unit -> scan -> fs_state D -> Prop) : s_tag_macinfo_upload_state s = UPLOAD_STATE_TAG_START -> scan_state (s_scan_config s) <> SCAN_STATE_SCANNING ->
  twp (next_item FS_TYPE_TAG (t_items (s_result_table s)) of_bytes tag_scan_upload_one tag_done) Q s st -> twp tag_mac_scan_upload_data Q s st.
Proof. intros Hu Hs H. unfold tag_mac_scan_upload_data. tstep. tstep. rewrite decide_False by done. tstep. apply twp_world. intros a w [= <- <-]. tstep. apply twp_world. intros a w [= <- <-]. by rewrite Hu. Qed.

Lemma mac_step s st (Q : unit -> scan -> fs_state D -> Prop) : s_tag_macinfo_upload_state s = UPLOAD_STATE_MAC_START -> scan_state (s_scan_config s) <> SCAN_STATE_SCANNING ->
  twp (next_item FS_TYPE_MAC (t_items (s_tran_mac_result_table s)) of_bytes tran_mac_upload_one mac_done) Q s st -> twp tag_mac_scan_upload_data Q s st.
Proof. intros Hu Hs H. unfold tag_mac_scan_upload_data. tstep. tstep. rewrite decide_False by done. tstep. apply twp_world. intros a w [= <- <-]. tstep. apply twp_world. intros a w [= <- <-]. by rewrite Hu. Qed.

Lemma commit_spec t (Q : Z -> scan -> fs_state D -> Prop) s st : store_ok rec_ok st -> 0 <= t < 4 ->
  (forall r st', store_ok rec_ok st' -> only t st st' -> (forall sent rest new, session st t sent rest new -> queue st' t = rest ++ new) ->
     lte_commands (dev st') = lte_commands (dev st) -> Q r s st') -> twp (commit t) Q s st.
Proof.
  intros Hst Ht HQ. apply twp_world_checked. destruct (store_commit rec_ok st t Hst Ht) as (st' & r & E & Hst' & Ho & Hq). rewrite E. eexists _, _. split; [done|].
  apply HQ; [done..|]. by apply (commit_view lte_commands st t st' r law_zms_write_log).
Qed.

(** The announcement of the tags. *)
Lemma tag_start_spec s st (Q : unit -> scan -> fs_state D -> Prop) : found_ok s -> store_ok rec_ok st -> scan_state (s_scan_config s) <> SCAN_STATE_SCANNING ->
  s_tag_macinfo_upload_state s = UPLOAD_STATE_IDLE -> sensor_state (s_sensor_upload_ctx s) = SENSOR_UPLOAD_STATE_IDLE -> tags_waiting s st <> 0 ->
  (forall s1 st1, s_tag_macinfo_upload_state s1 = UPLOAD_STATE_TAG_START -> scan_state (s_scan_config s1) = SCAN_STATE_WAITING_UPLOAD -> s_tag_macinfo_seq s1 = 0 -> s_flash_consumed s1 = 0 ->
     s_rt_count_snap s1 = t_count (s_result_table s) -> s_result_table s1 = s_result_table s -> s_tran_mac_result_table s1 = s_tran_mac_result_table s -> found_ok s1 ->
     store_ok rec_ok st1 -> only FS_TYPE_TAG st st1 -> session st1 FS_TYPE_TAG [] (queue st FS_TYPE_TAG) [] ->
     lte_commands (dev st1) = lte_commands (dev st) ++ [(cstr "TAG", Some (cstr "START," ++ dec (tags_waiting s st)))] -> Q tt s1 st1) ->
  twp tag_mac_scan_upload_data Q s st.
Proof.
  intros Hf Hst Hsc Hu Hsn Hn HQ. pose proof (queue_bound st FS_TYPE_TAG Hst) as Hb. pose proof (fo_tags _ Hf) as (_ & Hc & _). unfold TAG_RESULT_MAX_NUM in Hc.
  pose proof (zlen_nonneg (queue st FS_TYPE_TAG)). unfold tags_waiting in *. unfold tag_mac_scan_upload_data. tstep. tstep. rewrite decide_False by done.
  tstep. apply pending_spec; [done|done|]. tstep. apply pending_spec; [done|done|].
  rewrite Hu. unfold sensor_upload_busy. rewrite bool_decide_true by done. cbn [negb]. rewrite u32_small by lia. rewrite (proj2 (Z.eqb_neq _ 0)) by lia.
  tstep. apply start_round_spec; [done|done|lia|]. intros st1 Hst1 Ho1 Hq1 Hse1 Hlog1. tstep. apply HQ; try done. by destruct Hf.
Qed.

(** From the announcement to the end message; the table may have got more entries since. *)
Lemma tags_sent s st recs : found_ok s -> store_ok rec_ok st -> reads_work D -> scan_state (s_scan_config s) <> SCAN_STATE_SCANNING ->
  s_tag_macinfo_upload_state s = UPLOAD_STATE_TAG_START -> s_tag_macinfo_seq s = 0 -> s_flash_consumed s = 0 -> 0 <= s_rt_count_snap s <= TAG_RESULT_MAX_NUM ->
  session st FS_TYPE_TAG [] recs [] -> zlen recs <= 4760 ->
  twp (calls (length recs + Z.to_nat (s_rt_count_snap s) + 1)) (fun _ s' st' => s_tag_macinfo_upload_state s' = UPLOAD_STATE_TAG_END /\ s_scan_config s' = s_scan_config s /\
    s_result_table s' = clear TAG_RESULT_MAX_NUM /\ s_tran_mac_result_table s' = s_tran_mac_result_table s /\ found_ok s' /\
    store_ok rec_ok st' /\ only FS_TYPE_TAG st st' /\ queue st' FS_TYPE_TAG = [] /\
    lte_commands (dev st') = lte_commands (dev st) ++
      item_cmds tag_command 0 ((of_bytes <$> recs) ++ take (Z.to_nat (s_rt_count_snap s)) (t_items (s_result_table s))) ++ [(cstr "TAG", Some (cstr "END"))]) s st.
Proof.
  intros Hf Hst Hrw Hsc Hu Hq Hc Hsn Hse Hb. pose proof (fo_tags _ Hf) as (Hl & _ & HP). unfold TAG_RESULT_MAX_NUM in Hl, Hsn. pose proof (zlen_nonneg recs).
  apply (round_spec FS_TYPE_TAG UPLOAD_STATE_TAG_START s_result_table of_bytes tag_scan_upload_one tag_command tag_ok tag_done);
    [done|done|apply tag_step|apply tag_upload_one_spec|apply rec_tag|done|done|done|done|done|done|done|lia|done|lia|].
  intros s2 st2 -> Hst2 Hse2 Ho2 Hlog2. unfold tag_done. tstep. apply commit_spec; [done|done|]. intros r st3 Hst3 Ho3 Hq3 Hlog3.
  tstep. tstep. tstep. apply twp_send. intros st4 r4 Hqu Hlog4 _. apply twp_ret. destruct (quiet_queues st3 st4 FS_TYPE_TAG Hqu Hst3) as (Hst4 & Ho4 & Hq4 & _).
  split; [done|]. split; [done|]. split; [done|]. split; [done|]. split; [destruct Hf; split; [done| |done..]; apply clear_tags_ok|]. split; [done|].
  split; [apply Ho4; by eapply only_trans|]. split; [rewrite Hq4; apply (Hq3 _ _ _ Hse2)|]. by rewrite Hlog4, Hlog3, Hlog2, <- app_assoc.
Qed.

Lemma tag_round_spec s st : found_ok s -> store_ok rec_ok st -> reads_work D -> scan_state (s_scan_config s) <> SCAN_STATE_SCANNING ->
  s_tag_macinfo_upload_state s = UPLOAD_STATE_IDLE -> sensor_state (s_sensor_upload_ctx s) = SENSOR_UPLOAD_STATE_IDLE -> tags_waiting s st <> 0 ->
  twp (calls (messages (tags_waiting s st))) (fun _ s' st' => s_tag_macinfo_upload_state s' = UPLOAD_STATE_TAG_END /\ scan_state (s_scan_config s') = SCAN_STATE_WAITING_UPLOAD /\
    s_result_table s' = clear TAG_RESULT_MAX_NUM /\ s_tran_mac_result_table s' = s_tran_mac_result_table s /\ found_ok s' /\
    store_ok rec_ok st' /\ only FS_TYPE_TAG st st' /\ queue st' FS_TYPE_TAG = [] /\ lte_commands (dev st') = lte_commands (dev st) ++ tag_round s st) s st.
Proof.
  intros Hf Hst Hrw Hsc Hu Hsn Hn. pose proof (queue_bound st FS_TYPE_TAG Hst) as Hb. pose proof (fo_tags _ Hf) as (_ & Hc & _).
  pose proof (zlen_nonneg (queue st FS_TYPE_TAG)). unfold messages, tag_round. rewrite !decide_False by done.
  replace (Z.to_nat (tags_waiting s st + 2)) with (S (length (queue st FS_TYPE_TAG) + Z.to_nat (t_count (s_result_table s)) + 1)) by (unfold tags_waiting, zlen in *; lia).
  cbn [calls]. tstep. apply tag_start_spec; [done..|]. intros s1 st1 Hu1 Hsc1 Hq1 Hc1 Hsn1 Hr1 Ht1 Hf1 Hst1 Ho1 Hse1 Hlog1. rewrite <- Hsn1.
  eapply twp_mono; [apply tags_sent; [done|done|done|by rewrite Hsc1|done|done|done|by rewrite Hsn1|done|done]|].
  cbn beta. intros _ s' st' (H1 & H2 & H3 & H4 & H5 & H6 & H7 & H8 & H9). split; [done|]. split; [by rewrite H2|]. split; [done|]. split; [by rewrite H4|]. split; [done|]. split; [done|].
  split; [by eapply only_trans|]. split; [done|]. rewrite H9, Hlog1, Hsn1, Hr1, <- !app_assoc. done.
Qed.

(** The round starts when there are no tags, or after their round. *)
Definition mac_ready s st : Prop :=
  (s_tag_macinfo_upload_state s = UPLOAD_STATE_IDLE /\ sensor_state (s_sensor_upload_ctx s) = SENSOR_UPLOAD_STATE_IDLE /\ tags_waiting s st = 0) \/
  s_tag_macinfo_upload_state s = UPLOAD_STATE_TAG_END.

Lemma mac_start_spec s st (Q : unit -> scan -> fs_state D -> Prop) : found_ok s -> store_ok rec_ok st -> scan_state (s_scan_config s) <> SCAN_STATE_SCANNING ->
  mac_ready s st -> macs_waiting s st <> 0 ->
  (forall s1 st1, s_tag_macinfo_upload_state s1 = UPLOAD_STATE_MAC_START -> scan_state (s_scan_config s1) <> SCAN_STATE_SCANNING -> s_tag_macinfo_seq s1 = 0 -> s_flash_consumed s1 = 0 ->
     s_rt_count_snap s1 = t_count (s_tran_mac_result_table s) -> s_tran_mac_result_table s1 = s_tran_mac_result_table s -> s_result_table s1 = s_result_table s -> found_ok s1 ->
     store_ok rec_ok st1 -> only FS_TYPE_MAC st st1 -> session st1 FS_TYPE_MAC [] (queue st FS_TYPE_MAC) [] ->
     lte_commands (dev st1) = lte_commands (dev st) ++ [(cstr "MACINFO", Some (cstr "START," ++ dec (macs_waiting s st)))] -> Q tt s1 st1) ->
  twp tag_mac_scan_upload_data Q s st.
Proof.
  intros Hf Hst Hsc Hr Hn HQ. pose proof (queue_bound st FS_TYPE_MAC Hst). pose proof (queue_bound st FS_TYPE_TAG Hst). pose proof (fo_trans _ Hf) as (_ & Hc & _). pose proof (fo_tags _ Hf) as (_ & Hc' & _).
  unfold TRAN_MAC_MAX_NUM in Hc. pose proof (zlen_nonneg (queue st FS_TYPE_MAC)). pose proof (zlen_nonneg (queue st FS_TYPE_TAG)). unfold macs_waiting in *.
  unfold tag_mac_scan_upload_data. tstep. tstep. rewrite decide_False by done. tstep. apply pending_spec; [done|done|]. tstep. apply pending_spec; [done|done|].
  rewrite (u32_small (zlen (queue st FS_TYPE_MAC) + _)) by lia. destruct Hr as [(Hu & Hsn & Ht)|Hu]; rewrite Hu.
  - unfold tags_waiting in Ht. unfold sensor_upload_busy. rewrite bool_decide_true by done. cbn [negb]. rewrite Ht. change (u32 0 =? 0) with true. cbv iota. rewrite (proj2 (Z.eqb_neq _ 0)) by lia.
    tstep. apply start_round_spec; [done|done|lia|]. intros st1 Hst1 Ho1 Hq1 Hse1 Hlog1. tstep. apply HQ; try done. by destruct Hf.
  - rewrite (proj2 (Z.eqb_neq _ 0)) by lia. apply start_round_spec; [done|done|lia|]. intros st1 Hst1 Ho1 Hq1 Hse1 Hlog1. apply HQ; try done. by destruct Hf.
Qed.

Lemma mac_round_spec s st : found_ok s -> store_ok rec_ok st -> reads_work D -> scan_state (s_scan_config s) <> SCAN_STATE_SCANNING -> mac_ready s st -> macs_waiting s st <> 0 ->
  twp (calls (messages (macs_waiting s st))) (fun _ s' st' => s_tag_macinfo_upload_state s' = UPLOAD_STATE_MAC_END /\ s_result_table s' = s_result_table s /\
    s_tran_mac_result_table s' = clear TRAN_MAC_MAX_NUM /\ only FS_TYPE_MAC st st' /\ queue st' FS_TYPE_MAC = [] /\ lte_commands (dev st') = lte_commands (dev st) ++ mac_round s st) s st.
Proof.
  intros Hf Hst Hrw Hsc Hr Hn. pose proof (queue_bound st FS_TYPE_MAC Hst) as Hb. pose proof (fo_trans _ Hf) as (Hl & Hc & HP). unfold TRAN_MAC_MAX_NUM in Hl, Hc.
  pose proof (zlen_nonneg (queue st FS_TYPE_MAC)). unfold messages, mac_round. rewrite !decide_False by done.
  replace (Z.to_nat (macs_waiting s st + 2)) with (S (length (queue st FS_TYPE_MAC) + Z.to_nat (t_count (s_tran_mac_result_table s)) + 1)) by (unfold macs_waiting, zlen in *; lia).
  cbn [calls]. tstep. apply mac_start_spec; [done..|]. intros s1 st1 Hu1 Hsc1 Hq1 Hc1 Hsn1 Ht1 Hr1 Hf1 Hst1 Ho1 Hse1 Hlog1. rewrite <- Hsn1.
  apply (round_spec FS_TYPE_MAC UPLOAD_STATE_MAC_START s_tran_mac_result_table of_bytes tran_mac_upload_one tran_command tran_ok mac_done);
    [done|done|apply mac_step|apply tran_upload_one_spec|apply rec_tran|done|done|done|done|done|done|done|rewrite Hsn1, Ht1; lia|by rewrite Ht1|rewrite Hsn1; lia|].
  intros s2 st2 -> Hst2 Hse2 Ho2 Hlog2. unfold mac_done. tstep. apply commit_spec; [done|done|]. intros r st3 Hst3 Ho3 Hq3 Hlog3.
  tstep. tstep. tstep. apply twp_send. intros st4 r4 Hqu Hlog4 _. apply twp_modify. destruct (quiet_queues st3 st4 FS_TYPE_MAC Hqu Hst3) as (Hst4 & Ho4 & Hq4 & _).
  split; [done|]. split; [done|]. split; [done|]. split; [apply Ho4; eapply only_trans; [done|]; by eapply only_trans|]. split; [rewrite Hq4; apply (Hq3 _ _ _ Hse2)|].
  rewrite Hlog4, Hlog3, Hlog2, Hlog1, Hsn1, Ht1, <- !app_assoc. done.
Qed.

(** C13: an upload of devices that nothing disturbs, started while no scan and no other upload is going on, sends exactly these messages: if tags wait, their number, every tag of the store and then of the table, numbered from one, and the end; then, if devices of the settings wait, their number, each of them, and the end.  Afterwards both tables and both stored queues are empty, and the samples in the store are untouched. *)
Theorem device_upload_complete s st :
  scan_inv s st -> reads_work D -> scan_state (s_scan_config s) <> SCAN_STATE_SCANNING ->
  s_tag_macinfo_upload_state s = UPLOAD_STATE_IDLE -> sensor_state (s_sensor_upload_ctx s) = SENSOR_UPLOAD_STATE_IDLE ->
  twp (calls (messages (tags_waiting s st) + messages (macs_waiting s st))) (fun _ s' st' =>
    lte_commands (dev st') = lte_commands (dev st) ++ tag_round s st ++ mac_round s st /\
    tags_waiting s' st' = 0 /\ macs_waiting s' st' = 0 /\
    forall t, sample_type t -> queue st' t = queue st t) s st.
Proof.
  intros [Hf Hst _] Hrw Hsc Hu Hsn. apply calls_split.
  assert (Hmac : forall s1 st1, found_ok s1 -> store_ok rec_ok st1 -> scan_state (s_scan_config s1) <> SCAN_STATE_SCANNING -> mac_ready s1 st1 -> tags_waiting s1 st1 = 0 ->
    s_tran_mac_result_table s1 = s_tran_mac_result_table s -> only FS_TYPE_TAG st st1 -> lte_commands (dev st1) = lte_commands (dev st) ++ tag_round s st ->
    twp (calls (messages (macs_waiting s st))) (fun _ s' st' => lte_commands (dev st') = lte_commands (dev st) ++ tag_round s st ++ mac_round s st /\
      tags_waiting s' st' = 0 /\ macs_waiting s' st' = 0 /\ forall t, sample_type t -> queue st' t = queue st t) s1 st1).
  { intros s1 st1 Hf1 Hst1 Hsc1 Hr1 Ht1 Hm1 Ho1 Hlog1. destruct (Ho1 FS_TYPE_MAC ltac:(done)) as [_ Hqm].
    assert (Ew : macs_waiting s1 st1 = macs_waiting s st) by (unfold macs_waiting; by rewrite Hqm, Hm1).
    assert (Er : mac_round s1 st1 = mac_round s st) by (unfold mac_round; by rewrite Ew, Hqm, Hm1).
    assert (Hs : forall t, sample_type t -> queue st1 t = queue st t) by (intros t [-> | ->]; by refine (proj2 (Ho1 _ _))).
    destruct (decide (macs_waiting s st = 0)) as [E|E].
    - unfold messages. rewrite decide_True by done. apply twp_ret. unfold mac_round. rewrite decide_True, app_nil_r by done. by rewrite Ew.
    - rewrite <- Ew. eapply twp_mono; [apply mac_round_spec; [done..|by rewrite Ew]|]. cbn beta. rewrite Er. intros _ s' st' (_ & Hr' & Ht' & Ho' & Hq' & Hlog').
      split; [by rewrite Hlog', Hlog1, <- app_assoc|]. split; [unfold tags_waiting in *; rewrite Hr'; destruct (Ho' FS_TYPE_TAG ltac:(done)) as [_ ->]; done|].
      split; [unfold macs_waiting; rewrite Hq', Ht'; done|]. intros t Ht. rewrite <- Hs by done. destruct Ht as [-> | ->]; by refine (proj2 (Ho' _ _)). }
  destruct (decide (tags_waiting s st = 0)) as [E|E].
  - unfold messages at 1. rewrite decide_True by done. apply twp_ret. apply Hmac; auto using only_refl; [by left|]. unfold tag_round. rewrite decide_True by done. by rewrite app_nil_r.
  - eapply twp_mono; [by apply tag_round_spec|]. cbn beta. intros _ s1 st1 (Hu1 & Hsc1 & Hr1 & Ht1 & Hf1 & Hst1 & Ho1 & Hq1 & Hlog1).
    apply Hmac; auto; [by rewrite Hsc1|by right|]. unfold tags_waiting. rewrite Hq1, Hr1. done.
Qed.

(** A tag that is not in the table is entered after the others. *)
Lemma save_new s st r (Q : unit -> scan -> fs_state D -> Prop) : found_ok s -> tag_ok r -> t_count (s_result_table s) < TAG_RESULT_MAX_NUM ->
  Forall (fun x => tag_addr x <> tag_addr r) (take (Z.to_nat (t_count (s_result_table s))) (t_items (s_result_table s))) ->
  (forall x, tag_ok x -> Q tt (set_results (mk_table (<[Z.to_nat (t_count (s_result_table s)) := x]> (t_items (s_result_table s))) (t_count (s_result_table s) + 1)) s) st) ->
  twp (tag_scan_result_save r) Q s st.
Proof.
  intros Hf Hr Hlt Hnew HQ. pose proof (fo_tags _ Hf) as Ht. pose proof Ht as (Hl & Hc & _). unfold tag_scan_result_save. tstep. tstep. tstep. eapply twp_checked; [by eapply table_used|].
  destruct (list_find _ _) as [[i x]|] eqn:E.
  { apply list_find_Some in E as (Ex & Ea & _). exfalso. rewrite Forall_lookup in Hnew. by apply (Hnew i x). }
  rewrite (proj2 (Z.ltb_lt _ _)) by done. unfold append_tag. tstep. tstep. tstep. apply scan_ask. tstep. eapply twp_checked; [apply arr_set_Some; lia|]. apply twp_modify.
  rewrite u8_small by (unfold TAG_RESULT_MAX_NUM in *; lia). apply HQ. destruct Hr. split; [done..|apply u32_range].
Qed.

(** A tag that is found while the tags are being uploaded is lost, although the comment in the code says that it is sent in the next round: entered into the table after the upload was announced, it is not among the messages, which are those of an upload without it, and when the end has been sent nothing waits any more, in the table or in the store. *)
Theorem tag_found_during_upload_lost s st r :
  scan_inv s st -> reads_work D -> scan_state (s_scan_config s) <> SCAN_STATE_SCANNING ->
  s_tag_macinfo_upload_state s = UPLOAD_STATE_IDLE -> sensor_state (s_sensor_upload_ctx s) = SENSOR_UPLOAD_STATE_IDLE -> tags_waiting s st <> 0 ->
  tag_ok r -> t_count (s_result_table s) < TAG_RESULT_MAX_NUM ->
  Forall (fun x => tag_addr x <> tag_addr r) (take (Z.to_nat (t_count (s_result_table s))) (t_items (s_result_table s))) ->
  twp (tag_mac_scan_upload_data;; tag_scan_result_save r;; calls (Z.to_nat (tags_waiting s st + 1))) (fun _ s' st' =>
    lte_commands (dev st') = lte_commands (dev st) ++ tag_round s st /\ tags_waiting s' st' = 0) s st.
Proof.
  intros [Hf Hst _] Hrw Hsc Hu Hsn Hn Hr Hlt Hnew. tstep. apply tag_start_spec; [done..|]. intros s1 st1 Hu1 Hsc1 Hq1 Hc1 Hsn1 Hr1 Ht1 Hf1 Hst1 Ho1 Hse1 Hlog1.
  pose proof (fo_tags _ Hf1) as (Hl & Hc & HP). pose proof (queue_bound st FS_TYPE_TAG Hst). rewrite <- Hr1 in Hlt, Hnew. tstep. apply save_new; [done..|]. intros x Hx.
  replace (Z.to_nat (tags_waiting s st + 1)) with (length (queue st FS_TYPE_TAG) + Z.to_nat (s_rt_count_snap s1) + 1)%nat by (rewrite Hsn1, <- Hr1; unfold tags_waiting, zlen; rewrite Hr1 in *; lia).
  match goal with |- twp _ ?Q ?s2 _ => assert (Hf2 : found_ok s2); [|eapply (twp_mono _ _ Q); [apply (tags_sent s2 st1 (queue st FS_TYPE_TAG)); try done|]] end.
  - apply found_results; [done|]. split; [by rewrite <- Hl; apply zlen_insert|]. split; [cbn; unfold TAG_RESULT_MAX_NUM in *; lia|]. cbn [t_items]. by apply Forall_insert.
  - cbn [s_scan_config set_results]. by rewrite Hsc1.
  - cbn [s_rt_count_snap set_results]. rewrite Hsn1, <- Hr1. done.
  - cbn beta. intros _ s' st' (_ & _ & Hr' & _ & _ & _ & _ & Hq' & Hlog'). split; [|unfold tags_waiting; by rewrite Hq', Hr'].
    rewrite Hlog', Hlog1, <- app_assoc. cbn [s_rt_count_snap s_result_table set_results t_items]. rewrite Hsn1, Hr1, take_insert_ge by lia. unfold tag_round. by rewrite decide_False by done.
Qed.
End upload.
