(* ===== verification/ScanEvents.v ===== *)
(** * Every message of the scanner is handled safely

    The entry points of the module: the callback of the Bluetooth stack, the
    messages of the BLE thread, the answers of the LTE module, the settings.
    Each of them keeps the invariant of [ScanSafe]. *)

From S2P Require Import Prelude Text Str FlashStore FlashStoreProofs FlashStoreApi StoreClient Prog Layout SettingsData Settings AtHandlers ScanParse Scan ScanSafe ScanFound ScanSensor ScanUpload.

Open Scope prog_scope.

Section events.
Context {D : Type} {SIO : ScanIO D} {HL : ScanLaws D} {HF : FlashWorks D}.
Notation scanner := (prog scan (fs_state D)).
Implicit Types (s : scan) (st : fs_state D).

(** ** The parts of the invariant *)

Lemma inv_quiet s st st' : scan_inv s st -> quiet st st' -> scan_inv s st'.
Proof. intros [Hf Hst Hu] Hq. destruct (quiet_store st st' Hq Hst) as (H1 & _ & H3 & _). split; [done|done|]. by eapply uploads_open. Qed.

Lemma inv_world k s st s' st' : uploads_ok (uploads s) st -> found_ok s' -> uploads s' = uploads s -> world_ok k st st' -> scan_inv s' st'.
Proof. intros Hu Hf E (Hst & _ & Ho). split; [done|done|]. rewrite E. by eapply uploads_open. Qed.

(** Everything but the upload of samples. *)
Record devices_ok s st : Prop := {
  do_found : found_ok s;
  do_store : store_ok rec_ok st;
  do_tag : s_tag_macinfo_upload_state s = UPLOAD_STATE_TAG_START -> open st FS_TYPE_TAG /\ s_rt_count_snap s <= TAG_RESULT_MAX_NUM;
  do_mac : s_tag_macinfo_upload_state s = UPLOAD_STATE_MAC_START -> open st FS_TYPE_MAC /\ s_rt_count_snap s <= TRAN_MAC_MAX_NUM;
  do_sensor : sensor_ok (s_sensor_upload_ctx s);
  do_frame : zlen (s_sensor_upload_frame_buf s) = SENSOR_CDATA_PARAM_MAX_LEN
}.

Lemma inv_devices s st : scan_inv s st -> devices_ok s st.
Proof. intros [Hf Hst [H1 H2 H3 H4 H5 H6 H7]]. by split. Qed.

Lemma devices_inv s st : devices_ok s st -> sensor_state (s_sensor_upload_ctx s) = SENSOR_UPLOAD_STATE_IDLE -> 0 <= next_seq (s_sensor_upload_ctx s) < 65536 -> scan_inv s st.
Proof.
  intros [Hf Hst H1 H2 H3 H4] Hi Hs. split; [done|done|]. split; [done|done|done|done| |done|by right]. unfold uploads. cbn. rewrite Hi. done.
Qed.

(** Another type is closed or read: the devices are not concerned. *)
Lemma devices_only t s st st' : devices_ok s st -> store_ok rec_ok st' -> only t st st' -> sample_type t -> devices_ok s st'.
Proof.
  intros [Hf Hst H1 H2 H3 H4] Hst' Ho Ht. assert (Hne : FS_TYPE_TAG <> t /\ FS_TYPE_MAC <> t) by (destruct Ht as [-> | ->]; done).
  split; [done|done| | |done|done]; intros E; [destruct (H1 E)|destruct (H2 E)]; (split; [eapply only_open; [exact Ho|apply Hne|done]|done]).
Qed.

(** The session of an open upload. *)
Lemma cdata_session s st : scan_inv s st -> in_cdata (sensor_state (s_sensor_upload_ctx s)) = true ->
  sample_type (upload_type (s_sensor_upload_ctx s)) /\ exists sent rest new, session st (upload_type (s_sensor_upload_ctx s)) sent rest new.
Proof.
  intros [Hf Hst Hu] Hc. assert (Ht : sample_type (upload_type (s_sensor_upload_ctx s))).
  { apply (uo_sensor _ _ Hu). intros E. change (sensor_state (s_sensor_upload_ctx s) = SENSOR_UPLOAD_STATE_IDLE) in E. by rewrite E in Hc. }
  split; [done|]. apply (open_session rec_ok); [done|destruct Ht as [-> | ->]; done|]. by apply (uo_cdata _ _ Hu).
Qed.

(** ** Samples *)

Lemma reset_safe b s st : devices_ok s st -> twp (sensor_upload_reset b) (fun _ s' st' => scan_inv s' st') s st.
Proof.
  intros H. apply reset_spec; [apply H|apply H|]. intros st' Hst' Ho _ _. destruct H as [Hf Hst H1 H2 H3 H4]. apply devices_inv; [|done|done].
  split; [by destruct Hf|done| | |by intros []|done]; intros E; [destruct (H1 E)|destruct (H2 E)]; (split; [apply Ho; [by intros [? | ?]|done]|done]).
Qed.

Lemma in_cdata_idle x : in_cdata x = true -> x <> SENSOR_UPLOAD_STATE_IDLE.
Proof. by intros E ->. Qed.

Lemma try_start_safe s st : scan_inv s st -> twp sensor_cached_upload_try_start (fun _ s' st' => scan_inv s' st') s st.
Proof.
  intros H. pose proof H as [Hf Hst Hu]. apply try_start_spec; [done|apply Hu|done|]. intros st' r f type n c Hi Hup Hn Hst' Ho Hse Hq Hf' _ _.
  assert (Hty : sample_type type) by (unfold type, first_type, sample_type; case_decide; auto).
  set (s1 := set_frame f (set_sensor c s)). assert (Hd : devices_ok s1 st').
  { split; [by destruct Hf|done|by unfold s1; cbn; rewrite Hup|by unfold s1; cbn; rewrite Hup|by intros _|done]. }
  destruct (r =? 0); cbn [negb]; [|by apply reset_safe]. apply twp_ret. destruct Hd as [H1 H2 H3 H4 H5 H6]. split; [done|done|].
  split; [done|done|done|cbn; lia|intros _; by eapply session_open|done|by left].
Qed.

Lemma packet_safe s st : scan_inv s st -> in_cdata (sensor_state (s_sensor_upload_ctx s)) = true ->
  twp (ret <- sensor_cdata_send_next_packet;; if negb (ret =? 0) then sensor_upload_reset true else Prog.ret tt) (fun _ s' st' => scan_inv s' st') s st.
Proof.
  intros H Hc. destruct (cdata_session s st H Hc) as (Hty & sent & rest & new & Hse). pose proof H as [Hf Hst Hu]. tstep.
  apply (send_next_packet_spec sent rest new); [done|apply Hu|done|done|]. intros recs rest' f st' r (_ & _ & _ & _ & Hst' & Ho & _ & Hse' & _) Hf' _ _.
  assert (Hd : devices_ok (set_frame f s) st').
  { eapply devices_only; [|done|done|done]. destruct (inv_devices _ _ H). split; [by destruct Hf|done..]. }
  destruct (r =? 0); cbn [negb]; [|by apply reset_safe]. apply twp_ret. destruct Hd as [H1 H2 H3 H4 H5 H6]. split; [by destruct H1|done|].
  split; [done|done|by intros _|apply Hu|intros _; by eapply session_open|done|].
  destruct (uo_one _ _ Hu) as [E|E]; [by left|]. cbn in E. by rewrite E in Hc.
Qed.

Lemma set_seq_inv s st x : scan_inv s st -> 0 <= x < 65536 ->
  let c := s_sensor_upload_ctx s in scan_inv (set_sensor (mk_sensor (sensor_state c) (upload_type c) (total_packets c) x) s) st.
Proof. intros [Hf Hst [H1 H2 H3 H4 H5 H6 H7]] Hx c. split; [by destruct Hf|done|]. by split. Qed.

Lemma sensor_ack_safe rsp s st : scan_inv s st -> twp (sensor_handle_lte_ack rsp) (fun _ s' st' => scan_inv s' st') s st.
Proof.
  intros H. unfold sensor_handle_lte_ack. tstep. tstep. set (c := s_sensor_upload_ctx s).
  assert (Hrt : twp (sensor_upload_reset false;; sensor_cached_upload_try_start) (fun _ s' st' => scan_inv s' st') s st).
  { tstep. eapply twp_mono; [by apply reset_safe, inv_devices|]. cbn beta. intros _ s' st' H'. by apply try_start_safe. }
  destruct rsp, (sensor_state c) eqn:Ec; try exact Hrt; try (apply twp_ret; exact H).
  - apply packet_safe; [done|]. fold c. by rewrite Ec.
  - tstep.
    + tstep. tstep. pose proof (set_seq_inv s st (u16 (next_seq c + 1)) H (u16_range _)) as H'. cbv zeta in H'. fold c in H'. rewrite Ec in H'. by apply packet_safe.
    + tstep. apply twp_send. intros st' r Hq _ _. pose proof (inv_quiet s st st' H Hq) as H'. destruct (r =? 0); cbn [negb]; [|by apply reset_safe, inv_devices].
      apply twp_modify. destruct H' as [Hf Hst [H1 H2 H3 H4 H5 H6 H7]]. unfold uploads in *. cbn in H3, H4, H5, H7. fold c in H3, H5, H7.
      assert (Ei : sensor_state c <> SENSOR_UPLOAD_STATE_IDLE) by (by rewrite Ec). split; [by destruct Hf|done|].
      split; [done|done|intros _; by apply H3|done|intros _; apply H5; by rewrite Ec|done|left; by destruct H7].
  - destruct (cdata_session s st H) as (Hty & sent & rest & new & Hse); [fold c; by rewrite Ec|]. fold c in Hty. tstep. apply commit_spec; [apply H|destruct Hty as [-> | ->]; done|].
    intros r st' Hst' Ho _ _. assert (Hd : devices_ok s st') by (eapply devices_only; [by apply inv_devices|done|done|done]).
    tstep. eapply twp_mono; [by apply reset_safe|]. cbn beta. intros _ s2 st2 H2. by apply try_start_safe.
Qed.

(** A sample is sent or stored. *)
Lemma sample_safe name type text rec sw s st : scan_inv s st -> roomy 0 st -> sample_type type -> rec_ok type rec -> type_data_len type = Some (zlen rec) ->
  twp (sample name type text rec sw) (fun _ s' st' => scan_inv s' st') s st.
Proof.
  intros H Hr Hty Hrec Hlen. unfold sample. tstep. apply scan_ask.
  assert (Hstore : forall s1 st1, scan_inv s1 st1 -> roomy 0 st1 -> twp (push type rec;; ready <- ask g_bLteReady;; c <- ask scan_settings;;
    if negb ready && negb (sw c =? 0) then do set_lte_boot_reason_scan;; do send_lte_pwron else ret tt) (fun _ s' st' => scan_inv s' st') s1 st1).
  { intros s1 st1 [Hf Hst Hu] Hr1. tstep. apply twp_world_checked.
    destruct (store_push rec_ok (-1) st1 type rec) as (st2 & r & -> & Hst2 & _ & Ho & Hop & _); [done|done|destruct Hty as [-> | ->]; done|done|done|]. eexists _, _. split; [done|].
    assert (H2 : scan_inv s1 st2).
    { split; [done|done|]. eapply uploads_open; [done|]. intros t Ht. destruct (Z.eq_dec t type) as [->|]; [auto|by eapply only_open]. }
    tstep. apply scan_ask. tstep. apply scan_ask. tstep; [|by apply twp_ret]. tstep. apply scan_do_spec. intros st3 Hq3 _. apply scan_do_spec. intros st4 Hq4 _.
    eapply inv_quiet; [|done]. by eapply inv_quiet. }
  destruct (g_bLteReady (dev st)) eqn:Er; [|tstep; tstep; by apply Hstore]. tstep. tstep. unfold sensor_realtime_upload_start. tstep. tstep. tstep. apply scan_ask. rewrite Er. cbn [negb orb].
  destruct (sensor_upload_busy s) eqn:Eb; cbn [orb]; [tstep; tstep; cbn; by apply Hstore|].
  destruct (decide (s_tag_macinfo_upload_state s = UPLOAD_STATE_IDLE)) as [Eu|Eu]; [rewrite bool_decide_true by done|rewrite bool_decide_false by done; cbn [negb]; tstep; tstep; cbn; by apply Hstore].
  cbn [negb]. tstep. tstep. set (x := if type =? FS_TYPE_TH then SENSOR_UPLOAD_STATE_TH_WAIT_ACK else SENSOR_UPLOAD_STATE_BP_WAIT_ACK).
  set (s1 := set_sensor _ s). assert (Hx : in_cdata x = false) by (unfold x; by destruct (type =? FS_TYPE_TH)).
  assert (H1 : forall st1, quiet st st1 -> scan_inv s1 st1).
  { intros st1 Hq. destruct (inv_quiet s st st1 H Hq) as [Hf Hst [H1 H2 H3 H4 H5 H6 H7]]. split; [by destruct Hf|done|].
    split; [done|done|by intros _|done|unfold s1; cbn; by rewrite Hx|done|by left]. }
  tstep. apply twp_send. intros st1 r Hq _ _. tstep. destruct (r =? 0) eqn:E; cbn [negb].
  - tstep. tstep. tstep. rewrite E. tstep. by apply H1.
  - unfold sensor_upload_reset. cbn [andb]. do 6 tstep. rewrite E. tstep. apply Hstore.
    + pose proof (inv_quiet s st st1 H Hq) as H2. destruct (inv_devices _ _ H2) as [? ? ? ? ? ?]. apply devices_inv; [|done|done]. split; [by destruct H2 as [[] _ _]|done|done|done|by intros []|done].
    + destruct (quiet_store st st1 Hq (si_store _ _ H)) as (_ & Hroom & _). by apply Hroom.
Qed.

(** ** Devices *)

Lemma idle_sensor s : sensor_upload_busy s = false -> sensor_state (s_sensor_upload_ctx s) = SENSOR_UPLOAD_STATE_IDLE.
Proof. unfold sensor_upload_busy. intros E. apply negb_false_iff in E. by apply bool_decide_eq_true in E. Qed.

Lemma up_sensor_idle s st : scan_inv s st -> s_tag_macinfo_upload_state s <> UPLOAD_STATE_IDLE -> sensor_state (s_sensor_upload_ctx s) = SENSOR_UPLOAD_STATE_IDLE.
Proof. intros [_ _ Hu] Hne. by destruct (uo_one _ _ Hu). Qed.

(** The announcement opens the session. *)
Lemma start_round_safe ust type count name total s st : scan_inv s st -> sensor_state (s_sensor_upload_ctx s) = SENSOR_UPLOAD_STATE_IDLE -> 0 <= total < 65536 ->
  (ust = UPLOAD_STATE_TAG_START /\ type = FS_TYPE_TAG /\ count <= TAG_RESULT_MAX_NUM) \/ (ust = UPLOAD_STATE_MAC_START /\ type = FS_TYPE_MAC /\ count <= TRAN_MAC_MAX_NUM) ->
  twp (start_round ust type count name total) (fun _ s' st' => scan_inv s' st') s st.
Proof.
  intros [Hf Hst Hu] Hi Ht Hc. assert (Hty : 0 <= type < 4) by (destruct Hc as [(_ & -> & _)|(_ & -> & _)]; done).
  apply start_round_spec; [done|done|done|]. intros st' Hst' Ho _ Hse _. apply devices_inv; [|done|apply Hu].
  split; [by destruct Hf|done| | |apply Hu|apply Hu]; cbn; intros ->; destruct Hc as [(E & -> & ?)|(E & -> & ?)]; try done; (split; [by eapply session_open|done]).
Qed.

(** A closed upload: the state is not one of those that read the store. *)
Lemma closed_inv s st ust s' : scan_inv s st -> sensor_state (s_sensor_upload_ctx s) = SENSOR_UPLOAD_STATE_IDLE -> ust <> UPLOAD_STATE_TAG_START -> ust <> UPLOAD_STATE_MAC_START ->
  found_ok s' -> s_tag_macinfo_upload_state s' = ust -> s_sensor_upload_ctx s' = s_sensor_upload_ctx s -> s_sensor_upload_frame_buf s' = s_sensor_upload_frame_buf s ->
  forall st', store_ok rec_ok st' -> scan_inv s' st'.
Proof.
  intros [_ _ Hu] Hi H1 H2 Hf E1 E2 E3 st' Hst'. apply devices_inv; [|by rewrite E2|rewrite E2; apply Hu].
  split; [done|done|congruence|congruence|rewrite E2; apply Hu|rewrite E3; apply Hu].
Qed.

Lemma next_item_safe {A} type (l : list A) of_record one fin (ok : A -> Prop) s st :
  scan_inv s st -> 0 <= type < 4 -> open st type -> ~ sample_type type -> (forall d, rec_ok type d -> ok (of_record d)) -> Forall ok l -> s_rt_count_snap s <= zlen l ->
  (forall x seq (Q : unit -> scan -> fs_state D -> Prop) s1 st1, ok x -> 0 <= seq < 65536 -> (forall st', quiet st1 st' -> Q tt s1 st') -> twp (one x seq) Q s1 st1) ->
  (forall st', store_ok rec_ok st' -> twp fin (fun _ s' st'' => scan_inv s' st'') s st') ->
  twp (next_item type l of_record one fin) (fun _ s' st' => scan_inv s' st') s st.
Proof.
  intros H Ht Hop Hns Hrec Hl Hsn Hone Hfin. pose proof H as [Hf Hst Hu]. destruct (open_session rec_ok st type Hst Ht Hop) as (sent & rest & new & Hse).
  assert (Hkeep : forall s1 st1 st2 sent2 rest2, found_ok s1 -> uploads s1 = uploads s -> store_ok rec_ok st1 -> only type st st1 -> session st1 type sent2 rest2 new -> quiet st1 st2 -> scan_inv s1 st2).
  { intros s1 st1 st2 sent2 rest2 Hf1 Eu Hst1 Ho Hse1 Hq. eapply inv_quiet; [|done]. split; [done|done|]. rewrite Eu. eapply uploads_open; [done|]. intros t Hot.
    destruct (Z.eq_dec t type) as [->|]; [by eapply session_open|by eapply only_open]. }
  apply (next_item_spec type l of_record one fin sent rest new); [done|done|done| |].
  - intros st1 d rest' _ Hd Hst1 Ho _ _ Hse1. apply Hone; [auto|apply u16_range|]. intros st2 Hq. eapply Hkeep; [by destruct Hf|done|done|done|done|done].
  - intros st1 _ Hst1 Ho _ _ Hse1. cbv zeta. destruct (Z.ltb_spec (u16 (s_tag_macinfo_seq s - s_flash_consumed s)) (s_rt_count_snap s)) as [Hlt|]; [|by apply Hfin].
    pose proof (u16_range (s_tag_macinfo_seq s - s_flash_consumed s)). destruct (arr_get_Some l (u16 (s_tag_macinfo_seq s - s_flash_consumed s))) as [x Ex]; [lia|].
    exists x. split; [done|]. apply Hone; [apply arr_get_inv in Ex as [_ Ex]; by eapply Forall_lookup_1|apply u16_range|]. intros st2 Hq. eapply Hkeep; [by destruct Hf|done|done|done|done|done].
Qed.

Lemma waiting_range s st : scan_inv s st -> 0 <= tags_waiting s st < 65536 /\ 0 <= macs_waiting s st < 65536.
Proof.
  intros [Hf Hst _]. unfold tags_waiting, macs_waiting. pose proof (queue_bound st FS_TYPE_TAG Hst). pose proof (queue_bound st FS_TYPE_MAC Hst).
  pose proof (fo_tags _ Hf) as (_ & Hc & _). pose proof (fo_trans _ Hf) as (_ & Hc' & _). unfold TAG_RESULT_MAX_NUM, TRAN_MAC_MAX_NUM in *.
  pose proof (zlen_nonneg (queue st FS_TYPE_TAG)). pose proof (zlen_nonneg (queue st FS_TYPE_MAC)). lia.
Qed.

Lemma found_cfg s x : found_ok s -> found_ok (set_scan_state x s).
Proof. by intros []. Qed.

Lemma inv_cfg s st x : scan_inv s st -> scan_inv (set_scan_state x s) st.
Proof. intros [Hf Hst Hu]. split; [by destruct Hf|done|done]. Qed.

Lemma upload_data_safe s st : scan_inv s st -> twp tag_mac_scan_upload_data (fun _ s' st' => scan_inv s' st') s st.
Proof.
  intros H. pose proof H as [Hf Hst Hu]. pose proof (waiting_range s st H) as [Ht Hm]. pose proof (fo_tags _ Hf) as (Lt & Ct & Pt). pose proof (fo_trans _ Hf) as (Lm & Cm & Pm).
  destruct (decide (scan_state (s_scan_config s) = SCAN_STATE_SCANNING)) as [E|E]; [unfold tag_mac_scan_upload_data; tstep; tstep; rewrite decide_True by done; by apply twp_ret|].
  destruct (s_tag_macinfo_upload_state s) eqn:Eu.
  - unfold tag_mac_scan_upload_data. tstep. tstep. rewrite decide_False by done. tstep. apply pending_spec; [done|done|]. tstep. apply pending_spec; [done|done|]. rewrite Eu.
    destruct (sensor_upload_busy s) eqn:Eb; [by apply twp_ret|]. apply idle_sensor in Eb. fold (tags_waiting s st) (macs_waiting s st). rewrite !u32_small by lia.
    assert (Hstart : forall ust type count name total, 0 <= total < 65536 ->
      (ust = UPLOAD_STATE_TAG_START /\ type = FS_TYPE_TAG /\ count <= TAG_RESULT_MAX_NUM) \/ (ust = UPLOAD_STATE_MAC_START /\ type = FS_TYPE_MAC /\ count <= TRAN_MAC_MAX_NUM) ->
      twp (start_round ust type count name total;; modify (set_scan_state SCAN_STATE_WAITING_UPLOAD)) (fun _ s' st' => scan_inv s' st') s st).
    { intros ust type count name total Htot Hc. tstep. eapply twp_mono; [by apply start_round_safe|]. cbn beta. intros _ s' st' H'. apply twp_modify. by apply inv_cfg. }
    tstep; [tstep; [by apply twp_ret|]|]; apply Hstart; [lia|right; split; [done|]; split; [done|lia]|lia|left; split; [done|]; split; [done|lia]].
  - destruct (uo_tag _ _ Hu Eu) as [Hop Hsn]. apply tag_step; [done|done|]. apply (next_item_safe _ _ _ _ _ tag_ok); [done|done|done|by intros [? | ?]|apply rec_tag|done|by rewrite Lt| |].
    + intros x seq Q s1 st1 Hx Hs HQ. apply tag_upload_one_spec; auto.
    + intros st' Hst'. unfold tag_done. tstep. apply commit_spec; [done|done|]. intros r st2 Hst2 _ _ _. tstep. tstep. tstep. apply twp_send. intros st3 r3 Hq _ _. apply twp_ret.
      destruct (quiet_store st2 st3 Hq Hst2) as (Hst3 & _). eapply (closed_inv s st UPLOAD_STATE_TAG_END); try done; [by eapply up_sensor_idle; [exact H|rewrite Eu]|]. apply found_results; [by destruct Hf|apply clear_tags_ok].
  - assert (Hi : sensor_state (s_sensor_upload_ctx s) = SENSOR_UPLOAD_STATE_IDLE) by (eapply up_sensor_idle; [exact H|by rewrite Eu]).
    unfold tag_mac_scan_upload_data. tstep. tstep. rewrite decide_False by done. tstep. apply pending_spec; [done|done|]. tstep. apply pending_spec; [done|done|]. rewrite Eu.
    fold (macs_waiting s st). rewrite (u32_small (macs_waiting s st)) by lia. tstep; [|apply start_round_safe; [done|done|lia|right; split; [done|]; split; [done|lia]]].
    tstep. tstep. apply try_start_safe. eapply (closed_inv s st UPLOAD_STATE_IDLE); try done. by destruct Hf.
  - destruct (uo_mac _ _ Hu Eu) as [Hop Hsn]. apply mac_step; [done|done|]. apply (next_item_safe _ _ _ _ _ tran_ok); [done|done|done|by intros [? | ?]|apply rec_tran|done|by rewrite Lm| |].
    + intros x seq Q s1 st1 Hx Hs HQ. apply tran_upload_one_spec; auto.
    + intros st' Hst'. unfold mac_done. tstep. apply commit_spec; [done|done|]. intros r st2 Hst2 _ _ _. tstep. tstep. tstep. apply twp_send. intros st3 r3 Hq _ _. apply twp_modify.
      destruct (quiet_store st2 st3 Hq Hst2) as (Hst3 & _). eapply (closed_inv s st UPLOAD_STATE_MAC_END); try done; [by eapply up_sensor_idle; [exact H|rewrite Eu]|]. apply found_trans; [by destruct Hf|apply clear_trans_ok].
  - assert (Hi : sensor_state (s_sensor_upload_ctx s) = SENSOR_UPLOAD_STATE_IDLE) by (eapply up_sensor_idle; [exact H|by rewrite Eu]).
    unfold tag_mac_scan_upload_data. tstep. tstep. rewrite decide_False by done. tstep. apply pending_spec; [done|done|]. tstep. apply pending_spec; [done|done|]. rewrite Eu.
    tstep. tstep. apply try_start_safe. eapply (closed_inv s st UPLOAD_STATE_IDLE); try done. by destruct Hf.
Qed.

(** ** Scanning *)

Lemma no_cache_ok : zlen no_cache = ADV_CACHE_MAX_NUM /\ Forall cached_ok no_cache.
Proof. unfold cached_ok. split; [done|]. apply Forall_replicate. cbn [ca_addr ca_ff ca_len]. split; [split; [done|apply zeros_ok]|]. split; [done|]. split; [apply zeros_ok|done]. Qed.

Lemma scan_start_safe s st : scan_inv s st -> twp scan_start_internal (fun _ s' st' => scan_inv s' st') s st.
Proof.
  intros H. unfold scan_start_internal. tstep. tstep. tstep; [by apply twp_ret|]. destruct (decide _); [by apply twp_ret|].
  tstep. apply twp_dev; [apply law_start_flash|]. intros st1 Hq _. assert (H1 : scan_inv s st1) by (by eapply inv_quiet). tstep; [by apply twp_ret|].
  tstep. tstep. tstep. tstep; [apply scan_do_spec; intros st2 Hq2 _; apply twp_ret, inv_cfg; by eapply inv_quiet|apply twp_ret, twp_ret; by apply inv_cfg].
Qed.

Lemma scan_stop_spec k st0 s st : found_ok s -> world_ok k st0 st ->
  twp scan_stop_internal (fun _ s' st' => found_ok s' /\ uploads s' = uploads s /\ world_ok k st0 st') s st.
Proof.
  intros Hf Hw. unfold scan_stop_internal. tstep. tstep. tstep; [by apply twp_ret|].
  tstep. apply twp_dev; [apply law_stop_flash|]. intros st1 Hq _. assert (Hw1 : world_ok k st0 st1) by (by eapply world_quiet). tstep; [by apply twp_ret|].
  tstep. tstep. tstep. apply scan_do_spec. intros st2 Hq2 _. apply twp_ret. split; [destruct Hf; split; [done|done|done|apply no_cache_ok|done|done]|]. split; [done|]. by eapply world_quiet.
Qed.

(** Both tables go to the store. *)
Lemma flush_both_spec k st0 s st : found_ok s -> world_ok (k + 30) st0 st ->
  twp (tag_table_flush_to_flash;; tran_mac_table_flush_to_flash) (fun _ s' st' => found_ok s' /\ uploads s' = uploads s /\ world_ok k st0 st') s st.
Proof.
  intros Hf Hw. pose proof (fo_tags _ Hf) as (_ & Hc & _). unfold TAG_RESULT_MAX_NUM in Hc. tstep.
  eapply twp_mono; [apply (tag_flush_spec (k + 20) st0); [done|eapply world_le; [done|lia]]|]. cbn beta. intros _ s1 st1 (Hf1 & _ & Hu1 & _ & _ & Hw1 & _).
  pose proof (fo_trans _ Hf1) as (_ & Hc1 & _). unfold TRAN_MAC_MAX_NUM in Hc1.
  eapply twp_mono; [apply (tran_flush_spec k st0); [done|eapply world_le; [done|lia]]|]. cbn beta. intros _ s2 st2 (Hf2 & _ & Hu2 & _ & Hw2 & _).
  split; [done|]. split; [congruence|done].
Qed.

Lemma world_start k s st : scan_inv s st -> roomy k st -> world_ok k st st.
Proof. intros [_ Hst _] Hr. by split. Qed.

Lemma rewind_spec t (Q : unit -> scan -> fs_state D -> Prop) s st : store_ok rec_ok st -> 0 <= t < 4 -> (forall st', store_ok rec_ok st' -> Q tt s st') -> twp (rewind t) Q s st.
Proof. intros Hst Ht HQ. apply twp_world. intros [] st' [= <-]. apply HQ. by apply (store_rewind rec_ok). Qed.

(** Giving up every upload. *)
Lemma give_up_safe s st : found_ok s -> store_ok rec_ok st -> s_tag_macinfo_upload_state s = UPLOAD_STATE_IDLE -> sensor_ok (s_sensor_upload_ctx s) ->
  zlen (s_sensor_upload_frame_buf s) = SENSOR_CDATA_PARAM_MAX_LEN ->
  twp (rewind FS_TYPE_TAG;; rewind FS_TYPE_MAC;; sensor_upload_reset true) (fun _ s' st' => scan_inv s' st') s st.
Proof.
  intros Hf Hst Hu Hs Hfr. tstep. apply rewind_spec; [done|done|]. intros st1 Hst1. tstep. apply rewind_spec; [done|done|]. intros st2 Hst2. apply reset_safe.
  split; [done|done|congruence|congruence|done|done].
Qed.

Lemma clear_safe s st : scan_inv s st -> twp clear_tag_macinfo (fun _ s' st' => scan_inv s' st') s st.
Proof.
  intros [Hf Hst Hu]. unfold clear_tag_macinfo. tstep. tstep. apply give_up_safe; [|done|done|apply Hu|apply Hu].
  apply found_trans; [|apply clear_trans_ok]. apply found_results; [by destruct Hf|apply clear_tags_ok].
Qed.

(** The stop of the scan and of every upload at the beginning of a new configuration. *)
Lemma halt_safe s st (Q : unit -> scan -> fs_state D -> Prop) k : found_ok s -> store_ok rec_ok st -> roomy 0 st -> sensor_ok (s_sensor_upload_ctx s) ->
  zlen (s_sensor_upload_frame_buf s) = SENSOR_CDATA_PARAM_MAX_LEN -> (forall s' st', scan_inv s' st' -> twp k Q s' st') ->
  twp (scan_stop_internal;; tag_table_flush_to_flash;; tran_mac_table_flush_to_flash;; modify (fun s => set_snap 0 (set_round UPLOAD_STATE_IDLE 0 0 s));;
    rewind FS_TYPE_TAG;; rewind FS_TYPE_MAC;; sensor_upload_reset true;; k) Q s st.
Proof.
  intros Hf Hst Hr Hs Hfr HQ. assert (Hw : world_ok 0 st st) by (by split). tstep.
  eapply twp_mono; [by apply (scan_stop_spec 0 st)|]. cbn beta. intros _ s4 st4 (Hf4 & Hu4 & Hw4). tstep.
  eapply twp_mono; [eapply (tag_flush_spec (- 10) st); [done|eapply world_le; [done|]]|].
  { pose proof (fo_tags _ Hf4) as (_ & Hc & _). unfold TAG_RESULT_MAX_NUM in Hc. lia. }
  cbn beta. intros _ s5 st5 (Hf5 & _ & Hu5 & _ & _ & Hw5 & _). tstep.
  eapply twp_mono; [eapply (tran_flush_spec (- 30) st); [done|eapply world_le; [done|]]|].
  { pose proof (fo_trans _ Hf5) as (_ & Hc & _). unfold TRAN_MAC_MAX_NUM in Hc. lia. }
  cbn beta. intros _ s6 st6 (Hf6 & _ & Hu6 & _ & Hw6 & _). assert (Eu : uploads s6 = uploads s) by congruence.
  assert (Es : s_sensor_upload_ctx s6 = s_sensor_upload_ctx s) by (unfold uploads in Eu; congruence).
  assert (Ef : s_sensor_upload_frame_buf s6 = s_sensor_upload_frame_buf s) by (unfold uploads in Eu; congruence).
  tstep. tstep. set (s7 := set_snap 0 _). assert (Hf7 : found_ok s7) by (by destruct Hf6). destruct Hw6 as [Hst6 _].
  tstep. apply rewind_spec; [done|done|]. intros st7 Hst7. tstep. apply rewind_spec; [done|done|]. intros st8 Hst8. tstep.
  eapply twp_mono; [apply reset_safe; split; [done|done|done|done|by unfold s7; cbn; rewrite Es|by unfold s7; cbn; rewrite Ef]|]. cbn beta. intros _ s9 st9 H9. by apply HQ.
Qed.

Lemma quiet_trans st1 st2 st3 : quiet st1 st2 -> quiet st2 st3 -> quiet st1 st3.
Proof. intros (A1 & A2 & A3) (B1 & B2 & B3). split; [congruence|split; congruence]. Qed.

Lemma set_config_safe mode interval length upload s st : found_ok s -> store_ok rec_ok st -> roomy 0 st -> sensor_ok (s_sensor_upload_ctx s) ->
  zlen (s_sensor_upload_frame_buf s) = SENSOR_CDATA_PARAM_MAX_LEN ->
  twp (my_scan_set_config mode interval length upload) (fun _ s' st' => scan_inv s' st') s st.
Proof.
  intros Hf Hst Hr Hs Hfr. unfold my_scan_set_config.
  tstep. apply scan_do_spec. intros st1 Hq1 _. tstep. apply scan_do_spec. intros st2 Hq2 _. tstep. apply scan_do_spec. intros st3 Hq3 _.
  destruct (quiet_store st st3) as (Hst3 & Hr3 & _); [by do 2 (eapply quiet_trans; [done|])|done|]. apply halt_safe; [done|done|by apply Hr3|done|done|]. clear - HL HF.
  intros s st H. tstep. tstep. set (s1 := set_cfg _ s). assert (H1 : scan_inv s1 st) by (destruct H as [Hf ? ?]; split; [by destruct Hf|done|done]).
  assert (Hstart : forall st', quiet st st' -> twp (scan_start_internal;; ret tt) (fun _ s' st' => scan_inv s' st') s1 st').
  { intros st' Hq. tstep. eapply twp_mono; [apply scan_start_safe; by eapply inv_quiet|]. cbn beta. intros _ s' st2 H2. by apply twp_ret. }
  tstep; [tstep; apply scan_do_spec; intros sta Hqa _; by apply Hstart|]. tstep; [|by apply twp_ret].
  tstep. apply scan_do_spec. intros sta Hqa _. tstep. apply scan_do_spec. intros stb Hqb _. apply Hstart. by eapply quiet_trans.
Qed.

(** ** The messages *)

Lemma anything_spec (Q : bool -> scan -> fs_state D -> Prop) s st : (forall b, Q b s st) -> twp anything_to_upload Q s st.
Proof. intros HQ. unfold anything_to_upload. tstep. tstep. tstep. apply twp_world. intros a w [= <- <-]. tstep. apply twp_world. intros b w [= <- <-]. apply twp_ret, HQ. Qed.

Lemma stop_safe s st (b : bool) : scan_inv s st -> twp (if b then scan_stop_internal;; ret tt else ret tt) (fun _ s' st' => scan_inv s' st') s st.
Proof.
  intros H. destruct b; [|by apply twp_ret]. pose proof H as [Hf Hst Hu]. tstep. unfold scan_stop_internal. tstep. tstep. tstep; [by do 2 tstep|].
  tstep. apply twp_dev; [apply law_stop_flash|]. intros st1 Hq _. assert (H1 : scan_inv s st1) by (by eapply inv_quiet). tstep; [by do 2 tstep|].
  tstep. tstep. tstep. apply scan_do_spec. intros st2 Hq2 _. do 2 tstep. pose proof (inv_quiet _ _ _ H1 Hq2) as [_ Hst2 Hu2].
  split; [destruct Hf; split; [done|done|done|apply no_cache_ok|done|done]|done|done].
Qed.

Lemma trigger_safe s st : scan_inv s st -> twp scan_trigger_upload (fun _ s' st' => scan_inv s' st') s st.
Proof.
  intros H. unfold scan_trigger_upload. tstep. tstep. tstep.
  assert (Hif : twp (if decide (scan_state (s_scan_config s) = SCAN_STATE_SCANNING) then scan_stop_internal;; ret tt else ret tt) (fun _ s' st' => scan_inv s' st') s st).
  { pose proof (stop_safe s st (bool_decide (scan_state (s_scan_config s) = SCAN_STATE_SCANNING)) H) as Hx. case_decide; [by rewrite bool_decide_true in Hx|by rewrite bool_decide_false in Hx]. }
  eapply twp_mono; [exact Hif|]. cbn beta. intros _ s1 st1 H1. tstep. apply anything_spec. intros any. tstep; [apply twp_modify; by apply inv_cfg|].
  tstep. apply scan_do_spec. intros st2 Hq _. apply upload_data_safe. by eapply inv_quiet.
Qed.

Lemma msg_safe m s st : scan_inv s st -> roomy 0 st -> twp (my_scan_msg_handler m) (fun _ s' st' => scan_inv s' st') s st.
Proof.
  intros H Hr. pose proof H as [Hf Hst Hu]. pose proof (world_start 0 s st H Hr) as Hw. unfold my_scan_msg_handler. tstep. tstep. cbv zeta. destruct m.
  - eapply twp_mono; [apply (drain_tags_spec _ (- 32) st); [done|]|].
    + pose proof (fo_tags _ Hf) as (_ & Hc & _). pose proof (fo_tag_msgs _ Hf) as [Hl _]. unfold TAG_RESULT_MAX_NUM, MSGQ_LEN, zlen in *. eapply world_le; [done|lia].
    + cbn beta. intros _ s' st' (Hf' & Hu' & Hw'). by eapply inv_world.
  - eapply twp_mono; [by apply (drain_trans_spec _ 0 st)|]. cbn beta. intros _ s' st' (Hf' & Hu' & Hw'). by eapply inv_world.
  - tstep; [|by apply twp_ret]. tstep. eapply twp_mono; [by apply scan_start_safe|]. cbn beta. intros _ s' st' H'. by apply twp_ret.
  - tstep. eapply twp_mono; [by apply (scan_stop_spec 0 st)|]. cbn beta. intros _ s1 st1 (Hf1 & Hu1 & Hw1).
    eapply twp_mono; [apply (flush_both_spec (- 30) st); [done|done]|]. cbn beta. intros _ s' st' (Hf' & Hu' & Hw'). eapply inv_world; [done|done|congruence|done].
  - tstep. apply anything_spec. intros any. tstep; [by apply trigger_safe|by apply twp_ret].
  - tstep. apply anything_spec. intros any. tstep.
    assert (Hfin : forall s1 st1, scan_inv s1 st1 -> twp sensor_cached_upload_try_start (fun _ s' st' => scan_inv s' st') s1 st1) by (intros; by apply try_start_safe).
    tstep; [|by apply twp_ret, Hfin]. tstep.
    eapply twp_mono with (P := fun _ s' st' => scan_inv s' st').
    { pose proof (stop_safe s st (bool_decide (scan_state (s_scan_config s) = SCAN_STATE_SCANNING)) H) as Hx. case_decide; [by rewrite bool_decide_true in Hx|by rewrite bool_decide_false in Hx]. }
    intros _ s1 st1 H1. tstep. tstep. destruct (decide _); [by apply twp_ret, Hfin|]. eapply twp_mono; [by apply upload_data_safe|]. cbn beta. intros _ s2 st2 H2. by apply Hfin.
  - tstep. apply scan_ask. apply sample_safe; [done|done|by left|eexists; split; [done|apply law_th_typed]|by rewrite zlen_bytes_of].
  - tstep. apply scan_ask. apply sample_safe; [done|done|by right|eexists; split; [done|apply law_bp_typed]|by rewrite zlen_bytes_of].
  - tstep. apply scan_ask. by apply sensor_ack_safe.
Qed.

(** ** Runs of the module *)

Inductive scan_event :=
  | EvReceived (info : recv_info) (buf : list Z)
  | EvMessage (m : scan_msg)
  | EvUploadNext
  | EvUploadClear
  | EvConfig (mode interval length upload : Z).

Definition run_event (e : scan_event) : scanner unit :=
  match e with
  | EvReceived info buf => scan_recv_cb info buf
  | EvMessage m => my_scan_msg_handler m
  | EvUploadNext => tag_mac_scan_upload_data
  | EvUploadClear => clear_tag_macinfo
  | EvConfig mode interval length upload => my_scan_set_config mode interval length upload
  end.

(** What the Bluetooth stack hands over: an address, a signal strength, bytes. *)
Definition ev_ok (e : scan_event) : Prop := match e with EvReceived info buf => info_ok info /\ bytes_ok buf | _ => True end.

(** The variables when the program starts. *)
Definition boot : scan :=
  mk_scan no_prefixes (clear TAG_RESULT_MAX_NUM) (mk_scan_config SCAN_MODE_OFF 0 0 0 SCAN_STATE_IDLE) no_cache 0 [] (clear TRAN_MAC_MAX_NUM) [] 0 UPLOAD_STATE_IDLE 0 0
    (mk_sensor SENSOR_UPLOAD_STATE_IDLE FS_TYPE_MAX 0 0) (zeros SENSOR_CDATA_PARAM_MAX_LEN).

(** The states the events lead to.  The program starts with its store closed and finds in it the
    records of the module; no event comes while a closed region has a full staging buffer. *)
Inductive reached : scan -> fs_state D -> Prop :=
  | reached_init st0 open_ret ready register_ret r s st :
      s_inited st0 = false -> store_ok rec_ok (fst (my_flash_store_init st0 open_ret ready)) ->
      my_scan_init open_ret ready register_ret boot st0 = Done (r, s, st) -> reached s st
  | reached_event e s st s' st' : reached s st -> unfilled st -> ev_ok e -> run_event e s st = Done (tt, s', st') -> reached s' st'.

Lemma event_safe e s st : scan_inv s st -> unfilled st -> ev_ok e -> twp (run_event e) (fun _ s' st' => scan_inv s' st') s st.
Proof.
  intros H Hun He. pose proof (unfilled_roomy rec_ok st (si_store _ _ H) Hun) as Hr. destruct e; cbn [run_event ev_ok] in *.
  - destruct He as [Hi Hb]. eapply twp_mono; [apply (scan_recv_cb_spec 0 st); [apply H|by apply (world_start 0 s)|done|done]|]. cbn beta. intros _ s' st' (Hf' & Hu' & Hw'). eapply inv_world; [apply H|done|done|done].
  - by apply msg_safe.
  - by apply upload_data_safe.
  - by apply clear_safe.
  - apply set_config_safe; [apply H|apply H|done|apply (uo_sensor _ _ (si_uploads _ _ H))|apply (uo_frame _ _ (si_uploads _ _ H))].
Qed.

(** A store that has just been opened has nothing staged. *)
Lemma load_unstaged t w : push_safe (fst (fs_region_load (fresh_region t) w)).
Proof.
  right. unfold fs_region_load. pose proof (type_rps t). destruct (my_user_data_read _ _ _) as [[w' r] bs].
  destruct (negb _ || _ || _); [cbn; lia|]. destruct (_ || _); cbn; lia.
Qed.

Lemma init_unfilled st0 open_ret ready : s_inited st0 = false -> store_ok rec_ok (fst (my_flash_store_init st0 open_ret ready)) ->
  unfilled (fst (my_flash_store_init st0 open_ret ready)).
Proof.
  unfold my_flash_store_init. intros E. rewrite E. destruct (negb (open_ret =? 0)); [intros [[Hi _ _] _]; cbn in Hi; congruence|].
  destruct (negb ready); [intros [[Hi _ _] _]; cbn in Hi; congruence|]. intros _.
  pose proof (load_unstaged FS_TYPE_TAG (dev st0)) as H0. destruct (fs_region_load _ (dev st0)) as [r0 w0].
  pose proof (load_unstaged FS_TYPE_MAC w0) as H1. destruct (fs_region_load _ w0) as [r1 w1].
  pose proof (load_unstaged FS_TYPE_TH w1) as H2. destruct (fs_region_load _ w1) as [r2 w2].
  pose proof (load_unstaged FS_TYPE_BP w2) as H3. destruct (fs_region_load _ w2) as [r3 w3].
  intros t rg Eg. apply arr_get_inv in Eg as [_ Eg]. cbn in Eg. apply list_elem_of_lookup_2 in Eg.
  repeat (apply elem_of_cons in Eg as [->|Eg]; [done|]). by apply not_elem_of_nil in Eg.
Qed.

Lemma init_safe open_ret ready register_ret st0 : s_inited st0 = false -> let st1 := fst (my_flash_store_init st0 open_ret ready) in store_ok rec_ok st1 ->
  twp (my_scan_init open_ret ready register_ret) (fun _ s st => scan_inv s st) boot st0.
Proof.
  intros Hni st1 Hst. pose proof (unfilled_roomy rec_ok st1 Hst (init_unfilled _ _ _ Hni Hst)) as Hr.
  unfold my_scan_init. tstep. apply twp_world. intros [] w [= <-]. fold st1. destruct prefixes_init_ok as (t & Et & Ht). tstep. eapply twp_checked; [exact Et|].
  tstep. tstep. set (s := set_trans _ _). assert (Hf : found_ok s) by (split; [done|apply clear_tags_ok|apply clear_trans_ok|apply no_cache_ok|by split|by split]).
  tstep. { apply twp_ret. apply devices_inv; [|done|done]. split; [done|done|done|done|by intros []|done]. }
  tstep. apply scan_ask. tstep. eapply twp_mono; [apply set_config_safe; [done|done|done|by intros []|done]|]. cbn beta. intros _ s' st' H'. by apply twp_ret.
Qed.

(** C11: on a flash that accepts writes inside its partition, and as long as no event comes while the staging buffer of a record type without an open upload is full (the one state in which the store itself writes behind its buffer): whatever packets nearby devices send and in whatever order messages, answers and configurations arrive, in every state the module reaches from a start that finds an intact store, the next event is handled to its end without an access outside a table, queue, cache or buffer; the tables and queues keep their form, the store holds only records of the module, a device upload or a sample upload has its session open in the store while it reads from it, and never are both going on. *)
Theorem scan_events_safe s st : reached s st ->
  scan_inv s st /\ forall e, unfilled st -> ev_ok e -> exists s' st', run_event e s st = Done (tt, s', st').
Proof.
  intros Hre. assert (H : scan_inv s st).
  { induction Hre as [st0 o rd rr r s st Hni Hst E|e s st s' st' _ IH Hr He E].
    - pose proof (init_safe o rd rr st0 Hni Hst) as H. unfold twp in H. by rewrite E in H.
    - pose proof (event_safe e s st IH Hr He) as H. unfold twp in H. by rewrite E in H. }
  split; [done|]. intros e Hr He. destruct (twp_done _ _ _ _ (event_safe e s st H Hr He)) as ([] & s' & st' & E & _). by exists s', st'.
Qed.
End events.
