(* ===== verification/ScanSim.v ===== *)
(** * The scanner on a simulated device

    The device of [FlashStoreSim] with an LTE module that records the commands
    it is given, and the theorems about the scanner evaluated on it. *)

From S2P Require Import Prelude Text Str FlashStore FlashStoreProofs FlashStoreApi FlashStoreSim StoreClient Prog Layout SettingsData Settings AtCmd AtHandlers AtSim ScanParse Scan ScanSafe ScanFound ScanSensor ScanSamples ScanUpload ScanEvents.

Open Scope prog_scope.

Record radio := mk_radio { r_sim : sim; r_log : list (list Z * option (list Z)) }.

Definition radio_storage : StorageIO radio := {|
  flash_view w := flash_view (r_sim w);
  zms_view w := zms_view (r_sim w);
  flash_area_write w off bs := let '(m, r) := flash_area_write (r_sim w) off bs in (mk_radio m (r_log w), r);
  flash_area_read w off n := let '(m, r, bs) := flash_area_read (r_sim w) off n in (mk_radio m (r_log w), r, bs);
  zms_write w id bs := let '(m, r) := zms_write (r_sim w) id bs in (mk_radio m (r_log w), r);
  zms_read w id n := let '(m, r, bs) := zms_read (r_sim w) id n in (mk_radio m (r_log w), r, bs);
  crc32_ieee := crc32_ieee (W := sim)
|}.

Definition warm : fs_temp_humi_record_t := mk_th 1700000000 215 480.
Definition calm_air : fs_barometer_record_t := mk_bp 1700000000 101325.

#[export] Instance radio_io : ScanIO radio := {
  scan_storage := radio_storage;
  Scan.lte_send_command n p w := (mk_radio (r_sim w) (r_log w ++ [(n, p)]), 0);
  scan_do _ w := w;
  bt_le_scan_start w := (w, 0);
  bt_le_scan_stop w := (w, 0);
  my_get_system_time_sec _ := 1700000000;
  Scan.g_bLteReady _ := true;
  scan_settings _ := new_config;
  g_temp_humi_sample _ := warm;
  g_barometer_sample _ := calm_air;
  s_sensor_ble_rsp _ := BLE_RSP_CDATA;
  lte_commands := r_log
}.

#[export] Instance radio_storage_laws : StorageLaws radio.
Proof.
  split; cbn [flash_view zms_view flash_area_write flash_area_read zms_write zms_read radio_storage scan_storage radio_io];
    [intros w off bs w'|intros w off bs w' r off' n|intros w off bs w' r id|intros w off n w' bs|intros w off n w' r bs|intros w off n w' r bs
    |intros w id bs w' r|intros w id bs w' r|intros w id bs w' r id'|intros w id bs w' r|intros w id n w' bs|intros w id n w' r bs|intros w id n w' r bs|intros l].
  - destruct (flash_area_write _ _ _) as [m x] eqn:E. intros [= <- ->]. by eapply law_write_ok.
  - destruct (flash_area_write _ _ _) as [m x] eqn:E. intros [= <- _]. by eapply law_write_frame.
  - destruct (flash_area_write _ _ _) as [m x] eqn:E. intros [= <- _]. by eapply law_write_zms.
  - destruct (flash_area_read _ _ _) as [[m x] y] eqn:E. intros [= <- -> <-]. by eapply law_read_ok.
  - destruct (flash_area_read _ _ _) as [[m x] y] eqn:E. intros [= <- <- <-]. by eapply law_read_ret.
  - destruct (flash_area_read _ _ _) as [[m x] y] eqn:E. intros [= <- <- <-]. by eapply law_read_pure.
  - destruct (zms_write _ _ _) as [m x] eqn:E. intros [= <- <-]. by eapply law_zms_write_ok.
  - destruct (zms_write _ _ _) as [m x] eqn:E. intros [= <- <-]. by eapply law_zms_write_same.
  - destruct (zms_write _ _ _) as [m x] eqn:E. intros [= <- <-]. by eapply law_zms_write_frame.
  - destruct (zms_write _ _ _) as [m x] eqn:E. intros [= <- <-]. by eapply law_zms_write_flash.
  - destruct (zms_read _ _ _) as [[m x] y] eqn:E. intros [= <- -> <-]. by eapply law_zms_read_ok.
  - destruct (zms_read _ _ _) as [[m x] y] eqn:E. intros [= <- <- <-]. by eapply law_zms_read_none.
  - destruct (zms_read _ _ _) as [[m x] y] eqn:E. intros [= <- <- <-]. by eapply law_zms_read_pure.
  - apply (law_crc_range (W := sim)).
Qed.

#[export] Instance radio_flash : FlashWorks radio.
Proof. split. intros w off bs H1 H2. cbn in *. by rewrite arr_blit_Some by lia. Qed.

#[export] Instance radio_laws : ScanLaws radio.
Proof.
  split; try done; [apply _|intros d off n|intros d id bs]; cbn; [by destruct (arr_slice _ _ _)|by destruct (decide _)].
Qed.

Lemma radio_reads : reads_work radio.
Proof.
  intros w r Hw (Hr & off & n & w' & bs & H1 & H2 & H3 & E). cbn in E, Hw. rewrite arr_slice_Some in E by lia. injection E as _ <- _. lia.
Qed.

Lemma radio_sends : sends_work (D := radio).
Proof. by intros n p d. Qed.

(** ** The store after the first start *)

Definition radio0 : radio := mk_radio blank [].
Definition store0 : fs_state radio := mk_fs true [fresh_region 0; fresh_region 1; fresh_region 2; fresh_region 3] radio0.

Lemma store0_regions t rg : arr_get (s_region store0) t = Some rg -> rg = fresh_region t /\ 0 <= t < 4.
Proof.
  intros E. pose proof (arr_get_inv _ _ _ E) as [Hr _]. change (zlen (s_region store0)) with 4 in Hr. split; [|done].
  assert (t = 0 \/ t = 1 \/ t = 2 \/ t = 3) as [-> | [-> | [-> | ->]]] by lia; by injection E as <-.
Qed.

Lemma fresh_empty t mem : pending (fresh_region t) mem = [].
Proof. unfold pending, flash_records, staged_records, flash_len. cbn. by destruct (rec_per_sector (type_const t)). Qed.

Lemma store0_ok : store_ok rec_ok store0.
Proof.
  split.
  - split; [done|done|]. intros t rg E. destruct (store0_regions t rg E) as [-> Ht]. split; [done|]. apply fresh_inv, blank_size.
  - intros t. unfold queue. destruct (arr_get (s_region store0) t) as [rg|] eqn:E; [|constructor]. destruct (store0_regions t rg E) as [-> _]. rewrite fresh_empty. constructor.
Qed.

Lemma store0_roomy : roomy 32 store0.
Proof.
  intros t rg E. destruct (store0_regions t rg E) as [-> _]. unfold room. cbn. pose proof (type_rps t). lia.
Qed.

Lemma store0_queue t : queue store0 t = [].
Proof. unfold queue. destruct (arr_get (s_region store0) t) as [rg|] eqn:E; [|done]. destruct (store0_regions t rg E) as [-> _]. apply fresh_empty. Qed.

Definition tag_a : tag_scan_result_t := mk_tag [1; 17; 34; 51; 68; 85; 102] ([80; 66; 55; 49] ++ zeros 28) (zeros 29) 0 (zeros 16) 0 90 (-60) 1700000000.
Definition tag_b : tag_scan_result_t := mk_tag [1; 17; 34; 51; 68; 85; 103] ([80; 66; 55; 50] ++ zeros 28) (zeros 29) 0 (zeros 16) 0 80 (-70) 1700000005.

Lemma tag_a_ok : tag_ok tag_a.
Proof. split; unfold bytes_ok, is_byte, terminated; apply (bool_decide_unpack _); by vm_compute. Qed.
Lemma tag_b_ok : tag_ok tag_b.
Proof. split; unfold bytes_ok, is_byte, terminated; apply (bool_decide_unpack _); by vm_compute. Qed.

(** The module with two tags in its table, the younger first. *)
Definition two_tags : scan := set_results (mk_table (tag_b :: tag_a :: replicate 8 zero) 2) boot.

Lemma boot_found t : table_ok tag_ok TAG_RESULT_MAX_NUM t -> found_ok (set_results t boot).
Proof.
  intros Ht. split; [|done|apply clear_trans_ok|apply no_cache_ok|by split|by split]. unfold table_ok, prefix_ok. apply (bool_decide_unpack _). by vm_compute.
Qed.

Lemma boot_inv t st : table_ok tag_ok TAG_RESULT_MAX_NUM t -> store_ok rec_ok st -> scan_inv (set_results t boot) st.
Proof. intros Ht Hst. apply devices_inv; [|done|done]. split; [by apply boot_found|done|done|done|by intros []|done]. Qed.

Lemma two_tags_ok : table_ok tag_ok TAG_RESULT_MAX_NUM (s_result_table two_tags).
Proof. split; [done|]. split; [done|]. cbn [t_items s_result_table two_tags set_results]. constructor; [apply tag_b_ok|]. constructor; [apply tag_a_ok|]. apply Forall_replicate, zero_tag_ok. Qed.

Lemma two_tags_inv : scan_inv two_tags store0.
Proof. apply boot_inv; [apply two_tags_ok|apply store0_ok]. Qed.

(** ** The theorems *)


Lemma device_upload_complete_witness :
  twp (calls 4) (fun _ s' st' => lte_commands (dev st') = tag_round two_tags store0 /\ tags_waiting s' st' = 0) two_tags store0.
Proof.
  assert (E : (messages (tags_waiting two_tags store0) + messages (macs_waiting two_tags store0))%nat = 4%nat) by (unfold tags_waiting, macs_waiting; rewrite !store0_queue; reflexivity).
  assert (Em : mac_round two_tags store0 = []) by (unfold mac_round, macs_waiting; rewrite !store0_queue; reflexivity).
  rewrite <- E. eapply twp_mono; [apply (device_upload_complete two_tags store0); [apply two_tags_inv|apply radio_reads|done|done|done]|].
  cbn beta. rewrite Em, app_nil_r. intros _ s' st' (H1 & H2 & _). exact (conj H1 H2).
Defined.

Lemma tag_found_during_upload_lost_witness : let s := set_results (mk_table (tag_a :: replicate 9 zero) 1) boot in
  twp (tag_mac_scan_upload_data;; tag_scan_result_save tag_b;; calls 2) (fun _ s' st' => lte_commands (dev st') = tag_round s store0 /\ tags_waiting s' st' = 0) s store0.
Proof.
  intros s. assert (Ew : tags_waiting s store0 = 1) by (unfold tags_waiting; rewrite store0_queue; reflexivity).
  assert (Ht : table_ok tag_ok TAG_RESULT_MAX_NUM (s_result_table s)) by (split; [done|]; split; [done|]; constructor; [apply tag_a_ok|]; apply Forall_replicate, zero_tag_ok).
  pose proof (tag_found_during_upload_lost s store0 tag_b (boot_inv _ _ Ht store0_ok) radio_reads) as H. rewrite Ew in H. change (Z.to_nat (1 + 1)) with 2%nat in H.
  apply H; try done; [apply tag_b_ok|]. constructor; [done|constructor].
Defined.

(** The module after its first start. *)
Definition started : fs_state radio := mk_fs false [] radio0.

Lemma started_unfilled r s st : my_scan_init 0 true 0 boot started = Done (r, s, st) -> unfilled st.
Proof.
  intros E. assert (H : forallb (fun rg => upload_active (sess rg) || (staging_count rg <? rec_per_sector (const rg)))
    (match my_scan_init 0 true 0 boot started with Done (_, _, st) => s_region st | _ => [fresh_region 0] end) = true) by (by vm_compute).
  rewrite E in H. intros t rg Eg. apply arr_get_inv in Eg as [_ Eg]. apply list_elem_of_lookup_2, list_elem_of_In in Eg.
  pose proof (proj1 (forallb_forall _ _) H rg Eg) as Hb. cbv beta in Hb. apply orb_true_iff in Hb as [Hb|Hb]; [by left|]. right. by apply Z.ltb_lt.
Qed.

Lemma scan_events_safe_witness : exists s st, reached s st /\ scan_inv s st /\ unfilled st /\
  forall e, ev_ok e -> exists s' st', run_event (D := radio) e s st = Done (tt, s', st').
Proof.
  destruct (twp_done _ _ _ _ (init_safe 0 true 0 started eq_refl store0_ok)) as (r & s & st & E & _).
  assert (Hre : reached s st) by (eapply (reached_init started 0 true 0); [reflexivity|exact store0_ok|exact E]).
  pose proof (started_unfilled r s st E) as Hun. destruct (scan_events_safe s st Hre) as [Hi Hev].
  exists s, st. split; [exact Hre|]. split; [exact Hi|]. split; [exact Hun|]. intros e He. exact (Hev e Hun He).
Defined.

(** The store with one sample. *)
Definition store1 : fs_state radio :=
  match my_flash_store_push FS_TYPE_TH store0 (Some (bytes_of warm)) with Some (st, _) => st | None => store0 end.

Lemma store1_ok : store_ok rec_ok store1.
Proof.
  destruct (store_push rec_ok 31 store0 FS_TYPE_TH (bytes_of warm)) as (st & r & E & H & _); [apply store0_ok|apply store0_roomy|done|done|by exists warm|].
  unfold store1. by rewrite E.
Qed.

Lemma store1_queue : queue store1 FS_TYPE_TH = [bytes_of warm].
Proof. reflexivity. Qed.

Lemma samples_upload_complete_witness : let s := set_results (clear TAG_RESULT_MAX_NUM) boot in
  twp (sensor_cached_upload_try_start;; acks 2) (fun _ s' st' =>
    lte_commands (dev st') = [(cstr "CDATA", Some (cstr "START,1,1")); (cstr "CDATA", Some (cstr "1,1,1700000000,215,480")); (cstr "CDATA", Some (cstr "END"))] /\
    twp (sensor_handle_lte_ack BLE_RSP_CDATA) (fun _ _ st'' => queue st'' FS_TYPE_TH = []) s' st') s store1.
Proof.
  intros s. assert (Et : first_type store1 = FS_TYPE_TH) by (unfold first_type; by rewrite store1_queue).
  pose proof (samples_upload_complete s store1) as H. cbv zeta in H. rewrite Et, store1_queue in H.
  eapply twp_mono; [apply H; [apply boot_inv; [apply clear_tags_ok|apply store1_ok]|apply radio_reads|apply radio_sends|reflexivity|discriminate|reflexivity|reflexivity]|].
  cbn beta. intros _ s' st' (H1 & _ & H2). split; [rewrite H1; vm_compute; reflexivity|]. eapply twp_mono; [exact H2|]. cbn beta. intros _ _ st2 [H3 _]. exact H3.
Defined.
