(* ===== verification/Ymodem.v ===== *)
(** * The YModem/XModem receiver ([src/my_ymodem.c])

    The blocking receive side of the protocol module: handshake, first frame,
    data frames with duplicate and error handling, the end-of-transfer
    exchange, to memory or to the caller's save callbacks.  The code runs in a
    state monad over the handle [my_ymodem] and the outside world [W]; the
    result says whether the code returned, ran out of the fuel given to its
    two unbounded loops, or made an access outside an object. *)

From S2P Require Import Prelude Prog Crc Text.

(** ** Protocol constants *)

Definition SOH : Z := 0x01.
Definition STX : Z := 0x02.
Definition EOT : Z := 0x04.
Definition ACK : Z := 0x06.
Definition NAK : Z := 0x15.
Definition CAN : Z := 0x18.
Definition CRC16_C : Z := 0x43.
Definition SOH_SIZE : Z := 128.
Definition STX_SIZE : Z := 1024.

Definition FRAME_DATA_OFF : Z := 3.
Definition FRAME_BUF_SIZE : Z := 1032.
Definition MAX_PATH_LEN : Z := 256.

Definition YM_OK : Z := 0.
Definition ERR_HEAD : Z := -10.
Definition ERR_SEQ : Z := -11.
Definition ERR_CRC : Z := -12.
Definition ERR_SIZE : Z := -15.
Definition ERR_STATE : Z := -16.
Definition ERR_IO : Z := -17.
Definition ERR_RETRY : Z := -18.
Definition ERR_FILE : Z := -19.
Definition ERR_PARAM : Z := -20.

(** ** Data *)

Inductive ym_state :=
| STATE_CONNECTING | STATE_CONNECTED | STATE_FILEXFER
| STATE_ENDOFXFER | STATE_ENDING | STATE_ENDED.

#[export] Instance ym_state_eq_dec : EqDecision ym_state.
Proof. solve_decision. Defined.

(** The receive fields of [struct my_ymodem]; arrays have their C length. *)
Record my_ymodem := mk_ym {
  state : ym_state;
  crc_type : Z;
  is_ymodem : bool;
  file_name : list Z;
  save_dir : list Z;
  file_size : Z;
  data_dst : Z;
  out_buf : list Z;
  out_buf_size : Z;
  written : Z;
  expected_seq : Z;
  frame : list Z
}.

(** [my_ymodem_io_t]: the callbacks over the world and the settings.  A null
    callback is [None].  [io_recv] returns a negative error or the bytes that
    were read, none of them on a timeout.  A callback that leaves its own
    objects is [None]. *)
Record my_ymodem_io (W : Type) := mk_io {
  io_send : W -> list Z -> option (W * Z);
  io_recv : W -> Z -> Z -> option (W * (Z + list Z));
  io_flush : option (W -> W);
  io_save_open : option (W -> list Z -> Z -> option (W * Z));
  io_save_write : option (W -> list Z -> Z -> option (W * Z));
  io_save_close : option (W -> bool -> option (W * Z));
  handshake_retry : Z;
  send_retry : Z;
  recv_timeout_ms : Z
}.
Arguments mk_io {W} _ _ _ _ _ _ _ _ _.
Arguments io_send {W} _ _ _.
Arguments io_recv {W} _ _ _ _.
Arguments io_flush {W} _.
Arguments io_save_open {W} _.
Arguments io_save_write {W} _.
Arguments io_save_close {W} _.
Arguments handshake_retry {W} _.
Arguments send_retry {W} _.
Arguments recv_timeout_ms {W} _.

(** *** Field updates *)

Definition set_state s y := mk_ym s (crc_type y) (is_ymodem y) (file_name y) (save_dir y)
  (file_size y) (data_dst y) (out_buf y) (out_buf_size y) (written y) (expected_seq y) (frame y).
Definition set_crc_type c y := mk_ym (state y) c (is_ymodem y) (file_name y) (save_dir y)
  (file_size y) (data_dst y) (out_buf y) (out_buf_size y) (written y) (expected_seq y) (frame y).
Definition set_is_ymodem b y := mk_ym (state y) (crc_type y) b (file_name y) (save_dir y)
  (file_size y) (data_dst y) (out_buf y) (out_buf_size y) (written y) (expected_seq y) (frame y).
Definition set_file_info n sz y := mk_ym (state y) (crc_type y) (is_ymodem y) n (save_dir y)
  sz (data_dst y) (out_buf y) (out_buf_size y) (written y) (expected_seq y) (frame y).
Definition set_out_buf b y := mk_ym (state y) (crc_type y) (is_ymodem y) (file_name y) (save_dir y)
  (file_size y) (data_dst y) b (out_buf_size y) (written y) (expected_seq y) (frame y).
Definition set_written n y := mk_ym (state y) (crc_type y) (is_ymodem y) (file_name y) (save_dir y)
  (file_size y) (data_dst y) (out_buf y) (out_buf_size y) n (expected_seq y) (frame y).
Definition set_seq n y := mk_ym (state y) (crc_type y) (is_ymodem y) (file_name y) (save_dir y)
  (file_size y) (data_dst y) (out_buf y) (out_buf_size y) (written y) n (frame y).
Definition set_frame f y := mk_ym (state y) (crc_type y) (is_ymodem y) (file_name y) (save_dir y)
  (file_size y) (data_dst y) (out_buf y) (out_buf_size y) (written y) (expected_seq y) f.

#[local] Open Scope prog_scope.

Section receiver.
Context {W : Type} (io : my_ymodem_io W).

Definition M (A : Type) : Type := prog my_ymodem W A.

(** ** Settings and line primitives *)

Definition get_handshake_retry : Z := if 0 <? handshake_retry io then handshake_retry io else 10.
Definition get_send_retry : Z := if 0 <? send_retry io then send_retry io else 10.
Definition get_recv_timeout : Z := if 0 <? recv_timeout_ms io then recv_timeout_ms io else 3000.

Definition send_byte (c : Z) : M Z := world_checked (fun w => io_send io w [c]).

(** Every round stores at least one byte, so [S max_len] rounds are enough. *)
Fixpoint recv_loop (n : nat) (off max_len total timeout_ms : Z) : M Z :=
  match n with
  | O => ret total
  | S n' =>
      if total <? max_len
      then
        rx <- world_checked (fun w => io_recv io w (max_len - total) timeout_ms) ;;
        match rx with
        | inl _ => ret (-1)
        | inr [] => ret total
        | inr bs =>
            f <- get frame ;;
            f' <- checked (arr_blit f (off + total) bs) ;;
            modify (set_frame f') ;;
            recv_loop n' off max_len (total + zlen bs) timeout_ms
        end
      else ret total
  end.

(** [recv_data (ym, ym->frame + off, max_len, timeout_ms)]. *)
Definition recv_data (off max_len timeout_ms : Z) : M Z :=
  recv_loop (S (Z.to_nat max_len)) off max_len 0 timeout_ms.

(** The drain loop used when no flush callback is given, at most [n] rounds. *)
Fixpoint drain (n : nat) : M unit :=
  match n with
  | O => no_fuel
  | S n' =>
      rx <- world_checked (fun w => io_recv io w 64 0) ;;
      match rx with inr (_ :: _) => drain n' | _ => ret tt end
  end.

Definition port_flush (fuel : nat) : M unit :=
  match io_flush io with
  | Some f => world (fun w => (f w, tt))
  | None => drain fuel
  end.

(** ** Frames *)

Definition receiver_send_request : M Z :=
  t <- get crc_type ;;
  if t =? 1 then send_byte NAK ;; ret 1 else send_byte CRC16_C ;; ret 2.

Definition receiver_verify_frame (f : list Z) (data_size crc_len : Z) : option Z :=
  seq ← arr_get f 1;
  seqn ← arr_get f 2;
  if negb (u8 (seq + seqn) =? 0xFF) then Some ERR_SEQ
  else
    data ← arr_slice f FRAME_DATA_OFF data_size;
    let crc_off := FRAME_DATA_OFF + data_size in
    if crc_len =? 1
    then
      rx ← arr_get f crc_off;
      Some (if negb (rx =? calc_checksum data) then ERR_CRC else YM_OK)
    else
      hi ← arr_get f crc_off;
      lo ← arr_get f (crc_off + 1);
      let rx := u16 (Z.lor (Z.shiftl hi 8) lo) in
      Some (if negb (rx =? calc_crc16 data) then ERR_CRC else YM_OK).

(** [strtol (s, NULL, 10)] of the C library with a 32-bit [long]; [None] when
    the text runs to the end of the object without a terminator. *)
Fixpoint strtol_digits (s : list Z) (v : Z) : option Z :=
  match s with
  | [] => None
  | c :: s' => if is_digit c then strtol_digits s' (v * 10 + (c - 48)) else Some v
  end.

Definition clamp32 (v : Z) : Z := Z.max (-2147483648) (Z.min 2147483647 v).

Fixpoint strtol (s : list Z) : option Z :=
  match s with
  | [] => None
  | c :: s' =>
      if isspace c then strtol s'
      else if c =? 43 then clamp32 <$> strtol_digits s' 0
      else if c =? 45 then (fun v => clamp32 (- v)) <$> strtol_digits s' 0
      else clamp32 <$> strtol_digits s 0
  end.

(** The name loop; [n] characters are left of the 127 it may copy. *)
Fixpoint name_loop (n : nat) (i : Z) (buf name : list Z) : option (Z * list Z) :=
  match n with
  | O => Some (i, name)
  | S n' =>
      c ← arr_get buf i;
      if c =? 0 then Some (i, name)
      else name ← arr_set name i c; name_loop n' (i + 1) buf name
  end.

Definition parse_info (buf name : list Z) : option (list Z * Z) :=
  '(i, name) ← name_loop (Z.to_nat (SOH_SIZE - 1)) 0 buf name;
  name ← arr_set name i 0;
  size ← strtol (drop (Z.to_nat (i + 1)) buf);
  Some (name, if size =? 0 then -1 else size).

(** The data area starts at offset 3 of the frame. *)
Definition receiver_parse_file_info : M unit :=
  f <- get frame ;;
  name <- get file_name ;;
  info <- checked (parse_info (drop 3 f) name) ;;
  modify (set_file_info (fst info) (snd info)).

(** ** The destination *)

(** The path of the build: no file system ([MY_YMODEM_NO_FILE_IO]). *)
Definition receiver_open_file : M Z :=
  dst <- get data_dst ;;
  if dst =? 1 then modify (set_written 0) ;; ret YM_OK
  else
    match io_save_open io with
    | Some f =>
        name <- get file_name ;;
        size <- get file_size ;;
        r <- world_checked (fun w => f w name size) ;;
        if negb (r =? 0) then ret ERR_FILE else modify (set_written 0) ;; ret YM_OK
    | None => ret ERR_FILE
    end.

Definition receiver_close_file : M unit :=
  dst <- get data_dst ;;
  if dst =? 1 then ret tt
  else
    match io_save_close io with
    | Some f => world_checked (fun w => f w true) ;; ret tt
    | None => ret tt
    end.

(** [data] is [frame + 3]. *)
Definition receiver_save_data (len : Z) : M Z :=
  y <- get id ;;
  if data_dst y =? 1
  then
    if out_buf_size y <? i32 (written y + len) then send_byte CAN ;; ret ERR_FILE
    else
      src <- checked (arr_slice (frame y) FRAME_DATA_OFF len) ;;
      b <- checked (arr_blit (out_buf y) (written y) src) ;;
      modify (set_out_buf b) ;;
      modify (set_written (i32 (written y + len))) ;; ret YM_OK
  else
    match io_save_write io with
    | Some f =>
        r <- world_checked (fun w => f w (drop 3 (frame y)) len) ;;
        if negb (r =? 0) then send_byte CAN ;; ret ERR_FILE
        else modify (set_written (i32 (written y + len))) ;; ret YM_OK
    | None => send_byte CAN ;; ret ERR_FILE
    end.

(** ** Frame handling *)

Definition frame_byte (i : Z) : M Z := f <- get frame ;; checked (arr_get f i).

Definition flush_nak (fuel : nat) (code : Z) : M Z :=
  port_flush fuel ;; send_byte NAK ;; ret code.

Definition receiver_process_first_frame (fuel : nat) (crc_len : Z) : M Z :=
  head <- frame_byte 0 ;;
  if negb ((head =? SOH) || (head =? STX)) then ret ERR_HEAD
  else
    let data_size := if head =? SOH then SOH_SIZE else STX_SIZE in
    let remain := FRAME_DATA_OFF + data_size + crc_len - 1 in
    recv_len <- recv_data 1 remain get_recv_timeout ;;
    if recv_len <? remain then flush_nak fuel ERR_SIZE
    else
      f <- get frame ;;
      v <- checked (receiver_verify_frame f data_size crc_len) ;;
      if negb (v =? YM_OK) then flush_nak fuel v
      else
        seq <- frame_byte 1 ;;
        seqn <- frame_byte 2 ;;
        r <- (if (seq =? 0) && (seqn =? 0xFF)
              then
                modify (set_is_ymodem true) ;;
                modify (set_seq 1) ;;
                receiver_parse_file_info ;;
                send_byte ACK ;;
                receiver_send_request ;;
                ret YM_OK
              else
                modify (set_is_ymodem false) ;;
                if negb (seq =? 1) then send_byte NAK ;; ret ERR_SEQ
                else modify (set_seq 2) ;; ret YM_OK) ;;
        if negb (r =? YM_OK) then ret r
        else
          modify (set_state STATE_CONNECTED) ;;
          o <- receiver_open_file ;;
          if negb (o =? YM_OK) then send_byte CAN ;; ret ERR_FILE
          else
            ymodem <- get is_ymodem ;;
            if ymodem then ret YM_OK
            else
              s <- receiver_save_data data_size ;;
              if negb (s =? YM_OK) then ret s else send_byte ACK ;; ret YM_OK.

(** The answer to [EOT]. *)
Definition process_eot : M Z :=
  y <- get id ;;
  if is_ymodem y
  then
    match state y with
    | STATE_FILEXFER => modify (set_state STATE_ENDOFXFER) ;; send_byte NAK ;; ret YM_OK
    | STATE_ENDOFXFER =>
        modify (set_state STATE_ENDING) ;;
        send_byte ACK ;;
        (if crc_type y =? 1 then send_byte NAK else send_byte CRC16_C) ;;
        ret YM_OK
    | STATE_ENDING => ret YM_OK
    | _ => ret ERR_STATE
    end
  else
    modify (set_state STATE_ENDED) ;; send_byte ACK ;; receiver_close_file ;; ret YM_OK.

(** Frame number 0 in [STATE_ENDING]: the end of the batch or the next file. *)
Definition process_batch : M Z :=
  d0 <- frame_byte FRAME_DATA_OFF ;;
  if d0 =? 0
  then modify (set_state STATE_ENDED) ;; send_byte ACK ;; receiver_close_file ;; ret YM_OK
  else
    receiver_close_file ;;
    receiver_parse_file_info ;;
    send_byte ACK ;;
    receiver_send_request ;;
    modify (set_seq 1) ;;
    o <- receiver_open_file ;;
    if negb (o =? YM_OK) then send_byte CAN ;; ret ERR_FILE
    else modify (set_state STATE_FILEXFER) ;; ret YM_OK.

(** A data frame with the expected number. *)
Definition process_data (data_size : Z) : M Z :=
  y <- get id ;;
  let save_size :=
    if is_ymodem y && (0 <? file_size y) && (file_size y <? i32 (written y + data_size))
    then file_size y - written y else data_size in
  s <- receiver_save_data save_size ;;
  if negb (s =? YM_OK) then ret s
  else
    send_byte ACK ;;
    y <- get id ;;
    if is_ymodem y && (0 <? file_size y) && (file_size y <=? written y)
       && bool_decide (state y = STATE_FILEXFER)
    then send_byte NAK ;; modify (set_state STATE_ENDOFXFER) ;; ret YM_OK
    else ret YM_OK.

(** A complete frame: by its number it is the batch frame, the next one, a
    repetition of the last one, or out of order. *)
Definition process_numbered (seq data_size : Z) : M Z :=
  y <- get id ;;
  if is_ymodem y && bool_decide (state y = STATE_ENDING) && (seq =? 0)
  then process_batch
  else if seq =? expected_seq y
  then modify (set_seq (u8 (expected_seq y + 1))) ;; process_data data_size
  else if seq =? u8 (expected_seq y - 1) then send_byte ACK ;; ret YM_OK
  else send_byte NAK ;; ret ERR_SEQ.

Definition receiver_process_frame (fuel : nat) (crc_len : Z) : M Z :=
  r <- recv_data 0 1 get_recv_timeout ;;
  if r <=? 0 then flush_nak fuel ERR_CRC
  else
    head <- frame_byte 0 ;;
    if head =? EOT then process_eot
    else if negb ((head =? SOH) || (head =? STX))
    then send_byte CAN ;; port_flush fuel ;; ret ERR_HEAD
    else
      let data_size := if head =? SOH then SOH_SIZE else STX_SIZE in
      let remain := FRAME_DATA_OFF + data_size + crc_len - 1 in
      recv_len <- recv_data 1 remain get_recv_timeout ;;
      if recv_len <? remain then flush_nak fuel ERR_SIZE
      else
        f <- get frame ;;
        v <- checked (receiver_verify_frame f data_size crc_len) ;;
        if negb (v =? YM_OK) then flush_nak fuel ERR_CRC
        else
          seq <- frame_byte 1 ;;
          process_numbered seq data_size.

(** ** The main loop *)

(** The do-while over the first frame: [inl] is a return from [receiver_run],
    [inr true] a timeout, [inr false] success. *)
Fixpoint first_frame_loop (fuel : nat) (crc_len first_frame_retry : Z) : M (Z + bool) :=
  match fuel with
  | O => no_fuel
  | S fuel' =>
      r <- receiver_process_first_frame fuel' crc_len ;;
      if r =? ERR_HEAD
      then
        n <- recv_data 0 1 get_recv_timeout ;;
        if n <=? 0 then ret (inr true) else first_frame_loop fuel' crc_len first_frame_retry
      else if negb (r =? YM_OK)
      then
        if first_frame_retry - 1 <=? 0 then ret (inl r)
        else first_frame_loop fuel' crc_len (first_frame_retry - 1)
      else ret (inr false)
  end.

(** The [while (1)] over the following frames. *)
Fixpoint frame_loop (fuel : nat) (crc_len frame_error : Z) : M Z :=
  match fuel with
  | O => no_fuel
  | S fuel' =>
      r <- receiver_process_frame fuel' crc_len ;;
      if (r =? ERR_HEAD) || (r =? ERR_STATE) || (r =? ERR_IO) then ret r
      else if negb (r =? YM_OK)
      then
        let frame_error := frame_error + 1 in
        if get_send_retry <=? frame_error then send_byte CAN ;; ret ERR_RETRY
        else frame_loop fuel' crc_len frame_error
      else
        s <- get state ;;
        if bool_decide (s = STATE_ENDED)
        then port_flush fuel' ;; receiver_close_file ;; ret YM_OK
        else frame_loop fuel' crc_len 0
  end.

(** The handshake rounds from number [i] on, [n] of them left. *)
Fixpoint handshake_loop (n : nat) (i : Z) (fuel : nat) : M Z :=
  match n with
  | O => port_flush fuel ;; ret ERR_RETRY
  | S n' =>
      t <- get crc_type ;;
      modify (if (t =? 2) && (get_handshake_retry / 2 <=? i) then set_crc_type 1 else id) ;;
      crc_len <- receiver_send_request ;;
      r <- recv_data 0 1 get_recv_timeout ;;
      if r <=? 0 then handshake_loop n' (i + 1) fuel
      else
        first <- first_frame_loop fuel crc_len get_send_retry ;;
        match first with
        | inl e => ret e
        | inr true => handshake_loop n' (i + 1) fuel
        | inr false =>
            modify (set_state STATE_FILEXFER) ;;
            frame_loop fuel crc_len 0
        end
  end.

Definition receiver_run (fuel : nat) : M Z :=
  handshake_loop (Z.to_nat get_handshake_retry) 0 fuel.

(** ** The public functions *)

(** [calloc] and the defaults; [send] and [recv] are not null here. *)
Definition my_ymodem_init : my_ymodem :=
  mk_ym STATE_CONNECTING 2 false (replicate (Z.to_nat MAX_PATH_LEN) 0)
    (replicate (Z.to_nat MAX_PATH_LEN) 0) 0 0 [] 0 0 0 (replicate (Z.to_nat FRAME_BUF_SIZE) 0).

(** [strncpy (save_dir, dir, 255)] and the terminator, or an empty string. *)
Definition copy_dir (dir : option (list Z)) (old : list Z) : option (list Z) :=
  match dir with
  | Some (c :: d) =>
      let s := take 255 (c :: d) in
      b ← arr_blit old 0 (s ++ replicate (255 - length s) 0);
      arr_set b 255 0
  | _ => arr_set old 0 0
  end.

Definition my_ymodem_receive (fuel : nat) (dir : option (list Z)) : M Z :=
  old <- get save_dir ;;
  sd <- checked (copy_dir dir old) ;;
  modify (fun y => mk_ym STATE_CONNECTING 2 false (file_name y) sd (file_size y) 0
                     (out_buf y) (out_buf_size y) 0 (expected_seq y) (frame y)) ;;
  receiver_run fuel.

(** The result with [*out_name] and [*out_size]. *)
Definition my_ymodem_recv_mem (fuel : nat) (buf : list Z) (buf_size : Z)
  : M (Z * option (list Z * Z)) :=
  if buf_size <=? 0 then ret (ERR_PARAM, None)
  else
    old <- get save_dir ;;
    sd <- checked (arr_set old 0 0) ;;
    modify (fun y => mk_ym STATE_CONNECTING 2 false (file_name y) sd (file_size y) 1
                       buf buf_size 0 (expected_seq y) (frame y)) ;;
    r <- receiver_run fuel ;;
    if r =? YM_OK
    then
      y <- get id ;;
      name <- checked (c_string (file_name y)) ;;
      ret (r, Some (take 255 name, written y))
    else ret (r, None).
End receiver.
