(* ===== verification/YmodemSafety.v ===== *)
(** * Memory safety of the YModem receiver

    Whatever the peer sends, receiving into memory stays inside the frame
    buffer, the name array and the caller's buffer.  The proofs go through the
    weakest preconditions of [Prog]. *)

From S2P Require Import Prelude Prog Crc Text Ymodem.

(** ** The invariant *)

(** The last three bytes of the frame buffer are never written. *)
Definition frame_ok (f : list Z) : Prop :=
  zlen f = 1032 /\ arr_slice f 1029 3 = Some [0; 0; 0].

(** [mode] is the destination: 1 for a memory buffer of [size] bytes. *)
Record ym_inv (mode size : Z) (y : my_ymodem) : Prop := {
  yi_frame : frame_ok (frame y);
  yi_name : zlen (file_name y) = 256;
  yi_name0 : Exists (eq 0) (file_name y);
  yi_mode : data_dst y = mode;
  yi_crc : crc_type y = 1 \/ crc_type y = 2;
  yi_int : -2147483648 <= written y < 2147483648;
  yi_mem : mode = 1 ->
    zlen (out_buf y) = size /\ out_buf_size y = size /\ 0 <= written y <= size /\
    (is_ymodem y = true -> 0 < file_size y -> written y <= file_size y)
}.

Section pure.
Lemma frame_ok_blit f off bs f' :
  frame_ok f -> arr_blit f off bs = Some f' -> off + zlen bs <= 1029 -> frame_ok f'.
Proof.
  intros [Hl Ht] E Hle. split; [rewrite (arr_blit_length _ _ _ _ E); done|].
  rewrite (arr_slice_blit_disj _ _ _ _ _ _ E); [done|]. lia.
Qed.

Lemma frame_get f i : frame_ok f -> 0 <= i < 1032 -> exists b, arr_get f i = Some b.
Proof. intros [Hl _] Hi. destruct (arr_get_Some f i) as [b Hb]; [lia|]. by exists b. Qed.

Lemma verify_defined f data_size crc_len :
  frame_ok f -> 0 <= data_size -> 3 + data_size + 2 <= 1032 ->
  exists v, receiver_verify_frame f data_size crc_len = Some v.
Proof.
  intros Hf Hd Hle. unfold receiver_verify_frame, FRAME_DATA_OFF.
  destruct (frame_get f 1 Hf ltac:(lia)) as [s ->].
  destruct (frame_get f 2 Hf ltac:(lia)) as [n ->]. cbn [mbind option_bind].
  destruct (negb _); [eauto|]. destruct Hf as [Hl Ht] eqn:?.
  rewrite arr_slice_Some by lia. cbn [mbind option_bind].
  destruct (frame_get f (3 + data_size) Hf ltac:(lia)) as [h ->].
  destruct (frame_get f (3 + data_size + 1) Hf ltac:(lia)) as [l ->]. cbn [mbind option_bind].
  destruct (crc_len =? 1); eauto.
Qed.

(** A zero anywhere ends the number. *)
Lemma strtol_digits_defined s v : Exists (eq 0) s -> exists r, strtol_digits s v = Some r.
Proof.
  revert v. induction s as [|c s IH]; intros v H; [by apply Exists_nil in H|]. simpl.
  destruct (is_digit c) eqn:E; [|eauto]. apply IH.
  apply Exists_cons in H as [<-|H]; [done|done].
Qed.

Lemma strtol_defined s : Exists (eq 0) s -> exists r, strtol s = Some r.
Proof.
  induction s as [|c s IH]; intros H; [by apply Exists_nil in H|].
  assert (Htl : c <> 0 -> Exists (eq 0) s)
    by (intros Hc; apply Exists_cons in H as [H|H]; [congruence|done]).
  cbn [strtol]. destruct (isspace c) eqn:Es.
  { apply IH, Htl. intros ->. done. }
  destruct (Z.eqb_spec c 43) as [->|]; [|destruct (Z.eqb_spec c 45) as [->|]].
  - destruct (strtol_digits_defined s 0) as [r ->]; [by apply Htl|]. eauto.
  - destruct (strtol_digits_defined s 0) as [r ->]; [by apply Htl|]. eauto.
  - destruct (strtol_digits_defined (c :: s) 0 H) as [r ->]. eauto.
Qed.

Lemma name_loop_defined n : forall i buf name,
  0 <= i -> i + Z.of_nat n <= 127 -> 128 <= zlen buf -> zlen name = 256 ->
  exists i' name', name_loop n i buf name = Some (i', name') /\
    i <= i' <= 127 /\ zlen name' = 256.
Proof.
  induction n as [|n IH]; intros i buf name Hi Hn Hb Hname; cbn [name_loop].
  { exists i, name. split; [done|]. lia. }
  destruct (arr_get_Some buf i) as [c ->]; [lia|]. cbn [mbind option_bind].
  destruct (c =? 0); [exists i, name; split; [done|]; lia|].
  rewrite arr_set_Some by lia. cbn [mbind option_bind].
  destruct (IH (i + 1) buf (<[Z.to_nat i := c]> name)) as (i' & nm & -> & Hr & Hl);
    rewrite ?zlen_insert; try lia.
  exists i', nm. split; [done|]. lia.
Qed.

(** The zeros behind the frame stop [strtol]. *)
Lemma frame_zero f k : frame_ok f -> (k <= 1029)%nat -> Exists (eq 0) (drop k f).
Proof.
  intros [Hl Ht] Hk. apply Exists_exists. exists 0. split; [|done].
  apply list_elem_of_lookup. exists (1029 - k)%nat. rewrite lookup_drop.
  replace (k + (1029 - k))%nat with (Z.to_nat 1029 + 0)%nat by lia.
  rewrite <- (arr_slice_lookup _ _ _ _ 0 Ht) by lia. done.
Qed.

Lemma parse_info_defined f name :
  frame_ok f -> zlen name = 256 ->
  exists name' size, parse_info (drop 3 f) name = Some (name', size) /\
    zlen name' = 256 /\ Exists (eq 0) name'.
Proof.
  intros Hf Hn. unfold parse_info. pose proof Hf as [Hl _].
  destruct (name_loop_defined (Z.to_nat (SOH_SIZE - 1)) 0 (drop 3 f) name)
    as (i & nm & -> & Hi & Hnm); rewrite ?zlen_drop; try (unfold SOH_SIZE; lia).
  cbn [mbind option_bind]. rewrite arr_set_Some by lia. cbn [mbind option_bind].
  rewrite drop_drop.
  destruct (strtol_defined (drop (3 + Z.to_nat (i + 1)) f)) as [v ->].
  { apply frame_zero; [done|lia]. }
  cbn [mbind option_bind]. eexists _, _. split; [done|]. rewrite zlen_insert. split; [done|].
  apply Exists_exists. exists 0. split; [|done]. apply list_elem_of_lookup.
  exists (Z.to_nat i). apply list_lookup_insert_eq. unfold zlen in Hnm. lia.
Qed.
End pure.

(** ** The operations *)

(** The documented contract of the transport callbacks, for an invariant [I] of
    the world: they stay inside their own objects, and the receive callback
    does not store more than it was asked for. *)
Record transport_ok {W} (io : my_ymodem_io W) (I : W -> Prop) : Prop := {
  to_send w c : I w -> exists w' r, io_send io w [c] = Some (w', r) /\ I w';
  to_recv w n t : I w -> 0 < n <= 1029 -> exists w' rx, io_recv io w n t = Some (w', rx) /\ I w' /\
    forall bs, rx = inr bs -> zlen bs <= n;
  to_flush f w : io_flush io = Some f -> I w -> I (f w)
}.

(** The storage callbacks; the last one is called for a file that is complete. *)
Record save_ok {W} (io : my_ymodem_io W) (I closed : W -> Prop) : Prop := {
  so_open f w name sz : io_save_open io = Some f -> I w ->
    exists w' r, f w name sz = Some (w', r) /\ I w';
  so_write f w data len : io_save_write io = Some f -> I w -> len <= 1024 <= zlen data ->
    exists w' r, f w data len = Some (w', r) /\ I w';
  so_close : exists f, io_save_close io = Some f /\
    forall w, I w -> exists w' r, f w true = Some (w', r) /\ I w' /\ closed w'
}.

Section safe.
Context {W : Type} (io : my_ymodem_io W) (I closed : W -> Prop) (Hio : transport_ok io I).
Context (mode size : Z) (Hsize : 0 < size < 2147480000) (Hsave : mode <> 1 -> save_ok io I closed).
Implicit Types (y : my_ymodem) (w : W).

Notation inv := (ym_inv mode size).

Lemma set_frame_id y : set_frame (frame y) y = y.
Proof. by destruct y. Qed.

Lemma wp_recv_loop n : forall off len total t (Q : Z -> my_ymodem -> W -> Prop) y w,
  I w -> frame_ok (frame y) -> 0 <= off -> off + len <= 1029 -> 0 <= total <= len ->
  (forall r f w', I w' -> frame_ok f -> Q r (set_frame f y) w') ->
  wp (recv_loop io n off len total t) Q y w.
Proof.
  induction n as [|n IH]; intros off len total t Q y w Hw Hf Ho Hle Ht HQ; cbn [recv_loop].
  { apply wp_ret. rewrite <- (set_frame_id y). by apply HQ. }
  destruct (Z.ltb_spec total len).
  2:{ apply wp_ret. rewrite <- (set_frame_id y). by apply HQ. }
  destruct (to_recv _ _ Hio w (len - total) t Hw ltac:(lia)) as (w' & rx & E & Hw' & Hbd).
  wstep. apply wp_world_checked. exists w', rx. split; [done|].
  assert (Hret : forall r, Q r y w') by (intros r; rewrite <- (set_frame_id y); by apply HQ).
  destruct rx as [e|[|b bs]]; [by apply wp_ret..|].
  pose proof (Hbd _ eq_refl) as Hb. set (l := b :: bs) in *.
  pose proof (zlen_nonneg l). destruct Hf as [Hl Htl].
  destruct (arr_blit (frame y) (off + total) l) as [f'|] eqn:Ef;
    [|rewrite arr_blit_Some in Ef by lia; done].
  do 2 wstep. wstep. eapply wp_checked; [exact Ef|]. wstep. wstep.
  apply IH; try lia; [done|apply (frame_ok_blit (frame y) (off + total) l f'); [done|done|lia]|].
  intros r f w2 Hw2 Hf2. by apply HQ.
Qed.

Lemma wp_recv_data off len t (Q : Z -> my_ymodem -> W -> Prop) y w :
  inv y -> I w -> 0 <= off -> off + len <= 1029 -> 0 <= len ->
  (forall r f w', inv (set_frame f y) -> I w' -> Q r (set_frame f y) w') ->
  wp (recv_data io off len t) Q y w.
Proof.
  intros Hi Hw Ho Hle Hl HQ. apply wp_recv_loop; try lia; [done|apply Hi|].
  intros r f w' Hw' Hf. apply HQ; [|done]. destruct Hi. by split.
Qed.

Lemma wp_send c (Q : Z -> my_ymodem -> W -> Prop) y w :
  I w -> (forall r w', I w' -> Q r y w') -> wp (send_byte io c) Q y w.
Proof.
  intros Hw H. destruct (to_send _ _ Hio w c Hw) as (w' & r & E & Hw').
  apply wp_world_checked. eauto.
Qed.

Lemma wp_drain n (Q : unit -> my_ymodem -> W -> Prop) y : forall w,
  I w -> (forall w', I w' -> Q tt y w') -> wp (drain io n) Q y w.
Proof.
  induction n as [|n IH]; intros w Hw H; cbn [drain]; [done|].
  destruct (to_recv _ _ Hio w 64 0 Hw ltac:(lia)) as (w' & rx & E & Hw' & _).
  wstep. apply wp_world_checked. exists w', rx. split; [done|].
  destruct rx as [e|[|b bs]]; [apply wp_ret; by apply H..|]. by apply IH.
Qed.

Lemma wp_flush n (Q : unit -> my_ymodem -> W -> Prop) y w :
  I w -> (forall w', I w' -> Q tt y w') -> wp (port_flush io n) Q y w.
Proof.
  intros Hw H. unfold port_flush. destruct (io_flush io) as [f|] eqn:Ef; [|by apply wp_drain].
  apply wp_world. intros [] w' [= <-]. apply H. by eapply (to_flush _ _ Hio).
Qed.

Lemma wp_flush_nak n c (Q : Z -> my_ymodem -> W -> Prop) y w :
  I w -> (forall w', I w' -> Q c y w') -> wp (flush_nak io n c) Q y w.
Proof.
  intros Hw H. unfold flush_nak. wstep. apply wp_flush; [done|]. intros w1 Hw1. wstep.
  apply wp_send; [done|]. intros r w2 Hw2. wstep. by apply H.
Qed.

Lemma wp_request (Q : Z -> my_ymodem -> W -> Prop) y w :
  I w -> (forall r w', r = 1 \/ r = 2 -> I w' -> Q r y w') -> wp (receiver_send_request io) Q y w.
Proof.
  intros Hw H. unfold receiver_send_request.
  do 3 wstep; wstep; (apply wp_send; [done|]); intros r w' Hw'; wstep; apply H; auto.
Qed.

Lemma wp_frame_byte i (Q : Z -> my_ymodem -> W -> Prop) y w :
  inv y -> 0 <= i < 1032 -> (forall b, Q b y w) -> wp (frame_byte i) Q y w.
Proof.
  intros Hi Hr H. unfold frame_byte. do 2 wstep.
  destruct (frame_get _ i (yi_frame _ _ _ Hi) Hr) as [b Eb]. by eapply wp_checked.
Qed.

Lemma wp_parse (Q : unit -> my_ymodem -> W -> Prop) y w :
  frame_ok (frame y) -> zlen (file_name y) = 256 ->
  (forall name sz, zlen name = 256 -> Exists (eq 0) name -> Q tt (set_file_info name sz y) w) ->
  wp receiver_parse_file_info Q y w.
Proof.
  intros Hf Hn H. unfold receiver_parse_file_info. do 4 wstep.
  destruct (parse_info_defined _ _ Hf Hn) as (nm & sz & E & Hl & H0).
  wstep. eapply wp_checked; [exact E|]. wstep. auto.
Qed.

(** In memory mode opening cannot fail and closing does nothing. *)
Lemma wp_open (Q : Z -> my_ymodem -> W -> Prop) y w :
  data_dst y = mode -> I w ->
  (forall w', I w' -> Q YM_OK (set_written 0 y) w') ->
  (forall w', mode <> 1 -> I w' -> Q ERR_FILE y w') ->
  wp (receiver_open_file io) Q y w.
Proof.
  intros Hd Hw HOK HE. unfold receiver_open_file. do 2 wstep. rewrite Hd.
  destruct (Z.eqb_spec mode 1) as [Hm|Hm]; [do 2 wstep; wstep; auto|].
  destruct (io_save_open io) as [f|] eqn:Ef; [|wstep; auto]. do 5 wstep.
  destruct (so_open _ _ _ (Hsave Hm) f w (file_name y) (file_size y) Ef Hw) as (w' & r & E & Hw').
  apply wp_world_checked. exists w', r. split; [done|].
  wstep; [wstep; auto|]. do 2 wstep. wstep. auto.
Qed.

Lemma wp_close (Q : unit -> my_ymodem -> W -> Prop) y w :
  data_dst y = mode -> I w -> (forall w', I w' -> (mode <> 1 -> closed w') -> Q tt y w') ->
  wp (receiver_close_file io) Q y w.
Proof.
  intros Hd Hw H. unfold receiver_close_file. do 2 wstep. rewrite Hd.
  destruct (Z.eqb_spec mode 1) as [Hm|Hm]; [wstep; by apply H|].
  destruct (so_close _ _ _ (Hsave Hm)) as (f & Ef & Hf). rewrite Ef.
  destruct (Hf w Hw) as (w' & r & E & HI & Hc).
  wstep. apply wp_world_checked. exists w', r. split; [done|]. wstep. auto.
Qed.

Lemma wp_save len (Q : Z -> my_ymodem -> W -> Prop) y w :
  inv y -> I w -> len <= 1024 -> (mode = 1 -> 0 <= len) ->
  (forall w', I w' -> Q ERR_FILE y w') ->
  (forall b w', I w' -> (mode = 1 -> written y + len <= size /\ zlen b = size) ->
     Q YM_OK (set_written (i32 (written y + len)) (set_out_buf b y)) w') ->
  wp (receiver_save_data io len) Q y w.
Proof.
  intros Hi Hw Hl Hp HE HOK. unfold receiver_save_data. do 2 wstep. cbn [id].
  rewrite (yi_mode _ _ _ Hi). pose proof (yi_frame _ _ _ Hi) as [Hfl _].
  assert (Hcan : wp (send_byte io CAN ;; ret ERR_FILE)%prog Q y w)
    by (wstep; apply wp_send; [done|]; intros r w' Hw'; wstep; by apply HE).
  destruct (Z.eqb_spec mode 1) as [Hm|Hm].
  - destruct (yi_mem _ _ _ Hi Hm) as (Hb & Hs & Hwr & _). specialize (Hp Hm). rewrite Hs.
    rewrite i32_small by lia. destruct (Z.ltb_spec size (written y + len)); [done|].
    wstep. eapply wp_checked; [apply arr_slice_Some; unfold FRAME_DATA_OFF; lia|].
    set (src := take _ _).
    assert (Hz : zlen src = len)
      by (unfold src, FRAME_DATA_OFF; rewrite zlen_take, zlen_drop; lia).
    destruct (arr_blit (out_buf y) (written y) src) as [b|] eqn:Eb;
      [|rewrite arr_blit_Some in Eb by lia; done].
    wstep. eapply wp_checked; [reflexivity|]. do 5 wstep.
    rewrite <- (i32_small (written y + len)) by lia. apply HOK; [done|].
    rewrite (arr_blit_length _ _ _ _ Eb). auto.
  - destruct (io_save_write io) as [f|] eqn:Ef; [|done].
    destruct (so_write _ _ _ (Hsave Hm) f w (drop 3 (frame y)) len Ef Hw) as (w' & r & E & HI).
    { rewrite zlen_drop. lia. }
    wstep. apply wp_world_checked. exists w', r. split; [done|].
    wstep; [wstep; apply wp_send; [done|]; intros r' w2 Hw2; wstep; by apply HE|].
    do 2 wstep. wstep. specialize (HOK (out_buf y) w' HI ltac:(done)).
    by destruct y.
Qed.

(** *** The frame handlers keep the invariant *)

Definition keeps {A} (m : @M W A) : Prop :=
  forall y w, inv y -> I w -> wp m (fun _ y' w' => inv y' /\ I w') y w.

Lemma inv_state s y : inv y -> inv (set_state s y).
Proof. intros []. by split. Qed.
Lemma inv_seq s y : inv y -> inv (set_seq s y).
Proof. intros []. by split. Qed.

(** The information of a new file, as long as nothing is saved before it is
    opened. *)
Lemma inv_reopen y name sz :
  inv y -> zlen name = 256 -> Exists (eq 0) name ->
  inv (set_written 0 (set_file_info name sz y)).
Proof.
  intros [] ? ?. split; simpl; auto; [lia|]. intros Hm. destruct (yi_mem0 Hm) as (? & ? & ? & _).
  split; [done|]. split; [done|]. lia.
Qed.

Lemma inv_info y name sz :
  mode <> 1 -> inv y -> zlen name = 256 -> Exists (eq 0) name -> inv (set_file_info name sz y).
Proof. intros Hm [] ? ?. by split. Qed.

Lemma inv_saved y b len :
  inv y ->
  (mode = 1 -> zlen b = size /\ 0 <= len /\ written y + len <= size /\
     (is_ymodem y = true -> 0 < file_size y -> written y + len <= file_size y)) ->
  inv (set_written (i32 (written y + len)) (set_out_buf b y)).
Proof.
  intros [] H. split; simpl; auto; [apply i32_range|]. intros Hm.
  destruct (yi_mem0 Hm) as (? & ? & ? & _). destruct (H Hm) as (? & ? & ? & ?).
  rewrite i32_small by lia. split; [done|]. split; [done|]. split; [lia|done].
Qed.

Lemma data_size_cases (b : bool) :
  (if b then SOH_SIZE else STX_SIZE) = 128 \/ (if b then SOH_SIZE else STX_SIZE) = 1024.
Proof. destruct b; auto. Qed.

(** Sending a byte and returning. *)
Lemma wp_send_ret c (r : Z) y w : inv y -> I w ->
  wp (bind (send_byte io c) (fun _ => ret r)) (fun _ y' w' => inv y' /\ I w') y w.
Proof. intros Hi Hw. wstep. apply wp_send; [done|]. intros ? ? ?. by wstep. Qed.

Lemma keeps_eot : keeps (process_eot io).
Proof.
  intros y w Hi Hw. unfold process_eot. do 3 wstep; cbn [id].
  - destruct (state y); cbn [id]; try (by apply wp_ret); do 2 wstep.
    + apply wp_send_ret; [by apply inv_state|done].
    + wstep. apply wp_send; [done|]. intros ? ? ?. wstep.
      destruct (crc_type y =? 1); (apply wp_send; [done|]; intros ? ? ?; wstep; auto using inv_state).
  - do 3 wstep. apply wp_send; [done|]. intros r w' Hw'. wstep.
    apply wp_close; [apply Hi|done|]. intros. wstep. auto using inv_state.
Qed.

Lemma keeps_batch : keeps (process_batch io).
Proof.
  intros y w Hi Hw. unfold process_batch. wstep.
  apply wp_frame_byte; [done|unfold FRAME_DATA_OFF; lia|]. intros d0. wstep.
  - do 3 wstep. apply wp_send; [done|]. intros r w' Hw'. wstep.
    apply wp_close; [apply Hi|done|]. intros. wstep. auto using inv_state.
  - wstep. apply wp_close; [apply Hi|done|]. intros w0 Hw0 _. wstep.
    apply wp_parse; [apply Hi|apply Hi|].
    intros name sz Hn H0. wstep. apply wp_send; [done|]. intros r w1 Hw1. wstep.
    apply wp_request; [done|]. intros r2 w2 _ Hw2. do 3 wstep. apply wp_open; [apply Hi|done| |].
    + intros w3 Hw3. change (negb (YM_OK =? YM_OK)) with false. cbv iota. do 3 wstep.
      split; [|done]. apply inv_state.
      change (inv (set_seq 1 (set_written 0 (set_file_info name sz y)))).
      apply inv_seq. by apply inv_reopen.
    + intros w3 Hm Hw3. change (negb (ERR_FILE =? YM_OK)) with true. cbv iota.
      apply wp_send_ret; [|done]. apply inv_seq. by apply inv_info.
Qed.

(** The length to store never exceeds the data area. *)
Lemma save_size_le y d :
  d = 128 \/ d = 1024 -> -2147483648 <= written y < 2147483648 ->
  let n := if is_ymodem y && (0 <? file_size y) && (file_size y <? i32 (written y + d))
           then file_size y - written y else d in
  n <= 1024 /\
  (0 <= written y < 2147482000 ->
   (is_ymodem y = true -> 0 < file_size y -> written y <= file_size y) ->
   0 <= n /\ (is_ymodem y = true -> 0 < file_size y -> written y + n <= file_size y)).
Proof.
  intros Hd Hw n. unfold n. destruct (is_ymodem y); simpl; [|lia].
  destruct (Z.ltb_spec 0 (file_size y)); simpl; [|lia].
  destruct (Z.ltb_spec (written y + d) 2147483648) as [Hlt|Hge].
  - rewrite i32_small by lia. destruct (Z.ltb_spec (file_size y) (written y + d)); lia.
  - assert (Hneg : i32 (written y + d) < 0).
    { unfold i32. rewrite mod_once by lia. zcase; lia. }
    rewrite (proj2 (Z.ltb_ge _ _)) by lia. lia.
Qed.

Lemma keeps_data d : d = 128 \/ d = 1024 -> keeps (process_data io d).
Proof.
  intros Hd y w Hi Hw. unfold process_data. do 2 wstep. cbn [id].
  destruct (save_size_le y d Hd (yi_int _ _ _ Hi)) as [Hn1 Hn2].
  set (n := if is_ymodem y && _ && _ then _ else d) in *. clearbody n.
  assert (Hn3 : mode = 1 -> 0 <= n /\ (is_ymodem y = true -> 0 < file_size y -> written y + n <= file_size y)).
  { intros Hm. destruct (yi_mem _ _ _ Hi Hm) as (_ & _ & ? & ?). apply Hn2; [lia|done]. }
  wstep. apply wp_save; [done|done|lia|apply Hn3| |].
  - intros w' Hw'. by cbn.
  - intros b w1 Hw1 Hb. set (y' := set_written _ _).
    assert (Hi' : inv y').
    { apply inv_saved; [done|]. intros Hm. destruct (Hb Hm), (Hn3 Hm). auto. }
    clearbody y'. change (negb (YM_OK =? YM_OK)) with false. cbv iota.
    wstep. apply wp_send; [done|]. intros r w' Hw'. do 3 wstep.
    + wstep. apply wp_send; [done|]. intros r2 w2 Hw2. do 3 wstep. auto using inv_state.
    + by wstep.
Qed.
Lemma keeps_numbered seq d : d = 128 \/ d = 1024 -> keeps (process_numbered io seq d).
Proof.
  intros Hd y w Hi Hw. unfold process_numbered. do 3 wstep.
  { by apply keeps_batch. }
  wstep. { do 2 wstep. apply keeps_data; [done| |done]. by apply inv_seq. }
  wstep; by apply wp_send_ret.
Qed.

Lemma keeps_frame n crc_len : crc_len = 1 \/ crc_len = 2 -> keeps (receiver_process_frame io n crc_len).
Proof.
  intros Hc y w Hi Hw. unfold receiver_process_frame. wstep. apply wp_recv_data; [done|done|lia..|].
  intros r f w0 Hi0 Hw0. set (y0 := set_frame f y) in *. clearbody y0. clear y w f Hi Hw.
  wstep. { by apply wp_flush_nak. }
  wstep. apply wp_frame_byte; [done|lia|]. intros head.
  wstep. { by apply keeps_eot. }
  wstep. { wstep. apply wp_send; [done|]. intros. wstep. apply wp_flush; [done|]. intros. by wstep. }
  pose proof (data_size_cases (head =? SOH)) as Hds.
  set (ds := if head =? SOH then SOH_SIZE else STX_SIZE) in *. clearbody ds.
  wstep. apply wp_recv_data; [done|done|unfold FRAME_DATA_OFF; lia..|].
  intros r2 f w2 Hi Hw2. set (y2 := set_frame f y0) in *. clearbody y2. clear y0 f Hi0.
  wstep. { by apply wp_flush_nak. }
  do 3 wstep.
  destruct (verify_defined (frame y2) ds crc_len (yi_frame _ _ _ Hi) ltac:(lia) ltac:(lia)) as [v Ev].
  eapply wp_checked; [exact Ev|].
  wstep. { by apply wp_flush_nak. }
  wstep. apply wp_frame_byte; [done|lia|]. intros seq. by apply keeps_numbered.
Qed.

(** A loop that reports success has closed the file. *)
Definition ends (m : @M W Z) : Prop :=
  forall y w, inv y -> I w ->
  wp m (fun r y' w' => inv y' /\ I w' /\ (r = YM_OK -> mode <> 1 -> closed w')) y w.

Lemma ends_frame_loop n : forall crc_len e,
  crc_len = 1 \/ crc_len = 2 -> ends (frame_loop io n crc_len e).
Proof.
  induction n as [|n IH]; intros crc_len e Hc y w Hi Hw; cbn [frame_loop]; [done|].
  wstep. eapply wp_mono; [by apply keeps_frame|]. intros r y' w' [Hi' Hw']. cbn beta.
  wstep.
  { wstep. split; [done|]. split; [done|]. intros ->. done. }
  wstep.
  - wstep; [|by apply IH]. wstep. apply wp_send; [done|]. intros. by wstep.
  - do 2 wstep. wstep; [|by apply IH]. wstep. apply wp_flush; [done|]. intros w1 Hw1.
    wstep. apply wp_close; [apply Hi'|done|]. intros w2 Hw2 Hcl. by wstep.
Qed.

Lemma inv_xmodem y : inv y -> inv (set_is_ymodem false y).
Proof.
  intros []. split; auto. intros Hm. destruct (yi_mem0 Hm) as (? & ? & ? & _).
  split; [done|]. split; [done|]. split; [done|]. done.
Qed.

(** The frame number tells YModem from XModem. *)
Lemma wp_first_kind (seq seqn : Z) y w (Q : Z -> my_ymodem -> W -> Prop) :
  inv y -> I w ->
  (forall name sz w', I w' -> zlen name = 256 -> Exists (eq 0) name ->
     Q YM_OK (set_file_info name sz (set_seq 1 (set_is_ymodem true y))) w') ->
  (forall w', I w' -> Q ERR_SEQ (set_is_ymodem false y) w') ->
  Q YM_OK (set_seq 2 (set_is_ymodem false y)) w ->
  wp (if (seq =? 0) && (seqn =? 0xFF)
      then
        modify (set_is_ymodem true) ;; modify (set_seq 1) ;; receiver_parse_file_info ;;
        send_byte io ACK ;; receiver_send_request io ;; ret YM_OK
      else
        modify (set_is_ymodem false) ;;
        if negb (seq =? 1) then send_byte io NAK ;; ret ERR_SEQ
        else modify (set_seq 2) ;; ret YM_OK)%prog Q y w.
Proof.
  intros Hi Hw H1 H2 H3. destruct (_ && _).
  - do 4 wstep. wstep. apply wp_parse; [apply Hi|apply Hi|]. intros name sz Hn H0.
    wstep. apply wp_send; [done|]. intros. wstep. apply wp_request; [done|]. intros. wstep. by apply H1.
  - do 2 wstep. wstep.
    + wstep. apply wp_send; [done|]. intros. wstep. by apply H2.
    + by do 3 wstep.
Qed.

Lemma keeps_first n crc_len :
  crc_len = 1 \/ crc_len = 2 -> keeps (receiver_process_first_frame io n crc_len).
Proof.
  intros Hc y w Hi Hw. unfold receiver_process_first_frame. wstep.
  apply wp_frame_byte; [done|lia|]. intros head. wstep; [by wstep|].
  pose proof (data_size_cases (head =? SOH)) as Hds.
  set (ds := if head =? SOH then SOH_SIZE else STX_SIZE) in *. clearbody ds.
  wstep. apply wp_recv_data; [done|done|unfold FRAME_DATA_OFF; lia..|].
  intros r2 f w2 Hi2 Hw2. set (y2 := set_frame f y) in *. clearbody y2. clear y f Hi.
  wstep. { by apply wp_flush_nak. }
  do 3 wstep.
  destruct (verify_defined (frame y2) ds crc_len (yi_frame _ _ _ Hi2) ltac:(lia) ltac:(lia)) as [v Ev].
  eapply wp_checked; [exact Ev|].
  wstep. { by apply wp_flush_nak. }
  wstep. apply wp_frame_byte; [done|lia|]. intros seq.
  wstep. apply wp_frame_byte; [done|lia|]. intros seqn.
  apply wp_bind. apply wp_first_kind; [done|done| | |].
  - intros name sz w' Hw' Hn H0. change (negb (YM_OK =? YM_OK)) with false. cbv iota. do 3 wstep.
    apply wp_open; [apply Hi2|done| |].
    + intros w3 Hw3. change (negb (YM_OK =? YM_OK)) with false. cbv iota.
      do 2 wstep. simpl is_ymodem. cbv iota. wstep. split; [|done].
      destruct Hi2. split; simpl; auto; [lia|]. intros Hm. destruct (yi_mem0 Hm) as (? & ? & ? & _).
      split; [done|]. split; [done|]. lia.
    + intros w3 Hm Hw3. change (negb (ERR_FILE =? YM_OK)) with true. cbv iota.
      apply wp_send_ret; [|done]. destruct Hi2. by split.
  - intros w' Hw'. change (negb (ERR_SEQ =? YM_OK)) with true. cbv iota. wstep. auto using inv_xmodem.
  - change (negb (YM_OK =? YM_OK)) with false. cbv iota. do 3 wstep.
    apply inv_xmodem in Hi2. set (yx := set_is_ymodem false y2) in *.
    assert (Hx : is_ymodem yx = false) by done. clearbody yx.
    apply wp_open; [apply Hi2|done| |].
    + intros w3 Hw3. change (negb (YM_OK =? YM_OK)) with false. cbv iota.
      do 2 wstep. simpl is_ymodem. rewrite Hx. cbv iota. wstep.
      assert (Hi3 : inv (set_written 0 (set_state STATE_CONNECTED (set_seq 2 yx)))).
      { destruct Hi2. split; simpl; auto; [lia|]. intros Hm. destruct (yi_mem0 Hm) as (? & ? & ? & _).
        split; [done|]. split; [done|]. split; [lia|]. congruence. }
      assert (Hx3 : is_ymodem (set_written 0 (set_state STATE_CONNECTED (set_seq 2 yx))) = false) by done.
      set (y3 := set_written 0 _) in *. clearbody y3.
      apply wp_save; [done|done|lia|lia| |].
      * intros w' Hw'. change (negb (ERR_FILE =? YM_OK)) with true. cbv iota. by wstep.
      * intros b w' Hw' Hb. change (negb (YM_OK =? YM_OK)) with false. cbv iota.
        apply wp_send_ret; [|done]. apply inv_saved; [done|]. intros Hm.
        destruct (Hb Hm). split; [done|]. split; [lia|]. split; [done|]. congruence.
    + intros w3 Hm Hw3. change (negb (ERR_FILE =? YM_OK)) with true. cbv iota.
      apply wp_send_ret; [|done]. by apply inv_state, inv_seq.
Qed.

Lemma keeps_first_loop n : forall crc_len k,
  crc_len = 1 \/ crc_len = 2 -> forall y w, inv y -> I w ->
  wp (first_frame_loop io n crc_len k)
    (fun r y' w' => inv y' /\ I w' /\ (forall e, r = inl e -> e <> YM_OK)) y w.
Proof.
  induction n as [|n IH]; intros crc_len k Hc y w Hi Hw; cbn [first_frame_loop]; [done|].
  wstep. eapply wp_mono; [by apply keeps_first|]. intros r y' w' [Hi' Hw']. cbn beta.
  wstep.
  - wstep. apply wp_recv_data; [done|done|lia..|]. intros m f w2 Hi2 Hw2.
    wstep; [by wstep|by apply IH].
  - wstep; [|by wstep]. wstep; [|by apply IH]. wstep. split; [done|]. split; [done|].
    intros e [= <-] ->. done.
Qed.

Lemma ends_handshake n : forall i fuel, ends (handshake_loop io n i fuel).
Proof.
  induction n as [|n IH]; intros i fuel y w Hi Hw; cbn [handshake_loop].
  { wstep. apply wp_flush; [done|]. intros w' Hw'. by wstep. }
  do 4 wstep. match goal with |- wp _ _ ?a _ => set (y1 := a) end.
  assert (Hi1 : inv y1)
    by (unfold y1; destruct (_ && _); [destruct Hi; split; simpl; auto|done]).
  clearbody y1. clear y Hi. wstep. apply wp_request; [done|]. intros crc_len w1 Hc Hw1.
  wstep. apply wp_recv_data; [done|done|lia..|]. intros r f w2 Hi2 Hw2. wstep; [by apply IH|].
  wstep. eapply wp_mono; [by apply keeps_first_loop|]. intros first y' w' (Hi' & Hw' & Hf). cbn beta.
  destruct first as [e|[|]]; [|by apply IH|].
  - wstep. split; [done|]. split; [done|]. intros ->. by destruct (Hf YM_OK).
  - do 2 wstep. apply ends_frame_loop; [done| |done]. by apply inv_state.
Qed.
End safe.

(** ** Receiving into memory *)

(** A handle of the module: [my_ymodem_init] gives one and every call leaves one. *)
Record handle_ok (y : my_ymodem) : Prop := {
  ho_frame : frame_ok (frame y);
  ho_name : zlen (file_name y) = 256;
  ho_name0 : Exists (eq 0) (file_name y);
  ho_dir : zlen (save_dir y) = 256
}.

Lemma init_handle_ok : handle_ok my_ymodem_init.
Proof.
  split; [split|..]; try reflexivity. apply Exists_exists. exists 0. split; [|done].
  apply list_elem_of_lookup. by exists 0%nat.
Qed.

(** C8: whatever bytes the peer sends and however they arrive, receiving into a
    memory buffer of [buf_size] bytes never reads or writes outside the frame
    buffer, the file name array or the given buffer, provided the transport
    callbacks keep their contract ([transport_ok], in particular the receive
    callback respects its length argument).  When it succeeds, the reported
    size fits the buffer. *)
Theorem recv_mem_memory_safe {W} (io : my_ymodem_io W) (I : W -> Prop) fuel buf y w :
  transport_ok io I -> I w -> handle_ok y -> 0 < zlen buf < 2147480000 ->
  match my_ymodem_recv_mem io fuel buf (zlen buf) y w with
  | Undef => False
  | NoFuel => True
  | Done ((r, info), y', _) =>
      zlen (out_buf y') = zlen buf /\
      match info with
      | Some (name, n) => r = YM_OK /\ 0 <= n <= zlen buf /\ zlen name < 256
      | None => r <> YM_OK
      end
  end.
Proof.
  intros Hio Hw [Hf Hn H0 Hd] Hb.
  enough (H : wp (my_ymodem_recv_mem io fuel buf (zlen buf)) (fun a y' _ =>
    zlen (out_buf y') = zlen buf /\
    match snd a with
    | Some (name, n) => fst a = YM_OK /\ 0 <= n <= zlen buf /\ zlen name < 256
    | None => fst a <> YM_OK
    end) y w).
  { unfold wp in H. destruct (my_ymodem_recv_mem _ _ _ _ _ _) as [[[[r info] y'] w']| |]; done. }
  unfold my_ymodem_recv_mem. rewrite (proj2 (Z.leb_gt _ 0)) by lia.
  do 2 wstep. wstep. eapply wp_checked; [apply arr_set_Some; lia|]. do 2 wstep. wstep.
  eapply wp_mono.
  { apply (ends_handshake io I (fun _ => True) Hio 1 (zlen buf) Hb).
    - done.
    - split; simpl; auto; [lia|]. intros _. repeat split; lia.
    - done. }
  intros r y' w' (Hi & _ & _). cbn beta. wstep.
  all: destruct (yi_mem _ _ _ Hi eq_refl) as (Hz & _ & Hwr & _).
  - do 2 wstep. cbn [id]. destruct (c_string_defined _ (yi_name0 _ _ _ Hi)) as (s & Es & Hs).
    wstep. eapply wp_checked; [exact Es|]. wstep. cbn [fst snd].
    split; [done|]. split; [by apply Z.eqb_eq|]. split; [done|].
    rewrite zlen_take. lia.
  - wstep. cbn [fst snd]. split; [done|]. by apply Z.eqb_neq.
Qed.
