(* ===== verification/YmodemSend.v ===== *)
(** * The YModem/XModem sender ([src/my_ymodem.c])

    The send side of the module, for data in memory.  The build of this
    firmware leaves it out ([MY_YMODEM_ENABLE_SEND] is 0): it is the peer the
    receiver is written for, and [YmodemTransfer] runs the receiver against the
    frames built here. *)

From S2P Require Import Prelude Prog Crc Text Ymodem.

#[local] Open Scope prog_scope.

Definition ERR_CAN : Z := -13.
Definition ERR_ACK : Z := -14.
Definition INFO_MAX_NAME_LEN : Z := 100.

(** The send fields of [struct my_ymodem]; [tx_file_name] is the C string. *)
Record my_ymodem_tx := mk_tx {
  tx_crc_type : Z;
  tx_is_ymodem : bool;
  tx_xmodem_1k : bool;
  tx_file_name : list Z;
  tx_file_size : Z;
  tx_mem_buf : list Z;
  tx_mem_offset : Z
}.

Definition tx_set_crc c t := mk_tx c (tx_is_ymodem t) (tx_xmodem_1k t) (tx_file_name t)
  (tx_file_size t) (tx_mem_buf t) (tx_mem_offset t).
Definition tx_set_offset n t := mk_tx (tx_crc_type t) (tx_is_ymodem t) (tx_xmodem_1k t)
  (tx_file_name t) (tx_file_size t) (tx_mem_buf t) n.

(** [io.protocol] over the function arguments. *)
Definition sender_apply_protocol (proto : Z) (is_ymodem xmodem_1k : bool) : bool * bool :=
  if proto =? 1 then (true, false)
  else if proto =? 2 then (false, false)
  else if proto =? 3 then (false, true)
  else (is_ymodem, xmodem_1k).

(** The file name at the end of a path, at most [max_len - 1] characters. *)
Fixpoint last_component (path acc : list Z) : list Z :=
  match path with
  | [] => acc
  | c :: path' => last_component path' (if (c =? 47) || (c =? 92) then path' else acc)
  end.

Definition extract_file_name (path : list Z) (max_len : Z) : list Z :=
  let last := last_component path path in
  take (Z.to_nat (max_len - 1)) (match last with [] => path | _ => last end).

(** ** Frames *)

(** The check field over the data area. *)
Definition check_field (crc_type : Z) (data : list Z) : list Z :=
  if crc_type =? 1 then [calc_checksum data]
  else let crc := calc_crc16 data in [u8 (Z.shiftr crc 8); Z.land crc 0xFF].

(** The bytes of a frame assembled in the frame buffer: [payload] and padding. *)
Definition build_frame (head seq : Z) (payload : list Z) (data_size pad crc_type : Z)
  : option (list Z) :=
  f ← arr_blit (replicate (Z.to_nat FRAME_BUF_SIZE) 0) FRAME_DATA_OFF payload;
  f ← (if zlen payload <? data_size
       then arr_fill f (FRAME_DATA_OFF + zlen payload) (data_size - zlen payload) pad
       else Some f);
  f ← arr_set f 0 head;
  f ← arr_set f 1 (Z.land seq 0xFF);
  f ← arr_set f 2 (u8 (Z.lnot (Z.land seq 0xFF)));
  data ← arr_slice f FRAME_DATA_OFF data_size;
  f ← arr_blit f (FRAME_DATA_OFF + data_size) (check_field crc_type data);
  arr_slice f 0 (FRAME_DATA_OFF + data_size + zlen (check_field crc_type data)).

(** [%d] of a non-negative number below 10^10. *)
Fixpoint dec_loop (n : nat) (v : Z) (acc : list Z) : list Z :=
  match n with
  | O => acc
  | S n' => if v <? 10 then (48 + v) :: acc else dec_loop n' (v / 10) ((48 + v mod 10) :: acc)
  end.
Definition dec_text (v : Z) : list Z :=
  if v <? 0 then 45 :: dec_loop 10 (- v) [] else dec_loop 10 v [].

(** The information field: [snprintf] into 128 bytes, the rest zero. *)
Definition info_payload (name : list Z) (size : Z) : list Z :=
  let short_name := take (Z.to_nat (INFO_MAX_NAME_LEN - 1)) name in
  take (Z.to_nat (SOH_SIZE - 1)) (short_name ++ [0] ++ dec_text size).

Section sender.
Context {W : Type} (io : my_ymodem_io W).

Definition T (A : Type) : Type := prog my_ymodem_tx W A.

(** Every round sends at least one byte. *)
Fixpoint send_data_loop (n : nat) (data : list Z) (sent len : Z) : T Z :=
  match n with
  | O => ret sent
  | S n' =>
      if sent <? len
      then
        r <- world_checked (fun w => io_send io w (drop (Z.to_nat sent) data)) ;;
        if r <=? 0 then ret (-1) else send_data_loop n' data (sent + r) len
      else ret sent
  end.
Definition send_data (data : list Z) : T Z :=
  send_data_loop (S (length data)) data 0 (zlen data).

Definition tx_send_byte (c : Z) : T Z := world_checked (fun w => io_send io w [c]).

(** [Some c] for a byte, [None] for a timeout or an error. *)
Definition recv_byte : T (option Z) :=
  rx <- world_checked (fun w => io_recv io w 1 (get_recv_timeout io)) ;;
  ret (match rx with inr (c :: _) => Some c | _ => None end).

Definition tx_flush (fuel : nat) : T unit :=
  match io_flush io with
  | Some f => world (fun w => (f w, tt))
  | None =>
      (fix drain (n : nat) : T unit :=
         match n with
         | O => no_fuel
         | S n' => rx <- world_checked (fun w => io_recv io w 64 0) ;;
                   match rx with inr (_ :: _) => drain n' | _ => ret tt end
         end) fuel
  end.

(** ** The protocol *)

(** The next block; an empty list at the end of the data. *)
Definition sender_read_chunk (len : Z) : T (list Z) :=
  t <- get id ;;
  let avail := tx_file_size t - tx_mem_offset t in
  if avail <=? 0 then ret []
  else
    let n := if len <? avail then len else avail in
    bs <- checked (arr_slice (tx_mem_buf t) (tx_mem_offset t) n) ;;
    modify (tx_set_offset (tx_mem_offset t + n)) ;; ret bs.

Fixpoint sender_handshake (n : nat) (fuel : nat) : T Z :=
  match n with
  | O => ret (-1)
  | S n' =>
      c <- recv_byte ;;
      match c with
      | Some c =>
          if c =? CRC16_C then modify (tx_set_crc 2) ;; ret 2
          else if c =? NAK then modify (tx_set_crc 1) ;; ret 1
          else tx_flush fuel ;; sender_handshake n' fuel
      | None => sender_handshake n' fuel
      end
  end.

(** The request that follows an acknowledged information or end frame. *)
Definition expect (t : my_ymodem_tx) : Z := if tx_crc_type t =? 1 then NAK else CRC16_C.

Fixpoint info_loop (n : nat) (bytes : list Z) : T Z :=
  match n with
  | O => ret ERR_ACK
  | S n' =>
      send_data bytes ;;
      c <- recv_byte ;;
      if negb (bool_decide (c = Some ACK)) then info_loop n' bytes
      else
        e <- get expect ;;
        c <- recv_byte ;;
        if negb (bool_decide (c = Some e)) then info_loop n' bytes else ret YM_OK
  end.

Definition sender_send_file_frame : T Z :=
  t <- get id ;;
  bytes <- checked (build_frame SOH 0 (info_payload (tx_file_name t) (tx_file_size t))
                      SOH_SIZE 0 (tx_crc_type t)) ;;
  info_loop (Z.to_nat (get_send_retry io)) bytes.

Fixpoint frame_send_loop (n : nat) (bytes : list Z) : T Z :=
  match n with
  | O => tx_send_byte CAN ;; ret ERR_CAN
  | S n' =>
      send_data bytes ;;
      c <- recv_byte ;;
      match c with
      | None => frame_send_loop n' bytes
      | Some c =>
          if c =? ACK then ret YM_OK
          else if c =? CAN then tx_send_byte CAN ;; ret ERR_CAN
          else if negb (c =? NAK) then ret ERR_ACK
          else frame_send_loop n' bytes
      end
  end.

(** The head and the size of the data area for [len] bytes. *)
Definition frame_kind (t : my_ymodem_tx) (len : Z) : Z * Z :=
  if tx_is_ymodem t
  then if len <=? SOH_SIZE then (SOH, SOH_SIZE) else (STX, STX_SIZE)
  else if tx_xmodem_1k t then (STX, STX_SIZE) else (SOH, SOH_SIZE).

Definition sender_send_frame (data : list Z) (seq : Z) : T Z :=
  t <- get id ;;
  let '(head, data_size) := frame_kind t (zlen data) in
  bytes <- checked (build_frame head seq data data_size 0x1A (tx_crc_type t)) ;;
  frame_send_loop (Z.to_nat (get_send_retry io)) bytes.

(** Send [EOT] until [stop] accepts the answer, which is returned. *)
Fixpoint eot_loop (n : nat) (stop : Z -> bool) : T (option Z) :=
  match n with
  | O => ret None
  | S n' =>
      tx_send_byte EOT ;;
      c <- recv_byte ;;
      match c with
      | Some c => if stop c then ret (Some c) else eot_loop n' stop
      | None => eot_loop n' stop
      end
  end.

(** Wait for the request of the end frame. *)
Fixpoint await_request (n : nat) (e : Z) : T bool :=
  match n with
  | O => ret false
  | S n' =>
      c <- recv_byte ;;
      if bool_decide (c = Some e) then ret true else await_request n' e
  end.

Fixpoint end_frame_loop (n : nat) (bytes : list Z) : T Z :=
  match n with
  | O => ret ERR_ACK
  | S n' =>
      send_data bytes ;;
      c <- recv_byte ;;
      if bool_decide (c = Some ACK) then ret YM_OK else end_frame_loop n' bytes
  end.

Definition send_end_frame : T Z :=
  t <- get id ;;
  bytes <- checked (build_frame SOH 0 [] SOH_SIZE 0 (tx_crc_type t)) ;;
  end_frame_loop (Z.to_nat (get_send_retry io)) bytes.

Definition sender_send_eot : T Z :=
  let retry := Z.to_nat (get_send_retry io) in
  t <- get id ;;
  if negb (tx_is_ymodem t)
  then
    c <- eot_loop retry (fun c => c =? ACK) ;;
    ret (match c with Some _ => YM_OK | None => ERR_ACK end)
  else
    c <- eot_loop retry (fun c => (c =? NAK) || (c =? ACK) || (c =? CRC16_C)) ;;
    match c with
    | None => ret ERR_ACK
    | Some c =>
        if c =? ACK
        then
          ok <- await_request retry (expect t) ;;
          if ok then send_end_frame else ret ERR_ACK
        else if c =? NAK
        then
          c <- eot_loop retry (fun c => c =? ACK) ;;
          match c with
          | None => ret ERR_ACK
          | Some _ =>
              ok <- await_request retry (expect t) ;;
              if ok then send_end_frame else ret ERR_ACK
          end
        else send_end_frame
    end.

(** The loop over the blocks; a round takes at least one byte of the data. *)
Fixpoint blocks_loop (n : nat) (data_size seq : Z) : T (Z * Z) :=
  match n with
  | O => ret (YM_OK, seq)
  | S n' =>
      bs <- sender_read_chunk data_size ;;
      match bs with
      | [] => ret (YM_OK, seq)
      | _ =>
          r <- sender_send_frame bs seq ;;
          if negb (r =? YM_OK) then ret (r, seq) else blocks_loop n' data_size (seq + 1)
      end
  end.

Definition sender_run (fuel : nat) : T Z :=
  modify (tx_set_offset 0) ;;
  crc_len <- sender_handshake (Z.to_nat (get_handshake_retry io)) fuel ;;
  if crc_len <? 0 then ret ERR_RETRY
  else
    t <- get id ;;
    r <- (if tx_is_ymodem t then sender_send_file_frame else ret YM_OK) ;;
    if negb (r =? YM_OK) then ret r
    else
      let data_size := if tx_is_ymodem t then STX_SIZE
                       else if tx_xmodem_1k t then STX_SIZE else SOH_SIZE in
      rs <- blocks_loop (S (Z.to_nat (tx_file_size t))) data_size 1 ;;
      let '(r, seq) := rs in
      if negb (r =? YM_OK) then ret r
      else
        r <- (if tx_is_ymodem t && (0 <? tx_file_size t) && (tx_file_size t mod data_size =? 0)
              then sender_send_frame [] seq else ret YM_OK) ;;
        if negb (r =? YM_OK) then ret r else sender_send_eot.

(** [None] stands for a null pointer. *)
Definition my_ymodem_send_from_mem (fuel : nat) (proto : Z) (name data : option (list Z))
    (size : Z) (is_ymodem xmodem_1k : bool) : T Z :=
  match name, data with
  | Some name, Some data =>
      if size <=? 0 then ret ERR_PARAM
      else
        let '(ymodem, k) := sender_apply_protocol proto is_ymodem xmodem_1k in
        modify (fun t => mk_tx (tx_crc_type t) ymodem k (take 255 name) size data
                           (tx_mem_offset t)) ;;
        sender_run fuel
  | _, _ => ret ERR_PARAM
  end.
End sender.
