(* ===== verification/YmodemTransfer.v ===== *)
(** * A whole YModem transfer

    The receiver against a peer that answers each of its replies with a packet:
    frames of the sender's making, repeated frames, and packets damaged on the
    line.  The received file is the file sent. *)

From S2P Require Import Prelude Prog Crc Text TextProofs Ymodem YmodemSafety YmodemSend.
From coqutil Require Import Z.bitblast.

(** ** Frames *)

(** A frame as it is on the line. *)
Definition frame_bytes (head seq : Z) (data : list Z) (crc_type : Z) : list Z :=
  [head; seq; 255 - seq] ++ data ++ check_field crc_type data.

Lemma complement_byte s : 0 <= s < 256 -> u8 (Z.lnot s) = 255 - s.
Proof.
  intros Hs. unfold u8. change (Z.lnot s) with (Z.pred (- s)).
  rewrite <- (Z.mod_add (Z.pred (- s)) 1 256) by lia. rewrite Z.mod_small; lia.
Qed.

Lemma check_field_len ct data : zlen (check_field ct data) = if ct =? 1 then 1 else 2.
Proof. unfold check_field. by destruct (ct =? 1). Qed.

(** What the sender assembles. *)
Lemma build_frame_shape head seq payload ds pad ct :
  zlen payload <= ds <= 1024 -> 0 <= ds ->
  build_frame head seq payload ds pad ct
  = Some (frame_bytes head (seq mod 256) (payload ++ replicate (Z.to_nat (ds - zlen payload)) pad) ct).
Proof.
  intros Hp Hd. unfold build_frame, FRAME_DATA_OFF. pose proof (zlen_nonneg payload).
  pose proof (Z.mod_pos_bound seq 256 ltac:(lia)) as Hs.
  set (k := Z.to_nat (ds - zlen payload)). set (tail := (1029 - length payload - k)%nat).
  assert (E0 : replicate (Z.to_nat FRAME_BUF_SIZE) 0
               = [0; 0; 0] ++ replicate (length payload) 0 ++ replicate k 0 ++ replicate tail 0).
  { rewrite <- !replicate_add. unfold tail, k, FRAME_BUF_SIZE, zlen in *.
    change [0; 0; 0] with (replicate 3 0). rewrite <- replicate_add. f_equal. lia. }
  rewrite E0, arr_blit_app by (rewrite ?length_replicate; done). cbn [mbind option_bind].
  assert (E1 : (if zlen payload <? ds
                then arr_fill ([0; 0; 0] ++ payload ++ replicate k 0 ++ replicate tail 0)
                       (3 + zlen payload) (ds - zlen payload) pad
                else Some ([0; 0; 0] ++ payload ++ replicate k 0 ++ replicate tail 0))
               = Some ([0; 0; 0] ++ payload ++ replicate k pad ++ replicate tail 0)).
  { destruct (Z.ltb_spec (zlen payload) ds).
    - unfold arr_fill. fold k. rewrite !(app_assoc [0; 0; 0] payload).
      apply arr_blit_app; [rewrite zlen_app; done|by rewrite !length_replicate].
    - assert (k = 0%nat) as -> by (unfold k; lia). done. }
  rewrite E1. cbn [mbind option_bind].
  set (rest := payload ++ replicate k pad ++ replicate tail 0).
  assert (Hset : forall a b c, zlen ([a; b; c] ++ rest) = 3 + zlen rest /\ 0 <= zlen rest)
    by (intros; rewrite zlen_app; split; [done|apply zlen_nonneg]).
  do 3 (rewrite arr_set_Some by (cbn [app]; rewrite ?zlen_insert, ?zlen_cons; specialize (Hset 0 0 0); lia);
        cbn [mbind option_bind]).
  rewrite land_255, complement_byte by done.
  change (<[Z.to_nat 2 := 255 - seq mod 256]> (<[Z.to_nat 1 := seq mod 256]>
            (<[Z.to_nat 0 := head]> ([0; 0; 0] ++ rest))))
    with ([head; seq mod 256; 255 - seq mod 256] ++ rest). unfold rest. clear Hset rest.
  set (data := payload ++ replicate k pad).
  assert (Hdl : zlen data = ds)
    by (unfold data; rewrite zlen_app, zlen_replicate; unfold k; lia).
  rewrite (app_assoc payload). fold data.
  rewrite (arr_slice_app _ data) by done. cbn [mbind option_bind].
  pose proof (check_field_len ct data) as Hcl.
  set (cl := length (check_field ct data)).
  assert (Hcl2 : (cl <= 2)%nat) by (unfold cl; unfold zlen in Hcl; destruct (ct =? 1); lia).
  replace (replicate tail 0) with (replicate cl 0 ++ replicate (tail - cl) 0)
    by (rewrite <- replicate_add; f_equal; unfold tail, k, zlen in *; lia).
  rewrite (app_assoc [head; _; _] data).
  rewrite arr_blit_app; [|by rewrite zlen_app, Hdl|by rewrite length_replicate].
  cbn [mbind option_bind]. unfold frame_bytes.
  set (hd := [head; _; _]).
  replace ((hd ++ data) ++ check_field ct data ++ replicate (tail - cl) 0)
    with ([] ++ (hd ++ data ++ check_field ct data) ++ replicate (tail - cl) 0)
    by (by rewrite app_nil_l, <- !app_assoc).
  apply arr_slice_app; [done|]. rewrite !zlen_app, Hdl. change (zlen hd) with 3. lia.
Qed.

Lemma calc_crc16_range data : 0 <= calc_crc16 data < 65536.
Proof.
  unfold calc_crc16.
  assert (H : forall s, 0 <= s < 65536 -> 0 <= foldl ym_crc_byte s data < 65536); [|by apply H].
  induction data as [|b data IH]; intros s Hs; [done|]. simpl. apply IH.
  unfold ym_crc_byte. cbn [Nat.iter nat_rect]. 
  assert (Hb : forall x, 0 <= ym_crc_bit x < 65536)
    by (intros x; unfold ym_crc_bit; case_match; apply u16_range).
  apply Hb.
Qed.

(** A frame of the sender passes the receiver's check. *)
Lemma verify_good head seq data rest ct :
  0 <= seq < 256 -> ct = 1 \/ ct = 2 ->
  receiver_verify_frame (frame_bytes head seq data ct ++ rest) (zlen data)
    (if ct =? 1 then 1 else 2) = Some YM_OK.
Proof.
  intros Hs Hct. unfold receiver_verify_frame, frame_bytes, FRAME_DATA_OFF.
  set (f := (_ ++ _ ++ _) ++ rest).
  assert (Ef : f = [head; seq; 255 - seq] ++ data ++ check_field ct data ++ rest)
    by (unfold f; by rewrite <- !app_assoc).
  rewrite Ef. change (arr_get ([head; seq; 255 - seq] ++ _) 1) with (Some seq).
  change (arr_get ([head; seq; 255 - seq] ++ _) 2) with (Some (255 - seq)).
  cbn [mbind option_bind]. replace (seq + (255 - seq)) with 255 by lia. cbn [u8].
  change (negb (u8 255 =? 255)) with false. cbv iota.
  rewrite (arr_slice_app _ data) by done. cbn [mbind option_bind].
  rewrite !(app_assoc [head; _; _] data). set (base := [head; _; _] ++ data).
  assert (Hb : 3 + zlen data = zlen base) by (unfold base; by rewrite zlen_app).
  rewrite Hb. clearbody base. destruct Hct as [-> | ->]; unfold check_field; cbn [Z.eqb Pos.eqb].
  - change ([calc_checksum data] ++ rest) with (calc_checksum data :: rest).
    rewrite arr_get_app by done. cbn [mbind option_bind].
    by rewrite Z.eqb_refl.
  - set (c := calc_crc16 data). cbn [app].
    rewrite (arr_get_app base _ _ (zlen base)) by done. cbn [mbind option_bind].
    match goal with |- context [?a :: ?b :: rest] =>
      change (a :: b :: rest) with ([a] ++ b :: rest) end.
    rewrite (app_assoc _ [_]), arr_get_app by (by rewrite zlen_app). cbn [mbind option_bind].
    rewrite split_u16 by apply calc_crc16_range. by rewrite Z.eqb_refl.
Qed.

(** ** The peer

    A packet is what the peer puts on the line in answer to the receiver: once
    a reply is [due] and the line has been read empty, the next read finds the
    next packet of the script.  An empty packet is a peer that stays silent
    until the receiver's timeout. *)
Record peer := mk_peer { line : list Z; script : list (list Z); replies : list Z; due : bool }.

Definition peer_send (w : peer) (bs : list Z) : option (peer * Z) :=
  Some (mk_peer (line w) (script w) (replies w ++ bs) true, zlen bs).

Definition settle (w : peer) : peer :=
  match line w, due w, script w with
  | [], true, p :: ps => mk_peer p ps (replies w) false
  | _, _, _ => w
  end.

Definition peer_recv (w : peer) (n t : Z) : option (peer * (Z + list Z)) :=
  let w := settle w in
  Some (mk_peer (drop (Z.to_nat n) (line w)) (script w) (replies w) (due w),
   inr (take (Z.to_nat n) (line w))).

Definition peer_flush (w : peer) : peer := mk_peer [] (script w) (replies w) (due w).

Definition peer_io : my_ymodem_io peer :=
  mk_io peer_send peer_recv (Some peer_flush) None None None 0 0 0.

Lemma peer_transport : transport_ok peer_io (fun _ => True).
Proof.
  split; [by eauto| |by eauto]. intros w n t _ Hn. eexists _, _. split; [reflexivity|]. split; [done|].
  intros bs [= <-]. rewrite zlen_take. lia.
Qed.

Lemma settle_not_due l ps rs : settle (mk_peer l ps rs false) = mk_peer l ps rs false.
Proof. by destruct l. Qed.

(** Reading up to [len] bytes of the line into the frame. *)
Lemma peer_recv_data off len t y l ps rs :
  zlen (frame y) = 1032 -> 0 <= off -> 0 < len -> off + len <= 1032 ->
  let bs := take (Z.to_nat len) l in
  exists f, arr_blit (frame y) off bs = Some f /\
    recv_data peer_io off len t y (mk_peer l ps rs false)
    = Done (zlen bs, set_frame f y, mk_peer (drop (Z.to_nat len) l) ps rs false).
Proof.
  intros Hf Ho Hl Hle bs. unfold recv_data.
  assert (Hbs : 0 <= zlen bs <= len) by (unfold bs; rewrite zlen_take; pose proof (zlen_nonneg l); lia).
  destruct (arr_blit (frame y) off bs) as [f|] eqn:Ef; [|rewrite arr_blit_Some in Ef by lia; done].
  exists f. split; [done|]. cbn [recv_loop].
  rewrite (proj2 (Z.ltb_lt 0 len)) by lia. unfold bind at 1, world_checked, peer_io, io_recv, peer_recv.
  rewrite settle_not_due. cbn [line script replies due]. rewrite Z.sub_0_r. fold bs. destruct bs as [|b bs'] eqn:Eb.
  - assert (l = []) as ->.
    { destruct l; [done|]. unfold bs in Eb. destruct (Z.to_nat len) eqn:En; [lia|done]. }
    rewrite arr_blit_Some in Ef by (change (zlen []) with 0; lia). cbn [app length] in Ef.
    rewrite Nat.add_0_r, take_drop in Ef. injection Ef as <-. rewrite set_frame_id. done.
  - rewrite <- Eb in *. unfold bind, get, checked, modify. rewrite Z.add_0_r, Ef, Z.add_0_l.
    destruct (Z.to_nat len) as [|n] eqn:En; [lia|]. cbn [recv_loop].
    destruct (Z.ltb_spec (zlen bs) len) as [Hlt|Hge]; [|done].
    assert (Hdl : drop (S n) l = []).
    { apply drop_ge. unfold bs, zlen in Hlt. rewrite length_take in Hlt. lia. }
    rewrite Hdl. unfold bind, world_checked. cbn [io_recv]. unfold peer_recv. rewrite settle_not_due.
    cbn [line script replies due].
    rewrite take_nil, drop_nil. done.
Qed.

(** ** One packet *)

(** The peer owes an answer and the line is empty. *)
Definition waiting (ps : list (list Z)) (rs : list Z) : peer := mk_peer [] ps rs true.

Lemma recv_waiting off len t y p ps rs :
  0 < len -> recv_data peer_io off len t y (waiting (p :: ps) rs)
             = recv_data peer_io off len t y (mk_peer p ps rs false).
Proof.
  intros Hl. unfold recv_data. destruct (Z.to_nat len) as [|n] eqn:En; [lia|]. cbn [recv_loop].
  rewrite (proj2 (Z.ltb_lt 0 len)) by lia. unfold bind at 1 3, world_checked, peer_io, io_recv, peer_recv.
  unfold settle; cbn [line due script]. by destruct p.
Qed.

Lemma process_waiting n y p ps rs :
  receiver_process_frame peer_io n 2 y (waiting (p :: ps) rs)
  = receiver_process_frame peer_io n 2 y (mk_peer p ps rs false).
Proof. unfold receiver_process_frame, bind at 1 2. by rewrite recv_waiting by lia. Qed.

(** The data area announced by the head byte. *)
Definition area (head : Z) : Z := if head =? SOH then SOH_SIZE else STX_SIZE.

Lemma area_cases head : area head = 128 \/ area head = 1024.
Proof. unfold area. destruct (head =? SOH); auto. Qed.

(** Reading a head byte and the rest of its frame. *)
Lemma frame_fill (f : list Z) head bs f1 f2 :
  zlen f = 1032 -> arr_blit f 0 [head] = Some f1 -> arr_blit f1 1 bs = Some f2 ->
  f2 = (head :: bs) ++ drop (1 + length bs) f.
Proof.
  intros Hl E1 E2. assert (f1 = head :: drop 1 f) as ->.
  { rewrite arr_blit_Some in E1; [by injection E1 as <-|done|].
    change (zlen [head]) with 1. lia. }
  unfold arr_blit in E2. destruct (_ && _); [|done]. injection E2 as <-.
  cbn. f_equal. f_equal. by rewrite drop_drop.
Qed.

Section packet.
Context (y : my_ymodem) (Hf : zlen (frame y) = 1032) (n : nat).

(** A silent peer. *)
Lemma process_silence ps rs :
  exists f, zlen f = 1032 /\
  receiver_process_frame peer_io n 2 y (mk_peer [] ps rs false)
  = Done (ERR_CRC, set_frame f y, waiting ps (rs ++ [NAK])).
Proof.
  destruct (peer_recv_data 0 1 (get_recv_timeout peer_io) y [] ps rs Hf)
    as (f & Ef & E); [lia..|].
  exists f. split; [by rewrite (arr_blit_length _ _ _ _ Ef)|].
  unfold receiver_process_frame. erewrite bind_done by exact E. done.
Qed.

(** A head byte and what follows it. *)
Lemma process_head head tl ps rs :
  head = SOH \/ head = STX ->
  let got := take (Z.to_nat (area head + 4)) tl in
  let f := (head :: got) ++ drop (1 + length got) (frame y) in
  zlen f = 1032 /\
  receiver_process_frame peer_io n 2 y (mk_peer (head :: tl) ps rs false)
  = (if zlen tl <? area head + 4
     then flush_nak peer_io n ERR_SIZE
     else bind (checked (receiver_verify_frame f (area head) 2)) (fun v =>
            if negb (v =? YM_OK) then flush_nak peer_io n ERR_CRC
            else bind (frame_byte 1) (fun seq => process_numbered peer_io seq (area head))))
      (set_frame f y) (mk_peer (drop (Z.to_nat (area head + 4)) tl) ps rs false).
Proof.
  intros Hh got f. pose proof (area_cases head) as Ha.
  destruct (peer_recv_data 0 1 (get_recv_timeout peer_io) y (head :: tl) ps rs Hf)
    as (f1 & Ef1 & E1); [lia..|].
  pose proof (arr_blit_length _ _ _ _ Ef1) as Hl1.
  change (take (Z.to_nat 1) (head :: tl)) with [head] in *.
  change (drop (Z.to_nat 1) (head :: tl)) with tl in E1.
  destruct (peer_recv_data 1 (area head + 4) (get_recv_timeout peer_io) (set_frame f1 y) tl ps rs)
    as (f2 & Ef2 & E2); [cbn; lia|lia..|]. fold got in Ef2, E2.
  pose proof (frame_fill _ _ _ _ _ Hf Ef1 Ef2) as Hf2. fold f in Hf2. subst f2.
  split; [by rewrite (arr_blit_length _ _ _ _ Ef2); cbn; lia|].
  unfold receiver_process_frame. erewrite bind_done by exact E1. change (zlen [head] <=? 0) with false.
  cbv iota. assert (Eh : arr_get f1 0 = Some head).
  { rewrite arr_blit_Some in Ef1; [by injection Ef1 as <-|done|]. change (zlen [head]) with 1. lia. }
  erewrite bind_done by (unfold frame_byte, bind, get, checked; cbn [frame set_frame]; by rewrite Eh).
  assert (head =? EOT = false) as -> by (destruct Hh as [-> | ->]; done).
  assert (negb ((head =? SOH) || (head =? STX)) = false) as -> by (destruct Hh as [-> | ->]; done).
  cbv iota. fold (area head). unfold FRAME_DATA_OFF.
  replace (3 + area head + 2 - 1) with (area head + 4) by lia.
  erewrite bind_done by exact E2.
  assert (Hz : zlen got <? area head + 4 = (zlen tl <? area head + 4)).
  { unfold got. rewrite zlen_take. pose proof (zlen_nonneg tl).
    destruct (Z.ltb_spec (zlen tl) (area head + 4)); [apply Z.ltb_lt|apply Z.ltb_ge]; lia. }
  rewrite Hz. by destruct (zlen tl <? area head + 4).
Qed.
End packet.

(** ** Between packets *)

(** The blocks [D] have been accepted of a file of [fs] bytes. *)
Record at_block (nm : list Z) (fs size : Z) (D : list (list Z)) (y : my_ymodem) : Prop := {
  ab_frame : zlen (frame y) = 1032;
  ab_ymodem : is_ymodem y = true;
  ab_crc : crc_type y = 2;
  ab_name : file_name y = nm;
  ab_fs : file_size y = fs;
  ab_dst : data_dst y = 1;
  ab_size : out_buf_size y = size;
  ab_buf : zlen (out_buf y) = size;
  ab_written : written y = Z.min fs (zlen (concat D));
  ab_data : arr_slice (out_buf y) 0 (written y) = Some (take (Z.to_nat fs) (concat D));
  ab_seq : expected_seq y = (1 + zlen D) mod 256;
  ab_state : state y = if fs <=? zlen (concat D) then STATE_ENDOFXFER else STATE_FILEXFER
}.

(** After the [EOT]: only the end of the batch is open. *)
Record at_end (nm : list Z) (content : list Z) (y : my_ymodem) : Prop := {
  ae_frame : zlen (frame y) = 1032;
  ae_ymodem : is_ymodem y = true;
  ae_name : file_name y = nm;
  ae_fs : file_size y = zlen content;
  ae_dst : data_dst y = 1;
  ae_data : arr_slice (out_buf y) 0 (zlen content) = Some content;
  ae_written : written y = zlen content;
  ae_state : state y = STATE_ENDING
}.

Lemma zlen_concat_snoc {A} (D : list (list A)) b : zlen (concat (D ++ [b])) = zlen (concat D) + zlen b.
Proof. by rewrite concat_app, zlen_app, (app_nil_r b : concat [b] = b). Qed.

Lemma zlen_snoc {A} (D : list A) b : zlen (D ++ [b]) = zlen D + 1.
Proof. by rewrite zlen_app. Qed.

Lemma u8_succ_seq n : u8 ((1 + n) mod 256 + 1) = (1 + (n + 1)) mod 256.
Proof. unfold u8. rewrite Zplus_mod_idemp_l. f_equal. lia. Qed.

Section steps.
Context (nm : list Z) (fs size : Z) (Hfs : 0 < fs <= size) (Hi : fs + 1024 < 2147483648).

Lemma at_block_frame D y f : zlen f = 1032 -> at_block nm fs size D y -> at_block nm fs size D (set_frame f y).
Proof. intros Hf H. destruct H. by constructor. Qed.

(** The bytes of a new block reach the buffer. *)
Lemma save_prefix D b (buf buf' : list Z) :
  let w := Z.min fs (zlen (concat D)) in
  let len := Z.min (fs - w) (zlen b) in
  arr_slice buf 0 w = Some (take (Z.to_nat fs) (concat D)) ->
  arr_blit buf w (take (Z.to_nat len) b) = Some buf' ->
  arr_slice buf' 0 (w + len) = Some (take (Z.to_nat fs) (concat (D ++ [b]))).
Proof.
  intros w len Hd Hb. pose proof (zlen_nonneg (concat D)). pose proof (zlen_nonneg b).
  assert (Hlt : zlen (take (Z.to_nat len) b) = len) by (rewrite zlen_take; lia).
  pose proof (arr_slice_blit _ _ _ _ Hb) as H2. rewrite Hlt in H2.
  assert (H1 : arr_slice buf' 0 w = Some (take (Z.to_nat fs) (concat D))).
  { rewrite <- Hd. eapply arr_slice_blit_disj; [exact Hb|]. lia. }
  erewrite arr_slice_split; [|exact H1| rewrite Z.add_0_l; exact H2].
  f_equal. rewrite concat_app, (app_nil_r b : concat [b] = b), take_app.
  f_equal. destruct (Z.leb_spec fs (zlen (concat D))).
  - replace (Z.to_nat len) with 0%nat by lia.
    replace (Z.to_nat fs - _)%nat with 0%nat by (unfold zlen in *; lia). done.
  - destruct (Z.leb_spec (fs - zlen (concat D)) (zlen b)).
    + f_equal. unfold zlen in *. lia.
    + rewrite !take_ge; [done|unfold zlen in *; lia..].
Qed.

Lemma save_step D y b h rest ps rs n2 :
  at_block nm fs size D y -> frame y = (h :: n2) ++ b ++ rest -> zlen n2 = 2 ->
  zlen b = 128 \/ zlen b = 1024 ->
  exists y' rs',
    process_data peer_io (zlen b) (set_seq (u8 (expected_seq y + 1)) y) (mk_peer [] ps rs false)
    = Done (YM_OK, y', waiting ps rs') /\ at_block nm fs size (D ++ [b]) y'.
Proof.
  intros H Hf Hn Hb. pose proof (zlen_nonneg (concat D)) as Hc. destruct H as [H1 H2 H3 H4 H5 H6 H7 H8 H9 H10 H11 H12].
  set (w := Z.min fs (zlen (concat D))) in *. set (len := Z.min (fs - w) (zlen b)).
  assert (Hsv : (if true && (0 <? fs) && (fs <? i32 (w + zlen b)) then fs - w else zlen b) = len).
  { rewrite i32_small by lia. rewrite (proj2 (Z.ltb_lt 0 fs)) by lia. cbn [andb].
    destruct (Z.ltb_spec fs (w + zlen b)); lia. }
  assert (Hsl : arr_slice (frame y) 3 len = Some (take (Z.to_nat len) b)).
  { rewrite Hf, <- (take_drop (Z.to_nat len) b), <- app_assoc, (take_drop (Z.to_nat len) b).
    apply arr_slice_app; rewrite ?zlen_cons, ?zlen_take; lia. }
  destruct (arr_blit (out_buf y) w (take (Z.to_nat len) b)) as [ob|] eqn:Eb.
  2: { rewrite arr_blit_Some in Eb by (rewrite ?zlen_take; lia). done. }
  pose proof (arr_blit_length _ _ _ _ Eb) as Hob. rewrite H9 in H10.
  pose proof (save_prefix D b _ _ H10 Eb) as Hpre. fold w len in Hpre.
  pose proof (zlen_concat_snoc D b) as Hcs.
  assert (Hw : w + len = Z.min fs (zlen (concat (D ++ [b])))) by lia.
  unfold process_data, receiver_save_data, bind, get, id.
  cbn [is_ymodem file_size written set_seq data_dst out_buf_size frame out_buf].
  rewrite H2, H5, H9, Hsv, H6, H7. change (1 =? 1) with true. cbv iota.
  rewrite i32_small by lia. rewrite (proj2 (Z.ltb_ge size (w + len))) by lia.
  unfold checked, FRAME_DATA_OFF. rewrite Hsl, Eb. unfold modify, ret.
  change (negb (YM_OK =? YM_OK)) with false. cbv iota. unfold send_byte, world_checked.
  cbn [io_send peer_io peer_send line script replies is_ymodem file_size written set_written
       set_out_buf set_seq state].
  rewrite H2, H5, H12, (proj2 (Z.ltb_lt 0 fs)) by lia. cbn [andb].
  assert (He : fs <=? w + len = (fs <=? zlen (concat (D ++ [b]))))
    by (rewrite Hw; destruct (Z.leb_spec fs (zlen (concat (D ++ [b])))); [apply Z.leb_le|apply Z.leb_gt]; lia).
  rewrite He. destruct (fs <=? zlen (concat (D ++ [b]))) eqn:E1;
    [|rewrite (proj2 (Z.leb_gt fs (zlen (concat D)))) in * by (bool2prop; lia)];
    [destruct (fs <=? zlen (concat D))|]; cbn;
    (eexists _, _; split; [reflexivity|]); constructor; cbn; rewrite ?E1; try done; try lia;
    by rewrite H11, u8_succ_seq, zlen_snoc.
Qed.
End steps.

(** ** The script of a transfer *)

Definition head_of (b : list Z) : Z := if zlen b =? SOH_SIZE then SOH else STX.

(** A frame of the file. *)
Definition data_frame (seq : Z) (b : list Z) : list Z := frame_bytes (head_of b) (seq mod 256) b 2.

Definition block_ok (b : list Z) : Prop := zlen b = SOH_SIZE \/ zlen b = STX_SIZE.

(** What the receiver sees of a damaged frame: nothing, too few bytes, or
    bytes that fail the check. *)
Definition damaged (p : list Z) : Prop :=
  p = [] \/
  exists head tl, p = head :: tl /\ (head = SOH \/ head = STX) /\
    (zlen tl < area head + 4 \/
     area head + 4 <= zlen tl /\
     forall rest, receiver_verify_frame (take (S (Z.to_nat (area head + 4))) p ++ rest) (area head) 2
                  <> Some YM_OK).

Lemma area_head b : block_ok b -> area (head_of b) = zlen b /\ (head_of b = SOH \/ head_of b = STX).
Proof. unfold head_of. intros [-> | ->]; cbn; auto. Qed.

Lemma verify_total f ds : zlen f = 1032 -> ds = 128 \/ ds = 1024 -> receiver_verify_frame f ds 2 <> None.
Proof.
  intros Hf Hd. unfold receiver_verify_frame, FRAME_DATA_OFF.
  destruct (arr_get_Some f 1) as [? ->]; [lia|]. destruct (arr_get_Some f 2) as [? ->]; [lia|].
  cbn [mbind option_bind]. case_match; [done|]. rewrite arr_slice_Some by lia. cbn [mbind option_bind].
  change (2 =? 1) with false. cbv iota.
  destruct (arr_get_Some f (3 + ds)) as [? ->]; [lia|].
  destruct (arr_get_Some f (3 + ds + 1)) as [? ->]; [lia|]. cbn [mbind option_bind].
  by case_match.
Qed.

(** A damaged frame is refused and asked for again. *)
Lemma process_damaged n y p ps rs :
  zlen (frame y) = 1032 -> damaged p ->
  exists f c rs', zlen f = 1032 /\ (c = ERR_CRC \/ c = ERR_SIZE) /\
    receiver_process_frame peer_io n 2 y (waiting (p :: ps) rs) = Done (c, set_frame f y, waiting ps rs').
Proof.
  intros Hf [-> | (head & tl & -> & Hh & Hbad)].
  - destruct (process_silence y Hf n ps rs) as (f & Hl & E).
    exists f, ERR_CRC, (rs ++ [NAK]). rewrite process_waiting. auto.
  - rewrite process_waiting. destruct (process_head y Hf n head tl ps rs Hh) as [Hl E].
    rewrite E. clear E. set (f := _ ++ drop _ (frame y)) in *. destruct Hbad as [Hs | [Hs Hv]].
    + rewrite (proj2 (Z.ltb_lt _ _)) by lia. eexists f, ERR_SIZE, _. auto.
    + rewrite (proj2 (Z.ltb_ge _ _)) by lia. eexists f, ERR_CRC, _. split; [done|split; [auto|]].
      specialize (Hv (drop (1 + length (take (Z.to_nat (area head + 4)) tl)) (frame y))).
      change (take (S _) (head :: tl)) with (head :: take (Z.to_nat (area head + 4)) tl) in Hv.
      fold f in Hv. pose proof (verify_total f (area head) Hl (area_cases head)).
      unfold bind at 1, checked. destruct (receiver_verify_frame f (area head) 2) as [v|]; [|done].
      destruct (Z.eqb_spec v YM_OK); [congruence|]. reflexivity.
Qed.

(** An intact frame is handled by its number. *)
Lemma process_intact n y seq b ps rs :
  zlen (frame y) = 1032 -> block_ok b ->
  exists rest, let f := data_frame seq b ++ rest in zlen f = 1032 /\
    receiver_process_frame peer_io n 2 y (waiting (data_frame seq b :: ps) rs)
    = process_numbered peer_io (seq mod 256) (zlen b) (set_frame f y) (mk_peer [] ps rs false).
Proof.
  intros Hf Hb. destruct (area_head b Hb) as [Ha Hh]. rewrite process_waiting.
  set (tl := [seq mod 256; 255 - seq mod 256] ++ b ++ check_field 2 b).
  assert (Ep : data_frame seq b = head_of b :: tl) by done.
  assert (Ht : Z.to_nat (area (head_of b) + 4) = length tl).
  { rewrite Ha. unfold tl. rewrite !length_app. cbn. unfold zlen. lia. }
  destruct (process_head y Hf n (head_of b) tl ps rs Hh) as [Hl E]. rewrite Ht, (take_ge tl) in Hl by lia.
  rewrite Ep, E. clear E. rewrite Ht, (take_ge tl), (drop_ge tl) by lia.
  eexists. cbv zeta. split; [exact Hl|].
  rewrite (proj2 (Z.ltb_ge _ _)) by (unfold zlen; lia).
  pose proof (Z.mod_pos_bound seq 256 ltac:(lia)).
  rewrite Ha, <- Ep. unfold bind at 1, checked, data_frame.
  rewrite (verify_good (head_of b) (seq mod 256) b _ 2) by auto.
  reflexivity.
Qed.

(** The packets from the answer to the first [EOT] on, after [e] errors in a
    row: the repetitions of [EOT] and the empty batch frame, damaged frames
    before it. *)
Inductive closing (e : Z) : list (list Z) -> Prop :=
| closing_end k ps :
    closing e ((replicate k EOT ++ data_frame 0 (replicate 128 0)) :: ps)
| closing_bad p ps :
    damaged p -> e + 1 < 10 -> closing (e + 1) ps -> closing e (p :: ps).

(** The packets that transfer the blocks [B] after the blocks [D]: each block
    in turn, repetitions of the frame before it (its acknowledgement was lost),
    and fewer than ten damaged packets in a row. *)
Inductive sends : Z -> list (list Z) -> list (list Z) -> list (list Z) -> Prop :=
| sends_next e D b B ps :
    block_ok b -> sends 0 (D ++ [b]) B ps -> sends e D (b :: B) (data_frame (1 + zlen D) b :: ps)
| sends_again e D d B ps :
    block_ok d -> sends 0 D B ps -> sends e D B (data_frame (zlen D) d :: ps)
| sends_bad e D B p ps :
    damaged p -> e + 1 < 10 -> sends (e + 1) D B ps -> sends e D B (p :: ps)
| sends_eot e D ps :
    closing 0 ps -> sends e D [] ([EOT] :: ps).

(** What the receiver holds at the end. *)
Definition delivered (nm content : list Z) (y : my_ymodem) : Prop :=
  file_name y = nm /\ file_size y = zlen content /\
  written y = zlen content /\ arr_slice (out_buf y) 0 (zlen content) = Some content.

(** One round of the loop: errors count, success resets the count. *)
Lemma frame_loop_error n e c y w y' w' :
  receiver_process_frame peer_io n 2 y w = Done (c, y', w') -> c = ERR_CRC \/ c = ERR_SIZE -> e + 1 < 10 ->
  frame_loop peer_io (S n) 2 e y w = frame_loop peer_io n 2 (e + 1) y' w'.
Proof.
  intros E Hc He. cbn [frame_loop]. erewrite bind_done by exact E.
  change (get_send_retry peer_io) with 10. rewrite (proj2 (Z.leb_gt 10 (e + 1))) by lia.
  by destruct Hc as [-> | ->].
Qed.

Lemma frame_loop_ok n e y w y' w' :
  receiver_process_frame peer_io n 2 y w = Done (YM_OK, y', w') -> state y' <> STATE_ENDED ->
  frame_loop peer_io (S n) 2 e y w = frame_loop peer_io n 2 0 y' w'.
Proof.
  intros E Hs. cbn [frame_loop]. erewrite bind_done by exact E. cbn [orb negb Z.eqb YM_OK ERR_HEAD ERR_STATE ERR_IO].
  unfold bind, get. by rewrite bool_decide_false.
Qed.

Section ending.
Context (nm content : list Z).

Lemma end_step n y ps rs :
  at_end nm content y ->
  exists y' w', receiver_process_frame peer_io n 2 y (waiting (data_frame 0 (replicate 128 0) :: ps) rs)
                = Done (YM_OK, y', w') /\ state y' = STATE_ENDED /\ data_dst y' = 1 /\ delivered nm content y'.
Proof.
  intros [H1 H2 H3 H4 H5 H6 H7 H8].
  destruct (process_intact n y 0 (replicate 128 0) ps rs H1) as (rest & Hl & E); [by left|].
  rewrite E. clear E. unfold process_numbered, bind at 1, get, id.
  cbn [is_ymodem set_frame state]. rewrite H2, H8. change (0 mod 256 =? 0) with true.
  rewrite bool_decide_true by done. cbn [andb]. unfold process_batch.
  erewrite bind_done by (unfold frame_byte, bind, get, checked; cbn [frame set_frame]; reflexivity).
  change (0 =? 0) with true. cbv iota.
  unfold bind, modify, send_byte, world_checked, receiver_close_file, get, ret.
  set (f := data_frame _ _ ++ rest). clearbody f. cbn. rewrite H5. change (1 =? 1) with true. cbv iota.
  eexists _, _. split; [reflexivity|]. by repeat split.
Qed.

(** Repetitions of [EOT] are read away. *)
Lemma end_eots k n l y ps rs :
  l <> [] -> at_end nm content y ->
  exists y', at_end nm content y' /\ forall e, exists e',
    frame_loop peer_io (k + n) 2 e y (mk_peer (replicate k EOT ++ l) ps rs false)
    = frame_loop peer_io n 2 e' y' (mk_peer l ps rs false).
Proof.
  intros Hne. revert y. induction k as [|k IH]; intros y H; [by eauto|].
  destruct H as [H1 H2 H3 H4 H5 H6 H7 H8].
  destruct (peer_recv_data 0 1 (get_recv_timeout peer_io) y (EOT :: replicate k EOT ++ l) ps rs H1)
    as (f1 & Ef1 & E1); [lia..|].
  change (take (Z.to_nat 1) _) with [EOT] in *. change (drop (Z.to_nat 1) _) with (replicate k EOT ++ l) in E1.
  pose proof (arr_blit_length _ _ _ _ Ef1) as Hl1.
  destruct (IH (set_frame f1 y)) as (y' & Hy' & IH'); [constructor; cbn; done || lia|].
  exists y'. split; [done|]. intros e. destruct (IH' 0) as [e' E']. exists e'. rewrite <- E'.
  cbn [Nat.add replicate app]. apply frame_loop_ok; [|cbn; by rewrite H8].
  unfold receiver_process_frame. erewrite bind_done by exact E1. change (zlen [EOT] <=? 0) with false.
  cbv iota. assert (Eh : arr_get f1 0 = Some EOT).
  { rewrite arr_blit_Some in Ef1; [by injection Ef1 as <-|done|]. change (zlen [EOT]) with 1. lia. }
  erewrite bind_done by (unfold frame_byte, bind, get, checked; cbn [frame set_frame]; by rewrite Eh).
  change (EOT =? EOT) with true. cbv iota. unfold process_eot, bind, get, id.
  cbn [is_ymodem state set_frame]. by rewrite H2, H8.
Qed.
End ending.

Section transfer.
Context (nm : list Z) (fs size : Z) (Hfs : 0 < fs <= size) (Hi : fs + 1024 < 2147483648).

(** Enough rounds bring the loop to its regular end. *)
Definition completes (content : list Z) (e : Z) (y : my_ymodem) (w : peer) : Prop :=
  exists N, forall n, (N <= n)%nat -> exists y' w',
    frame_loop peer_io n 2 e y w = Done (YM_OK, y', w') /\ delivered nm content y'.

Lemma completes_step content e e' y w y' w' k :
  (forall n, frame_loop peer_io (k + n) 2 e y w = frame_loop peer_io n 2 e' y' w') ->
  completes content e' y' w' -> completes content e y w.
Proof.
  intros E [N HN]. exists (k + N)%nat. intros n Hn.
  replace n with (k + (n - k))%nat by lia. rewrite E. apply HN. lia.
Qed.

(** With a flush callback the rounds do not depend on the fuel. *)
Lemma completes_ok content e y w y' w' :
  receiver_process_frame peer_io 0 2 y w = Done (YM_OK, y', w') -> state y' <> STATE_ENDED ->
  completes content 0 y' w' -> completes content e y w.
Proof. intros E Hs. apply (completes_step _ _ _ _ _ _ _ 1). intros n. by apply frame_loop_ok. Qed.

Lemma at_end_frame content y f : zlen f = 1032 -> at_end nm content y -> at_end nm content (set_frame f y).
Proof. intros Hf H. destruct H. by constructor. Qed.

Lemma completes_bad content e y p ps rs :
  zlen (frame y) = 1032 -> damaged p -> e + 1 < 10 ->
  (forall f rs', zlen f = 1032 -> completes content (e + 1) (set_frame f y) (waiting ps rs')) ->
  completes content e y (waiting (p :: ps) rs).
Proof.
  intros Hf Hd He H. destruct (process_damaged 0 y p ps rs Hf Hd) as (f & c & rs' & Hl & Hc & E).
  apply (completes_step content e (e + 1) y _ (set_frame f y) (waiting ps rs') 1); [|auto].
  intros n. eapply frame_loop_error; [|exact Hc|done]. rewrite <- E.
  unfold receiver_process_frame, flush_nak, port_flush. reflexivity.
Qed.

Lemma closing_completes content e ps :
  closing e ps -> forall y rs, at_end nm content y -> completes content e y (waiting ps rs).
Proof.
  induction 1 as [e k ps | e p ps Hd He Hc IH]; intros y rs Hy.
  - set (l := data_frame 0 (replicate 128 0)). assert (Hne : l <> []) by done.
    destruct (end_eots nm content k 0 l y ps rs Hne Hy) as (y1 & Hy1 & _).
    exists (S k + 1)%nat. intros n Hn.
    destruct (end_eots nm content k (n - k) l y ps rs Hne Hy) as (y2 & Hy2 & H2).
    destruct (H2 e) as [e' E2]. replace (k + (n - k))%nat with n in E2 by lia.
    assert (En : frame_loop peer_io n 2 e y (waiting ((replicate k EOT ++ l) :: ps) rs)
                 = frame_loop peer_io n 2 e y (mk_peer (replicate k EOT ++ l) ps rs false)).
    { destruct n as [|n]; [lia|]. cbn [frame_loop]. unfold bind at 1 3. by rewrite process_waiting. }
    rewrite En, E2. destruct (n - k)%nat as [|m] eqn:Em; [lia|].
    destruct (end_step nm content m y2 ps rs Hy2) as (y3 & w3 & E3 & Hs & Hdst & Hdel).
    rewrite process_waiting in E3. exists y3. eexists. split; [|exact Hdel].
    cbn [frame_loop]. erewrite bind_done by exact E3.
    cbn [orb negb Z.eqb YM_OK ERR_HEAD ERR_STATE ERR_IO].
    unfold bind at 1, get. rewrite bool_decide_true by done.
    unfold bind, port_flush, world, receiver_close_file, get, ret. cbn. by rewrite Hdst.
  - apply completes_bad; [apply Hy|done..|]. intros. apply IH. by apply at_end_frame.
Qed.

(** A repeated frame changes nothing but the frame buffer. *)
Lemma again_step n D y d ps rs :
  at_block nm fs size D y -> block_ok d ->
  exists f rs', zlen f = 1032 /\
    receiver_process_frame peer_io n 2 y (waiting (data_frame (zlen D) d :: ps) rs)
    = Done (YM_OK, set_frame f y, waiting ps rs').
Proof.
  intros H Hd. destruct (process_intact n y (zlen D) d ps rs) as (rest & Hl & E); [apply H|done|].
  set (f := data_frame (zlen D) d ++ rest) in *. clearbody f.
  exists f, (rs ++ [ACK]). split; [done|]. rewrite E. clear E.
  unfold process_numbered, bind, get, id. cbn [is_ymodem state set_frame expected_seq].
  rewrite (ab_seq _ _ _ _ _ H), (ab_state _ _ _ _ _ H).
  rewrite bool_decide_false by (by destruct (fs <=? _)). rewrite andb_false_r. cbn [andb].
  assert (zlen D mod 256 =? (1 + zlen D) mod 256 = false) as ->.
  { apply Z.eqb_neq. Z.div_mod_to_equations. lia. }
  assert (zlen D mod 256 =? u8 ((1 + zlen D) mod 256 - 1) = true) as ->; [|reflexivity].
  apply Z.eqb_eq. unfold u8. rewrite Zminus_mod_idemp_l. f_equal. lia.
Qed.

(** The expected frame is stored. *)
Lemma next_step n D y b ps rs :
  at_block nm fs size D y -> block_ok b ->
  exists y' rs',
    receiver_process_frame peer_io n 2 y (waiting (data_frame (1 + zlen D) b :: ps) rs)
    = Done (YM_OK, y', waiting ps rs') /\ at_block nm fs size (D ++ [b]) y'.
Proof.
  intros H Hb. destruct (process_intact n y (1 + zlen D) b ps rs) as (rest & Hl & E); [apply H|done|].
  rewrite E. clear E. set (f := data_frame (1 + zlen D) b ++ rest) in *.
  pose proof (at_block_frame nm fs size D y f Hl H) as H'.
  assert (Ef : frame (set_frame f y)
               = (head_of b :: [(1 + zlen D) mod 256; 255 - (1 + zlen D) mod 256]) ++ b ++ check_field 2 b ++ rest).
  { cbn [frame set_frame]. unfold f, data_frame, frame_bytes. cbn [app]. by rewrite <- app_assoc. }
  destruct (save_step nm fs size Hfs Hi D _ b _ _ ps rs _ H' Ef) as (y' & rs' & E & Hy'); [done|exact Hb|].
  exists y', rs'. split; [|done]. rewrite <- E.
  unfold process_numbered, bind at 1, get, id.
  rewrite (ab_seq _ _ _ _ _ H'), (ab_state _ _ _ _ _ H').
  rewrite bool_decide_false by (by destruct (fs <=? _)). rewrite andb_false_r. cbn [andb].
  by rewrite Z.eqb_refl.
Qed.

(** [EOT] after the whole file. *)
Lemma eot_step n D y ps rs :
  at_block nm fs size D y -> fs <= zlen (concat D) ->
  exists y' rs',
    receiver_process_frame peer_io n 2 y (waiting ([EOT] :: ps) rs) = Done (YM_OK, y', waiting ps rs')
    /\ at_end nm (take (Z.to_nat fs) (concat D)) y'.
Proof.
  intros H Hc. rewrite process_waiting. destruct H as [H1 H2 H3 H4 H5 H6 H7 H8 H9 H10 H11 H12].
  destruct (peer_recv_data 0 1 (get_recv_timeout peer_io) y [EOT] ps rs H1) as (f1 & Ef1 & E1); [lia..|].
  change (take (Z.to_nat 1) _) with [EOT] in *. change (drop (Z.to_nat 1) _) with (@nil Z) in E1.
  pose proof (arr_blit_length _ _ _ _ Ef1) as Hl1.
  assert (Eh : arr_get f1 0 = Some EOT).
  { rewrite arr_blit_Some in Ef1; [by injection Ef1 as <-|done|]. change (zlen [EOT]) with 1. lia. }
  unfold receiver_process_frame. erewrite bind_done by exact E1. change (zlen [EOT] <=? 0) with false.
  cbv iota. erewrite bind_done by (unfold frame_byte, bind, get, checked; cbn [frame set_frame]; by rewrite Eh).
  change (EOT =? EOT) with true. cbv iota. unfold process_eot, bind at 1, get, id.
  cbn [is_ymodem state set_frame crc_type]. rewrite H2, H3, H12, (proj2 (Z.leb_le _ _) Hc).
  change (2 =? 1) with false. cbn.
  assert (Hz : zlen (take (Z.to_nat fs) (concat D)) = fs) by (rewrite zlen_take; lia).
  rewrite Z.min_l in H9 by lia.
  eexists _, _. split; [reflexivity|]. constructor; cbn; rewrite ?Hz; congruence || (rewrite <- H9; done).
Qed.

(** The frames of the blocks [B] complete the file. *)
Lemma sends_completes e D B ps :
  sends e D B ps -> forall y rs,
  at_block nm fs size D y -> fs <= zlen (concat (D ++ B)) ->
  completes (take (Z.to_nat fs) (concat (D ++ B))) e y (waiting ps rs).
Proof.
  assert (Hend : forall D y, at_block nm fs size D y -> state y <> STATE_ENDED).
  { intros D' y H. rewrite (ab_state _ _ _ _ _ H). by destruct (fs <=? _). }
  induction 1 as [e D b B ps Hb _ IH | e D d B ps Hd _ IH | e D B p ps Hd He _ IH | e D ps Hc];
    intros y rs Hy Hlen.
  - destruct (next_step 0 D y b ps rs Hy Hb) as (y' & rs' & E & Hy').
    eapply (completes_ok _ e); [exact E|by eapply Hend|].
    replace (D ++ b :: B) with ((D ++ [b]) ++ B) in * by (by rewrite <- app_assoc). by apply IH.
  - destruct (again_step 0 D y d ps rs Hy Hd) as (f & rs' & Hl & E).
    pose proof (at_block_frame nm fs size D y f Hl Hy) as Hy'.
    eapply (completes_ok _ e); [exact E|by eapply Hend|]. by apply IH.
  - apply completes_bad; [apply Hy|done..|]. intros. apply IH; [by apply at_block_frame|done].
  - rewrite app_nil_r in *. destruct (eot_step 0 D y ps rs Hy Hlen) as (y' & rs' & E & Hy').
    eapply (completes_ok _ e); [exact E|by rewrite (ae_state _ _ _ Hy')|]. by apply closing_completes.
Qed.
End transfer.

(** ** The file information *)

Lemma strtol_digits_dec n v acc rest :
  0 <= v < 10 ^ Z.of_nat n -> (0 < n)%nat ->
  strtol_digits (dec_loop n v acc ++ rest) 0 = strtol_digits (acc ++ rest) v.
Proof.
  revert v acc. induction n as [|n IH]; intros v acc Hv Hn; [lia|]. cbn [dec_loop].
  destruct (Z.ltb_spec v 10) as [Hlt|Hge].
  - cbn [app strtol_digits]. rewrite (proj2 (is_digit_spec (48 + v))) by lia. f_equal. lia.
  - assert (Hp : 10 ^ Z.of_nat (S n) = 10 * 10 ^ Z.of_nat n) by (rewrite Nat2Z.inj_succ, Z.pow_succ_r; lia).
    assert (Hn' : (0 < n)%nat) by (destruct n; [cbn in *; lia|lia]).
    pose proof (Z.mod_pos_bound v 10 ltac:(lia)). pose proof (Z.div_mod v 10 ltac:(lia)).
    rewrite IH; [|split; [apply Z.div_pos; lia|apply Z.div_lt_upper_bound; lia]|done].
    cbn [app strtol_digits]. rewrite (proj2 (is_digit_spec (48 + v mod 10))) by lia. f_equal. lia.
Qed.

Lemma dec_loop_shape n v acc :
  0 <= v -> (0 < n)%nat -> exists c r, dec_loop n v acc = c :: r /\ (v < 10 ^ Z.of_nat n -> is_digit c = true).
Proof.
  revert v acc. induction n as [|n IH]; intros v acc Hv Hn; [lia|]. cbn [dec_loop].
  destruct (Z.ltb_spec v 10) as [Hlt|Hge].
  - eexists _, _. split; [reflexivity|]. intros _. apply is_digit_spec. lia.
  - destruct n as [|n].
    + eexists _, _. split; [reflexivity|]. cbn. lia.
    + destruct (IH (v / 10) ((48 + v mod 10) :: acc)) as (c & r & E & Hc); [apply Z.div_pos; lia|lia|].
      exists c, r. split; [done|]. intros Hlt. apply Hc.
      rewrite Nat2Z.inj_succ, Z.pow_succ_r in Hlt by lia. apply Z.div_lt_upper_bound; lia.
Qed.

Lemma dec_loop_len n v acc : (length (dec_loop n v acc) <= n + length acc)%nat.
Proof.
  revert v acc. induction n as [|n IH]; intros v acc; cbn [dec_loop]; [lia|].
  destruct (v <? 10); [cbn; lia|]. etrans; [apply IH|]. cbn. lia.
Qed.

(** [strtol] reads back what [%d] printed. *)
Lemma strtol_dec v rest :
  0 <= v < 2147483648 -> strtol (dec_text v ++ 0 :: rest) = Some v.
Proof.
  intros Hv. unfold dec_text. rewrite (proj2 (Z.ltb_ge v 0)) by lia.
  pose proof (strtol_digits_dec 10 v [] (0 :: rest) ltac:(cbn; lia) ltac:(lia)) as E.
  destruct (dec_loop_shape 10 v [] ltac:(lia) ltac:(lia)) as (c & r & Ed & Hc).
  specialize (Hc ltac:(cbn; lia)). apply is_digit_spec in Hc. rewrite Ed in *. cbn [app strtol].
  assert (isspace c = false) as ->.
  { unfold isspace, in_range. rewrite (proj2 (Z.eqb_neq c 32)), (proj2 (Z.leb_gt c 13)) by lia. by rewrite andb_false_r. }
  rewrite (proj2 (Z.eqb_neq c 43)), (proj2 (Z.eqb_neq c 45)) by lia.
  cbn [app] in E. rewrite E. cbn. unfold clamp32. f_equal. lia.
Qed.

Lemma name_loop_spec n nm a s r :
  put nm a -> (length s <= n)%nat -> zlen a + zlen s <= zlen nm -> Forall (fun c => c <> 0) s ->
  exists nm', name_loop n (zlen a) (a ++ s ++ 0 :: r) nm = Some (zlen a + zlen s, nm')
              /\ zlen nm' = zlen nm /\ put nm' (a ++ s).
Proof.
  revert nm a s. induction n as [|n IH]; intros nm a s Hp Hn Hz Hs.
  - destruct s; [|cbn in Hn; lia]. exists nm. cbn [name_loop]. change (zlen []) with 0.
    by rewrite Z.add_0_r, app_nil_r.
  - cbn [name_loop]. destruct s as [|c s].
    + cbn [app]. rewrite arr_get_app by done. cbn [mbind option_bind]. change (0 =? 0) with true. cbv iota.
      exists nm. change (zlen []) with 0. by rewrite Z.add_0_r, app_nil_r.
    + cbn [app]. rewrite arr_get_app by done. cbn [mbind option_bind]. inversion_clear Hs as [|? ? Hc Hs'].
      rewrite (proj2 (Z.eqb_neq c 0)) by done. rewrite zlen_cons in *.
      destruct (put_set nm a c Hp) as (nm1 & E1 & Hl1 & Hp1); [pose proof (zlen_nonneg s); lia|].
      rewrite E1. cbn [mbind option_bind].
      destruct (IH nm1 (a ++ [c]) s Hp1) as (nm' & E & Hl & Hp'); [cbn in Hn; lia|rewrite zlen_snoc; lia|done|].
      rewrite zlen_snoc in E. rewrite <- app_assoc in E, Hp'. cbn [app] in E, Hp'. exists nm'.
      rewrite E. split; [f_equal; f_equal; lia|]. split; [lia|done].
Qed.

(** The data area of the first frame, as the sender fills it. *)
Definition info_data (name : list Z) (size : Z) : list Z :=
  info_payload name size ++ replicate (Z.to_nat (SOH_SIZE - zlen (info_payload name size))) 0.

Lemma info_payload_short name size :
  zlen name <= 99 -> 0 <= size < 2147483648 ->
  info_payload name size = name ++ [0] ++ dec_text size /\ zlen (info_payload name size) <= 110.
Proof.
  intros Hn Hs. unfold info_payload, INFO_MAX_NAME_LEN, SOH_SIZE.
  pose proof (dec_loop_len 10 size []) as Hd. cbn [length] in Hd.
  assert (Et : dec_text size = dec_loop 10 size []) by (unfold dec_text; rewrite (proj2 (Z.ltb_ge _ _)); [done|lia]).
  rewrite (take_ge name) by (unfold zlen in *; lia). rewrite Et.
  assert (Hl : (length (name ++ [0%Z] ++ dec_loop 10 size []) <= 110)%nat)
    by (rewrite !length_app; cbn [length]; unfold zlen in *; lia).
  rewrite take_ge by lia. split; [done|]. unfold zlen. lia.
Qed.

Lemma parse_info_data name size nm rest :
  zlen name <= 99 -> Forall (fun c => c <> 0) name -> 0 < size < 2147483648 -> zlen nm = 256 ->
  exists nm', parse_info (info_data name size ++ rest) nm = Some (nm', size) /\ zlen nm' = 256 /\ put nm' (name ++ [0]).
Proof.
  intros Hn Hz Hs Hm. unfold info_data. destruct (info_payload_short name size) as [E Hl]; [lia..|].
  destruct (Z.to_nat (SOH_SIZE - _)) as [|k] eqn:Ek; [unfold SOH_SIZE in Ek; lia|].
  rewrite E, <- !app_assoc. cbn [replicate app]. set (tl := dec_text size ++ _).
  unfold parse_info. destruct (name_loop_spec 127 nm [] name tl) as (nm1 & E1 & Hl1 & Hp1);
    [apply put_nil|unfold zlen in *; lia|change (zlen []) with 0; lia|done|].
  change (zlen []) with 0 in E1. rewrite Z.add_0_l in E1. cbn [app] in E1, Hp1.
  change (Z.to_nat (SOH_SIZE - 1)) with 127%nat. rewrite E1. cbn [mbind option_bind].
  destruct (put_set nm1 name 0 Hp1) as (nm2 & E2 & Hl2 & Hp2); [lia|]. rewrite E2. cbn [mbind option_bind].
  assert (drop (Z.to_nat (zlen name + 1)) (name ++ 0 :: tl) = tl) as ->.
  { replace (Z.to_nat (zlen name + 1)) with (length name + 1)%nat by (unfold zlen; lia).
    by rewrite drop_app_add. }
  unfold tl. rewrite strtol_dec by lia. cbn [mbind option_bind].
  rewrite (proj2 (Z.eqb_neq size 0)) by lia. exists nm2. repeat split; [congruence|done].
Qed.

Lemma c_string_put nm name : put nm (name ++ [0]) -> Forall (fun c => c <> 0) name -> c_string nm = Some name.
Proof.
  intros ->%put_eq. rewrite <- app_assoc. cbn [app]. set (r := drop _ _). clearbody r.
  induction 1 as [|c s Hc _ IH]; [done|]. cbn. rewrite (proj2 (Z.eqb_neq c 0)) by done. by rewrite IH.
Qed.
