(* ===== verification/YmodemFile.v ===== *)
(** * Receiving a file over YModem

    The handshake, the information frame, and the theorem about a whole
    transfer into a memory buffer. *)

From S2P Require Import Prelude Prog Crc Text TextProofs Ymodem YmodemSafety YmodemSend YmodemTransfer.

(** The first packet of the sender. *)
Definition info_frame (name : list Z) (size : Z) : list Z := data_frame 0 (info_data name size).

Section first.
Context (name : list Z) (fs : Z) (Hn : zlen name <= 99) (Hz : Forall (fun c => c <> 0) name).
Context (size : Z) (Hfs : 0 < fs <= size) (Hi : fs + 1024 < 2147483648).

Lemma info_data_len : zlen (info_data name fs) = 128.
Proof.
  unfold info_data. destruct (info_payload_short name fs) as [_ Hl]; [lia..|].
  rewrite zlen_app, zlen_replicate. unfold SOH_SIZE. pose proof (zlen_nonneg (info_payload name fs)). lia.
Qed.

(** What the sender builds is that packet. *)
Lemma info_frame_built : build_frame SOH 0 (info_payload name fs) SOH_SIZE 0 2 = Some (info_frame name fs).
Proof.
  destruct (info_payload_short name fs) as [_ Hl]; [lia..|].
  rewrite build_frame_shape by (unfold SOH_SIZE; lia). unfold info_frame, data_frame, head_of.
  by rewrite info_data_len.
Qed.

(** Before the first frame. *)
Record at_start (y : my_ymodem) : Prop := {
  as_frame : zlen (frame y) = 1032;
  as_name : zlen (file_name y) = 256;
  as_crc : crc_type y = 2;
  as_dst : data_dst y = 1;
  as_size : out_buf_size y = size;
  as_buf : zlen (out_buf y) = size
}.

Lemma at_start_frame y f : zlen f = 1032 -> at_start y -> at_start (set_frame f y).
Proof. intros Hf H. destruct H. by constructor. Qed.

(** Reading the head byte, then the rest of the information frame. *)
Lemma first_frame_read y ps rs :
  at_start y ->
  exists f1 f2 w1 rest,
    recv_data peer_io 0 1 (get_recv_timeout peer_io) y (waiting (info_frame name fs :: ps) rs)
      = Done (1, set_frame f1 y, w1) /\
    arr_get f1 0 = Some SOH /\
    recv_data peer_io 1 132 (get_recv_timeout peer_io) (set_frame f1 y) w1
      = Done (132, set_frame f2 y, mk_peer [] ps rs false) /\
    f2 = info_frame name fs ++ rest /\ zlen f2 = 1032.
Proof.
  intros [H1 _ _ _ _ _]. rewrite recv_waiting by lia.
  set (tl := [0; 255] ++ info_data name fs ++ check_field 2 (info_data name fs)).
  assert (Ep : info_frame name fs = SOH :: tl) by (unfold info_frame, data_frame, head_of; by rewrite info_data_len).
  assert (Ht : length tl = Z.to_nat 132).
  { unfold tl. rewrite !length_app. pose proof info_data_len as Hd. unfold zlen in Hd. cbn. lia. }
  destruct (peer_recv_data 0 1 (get_recv_timeout peer_io) y (SOH :: tl) ps rs H1) as (f1 & Ef1 & E1); [lia..|].
  pose proof (arr_blit_length _ _ _ _ Ef1) as Hl1.
  change (take (Z.to_nat 1) (SOH :: tl)) with [SOH] in *. change (drop (Z.to_nat 1) (SOH :: tl)) with tl in E1.
  destruct (peer_recv_data 1 132 (get_recv_timeout peer_io) (set_frame f1 y) tl ps rs) as (f2 & Ef2 & E2);
    [cbn; lia|lia..|]. rewrite take_ge in Ef2, E2 by lia. rewrite drop_ge in E2 by lia.
  pose proof (arr_blit_length _ _ _ _ Ef2) as Hl2. cbn [frame set_frame] in Hl2.
  pose proof (frame_fill _ _ _ _ _ H1 Ef1 Ef2) as Hf2. rewrite <- Ep in Hf2.
  eexists f1, f2, _, _. rewrite Ep, E1. split; [reflexivity|]. split.
  { rewrite arr_blit_Some in Ef1; [by injection Ef1 as <-|done|]. change (zlen [SOH]) with 1. lia. }
  split; [|split; [rewrite <- Ep; exact Hf2|lia]]. rewrite E2. unfold zlen. by rewrite Ht, Z2Nat.id by lia.
Qed.

Lemma first_frame_step n y ps rs :
  at_start y ->
  exists y1 w1 y' rs' nm,
    recv_data peer_io 0 1 (get_recv_timeout peer_io) y (waiting (info_frame name fs :: ps) rs) = Done (1, y1, w1) /\
    receiver_process_first_frame peer_io n 2 y1 w1 = Done (YM_OK, y', waiting ps rs') /\
    put nm (name ++ [0]) /\ at_block nm fs size [] (set_state STATE_FILEXFER y').
Proof.
  intros H. destruct (first_frame_read y ps rs H) as (f1 & f2 & w1 & rest & E1 & Eh & E2 & Hf2 & Hl2).
  destruct H as [H1 H2 H3 H4 H5 H6].
  assert (Ev : receiver_verify_frame f2 SOH_SIZE 2 = Some YM_OK).
  { rewrite Hf2. change SOH_SIZE with 128. rewrite <- info_data_len.
    apply (verify_good _ _ _ _ 2); [done|by right]. }
  destruct (parse_info_data name fs (file_name y) (check_field 2 (info_data name fs) ++ rest))
    as (nm & En & Hnl & Hnp); [done|done|lia|done|].
  assert (Ed : drop 3 f2 = info_data name fs ++ check_field 2 (info_data name fs) ++ rest)
    by (rewrite Hf2; unfold info_frame, data_frame, frame_bytes; cbn [app drop]; by rewrite <- app_assoc).
  assert (Es : arr_get f2 1 = Some 0 /\ arr_get f2 2 = Some 255) by (rewrite Hf2; by split).
  destruct Es as [Es1 Es2]. clear Hf2.
  eexists _, _, _, _, nm. split; [exact E1|]. unfold receiver_process_first_frame.
  erewrite bind_done by (unfold frame_byte, bind, get, checked; cbn [frame set_frame]; by rewrite Eh).
  change (negb ((SOH =? SOH) || (SOH =? STX))) with false. change (SOH =? SOH) with true. cbv iota.
  change (FRAME_DATA_OFF + SOH_SIZE + 2 - 1) with 132. erewrite bind_done by exact E2.
  change (132 <? 132) with false. cbv iota. unfold receiver_parse_file_info, receiver_send_request.
  unfold frame_byte, receiver_open_file, bind, get, checked. cbn [frame set_frame].
  rewrite Ev. change (negb (YM_OK =? YM_OK)) with false. cbv iota. cbn [frame set_frame]. rewrite Es1. cbn [frame set_frame]. rewrite Es2.
  change ((0 =? 0) && (255 =? 255)) with true. cbv iota. unfold modify.
  cbn [set_is_ymodem set_seq set_frame file_name frame]. rewrite Ed, En. cbn. rewrite H3. cbn. rewrite ?H4. cbn.
  split; [reflexivity|]. split; [done|]. constructor; cbn; try done; try lia.
  - change (zlen []) with 0. lia.
  - rewrite arr_slice_Some by lia. by rewrite take_nil.
  - change (zlen []) with 0. by rewrite (proj2 (Z.leb_gt fs 0)) by lia.
Qed.

(** A round of the handshake asks for CRC frames and waits for a head byte. *)
Lemma handshake_round m i n y qs rs d :
  at_start y -> i < 5 ->
  handshake_loop peer_io (S m) i n y (mk_peer [] qs rs d)
  = (r <- recv_data peer_io 0 1 (get_recv_timeout peer_io) ;;
     if r <=? 0 then handshake_loop peer_io m (i + 1) n
     else
       first <- first_frame_loop peer_io n 2 10 ;;
       match first with
       | inl e => ret e
       | inr true => handshake_loop peer_io m (i + 1) n
       | inr false => modify (set_state STATE_FILEXFER) ;; frame_loop peer_io n 2 0
       end)%prog y (waiting qs (rs ++ [CRC16_C])).
Proof.
  intros Hy Hlt. cbn [handshake_loop]. unfold bind at 1, get. rewrite (as_crc y Hy).
  change (get_handshake_retry peer_io / 2) with 5. rewrite (proj2 (Z.leb_gt 5 i)) by lia.
  cbn [andb Z.eqb Pos.eqb]. unfold bind at 1, modify, id. erewrite bind_done; [reflexivity|].
  unfold receiver_send_request, bind, get. rewrite (as_crc y Hy). reflexivity.
Qed.

(** Up to four silent rounds before the first frame. *)
Lemma handshake_completes k : forall i m y rs content ps d,
  Z.of_nat k + i <= 4 -> (k < m)%nat -> at_start y ->
  (forall nm y' rs', at_block nm fs size [] y' -> completes nm content 0 y' (waiting ps rs')) ->
  exists N, forall n, (N <= n)%nat -> exists y' w' nm,
    handshake_loop peer_io m i n y (mk_peer [] (replicate k [] ++ info_frame name fs :: ps) rs d)
    = Done (YM_OK, y', w') /\ put nm (name ++ [0]) /\ delivered nm content y'.
Proof.
  induction k as [|k IH]; intros i m y rs content ps d Hk Hm Hy Hc; (destruct m as [|m]; [lia|]).
  - destruct (first_frame_step 0 y ps (rs ++ [CRC16_C]) Hy) as (y1 & w1 & y' & rs' & nm & E1 & E2 & Hp & Hb).
    destruct (Hc nm _ rs' Hb) as [N HN]. exists (S N). intros n Hn'. destruct (HN n) as (y2 & w2 & E3 & Hd); [lia|].
    exists y2, w2, nm. split; [|done]. rewrite handshake_round by (done || lia).
    erewrite bind_done by exact E1. change (1 <=? 0) with false. cbv iota.
    destruct n as [|n]; [lia|]. erewrite bind_done; [|cbn [first_frame_loop]; erewrite bind_done by exact E2; reflexivity].
    cbn beta iota. unfold bind, modify. exact E3.
  - destruct (peer_recv_data 0 1 (get_recv_timeout peer_io) y [] (replicate k [] ++ info_frame name fs :: ps)
                (rs ++ [CRC16_C])) as (f & Ef & E); [apply Hy|lia..|].
    pose proof (arr_blit_length _ _ _ _ Ef) as Hl. rewrite (as_frame y Hy) in Hl.
    destruct (IH (i + 1) m (set_frame f y) (rs ++ [CRC16_C]) content ps false) as [N HN];
      [lia|lia|by apply at_start_frame|done|].
    exists N. intros n Hn'. destruct (HN n Hn') as (y' & w' & nm & E' & HH). exists y', w', nm. split; [|done].
    rewrite <- E', handshake_round by (done || lia). cbn [replicate app].
    erewrite bind_done by (rewrite recv_waiting by lia; exact E). reflexivity.
Qed.
End first.

(** C1: A file sent over YModem arrives.  The sender stays silent for at most
    four rounds of the handshake, sends the information frame its [build_frame]
    makes of the name and size, then the blocks of the file (the last one
    padded), where each frame may be repeated and up to nine packets in a row
    may be lost, truncated or fail the frame check, then [EOT] and the empty
    batch frame.  Then [my_ymodem_recv_mem] returns [YM_OK] with the name, the
    size and exactly the bytes of the file in the buffer. *)
Theorem recv_mem_transfer name file pad B info k ps buf y :
  handle_ok y -> zlen name <= 99 -> Forall (fun c => c <> 0) name ->
  0 < zlen file <= zlen buf -> zlen file + 1024 < 2147483648 ->
  build_frame SOH 0 (info_payload name (zlen file)) SOH_SIZE 0 2 = Some info ->
  concat B = file ++ pad -> sends 0 [] B ps -> (k <= 4)%nat ->
  exists N, forall n, (N <= n)%nat -> exists y' w',
    my_ymodem_recv_mem peer_io n buf (zlen buf) y (mk_peer [] (replicate k [] ++ info :: ps) [] false)
    = Done ((YM_OK, Some (name, zlen file)), y', w') /\
    arr_slice (out_buf y') 0 (zlen file) = Some file.
Proof.
  intros [Hf Hnm H0 Hd] Hn Hz Hlen Hi Hb HB Hs Hk.
  rewrite (info_frame_built name (zlen file) Hn (zlen buf) Hlen Hi) in Hb. injection Hb as <-.
  destruct (arr_set (save_dir y) 0 0) as [sd|] eqn:Esd; [|rewrite arr_set_Some in Esd by lia; done].
  set (y0 := mk_ym STATE_CONNECTING 2 false (file_name y) sd (file_size y) 1 buf (zlen buf) 0
               (expected_seq y) (frame y)).
  destruct (handshake_completes name (zlen file) Hn Hz (zlen buf) Hlen Hi k 0 10 y0 [] file ps false)
    as [N HN]; [lia|lia|constructor; cbn; try done; apply Hf| |].
  { intros nm y' rs' Hy'. pose proof (sends_completes nm (zlen file) (zlen buf) Hlen Hi 0 [] B ps Hs y' rs' Hy') as H.
    cbn [app] in H. rewrite HB, zlen_app in H. unfold zlen in H at 2 4. rewrite Nat2Z.id, take_app_length in H.
    apply H. pose proof (zlen_nonneg pad). unfold zlen in *. lia. }
  exists N. intros n Hn'. destruct (HN n Hn') as (y' & w' & nm & E & Hp & (E1 & E2 & E3 & E4)).
  exists y', w'. split; [|done]. unfold my_ymodem_recv_mem. rewrite (proj2 (Z.leb_gt _ 0)) by lia.
  unfold bind at 1 2 3, get, checked, modify. rewrite Esd. fold y0.
  erewrite bind_done by (unfold receiver_run; change (Z.to_nat (get_handshake_retry peer_io)) with 10%nat; exact E).
  change (YM_OK =? YM_OK) with true. cbv iota. unfold bind, id. rewrite E1, (c_string_put _ _ Hp Hz), E3.
  unfold ret. rewrite take_ge; [done|unfold zlen in Hn; lia].
Qed.

(** A transfer of five bytes with a silent round, a truncated frame and a
    repeated frame. *)
Lemma recv_mem_transfer_witness :
  let file := [10; 20; 30; 40; 50] in
  let b := file ++ replicate 123 26 in
  exists info, build_frame SOH 0 (info_payload [97] 5) SOH_SIZE 0 2 = Some info /\
  exists N, forall n, (N <= n)%nat -> exists y' w',
    my_ymodem_recv_mem peer_io n (replicate 16 0) (zlen (replicate 16 0)) my_ymodem_init
      (mk_peer [] (replicate 1 [] ++ info ::
         [[SOH; 1; 254]; data_frame 1 b; data_frame 1 b; [EOT];
          replicate 1 EOT ++ data_frame 0 (replicate 128 0)]) [] false)
    = Done ((YM_OK, Some ([97], zlen file)), y', w') /\
    arr_slice (out_buf y') 0 (zlen file) = Some file.
Proof.
  cbv zeta. eexists. split; [reflexivity|].
  eapply (recv_mem_transfer [97] [10; 20; 30; 40; 50] (replicate 123 26)
            [[10; 20; 30; 40; 50] ++ replicate 123 26]).
  - apply init_handle_ok.
  - done.
  - by repeat constructor.
  - done.
  - done.
  - reflexivity.
  - reflexivity.
  - apply sends_bad; [|done|].
    { right. exists SOH, [1; 254]. repeat split; [by left|by left]. }
    apply (sends_next _ []); [by left|]. apply (sends_again _ [_]); [by left|].
    apply sends_eot. apply closing_end.
  - lia.
Defined.

Lemma recv_mem_memory_safe_witness :
  match my_ymodem_recv_mem peer_io 20 (replicate 16 0) (zlen (replicate 16 0)) my_ymodem_init
          (mk_peer [] [[SOH; 0]; [7]; [SOH]] [] false) with
  | Undef => False
  | NoFuel => True
  | Done ((r, info), y', _) =>
      zlen (out_buf y') = zlen (replicate 16 0) /\
      match info with
      | Some (name, n) => r = YM_OK /\ 0 <= n <= zlen (replicate 16 0) /\ zlen name < 256
      | None => r <> YM_OK
      end
  end.
Proof.
  apply (recv_mem_memory_safe peer_io (fun _ => True) 20 (replicate 16 0) my_ymodem_init).
  - apply peer_transport.
  - done.
  - apply init_handle_ok.
  - done.
Defined.

(** ** A damaged first frame *)

Lemma verify_codes f ds v :
  receiver_verify_frame f ds 2 = Some v -> v = YM_OK \/ v = ERR_SEQ \/ v = ERR_CRC.
Proof.
  unfold receiver_verify_frame. destruct (arr_get f 1), (arr_get f 2); try done. cbn [mbind option_bind].
  case_match; [intros [= <-]; auto|]. destruct (arr_slice _ _ _); [|done]. cbn [mbind option_bind Z.eqb Pos.eqb].
  destruct (arr_get f (FRAME_DATA_OFF + ds)); [|done]. cbn [mbind option_bind].
  destruct (arr_get f (FRAME_DATA_OFF + ds + 1)); [|done]. cbn [mbind option_bind].
  case_match; intros [= <-]; auto.
Qed.

(** The frame buffer keeps its head byte; the rest is refilled from the line. *)
Lemma first_frame_refused n y l ps rs :
  zlen (frame y) = 1032 -> arr_get (frame y) 0 = Some SOH -> 132 <= zlen l ->
  (forall rest, receiver_verify_frame (SOH :: take 132 l ++ rest) SOH_SIZE 2 <> Some YM_OK) ->
  exists f v, zlen f = 1032 /\ arr_get f 0 = Some SOH /\ (v = ERR_SEQ \/ v = ERR_CRC) /\
    (exists rest, receiver_verify_frame (SOH :: take 132 l ++ rest) SOH_SIZE 2 = Some v) /\
    receiver_process_first_frame peer_io n 2 y (mk_peer l ps rs false)
    = Done (v, set_frame f y, waiting ps (rs ++ [NAK])).
Proof.
  intros Hf Hh Hl Hv. destruct (peer_recv_data 1 132 (get_recv_timeout peer_io) y l ps rs) as (f & Ef & E); [lia..|].
  change (Z.to_nat 132) with 132%nat in *. pose proof (arr_blit_length _ _ _ _ Ef) as Hlf.
  assert (Hz : zlen (take 132 l) = 132) by (rewrite zlen_take; lia).
  assert (Es : exists rest, f = SOH :: take 132 l ++ rest).
  { destruct (frame y) as [|h t] eqn:Ey; [done|]. injection Hh as ->.
    exists (drop 132 t). rewrite arr_blit_Some in Ef by lia. injection Ef as <-. cbn [Z.to_nat Pos.to_nat take app].
    f_equal. f_equal. unfold zlen in Hz. by replace (length (take 132 l)) with 132%nat by lia. }
  destruct Es as [rest ->]. specialize (Hv rest).
  pose proof (verify_total (SOH :: take 132 l ++ rest) SOH_SIZE ltac:(lia) ltac:(by left)) as Hdef.
  destruct (receiver_verify_frame (SOH :: take 132 l ++ rest) SOH_SIZE 2) as [v|] eqn:Ev; [|done].
  set (f := SOH :: take 132 l ++ rest) in *.
  exists f, v. split; [lia|]. split; [done|]. split; [destruct (verify_codes _ _ _ Ev) as [-> | ?]; done|].
  split; [by exists rest|]. unfold receiver_process_first_frame.
  erewrite bind_done by (unfold frame_byte, bind, get, checked; by rewrite Hh).
  change (negb ((SOH =? SOH) || (SOH =? STX))) with false. change (SOH =? SOH) with true. cbv iota.
  change (FRAME_DATA_OFF + SOH_SIZE + 2 - 1) with 132. erewrite bind_done by exact E. rewrite Hz.
  change (132 <? 132) with false. cbv iota. unfold bind at 1 2, get, checked. cbn [frame set_frame]. rewrite Ev.
  destruct (Z.eqb_spec v YM_OK) as [->|]; done.
Qed.

Lemma recv_first_waiting n y p ps rs :
  arr_get (frame y) 0 = Some SOH ->
  receiver_process_first_frame peer_io n 2 y (waiting (p :: ps) rs)
  = receiver_process_first_frame peer_io n 2 y (mk_peer p ps rs false).
Proof.
  intros Hh. unfold receiver_process_first_frame.
  erewrite !(bind_done (frame_byte 0)) by (unfold frame_byte, bind, get, checked; by rewrite Hh).
  change (negb ((SOH =? SOH) || (SOH =? STX))) with false. cbv iota.
  unfold bind at 1 7. by rewrite recv_waiting by done.
Qed.

Section damaged_first.
Context (name : list Z) (fs size : Z) (Hn : zlen name <= 99) (Hfs : 0 < fs <= size) (Hi : fs + 1024 < 2147483648).

(** The retransmission is read one byte too late: its head byte is taken for
    its number. *)
Lemma retransmission_refused n y ps rs :
  zlen (frame y) = 1032 -> arr_get (frame y) 0 = Some SOH ->
  exists f rs', zlen f = 1032 /\ arr_get f 0 = Some SOH /\
    receiver_process_first_frame peer_io n 2 y (waiting (info_frame name fs :: ps) rs)
    = Done (ERR_SEQ, set_frame f y, waiting ps rs').
Proof.
  intros Hf Hh. rewrite recv_first_waiting by done. set (l := info_frame name fs).
  assert (Hl : zlen l = 133).
  { unfold l, info_frame, data_frame, frame_bytes. by rewrite !zlen_app, (info_data_len name fs Hn size Hfs Hi). }
  assert (Hv : forall rest, receiver_verify_frame (SOH :: take 132 l ++ rest) SOH_SIZE 2 = Some ERR_SEQ).
  { intros rest. unfold l, info_frame, data_frame, head_of. by rewrite (info_data_len name fs Hn size Hfs Hi). }
  destruct (first_frame_refused n y l ps rs Hf Hh) as (f & v & H1 & H2 & _ & [rest Hr] & E); [lia| |].
  { intros rest. by rewrite Hv. }
  rewrite Hv in Hr. injection Hr as <-. eexists f, _. split; [done|]. split; [done|exact E].
Qed.

Lemma retransmissions_refused k : forall n y ps rs,
  zlen (frame y) = 1032 -> arr_get (frame y) 0 = Some SOH ->
  exists y' w', first_frame_loop peer_io (S k + n) 2 (Z.of_nat (S k)) y
                  (waiting (replicate (S k) (info_frame name fs) ++ ps) rs)
                = Done (inl ERR_SEQ, y', w').
Proof.
  induction k as [|k IH]; intros n y ps rs Hf Hh; cbn [Nat.add first_frame_loop replicate app].
  - destruct (retransmission_refused n y ps rs Hf Hh) as (f & rs' & H1 & H2 & E).
    erewrite bind_done by exact E. eexists _, _. reflexivity.
  - destruct (retransmission_refused (S (k + n)) y (replicate (S k) (info_frame name fs) ++ ps) rs Hf Hh)
      as (f & rs' & H1 & H2 & E).
    erewrite bind_done by exact E. change (ERR_SEQ =? ERR_HEAD) with false.
    change (negb (ERR_SEQ =? YM_OK)) with true. cbv iota.
    rewrite (proj2 (Z.leb_gt _ 0)) by lia. replace (Z.of_nat (S (S k)) - 1) with (Z.of_nat (S k)) by lia.
    by apply IH.
Qed.
End damaged_first.

(** One damaged information frame loses the transfer.  If the first packet
    has the length of the information frame and fails the frame check, and the
    peer answers every following [NAK] with the intact information frame, the
    receiver never accepts it: it keeps the head byte of the damaged frame in
    its buffer, reads each retransmission one byte too late, and gives up with
    [ERR_SEQ] after the nine retries. *)
Theorem damaged_first_frame_fatal name fs bad buf ps n y :
  handle_ok y -> zlen name <= 99 -> 0 < fs <= zlen buf -> fs + 1024 < 2147483648 ->
  zlen bad = 132 ->
  (forall rest, receiver_verify_frame (SOH :: bad ++ rest) SOH_SIZE 2 <> Some YM_OK) ->
  exists y' w',
    my_ymodem_recv_mem peer_io (10 + n) buf (zlen buf) y
      (mk_peer [] ((SOH :: bad) :: replicate 9 (info_frame name fs) ++ ps) [] false)
    = Done ((ERR_SEQ, None), y', w').
Proof.
  intros [Hf Hnm H0 Hd] Hn Hfs Hi Hl Hbad. pose proof (proj1 Hf : zlen (frame y) = 1032) as Hf'.
  destruct (arr_set (save_dir y) 0 0) as [sd|] eqn:Esd; [|rewrite arr_set_Some in Esd by lia; done].
  set (y0 := mk_ym STATE_CONNECTING 2 false (file_name y) sd (file_size y) 1 buf (zlen buf) 0
               (expected_seq y) (frame y)).
  assert (Hy0 : at_start (zlen buf) y0) by by constructor.
  set (qs := replicate 9 (info_frame name fs) ++ ps).
  destruct (peer_recv_data 0 1 (get_recv_timeout peer_io) y0 (SOH :: bad) qs [CRC16_C]) as (f1 & Ef1 & E1);
    [done|lia..|]. pose proof (arr_blit_length _ _ _ _ Ef1) as Hl1. cbn [frame y0] in Hl1.
  change (take (Z.to_nat 1) _) with [SOH] in *. change (drop (Z.to_nat 1) _) with bad in E1.
  assert (Eh : arr_get f1 0 = Some SOH).
  { rewrite arr_blit_Some in Ef1; [by injection Ef1 as <-|done|]. change (zlen [SOH]) with 1. cbn [frame y0]. lia. }
  destruct (first_frame_refused (9 + n) (set_frame f1 y0) bad qs [CRC16_C])
    as (f2 & v & H1 & H2 & Hv & _ & E2); [cbn [frame set_frame]; lia|done|lia|by rewrite (take_ge bad) by (unfold zlen in *; lia)|].
  destruct (retransmissions_refused name fs (zlen buf) Hn Hfs Hi 8 n (set_frame f2 (set_frame f1 y0)) ps ([CRC16_C] ++ [NAK]))
    as (y' & w' & E3); [done..|]. fold qs in E3.
  exists y', w'. unfold my_ymodem_recv_mem. rewrite (proj2 (Z.leb_gt _ 0)) by lia.
  unfold bind at 1 2 3, get, checked, modify. rewrite Esd. fold y0.
  rewrite (bind_done _ _ _ _ ERR_SEQ y' w'); [reflexivity|].
  unfold receiver_run. change (Z.to_nat (get_handshake_retry peer_io)) with 10%nat.
  rewrite (handshake_round (zlen buf)) by done.
  erewrite bind_done by (rewrite recv_waiting by lia; exact E1). change (zlen [SOH] <=? 0) with false. cbv iota.
  rewrite (bind_done _ _ _ _ (inl ERR_SEQ) y' w'); [reflexivity|].
  cbn [Nat.add first_frame_loop]. erewrite bind_done by exact E2.
  destruct Hv as [-> | ->]; exact E3.
Qed.

(** A frame whose complemented number is wrong. *)
Lemma damaged_first_frame_fatal_witness :
  exists y' w',
    my_ymodem_recv_mem peer_io (10 + 5) (replicate 16 0) (zlen (replicate 16 0)) my_ymodem_init
      (mk_peer [] ((SOH :: [0; 7] ++ replicate 130 0) :: replicate 9 (info_frame [97] 5) ++ [])
         [] false)
    = Done ((ERR_SEQ, None), y', w').
Proof.
  apply (damaged_first_frame_fatal [97] 5 ([0; 7] ++ replicate 130 0) (replicate 16 0) [] 5).
  - apply init_handle_ok.
  - done.
  - done.
  - done.
  - done.
  - intros rest. discriminate.
Defined.
