(* ===== verification/DfuJimi.v ===== *)
(** * Firmware update over BLE ([src/my_dfu_jimi.c])

    The phone announces the file size, the device asks for one packet after
    the other, checks its CRC16 and address and hands it to the image writer.
    A timer repeats a request that is not answered.  The handlers run on the
    BLE thread, the timer callback in interrupt context, the two work items on
    the OTA work queue. *)

From S2P Require Import Prelude Crc OtaFlash.

Definition JIMI_DFU_START : Z := 0x01.
Definition JIMI_DFU_FILE_SIZE : Z := 0x02.
Definition JIMI_DFU_FILE_IMAGE : Z := 0x03.
Definition JIMI_DFU_FILE_END : Z := 0x04.
Definition JIMI_DFU_END_RESP_OK : Z := 0x00.
Definition JIMI_DFU_END_RESP_ERROR : Z := 0x01.
Definition JIMI_DFU_END_RESP_SIZE : Z := 0x03.
Definition JIMI_DFU_END_RESP_TIME_OUT : Z := 0x04.
Definition CRC16_POLYNOMIAL : Z := 0xA001.

(** What the handlers send: a response of the protocol, the text to the phone
    when the battery is low, a message to the main thread. *)
Inductive main_msg := MY_MSG_DFU_START | MY_MSG_DFU_FAIL | MY_MSG_DFU_COMPLETE | MY_MSG_DFU_TIMEOUT.
Inductive output :=
| Response (cmd : Z) (payload : list Z)
| BatteryLow
| Notify (m : main_msg).

(** The static variables, the timer (with its period in ms), the submitted work
    items, the image writer, the upgrade request and the scheduled reset. *)
Record jimi_state (D : Type) := mk_jimi {
  j_ota : ota_state;
  j_flash : D;
  fw_copy_size : Z;
  s_req_file_addr : Z;
  s_repeat_req_count : Z;
  s_dfu_end_flag : bool;
  trans_timer : option Z;
  retry_work : bool;
  timeout_work : bool;
  upgrade : bool;
  reset_ms : option Z
}.
Arguments mk_jimi {D} _ _ _ _ _ _ _ _ _ _ _.
Arguments j_ota {D} _.
Arguments j_flash {D} _.
Arguments fw_copy_size {D} _.
Arguments s_req_file_addr {D} _.
Arguments s_repeat_req_count {D} _.
Arguments s_dfu_end_flag {D} _.
Arguments trans_timer {D} _.
Arguments retry_work {D} _.
Arguments timeout_work {D} _.
Arguments upgrade {D} _.
Arguments reset_ms {D} _.

(** ** Packet sizes *)

Definition jimi_dfu_calc_pkt_size (mtu remain_size buf_remain : Z) : Z :=
  let max_data := if 23 <? mtu then u16 (mtu - 3 - 20) else 128 in
  let pkt_size :=
    if 384 <=? mtu
    then
      let pkt_size := u16 (max_data / 128 * 128) in
      if 384 <=? pkt_size then 384
      else if 256 <=? pkt_size then 256
      else if pkt_size <? 128 then 128
      else pkt_size
    else 128 in
  let pkt_size :=
    if buf_remain <? pkt_size
    then let pkt_size := u16 (buf_remain / 128 * 128) in if pkt_size <? 128 then 128 else pkt_size
    else pkt_size in
  let pkt_size := if remain_size <? pkt_size then u16 remain_size else pkt_size in
  if negb (pkt_size mod 16 =? 0) then u16 ((pkt_size + 15) / 16 * 16) else pkt_size.

(** Four bytes, least significant first. *)
Definition bytes32 (z : Z) : list Z :=
  [Z.land z 0xFF; Z.land (Z.shiftr z 8) 0xFF; Z.land (Z.shiftr z 16) 0xFF; Z.land (Z.shiftr z 24) 0xFF].

Definition get32 (data : list Z) (i : Z) : option Z :=
  a ← arr_get data i;
  b ← arr_get data (i + 1);
  c ← arr_get data (i + 2);
  d ← arr_get data (i + 3);
  Some (u32 (Z.lor (Z.lor (Z.lor a (Z.shiftl b 8)) (Z.shiftl c 16)) (Z.shiftl d 24))).

Definition jimi_dfu_image_down_req (addr length : Z) : output :=
  Response JIMI_DFU_FILE_IMAGE (bytes32 addr ++ bytes32 length ++ [0; 0]).

Definition end_response (code : Z) : output := Response JIMI_DFU_FILE_END (code :: replicate 9 0).

Section jimi.
Context {D : Type} `{!ImageFlash D}.
Notation S := (jimi_state D).

Definition set_ota (o : ota_state) (d : D) (s : S) : S :=
  mk_jimi o d (fw_copy_size s) (s_req_file_addr s) (s_repeat_req_count s) (s_dfu_end_flag s)
    (trans_timer s) (retry_work s) (timeout_work s) (upgrade s) (reset_ms s).
Definition set_copy_size (n : Z) (s : S) : S :=
  mk_jimi (j_ota s) (j_flash s) n (s_req_file_addr s) (s_repeat_req_count s) (s_dfu_end_flag s)
    (trans_timer s) (retry_work s) (timeout_work s) (upgrade s) (reset_ms s).
(** The next request: its address, the count of repetitions and the timer. *)
Definition set_request (addr count : Z) (t : option Z) (s : S) : S :=
  mk_jimi (j_ota s) (j_flash s) (fw_copy_size s) addr count (s_dfu_end_flag s)
    t (retry_work s) (timeout_work s) (upgrade s) (reset_ms s).
Definition set_timer (t : option Z) (s : S) : S :=
  set_request (s_req_file_addr s) (s_repeat_req_count s) t s.
Definition set_work (count : Z) (retry timeout : bool) (s : S) : S :=
  mk_jimi (j_ota s) (j_flash s) (fw_copy_size s) (s_req_file_addr s) count (s_dfu_end_flag s)
    (trans_timer s) retry timeout (upgrade s) (reset_ms s).
Definition set_end (e u : bool) (r : option Z) (s : S) : S :=
  mk_jimi (j_ota s) (j_flash s) (fw_copy_size s) (s_req_file_addr s) (s_repeat_req_count s) e
    (trans_timer s) (retry_work s) (timeout_work s) u r.

Definition close (s : S) (ok : bool) : option S :=
  '(o, d, _) ← my_ota_flash_close (j_ota s) (j_flash s) ok;
  Some (set_ota o d s).

(** ** Work items and timer *)

Definition dfu_timeout_work_handler (s : S) : option (S * list output) :=
  s ← close s false;
  Some (set_work (s_repeat_req_count s) (retry_work s) false s,
        [end_response JIMI_DFU_END_RESP_TIME_OUT; Notify MY_MSG_DFU_TIMEOUT]).

Definition dfu_retry_work_handler (mtu : Z) (s : S) : S * list output :=
  let remain := u32 (fw_copy_size s - s_req_file_addr s) in
  let retry_pkt_size :=
    jimi_dfu_calc_pkt_size mtu remain (my_ota_flash_cache_remain (j_ota s)) in
  (set_timer (Some 1000) (set_work (s_repeat_req_count s) false (timeout_work s) s),
   [jimi_dfu_image_down_req (s_req_file_addr s) retry_pkt_size]).

(** The timer is a one-shot. *)
Definition dfu_timer_wait_callback (s : S) : S :=
  let s := set_timer None s in
  let count := u8 (s_repeat_req_count s + 1) in
  if count <=? 10 then set_work count true (timeout_work s) s
  else set_work 0 (retry_work s) true s.

(** ** Commands *)

Definition jimi_dfu_start (percent : Z) (s : S) : S * list output :=
  if percent <? 10 then (s, [BatteryLow])
  else
    let '(o, ok) := my_ota_flash_occupy (j_ota s) in
    if negb ok then (s, [])
    else (set_end false (upgrade s) (reset_ms s) (set_ota o (j_flash s) s),
          [Response JIMI_DFU_START (replicate 10 0); Notify MY_MSG_DFU_START]).

(** [area] is the size of the partition [image_1]. *)
Definition jimi_dfu_rx_file_size (mtu area : Z) (s : S) (data : list Z) : option (S * list output) :=
  file_size ← get32 data 0;
  let s := set_copy_size file_size s in
  if area <? file_size
  then s ← close s false; Some (s, [end_response JIMI_DFU_END_RESP_SIZE])
  else
    '(o, d, ret) ← my_ota_flash_open area (j_ota s) (j_flash s) file_size;
    let s := set_ota o d s in
    if negb (ret =? 0)
    then s ← close s false; Some (s, [end_response JIMI_DFU_END_RESP_ERROR])
    else
      let first_pkt_size :=
        jimi_dfu_calc_pkt_size mtu file_size (my_ota_flash_cache_remain (j_ota s)) in
      Some (set_request 0 0 (Some 3000) s, [jimi_dfu_image_down_req 0 first_pkt_size]).

(** [data] is the decrypted content with the rest of its buffer behind it. *)
Definition jimi_dfu_write_image (mtu : Z) (s : S) (data : list Z) (len : Z)
  : option (S * list output) :=
  wrt_addr ← get32 data 0;
  wrt_len ← get32 data 4;
  hi ← arr_get data (u32 (8 + wrt_len));
  lo ← arr_get data (u32 (9 + wrt_len));
  let rx_crc := u16 (Z.lor (Z.shiftl hi 8) lo) in
  calc_crc ← my_crc16_calc (drop 8 data) wrt_len CRC16_POLYNOMIAL;
  if negb (len =? u32 (wrt_len + 10)) then Some (s, [])
  else if negb (calc_crc =? rx_crc) then Some (s, [])
  else if negb (wrt_addr =? s_req_file_addr s) then Some (s, [])
  else
    let s := set_timer None s in
    '(o, d, ret, is_last) ←
      my_ota_flash_write_block (j_ota s) (j_flash s) (Some (drop 8 data)) wrt_len;
    let s := set_ota o d s in
    if negb (ret =? 0)
    then
      s ← close s false;
      Some (s, [end_response JIMI_DFU_END_RESP_ERROR; Notify MY_MSG_DFU_FAIL])
    else if is_last : bool
    then
      s ← close s true;
      Some (set_end true true (Some 6500) s,
            [end_response JIMI_DFU_END_RESP_OK; Notify MY_MSG_DFU_COMPLETE])
    else
      let addr := u32 (wrt_addr + wrt_len) in
      let remain := u32 (fw_copy_size s - addr) in
      let next_pkt_size :=
        jimi_dfu_calc_pkt_size mtu remain (my_ota_flash_cache_remain (j_ota s)) in
      Some (set_request addr 0 (Some 3000) s, [jimi_dfu_image_down_req addr next_pkt_size]).

Definition jimi_dfu_end_image (s : S) : option (S * list output) :=
  s ← close (set_timer None s) false;
  Some (set_end (s_dfu_end_flag s) (upgrade s) (Some 1000) s, []).

(** The handler table. *)
Definition jimi_dfu_cmd_handler (mtu area percent : Z) (s : S) (cmd : Z) (data : list Z) (len : Z)
  : option (S * list output) :=
  if cmd =? JIMI_DFU_START then Some (jimi_dfu_start percent s)
  else if cmd =? JIMI_DFU_FILE_SIZE then jimi_dfu_rx_file_size mtu area s data
  else if cmd =? JIMI_DFU_FILE_IMAGE then jimi_dfu_write_image mtu s data len
  else if cmd =? JIMI_DFU_FILE_END then jimi_dfu_end_image s
  else Some (s, []).
End jimi.
