(* ===== verification/DfuJimiProofs.v ===== *)
(** * The BLE update: packet sizes, the image, the phone's part *)

From S2P Require Import Prelude Crc OtaFlash OtaFlashProofs DfuJimi.

(** ** Packet sizes *)

(** The three sizes a request starts from. *)
Definition base_size (mtu : Z) : Z :=
  if mtu <? 384 then 128 else if mtu <? 407 then 256 else 384.

Lemma calc_pkt_size_cases mtu remain buf :
  0 <= mtu < 65536 -> 0 <= remain -> 0 <= buf <= 1024 ->
  jimi_dfu_calc_pkt_size mtu remain buf =
  let p := base_size mtu in
  let p := if buf <? p then (if buf / 128 * 128 <? 128 then 128 else buf / 128 * 128) else p in
  let p := if remain <? p then remain else p in
  if negb (p mod 16 =? 0) then (p + 15) / 16 * 16 else p.
Proof.
  intros Hm Hr Hb. unfold jimi_dfu_calc_pkt_size.
  set (p0 := if 384 <=? mtu then _ else 128).
  assert (Hp0 : p0 = base_size mtu).
  { unfold p0, base_size. destruct (Z.leb_spec 384 mtu) as [H|H].
    - rewrite (proj2 (Z.ltb_ge mtu 384)), (proj2 (Z.ltb_lt 23 mtu)) by lia. rewrite (u16_small (mtu - 3 - 20)) by lia.
      assert (Hq : (mtu - 3 - 20) / 128 * 128 < 65536) by (Z.div_mod_to_equations; lia).
      assert (Hq0 : 0 <= (mtu - 3 - 20) / 128 * 128) by (Z.div_mod_to_equations; lia).
      rewrite u16_small by lia. destruct (Z.ltb_spec mtu 407).
      + rewrite (proj2 (Z.leb_gt 384 _)) by (Z.div_mod_to_equations; lia).
        rewrite (proj2 (Z.leb_le 256 _)) by (Z.div_mod_to_equations; lia). done.
      + rewrite (proj2 (Z.leb_le 384 _)) by (Z.div_mod_to_equations; lia). done.
    - by rewrite (proj2 (Z.ltb_lt mtu 384)) by lia. }
  rewrite Hp0. assert (Hbase : 128 <= base_size mtu <= 384) by (unfold base_size; repeat case_match; lia).
  clear Hp0. rewrite (u16_small (buf / 128 * 128)) by (Z.div_mod_to_equations; lia).
  set (p1 := if buf <? base_size mtu then _ else _).
  assert (Hp1 : 128 <= p1 <= 1024).
  { unfold p1. destruct (Z.ltb_spec buf (base_size mtu)); [|lia].
    destruct (Z.ltb_spec (buf / 128 * 128) 128); [lia|]. Z.div_mod_to_equations. lia. }
  cbv zeta. assert (Hp2 : (if remain <? p1 then u16 remain else p1) = (if remain <? p1 then remain else p1)).
  { destruct (Z.ltb_spec remain p1); [|done]. apply u16_small. lia. }
  rewrite Hp2. set (p2 := if remain <? p1 then remain else p1).
  assert (0 <= p2 <= 1024) by (unfold p2; destruct (Z.ltb_spec remain p1); lia).
  rewrite u16_small by (Z.div_mod_to_equations; lia). done.
Qed.

Lemma pkt_size_fits mtu remain buf :
  0 <= mtu < 65536 -> 0 < remain -> 0 < buf <= 1024 -> buf mod 128 = 0 ->
  let p := jimi_dfu_calc_pkt_size mtu remain buf in
  0 < p <= Z.min 384 buf /\ p mod 16 = 0 /\ p < remain + 16 /\ (p mod 128 = 0 \/ remain <= p).
Proof.
  intros Hm Hr Hb H128. cbv zeta. rewrite calc_pkt_size_cases by lia. cbv zeta.
  assert (Hq : buf / 128 * 128 = buf) by (Z.div_mod_to_equations; lia). rewrite Hq.
  assert (Hb1 : 128 <= buf) by (Z.div_mod_to_equations; lia). rewrite (proj2 (Z.ltb_ge buf 128)) by lia.
  assert (Hbase : base_size mtu = 128 \/ base_size mtu = 256 \/ base_size mtu = 384)
    by (unfold base_size; repeat case_match; lia).
  set (p1 := if buf <? base_size mtu then buf else base_size mtu).
  assert (Hp1 : 128 <= p1 <= 384 /\ p1 <= buf /\ p1 mod 128 = 0).
  { unfold p1. destruct (Z.ltb_spec buf (base_size mtu)); [lia|].
    split; [lia|]. split; [lia|]. by destruct Hbase as [-> | [-> | ->]]. }
  destruct Hp1 as (H1 & H2 & H3). clearbody p1. cbv zeta.
  assert (H16 : p1 mod 16 = 0) by (clear Hq H128; Z.div_mod_to_equations; lia). clear Hq H128 Hbase Hm.
  destruct (Z.ltb_spec remain p1).
  - destruct (Z.eqb_spec (remain mod 16) 0); cbn [negb]; [lia|].
    assert (He : remain <= (remain + 15) / 16 * 16 <= p1 /\ (remain + 15) / 16 * 16 < remain + 16)
      by (Z.div_mod_to_equations; lia).
    rewrite Z.mod_mul by lia. lia.
  - rewrite H16. change (negb (0 =? 0)) with false. cbv iota. lia.
Qed.

(** The packet size the device asks for suits every party: with a cache
    that is filled in steps of 128 bytes it fits what is left of the 1 KiB
    cache, it is a multiple of the AES block, it is at most 384 bytes, it asks
    for less than 16 bytes beyond the end of the file, and unless it completes
    the file it leaves the cache on a step of 128 bytes. *)
Theorem calc_pkt_size_fits mtu remain buf :
  0 <= mtu < 65536 -> 0 < remain -> 0 < buf <= 1024 -> buf mod 128 = 0 ->
  let p := jimi_dfu_calc_pkt_size mtu remain buf in
  0 < p <= Z.min 384 buf /\ p mod 16 = 0 /\ p < remain + 16 /\ (p mod 128 = 0 \/ remain <= p).
Proof. apply pkt_size_fits. Qed.

Lemma calc_pkt_size_fits_witness :
  let p := jimi_dfu_calc_pkt_size 498 700 640 in
  0 < p <= Z.min 384 640 /\ p mod 16 = 0 /\ p < 700 + 16 /\ (p mod 128 = 0 \/ 700 <= p).
Proof. apply (calc_pkt_size_fits 498 700 640); (lia || reflexivity). Defined.

(** ** Events *)

Inductive event :=
| Command (cmd : Z) (data : list Z) (len : Z)
| TimerFires
| RetryRuns
| TimeoutRuns.

(** The content of an image packet, when its length, CRC and address are right. *)
Definition accepted (req : Z) (data : list Z) (len : Z) : option (list Z) :=
  wrt_addr ← get32 data 0;
  wrt_len ← get32 data 4;
  hi ← arr_get data (8 + wrt_len);
  lo ← arr_get data (9 + wrt_len);
  chunk ← arr_slice data 8 wrt_len;
  if (len =? wrt_len + 10) && (foldl (crc16_byte 0xA001) 0 chunk =? u16 (Z.lor (Z.shiftl hi 8) lo))
     && (wrt_addr =? req)
  then Some chunk else None.

(** A content that lies in its buffer, whatever it says. *)
Definition content_ok (data : list Z) (len : Z) : Prop :=
  8 <= zlen data /\ 0 <= len < 65536 /\ bytes_ok data /\
  forall n, get32 data 4 = Some n -> n + 9 < zlen data /\ n < 65526.

Definition event_ok (ev : event) : Prop :=
  match ev with
  | Command cmd data len => cmd <> JIMI_DFU_START /\ content_ok data len
  | _ => True
  end.

Section image.
Context {D : Type} `{!ImageFlash D} `{!ImageFlashLaws D} (mtu area percent : Z).
Context (Harea : area < 4294960000).
Implicit Types (s : jimi_state D).

Definition handle (ev : event) s : option (jimi_state D * list output) :=
  match ev with
  | Command cmd data len => jimi_dfu_cmd_handler mtu area percent s cmd data len
  | TimerFires => Some (if trans_timer s then dfu_timer_wait_callback s else s, [])
  | RetryRuns => Some (if retry_work s then dfu_retry_work_handler mtu s else (s, []))
  | TimeoutRuns => if timeout_work s then dfu_timeout_work_handler s else Some (s, [])
  end.

(** The bytes accepted since the last announced file size. *)
Definition log_step (ev : event) s (log : list Z) : list Z :=
  match ev with
  | Command cmd data len =>
      if cmd =? JIMI_DFU_FILE_SIZE then []
      else if cmd =? JIMI_DFU_FILE_IMAGE
      then log ++ default [] (accepted (s_req_file_addr s) data len)
      else log
  | _ => log
  end.

(** Events up to the upgrade request. *)
Fixpoint run (evs : list event) s (log : list Z) : option (jimi_state D * list Z) :=
  match evs with
  | [] => Some (s, log)
  | ev :: evs =>
      if upgrade s then Some (s, log)
      else '(s', _) ← handle ev s; run evs s' (log_step ev s log)
  end.

(** No session; a session that has accepted [log]; the image is complete. *)
Definition closed s : Prop := s_ota_busy (j_ota s) = false /\ upgrade s = false.
Definition collecting s (log : list Z) : Prop :=
  ota_inv (j_ota s) (img_view (j_flash s)) log /\ s_req_file_addr s = zlen log /\ upgrade s = false.
Definition installed s (log : list Z) : Prop :=
  upgrade s = true /\ s_ota_busy (j_ota s) = false /\ s_ota_file_size (j_ota s) <= zlen log /\
  arr_slice (img_view (j_flash s)) 0 (zlen log) = Some log.

Record jimi_inv s (log : list Z) : Prop := {
  ji_ota : ota_ok (j_ota s);
  ji_phase : closed s \/ collecting s log \/ installed s log
}.

Lemma close_spec s ok :
  ota_ok (j_ota s) -> exists o d, close s ok = Some (set_ota o d s) /\ ota_ok o /\ s_ota_busy o = false.
Proof.
  intros Ho. unfold close. destruct (close_total (j_ota s) (j_flash s) ok Ho) as (o & d & r & -> & H1 & H2).
  by exists o, d.
Qed.

Lemma get32_range data i n : get32 data i = Some n -> 0 <= n < 4294967296.
Proof.
  unfold get32. destruct (arr_get data i); [|done]. destruct (arr_get data (i + 1)); [|done].
  destruct (arr_get data (i + 2)); [|done]. destruct (arr_get data (i + 3)); [|done].
  intros [= <-]. apply u32_range.
Qed.

Lemma get32_defined data i : 0 <= i -> i + 4 <= zlen data -> exists n, get32 data i = Some n.
Proof.
  intros Hi Hl. unfold get32.
  destruct (arr_get_Some data i) as [? ->]; [lia|]. destruct (arr_get_Some data (i + 1)) as [? ->]; [lia|].
  destruct (arr_get_Some data (i + 2)) as [? ->]; [lia|]. destruct (arr_get_Some data (i + 3)) as [? ->]; [lia|].
  cbn [mbind option_bind]. eauto.
Qed.

(** The file size opens a session or ends one. *)
Lemma size_step s log data :
  jimi_inv s log -> upgrade s = false -> 8 <= zlen data ->
  exists s' outs, jimi_dfu_rx_file_size mtu area s data = Some (s', outs) /\ jimi_inv s' [].
Proof.
  intros [Ho _] Hu Hd. unfold jimi_dfu_rx_file_size.
  destruct (get32_defined data 0) as [fs Efs]; [lia..|]. pose proof (get32_range _ _ _ Efs). rewrite Efs.
  cbn [mbind option_bind]. set (s1 := set_copy_size fs s).
  destruct (Z.ltb_spec area fs).
  - destruct (close_spec s1 false Ho) as (o & d & -> & H1 & H2). cbn [mbind option_bind].
    eexists _, _. split; [reflexivity|]. split; [done|]. by left.
  - destruct (open_total area (j_ota s1) (j_flash s1) fs Ho) as (o & d & r & E & H1 & H2). rewrite E.
    cbn [mbind option_bind]. destruct (Z.eqb_spec r 0) as [->|Hr]; cbn [negb].
    + eexists _, _. split; [reflexivity|]. split; [done|]. right. left.
      destruct (open_spec area (j_ota s1) (j_flash s1) fs o d (oo_buf _ Ho)) as (Hi & _ & _); [lia|done|done|].
      by split.
    + destruct (close_spec (set_ota o d s1) false H1) as (o' & d' & -> & H3 & H4). cbn [mbind option_bind].
      eexists _, _. split; [reflexivity|]. split; [done|]. by left.
Qed.

(** An image packet whose checks pass. *)
Lemma write_step s log n content :
  jimi_inv s log -> upgrade s = false -> 0 <= n < 65526 -> n <= zlen content ->
  exists o d r last,
    my_ota_flash_write_block (j_ota s) (j_flash s) (Some content) n = Some (o, d, r, last) /\ ota_ok o /\
    (r = 0 ->
     let log' := log ++ take (Z.to_nat n) content in
     collecting s log /\
     if last : bool
     then arr_slice (img_view d) 0 (zlen log') = Some log' /\ s_ota_busy o = true /\
          s_ota_buf_offset o = 0 /\ s_ota_file_size o <= zlen log'
     else ota_inv o (img_view d) log').
Proof.
  intros [Ho Hph] Hu Hn Hc. pose proof Ho as [Hb Hoff].
  destruct Hph as [[Hbusy _] | [(Hi & Hreq & _) | (Hx & _)]]; [| |congruence].
  - unfold my_ota_flash_write_block. rewrite Hbusy. cbn [negb].
    eexists _, _, _, _. split; [reflexivity|]. split; [done|]. intros Hr. discriminate Hr.
  - destruct (Z.eqb_spec n 0) as [->|Hn0].
    { unfold my_ota_flash_write_block. rewrite (oi_busy _ _ _ Hi). cbn [negb Z.eqb].
      eexists _, _, _, _. split; [reflexivity|]. split; [done|]. intros _.
      change (take (Z.to_nat 0) content) with (@nil Z). rewrite app_nil_r.
      rewrite (oi_total _ _ _ Hi), (proj2 (Z.leb_gt _ _)) by apply (oi_size _ _ _ Hi).
      split; [done|]. exact Hi. }
    destruct (Z.leb_spec n (1024 - s_ota_buf_offset (j_ota s))) as [Hfit|Hbig].
    + destruct (write_block_spec (j_ota s) (j_flash s) log content n Hi ltac:(lia) Hc) as (o & d & r & E & Hok).
      destruct (write_block_total (j_ota s) (j_flash s) content n Ho ltac:(lia) Hc)
        as (o' & d' & r' & last' & E' & Ho' & _).
      rewrite E in E'. injection E' as <- <- <- _. eexists _, _, _, _. split; [exact E|]. split; [done|].
      intros Hr. specialize (Hok Hr). cbv zeta. split; [done|].
      destruct (s_ota_file_size (j_ota s) <=? _) eqn:El; [|by apply Hok].
      destruct Hok as (H1 & H2 & H3 & ->). apply Z.leb_le in El. done.
    + unfold my_ota_flash_write_block. rewrite (oi_busy _ _ _ Hi). cbn [negb].
      rewrite (proj2 (Z.eqb_neq n 0)) by done. rewrite u32_small by lia.
      rewrite (proj2 (Z.ltb_lt _ _)) by (unfold MY_OTA_BUFFER_SIZE; lia).
      eexists _, _, _, _. split; [reflexivity|]. split; [done|]. intros Hr. discriminate Hr.
Qed.

Lemma slice_drop (data : list Z) k n :
  0 <= n -> Z.of_nat k + n <= zlen data -> arr_slice (drop k data) 0 n = arr_slice data (Z.of_nat k) n.
Proof.
  intros Hn Hl. rewrite !arr_slice_Some by (rewrite ?zlen_drop; lia). by rewrite drop_0, Nat2Z.id.
Qed.

(** The checks of the handler are the definition of an accepted packet. *)
Lemma image_guard s data len :
  content_ok data len ->
  exists addr n, get32 data 0 = Some addr /\ get32 data 4 = Some n /\ 0 <= n < 65526 /\ n + 9 < zlen data /\
    jimi_dfu_write_image mtu s data len =
    match accepted (s_req_file_addr s) data len with
    | None => Some (s, [])
    | Some _ =>
        let s := set_timer None s in
        '(o, d, ret, is_last) ←
          my_ota_flash_write_block (j_ota s) (j_flash s) (Some (drop 8 data)) n;
        let s := set_ota o d s in
        if negb (ret =? 0)
        then
          s ← close s false;
          Some (s, [end_response JIMI_DFU_END_RESP_ERROR; Notify MY_MSG_DFU_FAIL])
        else if is_last : bool
        then
          s ← close s true;
          Some (set_end true true (Some 6500) s,
                [end_response JIMI_DFU_END_RESP_OK; Notify MY_MSG_DFU_COMPLETE])
        else
          let next := u32 (addr + n) in
          let remain := u32 (fw_copy_size s - next) in
          Some (set_request next 0 (Some 3000) s,
                [jimi_dfu_image_down_req next
                   (jimi_dfu_calc_pkt_size mtu remain (my_ota_flash_cache_remain (j_ota s)))])
    end /\
    (forall chunk, accepted (s_req_file_addr s) data len = Some chunk ->
       addr = s_req_file_addr s /\ chunk = take (Z.to_nat n) (drop 8 data)).
Proof.
  intros (Hd & Hlen & Hok & Hn). destruct (get32_defined data 0) as [addr Ea]; [lia..|].
  destruct (get32_defined data 4) as [n En]; [lia..|]. destruct (Hn n En) as [Hn1 Hn2].
  pose proof (get32_range _ _ _ En) as Hr. exists addr, n. split; [done|]. split; [done|]. split; [lia|]. split; [lia|].
  destruct (arr_get_Some data (8 + n)) as [hi Eh]; [lia|]. destruct (arr_get_Some data (9 + n)) as [lo El]; [lia|].
  assert (Es : arr_slice data 8 n = Some (take (Z.to_nat n) (drop 8 data))) by (rewrite arr_slice_Some by lia; done).
  unfold jimi_dfu_write_image, accepted, my_crc16_calc. rewrite Ea, En. cbn [mbind option_bind].
  rewrite !(u32_small (8 + n)), !(u32_small (9 + n)), Eh, El by lia. cbn [mbind option_bind].
  rewrite (u16_small n), (slice_drop data 8 n) by lia. change (Z.of_nat 8) with 8. rewrite Es. cbn [mbind option_bind].
  rewrite (u32_small (n + 10)) by lia. unfold CRC16_POLYNOMIAL.
  destruct (len =? n + 10); cbn [negb andb]; [|done].
  destruct (_ =? u16 _); cbn [negb andb]; [|done].
  destruct (Z.eqb_spec addr (s_req_file_addr s)); cbn [negb]; [|done].
  split; [done|]. by intros ? [= <-].
Qed.

Lemma image_step s log data len :
  jimi_inv s log -> upgrade s = false -> content_ok data len ->
  exists s' outs, jimi_dfu_write_image mtu s data len = Some (s', outs) /\
    jimi_inv s' (log ++ default [] (accepted (s_req_file_addr s) data len)).
Proof.
  intros Hi Hu Hc. destruct (image_guard s data len Hc) as (addr & n & _ & _ & Hn & Hnl & -> & Hacc).
  destruct (accepted _ _ _) as [chunk|] eqn:Eacc.
  2:{ eexists _, _. split; [reflexivity|]. cbn [default]. by rewrite app_nil_r. }
  destruct (Hacc chunk eq_refl) as [-> ->]. cbn [default]. cbv zeta.
  destruct (write_step s log n (drop 8 data) Hi Hu Hn) as (o & d & r & last & E & Ho & Hres).
  { rewrite zlen_drop. lia. }
  cbn [j_ota j_flash set_timer set_request]. rewrite E. cbn [mbind option_bind].
  set (s1 := set_ota o d (set_timer None s)).
  destruct (Z.eqb_spec r 0) as [Hr|Hr]; cbn [negb].
  2:{ destruct (close_spec s1 false Ho) as (o2 & d2 & -> & H1 & H2). cbn [mbind option_bind].
      eexists _, _. split; [reflexivity|]. split; [done|]. by left. }
  destruct (Hres Hr) as [(Hinv & Hreq & _) Hlast]. set (log' := log ++ _) in *. destruct last.
  - destruct Hlast as (Him & Hbusy & Hoff & Hsz). unfold close, my_ota_flash_close, s1.
    cbn [j_ota set_ota]. rewrite Hbusy, Hoff. cbn. eexists _, _. split; [reflexivity|].
    split; [split; cbn; [apply Ho|lia]|]. right. right. by repeat split.
  - eexists _, _. split; [reflexivity|]. split; [done|]. right. left. split; [done|]. split; [|done].
    cbn [s_req_file_addr set_request]. rewrite Hreq.
    pose proof (oi_size _ _ _ Hlast). pose proof (zlen_nonneg log).
    assert (zlen log' = zlen log + n) by (unfold log'; rewrite zlen_app, zlen_take, zlen_drop; lia).
    rewrite u32_small; lia.
Qed.

Lemma handle_inv ev s log :
  jimi_inv s log -> upgrade s = false -> event_ok ev ->
  exists s' outs, handle ev s = Some (s', outs) /\ jimi_inv s' (log_step ev s log).
Proof.
  intros Hi Hu Hev. pose proof Hi as [Ho Hph]. destruct ev as [cmd data len| | |]; cbn [handle log_step].
  - destruct Hev as [Hcmd Hc]. unfold jimi_dfu_cmd_handler. rewrite (proj2 (Z.eqb_neq cmd _) Hcmd).
    destruct (Z.eqb_spec cmd JIMI_DFU_FILE_SIZE) as [->|H2]; [by eapply size_step; [| |apply Hc]|].
    destruct (Z.eqb_spec cmd JIMI_DFU_FILE_IMAGE) as [->|H3]; [by apply image_step|].
    destruct (cmd =? JIMI_DFU_FILE_END); [|by eauto].
    unfold jimi_dfu_end_image. destruct (close_spec (set_timer None s) false Ho) as (o & d & -> & H4 & H5).
    cbn [mbind option_bind]. eexists _, _. split; [reflexivity|]. split; [done|]. by left.
  - eexists _, _. split; [reflexivity|]. destruct (trans_timer s); [|done].
    unfold dfu_timer_wait_callback. by destruct (_ <=? 10).
  - destruct (retry_work s); [|by eauto]. eexists _, _. split; [reflexivity|]. done.
  - destruct (timeout_work s); [|by eauto]. unfold dfu_timeout_work_handler.
    destruct (close_spec s false Ho) as (o & d & -> & H4 & H5). cbn [mbind option_bind].
    eexists _, _. split; [reflexivity|]. split; [done|]. by left.
Qed.

(** C10: the BLE update installs what was accepted.  From the moment a file size
    has been accepted, let any sequence of commands other than a new start,
    timer expiries and work items come in any order, with any content that lies
    in its buffer.  No handler leaves its buffers, and if the upgrade is
    requested then the partition starts with exactly the contents of the
    accepted packets in order, at least as long as the announced file, and the
    session has been released. *)
Theorem jimi_image_exact evs s :
  ota_ok (j_ota s) -> collecting s [] -> Forall event_ok evs ->
  exists s' log, run evs s [] = Some (s', log) /\ ota_ok (j_ota s') /\
    (upgrade s' = true ->
     s_ota_busy (j_ota s') = false /\ s_ota_file_size (j_ota s') <= zlen log /\
     arr_slice (img_view (j_flash s')) 0 (zlen log) = Some log).
Proof.
  intros Ho Hc Hev.
  assert (Hi : jimi_inv s []) by (split; [done|]; by right; left). clear Ho Hc.
  revert s Hi. generalize (@nil Z) as log. induction Hev as [|ev evs Hev _ IH]; intros log s Hi; cbn [run].
  - exists s, log. split; [done|]. split; [apply Hi|]. intros Hu.
    destruct (ji_phase _ _ Hi) as [[_ ?] | [(_ & _ & ?) | (_ & ? & ? & ?)]]; [congruence..|done].
  - destruct (upgrade s) eqn:Hu.
    + exists s, log. split; [done|]. split; [apply Hi|]. intros _.
      destruct (ji_phase _ _ Hi) as [[_ ?] | [(_ & _ & ?) | (_ & ? & ? & ?)]]; [congruence..|done].
    + destruct (handle_inv ev s log Hi Hu Hev) as (s1 & outs & -> & Hi1). cbn [mbind option_bind]. by apply IH.
Qed.
End image.
