(* ===== verification/DfuJimiPhone.v ===== *)
(** * A BLE update with a phone that answers the requests *)

From S2P Require Import Prelude Crc OtaFlash OtaFlashProofs OtaFlashSim DfuJimi DfuJimiProofs.
From coqutil Require Import Z.bitblast.

(** ** Packets *)

Lemma get32_bytes32 z pre post i :
  0 <= z < 4294967296 -> zlen pre = i -> get32 (pre ++ bytes32 z ++ post) i = Some z.
Proof.
  intros Hz <-. unfold get32, bytes32. cbn [app].
  set (a := Z.land z 255). set (b := Z.land (Z.shiftr z 8) 255). set (c := Z.land (Z.shiftr z 16) 255).
  set (d := Z.land (Z.shiftr z 24) 255).
  assert (Hget : forall k j x, j = Z.of_nat k -> ([a; b; c; d] ++ post) !! k = Some x ->
    arr_get (pre ++ a :: b :: c :: d :: post) (zlen pre + j) = Some x).
  { intros k j x -> Hk. unfold arr_get, zlen. rewrite (proj2 (Z.leb_le 0 _)) by lia.
    rewrite lookup_app_r by lia. rewrite <- Hk. f_equal. lia. }
  rewrite (arr_get_app pre _ a (zlen pre)) by done. cbn [mbind option_bind].
  rewrite (Hget 1%nat 1 b eq_refl eq_refl). cbn [mbind option_bind]. rewrite (Hget 2%nat 2 c eq_refl eq_refl). cbn [mbind option_bind].
  rewrite (Hget 3%nat 3 d eq_refl eq_refl). cbn [mbind option_bind]. f_equal.
  assert (E : Z.lor (Z.lor (Z.lor a (Z.shiftl b 8)) (Z.shiftl c 16)) (Z.shiftl d 24) = Z.land z (Z.ones 32)).
  { unfold a, b, c, d. change 255 with (Z.ones 8). Z.bitblast. }
  rewrite E, Z.land_ones by lia. unfold u32. change (2 ^ 32) with 4294967296. rewrite Zmod_mod. apply Z.mod_small. lia.
Qed.

(** The answer of the phone: the requested part of the file, with zeros behind
    its end, and the CRC16, most significant byte first. *)
Definition phone_chunk (file : list Z) (addr size : Z) : list Z :=
  take (Z.to_nat size) (drop (Z.to_nat addr) (file ++ replicate 16 0)).

Definition phone_packet (file : list Z) (addr size : Z) : list Z :=
  let crc := foldl (crc16_byte 0xA001) 0 (phone_chunk file addr size) in
  bytes32 addr ++ bytes32 size ++ phone_chunk file addr size
    ++ [u8 (Z.shiftr crc 8); Z.land crc 255].

Section packet.
Context (file : list Z) (Hfile : bytes_ok file) (addr size : Z).
Context (Ha : 0 <= addr) (Hs : 0 < size <= 1024) (Hend : addr + size <= zlen file + 16) (Hfl : zlen file < 4294960000).

Lemma phone_chunk_len : zlen (phone_chunk file addr size) = size.
Proof. unfold phone_chunk. rewrite zlen_take, zlen_drop, zlen_app, zlen_replicate. lia. Qed.

Lemma phone_chunk_ok : bytes_ok (phone_chunk file addr size).
Proof.
  unfold phone_chunk, bytes_ok. apply Forall_take, Forall_drop, Forall_app. split; [done|].
  by apply Forall_replicate.
Qed.

Lemma bytes32_ok z : bytes_ok (bytes32 z).
Proof. unfold bytes32, bytes_ok. rewrite !land_255. repeat constructor; apply Z.mod_pos_bound; lia. Qed.

Lemma phone_packet_len : zlen (phone_packet file addr size) = size + 10.
Proof.
  unfold phone_packet. rewrite !zlen_app, phone_chunk_len.
  change (zlen (bytes32 addr)) with 4. change (zlen (bytes32 size)) with 4. change (zlen [_; _]) with 2. lia.
Qed.

Lemma phone_get32 : get32 (phone_packet file addr size) 0 = Some addr /\ get32 (phone_packet file addr size) 4 = Some size.
Proof.
  unfold phone_packet. split; [apply (get32_bytes32 addr []); [lia|done]|].
  apply (get32_bytes32 size (bytes32 addr)); [lia|done].
Qed.

Lemma phone_accepted :
  accepted addr (phone_packet file addr size) (size + 10) = Some (phone_chunk file addr size) /\
  content_ok (phone_packet file addr size) (size + 10).
Proof.
  destruct phone_get32 as [E1 E2]. pose proof phone_packet_len as Hl. pose proof phone_chunk_len as Hcl.
  set (crc := foldl (crc16_byte 0xA001) 0 (phone_chunk file addr size)) in *.
  assert (Hcrc : 0 <= crc < 65536)
    by (apply (fold_range 16 0xA001 ltac:(lia) ltac:(done) 0); [lia|done|apply phone_chunk_ok]).
  set (pre := bytes32 addr ++ bytes32 size).
  assert (Ep : phone_packet file addr size = pre ++ phone_chunk file addr size ++ [u8 (Z.shiftr crc 8); Z.land crc 255])
    by (unfold phone_packet, pre; by rewrite <- app_assoc).
  assert (Hpre : zlen pre = 8) by done. clearbody pre. split.
  - set (hi := u8 (Z.shiftr crc 8)) in *. set (lo := Z.land crc 255) in *.
    assert (Eh : arr_get (phone_packet file addr size) (8 + size) = Some hi)
      by (rewrite Ep, (app_assoc pre); apply arr_get_app; rewrite zlen_app; lia).
    assert (El : arr_get (phone_packet file addr size) (9 + size) = Some lo).
    { rewrite Ep. change [hi; lo] with ([hi] ++ [lo]). rewrite !(app_assoc _ _ [lo]), (app_assoc pre).
      apply arr_get_app. rewrite !zlen_app. change (zlen [hi]) with 1. lia. }
    assert (Es : arr_slice (phone_packet file addr size) 8 size = Some (phone_chunk file addr size))
      by (rewrite Ep; apply arr_slice_app; lia).
    unfold accepted. rewrite E1, E2. cbn [mbind option_bind]. rewrite Eh. cbn [mbind option_bind].
    rewrite El. cbn [mbind option_bind]. rewrite Es. cbn [mbind option_bind]. fold crc. unfold hi, lo.
    rewrite split_u16 by done. by rewrite !Z.eqb_refl.
  - unfold content_ok. rewrite Hl, E2. split; [lia|]. split; [lia|]. split; [|intros n [= <-]; lia].
    unfold phone_packet, bytes_ok. rewrite !Forall_app. fold crc.
    split; [apply bytes32_ok|]. split; [apply bytes32_ok|]. split; [apply phone_chunk_ok|].
    rewrite land_255. repeat constructor; [apply u8_range..|apply Z.mod_pos_bound; lia|apply Z.mod_pos_bound; lia].
Qed.
End packet.

(** ** A session with the phone *)

(** The phone answers a request with the part it asks for. *)
Definition phone_answer (file : list Z) (outs : list output) : option (list Z) :=
  match outs with
  | Response cmd payload :: _ =>
      if cmd =? JIMI_DFU_FILE_IMAGE
      then addr ← get32 payload 0; size ← get32 payload 4; Some (phone_packet file addr size)
      else None
  | _ => None
  end.

Section session.
Context {D : Type} {IF : ImageFlash D} {HL : ImageFlashLaws D} {HW : ImageFlashWorks D}.
Context (mtu area percent : Z) (file : list Z).
Implicit Types (s : jimi_state D).

(** The phone answers until the device asks for nothing more. *)
Fixpoint phone_session (fuel : nat) s (outs : list output) : option (jimi_state D * list output) :=
  match phone_answer file outs, fuel with
  | None, _ => Some (s, outs)
  | Some _, O => None
  | Some pkt, S fuel =>
      '(s', outs') ← jimi_dfu_cmd_handler mtu area percent s JIMI_DFU_FILE_IMAGE pkt (zlen pkt);
      phone_session fuel s' outs'
  end.

Context (Hmtu : 0 <= mtu < 65536) (Hfile : bytes_ok file) (Hsize : 0 < zlen file <= area).
Context (Hal : area mod 4096 = 0) (Harea : area < 4294960000).

(** The device has received the first [n] bytes and asks for the next ones. *)
Record asking s (outs : list output) (n : Z) : Prop := {
  as_inv : ota_inv (j_ota s) (img_view (j_flash s)) (phone_chunk file 0 n);
  as_ok : ota_ok (j_ota s);
  as_part : zlen (img_view (j_flash s)) = area;
  as_size : s_ota_file_size (j_ota s) = zlen file;
  as_copy : fw_copy_size s = zlen file;
  as_addr : s_req_file_addr s = n;
  as_n : 0 <= n < zlen file;
  as_step : n mod 128 = 0;
  as_outs : outs = [jimi_dfu_image_down_req n
              (jimi_dfu_calc_pkt_size mtu (zlen file - n) (my_ota_flash_cache_remain (j_ota s)))]
}.

(** The image is complete. *)
Definition finished s (outs : list output) : Prop :=
  outs = [end_response JIMI_DFU_END_RESP_OK; Notify MY_MSG_DFU_COMPLETE] /\
  upgrade s = true /\ reset_ms s = Some 6500 /\ s_ota_busy (j_ota s) = false /\
  arr_slice (img_view (j_flash s)) 0 (zlen file) = Some file.

Lemma prefix_len n : 0 <= n <= zlen file + 16 -> zlen (phone_chunk file 0 n) = n.
Proof. intros Hn. unfold phone_chunk. rewrite zlen_take, drop_0, zlen_app, zlen_replicate. lia. Qed.

Lemma prefix_app n p :
  0 <= n -> 0 <= p -> phone_chunk file 0 n ++ phone_chunk file n p = phone_chunk file 0 (n + p).
Proof.
  intros Hn Hp. unfold phone_chunk. rewrite drop_0, Z2Nat.inj_add by lia.
  set (l := file ++ _). clearbody l. generalize (Z.to_nat n), (Z.to_nat p). clear. intros i j.
  revert l. induction i as [|i IH]; intros [|x l]; simpl; rewrite ?take_nil; try done. by rewrite IH.
Qed.

Lemma prefix_file n mem :
  zlen file <= n <= zlen file + 16 -> arr_slice mem 0 n = Some (phone_chunk file 0 n) ->
  arr_slice mem 0 (zlen file) = Some file.
Proof.
  intros Hn E. pose proof (zlen_nonneg file).
  change (arr_slice mem 0 (zlen file)) with (arr_slice mem (0 + 0) (zlen file)).
  rewrite <- (arr_slice_slice _ _ 0 n 0 (zlen file) E) by lia.
  rewrite arr_slice_Some by (rewrite ?prefix_len; lia). f_equal. unfold phone_chunk.
  rewrite !drop_0, take_take, take_app_le by (unfold zlen in *; lia). apply take_ge. unfold zlen in *. lia.
Qed.

(** The writer takes the packet of [p] bytes. *)
Lemma write_answer s outs n p content :
  asking s outs n -> 0 < p <= 1024 - s_ota_buf_offset (j_ota s) -> p < zlen file - n + 16 ->
  p <= zlen content -> take (Z.to_nat p) content = phone_chunk file n p ->
  exists o d,
    my_ota_flash_write_block (j_ota s) (j_flash s) (Some content) p = Some (o, d, 0, zlen file <=? n + p) /\
    ota_ok o /\ zlen (img_view d) = area /\ s_ota_file_size o = zlen file /\
    if zlen file <=? n + p
    then arr_slice (img_view d) 0 (zlen file) = Some file /\ s_ota_busy o = true /\ s_ota_buf_offset o = 0
    else ota_inv o (img_view d) (phone_chunk file 0 (n + p)).
Proof.
  intros [Hi Hok Hpart Hfs _ _ Hn _ _] Hp Hpe Hc Ht.
  pose proof (oi_off _ _ _ Hi) as Hoff. pose proof (oi_align _ _ _ Hi) as Hba. pose proof (oi_len _ _ _ Hi) as Hlen.
  rewrite prefix_len in Hlen by lia.
  assert (Hcap : s_ota_block_addr (j_ota s) + 1024 <= area) by (Z.div_mod_to_equations; lia).
  destruct (write_block_works (j_ota s) (j_flash s) _ content p Hi Hok Hp Hc) as (o & d & last & E & Hd); [lia|].
  destruct (write_block_spec (j_ota s) (j_flash s) _ content p Hi Hp Hc) as (o1 & d1 & r1 & E1 & Hres).
  destruct (write_block_total (j_ota s) (j_flash s) content p Hok ltac:(lia) Hc) as (o2 & d2 & r2 & l2 & E2 & Ho2 & _).
  rewrite E in E1, E2. injection E1 as <- <- <- ->. injection E2 as <- <- <- <-.
  rewrite Ht, prefix_app, prefix_len, Hfs in * by lia. specialize (Hres eq_refl).
  exists o, d. split; [done|]. split; [done|]. split; [lia|].
  destruct (Z.leb_spec (zlen file) (n + p)); [|by destruct Hres].
  destruct Hres as (H1 & H2 & H3 & H4). split; [lia|]. split; [|done].
  apply (prefix_file (n + p)); [lia|done].
Qed.

Lemma answer_request n p :
  0 <= n -> 0 < p -> n + p < zlen file + 16 ->
  phone_answer file [jimi_dfu_image_down_req n p] = Some (phone_packet file n p).
Proof.
  intros Hn Hp He. unfold phone_answer, jimi_dfu_image_down_req. change (_ =? _) with true. cbv iota.
  assert (E1 : get32 (bytes32 n ++ bytes32 p ++ [0; 0]) 0 = Some n) by (apply (get32_bytes32 n []); [lia|done]).
  assert (E2 : get32 (bytes32 n ++ bytes32 p ++ [0; 0]) 4 = Some p)
    by (apply (get32_bytes32 p (bytes32 n)); [lia|done]).
  rewrite E1. cbn [mbind option_bind]. by rewrite E2.
Qed.

(** One answer: the image is complete or more of the file is asked for. *)
Lemma answer_step s outs n :
  asking s outs n ->
  exists pkt s' outs', phone_answer file outs = Some pkt /\
    jimi_dfu_cmd_handler mtu area percent s JIMI_DFU_FILE_IMAGE pkt (zlen pkt) = Some (s', outs') /\
    (finished s' outs' \/ exists m, n < m /\ asking s' outs' m).
Proof.
  intros Has. pose proof Has as [Hi Hok Hpart Hfs Hcp Had Hn Hst ->].
  pose proof (oi_off _ _ _ Hi) as Hoff. pose proof (oi_align _ _ _ Hi) as Hba. pose proof (oi_len _ _ _ Hi) as Hlen.
  rewrite prefix_len in Hlen by lia.
  assert (Hcr : my_ota_flash_cache_remain (j_ota s) = 1024 - s_ota_buf_offset (j_ota s))
    by (apply u16_small; unfold MY_OTA_BUFFER_SIZE; lia).
  rewrite Hcr in *. set (cr := 1024 - s_ota_buf_offset (j_ota s)) in *.
  assert (Hcr1 : cr mod 128 = 0) by (unfold cr; Z.div_mod_to_equations; lia).
  destruct (pkt_size_fits mtu (zlen file - n) cr Hmtu) as (Hp & _ & Hpe & Hp128); [lia|unfold cr; lia|done|].
  set (p := jimi_dfu_calc_pkt_size _ _ _) in *. clearbody p. clear Hcr1.
  destruct (phone_accepted file Hfile n p) as [Hacc Hcont]; [lia..|].
  rewrite <- (phone_packet_len file n p) in Hacc, Hcont by lia.
  exists (phone_packet file n p). rewrite answer_request by lia.
  unfold jimi_dfu_cmd_handler. change (JIMI_DFU_FILE_IMAGE =? _) with false at 1. change (JIMI_DFU_FILE_IMAGE =? JIMI_DFU_FILE_SIZE) with false.
  rewrite Z.eqb_refl. cbv iota.
  destruct (image_guard mtu s _ _ Hcont) as (a & m & Ea & Em & Hm & Hml & -> & Hch).
  rewrite Had, Hacc in *. destruct (phone_get32 file n p) as [Ea' Em']; [lia..|].
  rewrite Ea in Ea'. rewrite Em in Em'. injection Ea' as ->. injection Em' as ->.
  destruct (Hch _ eq_refl) as [_ Hchunk].
  destruct (write_answer s _ n p (drop 8 (phone_packet file n p)) Has) as (o & d & E & Ho & Hd & Hos & Hres);
    [lia..|rewrite zlen_drop, phone_packet_len; lia|done|].
  cbn [j_ota j_flash set_timer set_request]. rewrite E. cbn [mbind option_bind].
  change (negb (0 =? 0)) with false. cbv iota. destruct (Z.leb_spec (zlen file) (n + p)).
  - destruct Hres as (Him & Hbusy & Hof). unfold close, my_ota_flash_close. cbn [j_ota set_ota].
    rewrite Hbusy, Hof. cbn. eexists _, _. split; [done|]. split; [reflexivity|]. left. by split_and!.
  - eexists _, _. split; [done|]. split; [reflexivity|]. right. exists (n + p). split; [lia|].
    rewrite !(u32_small (n + p)) by lia. cbn [fw_copy_size set_ota set_timer set_request].
    rewrite Hcp, (u32_small (zlen file - _)) by lia. split; cbn; try done; [lia|].
    destruct Hp128 as [Hp128|]; [|lia]. by rewrite <- Zplus_mod_idemp_l, Hst.
Qed.

Lemma session_finishes fuel : forall s outs n,
  asking s outs n -> zlen file - n <= Z.of_nat fuel ->
  exists s' outs', phone_session fuel s outs = Some (s', outs') /\ finished s' outs'.
Proof.
  induction fuel as [|fuel IH]; intros s outs n Has Hf; pose proof (as_n _ _ _ Has); [lia|].
  destruct (answer_step s outs n Has) as (pkt & s' & outs' & Ea & Es & Hor). cbn [phone_session].
  rewrite Ea, Es. cbn [mbind option_bind]. destruct Hor as [Hfin | (m & Hm & Has')].
  - exists s', outs'. split; [|done]. destruct Hfin as [-> _]. by destruct fuel.
  - apply (IH s' outs' m Has'). lia.
Qed.

(** Start and size: the device asks for the first part. *)
Lemma session_starts s :
  ota_ok (j_ota s) -> s_ota_busy (j_ota s) = false -> zlen (img_view (j_flash s)) = area -> 10 <= percent ->
  exists s1 s2 outs,
    jimi_dfu_cmd_handler mtu area percent s JIMI_DFU_START [] 0
      = Some (s1, [Response JIMI_DFU_START (replicate 10 0); Notify MY_MSG_DFU_START]) /\
    jimi_dfu_cmd_handler mtu area percent s1 JIMI_DFU_FILE_SIZE (bytes32 (zlen file)) 4 = Some (s2, outs) /\
    asking s2 outs 0.
Proof.
  intros Ho Hbusy Hpart Hpc. unfold jimi_dfu_cmd_handler. rewrite Z.eqb_refl.
  change (JIMI_DFU_FILE_SIZE =? JIMI_DFU_START) with false. rewrite Z.eqb_refl.
  unfold jimi_dfu_start, my_ota_flash_occupy. rewrite (proj2 (Z.ltb_ge percent 10)), Hbusy by lia. cbn [negb].
  set (o1 := mk_ota true _ _ _ _ _). set (s1 := set_end _ _ _ _). exists s1.
  assert (Ho1 : ota_ok o1) by (by destruct Ho).
  unfold jimi_dfu_rx_file_size.
  assert (Eg : get32 (bytes32 (zlen file)) 0 = Some (zlen file))
    by (apply (get32_bytes32 (zlen file) [] []); [lia|done]).
  rewrite Eg. cbn [mbind option_bind]. rewrite (proj2 (Z.ltb_ge area (zlen file))) by lia.
  cbn [j_ota j_flash set_copy_size s1 set_end set_ota].
  destruct (open_works area o1 (j_flash s) (zlen file)) as (o2 & d2 & E & Hd2); [done|done|lia..|by rewrite Hpart|lia|].
  destruct (open_total area o1 (j_flash s) (zlen file) Ho1) as (o2' & d2' & r2 & E' & Ho2 & _).
  rewrite E in E'. injection E' as <- <- <-. rewrite E. cbn [mbind option_bind]. change (negb (0 =? 0)) with false. cbv iota.
  destruct (open_spec area o1 (j_flash s) (zlen file) o2 d2 (oo_buf _ Ho1)) as (Hi & Hfs & _); [lia..|done|].
  eexists _, _. split; [reflexivity|]. split; [reflexivity|].
  split; cbn; try done; [lia..|]. by rewrite Z.sub_0_r.
Qed.

(** C6: an update over BLE succeeds.  On a working flash with an idle writer and
    the battery at ten percent or more, a phone that sends the start command, the size of a file that fits the
    partition and then answers every request with the part asked for gets one
    request after the other until the device reports success: the partition
    starts with the file, the upgrade is requested, the reset is scheduled and
    the writer is released.  There are at most as many requests as the file
    has bytes. *)
Theorem phone_update_installs s :
  ota_ok (j_ota s) -> s_ota_busy (j_ota s) = false -> zlen (img_view (j_flash s)) = area -> 10 <= percent ->
  exists s1 s2 s3 outs1 outs2,
    jimi_dfu_cmd_handler mtu area percent s JIMI_DFU_START [] 0 = Some (s1, outs1) /\
    jimi_dfu_cmd_handler mtu area percent s1 JIMI_DFU_FILE_SIZE (bytes32 (zlen file)) 4 = Some (s2, outs2) /\
    phone_session (Z.to_nat (zlen file)) s2 outs2
      = Some (s3, [end_response JIMI_DFU_END_RESP_OK; Notify MY_MSG_DFU_COMPLETE]) /\
    upgrade s3 = true /\ reset_ms s3 = Some 6500 /\ s_ota_busy (j_ota s3) = false /\
    arr_slice (img_view (j_flash s3)) 0 (zlen file) = Some file.
Proof.
  intros Ho Hbusy Hpart Hpc. destruct (session_starts s Ho Hbusy Hpart Hpc) as (s1 & s2 & outs & E1 & E2 & Has).
  destruct (session_finishes (Z.to_nat (zlen file)) _ _ 0 Has) as (s3 & outs3 & E3 & -> & Hfin); [lia|].
  by exists s1, s2, s3, [Response JIMI_DFU_START (replicate 10 0); Notify MY_MSG_DFU_START], outs.
Qed.
End session.
