(* ===== verification/DfuJimiSim.v ===== *)
(** * Updates over BLE on a simulated partition

    The theorems of [DfuJimiProofs] and [DfuJimiPhone] on a partition in
    memory, and two defects of the packet handler. *)

From S2P Require Import Prelude Crc OtaFlash OtaFlashProofs OtaFlashSim DfuJimi DfuJimiProofs DfuJimiPhone.

(** The module after start-up. *)
Definition fresh : jimi_state (list Z) := mk_jimi idle part 0 0 0 false None false false false None.

(** A file whose length is no multiple of the AES block. *)
Definition phone_file : list Z := replicate 1024 7 ++ replicate 75 9.

Lemma fresh_ok : ota_ok (j_ota fresh).
Proof. by split; vm_compute. Qed.

Lemma phone_file_ok : bytes_ok phone_file.
Proof. apply Forall_app. split; apply Forall_replicate; unfold is_byte; lia. Qed.

Lemma phone_update_installs_witness :
  exists s1 s2 s3 outs1 outs2,
    jimi_dfu_cmd_handler 498 8192 50 fresh JIMI_DFU_START [] 0 = Some (s1, outs1) /\
    jimi_dfu_cmd_handler 498 8192 50 s1 JIMI_DFU_FILE_SIZE (bytes32 (zlen phone_file)) 4 = Some (s2, outs2) /\
    phone_session 498 8192 50 phone_file (Z.to_nat (zlen phone_file)) s2 outs2
      = Some (s3, [end_response JIMI_DFU_END_RESP_OK; Notify MY_MSG_DFU_COMPLETE]) /\
    upgrade s3 = true /\ reset_ms s3 = Some 6500 /\ s_ota_busy (j_ota s3) = false /\
    arr_slice (img_view (j_flash s3)) 0 (zlen phone_file) = Some phone_file.
Proof.
  apply (phone_update_installs 498 8192 50 phone_file).
  - lia.
  - apply phone_file_ok.
  - vm_compute. intuition congruence.
  - reflexivity.
  - reflexivity.
  - apply fresh_ok.
  - reflexivity.
  - vm_compute. reflexivity.
  - lia.
Defined.

(** ** A session with a stray packet and a lost one *)

(** The module after the start command and the size of a 1099-byte file. *)
Definition sized : jimi_state (list Z) :=
  match jimi_dfu_cmd_handler 498 8192 50 (fst (jimi_dfu_start 50 fresh)) JIMI_DFU_FILE_SIZE
          (bytes32 (zlen phone_file)) 4 with
  | Some (s, _) => s
  | None => fresh
  end.

Definition image_event (addr size : Z) : event :=
  Command JIMI_DFU_FILE_IMAGE (phone_packet phone_file addr size) (size + 10).

(** A packet out of turn, a repeated request, an unknown command. *)
Definition events_stray : list event :=
  [image_event 0 384; image_event 128 128; TimerFires; RetryRuns; image_event 384 384;
   Command 9 (replicate 20 0) 20; image_event 768 256; image_event 1024 80; TimeoutRuns].

Lemma sized_collecting : ota_ok (j_ota sized) /\ collecting sized [].
Proof.
  split; [by split; vm_compute|]. split; [|done].
  split; try (vm_compute; (reflexivity || intuition congruence)).
Qed.

Lemma image_event_ok addr size :
  0 <= addr -> 0 < size <= 1024 -> addr + size <= zlen phone_file + 16 -> event_ok (image_event addr size).
Proof.
  intros H1 H2 H3. split; [done|]. apply phone_accepted; try done. apply phone_file_ok.
Qed.

Lemma events_stray_ok : Forall event_ok events_stray.
Proof.
  assert (Hl : zlen phone_file = 1099) by (vm_compute; reflexivity).
  assert (H9 : event_ok (Command 9 (replicate 20 0) 20)).
  { split; [done|]. split; [by vm_compute|]. split; [lia|]. split; [by apply Forall_replicate|].
    intros n E. vm_compute in E. injection E as <-. by vm_compute. }
  unfold events_stray. repeat (apply Forall_cons; split); try exact I; try exact H9; [..|apply Forall_nil; exact I];
    apply image_event_ok; lia.
Qed.

Lemma jimi_image_exact_witness :
  exists s' log, run 498 8192 50 events_stray sized [] = Some (s', log) /\ ota_ok (j_ota s') /\
    (upgrade s' = true ->
     s_ota_busy (j_ota s') = false /\ s_ota_file_size (j_ota s') <= zlen log /\
     arr_slice (img_view (j_flash s')) 0 (zlen log) = Some log).
Proof.
  apply (jimi_image_exact 498 8192 50).
  - lia.
  - apply sized_collecting.
  - apply sized_collecting.
  - apply events_stray_ok.
Defined.

Example events_stray_upgrade :
  (fun '(s, log) => (upgrade s, take 1099 log)) <$> run 498 8192 50 events_stray sized [] = Some (true, phone_file).
Proof. vm_compute. reflexivity. Qed.

(** ** Defects *)

(** A defect.  The length field of an image packet is used as an index
    before it is compared with the length of the packet.  Whatever the state,
    a packet whose field points behind its buffer makes the handler read
    outside it. *)
Theorem write_image_reads_outside {D} `{!ImageFlash D} mtu (s : jimi_state D) data len n :
  get32 data 4 = Some n -> zlen data <= u32 (8 + n) ->
  jimi_dfu_write_image mtu s data len = None.
Proof.
  intros En Hn. unfold jimi_dfu_write_image. destruct (get32 data 0); [|done]. cbn [mbind option_bind].
  rewrite En. cbn [mbind option_bind].
  assert (E : arr_get data (u32 (8 + n)) = None).
  { destruct (arr_get data (u32 (8 + n))) eqn:E; [|done]. apply arr_get_inv in E. lia. }
  by rewrite E.
Qed.

Lemma write_image_reads_outside_witness :
  jimi_dfu_write_image 498 sized (bytes32 0 ++ [255; 255; 255; 0] ++ replicate 600 0) 20 = None.
Proof.
  apply (write_image_reads_outside 498 sized _ 20 16777215).
  - reflexivity.
  - vm_compute. intuition congruence.
Defined.

(** A defect.  An image packet is accepted although no file size was
    announced: after the start command alone one packet of any content at
    address 0 counts as the last one, and the upgrade is requested on a
    partition that was not erased. *)
Theorem image_without_size_upgrades :
  let s := fst (jimi_dfu_start 50 fresh) in
  let pkt := phone_packet (replicate 16 66) 0 16 in
  (fun '(s', outs) => (upgrade s', outs)) <$> jimi_dfu_cmd_handler 498 8192 50 s JIMI_DFU_FILE_IMAGE pkt 26
  = Some (true, [end_response JIMI_DFU_END_RESP_OK; Notify MY_MSG_DFU_COMPLETE]).
Proof. vm_compute. reflexivity. Qed.
