(* ===== verification/DfuLte.v ===== *)
(** * Firmware update from the LTE module ([src/my_dfu_lte.c])

    The LTE module sends the firmware over its UART with YModem.  This file
    composes the ring buffer, the YModem receiver, the image writer and the
    CRC32: the callbacks of the receiver, the preparation of a session and the
    blocking transfer that ends in an upgrade request. *)

From S2P Require Import Prelude Prog RingBuf Crc OtaFlash Ymodem.

(** ** The UART and the clock

    [poll_sleep] is the 10 ms sleep of the polling loop with the receive events
    the driver raised meanwhile; [tx_wait] is the wait for the previous
    transmission.  [uart_active] is [lte_uart_ensure_active]. *)
Class LteUart (U : Type) := {
  uptime : U -> Z;
  poll_sleep : U -> U * list (list Z);
  uart_active : U -> U * Z;
  tx_wait : U -> U * list (list Z) * Z;
  uart_tx : U -> list Z -> U * Z
}.

(** [k_sleep] sleeps at least as long as asked; a receive event is at most a
    DMA buffer. *)
Class LteUartLaws (U : Type) `{LteUart U} : Prop := {
  lul_sleep u u' evs : poll_sleep u = (u', evs) -> uptime u + 10 <= uptime u';
  lul_poll_events u u' evs : poll_sleep u = (u', evs) -> Forall (fun e => zlen e < 2147483648) evs;
  lul_wait_events u u' evs r : tx_wait u = (u', evs, r) -> Forall (fun e => zlen e < 2147483648) evs
}.

Inductive dfu_lte_fail_reason_t :=
| DFU_LTE_OK | DFU_LTE_FAIL_BUSY | DFU_LTE_FAIL_PARAM | DFU_LTE_FAIL_SIZE
| DFU_LTE_FAIL_YMODEM | DFU_LTE_FAIL_CRC | DFU_LTE_FAIL_FLASH.

Definition DFU_LTE_RESET_DELAY_MS : Z := 6500.
Definition YMODEM_SEND_BUF_SIZE : Z := 64.

(** What the callbacks act on: the UART with its ring buffer, the image writer,
    the static variables of the module, the upgrade request to MCUboot and the
    scheduled reset. *)
Record dfu_world (U D : Type) := mk_dfu {
  uart : U;
  s_lte_rb : ring_buffer_t;
  ota : ota_state;
  flash : D;
  s_dfu_total_size : Z;
  s_dfu_expect_crc : Z;
  s_dfu_crc : Z;
  s_dfu_size_mismatch : bool;
  boot_request : bool;
  reset_timer : option Z
}.
Arguments mk_dfu {U D} _ _ _ _ _ _ _ _ _ _.
Arguments uart {U D} _.
Arguments s_lte_rb {U D} _.
Arguments ota {U D} _.
Arguments flash {U D} _.
Arguments s_dfu_total_size {U D} _.
Arguments s_dfu_expect_crc {U D} _.
Arguments s_dfu_crc {U D} _.
Arguments s_dfu_size_mismatch {U D} _.
Arguments boot_request {U D} _.
Arguments reset_timer {U D} _.

Section dfu.
Context {U D : Type} `{!LteUart U} `{!ImageFlash D}.
Notation W := (dfu_world U D).

Definition set_uart (u : U) (rb : ring_buffer_t) (w : W) : W :=
  mk_dfu u rb (ota w) (flash w) (s_dfu_total_size w) (s_dfu_expect_crc w) (s_dfu_crc w)
    (s_dfu_size_mismatch w) (boot_request w) (reset_timer w).
Definition set_ota (o : ota_state) (d : D) (w : W) : W :=
  mk_dfu (uart w) (s_lte_rb w) o d (s_dfu_total_size w) (s_dfu_expect_crc w) (s_dfu_crc w)
    (s_dfu_size_mismatch w) (boot_request w) (reset_timer w).
Definition set_crc (c : Z) (w : W) : W :=
  mk_dfu (uart w) (s_lte_rb w) (ota w) (flash w) (s_dfu_total_size w) (s_dfu_expect_crc w) c
    (s_dfu_size_mismatch w) (boot_request w) (reset_timer w).
Definition set_mismatch (w : W) : W :=
  mk_dfu (uart w) (s_lte_rb w) (ota w) (flash w) (s_dfu_total_size w) (s_dfu_expect_crc w)
    (s_dfu_crc w) true (boot_request w) (reset_timer w).

(** ** The UART of the LTE module ([src/my_lte.c]) *)

(** The [UART_RX_RDY] events of [lte_uart_cb]. *)
Fixpoint lte_uart_cb (rb : ring_buffer_t) (evs : list (list Z)) : option ring_buffer_t :=
  match evs with
  | [] => Some rb
  | e :: evs' => '(rb, _) ← my_rb_write rb e (zlen e); lte_uart_cb rb evs'
  end.

(** The bytes read into a buffer with room for [len]. *)
Definition my_lte_uart_read (rb : ring_buffer_t) (len : Z) : option (ring_buffer_t * (Z + list Z)) :=
  if len =? 0 then Some (rb, inl (- EINVAL))
  else
    '(rb, data, n) ← my_rb_read rb (replicate (Z.to_nat len) 0) len;
    Some (rb, if n <? 0 then inl n else inr (take (Z.to_nat n) data)).

Definition my_lte_uart_flush (rb : ring_buffer_t) : ring_buffer_t :=
  default rb (my_rb_clear (Some rb)).

Definition my_lte_uart_send_ymodem (w : W) (data : list Z) (len : Z) : option (W * Z) :=
  if (len =? 0) || (YMODEM_SEND_BUF_SIZE <? len) then Some (w, - EINVAL)
  else
    let '(u, r) := uart_active (uart w) in
    if r <? 0 then Some (set_uart u (s_lte_rb w) w, -1)
    else
      let '(u, evs, r) := tx_wait u in
      rb ← lte_uart_cb (s_lte_rb w) evs;
      if negb (r =? 0) then Some (set_uart u rb w, r)
      else
        bytes ← arr_slice data 0 len;
        let '(u, r) := uart_tx u bytes in
        if negb (r =? 0) then Some (set_uart u rb w, r) else Some (set_uart u rb w, 0).

(** ** The callbacks *)

Definition dfu_lte_save_open (w : W) (area : Z) (file_size : Z) : option (W * Z) :=
  if file_size <=? 0 then Some (w, - EINVAL)
  else if negb (u32 file_size =? s_dfu_total_size w) then Some (set_mismatch w, - EINVAL)
  else
    '(o, d, ret) ← my_ota_flash_open area (ota w) (flash w) (u32 file_size);
    Some (set_ota o d w, if negb (ret =? 0) then ret else 0).

Definition dfu_lte_save_write (w : W) (data : list Z) (len : Z) : option (W * Z) :=
  if len <? 0 then Some (w, - EINVAL)
  else if len =? 0 then Some (w, 0)
  else
    crc ← my_crc32_update (s_dfu_crc w) data (u32 len);
    '(o, d, ret, _) ← my_ota_flash_write_block (ota w) (flash w) (Some data) (u32 len);
    Some (set_ota o d (set_crc crc w), ret).

Definition dfu_lte_save_close (w : W) (result_ok : bool) : option (W * Z) :=
  '(o, d, ret) ← my_ota_flash_close (ota w) (flash w) result_ok;
  Some (set_ota o d w, ret).

Definition dfu_lte_uart_write (w : W) (data : list Z) : option (W * Z) :=
  '(w, ret) ← my_lte_uart_send_ymodem w data (u16 (zlen data));
  Some (w, if negb (ret =? 0) then ret else zlen data).

(** The polling loop; every round sleeps, so the remaining time bounds it. *)
Fixpoint poll_loop (n : nat) (w : W) (bs : list Z) (max_len end_time : Z)
  : option (W * (Z + list Z)) :=
  match n with
  | O => Some (w, inr bs)
  | S n' =>
      if (zlen bs <? max_len) && (uptime (uart w) <? end_time)
      then
        let '(u, evs) := poll_sleep (uart w) in
        rb ← lte_uart_cb (s_lte_rb w) evs;
        '(rb, rx) ← my_lte_uart_read rb (max_len - zlen bs);
        match rx with
        | inl e => Some (set_uart u rb w, inl e)
        | inr l => poll_loop n' (set_uart u rb w) (bs ++ l) max_len end_time
        end
      else Some (w, inr bs)
  end.

Definition dfu_lte_uart_read (w : W) (max_len timeout_ms : Z) : option (W * (Z + list Z)) :=
  if max_len <=? 0 then Some (w, inl (- EINVAL))
  else
    '(rb, rx) ← my_lte_uart_read (s_lte_rb w) max_len;
    let w := set_uart (uart w) rb w in
    match rx with
    | inl e => Some (w, inl e)
    | inr l =>
        if max_len <=? zlen l then Some (w, inr l)
        else poll_loop (S (Z.to_nat timeout_ms)) w l max_len (uptime (uart w) + timeout_ms)
    end.

Definition dfu_lte_uart_flush (w : W) : W :=
  set_uart (uart w) (my_lte_uart_flush (s_lte_rb w)) w.

(** ** The session *)

Definition my_dfu_lte_prepare (area : Z) (w : W) (total_size expect_crc : Z)
  : W * dfu_lte_fail_reason_t :=
  if total_size =? 0 then (w, DFU_LTE_FAIL_PARAM)
  else if area <? total_size then (w, DFU_LTE_FAIL_SIZE)
  else
    let '(o, ok) := my_ota_flash_occupy (ota w) in
    if negb ok then (w, DFU_LTE_FAIL_BUSY)
    else (mk_dfu (uart w) (s_lte_rb w) o (flash w) total_size expect_crc my_crc32_init false
            (boot_request w) (reset_timer w), DFU_LTE_OK).

Definition dfu_lte_io (area : Z) : my_ymodem_io W :=
  mk_io dfu_lte_uart_write dfu_lte_uart_read (Some dfu_lte_uart_flush)
    (Some (fun w _ size => dfu_lte_save_open w area size))
    (Some dfu_lte_save_write) (Some dfu_lte_save_close) 0 0 0.

(** [my_ota_flash_close (false)] and the reason. *)
Definition abandon (w : W) (reason : dfu_lte_fail_reason_t) : res (dfu_lte_fail_reason_t * W) :=
  match my_ota_flash_close (ota w) (flash w) false with
  | Some (o, d, _) => Done (reason, set_ota o d w)
  | None => Undef
  end.

(** The purge empties the ring buffer; the message queues it also drops are
    those of the LTE thread.  [alloc] tells whether [calloc] gave a handle. *)
Definition my_dfu_lte_start (fuel : nat) (area : Z) (alloc : bool) (w : W)
  : res (dfu_lte_fail_reason_t * W) :=
  let w := dfu_lte_uart_flush w in
  if negb alloc then abandon w DFU_LTE_FAIL_YMODEM
  else
    match my_ymodem_receive (dfu_lte_io area) fuel None my_ymodem_init w with
    | NoFuel => NoFuel
    | Undef => Undef
    | Done (ret, _, w) =>
        let w := dfu_lte_uart_flush w in
        if negb (ret =? YM_OK)
        then abandon w (if s_dfu_size_mismatch w then DFU_LTE_FAIL_SIZE
                        else if ret =? ERR_FILE then DFU_LTE_FAIL_FLASH
                        else DFU_LTE_FAIL_YMODEM)
        else if s_dfu_size_mismatch w then abandon w DFU_LTE_FAIL_SIZE
        else if negb (my_crc32_final (s_dfu_crc w) =? s_dfu_expect_crc w)
        then abandon w DFU_LTE_FAIL_CRC
        else Done (DFU_LTE_OK,
               mk_dfu (uart w) (s_lte_rb w) (ota w) (flash w) (s_dfu_total_size w)
                 (s_dfu_expect_crc w) (s_dfu_crc w) (s_dfu_size_mismatch w) true
                 (Some DFU_LTE_RESET_DELAY_MS))
    end.
End dfu.
