(* ===== verification/DfuLteProofs.v ===== *)
(** * The LTE update session: safety, release of the session, the upgrade request *)

From S2P Require Import Prelude Prog RingBuf Crc OtaFlash OtaFlashProofs Ymodem YmodemSafety DfuLte.

(** ** The callbacks *)

Section session.
Context {U D : Type} `{!LteUart U} `{!LteUartLaws U} `{!ImageFlash D} `{!ImageFlashLaws D}.
Notation W := (dfu_world U D).
Implicit Types (w : W) (rb : ring_buffer_t).

Record world_ok w : Prop := {
  wo_rb : rb_ok (s_lte_rb w);
  wo_ota : ota_ok (ota w)
}.

Lemma uart_cb_ok evs : forall rb,
  rb_ok rb -> Forall (fun e => zlen e < 2147483648) evs ->
  exists rb', lte_uart_cb rb evs = Some rb' /\ rb_ok rb'.
Proof.
  induction evs as [|e evs IH]; intros rb H He; [by exists rb|]. cbn [lte_uart_cb].
  inversion_clear He. destruct (rb_write_spec rb e H) as (rb1 & E & Hok1 & _); [done|].
  rewrite E. cbn [mbind option_bind]. by apply IH.
Qed.

Lemma lte_read_ok rb len :
  rb_ok rb -> 0 < len < 2147483648 ->
  exists rb' bs, my_lte_uart_read rb len = Some (rb', inr bs) /\ rb_ok rb' /\
    bs = take (Z.to_nat len) (contents rb) /\ contents rb' = drop (Z.to_nat len) (contents rb).
Proof.
  intros H Hl. unfold my_lte_uart_read. rewrite (proj2 (Z.eqb_neq len 0)) by lia.
  destruct (rb_read_spec rb (replicate (Z.to_nat len) 0) len H) as (rb' & E & H' & _ & Hc);
    [rewrite zlen_replicate; lia..|].
  rewrite E. cbn [mbind option_bind queue_read fst snd] in *. set (bs := take (Z.to_nat len) (contents rb)) in *.
  rewrite (proj2 (Z.ltb_ge (zlen bs) 0)) by apply zlen_nonneg.
  exists rb', bs. split; [|done]. do 3 f_equal. unfold zlen. by rewrite Nat2Z.id, take_app_length.
Qed.

(** Every round of the polling loop sleeps ten milliseconds: the loop is left
    because the buffer is full or because the time is over. *)
Lemma poll_loop_ok n : forall w bs max_len end_time,
  world_ok w -> zlen bs <= max_len -> 0 < max_len < 2147483648 ->
  end_time - uptime (uart w) < 10 * Z.of_nat n ->
  exists w' bs', poll_loop n w bs max_len end_time = Some (w', inr bs') /\ world_ok w' /\
    zlen bs' <= max_len /\ (zlen bs' = max_len \/ end_time <= uptime (uart w')) /\
    w' = set_uart (uart w') (s_lte_rb w') w.
Proof.
  induction n as [|n IH]; intros w bs max_len end_time Hw Hb Hm Ht.
  { exists w, bs. cbn [poll_loop]. split; [done|]. split; [done|]. split; [done|]. split; [lia|by destruct w]. }
  cbn [poll_loop]. destruct ((zlen bs <? max_len) && (uptime (uart w) <? end_time)) eqn:Ec.
  2:{ exists w, bs. split; [done|]. split; [done|]. split; [done|]. split; [|by destruct w].
      apply andb_false_iff in Ec as [Ec|Ec]; bool2prop; lia. }
  apply andb_true_iff in Ec as [Ec1 Ec2]. bool2prop.
  destruct (poll_sleep (uart w)) as [u evs] eqn:Es. pose proof (lul_sleep _ _ _ Es).
  destruct (uart_cb_ok evs (s_lte_rb w) (wo_rb w Hw) (lul_poll_events _ _ _ Es)) as (rb1 & -> & Hr1).
  cbn [mbind option_bind]. pose proof (zlen_nonneg bs).
  destruct (lte_read_ok rb1 (max_len - zlen bs) Hr1) as (rb2 & l & -> & Hr2 & -> & _); [lia|].
  cbn [mbind option_bind]. set (l := take _ _). pose proof (zlen_nonneg l).
  assert (zlen l <= max_len - zlen bs) by (unfold l; rewrite zlen_take; lia).
  destruct (IH (set_uart u rb2 w) (bs ++ l) max_len end_time) as (w' & bs' & E & Hw' & Hl' & Hend & Hset).
  - destruct Hw. by split.
  - rewrite zlen_app. lia.
  - done.
  - cbn [uart set_uart]. lia.
  - exists w', bs'. rewrite E. split; [done|]. split; [done|]. split; [done|]. split; [done|].
    rewrite Hset. by destruct w.
Qed.

Lemma uart_read_ok w n t :
  world_ok w -> 0 < n < 2147483648 ->
  exists w' bs, dfu_lte_uart_read w n t = Some (w', inr bs) /\ world_ok w' /\ zlen bs <= n /\
    (zlen bs = n \/ uptime (uart w) + t <= uptime (uart w')) /\
    w' = set_uart (uart w') (s_lte_rb w') w.
Proof.
  intros Hw Hn. unfold dfu_lte_uart_read. rewrite (proj2 (Z.leb_gt n 0)) by lia.
  destruct (lte_read_ok (s_lte_rb w) n (wo_rb w Hw) Hn) as (rb1 & l & -> & Hr1 & El & _).
  cbn [mbind option_bind]. assert (zlen l <= n) by (rewrite El, zlen_take; lia). clear El.
  assert (Hw1 : world_ok (set_uart (uart w) rb1 w)) by (destruct Hw; by split).
  destruct (Z.leb_spec n (zlen l)).
  - eexists _, l. split; [reflexivity|]. split; [done|]. split; [done|]. split; [lia|done].
  - destruct (poll_loop_ok (S (Z.to_nat t)) (set_uart (uart w) rb1 w) l n (uptime (uart w) + t))
      as (w' & bs' & E & H1 & H2 & H3 & H4); [done|done|done|cbn [uart set_uart]; lia|].
    exists w', bs'. cbn [uart set_uart] in *. split; [done|]. split; [done|]. split; [done|]. split; [done|].
    rewrite H4. by destruct w.
Qed.

Lemma uart_write_ok w c :
  world_ok w -> exists w' r, dfu_lte_uart_write w [c] = Some (w', r) /\ world_ok w' /\
    w' = set_uart (uart w') (s_lte_rb w') w.
Proof.
  intros Hw. unfold dfu_lte_uart_write, my_lte_uart_send_ymodem. change (u16 (zlen [c])) with 1.
  change ((1 =? 0) || (YMODEM_SEND_BUF_SIZE <? 1)) with false. cbv iota.
  destruct (uart_active (uart w)) as [u r]. pose proof Hw as [Hrb Ho].
  destruct (r <? 0). { eexists _, _. split; [reflexivity|]. split; [by split|done]. }
  destruct (tx_wait u) as [[u1 evs] r1] eqn:Et.
  destruct (uart_cb_ok evs (s_lte_rb w) Hrb (lul_wait_events _ _ _ _ Et)) as (rb1 & -> & Hr1).
  cbn [mbind option_bind].
  destruct (negb (r1 =? 0)). { eexists _, _. split; [reflexivity|]. split; [by split|done]. }
  change (arr_slice [c] 0 1) with (Some [c]). cbn [mbind option_bind].
  destruct (uart_tx u1 [c]) as [u2 r2].
  destruct (negb (r2 =? 0)); cbn [mbind option_bind];
    (eexists _, _; split; [reflexivity|]; split; [by split|done]).
Qed.

Lemma clear_ok rb : rb_ok rb -> rb_ok (my_lte_uart_flush rb).
Proof. intros [H1 H2 H3 H4]. split; cbn; lia. Qed.

Lemma flush_ok w : world_ok w -> world_ok (dfu_lte_uart_flush w).
Proof. intros [H1 H2]. split; [by apply clear_ok|done]. Qed.

(** What holds during a session that began with this upgrade request. *)
Section requested.
Context (requested : bool).

Record in_session (crc : Z) w : Prop := {
  is_world : world_ok w;
  is_boot : boot_request w = requested;
  is_crc : s_dfu_expect_crc w = crc
}.

Lemma session_uart crc w u rb : in_session crc w -> rb_ok rb -> in_session crc (set_uart u rb w).
Proof. intros [[_ Ho] ? ?] ?. split; [by split|done|done]. Qed.

Lemma session_ota crc w o d : in_session crc w -> ota_ok o -> in_session crc (set_ota o d w).
Proof. intros [[Hrb _] ? ?] Ho. split; [by split|done|done]. Qed.

Lemma session_transport area crc : transport_ok (dfu_lte_io area) (in_session crc).
Proof.
  split.
  - intros w c Hs. destruct (uart_write_ok w c (is_world _ _ Hs)) as (w' & r & E & Hw & Hset).
    exists w', r. split; [done|]. rewrite Hset. apply session_uart; [done|apply Hw].
  - intros w n t Hs Hn. destruct (uart_read_ok w n t (is_world _ _ Hs)) as (w' & bs & E & Hw & Hb & _ & Hset); [lia|].
    exists w', (inr bs). split; [done|]. split; [|by intros ? [= <-]].
    rewrite Hset. apply session_uart; [done|apply Hw].
  - intros f w [= <-] Hs. apply session_uart; [done|]. apply clear_ok, Hs.
Qed.

Lemma session_save area crc :
  save_ok (dfu_lte_io area) (in_session crc) (fun w => my_ota_flash_is_busy (ota w) = false).
Proof.
  split.
  - intros f w name sz [= <-] Hs. unfold dfu_lte_save_open. destruct (sz <=? 0); [eauto|].
    destruct (negb _); [eexists _, _; split; [reflexivity|]; by destruct Hs as [[] ? ?]|].
    destruct (open_total area (ota w) (flash w) (u32 sz)) as (o & d & r & -> & Ho & _); [apply Hs|].
    cbn [mbind option_bind]. eexists _, _. split; [reflexivity|]. by apply session_ota.
  - intros f w data len [= <-] Hs Hl. unfold dfu_lte_save_write.
    destruct (Z.ltb_spec len 0); [eauto|]. destruct (Z.eqb_spec len 0); [eauto|].
    rewrite u32_small by lia. unfold my_crc32_update. rewrite arr_slice_Some by lia. cbn [mbind option_bind].
    destruct (write_block_total (ota w) (flash w) data len) as (o & d & r & last & -> & Ho & _); [apply Hs|lia..|].
    cbn [mbind option_bind]. eexists _, _. split; [reflexivity|].
    apply (session_ota crc (set_crc _ w)); [by destruct Hs as [[] ? ?]|done].
  - exists dfu_lte_save_close. split; [done|]. intros w Hs. unfold dfu_lte_save_close.
    destruct (close_total (ota w) (flash w) true) as (o & d & r & -> & Ho & Hb); [apply Hs|].
    cbn [mbind option_bind]. eexists _, _. split; [reflexivity|]. split; [by apply session_ota|done].
Qed.

Lemma receive_session area crc fuel w :
  in_session crc w ->
  wp (my_ymodem_receive (dfu_lte_io area) fuel None)
    (fun r _ w' => in_session crc w' /\ (r = YM_OK -> my_ota_flash_is_busy (ota w') = false))
    my_ymodem_init w.
Proof.
  intros Hs. unfold my_ymodem_receive. do 2 wstep. wstep. eapply wp_checked; [reflexivity|].
  do 2 wstep. eapply wp_mono.
  { apply (ends_handshake (dfu_lte_io area) (in_session crc) (fun w => my_ota_flash_is_busy (ota w) = false)
      (session_transport area crc) 0 1 ltac:(lia)); [intros _; apply session_save| |exact Hs].
    destruct init_handle_ok. split; cbn; auto; lia. }
  intros r y' w' (_ & Hw' & Hc). split; [done|]. intros Hr. apply Hc; [done|lia].
Qed.

Lemma abandon_ok crc w reason :
  in_session crc w -> exists w', abandon w reason = Done (reason, w') /\ in_session crc w' /\
    my_ota_flash_is_busy (ota w') = false.
Proof.
  intros Hs. unfold abandon. destruct (close_total (ota w) (flash w) false) as (o & d & r & -> & Ho & Hb); [apply Hs|].
  eexists. split; [reflexivity|]. split; [by apply session_ota|done].
Qed.

(** How a session ends. *)
Definition session_ended (crc : Z) (r : res (dfu_lte_fail_reason_t * W)) : Prop :=
  match r with
  | Undef => False
  | NoFuel => True
  | Done (reason, w2) =>
      world_ok w2 /\ my_ota_flash_is_busy (ota w2) = false /\
      match reason with
      | DFU_LTE_OK => boot_request w2 = true /\ my_crc32_final (s_dfu_crc w2) = crc
      | _ => boot_request w2 = requested
      end
  end.

Lemma abandon_ended crc w reason : in_session crc w -> reason <> DFU_LTE_OK -> session_ended crc (abandon w reason).
Proof.
  intros Hw Hr. destruct (abandon_ok crc w reason Hw) as (w' & -> & [Hw' Hb _] & Hbusy). cbn. split_and!; [done|done|]. by destruct reason.
Qed.

Lemma session_runs crc area fuel alloc w : in_session crc w -> session_ended crc (my_dfu_lte_start fuel area alloc w).
Proof.
  intros Hs. unfold my_dfu_lte_start.
  assert (Hs1 : in_session crc (dfu_lte_uart_flush w)) by (apply session_uart; [done|apply clear_ok, Hs]).
  destruct alloc; cbn [negb]; [|by apply abandon_ended].
  pose proof (receive_session area crc fuel _ Hs1) as Hwp. unfold wp in Hwp.
  destruct (my_ymodem_receive _ _ _ _ _) as [[[r y'] w2]| |]; [|done|done].
  destruct Hwp as [Hs2 Hcl]. set (w3 := dfu_lte_uart_flush w2).
  assert (Hs3 : in_session crc w3) by (apply session_uart; [done|apply clear_ok, Hs2]).
  destruct (Z.eqb_spec r YM_OK) as [Hr|Hr]; cbn [negb].
  - destruct (s_dfu_size_mismatch w3); [by apply abandon_ended|].
    destruct (Z.eqb_spec (my_crc32_final (s_dfu_crc w3)) (s_dfu_expect_crc w3)) as [Hc|Hc]; cbn [negb]; [|by apply abandon_ended].
    split; [by destruct Hs3 as [[] ? ?]|]. split; [by apply Hcl|]. split; [done|].
    cbn. rewrite <- (is_crc _ _ Hs3). exact Hc.
  - apply abandon_ended; [done|]. destruct (s_dfu_size_mismatch w3), (r =? ERR_FILE); done.
Qed.
End requested.

(** C9: an update session over the LTE UART, whatever the peer, the UART and
    the flash do: after a successful [my_dfu_lte_prepare] the blocking
    [my_dfu_lte_start] never leaves its buffers, and when it returns it has
    released the session, so that the next update can start; the upgrade is
    requested from MCUboot exactly when it reports success, and then only with
    the announced file CRC32. *)
Theorem lte_session_safe area w total crc w1 fuel alloc :
  world_ok w -> boot_request w = false ->
  my_dfu_lte_prepare area w total crc = (w1, DFU_LTE_OK) ->
  match my_dfu_lte_start fuel area alloc w1 with
  | Undef => False
  | NoFuel => True
  | Done (reason, w2) =>
      world_ok w2 /\ my_ota_flash_is_busy (ota w2) = false /\
      (boot_request w2 = true <-> reason = DFU_LTE_OK) /\
      (reason = DFU_LTE_OK -> my_crc32_final (s_dfu_crc w2) = crc)
  end.
Proof.
  intros [Hrb Ho] Hboot Ep.
  assert (Hs : in_session false crc w1).
  { unfold my_dfu_lte_prepare, my_ota_flash_occupy in Ep.
    destruct (total =? 0); [done|]. destruct (area <? total); [done|].
    destruct (s_ota_busy (ota w)); [done|]. injection Ep as <-. split; [split; [done|by destruct Ho]|done|done]. }
  pose proof (session_runs false crc area fuel alloc w1 Hs) as H. unfold session_ended in H.
  destruct (my_dfu_lte_start _ _ _ _) as [[reason w2]| |]; [|done..]. destruct H as (Hw & Hb & Hr). split_and!; [done|done|..].
  - destruct reason; [by destruct Hr|split; congruence..].
  - by destruct reason; [intros _; apply Hr|..].
Qed.
End session.
