(* ===== verification/DfuLteSim.v ===== *)
(** * A simulated LTE link

    A UART whose peer answers the receiver with the packets of a script, a
    memory as flash, and sessions run on them. *)

From S2P Require Import Prelude Prog RingBuf Crc OtaFlash OtaFlashSim Ymodem YmodemSend YmodemTransfer.
From S2P Require Import YmodemFile DfuLte DfuLteProofs.

(** The next packet arrives with the first sleep after a transmission. *)
Record link := mk_link { clock : Z; packets : list (list Z); owed : bool }.

#[export] Instance sim_uart : LteUart link := {
  uptime := clock;
  poll_sleep u :=
    match owed u, packets u with
    | true, p :: ps => (mk_link (clock u + 10) ps false, [take 4096 p])
    | _, _ => (mk_link (clock u + 10) (packets u) (owed u), [])
    end;
  uart_active u := (u, 0);
  tx_wait u := (u, [], 0);
  uart_tx u _ := (mk_link (clock u) (packets u) true, 0)
}.

#[export] Instance sim_uart_laws : LteUartLaws link.
Proof.
  split.
  - intros u u' evs E. cbn in *. destruct (owed u), (packets u); injection E as <- <-; cbn; lia.
  - intros u u' evs E. cbn in *. destruct (owed u), (packets u); injection E as <- <-; repeat constructor.
    rewrite zlen_take. lia.
  - intros u u' evs r [= <- <- <-]. constructor.
Qed.

(** ** A session with blocks of two sizes *)

Definition fw : list Z := replicate 128 1 ++ replicate 1024 2.

Definition fw_crc : Z := my_crc32_final (foldl crc32_byte my_crc32_init fw).

(** The module after start-up, with a peer that sends [ps]. *)
Definition boot_world (ps : list (list Z)) : dfu_world link (list Z) :=
  mk_dfu (mk_link 0 ps false) (mk_rb 0 0 (replicate 2048 0) 2048) idle part 0 0 0 false false None.

Definition prepared (ps : list (list Z)) (size crc : Z) : dfu_world link (list Z) :=
  fst (my_dfu_lte_prepare 8192 (boot_world ps) size crc).

(** A short block, a long block, the long block again, the end. *)
Definition mixed_script : list (list Z) :=
  [info_frame [102; 119] 1152;
   data_frame 1 (replicate 128 1); data_frame 2 (replicate 1024 2); data_frame 2 (replicate 1024 2);
   [EOT]; [EOT]; data_frame 0 (replicate 128 0)].

Definition outcome (r : res (dfu_lte_fail_reason_t * dfu_world link (list Z)))
  : option (dfu_lte_fail_reason_t * bool * list Z) :=
  match r with
  | Done (reason, w) => Some (reason, boot_request w, take 1152 (flash w))
  | _ => None
  end.

(** A defect.  A firmware of 1152 bytes is sent as one 128-byte and one
    1024-byte block, as YModem allows.  The second block does not fit the rest
    of the 1 KiB write buffer and is refused with [CAN], but its number has been
    consumed and its bytes have been added to the file CRC32.  When the peer
    repeats the block it is acknowledged as a repetition and dropped, the CRC32
    matches, and the upgrade is requested although the 1024 bytes are missing
    from the flash. *)
Theorem upgrade_requested_with_block_missing :
  outcome (my_dfu_lte_start 40 8192 true (prepared mixed_script 1152 fw_crc))
  = Some (DFU_LTE_OK, true, replicate 128 1 ++ replicate 1024 255).
Proof. vm_compute. reflexivity. Qed.

(** The same firmware in blocks that fill the write buffer is installed. *)
Definition plain_script : list (list Z) :=
  [info_frame [102; 119] 1152;
   data_frame 1 (take 1024 fw); data_frame 2 (drop 1024 fw);
   [EOT]; [EOT] ++ data_frame 0 (replicate 128 0)].

Example update_installs :
  outcome (my_dfu_lte_start 40 8192 true (prepared plain_script 1152 fw_crc))
  = Some (DFU_LTE_OK, true, fw).
Proof. vm_compute. reflexivity. Qed.

Lemma boot_world_ok ps : world_ok (boot_world ps).
Proof. split; split; vm_compute; repeat split; discriminate. Qed.

Lemma lte_session_safe_witness :
  match my_dfu_lte_start 40 8192 true (prepared plain_script 1152 fw_crc) with
  | Undef => False
  | NoFuel => True
  | Done (reason, w2) =>
      world_ok w2 /\ my_ota_flash_is_busy (ota w2) = false /\
      (boot_request w2 = true <-> reason = DFU_LTE_OK) /\
      (reason = DFU_LTE_OK -> my_crc32_final (s_dfu_crc w2) = fw_crc)
  end.
Proof.
  apply (lte_session_safe 8192 (boot_world plain_script) 1152 fw_crc).
  - apply boot_world_ok.
  - reflexivity.
  - reflexivity.
Defined.
