(* ===== verification/Pm.v ===== *)
(** * Power management ([src/my_pm.c], [inc/my_pm.h])

    Every peripheral registers callbacks; resuming it switches its bus on
    before the callback runs, suspending it switches the bus off afterwards.
    The file gives the operations, the invariant of a device and its bus, and
    what the operations report when a callback or the bus fails. *)

From S2P Require Import Prelude Prog.

Open Scope prog_scope.

(** [my_pm_dev_id_t] *)
Definition MY_PM_DEV_GSENSOR : Z := 0.
Definition MY_PM_DEV_LTE : Z := 1.
Definition MY_PM_DEV_MAGNETIC_UART : Z := 2.
Definition MY_PM_DEV_BATTERY : Z := 3.
Definition MY_PM_DEV_BLE : Z := 4.
Definition MY_PM_DEV_PWM : Z := 5.
Definition MY_PM_DEV_MAX : Z := 6.

Definition ENODEV : Z := 19.
Definition EINVAL : Z := 22.
Definition ENOTSUP : Z := 134.

Inductive my_pm_state_t := MY_PM_STATE_NOT_INIT | MY_PM_STATE_SUSPENDED | MY_PM_STATE_RESUME.
#[export] Instance my_pm_state_eq_dec : EqDecision my_pm_state_t.
Proof. solve_decision. Defined.

(** The bus devices of the device tree. *)
Inductive bus := I2C21 | LTE_UART | MAGNETIC_UART | BATTERY_ADC | BUZZER_PWM.
#[export] Instance bus_eq_dec : EqDecision bus.
Proof. solve_decision. Defined.

(** A callback acts on the world; it may fail to be defined, for instance when
    it needs its bus. *)
Record pm_device_ops_t (W : Type) := mk_ops {
  ops_suspend : option (W -> option (W * Z));
  ops_resume : option (W -> option (W * Z));
  ops_init : option (W -> option (W * Z))
}.
Arguments mk_ops {W} _ _ _.
Arguments ops_suspend {W} _.
Arguments ops_resume {W} _.
Arguments ops_init {W} _.

Record pm_device_ctx_t (W : Type) := mk_ctx { state : my_pm_state_t; ops : option (pm_device_ops_t W) }.
Arguments mk_ctx {W} _ _.
Arguments state {W} _.
Arguments ops {W} _.

(** The device runtime power management of the SDK; [has_bus] tells whether the
    device tree has the node. *)
Class PmRuntime (W : Type) := {
  has_bus : bus -> bool;
  pm_device_runtime_get : bus -> W -> W * Z;
  pm_device_runtime_put : bus -> W -> W * Z
}.

Section pm.
Context {W : Type} `{!PmRuntime W}.
Notation pm := (list (pm_device_ctx_t W)).

(** ** The buses *)

Definition runtime_resume (b : bus) : prog pm W Z :=
  if negb (has_bus b) then ret (- ENODEV)
  else
    r <- world (pm_device_runtime_get b) ;;
    if r <? 0 then ret r else ret 0.

Definition runtime_suspend (b : bus) : prog pm W Z :=
  if negb (has_bus b) then ret (- ENODEV)
  else
    r <- world (pm_device_runtime_put b) ;;
    if r <? 0 then ret r else ret 0.

Definition my_pm_i2c21_resume := runtime_resume I2C21.
Definition my_pm_i2c21_suspend := runtime_suspend I2C21.
Definition my_pm_lte_uart_resume := runtime_resume LTE_UART.
Definition my_pm_lte_uart_suspend := runtime_suspend LTE_UART.
Definition my_pm_magnetic_uart_resume := runtime_resume MAGNETIC_UART.
Definition my_pm_magnetic_uart_suspend := runtime_suspend MAGNETIC_UART.
Definition my_pm_battery_adc_resume := runtime_resume BATTERY_ADC.
Definition my_pm_battery_adc_suspend := runtime_suspend BATTERY_ADC.
Definition my_pm_buzzer_pwm_resume := runtime_resume BUZZER_PWM.
Definition my_pm_buzzer_pwm_suspend := runtime_suspend BUZZER_PWM.

(** The [switch (dev_id)] that resumes a bus. *)
Definition resume_bus (dev_id : Z) : prog pm W Z :=
  if dev_id =? MY_PM_DEV_GSENSOR then my_pm_i2c21_resume
  else if dev_id =? MY_PM_DEV_LTE then my_pm_lte_uart_resume
  else if dev_id =? MY_PM_DEV_MAGNETIC_UART then my_pm_magnetic_uart_resume
  else if dev_id =? MY_PM_DEV_BATTERY then my_pm_battery_adc_resume
  else if dev_id =? MY_PM_DEV_PWM then my_pm_buzzer_pwm_resume
  else ret (- ENOTSUP).

(** The one that suspends it; [other] is what the default case leaves. *)
Definition suspend_bus (other dev_id : Z) : prog pm W Z :=
  if dev_id =? MY_PM_DEV_GSENSOR then my_pm_i2c21_suspend
  else if dev_id =? MY_PM_DEV_LTE then my_pm_lte_uart_suspend
  else if dev_id =? MY_PM_DEV_MAGNETIC_UART then my_pm_magnetic_uart_suspend
  else if dev_id =? MY_PM_DEV_BATTERY then my_pm_battery_adc_suspend
  else if dev_id =? MY_PM_DEV_PWM then my_pm_buzzer_pwm_suspend
  else ret other.

(** The one that switches it off again when a resume failed: without a case
    for the battery. *)
Definition rollback_bus (dev_id : Z) : prog pm W Z :=
  if dev_id =? MY_PM_DEV_BATTERY then ret (- ENOTSUP) else suspend_bus (- ENOTSUP) dev_id.

(** ** The devices *)

Definition callback (c : option (W -> option (W * Z))) : prog pm W Z :=
  match c with
  | Some f => world_checked f
  | None => ret 0
  end.

Definition ctx_at (dev_id : Z) : prog pm W (pm_device_ctx_t W) :=
  s <- get id ;; checked (arr_get s dev_id).

Definition set_ctx (dev_id : Z) (c : pm_device_ctx_t W) : prog pm W unit :=
  s <- get id ;;
  s' <- checked (arr_set s dev_id c) ;;
  modify (fun _ => s').

Definition my_pm_init : prog pm W Z :=
  modify (fun _ => replicate (Z.to_nat MY_PM_DEV_MAX) (mk_ctx MY_PM_STATE_NOT_INIT None)) ;;
  ret 0.

Definition my_pm_device_register (dev_id : Z) (o : option (pm_device_ops_t W)) : prog pm W Z :=
  if MY_PM_DEV_MAX <=? dev_id then ret (- EINVAL)
  else
    match o with
    | None => ret (- EINVAL)
    | Some o =>
        set_ctx dev_id (mk_ctx MY_PM_STATE_NOT_INIT (Some o)) ;;
        match ops_init o with
        | None => set_ctx dev_id (mk_ctx MY_PM_STATE_SUSPENDED (Some o)) ;; ret 0
        | Some init =>
            r <- callback (Some init) ;;
            if r <? 0 then set_ctx dev_id (mk_ctx MY_PM_STATE_NOT_INIT None) ;; ret r
            else
              r <- resume_bus dev_id ;;
              if r <? 0 then set_ctx dev_id (mk_ctx MY_PM_STATE_NOT_INIT None) ;; ret r
              else
                r <- suspend_bus (- ENOTSUP) dev_id ;;
                if r <? 0 then set_ctx dev_id (mk_ctx MY_PM_STATE_NOT_INIT None) ;; ret r
                else set_ctx dev_id (mk_ctx MY_PM_STATE_SUSPENDED (Some o)) ;; ret 0
        end
    end.

Definition my_pm_device_resume (dev_id : Z) : prog pm W Z :=
  if MY_PM_DEV_MAX <=? dev_id then ret (- EINVAL)
  else
    ctx <- ctx_at dev_id ;;
    match ops ctx with
    | None => ret (- ENODEV)
    | Some o =>
        if decide (state ctx = MY_PM_STATE_RESUME) then ret 0
        else if negb (bool_decide (state ctx = MY_PM_STATE_SUSPENDED)) then ret (- EINVAL)
        else
          r <- resume_bus dev_id ;;
          if r <? 0 then ret r
          else
            r <- callback (ops_resume o) ;;
            if r <? 0 then rollback_bus dev_id
            else set_ctx dev_id (mk_ctx MY_PM_STATE_RESUME (Some o)) ;; ret 0
    end.

Definition my_pm_device_suspend (dev_id : Z) : prog pm W Z :=
  if MY_PM_DEV_MAX <=? dev_id then ret (- EINVAL)
  else
    ctx <- ctx_at dev_id ;;
    match ops ctx with
    | None => ret (- ENODEV)
    | Some o =>
        if decide (state ctx = MY_PM_STATE_SUSPENDED) then ret 0
        else
          r0 <- callback (ops_suspend o) ;;
          if r0 <? 0 then ret r0
          else
            r <- suspend_bus r0 dev_id ;;
            if r <? 0 then callback (ops_resume o) ;; ret r
            else set_ctx dev_id (mk_ctx MY_PM_STATE_SUSPENDED (Some o)) ;; ret 0
    end.

Definition my_pm_device_get_state (dev_id : Z) (s : pm) : option my_pm_state_t :=
  if MY_PM_DEV_MAX <=? dev_id then Some MY_PM_STATE_NOT_INIT
  else ctx ← arr_get s dev_id; Some (state ctx).
End pm.

(** ** The invariant *)

(** [usage] is the usage count the SDK keeps of a bus: a call that fails leaves
    it as it was. *)
Class PmRuntimeLaws (W : Type) `{PmRuntime W} := {
  usage : bus -> W -> Z;
  get_usage b w w' r : pm_device_runtime_get b w = (w', r) ->
    forall b', usage b' w' = usage b' w + (if decide (b' = b) then if r <? 0 then 0 else 1 else 0);
  put_usage b w w' r : pm_device_runtime_put b w = (w', r) -> 1 <= usage b w ->
    forall b', usage b' w' = usage b' w - (if decide (b' = b) then if r <? 0 then 0 else 1 else 0)
}.

(** The bus of a device, and the device of a bus. *)
Definition dev_bus (dev_id : Z) : option bus :=
  if dev_id =? MY_PM_DEV_GSENSOR then Some I2C21
  else if dev_id =? MY_PM_DEV_LTE then Some LTE_UART
  else if dev_id =? MY_PM_DEV_MAGNETIC_UART then Some MAGNETIC_UART
  else if dev_id =? MY_PM_DEV_BATTERY then Some BATTERY_ADC
  else if dev_id =? MY_PM_DEV_PWM then Some BUZZER_PWM
  else None.

Definition bus_dev (b : bus) : Z :=
  match b with
  | I2C21 => MY_PM_DEV_GSENSOR
  | LTE_UART => MY_PM_DEV_LTE
  | MAGNETIC_UART => MY_PM_DEV_MAGNETIC_UART
  | BATTERY_ADC => MY_PM_DEV_BATTERY
  | BUZZER_PWM => MY_PM_DEV_PWM
  end.

Lemma dev_bus_dev d b : dev_bus d = Some b -> d = bus_dev b.
Proof. unfold dev_bus. intros H. repeat zcase_in H; by simplify_eq. Qed.

Lemma bus_dev_bus b : dev_bus (bus_dev b) = Some b.
Proof. by destruct b. Qed.

Lemma bus_dev_range b : 0 <= bus_dev b < 6.
Proof. by destruct b. Qed.

Section pm_proofs.
Context {W : Type} `{!PmRuntime W} `{!PmRuntimeLaws W}.
Notation pm := (list (pm_device_ctx_t W)).
Implicit Types (s : pm) (w : W).

(** A callback that works when the bus is on and leaves the bus alone. *)
Definition needs_bus (b : bus) (c : option (W -> option (W * Z))) : Prop :=
  forall f w, c = Some f -> 1 <= usage b w ->
  exists w' r, f w = Some (w', r) /\ forall b', usage b' w' = usage b' w.

(** The callbacks of a device: [init] does not need the bus. *)
Record ops_ok (dev_id : Z) (o : pm_device_ops_t W) : Prop := {
  oo_suspend b : dev_bus dev_id = Some b -> needs_bus b (ops_suspend o);
  oo_resume b : dev_bus dev_id = Some b -> needs_bus b (ops_resume o);
  oo_init f w : ops_init o = Some f -> exists w' r, f w = Some (w', r) /\ forall b', usage b' w' = usage b' w
}.

(** 1 while the device of the bus is running. *)
Definition running s (b : bus) : Z :=
  match s !! Z.to_nat (bus_dev b) with
  | Some c => if decide (state c = MY_PM_STATE_RESUME) then 1 else 0
  | None => 0
  end.

(** [k] counts the uses of a bus that no running device stands for. *)
Record pm_inv (k : bus -> Z) s w : Prop := {
  pi_len : zlen s = 6;
  pi_usage b : usage b w = running s b + k b;
  pi_k b : 0 <= k b;
  pi_ops d c o : s !! Z.to_nat d = Some c -> 0 <= d -> ops c = Some o -> ops_ok d o;
  pi_init d c : s !! d = Some c -> state c = MY_PM_STATE_NOT_INIT -> ops c = None;
  pi_run d c : s !! Z.to_nat d = Some c -> 0 <= d -> state c = MY_PM_STATE_RESUME -> is_Some (dev_bus d)
}.

Definition bump (b : bus) (n : Z) (k : bus -> Z) : bus -> Z := fun b' => k b' + (if decide (b' = b) then n else 0).

Lemma running_range s b : 0 <= running s b <= 1.
Proof. unfold running. destruct (s !! _); [destruct (decide _)|]; lia. Qed.

(** Changing a device changes the count of its own bus only. *)
Lemma running_insert s d c b :
  0 <= d -> zlen s = 6 -> d < 6 ->
  running (<[Z.to_nat d := c]> s) b
  = if decide (dev_bus d = Some b) then if decide (state c = MY_PM_STATE_RESUME) then 1 else 0 else running s b.
Proof.
  intros Hd Hl Hd6. unfold running. destruct (decide (dev_bus d = Some b)) as [E|E].
  - apply dev_bus_dev in E as ->. rewrite list_lookup_insert_eq; [done|]. unfold zlen in Hl. lia.
  - rewrite list_lookup_insert_ne; [done|]. intros Hn. apply E.
    pose proof (bus_dev_range b). assert (d = bus_dev b) as -> by lia. apply bus_dev_bus.
Qed.

Lemma ctx_at_twp d Q s w :
  zlen s = 6 -> 0 <= d < 6 ->
  (forall c, s !! Z.to_nat d = Some c -> Q c s w) -> twp (ctx_at d) Q s w.
Proof.
  intros Hl Hd HQ. unfold ctx_at. repeat tstep.
  destruct (arr_get_Some s d) as [c E]; [lia|].
  eapply twp_checked; [exact E|]. apply HQ. apply arr_get_inv in E. tauto.
Qed.

Lemma set_ctx_twp d c (Q : unit -> pm -> W -> Prop) s w :
  zlen s = 6 -> 0 <= d < 6 -> Q tt (<[Z.to_nat d := c]> s) w -> twp (set_ctx d c) Q s w.
Proof.
  intros Hl Hd HQ. unfold set_ctx. repeat tstep. rewrite arr_set_Some by lia.
  eapply twp_checked; [reflexivity|]. by tstep.
Qed.

(** Switching a bus on and off. *)
Lemma resume_bus_twp d s w :
  twp (resume_bus d) (fun r s' w' => s' = s /\
    (0 <= r -> exists b, dev_bus d = Some b /\ has_bus b = true) /\
    forall b', usage b' w' = usage b' w + (if decide (dev_bus d = Some b') then if r <? 0 then 0 else 1 else 0)) s w.
Proof.
  assert (resume_bus d = match dev_bus d with Some b => runtime_resume b | None => ret (- ENOTSUP) end) as ->.
  { unfold resume_bus, dev_bus. by repeat case_match. }
  destruct (dev_bus d) as [b|]; [|tstep; split_and!; [done|done|intros b'; destruct (decide _); [done|lia]]].
  unfold runtime_resume. destruct (has_bus b) eqn:Hb; cbn [negb].
  - tstep. apply twp_world. intros r w' E. tstep; tstep; (split_and!; [done|by eauto|]).
    all: intros b'; rewrite (get_usage _ _ _ _ E b').
    all: destruct (decide (b' = b)), (decide (Some b = Some b')); simplify_eq; by rewrite ?Heqb0.
  - tstep. split_and!; [done|done|]. intros b'. change (- ENODEV <? 0) with true. destruct (decide _); lia.
Qed.

Lemma suspend_bus_twp other d b s w :
  dev_bus d = Some b -> 1 <= usage b w ->
  twp (suspend_bus other d) (fun r s' w' => s' = s /\
    (has_bus b = true -> (forall w1 w2 r', pm_device_runtime_put b w1 = (w2, r') -> 0 <= r') -> 0 <= r) /\
    forall b', usage b' w' = usage b' w - (if decide (b' = b) then if r <? 0 then 0 else 1 else 0)) s w.
Proof.
  intros Hd Hu.
  assert (suspend_bus other d = match dev_bus d with Some b => runtime_suspend b | None => ret other end) as ->.
  { unfold suspend_bus, dev_bus. by repeat case_match. }
  rewrite Hd. unfold runtime_suspend. destruct (has_bus b) eqn:Hb; cbn [negb].
  - tstep. apply twp_world. intros r w' E. tstep; tstep; (split_and!; [done|intros _ Hok; specialize (Hok _ _ _ E); lia|]).
    all: intros b'; rewrite (put_usage _ _ _ _ E Hu b'); by rewrite ?Heqb0.
  - tstep. split_and!; [done|done|]. intros b'. change (- ENODEV <? 0) with true. destruct (decide _); lia.
Qed.

Definition never_fails (c : option (W -> option (W * Z))) : Prop :=
  forall f w w' r, c = Some f -> f w = Some (w', r) -> 0 <= r.

Definition puts_ok : Prop := forall b w w' r, pm_device_runtime_put b w = (w', r) -> 0 <= r.

Lemma callback_twp b c s w :
  needs_bus b c -> 1 <= usage b w ->
  twp (callback c) (fun r s' w' => s' = s /\ (never_fails c -> 0 <= r) /\ forall b', usage b' w' = usage b' w) s w.
Proof.
  intros Hc Hu. unfold callback. destruct c as [f|]; [|by tstep].
  destruct (Hc f w eq_refl Hu) as (w' & r & E & H'). apply twp_world_checked. exists w', r. split_and!; try done.
  intros Hn. by eapply Hn.
Qed.

(** ** Every operation keeps the invariant *)

Lemma pm_inv_insert k k' s w w' d c :
  pm_inv k s w -> 0 <= d < 6 ->
  (forall o, ops c = Some o -> ops_ok d o) ->
  (state c = MY_PM_STATE_NOT_INIT -> ops c = None) ->
  (state c = MY_PM_STATE_RESUME -> is_Some (dev_bus d)) ->
  (forall b, 0 <= k' b) -> (forall b, usage b w' = running (<[Z.to_nat d := c]> s) b + k' b) ->
  pm_inv k' (<[Z.to_nat d := c]> s) w'.
Proof.
  intros [] Hd Ho Hi Hr Hk Hu. split; try done.
  - by rewrite zlen_insert.
  - intros d' c' o' E Hd' Eo. apply list_lookup_insert_Some in E as [(E & -> & _)|[_ E]]; [|by eapply pi_ops0].
    assert (d' = d) as -> by lia. by apply Ho.
  - intros d' c' E Es. apply list_lookup_insert_Some in E as [(E & -> & _)|[_ E]]; [by apply Hi|by eapply pi_init0].
  - intros d' c' E Hd' Es. apply list_lookup_insert_Some in E as [(E & -> & _)|[_ E]]; [|by eapply pi_run0].
    assert (d' = d) as -> by lia. by apply Hr.
Qed.

Lemma pm_inv_world k k' s w w' :
  pm_inv k s w -> (forall b, 0 <= k' b) -> (forall b, usage b w' = running s b + k' b) -> pm_inv k' s w'.
Proof. intros [] Hk Hu. by split. Qed.

(** The invariant with a count that grows only when [clean] fails. *)
Definition leaks (clean : Prop) (k : bus -> Z) s w : Prop :=
  exists k', pm_inv k' s w /\ (clean -> forall b, k' b = k b).

Lemma leaks_insert k n b (clean : Prop) s w w' d c :
  pm_inv k s w -> dev_bus d = Some b -> 0 <= d < 6 ->
  (forall o, ops c = Some o -> ops_ok d o) -> (state c = MY_PM_STATE_NOT_INIT -> ops c = None) ->
  0 <= n -> (clean -> n = 0) ->
  (forall b', usage b' w' = usage b' w - (if decide (b' = b) then
     running s b - (if decide (state c = MY_PM_STATE_RESUME) then 1 else 0) - n else 0)) ->
  leaks clean k (<[Z.to_nat d := c]> s) w'.
Proof.
  intros Hi Hb Hd Ho Hn H0 Hc Hu. exists (bump b n k). split.
  - eapply pm_inv_insert; try done.
    + intros b'. unfold bump. pose proof (pi_k _ _ _ Hi b'). destruct (decide (b' = b)); lia.
    + intros b'. rewrite Hu, (pi_usage _ _ _ Hi b'), running_insert by (done || apply Hi || lia).
      unfold bump. rewrite Hb. destruct (decide (b' = b)), (decide (Some b = Some b')); simplify_eq; lia.
  - intros Hcl b'. unfold bump. rewrite (Hc Hcl). destruct (decide (b' = b)); lia.
Qed.

Lemma leaks_world k n b (clean : Prop) s w w' :
  pm_inv k s w -> 0 <= n -> (clean -> n = 0) ->
  (forall b', usage b' w' = usage b' w + (if decide (b' = b) then n else 0)) -> leaks clean k s w'.
Proof.
  intros Hi H0 Hc Hu. exists (bump b n k). split.
  - eapply pm_inv_world; [done| |]; intros b'; unfold bump.
    + pose proof (pi_k _ _ _ Hi b'). destruct (decide (b' = b)); lia.
    + rewrite Hu, (pi_usage _ _ _ Hi b'). lia.
  - intros Hcl b'. unfold bump. rewrite (Hc Hcl). destruct (decide (b' = b)); lia.
Qed.

Lemma leaks_same k (clean : Prop) s w : pm_inv k s w -> leaks clean k s w.
Proof. intros Hi. by exists k. Qed.

Lemma resume_leaks k d s w :
  pm_inv k s w -> 0 <= d < 6 ->
  twp (my_pm_device_resume d)
    (fun r s' w' => leaks (puts_ok /\ (d = MY_PM_DEV_BATTERY -> forall c o, s !! Z.to_nat d = Some c -> ops c = Some o ->
       never_fails (ops_resume o))) k s' w') s w.
Proof.
  intros Hi Hd. unfold my_pm_device_resume. rewrite (proj2 (Z.leb_gt _ _)) by (unfold MY_PM_DEV_MAX; lia).
  tstep. apply ctx_at_twp; [apply Hi|done|]. intros c Ec. destruct (ops c) as [o|] eqn:Eo; [|by tstep; apply leaks_same].
  destruct (decide (state c = _)) as [E|E]; [by tstep; apply leaks_same|].
  case_bool_decide as Es; cbn [negb]; [|by tstep; apply leaks_same].
  tstep. eapply twp_mono; [apply resume_bus_twp|]. intros r s' w' (-> & Hr & Hu). tstep; bool2prop.
  { tstep. apply leaks_same. eapply pm_inv_world; [done|apply Hi|]. intros b. rewrite Hu, (pi_usage _ _ _ Hi b).
    destruct (decide _); lia. }
  destruct (Hr ltac:(lia)) as (b & Eb & Hb). clear Hr.
  assert (Hub : usage b w' = usage b w + 1) by (rewrite Hu, decide_True by done; lia).
  pose proof (pi_usage _ _ _ Hi b). pose proof (pi_k _ _ _ Hi b). pose proof (running_range s b).
  tstep. eapply twp_mono; [apply (callback_twp b); [by eapply (oo_resume d o); [eapply Hi|]; eauto; lia|lia]|].
  intros r1 s' w1 (-> & Hf & Hu1). tstep; bool2prop.
  - unfold rollback_bus. destruct (Z.eqb_spec d MY_PM_DEV_BATTERY).
    + tstep. eapply (leaks_world _ 1 b); [done|lia|intros [_ Hx]; specialize (Hf (Hx e _ _ Ec Eo)); lia|].
      intros b'. rewrite Hu1, Hu, Eb. destruct (decide (b' = b)), (decide (Some b = Some b')); by simplify_eq.
    + eapply twp_mono; [apply (suspend_bus_twp _ d b); [done|rewrite Hu1; lia]|].
      intros r2 s' w2 (-> & Hp & Hu2).
      eapply (leaks_world _ (if r2 <? 0 then 1 else 0) b); [done|zcase; lia| |].
      * intros [Hx _]. specialize (Hp Hb ltac:(intros; by eapply Hx)). zcase; lia.
      * intros b'. rewrite Hu2, Hu1, Hu, Eb.
        destruct (r2 <? 0), (decide (b' = b)), (decide (Some b = Some b')); simplify_eq; lia.
  - tstep. apply set_ctx_twp; [apply Hi|done|]. tstep. eapply (leaks_insert _ 0 b); try done.
    + intros o' [= <-]. by eapply Hi; eauto; lia.
    + intros b'. rewrite Hu1, Hu, Eb. cbn [state]. rewrite (decide_True (P := MY_PM_STATE_RESUME = _)) by done.
      assert (running s b = 0).
      { unfold running. by rewrite <- (dev_bus_dev _ _ Eb), Ec, decide_False by congruence. }
      destruct (decide (b' = b)), (decide (Some b = Some b')); simplify_eq; lia.
Qed.

Lemma suspend_leaks k d s w :
  pm_inv k s w -> 0 <= d < 6 -> twp (my_pm_device_suspend d) (fun r s' w' => leaks True k s' w') s w.
Proof.
  intros Hi Hd. unfold my_pm_device_suspend. rewrite (proj2 (Z.leb_gt _ _)) by (unfold MY_PM_DEV_MAX; lia).
  tstep. apply ctx_at_twp; [apply Hi|done|]. intros c Ec. destruct (ops c) as [o|] eqn:Eo; [|by tstep; apply leaks_same].
  destruct (decide (state c = _)) as [E|E]; [by tstep; apply leaks_same|].
  assert (Er : state c = MY_PM_STATE_RESUME).
  { destruct (state c) eqn:Es; try done. pose proof (pi_init _ _ _ Hi _ _ Ec Es). congruence. }
  destruct (pi_run _ _ _ Hi _ _ Ec ltac:(lia) Er) as [b Eb].
  assert (Hrun : running s b = 1) by (unfold running; by rewrite <- (dev_bus_dev _ _ Eb), Ec, decide_True).
  pose proof (pi_usage _ _ _ Hi b). pose proof (pi_k _ _ _ Hi b).
  pose proof (pi_ops _ _ _ Hi _ _ _ Ec ltac:(lia) Eo) as Ho.
  tstep. eapply twp_mono; [apply (callback_twp b); [by eapply Ho|lia]|]. intros r0 s' w1 (-> & _ & Hu1). tstep.
  { tstep. apply leaks_same. eapply pm_inv_world; [done|apply Hi|]. intros b'. by rewrite Hu1, (pi_usage _ _ _ Hi b'). }
  tstep. eapply twp_mono; [apply (suspend_bus_twp _ d b); [done|rewrite Hu1; lia]|]. intros r s' w2 (-> & _ & Hu2).
  tstep.
  - tstep. eapply twp_mono; [apply (callback_twp b); [by eapply Ho|]|].
    { rewrite Hu2, Hu1, decide_True by done. lia. }
    intros r1 s' w3 (-> & _ & Hu3). tstep. apply leaks_same. eapply pm_inv_world; [done|apply Hi|].
    intros b'. rewrite Hu3, Hu2, Hu1, (pi_usage _ _ _ Hi b'). destruct (decide _); lia.
  - tstep. apply set_ctx_twp; [apply Hi|done|]. tstep. eapply (leaks_insert _ 0 b); try done.
    + by intros o' [= <-].
    + intros b'. rewrite Hu2, Hu1, Hrun. cbn [state]. rewrite (decide_False (P := MY_PM_STATE_SUSPENDED = _)) by done.
      destruct (decide (b' = b)); lia.
Qed.

Lemma leaks_register k n (clean : Prop) s w w' d c :
  pm_inv k s w -> 0 <= d < 6 ->
  (forall o, ops c = Some o -> ops_ok d o) -> (state c = MY_PM_STATE_NOT_INIT -> ops c = None) ->
  state c <> MY_PM_STATE_RESUME -> 0 <= n ->
  (clean -> n = 0 /\ forall b, dev_bus d = Some b -> running s b = 0) ->
  (forall b', usage b' w' = usage b' w + (if decide (dev_bus d = Some b') then n else 0)) ->
  leaks clean k (<[Z.to_nat d := c]> s) w'.
Proof.
  intros Hi Hd Ho Hn Hs H0 Hc Hu. destruct (dev_bus d) as [b|] eqn:Eb.
  - eapply (leaks_insert _ (n + running s b) b); try done.
    + pose proof (running_range s b). lia.
    + intros Hcl. destruct (Hc Hcl) as [-> Hz]. by rewrite (Hz b).
    + intros b'. rewrite Hu, (decide_False (P := state c = _)) by done.
      destruct (decide (b' = b)), (decide (Some b = Some b')); simplify_eq; lia.
  - exists k. split; [|done]. eapply pm_inv_insert; try done; [apply Hi|].
    intros b'. rewrite Hu, (pi_usage _ _ _ Hi b'), running_insert, Eb by (done || apply Hi || lia).
    destruct (decide (None = Some b')); [done|lia].
Qed.

(** The last assignment of a registration. *)
Lemma register_end k d o c s w w' (r n : Z) :
  pm_inv k s w -> 0 <= d < 6 -> ops_ok d o ->
  (ops c = Some o /\ state c = MY_PM_STATE_SUSPENDED \/ ops c = None /\ state c = MY_PM_STATE_NOT_INIT) ->
  0 <= n -> (puts_ok -> n = 0) ->
  (forall b', usage b' w' = usage b' w + (if decide (dev_bus d = Some b') then n else 0)) ->
  twp (set_ctx d c ;; ret r)
    (fun r s' w' => leaks (puts_ok /\ forall b, dev_bus d = Some b -> running s b = 0) k s' w')
    (<[Z.to_nat d := mk_ctx MY_PM_STATE_NOT_INIT (Some o)]> s) w'.
Proof.
  intros Hi Hd Ho Hcs Hn0 Hn Hu. tstep. apply set_ctx_twp; [rewrite zlen_insert; apply Hi|done|]. tstep.
  rewrite list_insert_insert_eq. eapply (leaks_register _ n); try done; destruct Hcs as [[E1 E2]|[E1 E2]];
    rewrite ?E1, ?E2; try done; try (by intros o' [= <-]); intros [H1 H2]; by auto.
Qed.

Lemma register_leaks k d o s w :
  pm_inv k s w -> 0 <= d < 6 -> (forall o', o = Some o' -> ops_ok d o') ->
  twp (my_pm_device_register d o)
    (fun r s' w' => leaks (puts_ok /\ forall b, dev_bus d = Some b -> running s b = 0) k s' w') s w.
Proof.
  intros Hi Hd Ho. unfold my_pm_device_register. rewrite (proj2 (Z.leb_gt _ _)) by (unfold MY_PM_DEV_MAX; lia).
  destruct o as [o|]; [|by tstep; apply leaks_same]. specialize (Ho o eq_refl). pose proof (pi_len _ _ _ Hi) as Hl.
  tstep. apply set_ctx_twp; [done|done|]. destruct (ops_init o) as [init|] eqn:Ei.
  2: { apply (register_end _ _ _ _ _ w w _ 0); [done|done|done|by left|done|done|]. intros b'. destruct (decide _); lia. }
  tstep. destruct (oo_init _ _ Ho init w Ei) as (w1 & r1 & E1 & Hu1). apply twp_world_checked. exists w1, r1. split; [done|].
  tstep.
  { apply (register_end _ _ _ _ _ w w1 _ 0); [done|done|done|by right|done|done|]. intros b'. rewrite Hu1. destruct (decide _); lia. }
  tstep. eapply twp_mono; [apply resume_bus_twp|]. intros r2 s' w2 (-> & Hr2 & Hu2). tstep; bool2prop.
  { apply (register_end _ _ _ _ _ w w2 _ 0); [done|done|done|by right|done|done|]. intros b'. rewrite Hu2, Hu1. destruct (decide _); lia. }
  destruct (Hr2 ltac:(lia)) as (b & Eb & Hb). pose proof (pi_usage _ _ _ Hi b). pose proof (pi_k _ _ _ Hi b).
  pose proof (running_range s b).
  tstep. eapply twp_mono; [apply (suspend_bus_twp _ d b); [done|]|].
  { rewrite Hu2, Hu1, Eb, decide_True by done. lia. }
  intros r3 s' w3 (-> & Hp & Hu3). tstep; bool2prop.
  - apply (register_end _ _ _ _ _ w w3 _ 1); [done|done|done|by right|done|intros Hx; specialize (Hp Hb ltac:(intros; by eapply Hx)); lia|].
    intros b'. rewrite Hu3, Hu2, Hu1, Eb. destruct (decide (b' = b)), (decide (Some b = Some b')); simplify_eq; lia.
  - apply (register_end _ _ _ _ _ w w3 _ 0); [done|done|done|by left|done|done|].
    intros b'. rewrite Hu3, Hu2, Hu1, Eb. destruct (decide (b' = b)), (decide (Some b = Some b')); simplify_eq; lia.
Qed.

(** ** Sequences of calls *)

Inductive pm_op := Register (dev_id : Z) (o : option (pm_device_ops_t W)) | Resume (dev_id : Z) | Suspend (dev_id : Z).

Definition run_op (op : pm_op) : prog pm W Z :=
  match op with
  | Register d o => my_pm_device_register d o
  | Resume d => my_pm_device_resume d
  | Suspend d => my_pm_device_suspend d
  end.

Fixpoint run_ops (l : list pm_op) : prog pm W unit :=
  match l with
  | [] => ret tt
  | op :: l => run_op op ;; run_ops l
  end.

Definition op_dev (op : pm_op) : Z := match op with Register d _ | Resume d | Suspend d => d end.

Definition op_ok (op : pm_op) : Prop :=
  0 <= op_dev op /\ forall d o, op = Register d (Some o) -> ops_ok d o.

(** No failure leaves a bus on: switching off works, the battery's callback
    does not fail, a running device is not registered again. *)
Definition op_clean s (op : pm_op) : Prop :=
  puts_ok /\
  match op with
  | Register d _ => forall b, dev_bus d = Some b -> running s b = 0
  | Resume d => d = MY_PM_DEV_BATTERY -> forall c o, s !! Z.to_nat d = Some c -> ops c = Some o -> never_fails (ops_resume o)
  | Suspend _ => True
  end.

Lemma run_op_leaks k op s w :
  pm_inv k s w -> op_ok op -> twp (run_op op) (fun r s' w' => leaks (op_clean s op) k s' w') s w.
Proof.
  intros Hi [Hd Ho]. destruct (Z.leb_spec MY_PM_DEV_MAX (op_dev op)) as [Hm|Hm].
  - assert (run_op op = ret (- EINVAL)) as ->.
    { destruct op; cbn in *; unfold my_pm_device_register, my_pm_device_resume, my_pm_device_suspend;
        by rewrite (proj2 (Z.leb_le _ _) Hm). }
    tstep. by apply leaks_same.
  - unfold MY_PM_DEV_MAX in Hm. destruct op as [d o|d|d]; cbn [run_op op_dev op_clean] in *.
    + apply register_leaks; [done|lia|]. intros o' ->. by apply Ho.
    + apply resume_leaks; [done|lia].
    + eapply twp_mono; [apply (suspend_leaks k); [done|lia]|]. intros _ s' w' (k' & Hk & E). exists k'. by auto.
Qed.

Lemma run_ops_inv l k s w :
  pm_inv k s w -> Forall op_ok l -> twp (run_ops l) (fun _ s' w' => exists k', pm_inv k' s' w') s w.
Proof.
  revert k s w. induction l as [|op l IH]; intros k s w Hi Hl; cbn [run_ops]; [tstep; by exists k|].
  apply Forall_cons in Hl as [Ho Hl]. tstep. eapply twp_mono; [by eapply run_op_leaks|].
  intros _ s' w' (k' & Hk & _). by eapply IH.
Qed.

Lemma init_inv s w :
  (forall b, 0 <= usage b w) -> twp my_pm_init (fun _ s' w' => w' = w /\ pm_inv (fun b => usage b w) s' w') s w.
Proof.
  intros Hu. unfold my_pm_init. repeat tstep. split; [done|]. split; try done.
  - intros b. unfold running. destruct (_ !! Z.to_nat (bus_dev b)) as [c|] eqn:E; [|lia].
    apply lookup_replicate in E as [-> _]. by rewrite decide_False.
  - intros d c o E _. apply lookup_replicate in E as [-> _]. done.
  - intros d c E _. apply lookup_replicate in E as [-> _]. done.
  - intros d c E _. apply lookup_replicate in E as [-> _]. done.
Qed.

(** Whatever devices are registered, resumed and suspended, in any order and
    with any callback or bus failing, every call returns, no callback runs
    while its bus is off (the callbacks are only assumed to work with the
    bus on), and the bus of every device in the state RESUME is on. *)
Theorem pm_callbacks_powered (l : list pm_op) s w :
  (forall b, 0 <= usage b w) -> Forall op_ok l ->
  twp (my_pm_init ;; run_ops l)
    (fun _ s' w' => forall b, my_pm_device_get_state (bus_dev b) s' = Some MY_PM_STATE_RESUME -> 1 <= usage b w') s w.
Proof.
  intros Hu Hl. tstep. eapply twp_mono; [by apply init_inv|]. intros _ s1 w1 [-> Hi].
  eapply twp_mono; [by eapply run_ops_inv|].
  intros _ s2 w2 [k Hk] b Hs. rewrite (pi_usage _ _ _ Hk b). pose proof (pi_k _ _ _ Hk b).
  unfold my_pm_device_get_state in Hs. pose proof (bus_dev_range b).
  rewrite (proj2 (Z.leb_gt _ _)) in Hs by (unfold MY_PM_DEV_MAX; lia).
  destruct (arr_get s2 (bus_dev b)) as [c|] eqn:E; [|done]. injection Hs as Hs. apply arr_get_inv in E as [_ E].
  unfold running. rewrite E, decide_True by done. lia.
Qed.

Inductive pm_step : pm * W -> pm * W -> Prop :=
| pm_step_intro op s w r s' w' :
    op_ok op -> op_clean s op -> run_op op s w = Done (r, s', w') -> pm_step (s, w) (s', w').

Lemma pm_step_inv k s w s' w' :
  pm_step (s, w) (s', w') -> pm_inv k s w -> exists k', pm_inv k' s' w' /\ forall b, k' b = k b.
Proof.
  intros Hs Hi. inversion Hs as [op ? ? r ? ? Ho Hc E]; subst.
  pose proof (run_op_leaks _ _ _ _ Hi Ho) as H. unfold twp in H. rewrite E in H.
  destruct H as (k' & Hk & Hx). exists k'. by auto.
Qed.

(** C28: as long as switching a bus off works, the battery's resume callback
    does not fail and no running device is registered again, a bus is in use
    exactly while its device is in the state RESUME: neither a failing
    callback nor a repeated call leaves a bus on or switches it off twice. *)
Theorem pm_usage_exact w s' w' :
  (forall b, usage b w = 0) ->
  rtc pm_step (replicate 6 (mk_ctx MY_PM_STATE_NOT_INIT None), w) (s', w') ->
  forall b, usage b w' = if decide (my_pm_device_get_state (bus_dev b) s' = Some MY_PM_STATE_RESUME) then 1 else 0.
Proof.
  intros Hu Hr b.
  assert (exists k, pm_inv k s' w' /\ forall b, k b = 0) as (k & Hk & H0).
  { destruct (init_inv [] w) as [_ Hi]; [intros b'; rewrite Hu; lia|].
    assert (exists k, pm_inv k (replicate 6 (mk_ctx MY_PM_STATE_NOT_INIT None)) w /\ forall b, k b = 0) as H by by eexists.
    clear -Hr H. remember (_, w) as c0 eqn:E0. remember (s', w') as c1 eqn:E1. revert w E0 H.
    generalize (replicate 6 (mk_ctx MY_PM_STATE_NOT_INIT None) : pm).
    induction Hr as [c|c0 [s2 w2] c1 Hs _ IH]; intros s w -> (k & Hk & H0); [injection E1 as <- <-; by exists k|].
    destruct (pm_step_inv _ _ _ _ _ Hs Hk) as (k' & Hk' & E). eapply IH; try done. exists k'. split; [done|].
    intros b. by rewrite E. }
  rewrite (pi_usage _ _ _ Hk b), H0, Z.add_0_r. pose proof (bus_dev_range b). pose proof (pi_len _ _ _ Hk).
  unfold my_pm_device_get_state, running, arr_get.
  rewrite (proj2 (Z.leb_gt _ _)), (proj2 (Z.leb_le _ _)) by (unfold MY_PM_DEV_MAX; lia).
  destruct (s' !! _) as [c|]; [|by rewrite decide_False]. cbn.
  destruct (decide (state c = _)), (decide (Some (state c) = _)); congruence.
Qed.

(** A defect: when the resume callback of a device other than the battery
    fails and its bus can be switched off again, [my_pm_device_resume] reports
    success although the device stays suspended. *)
Theorem resume_failure_hidden d b c o f s w w1 r1 w2 r2 w3 r3 :
  dev_bus d = Some b -> d <> MY_PM_DEV_BATTERY -> has_bus b = true ->
  arr_get s d = Some c -> ops c = Some o -> state c = MY_PM_STATE_SUSPENDED -> ops_resume o = Some f ->
  pm_device_runtime_get b w = (w1, r1) -> 0 <= r1 -> f w1 = Some (w2, r2) -> r2 < 0 ->
  pm_device_runtime_put b w2 = (w3, r3) -> 0 <= r3 ->
  my_pm_device_resume d s w = Done (0, s, w3) /\ my_pm_device_get_state d s = Some MY_PM_STATE_SUSPENDED.
Proof.
  intros Hd Hb Hh Hc Ho Hs Hf H1 H1' H2 H2' H3 H3'.
  assert (MY_PM_DEV_MAX <=? d = false) as Hm by (rewrite (dev_bus_dev _ _ Hd); by destruct b).
  unfold my_pm_device_get_state. rewrite Hm, Hc. cbn. rewrite Hs. split; [|done].
  unfold my_pm_device_resume. rewrite Hm. unfold ctx_at, bind, get, checked, id. rewrite Hc, Ho, Hs.
  rewrite decide_False, bool_decide_eq_true_2 by done. cbn [negb].
  assert (resume_bus d = runtime_resume b) as -> by (rewrite (dev_bus_dev _ _ Hd); by destruct b).
  assert (rollback_bus d = runtime_suspend b) as ->
    by (rewrite (dev_bus_dev _ _ Hd) in *; by destruct b).
  rewrite Hf. unfold runtime_resume, runtime_suspend. rewrite Hh. cbn [negb callback].
  unfold bind, world, world_checked. rewrite H1, (proj2 (Z.ltb_ge _ _) H1'). cbn.
  rewrite H2, (proj2 (Z.ltb_lt _ _) H2'), H3. by rewrite (proj2 (Z.ltb_ge _ _) H3').
Qed.
End pm_proofs.

(** ** Invariants of the world that the callbacks keep *)

Section pm_keeps.
Context {W : Type} `{!PmRuntime W} (I : W -> Prop).
Notation pm := (list (pm_device_ctx_t W)).

Definition cb_keeps (c : option (W -> option (W * Z))) : Prop :=
  forall f w, c = Some f -> I w -> exists w' r, f w = Some (w', r) /\ I w'.

Record table_keeps (d : Z) (s : pm) : Prop := {
  tk_len : zlen s = 6;
  tk_ops c o : s !! Z.to_nat d = Some c -> ops c = Some o -> cb_keeps (ops_suspend o) /\ cb_keeps (ops_resume o)
}.

Hypothesis get_keeps : forall b w, I w -> I (fst (pm_device_runtime_get b w)).
Hypothesis put_keeps : forall b w, I w -> I (fst (pm_device_runtime_put b w)).

Lemma resume_bus_keeps d (s : pm) w : I w -> twp (resume_bus d) (fun _ s' w' => s' = s /\ I w') s w.
Proof.
  intros HI. assert (Hb : forall b, twp (runtime_resume b) (fun _ s' w' => s' = s /\ I w') s w).
  { intros b. unfold runtime_resume. tstep; [by tstep|]. tstep. apply twp_world. intros r w' E.
    pose proof (get_keeps b w HI) as H. rewrite E in H. tstep; by tstep. }
  unfold resume_bus. repeat (case_match; [by apply Hb|]). by tstep.
Qed.

Lemma suspend_bus_keeps other d (s : pm) w : I w -> twp (suspend_bus other d) (fun _ s' w' => s' = s /\ I w') s w.
Proof.
  intros HI. assert (Hb : forall b, twp (runtime_suspend b) (fun _ s' w' => s' = s /\ I w') s w).
  { intros b. unfold runtime_suspend. tstep; [by tstep|]. tstep. apply twp_world. intros r w' E.
    pose proof (put_keeps b w HI) as H. rewrite E in H. tstep; by tstep. }
  unfold suspend_bus. repeat (case_match; [by apply Hb|]). by tstep.
Qed.

Lemma callback_keeps c (s : pm) w : cb_keeps c -> I w -> twp (callback c) (fun _ s' w' => s' = s /\ I w') s w.
Proof.
  intros Hc HI. unfold callback. destruct c as [f|]; [|by tstep].
  destruct (Hc f w eq_refl HI) as (w' & r & E & H'). apply twp_world_checked. by exists w', r.
Qed.

Lemma table_same d c o (s : pm) st :
  s !! Z.to_nat d = Some c -> ops c = Some o -> ops <$> <[Z.to_nat d := mk_ctx st (Some o)]> s = ops <$> s.
Proof.
  intros Ec Eo. rewrite list_fmap_insert. apply list_insert_id. by rewrite list_lookup_fmap, Ec, <- Eo.
Qed.

Lemma resume_keeps d s w :
  0 <= d < 6 -> table_keeps d s -> I w -> twp (my_pm_device_resume d) (fun _ s' w' => ops <$> s' = ops <$> s /\ I w') s w.
Proof.
  intros Hd Hs HI. unfold my_pm_device_resume. tstep; [by tstep|]. tstep. apply ctx_at_twp; [apply Hs|done|]. intros c Ec.
  destruct (ops c) as [o|] eqn:Eo; [|by tstep]. destruct (decide _); [by tstep|]. tstep; [by tstep|].
  tstep. eapply twp_mono; [by apply resume_bus_keeps|]. intros r s' w' [-> HI']. tstep; [by tstep|].
  destruct (tk_ops _ _ Hs _ _ Ec Eo) as [_ Hr]. tstep. eapply twp_mono; [by apply callback_keeps|].
  intros r1 s' w1 [-> HI1]. tstep.
  - unfold rollback_bus. tstep; [by tstep|]. eapply twp_mono; [by apply suspend_bus_keeps|]. by intros r2 s' w2 [-> HI2].
  - tstep. apply set_ctx_twp; [apply Hs|done|]. tstep. split; [by eapply table_same|done].
Qed.

Lemma suspend_keeps d s w :
  0 <= d < 6 -> table_keeps d s -> I w -> twp (my_pm_device_suspend d) (fun _ s' w' => ops <$> s' = ops <$> s /\ I w') s w.
Proof.
  intros Hd Hs HI. unfold my_pm_device_suspend. tstep; [by tstep|]. tstep. apply ctx_at_twp; [apply Hs|done|]. intros c Ec.
  destruct (ops c) as [o|] eqn:Eo; [|by tstep]. destruct (decide _); [by tstep|].
  destruct (tk_ops _ _ Hs _ _ Ec Eo) as [Hp Hr]. tstep. eapply twp_mono; [by apply callback_keeps|].
  intros r s' w' [-> HI']. tstep; [by tstep|]. tstep. eapply twp_mono; [by apply suspend_bus_keeps|].
  intros r1 s' w1 [-> HI1]. tstep.
  - tstep. eapply twp_mono; [by apply callback_keeps|]. intros r2 s' w2 [-> HI2]. by tstep.
  - tstep. apply set_ctx_twp; [apply Hs|done|]. tstep. split; [by eapply table_same|done].
Qed.
End pm_keeps.

(** ** A world of usage counts *)

Module Counts.
Definition world := bus -> Z.

Definition add (b : bus) (n : Z) (w : world) : world := fun b' => w b' + (if decide (b' = b) then n else 0).

#[export] Instance counts_runtime : PmRuntime world := {|
  has_bus _ := true;
  pm_device_runtime_get b w := (add b 1 w, 0);
  pm_device_runtime_put b w := (add b (-1) w, 0)
|}.

#[export] Program Instance counts_laws : PmRuntimeLaws world := {| usage b w := w b |}.
Next Obligation. intros b w w' r [= <- <-] b'. unfold add. cbn. destruct (decide _); lia. Qed.
Next Obligation. intros b w w' r [= <- <-] _ b'. unfold add. cbn. destruct (decide _); lia. Qed.

(** A device whose resume callback fails, and one that needs its bus. *)
Definition broken : pm_device_ops_t world := mk_ops None (Some (fun w => Some (w, -5))) None.
Definition uart : pm_device_ops_t world :=
  mk_ops (Some (fun w => if 1 <=? w LTE_UART then Some (w, 0) else None))
    (Some (fun w => if 1 <=? w LTE_UART then Some (w, 0) else None)) (Some (fun w => Some (w, 0))).
Definition off : world := fun _ => 0.

Lemma uart_ok : ops_ok MY_PM_DEV_LTE uart.
Proof.
  split.
  - intros b [= <-] f w [= <-] Hu. exists w, 0. change (1 <= w LTE_UART) in Hu. by rewrite (proj2 (Z.leb_le _ _) Hu).
  - intros b [= <-] f w [= <-] Hu. exists w, 0. change (1 <= w LTE_UART) in Hu. by rewrite (proj2 (Z.leb_le _ _) Hu).
  - intros f w [= <-]. by exists w, 0.
Qed.

Definition calls : list (pm_op (W := world)) :=
  [Register MY_PM_DEV_LTE (Some uart); Resume MY_PM_DEV_LTE; Resume MY_PM_DEV_LTE; Suspend MY_PM_DEV_LTE; Resume MY_PM_DEV_LTE].

Lemma pm_callbacks_powered_witness :
  twp (my_pm_init ;; run_ops calls)
    (fun _ s' w' => forall b, my_pm_device_get_state (bus_dev b) s' = Some MY_PM_STATE_RESUME -> 1 <= usage b w') [] off.
Proof.
  apply (pm_callbacks_powered calls [] off); [done|].
  repeat (apply Forall_cons; split; [split; [done|intros d o [=]; subst; apply uart_ok]|]). apply Forall_nil_2.
Defined.

Lemma uart_registered : exists (s : list (pm_device_ctx_t world)) (w : world), rtc pm_step (replicate 6 (mk_ctx MY_PM_STATE_NOT_INIT None), off) (s, w)
  /\ my_pm_device_get_state MY_PM_DEV_LTE s = Some MY_PM_STATE_RESUME.
Proof.
  assert (Hp : puts_ok (W := world)) by (intros b w w' r [= _ <-]; done).
  eexists _, _. split.
  - eapply rtc_l.
    { eapply (pm_step_intro (Register MY_PM_DEV_LTE (Some uart))); [|split; [done|]|reflexivity].
      - split; [done|]. intros d o [= <- <-]. apply uart_ok.
      - by intros b [= <-]. }
    eapply rtc_l; [|apply rtc_refl].
    eapply (pm_step_intro (Resume MY_PM_DEV_LTE)); [by split|by split|reflexivity].
  - reflexivity.
Qed.

Lemma pm_usage_exact_witness : exists (s : list (pm_device_ctx_t world)) (w : world),
  my_pm_device_get_state MY_PM_DEV_LTE s = Some MY_PM_STATE_RESUME /\ w LTE_UART = 1.
Proof.
  destruct uart_registered as (s & w & Hr & Hs). exists s, w. split; [done|].
  pose proof (pm_usage_exact off s w (fun _ => eq_refl) Hr LTE_UART) as H. cbn [usage counts_laws bus_dev] in H.
  rewrite H. by rewrite decide_True.
Defined.

Lemma resume_failure_hidden_witness : exists (s : list (pm_device_ctx_t world)) (w : world),
  my_pm_device_resume MY_PM_DEV_PWM s off = Done (0, s, w)
  /\ my_pm_device_get_state MY_PM_DEV_PWM s = Some MY_PM_STATE_SUSPENDED.
Proof.
  exists (<[5%nat := mk_ctx MY_PM_STATE_SUSPENDED (Some broken)]> (replicate 6 (mk_ctx MY_PM_STATE_NOT_INIT None))).
  eexists. eapply (resume_failure_hidden MY_PM_DEV_PWM BUZZER_PWM); [done|done|done|reflexivity|done|done|reflexivity|..];
    (reflexivity || lia).
Defined.
End Counts.
