(* ===== verification/Lte.v ===== *)
(** * The LTE module's thread ([src/my_lte.c])

    Text messages for the LTE module come from the other threads as blocks of
    the heap, wait in a queue while the module starts, and leave through the
    UART, which is suspended when idle.  The file models the UART with its
    interrupt, the queue of waiting messages with the heap blocks it owns, the
    assembly of received lines and the message loop of the thread. *)

From stdpp Require Import gmap.
From S2P Require Import Prelude Text Prog RingBuf Pm.

Open Scope prog_scope.

Definition UART_TX_BUFFER_SIZE : Z := 1024.
Definition LTE_UART_TX_WAIT_MS : Z := 200.
Definition LTE_UART_SEND_WAKEUP_WINDOW_MS : Z := 2500.
Definition LTE_MSG_QUEUE_SIZE : Z := 10.
Definition LTE_MSGQ_LEN : Z := 10.
Definition MAX_CMD_LEN : Z := 128.

Definition EAGAIN : Z := 11.
Definition ENOMEM : Z := 12.
Definition EFAULT : Z := 14.
Definition EBUSY : Z := 16.

(** ** State *)

Inductive msg_id :=
| MY_MSG_LTE_TX_DONE | MY_MSG_LTE_TX_ABORTED | MY_MSG_LTE_UART_IDLE | MY_MSG_LTE_PWRON | MY_MSG_LTE_PWROFF
| MY_MSG_LTE_REV | MY_MSG_LTE_BLE_DATA | MY_MSG_RETRANS_CHECK | MY_MSG_ADD_RETRANS_QUEUE | MY_MSG_LTE_PULSE
| MY_MSG_LTE_WAKEUP.

#[export] Instance msg_id_eq_dec : EqDecision msg_id.
Proof. solve_decision. Defined.

(** A pointer into the heap. *)
Notation ptr := positive.

Record msg_t := mk_msg { msgID : msg_id; pData : option ptr; DataLen : Z }.

Record lte_pending_msg_t := mk_pending { msg_content : option ptr; msg_len : Z }.
Record lte_msg_queue_t := mk_queue {
  queue : list lte_pending_msg_t;
  q_head : Z;
  q_tail : Z;
  q_count : Z
}.

Record lte_uart_ctx_t := mk_uart_ctx {
  idle_timer : bool;
  send_wakeup_expire_timestamp_ms : Z;
  active : bool;
  tx_busy : bool;
  wakeup_pending : bool
}.

Inductive rx_buf := s_lte_rx_buf_1 | s_lte_rx_buf_2.

(** The transmission in progress: what the driver reads from. *)
Inductive tx_src := TxWake | TxData (len : Z).

(** The receiver of the driver, with the buffer being filled and the next one. *)
Inductive rx_state := RxOff | RxOn (cur : rx_buf) (next : option rx_buf) | RxStopping.

(** [tx], [rx] and [line] are the UART driver: the transmission in progress, the
    receiver, and what has left through the line; [command] and [cmd_index] are
    the static variables of [my_lte_handle_recv]. *)
Record lte := mk_lte {
  s_lte_uart_ctx : lte_uart_ctx_t;
  s_TxDoneSem : Z;
  s_sendDataBuf : list Z;
  lte_next_buf : rx_buf;
  s_lte_rb : ring_buffer_t;
  my_lte_msgq : list msg_t;
  s_lte_msg_queue : lte_msg_queue_t;
  s_lte_power_state : bool;
  g_bLteReady : bool;
  g_lte_ota_in_progress : bool;
  s_lte_factory : bool;
  heap : gmap ptr (list Z);
  tx : option tx_src;
  rx : rx_state;
  line : list (list Z);
  command : list Z;
  cmd_index : Z
}.

Definition set_uart_ctx (c : lte_uart_ctx_t) (s : lte) : lte :=
  mk_lte c (s_TxDoneSem s) (s_sendDataBuf s) (lte_next_buf s) (s_lte_rb s) (my_lte_msgq s) (s_lte_msg_queue s)
    (s_lte_power_state s) (g_bLteReady s) (g_lte_ota_in_progress s) (s_lte_factory s) (heap s) (tx s) (rx s) (line s)
    (command s) (cmd_index s).
Definition set_sem (n : Z) (s : lte) : lte :=
  mk_lte (s_lte_uart_ctx s) n (s_sendDataBuf s) (lte_next_buf s) (s_lte_rb s) (my_lte_msgq s) (s_lte_msg_queue s)
    (s_lte_power_state s) (g_bLteReady s) (g_lte_ota_in_progress s) (s_lte_factory s) (heap s) (tx s) (rx s) (line s)
    (command s) (cmd_index s).
Definition set_sendbuf (b : list Z) (s : lte) : lte :=
  mk_lte (s_lte_uart_ctx s) (s_TxDoneSem s) b (lte_next_buf s) (s_lte_rb s) (my_lte_msgq s) (s_lte_msg_queue s)
    (s_lte_power_state s) (g_bLteReady s) (g_lte_ota_in_progress s) (s_lte_factory s) (heap s) (tx s) (rx s) (line s)
    (command s) (cmd_index s).
Definition set_rx (b : rx_buf) (r : rx_state) (s : lte) : lte :=
  mk_lte (s_lte_uart_ctx s) (s_TxDoneSem s) (s_sendDataBuf s) b (s_lte_rb s) (my_lte_msgq s) (s_lte_msg_queue s)
    (s_lte_power_state s) (g_bLteReady s) (g_lte_ota_in_progress s) (s_lte_factory s) (heap s) (tx s) r (line s)
    (command s) (cmd_index s).
Definition set_rb (rb : ring_buffer_t) (s : lte) : lte :=
  mk_lte (s_lte_uart_ctx s) (s_TxDoneSem s) (s_sendDataBuf s) (lte_next_buf s) rb (my_lte_msgq s) (s_lte_msg_queue s)
    (s_lte_power_state s) (g_bLteReady s) (g_lte_ota_in_progress s) (s_lte_factory s) (heap s) (tx s) (rx s) (line s)
    (command s) (cmd_index s).
Definition set_msgq (q : list msg_t) (s : lte) : lte :=
  mk_lte (s_lte_uart_ctx s) (s_TxDoneSem s) (s_sendDataBuf s) (lte_next_buf s) (s_lte_rb s) q (s_lte_msg_queue s)
    (s_lte_power_state s) (g_bLteReady s) (g_lte_ota_in_progress s) (s_lte_factory s) (heap s) (tx s) (rx s) (line s)
    (command s) (cmd_index s).
Definition set_queue (q : lte_msg_queue_t) (s : lte) : lte :=
  mk_lte (s_lte_uart_ctx s) (s_TxDoneSem s) (s_sendDataBuf s) (lte_next_buf s) (s_lte_rb s) (my_lte_msgq s) q
    (s_lte_power_state s) (g_bLteReady s) (g_lte_ota_in_progress s) (s_lte_factory s) (heap s) (tx s) (rx s) (line s)
    (command s) (cmd_index s).
Definition set_power (p r : bool) (s : lte) : lte :=
  mk_lte (s_lte_uart_ctx s) (s_TxDoneSem s) (s_sendDataBuf s) (lte_next_buf s) (s_lte_rb s) (my_lte_msgq s)
    (s_lte_msg_queue s) p r (g_lte_ota_in_progress s) (s_lte_factory s) (heap s) (tx s) (rx s) (line s)
    (command s) (cmd_index s).
Definition set_factory (b : bool) (s : lte) : lte :=
  mk_lte (s_lte_uart_ctx s) (s_TxDoneSem s) (s_sendDataBuf s) (lte_next_buf s) (s_lte_rb s) (my_lte_msgq s)
    (s_lte_msg_queue s) (s_lte_power_state s) (g_bLteReady s) (g_lte_ota_in_progress s) b (heap s) (tx s) (rx s) (line s)
    (command s) (cmd_index s).
Definition set_ota (b : bool) (s : lte) : lte :=
  mk_lte (s_lte_uart_ctx s) (s_TxDoneSem s) (s_sendDataBuf s) (lte_next_buf s) (s_lte_rb s) (my_lte_msgq s)
    (s_lte_msg_queue s) (s_lte_power_state s) (g_bLteReady s) b (s_lte_factory s) (heap s) (tx s) (rx s) (line s)
    (command s) (cmd_index s).
Definition set_heap (h : gmap ptr (list Z)) (s : lte) : lte :=
  mk_lte (s_lte_uart_ctx s) (s_TxDoneSem s) (s_sendDataBuf s) (lte_next_buf s) (s_lte_rb s) (my_lte_msgq s)
    (s_lte_msg_queue s) (s_lte_power_state s) (g_bLteReady s) (g_lte_ota_in_progress s) (s_lte_factory s) h (tx s) (rx s)
    (line s) (command s) (cmd_index s).
Definition set_tx (t : option tx_src) (l : list (list Z)) (s : lte) : lte :=
  mk_lte (s_lte_uart_ctx s) (s_TxDoneSem s) (s_sendDataBuf s) (lte_next_buf s) (s_lte_rb s) (my_lte_msgq s)
    (s_lte_msg_queue s) (s_lte_power_state s) (g_bLteReady s) (g_lte_ota_in_progress s) (s_lte_factory s) (heap s) t (rx s) l
    (command s) (cmd_index s).

Definition set_command (b : list Z) (i : Z) (s : lte) : lte :=
  mk_lte (s_lte_uart_ctx s) (s_TxDoneSem s) (s_sendDataBuf s) (lte_next_buf s) (s_lte_rb s) (my_lte_msgq s) (s_lte_msg_queue s)
    (s_lte_power_state s) (g_bLteReady s) (g_lte_ota_in_progress s) (s_lte_factory s) (heap s) (tx s) (rx s) (line s) b i.

Definition set_active (b : bool) (s : lte) : lte :=
  let c := s_lte_uart_ctx s in
  set_uart_ctx (mk_uart_ctx (idle_timer c) (send_wakeup_expire_timestamp_ms c) b (tx_busy c) (wakeup_pending c)) s.
Definition set_tx_busy (b : bool) (s : lte) : lte :=
  let c := s_lte_uart_ctx s in
  set_uart_ctx (mk_uart_ctx (idle_timer c) (send_wakeup_expire_timestamp_ms c) (active c) b (wakeup_pending c)) s.
Definition set_wakeup_pending (b : bool) (s : lte) : lte :=
  let c := s_lte_uart_ctx s in
  set_uart_ctx (mk_uart_ctx (idle_timer c) (send_wakeup_expire_timestamp_ms c) (active c) (tx_busy c) b) s.
Definition set_expire (t : Z) (s : lte) : lte :=
  let c := s_lte_uart_ctx s in
  set_uart_ctx (mk_uart_ctx (idle_timer c) t (active c) (tx_busy c) (wakeup_pending c)) s.
Definition set_idle_timer (b : bool) (s : lte) : lte :=
  let c := s_lte_uart_ctx s in
  set_uart_ctx (mk_uart_ctx b (send_wakeup_expire_timestamp_ms c) (active c) (tx_busy c) (wakeup_pending c)) s.

Inductive uart_event :=
| UART_TX_DONE
| UART_TX_ABORTED (sent : Z)
| UART_RX_RDY (data : list Z)
| UART_RX_BUF_REQUEST
| UART_RX_BUF_RELEASED (b : rx_buf)
| UART_RX_DISABLED.

(** The clock, the heap's answer to an allocation, the UART driver, the power
    pin, the flag of a running update, and the UART events while the thread
    sleeps; [sleep] is told whether a transmission is in progress. *)
Class LteHw (W : Type) := {
  k_uptime_get : W -> Z;
  k_malloc : Z -> W -> W * bool;
  uart_tx_start : W -> W * Z;
  rx_enable : W -> W * Z;
  rx_disable : W -> W * Z;
  gpio_pin_set_dt : bool -> W -> W * Z;
  my_ota_flash_is_busy : W -> bool;
  sleep : Z -> bool -> W -> W * list uart_event
}.

Section uart.
Context {W : Type} `{!LteHw W}.

(** ** Messages and the heap *)

(** [my_send_msg_data] to the queue of the LTE thread: [k_msgq_put] without
    waiting, its result ignored. *)
Definition my_send_msg_data (m : msg_t) : prog lte W unit :=
  modify (fun s => if zlen (my_lte_msgq s) <? LTE_MSGQ_LEN then set_msgq (my_lte_msgq s ++ [m]) s else s).

Definition my_send_msg (id : msg_id) : prog lte W unit := my_send_msg_data (mk_msg id None 0).

Definition MY_MALLOC_BUFFER (n : Z) : prog lte W (option ptr) :=
  ok <- world (k_malloc n) ;;
  if ok : bool
  then
    h <- get heap ;;
    let p := fresh (dom h) in
    modify (set_heap (<[p := replicate (Z.to_nat n) 0]> h)) ;;
    ret (Some p)
  else ret None.

Definition MY_FREE_BUFFER (p : ptr) : prog lte W unit :=
  h <- get heap ;;
  checked (h !! p) ;;
  modify (set_heap (delete p h)).

Definition store (p : ptr) (off : Z) (bytes : list Z) : prog lte W unit :=
  h <- get heap ;;
  b <- checked (h !! p) ;;
  b <- checked (arr_blit b off bytes) ;;
  modify (set_heap (<[p := b]> h)).

Definition load (p : ptr) : prog lte W (list Z) :=
  h <- get heap ;; checked (h !! p).

(** ** The UART driver and its interrupt *)

Definition wake_byte : list Z := [170; 13; 10].

Definition tx_bytes (s : lte) (t : tx_src) : list Z :=
  match t with
  | TxWake => wake_byte
  | TxData len => take (Z.to_nat len) (s_sendDataBuf s)
  end.

(** What the driver does before it calls the callback: a transmission that
    ends has sent what its buffer holds. *)
Definition driver (e : uart_event) (s : lte) : lte :=
  match e with
  | UART_TX_DONE =>
      match tx s with Some t => set_tx None (line s ++ [tx_bytes s t]) s | None => s end
  | UART_TX_ABORTED n =>
      match tx s with Some t => set_tx None (line s ++ [take (Z.to_nat n) (tx_bytes s t)]) s | None => s end
  | UART_RX_BUF_RELEASED b =>
      match rx s with
      | RxOn cur (Some n) =>
          match b, cur with
          | s_lte_rx_buf_1, s_lte_rx_buf_1 | s_lte_rx_buf_2, s_lte_rx_buf_2 => set_rx (lte_next_buf s) (RxOn n None) s
          | _, _ => s
          end
      | _ => s
      end
  | UART_RX_DISABLED => set_rx (lte_next_buf s) RxOff s
  | UART_RX_RDY _ | UART_RX_BUF_REQUEST => s
  end.

Definition uart_rx_enable (b : rx_buf) : prog lte W Z :=
  s <- get id ;;
  match rx s with
  | RxOff =>
      r <- world rx_enable ;;
      if r =? 0 then modify (set_rx (lte_next_buf s) (RxOn b None)) ;; ret r else ret r
  | _ => ret (- EBUSY)
  end.

Definition uart_rx_disable : prog lte W Z :=
  s <- get id ;;
  match rx s with
  | RxOn _ _ =>
      r <- world rx_disable ;;
      if r =? 0 then modify (set_rx (lte_next_buf s) RxStopping) ;; ret r else ret r
  | _ => ret (- EFAULT)
  end.

Definition uart_rx_buf_rsp (b : rx_buf) : prog lte W unit :=
  modify (fun s => match rx s with RxOn cur None => set_rx (lte_next_buf s) (RxOn cur (Some b)) s | _ => s end).

Definition uart_tx (t : tx_src) : prog lte W Z :=
  s <- get id ;;
  match tx s with
  | Some _ => ret (- EBUSY)
  | None =>
      r <- world uart_tx_start ;;
      if r =? 0 then modify (set_tx (Some t) (line s)) ;; ret r else ret r
  end.

(** The semaphore has a limit of 1. *)
Definition k_sem_give : prog lte W unit := modify (fun s => set_sem (Z.min 1 (s_TxDoneSem s + 1)) s).

Definition lte_uart_cb (e : uart_event) : prog lte W unit :=
  match e with
  | UART_TX_DONE => my_send_msg MY_MSG_LTE_TX_DONE ;; k_sem_give
  | UART_RX_RDY data =>
      rb <- get s_lte_rb ;;
      r <- checked (my_rb_write rb data (zlen data)) ;;
      modify (set_rb (fst r)) ;;
      my_send_msg MY_MSG_LTE_REV
  | UART_RX_BUF_REQUEST => b <- get lte_next_buf ;; uart_rx_buf_rsp b
  | UART_RX_BUF_RELEASED b => modify (fun s => set_rx b (rx s) s)
  | UART_RX_DISABLED =>
      a <- get (fun s => active (s_lte_uart_ctx s)) ;;
      if a : bool
      then
        modify (fun s => set_rx s_lte_rx_buf_2 (rx s) s) ;;
        uart_rx_enable s_lte_rx_buf_1 ;;
        ret tt
      else ret tt
  | UART_TX_ABORTED _ => my_send_msg MY_MSG_LTE_TX_ABORTED ;; k_sem_give
  end.

Definition isr (e : uart_event) : prog lte W unit := modify (driver e) ;; lte_uart_cb e.

Fixpoint isrs (evs : list uart_event) : prog lte W unit :=
  match evs with
  | [] => ret tt
  | e :: evs => isr e ;; isrs evs
  end.

Definition in_progress (s : lte) : bool := match tx s with Some _ => true | None => false end.

Definition k_sleep (ms : Z) : prog lte W unit :=
  busy <- get in_progress ;;
  evs <- world (sleep ms busy) ;;
  isrs evs.

Definition k_sem_take (ms : Z) : prog lte W Z :=
  n <- get s_TxDoneSem ;;
  if 0 <? n then modify (set_sem (n - 1)) ;; ret 0
  else
    k_sleep ms ;;
    n <- get s_TxDoneSem ;;
    if 0 <? n then modify (set_sem (n - 1)) ;; ret 0 else ret (- EAGAIN).

(** The interrupt of the wake-up pin. *)
Definition lte_wake_pin_isr : prog lte W unit :=
  p <- get (fun s => wakeup_pending (s_lte_uart_ctx s)) ;;
  if negb p then modify (set_wakeup_pending true) ;; my_send_msg MY_MSG_LTE_WAKEUP else ret tt.

Definition lte_uart_idle_timer_handler : prog lte W unit := my_send_msg MY_MSG_LTE_UART_IDLE.

(** ** Suspending and resuming *)

Definition lte_pm_init : prog lte W Z :=
  modify (set_uart_ctx (mk_uart_ctx false 0 false false false)) ;; ret 0.

Definition lte_pm_suspend : prog lte W Z :=
  modify (set_active false) ;;
  r <- uart_rx_disable ;;
  if negb (r =? 0) && negb (r =? - EFAULT) && negb (r =? - EINVAL) && negb (r =? - EBUSY)
  then modify (set_active true) ;; ret r
  else ret 0.

Definition lte_pm_resume : prog lte W Z :=
  modify (fun s => set_rx s_lte_rx_buf_2 (rx s) s) ;;
  r <- uart_rx_enable s_lte_rx_buf_1 ;;
  if negb (r =? 0) && negb (r =? - EBUSY) then ret r
  else modify (set_active true) ;; ret 0.

Definition pm_callback (m : prog lte W Z) (sw : lte * W) : option (lte * W * Z) :=
  match m (fst sw) (snd sw) with
  | Done (r, s, w) => Some (s, w, r)
  | _ => None
  end.

Definition lte_pm_ops : pm_device_ops_t (lte * W) :=
  mk_ops (Some (pm_callback lte_pm_suspend)) (Some (pm_callback lte_pm_resume)) (Some (pm_callback lte_pm_init)).

Definition lte_uart_activity_kick : prog lte W unit :=
  modify (fun s => if active (s_lte_uart_ctx s) then set_idle_timer true s else s).

Definition lte_uart_send_wakeup_window_kick : prog lte W unit :=
  now <- world (fun w => (w, k_uptime_get w)) ;;
  modify (set_expire (now + LTE_UART_SEND_WAKEUP_WINDOW_MS)).

Definition lte_uart_need_send_wakeup : prog lte W bool :=
  now <- world (fun w => (w, k_uptime_get w)) ;;
  t <- get (fun s => send_wakeup_expire_timestamp_ms (s_lte_uart_ctx s)) ;;
  ret (t <=? now).

Definition lte_uart_can_suspend : prog lte W bool :=
  s <- get id ;;
  busy <- world (fun w => (w, my_ota_flash_is_busy w)) ;;
  if g_lte_ota_in_progress s || busy then ret false
  else
    used <- checked (my_rb_get_used_size (Some (s_lte_rb s))) ;;
    ret ((q_count (s_lte_msg_queue s) =? 0) && negb (0 <? used) && negb (tx_busy (s_lte_uart_ctx s))).

Definition my_lte_uart_flush : prog lte W unit :=
  modify (fun s => set_rb (default (s_lte_rb s) (my_rb_clear (Some (s_lte_rb s)))) s).

Definition my_lte_pwr_on (on : bool) : prog lte W Z :=
  p <- get s_lte_power_state ;;
  if Bool.eqb p on then ret 0
  else
    err <- world (gpio_pin_set_dt on) ;;
    if err =? 0 then modify (fun s => set_power on (g_bLteReady s) s) ;; ret err else ret err.

(** ** The queue of waiting messages *)

Definition my_lte_msg_queue_init : prog lte W Z :=
  modify (fun s => set_queue (mk_queue (queue (s_lte_msg_queue s)) 0 0 0) s) ;; ret 0.

(** Freeing the block of a slot and clearing its pointer. *)
Definition drop_slot (i : Z) : prog lte W unit :=
  q <- get s_lte_msg_queue ;;
  m <- checked (arr_get (queue q) i) ;;
  match msg_content m with
  | Some p =>
      MY_FREE_BUFFER p ;;
      l <- checked (arr_set (queue q) i (mk_pending None (msg_len m))) ;;
      modify (set_queue (mk_queue l (q_head q) (q_tail q) (q_count q)))
  | None => ret tt
  end.

(** [head] moves on, [count] goes down. *)
Definition advance_head : prog lte W unit :=
  modify (fun s =>
    let q := s_lte_msg_queue s in
    set_queue (mk_queue (queue q) (u8 ((q_head q + 1) mod LTE_MSG_QUEUE_SIZE)) (q_tail q) (u8 (q_count q - 1))) s).

Definition my_lte_enqueue_msg (content : option (list Z)) (len : Z) : prog lte W Z :=
  match content with
  | None => ret (- EINVAL)
  | Some content =>
      if len =? 0 then ret (- EINVAL)
      else
        q <- get s_lte_msg_queue ;;
        (if LTE_MSG_QUEUE_SIZE <=? q_count q then drop_slot (q_head q) ;; advance_head else ret tt) ;;
        new_msg <- MY_MALLOC_BUFFER (len + 1) ;;
        match new_msg with
        | None => ret (- ENOMEM)
        | Some p =>
            bytes <- checked (arr_slice content 0 len) ;;
            store p 0 bytes ;;
            store p len [0] ;;
            q <- get s_lte_msg_queue ;;
            l <- checked (arr_set (queue q) (q_tail q) (mk_pending (Some p) len)) ;;
            modify (set_queue (mk_queue l (q_head q) (u8 ((q_tail q + 1) mod LTE_MSG_QUEUE_SIZE)) (u8 (q_count q + 1)))) ;;
            ret 0
        end
  end.

(** The loop of [my_lte_msg_queue_clear] from slot [i] on. *)
Fixpoint clear_loop (n : nat) (i : Z) : prog lte W unit :=
  match n with
  | O => ret tt
  | S n =>
      drop_slot i ;;
      q <- get s_lte_msg_queue ;;
      m <- checked (arr_get (queue q) i) ;;
      l <- checked (arr_set (queue q) i (mk_pending (msg_content m) 0)) ;;
      modify (set_queue (mk_queue l (q_head q) (q_tail q) (q_count q))) ;;
      clear_loop n (i + 1)
  end.

Definition my_lte_msg_queue_clear : prog lte W unit :=
  clear_loop (Z.to_nat LTE_MSG_QUEUE_SIZE) 0 ;;
  modify (fun s => set_queue (mk_queue (queue (s_lte_msg_queue s)) 0 0 0) s).
End uart.

(** ** Calls through the power management

    The state of the LTE module is the world of its power management
    callbacks. *)

#[export] Instance lte_pm_runtime {W} `{!PmRuntime W} : PmRuntime (lte * W) := {|
  has_bus := has_bus;
  pm_device_runtime_get b sw := let '(w, r) := pm_device_runtime_get b (snd sw) in (fst sw, w, r);
  pm_device_runtime_put b sw := let '(w, r) := pm_device_runtime_put b (snd sw) in (fst sw, w, r)
|}.

Section lte.
Context {W : Type} `{!LteHw W} `{!PmRuntime W}.

(** The table of [my_pm.c] and the rest of the world. *)
Notation PW := (list (pm_device_ctx_t (lte * W)) * W)%type.

Definition lift {A} (m : prog lte W A) : prog lte PW A := fun s tw =>
  match m s (snd tw) with
  | Done (a, s', w') => Done (a, s', (fst tw, w'))
  | NoFuel => NoFuel
  | Undef => Undef
  end.

Definition pm_call (m : prog (list (pm_device_ctx_t (lte * W))) (lte * W) Z) : prog lte PW Z := fun s tw =>
  match m (fst tw) (s, snd tw) with
  | Done (r, t', (s', w')) => Done (r, s', (t', w'))
  | NoFuel => NoFuel
  | Undef => Undef
  end.

Definition lte_uart_ensure_active : prog lte PW Z :=
  s <- get id ;;
  if negb (s_lte_power_state s) then ret (- ENODEV)
  else if negb (active (s_lte_uart_ctx s))
  then r <- pm_call (my_pm_device_resume MY_PM_DEV_LTE) ;; if r <? 0 then ret r else ret 0
  else ret 0.

(** The end of a transmission that could not be started. *)
Definition tx_failed (r : Z) : prog lte W Z := modify (set_tx_busy false) ;; k_sem_give ;; ret r.

(** The wake-up bytes; 0 when they have been sent. *)
Definition send_wakeup : prog lte W Z :=
  r <- uart_tx TxWake ;;
  if negb (r =? 0) then tx_failed r
  else
    r <- k_sem_take LTE_UART_TX_WAIT_MS ;;
    if negb (r =? 0) then tx_failed r else k_sleep 10 ;; ret 0.

(** The part of [my_lte_uart_send] after the semaphore was taken. *)
Definition send_data (data : list Z) (len : Z) : prog lte W Z :=
  modify (set_tx_busy true) ;;
  need_send_wakeup <- lte_uart_need_send_wakeup ;;
  r <- (if need_send_wakeup : bool then send_wakeup else ret 0) ;;
  if negb (r =? 0) then ret r
  else
    lte_uart_send_wakeup_window_kick ;;
    bytes <- checked (arr_slice data 0 len) ;;
    b <- get s_sendDataBuf ;;
    b <- checked (arr_blit b 0 bytes) ;;
    modify (set_sendbuf b) ;;
    r <- uart_tx (TxData len) ;;
    if negb (r =? 0) then tx_failed r else ret 0.

Definition my_lte_uart_send (data : list Z) (len : Z) : prog lte PW Z :=
  s <- get id ;;
  if negb (g_bLteReady s) then ret (-1)
  else if UART_TX_BUFFER_SIZE <? len then ret (-1)
  else
    r <- lte_uart_ensure_active ;;
    if r <? 0 then ret (-1)
    else
      lift lte_uart_activity_kick ;;
      r <- lift (k_sem_take LTE_UART_TX_WAIT_MS) ;;
      if negb (r =? 0) then ret r else lift (send_data data len).

(** [n] messages are left when the counter is right. *)
Fixpoint process_loop (n : nat) : prog lte PW unit :=
  q <- get s_lte_msg_queue ;;
  if negb (0 <? q_count q) then ret tt
  else
    match n with
    | O => no_fuel
    | S n =>
        m <- checked (arr_get (queue q) (q_head q)) ;;
        match msg_content m with
        | Some p => b <- lift (load p) ;; my_lte_uart_send b (msg_len m) ;; ret tt
        | None => ret tt
        end ;;
        lift (drop_slot (q_head q)) ;;
        lift advance_head ;;
        process_loop n
    end.

Definition my_lte_process_queued_msgs : prog lte PW unit :=
  q <- get s_lte_msg_queue ;; process_loop (Z.to_nat (q_count q)).

Definition my_lte_send_msg (content : option (list Z)) (len : Z) : prog lte PW Z :=
  match content with
  | None => ret (- EINVAL)
  | Some c =>
      if len =? 0 then ret (- EINVAL)
      else
        ready <- get g_bLteReady ;;
        if ready : bool then my_lte_uart_send c len else lift (my_lte_enqueue_msg content len)
  end.

Definition my_lte_pwroff_handle : prog lte PW unit :=
  s <- get id ;;
  busy <- lift (world (fun w => (w, my_ota_flash_is_busy w))) ;;
  if g_lte_ota_in_progress s || busy || s_lte_factory s then ret tt
  else
    modify (set_idle_timer false) ;;
    modify (set_expire 0) ;;
    s <- get id ;;
    (if tx_busy (s_lte_uart_ctx s) then lift (k_sem_take LTE_UART_TX_WAIT_MS) ;; ret tt else ret tt) ;;
    s <- get id ;;
    (if active (s_lte_uart_ctx s) then pm_call (my_pm_device_suspend MY_PM_DEV_LTE) ;; ret tt else ret tt) ;;
    modify (set_tx_busy false) ;;
    modify (set_wakeup_pending false) ;;
    lift k_sem_give ;;
    lift my_lte_uart_flush ;;
    lift my_lte_msg_queue_clear ;;
    lift (my_lte_pwr_on false) ;;
    modify (fun s => set_power (s_lte_power_state s) false s).

(** ** Messages of other threads ([src/my_cmd_setting.c]) *)

(** The bytes after the terminator are never read. *)
Definition lte_send_command (cmd_name : list Z) (param : option (list Z)) : prog lte W Z :=
  p <- get s_lte_power_state ;;
  (if negb p then my_send_msg MY_MSG_LTE_PWRON else ret tt) ;;
  let buf_len := match param with Some v => zlen cmd_name + zlen v + 16 | None => zlen cmd_name + 16 end in
  b <- MY_MALLOC_BUFFER buf_len ;;
  match b with
  | None => ret (-1)
  | Some p_msg =>
      let text := match param with
                  | Some v => if 0 <? zlen v then cstr "BLE+" ++ cmd_name ++ cstr "=" ++ v ++ [13; 10]
                              else cstr "BLE+" ++ cmd_name ++ [13; 10]
                  | None => cstr "BLE+" ++ cmd_name ++ [13; 10]
                  end in
      store p_msg 0 (text ++ [0]) ;;
      my_send_msg_data (mk_msg MY_MSG_LTE_BLE_DATA (Some p_msg) (zlen text)) ;;
      ret 0
  end.

(** The command is sent and a copy posted for the retransmission queue
    ([src/my_lte.c]); [DataLen] of that message is not set. *)
Definition lte_send_cmd_with_retry (cmd_name : list Z) (param : option (list Z)) : prog lte W unit :=
  r <- lte_send_command cmd_name param ;;
  if r =? -1 then ret tt
  else
    let command_len := match param with Some v => zlen cmd_name + zlen v + 8 | None => zlen cmd_name + 1 end in
    b <- MY_MALLOC_BUFFER command_len ;;
    match b with
    | None => ret tt
    | Some command =>
        let text := match param with
                    | Some v => if 0 <? zlen v then cmd_name ++ cstr "," ++ v else cmd_name
                    | None => cmd_name
                    end in
        store command 0 (take (Z.to_nat (command_len - 1)) text ++ [0]) ;;
        my_send_msg_data (mk_msg MY_MSG_ADD_RETRANS_QUEUE (Some command) 0)
    end.

(** ** Before an update ([my_lte_purge_dfu_queues])

    The blocks of the messages that are thrown away stay allocated.  The
    retransmission queue is only cleared when [RETRANSMIT_CHECK_ENABLED] is set;
    the queue of replies is cleared by [LteCmd]. *)
Definition purge_queues : prog lte W unit :=
  modify (set_msgq []) ;;
  my_lte_msg_queue_clear ;;
  my_lte_uart_flush.

End lte.

(** ** Received lines *)

Section recv.
Context {V : Type}.

(** The loop of [my_lte_handle_recv] over the buffer [pData] from [i] on, with
    [n = iLen - i] bytes left; [parse] is [my_lte_parse_cmd] on the line. *)
Fixpoint recv_loop (parse : list Z -> prog lte V unit) (n : nat) (pData : list Z) (i : Z) : prog lte V unit :=
  match n with
  | O => ret tt
  | S n =>
      c <- checked (arr_get pData i) ;;
      if (c =? 13) || (c =? 10) then
        s <- get id ;;
        parse (take (Z.to_nat (cmd_index s)) (command s)) ;;
        b <- get command ;;
        b <- checked (arr_set b 0 0) ;;
        modify (set_command b 0) ;;
        d <- checked (arr_get pData (i + 1)) ;;
        if d =? 10 then
          match n with
          | O => ret tt
          | S n => recv_loop parse n pData (i + 2)
          end
        else recv_loop parse n pData (i + 1)
      else
        s <- get id ;;
        (if cmd_index s <? MAX_CMD_LEN - 1 then
           b <- checked (arr_set (command s) (cmd_index s) c) ;;
           b <- checked (arr_set b (cmd_index s + 1) 0) ;;
           modify (set_command b (cmd_index s + 1))
         else ret tt) ;;
        recv_loop parse n pData (i + 1)
  end.

Definition my_lte_handle_recv (parse : list Z -> prog lte V unit) (pData : list Z) (iLen : Z) : prog lte V unit :=
  recv_loop parse (Z.to_nat iLen) pData 0.

(** The loop of [MY_MSG_LTE_REV]: it reads until the ring buffer is empty.
    [beyond] is what may be read after the array [read_buf]: nothing, in C. *)
Fixpoint read_lines (parse : list Z -> prog lte V unit) (beyond : list Z) (fuel : nat) : prog lte V unit :=
  match fuel with
  | O => no_fuel
  | S fuel =>
      rb <- get s_lte_rb ;;
      r <- checked (my_rb_read rb (replicate 128 0) 128) ;;
      let '(rb, read_buf, len) := r in
      modify (set_rb rb) ;;
      if 0 <? len then my_lte_handle_recv parse (read_buf ++ beyond) len ;; read_lines parse beyond fuel else ret tt
  end.

End recv.

(** ** The thread

    What the handlers of [my_lte.c] share besides the UART, the heap and the
    queues is the type [X]; it is not touched by the operations above. *)

Section thread.
Context {W X : Type} `{!LteHw W} `{!PmRuntime W}.
Notation PW := (list (pm_device_ctx_t (lte * W)) * W)%type.

Definition frame {A} (m : prog lte PW A) : prog lte (PW * X) A := fun s px =>
  match m s (fst px) with
  | Done (a, s', p') => Done (a, s', (p', snd px))
  | NoFuel => NoFuel
  | Undef => Undef
  end.

(** The handlers of [LteCmd]: a received line, a message for the queue of
    messages that wait for their acknowledgement, a look at that queue, and the
    heartbeat. *)
Record lte_handlers := mk_handlers {
  parse_cmd : list Z -> prog lte (PW * X) unit;
  add_retrans : list Z -> prog lte (PW * X) unit;
  retrans_poll : prog lte (PW * X) unit;
  pulse : prog lte (PW * X) unit
}.

Definition free_data (m : msg_t) : prog lte W unit :=
  match pData m with
  | Some p => MY_FREE_BUFFER p
  | None => ret tt
  end.

Definition my_lte_task_handle (H : lte_handlers) (beyond : list Z) (fuel : nat) (m : msg_t) : prog lte (PW * X) unit :=
  match msgID m with
  | MY_MSG_LTE_TX_DONE | MY_MSG_LTE_TX_ABORTED => modify (set_tx_busy false)
  | MY_MSG_LTE_UART_IDLE =>
      a <- get (fun s => active (s_lte_uart_ctx s)) ;;
      ok <- (if a : bool then frame (lift lte_uart_can_suspend) else ret false) ;;
      if ok : bool then frame (pm_call (my_pm_device_suspend MY_PM_DEV_LTE)) ;; ret tt else ret tt
  | MY_MSG_LTE_PWRON => frame (lift (my_lte_pwr_on true)) ;; ret tt
  | MY_MSG_LTE_PWROFF => frame my_lte_pwroff_handle ;; frame (lift (k_sleep 2000))
  | MY_MSG_LTE_REV =>
      frame (lift lte_uart_activity_kick) ;;
      frame (lift lte_uart_send_wakeup_window_kick) ;;
      read_lines (parse_cmd H) beyond fuel
  | MY_MSG_LTE_BLE_DATA =>
      b <- match pData m with
           | Some p => b <- frame (lift (load p)) ;; ret (Some b)
           | None => ret None
           end ;;
      frame (my_lte_send_msg b (u16 (DataLen m))) ;;
      frame (lift (free_data m))
  | MY_MSG_RETRANS_CHECK => retrans_poll H
  | MY_MSG_ADD_RETRANS_QUEUE =>
      p <- checked (pData m) ;;
      b <- frame (lift (load p)) ;;
      command <- checked (c_string b) ;;
      add_retrans H command ;;
      frame (lift (free_data m))
  | MY_MSG_LTE_PULSE => pulse H
  | MY_MSG_LTE_WAKEUP =>
      modify (set_wakeup_pending false) ;;
      r <- frame lte_uart_ensure_active ;;
      if r =? 0 then frame (lift lte_uart_activity_kick) ;; frame (lift lte_uart_send_wakeup_window_kick) else ret tt
  end.

(** One turn of the loop of [my_lte_task], when a message is waiting. *)
Definition my_lte_task (H : lte_handlers) (beyond : list Z) (fuel : nat) : prog lte (PW * X) unit :=
  q <- get my_lte_msgq ;;
  match q with
  | [] => ret tt
  | m :: q => modify (set_msgq q) ;; my_lte_task_handle H beyond fuel m
  end.
End thread.
