(* ===== verification/LteProofs.v ===== *)
(** * Memory of the LTE thread

    Every heap block has one owner: a message that waits for the thread or a
    slot of the queue of waiting messages.  The file states this as an
    invariant and shows that every handler and every interrupt keeps it. *)

From stdpp Require Import gmap.
From S2P Require Import Prelude Prog RingBuf Pm Lte.

Open Scope prog_scope.

(** ** Blocks and their owners *)

Definition owned (mq : list msg_t) (l : list lte_pending_msg_t) : list ptr := omap pData mq ++ omap msg_content l.

(** A slot with a message has a block with room for it and its terminator. *)
Definition slot_ok (h : gmap ptr (list Z)) (m : lte_pending_msg_t) : Prop :=
  forall p, msg_content m = Some p -> 0 < msg_len m < 65536 /\ exists b, h !! p = Some b /\ zlen b = msg_len m + 1.

(** A message that needs the string it points to. *)
Definition needs_text (id : msg_id) : bool := match id with MY_MSG_ADD_RETRANS_QUEUE => true | _ => false end.

(** Two messages carry a block: one of [DataLen] bytes, one with a string. *)
Definition msg_ok (h : gmap ptr (list Z)) (m : msg_t) : Prop :=
  (needs_text (msgID m) = true -> pData m <> None) /\
  forall p, pData m = Some p -> exists b, h !! p = Some b /\
  (msgID m = MY_MSG_LTE_BLE_DATA /\ 0 <= DataLen m <= zlen b \/ needs_text (msgID m) = true /\ Exists (eq 0) b /\ zlen b < 65536).

(** [K] are the blocks that neither a message nor a slot owns. *)
Record mem_ok (K : gset ptr) (h : gmap ptr (list Z)) (mq : list msg_t) (l : list lte_pending_msg_t) : Prop := {
  mo_slots : Forall (slot_ok h) l;
  mo_msgs : Forall (msg_ok h) mq;
  mo_nodup : NoDup (owned mq l);
  mo_dom p : is_Some (h !! p) <-> p ∈ owned mq l \/ p ∈ K;
  mo_disj p : p ∈ owned mq l -> p ∉ K
}.

Section mem.
Implicit Types (h : gmap ptr (list Z)) (l : list lte_pending_msg_t) (mq : list msg_t) (K : gset ptr).

Lemma slot_ok_heap h h' m :
  (forall p, msg_content m = Some p -> zlen <$> h' !! p = zlen <$> h !! p) -> slot_ok h m -> slot_ok h' m.
Proof.
  intros Hh Hm p Ep. destruct (Hm p Ep) as (Hl & b & Eb & Hb). split; [done|]. specialize (Hh p Ep).
  rewrite Eb in Hh. destruct (h' !! p) as [b'|]; [|done]. injection Hh as Hz. exists b'. split; [done|lia].
Qed.

Lemma msg_ok_heap h h' m :
  (forall p, pData m = Some p -> h' !! p = h !! p) -> msg_ok h m -> msg_ok h' m.
Proof.
  intros Hh [Hn Hm]. split; [done|]. intros p Ep. destruct (Hm p Ep) as (b & Eb & Hb). exists b. by rewrite (Hh p Ep).
Qed.

Lemma slot_owned mq l m p : m ∈ l -> msg_content m = Some p -> p ∈ owned mq l.
Proof. intros Hm Ep. unfold owned. rewrite elem_of_app. right. apply list_elem_of_omap. by exists m. Qed.

Lemma msg_owned mq l m p : m ∈ mq -> pData m = Some p -> p ∈ owned mq l.
Proof. intros Hm Ep. unfold owned. rewrite elem_of_app. left. apply list_elem_of_omap. by exists m. Qed.

(** Changing a slot. *)
Lemma omap_clear l i m p n :
  l !! i = Some m -> msg_content m = Some p ->
  omap msg_content l ≡ₚ p :: omap msg_content (<[i := mk_pending None n]> l).
Proof.
  intros Ei Ep. rewrite <- (take_drop_middle l i m Ei) at 1.
  rewrite insert_take_drop by (by eapply lookup_lt_Some). rewrite !omap_app. cbn. rewrite Ep. cbn. by rewrite Permutation_middle.
Qed.

Lemma omap_fill l i m p n :
  l !! i = Some m -> msg_content m = None ->
  omap msg_content (<[i := mk_pending (Some p) n]> l) ≡ₚ p :: omap msg_content l.
Proof.
  intros Ei Ep. rewrite <- (take_drop_middle l i m Ei) at 2.
  rewrite insert_take_drop by (by eapply lookup_lt_Some). rewrite !omap_app. cbn. rewrite Ep. cbn. by rewrite Permutation_middle.
Qed.

Lemma omap_same l i m n :
  l !! i = Some m -> msg_content m = None -> omap msg_content (<[i := mk_pending None n]> l) = omap msg_content l.
Proof.
  intros Ei Ep. rewrite <- (take_drop_middle l i m Ei) at 2.
  rewrite insert_take_drop by (by eapply lookup_lt_Some). rewrite !omap_app. cbn. by rewrite Ep.
Qed.

(** A heap that keeps the owned blocks. *)
Lemma mem_heap K K' h h' mq l :
  mem_ok K h mq l ->
  (forall p, p ∈ owned mq l -> h' !! p = h !! p) ->
  (forall p, is_Some (h' !! p) <-> p ∈ owned mq l \/ p ∈ K') -> (forall p, p ∈ owned mq l -> p ∉ K') ->
  mem_ok K' h' mq l.
Proof.
  intros [Hs Hm Hn Hd Hj] Hh Hd' Hj'. split; try done.
  - apply Forall_forall. intros m Hin. rewrite Forall_forall in Hs. eapply slot_ok_heap; [|by apply Hs].
    intros p Ep. rewrite Hh; [done|]. by eapply slot_owned.
  - apply Forall_forall. intros m Hin. rewrite Forall_forall in Hm. eapply msg_ok_heap; [|by apply Hm].
    intros p Ep. apply Hh. by eapply msg_owned.
Qed.

Lemma mem_alloc K h mq l p b : mem_ok K h mq l -> h !! p = None -> mem_ok ({[p]} ∪ K) (<[p := b]> h) mq l.
Proof.
  intros Hm Hp. assert (Hno : p ∉ owned mq l /\ p ∉ K).
  { split; intros Hin; destruct (proj2 (mo_dom _ _ _ _ Hm p)); auto; congruence. }
  eapply mem_heap; [done|..].
  - intros q Hq. rewrite lookup_insert_ne by (intros ->; tauto). done.
  - intros q. rewrite lookup_insert_is_Some', (mo_dom _ _ _ _ Hm q). set_solver.
  - intros q Hq. pose proof (mo_disj _ _ _ _ Hm q Hq). set_solver.
Qed.

(** Freeing a block nobody owns. *)
Lemma mem_free K h mq l p : mem_ok ({[p]} ∪ K) h mq l -> p ∉ K -> mem_ok K (delete p h) mq l.
Proof.
  intros Hm Hp. assert (Hno : p ∉ owned mq l) by (intros Hin; pose proof (mo_disj _ _ _ _ Hm p Hin); set_solver).
  eapply mem_heap; [done|..].
  - intros q Hq. by rewrite lookup_delete_ne by (intros ->; tauto).
  - intros q. rewrite lookup_delete_is_Some, (mo_dom _ _ _ _ Hm q). set_solver.
  - intros q Hq. pose proof (mo_disj _ _ _ _ Hm q Hq). set_solver.
Qed.

(** The owners change, the blocks stay. *)
Lemma mem_owner K K' h mq l mq' l' :
  mem_ok K h mq l -> Forall (slot_ok h) l' -> Forall (msg_ok h) mq' -> NoDup (owned mq' l') ->
  (forall p, p ∈ owned mq l \/ p ∈ K <-> p ∈ owned mq' l' \/ p ∈ K') -> (forall p, p ∈ owned mq' l' -> p ∉ K') ->
  mem_ok K' h mq' l'.
Proof. intros Hm Hs Hq Hn Hd Hj. split; try done. intros p. rewrite (mo_dom _ _ _ _ Hm p). apply Hd. Qed.

Lemma mem_unlink K h mq l i m p n :
  mem_ok K h mq l -> l !! i = Some m -> msg_content m = Some p ->
  mem_ok ({[p]} ∪ K) h mq (<[i := mk_pending None n]> l) /\ p ∉ K.
Proof.
  intros Hm Ei Ep. pose proof (slot_owned mq l m p (list_elem_of_lookup_2 _ _ _ Ei) Ep) as Hin.
  pose proof (mo_disj _ _ _ _ Hm p Hin) as HpK. split; [|done].
  assert (HP : owned mq l ≡ₚ p :: owned mq (<[i := mk_pending None n]> l)).
  { unfold owned. rewrite (omap_clear l i m p n Ei Ep). by rewrite Permutation_middle. }
  pose proof (mo_nodup _ _ _ _ Hm) as Hn. rewrite HP, NoDup_cons in Hn. destruct Hn as [Hp Hn].
  eapply mem_owner; [done|..|done| |].
  - apply Forall_insert; [apply Hm|]. by intros q.
  - apply Hm.
  - intros q. rewrite HP, elem_of_cons. set_solver.
  - intros q Hq. assert (q ∈ owned mq l) by (rewrite HP; set_solver). pose proof (mo_disj _ _ _ _ Hm q). set_solver.
Qed.

Lemma mem_link K h mq l i m p n b :
  mem_ok ({[p]} ∪ K) h mq l -> p ∉ K -> l !! i = Some m -> msg_content m = None ->
  h !! p = Some b -> zlen b = n + 1 -> 0 < n < 65536 ->
  mem_ok K h mq (<[i := mk_pending (Some p) n]> l).
Proof.
  intros Hm HpK Ei Ep Hb Hz Hn. 
  assert (HP : owned mq (<[i := mk_pending (Some p) n]> l) ≡ₚ p :: owned mq l).
  { unfold owned. rewrite (omap_fill l i m p n Ei Ep). by rewrite Permutation_middle. }
  assert (Hno : p ∉ owned mq l) by (intros Hin; pose proof (mo_disj _ _ _ _ Hm p Hin); set_solver).
  eapply mem_owner; [done|..].
  - apply Forall_insert; [apply Hm|]. intros q [= <-]. split; [done|]. by exists b.
  - apply Hm.
  - rewrite HP. apply NoDup_cons. split; [done|apply Hm].
  - intros q. rewrite HP, elem_of_cons. set_solver.
  - intros q. rewrite HP, elem_of_cons. intros [->|Hq]; [done|]. pose proof (mo_disj _ _ _ _ Hm q Hq). set_solver.
Qed.

Lemma mem_slot_len K h mq l i m n :
  mem_ok K h mq l -> l !! i = Some m -> msg_content m = None -> mem_ok K h mq (<[i := mk_pending None n]> l).
Proof.
  intros Hm Ei Ep. assert (HP : owned mq (<[i := mk_pending None n]> l) = owned mq l).
  { unfold owned. by rewrite (omap_same l i m n Ei Ep). }
  eapply mem_owner; [done|..]; rewrite ?HP; try apply Hm; [|done]. apply Forall_insert; [apply Hm|]. by intros q.
Qed.

Lemma mem_post K h mq l x p :
  mem_ok ({[p]} ∪ K) h mq l -> p ∉ K -> pData x = Some p -> msg_ok h x -> mem_ok K h (mq ++ [x]) l.
Proof.
  intros Hm HpK Ep Hx. assert (HP : owned (mq ++ [x]) l ≡ₚ p :: owned mq l).
  { unfold owned. rewrite omap_app. cbn. rewrite Ep. cbn. rewrite <- app_assoc. cbn. by rewrite Permutation_middle. }
  assert (Hno : p ∉ owned mq l) by (intros Hin; pose proof (mo_disj _ _ _ _ Hm p Hin); set_solver).
  eapply mem_owner; [done|..].
  - apply Hm.
  - apply Forall_app. split; [apply Hm|by apply Forall_singleton].
  - rewrite HP. apply NoDup_cons. split; [done|apply Hm].
  - intros q. rewrite HP, elem_of_cons. set_solver.
  - intros q. rewrite HP, elem_of_cons. intros [->|Hq]; [done|]. pose proof (mo_disj _ _ _ _ Hm q Hq). set_solver.
Qed.

Lemma mem_post_plain K h mq l x :
  mem_ok K h mq l -> pData x = None -> needs_text (msgID x) = false -> mem_ok K h (mq ++ [x]) l.
Proof.
  intros Hm Ep Hx. assert (HP : owned (mq ++ [x]) l = owned mq l) by (unfold owned; rewrite omap_app; cbn; by rewrite Ep, app_nil_r).
  eapply mem_owner; [done|..]; rewrite ?HP; try apply Hm; [|done].
  apply Forall_app. split; [apply Hm|]. apply Forall_singleton. split; [congruence|]. intros p. by rewrite Ep.
Qed.

Lemma mem_take K h mq l x p :
  mem_ok K h (x :: mq) l -> pData x = Some p -> mem_ok ({[p]} ∪ K) h mq l /\ p ∉ K /\ msg_ok h x.
Proof.
  intros Hm Ep. pose proof (msg_owned (x :: mq) l x p ltac:(left) Ep) as Hin.
  pose proof (mo_disj _ _ _ _ Hm p Hin) as HpK. pose proof (mo_msgs _ _ _ _ Hm) as Hx. apply Forall_cons in Hx as [Hx Hq].
  split; [|done]. assert (HP : owned (x :: mq) l = p :: owned mq l) by (unfold owned; cbn; by rewrite Ep).
  pose proof (mo_nodup _ _ _ _ Hm) as Hn. rewrite HP, NoDup_cons in Hn. destruct Hn as [Hp Hn].
  eapply mem_owner; [done|apply Hm|done|done|..].
  - intros q. rewrite HP, elem_of_cons. set_solver.
  - intros q Hq'. assert (q ∈ owned (x :: mq) l) by (rewrite HP; set_solver). pose proof (mo_disj _ _ _ _ Hm q). set_solver.
Qed.

Lemma mem_take_plain K h mq l x : mem_ok K h (x :: mq) l -> pData x = None -> mem_ok K h mq l.
Proof.
  intros Hm Ep. assert (HP : owned (x :: mq) l = owned mq l) by (unfold owned; cbn; by rewrite Ep).
  pose proof (mo_msgs _ _ _ _ Hm) as Hx. apply Forall_cons in Hx as [_ Hq].
  eapply mem_owner; [done|apply Hm|done|rewrite <- HP; apply Hm|by rewrite HP|rewrite <- HP; apply Hm].
Qed.
End mem.

(** ** The ring of waiting messages *)

Definition slot_is (ms : list (ptr * Z)) (i : nat) (m : lte_pending_msg_t) : Prop :=
  match ms !! i with
  | Some (p, len) => m = mk_pending (Some p) len
  | None => msg_content m = None
  end.

(** The slots from [head] on hold the messages [ms], oldest first. *)
Record queue_holds (q : lte_msg_queue_t) (ms : list (ptr * Z)) : Prop := {
  qh_len : zlen (queue q) = 10;
  qh_head : 0 <= q_head q < 10;
  qh_count : q_count q = zlen ms;
  qh_max : zlen ms <= 10;
  qh_tail : q_tail q = (q_head q + zlen ms) mod 10;
  qh_slots i : (i < 10)%nat ->
    exists m, queue q !! Z.to_nat ((q_head q + Z.of_nat i) mod 10) = Some m /\ slot_is ms i m
}.

Section ring.
Implicit Types (q : lte_msg_queue_t) (ms : list (ptr * Z)).

Lemma ring_pos h i : 0 <= h < 10 -> 0 <= i < 10 -> (h + i) mod 10 = if h + i <? 10 then h + i else h + i - 10.
Proof. intros Hh Hi. apply mod_once. lia. Qed.

Lemma queue_first q p len ms :
  queue_holds q ((p, len) :: ms) -> queue q !! Z.to_nat (q_head q) = Some (mk_pending (Some p) len).
Proof.
  intros H. destruct (qh_slots _ _ H 0%nat ltac:(lia)) as (m & E & Hm). cbn in Hm. subst m.
  rewrite Z.add_0_r, Z.mod_small in E by apply H. done.
Qed.

Lemma queue_pop q p len n ms :
  queue_holds q ((p, len) :: ms) ->
  queue_holds (mk_queue (<[Z.to_nat (q_head q) := mk_pending None n]> (queue q))
    (u8 ((q_head q + 1) mod 10)) (q_tail q) (u8 (q_count q - 1))) ms.
Proof.
  intros [Hl Hh Hc Hm Ht Hs]. rewrite zlen_cons in *. pose proof (zlen_nonneg ms).
  assert (Eh : u8 ((q_head q + 1) mod 10) = (q_head q + 1) mod 10).
  { apply u8_small. pose proof (Z.mod_pos_bound (q_head q + 1) 10 ltac:(lia)). lia. }
  split; cbn [queue q_head q_tail q_count]; rewrite ?Eh.
  - by rewrite zlen_insert.
  - apply Z.mod_pos_bound. lia.
  - rewrite Hc, u8_small by lia. lia.
  - lia.
  - rewrite Ht, Zplus_mod_idemp_l. f_equal. lia.
  - intros i Hi. rewrite Zplus_mod_idemp_l. destruct (decide (i = 9%nat)) as [->|].
    + exists (mk_pending None n). split.
      * replace ((q_head q + 1 + Z.of_nat 9) mod 10) with (q_head q)
          by (rewrite <- (Z.mod_small (q_head q) 10) at 1 by lia; rewrite <- (Z_mod_plus_full (q_head q) 1 10); f_equal; lia).
        apply list_lookup_insert_eq. unfold zlen in Hl. lia.
      * unfold slot_is. rewrite (lookup_ge_None_2 ms 9) by (unfold zlen in Hm; lia). done.
    + destruct (Hs (S i) ltac:(lia)) as (m & E & Hm'). exists m. split; [|done].
      rewrite list_lookup_insert_ne; [by replace (q_head q + 1 + Z.of_nat i) with (q_head q + Z.of_nat (S i)) by lia|].
      rewrite <- Z.add_assoc, ring_pos by lia. zcase; lia.
Qed.

Lemma queue_push q p len ms :
  queue_holds q ms -> zlen ms < 10 ->
  queue_holds (mk_queue (<[Z.to_nat (q_tail q) := mk_pending (Some p) len]> (queue q))
    (q_head q) (u8 ((q_tail q + 1) mod 10)) (u8 (q_count q + 1))) (ms ++ [(p, len)]).
Proof.
  intros [Hl Hh Hc Hm Ht Hs] Hlt. pose proof (zlen_nonneg ms).
  split; cbn [queue q_head q_tail q_count]; rewrite ?zlen_app, ?zlen_cons, ?zlen_nil.
  - by rewrite zlen_insert.
  - done.
  - rewrite Hc, u8_small by lia. lia.
  - lia.
  - rewrite Ht, Zplus_mod_idemp_l, u8_small; [f_equal; lia|].
    pose proof (Z.mod_pos_bound (q_head q + zlen ms + 1) 10 ltac:(lia)). lia.
  - intros i Hi. destruct (decide (i = length ms)) as [->|].
    + eexists. split; [rewrite Ht; apply list_lookup_insert_eq|].
      * pose proof (Z.mod_pos_bound (q_head q + zlen ms) 10 ltac:(lia)). unfold zlen in *. lia.
      * unfold slot_is. by rewrite list_lookup_middle.
    + destruct (Hs i Hi) as (m & E & Hm'). exists m. split.
      * rewrite list_lookup_insert_ne; [done|]. rewrite Ht, !ring_pos by (unfold zlen in *; lia).
        unfold zlen in *. repeat zcase; lia.
      * unfold slot_is in *. destruct (decide (i < length ms)%nat).
        -- by rewrite lookup_app_l.
        -- rewrite (lookup_ge_None_2 ms i) in Hm' by lia. rewrite lookup_ge_None_2; [done|].
           rewrite length_app. cbn. lia.
Qed.

Lemma queue_last q ms :
  queue_holds q ms -> zlen ms < 10 -> exists m, queue q !! Z.to_nat (q_tail q) = Some m /\ msg_content m = None.
Proof.
  intros H Hlt. pose proof (zlen_nonneg ms). destruct (qh_slots _ _ H (length ms)) as (m & E & Hm).
  { unfold zlen in Hlt. lia. }
  exists m. rewrite (qh_tail _ _ H). split; [done|]. unfold slot_is in Hm. by rewrite lookup_ge_None_2 in Hm.
Qed.

Lemma queue_tail_range q ms : queue_holds q ms -> 0 <= q_tail q < 10.
Proof. intros H. rewrite (qh_tail _ _ H). apply Z.mod_pos_bound. lia. Qed.

Lemma queue_nil q : zlen (queue q) = 10 -> Forall (fun m => msg_content m = None) (queue q) ->
  queue_holds (mk_queue (queue q) 0 0 0) [].
Proof.
  intros Hl Hf. split; cbn [queue q_head q_tail q_count]; try done. intros i Hi.
  rewrite Z.mod_small, Z.add_0_l, Nat2Z.id by lia.
  destruct (lookup_lt_is_Some_2 (queue q) i) as [m E]; [unfold zlen in Hl; lia|].
  exists m. split; [done|]. rewrite Forall_lookup in Hf. by apply (Hf i).
Qed.
End ring.

(** ** The invariant *)

(** The queue holds the messages [cs], oldest first. *)
Definition queued (s : lte) (cs : list (list Z)) : Prop :=
  exists ms, queue_holds (s_lte_msg_queue s) ms
    /\ Forall2 (fun m c => heap s !! m.1 = Some (c ++ [0]) /\ m.2 = zlen c) ms cs.

Record inv (K : gset ptr) (cs : list (list Z)) (s : lte) : Prop := {
  iv_sem : 0 <= s_TxDoneSem s <= 1;
  iv_buf : zlen (s_sendDataBuf s) = 1024;
  iv_rb : rb_ok (s_lte_rb s);
  iv_cmd : zlen (command s) = 128;
  iv_idx : 0 <= cmd_index s <= 127;
  iv_queue : queued s cs;
  iv_mem : mem_ok K (heap s) (my_lte_msgq s) (queue (s_lte_msg_queue s))
}.

(** A receive event holds at most a driver buffer. *)
Definition event_ok (e : uart_event) : Prop :=
  match e with UART_RX_RDY data => zlen data <= 256 | _ => True end.

Class LteHwLaws (W : Type) `{LteHw W} : Prop := {
  sleep_events ms busy w w' evs : sleep ms busy w = (w', evs) -> Forall event_ok evs
}.

Create HintDb lte.

Section safe.
Context {W : Type} `{!LteHw W} `{!LteHwLaws W}.

(** The invariant, with the queue, the heap and the ready flag of [s0]. *)
Record at_state (K : gset ptr) (cs : list (list Z)) (s0 s : lte) : Prop := {
  as_inv : inv K cs s;
  as_queue : s_lte_msg_queue s = s_lte_msg_queue s0;
  as_heap : heap s = heap s0;
  as_ready : g_bLteReady s = g_bLteReady s0
}.

(** The program returns, keeps the invariant and leaves the queue alone. *)
Definition safe (K : gset ptr) (cs : list (list Z)) {A} (m : prog lte W A) : Prop :=
  forall s0 s w, at_state K cs s0 s -> twp m (fun _ s' _ => at_state K cs s0 s') s w.

Lemma safe_bind K cs {A B} (m : prog lte W A) (k : A -> prog lte W B) :
  safe K cs m -> (forall a, safe K cs (k a)) -> safe K cs (bind m k).
Proof. intros Hm Hk s0 s w Hs. tstep. eapply twp_mono; [by apply Hm|]. intros a s' w' Hs'. by apply Hk. Qed.

Lemma safe_ret K cs {A} (a : A) : safe K cs (ret a).
Proof. intros s0 s w Hs. by tstep. Qed.

Lemma safe_get K cs {A} (f : lte -> A) : safe K cs (get f).
Proof. intros s0 s w Hs. by tstep. Qed.

Lemma safe_world K cs {A} (f : W -> W * A) : safe K cs (world f).
Proof. intros s0 s w Hs. by apply twp_world. Qed.

Lemma safe_modify K cs f : (forall s0 s, at_state K cs s0 s -> at_state K cs s0 (f s)) -> safe K cs (modify f).
Proof. intros Hf s0 s w Hs. tstep. by apply Hf. Qed.

Lemma safe_if K cs {A} (b : bool) (m1 m2 : prog lte W A) : safe K cs m1 -> safe K cs m2 -> safe K cs (if b then m1 else m2).
Proof. by destruct b. Qed.

Hint Resolve safe_bind safe_ret safe_get safe_world safe_modify safe_if : lte.

Lemma inv_ctx K cs c s0 s : at_state K cs s0 s -> at_state K cs s0 (set_uart_ctx c s).
Proof. by intros [[]]. Qed.

Lemma inv_rx K cs b r s0 s : at_state K cs s0 s -> at_state K cs s0 (set_rx b r s).
Proof. by intros [[]]. Qed.

Lemma inv_tx K cs t l s0 s : at_state K cs s0 s -> at_state K cs s0 (set_tx t l s).
Proof. by intros [[]]. Qed.

Lemma inv_power K cs p s0 s : at_state K cs s0 s -> at_state K cs s0 (set_power p (g_bLteReady s) s).
Proof. by intros [[]]. Qed.

Lemma inv_sem K cs n s0 s : 0 <= n <= 1 -> at_state K cs s0 s -> at_state K cs s0 (set_sem n s).
Proof. by intros ? [[]]. Qed.

Lemma inv_rb K cs rb s0 s : rb_ok rb -> at_state K cs s0 s -> at_state K cs s0 (set_rb rb s).
Proof. by intros ? [[]]. Qed.

Hint Resolve inv_ctx inv_rx inv_tx inv_power : lte.

Lemma my_send_msg_safe K cs id : needs_text id = false -> safe K cs (my_send_msg id).
Proof.
  intros Hid. apply safe_modify. intros s0 s [[] Hq Hh Hr]. destruct (_ <? _); [|done]. split; try done. split; try done.
  by apply mem_post_plain.
Qed.

Lemma k_sem_give_safe K cs : safe K cs k_sem_give.
Proof. apply safe_modify. intros s0 s Hs. apply inv_sem; [|done]. pose proof (iv_sem _ _ _ (as_inv _ _ _ _ Hs)). lia. Qed.

Lemma driver_inv K cs e s0 s : at_state K cs s0 s -> at_state K cs s0 (driver e s).
Proof. intros Hs. destruct e; cbn; repeat case_match; auto with lte. Qed.

Lemma uart_rx_enable_safe K cs b : safe K cs (uart_rx_enable b).
Proof. unfold uart_rx_enable. apply safe_bind; [auto with lte|]. intros s. destruct (rx s); auto 8 with lte. Qed.

Lemma uart_rx_disable_safe K cs : safe K cs uart_rx_disable.
Proof. unfold uart_rx_disable. apply safe_bind; [auto with lte|]. intros s. destruct (rx s); auto 8 with lte. Qed.

Lemma uart_tx_safe K cs t : safe K cs (uart_tx t).
Proof. unfold uart_tx. apply safe_bind; [auto with lte|]. intros s. destruct (tx s); auto 8 with lte. Qed.

Hint Resolve my_send_msg_safe k_sem_give_safe uart_rx_enable_safe uart_rx_disable_safe uart_tx_safe driver_inv : lte.

Lemma isr_safe K cs e : event_ok e -> safe K cs (isr e).
Proof.
  intros He. apply safe_bind; [auto with lte|]. intros _. destruct e; cbn [lte_uart_cb]; auto 8 with lte.
  - intros s0 s w Hs. tstep. tstep. tstep.
    destruct (rb_write_spec (s_lte_rb s) data) as (rb & E & Hrb & _); [apply (as_inv _ _ _ _ Hs)|cbn in He; lia|].
    eapply twp_checked; [exact E|]. tstep. tstep. apply my_send_msg_safe; [done|by apply inv_rb].
  - apply safe_bind; [auto with lte|]. intros b. apply safe_modify. intros s0 s Hs. repeat case_match; auto with lte.
Qed.

Lemma isrs_safe K cs evs : Forall event_ok evs -> safe K cs (isrs evs).
Proof.
  induction 1 as [|e evs He _ IH]; cbn [isrs]; [auto with lte|]. apply safe_bind; [by apply isr_safe|done].
Qed.

Lemma k_sleep_safe K cs ms : safe K cs (k_sleep ms).
Proof.
  intros s0 s w Hs. unfold k_sleep. tstep. tstep. tstep. apply twp_world. intros evs w' E.
  apply isrs_safe; [by eapply sleep_events|done].
Qed.

Lemma k_sem_take_safe K cs ms : safe K cs (k_sem_take ms).
Proof.
  assert (Htake : forall (m : prog lte W Z), safe K cs m -> safe K cs (n <- get s_TxDoneSem ;;
    if 0 <? n then modify (set_sem (n - 1)) ;; ret 0 else m)).
  { intros m Hm s0 s w Hs. tstep. tstep. tstep; bool2prop; [|by apply Hm]. tstep. tstep. tstep.
    apply inv_sem; [|done]. pose proof (iv_sem _ _ _ (as_inv _ _ _ _ Hs)). lia. }
  apply Htake. apply safe_bind; [apply k_sleep_safe|]. intros _. apply Htake. auto with lte.
Qed.

Hint Resolve k_sleep_safe k_sem_take_safe : lte.

Lemma lte_wake_pin_isr_safe K cs : safe K cs lte_wake_pin_isr.
Proof. unfold lte_wake_pin_isr, set_wakeup_pending. auto 8 with lte. Qed.

Lemma lte_pm_suspend_safe K cs : safe K cs lte_pm_suspend.
Proof. unfold lte_pm_suspend, set_active. auto 9 with lte. Qed.

Lemma lte_pm_resume_safe K cs : safe K cs lte_pm_resume.
Proof. unfold lte_pm_resume, set_active. auto 9 with lte. Qed.

Lemma activity_kick_safe K cs : safe K cs lte_uart_activity_kick.
Proof. apply safe_modify. intros s0 s Hs. unfold set_idle_timer. case_match; auto with lte. Qed.

Lemma window_kick_safe K cs : safe K cs lte_uart_send_wakeup_window_kick.
Proof. unfold lte_uart_send_wakeup_window_kick, set_expire. auto 8 with lte. Qed.

Lemma need_send_wakeup_safe K cs : safe K cs lte_uart_need_send_wakeup.
Proof. unfold lte_uart_need_send_wakeup. auto 8 with lte. Qed.

Lemma my_lte_pwr_on_safe K cs b : safe K cs (my_lte_pwr_on b).
Proof. unfold my_lte_pwr_on. auto 12 with lte. Qed.

Lemma flush_safe K cs : safe K cs my_lte_uart_flush.
Proof.
  apply safe_modify. intros s0 s Hs. apply inv_rb; [|done]. destruct (iv_rb _ _ _ (as_inv _ _ _ _ Hs)) as [Hz Hb Hh Ht]. split; cbn; lia || done.
Qed.

Lemma can_suspend_safe K cs : safe K cs lte_uart_can_suspend.
Proof.
  intros s0 s w Hs. unfold lte_uart_can_suspend. tstep. tstep. tstep. apply twp_world. intros b w' _. tstep; [by tstep|].
  tstep. unfold my_rb_get_used_size. pose proof (ok_size _ (iv_rb _ _ _ (as_inv _ _ _ _ Hs))).
  rewrite (proj2 (Z.eqb_neq _ _)) by lia. eapply twp_checked; [reflexivity|]. by tstep.
Qed.

Lemma tx_failed_safe K cs r : safe K cs (tx_failed r).
Proof. unfold tx_failed, set_tx_busy. auto 8 with lte. Qed.

Hint Resolve lte_wake_pin_isr_safe lte_pm_suspend_safe lte_pm_resume_safe activity_kick_safe window_kick_safe
  need_send_wakeup_safe my_lte_pwr_on_safe flush_safe can_suspend_safe tx_failed_safe : lte.

Lemma send_wakeup_safe K cs : safe K cs send_wakeup.
Proof. unfold send_wakeup. auto 12 with lte. Qed.

Lemma send_data_safe K cs data len : 0 <= len <= 1024 -> len <= zlen data -> safe K cs (send_data data len).
Proof.
  intros Hl Hd. unfold send_data, set_tx_busy. apply safe_bind; [auto with lte|]. intros _.
  apply safe_bind; [auto with lte|]. intros nw. apply safe_bind; [pose proof send_wakeup_safe; auto with lte|]. intros r.
  apply safe_if; [auto with lte|]. apply safe_bind; [auto with lte|]. intros _ s0 s w Hs. tstep.
  rewrite arr_slice_Some by lia. eapply twp_checked; [reflexivity|]. tstep. tstep. tstep.
  destruct (arr_blit (s_sendDataBuf s) 0 _) as [b|] eqn:E.
  2: { rewrite arr_blit_Some in E by (rewrite ?zlen_take, ?zlen_drop, ?(iv_buf _ _ _ (as_inv _ _ _ _ Hs)); lia). done. }
  apply arr_blit_length in E. rewrite (iv_buf _ _ _ (as_inv _ _ _ _ Hs)) in E. eapply twp_checked; [reflexivity|]. tstep. tstep.
  match goal with |- twp ?m _ _ w =>
    assert (Hm : safe K cs m) by auto 12 with lte; apply (Hm s0 (set_sendbuf b s) w) end.
  by destruct Hs as [[]].
Qed.

(** ** The heap *)

Lemma set_heap_id s : set_heap (heap s) s = s.
Proof. by destruct s. Qed.

Lemma set_queue_id s : set_queue (s_lte_msg_queue s) s = s.
Proof. by destruct s. Qed.

Lemma malloc_twp n (Q : option ptr -> lte -> W -> Prop) s w :
  (forall w', (k_malloc n w).2 = false -> Q None s w') ->
  (forall p w', heap s !! p = None -> Q (Some p) (set_heap (<[p := replicate (Z.to_nat n) 0]> (heap s)) s) w') ->
  twp (MY_MALLOC_BUFFER n) Q s w.
Proof.
  intros H1 H2. unfold MY_MALLOC_BUFFER. tstep. apply twp_world. intros ok w' E. tstep; [|tstep; apply H1; by rewrite E].
  tstep. tstep. tstep. tstep. tstep. apply H2. apply not_elem_of_dom, is_fresh.
Qed.

Lemma free_twp p (Q : unit -> lte -> W -> Prop) s w :
  is_Some (heap s !! p) -> Q tt (set_heap (delete p (heap s)) s) w -> twp (MY_FREE_BUFFER p) Q s w.
Proof. intros [b E] HQ. unfold MY_FREE_BUFFER. tstep. tstep. tstep. eapply twp_checked; [exact E|]. by tstep. Qed.

Lemma store_twp p off bytes b b' (Q : unit -> lte -> W -> Prop) s w :
  heap s !! p = Some b -> arr_blit b off bytes = Some b' ->
  Q tt (set_heap (<[p := b']> (heap s)) s) w -> twp (store p off bytes) Q s w.
Proof.
  intros E Eb HQ. unfold store. tstep. tstep. tstep. eapply twp_checked; [exact E|]. tstep. eapply twp_checked; [exact Eb|].
  by tstep.
Qed.

Lemma load_twp p b (Q : list Z -> lte -> W -> Prop) s w : heap s !! p = Some b -> Q b s w -> twp (load p) Q s w.
Proof. intros E HQ. unfold load. tstep. tstep. by eapply twp_checked. Qed.

(** Clearing a slot frees its block. *)
Lemma drop_slot_twp K i m (Q : unit -> lte -> W -> Prop) s w :
  let q := s_lte_msg_queue s in
  mem_ok K (heap s) (my_lte_msgq s) (queue q) -> 0 <= i -> queue q !! Z.to_nat i = Some m ->
  (forall h, mem_ok K h (my_lte_msgq s) (<[Z.to_nat i := mk_pending None (msg_len m)]> (queue q)) ->
     (forall p, Some p <> msg_content m -> h !! p = heap s !! p) -> (forall p, msg_content m = Some p -> h !! p = None) ->
     Q tt (set_queue (mk_queue (<[Z.to_nat i := mk_pending None (msg_len m)]> (queue q)) (q_head q) (q_tail q) (q_count q))
             (set_heap h s)) w) ->
  twp (drop_slot i) Q s w.
Proof.
  intros q Hm Hi E HQ. assert (Hr : 0 <= i < zlen (queue q)) by (apply lookup_lt_Some in E; unfold zlen; lia).
  unfold drop_slot. tstep. tstep. tstep. fold q. unfold arr_get. rewrite (proj2 (Z.leb_le 0 i) Hi).
  eapply twp_checked; [exact E|]. destruct (msg_content m) as [p|] eqn:Ep.
  - destruct (mem_unlink _ _ _ _ _ _ _ (msg_len m) Hm E Ep) as [Hm' Hp]. tstep. apply free_twp.
    { apply (mo_dom _ _ _ _ Hm). left. eapply slot_owned; [by eapply list_elem_of_lookup_2|done]. }
    tstep. rewrite arr_set_Some by done. eapply twp_checked; [reflexivity|]. tstep. apply HQ; [by apply mem_free|..].
    + intros p' Hp'. apply lookup_delete_ne. congruence.
    + intros p' [= <-]. apply lookup_delete_eq.
  - tstep. specialize (HQ (heap s)). assert (Em : mk_pending None (msg_len m) = m) by (destruct m; cbn in *; by rewrite Ep).
    rewrite Em, (list_insert_id _ _ _ E), set_heap_id in HQ. unfold q in HQ.
    replace (mk_queue _ _ _ _) with (s_lte_msg_queue s) in HQ by (by destruct (s_lte_msg_queue s)).
    rewrite set_queue_id in HQ. by apply HQ.
Qed.

Lemma ms_owned mq q ms p len : queue_holds q ms -> (p, len) ∈ ms -> p ∈ owned mq (queue q).
Proof.
  intros H Hin. apply list_elem_of_lookup in Hin as [i Ei]. pose proof (lookup_lt_Some _ _ _ Ei).
  destruct (qh_slots _ _ H i) as (m & E & Hm); [pose proof (qh_max _ _ H); unfold zlen in *; lia|].
  unfold slot_is in Hm. rewrite Ei in Hm. eapply slot_owned; [by eapply list_elem_of_lookup_2|by rewrite Hm].
Qed.

(** The oldest message leaves the queue. *)
Lemma drop_head_twp K c cs (Q : unit -> lte -> W -> Prop) s w :
  inv K (c :: cs) s ->
  (forall q h, inv K cs (set_queue q (set_heap h s)) -> Q tt (set_queue q (set_heap h s)) w) ->
  twp (drop_slot (q_head (s_lte_msg_queue s)) ;; advance_head) Q s w.
Proof.
  intros Hs HQ. destruct (iv_queue _ _ _ Hs) as (ms & Hq & Hc). apply Forall2_cons_inv_r in Hc as ([p len] & ms' & [Hp Hl] & Hc & ->).
  tstep. eapply (drop_slot_twp K); [apply Hs|apply Hq|by eapply queue_first|].
  intros h Hm Hh Hn. unfold advance_head. tstep. cbn [set_queue s_lte_msg_queue queue q_head q_tail q_count msg_len].
  pose proof (queue_pop _ _ _ len _ Hq) as Hq'.
  apply (HQ (mk_queue _ _ _ _) h). destruct Hs. split; try done.
  exists ms'. split; [exact Hq'|]. cbn [heap set_heap set_queue]. apply Forall2_same_length_lookup.
  apply Forall2_same_length_lookup in Hc as [Hlen Hc]. split; [done|]. intros i [p' len'] c' Ei Ec.
  rewrite Hh; [by eapply Hc|]. cbn. intros [= ->]. specialize (Hn p eq_refl).
  assert (Ho : p ∈ owned (my_lte_msgq s) (<[Z.to_nat (q_head (s_lte_msg_queue s)) := mk_pending None len]> (queue (s_lte_msg_queue s)))).
  { eapply (ms_owned _ _ _ p len' Hq'). by eapply list_elem_of_lookup_2. }
  destruct (proj2 (mo_dom _ _ _ _ Hm p)) as [b Eb]; [by left|]. congruence.
Qed.

(** What is left of a queue before a new message comes. *)
Definition keep_last (cs : list (list Z)) : list (list Z) := if 10 <=? zlen cs then drop 1 cs else cs.

Lemma zlen_keep_last cs : zlen cs <= 10 -> zlen (keep_last cs) < 10.
Proof. unfold keep_last. zcase; rewrite ?zlen_drop; lia. Qed.

Lemma make_room_twp K cs (Q : unit -> lte -> W -> Prop) s w :
  inv K cs s ->
  (forall q h, inv K (keep_last cs) (set_queue q (set_heap h s)) -> Q tt (set_queue q (set_heap h s)) w) ->
  twp (if LTE_MSG_QUEUE_SIZE <=? q_count (s_lte_msg_queue s)
       then drop_slot (q_head (s_lte_msg_queue s)) ;; advance_head else ret tt) Q s w.
Proof.
  intros Hs HQ. destruct (iv_queue _ _ _ Hs) as (ms & Hq & Hc). pose proof (Forall2_length _ _ _ Hc) as Hl.
  assert (El : q_count (s_lte_msg_queue s) = zlen cs) by (rewrite (qh_count _ _ Hq); unfold zlen; lia).
  unfold keep_last in HQ. unfold LTE_MSG_QUEUE_SIZE. rewrite El. destruct (10 <=? zlen cs) eqn:E; bool2prop.
  - destruct cs as [|c cs]; [unfold zlen in E; cbn in E; lia|]. eapply drop_head_twp; [exact Hs|]. exact HQ.
  - tstep. specialize (HQ (s_lte_msg_queue s) (heap s)). rewrite set_heap_id, set_queue_id in HQ. by apply HQ.
Qed.

Lemma enqueue_twp K cs content len (Q : Z -> lte -> W -> Prop) s w :
  inv K cs s -> 0 < len < 65536 -> len <= zlen content ->
  (forall q h w1 w', (k_malloc (len + 1) w1).2 = false -> inv K (keep_last cs) (set_queue q (set_heap h s)) ->
     Q (- ENOMEM) (set_queue q (set_heap h s)) w') ->
  (forall q h w', inv K (keep_last cs ++ [take (Z.to_nat len) content]) (set_queue q (set_heap h s)) ->
     Q 0 (set_queue q (set_heap h s)) w') ->
  twp (my_lte_enqueue_msg (Some content) len) Q s w.
Proof.
  intros Hs Hl Hc HQ1 HQ2. unfold my_lte_enqueue_msg. rewrite (proj2 (Z.eqb_neq _ _)) by lia. tstep. tstep. tstep.
  apply (make_room_twp K cs); [done|]. intros q0 h0 Hs1. tstep. apply malloc_twp.
  { intros w' Hno. tstep. by eapply HQ1. }
  intros p w' Hp. cbn [heap set_heap set_queue] in Hp. tstep. rewrite arr_slice_Some by lia.
  eapply twp_checked; [reflexivity|]. cbn [Z.to_nat]. rewrite drop_0. set (bytes := take (Z.to_nat len) content).
  assert (Hb : zlen bytes = len) by (unfold bytes; rewrite zlen_take; lia).
  assert (E1 : arr_blit (replicate (Z.to_nat (len + 1)) 0) 0 bytes = Some (bytes ++ [0])).
  { replace (replicate (Z.to_nat (len + 1)) 0) with ([] ++ replicate (length bytes) 0 ++ [0]).
    - apply (arr_blit_app [] (replicate (length bytes) 0) [0] bytes 0); [done|by rewrite length_replicate].
    - replace (Z.to_nat (len + 1)) with (length bytes + 1)%nat by (unfold zlen in Hb; lia).
      by rewrite (replicate_add (length bytes) 1). }
  assert (E2 : arr_blit (bytes ++ [0]) len [0] = Some (bytes ++ [0])).
  { apply (arr_blit_app bytes [0] [] [0] len); [by rewrite Hb|done]. }
  tstep. eapply store_twp; [apply lookup_insert_eq|exact E1|]. tstep. eapply store_twp; [apply lookup_insert_eq|exact E2|].
  tstep. tstep. tstep. cbn [heap set_heap set_queue s_lte_msg_queue].
  rewrite !insert_insert_eq.
  destruct (iv_queue _ _ _ Hs1) as (ms & Hq & Hcs). cbn [s_lte_msg_queue set_queue heap set_heap] in Hq, Hcs.
  assert (Hlt : zlen ms < 10).
  { pose proof (Forall2_length _ _ _ Hcs). destruct (iv_queue _ _ _ Hs) as (ms0 & Hq0 & Hc0).
    pose proof (Forall2_length _ _ _ Hc0). pose proof (qh_max _ _ Hq0). pose proof (zlen_keep_last cs). unfold zlen in *. lia. }
  pose proof (queue_tail_range _ _ Hq). rewrite arr_set_Some by (rewrite (qh_len _ _ Hq); lia).
  eapply twp_checked; [reflexivity|]. tstep. tstep. tstep.
  destruct (queue_last _ _ Hq Hlt) as (m & Em & Emc).
  match goal with |- Q 0 ?s' w' => replace s' with (set_queue (mk_queue
    (<[Z.to_nat (q_tail q0) := mk_pending (Some p) len]> (queue q0)) (q_head q0)
    (u8 ((q_tail q0 + 1) mod LTE_MSG_QUEUE_SIZE)) (u8 (q_count q0 + 1))) (set_heap (<[p := bytes ++ [0]]> h0) s)) by done end.
  apply HQ2. pose proof (iv_mem _ _ _ Hs1) as Hm. cbn [heap set_heap set_queue my_lte_msgq s_lte_msg_queue] in Hm.
  destruct Hs. split; try done.
  - exists (ms ++ [(p, len)]). split; [by apply queue_push|]. cbn [heap set_heap set_queue].
    apply Forall2_app; [|apply Forall2_cons; split; [by rewrite lookup_insert_eq|by constructor]].
    eapply Forall2_impl; [exact Hcs|]. intros [p' l'] c' [E' El]. split; [|done]. cbn in *.
    rewrite lookup_insert_ne; [done|]. intros ->. congruence.
  - cbn [heap set_heap set_queue my_lte_msgq s_lte_msg_queue queue].
    assert (HpK : p ∉ K). { intros Hin. destruct (proj2 (mo_dom _ _ _ _ Hm p)); [by right|congruence]. }
    eapply (mem_link _ _ _ _ _ m _ _ (bytes ++ [0])); [by apply mem_alloc|done|done|done|by rewrite lookup_insert_eq| |done].
    rewrite zlen_app, Hb. done.
Qed.

Lemma clear_loop_twp K n : forall i (Q : unit -> lte -> W -> Prop) s w,
  i + Z.of_nat n = 10 -> 0 <= i -> zlen (queue (s_lte_msg_queue s)) = 10 ->
  mem_ok K (heap s) (my_lte_msgq s) (queue (s_lte_msg_queue s)) ->
  Forall (fun m => msg_content m = None) (take (Z.to_nat i) (queue (s_lte_msg_queue s))) ->
  (forall q h, zlen (queue q) = 10 -> Forall (fun m => msg_content m = None) (queue q) ->
     mem_ok K h (my_lte_msgq s) (queue q) -> Q tt (set_queue q (set_heap h s)) w) ->
  twp (clear_loop n i) Q s w.
Proof.
  induction n as [|n IH]; intros i Q s w Hi H0 Hl Hm Hf HQ; cbn [clear_loop].
  - tstep. specialize (HQ (s_lte_msg_queue s) (heap s) Hl). rewrite set_heap_id, set_queue_id in HQ. apply HQ; [|done].
    rewrite take_ge in Hf; [done|]. unfold zlen in Hl. lia.
  - destruct (lookup_lt_is_Some_2 (queue (s_lte_msg_queue s)) (Z.to_nat i)) as [m Em]; [unfold zlen in Hl; lia|].
    assert (Hin : (Z.to_nat i < length (queue (s_lte_msg_queue s)))%nat) by (unfold zlen in Hl; lia).
    tstep. eapply (drop_slot_twp K); [done|lia|done|]. intros h Hm' _ _. tstep. tstep. tstep.
    cbn [set_queue s_lte_msg_queue queue q_head q_tail q_count set_heap]. unfold arr_get. rewrite (proj2 (Z.leb_le 0 i)) by lia.
    rewrite list_lookup_insert_eq by done. eapply twp_checked; [reflexivity|]. tstep.
    rewrite arr_set_Some by (rewrite zlen_insert; lia). eapply twp_checked; [reflexivity|]. tstep. tstep.
    rewrite list_insert_insert_eq. cbn [msg_content].
    apply IH; cbn [set_queue s_lte_msg_queue queue set_heap heap my_lte_msgq]; try lia.
    + by rewrite zlen_insert.
    + pose proof (mem_slot_len K h _ _ (Z.to_nat i) (mk_pending None (msg_len m)) 0 Hm') as Hx.
      rewrite list_lookup_insert_eq, list_insert_insert_eq in Hx by done. by apply Hx.
    + replace (Z.to_nat (i + 1)) with (S (Z.to_nat i)) by lia.
      erewrite take_S_r by (by apply list_lookup_insert_eq). rewrite take_insert, decide_False by lia.
      apply Forall_app. split; [done|by apply Forall_singleton].
    + intros q h'. cbn. apply HQ.
Qed.

Lemma clear_twp K cs (Q : unit -> lte -> W -> Prop) s w :
  inv K cs s -> (forall q h, inv K [] (set_queue q (set_heap h s)) -> Q tt (set_queue q (set_heap h s)) w) ->
  twp my_lte_msg_queue_clear Q s w.
Proof.
  intros Hs HQ. destruct (iv_queue _ _ _ Hs) as (ms & Hq & _). unfold my_lte_msg_queue_clear. tstep.
  apply (clear_loop_twp K); [done|done|apply Hq|apply Hs|by cbn|]. intros q h Hl Hf Hm. tstep.
  apply (HQ (mk_queue (queue q) 0 0 0) h). destruct Hs. split; try done. exists []. split; [by apply queue_nil|constructor].
Qed.
End safe.
