(* ===== verification/LteSafety.v ===== *)
(** * Safety of the LTE thread

    The operations that go through the power management, the handlers of the
    thread and the interrupts, in any order: no access outside a block, no
    block freed twice, and every block still has its owner. *)

From stdpp Require Import gmap.
From S2P Require Import Prelude Text Prog RingBuf Pm Lte LteProofs.

Open Scope prog_scope.

Section safety.
Context {W : Type} `{!LteHw W} `{!LteHwLaws W} `{!PmRuntime W}.
Notation PM := (list (pm_device_ctx_t (lte * W))).
Notation PW := (PM * W)%type.

(** The LTE module's entry of the power management table. *)
Definition tok (t : PM) : Prop :=
  zlen t = 6 /\ forall c o, t !! Z.to_nat MY_PM_DEV_LTE = Some c -> ops c = Some o -> o = lte_pm_ops.

Lemma tok_same t t' : ops <$> t' = ops <$> t -> tok t -> tok t'.
Proof.
  intros E [Hl Ho]. split.
  - apply (f_equal length) in E. rewrite !length_fmap in E. unfold zlen in *. lia.
  - intros c o Ec Eo. apply (f_equal (.!! Z.to_nat MY_PM_DEV_LTE)) in E. rewrite !list_lookup_fmap, Ec in E.
    destruct (t !! _) as [c'|] eqn:Et; [|done]. cbn in E. injection E as E. eapply Ho; [done|]. congruence.
Qed.

Lemma twp_lift {A} (m : prog lte W A) Q s t w :
  twp m (fun a s' w' => Q a s' (t, w')) s w -> twp (lift m) Q s (t, w).
Proof. unfold twp, lift. cbn. by destruct (m s w) as [[[a s'] w']| |]. Qed.

(** Every program of the thread that leaves the queue alone. *)
Definition psafe (K : gset ptr) (cs : list (list Z)) {A} (m : prog lte PW A) : Prop :=
  forall s0 s t w, at_state K cs s0 s -> tok t -> twp m (fun _ s' tw => at_state K cs s0 s' /\ tok tw.1) s (t, w).

Lemma psafe_bind K cs {A B} (m : prog lte PW A) (k : A -> prog lte PW B) :
  psafe K cs m -> (forall a, psafe K cs (k a)) -> psafe K cs (bind m k).
Proof.
  intros Hm Hk s0 s t w Hs Ht. tstep. eapply twp_mono; [by eapply Hm|]. intros a s' [t' w'] [Hs' Ht']. by eapply Hk.
Qed.

Lemma psafe_ret K cs {A} (a : A) : psafe K cs (ret a).
Proof. intros s0 s t w Hs Ht. by tstep. Qed.

Lemma psafe_get K cs {A} (f : lte -> A) : psafe K cs (get f).
Proof. intros s0 s t w Hs Ht. by tstep. Qed.

Lemma psafe_modify K cs f : (forall s0 s, at_state K cs s0 s -> at_state K cs s0 (f s)) -> psafe K cs (modify f).
Proof. intros Hf s0 s t w Hs Ht. tstep. by auto. Qed.

Lemma psafe_if K cs {A} (b : bool) (m1 m2 : prog lte PW A) :
  psafe K cs m1 -> psafe K cs m2 -> psafe K cs (if b then m1 else m2).
Proof. by destruct b. Qed.

Lemma psafe_lift K cs {A} (m : prog lte W A) : safe K cs m -> psafe K cs (lift m).
Proof. intros Hm s0 s t w Hs Ht. apply twp_lift. eapply twp_mono; [by eapply Hm|]. by intros a s' w' Hs'. Qed.

(** A call of the power management. *)
Lemma pm_callback_keeps K cs s0 (m : prog lte W Z) (sw : lte * W) :
  safe K cs m -> at_state K cs s0 sw.1 ->
  exists sw' r, pm_callback m sw = Some (sw', r) /\ at_state K cs s0 sw'.1.
Proof.
  intros Hm Hs. destruct (twp_done _ _ _ _ (Hm s0 sw.1 sw.2 Hs)) as (r & s' & w' & E & H').
  exists (s', w'), r. unfold pm_callback. by rewrite E.
Qed.

Lemma table_of_tok K cs s0 t : tok t -> table_keeps (fun sw : lte * W => at_state K cs s0 sw.1) MY_PM_DEV_LTE t.
Proof.
  intros [Hl Ho]. split; [done|]. intros c o Ec Eo. rewrite (Ho c o Ec Eo).
  split; intros f sw [= <-] Hs; apply pm_callback_keeps; try done; [apply lte_pm_suspend_safe|apply lte_pm_resume_safe].
Qed.

Lemma pm_call_safe K cs m :
  (forall s0 t sw, tok t -> at_state K cs s0 sw.1 ->
     twp m (fun _ t' sw' => ops <$> t' = ops <$> t /\ at_state K cs s0 sw'.1) t sw) ->
  psafe K cs (pm_call m).
Proof.
  intros Hm s0 s t w Hs Ht. specialize (Hm s0 t (s, w) Ht Hs). unfold twp, pm_call in *. cbn.
  destruct (m t (s, w)) as [[[r t'] [s' w']]| |]; [|done..]. destruct Hm as [E H']. split; [done|]. by eapply tok_same.
Qed.

Lemma pm_resume_safe K cs : psafe K cs (pm_call (my_pm_device_resume MY_PM_DEV_LTE)).
Proof.
  apply pm_call_safe. intros s0 t sw Ht Hs.
  apply (resume_keeps (fun sw : lte * W => at_state K cs s0 sw.1)); [..|done|by apply table_of_tok|done].
  - intros b [s w] H. cbn. by destruct (pm_device_runtime_get b w).
  - intros b [s w] H. cbn. by destruct (pm_device_runtime_put b w).
Qed.

Lemma pm_suspend_safe K cs : psafe K cs (pm_call (my_pm_device_suspend MY_PM_DEV_LTE)).
Proof.
  apply pm_call_safe. intros s0 t sw Ht Hs.
  apply (suspend_keeps (fun sw : lte * W => at_state K cs s0 sw.1)); [..|done|by apply table_of_tok|done].
  intros b [s w] H. cbn. by destruct (pm_device_runtime_put b w).
Qed.

Hint Resolve psafe_bind psafe_ret psafe_get psafe_if psafe_lift pm_resume_safe pm_suspend_safe activity_kick_safe
  window_kick_safe k_sem_take_safe can_suspend_safe : lte.

Lemma ensure_active_safe K cs : psafe K cs lte_uart_ensure_active.
Proof. unfold lte_uart_ensure_active. auto 12 with lte. Qed.
Hint Resolve ensure_active_safe : lte.

Lemma my_lte_uart_send_safe K cs data len : 0 <= len <= zlen data -> psafe K cs (my_lte_uart_send data len).
Proof.
  intros Hl. unfold my_lte_uart_send. apply psafe_bind; [auto with lte|]. intros s. apply psafe_if; [auto with lte|].
  unfold UART_TX_BUFFER_SIZE. destruct (1024 <? len) eqn:E; [auto with lte|]. bool2prop.
  apply psafe_bind; [auto with lte|]. intros r. apply psafe_if; [auto with lte|].
  apply psafe_bind; [auto with lte|]. intros _. apply psafe_bind; [auto with lte|]. intros r'.
  apply psafe_if; [auto with lte|]. apply psafe_lift, send_data_safe; lia.
Qed.

(** The queue is emptied; [J] follows the messages that are left. *)
Section process.
Context (K : gset ptr) (J : list (list Z) -> lte -> Prop).

Hypothesis J_send : forall c cs s t w, inv K (c :: cs) s -> tok t -> J (c :: cs) s ->
  twp (my_lte_uart_send (c ++ [0]) (zlen c)) (fun _ s' tw => (at_state K (c :: cs) s s' /\ tok tw.1) /\ J cs s') s (t, w).
Hypothesis J_queue : forall cs q h s, J cs s -> J cs (set_queue q (set_heap h s)).

Lemma process_loop_twp n : forall cs s t w,
  inv K cs s -> tok t -> J cs s -> zlen cs <= Z.of_nat n ->
  twp (process_loop n) (fun _ s' tw => inv K [] s' /\ tok tw.1 /\ J [] s') s (t, w).
Proof.
  induction n as [|n IH]; intros cs s t w Hs Ht HJ Hn; cbn [process_loop]; tstep; tstep.
  all: destruct (iv_queue _ _ _ Hs) as (ms & Hq & Hc); pose proof (Forall2_length _ _ _ Hc) as Hl.
  all: rewrite (qh_count _ _ Hq).
  - destruct cs as [|c cs]; [|rewrite zlen_cons in Hn; pose proof (zlen_nonneg cs); lia].
    apply Forall2_nil_inv_r in Hc as ->. by tstep.
  - destruct cs as [|c cs]; [apply Forall2_nil_inv_r in Hc as ->; by tstep|].
    pose proof Hc as Hc'. apply Forall2_cons_inv_r in Hc' as ([p len] & ms' & [Hp Hlen] & Hc' & ->). cbn in Hp, Hlen.
    rewrite zlen_cons in Hn. pose proof (zlen_nonneg ms').
    rewrite zlen_cons, (proj2 (Z.ltb_lt 0 _)) by lia. cbn [negb]. tstep. unfold arr_get.
    rewrite (proj2 (Z.leb_le 0 _)) by apply Hq. eapply twp_checked; [by eapply queue_first|]. cbn [msg_content msg_len].
    tstep. tstep. apply twp_lift. eapply load_twp; [done|]. tstep. rewrite Hlen.
    eapply twp_mono; [by eapply J_send|].
    intros r s' [t' w'] [[[Hs' Eq _ _] Ht'] HJ']. tstep. rewrite <- Eq.
    assert (Hd : twp (lift (drop_slot (q_head (s_lte_msg_queue s')) ;; advance_head))
      (fun _ s' tw => inv K cs s' /\ tok tw.1 /\ J cs s') s' (t', w')).
    { apply twp_lift. eapply drop_head_twp; [done|]. intros q h Hi. by auto. }
    tstep. unfold lift, bind in Hd. unfold twp in Hd |- *. unfold lift at 1. cbn [snd fst] in *.
    destruct (drop_slot _ s' w') as [[[u s1] w1]| |]; [|done..]. unfold bind, lift. cbn [snd fst].
    destruct (advance_head s1 w1) as [[[u2 s2] w2]| |]; [|done..]. destruct Hd as (H2 & H3 & H4).
    eapply IH; [done|done|done|lia].
Qed.

Lemma process_twp cs s t w :
  inv K cs s -> tok t -> J cs s ->
  twp my_lte_process_queued_msgs (fun _ s' tw => inv K [] s' /\ tok tw.1 /\ J [] s') s (t, w).
Proof.
  intros Hs Ht HJ. unfold my_lte_process_queued_msgs. tstep. tstep. eapply process_loop_twp; [done|done|done|].
  destruct (iv_queue _ _ _ Hs) as (ms & Hq & Hc). pose proof (Forall2_length _ _ _ Hc).
  rewrite (qh_count _ _ Hq). unfold zlen. lia.
Qed.
End process.

(** ** Handlers that may post messages

    A block whose message finds the queue full stays allocated: [K] grows. *)

Definition einv (K : gset ptr) (s : lte) : Prop := exists cs, inv K cs s.

Definition lsafe {A} (m : prog lte PW A) : Prop := forall K s t w,
  einv K s -> tok t -> wp m (fun _ s' tw => exists K', K ⊆ K' /\ einv K' s' /\ tok tw.1) s (t, w).

Lemma lsafe_bind {A B} (m : prog lte PW A) (k : A -> prog lte PW B) :
  lsafe m -> (forall a, lsafe (k a)) -> lsafe (bind m k).
Proof.
  intros Hm Hk K s t w Hs Ht. wstep. eapply wp_mono; [by eapply Hm|]. intros a s' [t' w'] (K' & HK & Hs' & Ht').
  eapply wp_mono; [by eapply Hk|]. intros b s2 [t2 w2] (K2 & HK2 & Hs2 & Ht2). exists K2. split; [set_solver|done].
Qed.

Lemma lsafe_ret {A} (a : A) : lsafe (ret a).
Proof. intros K s t w Hs Ht. wstep. by exists K. Qed.

Lemma lsafe_get {A} (f : lte -> A) : lsafe (get f).
Proof. intros K s t w Hs Ht. wstep. by exists K. Qed.

Lemma lsafe_modify f : (forall K cs s, inv K cs s -> inv K cs (f s)) -> lsafe (modify f).
Proof. intros Hf K s t w [cs Hs] Ht. wstep. exists K. split_and!; [done|exists cs; by apply Hf|done]. Qed.

Lemma lsafe_if {A} (b : bool) (m1 m2 : prog lte PW A) : lsafe m1 -> lsafe m2 -> lsafe (if b then m1 else m2).
Proof. by destruct b. Qed.

Lemma lsafe_twp {A} (m : prog lte PW A) :
  (forall K cs s t w, inv K cs s -> tok t ->
     twp m (fun _ s' tw => exists K', K ⊆ K' /\ einv K' s' /\ tok tw.1) s (t, w)) -> lsafe m.
Proof.
  intros Hm K s t w [cs Hs] Ht. specialize (Hm K cs s t w Hs Ht). unfold twp, wp in *.
  by destruct (m s (t, w)) as [[[a s'] tw]| |].
Qed.

Lemma lsafe_psafe {A} (m : prog lte PW A) : (forall K cs, psafe K cs m) -> lsafe m.
Proof.
  intros Hm. apply lsafe_twp. intros K cs s t w Hs Ht. eapply twp_mono; [by eapply (Hm K cs s)|].
  intros a s' tw [[Hs' _ _ _] Ht']. exists K. split_and!; [done|by exists cs|done].
Qed.

Hint Resolve lsafe_bind lsafe_ret lsafe_get lsafe_modify lsafe_if lsafe_psafe : lte.

(** The text of a command fits its block. *)
Lemma text_fits cmd (param : option (list Z)) :
  zlen (match param with
        | Some v => if 0 <? zlen v then cstr "BLE+" ++ cmd ++ cstr "=" ++ v ++ [13; 10] else cstr "BLE+" ++ cmd ++ [13; 10]
        | None => cstr "BLE+" ++ cmd ++ [13; 10]
        end) + 1 <= match param with Some v => zlen cmd + zlen v + 16 | None => zlen cmd + 16 end.
Proof.
  pose proof (zlen_nonneg cmd).
  destruct param as [v|]; [pose proof (zlen_nonneg v); destruct (0 <? zlen v)|]; rewrite ?zlen_app;
    change (zlen (cstr "BLE+")) with 4; change (zlen (cstr "=")) with 1; change (zlen [13; 10]) with 2; lia.
Qed.

Lemma take_prefix (l b : list Z) : take (length l) b = l -> b = l ++ drop (length l) b.
Proof. intros E. rewrite <- E at 1. by rewrite take_drop. Qed.

(** A new block with these bytes at its beginning. *)
Lemma block_twp K cs n bytes {A} (none : prog lte W A) (some : ptr -> prog lte W A) (Q : A -> lte -> W -> Prop) s w :
  inv K cs s -> zlen bytes <= n -> (forall w', twp none Q s w') ->
  (forall p b s' w', p ∉ K -> inv ({[p]} ∪ K) cs s' -> heap s' !! p = Some b -> zlen b = n -> take (length bytes) b = bytes ->
     twp (some p) Q s' w') ->
  twp (b <- MY_MALLOC_BUFFER n ;; match b with None => none | Some p => store p 0 bytes ;; some p end) Q s w.
Proof.
  intros Hs Hn HQ1 HQ2. pose proof (zlen_nonneg bytes). tstep. apply malloc_twp; [intros w2 _; apply HQ1|]. intros p w2 Hp.
  destruct (arr_blit (replicate (Z.to_nat n) 0) 0 bytes) as [b|] eqn:E.
  2: { rewrite arr_blit_Some in E; [done|lia|]. rewrite zlen_replicate. lia. }
  tstep. eapply store_twp; [apply lookup_insert_eq|exact E|]. cbn [heap set_heap]. rewrite insert_insert_eq.
  pose proof (iv_mem _ _ _ Hs) as Hm. assert (HpK : p ∉ K). { intros Hin. destruct (proj2 (mo_dom _ _ _ _ Hm p)); [by right|congruence]. }
  eapply (HQ2 p b); [done| |apply lookup_insert_eq| |].
  - destruct (iv_queue _ _ _ Hs) as (ms & Hq & Hc). pose proof (mem_alloc _ _ _ _ p b Hm Hp) as Hm'. destruct Hs. split; try done.
    exists ms. split; [done|]. cbn [heap set_heap]. eapply Forall2_impl; [exact Hc|]. intros [p' l'] c' [E' El]. split; [|done]. cbn in *.
    rewrite lookup_insert_ne; [done|]. intros ->. congruence.
  - apply arr_blit_length in E. rewrite E, zlen_replicate. lia.
  - apply arr_slice_blit in E. apply arr_slice_inv in E as (_ & _ & _ & E). rewrite E at 2. unfold zlen. by rewrite Nat2Z.id, drop_0.
Qed.

(** Posting a message with its block: it is in the queue, or the block is lost. *)
Lemma post_twp K cs p m (Q : unit -> lte -> W -> Prop) s w :
  inv ({[p]} ∪ K) cs s -> p ∉ K -> pData m = Some p -> msg_ok (heap s) m ->
  (forall s', inv K cs s' -> Q tt s' w) -> (forall s', inv ({[p]} ∪ K) cs s' -> Q tt s' w) -> twp (my_send_msg_data m) Q s w.
Proof.
  intros Hs Hp Em Hm HQ1 HQ2. unfold my_send_msg_data. tstep. destruct (_ <? _); [|by apply HQ2]. apply HQ1. destruct Hs. split; try done.
  by eapply mem_post.
Qed.

Lemma send_command_twp K cs cmd param (Q : Z -> lte -> W -> Prop) s w :
  inv K cs s ->
  (forall r s' w', inv K cs s' -> Q r s' w') ->
  (forall p r s' w', p ∉ K -> inv ({[p]} ∪ K) cs s' -> Q r s' w') ->
  twp (lte_send_command cmd param) Q s w.
Proof.
  intros Hs HQ1 HQ2. unfold lte_send_command. tstep. tstep. tstep.
  eapply twp_mono; [eapply (safe_if K cs (negb (s_lte_power_state s))); [by apply my_send_msg_safe|apply safe_ret|by split]|].
  intros u s1 w1 [Hs1 _ _ _]. clear Hs.
  set (n := match param with Some v => zlen cmd + zlen v + 16 | None => zlen cmd + 16 end).
  set (text := match param with Some v => if 0 <? zlen v then _ else _ | None => _ end).
  assert (Hn : zlen text + 1 <= n) by apply text_fits. pose proof (zlen_nonneg text). clearbody n text.
  apply (block_twp K cs n (text ++ [0])); [done|rewrite zlen_app; change (zlen [0]) with 1; lia|intros w'; tstep; by apply HQ1|].
  intros p b s' w' HpK Hs' Eb Hb _. tstep. eapply post_twp; [done|done|done| |..].
  - split; [done|]. intros p' [= <-]. exists b. split; [done|]. left. cbn. split; [done|lia].
  - intros s2 Hs2. tstep. by apply HQ1.
  - intros s2 Hs2. tstep. by eapply HQ2.
Qed.

Definition lkept (K : gset ptr) {A} (_ : A) (s : lte) (tw : PW) : Prop := exists K', K ⊆ K' /\ einv K' s /\ tok tw.1.

Lemma lkept_now K cs s t w {A} (a : A) : inv K cs s -> tok t -> lkept K a s (t, w).
Proof. intros Hs Ht. exists K. split_and!; [done|by exists cs|done]. Qed.

Lemma lkept_lost K cs p s t w {A} (a : A) : inv ({[p]} ∪ K) cs s -> tok t -> lkept K a s (t, w).
Proof. intros Hs Ht. exists ({[p]} ∪ K). split_and!; [set_solver|by exists cs|done]. Qed.

Lemma send_command_lsafe cmd param : lsafe (lift (lte_send_command cmd param)).
Proof.
  apply lsafe_twp. intros K cs s t w Hs Ht. apply twp_lift. eapply send_command_twp; [exact Hs|..].
  - intros r s' w' Hs'. by eapply (lkept_now K cs s' t w' r).
  - intros p r s' w' _ Hs'. by eapply (lkept_lost K cs p s' t w' r).
Qed.

(** No block of the heap is larger. *)
Definition short_command (cmd : list Z) (param : option (list Z)) : Prop := 
  zlen cmd + match param with Some v => zlen v | None => 0 end + 8 < 65536.

(** The copy for the retransmission queue is a string. *)
Lemma send_retry_lsafe cmd param : short_command cmd param -> lsafe (lift (lte_send_cmd_with_retry cmd param)).
Proof.
  intros Hshort. apply lsafe_twp. intros K cs s t w Hs Ht. apply twp_lift. unfold lte_send_cmd_with_retry. tstep.
  assert (Hrest : forall K0 r s' w', K ⊆ K0 -> inv K0 cs s' ->
    twp (if r =? -1 then ret tt else
         b <- MY_MALLOC_BUFFER (match param with Some v => zlen cmd + zlen v + 8 | None => zlen cmd + 1 end) ;;
         match b with
         | None => ret tt
         | Some command =>
             store command 0 (take (Z.to_nat (match param with Some v => zlen cmd + zlen v + 8 | None => zlen cmd + 1 end - 1))
               match param with
               | Some v => if 0 <? zlen v then cmd ++ cstr "," ++ v else cmd
               | None => cmd
               end ++ [0]) ;;
             my_send_msg_data (mk_msg MY_MSG_ADD_RETRANS_QUEUE (Some command) 0)
         end) (fun a s' w' => lkept K a s' (t, w')) s' w').
  { intros K0 r s' w' HK Hs'. assert (Hm : forall K1 s2 w2, K0 ⊆ K1 -> inv K1 cs s2 -> lkept K tt s2 (t, w2)).
    { intros K1 s2 w2 HK1 Hs2. exists K1. split_and!; [set_solver|by exists cs|done]. }
    tstep; [tstep; by eapply Hm|]. set (n := match param with Some v => zlen cmd + zlen v + 8 | None => zlen cmd + 1 end).
    assert (1 <= n < 65536).
    { unfold n, short_command in *. destruct param as [v|];  pose proof (zlen_nonneg cmd); [pose proof (zlen_nonneg v)|]; lia. }
    eapply block_twp; [exact Hs'|rewrite zlen_app, zlen_take; change (zlen [0]) with 1; lia|intros w2; tstep; by eapply Hm|].
    intros p b s2 w2 HpK Hs2 Eb Hb Ht2. eapply post_twp; [done|done|done| |intros s3 Hs3; by eapply Hm|intros s3 Hs3; eapply Hm; [|done]; set_solver].
    split; [done|]. intros p' [= <-]. exists b. split; [done|]. right. split_and!; [done| |lia].
    rewrite (take_prefix _ _ Ht2). apply Exists_app. left. apply Exists_app. right. by constructor. }
  eapply send_command_twp; [exact Hs|..].
  - intros r s' w' Hs'. by apply (Hrest K).
  - intros p r s' w' _ Hs'. apply (Hrest ({[p]} ∪ K)); [set_solver|done].
Qed.

Lemma send_msg_lsafe c len : 0 <= len < 65536 -> len <= zlen c -> lsafe (my_lte_send_msg (Some c) len).
Proof.
  intros Hl Hc. unfold my_lte_send_msg. destruct (Z.eqb_spec len 0); [auto with lte|].
  apply lsafe_bind; [auto with lte|]. intros ready. apply lsafe_if.
  - apply lsafe_psafe. intros K cs. apply my_lte_uart_send_safe. lia.
  - apply lsafe_twp. intros K cs s t w Hs Ht. apply twp_lift. eapply enqueue_twp; [exact Hs|lia|lia|..].
    + intros q h w1 w' _ H'. exists K. split_and!; [done|by eexists|done].
    + intros q h w' H'. exists K. split_and!; [done|by eexists|done].
Qed.

Lemma clear_lsafe : lsafe (lift my_lte_msg_queue_clear).
Proof.
  apply lsafe_twp. intros K cs s t w Hs Ht. apply twp_lift. eapply clear_twp; [exact Hs|].
  intros q h H'. exists K. split_and!; [done|by eexists|done].
Qed.

(** The messages that are thrown away lose their blocks. *)
Lemma drop_msgs_inv K cs s : inv K cs s -> exists K', K ⊆ K' /\ inv K' cs (set_msgq [] s).
Proof.
  intros Hs. exists (list_to_set (omap pData (my_lte_msgq s)) ∪ K). split; [set_solver|]. pose proof (iv_mem _ _ _ Hs) as Hm.
  destruct Hs. split; try done. cbn [my_lte_msgq set_msgq heap s_lte_msg_queue]. pose proof (mo_nodup _ _ _ _ Hm) as Hn.
  unfold owned in Hn. apply NoDup_app in Hn as (_ & Hd & Hn).
  eapply mem_owner; [exact Hm|apply Hm|done|done|..].
  - intros p. unfold owned. rewrite elem_of_app, elem_of_union, elem_of_list_to_set. cbn. rewrite ?elem_of_app. tauto.
  - intros p Hp. unfold owned in Hp. cbn in Hp. rewrite elem_of_union, elem_of_list_to_set. intros [Hq|Hq].
    + by apply (Hd p).
    + apply (mo_disj _ _ _ _ Hm p); [|done]. unfold owned. rewrite elem_of_app. by right.
Qed.

Lemma purge_lsafe : lsafe (lift purge_queues).
Proof.
  apply lsafe_twp. intros K cs s t w Hs Ht. apply twp_lift. unfold purge_queues. tstep. tstep.
  destruct (drop_msgs_inv K cs s Hs) as (K' & HK & Hs'). tstep. eapply clear_twp; [exact Hs'|]. intros q h H'.
  eapply twp_mono; [eapply (flush_safe K' []); by split|]. intros a s2 w2 [H2 _ _ _]. exists K'. split_and!; [done|by exists []|done].
Qed.

Lemma process_lsafe : lsafe my_lte_process_queued_msgs.
Proof.
  apply lsafe_twp. intros K cs s t w Hs Ht. eapply twp_mono; [eapply (process_twp K (fun _ _ => True)); try done|].
  - intros c cs' s' t' w' Hs' Ht' _. eapply twp_mono; [eapply (my_lte_uart_send_safe K (c :: cs')); [|by split|done]|].
    + rewrite zlen_app. pose proof (zlen_nonneg c). change (zlen [0]) with 1. lia.
    + by intros r s2 tw H.
  - intros u s' tw (Hs' & Ht' & _). exists K. split_and!; [done|by eexists|done].
Qed.

Lemma inv_ctx' K cs c s : inv K cs s -> inv K cs (set_uart_ctx c s).
Proof. by intros []. Qed.

Lemma inv_power' K cs p r s : inv K cs s -> inv K cs (set_power p r s).
Proof. by intros []. Qed.

Hint Resolve clear_lsafe process_lsafe inv_ctx' inv_power' flush_safe my_lte_pwr_on_safe k_sem_give_safe k_sleep_safe
  safe_world : lte.

Lemma pwroff_lsafe : lsafe my_lte_pwroff_handle.
Proof.
  unfold my_lte_pwroff_handle, set_idle_timer, set_expire, set_tx_busy, set_wakeup_pending.
  apply lsafe_bind; [auto with lte|]. intros s. apply lsafe_bind; [auto with lte|]. intros busy.
  apply lsafe_if; [auto with lte|]. do 14 (try (apply lsafe_bind; [auto 7 with lte|intros ?])). auto with lte.
Qed.

Lemma inv_command K cs b i s : zlen b = 128 -> 0 <= i <= 127 -> inv K cs s -> inv K cs (set_command b i s).
Proof. by intros ? ? []. Qed.

Hint Resolve send_command_lsafe pwroff_lsafe ensure_active_safe : lte.

(** ** The thread

    [xok] is what the handlers keep of the variables they share. *)

Section thread.
Context {X : Type} (xok : X -> Prop).

Definition kept (K : gset ptr) {A} (_ : A) (s : lte) (pw : PW * X) : Prop :=
  exists K', K ⊆ K' /\ einv K' s /\ tok pw.1.1 /\ xok pw.2.

Definition tsafe {A} (m : prog lte (PW * X) A) : Prop := forall K s t w x,
  einv K s -> tok t -> xok x -> wp m (kept K) s ((t, w), x).

(** Once more owners are known, or fewer. *)
Lemma kept_mono K K' {A} (a : A) s pw : K ⊆ K' -> kept K' a s pw -> kept K a s pw.
Proof. intros HK (K2 & HK2 & H). exists K2. split; [set_solver|done]. Qed.

Lemma tsafe_then {A} (m : prog lte (PW * X) A) K {B} (b : B) s pw : tsafe m -> kept K b s pw -> wp m (kept K) s pw.
Proof.
  intros Hm (K' & HK & Hs & Ht & Hx). destruct pw as [[t w] x]. eapply wp_mono; [by eapply Hm|].
  intros a s' pw' H. by eapply kept_mono.
Qed.

Lemma tsafe_bind {A B} (m : prog lte (PW * X) A) (k : A -> prog lte (PW * X) B) :
  tsafe m -> (forall a, tsafe (k a)) -> tsafe (bind m k).
Proof.
  intros Hm Hk K s t w x Hs Ht Hx. wstep. eapply wp_mono; [by eapply Hm|]. intros a s' pw H. by eapply tsafe_then.
Qed.

Lemma kept_now K s t w x {A} (a : A) : einv K s -> tok t -> xok x -> kept K a s (t, w, x).
Proof. intros Hs Ht Hx. by exists K. Qed.

Lemma tsafe_ret {A} (a : A) : tsafe (ret a).
Proof. intros K s t w x Hs Ht Hx. wstep. by apply kept_now. Qed.

Lemma tsafe_get {A} (f : lte -> A) : tsafe (get f).
Proof. intros K s t w x Hs Ht Hx. wstep. by apply kept_now. Qed.

Lemma tsafe_modify f : (forall K cs s, inv K cs s -> inv K cs (f s)) -> tsafe (modify f).
Proof. intros Hf K s t w x [cs Hs] Ht Hx. wstep. apply kept_now; [|done..]. exists cs. by apply Hf. Qed.

Lemma tsafe_if {A} (b : bool) (m1 m2 : prog lte (PW * X) A) : tsafe m1 -> tsafe m2 -> tsafe (if b then m1 else m2).
Proof. by destruct b. Qed.

Lemma tsafe_checked {A} (o : option A) : is_Some o -> tsafe (checked o).
Proof. intros [a ->] K s t w x Hs Ht Hx. by apply (kept_now K s t w x a). Qed.

Lemma tsafe_frame {A} (m : prog lte PW A) : lsafe m -> tsafe (frame m).
Proof.
  intros Hm K s t w x Hs Ht Hx. specialize (Hm K s t w Hs Ht). unfold wp, frame in *. cbn [fst snd].
  destruct (m s (t, w)) as [[[a s'] [t' w']]| |]; [|done..]. destruct Hm as (K' & HK & Hs' & Ht'). by exists K'.
Qed.

Hint Resolve tsafe_bind tsafe_ret tsafe_get tsafe_modify tsafe_if tsafe_frame : lte.

(** The received characters, when one byte after the buffer may be read. *)
Lemma recv_loop_tsafe parse n : forall pData i,
  (forall l, zlen l <= 127 -> tsafe (parse l)) -> 0 <= i -> i + Z.of_nat n < zlen pData -> tsafe (recv_loop parse n pData i).
Proof.
  induction n as [n IH] using lt_wf_ind; intros pData i Hp Hi Hn. destruct n as [|n]; cbn [recv_loop]; [auto with lte|].
  intros K s t w x Hs Ht Hx. wstep. destruct (arr_get_Some pData i) as [c Ec]; [lia|]. eapply wp_checked; [exact Ec|].
  wstep.
  - wstep. wstep. wstep. assert (Hlen : zlen (take (Z.to_nat (cmd_index (id s))) (command (id s))) <= 127).
    { destruct Hs as [cs Hs]. pose proof (iv_idx _ _ _ Hs). rewrite zlen_take. unfold id. lia. }
    eapply wp_mono; [by eapply (Hp _ Hlen)|]. intros u s1 [[t1 w1] x1] (K1 & HK1 & [cs Hs1] & Ht1 & Hx1).
    wstep. wstep. wstep. eapply wp_checked; [apply arr_set_Some; rewrite (iv_cmd _ _ _ Hs1); lia|]. wstep. wstep. wstep.
    destruct (arr_get_Some pData (i + 1)) as [d Ed]; [lia|]. eapply wp_checked; [exact Ed|].
    assert (Hs2 : kept K u (set_command (<[Z.to_nat 0 := 0]> (command s1)) 0 s1) (t1, w1, x1)).
    { exists K1. split_and!; [done| |done|done]. exists cs. apply inv_command; [by rewrite zlen_insert, (iv_cmd _ _ _ Hs1)|lia|done]. }
    wstep; [destruct n as [|n]|]; eapply tsafe_then; [apply tsafe_ret|done|apply IH; [lia|done|lia|lia]|done
      |apply IH; [lia|done|lia|lia]|done].
  - wstep. wstep. change (id s) with s. destruct Hs as [cs Hs]. pose proof (iv_cmd _ _ _ Hs) as Hc. pose proof (iv_idx _ _ _ Hs).
    wstep. unfold MAX_CMD_LEN. wstep; bool2prop.
    + wstep. eapply wp_checked; [apply arr_set_Some; lia|].
      wstep. eapply wp_checked; [apply arr_set_Some; rewrite zlen_insert; lia|]. wstep.
      eapply IH; [lia|done|lia|lia| |done|done]. exists cs. apply inv_command; [by rewrite !zlen_insert|lia|done].
    + wstep. eapply IH; [lia|done|lia|lia|by exists cs|done|done].
Qed.

Lemma read_lines_tsafe parse beyond fuel :
  (forall l, zlen l <= 127 -> tsafe (parse l)) -> beyond <> [] -> tsafe (read_lines parse beyond fuel).
Proof.
  intros Hp Hb. assert (1 <= zlen beyond) by (destruct beyond; [done|]; rewrite zlen_cons; pose proof (zlen_nonneg beyond); lia).
  induction fuel as [|fuel IH]; cbn [read_lines]; [by intros K s t w x|].
  intros K s t w x [cs Hs] Ht Hx. wstep. wstep. wstep.
  destruct (rb_read_spec (s_lte_rb s) (replicate 128 0) 128) as (rb & E & Hrb & _); [apply Hs|done|done|].
  eapply wp_checked; [exact E|]. cbn [fst snd]. wstep. wstep.
  assert (Hs' : einv K (set_rb rb s)) by (exists cs; by destruct Hs).
  set (l := (queue_read (contents (s_lte_rb s)) 128).1) in *.
  assert (Hl : zlen l <= 128) by (unfold l, queue_read; cbn; rewrite zlen_take; lia).
  wstep; [|wstep; by apply kept_now]. pose proof (zlen_nonneg l).
  assert (Hr : tsafe (my_lte_handle_recv parse ((l ++ drop (length l) (replicate 128 0)) ++ beyond) (zlen l) ;;
    read_lines parse beyond fuel)).
  { apply tsafe_bind; [|done]. apply recv_loop_tsafe; [done|lia|]. autorewrite with fw. unfold zlen in *. lia. }
  by eapply Hr.
Qed.

Lemma msg_take K cs m q s :
  inv K cs s -> my_lte_msgq s = m :: q ->
  match pData m with
  | Some p => p ∉ K /\ inv ({[p]} ∪ K) cs (set_msgq q s) /\ msg_ok (heap s) m
  | None => inv K cs (set_msgq q s)
  end.
Proof.
  intros Hs Eq. pose proof (iv_mem _ _ _ Hs) as Hm. rewrite Eq in Hm. destruct Hs. destruct (pData m) as [p|] eqn:Ep.
  - destruct (mem_take _ _ _ _ _ _ Hm Ep) as (Hm' & HpK & Hx). split_and!; [done| |done]. by split.
  - split; try done. by eapply mem_take_plain.
Qed.

Lemma wp_load p b (Q : list Z -> lte -> PW * X -> Prop) s t w x :
  heap s !! p = Some b -> Q b s (t, w, x) -> wp (frame (lift (load p))) Q s (t, w, x).
Proof. intros E HQ. unfold wp, frame, lift, load, bind, get, checked. cbn. by rewrite E. Qed.

Lemma wp_free p (Q : unit -> lte -> PW * X -> Prop) s t w x :
  is_Some (heap s !! p) -> Q tt (set_heap (delete p (heap s)) s) (t, w, x) ->
  wp (frame (lift (MY_FREE_BUFFER p))) Q s (t, w, x).
Proof. intros [b E] HQ. unfold wp, frame, lift, MY_FREE_BUFFER, bind, get, checked. cbn. by rewrite E. Qed.

(** The block of a message is freed once the message was handled. *)
Lemma free_kept K p s pw {B} (b : B) m : p ∉ K -> pData m = Some p -> kept ({[p]} ∪ K) b s pw ->
  wp (frame (lift (free_data m))) (kept K) s pw.
Proof.
  intros HpK Ep (K1 & HK1 & [cs1 Hs1] & Ht1 & Hx1). destruct pw as [[t1 w1] x1]. assert (Hp1 : p ∈ K1) by set_solver.
  unfold free_data. rewrite Ep. destruct (proj2 (mo_dom _ _ _ _ (iv_mem _ _ _ Hs1) p)) as [b1 Eb1]; [by right|].
  apply wp_free; [done|]. exists (K1 ∖ {[p]}). split; [set_solver|]. split; [|done]. exists cs1.
  assert (HK : {[p]} ∪ K1 ∖ {[p]} = K1) by (apply leibniz_equiv, set_equiv; intros x; destruct (decide (x = p)); set_solver).
  pose proof (iv_mem _ _ _ Hs1) as Hm0. pose proof Hm0 as Hm1. rewrite <- HK in Hm1. apply mem_free in Hm1; [|set_solver].
  destruct (iv_queue _ _ _ Hs1) as (ms & Hq & Hc). destruct Hs1. split; try done. exists ms. split; [done|].
  cbn [heap set_heap]. apply Forall2_same_length_lookup. apply Forall2_same_length_lookup in Hc as [Hlen Hc].
  split; [done|]. intros i [p' l'] c' Ei Ec. cbn. rewrite lookup_delete_ne; [exact (Hc i _ _ Ei Ec)|]. intros <-.
  pose proof (ms_owned (my_lte_msgq s) _ _ p l' Hq ltac:(by eapply list_elem_of_lookup_2)) as Ho.
  by apply (mo_disj _ _ _ _ Hm0 p Ho).
Qed.

Context (H : lte_handlers (W := W) (X := X)).

Record handlers_safe : Prop := {
  hs_parse c : zlen c <= 127 -> tsafe (parse_cmd H c);
  hs_add c : zlen c < 65536 -> Forall (fun x => x <> 0) c -> tsafe (add_retrans H c);
  hs_poll : tsafe (retrans_poll H);
  hs_pulse : tsafe (pulse H)
}.

Context (HH : handlers_safe).

(** A message with a block. *)
Lemma block_msg_wp K cs m q p s t w x beyond fuel :
  inv K cs s -> tok t -> xok x -> my_lte_msgq s = m :: q -> pData m = Some p ->
  wp (my_lte_task_handle H beyond fuel m) (kept K) (set_msgq q s) (t, w, x).
Proof.
  intros Hs Ht Hx Eq Ep. pose proof (msg_take _ _ _ _ _ Hs Eq) as Hm. rewrite Ep in Hm. destruct Hm as (HpK & Hs' & _ & Hb).
  destruct (Hb p Ep) as (b & Eb & [[Em Hl]|(Em & Hb0 & Hbl)]).
  - unfold my_lte_task_handle. rewrite Em, Ep. wstep. wstep. apply (wp_load p b); [done|]. wstep. wstep. eapply wp_mono.
    { eapply (tsafe_frame _ (send_msg_lsafe b (u16 (DataLen m)) (u16_range _) _)); [by exists cs|done|done]. }
    intros r s1 pw1 H1. by eapply free_kept.
    Unshelve. pose proof (Z.mod_le (DataLen m) 65536 (proj1 Hl) ltac:(lia)). unfold u16. lia.
  - unfold my_lte_task_handle. destruct (msgID m); try done. rewrite Ep. wstep. eapply wp_checked; [done|]. wstep.
    apply (wp_load p b); [done|]. destruct (c_string_defined b Hb0) as (c & Ec & Hc1). pose proof (c_string_no_nul _ _ Ec) as Hc2. wstep. eapply wp_checked; [exact Ec|].
    wstep. eapply wp_mono; [eapply (hs_add HH c); [lia|done|by exists cs|done|done]|]. intros u s1 pw1 H1. by eapply free_kept.
Qed.

Lemma handle_tsafe beyond fuel m :
  beyond <> [] -> pData m = None -> needs_text (msgID m) = false -> tsafe (my_lte_task_handle H beyond fuel m).
Proof.
  intros Hb Hp Hm. destruct HH as [H1 H2 H3 H4].
  unfold my_lte_task_handle, free_data, set_tx_busy, set_wakeup_pending. rewrite Hp. destruct (msgID m); try done;
    try (by auto 11 with lte).
  - apply tsafe_bind; [auto 7 with lte|]. intros _. apply tsafe_bind; [auto 7 with lte|]. intros _. by apply read_lines_tsafe.
  - intros K s t w x Hs Ht Hx. wstep. wstep.
    eapply (tsafe_bind (frame (my_lte_send_msg None (u16 (DataLen m))))); [apply tsafe_frame, lsafe_ret| |done..].
    intros _. apply tsafe_frame, lsafe_psafe. intros K' cs. apply psafe_lift, safe_ret.
Qed.

Lemma my_lte_task_tsafe beyond fuel : beyond <> [] -> tsafe (my_lte_task H beyond fuel).
Proof.
  intros Hb K s t w x [cs Hs] Ht Hx. unfold my_lte_task. wstep. wstep. destruct (my_lte_msgq s) as [|m q] eqn:Eq.
  { wstep. apply kept_now; [by exists cs|done|done]. }
  wstep. wstep. destruct (pData m) as [p|] eqn:Ep; [by eapply block_msg_wp|].
  pose proof (mo_msgs _ _ _ _ (iv_mem _ _ _ Hs)) as Hm. rewrite Eq in Hm. apply Forall_cons in Hm as [[Hm _] _].
  eapply handle_tsafe; [done|done|by destruct (needs_text (msgID m)); [destruct Hm|]| |done|done]. exists cs.
  pose proof (msg_take _ _ _ _ _ Hs Eq) as Hx'. by rewrite Ep in Hx'.
Qed.

(** ** Everything that can happen *)

(** The thread takes a message, an interrupt comes, another thread sends a
    command, or another thread or a timer posts a message without data. *)
Inductive lte_action :=
| Thread
| Uart (e : uart_event)
| WakePin
| Command (cmd_name : list Z) (param : option (list Z))
| CommandRetry (cmd_name : list Z) (param : option (list Z))
| Post (id : msg_id).

Definition action_ok (a : lte_action) : Prop :=
  match a with
  | Uart e => event_ok e
  | Post id => needs_text id = false
  | CommandRetry c v => short_command c v
  | _ => True
  end.

Definition run_action (beyond : list Z) (fuel : nat) (a : lte_action) : prog lte (PW * X) unit :=
  match a with
  | Thread => my_lte_task H beyond fuel
  | Uart e => frame (lift (isr e))
  | WakePin => frame (lift lte_wake_pin_isr)
  | Command c v => frame (lift (lte_send_command c v)) ;; ret tt
  | CommandRetry c v => frame (lift (lte_send_cmd_with_retry c v))
  | Post id => frame (lift (my_send_msg id))
  end.

Fixpoint run_actions (beyond : list Z) (fuel : nat) (l : list lte_action) : prog lte (PW * X) unit :=
  match l with
  | [] => ret tt
  | a :: l => run_action beyond fuel a ;; run_actions beyond fuel l
  end.

Lemma run_actions_tsafe beyond fuel l : beyond <> [] -> Forall action_ok l -> tsafe (run_actions beyond fuel l).
Proof.
  intros Hb Hl. induction Hl as [|a l Ha _ IH]; cbn [run_actions]; [auto with lte|]. apply tsafe_bind; [|done].
  destruct a; cbn [run_action].
  - by apply my_lte_task_tsafe.
  - apply tsafe_frame, lsafe_psafe. intros K cs. apply psafe_lift. by apply isr_safe.
  - apply tsafe_frame, lsafe_psafe. intros K cs. apply psafe_lift, lte_wake_pin_isr_safe.
  - auto with lte.
  - by apply tsafe_frame, send_retry_lsafe.
  - apply tsafe_frame, lsafe_psafe. intros K cs. by apply psafe_lift, my_send_msg_safe.
Qed.

(** Whatever the LTE module sends, however the driver, the heap and the
    power management fail, and in whatever order messages, interrupts and
    commands of other threads come, the LTE thread stays within its buffers,
    uses only allocated blocks and frees each block once; the handlers of the
    received lines and of the retransmission are assumed to keep this
    invariant, and one byte after the receive buffer to be readable. *)
Theorem lte_thread_safe beyond fuel l K s t w x :
  beyond <> [] -> Forall action_ok l -> einv K s -> tok t -> xok x ->
  wp (run_actions beyond fuel l) (kept K) s (t, w, x).
Proof. intros Hb Hl Hs Ht Hx. by apply run_actions_tsafe. Qed.
End thread.

(** A defect: a command for the LTE thread whose queue is full is reported
    as sent although it is dropped, and its block stays allocated without an
    owner, so it is never freed. *)
Theorem full_queue_leaks K cs cmd param s w w' :
  inv K cs s -> s_lte_power_state s = true -> 10 <= zlen (my_lte_msgq s) ->
  k_malloc (match param with Some v => zlen cmd + zlen v + 16 | None => zlen cmd + 16 end) w = (w', true) ->
  exists p s', lte_send_command cmd param s w = Done (0, s', w')
    /\ my_lte_msgq s' = my_lte_msgq s /\ s_lte_msg_queue s' = s_lte_msg_queue s
    /\ is_Some (heap s' !! p) /\ heap s !! p = None /\ p ∉ owned (my_lte_msgq s') (queue (s_lte_msg_queue s')).
Proof.
  intros Hs Hp Hq Hm. set (p := fresh (dom (heap s))).
  assert (Hfr : heap s !! p = None) by apply not_elem_of_dom, is_fresh.
  unfold lte_send_command, bind, get. rewrite Hp. cbn [negb ret].
  unfold MY_MALLOC_BUFFER, bind, world. rewrite Hm. unfold get, modify, ret. fold p.
  match goal with |- context [store p 0 (?x ++ [0])] => set (text := x) end.
  assert (Hn : zlen text + 1 <= match param with Some v => zlen cmd + zlen v + 16 | None => zlen cmd + 16 end).
  { unfold text. apply text_fits. }
  clearbody text. set (n := match param with Some v => _ | None => _ end) in *. pose proof (zlen_nonneg text).
  destruct (arr_blit (replicate (Z.to_nat n) 0) 0 (text ++ [0])) as [b|] eqn:E.
  2: { rewrite arr_blit_Some in E; [done|lia|]. rewrite zlen_app, zlen_replicate. change (zlen [0]) with 1. lia. }
  exists p. eexists. split.
  { unfold store, bind, get, checked, modify. cbn [heap set_heap]. rewrite lookup_insert_eq, E. reflexivity. }
  cbn [my_lte_msgq set_heap]. unfold LTE_MSGQ_LEN. rewrite (proj2 (Z.ltb_ge _ _)) by lia.
  cbn [my_lte_msgq set_heap heap s_lte_msg_queue]. rewrite lookup_insert_eq. split_and!; [done|done|by eexists|done|].
  intros Hin. destruct (proj2 (mo_dom _ _ _ _ (iv_mem _ _ _ Hs) p)) as [b' Eb']; [by left|congruence].
Qed.
End safety.
