(* ===== verification/LteSend.v ===== *)
(** * Messages reach the LTE module

    On a UART that finishes a transmission within the time the code waits for
    it, every message leaves the UART unchanged and in order, and the messages
    that waited for the module to start are sent when it is ready. *)

From stdpp Require Import gmap.
From S2P Require Import Prelude Prog RingBuf Pm Lte LteProofs LteSafety.

Open Scope prog_scope.

Definition rx_only (e : uart_event) : Prop :=
  match e with UART_TX_DONE | UART_TX_ABORTED _ => False | _ => True end.

(** The UART of the module runs at 115200 baud: 1024 bytes take 89 ms. *)
Class LtePrompt (W : Type) `{LteHw W} : Prop := {
  tx_starts w : (uart_tx_start w).2 = 0;
  tx_ends ms w w' evs : LTE_UART_TX_WAIT_MS <= ms -> sleep ms true w = (w', evs) ->
    exists a b, evs = a ++ UART_TX_DONE :: b /\ Forall rx_only a /\ Forall rx_only b;
  tx_idle ms w w' evs : sleep ms false w = (w', evs) -> Forall rx_only evs
}.

(** What has been handed to the UART. *)
Definition sent (s : lte) : list (list Z) :=
  line s ++ match tx s with Some t => [tx_bytes s t] | None => [] end.

(** The part of the state that sending depends on. *)
Record view := mk_view {
  v_sem : Z; v_buf : list Z; v_tx : option tx_src; v_line : list (list Z); v_ready : bool; v_power : bool; v_active : bool
}.
Definition view_of (s : lte) : view :=
  mk_view (s_TxDoneSem s) (s_sendDataBuf s) (tx s) (line s) (g_bLteReady s) (s_lte_power_state s)
    (active (s_lte_uart_ctx s)).

(** The module is up, and the semaphore is taken while a transmission runs. *)
Record up (s : lte) : Prop := {
  up_ready : g_bLteReady s = true;
  up_power : s_lte_power_state s = true;
  up_active : active (s_lte_uart_ctx s) = true;
  up_sem : s_TxDoneSem s = 1 /\ tx s = None \/ s_TxDoneSem s = 0 /\ is_Some (tx s)
}.

(** A message on the line, with or without the wake-up bytes before it. *)
Inductive frames : list (list Z) -> list (list Z) -> Prop :=
| frames_nil : frames [] []
| frames_plain c cs fs : frames cs fs -> frames (c :: cs) (c :: fs)
| frames_wake c cs fs : frames cs fs -> frames (c :: cs) (wake_byte :: c :: fs).

Section send.
Context {W : Type} `{!LteHw W} `{!LtePrompt W}.

Lemma my_send_msg_view id s (w : W) : post (my_send_msg id) (fun _ s' _ => view_of s' = view_of s) s w.
Proof. unfold my_send_msg, my_send_msg_data. pstep. by case_match. Qed.

Lemma rx_enable_view b s (w : W) : post (uart_rx_enable b) (fun _ s' _ => view_of s' = view_of s) s w.
Proof. unfold uart_rx_enable. pstep. pstep. destruct (rx s); [|by pstep..]. pstep. pstep. intros r w' _. pstep; [pstep; pstep|]; by pstep. Qed.

Lemma isr_view e s (w : W) : rx_only e -> post (isr e) (fun _ s' _ => view_of s' = view_of s) s w.
Proof.
  intros He. unfold isr. pstep. pstep. destruct e; try done; cbn [driver lte_uart_cb].
  - pstep. pstep. pstep. pstep. intros r _. pstep. pstep. eapply post_mono; [apply my_send_msg_view|]. by intros u s' w' ->.
  - pstep. pstep. unfold uart_rx_buf_rsp. pstep. by repeat case_match.
  - pstep. by repeat case_match.
  - pstep. pstep. pstep; [|by pstep]. pstep. pstep. pstep. eapply post_mono; [apply rx_enable_view|].
    intros r s' w' E. by pstep.
Qed.

Lemma isrs_view evs : Forall rx_only evs -> forall s (w : W), post (isrs evs) (fun _ s' _ => view_of s' = view_of s) s w.
Proof.
  induction 1 as [|e evs He _ IH]; intros s w; cbn [isrs]; [by pstep|]. pstep.
  eapply post_mono; [by apply isr_view|]. intros u s' w' E. cbn. rewrite <- E. apply IH.
Qed.

Lemma done_view t s (w : W) :
  tx s = Some t ->
  post (isr UART_TX_DONE) (fun _ s' _ => view_of s' =
    mk_view (Z.min 1 (s_TxDoneSem s + 1)) (s_sendDataBuf s) None (line s ++ [tx_bytes s t]) (g_bLteReady s)
      (s_lte_power_state s) (active (s_lte_uart_ctx s))) s w.
Proof.
  intros Ht. unfold isr. pstep. pstep. cbn [driver lte_uart_cb]. rewrite Ht. pstep.
  eapply post_mono; [apply my_send_msg_view|]. intros u s' w' E. unfold k_sem_give. pstep.
  unfold view_of in *. cbn in *. by injection E as -> -> -> -> -> -> ->.
Qed.

Lemma isrs_app a b s (w : W) Q :
  post (isrs a) (fun _ => post (isrs b) Q) s w -> post (isrs (a ++ b)) Q s w.
Proof.
  revert s w. induction a as [|e a IH]; intros s w H; cbn [isrs app] in *.
  - by apply (H tt s w).
  - pstep. intros u s1 w1 E1. apply IH. intros u2 s2 w2 E2. apply (H u2 s2 w2). unfold bind. rewrite E1. exact E2.
Qed.

(** Waiting for a transmission to end. *)
Lemma sleep_view ms t s (w : W) :
  LTE_UART_TX_WAIT_MS <= ms -> tx s = Some t ->
  post (k_sleep ms) (fun _ s' _ => view_of s' =
    mk_view (Z.min 1 (s_TxDoneSem s + 1)) (s_sendDataBuf s) None (line s ++ [tx_bytes s t]) (g_bLteReady s)
      (s_lte_power_state s) (active (s_lte_uart_ctx s))) s w.
Proof.
  intros Hms Ht. unfold k_sleep. pstep. pstep. unfold in_progress. rewrite Ht. pstep. pstep. intros evs w' E.
  destruct (tx_ends ms w w' evs Hms E) as (a & b & -> & Ha & Hb). apply isrs_app.
  eapply post_mono; [by apply isrs_view|]. intros u s1 w1 E1. cbn [isrs]. pstep.
  assert (E2 : tx s1 = Some t /\ tx_bytes s1 t = tx_bytes s t).
  { unfold view_of in E1. injection E1 as _ Eb Et _ _ _ _. split; [congruence|]. unfold tx_bytes. by rewrite Eb. }
  destruct E2 as [E2 E3]. eapply post_mono; [by apply (done_view t)|]. intros u2 s2 w2 E4.
  eapply post_mono; [by apply isrs_view|]. intros u3 s3 w3 ->. rewrite E4, E3.
  unfold view_of in E1. by injection E1 as -> -> _ -> -> -> ->.
Qed.

Lemma idle_view ms s (w : W) : tx s = None -> post (k_sleep ms) (fun _ s' _ => view_of s' = view_of s) s w.
Proof.
  intros Ht. unfold k_sleep. pstep. pstep. unfold in_progress. rewrite Ht. pstep. pstep. intros evs w' E.
  apply isrs_view. by eapply tx_idle.
Qed.

(** The semaphore is free once the transmission before has ended. *)
Lemma sem_take_view s (w : W) :
  s_TxDoneSem s = 1 /\ tx s = None \/ s_TxDoneSem s = 0 /\ is_Some (tx s) ->
  post (k_sem_take LTE_UART_TX_WAIT_MS) (fun r s' _ => r = 0 /\ view_of s' =
    mk_view 0 (s_sendDataBuf s) None (sent s) (g_bLteReady s) (s_lte_power_state s) (active (s_lte_uart_ctx s))) s w.
Proof.
  intros Hs. unfold k_sem_take, sent. pstep. pstep. destruct Hs as [[Hn Ht]|[Hn [t Ht]]]; rewrite Hn, Ht.
  - cbn [Z.ltb Z.compare]. pstep. pstep. pstep. split; [done|]. unfold view_of. cbn. by rewrite Ht, app_nil_r.
  - cbn [Z.ltb Z.compare]. pstep. eapply post_mono; [by apply (sleep_view _ t)|]. intros u s' w' E. rewrite Hn in E.
    change (Z.min 1 (0 + 1)) with 1 in E. unfold view_of in E. injection E as E1 E2 E3 E4 E5 E6 E7. pstep. pstep. rewrite E1.
    cbn [Z.ltb Z.compare]. pstep. pstep. pstep. split; [done|]. unfold view_of. cbn. by rewrite E2, E3, E4, E5, E6, E7.
Qed.

(** The part of the state while the semaphore is held. *)
Definition held (b : list Z) (l : list (list Z)) (s : lte) : view :=
  mk_view 0 b None l (g_bLteReady s) (s_lte_power_state s) (active (s_lte_uart_ctx s)).

Lemma uart_tx_view t b l s0 s (w : W) :
  view_of s = held b l s0 ->
  post (uart_tx t) (fun r s' _ => r = 0 /\ view_of s' =
    mk_view 0 b (Some t) l (g_bLteReady s0) (s_lte_power_state s0) (active (s_lte_uart_ctx s0))) s w.
Proof.
  intros E. unfold view_of, held in E. injection E as E1 E2 E3 E4 E5 E6 E7. unfold uart_tx. pstep. pstep. rewrite E3.
  pstep. pstep. intros r w' Er. pose proof (tx_starts w) as H0. rewrite Er in H0. cbn in H0. subst r. cbn [Z.eqb].
  pstep. pstep. pstep. split; [done|]. unfold view_of. cbn. by rewrite E1, E2, E4, E5, E6, E7.
Qed.

Lemma send_wakeup_view b l s0 s (w : W) :
  view_of s = held b l s0 -> post send_wakeup (fun r s' _ => r = 0 /\ view_of s' = held b (l ++ [wake_byte]) s0) s w.
Proof.
  intros E. unfold send_wakeup. pstep. eapply post_mono; [by apply uart_tx_view|]. intros r s1 w1 [-> E1].
  cbn [Z.eqb negb]. pstep. unfold view_of in E1. injection E1 as F1 F2 F3 F4 F5 F6 F7.
  eapply post_mono; [apply sem_take_view; right; rewrite F3; by eauto|]. intros r s2 w2 [-> E2]. cbn [Z.eqb negb].
  pstep. assert (Ht : tx s2 = None) by (unfold view_of in E2; by injection E2). eapply post_mono; [by apply idle_view|].
  intros u s3 w3 E3. pstep. split; [done|]. rewrite E3, E2. unfold held, sent. rewrite F2, F3, F4, F5, F6, F7. done.
Qed.

Lemma send_data_view data len b l s0 s (w : W) :
  view_of s = held b l s0 -> zlen b = 1024 ->
  post (send_data data len) (fun r s' _ => r = 0 /\ exists wake b', (wake = [] \/ wake = [wake_byte]) /\
    take (Z.to_nat len) b' = take (Z.to_nat len) data /\
    view_of s' = mk_view 0 b' (Some (TxData len)) (l ++ wake) (g_bLteReady s0) (s_lte_power_state s0)
      (active (s_lte_uart_ctx s0))) s w.
Proof.
  intros E Hb. unfold send_data. pstep. pstep. set (s1 := set_tx_busy true s).
  assert (E1 : view_of s1 = held b l s0) by exact E. clearbody s1. clear s E. unfold lte_uart_need_send_wakeup.
  pstep. pstep. pstep. intros now w1 _. pstep. pstep. pstep. pstep.
  assert (Hw : post (if send_wakeup_expire_timestamp_ms (s_lte_uart_ctx s1) <=? now then send_wakeup else ret 0)
    (fun r s' _ => r = 0 /\ exists wake, (wake = [] \/ wake = [wake_byte]) /\ view_of s' = held b (l ++ wake) s0) s1 w1).
  { pstep.
    - eapply post_mono; [by apply send_wakeup_view|]. intros r s' w' [-> E']. split; [done|]. exists [wake_byte]. by auto.
    - pstep. split; [done|]. exists []. rewrite app_nil_r. by auto. }
  eapply post_mono; [exact Hw|]. intros r s2 w2 (-> & wake & Hwake & E2). cbn [Z.eqb negb]. pstep.
  unfold lte_uart_send_wakeup_window_kick. pstep. pstep. intros now' w3 _. pstep. pstep. pstep. intros bytes Hbytes.
  pstep. pstep. pstep. pstep. intros b' Hb'. pstep. pstep. pstep.
  assert (Eb : s_sendDataBuf s2 = b) by (unfold view_of, held in E2; by injection E2).
  change (s_sendDataBuf (set_expire (now' + LTE_UART_SEND_WAKEUP_WINDOW_MS) s2)) with (s_sendDataBuf s2) in Hb'.
  rewrite Eb in Hb'.
  eapply post_mono; [apply (uart_tx_view _ b' (l ++ wake) s0); unfold view_of, held in E2 |- *; cbn;
    by injection E2 as -> _ -> -> -> -> ->|].
  intros r s4 w4 [-> E4]. cbn [Z.eqb negb]. pstep. split; [done|]. exists wake, b'. split_and!; [done| |done].
  apply arr_slice_inv in Hbytes as (_ & H0 & H1 & ->). cbn [Z.to_nat] in *. rewrite drop_0 in Hb'.
  destruct (Z.le_gt_cases (0 + zlen (take (Z.to_nat len) data)) (zlen b)); [|by rewrite arr_blit_overflow in Hb'].
  rewrite arr_blit_Some in Hb' by lia. injection Hb' as <-. cbn.
  rewrite take_app_le by (rewrite length_take; unfold zlen in *; lia). by rewrite take_take, Nat.min_id.
Qed.
End send.

(** ** The thread *)

Section deliver.
Context {W : Type} `{!LteHw W} `{!LteHwLaws W} `{!LtePrompt W} `{!PmRuntime W}.
Notation PW := (list (pm_device_ctx_t (lte * W)) * W)%type.

Lemma post_lift {A} (m : prog lte W A) (Q : A -> lte -> PW -> Prop) s t w :
  post m (fun a s' w' => Q a s' (t, w')) s w -> post (lift m) Q s (t, w).
Proof.
  intros H a s' tw E. unfold lift in E. cbn in E. destruct (m s w) as [[[a1 s1] w1]| |] eqn:Em; [|done..].
  injection E as <- <- <-. by apply H.
Qed.

(** A message is handed to the UART unchanged, after those before it. *)
Lemma uart_send_sent data len s t w :
  up s -> zlen (s_sendDataBuf s) = 1024 -> len <= 1024 ->
  post (my_lte_uart_send data len) (fun r s' _ => r = 0 /\ up s' /\ exists wake, (wake = [] \/ wake = [wake_byte]) /\
    sent s' = sent s ++ wake ++ [take (Z.to_nat len) data]) s (t, w).
Proof.
  intros [Hr Hp Ha Hsem] Hb Hl. unfold my_lte_uart_send. pstep. pstep. rewrite Hr. cbn [negb].
  unfold UART_TX_BUFFER_SIZE. rewrite (proj2 (Z.ltb_ge _ _)) by done. unfold lte_uart_ensure_active.
  pstep. pstep. pstep. rewrite Hp, Ha. cbn [negb]. pstep. cbn [Z.ltb Z.compare].
  pstep. apply post_lift. unfold lte_uart_activity_kick. pstep. set (s1 := if active _ then _ else s).
  assert (E1 : view_of s1 = view_of s /\ sent s1 = sent s) by (unfold s1; by case_match). destruct E1 as [E1 E1'].
  pstep. apply post_lift.
  assert (E2 : s_TxDoneSem s1 = s_TxDoneSem s /\ tx s1 = tx s /\ s_sendDataBuf s1 = s_sendDataBuf s)
    by (unfold view_of in E1; by injection E1). destruct E2 as (Es & Et & Eb).
  clearbody s1. eapply post_mono; [apply sem_take_view; by rewrite Es, Et|]. intros r s2 w2 [-> E2]. cbn [Z.eqb negb].
  apply post_lift. eapply post_mono; [eapply (send_data_view data len (s_sendDataBuf s1) (sent s1) s1); [exact E2|by rewrite Eb]|].
  intros r s3 w3 (-> & wake & b' & Hwake & Hb' & E3). split; [done|].
  unfold view_of in E3, E1. injection E3 as F1 F2 F3 F4 F5 F6 F7. injection E1 as _ _ _ _ G5 G6 G7. split.
  - split; [congruence..|]. right. rewrite F3. by eauto.
  - exists wake. split; [done|]. rewrite <- E1'. unfold sent at 1. rewrite F3, F4. cbn [tx_bytes]. by rewrite F2, Hb', <- app_assoc.
Qed.

Lemma frames_snoc cs fs c wake :
  frames cs fs -> wake = [] \/ wake = [wake_byte] -> frames (cs ++ [c]) (fs ++ wake ++ [c]).
Proof.
  intros Hf Hw. induction Hf; cbn; [|by constructor..].
  destruct Hw as [->| ->]; cbn; repeat constructor.
Qed.

(** The messages of the queue are sent in order. *)
Lemma process_sent K cs s t w :
  inv K cs s -> tok t -> up s -> Forall (fun c => zlen c <= 1024) cs ->
  twp my_lte_process_queued_msgs
    (fun _ s' tw => inv K [] s' /\ tok tw.1 /\ up s' /\ exists fs, frames cs fs /\ sent s' = sent s ++ fs) s (t, w).
Proof.
  intros Hs Ht Hu Hc.
  set (J := fun left s' => up s' /\ exists before fs, cs = before ++ left /\ frames before fs /\ sent s' = sent s ++ fs).
  eapply twp_mono; [eapply (process_twp K J); [..|exact Hs|done|]|].
  - intros c left s1 t1 w1 Hs1 Ht1 (Hu1 & before & fs & E & Hf & Hsent).
    assert (Hlc : zlen c <= 1024) by (rewrite E in Hc; apply Forall_app in Hc as [_ Hc]; by apply Forall_cons in Hc as [Hc _]).
    pose proof (zlen_nonneg c). eapply twp_mono.
    { apply twp_post; [eapply (my_lte_uart_send_safe K (c :: left)); [|by split|done]|].
      - rewrite zlen_app. change (zlen [0]) with 1. lia.
      - apply uart_send_sent; [done|apply Hs1|done]. }
    intros r s2 tw [H1 (_ & Hu2 & wake & Hwake & E2)]. split; [done|]. split; [done|].
    exists (before ++ [c]), (fs ++ wake ++ [c]). split_and!; [by rewrite <- app_assoc|by apply frames_snoc|].
    rewrite E2, Hsent, <- app_assoc. do 3 f_equal. rewrite take_app_le by (unfold zlen; lia).
    rewrite take_ge; [done|unfold zlen; lia].
  - intros left q h s1 (Hu1 & H). split; [|done]. by destruct Hu1.
  - split; [done|]. exists [], []. split_and!; [done|constructor|by rewrite app_nil_r].
  - intros u s' tw (H1 & H2 & H3 & before & fs & E & Hf & Hsent). split_and!; try done. exists fs.
    rewrite app_nil_r in E. by subst before.
Qed.

(** ** Messages that come while the module starts *)

Fixpoint send_all (ms : list (list Z)) : prog lte PW unit :=
  match ms with
  | [] => ret tt
  | m :: ms => my_lte_send_msg (Some m) (zlen m) ;; send_all ms
  end.

Definition last_ten {A} (l : list A) : list A := drop (length l - 10) l.

Lemma last_ten_snoc {A} (l : list A) x :
  last_ten (l ++ [x]) = (if 10 <=? zlen (last_ten l) then drop 1 (last_ten l) else last_ten l) ++ [x].
Proof.
  unfold last_ten, zlen. rewrite length_drop, length_app. cbn [length]. destruct (Z.leb_spec 10 (Z.of_nat (length l - (length l - 10)))).
  - rewrite drop_drop, drop_app_le by lia. do 2 f_equal. lia.
  - replace (length l + 1 - 10)%nat with 0%nat by lia. replace (length l - 10)%nat with 0%nat by lia. by rewrite !drop_0.
Qed.

(** While the module is not ready, its messages wait; the last ten are kept. *)
Lemma send_all_queued K s t ms :
  (forall n w, (k_malloc n w).2 = true) -> tok t -> g_bLteReady s = false -> Forall (fun m => 0 < zlen m <= 1024) ms ->
  forall before q h w, inv K (last_ten before) (set_queue q (set_heap h s)) ->
  twp (send_all ms) (fun _ s' tw => tw.1 = t /\ exists q h, s' = set_queue q (set_heap h s) /\ inv K (last_ten (before ++ ms)) s')
    (set_queue q (set_heap h s)) (t, w).
Proof.
  intros Hm Ht Hr Hms. induction Hms as [|m ms Hz _ IH]; intros before q h w Hi; cbn [send_all].
  { tstep. split; [done|]. exists q, h. by rewrite app_nil_r. }
  tstep. unfold my_lte_send_msg. rewrite (proj2 (Z.eqb_neq _ _)) by lia. tstep. tstep. cbn [g_bLteReady set_queue set_heap].
  rewrite Hr. apply twp_lift. eapply (enqueue_twp K); [exact Hi|lia|lia|..].
  - intros q' h' w1 w' Hno. by rewrite Hm in Hno.
  - intros q' h' w' Hi'. cbn in Hi' |- *.
    rewrite take_ge in Hi' by (unfold zlen; lia). unfold keep_last in Hi'. rewrite <- last_ten_snoc in Hi'.
    specialize (IH (before ++ [m]) q' h' w' Hi'). by rewrite <- app_assoc in IH.
Qed.

(** C22: the messages for the LTE module that come while it starts are sent, in
    order and unchanged, once it is ready, each at most preceded by the
    wake-up bytes; of more than ten messages the last ten are sent.  All blocks
    of the queue are freed again.  This holds when allocations succeed and the
    UART finishes a transmission within the 200 ms the code waits. *)
Theorem startup_messages_delivered K s t w ms :
  (forall n w, (k_malloc n w).2 = true) -> tok t -> inv K [] s ->
  g_bLteReady s = false -> active (s_lte_uart_ctx s) = true ->
  s_TxDoneSem s = 1 /\ tx s = None \/ s_TxDoneSem s = 0 /\ is_Some (tx s) ->
  Forall (fun m => 0 < zlen m <= 1024) ms ->
  twp (send_all ms ;; modify (set_power true true) ;; my_lte_process_queued_msgs)
    (fun _ s' _ => inv K [] s' /\ exists fs, frames (last_ten ms) fs /\ sent s' = sent s ++ fs) s (t, w).
Proof.
  intros Hm Ht Hi Hr Ha Hsem Hms. tstep.
  pose proof (send_all_queued K s t ms Hm Ht Hr Hms [] (s_lte_msg_queue s) (heap s) w) as H.
  rewrite set_heap_id, set_queue_id in H. eapply twp_mono; [by apply H|].
  intros u s1 [t1 w1] [Et (q & h & -> & Hi1)]. cbn in Et, Hi1. subst t1. tstep. tstep.
  eapply twp_mono; [eapply (process_sent K (last_ten ms)); [|done| |]|].
  - by destruct Hi1.
  - by split.
  - unfold last_ten. apply Forall_drop. eapply Forall_impl; [exact Hms|]. cbn. lia.
  - intros u2 s2 tw (H1 & _ & _ & fs & Hf & E). split; [done|]. by exists fs.
Qed.
End deliver.
