(* ===== verification/LteRx.v ===== *)
(** * Receiving from the LTE module

    The two receive buffers of the UART are never given to the driver twice,
    and the bytes that arrive are cut into lines independently of how the
    driver delivers them. *)

From stdpp Require Import gmap.
From S2P Require Import Prelude Prog RingBuf Pm Lte LteProofs LteSafety LteSend.

Open Scope prog_scope.

(** ** The receive buffers *)

Section buffers.
Context {W : Type} `{!LteHw W}.

(** While a reception is active, [uart_rx_disable] stops it or fails for a
    reason the code does not ignore. *)
Definition disable_reported : Prop := forall w, let r := (rx_disable w).2 in
  r <> - EFAULT /\ r <> - EINVAL /\ r <> - EBUSY.

(** The driver asks for the next buffer, moves on to it and releases the one
    before, stops when it has none or was told to, releases its buffers and
    reports that it stopped; the power management suspends and resumes. *)
Inductive rx_step : lte * W -> lte * W -> Prop :=
| rx_request s w cur u s' w' :
    rx s = RxOn cur None -> isr UART_RX_BUF_REQUEST s w = Done (u, s', w') -> rx_step (s, w) (s', w')
| rx_switch s w cur n u s' w' :
    rx s = RxOn cur (Some n) -> isr (UART_RX_BUF_RELEASED cur) s w = Done (u, s', w') -> rx_step (s, w) (s', w')
| rx_starved s w cur :
    rx s = RxOn cur None -> rx_step (s, w) (set_rx (lte_next_buf s) RxStopping s, w)
| rx_release s w b u s' w' :
    rx s = RxStopping -> isr (UART_RX_BUF_RELEASED b) s w = Done (u, s', w') -> rx_step (s, w) (s', w')
| rx_stopped s w u s' w' :
    rx s = RxStopping -> isr UART_RX_DISABLED s w = Done (u, s', w') -> rx_step (s, w) (s', w')
| rx_suspend s w r s' w' :
    active (s_lte_uart_ctx s) = true -> lte_pm_suspend s w = Done (r, s', w') -> rx_step (s, w) (s', w')
| rx_resume s w r s' w' :
    active (s_lte_uart_ctx s) = false -> lte_pm_resume s w = Done (r, s', w') -> rx_step (s, w) (s', w').

Record rx_ok (s : lte) : Prop := {
  ro_bufs : match rx s with
            | RxOn cur None => lte_next_buf s <> cur
            | RxOn cur (Some n) => n <> cur
            | _ => True
            end;
  ro_off : active (s_lte_uart_ctx s) = false -> forall cur n, rx s <> RxOn cur n
}.

Lemma enable_ok s w : rx s = RxOff -> lte_next_buf s = s_lte_rx_buf_2 ->
  post (uart_rx_enable s_lte_rx_buf_1) (fun r s' _ => s_lte_uart_ctx s' = s_lte_uart_ctx s /\
    (r <> 0 /\ rx s' = RxOff \/ r = 0 /\ rx s' = RxOn s_lte_rx_buf_1 None /\ lte_next_buf s' = s_lte_rx_buf_2)) s w.
Proof.
  intros Hr Hb. unfold uart_rx_enable. pstep. pstep. rewrite Hr. pstep. pstep. intros r w' _. pstep; bool2prop.
  - pstep. pstep. pstep. rewrite Hb. auto.
  - pstep. auto.
Qed.

Lemma request_ok s w cur :
  rx_ok s -> rx s = RxOn cur None -> post (isr UART_RX_BUF_REQUEST) (fun _ s' _ => rx_ok s') s w.
Proof.
  intros [Hb Ho] Hr. rewrite Hr in Hb. unfold isr, uart_rx_buf_rsp. pstep. pstep. cbn [driver lte_uart_cb]. pstep. pstep.
  unfold uart_rx_buf_rsp. pstep. rewrite Hr. split; cbn; [done|]. intros Ha. by destruct (Ho Ha cur None).
Qed.

Lemma switch_ok s w cur n :
  rx_ok s -> rx s = RxOn cur (Some n) -> post (isr (UART_RX_BUF_RELEASED cur)) (fun _ s' _ => rx_ok s') s w.
Proof.
  intros [Hb Ho] Hr. rewrite Hr in Hb. unfold isr. pstep. pstep. cbn [driver lte_uart_cb]. pstep. rewrite Hr.
  assert (Hx : forall a b : lte, (match cur, cur with
    | s_lte_rx_buf_1, s_lte_rx_buf_1 | s_lte_rx_buf_2, s_lte_rx_buf_2 => a | _, _ => b end) = a) by (by destruct cur).
  rewrite Hx. split; cbn; [done|]. intros Ha. by destruct (Ho Ha cur (Some n)).
Qed.

Lemma release_ok s w b : rx_ok s -> rx s = RxStopping -> post (isr (UART_RX_BUF_RELEASED b)) (fun _ s' _ => rx_ok s') s w.
Proof.
  intros _ Hr. unfold isr. pstep. pstep. cbn [driver lte_uart_cb]. pstep. rewrite Hr. split; cbn; by rewrite Hr.
Qed.

Lemma stopped_ok s w : rx_ok s -> rx s = RxStopping -> post (isr UART_RX_DISABLED) (fun _ s' _ => rx_ok s') s w.
Proof.
  intros _ Hr. unfold isr. pstep. pstep. cbn [driver lte_uart_cb]. pstep. pstep. pstep; [|by pstep].
  cbn in Heqb. pstep. pstep. pstep. eapply post_mono; [by apply enable_ok|].
  intros r s' w' [Ec Hs']. pstep. split.
  - by destruct Hs' as [[_ ->]|(_ & -> & ->)].
  - rewrite Ec. cbn. by rewrite Heqb.
Qed.

Lemma suspend_ok s w : disable_reported -> rx_ok s -> post lte_pm_suspend (fun _ s' _ => rx_ok s') s w.
Proof.
  intros Hd [Hb Ho]. unfold lte_pm_suspend, uart_rx_disable. pstep. pstep. pstep. pstep. pstep.
  cbn [rx set_active set_uart_ctx]. destruct (rx s) as [|cur n|] eqn:Hr.
  - pstep. pstep; [by vm_compute in Heqb|]. pstep. split; cbn; by rewrite ?Hr.
  - pstep. pstep. intros r w' Er. pose proof (Hd w) as Hx. rewrite Er in Hx. destruct Hx as (H1 & H2 & H3). cbn in H1, H2, H3.
    pstep; bool2prop.
    + pstep. pstep. pstep. subst r. cbn. pstep. by split.
    + pstep. rewrite !(proj2 (Z.eqb_neq r _)) by done. cbn [negb andb]. pstep. pstep. pstep. split; cbn; [by rewrite Hr|done].
  - pstep. pstep; [by vm_compute in Heqb|]. pstep. split; cbn; by rewrite ?Hr.
Qed.

Lemma resume_ok s w :
  rx_ok s -> active (s_lte_uart_ctx s) = false -> post lte_pm_resume (fun _ s' _ => rx_ok s') s w.
Proof.
  intros [Hb Ho] Ha. unfold lte_pm_resume. pstep. pstep. pstep. destruct (rx s) as [|cur n|] eqn:Hr; [|by destruct (Ho Ha cur n)|].
  - eapply post_mono; [by apply enable_ok|]. intros r s' w' [Ec Hs']. destruct Hs' as [[Hn Hs']|(-> & Hs' & Hn)].
    + pstep; [pstep|pstep; pstep; pstep]; split; cbn; by rewrite Hs'.
    + cbn. pstep. pstep. pstep. split; cbn; [by rewrite Hs', Hn|done].
  - unfold uart_rx_enable. pstep. pstep. cbn [rx set_rx]. pstep. pstep; [by vm_compute in Heqb|]. pstep. pstep. pstep. by split.
Qed.

Lemma rx_step_ok s w s' w' : disable_reported -> rx_step (s, w) (s', w') -> rx_ok s -> rx_ok s'.
Proof.
  intros Hd Hstep Hs. inversion Hstep as [? ? cur u ? ? Hr E|? ? cur n u ? ? Hr E|? ? cur Hr|? ? b u ? ? Hr E|? ? u ? ? Hr E|
    ? ? r ? ? Ha E|? ? r ? ? Ha E]; subst.
  - by eapply request_ok.
  - by eapply switch_ok.
  - by split.
  - by eapply release_ok.
  - by eapply stopped_ok.
  - by eapply suspend_ok.
  - by eapply resume_ok.
Qed.

(** From the start with the receiver off, through any sequence of driver
    requests, buffer changes, stops, suspends and resumes, the buffer the
    callback hands to the driver is never the one the driver is filling. *)
Theorem rx_buffers_distinct s0 w0 s w cur n :
  disable_reported -> rx s0 = RxOff -> rtc rx_step (s0, w0) (s, w) -> rx s = RxOn cur (Some n) -> n <> cur.
Proof.
  intros Hd H0 Hr Hn. assert (Hs : rx_ok s); [|destruct Hs as [Hb _]; by rewrite Hn in Hb].
  assert (Hs0 : rx_ok s0) by (split; by rewrite H0). clear H0 Hn.
  remember (s0, w0) as c0 eqn:E0. remember (s, w) as c1 eqn:E1. revert s0 w0 E0 Hs0.
  induction Hr as [c|c0 [s1 w1] c1 Hstep _ IH]; intros s0 w0 -> Hs0; [by injection E1 as <- <-|].
  eapply IH; [done|done|]. by eapply rx_step_ok.
Qed.
End buffers.

(** ** Lines *)

Definition is_eol (c : Z) : bool := (c =? 13) || (c =? 10).

Definition nonempty (l : list Z) : list (list Z) := match l with [] => [] | _ => [l] end.

(** What the module sent, cut at CR and LF: the lines that are not empty, each
    cut to the [MAX_CMD_LEN - 1] bytes the buffer holds, and the line that has
    not ended; [acc] is the line that had begun. *)
Fixpoint split_lines (acc bytes : list Z) : list (list Z) * list Z :=
  match bytes with
  | [] => ([], acc)
  | b :: bytes =>
      if is_eol b then let '(ls, rest) := split_lines [] bytes in (nonempty acc ++ ls, rest)
      else split_lines (if zlen acc <? MAX_CMD_LEN - 1 then acc ++ [b] else acc) bytes
  end.

Lemma split_lines_app acc a b :
  split_lines acc (a ++ b)
  = let '(l1, r1) := split_lines acc a in let '(l2, r2) := split_lines r1 b in (l1 ++ l2, r2).
Proof.
  revert acc. induction a as [|c a IH]; intros acc; cbn [split_lines app].
  - by destruct (split_lines acc b).
  - destruct (is_eol c); [|apply IH]. rewrite IH. destruct (split_lines [] a) as [l1 r1].
    destruct (split_lines r1 b) as [l2 r2]. by rewrite app_assoc.
Qed.

Section lines.
Context {V : Type}.
Context (parse : list Z -> prog lte V unit).

(** The received bytes and the line buffer are left alone. *)
Definition same_rx (s s' : lte) : Prop := s_lte_rb s' = s_lte_rb s /\ command s' = command s /\ cmd_index s' = cmd_index s.

(** What is known once the first of [lines] have been handled, from what the
    handling of each line does: it returns, in every state the lines before
    it can leave, without touching the received bytes and the line buffer,
    which the knowledge does not speak of. *)
Record handles (lines : list (list Z)) (J : list (list Z) -> lte -> V -> Prop) : Prop := {
  ha_line ls l s w : (ls ++ [l]) `prefix_of` lines -> J ls s w ->
    twp (parse l) (fun _ s' w' => same_rx s s' /\ J (ls ++ [l]) s' w') s w;
  ha_empty ls s w : J ls s w -> twp (parse []) (fun _ s' w' => same_rx s s' /\ J ls s' w') s w;
  ha_rb ls s w rb : J ls s w -> J ls (set_rb rb s) w;
  ha_command ls s w b i : J ls s w -> J ls (set_command b i s) w
}.

(** The line that has begun, in the static buffer. *)
Record at_line (acc : list Z) (s : lte) : Prop := {
  al_index : cmd_index s = zlen acc;
  al_len : zlen acc <= MAX_CMD_LEN - 1;
  al_size : zlen (command s) = MAX_CMD_LEN;
  al_text : take (length acc) (command s) = acc
}.

Lemma put_char acc c s (Hs : at_line acc s) : zlen acc < MAX_CMD_LEN - 1 ->
  exists b b', arr_set (command s) (cmd_index s) c = Some b /\ arr_set b (cmd_index s + 1) 0 = Some b' /\
    at_line (acc ++ [c]) (set_command b' (cmd_index s + 1) s).
Proof.
  intros Hl. destruct Hs as [Hi Hn Hsz Ht]. unfold MAX_CMD_LEN in *. pose proof (zlen_nonneg acc).
  exists (<[length acc := c]> (command s)), (<[S (length acc) := 0]> (<[length acc := c]> (command s))).
  rewrite Hi. split_and!.
  - rewrite arr_set_Some by lia. unfold zlen. by rewrite Nat2Z.id.
  - rewrite arr_set_Some by (unfold zlen in *; rewrite length_insert; lia). do 2 f_equal. unfold zlen. lia.
  - split; cbn.
    + rewrite zlen_app. done.
    + rewrite zlen_app. unfold MAX_CMD_LEN. change (zlen [c]) with 1. lia.
    + unfold zlen in *. by rewrite !length_insert.
    + rewrite length_app, Nat.add_1_r, take_insert_ge by lia.
      erewrite take_S_r by (apply list_lookup_insert_eq; unfold zlen in *; lia).
      by rewrite take_insert_ge, Ht.
Qed.

Lemma clear_line acc s : at_line acc s -> exists b, arr_set (command s) 0 0 = Some b /\ at_line [] (set_command b 0 s).
Proof.
  intros [Hi Hn Hsz Ht]. exists (<[0%nat := 0]> (command s)). split; [by rewrite arr_set_Some by (rewrite Hsz; done)|].
  split; cbn; [done|done| |done]. unfold zlen in *. by rewrite length_insert.
Qed.

(** The byte after the last one is looked at only when the last one ends a
    line. *)
Definition readable_after (bytes after : list Z) : Prop :=
  after <> [] \/ forall c, last bytes = Some c -> is_eol c = false.

Lemma readable_after_tail c bytes after : readable_after (c :: bytes) after -> readable_after bytes after.
Proof. intros [Ha|Ha]; [by left|right]. intros x Hx. apply Ha. by destruct bytes. Qed.

Lemma readable_next c bytes after :
  is_eol c = true -> readable_after (c :: bytes) after -> exists d tl, bytes ++ after = d :: tl.
Proof.
  intros Ec Ha. destruct bytes as [|d ?]; [|by eexists _, _]. destruct after as [|d tl]; [|by eexists _, _].
  destruct Ha as [Ha|Ha]; [done|]. specialize (Ha c eq_refl). congruence.
Qed.

(** Receiving [bytes] after [acc]: the lines are handled, in order. *)
Section received.
Context (lines : list (list Z)) (J : list (list Z) -> lte -> V -> Prop) (HJ : handles lines J).

Definition receives (ls : list (list Z)) (acc bytes : list Z) (rb : ring_buffer_t) (m : prog lte V unit) (s : lte) (w : V) : Prop :=
  twp m (fun _ s' w' => s_lte_rb s' = rb /\ at_line (split_lines acc bytes).2 s' /\ J (ls ++ (split_lines acc bytes).1) s' w') s w.

(** The loop of one call of [my_lte_handle_recv]. *)
Definition loop_receives (n : nat) : Prop := forall pre bytes after ls acc s w,
  length bytes = n -> at_line acc s -> readable_after bytes after -> (ls ++ (split_lines acc bytes).1) `prefix_of` lines -> J ls s w ->
  receives ls acc bytes (s_lte_rb s) (recv_loop parse n (pre ++ bytes ++ after) (zlen pre)) s w.

(** After the end of a line: a LF that follows is skipped. *)
Lemma after_eol n pre bytes after d tl ls s w :
  (forall m, (m <= n)%nat -> loop_receives m) -> length bytes = n -> at_line [] s -> readable_after bytes after ->
  (ls ++ (split_lines [] bytes).1) `prefix_of` lines -> J ls s w -> bytes ++ after = d :: tl ->
  receives ls [] bytes (s_lte_rb s)
    (if d =? 10 then match n with O => ret tt | S n => recv_loop parse n (pre ++ bytes ++ after) (zlen pre + 1) end
     else recv_loop parse n (pre ++ bytes ++ after) (zlen pre)) s w.
Proof.
  intros IH Hn Hs Ha Hp Hj Hd. destruct (d =? 10) eqn:Ed; [|by apply IH]. apply Z.eqb_eq in Ed. subst d.
  destruct bytes as [|d bytes]; subst n; [by apply (IH O (le_n _) pre [] after)|].
  injection Hd as Hd _. subst d. cbn [length]. replace (pre ++ (10 :: bytes) ++ after) with ((pre ++ [10]) ++ bytes ++ after)
    by (by rewrite <- app_assoc).
  replace (zlen pre + 1) with (zlen (pre ++ [10])) by (by rewrite zlen_app).
  assert (E : split_lines [] (10 :: bytes) = split_lines [] bytes) by (cbn; by destruct (split_lines [] bytes)).
  unfold receives. rewrite E in *.
  apply (IH (length bytes)); [cbn; lia|done|done|by eapply readable_after_tail|done|done].
Qed.

(** The line that ends is handled, unless it is empty. *)
Lemma line_handled acc ls s w : (ls ++ nonempty acc) `prefix_of` lines -> J ls s w ->
  twp (parse acc) (fun _ s' w' => same_rx s s' /\ J (ls ++ nonempty acc) s' w') s w.
Proof.
  destruct acc as [|c acc]; cbn [nonempty]; [rewrite app_nil_r; intros _; by apply (ha_empty _ _ HJ)|by apply (ha_line _ _ HJ)].
Qed.

Lemma recv_loop_receives n : loop_receives n.
Proof.
  induction n as [n IH] using (well_founded_induction lt_wf).
  intros pre bytes after ls acc s w Hn Hs Ha Hp Hj. destruct bytes as [|c bytes]; subst n.
  { apply twp_ret. cbn. by rewrite app_nil_r. }
  cbn [length recv_loop app]. unfold receives. tstep. eapply twp_checked; [by apply arr_get_app|].
  replace (pre ++ c :: bytes ++ after) with ((pre ++ [c]) ++ bytes ++ after) by (by rewrite <- app_assoc).
  replace (zlen pre + 2) with (zlen (pre ++ [c]) + 1) by (rewrite zlen_app; change (zlen [c]) with 1; lia).
  replace (zlen pre + 1) with (zlen (pre ++ [c])) by (by rewrite zlen_app).
  cbn [split_lines] in *. fold (is_eol c). destruct (is_eol c) eqn:Ec.
  - destruct (split_lines [] bytes) as [l1 r1] eqn:El. cbn [fst snd] in *. rewrite (app_assoc ls (nonempty acc) l1) in *.
    assert (Hp1 : (ls ++ nonempty acc) `prefix_of` lines) by (etrans; [|exact Hp]; by apply prefix_app_r).
    tstep. tstep. replace (take (Z.to_nat (cmd_index s)) (command s)) with acc
      by (destruct Hs as [Hi _ _ Ht]; cbn; unfold zlen in Hi; by rewrite Hi, Nat2Z.id, Ht).
    tstep. eapply twp_mono; [by apply line_handled|]. intros _ s1 w1 ((Hb & Hc & Hi) & Hj1).
    assert (Hs1 : at_line acc s1) by (destruct Hs; split; congruence).
    destruct (clear_line acc s1 Hs1) as (b & Eb & Hs2). tstep. tstep. tstep. eapply twp_checked; [exact Eb|]. tstep. tstep. tstep.
    destruct (readable_next c bytes after Ec Ha) as (d & tl & Hd). rewrite Hd at 1.
    eapply twp_checked; [by apply arr_get_app|]. rewrite <- Hb.
    eapply twp_mono; [eapply (after_eol (length bytes) _ bytes after d tl (ls ++ nonempty acc) (set_command b 0 s1))|];
      [|done|done|by eapply readable_after_tail|by rewrite El|by apply (ha_command _ _ HJ)|done|].
    + intros m Hm. apply IH. cbn. lia.
    + cbn beta. rewrite El. by intros _ s' w' H.
  - tstep. tstep. tstep. rewrite (al_index _ _ Hs) at 1.
    destruct (zlen acc <? MAX_CMD_LEN - 1) eqn:El.
    + destruct (put_char acc c s Hs ltac:(lia)) as (b & b' & E1 & E2 & Hs2). tstep. eapply twp_checked; [exact E1|].
      tstep. eapply twp_checked; [exact E2|]. tstep.
      apply (IH (length bytes) (Nat.lt_succ_diag_r _) _ _ _ ls _ (set_command b' (cmd_index s + 1) s)); [done|done|by eapply readable_after_tail|done|].
      by apply (ha_command _ _ HJ).
    + tstep. apply (IH (length bytes) (Nat.lt_succ_diag_r _)); [done|done|by eapply readable_after_tail|done|done].
Qed.

(** The last byte of a full [read_buf] ends no line, or there is something to
    read after the array. *)
Definition chunks_ok (c beyond : list Z) : Prop :=
  beyond <> [] \/ forall k b, c !! (k * 128 + 127)%nat = Some b -> is_eol b = false.

Lemma chunks_ok_drop c beyond : chunks_ok c beyond -> chunks_ok (drop 128 c) beyond.
Proof.
  intros [H|H]; [by left|right]. intros k b Hb. rewrite lookup_drop in Hb. apply (H (S k) b). rewrite <- Hb. by f_equal.
Qed.

Lemma chunk_readable c beyond :
  chunks_ok c beyond -> readable_after (take 128 c) (drop (length (take 128 c)) (replicate 128 0) ++ beyond).
Proof.
  intros Hc. destruct (decide (length c < 128)%nat) as [Hl|Hl].
  - left. rewrite drop_replicate, length_take. destruct (128 - min 128 (length c))%nat eqn:E; [lia|done].
  - destruct Hc as [Hc|Hc]; [left; by destruct (drop _ _)|right]. intros b Hb. apply (Hc O b).
    rewrite last_lookup, length_take, lookup_take_lt in Hb by lia. rewrite <- Hb. f_equal. lia.
Qed.

(** The loop of [MY_MSG_LTE_REV], after the lines [ls]. *)
Lemma read_lines_receives beyond fuel : forall ls acc s w,
  rb_ok (s_lte_rb s) -> at_line acc s -> chunks_ok (contents (s_lte_rb s)) beyond ->
  (length (contents (s_lte_rb s)) < fuel)%nat -> (ls ++ (split_lines acc (contents (s_lte_rb s))).1) `prefix_of` lines -> J ls s w ->
  twp (read_lines parse beyond fuel) (fun _ s' w' =>
    rb_ok (s_lte_rb s') /\ contents (s_lte_rb s') = [] /\
    at_line (split_lines acc (contents (s_lte_rb s))).2 s' /\ J (ls ++ (split_lines acc (contents (s_lte_rb s))).1) s' w') s w.
Proof.
  induction fuel as [|fuel IH]; intros ls acc s w Hrb Hs Hc Hf Hp Hj; [lia|].
  cbn [read_lines]. tstep. tstep. tstep.
  destruct (rb_read_spec (s_lte_rb s) (replicate 128 0) 128 Hrb ltac:(by vm_compute) ltac:(by vm_compute)) as (rb & E & Hrb' & _ & Hrest).
  eapply twp_checked; [exact E|]. clear E. cbn [queue_read fst snd] in *. change (Z.to_nat 128) with 128%nat in *.
  remember (contents (s_lte_rb s)) as c eqn:Ec. tstep. tstep. destruct c as [|b c].
  - change (0 <? zlen (take 128 [])) with false. apply twp_ret. cbn [s_lte_rb set_rb split_lines fst snd]. rewrite app_nil_r.
    split_and!; [done|done|by destruct Hs|by apply (ha_rb _ _ HJ)].
  - rewrite (proj2 (Z.ltb_lt 0 _)) by (unfold zlen; cbn; lia). tstep. unfold my_lte_handle_recv.
    replace (Z.to_nat (zlen (take 128 (b :: c)))) with (length (take 128 (b :: c))) by (unfold zlen; lia).
    pose proof (split_lines_app acc (take 128 (b :: c)) (drop 128 (b :: c))) as Happ. rewrite take_drop in Happ. rewrite Happ in *. clear Happ.
    destruct (split_lines acc (take 128 (b :: c))) as [l1 r1] eqn:E1. destruct (split_lines r1 (drop 128 (b :: c))) as [l2 r2] eqn:E2. cbn [fst snd] in *.
    rewrite (app_assoc ls l1 l2) in *. rewrite <- (app_assoc (take 128 (b :: c))). eapply twp_mono.
    { apply (recv_loop_receives _ [] _ _ ls acc (set_rb rb s)); [done|by destruct Hs|by apply chunk_readable| |by apply (ha_rb _ _ HJ)].
      rewrite E1. etrans; [|exact Hp]. by apply prefix_app_r. }
    intros _ s1 w1 (H1 & H2 & H3). cbn [s_lte_rb set_rb] in H1. rewrite E1 in H2, H3. cbn [fst snd] in H2, H3.
    eapply twp_mono; [apply (IH (ls ++ l1) r1 s1 w1)|]; rewrite ?H1, ?Hrest, ?E2; try done.
    + by apply chunks_ok_drop.
    + rewrite length_drop. cbn [length] in *. lia.
Qed.
End received.

(** C27: the loop of [MY_MSG_LTE_REV] cuts the byte stream into lines.  Suppose
    that the handling of each line of the stream, the lines before it handled,
    returns and leaves the ring buffer and the line buffer alone (so none is
    [LTE+MCUOTA], which reads an image from the ring, and nothing arrives
    meanwhile), and that no CR or LF is the last byte of a full read of 128
    (after which the code looks behind its buffer) unless there is a byte
    behind it.  With one turn of fuel for each received byte and one more the
    loop then returns with the ring buffer empty, and what holds is whatever
    holds when the lines are handled one after the other, in order and each
    once: the same however the bytes were cut into chunks, with CR, LF and CR
    LF alike, and with what an earlier call left of an unfinished line. *)
Theorem lines_of_stream J beyond fuel acc s w :
  let '(lines, rest) := split_lines acc (contents (s_lte_rb s)) in
  handles lines J -> rb_ok (s_lte_rb s) -> at_line acc s -> chunks_ok (contents (s_lte_rb s)) beyond ->
  (length (contents (s_lte_rb s)) < fuel)%nat -> J [] s w ->
  twp (read_lines parse beyond fuel) (fun _ s' w' =>
    rb_ok (s_lte_rb s') /\ contents (s_lte_rb s') = [] /\ at_line rest s' /\ J lines s' w') s w.
Proof.
  destruct (split_lines acc _) as [lines rest] eqn:E. intros HJ Hrb Hs Hc Hf Hj.
  pose proof (read_lines_receives lines J HJ beyond fuel [] acc s w Hrb Hs Hc Hf) as H. rewrite E in H. by apply H.
Qed.

(** The handling of a line returns and leaves the line buffer alone. *)
Definition parse_returns : Prop := forall l s w, twp (parse l) (fun _ s' _ => command s' = command s /\ cmd_index s' = cmd_index s) s w.
Context (Hparse : parse_returns).

Lemma undef_bind {A B} (m : prog lte V A) (k : A -> prog lte V B) Q s w :
  twp m Q s w -> (forall a s' w', Q a s' w' -> k a s' w' = Undef) -> bind m k s w = Undef.
Proof. intros (a & s' & w' & E & H)%twp_done Hk. rewrite (bind_done _ _ _ _ _ _ _ E). by apply Hk. Qed.

Lemma undef_checked {A B} (o : option A) (k : A -> prog lte V B) a s w :
  o = Some a -> k a s w = Undef -> bind (checked o) k s w = Undef.
Proof. by intros ->. Qed.

Lemma recv_loop_overread n pre bytes acc s w :
  length bytes = n -> at_line acc s -> last bytes = Some 13 -> recv_loop parse n (pre ++ bytes) (zlen pre) s w = Undef.
Proof.
  revert pre bytes acc s w. induction n as [n IH] using (well_founded_induction lt_wf).
  intros pre bytes acc s w Hn Hs Hl. destruct bytes as [|c bytes]; subst n; [done|].
  assert (Hl' : bytes <> [] -> last bytes = Some 13) by (intros ?; by destruct bytes).
  cbn [length recv_loop]. eapply undef_checked; [by apply arr_get_app|]. fold (is_eol c).
  replace (pre ++ c :: bytes) with ((pre ++ [c]) ++ bytes) by (by rewrite <- app_assoc).
  replace (zlen pre + 2) with (zlen (pre ++ [c]) + 1) by (rewrite zlen_app; change (zlen [c]) with 1; lia).
  replace (zlen pre + 1) with (zlen (pre ++ [c])) by (by rewrite zlen_app).
  destruct (is_eol c) eqn:Ec.
  - apply (undef_bind (get id) _ (fun a s' _ => a = s' /\ s' = s)); [done|]. intros ? ? w0 [-> ->].
    eapply undef_bind; [apply Hparse|]. intros _ s1 w1 (Hc & Hi).
    assert (Hs1 : at_line acc s1) by (destruct Hs; split; congruence).
    destruct (clear_line acc s1 Hs1) as (b & Eb & Hs2).
    apply (undef_bind (get command) _ (fun a s' _ => a = command s1 /\ s' = s1)); [done|]. intros ? ? w2 [-> ->].
    eapply undef_checked; [exact Eb|].
    apply (undef_bind (modify _) _ (fun _ s' _ => s' = set_command b 0 s1)); [done|]. intros _ ? w3 ->.
    destruct bytes as [|d bytes].
    { rewrite app_nil_r. unfold bind, checked. destruct (arr_get _ _) as [x|] eqn:E; [|done]. apply arr_get_inv in E as [? _]. lia. }
    eapply undef_checked; [by apply arr_get_app|]. destruct (d =? 10) eqn:Ed; [|eapply IH; [cbn; lia|done|done|by apply Hl']].
    apply Z.eqb_eq in Ed. subst d. cbn [length].
    replace ((pre ++ [c]) ++ 10 :: bytes) with ((pre ++ [c; 10]) ++ bytes) by (by rewrite <- !app_assoc).
    replace (zlen (pre ++ [c]) + 1) with (zlen (pre ++ [c; 10])) by (rewrite !zlen_app; unfold zlen; cbn; lia).
    eapply IH; [cbn; lia|done|done|]. specialize (Hl' ltac:(done)). by destruct bytes.
  - destruct bytes as [|d bytes]; [injection Hl as ->; done|].
    apply (undef_bind (get id) _ (fun a s' _ => a = s' /\ s' = s)); [done|]. intros ? ? w0 [-> ->].
    apply (undef_bind _ _ (fun _ s' _ => exists acc', at_line acc' s')).
    + rewrite (al_index _ _ Hs) at 1. destruct (zlen acc <? MAX_CMD_LEN - 1) eqn:El; [|by exists acc].
      destruct (put_char acc c s Hs ltac:(lia)) as (b & b' & E1 & E2 & Hs2). tstep. eapply twp_checked; [exact E1|].
      tstep. eapply twp_checked; [exact E2|]. tstep. by eexists.
    + intros _ s' w' [acc' Hs']. eapply IH; [cbn; lia|done|done|by apply Hl'].
Qed.

(** [my_lte_handle_recv] looks at the byte after a CR without checking that
    there is one: when the 128th byte of a full [read_buf] is a CR it reads
    past the end of the array. *)
Theorem recv_reads_past_buffer fuel acc s w :
  rb_ok (s_lte_rb s) -> at_line acc s -> contents (s_lte_rb s) !! 127%nat = Some 13 ->
  read_lines parse [] (S fuel) s w = Undef.
Proof.
  intros Hrb Hs Hcr. cbn [read_lines].
  apply (undef_bind (get s_lte_rb) _ (fun a s' _ => a = s_lte_rb s /\ s' = s)); [done|]. intros ? ? w0 [-> ->].
  destruct (rb_read_spec (s_lte_rb s) (replicate 128 0) 128 Hrb ltac:(by vm_compute) ltac:(by vm_compute)) as (rb & E & _).
  eapply undef_checked; [exact E|]. cbn [queue_read fst]. change (Z.to_nat 128) with 128%nat.
  assert (Hlen : length (take 128 (contents (s_lte_rb s))) = 128%nat).
  { apply lookup_lt_Some in Hcr. rewrite length_take. lia. }
  rewrite Hlen. change (drop 128 (replicate 128 0)) with (@nil Z). rewrite !app_nil_r.
  apply (undef_bind (modify _) _ (fun _ s' _ => s' = set_rb rb s)); [done|]. intros _ ? w1 ->.
  unfold zlen. rewrite Hlen. change (0 <? Z.of_nat 128) with true. unfold my_lte_handle_recv. rewrite Nat2Z.id.
  pose proof (recv_loop_overread 128 [] (take 128 (contents (s_lte_rb s))) acc (set_rb rb s) w1) as Hx.
  cbn [app] in Hx. change (zlen []) with 0 in Hx. unfold bind. rewrite Hx; [done|done|by destruct Hs|].
  rewrite last_lookup, Hlen. cbn [pred]. by rewrite lookup_take_lt by lia.
Qed.
End lines.
