(* ===== verification/BleLink.v ===== *)
(** * The notification link ([src/my_ble_core.c])

    The connection state, the buffer in front of [bt_gatt_notify] and the
    callbacks that change them.  The Bluetooth stack is the class [Gatt]. *)

From S2P Require Import Prelude.

(** [bt_gatt_notify] on the notify characteristic: the new world and the error. *)
Class Gatt (W : Type) := { bt_gatt_notify : W -> list Z -> W * Z }.

Definition CONFIG_BT_L2CAP_TX_MTU : Z := 498.
Definition BLE_SERVER_MIN_MTU : Z := 23.
Definition BLE_NOTIFY_SEND_BUF_MAX_SIZE : Z := 1024.
Definition BLE_SVC_TX_MAX_LEN : Z := CONFIG_BT_L2CAP_TX_MTU - 3.
Definition BT_GATT_CCC_NOTIFY : Z := 1.

(** [is_conn] stands for [s_connect_id != 0xff && s_current_conn != NULL]: the
    two are set and cleared together. *)
Record link := mk_link {
  is_conn : bool;
  send_enable_google : bool;
  send_enable_apple : bool;
  g_ble_server_mtu : Z;
  s_uart_ble_server_buf : list Z;
  s_ble_server_rx_index : Z;
  s_ble_server_send_done : bool
}.

Definition BLE_SERVER_MAX_DATA_LEN (l : link) : Z := g_ble_server_mtu l - 3.

(** ** Callbacks of the stack *)

Definition att_mtu_updated (tx : Z) (l : link) : link :=
  mk_link (is_conn l) (send_enable_google l) (send_enable_apple l)
    (if CONFIG_BT_L2CAP_TX_MTU <=? tx then CONFIG_BT_L2CAP_TX_MTU else tx)
    (s_uart_ble_server_buf l) (s_ble_server_rx_index l) (s_ble_server_send_done l).

Definition custom_char_ccc_cfg_changed (value : Z) (l : link) : link :=
  let on := negb (Z.land value BT_GATT_CCC_NOTIFY =? 0) in
  mk_link (is_conn l) on on (g_ble_server_mtu l) (s_uart_ble_server_buf l)
    (s_ble_server_rx_index l) (s_ble_server_send_done l).

(** The link part of [connected] and [disconnected]. *)
Definition link_connected (err : Z) (l : link) : link :=
  if negb (err =? 0) then l
  else mk_link true (send_enable_google l) (send_enable_apple l) (g_ble_server_mtu l)
         (s_uart_ble_server_buf l) (s_ble_server_rx_index l) (s_ble_server_send_done l).

Definition link_disconnected (l : link) : link :=
  mk_link false false false (g_ble_server_mtu l) (s_uart_ble_server_buf l)
    (s_ble_server_rx_index l) (s_ble_server_send_done l).

Definition ble_is_connected (l : link) : bool := is_conn l.

Definition ble_is_data_channel_ready (l : link) : bool :=
  is_conn l && (send_enable_google l || send_enable_apple l).

(** ** Sending *)

Definition set_cache (b : list Z) (i : Z) (d : bool) (l : link) : link :=
  mk_link (is_conn l) (send_enable_google l) (send_enable_apple l) (g_ble_server_mtu l) b i d.

(** The copy into the send buffer, when it fits. *)
Definition cache_data (l : link) (data : list Z) (tx_len : Z) (done : bool) : option link :=
  if (0 <? tx_len) && (s_ble_server_rx_index l + tx_len <=? BLE_NOTIFY_SEND_BUF_MAX_SIZE)
  then
    src ← arr_slice data 0 tx_len;
    b ← arr_blit (s_uart_ble_server_buf l) (s_ble_server_rx_index l) src;
    Some (set_cache b (u16 (s_ble_server_rx_index l + tx_len)) done l)
  else Some (set_cache (s_uart_ble_server_buf l) (s_ble_server_rx_index l) done l).

Section gatt.
Context {W : Type} `{!Gatt W}.

Definition ble_server_send_notification (l : link) (w : W) (data : list Z) (tx_len : Z)
  : option (link * W) :=
  if negb (is_conn l) then Some (l, w)
  else if negb (s_ble_server_send_done l)
  then l ← cache_data l data tx_len false; Some (l, w)
  else
    l ← cache_data l data tx_len false;
    let limit := Z.min (BLE_SERVER_MAX_DATA_LEN l) BLE_SVC_TX_MAX_LEN in
    let n := u16 (if limit <? s_ble_server_rx_index l then limit else s_ble_server_rx_index l) in
    if send_enable_google l || send_enable_apple l
    then
      out ← arr_slice (s_uart_ble_server_buf l) 0 n;
      let '(w, err) := bt_gatt_notify w out in
      if negb (err =? 0)
      then Some (set_cache (s_uart_ble_server_buf l) (s_ble_server_rx_index l) true l, w)
      else
        let i := u16 (s_ble_server_rx_index l - n) in
        rest ← arr_slice (s_uart_ble_server_buf l) n i;
        b ← arr_blit (s_uart_ble_server_buf l) 0 rest;
        Some (set_cache b i true l, w)
    else Some (set_cache (s_uart_ble_server_buf l) (s_ble_server_rx_index l) true l, w).
End gatt.

(** ** The link as a byte stream *)

Definition link_ok (l : link) : Prop :=
  zlen (s_uart_ble_server_buf l) = 1024 /\ 0 <= s_ble_server_rx_index l <= 1024 /\
  s_ble_server_send_done l = true /\ 23 <= g_ble_server_mtu l <= 498.

(** The bytes that wait in front of the stack. *)
Definition queued (l : link) : list Z :=
  take (Z.to_nat (s_ble_server_rx_index l)) (s_uart_ble_server_buf l).

(** Bytes handed over by successful notifications. *)
Class GattLog (W : Type) `{Gatt W} := {
  notified : W -> list (list Z);
  notified_ok w d w' : bt_gatt_notify w d = (w', 0) -> notified w' = notified w ++ [d];
  notified_err w d w' e : bt_gatt_notify w d = (w', e) -> e <> 0 -> notified w' = notified w
}.

Lemma cache_data_spec l data done :
  link_ok l ->
  exists l', cache_data l data (zlen data) done = Some l' /\
    queued l' = queued l ++ (if s_ble_server_rx_index l + zlen data <=? 1024 then data else []) /\
    zlen (s_uart_ble_server_buf l') = 1024 /\ s_ble_server_rx_index l' = zlen (queued l') /\
    0 <= s_ble_server_rx_index l' <= 1024 /\ s_ble_server_send_done l' = done /\
    is_conn l' = is_conn l /\ g_ble_server_mtu l' = g_ble_server_mtu l /\
    send_enable_google l' = send_enable_google l /\ send_enable_apple l' = send_enable_apple l.
Proof.
  intros (Hb & Hi & Hd & Hm). unfold cache_data, BLE_NOTIFY_SEND_BUF_MAX_SIZE. pose proof (zlen_nonneg data).
  assert (Hq : zlen (queued l) = s_ble_server_rx_index l) by (unfold queued; rewrite zlen_take; lia).
  destruct (Z.ltb_spec 0 (zlen data)) as [Hpos|H0]; cbn [andb].
  2:{ assert (data = []) as -> by (destruct data; [done|rewrite zlen_cons in H0; pose proof (zlen_nonneg data); lia]).
      eexists. split; [reflexivity|]. rewrite Tauto.if_same, app_nil_r. split_and!; (done || exact (eq_sym Hq) || (cbn; lia)). }
  destruct (Z.leb_spec (s_ble_server_rx_index l + zlen data) 1024).
  - rewrite arr_slice_Some by lia. cbn [mbind option_bind]. rewrite drop_0.
    rewrite take_ge by (unfold zlen; lia). rewrite arr_blit_Some by lia. cbn [mbind option_bind].
    rewrite u16_small by lia. eexists. split; [reflexivity|].
    set (b := take _ _ ++ data ++ _).
    assert (Hqb : take (Z.to_nat (s_ble_server_rx_index l + zlen data)) b = queued l ++ data).
    { unfold b. rewrite app_assoc, take_app_le; [rewrite take_ge; [done|]|];
        rewrite length_app, length_take; unfold zlen in *; lia. }
    cbn [set_cache queued s_ble_server_rx_index s_uart_ble_server_buf]. unfold queued at 1 3. cbn. rewrite Hqb.
    split_and!; try done; rewrite ?zlen_app; try lia.
    unfold b. rewrite !zlen_app, zlen_take, zlen_drop. unfold zlen in *. lia.
  - eexists. split; [reflexivity|]. rewrite app_nil_r. split_and!; (done || exact (eq_sym Hq) || (cbn; lia)).
Qed.

Section stream.
Context {W : Type} `{!Gatt W} `{!GattLog W}.

(** The notification link is a byte stream cut into notifications that the
    negotiated MTU allows.  On an open channel, sending [data] stays within the
    buffer; what the stack accepted followed by what is still queued grows by
    exactly [data], or by nothing when the 1024-byte buffer would overflow, and
    a notification is never longer than the MTU less three. *)
Theorem notification_stream l w data :
  link_ok l -> ble_is_data_channel_ready l = true ->
  exists l' w', ble_server_send_notification l w data (zlen data) = Some (l', w') /\ link_ok l' /\
    concat (notified w') ++ queued l' =
      concat (notified w) ++ queued l ++ (if s_ble_server_rx_index l + zlen data <=? 1024 then data else []) /\
    Forall (fun d => d ∈ notified w \/ zlen d <= g_ble_server_mtu l - 3) (notified w').
Proof.
  intros Hl Hr. pose proof Hl as (Hb & Hi & Hd & Hm). unfold ble_is_data_channel_ready in Hr.
  apply andb_prop in Hr as [Hc He]. unfold ble_server_send_notification. rewrite Hc, Hd. cbn [negb].
  destruct (cache_data_spec l data false Hl) as (l1 & -> & Hq1 & Hb1 & Hx1 & Hi1 & Hd1 & Hc1 & Hm1 & Hg1 & Ha1).
  cbn [mbind option_bind]. rewrite Hg1, Ha1, He. unfold BLE_SERVER_MAX_DATA_LEN, BLE_SVC_TX_MAX_LEN, CONFIG_BT_L2CAP_TX_MTU.
  rewrite Hm1. set (limit := Z.min _ _). assert (Hlim : 20 <= limit <= 495 /\ limit <= g_ble_server_mtu l - 3) by lia.
  set (n := u16 (if limit <? _ then _ else _)).
  assert (Hn : n = Z.min limit (s_ble_server_rx_index l1))
    by (unfold n; destruct (Z.ltb_spec limit (s_ble_server_rx_index l1)); rewrite u16_small; lia).
  clearbody n. rewrite (arr_slice_Some _ 0 n) by lia. cbn [mbind option_bind]. rewrite drop_0.
  assert (Hout : take (Z.to_nat n) (s_uart_ble_server_buf l1) = take (Z.to_nat n) (queued l1)).
  { unfold queued. rewrite take_take. f_equal. lia. }
  rewrite Hout. destruct (bt_gatt_notify w _) as [w' err] eqn:En.
  destruct (Z.eqb_spec err 0) as [->|Herr]; cbn [negb].
  - rewrite u16_small by lia. rewrite (arr_slice_Some _ n) by lia. cbn [mbind option_bind].
    set (rest := take _ (drop _ _)).
    assert (Hrest : rest = drop (Z.to_nat n) (queued l1)).
    { unfold rest, queued. rewrite take_drop_commute. f_equal. f_equal. lia. }
    assert (Hrl : zlen rest = s_ble_server_rx_index l1 - n) by (rewrite Hrest, zlen_drop; lia).
    rewrite arr_blit_Some by lia. cbn [mbind option_bind]. eexists _, _. split; [reflexivity|].
    rewrite (notified_ok _ _ _ En), concat_app. cbn [concat]. rewrite app_nil_r. split; [|split].
    + split_and!; cbn; try (done || lia). rewrite !zlen_app, zlen_take, zlen_drop. unfold zlen in *. lia.
    + rewrite <- (app_assoc (concat _)). f_equal. rewrite <- Hq1.
      unfold queued at 2. cbn [set_cache s_ble_server_rx_index s_uart_ble_server_buf].
      change (take (Z.to_nat 0) (s_uart_ble_server_buf l1)) with (@nil Z). cbn [app].
      rewrite (take_app_le rest), (take_ge rest), Hrest by (unfold zlen in Hrl; lia). apply take_drop.
    + rewrite Forall_app. split; [apply Forall_forall; by left|].
      constructor; [|constructor]. right. rewrite zlen_take. lia.
  - eexists _, _. split; [reflexivity|]. rewrite (notified_err _ _ _ _ En Herr). split; [|split].
    + by split_and!; cbn; try lia.
    + by rewrite <- Hq1.
    + apply Forall_forall. by left.
Qed.
End stream.
