(* ===== verification/BleCrypto.v ===== *)
(** * Padding and block encryption ([src/my_ble_app.c])

    [pkcs7_pad], [pkcs7_unpad] and the two AES-ECB routines.  The PSA crypto
    library and the heap are the class [Psa]; what a working library does is
    [PsaWorks]. *)

From S2P Require Import Prelude Prog.

Open Scope prog_scope.

(** The key is passed in place of its identifier.  A cipher call returns its
    status and the bytes it wrote. *)
Class Psa (W : Type) := {
  psa_import_key : W -> list Z -> W * Z;
  k_malloc : W -> Z -> W * bool;
  psa_cipher_encrypt : W -> list Z -> list Z -> W * (Z * list Z);
  psa_cipher_decrypt : W -> list Z -> list Z -> W * (Z * list Z)
}.

Definition PSA_SUCCESS : Z := 0.
Definition PSA_ERROR_INVALID_ARGUMENT : Z := -135.
Definition PSA_ERROR_BUFFER_TOO_SMALL : Z := -138.
Definition PSA_ERROR_INSUFFICIENT_MEMORY : Z := -141.

(** ** PKCS#7 *)

Fixpoint pad_loop (n : nat) (buf : list Z) (len i pad_byte : Z) : option (list Z) :=
  match n with
  | O => Some buf
  | S n => b ← arr_set buf (len + i) pad_byte; pad_loop n b len (i + 1) pad_byte
  end.

Definition pkcs7_pad (buf : option (list Z)) (len block_size : Z) : option (option (list Z) * Z) :=
  if block_size =? 0 then None
  else
    let pad_len := u32 (block_size - len mod block_size) in
    match buf with
    | None => Some (None, 0)
    | Some b =>
        if len =? 0 then Some (buf, 0)
        else
          b ← pad_loop (Z.to_nat pad_len) b len 0 (u8 pad_len);
          Some (Some b, u32 (len + pad_len))
    end.

(** Whether the [n] bytes at the end all are the padding byte. *)
Fixpoint unpad_loop (n : nat) (buf : list Z) (len i pad_byte : Z) : option bool :=
  match n with
  | O => Some true
  | S n =>
      c ← arr_get buf (len - 1 - i);
      if negb (c =? pad_byte) then Some false else unpad_loop n buf len (i + 1) pad_byte
  end.

Definition pkcs7_unpad (buf : option (list Z)) (len : Z) : option Z :=
  match buf with
  | None => Some 0
  | Some b =>
      if len =? 0 then Some 0
      else
        pad_byte ← arr_get b (len - 1);
        if len <? pad_byte then Some len
        else
          ok ← unpad_loop (Z.to_nat pad_byte) b len 0 pad_byte;
          Some (if ok : bool then len - pad_byte else len)
  end.

(** ** AES-ECB *)

Section aes.
Context {S W : Type} `{!Psa W}.
Notation M := (prog S W).

(** The loop over the blocks from [i], which encryption and decryption share:
    the last status and the output buffer. *)
Fixpoint block_loop (cipher : W -> list Z -> W * (Z * list Z)) (n : nat) (input output : list Z) (i : Z)
  : M (Z * list Z) :=
  match n with
  | O => ret (PSA_SUCCESS, output)
  | Datatypes.S n =>
      block <- checked (arr_slice input i 16) ;;
      r <- world (fun w => cipher w block) ;;
      let '(status, out) := r in
      output <- checked (arr_blit output i out) ;;
      if negb (status =? PSA_SUCCESS) || negb (zlen out =? 16) then ret (status, output)
      else block_loop cipher n input output (i + 16)
  end.

Definition aes_ecb_encrypt (key plaintext : option (list Z)) (pt_len : Z) (ciphertext : option (list Z))
    (ct_len : Z) : M (Z * option (list Z)) :=
  match key, plaintext, ciphertext with
  | Some key, Some plaintext, Some ct =>
      status <- world (fun w => psa_import_key w key) ;;
      if negb (status =? PSA_SUCCESS) then ret (status, ciphertext)
      else
        ok <- world (fun w => k_malloc w (u32 (pt_len + 16))) ;;
        if negb ok then ret (PSA_ERROR_INSUFFICIENT_MEMORY, ciphertext)
        else
          src <- checked (arr_slice plaintext 0 pt_len) ;;
          p <- checked (pkcs7_pad (Some (src ++ replicate 16 0)) pt_len 16) ;;
          let '(padded_input, padded_len) := p in
          if (ct_len <? padded_len) || (padded_len =? 0) then ret (PSA_ERROR_BUFFER_TOO_SMALL, ciphertext)
          else
            r <- block_loop (fun w => psa_cipher_encrypt w key) (Z.to_nat ((padded_len + 15) / 16))
                   (default [] padded_input) ct 0 ;;
            ret (fst r, Some (snd r))
  | _, _, _ => ret (-1, ciphertext)
  end.

(** The padding is removed for the log output only. *)
Definition aes_ecb_decrypt (key ciphertext : option (list Z)) (ct_len : Z) (plaintext : option (list Z))
    (pt_len : Z) : M (Z * option (list Z)) :=
  match key, ciphertext, plaintext with
  | Some key, Some ct, Some pt =>
      status <- world (fun w => psa_import_key w key) ;;
      if negb (status =? PSA_SUCCESS) then ret (status, plaintext)
      else if (ct_len =? 0) || negb (ct_len mod 16 =? 0) then ret (PSA_ERROR_INVALID_ARGUMENT, plaintext)
      else if pt_len <? ct_len then ret (PSA_ERROR_BUFFER_TOO_SMALL, plaintext)
      else
        r <- block_loop (fun w => psa_cipher_decrypt w key) (Z.to_nat ((ct_len + 15) / 16)) ct pt 0 ;;
        ret (fst r, Some (snd r))
  | _, _, _ => ret (-1, plaintext)
  end.
End aes.

(** ** PKCS#7: proofs *)

Lemma pad_loop_spec n pre mid post len i b :
  length mid = n -> len + i = zlen pre ->
  pad_loop n (pre ++ mid ++ post) len i b = Some (pre ++ replicate n b ++ post).
Proof.
  revert pre mid i. induction n as [|n IH]; intros pre mid i Hm Hi; cbn [pad_loop].
  - by destruct mid.
  - destruct mid as [|x mid]; [done|]. injection Hm as Hm.
    assert (Es : arr_set (pre ++ (x :: mid) ++ post) (len + i) b = Some ((pre ++ [b]) ++ mid ++ post)).
    { rewrite arr_set_Some by (rewrite !zlen_app, zlen_cons; pose proof (zlen_nonneg pre);
        pose proof (zlen_nonneg mid); pose proof (zlen_nonneg post); lia).
      f_equal. rewrite Hi. unfold zlen. rewrite Nat2Z.id, <- app_assoc.
      replace (length pre) with (length pre + 0)%nat by lia. by rewrite insert_app_r. }
    rewrite Es. cbn [mbind option_bind]. rewrite IH; [|done|rewrite zlen_app; change (zlen [b]) with 1; lia].
    rewrite <- app_assoc. cbn [app replicate]. f_equal.
Qed.

(** Padding bytes at the end of a text. *)
Definition pkcs7 (p : list Z) : list Z :=
  let n := 16 - zlen p mod 16 in p ++ replicate (Z.to_nat n) n.

Lemma pkcs7_len p : zlen (pkcs7 p) = (zlen p / 16 + 1) * 16.
Proof.
  unfold pkcs7. rewrite zlen_app, zlen_replicate. pose proof (Z.mod_pos_bound (zlen p) 16 ltac:(lia)).
  rewrite Z2Nat.id by lia. pose proof (Z.div_mod (zlen p) 16 ltac:(lia)). lia.
Qed.

Lemma pkcs7_pad_spec p room :
  0 < zlen p < 2147483648 -> zlen room = 16 ->
  exists b, pkcs7_pad (Some (p ++ room)) (zlen p) 16 = Some (Some b, zlen (pkcs7 p)) /\
    take (length (pkcs7 p)) b = pkcs7 p /\ zlen b = zlen p + 16.
Proof.
  intros Hp Hr. unfold pkcs7_pad. cbn [Z.eqb]. rewrite (proj2 (Z.eqb_neq (zlen p) 0)) by lia.
  pose proof (Z.mod_pos_bound (zlen p) 16 ltac:(lia)) as Hm. set (n := 16 - zlen p mod 16).
  assert (Hn : 1 <= n <= 16) by lia. rewrite !(u32_small n), u8_small by lia.
  rewrite <- (take_drop (Z.to_nat n) room), (pad_loop_spec (Z.to_nat n) p);
    [|rewrite length_take; unfold zlen in *; lia|lia].
  cbn [mbind option_bind]. eexists. split; [|split].
  - do 2 f_equal. unfold pkcs7. fold n. rewrite u32_small, zlen_app, zlen_replicate by lia. lia.
  - unfold pkcs7. fold n. by rewrite app_assoc, take_app_length.
  - rewrite !zlen_app, zlen_replicate, zlen_drop. lia.
Qed.

Lemma unpad_loop_spec n pre m post b len i :
  0 <= i -> i + Z.of_nat n <= Z.of_nat m -> len = zlen pre + Z.of_nat m ->
  unpad_loop n (pre ++ replicate m b ++ post) len i b = Some true.
Proof.
  revert i. induction n as [|n IH]; intros i Hi Hn Hl; cbn [unpad_loop]; [done|].
  assert (Eg : arr_get (pre ++ replicate m b ++ post) (len - 1 - i) = Some b).
  { unfold arr_get. rewrite (proj2 (Z.leb_le 0 _)) by (pose proof (zlen_nonneg pre); lia).
    unfold zlen in Hl. rewrite lookup_app_r by lia. rewrite lookup_app_l by (rewrite length_replicate; lia).
    apply lookup_replicate. lia. }
  rewrite Eg. cbn [mbind option_bind]. rewrite Z.eqb_refl. cbn [negb]. apply IH; lia.
Qed.

Lemma pkcs7_unpad_spec p post : pkcs7_unpad (Some (pkcs7 p ++ post)) (zlen (pkcs7 p)) = Some (zlen p).
Proof.
  pose proof (Z.mod_pos_bound (zlen p) 16 ltac:(lia)) as Hm. pose proof (zlen_nonneg p) as Hp.
  unfold pkcs7. set (n := 16 - zlen p mod 16). assert (Hn : 1 <= n <= 16) by lia.
  assert (Hl : zlen (p ++ replicate (Z.to_nat n) n) = zlen p + n) by (rewrite zlen_app, zlen_replicate; lia).
  unfold pkcs7_unpad. rewrite Hl, (proj2 (Z.eqb_neq _ 0)) by lia.
  assert (Eg : arr_get ((p ++ replicate (Z.to_nat n) n) ++ post) (zlen p + n - 1) = Some n).
  { rewrite <- app_assoc. unfold arr_get. rewrite (proj2 (Z.leb_le 0 _)) by lia. unfold zlen.
    rewrite lookup_app_r by lia. rewrite lookup_app_l by (rewrite length_replicate; lia).
    apply lookup_replicate. lia. }
  rewrite Eg. cbn [mbind option_bind]. rewrite (proj2 (Z.ltb_ge _ _)) by lia.
  rewrite <- app_assoc, unpad_loop_spec by lia. cbn [mbind option_bind]. f_equal. lia.
Qed.

(** Any buffer can be unpadded: a wrong padding is left in place. *)
Lemma pkcs7_unpad_total b len :
  0 <= len <= zlen b -> bytes_ok b -> exists n, pkcs7_unpad (Some b) len = Some n /\ 0 <= n <= len.
Proof.
  intros Hl Hb. unfold pkcs7_unpad. destruct (Z.eqb_spec len 0) as [->|Hne]; [by exists 0|].
  destruct (arr_get_Some b (len - 1)) as [c Ec]; [lia|]. rewrite Ec. cbn [mbind option_bind].
  assert (Hc : is_byte c) by (apply arr_get_inv in Ec as [_ Ec]; by eapply Forall_lookup_1 in Ec). unfold is_byte in Hc.
  destruct (Z.ltb_spec len c); [exists len; split; [done|lia]|].
  assert (Hloop : forall n i, 0 <= i -> i + Z.of_nat n <= len -> is_Some (unpad_loop n b len i c)).
  { induction n as [|n IH]; intros i Hi Hn; cbn [unpad_loop]; [done|].
    destruct (arr_get_Some b (len - 1 - i)) as [d ->]; [lia|]. cbn [mbind option_bind].
    destruct (negb _); [done|]. apply IH; lia. }
  destruct (Hloop (Z.to_nat c) 0) as [ok ->]; [lia..|]. cbn [mbind option_bind].
  destruct ok; eexists; (split; [reflexivity|lia]).
Qed.

(** ** A working crypto library *)

Class PsaWorks (W : Type) `{Psa W} := {
  aes : list Z -> list Z -> list Z;
  aes_inv : list Z -> list Z -> list Z;
  aes_len k b : zlen b = 16 -> zlen (aes k b) = 16;
  aes_inv_aes k b : zlen b = 16 -> aes_inv k (aes k b) = b;
  aes_inv_len k b : zlen b = 16 -> zlen (aes_inv k b) = 16;
  pw_import w k : zlen k = 16 -> exists w', psa_import_key w k = (w', PSA_SUCCESS);
  pw_malloc w n : exists w', k_malloc w n = (w', true);
  pw_encrypt w k b : zlen k = 16 -> zlen b = 16 ->
    exists w', psa_cipher_encrypt w k b = (w', (PSA_SUCCESS, aes k b));
  pw_decrypt w k b : zlen k = 16 -> zlen b = 16 ->
    exists w', psa_cipher_decrypt w k b = (w', (PSA_SUCCESS, aes_inv k b))
}.

(** A property of the world that the library does not touch. *)
Record psa_keeps {W} `{Psa W} (P : W -> Prop) : Prop := {
  pk_import w k : P w -> P (fst (psa_import_key w k));
  pk_malloc w n : P w -> P (fst (k_malloc w n));
  pk_encrypt w k b : P w -> P (fst (psa_cipher_encrypt w k b));
  pk_decrypt w k b : P w -> P (fst (psa_cipher_decrypt w k b))
}.

(** A block function applied to [n] blocks. *)
Fixpoint blockwise (f : list Z -> list Z) (n : nat) (l : list Z) : list Z :=
  match n with
  | O => []
  | S n => f (take 16 l) ++ blockwise f n (drop 16 l)
  end.

Definition blocks (l : list Z) : nat := Z.to_nat (zlen l / 16).

Lemma blocks_up l : zlen l mod 16 = 0 -> Z.to_nat ((zlen l + 15) / 16) = blocks l.
Proof. intros H. unfold blocks. f_equal. Z.div_mod_to_equations. lia. Qed.

Lemma blocks_len l : zlen l mod 16 = 0 -> (16 * blocks l = length l)%nat.
Proof. unfold blocks, zlen. intros H. Z.div_mod_to_equations. lia. Qed.

Lemma blocks_len_Z l : zlen l mod 16 = 0 -> 16 * Z.of_nat (blocks l) = zlen l.
Proof. intros H. pose proof (blocks_len l H). unfold zlen. lia. Qed.

Section working.
Context {S W : Type} `{!Psa W} `{!PsaWorks W} (P : W -> Prop) (HP : psa_keeps P).
Implicit Types (y : S) (w : W).

Lemma blockwise_len f n l :
  (forall b, zlen b = 16 -> zlen (f b) = 16) -> 16 * Z.of_nat n <= zlen l -> zlen (blockwise f n l) = 16 * Z.of_nat n.
Proof.
  intros Hf. revert l. induction n as [|n IH]; intros l Hl; cbn [blockwise]; [done|].
  rewrite zlen_app, Hf, IH; rewrite ?zlen_take, ?zlen_drop; lia.
Qed.

Lemma blockwise_inv f g n l :
  (forall b, zlen b = 16 -> zlen (f b) = 16) -> (forall b, zlen b = 16 -> g (f b) = b) ->
  zlen l = 16 * Z.of_nat n -> blockwise g n (blockwise f n l) = l.
Proof.
  intros Hf Hg. revert l. induction n as [|n IH]; intros l Hl; cbn [blockwise].
  - destruct l; [done|]. rewrite zlen_cons in Hl. pose proof (zlen_nonneg l). lia.
  - assert (Hb : zlen (f (take 16 l)) = 16) by (apply Hf; rewrite zlen_take; lia).
    assert (Hb' : length (f (take 16 l)) = 16%nat) by (unfold zlen in Hb; lia).
    rewrite (take_app_length' _ _ 16), (drop_app_length' _ _ 16), Hg by (done || (rewrite zlen_take; lia)).
    rewrite IH by (rewrite zlen_drop; lia). apply take_drop.
Qed.

Lemma blockwise_take f n l k : (16 * n <= k)%nat -> blockwise f n (take k l) = blockwise f n l.
Proof.
  revert l k. induction n as [|n IH]; intros l k Hk; cbn [blockwise]; [done|].
  rewrite take_take, Nat.min_l by lia. f_equal.
  rewrite <- (IH (drop 16 l) (k - 16)%nat), take_drop_commute by lia. do 3 f_equal. lia.
Qed.

Lemma blockwise_split f n m l : blockwise f (n + m) l = blockwise f n l ++ blockwise f m (drop (16 * n) l).
Proof.
  revert l. induction n as [|n IH]; intros l; cbn [blockwise plus]; [by rewrite drop_0|].
  rewrite IH, <- app_assoc, drop_drop. do 4 f_equal. lia.
Qed.

(** The blocks of a text of whole blocks come out in front of the padding block. *)
Lemma blockwise_pkcs7 f p :
  zlen p mod 16 = 0 -> exists last,
    blockwise f (blocks (pkcs7 p)) (pkcs7 p) = blockwise f (blocks p) p ++ last.
Proof.
  intros Hm. pose proof (blocks_len p Hm) as Hb.
  assert (Hbl : blocks (pkcs7 p) = (blocks p + 1)%nat).
  { unfold blocks. rewrite pkcs7_len, Z.div_mul by lia. pose proof (zlen_nonneg p).
    pose proof (Z.div_pos (zlen p) 16 ltac:(lia) ltac:(lia)). lia. }
  rewrite Hbl, blockwise_split. eexists. f_equal.
  rewrite <- (blockwise_take f (blocks p) (pkcs7 p) (length p)) by lia.
  unfold pkcs7. by rewrite take_app_length.
Qed.

(** A cipher call that works and leaves [P] alone. *)
Definition cipher_works (cipher : W -> list Z -> W * (Z * list Z)) (f : list Z -> list Z) : Prop :=
  forall w b, zlen b = 16 -> P w -> zlen (f b) = 16 /\
    exists w', cipher w b = (w', (PSA_SUCCESS, f b)) /\ P w'.

Lemma encrypt_works key : zlen key = 16 -> cipher_works (fun w => psa_cipher_encrypt w key) (aes key).
Proof.
  intros Hk w b Hb HPw. split; [by apply aes_len|]. destruct (pw_encrypt w key b Hk Hb) as [w' E].
  exists w'. split; [done|]. pose proof (pk_encrypt _ HP w key b HPw) as HH. by rewrite E in HH.
Qed.

Lemma decrypt_works key : zlen key = 16 -> cipher_works (fun w => psa_cipher_decrypt w key) (aes_inv key).
Proof.
  intros Hk w b Hb HPw. split; [by apply aes_inv_len|]. destruct (pw_decrypt w key b Hk Hb) as [w' E].
  exists w'. split; [done|]. pose proof (pk_decrypt _ HP w key b HPw) as HH. by rewrite E in HH.
Qed.

(** The blocks already written, the ones to come, the rest of the buffer. *)
Lemma block_loop_works cipher f n : cipher_works cipher f -> forall input out i y w,
  0 <= i -> i + 16 * Z.of_nat n <= zlen input -> i + 16 * Z.of_nat n <= zlen out -> P w ->
  exists w', block_loop cipher n input out i y w
    = Done ((PSA_SUCCESS, take (Z.to_nat i) out ++ blockwise f n (drop (Z.to_nat i) input)
                          ++ drop (Z.to_nat i + 16 * n) out), y, w') /\ P w'.
Proof.
  intros Hci. induction n as [|n IH]; intros input out i y w Hi Hin Hout HPw; cbn [block_loop].
  - exists w. split; [|done]. unfold ret. cbn [blockwise app].
    by rewrite Nat.mul_0_r, Nat.add_0_r, take_drop.
  - assert (Es : arr_slice input i 16 = Some (take 16 (drop (Z.to_nat i) input))) by (apply arr_slice_Some; lia).
    set (blk := take 16 (drop (Z.to_nat i) input)) in *.
    assert (Hb : zlen blk = 16) by (unfold blk; rewrite zlen_take, zlen_drop; lia).
    destruct (Hci w blk Hb HPw) as (Ho & w1 & E1 & HP1).
    unfold bind at 1, checked at 1. rewrite Es. unfold bind at 1, world at 1. rewrite E1.
    assert (Eb : arr_blit out i (f blk) = Some (take (Z.to_nat i) out ++ f blk ++ drop (Z.to_nat i + 16) out)).
    { rewrite arr_blit_Some by lia. do 3 f_equal. unfold zlen in Ho. f_equal. lia. }
    unfold bind at 1, checked at 1. rewrite Eb, Ho. cbn [negb orb Z.eqb PSA_SUCCESS Pos.eqb].
    set (out1 := take _ out ++ _).
    assert (Hc1 : zlen out1 = zlen out) by (unfold out1; rewrite !zlen_app, zlen_take, zlen_drop; lia).
    destruct (IH input out1 (i + 16) y w1) as (w' & E & HP'); [lia..|done|].
    exists w'. split; [|done]. rewrite E. f_equal. f_equal. f_equal. f_equal.
    assert (Hti : Z.to_nat (i + 16) = (Z.to_nat i + 16)%nat) by lia.
    assert (Hlt : length (take (Z.to_nat i) out) = Z.to_nat i) by (rewrite length_take; unfold zlen in *; lia).
    assert (Hla : length (f blk) = 16%nat) by (unfold zlen in Ho; lia).
    assert (Ht1 : take (Z.to_nat (i + 16)) out1 = take (Z.to_nat i) out ++ f blk).
    { unfold out1. rewrite app_assoc, take_app_le by (rewrite length_app; lia).
      apply take_ge. rewrite length_app. lia. }
    assert (Hd1 : drop (Z.to_nat (i + 16) + 16 * n) out1 = drop (Z.to_nat i + 16 * Datatypes.S n) out).
    { unfold out1. rewrite app_assoc, drop_app_ge by (rewrite length_app; lia).
      rewrite drop_drop, length_app. f_equal. lia. }
    rewrite Ht1, Hd1, Hti. cbn [blockwise]. rewrite drop_drop, <- !app_assoc. fold blk. do 4 f_equal.
Qed.

Lemma aes_encrypt_works key p pt_len ct ct_len y w :
  zlen key = 16 -> 0 < pt_len <= zlen p -> pt_len < 2147483648 ->
  let padded := pkcs7 (take (Z.to_nat pt_len) p) in
  zlen padded <= ct_len <= zlen ct -> P w ->
  exists w', aes_ecb_encrypt (Some key) (Some p) pt_len (Some ct) ct_len y w
    = Done ((PSA_SUCCESS, Some (blockwise (aes key) (blocks padded) padded ++ drop (length padded) ct)), y, w') /\
    P w'.
Proof.
  intros Hk Hp Hmax padded Hct HPw. unfold aes_ecb_encrypt.
  destruct (pw_import w key Hk) as [w1 E1]. pose proof (pk_import _ HP w key HPw) as HP1. rewrite E1 in HP1.
  destruct (pw_malloc w1 (u32 (pt_len + 16))) as [w2 E2]. pose proof (pk_malloc _ HP w1 (u32 (pt_len + 16)) HP1) as HP2.
  rewrite E2 in HP2. cbn [fst] in *.
  unfold bind at 1, world at 1. rewrite E1. cbn [negb Z.eqb PSA_SUCCESS].
  unfold bind at 1, world at 1. rewrite E2. cbn [negb].
  assert (Es : arr_slice p 0 pt_len = Some (take (Z.to_nat pt_len) p)) by (apply arr_slice_Some; lia).
  unfold bind at 1, checked at 1. rewrite Es. set (q := take (Z.to_nat pt_len) p) in *.
  assert (Hq : zlen q = pt_len) by (unfold q; rewrite zlen_take; lia).
  destruct (pkcs7_pad_spec q (replicate 16 0)) as (b & Eb & Ht & Hb); [lia|done|]. fold padded in Eb, Ht.
  rewrite Hq in Eb. unfold bind at 1, checked at 1. rewrite Eb.
  pose proof (pkcs7_len q) as Hl. fold padded in Hl. pose proof (Z.div_pos (zlen q) 16 ltac:(lia) ltac:(lia)).
  rewrite (proj2 (Z.ltb_ge ct_len _)), (proj2 (Z.eqb_neq (zlen padded) 0)) by lia. cbn [orb default].
  assert (Hm : zlen padded mod 16 = 0) by (rewrite Hl; apply Z.mod_mul; lia).
  rewrite blocks_up by done. pose proof (blocks_len padded Hm) as Hbl.
  assert (Hlb : (length padded <= length b)%nat) by (rewrite <- Ht, length_take; lia).
  destruct (block_loop_works (fun w => psa_cipher_encrypt w key) (aes key) (blocks padded) (encrypt_works key Hk)
              b ct 0 y w2) as (w3 & E3 & HP3); [lia|unfold zlen; lia|unfold zlen in *; lia|done|].
  exists w3. split; [|done]. erewrite bind_done by exact E3. unfold ret. cbn [fst snd].
  change (Z.to_nat 0) with 0%nat. rewrite take_0, drop_0, Nat.add_0_l, Hbl. cbn [app]. do 6 f_equal.
  transitivity (blockwise (aes key) (blocks padded) (take (length padded) b)); [|by rewrite Ht].
  symmetry. apply blockwise_take. lia.
Qed.

Lemma aes_decrypt_works key ct pt pt_len y w :
  zlen key = 16 -> 0 < zlen ct -> zlen ct mod 16 = 0 -> zlen ct <= pt_len <= zlen pt -> P w ->
  forall rest, exists w', aes_ecb_decrypt (Some key) (Some (ct ++ rest)) (zlen ct) (Some pt) pt_len y w
    = Done ((PSA_SUCCESS, Some (blockwise (aes_inv key) (blocks ct) ct ++ drop (length ct) pt)), y, w') /\ P w'.
Proof.
  intros Hk Hc Hm Hpt HPw rest. unfold aes_ecb_decrypt.
  destruct (pw_import w key Hk) as [w1 E1]. pose proof (pk_import _ HP w key HPw) as HP1. rewrite E1 in HP1.
  unfold bind at 1, world at 1. rewrite E1. cbn [negb Z.eqb PSA_SUCCESS].
  rewrite (proj2 (Z.eqb_neq (zlen ct) 0)), Hm, (proj2 (Z.ltb_ge pt_len _)) by lia. cbn [negb orb Z.eqb].
  rewrite blocks_up by done. pose proof (blocks_len ct Hm) as Hbl.
  destruct (block_loop_works (fun w => psa_cipher_decrypt w key) (aes_inv key) (blocks ct) (decrypt_works key Hk)
              (ct ++ rest) pt 0 y w1) as (w3 & E3 & HP3); [lia|rewrite zlen_app; unfold zlen; lia|unfold zlen in *; lia|done|].
  exists w3. split; [|done]. erewrite bind_done by exact E3. unfold ret. cbn [fst snd].
  change (Z.to_nat 0) with 0%nat. rewrite take_0, drop_0, Nat.add_0_l, Hbl. cbn [app]. do 6 f_equal.
  transitivity (blockwise (aes_inv key) (blocks ct) (take (length ct) (ct ++ rest))); [|by rewrite take_app_length].
  symmetry. apply blockwise_take. lia.
Qed.

(** What is encrypted is decrypted again.  With a working crypto library a
    text of any length comes back from [aes_ecb_encrypt] and [aes_ecb_decrypt]
    at the start of the output buffer, followed by its padding, and
    [pkcs7_unpad] finds its length. *)
Theorem aes_ecb_roundtrip key p ct pt y w :
  zlen key = 16 -> 0 < zlen p < 2147483000 -> zlen p + 16 <= zlen ct -> zlen p + 16 <= zlen pt -> P w ->
  exists ct' n w1 pt' w2,
    aes_ecb_encrypt (Some key) (Some p) (zlen p) (Some ct) (zlen ct) y w = Done ((PSA_SUCCESS, Some ct'), y, w1) /\
    n mod 16 = 0 /\ zlen p < n <= zlen p + 16 /\
    aes_ecb_decrypt (Some key) (Some ct') n (Some pt) (zlen pt) y w1 = Done ((PSA_SUCCESS, Some pt'), y, w2) /\
    arr_slice pt' 0 (zlen p) = Some p /\ pkcs7_unpad (Some pt') n = Some (zlen p) /\ P w2.
Proof.
  intros Hk Hp Hct Hpt HPw. pose proof (pkcs7_len p) as Hl. pose proof (Z.div_mod (zlen p) 16 ltac:(lia)) as Hdm.
  pose proof (Z.mod_pos_bound (zlen p) 16 ltac:(lia)). pose proof (Z.div_pos (zlen p) 16 ltac:(lia) ltac:(lia)).
  assert (Hm : zlen (pkcs7 p) mod 16 = 0) by (rewrite Hl; apply Z.mod_mul; lia).
  pose proof (blocks_len (pkcs7 p) Hm) as Hbl.
  destruct (aes_encrypt_works key p (zlen p) ct (zlen ct) y w) as (w1 & E1 & HP1); [done|lia|lia| |done|];
    rewrite ?(take_ge p) in * by (unfold zlen; lia); [lia|].
  set (c := blockwise (aes key) (blocks (pkcs7 p)) (pkcs7 p)) in *.
  assert (Hc : zlen c = zlen (pkcs7 p)) by (unfold c; rewrite blockwise_len; [unfold zlen; lia|apply aes_len|unfold zlen; lia]).
  destruct (aes_decrypt_works key c pt (zlen pt) y w1) with (rest := drop (length (pkcs7 p)) ct) as (w2 & E2 & HP2);
    [done|lia|by rewrite Hc|lia|done|].
  eexists _, (zlen c), w1, _, w2. split; [exact E1|]. split; [by rewrite Hc|]. split; [lia|]. split; [exact E2|].
  assert (Hinv : blockwise (aes_inv key) (blocks c) c = pkcs7 p).
  { replace (blocks c) with (blocks (pkcs7 p)) by (unfold blocks; by rewrite Hc).
    apply blockwise_inv; [apply aes_len|apply aes_inv_aes|unfold zlen; lia]. }
  rewrite Hinv, Hc. split; [|split; [apply pkcs7_unpad_spec|done]].
  unfold pkcs7. rewrite <- app_assoc. apply (arr_slice_app []); done.
Qed.
End working.
