(* ===== verification/BleApp.v ===== *)
(** * The BLE application protocol ([src/my_ble_app.c])

    Packets with a head, a type and AES-encrypted content; the key exchange;
    the transport of text replies in one packet (type FF01) or several
    (FF02) with acknowledgement, timeout and repetition; the dispatch of what
    the phone sends.  All functions but the arrival of bytes and the timer
    callback run on the BLE thread.

    The modules called from here are the class [BleClients]. *)

From S2P Require Import Prelude Prog BleLink BleCrypto.

Open Scope prog_scope.

(** What the firmware update sends over BLE: a response of its protocol or a
    text reply. *)
Inductive dfu_output := DfuResponse (cmd : Z) (data : list Z) | DfuText (text : list Z).

(** [my_generate_random] ([None]: it failed and the variable keeps its value),
    the settings, the command interpreter (its reply), the firmware update (its
    responses), the log switch. *)
Class BleClients (W : Type) := {
  my_generate_random : W -> W * option Z;
  my_param_get_Gvalue : W -> Z;
  my_param_get_sn : W -> option (list Z);
  ble_log_set_ready : W -> bool -> W;
  at_recv_cmd_handler : W -> list Z -> Z -> W * list Z;
  jimi_dfu_cmd_handler : W -> Z -> list Z -> Z -> option (W * list dfu_output)
}.

Definition RESP_STRING_LENGTH_MAX : Z := 1024.
Definition CMD_STRING_LENGTH_MAX : Z := 128.
Definition GSM_SN_LENGTH : Z := 12.
Definition BLE_PACKET_TRANS_MAX_RETRY : Z := 3.
Definition BLE_PACKET_PROTO_SINGLE : Z := 0x01.
Definition BLE_PACKET_PROTO_MULTIPLE : Z := 0x02.
Definition BLE_DATA_PACKET_HEAD : Z := 0x4254.
Definition BLE_DATA_TYPE_PKEY : Z := 0x1101.
Definition BLE_DATA_TYPE_CID : Z := 0x2202.
Definition BLE_DATA_TYPE_CMD : Z := 0x5505.
Definition BLE_DATA_TYPE_FILE_TRANS : Z := 0x4605.
Definition BLE_DATA_TYPE_AT_CMD : Z := 0x5808.
Definition BLE_DATA_TYPE_PACKET_SINGLE : Z := 0xFF01.
Definition BLE_DATA_TYPE_PACKET_MULTIPLE : Z := 0xFF02.
Definition BLE_DATA_TYPE_BT_LOG : Z := 0x5901.
Definition BLE_PACKET_TRANS_MODULE_ID : Z := 0x08.
Definition BLE_PACKET_TRANS_SEQ_LAST : Z := 0xFF.
Definition BLE_COMU_DEV_CODE : Z := 0xB3.
Definition BLE_COMU_APP_CODE : Z := 0xC2.
Definition BLE_COMU_CMD_START : Z := 0x89.
Definition BLE_PKEY_RX_CMD : Z := 0x8900C200.
Definition BLE_PKEY_RSP_DATA1 : Z := 0x00.
Definition BLE_PKEY_RSP_DATA3 : Z := 0x00.
Definition BLE_RSP_CMD_CID : Z := 0x01.
Definition BLE_RSP_PARAM_SUCCESS : Z := 0x00.
Definition BLE_RSP_PARAM_FAIL : Z := 0x01.
Definition BLE_SVC_RX_MAX_LEN : Z := CONFIG_BT_L2CAP_TX_MTU - 3.
Definition BLE_RESP_LENGTH_MAX : Z := BLE_SVC_RX_MAX_LEN.
Definition BLE_FRAME_HEAD_LEN : Z := 2.
Definition BLE_CMD_HEAD_LEN : Z := 2.
Definition BLE_CMD_DATA_LEN_UNIT : Z := 16.
Definition BLE_GATT_FRAME_LEN_MIN : Z := BLE_FRAME_HEAD_LEN + BLE_CMD_HEAD_LEN + BLE_CMD_DATA_LEN_UNIT.
Definition BLE_MTU_DATA_LEN : Z := 512 + 16.

Definition VARINT_IS_2BYTE (v : Z) : bool := 127 <? v.
Definition VARINT_HIGH_BYTE (v : Z) : Z := Z.land (Z.shiftr v 7) 0x7F.
Definition VARINT_LOW_BYTE (v : Z) : Z := Z.lor (Z.land v 0x7F) 0x80.

(** A length field as the senders write it. *)
Definition varint (v : Z) : list Z :=
  if VARINT_IS_2BYTE v then [VARINT_LOW_BYTE v; VARINT_HIGH_BYTE v] else [u8 v].

(** ** State *)

Record packet_trans_t := mk_trans {
  trans_data : list Z;
  total_len : Z;
  sent_offset : Z;
  last_offset : Z;
  last_len : Z;
  next_seq : Z;
  retry_cnt : Z;
  last_seq : Z;
  last_proto_type : Z;
  waiting_ack : bool;
  is_busy : bool
}.

Record packet_trans_wait_t := mk_wait { wait_data : list Z; wait_len : Z; pending : bool }.

(** [rsp_timer]: the reply timer runs. *)
Record ble_app := mk_app {
  s_packet_trans_data : packet_trans_t;
  s_packet_trans_wait : packet_trans_wait_t;
  rsp_timer : bool;
  s_rx_ble_buf : list Z;
  s_rx_ble_buf_index : Z;
  s_prva_a : Z;
  s_aes_base_key : list Z;
  s_ble_decrypt_buffer : list Z;
  s_ble_tx_buf : list Z;
  s_ble_encrypt_buf : list Z;
  s_ble_rsp_buf : list Z;
  ble_link : link
}.

Definition set_trans (t : packet_trans_t) (y : ble_app) : ble_app :=
  mk_app t (s_packet_trans_wait y) (rsp_timer y) (s_rx_ble_buf y) (s_rx_ble_buf_index y) (s_prva_a y)
    (s_aes_base_key y) (s_ble_decrypt_buffer y) (s_ble_tx_buf y) (s_ble_encrypt_buf y) (s_ble_rsp_buf y) (ble_link y).
Definition set_wait (t : packet_trans_wait_t) (y : ble_app) : ble_app :=
  mk_app (s_packet_trans_data y) t (rsp_timer y) (s_rx_ble_buf y) (s_rx_ble_buf_index y) (s_prva_a y)
    (s_aes_base_key y) (s_ble_decrypt_buffer y) (s_ble_tx_buf y) (s_ble_encrypt_buf y) (s_ble_rsp_buf y) (ble_link y).
Definition set_timer (b : bool) (y : ble_app) : ble_app :=
  mk_app (s_packet_trans_data y) (s_packet_trans_wait y) b (s_rx_ble_buf y) (s_rx_ble_buf_index y) (s_prva_a y)
    (s_aes_base_key y) (s_ble_decrypt_buffer y) (s_ble_tx_buf y) (s_ble_encrypt_buf y) (s_ble_rsp_buf y) (ble_link y).
Definition set_rx (b : list Z) (i : Z) (y : ble_app) : ble_app :=
  mk_app (s_packet_trans_data y) (s_packet_trans_wait y) (rsp_timer y) b i (s_prva_a y)
    (s_aes_base_key y) (s_ble_decrypt_buffer y) (s_ble_tx_buf y) (s_ble_encrypt_buf y) (s_ble_rsp_buf y) (ble_link y).
Definition set_key (a : Z) (k : list Z) (y : ble_app) : ble_app :=
  mk_app (s_packet_trans_data y) (s_packet_trans_wait y) (rsp_timer y) (s_rx_ble_buf y) (s_rx_ble_buf_index y) a
    k (s_ble_decrypt_buffer y) (s_ble_tx_buf y) (s_ble_encrypt_buf y) (s_ble_rsp_buf y) (ble_link y).
Definition set_decrypt (b : list Z) (y : ble_app) : ble_app :=
  mk_app (s_packet_trans_data y) (s_packet_trans_wait y) (rsp_timer y) (s_rx_ble_buf y) (s_rx_ble_buf_index y) (s_prva_a y)
    (s_aes_base_key y) b (s_ble_tx_buf y) (s_ble_encrypt_buf y) (s_ble_rsp_buf y) (ble_link y).
Definition set_tx (b : list Z) (y : ble_app) : ble_app :=
  mk_app (s_packet_trans_data y) (s_packet_trans_wait y) (rsp_timer y) (s_rx_ble_buf y) (s_rx_ble_buf_index y) (s_prva_a y)
    (s_aes_base_key y) (s_ble_decrypt_buffer y) b (s_ble_encrypt_buf y) (s_ble_rsp_buf y) (ble_link y).
Definition set_encrypt (b : list Z) (y : ble_app) : ble_app :=
  mk_app (s_packet_trans_data y) (s_packet_trans_wait y) (rsp_timer y) (s_rx_ble_buf y) (s_rx_ble_buf_index y) (s_prva_a y)
    (s_aes_base_key y) (s_ble_decrypt_buffer y) (s_ble_tx_buf y) b (s_ble_rsp_buf y) (ble_link y).
Definition set_rsp (b : list Z) (y : ble_app) : ble_app :=
  mk_app (s_packet_trans_data y) (s_packet_trans_wait y) (rsp_timer y) (s_rx_ble_buf y) (s_rx_ble_buf_index y) (s_prva_a y)
    (s_aes_base_key y) (s_ble_decrypt_buffer y) (s_ble_tx_buf y) (s_ble_encrypt_buf y) b (ble_link y).
Definition set_link (l : link) (y : ble_app) : ble_app :=
  mk_app (s_packet_trans_data y) (s_packet_trans_wait y) (rsp_timer y) (s_rx_ble_buf y) (s_rx_ble_buf_index y) (s_prva_a y)
    (s_aes_base_key y) (s_ble_decrypt_buffer y) (s_ble_tx_buf y) (s_ble_encrypt_buf y) (s_ble_rsp_buf y) l.

(** [memset (&s_packet_trans_data, 0, ...)] and the same of the waiting request. *)
Definition zero_trans : packet_trans_t := mk_trans (replicate (Z.to_nat RESP_STRING_LENGTH_MAX) 0) 0 0 0 0 0 0 0 0 false false.
Definition zero_wait : packet_trans_wait_t := mk_wait (replicate (Z.to_nat RESP_STRING_LENGTH_MAX) 0) 0 false.

Section app.
Context {W : Type} `{!Gatt W} `{!Psa W} `{!BleClients W}.
Notation M := (prog ble_app W).

(** ** Packets *)

Definition BLE_DataTransOverBle (data : list Z) (len : Z) : M unit := fun y w =>
  match ble_server_send_notification (ble_link y) w data len with
  | Some (l, w) => Done (tt, set_link l y, w)
  | None => Undef
  end.

(** Head and type of a packet. *)
Definition packet_head (type : Z) : list Z :=
  [Z.land (Z.shiftr BLE_DATA_PACKET_HEAD 8) 0xFF; Z.land BLE_DATA_PACKET_HEAD 0xFF;
   Z.land (Z.shiftr type 8) 0xFF; Z.land type 0xFF].

Definition ble_comu_send_packet (type : Z) (data : option (list Z)) (len : Z) : M unit :=
  match data with
  | None => ret tt
  | Some data =>
      if (BLE_RESP_LENGTH_MAX <? len) || negb (len mod BLE_CMD_DATA_LEN_UNIT =? 0) then ret tt
      else
        y <- get id ;;
        src <- checked (arr_slice data 0 len) ;;
        tx <- checked (arr_blit (s_ble_tx_buf y) 0 (packet_head type)) ;;
        tx <- checked (arr_blit tx 4 src) ;;
        modify (set_tx tx) ;;
        status <-
          (if (type =? BLE_DATA_TYPE_PKEY) || (type =? BLE_DATA_TYPE_BT_LOG)
           then
             e <- checked (arr_blit (s_ble_encrypt_buf y) 0 src) ;;
             modify (set_encrypt e) ;; ret 0
           else
             r <- aes_ecb_encrypt (Some (s_aes_base_key y)) (Some data) len (Some (s_ble_encrypt_buf y))
                    BLE_RESP_LENGTH_MAX ;;
             modify (set_encrypt (default [] (snd r))) ;; ret (fst r)) ;;
        if negb (status =? 0) then ret tt
        else
          y <- get id ;;
          e <- checked (arr_slice (s_ble_encrypt_buf y) 0 len) ;;
          tx <- checked (arr_blit (s_ble_tx_buf y) 4 e) ;;
          modify (set_tx tx) ;;
          BLE_DataTransOverBle tx (u16 (len + 4))
  end.

(** Four bytes, most significant first. *)
Definition be32 (data : list Z) (i : Z) : option Z :=
  a ← arr_get data i; b ← arr_get data (i + 1); c ← arr_get data (i + 2); d ← arr_get data (i + 3);
  Some (Z.lor (Z.shiftl (Z.lor (Z.shiftl (Z.lor (Z.shiftl a 8) b) 8) c) 8) d).

Definition random_value (val : Z) : M Z :=
  r <- world my_generate_random ;; ret (default val r).

(** The low bytes of [n] random values. *)
Fixpoint random_bytes (n : nat) (val : Z) : M (list Z) :=
  match n with
  | O => ret []
  | S n => val <- random_value val ;; rest <- random_bytes n val ;; ret (Z.land val 0xff :: rest)
  end.

Definition ble_comu_generate_pkey : M Z :=
  val <- random_value 0 ;;
  let a := u16 (Z.lor (u16 (Z.shiftl (Z.land val 0xff) 8)) (Z.land val 0xff)) in
  y <- get id ;;
  modify (set_key a (s_aes_base_key y)) ;;
  g <- world (fun w => (w, my_param_get_Gvalue w)) ;;
  ret (u32 (a * g)).

(** The low six bytes of the product go to the end of the key. *)
Definition mix_key (key : list Z) (temp : Z) : option (list Z) :=
  arr_blit key 10 [Z.land (Z.shiftr temp 40) 0xFF; Z.land (Z.shiftr temp 32) 0xFF;
                   Z.land (Z.shiftr temp 24) 0xFF; Z.land (Z.shiftr temp 16) 0xFF;
                   Z.land (Z.shiftr temp 8) 0xFF; Z.land temp 0xFF].

Definition ble_comu_key_data_handle (data : list Z) (len : Z) : M unit :=
  rx_pkey_cmd <- checked (be32 data 0) ;;
  if negb (rx_pkey_cmd =? BLE_PKEY_RX_CMD) then ret tt
  else
    rx_key <- checked (be32 data 4) ;;
    prva_h <- ble_comu_generate_pkey ;;
    y <- get id ;;
    k <- checked (mix_key (s_aes_base_key y) ((rx_key * s_prva_a y) mod 2 ^ 64)) ;;
    modify (set_key (s_prva_a y) k) ;;
    rnd <- random_bytes 8 0 ;;
    let out_data :=
      [BLE_COMU_CMD_START; BLE_PKEY_RSP_DATA1; BLE_COMU_DEV_CODE; BLE_PKEY_RSP_DATA3;
       Z.land (Z.shiftr prva_h 24) 0xFF; Z.land (Z.shiftr prva_h 16) 0xFF;
       Z.land (Z.shiftr prva_h 8) 0xFF; Z.land prva_h 0xFF] ++ rnd in
    ble_comu_send_packet BLE_DATA_TYPE_PKEY (Some out_data) 16.

Definition ble_comu_response_cmd (cmd param : Z) : M unit :=
  y <- get id ;;
  b <- checked (arr_fill (s_ble_rsp_buf y) 0 BLE_CMD_DATA_LEN_UNIT 0) ;;
  rnd <- random_bytes 11 0 ;;
  b <- checked (arr_blit b 0 ([BLE_COMU_CMD_START; 0x03; BLE_COMU_DEV_CODE; cmd; param] ++ rnd)) ;;
  modify (set_rsp b) ;;
  ble_comu_send_packet BLE_DATA_TYPE_CMD (Some b) BLE_CMD_DATA_LEN_UNIT.

Definition ble_comu_cid_data_handle (data : list Z) (len : Z) : M unit :=
  sn <- world (fun w => (w, my_param_get_sn w)) ;;
  match sn with
  | Some hex =>
      cid <- checked (arr_slice data 0 GSM_SN_LENGTH) ;;
      if bool_decide (cid = hex)
      then
        ble_comu_response_cmd BLE_RSP_CMD_CID BLE_RSP_PARAM_SUCCESS ;;
        world (fun w => (ble_log_set_ready w true, tt))
      else ble_comu_response_cmd BLE_RSP_CMD_CID BLE_RSP_PARAM_FAIL
  | None => ble_comu_response_cmd BLE_RSP_CMD_CID BLE_RSP_PARAM_FAIL
  end.

Definition ble_comu_response_or_expansion_cmd (type : Z) (str_data : list Z) (len : Z) : M unit :=
  y <- get id ;;
  b <- checked (arr_fill (s_ble_rsp_buf y) 0 BLE_SVC_RX_MAX_LEN 0) ;;
  src <- checked (arr_slice str_data 0 len) ;;
  b <- checked (arr_blit b 0 src) ;;
  modify (set_rsp b) ;;
  let send_len := u8 (len / 16 * 16) in
  let send_len := if negb (len mod 16 =? 0) then u8 (send_len + 16) else send_len in
  ble_comu_send_packet type (Some b) send_len.

(** ** Replies in one packet or several *)

Definition ble_packet_trans_record_last_packet (proto_type seq offset len : Z) : M unit :=
  modify (fun y =>
    let t := s_packet_trans_data y in
    set_trans (mk_trans (trans_data t) (total_len t) (sent_offset t) offset len (next_seq t) (retry_cnt t)
                 seq proto_type true (is_busy t)) y).

Definition ble_packet_trans_reset_state (b_clear_pending : bool) : M unit :=
  modify (set_timer false) ;;
  modify (set_trans zero_trans) ;;
  if b_clear_pending then modify (set_wait zero_wait) else ret tt.

(** Up to the next multiple of 16. *)
Definition align16 (n : Z) : Z :=
  if negb (n mod BLE_CMD_DATA_LEN_UNIT =? 0)
  then u16 (n + (BLE_CMD_DATA_LEN_UNIT - n mod BLE_CMD_DATA_LEN_UNIT)) else n.

(** [((BLE_SERVER_MAX_DATA_LEN - 4) / 16) * 16], computed on [int]. *)
Definition data_room (l : link) : Z :=
  Z.quot (BLE_SERVER_MAX_DATA_LEN l - 4) BLE_CMD_DATA_LEN_UNIT * BLE_CMD_DATA_LEN_UNIT.

Definition ble_single_packet_can_send (l : link) (len : Z) : bool :=
  let module_len_bytes := if VARINT_IS_2BYTE len then 2 else 1 in
  let content_len := u16 (1 + module_len_bytes + len) in
  let content_len_bytes := if VARINT_IS_2BYTE content_len then 2 else 1 in
  let payload_len := u16 (content_len_bytes + content_len) in
  let encrypt_len := u16 (payload_len / BLE_CMD_DATA_LEN_UNIT * BLE_CMD_DATA_LEN_UNIT) in
  let encrypt_len :=
    if negb (payload_len mod BLE_CMD_DATA_LEN_UNIT =? 0) then u16 (encrypt_len + BLE_CMD_DATA_LEN_UNIT)
    else encrypt_len in
  let max_encrypt_len := u16 (data_room l - 16) in
  encrypt_len <=? max_encrypt_len.

(** The payload of an FF01 packet. *)
Definition single_header (len : Z) : list Z :=
  varint (u16 (1 + (if VARINT_IS_2BYTE len then 2 else 1) + len)) ++ [BLE_PACKET_TRANS_MODULE_ID] ++ varint len.

(** The data is [s_packet_trans_data.data]. *)
Definition ble_single_packet_send (len : Z) : M unit :=
  if len =? 0 then ret tt
  else
    y <- get id ;;
    let hdr := single_header len in
    b <- checked (arr_blit (replicate (Z.to_nat BLE_MTU_DATA_LEN) 0) 0 hdr) ;;
    src <- checked (arr_slice (trans_data (s_packet_trans_data y)) 0 len) ;;
    b <- checked (arr_blit b (zlen hdr) src) ;;
    modify (set_rsp b) ;;
    ble_packet_trans_record_last_packet BLE_PACKET_PROTO_SINGLE 0 0 len ;;
    ble_comu_send_packet BLE_DATA_TYPE_PACKET_SINGLE (Some b) (align16 (u16 (zlen hdr + len))) ;;
    modify (set_timer true).

Definition multiple_header (seq total len : Z) (is_first : bool) : list Z :=
  let content_len := u16 (1 + len) in
  let content_len :=
    if is_first then u16 (content_len + 1 + (if VARINT_IS_2BYTE total then 2 else 1)) else content_len in
  varint content_len ++ [seq] ++ (if is_first then BLE_PACKET_TRANS_MODULE_ID :: varint total else []).

(** The data is [s_packet_trans_data.data + offset]. *)
Definition ble_multiple_packet_send (seq offset len : Z) (is_first : bool) : M unit :=
  if len =? 0 then ret tt
  else
    y <- get id ;;
    let t := s_packet_trans_data y in
    let hdr := multiple_header seq (total_len t) len is_first in
    b <- checked (arr_blit (replicate (Z.to_nat BLE_MTU_DATA_LEN) 0) 0 hdr) ;;
    src <- checked (arr_slice (trans_data t) offset len) ;;
    b <- checked (arr_blit b (zlen hdr) src) ;;
    modify (set_rsp b) ;;
    let encrypt_len := align16 (u16 (zlen hdr + len)) in
    if BLE_MTU_DATA_LEN <? encrypt_len then ret tt
    else
      ble_packet_trans_record_last_packet BLE_PACKET_PROTO_MULTIPLE seq (u16 offset) len ;;
      ble_comu_send_packet BLE_DATA_TYPE_PACKET_MULTIPLE (Some b) encrypt_len ;;
      modify (set_timer true).

(** [data] is the caller's buffer. *)
Definition ble_packet_trans_send (data : option (list Z)) (len : Z) : M unit :=
  match data with
  | None => ret tt
  | Some data =>
      if len =? 0 then ret tt
      else
        let len := if RESP_STRING_LENGTH_MAX <? len then RESP_STRING_LENGTH_MAX else len in
        y <- get id ;;
        src <- checked (arr_slice data 0 len) ;;
        if is_busy (s_packet_trans_data y)
        then
          b <- checked (arr_blit (wait_data (s_packet_trans_wait y)) 0 src) ;;
          modify (set_wait (mk_wait b len true))
        else
          b <- checked (arr_blit (trans_data zero_trans) 0 src) ;;
          modify (set_trans (mk_trans b len 0 0 0 0 0 0 0 false true)) ;;
          if ble_single_packet_can_send (ble_link y) len then ble_single_packet_send len
          else
            let max_encrypt_len := u16 (data_room (ble_link y)) in
            let module_len_bytes := if VARINT_IS_2BYTE len then 2 else 1 in
            let content_len := u16 (1 + 1 + module_len_bytes + len) in
            let len_field_bytes := if VARINT_IS_2BYTE content_len then 2 else 1 in
            let header_len := len_field_bytes + 1 + 1 + module_len_bytes in
            let first_pkt_max := u16 (max_encrypt_len - header_len - 16) in
            let pkt_len := if first_pkt_max <? len then first_pkt_max else len in
            modify (set_trans (mk_trans b len 0 0 0 1 0 0 0 false true)) ;;
            ble_multiple_packet_send 0 0 pkt_len true ;;
            modify (fun y =>
              let t := s_packet_trans_data y in
              set_trans (mk_trans (trans_data t) (total_len t) pkt_len (last_offset t) (last_len t) (next_seq t)
                           (retry_cnt t) (last_seq t) (last_proto_type t) (waiting_ack t) (is_busy t)) y)
  end.

Definition ble_packet_trans_try_start_pending : M unit :=
  y <- get id ;;
  let p := s_packet_trans_wait y in
  if pending p
  then
    modify (set_wait (mk_wait (wait_data p) (wait_len p) false)) ;;
    ble_packet_trans_send (Some (wait_data p)) (wait_len p)
  else ret tt.

Definition ble_packet_trans_complete_current : M unit :=
  ble_packet_trans_reset_state false ;; ble_packet_trans_try_start_pending.

Definition ble_packet_trans_abort_current : M unit :=
  ble_packet_trans_reset_state false ;; ble_packet_trans_try_start_pending.

(** The acknowledged packet: timer stopped, [waiting_ack] and the count reset. *)
Definition ack_accepted : M unit :=
  modify (set_timer false) ;;
  modify (fun y =>
    let t := s_packet_trans_data y in
    set_trans (mk_trans (trans_data t) (total_len t) (sent_offset t) (last_offset t) (last_len t) (next_seq t)
                 0 (last_seq t) (last_proto_type t) false (is_busy t)) y).

Definition ble_multiple_packet_continue (ack_seq : Z) : M unit :=
  y <- get id ;;
  let t := s_packet_trans_data y in
  if negb (is_busy t) || negb (waiting_ack t) then ret tt
  else if negb (ack_seq =? last_seq t) then ret tt
  else
    ack_accepted ;;
    let remaining := u16 (total_len t - sent_offset t) in
    if remaining =? 0 then ble_packet_trans_complete_current
    else
      let max_encrypt_len := u16 (data_room (ble_link y)) in
      let header_len := (if VARINT_IS_2BYTE (1 + remaining) then 2 else 1) + 1 in
      let pkt_len := u16 (max_encrypt_len - header_len - 16) in
      let pkt_len := if remaining <? pkt_len then remaining else pkt_len in
      let last := total_len t <=? sent_offset t + pkt_len in
      let seq_to_send := if last then BLE_PACKET_TRANS_SEQ_LAST else next_seq t in
      modify (fun y =>
        let t := s_packet_trans_data y in
        set_trans (mk_trans (trans_data t) (total_len t) (sent_offset t) (last_offset t) (last_len t)
                     (if last then 0 else u8 (next_seq t + 1)) (retry_cnt t) (last_seq t) (last_proto_type t)
                     (waiting_ack t) (is_busy t)) y) ;;
      ble_multiple_packet_send seq_to_send (sent_offset t) pkt_len false ;;
      modify (fun y =>
        let t := s_packet_trans_data y in
        set_trans (mk_trans (trans_data t) (total_len t) (u16 (sent_offset t + pkt_len)) (last_offset t) (last_len t)
                     (next_seq t) (retry_cnt t) (last_seq t) (last_proto_type t) (waiting_ack t) (is_busy t)) y).

Definition ble_single_packet_rsp_handle (len : Z) : M unit :=
  if len <? 1 then ret tt
  else
    t <- get s_packet_trans_data ;;
    if negb (is_busy t) || negb (waiting_ack t) || negb (last_proto_type t =? BLE_PACKET_PROTO_SINGLE) then ret tt
    else ack_accepted ;; ble_packet_trans_complete_current.

Definition ble_multiple_packet_ack_handle (data : list Z) (len : Z) : M unit :=
  if len <? 2 then ret tt
  else
    t <- get s_packet_trans_data ;;
    if negb (is_busy t) || negb (waiting_ack t) || negb (last_proto_type t =? BLE_PACKET_PROTO_MULTIPLE) then ret tt
    else
      d0 <- checked (arr_get data 0) ;;
      let two := negb (Z.land d0 0x80 =? 0) in
      if two && (len <? 3) then ret tt
      else
        d1 <- (if two then checked (arr_get data 1) else ret 0) ;;
        let ack_len := if two then u16 (Z.lor (Z.land d0 0x7F) (Z.shiftl d1 7)) else d0 in
        let seq_pos := if two then 2 else 1 in
        if len <? u16 (seq_pos + ack_len) then ret tt
        else
          ack_seq <- checked (arr_get data seq_pos) ;;
          ble_multiple_packet_continue ack_seq.

Definition ble_packet_trans_timeout_handler : M unit :=
  y <- get id ;;
  let t := s_packet_trans_data y in
  if negb (is_busy t) || negb (waiting_ack t) then ret tt
  else if negb (ble_is_data_channel_ready (ble_link y)) then ble_packet_trans_abort_current
  else if BLE_PACKET_TRANS_MAX_RETRY <=? retry_cnt t then ble_packet_trans_abort_current
  else
    modify (set_trans (mk_trans (trans_data t) (total_len t) (sent_offset t) (last_offset t) (last_len t) (next_seq t)
                         (u8 (retry_cnt t + 1)) (last_seq t) (last_proto_type t) (waiting_ack t) (is_busy t))) ;;
    if last_proto_type t =? BLE_PACKET_PROTO_SINGLE then ble_single_packet_send (total_len t)
    else if last_proto_type t =? BLE_PACKET_PROTO_MULTIPLE
    then ble_multiple_packet_send (last_seq t) (last_offset t) (last_len t) (last_offset t =? 0)
    else ret tt.

Definition ble_packet_trans_init : M unit := ble_packet_trans_reset_state true.

Definition ble_packet_trans_disconnect_cleanup : M unit := ble_packet_trans_reset_state true.

(** ** What the phone sends *)

(** The command text is copied into [rcv_msg] of a fresh [at_cmd_t]. *)
Definition ble_comu_at_cmd_handle (data : list Z) (len : Z) : M unit :=
  src <- checked (arr_slice data 0 len) ;;
  rcv_msg <- checked (arr_blit (replicate (Z.to_nat CMD_STRING_LENGTH_MAX) 0) 0 src) ;;
  resp <- world (fun w => at_recv_cmd_handler w rcv_msg len) ;;
  if 0 <? zlen resp then ble_packet_trans_send (Some resp) (zlen resp) else ret tt.

(** The switch over the type, with the decrypted content. *)
Definition app_dispatch (type : Z) (b : list Z) (len : Z) : M unit :=
  if type =? BLE_DATA_TYPE_CID then ble_comu_cid_data_handle b len
  else if type =? BLE_DATA_TYPE_AT_CMD then ble_comu_at_cmd_handle b len
  else if type =? BLE_DATA_TYPE_PACKET_SINGLE then ble_single_packet_rsp_handle len
  else if type =? BLE_DATA_TYPE_PACKET_MULTIPLE then ble_multiple_packet_ack_handle b len
  else ret tt.

Definition ble_comu_app_handle (type : Z) (data : list Z) (len : Z) : M unit :=
  if type =? BLE_DATA_TYPE_PKEY then ble_comu_key_data_handle data len
  else if negb (len mod 16 =? 0) || (BLE_SVC_RX_MAX_LEN - 4 <? len) then ret tt
  else
    key <- get s_aes_base_key ;;
    modify (set_decrypt (replicate (Z.to_nat BLE_MTU_DATA_LEN) 0)) ;;
    b <- get s_ble_decrypt_buffer ;;
    r <- aes_ecb_decrypt (Some key) (Some data) len (Some b) BLE_MTU_DATA_LEN ;;
    let b := default [] (snd r) in
    modify (set_decrypt b) ;;
    if negb (fst r =? 0) then ret tt else app_dispatch type b len.

(** Two bytes, most significant first. *)
Definition be16 (data : list Z) (i : Z) : option Z :=
  a ← arr_get data i; b ← arr_get data (i + 1); Some (Z.lor (Z.shiftl a 8) b).

Definition ble_app_comm_data_proc (data : list Z) (len : Z) : M unit :=
  pkt_head <- checked (be16 data 0) ;;
  pkt_type <- checked (be16 data 2) ;;
  if negb (pkt_head =? BLE_DATA_PACKET_HEAD) then ret tt
  else ble_comu_app_handle pkt_type (drop 4 data) (u16 (len - 4)).

Definition my_ble_dfu_send_response (cmd : Z) (data : list Z) (len : Z) : M unit :=
  if BLE_MTU_DATA_LEN - 6 <? len then ret tt
  else
    src <- checked (arr_slice data 0 len) ;;
    b <- checked (arr_blit (replicate (Z.to_nat BLE_MTU_DATA_LEN) 0) 0
                    ([0x78; 0x79; BLE_COMU_DEV_CODE; cmd; Z.land len 0xFF; Z.land (Z.shiftr len 8) 0xFF] ++ src)) ;;
    modify (set_rsp b) ;;
    let send_len := u16 (6 + len) in
    ble_comu_send_packet BLE_DATA_TYPE_FILE_TRANS (Some b) (send_len - send_len mod BLE_CMD_DATA_LEN_UNIT).

Fixpoint dfu_responses (rs : list dfu_output) : M unit :=
  match rs with
  | [] => ret tt
  | DfuResponse cmd data :: rs => my_ble_dfu_send_response cmd data (zlen data) ;; dfu_responses rs
  | DfuText text :: rs => ble_packet_trans_send (Some text) (zlen text) ;; dfu_responses rs
  end.

(** The decryption buffer keeps what it held behind the new data. *)
Definition my_ble_dfu_file_trans_handle (data : list Z) (len : Z) : M Z :=
  let data_len :=
    if negb (len mod BLE_CMD_DATA_LEN_UNIT =? 0) then len - len mod BLE_CMD_DATA_LEN_UNIT else len in
  if BLE_MTU_DATA_LEN <? data_len then ret len
  else
    y <- get id ;;
    r <- aes_ecb_decrypt (Some (s_aes_base_key y)) (Some data) data_len (Some (s_ble_decrypt_buffer y))
           BLE_MTU_DATA_LEN ;;
    let b := default [] (snd r) in
    modify (set_decrypt b) ;;
    if fst r <? 0 then ret len
    else
      pkt_const <- checked (be16 b 0) ;;
      dev_code <- checked (arr_get b 2) ;;
      cmd <- checked (arr_get b 3) ;;
      lo <- checked (arr_get b 4) ;;
      hi <- checked (arr_get b 5) ;;
      let content_len := Z.lor (Z.shiftl hi 8) lo in
      if negb (pkt_const =? 0x7879) || negb (dev_code =? BLE_COMU_APP_CODE)
      then ret (u16 (data_len + BLE_FRAME_HEAD_LEN + BLE_CMD_HEAD_LEN))
      else if data_len <? content_len + 6 then ret len
      else
        rs <- world_checked (fun w => jimi_dfu_cmd_handler w cmd (drop 6 b) content_len) ;;
        dfu_responses rs ;;
        ret (u16 (data_len + BLE_FRAME_HEAD_LEN + BLE_CMD_HEAD_LEN)).

(** Called by the stack with a write of the phone; [true]: the BLE thread gets
    the message [MY_MSG_BLE_RX]. *)
Definition BLE_DataInputBuffer (data : list Z) (len : Z) : M bool :=
  y <- get id ;;
  if (s_rx_ble_buf_index y =? 0) && (len <=? BLE_SVC_RX_MAX_LEN) && (BLE_GATT_FRAME_LEN_MIN <=? len)
  then
    src <- checked (arr_slice data 0 len) ;;
    b <- checked (arr_blit (s_rx_ble_buf y) 0 src) ;;
    modify (set_rx b len) ;; ret true
  else ret false.

Definition ble_rx_proc_handle : M unit :=
  y <- get id ;;
  let b := s_rx_ble_buf y in
  read_packet_head <- checked (be16 b 0) ;;
  read_cmd_head <- checked (be16 b 2) ;;
  (if read_packet_head =? BLE_DATA_PACKET_HEAD
   then
     if read_cmd_head =? BLE_DATA_TYPE_FILE_TRANS
     then my_ble_dfu_file_trans_handle (drop 4 b) (u16 (s_rx_ble_buf_index y - 4)) ;; ret tt
     else ble_app_comm_data_proc b (s_rx_ble_buf_index y)
   else ret tt) ;;
  modify (fun y => set_rx (s_rx_ble_buf y) 0 y).
End app.
