(* ===== verification/BleAppProofs.v ===== *)
(** * The BLE protocol: sending packets *)

From S2P Require Import Prelude Prog BleLink BleCrypto BleApp.

Open Scope prog_scope.

(** The buffers have their declared sizes. *)
Record app_ok (y : ble_app) : Prop := {
  ao_trans : zlen (trans_data (s_packet_trans_data y)) = 1024;
  ao_wait : zlen (wait_data (s_packet_trans_wait y)) = 1024;
  ao_rx : zlen (s_rx_ble_buf y) = 495;
  ao_key : zlen (s_aes_base_key y) = 16;
  ao_dec : zlen (s_ble_decrypt_buffer y) = 528;
  ao_tx : zlen (s_ble_tx_buf y) = 495;
  ao_enc : zlen (s_ble_encrypt_buf y) = 495;
  ao_rsp : zlen (s_ble_rsp_buf y) = 528;
  ao_link : link_ok (ble_link y)
}.

(** An open channel with nothing waiting in front of the stack. *)
Definition link_clear (l : link) : Prop :=
  link_ok l /\ ble_is_data_channel_ready l = true /\ s_ble_server_rx_index l = 0.

(** Everything outside works: the stack takes notifications, the crypto library
    computes, and it does not send anything. *)
Class BleWorks (W : Type) `{Psa W} `{GattLog W} : Prop := {
  bw_notify w d : exists w', bt_gatt_notify w d = (w', 0);
  bw_quiet log : psa_keeps (fun w : W => notified w = log)
}.

Section works.
Context {W : Type} {GW : Gatt W} {PW : Psa W} {CW : BleClients W} {GL : GattLog W} {PWK : PsaWorks W} {BW : BleWorks W}.
Implicit Types (y : ble_app) (w : W) (l : link).

(** A packet that fits is sent at once and as a whole. *)
Lemma notify_clear l w data n :
  link_clear l -> 0 < n <= zlen data -> n <= g_ble_server_mtu l - 3 ->
  exists l' w', ble_server_send_notification l w data n = Some (l', w') /\ link_clear l' /\
    g_ble_server_mtu l' = g_ble_server_mtu l /\ notified w' = notified w ++ [take (Z.to_nat n) data].
Proof.
  intros (Hok & Hr & H0) Hn Hm. pose proof Hok as (Hb & Hi & Hd & Hmtu).
  pose proof Hr as Hr'. unfold ble_is_data_channel_ready in Hr'. apply andb_prop in Hr' as [Hc He].
  unfold ble_server_send_notification, cache_data, BLE_NOTIFY_SEND_BUF_MAX_SIZE. rewrite Hc, Hd, H0. cbn [negb].
  rewrite (proj2 (Z.ltb_lt 0 n)), (proj2 (Z.leb_le (0 + n) 1024)) by lia. cbn [andb].
  rewrite (arr_slice_Some data), drop_0 by lia. cbn [mbind option_bind]. set (out := take (Z.to_nat n) data).
  assert (Hout : zlen out = n) by (unfold out; rewrite zlen_take; lia).
  rewrite arr_blit_Some by lia. cbn [mbind option_bind]. rewrite Z.add_0_l, (u16_small n) by lia.
  set (b := take (Z.to_nat 0) _ ++ _). cbn [set_cache send_enable_google send_enable_apple g_ble_server_mtu
    s_ble_server_rx_index s_uart_ble_server_buf BLE_SERVER_MAX_DATA_LEN]. rewrite He.
  unfold BLE_SVC_TX_MAX_LEN, CONFIG_BT_L2CAP_TX_MTU.
  change (BLE_SERVER_MAX_DATA_LEN (set_cache b n false l)) with (g_ble_server_mtu l - 3).
  rewrite (proj2 (Z.ltb_ge (Z.min _ _) n)), !(u16_small n) by lia.
  assert (Es : arr_slice b 0 n = Some out) by (apply (arr_slice_app []); [done|lia]).
  rewrite Es. cbn [mbind option_bind]. destruct (bw_notify w out) as [w' Ew]. rewrite Ew.
  change (negb (0 =? 0)) with false. cbv iota. rewrite Z.sub_diag. change (u16 0) with 0.
  assert (Hbl : zlen b = 1024) by (unfold b; rewrite !zlen_app, zlen_take, zlen_drop; unfold zlen in *; lia).
  rewrite (arr_slice_Some b n 0) by lia. cbn [mbind option_bind]. change (take (Z.to_nat 0) _) with (@nil Z).
  rewrite (arr_blit_Some b 0 []) by (change (zlen []) with 0; lia). cbn [mbind option_bind].
  eexists _, w'. split; [reflexivity|]. split; [|split; [done|by apply notified_ok]].
  split; [|split; [done|done]]. split; [|split; [cbn; lia|done]].
  cbn [set_cache s_uart_ble_server_buf]. change (take (Z.to_nat 0) b) with (@nil Z). cbn [app length].
  by rewrite Nat.add_0_r, drop_0.
Qed.

(** The packet of [type] with encrypted content. *)
Definition packet (key : list Z) (type : Z) (content : list Z) : list Z :=
  packet_head type ++ blockwise (aes key) (blocks content) content.

(** The head, then content of the same length twice. *)
Lemma packet_bytes tx type tx1 p tx2 c tx3 len :
  arr_blit tx 0 (packet_head type) = Some tx1 -> arr_blit tx1 4 p = Some tx2 -> arr_blit tx2 4 c = Some tx3 ->
  zlen p = len -> zlen c = len -> 0 < len -> take (Z.to_nat (len + 4)) tx3 = packet_head type ++ c.
Proof.
  intros E1 E2 E3 Hp Hc Hl. pose proof (arr_slice_blit _ _ _ _ E3) as Hs3.
  assert (Hs1 : arr_slice tx3 0 4 = Some (packet_head type)).
  { rewrite (arr_slice_blit_disj _ _ _ _ _ _ E3), (arr_slice_blit_disj _ _ _ _ _ _ E2) by lia.
    apply (arr_slice_blit _ _ _ _ E1). }
  pose proof (arr_slice_split tx3 _ _ 0 4 (zlen c) Hs1 Hs3) as Hs. apply arr_slice_inv in Hs as (_ & _ & _ & Hs).
  rewrite Hs, drop_0. f_equal. lia.
Qed.

Lemma send_packet_works type data len y w :
  app_ok y -> link_clear (ble_link y) -> type <> BLE_DATA_TYPE_PKEY -> type <> BLE_DATA_TYPE_BT_LOG ->
  0 < len <= 479 -> len mod 16 = 0 -> len <= zlen data -> len + 4 <= g_ble_server_mtu (ble_link y) - 3 ->
  exists tx e l w', ble_comu_send_packet type (Some data) len y w
      = Done (tt, set_link l (set_tx tx (set_encrypt e y)), w') /\
    zlen tx = 495 /\ zlen e = 495 /\ link_clear l /\ g_ble_server_mtu l = g_ble_server_mtu (ble_link y) /\
    notified w' = notified w ++ [packet (s_aes_base_key y) type (take (Z.to_nat len) data)].
Proof.
  intros Hy Hl Ht1 Ht2 Hlen Hm Hd Hmtu. unfold ble_comu_send_packet, BLE_RESP_LENGTH_MAX, BLE_SVC_RX_MAX_LEN,
    CONFIG_BT_L2CAP_TX_MTU, BLE_CMD_DATA_LEN_UNIT.
  rewrite (proj2 (Z.ltb_ge (498 - 3) len)), Hm by lia. cbn [negb orb Z.eqb].
  set (p := take (Z.to_nat len) data). assert (Hp : zlen p = len) by (unfold p; rewrite zlen_take; lia).
  assert (Es : arr_slice data 0 len = Some p) by (apply arr_slice_Some; lia).
  pose proof (ao_tx _ Hy) as Htx. pose proof (ao_enc _ Hy) as Hen.
  destruct (arr_blit (s_ble_tx_buf y) 0 (packet_head type)) as [tx1|] eqn:Eb1;
    [|rewrite arr_blit_Some in Eb1; [done|lia|change (zlen (packet_head type)) with 4; lia]].
  pose proof (arr_blit_length _ _ _ _ Eb1) as Hl1.
  destruct (arr_blit tx1 4 p) as [tx2|] eqn:Eb2; [|rewrite arr_blit_Some in Eb2; [done|lia|lia]].
  pose proof (arr_blit_length _ _ _ _ Eb2) as Hl2.
  rewrite (bind_done _ _ _ _ y y w), (bind_done _ _ _ _ p y w) by (by unfold get, checked; rewrite ?Es).
  rewrite (bind_done _ _ _ _ tx1 y w), (bind_done _ _ _ _ tx2 y w) by (by unfold checked; rewrite ?Eb1, ?Eb2).
  rewrite (bind_done _ _ _ _ tt (set_tx tx2 y) w) by done.
  rewrite (proj2 (Z.eqb_neq _ _) Ht1), (proj2 (Z.eqb_neq _ _) Ht2). cbn [orb].
  pose proof (pkcs7_len p) as Hpl. rewrite Hp in Hpl.
  assert (Hq : (len / 16 + 1) * 16 = len + 16) by (Z.div_mod_to_equations; lia).
  destruct (aes_encrypt_works (fun w0 => notified w0 = notified w) (bw_quiet _) (s_aes_base_key y) data len
              (s_ble_encrypt_buf y) (498 - 3) (set_tx tx2 y) w) as (w1 & Ea & Hw1);
    [apply (ao_key _ Hy)|lia|lia|fold p; lia|done|]. fold p in Ea.
  destruct (blockwise_pkcs7 (aes (s_aes_base_key y)) p ltac:(by rewrite Hp)) as [lastb Hbw]. rewrite Hbw in Ea.
  set (c := blockwise (aes (s_aes_base_key y)) (blocks p) p) in *.
  assert (Hc : zlen c = len).
  { unfold c. pose proof (blocks_len p ltac:(by rewrite Hp)) as Hbl.
    rewrite blockwise_len; [|apply aes_len|]; unfold zlen in *; lia. }
  set (e := (c ++ lastb) ++ drop _ _) in Ea.
  assert (He : zlen e = 495).
  { unfold e. rewrite <- Hbw, zlen_app, blockwise_len, zlen_drop; [|apply aes_len|].
    - rewrite (blocks_len_Z (pkcs7 p)) by (rewrite Hpl; apply Z.mod_mul; lia). unfold zlen in *. lia.
    - rewrite (blocks_len_Z (pkcs7 p)) by (rewrite Hpl; apply Z.mod_mul; lia). lia. }
  erewrite bind_done.
  2:{ erewrite bind_done by exact Ea. cbn [snd fst default]. rewrite (bind_done _ _ _ _ tt (set_encrypt e (set_tx tx2 y)) w1) by done.
      reflexivity. }
  change (negb (PSA_SUCCESS =? 0)) with false. cbv iota.
  set (y1 := set_encrypt e (set_tx tx2 y)).
  assert (Ee : arr_slice e 0 len = Some c) by (unfold e; rewrite <- app_assoc; apply (arr_slice_app []); [done|lia]).
  destruct (arr_blit tx2 4 c) as [tx3|] eqn:Eb3; [|rewrite arr_blit_Some in Eb3; [done|lia|lia]].
  pose proof (arr_blit_length _ _ _ _ Eb3) as Hl3.
  rewrite (bind_done _ _ _ _ y1 y1 w1), (bind_done _ _ _ _ c y1 w1) by (by unfold get, checked; cbn; rewrite ?Ee).
  rewrite (bind_done _ _ _ _ tx3 y1 w1), (bind_done _ _ _ _ tt (set_tx tx3 y1) w1) by (by unfold checked; cbn; rewrite ?Eb3).
  rewrite u16_small by lia. unfold BLE_DataTransOverBle.
  destruct (notify_clear (ble_link y) w1 tx3 (len + 4) Hl) as (l' & w2 & En & Hl' & Hml & Hlog); [lia..|].
  cbn [ble_link set_tx y1 set_encrypt]. rewrite En. exists tx3, e, l', w2. split; [reflexivity|].
  split; [lia|]. split; [done|]. split; [done|]. split; [done|]. rewrite Hlog, Hw1. do 2 f_equal.
  unfold packet. fold p. fold c. eapply packet_bytes; [exact Eb1|exact Eb2|exact Eb3|done|done|lia].
Qed.

Lemma align16_spec n : 0 <= n < 65000 -> n <= align16 n < n + 16 /\ align16 n mod 16 = 0.
Proof.
  intros Hn. unfold align16, BLE_CMD_DATA_LEN_UNIT. pose proof (Z.mod_pos_bound n 16 ltac:(lia)).
  destruct (Z.eqb_spec (n mod 16) 0); cbn [negb]; [lia|]. rewrite u16_small by lia. split; [lia|].
  Z.div_mod_to_equations. lia.
Qed.

Lemma align16_le n m : 0 <= n < 65000 -> n <= m -> m mod 16 = 0 -> align16 n <= m.
Proof. intros Hn Hm H16. destruct (align16_spec n Hn). Z.div_mod_to_equations. lia. Qed.

(** Header, data and zeros in the packet buffer. *)
Definition payload (hdr chunk : list Z) : list Z :=
  hdr ++ chunk ++ replicate (Z.to_nat (align16 (zlen hdr + zlen chunk) - (zlen hdr + zlen chunk))) 0.

Lemma payload_buf hdr chunk :
  zlen hdr + zlen chunk <= 512 ->
  exists b1 b, arr_blit (replicate (Z.to_nat BLE_MTU_DATA_LEN) 0) 0 hdr = Some b1 /\
    arr_blit b1 (zlen hdr) chunk = Some b /\ zlen b = 528 /\
    take (Z.to_nat (align16 (zlen hdr + zlen chunk))) b = payload hdr chunk.
Proof.
  intros Hl. pose proof (zlen_nonneg hdr). pose proof (zlen_nonneg chunk).
  destruct (align16_spec (zlen hdr + zlen chunk)) as [Ha _]; [lia|]. set (n := align16 _) in *.
  unfold payload. fold n. change (Z.to_nat BLE_MTU_DATA_LEN) with 528%nat.
  assert (E1 : arr_blit (replicate 528 0) 0 hdr = Some (hdr ++ replicate (528 - length hdr) 0)).
  { rewrite arr_blit_Some by (rewrite ?zlen_replicate; lia). by rewrite take_0, Nat.add_0_l, drop_replicate. }
  set (k := (528 - length hdr)%nat) in *. assert (Hk : (length chunk <= k)%nat) by (unfold zlen in *; lia).
  assert (E2 : arr_blit (hdr ++ replicate k 0) (zlen hdr) chunk = Some (hdr ++ chunk ++ replicate (k - length chunk) 0)).
  { rewrite arr_blit_Some by (rewrite ?zlen_app, ?zlen_replicate; unfold zlen in *; lia).
    rewrite take_app_le, (take_ge hdr) by (unfold zlen; lia). rewrite drop_app_ge by (unfold zlen; lia).
    rewrite drop_replicate. do 4 f_equal. unfold zlen. lia. }
  exists (hdr ++ replicate k 0), (hdr ++ chunk ++ replicate (k - length chunk) 0). split; [done|]. split; [done|].
  split; [rewrite !zlen_app, zlen_replicate; unfold zlen in *; lia|].
  rewrite app_assoc, take_app_ge by (rewrite length_app; unfold zlen in *; lia). rewrite <- app_assoc. do 2 f_equal.
  rewrite take_replicate, length_app. f_equal. unfold zlen in *. lia.
Qed.

Lemma data_room_spec l : link_ok l -> data_room l mod 16 = 0 /\ 16 <= data_room l <= g_ble_server_mtu l - 7 /\ data_room l <= 480.
Proof.
  intros (_ & _ & _ & Hm). unfold data_room, BLE_SERVER_MAX_DATA_LEN, BLE_CMD_DATA_LEN_UNIT.
  rewrite Z.quot_div_nonneg by lia. rewrite Z.mod_mul by lia. Z.div_mod_to_equations. lia.
Qed.

Lemma align16_room room n :
  room mod 16 = 0 -> 0 < n < 65000 -> n <= room - 16 -> 0 < align16 n <= room - 16 /\ align16 n mod 16 = 0.
Proof.
  intros H16 Hn Hr. destruct (align16_spec n) as [Ha Hm]; [lia|]. split; [|done]. split; [lia|].
  apply align16_le; [lia..|]. rewrite <- (Z.mod_add _ 1) by lia. by replace (room - 16 + 1 * 16) with room by lia.
Qed.

Definition recorded (proto seq off len : Z) (t : packet_trans_t) : packet_trans_t :=
  mk_trans (trans_data t) (total_len t) (sent_offset t) off len (next_seq t) (retry_cnt t) seq proto true (is_busy t).

(** One FF01 or FF02 packet leaves, the packet is recorded and the timer runs. *)
Definition packet_sent (type proto seq off len : Z) (hdr : list Z) y w (o : res (unit * ble_app * W)) : Prop :=
  exists b tx e l w',
    o = Done (tt, set_timer true (set_link l (set_tx tx (set_encrypt e
              (set_trans (recorded proto seq off len (s_packet_trans_data y)) (set_rsp b y))))), w') /\
    zlen b = 528 /\ zlen tx = 495 /\ zlen e = 495 /\ link_clear l /\
    g_ble_server_mtu l = g_ble_server_mtu (ble_link y) /\
    notified w' = notified w ++ [packet (s_aes_base_key y) type
      (payload hdr (take (Z.to_nat len) (drop (Z.to_nat off) (trans_data (s_packet_trans_data y)))))].

Lemma varint_len v : 1 <= zlen (varint v) <= 2.
Proof. unfold varint. destruct (VARINT_IS_2BYTE v); [change (zlen _) with 2|change (zlen _) with 1]; lia. Qed.

Lemma multiple_header_len seq total len first : 2 <= zlen (multiple_header seq total len first) <= 6.
Proof.
  unfold multiple_header. rewrite !zlen_app. change (zlen [seq]) with 1.
  pose proof (varint_len total). set (v := varint total) in *.
  match goal with |- context [varint ?x] => pose proof (varint_len x) end.
  destruct first; [rewrite zlen_cons; lia|change (zlen []) with 0; lia].
Qed.

Lemma multiple_send_works seq off len first y w :
  app_ok y -> link_clear (ble_link y) -> 0 < len -> 0 <= off -> off + len <= 1024 ->
  zlen (multiple_header seq (total_len (s_packet_trans_data y)) len first) + len <= data_room (ble_link y) - 16 ->
  packet_sent BLE_DATA_TYPE_PACKET_MULTIPLE BLE_PACKET_PROTO_MULTIPLE seq off len
    (multiple_header seq (total_len (s_packet_trans_data y)) len first) y w
    (ble_multiple_packet_send seq off len first y w).
Proof.
  intros Hy Hl Hlen Hoff Hsum Hfit. set (t := s_packet_trans_data y) in *.
  set (hdr := multiple_header seq (total_len t) len first) in *.
  destruct (data_room_spec (ble_link y) (ao_link _ Hy)) as (Hr16 & Hr & Hr480).
  pose proof (multiple_header_len seq (total_len t) len first) as Hh. fold hdr in Hh.
  set (chunk := take (Z.to_nat len) (drop (Z.to_nat off) (trans_data t))).
  pose proof (ao_trans _ Hy) as Htr. fold t in Htr.
  assert (Es : arr_slice (trans_data t) off len = Some chunk) by (apply arr_slice_Some; lia).
  assert (Hch : zlen chunk = len) by (unfold chunk; rewrite zlen_take, zlen_drop; lia).
  destruct (payload_buf hdr chunk ltac:(lia)) as (b1 & b & E1 & E2 & Hb & Hp). rewrite Hch in Hp.
  unfold ble_multiple_packet_send. rewrite (proj2 (Z.eqb_neq len 0)) by lia.
  rewrite (bind_done _ _ _ _ y y w) by done. cbv zeta. fold t. fold hdr.
  rewrite (bind_done _ _ _ _ b1 y w), (bind_done _ _ _ _ chunk y w) by (by unfold checked; rewrite ?E1, ?Es).
  rewrite (bind_done _ _ _ _ b y w) by (by unfold checked; rewrite E2).
  rewrite (bind_done _ _ _ _ tt (set_rsp b y) w) by done. rewrite (u16_small (zlen hdr + len)) by lia.
  set (n := align16 (zlen hdr + len)) in *.
  assert (Hn : 0 < n <= data_room (ble_link y) - 16 /\ n mod 16 = 0) by (apply align16_room; [done|lia..]).
  rewrite (proj2 (Z.ltb_ge BLE_MTU_DATA_LEN n)) by (change BLE_MTU_DATA_LEN with 528; lia).
  rewrite (bind_done _ _ _ _ tt (set_trans (recorded BLE_PACKET_PROTO_MULTIPLE seq off len t) (set_rsp b y)) w)
    by (unfold ble_packet_trans_record_last_packet, modify; by rewrite (u16_small off) by lia).
  set (y1 := set_trans _ _).
  destruct (send_packet_works BLE_DATA_TYPE_PACKET_MULTIPLE b n y1 w) as (tx & e & l & w' & E & Htx & He & Hl' & Hm' & Hlog);
    [by destruct Hy; split; cbn; try done; cbn in Hb; lia|done|done|done|lia|lia|lia|cbn; lia|].
  rewrite (bind_done _ _ _ _ tt _ w' E). unfold modify. exists b, tx, e, l, w'. split; [reflexivity|].
  split_and!; try done. rewrite Hlog, Hp. done.
Qed.

Lemma zlen_varint v : zlen (varint v) = if VARINT_IS_2BYTE v then 2 else 1.
Proof. unfold varint. by destruct (VARINT_IS_2BYTE v). Qed.

Lemma single_header_len len : 0 < len <= 1024 ->
  zlen (single_header len) = (if VARINT_IS_2BYTE (1 + (if VARINT_IS_2BYTE len then 2 else 1) + len) then 2 else 1)
                             + 1 + (if VARINT_IS_2BYTE len then 2 else 1).
Proof.
  intros Hl. unfold single_header. rewrite !zlen_app, !zlen_varint. change (zlen [_]) with 1.
  rewrite u16_small by (destruct (VARINT_IS_2BYTE len); lia). lia.
Qed.

(** A reply goes in one packet exactly when its payload fits with a block to spare. *)
Lemma can_send_spec l len :
  link_ok l -> 0 < len <= 1024 ->
  ble_single_packet_can_send l len = (zlen (single_header len) + len <=? data_room l - 16).
Proof.
  intros Hl Hlen. destruct (data_room_spec l Hl) as (Hr16 & Hr & Hr480). unfold ble_single_packet_can_send.
  rewrite single_header_len by done. set (mlb := if VARINT_IS_2BYTE len then 2 else 1).
  assert (Hm : 1 <= mlb <= 2) by (unfold mlb; destruct (VARINT_IS_2BYTE len); lia).
  rewrite (u16_small (1 + mlb + len)) by lia. set (clb := if VARINT_IS_2BYTE (1 + mlb + len) then 2 else 1).
  assert (Hc : 1 <= clb <= 2) by (unfold clb; destruct (VARINT_IS_2BYTE (1 + mlb + len)); lia).
  rewrite (u16_small (clb + (1 + mlb + len))) by lia. unfold BLE_CMD_DATA_LEN_UNIT.
  set (p := clb + (1 + mlb + len)). replace (clb + 1 + mlb + len) with p by lia.
  assert (Hp : 0 < p < 2000) by lia. clearbody p. rewrite (u16_small (data_room l - 16)) by lia.
  rewrite (u16_small (p / 16 * 16)) by (Z.div_mod_to_equations; lia). cbv zeta.
  destruct (Z.eqb_spec (p mod 16) 0); cbn [negb].
  - f_equal. Z.div_mod_to_equations. lia.
  - rewrite u16_small by (Z.div_mod_to_equations; lia).
    destruct (Z.leb_spec p (data_room l - 16)); [apply Z.leb_le|apply Z.leb_gt]; Z.div_mod_to_equations; lia.
Qed.

Lemma single_send_works len y w :
  app_ok y -> link_clear (ble_link y) -> 0 < len <= 1024 ->
  zlen (single_header len) + len <= data_room (ble_link y) - 16 ->
  packet_sent BLE_DATA_TYPE_PACKET_SINGLE BLE_PACKET_PROTO_SINGLE 0 0 len (single_header len) y w
    (ble_single_packet_send len y w).
Proof.
  intros Hy Hl Hlen Hfit. set (t := s_packet_trans_data y) in *. set (hdr := single_header len) in *.
  destruct (data_room_spec (ble_link y) (ao_link _ Hy)) as (Hr16 & Hr & Hr480). pose proof (zlen_nonneg hdr).
  set (chunk := take (Z.to_nat len) (drop (Z.to_nat 0) (trans_data t))).
  pose proof (ao_trans _ Hy) as Htr. fold t in Htr.
  assert (Es : arr_slice (trans_data t) 0 len = Some chunk) by (apply arr_slice_Some; lia).
  assert (Hch : zlen chunk = len) by (unfold chunk; rewrite zlen_take, zlen_drop; lia).
  destruct (payload_buf hdr chunk ltac:(lia)) as (b1 & b & E1 & E2 & Hb & Hp). rewrite Hch in Hp.
  unfold ble_single_packet_send. rewrite (proj2 (Z.eqb_neq len 0)) by lia.
  rewrite (bind_done _ _ _ _ y y w) by done. cbv zeta. fold t. fold hdr.
  rewrite (bind_done _ _ _ _ b1 y w), (bind_done _ _ _ _ chunk y w) by (by unfold checked; rewrite ?E1, ?Es).
  rewrite (bind_done _ _ _ _ b y w) by (by unfold checked; rewrite E2).
  rewrite (bind_done _ _ _ _ tt (set_rsp b y) w) by done. rewrite (u16_small (zlen hdr + len)) by lia.
  set (n := align16 (zlen hdr + len)) in *.
  assert (Hn : 0 < n <= data_room (ble_link y) - 16 /\ n mod 16 = 0) by (apply align16_room; [done|lia..]).
  rewrite (bind_done _ _ _ _ tt (set_trans (recorded BLE_PACKET_PROTO_SINGLE 0 0 len t) (set_rsp b y)) w) by done.
  set (y1 := set_trans _ _).
  destruct (send_packet_works BLE_DATA_TYPE_PACKET_SINGLE b n y1 w) as (tx & e & l & w' & E & Htx & He & Hl' & Hm' & Hlog);
    [by destruct Hy; split; cbn; try done; cbn in Hb; lia|done|done|done|lia|lia|lia|cbn; lia|].
  rewrite (bind_done _ _ _ _ tt _ w' E). unfold modify. exists b, tx, e, l, w'. split; [reflexivity|].
  split_and!; try done. rewrite Hlog, Hp. done.
Qed.
End works.
