(* ===== verification/BleDelivery.v ===== *)
(** * Delivery of replies over BLE

    A phone that decrypts, reassembles and acknowledges the packets of a reply,
    on a link that loses packets and acknowledgements. *)

From S2P Require Import Prelude Prog BleLink BleCrypto BleApp BleAppProofs.
From coqutil Require Import Z.bitblast.

Open Scope prog_scope.

(** ** The phone *)

Definition read_varint (l : list Z) : option (Z * list Z) :=
  match l with
  | [] => None
  | a :: l =>
      if Z.land a 0x80 =? 0 then Some (a, l)
      else match l with [] => None | b :: l => Some (Z.lor (Z.land a 0x7F) (Z.shiftl b 7), l) end
  end.

Lemma varint_low v : Z.land (VARINT_LOW_BYTE v) 0x80 = 0x80 /\ Z.land (VARINT_LOW_BYTE v) 0x7F = Z.land v 0x7F.
Proof. unfold VARINT_LOW_BYTE. change 0x80 with (Z.shiftl (Z.ones 1) 7). change 0x7F with (Z.ones 7). split; Z.bitblast. Qed.

Lemma varint_join v : 0 <= v < 16384 -> Z.lor (Z.land v 0x7F) (Z.shiftl (VARINT_HIGH_BYTE v) 7) = v.
Proof.
  intros Hv. unfold VARINT_HIGH_BYTE. change 0x7F with (Z.ones 7).
  transitivity (Z.land v (Z.ones 14)); [Z.bitblast|]. rewrite Z.land_ones by lia. by apply Z.mod_small.
Qed.

Lemma read_varint_varint v rest : 0 <= v < 16384 -> read_varint (varint v ++ rest) = Some (v, rest).
Proof.
  intros Hv. unfold varint, VARINT_IS_2BYTE. destruct (Z.ltb_spec 127 v); cbn [app read_varint].
  - destruct (varint_low v) as [H1 H2]. by rewrite H1, H2, varint_join.
  - rewrite u8_small by lia. assert (E : Z.land v 0x80 = 0).
    { rewrite <- (Z.mod_small v 128) by lia. change 128 with (2 ^ 7) at 1. rewrite <- Z.land_ones by lia. change 0x80 with (Z.shiftl (Z.ones 1) 7). Z.bitblast. }
    by rewrite E.
Qed.

(** The text so far, the number of the last packet, the completed text. *)
Record phone := mk_phone { ph_text : list Z; ph_seq : Z; ph_done : option (list Z) }.

Section phone.
Context {W : Type} `{PWK : PsaWorks W} (key : list Z).

Definition phone_ack_single : list Z := packet key BLE_DATA_TYPE_PACKET_SINGLE (replicate 16 0).
Definition phone_ack (seq : Z) : list Z := packet key BLE_DATA_TYPE_PACKET_MULTIPLE ([1; seq] ++ replicate 14 0).

(** What the phone makes of a packet, and its answer. *)
Definition phone_read (ph : phone) (pkt : list Z) : option (phone * list Z) :=
  type ← be16 pkt 2;
  let content := blockwise (aes_inv key) (blocks (drop 4 pkt)) (drop 4 pkt) in
  '(n, l) ← read_varint content;
  if type =? BLE_DATA_TYPE_PACKET_SINGLE
  then
    '(m, text) ← read_varint (drop 1 l);
    Some (mk_phone [] (-1) (Some (take (Z.to_nat m) text)), phone_ack_single)
  else
    seq ← arr_get l 0;
    let body := take (Z.to_nat (n - 1)) (drop 1 l) in
    if seq =? 0
    then '(_, text) ← read_varint (drop 1 body); Some (mk_phone text 0 None, phone_ack seq)
    else if seq =? ph_seq ph then Some (ph, phone_ack seq)
    else
      let text := ph_text ph ++ body in
      Some (mk_phone text seq (if seq =? BLE_PACKET_TRANS_SEQ_LAST then Some text else None), phone_ack seq).

Lemma packet_content type content :
  zlen content mod 16 = 0 ->
  blockwise (aes_inv key) (blocks (drop 4 (packet key type content))) (drop 4 (packet key type content)) = content.
Proof.
  intros Hm. change (drop 4 (packet key type content)) with (blockwise (aes key) (blocks content) content).
  pose proof (blocks_len_Z content Hm) as Hb.
  assert (Hl : zlen (blockwise (aes key) (blocks content) content) = zlen content)
    by (rewrite blockwise_len; [lia|apply aes_len|lia]).
  assert (Hbb : blocks (blockwise (aes key) (blocks content) content) = blocks content) by (unfold blocks at 1; by rewrite Hl).
  rewrite Hbb. apply blockwise_inv; [apply aes_len|apply aes_inv_aes|lia].
Qed.

Lemma payload_len hdr chunk : zlen hdr + zlen chunk < 65000 -> zlen (payload hdr chunk) mod 16 = 0.
Proof.
  intros Hl. pose proof (zlen_nonneg hdr). pose proof (zlen_nonneg chunk).
  destruct (align16_spec (zlen hdr + zlen chunk)) as [Ha Hm]; [lia|].
  unfold payload. rewrite !zlen_app, zlen_replicate, Z2Nat.id by lia. transitivity (align16 (zlen hdr + zlen chunk) mod 16); [f_equal; lia|done].
Qed.

Lemma read_single ph text :
  0 < zlen text <= 1024 ->
  phone_read ph (packet key BLE_DATA_TYPE_PACKET_SINGLE (payload (single_header (zlen text)) text))
  = Some (mk_phone [] (-1) (Some text), phone_ack_single).
Proof.
  intros Hl. unfold phone_read. change (be16 (packet _ _ _) 2) with (Some BLE_DATA_TYPE_PACKET_SINGLE).
  cbn [mbind option_bind]. pose proof (single_header_len (zlen text) Hl) as Hh.
  rewrite packet_content by (apply payload_len; rewrite Hh; repeat case_match; lia).
  unfold payload, single_header. rewrite <- !app_assoc, read_varint_varint by (destruct (VARINT_IS_2BYTE (zlen text)); rewrite u16_small; lia).
  cbn [mbind option_bind app]. set (zs := replicate _ 0). clearbody zs. rewrite Z.eqb_refl.
  change (drop 1 (?[x] :: varint (zlen text) ++ text ++ zs)) with (varint (zlen text) ++ text ++ zs).
  rewrite read_varint_varint by lia. cbn [mbind option_bind].
  unfold zlen. by rewrite Nat2Z.id, take_app_length.
Qed.

Lemma read_first ph total chunk :
  0 < zlen chunk <= 1024 -> 0 <= total < 16384 ->
  phone_read ph (packet key BLE_DATA_TYPE_PACKET_MULTIPLE (payload (multiple_header 0 total (zlen chunk) true) chunk))
  = Some (mk_phone chunk 0 None, phone_ack 0).
Proof.
  intros Hl Ht. unfold phone_read. change (be16 (packet _ _ _) 2) with (Some BLE_DATA_TYPE_PACKET_MULTIPLE).
  cbn [mbind option_bind]. pose proof (multiple_header_len 0 total (zlen chunk) true) as Hh.
  rewrite packet_content by (apply payload_len; lia).
  unfold payload, multiple_header. rewrite (u16_small (1 + zlen chunk)) by lia.
  rewrite <- zlen_varint. pose proof (varint_len total) as Hvl. rewrite u16_small by lia.
  rewrite <- !app_assoc, read_varint_varint by lia. cbn [mbind option_bind app].
  change (BLE_DATA_TYPE_PACKET_MULTIPLE =? BLE_DATA_TYPE_PACKET_SINGLE) with false. cbv iota.
  change (arr_get (0 :: _) 0) with (Some 0). cbn [mbind option_bind drop Z.eqb].
  set (zs := replicate _ 0). replace (Z.to_nat (1 + zlen chunk + 1 + zlen (varint total) - 1)) with (S (length (varint total ++ chunk)))
    by (rewrite length_app; unfold zlen; lia).
  match goal with |- context [drop 1 (take (S ?k) (_ :: ?L))] => change (drop 1 (take (S k) (_ :: L))) with (take k L) end.
  rewrite (app_assoc (varint total)), take_app_length, read_varint_varint by lia. done.
Qed.

Lemma read_next ph total seq chunk :
  0 < zlen chunk <= 1024 -> seq <> 0 ->
  phone_read ph (packet key BLE_DATA_TYPE_PACKET_MULTIPLE (payload (multiple_header seq total (zlen chunk) false) chunk))
  = Some (if seq =? ph_seq ph then ph
          else mk_phone (ph_text ph ++ chunk) seq
                 (if seq =? BLE_PACKET_TRANS_SEQ_LAST then Some (ph_text ph ++ chunk) else None), phone_ack seq).
Proof.
  intros Hl Hseq. unfold phone_read. change (be16 (packet _ _ _) 2) with (Some BLE_DATA_TYPE_PACKET_MULTIPLE).
  cbn [mbind option_bind]. pose proof (multiple_header_len seq total (zlen chunk) false) as Hh.
  rewrite packet_content by (apply payload_len; lia).
  unfold payload, multiple_header. rewrite (u16_small (1 + zlen chunk)) by lia.
  rewrite <- !app_assoc, read_varint_varint by lia. cbn [mbind option_bind app].
  change (BLE_DATA_TYPE_PACKET_MULTIPLE =? BLE_DATA_TYPE_PACKET_SINGLE) with false. cbv iota.
  change (arr_get (seq :: _) 0) with (Some seq). cbn [mbind option_bind drop].
  replace (Z.to_nat (1 + zlen chunk - 1)) with (length chunk) by (unfold zlen; lia).
  rewrite drop_0, take_app_length, (proj2 (Z.eqb_neq seq 0)) by done. by destruct (seq =? ph_seq ph).
Qed.
End phone.

(** ** The link *)

(** What happens to a packet: it is lost, its acknowledgement is lost, or both
    arrive. *)
Inductive fate := Lost | AckLost | Through.

Section session.
Context {W : Type} {GW : Gatt W} {PW : Psa W} {CW : BleClients W} {GL : GattLog W} {PWK : PsaWorks W} {BW : BleWorks W}.
Context (key : list Z).
Implicit Types (y : ble_app) (w : W).

(** The reply timer expires and the BLE thread handles the message. *)
Definition timer_fires : prog ble_app W unit :=
  armed <- get rsp_timer ;;
  if armed : bool then modify (set_timer false) ;; ble_packet_trans_timeout_handler else ret tt.

(** A write of the phone arrives and the BLE thread handles the message. *)
Definition deliver (pkt : list Z) : prog ble_app W unit :=
  taken <- BLE_DataInputBuffer pkt (zlen pkt) ;;
  if taken : bool then ble_rx_proc_handle else ret tt.

(** One transmission; the phone sees the newest notification. *)
Definition round (f : fate) (ph : phone) : prog ble_app W phone :=
  log <- world (fun w => (w, notified w)) ;;
  match f with
  | Lost => timer_fires ;; ret ph
  | AckLost => r <- checked (phone_read key ph (default [] (last log))) ;; timer_fires ;; ret (fst r)
  | Through => r <- checked (phone_read key ph (default [] (last log))) ;; deliver (snd r) ;; ret (fst r)
  end.

Fixpoint session (fates : list fate) (ph : phone) : prog ble_app W phone :=
  match fates with
  | [] => ret ph
  | f :: fates =>
      t <- get s_packet_trans_data ;;
      if is_busy t then ph <- round f ph ;; session fates ph else ret ph
  end.

(** A write of the phone lands at the start of the receive buffer. *)
Lemma deliver_taken pkt y w :
  app_ok y -> s_rx_ble_buf_index y = 0 -> 20 <= zlen pkt <= 495 ->
  zlen (pkt ++ drop (length pkt) (s_rx_ble_buf y)) = 495 /\
  deliver pkt y w = ble_rx_proc_handle (set_rx (pkt ++ drop (length pkt) (s_rx_ble_buf y)) (zlen pkt) y) w.
Proof.
  intros Hy Hrx Hl. set (buf := pkt ++ _). pose proof (ao_rx _ Hy) as Hb.
  assert (Eb : arr_blit (s_rx_ble_buf y) 0 pkt = Some buf) by (apply (arr_blit_Some _ 0); lia).
  split; [by rewrite (arr_blit_length _ _ _ _ Eb)|]. unfold deliver, BLE_DataInputBuffer.
  assert (Es : arr_slice pkt 0 (zlen pkt) = Some pkt)
    by (rewrite arr_slice_Some by lia; rewrite drop_0, take_ge by (unfold zlen; lia); done).
  rewrite (bind_done _ _ _ _ true (set_rx buf (zlen pkt) y) w); [done|].
  rewrite (bind_done _ _ _ _ y y w) by done. rewrite Hrx. change BLE_SVC_RX_MAX_LEN with 495. change BLE_GATT_FRAME_LEN_MIN with 20.
  rewrite (proj2 (Z.leb_le (zlen pkt) 495)), (proj2 (Z.leb_le 20 (zlen pkt))) by lia. cbn [Z.eqb andb].
  rewrite (bind_done _ _ _ _ pkt y w) by (unfold checked; by rewrite Es).
  rewrite (bind_done _ _ _ _ buf y w) by (unfold checked; by rewrite Eb). done.
Qed.

Lemma head_bytes type rest :
  0 <= type < 65536 ->
  be16 (packet_head type ++ rest) 0 = Some BLE_DATA_PACKET_HEAD /\ be16 (packet_head type ++ rest) 2 = Some type.
Proof.
  intros Ht. split; [done|].
  transitivity (Some (Z.lor (Z.shiftl (Z.land (Z.shiftr type 8) 0xFF) 8) (Z.land type 0xFF))); [done|]. f_equal.
  transitivity (Z.land type (Z.ones 16)); [change 0xFF with (Z.ones 8); Z.bitblast|].
  rewrite Z.land_ones by lia. by apply Z.mod_small.
Qed.

(** A packet other than a part of a file is dispatched by its type. *)
Lemma deliver_packet type body y w :
  app_ok y -> s_rx_ble_buf_index y = 0 -> 0 <= type < 65536 -> type <> BLE_DATA_TYPE_FILE_TRANS ->
  16 <= zlen body <= 491 ->
  let n := length body in
  let buf := packet_head type ++ body ++ drop (4 + n) (s_rx_ble_buf y) in
  zlen buf = 495 /\
  deliver (packet_head type ++ body) y w
  = (ble_comu_app_handle type (body ++ drop (4 + n) (s_rx_ble_buf y)) (zlen body) ;;
     modify (fun y => set_rx (s_rx_ble_buf y) 0 y)) (set_rx buf (zlen body + 4) y) w.
Proof.
  intros Hy Hrx Ht Hft Hl n buf.
  assert (Hpl : zlen (packet_head type ++ body) = zlen body + 4) by (rewrite zlen_app; change (zlen (packet_head type)) with 4; lia).
  destruct (deliver_taken (packet_head type ++ body) y w Hy Hrx ltac:(lia)) as [Hb E].
  assert (Eb : (packet_head type ++ body) ++ drop (length (packet_head type ++ body)) (s_rx_ble_buf y) = buf)
    by (by rewrite <- app_assoc).
  rewrite Eb, Hpl in *. split; [done|]. rewrite E. clear E Eb. set (y1 := set_rx buf _ y).
  destruct (head_bytes type (body ++ drop (4 + n) (s_rx_ble_buf y)) Ht) as [E0 E2]. fold buf in E0, E2.
  unfold ble_rx_proc_handle. rewrite (bind_done _ _ _ _ y1 y1 w) by done. cbv zeta.
  change (s_rx_ble_buf y1) with buf. change (s_rx_ble_buf_index y1) with (zlen body + 4).
  rewrite (bind_done _ _ _ _ BLE_DATA_PACKET_HEAD y1 w) by (unfold checked; by rewrite E0).
  rewrite (bind_done _ _ _ _ type y1 w) by (unfold checked; by rewrite E2).
  rewrite Z.eqb_refl, (proj2 (Z.eqb_neq _ _) Hft). apply bind_first. unfold ble_app_comm_data_proc.
  rewrite (bind_done _ _ _ _ BLE_DATA_PACKET_HEAD y1 w) by (unfold checked; by rewrite E0).
  rewrite (bind_done _ _ _ _ type y1 w) by (unfold checked; by rewrite E2).
  rewrite Z.eqb_refl. cbn [negb]. rewrite u16_small by lia. by replace (zlen body + 4 - 4) with (zlen body) by lia.
Qed.

(** The content of an encrypted packet reaches its handler. *)
Lemma deliver_content type content y w :
  app_ok y -> s_rx_ble_buf_index y = 0 -> s_aes_base_key y = key ->
  16 <= zlen content <= 480 -> zlen content mod 16 = 0 ->
  0 <= type < 65536 -> type <> BLE_DATA_TYPE_FILE_TRANS -> type <> BLE_DATA_TYPE_PKEY ->
  exists buf w', notified w' = notified w /\ zlen buf = 495 /\
    let b := content ++ replicate (528 - length content) 0 in
    deliver (packet key type content) y w
    = (app_dispatch type b (zlen content) ;; modify (fun y => set_rx (s_rx_ble_buf y) 0 y))
        (set_decrypt b (set_rx buf (zlen content + 4) y)) w'.
Proof.
  intros Hy Hrx Hkey Hl Hbm Ht Hft Hpk.
  set (c := blockwise (aes key) (blocks content) content). assert (Hc : zlen c = zlen content).
  { unfold c. pose proof (blocks_len_Z content Hbm). rewrite blockwise_len; [lia|apply aes_len|lia]. }
  destruct (deliver_packet type c y w Hy Hrx) as [Hb E]; [done|done|lia|]. cbv zeta in *.
  rewrite Hc in E. set (buf := packet_head type ++ _) in *. set (rest := drop _ _) in *.
  set (y1 := set_rx buf (zlen content + 4) y) in *. set (z := replicate (Z.to_nat BLE_MTU_DATA_LEN) 0).
  destruct (aes_decrypt_works (fun w0 => notified w0 = notified w) (bw_quiet _) key c z BLE_MTU_DATA_LEN (set_decrypt z y1) w)
    with (rest := rest) as (w' & Ed & Hw');
    [rewrite <- Hkey; apply (ao_key _ Hy)|lia|by rewrite Hc|rewrite Hc; change (zlen z) with 528; change BLE_MTU_DATA_LEN with 528; lia|done|].
  exists buf, w'. split; [done|]. split; [done|]. change (packet key type content) with (packet_head type ++ c).
  assert (Eb : content ++ replicate (528 - length content) 0 = blockwise (aes_inv key) (blocks c) c ++ drop (length c) z).
  { f_equal; [symmetry; exact (packet_content key type content Hbm)|]. unfold z. rewrite drop_replicate. f_equal. unfold zlen in Hc.
    change (Z.to_nat BLE_MTU_DATA_LEN) with 528%nat. lia. }
  rewrite Eb, E. rewrite Hc in Ed. apply bind_first. unfold ble_comu_app_handle. rewrite (proj2 (Z.eqb_neq _ _) Hpk), Hbm.
  change (BLE_SVC_RX_MAX_LEN - 4) with 491. rewrite (proj2 (Z.ltb_ge 491 _)) by lia. cbn [Z.eqb negb orb].
  rewrite (bind_done _ _ _ _ key y1 w) by (unfold get; by rewrite <- Hkey).
  rewrite (bind_done _ _ _ _ tt (set_decrypt z y1) w), (bind_done _ _ _ _ z (set_decrypt z y1) w) by done.
  rewrite (bind_done _ _ _ _ _ _ _ Ed). cbn [snd fst default].
  by rewrite (bind_done _ _ _ _ tt (set_decrypt (blockwise (aes_inv key) (blocks c) c ++ drop (length c) z) y1) w').
Qed.

(** An acknowledgement of one block reaches its handler. *)
Lemma deliver_block type block (h : list Z -> prog ble_app W unit) y w :
  app_ok y -> s_rx_ble_buf_index y = 0 -> s_aes_base_key y = key -> zlen block = 16 ->
  (type = BLE_DATA_TYPE_PACKET_SINGLE /\ h = (fun _ => ble_single_packet_rsp_handle 16)) \/
  (type = BLE_DATA_TYPE_PACKET_MULTIPLE /\ h = (fun b => ble_multiple_packet_ack_handle b 16)) ->
  exists buf w', notified w' = notified w /\ zlen buf = 495 /\
    let b := block ++ replicate 512 0 in
    deliver (packet key type block) y w
    = (h b ;; modify (fun y => set_rx (s_rx_ble_buf y) 0 y)) (set_decrypt b (set_rx buf 20 y)) w'.
Proof.
  intros Hy Hrx Hkey Hbl Hh.
  destruct (deliver_content type block y w Hy Hrx Hkey) as (buf & w' & Hw & Hb & E);
    [lia|by rewrite Hbl|by destruct Hh as [[-> _]|[-> _]]..|].
  exists buf, w'. split; [done|]. split; [done|]. cbv zeta in *. rewrite E, Hbl.
  assert (Hn : (528 - length block)%nat = 512%nat) by (unfold zlen in Hbl; lia). rewrite Hn.
  by destruct Hh as [[-> ->]|[-> ->]].
Qed.
End session.
