(* ===== verification/BleKey.v ===== *)
(** * The key exchange of the BLE protocol *)

From S2P Require Import Prelude Prog BleLink BleCrypto BleApp BleAppProofs BleDelivery.

Open Scope prog_scope.

(** A 32-bit value, most significant byte first. *)
Definition be_bytes32 (z : Z) : list Z :=
  [Z.land (Z.shiftr z 24) 0xFF; Z.land (Z.shiftr z 16) 0xFF; Z.land (Z.shiftr z 8) 0xFF; Z.land z 0xFF].

Lemma lor_shift_byte x c : 0 <= c < 256 -> Z.lor (Z.shiftl x 8) c = x * 256 + c.
Proof.
  intros Hc. assert (Hz : Z.land (Z.shiftl x 8) c = 0).
  { apply Z.bits_inj'. intros n Hn. rewrite Z.land_spec, Z.bits_0. destruct (Z.ltb_spec n 8).
    - by rewrite Z.shiftl_spec_low.
    - rewrite <- (Z.mod_small c (2 ^ 8)), Z.mod_pow2_bits_high by lia. apply andb_false_r. }
  pose proof (Z.add_lor_land (Z.shiftl x 8) c) as Ha. rewrite Hz, Z.shiftl_mul_pow2 in * by lia. change (2 ^ 8) with 256 in *. lia.
Qed.

Lemma be32_bytes z pre post i :
  0 <= z < 4294967296 -> zlen pre = i -> be32 (pre ++ be_bytes32 z ++ post) i = Some z.
Proof.
  intros Hz <-. unfold be32, be_bytes32. cbn [app].
  set (a := Z.land (Z.shiftr z 24) 255). set (b := Z.land (Z.shiftr z 16) 255). set (c := Z.land (Z.shiftr z 8) 255).
  set (d := Z.land z 255).
  assert (Hget : forall k j x, j = Z.of_nat k -> ([a; b; c; d] ++ post) !! k = Some x ->
    arr_get (pre ++ a :: b :: c :: d :: post) (zlen pre + j) = Some x).
  { intros k j x -> Hk. unfold arr_get, zlen. rewrite (proj2 (Z.leb_le 0 _)) by lia.
    rewrite lookup_app_r by lia. rewrite <- Hk. f_equal. lia. }
  rewrite (arr_get_app pre _ a (zlen pre)) by done. cbn [mbind option_bind].
  rewrite (Hget 1%nat 1 b eq_refl eq_refl). cbn [mbind option_bind]. rewrite (Hget 2%nat 2 c eq_refl eq_refl). cbn [mbind option_bind].
  rewrite (Hget 3%nat 3 d eq_refl eq_refl). cbn [mbind option_bind]. f_equal.
  unfold a, b, c, d. rewrite !land_255, !Z.shiftr_div_pow2 by lia.
  rewrite !lor_shift_byte by (apply Z.mod_pos_bound; lia). 
  change (2 ^ 8) with 256. change (2 ^ 16) with 65536. change (2 ^ 24) with 16777216. Z.div_mod_to_equations. lia.
Qed.

(** ** The phone *)

(** The request carries the public key [b * g] and eight bytes of filling. *)
Definition phone_key_request (b g : Z) (fill : list Z) : list Z :=
  packet_head BLE_DATA_TYPE_PKEY ++ be_bytes32 BLE_PKEY_RX_CMD ++ be_bytes32 (b * g) ++ fill.

(** The key after the reply: the device's public key times [b]. *)
Definition phone_key (key : list Z) (b : Z) (reply : list Z) : option (list Z) :=
  pub ← be32 reply 8; mix_key key (pub * b).

Section exchange.
Context {W : Type} {GW : Gatt W} {PW : Psa W} {CW : BleClients W} {GL : GattLog W} {PWK : PsaWorks W} {BW : BleWorks W}.
Implicit Types (y : ble_app) (w : W).

(** A weakness.  The private key of the exchange is made of one random byte,
    used twice: it takes 256 values, not 65536. *)
Theorem private_key_one_byte y w pub y' w' :
  ble_comu_generate_pkey y w = Done (pub, y', w') -> exists x, 0 <= x < 256 /\ s_prva_a y' = 257 * x.
Proof.
  unfold ble_comu_generate_pkey, random_value, bind, world, get, modify, ret.
  destruct (my_generate_random w) as [w1 v]. intros [= _ <- _]. cbn [s_prva_a set_key].
  rewrite !land_255. set (x := default 0 v mod 256). assert (Hx : 0 <= x < 256) by (apply Z.mod_pos_bound; lia).
  exists x. split; [done|]. rewrite Z.shiftl_mul_pow2 by lia. change (2 ^ 8) with 256. rewrite (u16_small (x * 256)) by lia.
  rewrite <- (split_u16 (257 * x)) by lia. unfold u8. rewrite land_255, Z.shiftr_div_pow2, Z.shiftl_mul_pow2 by lia.
  change (2 ^ 8) with 256. do 2 f_equal; Z.div_mod_to_equations; lia.
Qed.

(** What the exchange needs of its surroundings: the random generator sends
    nothing, and the setting [g] keeps its value. *)
Context (g : Z) (Hg : 0 <= g < 65536) (Hparam : forall w, my_param_get_Gvalue w = g).
Context (Hquiet : forall w, notified (fst (my_generate_random w)) = notified w).

Lemma random_value_works val y w :
  exists v w', random_value val y w = Done (v, y, w') /\ notified w' = notified w.
Proof.
  unfold random_value, bind, world, ret. pose proof (Hquiet w) as HH. destruct (my_generate_random w) as [w1 v]. by exists (default val v), w1.
Qed.

Lemma random_bytes_works n : forall val y w,
  exists l w', random_bytes n val y w = Done (l, y, w') /\ length l = n /\ notified w' = notified w.
Proof.
  induction n as [|n IH]; intros val y w; [by exists [], w|]. cbn [random_bytes].
  destruct (random_value_works val y w) as (v & w1 & E1 & H1). destruct (IH v y w1) as (l & w2 & E2 & Hl & H2).
  exists (Z.land v 0xff :: l), w2. rewrite (bind_done _ _ _ _ v y w1 E1), (bind_done _ _ _ _ l y w2 E2).
  split; [done|]. split; [cbn; lia|congruence].
Qed.

Lemma generate_pkey_works y w :
  exists a w', 0 <= a < 65536 /\ notified w' = notified w /\
    ble_comu_generate_pkey y w = Done (a * g, set_key a (s_aes_base_key y) y, w').
Proof.
  destruct (random_value_works 0 y w) as (v & w1 & E1 & H1). unfold ble_comu_generate_pkey.
  rewrite (bind_done _ _ _ _ v y w1 E1). set (a := u16 _). assert (Ha : 0 <= a < 65536) by (apply Z.mod_pos_bound; lia).
  exists a, w1. split; [done|]. split; [done|]. unfold bind, get, modify, world, ret. rewrite Hparam.
  rewrite u32_small; [done|]. split; [lia|]. assert (a * g <= 65535 * 65535) by (apply Z.mul_le_mono_nonneg; lia). lia.
Qed.

(** A packet that is not encrypted. *)
Lemma send_clear_works data y w :
  app_ok y -> link_clear (ble_link y) -> zlen data = 16 ->
  exists tx e l w', ble_comu_send_packet BLE_DATA_TYPE_PKEY (Some data) 16 y w
      = Done (tt, set_link l (set_tx tx (set_encrypt e y)), w') /\
    notified w' = notified w ++ [packet_head BLE_DATA_TYPE_PKEY ++ data].
Proof.
  intros Hy Hl Hd. unfold ble_comu_send_packet.
  change ((BLE_RESP_LENGTH_MAX <? 16) || negb (16 mod BLE_CMD_DATA_LEN_UNIT =? 0)) with false. cbv iota.
  assert (Es : arr_slice data 0 16 = Some data)
    by (rewrite arr_slice_Some by lia; rewrite drop_0, take_ge by (unfold zlen in Hd; lia); done).
  pose proof (ao_tx _ Hy) as Htx. pose proof (ao_enc _ Hy) as Hen.
  destruct (arr_blit (s_ble_tx_buf y) 0 (packet_head BLE_DATA_TYPE_PKEY)) as [tx1|] eqn:Eb1;
    [|rewrite arr_blit_Some in Eb1; [done|lia|change (zlen (packet_head _)) with 4; lia]].
  pose proof (arr_blit_length _ _ _ _ Eb1) as Hl1.
  destruct (arr_blit tx1 4 data) as [tx2|] eqn:Eb2; [|rewrite arr_blit_Some in Eb2; [done|lia|lia]].
  pose proof (arr_blit_length _ _ _ _ Eb2) as Hl2.
  destruct (arr_blit (s_ble_encrypt_buf y) 0 data) as [e|] eqn:Ee; [|rewrite arr_blit_Some in Ee; [done|lia|lia]].
  destruct (arr_blit tx2 4 data) as [tx3|] eqn:Eb3; [|rewrite arr_blit_Some in Eb3; [done|lia|lia]].
  pose proof (arr_blit_length _ _ _ _ Eb3) as Hl3.
  assert (Ese : arr_slice e 0 16 = Some data) by (rewrite <- Hd; apply (arr_slice_blit _ _ _ _ Ee)).
  rewrite (bind_done _ _ _ _ y y w), (bind_done _ _ _ _ data y w) by (by unfold get, checked; rewrite ?Es).
  rewrite (bind_done _ _ _ _ tx1 y w), (bind_done _ _ _ _ tx2 y w) by (by unfold checked; rewrite ?Eb1, ?Eb2).
  rewrite (bind_done _ _ _ _ tt (set_tx tx2 y) w) by done. rewrite Z.eqb_refl. cbn [orb].
  rewrite (bind_done _ _ _ _ 0 (set_encrypt e (set_tx tx2 y)) w)
    by (rewrite (bind_done _ _ _ _ e (set_tx tx2 y) w) by (unfold checked; by rewrite Ee); done).
  cbn [Z.eqb negb]. set (y1 := set_encrypt e (set_tx tx2 y)).
  rewrite (bind_done _ _ _ _ y1 y1 w), (bind_done _ _ _ _ data y1 w) by (by unfold get, checked; cbn; rewrite ?Ese).
  rewrite (bind_done _ _ _ _ tx3 y1 w) by (unfold checked; cbn; by rewrite Eb3).
  rewrite (bind_done _ _ _ _ tt (set_tx tx3 y1) w) by done. change (u16 (16 + 4)) with 20.
  unfold BLE_DataTransOverBle. pose proof Hl as [(_ & _ & _ & Hmtu) _].
  destruct (notify_clear (ble_link y) w tx3 20 Hl) as (l' & w2 & En & Hl' & Hml & Hlog); [lia..|].
  cbn [ble_link set_tx y1 set_encrypt]. rewrite En. exists tx3, e, l', w2. split; [reflexivity|].
  rewrite Hlog. do 2 f_equal. eapply (packet_bytes _ _ _ _ _ _ _ 16); [exact Eb1|exact Eb2|exact Eb3|done|done|lia].
Qed.

(** C32: both sides get the same key.  For every private key [b] of the phone and
    whatever the random generator returns, the device answers a key request in
    clear, and the key the phone computes from the answer and [b] is the key
    the device now encrypts with: the product of the three 16-bit numbers fits
    the six key bytes it fills, so nothing is lost by the 32-bit public keys. *)
Theorem key_agreement b fill y w :
  app_ok y -> link_clear (ble_link y) -> s_rx_ble_buf_index y = 0 -> 0 <= b < 65536 -> zlen fill = 8 ->
  exists y' w' reply, deliver (phone_key_request b g fill) y w = Done (tt, y', w') /\
    notified w' = notified w ++ [reply] /\ zlen reply = 20 /\
    phone_key (s_aes_base_key y) b reply = Some (s_aes_base_key y') /\ s_rx_ble_buf_index y' = 0.
Proof.
  intros Hy Hl Hrx Hb Hf. set (body := be_bytes32 BLE_PKEY_RX_CMD ++ be_bytes32 (b * g) ++ fill).
  assert (Hbody : zlen body = 16) by (unfold body; rewrite !zlen_app, Hf; done).
  assert (Hbg : 0 <= b * g <= 65535 * 65535) by (split; [|apply Z.mul_le_mono_nonneg]; lia).
  destruct (deliver_packet BLE_DATA_TYPE_PKEY body y w Hy Hrx) as [Hbuf E]; [done|done|lia|].
  unfold phone_key_request. fold body. rewrite E. clear E. cbv zeta in *. set (buf := packet_head _ ++ _) in *.
  set (rest := drop _ _) in *. set (y1 := set_rx buf _ y). unfold ble_comu_app_handle. rewrite Z.eqb_refl.
  unfold ble_comu_key_data_handle.
  assert (E0 : be32 (body ++ rest) 0 = Some BLE_PKEY_RX_CMD) by (unfold body; rewrite <- app_assoc; by apply (be32_bytes _ [])).
  assert (E4 : be32 (body ++ rest) 4 = Some (b * g))
    by (unfold body; rewrite <- !app_assoc; apply (be32_bytes _ (be_bytes32 _)); [lia|done]).
  destruct (generate_pkey_works y1 w) as (a & w1 & Ha & Hw1 & Eg).
  assert (Hag : 0 <= a * g <= 65535 * 65535) by (split; [|apply Z.mul_le_mono_nonneg]; lia).
  set (y2 := set_key a _ y1) in *.
  assert (Hp : (b * g * a) mod 2 ^ 64 = a * g * b).
  { replace (b * g * a) with (a * g * b) by ring. apply Z.mod_small. split; [lia|].
    assert (a * g * b <= 65535 * 65535 * 65535) by (apply Z.mul_le_mono_nonneg; lia). change (2 ^ 64) with 18446744073709551616. lia. }
  destruct (mix_key (s_aes_base_key y) (a * g * b)) as [k|] eqn:Ek;
    [|unfold mix_key in Ek; rewrite arr_blit_Some in Ek; [done|lia|rewrite (ao_key _ Hy); done]].
  pose proof (arr_blit_length _ _ _ _ Ek) as Hk. rewrite (ao_key _ Hy) in Hk.
  destruct (random_bytes_works 8 0 (set_key a k y2) w1) as (rnd & w2 & Er & Hr & Hw2).
  set (out := [BLE_COMU_CMD_START; BLE_PKEY_RSP_DATA1; BLE_COMU_DEV_CODE; BLE_PKEY_RSP_DATA3] ++ be_bytes32 (a * g) ++ rnd).
  destruct (send_clear_works out (set_key a k y2) w2) as (tx & e & l & w3 & Es & Hw3);
    [by destruct Hy; split|done|unfold out; rewrite !zlen_app; change (zlen [_; _; _; _]) with 4; change (zlen (be_bytes32 _)) with 4; unfold zlen; lia|].
  eexists _, w3, _. split; [|split; [rewrite Hw3, Hw2, Hw1; reflexivity|]].
  - rewrite (bind_done _ _ _ _ tt (set_link l (set_tx tx (set_encrypt e (set_key a k y2)))) w3); [reflexivity|].
    rewrite (bind_done _ _ _ _ BLE_PKEY_RX_CMD y1 w) by (unfold checked; by rewrite E0). rewrite Z.eqb_refl. cbn [negb].
    rewrite (bind_done _ _ _ _ (b * g) y1 w) by (unfold checked; by rewrite E4).
    rewrite (bind_done _ _ _ _ (a * g) y2 w1 Eg), (bind_done _ _ _ _ y2 y2 w1) by done.
    change (s_prva_a y2) with a. change (s_aes_base_key y2) with (s_aes_base_key y). rewrite Hp.
    rewrite (bind_done _ _ _ _ k y2 w1) by (unfold checked; by rewrite Ek).
    rewrite (bind_done _ _ _ _ tt (set_key a k y2) w1) by done. rewrite (bind_done _ _ _ _ rnd _ w2 Er). exact Es.
  - split; [unfold out; rewrite !zlen_app; change (zlen (packet_head _)) with 4; change (zlen [_; _; _; _]) with 4; change (zlen (be_bytes32 _)) with 4; unfold zlen; lia|].
    split; [|done]. unfold phone_key, out. rewrite (app_assoc (packet_head _)), be32_bytes; [exact Ek|lia|done].
Qed.
End exchange.
