(* ===== verification/BleReply.v ===== *)
(** * Replies are delivered

    The invariant of a transmission in progress and the theorem that a reply
    reaches the phone. *)

From S2P Require Import Prelude Prog BleLink BleCrypto BleApp BleAppProofs BleDelivery.

Open Scope prog_scope.

Section reply.
Context {W : Type} {GW : Gatt W} {PW : Psa W} {CW : BleClients W} {GL : GattLog W} {PWK : PsaWorks W} {BW : BleWorks W}.
Context (key data : list Z) (Hdata : 0 < zlen data <= 1024).
Implicit Types (y : ble_app) (w : W).

(** A connected device with room for two blocks in a packet, no request waiting
    and [rx] bytes in the receive buffer. *)
Record device (rx : Z) y : Prop := {
  dv_ok : app_ok y;
  dv_link : link_clear (ble_link y);
  dv_room : 32 <= data_room (ble_link y);
  dv_key : s_aes_base_key y = key;
  dv_rx : s_rx_ble_buf_index y = rx;
  dv_wait : pending (s_packet_trans_wait y) = false
}.

(** A packet has left; everything else is as before. *)
Definition sent rx type proto seq off len hdr y w (o : res (unit * ble_app * W)) : Prop :=
  exists y' w', o = Done (tt, y', w') /\ device rx y' /\ data_room (ble_link y') = data_room (ble_link y) /\
    s_packet_trans_data y' = recorded proto seq off len (s_packet_trans_data y) /\ rsp_timer y' = true /\
    last (notified w') = Some (packet key type
      (payload hdr (take (Z.to_nat len) (drop (Z.to_nat off) (trans_data (s_packet_trans_data y)))))).

Lemma sent_of_packet_sent rx type proto seq off len hdr y w o :
  device rx y -> packet_sent type proto seq off len hdr y w o -> sent rx type proto seq off len hdr y w o.
Proof.
  intros [Hok Hl Hr Hk Hx Hp] (b & tx & e & l & w' & -> & Hb & Htx & He & Hl' & Hm & Hlog).
  assert (Hroom : data_room l = data_room (ble_link y)) by (unfold data_room, BLE_SERVER_MAX_DATA_LEN; by rewrite Hm).
  eexists _, w'. split; [reflexivity|]. split.
  - split; cbn; try done; [|lia]. destruct Hok. split; cbn; try done. apply Hl'.
  - cbn. split; [done|]. split; [done|]. split; [done|]. by rewrite Hlog, last_snoc, Hk.
Qed.

(** ** Several packets *)

Definition is_last off len : bool := zlen data <=? off + len.
Definition seq_of k off len : Z := if is_last off len then BLE_PACKET_TRANS_SEQ_LAST else k.
Definition header_of k off len : list Z := multiple_header (seq_of k off len) (zlen data) len (off =? 0).
Definition chunk_of off len : list Z := take (Z.to_nat len) (drop (Z.to_nat off) data).

Record bounds k off len room : Prop := {
  bd_k : 0 <= k /\ 10 * k <= off;
  bd_len : 0 < len /\ off + len <= zlen data;
  bd_first : (k = 0 <-> off = 0) /\ (off = 0 -> off + len < zlen data);
  bd_ten : off + len < zlen data -> 10 <= len;
  bd_fit : zlen (header_of k off len) + len <= room - 16
}.

(** Packet [k] with the bytes from [off] is on its way, after [cnt] repetitions. *)
Record awaiting k off len cnt y w : Prop := {
  aw_dev : device 0 y;
  aw_timer : rsp_timer y = true;
  aw_trans : exists td, take (length data) td = data /\
    s_packet_trans_data y = mk_trans td (zlen data) (off + len) off len
      (if is_last off len then 0 else k + 1) cnt (seq_of k off len) BLE_PACKET_PROTO_MULTIPLE true true;
  aw_log : last (notified w) = Some (packet key BLE_DATA_TYPE_PACKET_MULTIPLE (payload (header_of k off len) (chunk_of off len)));
  aw_bounds : bounds k off len (data_room (ble_link y));
  aw_cnt : 0 <= cnt <= 3
}.

(** A chunk of the buffer is a chunk of the reply. *)
Lemma chunk_data td off len :
  take (length data) td = data -> 0 <= off -> 0 <= len -> off + len <= zlen data ->
  take (Z.to_nat len) (drop (Z.to_nat off) td) = chunk_of off len.
Proof.
  intros Ht Ho Hl Hs. unfold chunk_of. rewrite !take_drop_commute. f_equal. set (n := (_ + _)%nat).
  transitivity (take n (take (length data) td)); [|by rewrite Ht].
  rewrite take_take. f_equal. unfold zlen in Hs. lia.
Qed.

Lemma chunk_len off len : 0 <= off -> 0 <= len -> off + len <= zlen data -> zlen (chunk_of off len) = len.
Proof. intros. unfold chunk_of. rewrite zlen_take, zlen_drop. lia. Qed.

(** The sending routine establishes the invariant, whatever it repeats. *)
Lemma send_awaiting rx k off len td nseq cnt y w :
  device rx y -> take (length data) td = data -> bounds k off len (data_room (ble_link y)) -> 0 <= cnt <= 3 ->
  forall soff lo ll ls lp wa, s_packet_trans_data y = mk_trans td (zlen data) soff lo ll nseq cnt ls lp wa true ->
  exists y' w', ble_multiple_packet_send (seq_of k off len) off len (off =? 0) y w = Done (tt, y', w') /\
    device rx y' /\ data_room (ble_link y') = data_room (ble_link y) /\ rsp_timer y' = true /\
    s_packet_trans_data y' = mk_trans td (zlen data) soff off len nseq cnt (seq_of k off len) BLE_PACKET_PROTO_MULTIPLE true true /\
    last (notified w') = Some (packet key BLE_DATA_TYPE_PACKET_MULTIPLE (payload (header_of k off len) (chunk_of off len))).
Proof.
  intros Hd Htd [Hk [Hl1 Hl2] Hf _ Hfit] Hcnt soff lo ll ls lp wa Ht. pose proof Hd as [Hok Hl Hr Hkey Hx Hp].
  pose proof (multiple_send_works (seq_of k off len) off len (off =? 0) y w Hok Hl) as Hs.
  rewrite Ht in Hs. cbn [total_len] in Hs. fold (header_of k off len) in Hs.
  apply (sent_of_packet_sent rx) in Hs; [|done|lia..].
  destruct Hs as (y' & w' & E & Hd' & Hroom & Ht' & Htm & Hlog). exists y', w'. split; [done|].
  split; [done|]. split; [done|]. split; [done|]. rewrite Ht' , Ht. split; [done|].
  rewrite Hlog, Ht. cbn [trans_data]. rewrite chunk_data by (done || lia). done.
Qed.

(** The timer expires: the packet is sent again. *)
Lemma awaiting_timeout k off len cnt y w :
  awaiting k off len cnt y w -> cnt < 3 ->
  exists y' w', timer_fires y w = Done (tt, y', w') /\ awaiting k off len (cnt + 1) y' w'.
Proof.
  intros [Hd Htm (td & Htd & Ht) Hlog Hb Hcnt] Hlt. unfold timer_fires.
  rewrite (bind_done _ _ _ _ true y w) by (unfold get; by rewrite Htm). cbv iota.
  rewrite (bind_done _ _ _ _ tt (set_timer false y) w) by done. unfold ble_packet_trans_timeout_handler.
  rewrite (bind_done _ _ _ _ (set_timer false y) (set_timer false y) w) by done. cbv zeta.
  cbn [s_packet_trans_data set_timer ble_link]. rewrite Ht. cbn [is_busy waiting_ack negb orb].
  destruct (dv_link _ _ Hd) as (_ & Hready & _). rewrite Hready. cbn [negb]. unfold BLE_PACKET_TRANS_MAX_RETRY.
  cbn [retry_cnt]. rewrite (proj2 (Z.leb_gt 3 cnt)), u8_small by lia.
  cbn [trans_data total_len sent_offset last_offset last_len next_seq last_seq last_proto_type is_busy waiting_ack].
  set (y1 := set_trans (mk_trans td (zlen data) (off + len) off len (if is_last off len then 0 else k + 1) (cnt + 1)
                          (seq_of k off len) BLE_PACKET_PROTO_MULTIPLE true true) (set_timer false y)).
  rewrite (bind_done _ _ _ _ tt y1 w) by done.
  change (BLE_PACKET_PROTO_MULTIPLE =? BLE_PACKET_PROTO_SINGLE) with false. rewrite Z.eqb_refl. cbv iota.
  assert (Hd1 : device 0 y1) by (destruct Hd as [[] ? ? ? ? ?]; split; [split|..]; try done; by rewrite Ht in *).
  destruct (send_awaiting 0 k off len td (if is_last off len then 0 else k + 1) (cnt + 1) y1 w Hd1 Htd Hb ltac:(lia)
              (off + len) off len (seq_of k off len) BLE_PACKET_PROTO_MULTIPLE true eq_refl)
    as (y' & w' & E & Hd' & Hroom & Htm' & Ht' & Hlog').
  exists y', w'. split; [exact E|]. split; [done|done|by exists td|done|by rewrite Hroom|lia].
Qed.

Lemma varint_mono a b : a <= b -> zlen (varint a) <= zlen (varint b).
Proof.
  intros H. rewrite !zlen_varint. unfold VARINT_IS_2BYTE. destruct (Z.ltb_spec 127 a), (Z.ltb_spec 127 b); lia.
Qed.

Definition first_header : Z :=
  let mlb := zlen (varint (zlen data)) in zlen (varint (2 + mlb + zlen data)) + 1 + 1 + mlb.

Lemma first_bounds room :
  32 <= room <= 480 -> room mod 16 = 0 -> room - 16 < zlen (single_header (zlen data)) + zlen data ->
  bounds 0 0 (room - first_header - 16) room /\ room - first_header - 16 < zlen data.
Proof.
  intros Hr Hr16 Hbig. rewrite single_header_len, <- !zlen_varint in Hbig by done. unfold first_header.
  set (mlb := zlen (varint (zlen data))) in *. pose proof (varint_len (zlen data)) as Hm. fold mlb in Hm.
  pose proof (varint_len (2 + mlb + zlen data)) as Hv. pose proof (varint_mono (1 + mlb + zlen data) (2 + mlb + zlen data) ltac:(lia)).
  set (h := zlen (varint (2 + mlb + zlen data)) + 1 + 1 + mlb). set (p := room - h - 16).
  assert (Hp : p < zlen data) by lia.
  assert (Hlast : is_last 0 p = false) by (apply Z.leb_gt; lia).
  split; [|done]. split; [lia|lia|lia|lia|].
  unfold header_of, seq_of. rewrite Hlast. cbn [Z.eqb]. unfold multiple_header.
  rewrite !zlen_app, (u16_small (1 + p)), <- zlen_varint by lia. fold mlb. rewrite u16_small, !zlen_cons by lia. fold mlb.
  change (zlen (@nil Z)) with 0. pose proof (varint_mono (1 + p + 1 + mlb) (2 + mlb + zlen data) ltac:(lia)). lia.
Qed.

Definition next_len off len room : Z :=
  let remaining := zlen data - (off + len) in
  let p := room - ((if VARINT_IS_2BYTE (1 + remaining) then 2 else 1) + 1) - 16 in
  if remaining <? p then remaining else p.

Lemma next_bounds k off len room :
  32 <= room <= 480 -> bounds k off len room -> off + len < zlen data ->
  bounds (k + 1) (off + len) (next_len off len room) room /\ 0 < next_len off len room.
Proof.
  intros Hr [Hk [Hl1 Hl2] Hf Hten _] Hmore. unfold next_len. set (rem := zlen data - (off + len)).
  rewrite <- zlen_varint. pose proof (varint_len (1 + rem)) as Hv. set (h := zlen (varint (1 + rem)) + 1).
  set (p := if rem <? room - h - 16 then rem else room - h - 16).
  assert (Hp : 0 < p <= rem /\ p <= room - h - 16 /\ (p < rem -> 10 <= p))
    by (unfold p; destruct (Z.ltb_spec rem (room - h - 16)); lia).
  split; [|lia]. split; [lia|lia|lia|lia|].
  unfold header_of, multiple_header. rewrite (proj2 (Z.eqb_neq (off + len) 0)) by lia.
  rewrite !zlen_app, (u16_small (1 + p)) by lia. change (zlen [_]) with 1. change (zlen []) with 0.
  pose proof (varint_mono (1 + p) (1 + rem) ltac:(lia)). lia.
Qed.

(** A new reply that does not fit one packet. *)
Lemma start_awaiting rest y w :
  device 0 y -> is_busy (s_packet_trans_data y) = false ->
  ble_single_packet_can_send (ble_link y) (zlen data) = false ->
  exists len y' w', ble_packet_trans_send (Some (data ++ rest)) (zlen data) y w = Done (tt, y', w') /\
    awaiting 0 0 len 0 y' w'.
Proof.
  intros Hd Hidle Hcs. pose proof Hd as [Hok Hl Hr Hkey Hx Hp]. pose proof (ao_link _ Hok) as Hlk.
  pose proof Hcs as Hcs0. rewrite can_send_spec in Hcs by done. apply Z.leb_gt in Hcs.
  destruct (data_room_spec _ Hlk) as (Hr16 & _ & Hr480). set (room := data_room (ble_link y)) in *.
  destruct (first_bounds room ltac:(lia) Hr16 Hcs) as [Hb Hsmall]. set (p := room - first_header - 16) in *.
  unfold ble_packet_trans_send, RESP_STRING_LENGTH_MAX. rewrite (proj2 (Z.eqb_neq (zlen data) 0)), (proj2 (Z.ltb_ge 1024 (zlen data))) by lia.
  rewrite (bind_done _ _ _ _ y y w) by done.
  assert (Es : arr_slice (data ++ rest) 0 (zlen data) = Some data) by (by apply (arr_slice_app [])).
  rewrite (bind_done _ _ _ _ data y w) by (unfold checked; by rewrite Es). rewrite Hidle.
  set (td := data ++ drop (length data) (trans_data zero_trans)).
  assert (Et : arr_blit (trans_data zero_trans) 0 data = Some td).
  { rewrite arr_blit_Some; [done|lia|]. change (zlen (trans_data zero_trans)) with 1024. lia. }
  rewrite (bind_done _ _ _ _ td y w) by (unfold checked; by rewrite Et).
  rewrite (bind_done _ _ _ _ tt (set_trans (mk_trans td (zlen data) 0 0 0 0 0 0 0 false true) y) w) by done.
  rewrite Hcs0. cbv zeta. fold room. rewrite <- !zlen_varint, (u16_small room) by lia.
  pose proof (varint_len (zlen data)) as Hm. rewrite (u16_small (1 + 1 + _ + _)) by lia.
  assert (Hp0 : u16 (room - (zlen (varint (1 + 1 + zlen (varint (zlen data)) + zlen data)) + 1 + 1 + zlen (varint (zlen data))) - 16) = p).
  { unfold p, first_header in *. cbv zeta in *. destruct Hb as [_ [Hb1 _] _ _ _]. change (1 + 1) with 2. rewrite u16_small; lia. }
  rewrite Hp0, (proj2 (Z.ltb_lt p (zlen data))) by lia.
  set (y1 := set_trans (mk_trans td (zlen data) 0 0 0 1 0 0 0 false true) y).
  rewrite (bind_done _ _ _ _ tt y1 w) by done.
  assert (Htd : take (length data) td = data) by (unfold td; apply take_app_length).
  assert (Hd1 : device 0 y1).
  { destruct Hd as [[] ? ? ? ? ?]; split; [split|..]; try done. cbn. pose proof (arr_blit_length _ _ _ _ Et) as HH. by rewrite HH. }
  assert (Hnl : is_last 0 p = false) by (apply Z.leb_gt; lia).
  destruct (send_awaiting 0 0 0 p td 1 0 y1 w Hd1 Htd Hb ltac:(lia) 0 0 0 0 0 false eq_refl)
    as (y' & w' & E & Hd' & Hroom & Htm' & Ht' & Hlog').
  assert (Hsq : seq_of 0 0 p = 0) by (unfold seq_of; by rewrite Hnl). rewrite Hsq in *.
  rewrite (bind_done _ _ _ _ tt y' w' E). unfold modify.
  eexists p, _, w'. split; [reflexivity|]. rewrite Ht'.
  split; cbn [s_packet_trans_data rsp_timer set_trans ble_link]; try done; [| |by rewrite Hroom].
  - destruct Hd' as [[] ? ? ? ? ?]; split; [split|..]; try done. by rewrite Ht' in *.
  - exists td. split; [done|]. by rewrite Hnl, Hsq.
Qed.

(** The acknowledgement of the packet the device waits for. *)
Lemma ack_handle_continue seq rest y w :
  is_busy (s_packet_trans_data y) = true -> waiting_ack (s_packet_trans_data y) = true ->
  last_proto_type (s_packet_trans_data y) = BLE_PACKET_PROTO_MULTIPLE ->
  ble_multiple_packet_ack_handle ([1; seq] ++ rest) 16 y w = ble_multiple_packet_continue seq y w.
Proof.
  intros Hb Hw Hp. unfold ble_multiple_packet_ack_handle. change (16 <? 2) with false. cbv iota.
  rewrite (bind_done _ _ _ _ (s_packet_trans_data y) y w) by done. rewrite Hb, Hw, Hp. cbn [negb orb Z.eqb BLE_PACKET_PROTO_MULTIPLE Pos.eqb].
  rewrite (bind_done _ _ _ _ 1 y w) by done. change (negb (Z.land 1 0x80 =? 0)) with false. cbn [andb].
  rewrite (bind_done _ _ _ _ 0 y w) by done. change (16 <? u16 (1 + 1)) with false. cbv iota.
  rewrite (bind_done _ _ _ _ seq y w) by done. done.
Qed.

(** The device is idle again, with the timer stopped. *)
Definition idle y : Prop := device 0 y /\ is_busy (s_packet_trans_data y) = false /\ rsp_timer y = false.

Lemma complete_idle rx y w :
  device rx y -> exists y', ble_packet_trans_complete_current y w = Done (tt, y', w) /\ device rx y' /\
    is_busy (s_packet_trans_data y') = false /\ rsp_timer y' = false.
Proof.
  intros Hd. unfold ble_packet_trans_complete_current, ble_packet_trans_reset_state.
  set (y1 := set_trans zero_trans (set_timer false y)). rewrite (bind_done _ _ _ _ tt y1 w) by done.
  unfold ble_packet_trans_try_start_pending. rewrite (bind_done _ _ _ _ y1 y1 w) by done. cbv zeta.
  change (s_packet_trans_wait y1) with (s_packet_trans_wait y). rewrite (dv_wait _ _ Hd). exists y1.
  split; [done|]. split; [|done]. destruct Hd as [[] ? ? ? ? ?]; split; [split|..]; done.
Qed.

Lemma continue_last rx k off len cnt y w td :
  device rx y -> take (length data) td = data -> off + len = zlen data ->
  s_packet_trans_data y = mk_trans td (zlen data) (off + len) off len 0 cnt (seq_of k off len) BLE_PACKET_PROTO_MULTIPLE true true ->
  exists y', ble_multiple_packet_continue (seq_of k off len) y w = Done (tt, y', w) /\ device rx y' /\
    is_busy (s_packet_trans_data y') = false /\ rsp_timer y' = false.
Proof.
  intros Hd Htd Hlast Ht. unfold ble_multiple_packet_continue. rewrite (bind_done _ _ _ _ y y w) by done. cbv zeta.
  rewrite Ht. cbn [is_busy waiting_ack negb orb last_seq]. rewrite Z.eqb_refl. cbn [negb].
  set (y1 := set_trans (mk_trans td (zlen data) (off + len) off len 0 0 (seq_of k off len) BLE_PACKET_PROTO_MULTIPLE false true) (set_timer false y)).
  rewrite (bind_done _ _ _ _ tt y1 w).
  2:{ unfold ack_accepted, bind, modify. cbn [s_packet_trans_data set_timer]. by rewrite Ht. }
  cbn [total_len sent_offset]. rewrite Hlast, Z.sub_diag. change (u16 0 =? 0) with true. cbv iota.
  apply complete_idle. destruct Hd as [[] ? ? ? ? ?]; split; [split|..]; try done. by rewrite Ht in *.
Qed.

(** What is left in the buffers after [deliver] and the handler. *)
Definition next_trans k off len p td : packet_trans_t :=
  mk_trans td (zlen data) (off + len + p) (off + len) p (if is_last (off + len) p then 0 else k + 2) 0
    (seq_of (k + 1) (off + len) p) BLE_PACKET_PROTO_MULTIPLE true true.

Lemma continue_next rx k off len cnt y w td :
  device rx y -> take (length data) td = data -> bounds k off len (data_room (ble_link y)) -> off + len < zlen data ->
  s_packet_trans_data y = mk_trans td (zlen data) (off + len) off len (k + 1) cnt (seq_of k off len) BLE_PACKET_PROTO_MULTIPLE true true ->
  let p := next_len off len (data_room (ble_link y)) in
  exists y' w', ble_multiple_packet_continue (seq_of k off len) y w = Done (tt, y', w') /\ device rx y' /\
    data_room (ble_link y') = data_room (ble_link y) /\ rsp_timer y' = true /\
    s_packet_trans_data y' = next_trans k off len p td /\
    last (notified w') = Some (packet key BLE_DATA_TYPE_PACKET_MULTIPLE
      (payload (header_of (k + 1) (off + len) p) (chunk_of (off + len) p))).
Proof.
  intros Hd Htd Hb Hmore Ht p. pose proof Hd as [Hok Hl Hr Hkey Hx Hp]. pose proof (ao_link _ Hok) as Hlk.
  destruct (data_room_spec _ Hlk) as (Hr16 & _ & Hr480). set (room := data_room (ble_link y)) in *.
  destruct (next_bounds k off len room ltac:(lia) Hb Hmore) as [Hb' Hp0]. fold p in Hb', Hp0.
  pose proof Hb as [Hk [Hl1 Hl2] _ _ _]. pose proof Hb' as [Hk' [_ Hl2'] _ _ _].
  unfold ble_multiple_packet_continue. rewrite (bind_done _ _ _ _ y y w) by done. cbv zeta.
  rewrite Ht. cbn [is_busy waiting_ack negb orb last_seq]. rewrite Z.eqb_refl. cbn [negb].
  set (y1 := set_trans (mk_trans td (zlen data) (off + len) off len (k + 1) 0 (seq_of k off len) BLE_PACKET_PROTO_MULTIPLE false true) (set_timer false y)).
  rewrite (bind_done _ _ _ _ tt y1 w).
  2:{ unfold ack_accepted, bind, modify. cbn [s_packet_trans_data set_timer]. by rewrite Ht. }
  cbn [total_len sent_offset next_seq]. fold room. rewrite (u16_small (zlen data - (off + len))), (u16_small room) by lia.
  rewrite (proj2 (Z.eqb_neq (zlen data - (off + len)) 0)) by lia.
  set (q := u16 (room - _ - 16)).
  assert (Hq : q = room - ((if VARINT_IS_2BYTE (1 + (zlen data - (off + len))) then 2 else 1) + 1) - 16)
    by (unfold q; apply u16_small; destruct (VARINT_IS_2BYTE _); lia).
  assert (Hpq : (if zlen data - (off + len) <? q then zlen data - (off + len) else q) = p) by (rewrite Hq; done).
  rewrite Hpq. fold (is_last (off + len) p). fold (seq_of (k + 1) (off + len) p).
  set (y2 := set_trans (mk_trans td (zlen data) (off + len) off len (if is_last (off + len) p then 0 else k + 2) 0
                          (seq_of k off len) BLE_PACKET_PROTO_MULTIPLE false true) (set_timer false y)).
  rewrite (bind_done _ _ _ _ tt y2 w).
  2:{ unfold modify, y1. cbn [s_packet_trans_data set_trans trans_data total_len sent_offset last_offset last_len next_seq
        retry_cnt last_seq last_proto_type waiting_ack is_busy]. rewrite u8_small by lia. by replace (k + 1 + 1) with (k + 2) by lia. }
  assert (Hd2 : device rx y2) by (destruct Hd as [[] ? ? ? ? ?]; split; [split|..]; try done; by rewrite Ht in *).
  destruct (send_awaiting rx (k + 1) (off + len) p td _ 0 y2 w Hd2 Htd Hb' ltac:(lia) _ _ _ _ _ _ eq_refl)
    as (y' & w' & E & Hd' & Hroom & Htm' & Ht' & Hlog').
  rewrite (proj2 (Z.eqb_neq (off + len) 0)) in E by lia. rewrite (bind_done _ _ _ _ tt y' w' E). unfold modify.
  eexists _, w'. split; [reflexivity|]. rewrite Ht'.
  cbn [s_packet_trans_data set_trans trans_data total_len sent_offset last_offset last_len next_seq
        retry_cnt last_seq last_proto_type waiting_ack is_busy ble_link rsp_timer]. rewrite (u16_small (off + len + p)) by lia.
  split; [|done]. destruct Hd' as [[] ? ? ? ? ?]; split; [split|..]; try done. by rewrite Ht' in *.
Qed.

Lemma device_rx rx rx' buf b y : device rx y -> zlen buf = 495 -> zlen b = 528 -> device rx' (set_decrypt b (set_rx buf rx' y)).
Proof. intros [[] ? ? ? ? ?] Hbuf Hb. split; [split|..]; done. Qed.

Lemma device_done rx y : device rx y -> device 0 (set_rx (s_rx_ble_buf y) 0 y).
Proof. intros [[] ? ? ? ? ?]. split; [split|..]; done. Qed.

(** Where an acknowledged packet leads. *)
Lemma ack_step k off len cnt y w :
  awaiting k off len cnt y w ->
  exists y' w', deliver (phone_ack key (seq_of k off len)) y w = Done (tt, y', w') /\
    (off + len = zlen data /\ idle y' \/
     exists len', awaiting (k + 1) (off + len) len' 0 y' w').
Proof.
  intros [Hd Htm (td & Htd & Ht) Hlog Hb Hcnt]. pose proof Hb as [_ [Hl1 Hl2] _ _ _].
  set (block := [1; seq_of k off len] ++ replicate 14 0).
  destruct (deliver_block key BLE_DATA_TYPE_PACKET_MULTIPLE block (fun b => ble_multiple_packet_ack_handle b 16) y w)
    as (buf & w1 & Hw1 & Hbuf & E); [apply Hd|apply Hd|apply Hd|done|by right|]. cbv zeta in E.
  unfold phone_ack. fold block. rewrite E. set (b := block ++ replicate 512 0). set (y1 := set_decrypt b (set_rx buf 20 y)).
  assert (Hd1 : device 20 y1) by (by apply (device_rx 0)).
  assert (Ht1 : s_packet_trans_data y1 = s_packet_trans_data y) by done.
  assert (Eh : ble_multiple_packet_ack_handle b 16 y1 w1 = ble_multiple_packet_continue (seq_of k off len) y1 w1)
    by (apply (ack_handle_continue (seq_of k off len) (replicate 14 0 ++ replicate 512 0)); by rewrite Ht1, Ht).
  unfold is_last in Ht. destruct (Z.leb_spec (zlen data) (off + len)).
  - destruct (continue_last 20 k off len cnt y1 w1 td Hd1 Htd ltac:(lia)) as (y' & Ec & Hd' & Hbz & Htm'); [by rewrite Ht1|].
    eexists _, w1. split; [by rewrite (bind_done _ _ _ _ tt y' w1) by (by rewrite Eh)|]. left. split; [lia|].
    split; [by apply (device_done 20)|done].
  - destruct (continue_next 20 k off len cnt y1 w1 td Hd1 Htd Hb ltac:(lia)) as (y' & w' & Ec & Hd' & Hroom & Htm' & Ht' & Hlog');
      [by rewrite Ht1|].
    eexists _, w'. split; [by rewrite (bind_done _ _ _ _ tt y' w') by (by rewrite Eh)|]. right.
    eexists. split; [by apply (device_done 20)|done|exists td|exact Hlog'| |lia].
    + split; [done|]. cbn [s_packet_trans_data set_rx]. rewrite Ht'. unfold next_trans. by replace (k + 1 + 1) with (k + 2) by lia.
    + cbn [ble_link set_rx]. rewrite Hroom. apply next_bounds; [|done|lia].
      destruct (data_room_spec _ (ao_link _ (dv_ok _ _ Hd))) as (_ & _ & Hr480). pose proof (dv_room _ _ Hd). done.
Qed.

(** ** The phone's side *)

Definition ph_before k off len ph : Prop := off = 0 \/ (ph_seq ph <> seq_of k off len /\ ph_text ph = take (Z.to_nat off) data).
Definition ph_after k off len ph : Prop :=
  ph_seq ph = seq_of k off len /\ ph_text ph = take (Z.to_nat (off + len)) data /\
  (off + len = zlen data -> ph_done ph = Some data).

Lemma prefix_chunk off len : 0 <= off -> 0 <= len -> take (Z.to_nat off) data ++ chunk_of off len = take (Z.to_nat (off + len)) data.
Proof.
  intros Ho Hl. unfold chunk_of. rewrite Z2Nat.inj_add by lia. generalize (Z.to_nat off), (Z.to_nat len). intros i j.
  clear. revert data. induction i as [|i IH]; intros [|x l]; simpl; rewrite ?take_nil; try done. by rewrite IH.
Qed.

Lemma phone_step k off len room ph :
  bounds k off len room -> room <= 480 -> ph_before k off len ph \/ ph_after k off len ph ->
  exists ph', phone_read key ph (packet key BLE_DATA_TYPE_PACKET_MULTIPLE (payload (header_of k off len) (chunk_of off len)))
              = Some (ph', phone_ack key (seq_of k off len)) /\ ph_after k off len ph'.
Proof.
  intros [[Hk0 Hk] [Hl1 Hl2] [Hkf Hfirst] _ _] Hroom Hph.
  pose proof (chunk_len off len ltac:(lia) ltac:(lia) Hl2) as Hc.
  pose proof (prefix_chunk off len ltac:(lia) ltac:(lia)) as Hpc. unfold header_of.
  destruct (Z.eqb_spec off 0) as [->|Hoff].
  - assert (Hnl : seq_of k 0 len = 0).
    { unfold seq_of, is_last. rewrite (proj2 (Z.leb_gt _ _)) by (specialize (Hfirst eq_refl); lia). by apply Hkf. }
    pose proof (read_first key ph (zlen data) (chunk_of 0 len) ltac:(lia) ltac:(lia)) as HH.
    rewrite Hc in HH. rewrite Hnl, HH. eexists. split; [done|].
    split; [done|]. split; [exact Hpc|]. specialize (Hfirst eq_refl). lia.
  - assert (Hsq : seq_of k off len <> 0) by (unfold seq_of; destruct (is_last off len); [done|intros ->; lia]).
    pose proof (read_next key ph (zlen data) (seq_of k off len) (chunk_of off len) ltac:(lia) Hsq) as HH.
    rewrite Hc in HH. rewrite HH. eexists. split; [done|].
    destruct Hph as [[?|[Hne Htx]]|Haf]; [done| |pose proof Haf as [Hs _]; by rewrite Hs, Z.eqb_refl].
    rewrite (proj2 (Z.eqb_neq _ _)) by congruence. split; [done|]. cbn [ph_text ph_done]. rewrite Htx, Hpc. split; [done|].
    intros Hend. unfold seq_of, is_last. rewrite (proj2 (Z.leb_le _ _)) by lia. rewrite Z.eqb_refl, Hend.
    f_equal. apply take_ge. unfold zlen. lia.
Qed.

(** At most [r] more failures before the next success, then three each time. *)
Fixpoint fair (r : nat) (fates : list fate) : bool :=
  match fates with
  | [] => true
  | Through :: fates => fair 3 fates
  | _ :: fates => match r with O => false | S r => fair r fates end
  end.

Fixpoint throughs (fates : list fate) : nat :=
  match fates with
  | [] => 0
  | Through :: fates => S (throughs fates)
  | _ :: fates => throughs fates
  end.

Lemma session_step f fates ph y w ph' y' w' :
  is_busy (s_packet_trans_data y) = true -> round key f ph y w = Done (ph', y', w') ->
  session key (f :: fates) ph y w = session key fates ph' y' w'.
Proof.
  intros Hb E. cbn [session]. rewrite (bind_done _ _ _ _ (s_packet_trans_data y) y w) by done. rewrite Hb.
  by rewrite (bind_done _ _ _ _ ph' y' w' E).
Qed.

Lemma session_idle fates ph y w :
  is_busy (s_packet_trans_data y) = false -> session key fates ph y w = Done (ph, y, w).
Proof.
  intros Hb. destruct fates; cbn [session]; [done|]. rewrite (bind_done _ _ _ _ (s_packet_trans_data y) y w) by done. by rewrite Hb.
Qed.

Definition delivered (o : res (phone * ble_app * W)) : Prop :=
  exists ph y w, o = Done (ph, y, w) /\ ph_done ph = Some data /\ idle y.

Lemma session_multiple fates : forall k off len cnt y w ph,
  awaiting k off len cnt y w -> ph_before k off len ph \/ ph_after k off len ph ->
  fair (Z.to_nat (3 - cnt)) fates = true -> zlen data - off <= Z.of_nat (throughs fates) ->
  delivered (session key fates ph y w).
Proof.
  induction fates as [|f fates IH]; intros k off len cnt y w ph Ha Hph Hfair Hth;
    pose proof Ha as [Hd Htm (td & Htd & Ht) Hlog Hb Hcnt]; pose proof Hb as [_ [Hl1 Hl2] _ _ _]; [cbn in Hth; lia|].
  assert (Hbz : is_busy (s_packet_trans_data y) = true) by (by rewrite Ht).
  destruct (data_room_spec _ (ao_link _ (dv_ok _ _ Hd))) as (_ & _ & Hr480).
  destruct (phone_step k off len _ ph Hb Hr480 Hph) as (ph' & Hread & Haf).
  set (pk := packet key _ (payload _ _)) in *.
  assert (Hlt : f <> Through -> cnt < 3 /\ fair (Z.to_nat (3 - (cnt + 1))) fates = true).
  { intros Hf. cbn [fair] in Hfair. destruct (Z.to_nat (3 - cnt)) as [|r] eqn:Er; [by destruct f|].
    replace (Z.to_nat (3 - (cnt + 1))) with r by lia. split; [lia|]. by destruct f. }
  destruct f.
  - destruct Hlt as [Hc3 Hfair']; [done|]. destruct (awaiting_timeout k off len cnt y w Ha Hc3) as (y' & w' & E & Ha').
    rewrite (session_step _ _ _ _ _ ph y' w' Hbz); [by apply (IH k off len (cnt + 1))|].
    unfold round. rewrite (bind_done _ _ _ _ (notified w) y w) by done. by rewrite (bind_done _ _ _ _ tt y' w' E).
  - destruct Hlt as [Hc3 Hfair']; [done|]. destruct (awaiting_timeout k off len cnt y w Ha Hc3) as (y' & w' & E & Ha').
    rewrite (session_step _ _ _ _ _ ph' y' w' Hbz); [apply (IH k off len (cnt + 1)); try done; by right|].
    unfold round. rewrite (bind_done _ _ _ _ (notified w) y w) by done. rewrite Hlog. change (default [] (Some pk)) with pk.
    rewrite (bind_done _ _ _ _ (ph', phone_ack key (seq_of k off len)) y w) by (unfold checked; by rewrite Hread).
    by rewrite (bind_done _ _ _ _ tt y' w' E).
  - destruct (ack_step k off len cnt y w Ha) as (y' & w' & E & Hor).
    rewrite (session_step _ _ _ _ _ ph' y' w' Hbz).
    2:{ unfold round. rewrite (bind_done _ _ _ _ (notified w) y w) by done. rewrite Hlog. change (default [] (Some pk)) with pk.
        rewrite (bind_done _ _ _ _ (ph', phone_ack key (seq_of k off len)) y w) by (unfold checked; by rewrite Hread).
        by rewrite (bind_done _ _ _ _ tt y' w' E). }
    cbn [fair throughs] in Hfair, Hth. destruct Hor as [[Hend Hidle] | [len' Ha']].
    + rewrite session_idle by apply Hidle. exists ph', y', w'. split; [done|]. split; [by apply Haf|done].
    + apply (IH (k + 1) (off + len) len' 0); [done| |done|lia]. left. right. destruct Haf as (Hs & Htx & _). split; [|done].
      rewrite Hs. pose proof (bd_len _ _ _ _ (aw_bounds _ _ _ _ _ _ Ha')). pose proof (bd_k _ _ _ _ Hb).
      unfold seq_of, is_last. rewrite (proj2 (Z.leb_gt (zlen data) (off + len))) by lia.
      destruct (_ <=? _); unfold BLE_PACKET_TRANS_SEQ_LAST; lia.
Qed.

(** ** One packet *)

Record awaiting_single cnt y w : Prop := {
  as_dev : device 0 y;
  as_timer : rsp_timer y = true;
  as_trans : exists td, take (length data) td = data /\
    s_packet_trans_data y = mk_trans td (zlen data) 0 0 (zlen data) 0 cnt 0 BLE_PACKET_PROTO_SINGLE true true;
  as_log : last (notified w) = Some (packet key BLE_DATA_TYPE_PACKET_SINGLE (payload (single_header (zlen data)) data));
  as_fit : zlen (single_header (zlen data)) + zlen data <= data_room (ble_link y) - 16;
  as_cnt : 0 <= cnt <= 3
}.

Lemma send_single td cnt y w :
  device 0 y -> take (length data) td = data -> 0 <= cnt <= 3 ->
  zlen (single_header (zlen data)) + zlen data <= data_room (ble_link y) - 16 ->
  (exists lo ll ls lp wa, s_packet_trans_data y = mk_trans td (zlen data) 0 lo ll 0 cnt ls lp wa true) ->
  exists y' w', ble_single_packet_send (zlen data) y w = Done (tt, y', w') /\ awaiting_single cnt y' w'.
Proof.
  intros Hd Htd Hcnt Hfit (lo & ll & ls & lp & wa & Ht). pose proof Hd as [Hok Hl Hr Hkey Hx Hp].
  pose proof (single_send_works (zlen data) y w Hok Hl Hdata Hfit) as Hs.
  apply (sent_of_packet_sent 0) in Hs; [|done]. destruct Hs as (y' & w' & E & Hd' & Hroom & Ht' & Htm & Hlog).
  rewrite Ht in Ht', Hlog. exists y', w'. split; [done|].
  split; [done|done|by exists td| |by rewrite Hroom|done].
  rewrite Hlog. cbn [trans_data]. rewrite chunk_data by (done || lia). unfold chunk_of. rewrite drop_0, take_ge by (unfold zlen; lia). done.
Qed.

Lemma single_timeout cnt y w :
  awaiting_single cnt y w -> cnt < 3 ->
  exists y' w', timer_fires y w = Done (tt, y', w') /\ awaiting_single (cnt + 1) y' w'.
Proof.
  intros [Hd Htm (td & Htd & Ht) Hlog Hfit Hcnt] Hlt. unfold timer_fires.
  rewrite (bind_done _ _ _ _ true y w) by (unfold get; by rewrite Htm). cbv iota.
  rewrite (bind_done _ _ _ _ tt (set_timer false y) w) by done. unfold ble_packet_trans_timeout_handler.
  rewrite (bind_done _ _ _ _ (set_timer false y) (set_timer false y) w) by done. cbv zeta.
  cbn [s_packet_trans_data set_timer ble_link]. rewrite Ht. cbn [is_busy waiting_ack negb orb].
  destruct (dv_link _ _ Hd) as (_ & Hready & _). rewrite Hready. cbn [negb]. unfold BLE_PACKET_TRANS_MAX_RETRY.
  cbn [retry_cnt]. rewrite (proj2 (Z.leb_gt 3 cnt)), u8_small by lia.
  cbn [trans_data total_len sent_offset last_offset last_len next_seq last_seq last_proto_type is_busy waiting_ack].
  set (y1 := set_trans (mk_trans td (zlen data) 0 0 (zlen data) 0 (cnt + 1) 0 BLE_PACKET_PROTO_SINGLE true true) (set_timer false y)).
  rewrite (bind_done _ _ _ _ tt y1 w) by done. rewrite Z.eqb_refl.
  apply (send_single td); [|done|lia|done|by exists 0, (zlen data), 0, BLE_PACKET_PROTO_SINGLE, true].
  destruct Hd as [[] ? ? ? ? ?]; split; [split|..]; try done; by rewrite Ht in *.
Qed.

Lemma single_ack cnt y w :
  awaiting_single cnt y w -> exists y' w', deliver (phone_ack_single key) y w = Done (tt, y', w') /\ idle y'.
Proof.
  intros [Hd Htm (td & Htd & Ht) Hlog Hfit Hcnt].
  destruct (deliver_block key BLE_DATA_TYPE_PACKET_SINGLE (replicate 16 0) (fun _ => ble_single_packet_rsp_handle 16) y w)
    as (buf & w1 & Hw1 & Hbuf & E); [apply Hd|apply Hd|apply Hd|done|by left|]. cbv zeta in E.
  unfold phone_ack_single. rewrite E. set (b := replicate 16 0 ++ replicate 512 0). set (y1 := set_decrypt b (set_rx buf 20 y)).
  assert (Hd1 : device 20 y1) by (by apply (device_rx 0)).
  set (y2 := set_trans (mk_trans td (zlen data) 0 0 (zlen data) 0 0 0 BLE_PACKET_PROTO_SINGLE false true) (set_timer false y1)).
  assert (Hd2 : device 20 y2) by (destruct Hd1 as [[] ? ? ? ? ?]; split; [split|..]; try done; by cbn in *; rewrite Ht in *).
  destruct (complete_idle 20 y2 w1 Hd2) as (y' & Ec & Hd' & Hbz & Htm').
  eexists _, w1. split; [|split; [by apply (device_done 20)|done]].
  rewrite (bind_done _ _ _ _ tt y' w1); [done|]. unfold ble_single_packet_rsp_handle. change (16 <? 1) with false. cbv iota.
  rewrite (bind_done _ _ _ _ (s_packet_trans_data y) y1 w1) by done. rewrite Ht. cbn [is_busy waiting_ack last_proto_type negb orb].
  rewrite Z.eqb_refl. cbn [negb]. rewrite (bind_done _ _ _ _ tt y2 w1); [done|].
  unfold ack_accepted, bind, modify. cbn [s_packet_trans_data set_timer set_decrypt set_rx y1]. by rewrite Ht.
Qed.

Lemma session_single fates : forall cnt y w ph,
  awaiting_single cnt y w -> fair (Z.to_nat (3 - cnt)) fates = true -> 0 < Z.of_nat (throughs fates) ->
  delivered (session key fates ph y w).
Proof.
  induction fates as [|f fates IH]; intros cnt y w ph Ha Hfair Hth; [cbn in Hth; lia|].
  pose proof Ha as [Hd Htm (td & Htd & Ht) Hlog Hfit Hcnt].
  assert (Hbz : is_busy (s_packet_trans_data y) = true) by (by rewrite Ht).
  set (ph' := mk_phone [] (-1) (Some data)). set (pk := packet key _ (payload _ _)) in *.
  assert (Hread : phone_read key ph pk = Some (ph', phone_ack_single key)) by (by apply read_single).
  assert (Hlt : f <> Through -> cnt < 3 /\ fair (Z.to_nat (3 - (cnt + 1))) fates = true).
  { intros Hf. cbn [fair] in Hfair. destruct (Z.to_nat (3 - cnt)) as [|r] eqn:Er; [by destruct f|].
    replace (Z.to_nat (3 - (cnt + 1))) with r by lia. split; [lia|]. by destruct f. }
  destruct f.
  - destruct Hlt as [Hc3 Hfair']; [done|]. destruct (single_timeout cnt y w Ha Hc3) as (y' & w' & E & Ha').
    rewrite (session_step _ _ _ _ _ ph y' w' Hbz); [by apply (IH (cnt + 1))|].
    unfold round. rewrite (bind_done _ _ _ _ (notified w) y w) by done. by rewrite (bind_done _ _ _ _ tt y' w' E).
  - destruct Hlt as [Hc3 Hfair']; [done|]. destruct (single_timeout cnt y w Ha Hc3) as (y' & w' & E & Ha').
    rewrite (session_step _ _ _ _ _ ph' y' w' Hbz); [by apply (IH (cnt + 1))|].
    unfold round. rewrite (bind_done _ _ _ _ (notified w) y w) by done. rewrite Hlog. change (default [] (Some pk)) with pk.
    rewrite (bind_done _ _ _ _ (ph', phone_ack_single key) y w) by (unfold checked; by rewrite Hread).
    by rewrite (bind_done _ _ _ _ tt y' w' E).
  - destruct (single_ack cnt y w Ha) as (y' & w' & E & Hidle).
    rewrite (session_step _ _ _ _ _ ph' y' w' Hbz).
    2:{ unfold round. rewrite (bind_done _ _ _ _ (notified w) y w) by done. rewrite Hlog. change (default [] (Some pk)) with pk.
        rewrite (bind_done _ _ _ _ (ph', phone_ack_single key) y w) by (unfold checked; by rewrite Hread).
        by rewrite (bind_done _ _ _ _ tt y' w' E). }
    rewrite session_idle by apply Hidle. by exists ph', y', w'.
Qed.

Lemma start_single rest y w :
  device 0 y -> is_busy (s_packet_trans_data y) = false ->
  ble_single_packet_can_send (ble_link y) (zlen data) = true ->
  exists y' w', ble_packet_trans_send (Some (data ++ rest)) (zlen data) y w = Done (tt, y', w') /\ awaiting_single 0 y' w'.
Proof.
  intros Hd Hidle Hcs. pose proof Hcs as Hfit. rewrite can_send_spec in Hfit; [|apply (ao_link _ (dv_ok _ _ Hd))|done]. apply Z.leb_le in Hfit.
  unfold ble_packet_trans_send, RESP_STRING_LENGTH_MAX. rewrite (proj2 (Z.eqb_neq (zlen data) 0)), (proj2 (Z.ltb_ge 1024 (zlen data))) by lia.
  rewrite (bind_done _ _ _ _ y y w) by done.
  assert (Es : arr_slice (data ++ rest) 0 (zlen data) = Some data) by (by apply (arr_slice_app [])).
  rewrite (bind_done _ _ _ _ data y w) by (unfold checked; by rewrite Es). rewrite Hidle.
  set (td := data ++ drop (length data) (trans_data zero_trans)).
  assert (Et : arr_blit (trans_data zero_trans) 0 data = Some td).
  { rewrite arr_blit_Some; [done|lia|]. change (zlen (trans_data zero_trans)) with 1024. lia. }
  rewrite (bind_done _ _ _ _ td y w) by (unfold checked; by rewrite Et).
  set (y1 := set_trans (mk_trans td (zlen data) 0 0 0 0 0 0 0 false true) y).
  rewrite (bind_done _ _ _ _ tt y1 w) by done. rewrite Hcs.
  apply (send_single td); [|apply take_app_length|lia|done|by exists 0, 0, 0, 0, false].
  destruct Hd as [[] ? ? ? ? ?]; split; [split|..]; try done. cbn. pose proof (arr_blit_length _ _ _ _ Et) as HH. by rewrite HH.
Qed.

(** C3: a reply reaches the phone.  On an open channel whose MTU leaves room for
    two blocks, with nothing else in transmission, [ble_packet_trans_send] of
    up to 1024 bytes sends one FF01 or several FF02 packets.  Each packet or
    its acknowledgement may be lost, up to three times in a row, and the reply
    timer makes the device repeat it.  When the acknowledgements that do arrive
    are enough, the phone has assembled exactly the reply, and the device is
    idle with the timer stopped. *)
Theorem reply_delivered fates ph rest y w :
  device 0 y -> is_busy (s_packet_trans_data y) = false ->
  fair 3 fates = true -> zlen data <= Z.of_nat (throughs fates) ->
  exists ph' y' w',
    (ble_packet_trans_send (Some (data ++ rest)) (zlen data) ;; session key fates ph) y w = Done (ph', y', w') /\
    ph_done ph' = Some data /\ is_busy (s_packet_trans_data y') = false /\ rsp_timer y' = false.
Proof.
  intros Hd Hidle Hfair Hth. destruct (ble_single_packet_can_send (ble_link y) (zlen data)) eqn:Hcs.
  - destruct (start_single rest y w Hd Hidle Hcs) as (y1 & w1 & E & Ha). rewrite (bind_done _ _ _ _ tt y1 w1 E).
    destruct (session_single fates 0 y1 w1 ph Ha) as (ph' & y' & w' & E' & Hdn & _ & Hb & Ht); [done|lia|]. by exists ph', y', w'.
  - destruct (start_awaiting rest y w Hd Hidle Hcs) as (len & y1 & w1 & E & Ha). rewrite (bind_done _ _ _ _ tt y1 w1 E).
    destruct (session_multiple fates 0 0 len 0 y1 w1 ph Ha) as (ph' & y' & w' & E' & Hdn & _ & Hb & Ht);
      [left; by left|done|lia|]. by exists ph', y', w'.
Qed.
End reply.
