(* ===== verification/BleSafety.v ===== *)
(** * Memory safety of the BLE protocol code

    The state invariant of [my_ble_app.c] and its preservation by every handler,
    whatever the phone sends, the stack answers and the crypto library
    returns. *)

From S2P Require Import Prelude Prog BleLink BleCrypto BleApp BleAppProofs BleDelivery.

Open Scope prog_scope.

(** ** The invariant *)

(** A transmission: what was sent and what is to be repeated lie in the data,
    and the packet to be repeated fits the reply buffer. *)
Definition trans_ok (t : packet_trans_t) : Prop :=
  zlen (trans_data t) = 1024 /\
  (is_busy t = true ->
    0 < total_len t <= 1024 /\ 0 <= sent_offset t <= total_len t /\
    0 <= last_offset t /\ 0 <= last_len t <= 464 /\ last_offset t + last_len t <= total_len t /\
    (waiting_ack t = true -> last_proto_type t = BLE_PACKET_PROTO_SINGLE -> total_len t <= 464)).

Definition wait_ok (p : packet_trans_wait_t) : Prop :=
  zlen (wait_data p) = 1024 /\ (pending p = true -> 0 < wait_len p <= 1024).

(** A received packet; a command fits [rcv_msg]. *)
Definition rx_ok (b : list Z) (i : Z) : Prop :=
  zlen b = 495 /\ (i = 0 \/ 20 <= i <= 495) /\ (i <= 132 \/ be16 b 2 <> Some BLE_DATA_TYPE_AT_CMD).

Record app_inv (y : ble_app) : Prop := {
  ai_ok : app_ok y;
  ai_room : 32 <= data_room (ble_link y);
  ai_trans : trans_ok (s_packet_trans_data y);
  ai_wait : wait_ok (s_packet_trans_wait y);
  ai_rx : rx_ok (s_rx_ble_buf y) (s_rx_ble_buf_index y);
  ai_bytes : bytes_ok (s_ble_decrypt_buffer y)
}.

Create HintDb ble.

Section setters.
Implicit Types (y : ble_app).

Lemma inv_set_trans t y : app_inv y -> trans_ok t -> app_inv (set_trans t y).
Proof. intros [[] ? ? ? ? ?] Ht. split; try done. split; try done. apply Ht. Qed.

Lemma inv_set_wait p y : app_inv y -> wait_ok p -> app_inv (set_wait p y).
Proof. intros [[] ? ? ? ? ?] Hp. split; try done. split; try done. apply Hp. Qed.

Lemma inv_set_timer b y : app_inv y -> app_inv (set_timer b y).
Proof. intros [[] ? ? ? ? ?]. by split. Qed.

Lemma inv_set_rx b i y : app_inv y -> rx_ok b i -> app_inv (set_rx b i y).
Proof. intros [[] ? ? ? ? ?] Hr. split; try done. split; try done. apply Hr. Qed.

Lemma inv_set_key a k y : app_inv y -> zlen k = 16 -> app_inv (set_key a k y).
Proof. intros [[] ? ? ? ? ?] Hk. by split. Qed.

Lemma inv_set_decrypt b y : app_inv y -> zlen b = 528 -> bytes_ok b -> app_inv (set_decrypt b y).
Proof. intros [[] ? ? ? ? ?] Hb Hb'. by split. Qed.

Lemma inv_set_tx b y : app_inv y -> zlen b = 495 -> app_inv (set_tx b y).
Proof. intros [[] ? ? ? ? ?] Hb. by split. Qed.

Lemma inv_set_encrypt b y : app_inv y -> zlen b = 495 -> app_inv (set_encrypt b y).
Proof. intros [[] ? ? ? ? ?] Hb. by split. Qed.

Lemma inv_set_rsp b y : app_inv y -> zlen b = 528 -> app_inv (set_rsp b y).
Proof. intros [[] ? ? ? ? ?] Hb. by split. Qed.

Lemma inv_set_link l y : app_inv y -> link_ok l -> 32 <= data_room l -> app_inv (set_link l y).
Proof. intros [[] ? ? ? ? ?] Hl Hr. by split. Qed.
End setters.

#[export] Hint Resolve inv_set_trans inv_set_wait inv_set_timer inv_set_rx inv_set_key inv_set_decrypt inv_set_tx
  inv_set_encrypt inv_set_rsp inv_set_link : ble.

(** Copies that fit succeed and keep the length. *)
Lemma blit_fits {A} (l : list A) off src :
  0 <= off -> off + zlen src <= zlen l -> exists l', arr_blit l off src = Some l' /\ zlen l' = zlen l.
Proof.
  intros H1 H2. destruct (arr_blit l off src) as [l'|] eqn:E; [|by rewrite arr_blit_Some in E].
  exists l'. split; [done|]. by apply (arr_blit_length _ _ _ _ E).
Qed.

Lemma bytes_blit l off src l' : arr_blit l off src = Some l' -> bytes_ok l -> bytes_ok src -> bytes_ok l'.
Proof.
  unfold arr_blit. destruct (_ <=? _); [|done]. destruct (_ <=? _); [|done]. intros [= <-] Hl Hs.
  apply Forall_app. split; [by apply Forall_take|]. apply Forall_app. split; [done|by apply Forall_drop].
Qed.

Lemma slice_fits {A} (l : list A) off n :
  0 <= off -> 0 <= n -> off + n <= zlen l -> exists s, arr_slice l off n = Some s /\ zlen s = n.
Proof.
  intros H1 H2 H3. rewrite arr_slice_Some by lia. eexists. split; [reflexivity|]. rewrite zlen_take, zlen_drop. lia.
Qed.

Lemma zero_trans_ok : trans_ok zero_trans.
Proof. by split. Qed.

Lemma zero_wait_ok : wait_ok zero_wait.
Proof. by split. Qed.
#[export] Hint Resolve zero_trans_ok zero_wait_ok : ble.

(** The crypto library writes bytes, at most the block it is given room for. *)
Class PsaBounded (W : Type) `{Psa W} : Prop := {
  pb_encrypt w k b w' s out : psa_cipher_encrypt w k b = (w', (s, out)) -> zlen out <= 16;
  pb_decrypt w k b w' s out : psa_cipher_decrypt w k b = (w', (s, out)) -> zlen out <= 16 /\ bytes_ok out
}.

(** ** Below the protocol: the link and the cipher *)

Section safety.
Context {W : Type} {GW : Gatt W} {PW : Psa W} {CW : BleClients W} {PB : PsaBounded W}.
Implicit Types (y : ble_app) (w : W) (l : link).

Lemma notification_safe l w data n :
  link_ok l -> 0 <= n <= zlen data ->
  exists l' w', ble_server_send_notification l w data n = Some (l', w') /\ link_ok l' /\
    g_ble_server_mtu l' = g_ble_server_mtu l.
Proof.
  intros Hl Hn. pose proof Hl as (Hb & Hi & Hd & Hm). unfold ble_server_send_notification. rewrite Hd. cbn [negb].
  destruct (is_conn l); cbn [negb]; [|by exists l, w].
  assert (Hc : exists l1, cache_data l data n false = Some l1 /\ zlen (s_uart_ble_server_buf l1) = 1024 /\
    0 <= s_ble_server_rx_index l1 <= 1024 /\ g_ble_server_mtu l1 = g_ble_server_mtu l).
  { unfold cache_data, BLE_NOTIFY_SEND_BUF_MAX_SIZE. destruct (Z.ltb_spec 0 n); cbn [andb]; [|by eexists].
    destruct (Z.leb_spec (s_ble_server_rx_index l + n) 1024); [|by eexists].
    destruct (slice_fits data 0 n) as (s & -> & Hs); [lia..|]. cbn [mbind option_bind].
    destruct (blit_fits (s_uart_ble_server_buf l) (s_ble_server_rx_index l) s) as (b & -> & Hb'); [lia..|].
    cbn [mbind option_bind]. eexists. split; [reflexivity|]. cbn. rewrite u16_small by lia. split_and!; (done || lia). }
  destruct Hc as (l1 & -> & Hb1 & Hi1 & Hm1). cbn [mbind option_bind].
  unfold BLE_SERVER_MAX_DATA_LEN, BLE_SVC_TX_MAX_LEN, CONFIG_BT_L2CAP_TX_MTU. rewrite Hm1.
  set (k := u16 (if _ <? _ then _ else _)).
  assert (Hk : 0 <= k <= s_ble_server_rx_index l1)
    by (unfold k; destruct (Z.ltb_spec (Z.min (g_ble_server_mtu l - 3) (498 - 3)) (s_ble_server_rx_index l1)); rewrite u16_small; lia).
  assert (Hfin : forall b i, zlen b = 1024 -> 0 <= i <= 1024 -> link_ok (set_cache b i true l1))
    by (intros b i Hbl Hil; split; [done|]; split; [done|]; split; [done|]; cbn; lia).
  destruct (_ || _); [|eexists _, _; split; [reflexivity|]; by auto].
  destruct (slice_fits (s_uart_ble_server_buf l1) 0 k) as (out & -> & Ho); [lia..|]. cbn [mbind option_bind].
  destruct (bt_gatt_notify w out) as [w' err]. destruct (err =? 0); cbn [negb];
    [|eexists _, _; split; [reflexivity|]; by auto].
  rewrite u16_small by lia.
  destruct (slice_fits (s_uart_ble_server_buf l1) k (s_ble_server_rx_index l1 - k)) as (rest & -> & Hrs); [lia..|]. cbn [mbind option_bind].
  destruct (blit_fits (s_uart_ble_server_buf l1) 0 rest) as (b & -> & Hbb); [lia..|]. cbn [mbind option_bind].
  eexists _, _. split; [reflexivity|]. split; [|done]. apply Hfin; lia.
Qed.

Lemma block_loop_safe {S} (cipher : W -> list Z -> W * (Z * list Z)) (P : list Z -> Prop) :
  (forall w b w' s out, cipher w b = (w', (s, out)) -> zlen out <= 16 /\ P out) ->
  (forall b off src b', arr_blit b off src = Some b' -> P b -> P src -> P b') ->
  forall n input output i (y : S) w, 0 <= i -> i + 16 * Z.of_nat n <= zlen input -> i + 16 * Z.of_nat n <= zlen output ->
  P output ->
  twp (block_loop cipher n input output i) (fun r (y' : S) _ => y' = y /\ zlen (snd r) = zlen output /\ P (snd r)) y w.
Proof.
  intros Hc HP n. induction n as [|n IH]; intros input output i y w Hi Hin Hout Hpo; cbn [block_loop]; [done|].
  tstep. destruct (slice_fits input i 16) as (b & Eb & Hb); [lia..|]. eapply twp_checked; [exact Eb|].
  tstep. apply twp_world. intros [s out] w' Ew. apply Hc in Ew as [Ew Hps]. pose proof (zlen_nonneg out).
  tstep. destruct (blit_fits output i out) as (o & Eo & Ho); [lia..|]. eapply twp_checked; [exact Eo|].
  pose proof (HP _ _ _ _ Eo Hpo Hps) as Hpo'.
  tstep; [done|]. eapply twp_mono; [by apply IH; [lia..|]|]. intros r y' w'' (-> & Hr & Hpr). split; [done|]. by rewrite Hr.
Qed.

Lemma encrypt_safe {S} key p n ct (y : S) w :
  0 <= n <= zlen p -> n < 2147483000 ->
  twp (aes_ecb_encrypt (Some key) (Some p) n (Some ct) (zlen ct))
    (fun r (y' : S) _ => y' = y /\ exists c, snd r = Some c /\ zlen c = zlen ct) y w.
Proof.
  intros Hn Hmax. unfold aes_ecb_encrypt. tstep. apply twp_world. intros s w1 _.
  tstep; [split; [done|by exists ct]|]. tstep. apply twp_world. intros ok w2 _. destruct ok; cbn [negb];
    [|split; [done|by exists ct]].
  tstep. destruct (slice_fits p 0 n) as (src & Es & Hs); [lia..|]. eapply twp_checked; [exact Es|].
  destruct (Z.eq_dec n 0) as [->|Hn0].
  { tstep. eapply twp_checked; [reflexivity|]. cbv beta iota zeta. change (0 =? 0) with true. rewrite orb_true_r. split; [done|by exists ct]. }
  destruct (pkcs7_pad_spec src (replicate 16 0)) as (b & Ep & _ & Hb); [lia|done|]. rewrite Hs in *.
  tstep. eapply twp_checked; [exact Ep|]. pose proof (pkcs7_len src) as Hpl. rewrite Hs in Hpl.
  cbv beta iota zeta. destruct ((zlen ct <? zlen (pkcs7 src)) || _) eqn:Ec; [split; [done|by exists ct]|]. apply orb_false_iff in Ec as [Ec _]. apply Z.ltb_ge in Ec.
  tstep. eapply twp_mono.
  { apply (block_loop_safe (fun w => psa_cipher_encrypt w key) (fun _ => True));
      [intros w0 b0 w0' s0 out E0; split; [by apply pb_encrypt in E0|done]|done|lia|..|done].
    - change (default [] (Some b)) with b. rewrite Hpl, Hb. Z.div_mod_to_equations. lia.
    - rewrite Hpl in *. Z.div_mod_to_equations. lia. }
  intros r y' w3 (-> & Hr & _). cbn. split; [done|]. by exists (snd r).
Qed.

Lemma decrypt_safe {S} key ct n pt (y : S) w :
  0 <= n <= zlen ct -> bytes_ok pt ->
  twp (aes_ecb_decrypt (Some key) (Some ct) n (Some pt) (zlen pt))
    (fun r (y' : S) _ => y' = y /\ exists c, snd r = Some c /\ zlen c = zlen pt /\ bytes_ok c) y w.
Proof.
  intros Hn Hpt. unfold aes_ecb_decrypt. tstep. apply twp_world. intros s w1 _.
  tstep; [split; [done|by exists pt]|]. tstep; [split; [done|by exists pt]|].
  tstep; [split; [done|by exists pt]|].
  match goal with H : _ || _ = false |- _ => apply orb_false_iff in H as [_ H]; apply negb_false_iff, Z.eqb_eq in H end.
  match goal with H : (_ <? _) = false |- _ => apply Z.ltb_ge in H end.
  tstep. eapply twp_mono.
  { apply (block_loop_safe (fun w => psa_cipher_decrypt w key) bytes_ok);
      [intros w0 b0 w0' s0 out; apply pb_decrypt|apply bytes_blit|lia|..|done]; Z.div_mod_to_equations; lia. }
  intros r y' w3 (-> & Hr & Hb). cbn. split; [done|]. by exists (snd r).
Qed.

(** ** Packets *)

(** [y'] is [y] after sending: the protocol state is untouched. *)
Definition after_send y y' : Prop :=
  app_inv y' /\ s_packet_trans_data y' = s_packet_trans_data y /\ s_packet_trans_wait y' = s_packet_trans_wait y /\
  s_rx_ble_buf y' = s_rx_ble_buf y /\ s_rx_ble_buf_index y' = s_rx_ble_buf_index y /\
  data_room (ble_link y') = data_room (ble_link y).

Lemma room_of_mtu l l' : g_ble_server_mtu l' = g_ble_server_mtu l -> data_room l' = data_room l.
Proof. unfold data_room, BLE_SERVER_MAX_DATA_LEN. by intros ->. Qed.

Lemma trans_over_ble_safe data n y w :
  app_inv y -> 0 <= n <= zlen data ->
  twp (BLE_DataTransOverBle data n) (fun _ y' _ => after_send y y') y w.
Proof.
  intros Hy Hn. unfold BLE_DataTransOverBle, twp.
  destruct (notification_safe (ble_link y) w data n (ao_link _ (ai_ok _ Hy)) Hn) as (l & w' & -> & Hl & Hm).
  apply room_of_mtu in Hm. split; [|done]. apply inv_set_link; [done|done|]. rewrite Hm. apply Hy.
Qed.

Lemma send_packet_safe type data n y w :
  app_inv y -> 0 <= n <= zlen data ->
  twp (ble_comu_send_packet type (Some data) n) (fun _ y' _ => after_send y y') y w.
Proof.
  intros Hy Hn. pose proof (ai_ok _ Hy) as Ho. unfold ble_comu_send_packet. change BLE_RESP_LENGTH_MAX with 495.
  change BLE_CMD_DATA_LEN_UNIT with 16.
  tstep; [done|]. match goal with H : _ || _ = false |- _ => apply orb_false_iff in H as [Hle Hm] end.
  apply Z.ltb_ge in Hle. apply negb_false_iff, Z.eqb_eq in Hm. assert (Hle' : n <= 480) by (Z.div_mod_to_equations; lia).
  tstep. tstep. tstep. destruct (slice_fits data 0 n) as (src & Es & Hs); [lia..|]. eapply twp_checked; [exact Es|].
  tstep. destruct (blit_fits (s_ble_tx_buf y) 0 (packet_head type)) as (t1 & E1 & H1);
    [lia|rewrite (ao_tx _ Ho); by vm_compute|]. eapply twp_checked; [exact E1|]. rewrite (ao_tx _ Ho) in H1.
  tstep. destruct (blit_fits t1 4 src) as (t2 & E2 & H2); [lia..|]. eapply twp_checked; [exact E2|]. rewrite H1 in H2.
  tstep. tstep. set (y1 := set_tx t2 y). tstep.
  assert (Hrest : forall e status w1, zlen e = 495 ->
    twp (if negb (status =? 0) then ret tt
         else y0 <- get id ;; e0 <- checked (arr_slice (s_ble_encrypt_buf y0) 0 n) ;;
              tx <- checked (arr_blit (s_ble_tx_buf y0) 4 e0) ;; modify (set_tx tx) ;; BLE_DataTransOverBle tx (u16 (n + 4)))
      (fun _ y' _ => after_send y y') (set_encrypt e y1) w1).
  { intros e status w1 He. assert (Hy1 : app_inv (set_encrypt e y1)) by (apply inv_set_encrypt; [apply inv_set_tx; [done|lia]|done]). tstep; [done|].
    tstep. tstep. tstep. destruct (slice_fits e 0 n) as (c & Ec & Hc); [lia..|]. eapply twp_checked; [exact Ec|].
    tstep. destruct (blit_fits t2 4 c) as (t3 & E3 & H3); [lia..|]. eapply twp_checked; [exact E3|].
    tstep. tstep. rewrite u16_small by lia. eapply twp_mono; [apply trans_over_ble_safe; [apply inv_set_tx; [done|lia]|lia]|].
    intros u y' w' Hs'. exact Hs'. }
  destruct (_ || _).
  - tstep. destruct (blit_fits (s_ble_encrypt_buf y) 0 src) as (e & Ee & He); [lia|rewrite (ao_enc _ Ho); lia|].
    eapply twp_checked; [exact Ee|]. tstep. tstep. tstep. apply Hrest. by rewrite He, (ao_enc _ Ho).
  - tstep. replace 495 with (zlen (s_ble_encrypt_buf y)) by apply (ao_enc _ Ho).
    eapply twp_mono; [apply encrypt_safe; lia|]. intros r y' w1 (-> & c & Er & Hc). rewrite Er. change (default [] (Some c)) with c.
    tstep. tstep. tstep. apply Hrest. rewrite Hc. apply (ao_enc _ Ho).
Qed.

(** ** Replies *)

(** [y'] is [y] after sending a part of the reply. *)
Definition after_part y y' : Prop :=
  app_inv y' /\ total_len (s_packet_trans_data y') = total_len (s_packet_trans_data y) /\
  sent_offset (s_packet_trans_data y') = sent_offset (s_packet_trans_data y) /\
  is_busy (s_packet_trans_data y') = is_busy (s_packet_trans_data y).

Lemma payload_safe hdr (src : list Z) :
  zlen hdr + zlen src <= 528 ->
  exists b1 b, arr_blit (replicate (Z.to_nat BLE_MTU_DATA_LEN) 0) 0 hdr = Some b1 /\
    arr_blit b1 (zlen hdr) src = Some b /\ zlen b = 528.
Proof.
  intros Hl. pose proof (zlen_nonneg hdr). pose proof (zlen_nonneg src).
  destruct (blit_fits (replicate (Z.to_nat BLE_MTU_DATA_LEN) 0) 0 hdr) as (b1 & E1 & H1);
    [lia|change (zlen (replicate _ 0)) with 528; lia|]. change (zlen (replicate _ 0)) with 528 in H1.
  destruct (blit_fits b1 (zlen hdr) src) as (b & E2 & H2); [lia..|]. exists b1, b. split; [done|]. split; [done|lia].
Qed.

Lemma zlen_varint_le v : 1 <= zlen (varint v) <= 2.
Proof. rewrite zlen_varint. destruct (VARINT_IS_2BYTE v); lia. Qed.

Lemma single_send_safe y w :
  app_inv y -> is_busy (s_packet_trans_data y) = true -> total_len (s_packet_trans_data y) <= 464 ->
  twp (ble_single_packet_send (total_len (s_packet_trans_data y))) (fun _ y' _ => after_part y y') y w.
Proof.
  intros Hy Hb Hle. pose proof (ai_trans _ Hy) as [Hd Ht]. pose proof (Ht Hb) as (Htl & Hso & Hlo & Hll & Hle2 & _).
  unfold ble_single_packet_send. set (t := s_packet_trans_data y) in *. set (n := total_len t) in *.
  tstep; [done|]. tstep. tstep. cbv zeta. fold t. set (hdr := single_header n).
  assert (Hh : 3 <= zlen hdr <= 5).
  { unfold hdr, single_header. rewrite !zlen_app. pose proof (zlen_varint_le n).
    pose proof (zlen_varint_le (u16 (1 + (if VARINT_IS_2BYTE n then 2 else 1) + n))). change (zlen [_]) with 1. lia. }
  destruct (slice_fits (trans_data t) 0 n) as (src & Es & Hs); [lia..|].
  destruct (payload_safe hdr src) as (b1 & b & E1 & E2 & Hbl); [lia|].
  tstep. eapply twp_checked; [exact E1|]. tstep. eapply twp_checked; [exact Es|]. tstep. eapply twp_checked; [exact E2|].
  tstep. tstep. tstep. unfold ble_packet_trans_record_last_packet. tstep. cbn [s_packet_trans_data set_rsp]. fold t.
  rewrite u16_small by lia. destruct (align16_spec (zlen hdr + n)) as [Ha _]; [lia|].
  tstep. eapply twp_mono; [apply send_packet_safe; [|lia]|].
  - apply inv_set_trans; [apply inv_set_rsp; [done|lia]|]. split; [done|]. intros _. cbn. unfold n in *. split_and!; lia.
  - intros u y' w' (Hy' & Et & _). tstep. split; [by apply inv_set_timer|]. cbn [set_timer s_packet_trans_data]. by rewrite Et.
Qed.

Lemma multiple_header_le seq total n first : 2 <= zlen (multiple_header seq total n first) <= 6.
Proof.
  unfold multiple_header. rewrite !zlen_app. change (zlen [_]) with 1.
  set (c := if first then _ else _). set (m := if first then _ else []).
  assert (Hm : 0 <= zlen m <= 3).
  { unfold m. destruct first; [|done]. rewrite zlen_cons. pose proof (zlen_varint_le total). lia. }
  pose proof (zlen_varint_le c). lia.
Qed.

Lemma multiple_send_safe seq off n first y w :
  app_inv y -> is_busy (s_packet_trans_data y) = true -> 0 <= off -> 0 <= n <= 464 ->
  off + n <= total_len (s_packet_trans_data y) ->
  twp (ble_multiple_packet_send seq off n first) (fun _ y' _ => after_part y y') y w.
Proof.
  intros Hy Hb Hoff Hn Hle. pose proof (ai_trans _ Hy) as [Hd Ht]. pose proof (Ht Hb) as (Htl & Hso & Hlo & Hll & Hle2 & _).
  unfold ble_multiple_packet_send. set (t := s_packet_trans_data y) in *.
  tstep; [done|]. tstep. tstep. cbv zeta. fold t. set (hdr := multiple_header seq (total_len t) n first).
  assert (Hh : 2 <= zlen hdr <= 6) by apply multiple_header_le.
  destruct (slice_fits (trans_data t) off n) as (src & Es & Hs); [lia..|].
  destruct (payload_safe hdr src) as (b1 & b & E1 & E2 & Hbl); [lia|].
  tstep. eapply twp_checked; [exact E1|]. tstep. eapply twp_checked; [exact Es|]. tstep. eapply twp_checked; [exact E2|].
  tstep. tstep.
 rewrite (u16_small (zlen hdr + n)) by lia. destruct (align16_spec (zlen hdr + n)) as [Ha _]; [lia|].
  tstep; [split; [by apply inv_set_rsp|done]|]. tstep. unfold ble_packet_trans_record_last_packet. tstep.
  cbn [s_packet_trans_data set_rsp]. fold t. rewrite (u16_small off) by lia.
  tstep. eapply twp_mono; [apply send_packet_safe; [|lia]|].
  - apply inv_set_trans; [apply inv_set_rsp; [done|lia]|]. split; [done|]. intros _. cbn. split_and!; (done || lia).
  - intros u y' w' (Hy' & Et & _). tstep. split; [by apply inv_set_timer|]. cbn [set_timer s_packet_trans_data]. by rewrite Et.
Qed.

(** ** Starting, repeating and ending a transmission *)

Lemma part_bounds room hl n :
  32 <= room <= 480 -> 2 <= hl <= 6 -> 0 < n <= 1024 ->
  let m := u16 (u16 room - hl - 16) in
  let k := if m <? n then m else n in 0 < k <= 464 /\ k <= n.
Proof.
  intros Hr Hh Hn m k. unfold k, m. rewrite (u16_small room), (u16_small (room - hl - 16)) by lia.
  destruct (Z.ltb_spec (room - hl - 16) n); lia.
Qed.

Lemma trans_send_safe data n y w :
  app_inv y -> 0 <= n -> Z.min n 1024 <= zlen data ->
  twp (ble_packet_trans_send (Some data) n) (fun _ y' _ => app_inv y') y w.
Proof.
  intros Hy Hn0 Hn. unfold ble_packet_trans_send, RESP_STRING_LENGTH_MAX. destruct (Z.eqb_spec n 0) as [->|Hne]; [done|].
  cbv zeta. set (len := if 1024 <? n then 1024 else n).
  assert (Hlen : 0 < len <= 1024 /\ len <= zlen data) by (unfold len; destruct (Z.ltb_spec 1024 n); lia). clearbody len.
  tstep. tstep. tstep. destruct (slice_fits data 0 len) as (src & Es & Hs); [lia..|]. eapply twp_checked; [exact Es|].

  tstep.
  { tstep. destruct (blit_fits (wait_data (s_packet_trans_wait y)) 0 src) as (b & Eb & Hb);
      [lia|rewrite (proj1 (ai_wait _ Hy)); lia|]. eapply twp_checked; [exact Eb|]. tstep.
    apply inv_set_wait; [done|]. rewrite (proj1 (ai_wait _ Hy)) in Hb. split; [done|]. cbn. lia. }
  tstep. destruct (blit_fits (trans_data zero_trans) 0 src) as (b & Eb & Hb);
    [lia|change (zlen (trans_data zero_trans)) with 1024; lia|]. eapply twp_checked; [exact Eb|].
  change (zlen (trans_data zero_trans)) with 1024 in Hb. tstep. tstep.
  assert (Hok : forall so ns, 0 <= so <= len -> trans_ok (mk_trans b len so 0 0 ns 0 0 0 false true))
    by (intros so ns Hso; split; [done|]; intros _; cbn; split_and!; (done || lia)).
  pose proof (ao_link _ (ai_ok _ Hy)) as Hlk. destruct (data_room_spec _ Hlk) as (_ & _ & Hr).
  pose proof (ai_room _ Hy) as Hr32. destruct (ble_single_packet_can_send (ble_link y) len) eqn:Ecs.
  - rewrite can_send_spec in Ecs by (done || lia). apply Z.leb_le in Ecs. pose proof (zlen_nonneg (single_header len)).
    eapply twp_mono; [apply (single_send_safe (set_trans (mk_trans b len 0 0 0 0 0 0 0 false true) y)); [|done|cbn; lia]|].
    + apply inv_set_trans; [done|]. apply Hok. lia.
    + intros u y' w' [Hy' _]. done.
  - set (hl := (if VARINT_IS_2BYTE (u16 _) then 2 else 1) + 1 + 1 + (if VARINT_IS_2BYTE len then 2 else 1)).
    assert (Hhl : 2 <= hl <= 6) by (unfold hl; repeat destruct (VARINT_IS_2BYTE _); lia).
    destruct (part_bounds (data_room (ble_link y)) hl len) as [Hk1 Hk2]; [lia|done|lia|].
    set (k := if _ <? len then _ else len) in *. clearbody k. tstep. tstep. tstep.
    eapply twp_mono; [apply (multiple_send_safe 0 0 k true (set_trans (mk_trans b len 0 0 0 1 0 0 0 false true) y)); [|done|lia|lia|cbn; lia]|].
    + apply inv_set_trans; [done|apply Hok; lia].
    + intros u y' w' (Hy' & Htl & _ & Hbz). cbn in Htl, Hbz. tstep. apply inv_set_trans; [done|].
      destruct (ai_trans _ Hy') as [Hd' Ht']. split; [done|]. intros Hb'. cbn in *. destruct (Ht' Hb') as (? & ? & ? & ? & ? & ?).
      split_and!; (done || lia).
Qed.

Lemma complete_safe y w : app_inv y -> twp ble_packet_trans_complete_current (fun _ y' _ => app_inv y') y w.
Proof.
  intros Hy. unfold ble_packet_trans_complete_current, ble_packet_trans_reset_state. repeat tstep.
  assert (Hy1 : app_inv (set_trans zero_trans (set_timer false y))) by (auto with ble).
  unfold ble_packet_trans_try_start_pending. tstep. tstep. cbv zeta. destruct (pending _) eqn:Hp; [|exact Hy1].
  destruct (ai_wait _ Hy) as [Hwl Hwp]. cbn [s_packet_trans_wait set_trans set_timer] in *.
  repeat tstep. apply trans_send_safe; [|specialize (Hwp Hp); lia|specialize (Hwp Hp); lia].
  apply inv_set_wait; [exact Hy1|]. by split.
Qed.

Lemma reset_all_safe y w : app_inv y -> twp (ble_packet_trans_reset_state true) (fun _ y' _ => app_inv y') y w.
Proof. intros Hy. unfold ble_packet_trans_reset_state. repeat tstep. auto 6 with ble. Qed.

Lemma acked_ok y : app_inv y ->
  let t := s_packet_trans_data y in
  trans_ok (mk_trans (trans_data t) (total_len t) (sent_offset t) (last_offset t) (last_len t) (next_seq t)
              0 (last_seq t) (last_proto_type t) false (is_busy t)).
Proof. intros [_ _ [Hd Ht] _ _]. split; [done|]. intros Hb. cbn. destruct (Ht Hb) as (? & ? & ? & ? & ? & _). split_and!; (done || lia). Qed.

Lemma single_rsp_safe n y w : app_inv y -> twp (ble_single_packet_rsp_handle n) (fun _ y' _ => app_inv y') y w.
Proof.
  intros Hy. unfold ble_single_packet_rsp_handle, ack_accepted. tstep; [done|]. tstep. tstep. tstep; [done|].
  repeat tstep. apply complete_safe. apply inv_set_trans; [by apply inv_set_timer|]. exact (acked_ok y Hy).
Qed.

Lemma continue_safe seq y w : app_inv y -> twp (ble_multiple_packet_continue seq) (fun _ y' _ => app_inv y') y w.
Proof.
  intros Hy. unfold ble_multiple_packet_continue, ack_accepted. tstep. tstep. cbv zeta.
  destruct (negb _ || _) eqn:Ec; [done|]. apply orb_false_iff in Ec as [Hb%negb_false_iff _].
  pose proof (ai_trans _ Hy) as [Hd Ht]. destruct (Ht Hb) as (Htl & Hso & Hlo & Hll & Hle & _).
  set (t := s_packet_trans_data y) in *.
  tstep; [done|]. tstep. tstep. tstep. tstep. cbn [s_packet_trans_data set_timer]. fold t.
  match goal with |- twp _ _ ?y1 _ => set (ya := y1); assert (Hya : app_inv ya) end.
  { apply inv_set_trans; [by apply inv_set_timer|]. exact (acked_ok y Hy). }
  rewrite (u16_small (total_len t - sent_offset t)) by lia.
  destruct (Z.eqb_spec (total_len t - sent_offset t) 0); [by apply complete_safe|].
  destruct (data_room_spec _ (ao_link _ (ai_ok _ Hy))) as (_ & _ & Hr). pose proof (ai_room _ Hy).
  set (rem := total_len t - sent_offset t) in *. set (hl := (if VARINT_IS_2BYTE (1 + rem) then 2 else 1) + 1).
  assert (Hhl : 2 <= hl <= 6) by (unfold hl; destruct (VARINT_IS_2BYTE _); lia).
  rewrite (u16_small (data_room _)), (u16_small (data_room _ - hl - 16)) by lia.
  set (k := if rem <? _ then rem else _).
  assert (Hk : 0 < k <= 464 /\ k <= rem) by (unfold k; destruct (Z.ltb_spec rem (data_room (ble_link y) - hl - 16)); lia).
  clearbody k. tstep. tstep. cbn [s_packet_trans_data ya set_trans]. tstep.
  match goal with |- twp _ _ ?y1 _ => set (yb := y1); assert (Hyb : app_inv yb) end.
  { apply inv_set_trans; [exact Hya|]. split; [done|]. intros _. cbn. split_and!; (done || lia). }
  eapply twp_mono; [apply (multiple_send_safe _ (sent_offset t) k false yb); [exact Hyb|exact Hb|lia|lia|change (total_len (s_packet_trans_data yb)) with (total_len t); unfold rem in Hk; lia]|].
  intros u y' w' (Hy' & Htl' & Hso' & Hbz'). cbn in Htl', Hso', Hbz'. unfold rem in Hk. tstep. apply inv_set_trans; [done|].
  destruct (ai_trans _ Hy') as [Hd' Ht']. split; [done|]. intros Hb'. cbn in *.
  destruct (Ht' Hb') as (? & ? & ? & ? & ? & ?). rewrite u16_small by lia. split_and!; (done || lia).
Qed.

Lemma multiple_ack_safe data n y w :
  app_inv y -> n <= zlen data -> twp (ble_multiple_packet_ack_handle data n) (fun _ y' _ => app_inv y') y w.
Proof.
  intros Hy Hn. unfold ble_multiple_packet_ack_handle. destruct (Z.ltb_spec n 2); [done|].
  tstep. tstep. tstep; [done|]. tstep. destruct (arr_get_Some data 0) as [d0 E0]; [lia|]. eapply twp_checked; [exact E0|].
  cbv zeta. set (two := negb _). destruct (two && _) eqn:E2; [done|].
  assert (H3 : two = true -> 3 <= n) by (intros ->; cbn in E2; apply Z.ltb_ge in E2; lia).
  tstep. destruct two.
  - destruct (arr_get_Some data 1) as [d1 E1]; [lia|]. eapply twp_checked; [exact E1|]. tstep; [done|].
    tstep. destruct (arr_get_Some data 2) as [s Es]; [lia|]. eapply twp_checked; [exact Es|]. by apply continue_safe.
  - tstep. tstep; [done|]. tstep. destruct (arr_get_Some data 1) as [s Es]; [lia|]. eapply twp_checked; [exact Es|].
    by apply continue_safe.
Qed.

Lemma timeout_safe y w : app_inv y -> twp ble_packet_trans_timeout_handler (fun _ y' _ => app_inv y') y w.
Proof.
  intros Hy. unfold ble_packet_trans_timeout_handler. tstep. tstep. cbv zeta.
  destruct (negb _ || _) eqn:Ec; [done|]. apply orb_false_iff in Ec as [Hb%negb_false_iff Hw%negb_false_iff].
  pose proof (ai_trans _ Hy) as [Hd Ht]. destruct (Ht Hb) as (Htl & Hso & Hlo & Hll & Hle & Hs).
  tstep; [by apply complete_safe|]. tstep; [by apply complete_safe|]. tstep. tstep.
  set (t := s_packet_trans_data y) in *. match goal with |- twp _ _ ?y1 _ => set (ya := y1); assert (Hya : app_inv ya) end.
  { apply inv_set_trans; [done|]. split; [done|]. intros _. cbn. split_and!; (done || lia). }
  destruct (Z.eqb_spec (last_proto_type t) BLE_PACKET_PROTO_SINGLE).
  - eapply twp_mono; [apply (single_send_safe ya); [done|exact Hb|exact (Hs Hw e)]|]. by intros u y' w' [Hy' _].
  - tstep; [|exact Hya]. eapply twp_mono; [apply (multiple_send_safe _ _ _ _ ya); [done|exact Hb|done|lia|exact Hle]|].
    by intros u y' w' [Hy' _].
Qed.

(** ** What the phone sends *)

Lemma be16_defined (l : list Z) i : 0 <= i -> i + 2 <= zlen l -> exists v, be16 l i = Some v.
Proof.
  intros Hi Hl. unfold be16. destruct (arr_get_Some l i) as [a ->]; [lia|]. destruct (arr_get_Some l (i + 1)) as [b ->]; [lia|].
  by eexists.
Qed.

Lemma be32_defined (l : list Z) i : 0 <= i -> i + 4 <= zlen l -> exists v, be32 l i = Some v.
Proof.
  intros Hi Hl. unfold be32. destruct (arr_get_Some l i) as [a ->]; [lia|]. destruct (arr_get_Some l (i + 1)) as [b ->]; [lia|].
  destruct (arr_get_Some l (i + 2)) as [c ->]; [lia|]. destruct (arr_get_Some l (i + 3)) as [d ->]; [lia|]. by eexists.
Qed.

Lemma random_safe n : forall val y w,
  twp (random_bytes n val) (fun (l : list Z) y' _ => y' = y /\ length l = n) y w.
Proof.
  induction n as [|n IH]; intros val y w; cbn [random_bytes]; [done|]. unfold random_value.
  tstep. tstep. apply twp_world. intros v w1 _. tstep. tstep. eapply twp_mono; [apply IH|].
  intros l y' w' [-> Hl]. tstep. split; [done|]. cbn. by rewrite Hl.
Qed.

Lemma key_data_safe data n y w :
  app_inv y -> 8 <= zlen data -> twp (ble_comu_key_data_handle data n) (fun _ y' _ => app_inv y') y w.
Proof.
  intros Hy Hd. unfold ble_comu_key_data_handle, ble_comu_generate_pkey, random_value.
  tstep. destruct (be32_defined data 0) as [v0 E0]; [lia..|]. eapply twp_checked; [exact E0|]. tstep; [done|].
  tstep. destruct (be32_defined data 4) as [v4 E4]; [lia..|]. eapply twp_checked; [exact E4|].
  repeat tstep. apply twp_world. intros r w1 _. repeat tstep. apply twp_world. intros g w2 _. repeat tstep.
  set (a := u16 _). assert (Hy1 : app_inv (set_key a (s_aes_base_key y) y)) by (apply inv_set_key; [done|apply (ao_key _ (ai_ok _ Hy))]).
  set (z := _ mod _). destruct (blit_fits (s_aes_base_key y) 10 [Z.land (Z.shiftr z 40) 255; Z.land (Z.shiftr z 32) 255;
    Z.land (Z.shiftr z 24) 255; Z.land (Z.shiftr z 16) 255; Z.land (Z.shiftr z 8) 255; Z.land z 255]) as (k & Ek & Hk);
    [lia|by rewrite (ao_key _ (ai_ok _ Hy))|]. rewrite (ao_key _ (ai_ok _ Hy)) in Hk.
  eapply twp_checked; [exact Ek|]. tstep. tstep. tstep. eapply twp_mono; [apply random_safe|]. intros l y' w3 [-> Hl]. cbv zeta.
  eapply twp_mono; [apply send_packet_safe; [by apply inv_set_key|]|by intros u y' w' [Hy' _]].
  unfold zlen. rewrite length_app, Hl. cbn. lia.
Qed.

Lemma response_safe cmd param y w : app_inv y -> twp (ble_comu_response_cmd cmd param) (fun _ y' _ => app_inv y') y w.
Proof.
  intros Hy. pose proof (ao_rsp _ (ai_ok _ Hy)) as Hr. unfold ble_comu_response_cmd. repeat tstep.
  destruct (blit_fits (s_ble_rsp_buf y) 0 (replicate (Z.to_nat BLE_CMD_DATA_LEN_UNIT) 0)) as (b0 & E0 & H0); [lia|by rewrite Hr|].
  eapply twp_checked; [exact E0|]. tstep. eapply twp_mono; [apply random_safe|]. intros l y' w1 [-> Hl].
  tstep. destruct (blit_fits b0 0 ([BLE_COMU_CMD_START; 0x03; BLE_COMU_DEV_CODE; cmd; param] ++ l)) as (b & Eb & Hb);
    [lia|unfold zlen; rewrite length_app, Hl; unfold zlen in *; cbn; lia|]. eapply twp_checked; [exact Eb|]. tstep. tstep.
  eapply twp_mono; [apply send_packet_safe; [apply inv_set_rsp; [done|lia]|change BLE_CMD_DATA_LEN_UNIT with 16; lia]|].
  by intros u y' w' [Hy' _].
Qed.

Lemma cid_safe data n y w :
  app_inv y -> 12 <= zlen data -> twp (ble_comu_cid_data_handle data n) (fun _ y' _ => app_inv y') y w.
Proof.
  intros Hy Hd. unfold ble_comu_cid_data_handle. tstep. apply twp_world. intros [sn|] w1 _; [|by apply response_safe].
  tstep. destruct (slice_fits data 0 GSM_SN_LENGTH) as (c & Ec & _); [done|done|unfold GSM_SN_LENGTH; lia|]. eapply twp_checked; [exact Ec|].
  destruct (bool_decide (c = sn)); [|by apply response_safe]. tstep. eapply twp_mono; [by apply response_safe|].
  intros u y' w' Hy'. apply twp_world. by intros v w2 _.
Qed.

Lemma at_cmd_safe data n y w :
  app_inv y -> 0 <= n <= 128 -> n <= zlen data -> twp (ble_comu_at_cmd_handle data n) (fun _ y' _ => app_inv y') y w.
Proof.
  intros Hy Hn Hd. unfold ble_comu_at_cmd_handle. tstep. destruct (slice_fits data 0 n) as (src & Es & Hs); [lia..|].
  eapply twp_checked; [exact Es|]. tstep.
  destruct (blit_fits (replicate (Z.to_nat CMD_STRING_LENGTH_MAX) 0) 0 src) as (b & Eb & _);
    [lia|change (zlen (replicate _ 0)) with 128; lia|]. eapply twp_checked; [exact Eb|].
  tstep. apply twp_world. intros resp w1 _. tstep; [|done]. apply trans_send_safe; [done|apply zlen_nonneg|lia].
Qed.

Lemma app_handle_safe type data n y w :
  app_inv y -> 8 <= zlen data -> 0 <= n <= zlen data -> (type = BLE_DATA_TYPE_AT_CMD -> n <= 128) ->
  twp (ble_comu_app_handle type data n) (fun _ y' _ => app_inv y') y w.
Proof.
  intros Hy Hd Hn Hat. unfold ble_comu_app_handle. tstep; [by apply key_data_safe|]. destruct (negb _ || _) eqn:Eg; [done|]. apply orb_false_iff in Eg as [_ Eg%Z.ltb_ge].
  change (BLE_SVC_RX_MAX_LEN - 4) with 491 in Eg. repeat tstep. set (z := replicate (Z.to_nat BLE_MTU_DATA_LEN) 0). cbn [s_ble_decrypt_buffer set_decrypt].
  replace BLE_MTU_DATA_LEN with (zlen z) by done. eapply twp_mono; [apply decrypt_safe; [lia|by apply Forall_replicate]|].
  intros r y' w1 (-> & b & Er & Hb & Hbo). rewrite Er. change (default [] (Some b)) with b. change (zlen z) with 528 in Hb.
  assert (Hy1 : app_inv (set_decrypt b (set_decrypt z y))) by (by apply (inv_set_decrypt b y)). repeat tstep.
  - exact Hy1.
  - unfold app_dispatch.
    tstep; [by apply cid_safe; [|lia]|]. destruct (Z.eqb_spec type BLE_DATA_TYPE_AT_CMD); [apply at_cmd_safe; [done|auto with lia|lia]|].
    tstep; [by apply single_rsp_safe|]. tstep; [|done]. by apply multiple_ack_safe; [|lia].
Qed.

Lemma dfu_response_safe cmd data y w :
  app_inv y -> twp (my_ble_dfu_send_response cmd data (zlen data)) (fun _ y' _ => app_inv y') y w.
Proof.
  intros Hy. pose proof (zlen_nonneg data). unfold my_ble_dfu_send_response. change (BLE_MTU_DATA_LEN - 6) with 522.
  destruct (Z.ltb_spec 522 (zlen data)); [done|]. tstep.
  destruct (slice_fits data 0 (zlen data)) as (src & Es & Hs); [lia..|]. eapply twp_checked; [exact Es|]. tstep.
  set (hdr := [0x78; 0x79; BLE_COMU_DEV_CODE; cmd; Z.land (zlen data) 255; Z.land (Z.shiftr (zlen data) 8) 255]).
  destruct (blit_fits (replicate (Z.to_nat BLE_MTU_DATA_LEN) 0) 0 (hdr ++ src)) as (b & Eb & Hb);
    [lia|change (zlen (replicate _ 0)) with 528; rewrite zlen_app; change (zlen hdr) with 6; lia|].
  change (zlen (replicate _ 0)) with 528 in Hb. eapply twp_checked; [exact Eb|]. tstep. tstep.
  rewrite u16_small by lia. change BLE_CMD_DATA_LEN_UNIT with 16.
  eapply twp_mono; [apply send_packet_safe; [by apply inv_set_rsp|Z.div_mod_to_equations; lia]|]. by intros u y' w' [Hy' _].
Qed.

Lemma dfu_responses_safe rs : forall y w, app_inv y -> twp (dfu_responses rs) (fun _ y' _ => app_inv y') y w.
Proof.
  induction rs as [|[cmd data|text] rs IH]; intros y w Hy; cbn [dfu_responses]; [done|tstep..].
  - eapply twp_mono; [by apply dfu_response_safe|]. intros u y' w' Hy'. by apply IH.
  - eapply twp_mono; [apply trans_send_safe; [done|apply zlen_nonneg|lia]|]. intros u y' w' Hy'. by apply IH.
Qed.

(** The update handler stays within the packet it is given. *)
Context (Hjimi : forall w cmd data len, zlen data = 522 -> 0 <= len <= 474 ->
  exists w' rs, jimi_dfu_cmd_handler w cmd data len = Some (w', rs)).

Lemma file_trans_safe data n y w :
  app_inv y -> 0 <= n <= zlen data -> n <= 491 ->
  twp (my_ble_dfu_file_trans_handle data n) (fun _ y' _ => app_inv y') y w.
Proof.
  intros Hy Hn Hle. unfold my_ble_dfu_file_trans_handle. change BLE_CMD_DATA_LEN_UNIT with 16. cbv zeta.
  set (k := if negb (n mod 16 =? 0) then _ else n).
  assert (Hk : 0 <= k <= n /\ k <= 480) by (unfold k; destruct (Z.eqb_spec (n mod 16) 0); cbn [negb]; Z.div_mod_to_equations; lia).
  clearbody k. tstep; [done|]. repeat tstep.
  replace BLE_MTU_DATA_LEN with (zlen (s_ble_decrypt_buffer y)) by apply (ao_dec _ (ai_ok _ Hy)).
  eapply twp_mono; [apply decrypt_safe; [lia|apply Hy]|]. intros r y' w1 (-> & b & Er & Hb & Hbo). rewrite Er. change (default [] (Some b)) with b.
  rewrite (ao_dec _ (ai_ok _ Hy)) in Hb. assert (Hy1 : app_inv (set_decrypt b y)) by (by apply inv_set_decrypt).
  tstep. tstep. tstep; [done|]. tstep. destruct (be16_defined b 0) as [pc Ep]; [lia..|]. eapply twp_checked; [exact Ep|].
  tstep. destruct (arr_get_Some b 2) as [b2 E2]; [lia|]. eapply twp_checked; [exact E2|].
  tstep. destruct (arr_get_Some b 3) as [b3 E3]; [lia|]. eapply twp_checked; [exact E3|].
  tstep. destruct (arr_get_Some b 4) as [b4 E4]; [lia|]. eapply twp_checked; [exact E4|].
  tstep. destruct (arr_get_Some b 5) as [b5 E5]; [lia|]. eapply twp_checked; [exact E5|].
  tstep; [done|]. destruct (Z.ltb_spec k (Z.lor (Z.shiftl b5 8) b4 + 6)); [done|].
  tstep. apply twp_world_checked.
  destruct (Hjimi w1 b3 (drop 6 b) (Z.lor (Z.shiftl b5 8) b4)) as (w2 & rs & Ej); [rewrite zlen_drop; lia|split; [|lia]|].
  { apply Z.lor_nonneg. rewrite Z.shiftl_nonneg. apply arr_get_inv in E4 as [_ E4], E5 as [_ E5].
    pose proof (Forall_lookup_1 _ _ _ _ Hbo E4) as H4. pose proof (Forall_lookup_1 _ _ _ _ Hbo E5) as H5. unfold is_byte in *. lia. }
  exists w2, rs. split; [done|]. tstep. eapply twp_mono; [by apply dfu_responses_safe|]. intros u y' w' Hy'. by tstep.
Qed.

Lemma rx_proc_safe y w :
  app_inv y -> s_rx_ble_buf_index y <> 0 -> twp ble_rx_proc_handle (fun _ y' _ => app_inv y') y w.
Proof.
  intros Hy Hi. destruct (ai_rx _ Hy) as (Hb & Hr & Hat). unfold ble_rx_proc_handle. repeat tstep. cbv zeta.
  set (b := s_rx_ble_buf y) in *. set (i := s_rx_ble_buf_index y) in *.
  destruct (be16_defined b 0) as [h Eh]; [lia..|]. destruct (be16_defined b 2) as [c Ec]; [lia..|].
  eapply twp_checked; [exact Eh|]. tstep. eapply twp_checked; [exact Ec|]. tstep.
  assert (Hend : forall y', app_inv y' -> app_inv (set_rx (s_rx_ble_buf y') 0 y')).
  { intros y' Hy'. apply inv_set_rx; [done|]. split; [apply (ai_rx _ Hy')|]. split; [by left|]. left. lia. }
  eapply (twp_mono _ (fun _ y' _ => app_inv y')); [|intros u y' w' Hy'; tstep; by apply Hend].
  tstep; [|done]. assert (Hd : zlen (drop 4 b) = 491) by (rewrite zlen_drop; lia).
  tstep.
  - tstep. rewrite u16_small by lia. eapply twp_mono; [apply file_trans_safe; [done|lia|lia]|]. intros v y' w' Hy'. by tstep.
  - unfold ble_app_comm_data_proc. tstep. eapply twp_checked; [exact Eh|]. tstep. eapply twp_checked; [exact Ec|].
    tstep; [done|]. rewrite u16_small by lia. apply app_handle_safe; [done|lia|lia|].
    intros ->. destruct Hat as [Hat|Hat]; [lia|done].
Qed.

(** ** Everything that can happen *)

Inductive ble_event :=
  | PhoneWrites (data : list Z)
  | RxMessage
  | ReplyTimer
  | SendReply (data : list Z)
  | MtuUpdated (tx : Z)
  | CccChanged (value : Z)
  | Connected (err : Z)
  | Disconnected.

(** The message is in the queue of the BLE thread while a packet is buffered. *)
Definition ble_step (e : ble_event) : prog ble_app W unit :=
  match e with
  | PhoneWrites data => BLE_DataInputBuffer data (zlen data) ;; ret tt
  | RxMessage => i <- get s_rx_ble_buf_index ;; if i =? 0 then ret tt else ble_rx_proc_handle
  | ReplyTimer => timer_fires
  | SendReply data => ble_packet_trans_send (Some data) (zlen data)
  | MtuUpdated tx => modify (fun y => set_link (att_mtu_updated tx (ble_link y)) y)
  | CccChanged v => modify (fun y => set_link (custom_char_ccc_cfg_changed v (ble_link y)) y)
  | Connected err => modify (fun y => set_link (link_connected err (ble_link y)) y)
  | Disconnected =>
      modify (fun y => set_link (link_disconnected (ble_link y)) y) ;;
      world (fun w => (ble_log_set_ready w false, tt)) ;;
      ble_packet_trans_disconnect_cleanup
  end.

Fixpoint ble_run (es : list ble_event) : prog ble_app W unit :=
  match es with
  | [] => ret tt
  | e :: es => ble_step e ;; ble_run es
  end.

(** A command fits its buffer, and the MTU leaves room for two blocks. *)
Definition ble_event_ok (e : ble_event) : Prop :=
  match e with
  | PhoneWrites data => zlen data <= 132 \/ be16 data 2 <> Some BLE_DATA_TYPE_AT_CMD
  | MtuUpdated tx => 39 <= tx
  | _ => True
  end.

Lemma input_safe data y w :
  app_inv y -> ble_event_ok (PhoneWrites data) ->
  twp (BLE_DataInputBuffer data (zlen data)) (fun _ y' _ => app_inv y') y w.
Proof.
  intros Hy He. unfold BLE_DataInputBuffer. change BLE_SVC_RX_MAX_LEN with 495. change BLE_GATT_FRAME_LEN_MIN with 20.
  tstep. tstep. destruct (_ && _ && _) eqn:Ec; [|done].
  apply andb_prop in Ec as [[_ Hle%Z.leb_le]%andb_prop Hge%Z.leb_le]. destruct (ai_rx _ Hy) as (Hb & _).
  tstep. destruct (slice_fits data 0 (zlen data)) as (src & Es & Hs); [lia..|]. eapply twp_checked; [exact Es|].
  tstep. destruct (blit_fits (s_rx_ble_buf y) 0 src) as (b & Eb & Hbl); [lia..|]. eapply twp_checked; [exact Eb|].
  repeat tstep. apply inv_set_rx; [done|]. split; [lia|]. split; [lia|]. destruct He as [He|He]; [left; lia|right].
  assert (src = data) as -> by (apply arr_slice_inv in Es as (_ & _ & _ & ->); rewrite drop_0, take_ge by (unfold zlen; lia); done).
  rewrite arr_blit_Some in Eb by lia. injection Eb as <-. cbn [Z.to_nat take app Nat.add].
  unfold be16, arr_get in *. cbn [Z.leb Z.compare] in *. rewrite !lookup_app_l by (unfold zlen in Hge; lia). exact He.
Qed.

Lemma mtu_ok tx l : link_ok l -> 39 <= tx -> link_ok (att_mtu_updated tx l) /\ 32 <= data_room (att_mtu_updated tx l).
Proof.
  intros (Hb & Hi & Hd & Hm) Ht. unfold att_mtu_updated, CONFIG_BT_L2CAP_TX_MTU, link_ok, data_room, BLE_SERVER_MAX_DATA_LEN, BLE_CMD_DATA_LEN_UNIT.
  cbn [s_uart_ble_server_buf s_ble_server_rx_index s_ble_server_send_done g_ble_server_mtu].
  set (m := if 498 <=? tx then 498 else tx). assert (Hr : 39 <= m <= 498) by (unfold m; destruct (Z.leb_spec 498 tx); lia). clearbody m.
  rewrite Z.quot_div_nonneg by lia. split; [split_and!; (done || lia)|]. Z.div_mod_to_equations. lia.
Qed.

Lemma step_safe e y w : app_inv y -> ble_event_ok e -> twp (ble_step e) (fun _ y' _ => app_inv y') y w.
Proof.
  intros Hy He. pose proof (ao_link _ (ai_ok _ Hy)) as Hl. pose proof (ai_room _ Hy) as Hr. destruct e as [data| | |data|tx|v|err|]; cbn [ble_step].
  - tstep. eapply twp_mono; [by apply input_safe|]. intros u y' w' Hy'. by tstep.
  - tstep. tstep. destruct (Z.eqb_spec (s_rx_ble_buf_index y) 0); [done|]. by apply rx_proc_safe.
  - unfold timer_fires. tstep. tstep. tstep; [|done]. tstep. tstep. apply timeout_safe. by apply inv_set_timer.
  - apply trans_send_safe; [done|apply zlen_nonneg|lia].
  - tstep. destruct (mtu_ok tx _ Hl He). by apply inv_set_link.
  - tstep. by apply inv_set_link.
  - tstep. apply inv_set_link; [done|..]; unfold link_connected; by destruct (negb _).
  - tstep. tstep. tstep. apply twp_world. intros u w1 _. apply reset_all_safe. by apply inv_set_link.
Qed.

(** C7: the BLE protocol code is memory-safe.  Starting from any state of the
    invariant, any sequence of packets from the phone, received messages, timer
    expiries, replies, MTU changes, subscriptions, connections and
    disconnections, whatever the stack and the crypto library return, runs
    to its end without an access outside a buffer and keeps the invariant,
    provided that commands fit their buffer, the MTU is at least 39 and the
    update handler stays within its packet. *)
Theorem ble_events_safe es y w :
  app_inv y -> Forall ble_event_ok es ->
  exists y' w', ble_run es y w = Done (tt, y', w') /\ app_inv y'.
Proof.
  intros Hy Hes. assert (Ht : twp (ble_run es) (fun _ y' _ => app_inv y') y w).
  { revert y w Hy. induction Hes as [|e es He Hes IH]; intros y w Hy; cbn [ble_run]; [done|].
    tstep. eapply twp_mono; [by apply step_safe|]. intros u y' w' Hy'. by apply IH. }
  apply twp_done in Ht as ([] & y' & w' & E & Hy'). by exists y', w'.
Qed.
End safety.
