(* ===== verification/BleDfu.v ===== *)
(** * A firmware update over the encrypted link

    The BLE protocol and the firmware update put together: the phone encrypts
    the packets of the update, the device decrypts, dispatches and answers. *)

From S2P Require Import Prelude Prog Crc OtaFlash OtaFlashProofs OtaFlashSim DfuJimi DfuJimiProofs DfuJimiPhone.
From S2P Require Import BleLink BleCrypto BleApp BleAppProofs BleDelivery BleKey.

Open Scope prog_scope.

(** ** The rest of the buffer behind a packet does not matter *)

Lemma arr_get_prefix {A} (l r : list A) i x : arr_get l i = Some x -> arr_get (l ++ r) i = Some x.
Proof.
  intros E. pose proof (arr_get_inv _ _ _ E) as [Hi El]. unfold arr_get in *. destruct (0 <=? i); [|done]. by apply lookup_app_l_Some.
Qed.

Lemma arr_slice_prefix {A} (l r s : list A) i n : arr_slice l i n = Some s -> arr_slice (l ++ r) i n = Some s.
Proof.
  intros E. pose proof (arr_slice_inv _ _ _ _ E) as (Hi & Hn & Hl & Es). rewrite arr_slice_Some by (rewrite ?zlen_app; pose proof (zlen_nonneg r); lia).
  rewrite Es. f_equal. rewrite drop_app_le by (unfold zlen in *; lia). rewrite take_app_le; [done|]. rewrite length_drop. unfold zlen in *. lia.
Qed.

Lemma get32_prefix l r i z : get32 l i = Some z -> get32 (l ++ r) i = Some z.
Proof.
  unfold get32. destruct (arr_get l i) as [a|] eqn:Ea; [|done]. cbn [mbind option_bind].
  destruct (arr_get l (i + 1)) as [b|] eqn:Eb; [|done]. cbn [mbind option_bind].
  destruct (arr_get l (i + 2)) as [c|] eqn:Ec; [|done]. cbn [mbind option_bind].
  destruct (arr_get l (i + 3)) as [d|] eqn:Ed; [|done]. cbn [mbind option_bind]. intros <-.
  rewrite (arr_get_prefix _ r _ _ Ea), (arr_get_prefix _ r _ _ Eb), (arr_get_prefix _ r _ _ Ec), (arr_get_prefix _ r _ _ Ed). done.
Qed.

Lemma get32_inv l i z : get32 l i = Some z -> i + 3 < zlen l.
Proof.
  unfold get32. destruct (arr_get l i) as [a|]; [|done]. cbn [mbind option_bind].
  destruct (arr_get l (i + 1)) as [b|]; [|done]. cbn [mbind option_bind].
  destruct (arr_get l (i + 2)) as [c|]; [|done]. cbn [mbind option_bind].
  destruct (arr_get l (i + 3)) as [d|] eqn:Ed; [|done]. intros _. apply arr_get_inv in Ed. lia.
Qed.

Section prefix.
Context {D : Type} {IF : ImageFlash D}.

Lemma crc16_prefix l r n p c : my_crc16_calc l n p = Some c -> my_crc16_calc (l ++ r) n p = Some c.
Proof.
  unfold my_crc16_calc. destruct (arr_slice l 0 (u16 n)) as [bs|] eqn:E; [|done].
  by rewrite (arr_slice_prefix _ r _ _ _ E).
Qed.

Lemma write_block_prefix st (d : D) l r n res :
  my_ota_flash_write_block st d (Some l) n = Some res -> my_ota_flash_write_block st d (Some (l ++ r)) n = Some res.
Proof.
  unfold my_ota_flash_write_block. destruct (negb _); [done|]. destruct (n =? 0); [done|]. destruct (_ <? _); [done|].
  destruct (arr_slice l 0 n) as [s|] eqn:E; [|done]. by rewrite (arr_slice_prefix _ r _ _ _ E).
Qed.

Lemma write_image_prefix mtu (s : jimi_state D) l r n res :
  jimi_dfu_write_image mtu s l n = Some res -> jimi_dfu_write_image mtu s (l ++ r) n = Some res.
Proof.
  unfold jimi_dfu_write_image. destruct (get32 l 0) as [a|] eqn:E0; [|done]. cbn [mbind option_bind].
  destruct (get32 l 4) as [m|] eqn:E4; [|done]. cbn [mbind option_bind]. pose proof (get32_inv _ _ _ E4) as Hl.
  destruct (arr_get l (u32 (8 + m))) as [h|] eqn:Eh; [|done]. cbn [mbind option_bind].
  destruct (arr_get l (u32 (9 + m))) as [o|] eqn:Eo; [|done]. cbn [mbind option_bind].
  destruct (my_crc16_calc (drop 8 l) m CRC16_POLYNOMIAL) as [c|] eqn:Ec; [|done]. cbn [mbind option_bind].
  rewrite (get32_prefix _ r _ _ E0), (get32_prefix _ r _ _ E4). cbn [mbind option_bind].
  rewrite (arr_get_prefix _ r _ _ Eh), (arr_get_prefix _ r _ _ Eo). cbn [mbind option_bind].
  assert (Hd : drop 8 (l ++ r) = drop 8 l ++ r) by (apply drop_app_le; unfold zlen in Hl; lia).
  rewrite Hd, (crc16_prefix _ r _ _ _ Ec). cbn [mbind option_bind].
  destruct (negb _); [done|]. destruct (negb _); [done|]. destruct (negb _); [done|]. cbv zeta.
  destruct (my_ota_flash_write_block _ _ (Some (drop 8 l)) m) as [res'|] eqn:Ew; [|done].
  by rewrite (write_block_prefix _ _ _ r _ _ Ew).
Qed.

Lemma handler_prefix mtu area percent (s : jimi_state D) cmd l r n res :
  DfuJimi.jimi_dfu_cmd_handler mtu area percent s cmd l n = Some res ->
  DfuJimi.jimi_dfu_cmd_handler mtu area percent s cmd (l ++ r) n = Some res.
Proof.
  unfold DfuJimi.jimi_dfu_cmd_handler. destruct (cmd =? _); [done|]. destruct (cmd =? _).
  { unfold jimi_dfu_rx_file_size. destruct (get32 l 0) as [z|] eqn:E; [|done]. by rewrite (get32_prefix _ r _ _ E). }
  destruct (cmd =? _); [apply write_image_prefix|done].
Qed.
End prefix.

(** ** What sending leaves alone *)

Section frame.
Context {W : Type} {GW : Gatt W} {PW : Psa W} {CW : BleClients W}.
Context (P : W -> Prop) (HP : psa_keeps P) (HG : forall w d, P w -> P (fst (bt_gatt_notify w d))).

Lemma block_loop_keeps {S} cipher n : (forall w b, P w -> P (fst (cipher w b))) ->
  forall input output i, keeps (S := S) P (block_loop cipher n input output i).
Proof.
  intros Hc. induction n as [|n IH]; intros input output i; cbn [block_loop]; [auto with keeps|].
  apply keeps_bind; [auto with keeps|]. intros b. apply keeps_bind; [auto with keeps|]. intros [s out].
  apply keeps_bind; [auto with keeps|]. intros o. destruct (_ || _); auto with keeps.
Qed.

Lemma encrypt_keeps {S} key p n ct m : keeps (S := S) P (aes_ecb_encrypt key p n ct m).
Proof.
  unfold aes_ecb_encrypt. destruct key as [key|], p as [p|], ct as [ct|]; auto with keeps.
  apply keeps_bind; [apply keeps_world; intros w; apply HP|]. intros s. destruct (negb _); [auto with keeps|].
  apply keeps_bind; [apply keeps_world; intros w; apply HP|]. intros ok. destruct (negb _); [auto with keeps|].
  apply keeps_bind; [auto with keeps|]. intros src. apply keeps_bind; [auto with keeps|]. intros [pi pl].
  destruct (_ || _); [auto with keeps|]. apply keeps_bind; [|auto with keeps]. apply block_loop_keeps. intros w b. apply HP.
Qed.

Lemma trans_over_ble_keeps data n : keeps P (BLE_DataTransOverBle data n).
Proof.
  intros y w a y' w' E HPw. unfold BLE_DataTransOverBle, ble_server_send_notification in E.
  destruct (negb (is_conn _)); [by injection E as _ _ <-|]. destruct (negb (s_ble_server_send_done _)).
  { destruct (cache_data _ _ _ _); [|done]. cbn in E. by injection E as _ _ <-. }
  destruct (cache_data _ _ _ _) as [l|]; [|done]. cbn [mbind option_bind] in E. destruct (_ || _); [|by injection E as _ _ <-].
  destruct (arr_slice _ 0 _) as [out|]; [|done]. cbn [mbind option_bind] in E. specialize (HG w out HPw).
  destruct (bt_gatt_notify w out) as [w1 err]. destruct (negb _); [by injection E as _ _ <-|].
  destruct (arr_slice _ _ _); [|done]. cbn [mbind option_bind] in E. destruct (arr_blit _ _ _); [|done]. cbn in E. by injection E as _ _ <-.
Qed.

Lemma send_packet_keeps type data n : keeps P (ble_comu_send_packet type data n).
Proof.
  unfold ble_comu_send_packet. destruct data as [data|]; [|auto with keeps]. destruct (_ || _); [auto with keeps|].
  apply keeps_bind; [auto with keeps|]. intros y. apply keeps_bind; [auto with keeps|]. intros src.
  apply keeps_bind; [auto with keeps|]. intros t1. apply keeps_bind; [auto with keeps|]. intros t2.
  apply keeps_bind; [auto with keeps|]. intros _. apply keeps_bind.
  - destruct (_ || _); [auto with keeps|]. apply keeps_bind; [apply encrypt_keeps|auto with keeps].
  - intros s. destruct (negb _); [auto with keeps|]. apply keeps_bind; [auto with keeps|]. intros y1.
    apply keeps_bind; [auto with keeps|]. intros e. apply keeps_bind; [auto with keeps|]. intros t3.
    apply keeps_bind; [auto with keeps|]. intros _. apply trans_over_ble_keeps.
Qed.
End frame.

(** ** Packets of the update *)

(** What the phone sends, and what it makes of an answer. *)
Definition dfu_header (code cmd n : Z) : list Z :=
  [0x78; 0x79; code; cmd; Z.land n 0xFF; Z.land (Z.shiftr n 8) 0xFF].

Section packets.
Context {W : Type} {GW : Gatt W} {PW : Psa W} {CW : BleClients W} {GL : GattLog W} {PWK : PsaWorks W} {BW : BleWorks W}.
Context (key : list Z) (mtu : Z).
Implicit Types (y : ble_app) (w : W).

Definition dfu_packet (cmd : Z) (content : list Z) : list Z :=
  packet key BLE_DATA_TYPE_FILE_TRANS (payload (dfu_header BLE_COMU_APP_CODE cmd (zlen content)) content).

Definition phone_decode (pkt : list Z) : option output :=
  let content := blockwise (aes_inv key) (blocks (drop 4 pkt)) (drop 4 pkt) in
  cmd ← arr_get content 3;
  lo ← arr_get content 4;
  hi ← arr_get content 5;
  data ← arr_slice content 6 (lo + 256 * hi);
  Some (Response cmd data).

(** An answer of the device. *)
Definition dfu_answer (cmd : Z) (data : list Z) : list Z :=
  packet key BLE_DATA_TYPE_FILE_TRANS (dfu_header BLE_COMU_DEV_CODE cmd (zlen data) ++ data).

Lemma decode_answer cmd data : zlen data = 10 -> phone_decode (dfu_answer cmd data) = Some (Response cmd data).
Proof.
  intros Hd. unfold phone_decode, dfu_answer. rewrite packet_content by (rewrite zlen_app, Hd; done). rewrite Hd.
  change (arr_get (dfu_header BLE_COMU_DEV_CODE cmd 10 ++ data) 3) with (Some cmd).
  change (arr_get (dfu_header BLE_COMU_DEV_CODE cmd 10 ++ data) 4) with (Some 10).
  change (arr_get (dfu_header BLE_COMU_DEV_CODE cmd 10 ++ data) 5) with (Some 0). cbn [mbind option_bind].
  rewrite <- (app_nil_r data) at 1. rewrite arr_slice_app; [done|done|]. by rewrite Hd.
Qed.

(** An idle receiver on an open channel. *)
Record ready (rx : Z) y : Prop := {
  rd_ok : app_ok y;
  rd_link : link_clear (ble_link y);
  rd_key : s_aes_base_key y = key;
  rd_mtu : g_ble_server_mtu (ble_link y) = mtu;
  rd_rx : s_rx_ble_buf_index y = rx
}.

Lemma response_works rx cmd data y w :
  ready rx y -> zlen data = 10 ->
  exists y' w', my_ble_dfu_send_response cmd data (zlen data) y w = Done (tt, y', w') /\ ready rx y' /\
    notified w' = notified w ++ [dfu_answer cmd data].
Proof.
  intros [Hy Hl Hk Hm Hx] Hd. unfold my_ble_dfu_send_response. rewrite Hd. change (BLE_MTU_DATA_LEN - 6 <? 10) with false. cbv iota.
  assert (Es : arr_slice data 0 10 = Some data) by (rewrite <- Hd; apply arr_slice_all).
  rewrite (bind_done _ _ _ _ data y w) by (unfold checked; by rewrite Es).
  set (hdr := [0x78; 0x79; BLE_COMU_DEV_CODE; cmd; Z.land 10 255; Z.land (Z.shiftr 10 8) 255]).
  assert (Hh : zlen (hdr ++ data) = 16) by (rewrite zlen_app, Hd; done).
  set (b := (hdr ++ data) ++ replicate 512 0).
  assert (Eb : arr_blit (replicate (Z.to_nat BLE_MTU_DATA_LEN) 0) 0 (hdr ++ data) = Some b).
  { rewrite arr_blit_Some; [|lia|rewrite Hh; by vm_compute]. unfold b. rewrite drop_replicate.
    assert (Hlen : length (hdr ++ data) = 16%nat) by (unfold zlen in Hh; lia). by rewrite Hlen. }
  assert (Hbl : zlen b = 528) by (rewrite (arr_blit_length _ _ _ _ Eb); done).
  rewrite (bind_done _ _ _ _ b y w) by (unfold checked; by rewrite Eb). rewrite (bind_done _ _ _ _ tt (set_rsp b y) w) by done.
  change (u16 (6 + 10)) with 16. change (16 - 16 mod BLE_CMD_DATA_LEN_UNIT) with 16.
  pose proof Hl as [(_ & _ & _ & Hmtu) _].
  destruct (send_packet_works BLE_DATA_TYPE_FILE_TRANS b 16 (set_rsp b y) w) as (tx & e & l & w' & E & Htx & He & Hl' & Hm' & Hlog);
    [by destruct Hy; split|done|done|done|lia|done|lia|cbn; lia|].
  rewrite E. eexists _, w'. split; [reflexivity|]. split.
  - destruct Hy; split; try done; [split; try done; apply Hl'|]. cbn. by rewrite Hm'.
  - assert (Et : take (Z.to_nat 16) b = hdr ++ data) by (apply take_app_length'; unfold zlen in Hh; lia).
    rewrite Hlog, Et. cbn [s_aes_base_key set_rsp]. rewrite Hk. unfold dfu_answer. by rewrite Hd.
Qed.

Lemma header_len n : 0 <= n < 65536 -> Z.lor (Z.shiftl (Z.land (Z.shiftr n 8) 0xFF) 8) (Z.land n 0xFF) = n.
Proof.
  intros Hn. rewrite !land_255, lor_shift_byte, Z.shiftr_div_pow2 by (apply Z.mod_pos_bound || idtac; lia).
  change (2 ^ 8) with 256. Z.div_mod_to_equations. lia.
Qed.

Definition dfu_payload (cmd : Z) (content : list Z) : list Z := payload (dfu_header BLE_COMU_APP_CODE cmd (zlen content)) content.

Lemma dfu_payload_len cmd content :
  zlen content <= 464 -> let n := zlen (dfu_payload cmd content) in zlen content + 6 <= n <= 480 /\ 16 <= n /\ n mod 16 = 0.
Proof.
  intros Hc. pose proof (zlen_nonneg content). unfold dfu_payload. set (hdr := dfu_header _ _ _).
  assert (Hm : zlen (payload hdr content) mod 16 = 0) by (apply payload_len; change (zlen hdr) with 6; lia).
  assert (Hl : zlen content + 6 <= zlen (payload hdr content) < zlen content + 22).
  { unfold payload. rewrite !zlen_app, zlen_replicate. change (zlen hdr) with 6. destruct (align16_spec (6 + zlen content)) as [Ha _]; lia. }
  cbv zeta. Z.div_mod_to_equations. lia.
Qed.

(** The decrypted packet is taken apart and handed on. *)
Lemma file_trans_works (P : W -> Prop) cmd content rest y w :
  psa_keeps P -> P w -> app_ok y -> s_aes_base_key y = key -> zlen content <= 464 ->
  let pl := dfu_payload cmd content in
  exists w1 b tail v, zlen b = 528 /\ P w1 /\
    my_ble_dfu_file_trans_handle (blockwise (aes key) (blocks pl) pl ++ rest) (zlen pl) y w
    = (rs <- world_checked (fun w => jimi_dfu_cmd_handler w cmd (content ++ tail) (zlen content)) ;;
       dfu_responses rs ;; ret v) (set_decrypt b y) w1.
Proof.
  intros HP HPw Hy Hk Hc pl. destruct (dfu_payload_len cmd content Hc) as (Hpl & Hpl' & Hpm). fold pl in Hpl, Hpl', Hpm.
  set (c := blockwise (aes key) (blocks pl) pl). assert (Hcl : zlen c = zlen pl).
  { unfold c. pose proof (blocks_len_Z pl Hpm). rewrite blockwise_len; [lia|apply aes_len|lia]. }
  assert (Hdec : zlen (s_ble_decrypt_buffer y) = 528) by apply (ao_dec _ Hy). pose proof (zlen_nonneg content).
  destruct (aes_decrypt_works P HP key c (s_ble_decrypt_buffer y) BLE_MTU_DATA_LEN y w) with (rest := rest) as (w1 & Ed & Hw1);
    [rewrite <- Hk; apply (ao_key _ Hy)|lia|by rewrite Hcl|change BLE_MTU_DATA_LEN with 528; lia|done|].
  assert (Ei : blockwise (aes_inv key) (blocks c) c = pl) by exact (packet_content key BLE_DATA_TYPE_FILE_TRANS pl Hpm).
  rewrite Ei, Hcl in Ed. set (b := pl ++ drop (length c) _) in Ed. set (hdr := dfu_header BLE_COMU_APP_CODE cmd (zlen content)).
  set (tail := replicate (Z.to_nat (align16 (zlen hdr + zlen content) - (zlen hdr + zlen content))) 0 ++ drop (length c) (s_ble_decrypt_buffer y)).
  assert (Eb : b = hdr ++ content ++ tail) by (unfold b, pl, dfu_payload, payload, tail; by rewrite <- !app_assoc).
  assert (Hbl : zlen b = 528) by (unfold b; rewrite zlen_app, zlen_drop, Hdec; unfold zlen in *; lia).
  exists w1, b, tail, (u16 (zlen pl + BLE_FRAME_HEAD_LEN + BLE_CMD_HEAD_LEN)). split; [done|]. split; [done|].
  unfold my_ble_dfu_file_trans_handle. change BLE_CMD_DATA_LEN_UNIT with 16.
  rewrite Hpm. cbn [Z.eqb negb]. cbv zeta. rewrite (proj2 (Z.ltb_ge BLE_MTU_DATA_LEN _)) by (change BLE_MTU_DATA_LEN with 528; lia).
  rewrite (bind_done _ _ _ _ y y w) by done. rewrite Hk.
  rewrite (bind_done _ _ _ _ _ _ _ Ed). cbn [snd fst]. change (default [] (Some b)) with b. set (y2 := set_decrypt b y).
  rewrite (bind_done _ _ _ _ tt y2 w1) by done. change (PSA_SUCCESS <? 0) with false. cbv iota.
  rewrite Eb. rewrite (bind_done _ _ _ _ 0x7879 y2 w1), (bind_done _ _ _ _ BLE_COMU_APP_CODE y2 w1), (bind_done _ _ _ _ cmd y2 w1),
    (bind_done _ _ _ _ (Z.land (zlen content) 0xFF) y2 w1), (bind_done _ _ _ _ (Z.land (Z.shiftr (zlen content) 8) 0xFF) y2 w1) by done.
  rewrite !Z.eqb_refl, header_len by lia. cbn [negb orb]. by rewrite (proj2 (Z.ltb_ge (zlen pl) _)) by lia.
Qed.

(** A packet of the update reaches the handler. *)
Lemma deliver_file (P : W -> Prop) cmd content y w :
  psa_keeps P -> P w -> ready 0 y -> zlen content <= 464 ->
  exists y1 w1 n tail, ready n y1 /\ P w1 /\
    deliver (dfu_packet cmd content) y w
    = ((rs <- world_checked (fun w => jimi_dfu_cmd_handler w cmd (content ++ tail) (zlen content)) ;; dfu_responses rs) ;;
       modify (fun y => set_rx (s_rx_ble_buf y) 0 y)) y1 w1.
Proof.
  intros HP HPw [Hy Hl Hk Hm Hx] Hc. set (pl := dfu_payload cmd content).
  destruct (dfu_payload_len cmd content Hc) as (Hpl & Hpl' & Hpm). fold pl in Hpl, Hpl', Hpm.
  set (c := blockwise (aes key) (blocks pl) pl). assert (Hcl : zlen c = zlen pl).
  { unfold c. pose proof (blocks_len_Z pl Hpm). rewrite blockwise_len; [lia|apply aes_len|lia]. }
  change (dfu_packet cmd content) with (packet_head BLE_DATA_TYPE_FILE_TRANS ++ c). set (pkt := _ ++ c).
  assert (Hpk : zlen pkt = zlen pl + 4) by (unfold pkt; rewrite zlen_app, Hcl; change (zlen (packet_head _)) with 4; lia).
  destruct (deliver_taken pkt y w Hy Hx ltac:(lia)) as [Hbuf ->]. set (rest := drop (length pkt) (s_rx_ble_buf y)) in *.
  assert (Epk : pkt ++ rest = packet_head BLE_DATA_TYPE_FILE_TRANS ++ c ++ rest) by (unfold pkt; by rewrite <- app_assoc).
  rewrite Epk in *. set (buf := packet_head _ ++ c ++ rest) in *. rewrite Hpk. set (y1 := set_rx buf _ y).
  assert (Hy1 : app_ok y1) by (by destruct Hy; split).
  destruct (file_trans_works P cmd content rest y1 w HP HPw Hy1 Hk Hc) as (w1 & b & tail & v & Hbl & HPw1 & E). fold pl in E. fold c in E.
  exists (set_decrypt b y1), w1, (zlen pl + 4), tail. split; [destruct Hy1; split; try done; by split|]. split; [done|].
  unfold ble_rx_proc_handle. rewrite (bind_done _ _ _ _ y1 y1 w) by done. cbv zeta.
  change (s_rx_ble_buf y1) with buf. change (s_rx_ble_buf_index y1) with (zlen pl + 4).
  rewrite (bind_done _ _ _ _ BLE_DATA_PACKET_HEAD y1 w), (bind_done _ _ _ _ BLE_DATA_TYPE_FILE_TRANS y1 w) by done.
  rewrite !Z.eqb_refl. apply bind_first. unfold bind at 1. rewrite (u16_small (zlen pl + 4 - 4)) by lia.
  replace (zlen pl + 4 - 4) with (zlen pl) by lia. change (drop 4 buf) with (c ++ rest). rewrite E. unfold bind.
  destruct (world_checked _ (set_decrypt b y1) w1) as [[[rs y3] w3]| |]; [|done..]. by destruct (dfu_responses rs y3 w3) as [[[[] y4] w4]| |].
Qed.
End packets.

(** ** The two modules together *)

(** The world of the BLE module with the state of the update in it and the
    messages to the main thread. *)
Record dfu_world (B D : Type) := mk_dw { dw_base : B; dw_jimi : jimi_state D; dw_msgs : list main_msg }.
Arguments mk_dw {B D} _ _ _.
Arguments dw_base {B D} _.
Arguments dw_jimi {B D} _.
Arguments dw_msgs {B D} _.

(** "DFU start, battery low". *)
Definition battery_low_text : list Z :=
  [68; 70; 85; 32; 115; 116; 97; 114; 116; 44; 32; 98; 97; 116; 116; 101; 114; 121; 32; 108; 111; 119].

Fixpoint ble_outputs (outs : list output) : list dfu_output :=
  match outs with
  | [] => []
  | Response cmd payload :: outs => DfuResponse cmd payload :: ble_outputs outs
  | BatteryLow :: outs => DfuText battery_low_text :: ble_outputs outs
  | Notify _ :: outs => ble_outputs outs
  end.

Fixpoint main_msgs (outs : list output) : list main_msg :=
  match outs with
  | [] => []
  | Notify m :: outs => m :: main_msgs outs
  | _ :: outs => main_msgs outs
  end.

Lemma ble_outputs_notify ms : ble_outputs (map Notify ms) = [].
Proof. by induction ms. Qed.

Section world.
Context {B D : Type} {GB : Gatt B} {LB : GattLog B} {PB : Psa B} {KB : PsaWorks B} {WB : BleWorks B} {CB : BleClients B}.
Context {IF : ImageFlash D}.
Notation W := (dfu_world B D).

Definition on_base {A} (f : B -> B * A) (w : W) : W * A :=
  let '(b, a) := f (dw_base w) in (mk_dw b (dw_jimi w) (dw_msgs w), a).

#[export] Instance dw_gatt : Gatt W := {| bt_gatt_notify w d := on_base (fun b => bt_gatt_notify b d) w |}.

#[export] Instance dw_psa : Psa W := {|
  psa_import_key w k := on_base (fun b => psa_import_key b k) w;
  k_malloc w n := on_base (fun b => k_malloc b n) w;
  psa_cipher_encrypt w k c := on_base (fun b => psa_cipher_encrypt b k c) w;
  psa_cipher_decrypt w k c := on_base (fun b => psa_cipher_decrypt b k c) w
|}.

#[export] Program Instance dw_log : GattLog W := {| notified w := notified (dw_base w) |}.
Next Obligation.
  intros w d w'. cbn. unfold on_base. destruct (bt_gatt_notify (dw_base w) d) as [b e] eqn:E. intros [= <- ->]. exact (notified_ok _ _ _ E).
Qed.
Next Obligation.
  intros w d w' e. cbn. unfold on_base. destruct (bt_gatt_notify (dw_base w) d) as [b e'] eqn:E. intros [= <- ->] Hne.
  exact (notified_err _ _ _ _ E Hne).
Qed.

Lemma on_base_some {A} (f : B -> B * A) (w : W) a : (exists b, f (dw_base w) = (b, a)) -> exists w', on_base f w = (w', a).
Proof. intros [b E]. unfold on_base. rewrite E. by eexists. Qed.

#[export] Program Instance dw_psa_works : PsaWorks W := {| aes := aes (W := B); aes_inv := aes_inv (W := B) |}.
Next Obligation. apply aes_len. Qed.
Next Obligation. apply aes_inv_aes. Qed.
Next Obligation. apply aes_inv_len. Qed.
Next Obligation. intros w k Hk. apply on_base_some. by apply pw_import. Qed.
Next Obligation. intros w n. apply on_base_some. by apply pw_malloc. Qed.
Next Obligation. intros w k b Hk Hb. apply on_base_some. by apply pw_encrypt. Qed.
Next Obligation. intros w k b Hk Hb. apply on_base_some. by apply pw_decrypt. Qed.

Lemma on_base_keeps {A} (f : B -> B * A) (P : B -> Prop) (w : W) :
  (P (dw_base w) -> P (fst (f (dw_base w)))) -> P (dw_base w) -> P (dw_base (fst (on_base f w))).
Proof. intros Hf HP. specialize (Hf HP). unfold on_base. by destruct (f (dw_base w)) as [b a]. Qed.

Lemma on_base_jimi {A} (f : B -> B * A) (w : W) : dw_jimi (fst (on_base f w)) = dw_jimi w.
Proof. unfold on_base. by destruct (f (dw_base w)) as [b a]. Qed.

#[export] Instance dw_works : BleWorks W.
Proof.
  split.
  - intros w d. apply on_base_some. apply bw_notify.
  - intros log. pose proof (bw_quiet (W := B) log) as H.
    split; intros; apply (on_base_keeps _ (fun b => notified b = log)); try done; apply H.
Qed.

(** The update module as a client of the BLE module. *)
Definition dfu_clients (mtu area percent : Z) : BleClients W := {|
  my_generate_random w := on_base my_generate_random w;
  my_param_get_Gvalue w := my_param_get_Gvalue (dw_base w);
  my_param_get_sn w := my_param_get_sn (dw_base w);
  ble_log_set_ready w b := mk_dw (ble_log_set_ready (dw_base w) b) (dw_jimi w) (dw_msgs w);
  at_recv_cmd_handler w msg len := on_base (fun b => at_recv_cmd_handler b msg len) w;
  jimi_dfu_cmd_handler w cmd data len :=
    '(s, outs) ← DfuJimi.jimi_dfu_cmd_handler mtu area percent (dw_jimi w) cmd data len;
    Some (mk_dw (dw_base w) s (dw_msgs w ++ main_msgs outs), ble_outputs outs)
|}.

Context (key : list Z) (mtu area percent : Z).
#[local] Existing Instance dfu_clients.
#[local] Instance clients : BleClients W := dfu_clients mtu area percent.
Implicit Types (y : ble_app) (w : W).

Lemma jimi_kept s : psa_keeps (fun w => dw_jimi w = s).
Proof. split; intros; cbn; by rewrite on_base_jimi. Qed.

Lemma response_keeps s cmd data n : keeps (fun w => dw_jimi w = s) (my_ble_dfu_send_response cmd data n).
Proof.
  unfold my_ble_dfu_send_response. destruct (_ <? _); [auto with keeps|]. apply keeps_bind; [auto with keeps|]. intros src.
  apply keeps_bind; [auto with keeps|]. intros b. apply keeps_bind; [auto with keeps|]. intros _.
  apply send_packet_keeps; [apply jimi_kept|]. intros w d. cbn. by rewrite on_base_jimi.
Qed.

(** One exchange: a packet of the phone is handled and answered. *)
Lemma update_step cmd content s' c p ms y w :
  ready key mtu 0 y -> zlen content <= 464 -> zlen p = 10 ->
  DfuJimi.jimi_dfu_cmd_handler mtu area percent (dw_jimi w) cmd content (zlen content) = Some (s', Response c p :: map Notify ms) ->
  exists y' w', deliver (dfu_packet key cmd content) y w = Done (tt, y', w') /\ ready key mtu 0 y' /\
    dw_jimi w' = s' /\ last (notified w') = Some (dfu_answer key c p).
Proof.
  intros Hr Hc Hp Eh.
  destruct (deliver_file key mtu (fun w0 => dw_jimi w0 = dw_jimi w) cmd content y w (jimi_kept _) eq_refl Hr Hc)
    as (y1 & w1 & n & tail & Hr1 & Hj1 & ->).
  apply (handler_prefix _ _ _ _ _ _ tail) in Eh. set (outs := Response c p :: map Notify ms) in *.
  set (w2 := mk_dw (dw_base w1) s' (dw_msgs w1 ++ main_msgs outs)).
  assert (Ej : jimi_dfu_cmd_handler w1 cmd (content ++ tail) (zlen content) = Some (w2, ble_outputs outs)).
  { cbn. rewrite Hj1, Eh. done. }
  destruct (response_works key mtu n c p y1 w2 Hr1 Hp) as (y3 & w3 & E3 & Hr3 & Hlog).
  pose proof (response_keeps s' c p (zlen p) _ _ _ _ _ E3 eq_refl) as Hj3.
  eexists _, w3. split; [|split; [|split; [exact Hj3|by rewrite Hlog, last_snoc]]].
  - rewrite (bind_done _ _ _ _ tt y3 w3); [reflexivity|].
    rewrite (bind_done _ _ _ _ (ble_outputs outs) y1 w2) by (unfold world_checked; by rewrite Ej). unfold outs. cbn [ble_outputs dfu_responses].
    rewrite (bind_done _ _ _ _ tt y3 w3 E3). by rewrite ble_outputs_notify.
  - destruct Hr3 as [[] ? ? ? ?]. by split.
Qed.

(** ** The session *)

Context (file : list Z).

(** The phone decrypts the newest notification and answers a request. *)
Fixpoint ble_update (fuel : nat) : prog ble_app W unit :=
  log <- world (fun w => (w, notified w)) ;;
  out <- checked (phone_decode key (default [] (last log))) ;;
  match phone_answer file [out], fuel with
  | None, _ => ret tt
  | Some _, O => no_fuel
  | Some pkt, S fuel => deliver (dfu_packet key JIMI_DFU_FILE_IMAGE pkt) ;; ble_update fuel
  end.

Context {HL : ImageFlashLaws D} {HWK : ImageFlashWorks D}.
Context (Hmtu : 0 <= mtu < 65536) (Hfile : bytes_ok file) (Hsize : 0 < zlen file <= area).
Context (Hal : area mod 4096 = 0) (Harea : area < 4294960000).

(** The device asks, and the phone has heard it. *)
Definition heard y w (n : Z) : Prop :=
  ready key mtu 0 y /\ exists c p, asking mtu area file (dw_jimi w) [Response c p] n /\ zlen p = 10 /\
    last (notified w) = Some (dfu_answer key c p).

Lemma asking_outs s outs n :
  asking mtu area file s outs n -> exists p size, outs = [Response JIMI_DFU_FILE_IMAGE p] /\ zlen p = 10 /\
    0 < size <= 384 /\ n + size < zlen file + 16 /\ phone_answer file outs = Some (phone_packet file n size).
Proof.
  intros Has. pose proof Has as [Hi Hok Hpart Hfs Hcp Had Hn Hst ->].
  pose proof (oi_off _ _ _ Hi) as Hoff. pose proof (oi_align _ _ _ Hi) as Hba. pose proof (oi_len _ _ _ Hi) as Hlen.
  rewrite (prefix_len area file Hsize) in Hlen by lia.
  assert (Hcr : my_ota_flash_cache_remain (j_ota s) = 1024 - s_ota_buf_offset (j_ota s))
    by (apply u16_small; unfold MY_OTA_BUFFER_SIZE; lia).
  rewrite Hcr. set (cr := 1024 - s_ota_buf_offset (j_ota s)).
  assert (Hcr1 : cr mod 128 = 0) by (unfold cr; Z.div_mod_to_equations; lia).
  destruct (pkt_size_fits mtu (zlen file - n) cr Hmtu) as (Hp & _ & Hpe & _); [lia|unfold cr; lia|done|].
  set (p := jimi_dfu_calc_pkt_size mtu (zlen file - n) cr) in *. clearbody p cr. clear Hcr1. eexists _, p. split; [reflexivity|]. split; [done|].
  split; [lia|]. split; [lia|].
  apply (answer_request area file Hsize Harea); lia.
Qed.

Lemma update_finishes fuel : forall y w n,
  heard y w n -> zlen file - n <= Z.of_nat fuel ->
  exists y' w', ble_update fuel y w = Done (tt, y', w') /\
    finished file (dw_jimi w') [end_response JIMI_DFU_END_RESP_OK; Notify MY_MSG_DFU_COMPLETE].
Proof.
  induction fuel as [|fuel IH]; intros y w n (Hr & c & p & Has & Hp & Hlast) Hf; pose proof (as_n _ _ _ _ _ _ Has); [lia|].
  destruct (asking_outs _ _ _ Has) as (p' & size & [= -> ->] & _ & Hs & Hse & Ea).
  destruct (answer_step mtu area percent file Hmtu Hfile Hsize Hal Harea _ _ _ Has) as (pkt & s' & outs' & Ea' & Es & Hor).
  rewrite Ea in Ea'. injection Ea' as <-.
  assert (Hpk : zlen (phone_packet file n size) <= 464) by (rewrite phone_packet_len; lia).
  cbn [ble_update]. rewrite (bind_done _ _ _ _ (notified w) y w) by done. rewrite Hlast.
  rewrite (bind_done _ _ _ _ (Response JIMI_DFU_FILE_IMAGE p') y w)
    by (unfold checked; change (default [] (Some ?x)) with x; by rewrite decode_answer).
  rewrite Ea. destruct Hor as [Hfin | (m & Hm & Has')].
  - pose proof Hfin as [-> Hfin'].
    destruct (update_step JIMI_DFU_FILE_IMAGE _ s' JIMI_DFU_FILE_END (JIMI_DFU_END_RESP_OK :: replicate 9 0) [MY_MSG_DFU_COMPLETE] y w Hr Hpk eq_refl Es)
      as (y1 & w1 & E1 & Hr1 & Hj1 & Hl1).
    exists y1, w1. rewrite (bind_done _ _ _ _ tt y1 w1 E1). split; [|by rewrite Hj1].
    destruct fuel; cbn [ble_update]; rewrite (bind_done _ _ _ _ (notified w1) y1 w1) by done; rewrite Hl1;
      by rewrite (bind_done _ _ _ _ (Response JIMI_DFU_FILE_END (JIMI_DFU_END_RESP_OK :: replicate 9 0)) y1 w1)
        by (unfold checked; change (default [] (Some ?x)) with x; by rewrite decode_answer).
  - destruct (asking_outs _ _ _ Has') as (p2 & size2 & -> & Hp2 & _).
    destruct (update_step JIMI_DFU_FILE_IMAGE _ s' JIMI_DFU_FILE_IMAGE p2 [] y w Hr Hpk Hp2 Es) as (y1 & w1 & E1 & Hr1 & Hj1 & Hl1).
    rewrite (bind_done _ _ _ _ tt y1 w1 E1). apply (IH y1 w1 m); [|lia]. split; [done|].
    exists JIMI_DFU_FILE_IMAGE, p2. by rewrite Hj1.
Qed.

(** C2: a firmware update over the encrypted BLE link succeeds, with the battery at
    ten percent or more, an idle writer, a flash that reads and writes inside its
    partition and a file that fits in it.  The phone sends the start command, the file size and the parts the device asks for as
    encrypted packets, and reads the requests from the encrypted notifications.
    The device decrypts, dispatches, checks, writes and asks on until the
    partition starts with the file; then the upgrade is requested, the reset
    is scheduled and the writer is released. *)
Theorem ble_update_installs y w :
  ready key mtu 0 y -> ota_ok (j_ota (dw_jimi w)) -> s_ota_busy (j_ota (dw_jimi w)) = false ->
  zlen (img_view (j_flash (dw_jimi w))) = area -> 10 <= percent ->
  exists y' w',
    (deliver (dfu_packet key JIMI_DFU_START []) ;;
     deliver (dfu_packet key JIMI_DFU_FILE_SIZE (bytes32 (zlen file))) ;;
     ble_update (Z.to_nat (zlen file))) y w = Done (tt, y', w') /\
    upgrade (dw_jimi w') = true /\ reset_ms (dw_jimi w') = Some 6500 /\ s_ota_busy (j_ota (dw_jimi w')) = false /\
    arr_slice (img_view (j_flash (dw_jimi w'))) 0 (zlen file) = Some file.
Proof.
  intros Hr Ho Hbusy Hpart Hpc.
  destruct (session_starts mtu area percent file Hsize Hal Harea (dw_jimi w) Ho Hbusy Hpart Hpc) as (s1 & s2 & outs & E1 & E2 & Has).
  destruct (update_step JIMI_DFU_START [] s1 JIMI_DFU_START (replicate 10 0) [MY_MSG_DFU_START] y w Hr ltac:(done) eq_refl E1)
    as (y1 & w1 & Ed1 & Hr1 & Hj1 & _).
  destruct (asking_outs _ _ _ Has) as (p & size & -> & Hp & _). rewrite <- Hj1 in E2.
  destruct (update_step JIMI_DFU_FILE_SIZE (bytes32 (zlen file)) s2 JIMI_DFU_FILE_IMAGE p [] y1 w1 Hr1 ltac:(done) Hp E2)
    as (y2 & w2 & Ed2 & Hr2 & Hj2 & Hl2).
  destruct (update_finishes (Z.to_nat (zlen file)) y2 w2 0) as (y3 & w3 & E3 & Hfin);
    [split; [done|]; exists JIMI_DFU_FILE_IMAGE, p; by rewrite Hj2|lia|].
  exists y3, w3. rewrite (bind_done _ _ _ _ tt y1 w1 Ed1), (bind_done _ _ _ _ tt y2 w2 Ed2). split; [done|]. apply Hfin.
Qed.
End world.
