(* ===== verification/BleLog.v ===== *)
(** * The log channel over BLE ([src/my_ble_log.c], [src/my_ble_app.c])

    Log text waits in a ring buffer and goes out in clear, in packets of at most
    240 bytes, at most ten per call.  The settings, the clock, the flag of a
    running update and what happens while the CPU is given away are the class
    [LogEnv]. *)

From S2P Require Import Prelude Prog BleLink BleCrypto BleApp BleAppProofs.

Open Scope prog_scope.

Record ble_log_config_t := mk_log_config { global_en : Z; mod_en : Z; mod_level : list Z }.

(** [k_yield] tells whether the phone disconnected meanwhile. *)
Class LogEnv (W : Type) := {
  my_param_get_ble_log_config : W -> ble_log_config_t;
  k_uptime_get : W -> Z;
  my_ota_flash_is_busy : W -> bool;
  k_yield : W -> W * bool
}.

Definition BLE_LOG_RING_BUF_SIZE : Z := 2048.
Definition BLE_LOG_MTU_OVERHEAD : Z := 7.
Definition BLE_LOG_MAX_CHUNK_SIZE : Z := 240.
Definition BLE_LOG_MOD_MAX : Z := 15.
Definition BLE_LOG_READY_DELAY_MS : Z := 1000.

(** [app] is the state of [my_ble_app.c]. *)
Record ble_log := mk_log {
  s_ble_log_ring_buf : list Z;
  s_ble_log_write_idx : Z;
  s_ble_log_read_idx : Z;
  s_ble_log_data_len : Z;
  s_ble_log_disconnect_pending : bool;
  s_ble_log_ready : bool;
  s_ble_log_ready_time : Z;
  app : ble_app
}.

Definition set_ring (b : list Z) (wi ri n : Z) (s : ble_log) : ble_log :=
  mk_log b wi ri n (s_ble_log_disconnect_pending s) (s_ble_log_ready s) (s_ble_log_ready_time s) (app s).
Definition set_pending (p : bool) (s : ble_log) : ble_log :=
  mk_log (s_ble_log_ring_buf s) (s_ble_log_write_idx s) (s_ble_log_read_idx s) (s_ble_log_data_len s) p
    (s_ble_log_ready s) (s_ble_log_ready_time s) (app s).
Definition set_app (y : ble_app) (s : ble_log) : ble_log :=
  mk_log (s_ble_log_ring_buf s) (s_ble_log_write_idx s) (s_ble_log_read_idx s) (s_ble_log_data_len s)
    (s_ble_log_disconnect_pending s) (s_ble_log_ready s) (s_ble_log_ready_time s) y.

Definition ble_log_disconnect_cleanup : ble_log -> ble_log := set_pending true.
Definition ble_log_connect_init : ble_log -> ble_log := set_pending false.

(** The ring is emptied. *)
Definition clear_ring (s : ble_log) : ble_log := set_ring (s_ble_log_ring_buf s) 0 0 0 s.

(** ** The ring buffer *)

Fixpoint ring_write (src buf : list Z) (wi : Z) : option (list Z * Z) :=
  match src with
  | [] => Some (buf, wi)
  | x :: src => b ← arr_set buf wi x; ring_write src b ((wi + 1) mod BLE_LOG_RING_BUF_SIZE)
  end.

Definition ble_log_ring_buf_write (data : list Z) (len : Z) (s : ble_log) : option (ble_log * Z) :=
  let free := BLE_LOG_RING_BUF_SIZE - s_ble_log_data_len s in
  let write_len := if free <? len then u16 free else len in
  src ← arr_slice data 0 write_len;
  '(b, wi) ← ring_write src (s_ble_log_ring_buf s) (s_ble_log_write_idx s);
  Some (set_ring b wi (s_ble_log_read_idx s) (u16 (s_ble_log_data_len s + write_len)) s, write_len).

Fixpoint ring_read (n : nat) (buf : list Z) (ri : Z) : option (list Z * Z) :=
  match n with
  | O => Some ([], ri)
  | S n =>
      x ← arr_get buf ri;
      '(l, ri) ← ring_read n buf ((ri + 1) mod BLE_LOG_RING_BUF_SIZE);
      Some (x :: l, ri)
  end.

(** The bytes read; the caller's buffer has room for [len] bytes. *)
Definition ble_log_ring_buf_read (len : Z) (s : ble_log) : option (ble_log * list Z) :=
  let read_len := if len <? s_ble_log_data_len s then len else s_ble_log_data_len s in
  '(l, ri) ← ring_read (Z.to_nat read_len) (s_ble_log_ring_buf s) (s_ble_log_read_idx s);
  Some (set_ring (s_ble_log_ring_buf s) (s_ble_log_write_idx s) ri (u16 (s_ble_log_data_len s - read_len)) s, l).

Section log.
Context {W : Type} `{!Gatt W} `{!LogEnv W}.

Definition on_app {A} (m : prog ble_app W A) : prog ble_log W A := fun s w =>
  match m (app s) w with
  | Done (a, y, w) => Done (a, set_app y s, w)
  | NoFuel => NoFuel
  | Undef => Undef
  end.

Definition ble_log_send_packet (type : Z) (data : option (list Z)) (len : Z) : prog ble_app W unit :=
  match data with
  | None => ret tt
  | Some data =>
      if BLE_RESP_LENGTH_MAX <? len then ret tt
      else
        let send_len := if len <? 16 then 16 else len in
        y <- get id ;;
        tx <- checked (arr_blit (s_ble_tx_buf y) 0 (packet_head type)) ;;
        src <- checked (arr_slice data 0 len) ;;
        tx <- checked (arr_blit tx 4 src) ;;
        tx <- checked (if len <? send_len then arr_fill tx (4 + len) (send_len - len) 0 else Some tx) ;;
        modify (set_tx tx) ;;
        BLE_DataTransOverBle tx (u16 (send_len + 4))
  end.

(** [k_yield]: a disconnection runs its callback. *)
Definition yield : prog ble_log W unit :=
  gone <- world k_yield ;;
  if gone : bool
  then modify (fun s => set_pending true (set_app (set_link (link_disconnected (ble_link (app s))) (app s)) s))
  else ret tt.

(** The sending loop: [n] packets are left of the ten. *)
Fixpoint send_loop (n : nat) (max_data_len : Z) : prog ble_log W unit :=
  match n with
  | O => ret tt
  | S n =>
      s <- get id ;;
      if (0 <? s_ble_log_data_len s) && ble_is_connected (ble_link (app s)) && negb (s_ble_log_disconnect_pending s)
      then
        let read_len := if max_data_len <? BLE_LOG_MAX_CHUNK_SIZE then max_data_len else BLE_LOG_MAX_CHUNK_SIZE in
        r <- checked (ble_log_ring_buf_read read_len s) ;;
        let '(s', chunk) := r in
        modify (fun _ => s') ;;
        if u8 (zlen chunk) =? 0 then ret tt
        else
          on_app (ble_log_send_packet BLE_DATA_TYPE_BT_LOG (Some chunk) (u8 (zlen chunk))) ;;
          yield ;;
          send_loop n max_data_len
      else ret tt
  end.

Definition ble_log_send (data : list Z) (len : Z) : prog ble_log W unit :=
  s <- get id ;;
  let mtu := g_ble_server_mtu (ble_link (app s)) in
  if mtu <=? BLE_SERVER_MIN_MTU then ret tt
  else if negb (ble_is_data_channel_ready (ble_link (app s))) then ret tt
  else
    let max_data_len := if BLE_LOG_MTU_OVERHEAD <? mtu then mtu - BLE_LOG_MTU_OVERHEAD else 0 in
    let max_data_len := if BLE_LOG_MAX_CHUNK_SIZE <? max_data_len then BLE_LOG_MAX_CHUNK_SIZE else max_data_len in
    if s_ble_log_disconnect_pending s then modify clear_ring
    else
      r <- checked (ble_log_ring_buf_write data len s) ;;
      modify (fun _ => fst r) ;;
      send_loop 10 max_data_len ;;
      modify (fun s => if s_ble_log_disconnect_pending s then clear_ring s else s).

(** ** Whether and what to log *)

Definition ble_log_set_ready (ready : bool) : prog ble_log W unit :=
  now <- world (fun w => (w, k_uptime_get w)) ;;
  modify (fun s => mk_log (s_ble_log_ring_buf s) (s_ble_log_write_idx s) (s_ble_log_read_idx s) (s_ble_log_data_len s)
                     (s_ble_log_disconnect_pending s) ready (if ready then now else 0) (app s)).

Definition ble_log_is_ready (s : ble_log) (w : W) : bool :=
  if negb (s_ble_log_ready s) then false
  else negb (k_uptime_get w - s_ble_log_ready_time s <? BLE_LOG_READY_DELAY_MS).

Definition BLE_LOG_MOD_IS_ENABLED (c : ble_log_config_t) (mod_id : Z) : bool :=
  if mod_id <? 32 then negb (Z.land (mod_en c) (Z.shiftl 1 mod_id) =? 0) else false.

Definition ble_log_check_enabled (mod_id level : Z) (s : ble_log) (w : W) : option bool :=
  let config := my_param_get_ble_log_config w in
  if global_en config =? 0 then Some false
  else if negb (ble_is_data_channel_ready (ble_link (app s))) then Some false
  else if negb (ble_log_is_ready s w) then Some false
  else if my_ota_flash_is_busy w then Some false
  else if BLE_LOG_MOD_MAX <=? mod_id then Some false
  else if negb (BLE_LOG_MOD_IS_ENABLED config mod_id) then Some false
  else
    lvl ← arr_get (mod_level config) mod_id;
    Some (negb (lvl <? level)).

(** [text] is the formatted text; [vsnprintf] keeps 255 bytes of it and returns
    its length. *)
Definition ble_log_output (mod_id level : Z) (text : list Z) : prog ble_log W unit := fun s w =>
  (ok <- checked (ble_log_check_enabled mod_id level s w) ;;
   if negb ok then ret tt
   else
     let len := zlen text in
     if len <=? 0 then ret tt
     else
       buf <- checked (arr_blit (replicate 256 0) 0 (take 255 text)) ;;
       newline <-
         (if len <? 256 - 1
          then c <- checked (arr_get buf (len - 1)) ;; ret (negb (c =? 10))
          else ret false) ;;
       if newline : bool
       then
         buf <- checked (arr_blit buf len [10; 0]) ;;
         ble_log_send buf (u8 (len + 1))
       else ble_log_send buf (u8 len)) s w.
End log.

(** ** The ring holds a queue *)

(** The cells from [ri] on hold [q]. *)
Definition holds (b : list Z) (ri : Z) (q : list Z) : Prop :=
  forall i x, q !! i = Some x -> b !! Z.to_nat ((ri + Z.of_nat i) mod 2048) = Some x.

Record log_inv (s : ble_log) (q : list Z) : Prop := {
  li_buf : zlen (s_ble_log_ring_buf s) = 2048;
  li_read : 0 <= s_ble_log_read_idx s < 2048;
  li_write : s_ble_log_write_idx s = (s_ble_log_read_idx s + zlen q) mod 2048;
  li_len : s_ble_log_data_len s = zlen q;
  li_max : zlen q <= 2048;
  li_holds : holds (s_ble_log_ring_buf s) (s_ble_log_read_idx s) q
}.

Lemma holds_snoc b ri q x :
  zlen b = 2048 -> zlen q < 2048 -> holds b ri q -> holds (<[Z.to_nat ((ri + zlen q) mod 2048) := x]> b) ri (q ++ [x]).
Proof.
  intros Hb Hq Hh i z Hi. pose proof (Z.mod_pos_bound (ri + zlen q) 2048 ltac:(lia)).
  pose proof (Z.mod_pos_bound (ri + Z.of_nat i) 2048 ltac:(lia)).
  apply lookup_app_Some in Hi as [Hi|[Hle Hi]].
  - rewrite list_lookup_insert_ne; [by apply Hh|]. apply lookup_lt_Some in Hi. unfold zlen in *.
    intros E. apply Z2Nat.inj in E; [|lia..]. Z.div_mod_to_equations. lia.
  - apply list_lookup_singleton_Some in Hi as [Hi <-]. replace (Z.of_nat i) with (zlen q) by (unfold zlen; lia).
    apply list_lookup_insert_eq. unfold zlen in *. lia.
Qed.

Lemma holds_cons b ri x q : holds b ri (x :: q) -> b !! Z.to_nat (ri mod 2048) = Some x /\ holds b ((ri + 1) mod 2048) q.
Proof.
  intros Hh. split; [specialize (Hh 0%nat x eq_refl); by rewrite Z.add_0_r in Hh|].
  intros i z Hi. specialize (Hh (S i) z Hi). rewrite <- Hh. do 2 f_equal. rewrite Zplus_mod_idemp_l. f_equal. lia.
Qed.

Lemma ring_write_spec src : forall b ri q,
  zlen b = 2048 -> holds b ri q -> zlen q + zlen src <= 2048 ->
  exists b', ring_write src b ((ri + zlen q) mod 2048) = Some (b', (ri + zlen (q ++ src)) mod 2048) /\
    zlen b' = 2048 /\ holds b' ri (q ++ src).
Proof.
  induction src as [|x src IH]; intros b ri q Hb Hh Hl; cbn [ring_write].
  { exists b. by rewrite app_nil_r. }
  rewrite zlen_cons in Hl. pose proof (zlen_nonneg src). pose proof (Z.mod_pos_bound (ri + zlen q) 2048 ltac:(lia)).
  rewrite arr_set_Some by lia. cbn [mbind option_bind].
  destruct (IH (<[Z.to_nat ((ri + zlen q) mod 2048) := x]> b) ri (q ++ [x])) as (b' & E & Hb' & Hh').
  - by rewrite zlen_insert.
  - apply holds_snoc; [done|lia|done].
  - rewrite zlen_app. change (zlen [x]) with 1. lia.
  - assert (Ea : (q ++ [x]) ++ src = q ++ x :: src) by (by rewrite <- app_assoc). rewrite Ea in E, Hh'.
    assert (Ew : (ri + zlen (q ++ [x])) mod 2048 = ((ri + zlen q) mod 2048 + 1) mod BLE_LOG_RING_BUF_SIZE).
    { unfold BLE_LOG_RING_BUF_SIZE. rewrite Zplus_mod_idemp_l, zlen_app. f_equal. change (zlen [x]) with 1. lia. }
    rewrite Ew in E. by exists b'.
Qed.

Lemma ring_read_spec n : forall b ri q,
  zlen b = 2048 -> 0 <= ri < 2048 -> holds b ri q -> (n <= length q)%nat ->
  exists ri', ring_read n b ri = Some (take n q, ri') /\ 0 <= ri' < 2048 /\ ri' = (ri + Z.of_nat n) mod 2048 /\
    holds b ri' (drop n q).
Proof.
  induction n as [|n IH]; intros b ri q Hb Hr Hh Hn; cbn [ring_read].
  { exists ri. rewrite drop_0. split; [done|]. split; [done|]. split; [|done]. rewrite Z.mod_small; lia. }
  destruct q as [|x q]; [cbn in Hn; lia|]. destruct (holds_cons _ _ _ _ Hh) as [E0 Hh1]. rewrite (Z.mod_small ri) in E0 by lia.
  assert (Eg : arr_get b ri = Some x) by (unfold arr_get; by rewrite (proj2 (Z.leb_le 0 ri)) by lia).
  rewrite Eg. cbn [mbind option_bind]. pose proof (Z.mod_pos_bound (ri + 1) 2048 ltac:(lia)).
  destruct (IH b ((ri + 1) mod 2048) q) as (ri' & E & Hr' & Hri & Hh'); [done|done|done|cbn in Hn; lia|].
  unfold BLE_LOG_RING_BUF_SIZE. rewrite E. cbn [mbind option_bind]. exists ri'. split; [done|]. split; [done|]. split; [|done].
  rewrite Hri, Zplus_mod_idemp_l. f_equal. lia.
Qed.

Lemma log_write_spec s q data len :
  log_inv s q -> 0 <= len < 256 -> len <= zlen data ->
  let n := Z.min len (2048 - zlen q) in
  exists s', ble_log_ring_buf_write data len s = Some (s', n) /\ log_inv s' (q ++ take (Z.to_nat n) data) /\
    app s' = app s /\ s_ble_log_disconnect_pending s' = s_ble_log_disconnect_pending s.
Proof.
  intros [Hb Hr Hw Hl Hm Hh] Hlen Hd n. pose proof (zlen_nonneg q). unfold ble_log_ring_buf_write, BLE_LOG_RING_BUF_SIZE. rewrite Hl.
  assert (En : (if 2048 - zlen q <? len then u16 (2048 - zlen q) else len) = n)
    by (unfold n; destruct (Z.ltb_spec (2048 - zlen q) len); rewrite ?u16_small; lia).
  rewrite En. assert (Hn : 0 <= n <= len) by lia. rewrite arr_slice_Some, drop_0 by lia. cbn [mbind option_bind].
  set (src := take (Z.to_nat n) data). assert (Hs : zlen src = n) by (unfold src; rewrite zlen_take; lia).
  rewrite Hw. destruct (ring_write_spec src (s_ble_log_ring_buf s) (s_ble_log_read_idx s) q Hb Hh ltac:(lia)) as (b' & E & Hb' & Hh').
  rewrite E. cbn [mbind option_bind]. eexists. split; [reflexivity|]. split; [|done].
  split; cbn [s_ble_log_ring_buf s_ble_log_read_idx s_ble_log_write_idx s_ble_log_data_len set_ring]; try done; rewrite zlen_app, ?u16_small; lia.
Qed.

Lemma log_read_spec s q len :
  log_inv s q -> 0 <= len ->
  let n := Z.to_nat len in
  exists s', ble_log_ring_buf_read len s = Some (s', take n q) /\ log_inv s' (drop n q) /\
    app s' = app s /\ s_ble_log_disconnect_pending s' = s_ble_log_disconnect_pending s.
Proof.
  intros [Hb Hr Hw Hl Hm Hh] Hlen n. pose proof (zlen_nonneg q). unfold ble_log_ring_buf_read. rewrite Hl.
  set (k := if len <? zlen q then len else zlen q).
  assert (Hk : k = Z.min len (zlen q)) by (unfold k; destruct (Z.ltb_spec len (zlen q)); lia). clearbody k.
  destruct (ring_read_spec (Z.to_nat k) (s_ble_log_ring_buf s) (s_ble_log_read_idx s) q Hb Hr Hh) as (ri & E & Hri & Eri & Hh');
    [unfold zlen in *; lia|].
  rewrite E. cbn [mbind option_bind].
  assert (Ht : take (Z.to_nat k) q = take n q).
  { destruct (decide (len <= zlen q)); [f_equal; lia|]. rewrite !take_ge; [done|unfold zlen in *; lia..]. }
  assert (Hdr : drop (Z.to_nat k) q = drop n q).
  { destruct (decide (len <= zlen q)); [f_equal; lia|]. rewrite !drop_ge; [done|unfold zlen in *; lia..]. }
  assert (Hdl : zlen (drop n q) = zlen q - k) by (rewrite <- Hdr, zlen_drop; lia).
  rewrite Ht. eexists. split; [reflexivity|]. split; [|done].
  split; cbn [s_ble_log_ring_buf s_ble_log_read_idx s_ble_log_write_idx s_ble_log_data_len set_ring];
    rewrite ?Hdl, ?u16_small; try done; try lia.
  - rewrite Hw, Eri, Zplus_mod_idemp_l. f_equal. lia.
  - by rewrite <- Hdr.
Qed.

(** ** The log is a stream *)

(** A short packet is filled up with zeros. *)
Definition log_packet (chunk : list Z) : list Z :=
  packet_head BLE_DATA_TYPE_BT_LOG ++ chunk ++ replicate (16 - length chunk) 0.

Section stream.
Context {W : Type} {GW : Gatt W} {LE : LogEnv W} {PW : Psa W} {GL : GattLog W} {PWK : PsaWorks W} {BW : BleWorks W}.
Context (Hquiet : forall w, notified (fst (k_yield w)) = notified w).
Implicit Types (y : ble_app) (w : W) (s : ble_log).

(** A device with an open channel. *)
Record open_app (mtu : Z) y : Prop := {
  oa_ok : app_ok y;
  oa_link : link_clear (ble_link y);
  oa_mtu : g_ble_server_mtu (ble_link y) = mtu
}.

Lemma log_packet_bytes tx chunk tx1 tx2 tx3 :
  arr_blit tx 0 (packet_head BLE_DATA_TYPE_BT_LOG) = Some tx1 -> arr_blit tx1 4 chunk = Some tx2 ->
  arr_blit tx2 (4 + zlen chunk) (replicate (16 - length chunk) 0) = Some tx3 ->
  take (length (log_packet chunk)) tx3 = log_packet chunk.
Proof.
  intros E1 E2 E3. set (zs := replicate _ 0) in *. pose proof (zlen_nonneg chunk). pose proof (zlen_nonneg zs).
  pose proof (arr_slice_blit _ _ _ _ E3) as S3. pose proof (arr_slice_blit _ _ _ _ E2) as S2. pose proof (arr_slice_blit _ _ _ _ E1) as S1.
  rewrite <- (arr_slice_blit_disj _ _ _ _ 4 (zlen chunk) E3) in S2 by lia.
  change (zlen (packet_head BLE_DATA_TYPE_BT_LOG)) with 4 in S1.
  rewrite <- (arr_slice_blit_disj _ _ _ _ 0 4 E2), <- (arr_slice_blit_disj _ _ _ _ 0 4 E3) in S1 by lia.
  pose proof (arr_slice_split tx3 _ _ 4 (zlen chunk) (zlen zs) S2 S3) as S23.
  pose proof (arr_slice_split tx3 _ _ 0 4 (zlen chunk + zlen zs) S1 S23) as S.
  apply arr_slice_inv in S as (_ & _ & _ & S). unfold log_packet. fold zs. rewrite S at 2. rewrite drop_0. f_equal.
  rewrite !length_app. unfold zlen in *. change (length (packet_head BLE_DATA_TYPE_BT_LOG)) with 4%nat. lia.
Qed.

Lemma fill_none {A} (l : list A) off : 0 <= off <= zlen l -> arr_blit l off [] = Some l.
Proof.
  intros H. rewrite arr_blit_Some by (change (zlen []) with 0; lia). change (@length A []) with 0%nat. by rewrite app_nil_l, Nat.add_0_r, take_drop.
Qed.

Lemma log_packet_works mtu chunk y w :
  open_app mtu y -> 0 < zlen chunk <= 240 -> zlen chunk <= mtu - 7 ->
  exists y' w', ble_log_send_packet BLE_DATA_TYPE_BT_LOG (Some chunk) (zlen chunk) y w = Done (tt, y', w') /\
    open_app mtu y' /\ notified w' = notified w ++ [log_packet chunk].
Proof.
  intros [Hy Hl Hm] Hc Hcm. pose proof (ao_tx _ Hy) as Htx. pose proof Hl as [(_ & _ & _ & Hmtu) _].
  unfold ble_log_send_packet. change BLE_RESP_LENGTH_MAX with 495. rewrite (proj2 (Z.ltb_ge 495 _)) by lia.
  set (zs := replicate (16 - length chunk) 0). set (sl := if zlen chunk <? 16 then 16 else zlen chunk).
  assert (Hsl : sl = zlen chunk + zlen zs /\ 16 <= sl <= 240 /\ sl <= mtu - 7 \/ sl = 16 /\ sl = zlen chunk + zlen zs).
  { unfold sl, zs. rewrite zlen_replicate. unfold zlen in *. destruct (Z.ltb_spec (Z.of_nat (length chunk)) 16); lia. }
  destruct (arr_blit (s_ble_tx_buf y) 0 (packet_head BLE_DATA_TYPE_BT_LOG)) as [tx1|] eqn:E1;
    [|rewrite arr_blit_Some in E1; [done|lia|change (zlen (packet_head _)) with 4; lia]].
  pose proof (arr_blit_length _ _ _ _ E1) as H1.
  destruct (arr_blit tx1 4 chunk) as [tx2|] eqn:E2; [|rewrite arr_blit_Some in E2; [done|lia|lia]].
  pose proof (arr_blit_length _ _ _ _ E2) as H2.
  destruct (arr_blit tx2 (4 + zlen chunk) zs) as [tx3|] eqn:E3; [|rewrite arr_blit_Some in E3; [done|lia|lia]].
  pose proof (arr_blit_length _ _ _ _ E3) as H3.
  assert (Ef : (if zlen chunk <? sl then arr_fill tx2 (4 + zlen chunk) (sl - zlen chunk) 0 else Some tx2) = Some tx3).
  { rewrite <- E3. destruct (Z.ltb_spec (zlen chunk) sl).
    - unfold arr_fill, zs. do 2 f_equal. unfold zs in Hsl. rewrite zlen_replicate in Hsl. unfold zlen in *. lia.
    - assert (zs = []) as -> by (apply length_zero_iff_nil; unfold zlen in *; lia). symmetry. apply fill_none. lia. }
  rewrite (bind_done _ _ _ _ y y w), (bind_done _ _ _ _ tx1 y w) by (by unfold get, checked; rewrite ?E1).
  assert (Es : arr_slice chunk 0 (zlen chunk) = Some chunk)
    by (rewrite arr_slice_Some by lia; rewrite drop_0, take_ge by (unfold zlen; lia); done).
  rewrite (bind_done _ _ _ _ chunk y w), (bind_done _ _ _ _ tx2 y w) by (by unfold checked; rewrite ?Es, ?E2).
  rewrite (bind_done _ _ _ _ tx3 y w) by (unfold checked; by rewrite Ef). rewrite (bind_done _ _ _ _ tt (set_tx tx3 y) w) by done.
  rewrite u16_small by lia. unfold BLE_DataTransOverBle.
  destruct (notify_clear (ble_link y) w tx3 (sl + 4) Hl) as (l' & w2 & En & Hl' & Hml & Hlog); [lia|lia|].
  cbn [ble_link set_tx]. rewrite En. eexists _, w2. split; [reflexivity|]. split.
  - destruct Hy. split; [split; try done; [cbn; lia|apply Hl']|done|]. cbn. lia.
  - rewrite Hlog. do 2 f_equal. rewrite <- (log_packet_bytes _ _ _ _ _ E1 E2 E3). f_equal. unfold log_packet.
    rewrite !length_app. fold zs. change (length (packet_head _)) with 4%nat. unfold zlen in *. lia.
Qed.

(** [k_yield] either changes nothing or ends the connection. *)
Lemma yield_spec mtu s q w :
  log_inv s q -> open_app mtu (app s) -> s_ble_log_disconnect_pending s = false ->
  exists s' w', yield s w = Done (tt, s', w') /\ notified w' = notified w /\ log_inv s' q /\
    (open_app mtu (app s') /\ s_ble_log_disconnect_pending s' = false \/ s_ble_log_disconnect_pending s' = true).
Proof.
  intros [] Hy Hp. unfold yield, bind, world. pose proof (Hquiet w) as Hq. destruct (k_yield w) as [w1 []]; cbn in Hq.
  - eexists _, w1. split; [reflexivity|]. split; [done|]. split; [by split|by right].
  - exists s, w1. split; [done|]. split; [done|]. split; [by split|by left].
Qed.

(** What a run of the loop does to the queue. *)
Definition sends (n : nat) (max : Z) q w (o : res (unit * ble_log * W)) : Prop :=
  exists s' w' chunks q', o = Done (tt, s', w') /\ log_inv s' q' /\ q = concat chunks ++ q' /\
    notified w' = notified w ++ map log_packet chunks /\ (length chunks <= n)%nat /\
    Forall (fun c => 0 < zlen c <= max) chunks /\
    (s_ble_log_disconnect_pending s' = false -> length chunks = n \/ q' = []).

Lemma sends_none n max q s w : log_inv s q -> s_ble_log_disconnect_pending s = true \/ q = [] -> sends n max q w (Done (tt, s, w)).
Proof.
  intros Hi Hor. exists s, w, [], q. cbn. rewrite app_nil_r. split; [done|]. split; [done|]. split; [done|]. split; [done|].
  split; [lia|]. split; [by apply Forall_nil|]. intros Hp. destruct Hor as [Hor|Hor]; [congruence|by right].
Qed.

Lemma send_loop_spec mtu n : forall s q w,
  23 < mtu -> let max := Z.min (mtu - 7) 240 in
  log_inv s q -> open_app mtu (app s) /\ s_ble_log_disconnect_pending s = false \/ s_ble_log_disconnect_pending s = true ->
  sends n max q w (send_loop n max s w).
Proof.
  induction n as [|n IH]; intros s q w Hmtu max Hi Hor; cbn [send_loop].
  { exists s, w, [], q. cbn. rewrite app_nil_r. split; [done|]. split; [done|]. split; [done|]. split; [done|].
    split; [lia|]. split; [by apply Forall_nil|]. by left. }
  rewrite (bind_done _ _ _ _ s s w) by done. rewrite (li_len _ _ Hi).
  destruct Hor as [[Hy Hp]|Hp]; [|rewrite Hp, andb_false_r; apply sends_none; [done|by left]].
  destruct (Z.ltb_spec 0 (zlen q)) as [Hq|Hq]; [|apply sends_none; [done|right; destruct q; [done|rewrite zlen_cons in Hq; pose proof (zlen_nonneg q); lia]]].
  pose proof (oa_link _ _ Hy) as (_ & Hc & _). unfold ble_is_data_channel_ready in Hc. apply andb_prop in Hc as [Hc _].
  unfold ble_is_connected. rewrite Hc, Hp. cbn [andb negb]. change BLE_LOG_MAX_CHUNK_SIZE with 240.
  assert (Em : (if max <? 240 then max else 240) = max) by (destruct (Z.ltb_spec max 240); lia). rewrite Em.
  destruct (log_read_spec s q max Hi) as (s1 & E1 & Hi1 & Ha1 & Hp1); [lia|]. set (chunk := take (Z.to_nat max) q) in *.
  rewrite (bind_done _ _ _ _ (s1, chunk) s w) by (unfold checked; by rewrite E1). cbv beta iota.
  rewrite (bind_done _ _ _ _ tt s1 w) by done.
  assert (Hch : 0 < zlen chunk <= max) by (unfold chunk; rewrite zlen_take; lia).
  rewrite !u8_small, (proj2 (Z.eqb_neq (zlen chunk) 0)) by lia.
  destruct (log_packet_works mtu chunk (app s1) w) as (y2 & w2 & E2 & Hy2 & Hlog); [by rewrite Ha1|lia|lia|].
  rewrite (bind_done _ _ _ _ tt (set_app y2 s1) w2) by (unfold on_app; by rewrite E2).
  assert (Hi2 : log_inv (set_app y2 s1) (drop (Z.to_nat max) q)) by (by destruct Hi1).
  destruct (yield_spec mtu (set_app y2 s1) _ w2 Hi2) as (s3 & w3 & E3 & Hn3 & Hi3 & Hor3); [done|by cbn; rewrite Hp1|].
  rewrite (bind_done _ _ _ _ tt s3 w3 E3).
  destruct (IH s3 _ w3 Hmtu Hi3 Hor3) as (s' & w' & chunks & q' & E & Hi' & Hq' & Hn' & Hl' & Hf' & Hd').
  exists s', w', (chunk :: chunks), q'. split; [done|]. split; [done|]. split; [|split; [|split; [|split]]].
  - cbn [concat]. rewrite <- app_assoc, <- Hq'. unfold chunk. by rewrite take_drop.
  - rewrite Hn', Hn3, Hlog, <- app_assoc. done.
  - cbn [length]. lia.
  - by apply Forall_cons.
  - intros Hpf. destruct (Hd' Hpf) as [Hd|Hd]; [left; cbn; lia|by right].
Qed.

(** The log channel is a stream.  On an open channel above the default MTU,
    a call appends the text to the queue, as far as the 2048-byte buffer has
    room, and sends from its front: what goes out in packets followed by what
    stays queued is the old queue followed by the accepted text.  At most ten
    packets go out, each with at most 240 bytes and within the MTU, and with
    fewer than ten nothing stays behind.  A disconnection in between empties
    the queue. *)
Theorem log_stream s q data len w :
  let mtu := g_ble_server_mtu (ble_link (app s)) in
  log_inv s q -> open_app mtu (app s) -> s_ble_log_disconnect_pending s = false -> 23 < mtu ->
  0 <= len < 256 -> len <= zlen data ->
  exists s' w' chunks rest, ble_log_send data len s w = Done (tt, s', w') /\
    q ++ take (Z.to_nat (Z.min len (2048 - zlen q))) data = concat chunks ++ rest /\
    notified w' = notified w ++ map log_packet chunks /\ (length chunks <= 10)%nat /\
    Forall (fun c => 0 < zlen c <= Z.min (mtu - 7) 240) chunks /\
    if s_ble_log_disconnect_pending s' then log_inv s' []
    else log_inv s' rest /\ (length chunks = 10%nat \/ rest = []).
Proof.
  intros mtu Hi Hy Hp Hmtu Hlen Hd. unfold ble_log_send. rewrite (bind_done _ _ _ _ s s w) by done. fold mtu.
  change BLE_SERVER_MIN_MTU with 23. change BLE_LOG_MTU_OVERHEAD with 7. change BLE_LOG_MAX_CHUNK_SIZE with 240.
  rewrite (proj2 (Z.leb_gt mtu 23)), (proj2 (Z.ltb_lt 7 mtu)) by lia.
  pose proof (oa_link _ _ Hy) as (_ & Hc & _). rewrite Hc, Hp. cbn [negb]. cbv zeta.
  assert (Em : (if 240 <? mtu - 7 then 240 else mtu - 7) = Z.min (mtu - 7) 240) by (destruct (Z.ltb_spec 240 (mtu - 7)); lia).
  rewrite Em. destruct (log_write_spec s q data len Hi Hlen Hd) as (s1 & E1 & Hi1 & Ha1 & Hp1). set (n := Z.min len _) in *.
  rewrite (bind_done _ _ _ _ (s1, n) s w) by (unfold checked; by rewrite E1). rewrite (bind_done _ _ _ _ tt s1 w) by done.
  destruct (send_loop_spec mtu 10 s1 _ w Hmtu Hi1) as (s2 & w2 & chunks & q' & E2 & Hi2 & Hq & Hn & Hl & Hf & Hdone);
    [left; by rewrite Ha1, Hp1|].
  rewrite (bind_done _ _ _ _ tt s2 w2 E2). unfold modify. eexists _, w2, chunks, q'. split; [reflexivity|].
  split; [done|]. split; [done|]. split; [done|]. split; [done|]. destruct (s_ble_log_disconnect_pending s2) eqn:Hp2.
  - cbn [clear_ring set_ring s_ble_log_disconnect_pending]. rewrite Hp2. destruct Hi2. by split.
  - rewrite Hp2. split; [done|]. by apply Hdone.
Qed.

(** A defect.  [ble_log_output] passes the length that [vsnprintf] reports,
    not the number of bytes in its buffer, to a parameter of 8 bits: of a text
    of 256 to 511 bytes, the first 256 bytes are not counted and only the
    rest of the length is sent. *)
Theorem long_log_cut mod_id level text s w :
  ble_log_check_enabled mod_id level s w = Some true -> 256 <= zlen text < 512 ->
  ble_log_output mod_id level text s w = ble_log_send (take 255 text ++ [0]) (zlen text - 256) s w.
Proof.
  intros Hen Hl. unfold ble_log_output. rewrite (bind_done _ _ _ _ true s w) by (unfold checked; by rewrite Hen). cbn [negb].
  rewrite (proj2 (Z.leb_gt (zlen text) 0)), (proj2 (Z.ltb_ge (zlen text) (256 - 1))) by lia.
  assert (Ht : length (take 255 text) = 255%nat) by (rewrite length_take; unfold zlen in Hl; lia).
  assert (Eb : arr_blit (replicate 256 0) 0 (take 255 text) = Some (take 255 text ++ [0])).
  { rewrite arr_blit_Some; [|lia|unfold zlen; rewrite Ht; by vm_compute]. by rewrite Ht. }
  rewrite (bind_done _ _ _ _ (take 255 text ++ [0]) s w) by (unfold checked; by rewrite Eb).
  rewrite (bind_done _ _ _ _ false s w) by done. f_equal. unfold u8. rewrite <- (Z.mod_add _ (-1)) by lia.
  apply Z.mod_small. lia.
Qed.
End stream.
