(* ===== verification/BleSim.v ===== *)
(** * The BLE protocol in a simulated environment

    A stack that accepts every notification, a block cipher that adds the key,
    the theorems of the BLE files on them, an encrypted firmware update, the log
    channel, and two defects of the protocol code. *)

From S2P Require Import Prelude Prog BleLink BleCrypto BleApp BleAppProofs BleDelivery BleKey BleReply BleSafety.

Open Scope prog_scope.

(** The world is the list of notifications sent. *)
Definition air : Type := list (list Z).

#[export] Instance air_gatt : Gatt air := {| bt_gatt_notify w d := (w ++ [d], 0) |}.

#[export] Program Instance air_log : GattLog air := {| notified w := w |}.
Next Obligation. intros w d w' [= <-]. done. Qed.
Next Obligation. intros w d w' e [= <- <-]. done. Qed.

(** Exclusive or with the key, cut or extended to a block. *)
Definition mask (k b : list Z) : list Z := zip_with Z.lxor (resize 16 0 k) b.

#[export] Instance air_psa : Psa air := {|
  psa_import_key w k := (w, PSA_SUCCESS);
  k_malloc w n := (w, true);
  psa_cipher_encrypt w k b := (w, (PSA_SUCCESS, mask k b));
  psa_cipher_decrypt w k b := (w, (PSA_SUCCESS, mask k b))
|}.

Lemma mask_len k b : zlen b = 16 -> zlen (mask k b) = 16.
Proof. unfold zlen, mask. rewrite length_zip_with, length_resize. lia. Qed.

Lemma lxor_twice (k : list Z) : forall b, length b = length k -> zip_with Z.lxor k (zip_with Z.lxor k b) = b.
Proof.
  induction k as [|x k IH]; intros [|c b] E; simpl in *; try done.
  rewrite IH by lia. f_equal. by rewrite <- Z.lxor_assoc, Z.lxor_nilpotent, Z.lxor_0_l.
Qed.

Lemma mask_mask k b : zlen b = 16 -> mask k (mask k b) = b.
Proof. intros Hb. apply lxor_twice. rewrite length_resize. unfold zlen in Hb. lia. Qed.

#[export] Program Instance air_psa_works : PsaWorks air := {| aes := mask; aes_inv := mask |}.
Next Obligation. apply mask_len. Qed.
Next Obligation. apply mask_mask. Qed.
Next Obligation. apply mask_len. Qed.
Next Obligation. intros w k Hk. by exists w. Qed.
Next Obligation. intros w n. by exists w. Qed.
Next Obligation. intros w k b Hk Hb. by exists w. Qed.
Next Obligation. intros w k b Hk Hb. by exists w. Qed.

#[export] Instance air_works : BleWorks air.
Proof. split; [by eexists|]. intros log. by split. Qed.

(** The command interpreter echoes; the random number is constant. *)
#[export] Instance air_clients : BleClients air := {|
  my_generate_random w := (w, Some 0x4D);
  my_param_get_Gvalue w := 40000;
  my_param_get_sn w := Some (replicate 12 0x31);
  ble_log_set_ready w b := w;
  at_recv_cmd_handler w msg len := (w, take (Z.to_nat len) msg);
  jimi_dfu_cmd_handler w cmd data len := Some (w, [])
|}.

(** ** A connected device *)

Definition open_link (mtu : Z) : link := mk_link true true true mtu (replicate 1024 0) 0 true.

Definition connected_app (mtu : Z) : ble_app :=
  mk_app zero_trans zero_wait false (replicate 495 0) 0 0 (replicate 16 0x5A) (replicate 528 0)
    (replicate 495 0) (replicate 495 0) (replicate 528 0) (open_link mtu).

Lemma open_link_ok mtu : 23 <= mtu <= 498 -> link_ok (open_link mtu).
Proof. intros Hm. unfold link_ok, open_link. split; [done|]. split; [by vm_compute|]. by split. Qed.

Lemma connected_app_ok mtu : 23 <= mtu <= 498 -> app_ok (connected_app mtu).
Proof. intros Hm. by split. Qed.

(** A notification that does not fit the MTU goes out in part. *)
Lemma notification_stream_witness :
  exists l' w', ble_server_send_notification (open_link 23) [] (replicate 30 7) (zlen (replicate 30 7)) = Some (l', w') /\
    link_ok l' /\
    concat (notified w') ++ queued l' =
      concat (notified (W := air) []) ++ queued (open_link 23) ++
      (if s_ble_server_rx_index (open_link 23) + zlen (replicate 30 7) <=? 1024 then replicate 30 7 else []) /\
    Forall (fun d => d ∈ notified (W := air) [] \/ zlen d <= g_ble_server_mtu (open_link 23) - 3) (notified w').
Proof. apply (notification_stream (open_link 23)); [apply open_link_ok; lia|done]. Defined.

Lemma aes_ecb_roundtrip_witness :
  exists ct' n w1 pt' w2,
    aes_ecb_encrypt (S := unit) (Some (replicate 16 3)) (Some [1; 2; 3]) (zlen [1; 2; 3]) (Some (replicate 32 0))
      (zlen (replicate 32 0)) tt ([] : air) = Done ((PSA_SUCCESS, Some ct'), tt, w1) /\
    n mod 16 = 0 /\ zlen [1; 2; 3] < n <= zlen [1; 2; 3] + 16 /\
    aes_ecb_decrypt (S := unit) (Some (replicate 16 3)) (Some ct') n (Some (replicate 20 0)) (zlen (replicate 20 0)) tt w1
      = Done ((PSA_SUCCESS, Some pt'), tt, w2) /\
    arr_slice pt' 0 (zlen [1; 2; 3]) = Some [1; 2; 3] /\ pkcs7_unpad (Some pt') n = Some (zlen [1; 2; 3]) /\
    notified w2 = [].
Proof.
  apply (aes_ecb_roundtrip (fun w : air => notified w = []) (bw_quiet [])); try done; by vm_compute.
Defined.

(** A reply of 600 bytes, each packet sent twice. *)
Lemma reply_delivered_witness :
  let data := replicate 600 0x41 in
  exists ph' y' w',
    (ble_packet_trans_send (Some (data ++ [0])) (zlen data) ;;
     session (replicate 16 0x5A) (concat (replicate 600 [Lost; AckLost; Through])) (mk_phone [] (-1) None))
      (connected_app 247) ([] : air) = Done (ph', y', w') /\
    ph_done ph' = Some data /\ is_busy (s_packet_trans_data y') = false /\ rsp_timer y' = false.
Proof.
  apply (reply_delivered (replicate 16 0x5A) (replicate 600 0x41)).
  - by vm_compute.
  - by split.
  - done.
  - by vm_compute.
  - by vm_compute.
Defined.

Lemma private_key_one_byte_witness :
  exists x, 0 <= x < 256 /\ s_prva_a (set_key 0x4D4D (replicate 16 0x5A) (connected_app 247)) = 257 * x.
Proof. apply (private_key_one_byte (connected_app 247) ([] : air) (0x4D4D * 40000) _ []). reflexivity. Defined.

Lemma key_agreement_witness :
  exists y' w' reply, deliver (phone_key_request 12345 40000 (replicate 8 1)) (connected_app 23) ([] : air) = Done (tt, y', w') /\
    notified w' = notified (W := air) [] ++ [reply] /\ zlen reply = 20 /\
    phone_key (s_aes_base_key (connected_app 23)) 12345 reply = Some (s_aes_base_key y') /\ s_rx_ble_buf_index y' = 0.
Proof.
  apply (key_agreement 40000).
  - lia.
  - done.
  - done.
  - by apply connected_app_ok.
  - done.
  - done.
  - lia.
  - done.
Defined.

(** ** A hostile environment *)

(** Notifications fail, encryption fails, decryption gives zeros, the random
    generator fails. *)
#[export] Instance noise_gatt : Gatt unit := {| bt_gatt_notify w d := (w, -12) |}.

#[export] Instance noise_psa : Psa unit := {|
  psa_import_key w k := (w, PSA_SUCCESS);
  k_malloc w n := (w, true);
  psa_cipher_encrypt w k b := (w, (PSA_ERROR_INVALID_ARGUMENT, [1; 2]));
  psa_cipher_decrypt w k b := (w, (PSA_SUCCESS, replicate 16 0))
|}.

#[export] Instance noise_bounded : PsaBounded unit.
Proof.
  split.
  - intros w k b w' s out [= <- <- <-]. by vm_compute.
  - intros w k b w' s out [= <- <- <-]. split; [by vm_compute|by apply (Forall_replicate _ 16 0)].
Qed.

#[export] Instance noise_clients : BleClients unit := {|
  my_generate_random w := (w, None);
  my_param_get_Gvalue w := 10000;
  my_param_get_sn w := None;
  ble_log_set_ready w b := w;
  at_recv_cmd_handler w msg len := (w, replicate 900 0x55);
  jimi_dfu_cmd_handler w cmd data len := Some (w, [DfuResponse 1 (replicate 10 0); DfuResponse 2 (replicate 600 0); DfuText [0x41]])
|}.

(** Commands, acknowledgements, parts of a file, a key request and garbage. *)
Definition some_events : list ble_event :=
  [PhoneWrites (packet_head BLE_DATA_TYPE_AT_CMD ++ replicate 128 1); RxMessage; ReplyTimer;
   PhoneWrites (packet_head BLE_DATA_TYPE_PACKET_MULTIPLE ++ replicate 16 2); PhoneWrites (replicate 300 9); RxMessage;
   MtuUpdated 185; ReplyTimer; SendReply (replicate 2000 3);
   PhoneWrites (packet_head BLE_DATA_TYPE_FILE_TRANS ++ replicate 480 4); RxMessage; CccChanged 0; ReplyTimer; ReplyTimer;
   PhoneWrites (phone_key_request 5 6 (replicate 8 0)); RxMessage; Disconnected; RxMessage; Connected 0].

Lemma ble_events_safe_witness :
  exists y' w', ble_run some_events (connected_app 39) tt = Done (tt, y', w') /\ app_inv y'.
Proof.
  apply ble_events_safe.
  - intros w cmd data len _ _. by eexists _, _.
  - split; [by apply connected_app_ok|by vm_compute|by split|by split| |by apply Forall_replicate].
    split; [by vm_compute|]. split; [by left|]. left. by vm_compute.
  - repeat (apply Forall_cons; split); try exact I; try (left; by vm_compute); try (right; by vm_compute); try (by vm_compute); by apply Forall_nil.
Defined.

(** ** Defects *)

Section defects.
Context {W : Type} {GW : Gatt W} {PW : Psa W} {CW : BleClients W} {GL : GattLog W} {PWK : PsaWorks W} {BW : BleWorks W}.

(** A defect.  The text of a command is copied into the 128 bytes of
    [rcv_msg] on the stack without a look at its length: every command packet
    with more than eight blocks, which the checks on reception let through,
    writes behind the buffer. *)
Theorem at_command_overflow key content y (w : W) :
  app_ok y -> s_rx_ble_buf_index y = 0 -> s_aes_base_key y = key ->
  128 < zlen content <= 480 -> zlen content mod 16 = 0 ->
  deliver (packet key BLE_DATA_TYPE_AT_CMD content) y w = Undef.
Proof.
  intros Hy Hrx Hkey Hl Hm.
  destruct (deliver_content key BLE_DATA_TYPE_AT_CMD content y w Hy Hrx Hkey) as (buf & w' & _ & _ & E); [lia|done..|].
  cbv zeta in E. rewrite E. unfold app_dispatch. change (BLE_DATA_TYPE_AT_CMD =? BLE_DATA_TYPE_CID) with false. rewrite Z.eqb_refl.
  set (b := content ++ _). set (y1 := set_decrypt b _). unfold ble_comu_at_cmd_handle.
  assert (Es : arr_slice b 0 (zlen content) = Some content) by (by apply (arr_slice_app [])).
  unfold bind at 1. rewrite (bind_done _ _ _ _ content y1 w') by (unfold checked; by rewrite Es).
  assert (Eb : arr_blit (replicate (Z.to_nat CMD_STRING_LENGTH_MAX) 0) 0 content = None).
  { apply arr_blit_overflow. change (zlen (replicate _ 0)) with 128. lia. }
  unfold bind at 1, checked. by rewrite Eb.
Qed.

(** A defect.  With less room than two blocks in a packet, as on a link
    that keeps the default MTU of 23, the size of the first packet of a reply is
    computed below zero and wraps; the whole reply is taken for the first
    packet, and one of more than 522 bytes is written behind the reply buffer. *)
Theorem small_mtu_overflow data y (w : W) :
  link_ok (ble_link y) -> g_ble_server_mtu (ble_link y) <= 38 -> is_busy (s_packet_trans_data y) = false ->
  522 < zlen data <= 1024 -> ble_packet_trans_send (Some data) (zlen data) y w = Undef.
Proof.
  intros Hlk Hm Hidle Hl. unfold ble_packet_trans_send, RESP_STRING_LENGTH_MAX.
  rewrite (proj2 (Z.eqb_neq (zlen data) 0)), (proj2 (Z.ltb_ge 1024 (zlen data))) by lia.
  rewrite (bind_done _ _ _ _ y y w) by done.
  assert (Es : arr_slice data 0 (zlen data) = Some data)
    by (rewrite arr_slice_Some by lia; rewrite drop_0, take_ge by (unfold zlen; lia); done).
  rewrite (bind_done _ _ _ _ data y w) by (unfold checked; by rewrite Es). rewrite Hidle.
  set (td := data ++ drop (length data) (trans_data zero_trans)).
  assert (Et : arr_blit (trans_data zero_trans) 0 data = Some td).
  { rewrite arr_blit_Some; [done|lia|]. change (zlen (trans_data zero_trans)) with 1024. lia. }
  rewrite (bind_done _ _ _ _ td y w) by (unfold checked; by rewrite Et).
  destruct (data_room_spec _ Hlk) as (Hr16 & Hr & _).
  assert (Hroom : data_room (ble_link y) = 16) by (Z.div_mod_to_equations; lia).
  assert (H2 : VARINT_IS_2BYTE (zlen data) = true) by (apply Z.ltb_lt; lia).
  assert (H2' : VARINT_IS_2BYTE (4 + zlen data) = true) by (apply Z.ltb_lt; lia).
  rewrite can_send_spec, Hroom, H2 by (done || lia). rewrite (proj2 (Z.leb_gt _ _)) by (pose proof (zlen_nonneg (single_header (zlen data))); lia).
  set (y1 := set_trans (mk_trans td (zlen data) 0 0 0 0 0 0 0 false true) y). rewrite (bind_done _ _ _ _ tt y1 w) by done.
  change (u16 16) with 16. change (1 + 1 + 2) with 4. rewrite (u16_small (4 + zlen data)), H2' by lia.
  change (u16 (16 - (2 + 1 + 1 + 2) - 16)) with 65530. rewrite (proj2 (Z.ltb_ge 65530 _)) by lia.
  set (y2 := set_trans (mk_trans td (zlen data) 0 0 0 1 0 0 0 false true) y). rewrite (bind_done _ _ _ _ tt y2 w) by done. unfold bind at 1, ble_multiple_packet_send.
  rewrite (proj2 (Z.eqb_neq (zlen data) 0)) by lia. rewrite (bind_done _ _ _ _ y2 y2 w) by done.
  cbn [s_packet_trans_data y2 set_trans total_len trans_data].
  set (hdr := multiple_header 0 (zlen data) (zlen data) true).
  assert (Hh : zlen hdr = 6).
  { unfold hdr, multiple_header. rewrite H2, (u16_small (1 + zlen data)), u16_small by lia. rewrite !zlen_app, zlen_varint.
    replace (1 + zlen data + 1 + 2) with (4 + zlen data) by lia. rewrite H2'. unfold varint. by rewrite H2. }
  destruct (arr_blit (replicate (Z.to_nat BLE_MTU_DATA_LEN) 0) 0 hdr) as [b|] eqn:Eb; [|by unfold bind at 1, checked].
  pose proof (arr_blit_length _ _ _ _ Eb) as Hb. change (zlen (replicate _ 0)) with 528 in Hb.
  rewrite (bind_done _ _ _ _ b y2 w) by done.
  assert (Etd : arr_slice td 0 (zlen data) = Some data) by (by apply (arr_slice_app [])).
  rewrite (bind_done _ _ _ _ data y2 w) by (unfold checked; by rewrite Etd).
  unfold bind at 1, checked. by rewrite arr_blit_overflow by lia.
Qed.
End defects.

Lemma at_command_overflow_witness :
  deliver (packet (replicate 16 0x5A) BLE_DATA_TYPE_AT_CMD (replicate 144 0x41)) (connected_app 247) ([] : air) = Undef.
Proof.
  apply at_command_overflow.
  - by apply connected_app_ok.
  - done.
  - done.
  - by vm_compute.
  - done.
Defined.

Lemma small_mtu_overflow_witness :
  ble_packet_trans_send (Some (replicate 523 0x41)) (zlen (replicate 523 0x41)) (connected_app 23) ([] : air) = Undef.
Proof.
  apply small_mtu_overflow.
  - by apply open_link_ok.
  - by vm_compute.
  - done.
  - by vm_compute.
Defined.

(** ** An encrypted firmware update *)

From S2P Require Import Crc OtaFlash OtaFlashProofs OtaFlashSim DfuJimi DfuJimiProofs DfuJimiPhone DfuJimiSim.
From S2P Require Import BleDfu.

Definition update_world : dfu_world air (list Z) := mk_dw [] fresh [].

Lemma ble_update_installs_witness :
  exists y' w',
    (deliver (CW := dfu_clients 247 8192 50) (dfu_packet (replicate 16 0x5A) JIMI_DFU_START []) ;;
     deliver (CW := dfu_clients 247 8192 50) (dfu_packet (replicate 16 0x5A) JIMI_DFU_FILE_SIZE (bytes32 (zlen phone_file))) ;;
     ble_update (replicate 16 0x5A) 247 8192 50 phone_file (Z.to_nat (zlen phone_file)))
      (connected_app 247) update_world = Done (tt, y', w') /\
    upgrade (dw_jimi w') = true /\ reset_ms (dw_jimi w') = Some 6500 /\ s_ota_busy (j_ota (dw_jimi w')) = false /\
    arr_slice (img_view (j_flash (dw_jimi w'))) 0 (zlen phone_file) = Some phone_file.
Proof.
  apply (ble_update_installs (replicate 16 0x5A) 247 8192 50 phone_file).
  - lia.
  - apply phone_file_ok.
  - vm_compute. intuition congruence.
  - reflexivity.
  - reflexivity.
  - by split.
  - apply fresh_ok.
  - reflexivity.
  - vm_compute. reflexivity.
  - lia.
Defined.

(** ** The log channel *)

From S2P Require Import BleLog.

(** Everything is enabled and nobody disconnects. *)
#[export] Instance air_log_env : LogEnv air := {|
  my_param_get_ble_log_config w := mk_log_config 1 0x7FFF (replicate 15 4);
  k_uptime_get w := 5000;
  my_ota_flash_is_busy w := false;
  k_yield w := (w, false)
|}.

Definition empty_log (mtu : Z) : ble_log := mk_log (replicate 2048 0) 0 0 0 false true 1000 (connected_app mtu).

Lemma empty_log_inv mtu : log_inv (empty_log mtu) [].
Proof. by split. Qed.

Lemma air_yield_quiet (w : air) : notified (fst (k_yield w)) = notified w.
Proof. done. Qed.

Lemma log_stream_witness :
  let data := replicate 200 65 in
  exists s' w' chunks rest, ble_log_send data 200 (empty_log 50) ([] : air) = Done (tt, s', w') /\
    [] ++ take (Z.to_nat (Z.min 200 (2048 - zlen (@nil Z)))) data = concat chunks ++ rest /\
    notified w' = notified (W := air) [] ++ map log_packet chunks /\ (length chunks <= 10)%nat /\
    Forall (fun c => 0 < zlen c <= Z.min (g_ble_server_mtu (ble_link (app (empty_log 50))) - 7) 240) chunks /\
    if s_ble_log_disconnect_pending s' then log_inv s' []
    else log_inv s' rest /\ (length chunks = 10%nat \/ rest = []).
Proof.
  apply (log_stream air_yield_quiet (empty_log 50) [] (replicate 200 65) 200).
  - apply empty_log_inv.
  - by split.
  - done.
  - done.
  - lia.
  - by vm_compute.
Defined.

Lemma long_log_cut_witness :
  ble_log_output 1 3 (replicate 300 65) (empty_log 247) ([] : air)
  = ble_log_send (take 255 (replicate 300 65) ++ [0]) (zlen (replicate 300 65) - 256) (empty_log 247) [].
Proof. apply long_log_cut; [reflexivity|by vm_compute]. Defined.

(** Of 300 bytes, 44 arrive. *)
Example long_log_sent :
  match ble_log_output 1 3 (replicate 300 65) (empty_log 247) ([] : air) with
  | Done (_, _, w) => w = [packet_head BLE_DATA_TYPE_BT_LOG ++ replicate 44 65]
  | _ => False
  end.
Proof. vm_compute. reflexivity. Qed.
