(* ===== verification/Float32.v ===== *)
(** * Single precision arithmetic

    The [float] of the source is IEEE 754 binary32, rounded to nearest even; the
    operations are those of the specification in the standard library, at
    precision 24 and exponent bound 128.  Contraction of a product and a sum
    into one rounding is not used. *)

From Stdlib Require Import SpecFloat.
From S2P Require Import Prelude Str.

Notation f32 := spec_float.
Definition fadd : f32 -> f32 -> f32 := SFadd 24 128.
Definition fsub : f32 -> f32 -> f32 := SFsub 24 128.
Definition fmul : f32 -> f32 -> f32 := SFmul 24 128.
Definition fdiv : f32 -> f32 -> f32 := SFdiv 24 128.
Definition sqrtf : f32 -> f32 := SFsqrt 24 128.
Definition fneg : f32 -> f32 := SFopp.
Definition fabsf : f32 -> f32 := SFabs.
Definition flt (a b : f32) : bool := SFltb a b.
Definition fle (a b : f32) : bool := SFleb a b.

Declare Scope f32_scope.
Delimit Scope f32_scope with f32.
Infix "+" := fadd : f32_scope.
Infix "-" := fsub : f32_scope.
Infix "*" := fmul : f32_scope.
Infix "/" := fdiv : f32_scope.
Notation "- x" := (fneg x) : f32_scope.

(** An integer converted, and a decimal literal [num / den]. *)
Definition of_int (n : Z) : f32 := binary_normalize 24 128 n 0 false.
Definition lit (num den : positive) : f32 := fdiv (S754_finite false num 0) (S754_finite false den 0).

Definition sign_of (x : f32) : bool :=
  match x with S754_zero s | S754_infinity s | S754_finite s _ _ => s | S754_nan => false end.
Definition copysignf (x y : f32) : f32 :=
  match x with
  | S754_zero _ => S754_zero (sign_of y)
  | S754_infinity _ => S754_infinity (sign_of y)
  | S754_finite _ m e => S754_finite (sign_of y) m e
  | S754_nan => S754_nan
  end.

(** The bits of a number. *)
Definition f32_bits (x : f32) : Z :=
  let s (b : bool) := if b then 2147483648 else 0 in
  match x with
  | S754_zero b => s b
  | S754_infinity b => s b + 255 * 8388608
  | S754_nan => 0x7fc00000
  | S754_finite b m e => s b + (if Zpos m <? 8388608 then Zpos m else (e + 150) * 8388608 + (Zpos m - 8388608))
  end.
Definition f32_of_bits (w : Z) : f32 :=
  let s := 2147483648 <=? w in
  let e := w / 8388608 mod 256 in
  let m := w mod 8388608 in
  let finite (m e : Z) := match m with Zpos p => S754_finite s p e | _ => S754_zero s end in
  if e =? 255 then if m =? 0 then S754_infinity s else S754_nan
  else if e =? 0 then finite m (-149) else finite (m + 8388608) (e - 150).

(** ** Printing: [%.kf], rounded to nearest with ties to even *)

Definition round_half_even (num den : Z) : Z :=
  let q := num / den in
  let r := num mod den in
  if 2 * r <? den then q else if den <? 2 * r then q + 1 else if Z.even q then q else q + 1.

(** [n] with at least [k] digits. *)
Definition pad_digits (k : nat) (n : Z) : list Z := let s := dec n in repeat 48 (k - length s) ++ s.

Definition fmt_fixed (k : nat) (x : f32) : list Z :=
  let sign (b : bool) := if b then cstr "-" else [] in
  let text (b : bool) (n : Z) := sign b ++ dec (n / 10 ^ Z.of_nat k) ++ cstr "." ++ pad_digits k (n mod 10 ^ Z.of_nat k) in
  match x with
  | S754_nan => cstr "nan"
  | S754_infinity b => sign b ++ cstr "inf"
  | S754_zero b => text b 0
  | S754_finite b m e =>
      text b (if 0 <=? e then Zpos m * 2 ^ e * 10 ^ Z.of_nat k else round_half_even (Zpos m * 10 ^ Z.of_nat k) (2 ^ (- e)))
  end.

(** ** Numbers that are not NaN *)

Definition is_nan (x : f32) : bool := match x with S754_nan => true | _ => false end.
Definition is_finite (x : f32) : bool := match x with S754_zero _ | S754_finite _ _ _ => true | _ => false end.

Lemma shr_nonneg n mrs : 0 <= shr_m mrs -> 0 <= shr_m (SpecFloat.iter_pos shr_1 n mrs).
Proof.
  assert (H1 : forall mrs, 0 <= shr_m mrs -> 0 <= shr_m (shr_1 mrs)) by (intros [[|[]|[]] r s]; cbn; lia).
  induction n as [n IH|n IH|] in mrs |- *; cbn [SpecFloat.iter_pos]; auto.
Qed.

Lemma shr_fexp_nonneg m e l : 0 <= m -> 0 <= shr_m (fst (shr_fexp 24 128 m e l)).
Proof.
  intros H. unfold shr_fexp, shr. destruct (_ - e); cbn; try apply shr_nonneg; by destruct l as [|[]].
Qed.

Lemma round_aux_number s m e l : 0 <= m -> is_nan (binary_round_aux 24 128 s m e l) = false.
Proof.
  intros H. unfold binary_round_aux. pose proof (shr_fexp_nonneg m e l H) as H1. destruct (shr_fexp 24 128 m e l) as [mrs e1]. cbn in H1.
  assert (H2 : 0 <= round_nearest_even (shr_m mrs) (loc_of_shr_record mrs)).
  { unfold round_nearest_even. repeat case_match; lia. }
  pose proof (shr_fexp_nonneg _ e1 loc_Exact H2) as H3. destruct (shr_fexp 24 128 _ e1 loc_Exact) as [mrs2 e2]. cbn in H3.
  destruct (shr_m mrs2); [done| |lia]. by destruct (e2 <=? _).
Qed.

Lemma normalize_number m e s : is_nan (binary_normalize 24 128 m e s) = false.
Proof. unfold binary_normalize, binary_round. destruct m; [done|destruct (shl_align _ _ _)..]; by apply round_aux_number. Qed.

(** A sum is a number unless one operand is none or both are infinite. *)
Lemma fadd_number a b : is_finite a = true -> is_nan b = false -> is_nan (fadd a b) = false.
Proof. destruct a as [[]|[]| |], b as [[]|[]| |]; intros Ha Hb; try done. cbn. apply normalize_number. Qed.

Lemma fmul_number a b : is_finite a = true -> is_finite b = true -> is_nan (fmul a b) = false.
Proof. destruct a, b; intros Ha Hb; try done. cbn. by apply round_aux_number. Qed.

(** The square root of a sum of squares is below a bound only if all of the
    numbers are finite. *)
Definition sticky (x : f32) : bool := match x with S754_nan | S754_infinity false => true | _ => false end.

Lemma square_sticky x : is_finite x = false -> sticky (fmul x x) = true.
Proof. by destruct x as [|[]| |]. Qed.
Definition positive_or_nan (x : f32) : bool := match x with S754_zero b | S754_infinity b | S754_finite b _ _ => negb b | S754_nan => true end.

Lemma round_aux_sign m e l : 0 <= m -> positive_or_nan (binary_round_aux 24 128 false m e l) = true.
Proof. intros H. unfold binary_round_aux. repeat case_match; done. Qed.
Lemma square_positive x : positive_or_nan (fmul x x) = true.
Proof. destruct x as [[]|[]| |[]]; try done; cbn; by apply round_aux_sign. Qed.
Lemma normalize_positive m e : 0 <= m -> positive_or_nan (binary_normalize 24 128 m e false) = true.
Proof. intros H. unfold binary_normalize, binary_round. destruct m; [done| |lia]. destruct (shl_align _ _ _). by apply round_aux_sign. Qed.
Lemma fadd_positive x y : positive_or_nan x = true -> positive_or_nan y = true -> positive_or_nan (fadd x y) = true.
Proof. destruct x as [[]|[]| |[]], y as [[]|[]| |[]]; intros Hx Hy; try done. cbn. by apply normalize_positive. Qed.
Lemma fadd_sticky x y : positive_or_nan x = true -> positive_or_nan y = true -> sticky x = true \/ sticky y = true -> sticky (fadd x y) = true.
Proof. destruct x as [[]|[]| |[]], y as [[]|[]| |[]]; intros Hx Hy [H|H]; done. Qed.
Lemma sqrt_sticky x y : sticky x = true -> flt (sqrtf x) y = false.
Proof. destruct x as [|[]| |]; try done. by destruct y as [|[]| |]. Qed.

Lemma norm3_finite x y z bound :
  flt (sqrtf (fadd (fadd (fmul x x) (fmul y y)) (fmul z z))) bound = true -> is_finite x = true /\ is_finite y = true /\ is_finite z = true.
Proof.
  intros H. destruct (is_finite x && is_finite y && is_finite z) eqn:E; [by bool2prop|]. exfalso.
  enough (S : sticky (fadd (fadd (fmul x x) (fmul y y)) (fmul z z)) = true) by (by rewrite (sqrt_sticky _ _ S) in H).
  pose proof (square_positive x). pose proof (square_positive y). pose proof (square_positive z).
  apply andb_false_iff in E as [[E|E]%andb_false_iff|E]; apply square_sticky in E; apply fadd_sticky; auto using fadd_positive, fadd_sticky.
Qed.

(** Finite numbers are ordered. *)
Lemma fle_not_flt m e m' e' : flt (S754_finite false m e) (S754_finite false m' e') = false -> fle (S754_finite false m' e') (S754_finite false m e) = true.
Proof.
  unfold flt, fle, SFltb, SFleb. cbn. rewrite (Z.compare_antisym e' e). destruct (e' ?= e)%Z; try done. cbn.
  change (Pos.compare_cont Eq m m') with (m ?= m')%positive. change (Pos.compare_cont Eq m' m) with (m' ?= m)%positive.
  rewrite (Pos.compare_antisym m m'). by destruct (m ?= m')%positive.
Qed.
