(* ===== verification/Attitude.v ===== *)
(** * The attitude of the device ([my_gsensor_algorithm.c])

    A Mahony filter: the rotation measured by the gyroscope is integrated into a
    quaternion, corrected by the direction of gravity when the acceleration is
    close to it, and the bias of the gyroscope is followed slowly while the
    device rests.  [atan2f] and [asinf] belong to the mathematical library and
    are parameters. *)

From Stdlib Require Import SpecFloat.
From S2P Require Import Prelude Str Float32 SettingsData Settings.

Local Open Scope f32_scope.

Class Libm := { atan2f : f32 -> f32 -> f32; asinf : f32 -> f32 }.

Definition EINVAL : Z := 22.
Definition fzero : f32 := S754_zero false.
Definition fone : f32 := lit 1 1.
Definition ftwo : f32 := lit 2 1.
Definition fhalf : f32 := lit 5 10.
Definition MAHONY_DEFAULT_KP : f32 := lit 8 10.
Definition MAHONY_DEFAULT_KI : f32 := lit 2 1000.
Definition GRAVITY_NOMINAL : f32 := lit 980665 100000.
Definition GRAVITY_MIN : f32 := GRAVITY_NOMINAL * lit 85 100.
Definition GRAVITY_MAX : f32 := GRAVITY_NOMINAL * lit 115 100.
Definition ACC_LOWPASS_ALPHA : f32 := lit 2 10.
Definition PI_F : f32 := lit 314159265358979 100000000000000.
Definition RAD_TO_DEG : f32 := lit 180 1 / PI_F.
Definition GYRO_BIAS_ALPHA : f32 := lit 1 1000.
Definition GYRO_STATIONARY_THRESH : f32 := lit 873 100000.
Definition GYRO_BIAS_MAX : f32 := lit 5236 100000.

Record vec := mk_vec { vx : f32; vy : f32; vz : f32 }.
Record quaternion_t := mk_quat { q0 : f32; q1 : f32; q2 : f32; q3 : f32 }.
Record euler_angle_t := mk_euler { roll : f32; pitch : f32; yaw : f32 }.
Record imu_reading_t := mk_reading { acc : vec; gyro : vec }.

Record attitude_ctx_t := mk_attitude {
  quat : quaternion_t;
  euler : euler_angle_t;
  initialized : bool;
  kp : f32;
  ki : f32;
  integral_fb_x : f32;
  integral_fb_y : f32;
  integral_fb_z : f32;
  acc_lpf : vec;
  gyro_bias : vec
}.

Definition set_quat (x : quaternion_t) (c : attitude_ctx_t) : attitude_ctx_t := mk_attitude x (euler c) (initialized c) (kp c) (ki c) (integral_fb_x c) (integral_fb_y c) (integral_fb_z c) (acc_lpf c) (gyro_bias c).
Definition set_euler (x : euler_angle_t) (c : attitude_ctx_t) : attitude_ctx_t := mk_attitude (quat c) x (initialized c) (kp c) (ki c) (integral_fb_x c) (integral_fb_y c) (integral_fb_z c) (acc_lpf c) (gyro_bias c).
Definition set_initialized (x : bool) (c : attitude_ctx_t) : attitude_ctx_t := mk_attitude (quat c) (euler c) x (kp c) (ki c) (integral_fb_x c) (integral_fb_y c) (integral_fb_z c) (acc_lpf c) (gyro_bias c).
Definition set_kp (x : f32) (c : attitude_ctx_t) : attitude_ctx_t := mk_attitude (quat c) (euler c) (initialized c) x (ki c) (integral_fb_x c) (integral_fb_y c) (integral_fb_z c) (acc_lpf c) (gyro_bias c).
Definition set_ki (x : f32) (c : attitude_ctx_t) : attitude_ctx_t := mk_attitude (quat c) (euler c) (initialized c) (kp c) x (integral_fb_x c) (integral_fb_y c) (integral_fb_z c) (acc_lpf c) (gyro_bias c).
Definition set_integral_fb_x (x : f32) (c : attitude_ctx_t) : attitude_ctx_t := mk_attitude (quat c) (euler c) (initialized c) (kp c) (ki c) x (integral_fb_y c) (integral_fb_z c) (acc_lpf c) (gyro_bias c).
Definition set_integral_fb_y (x : f32) (c : attitude_ctx_t) : attitude_ctx_t := mk_attitude (quat c) (euler c) (initialized c) (kp c) (ki c) (integral_fb_x c) x (integral_fb_z c) (acc_lpf c) (gyro_bias c).
Definition set_integral_fb_z (x : f32) (c : attitude_ctx_t) : attitude_ctx_t := mk_attitude (quat c) (euler c) (initialized c) (kp c) (ki c) (integral_fb_x c) (integral_fb_y c) x (acc_lpf c) (gyro_bias c).
Definition set_acc_lpf (x : vec) (c : attitude_ctx_t) : attitude_ctx_t := mk_attitude (quat c) (euler c) (initialized c) (kp c) (ki c) (integral_fb_x c) (integral_fb_y c) (integral_fb_z c) x (gyro_bias c).
Definition set_gyro_bias (x : vec) (c : attitude_ctx_t) : attitude_ctx_t := mk_attitude (quat c) (euler c) (initialized c) (kp c) (ki c) (integral_fb_x c) (integral_fb_y c) (integral_fb_z c) (acc_lpf c) x.

(** ** The reciprocal square root by a shift of the bits and two Newton steps *)

Definition newton (half_x y : f32) : f32 := y * (lit 15 10 - half_x * y * y).

Definition inv_sqrtf (x : f32) : f32 :=
  let half_x := fhalf * x in
  let i := i32 (f32_bits x) in
  let i := i32 (0x5f3759df - Z.shiftr i 1) in
  let y := f32_of_bits (u32 i) in
  newton half_x (newton half_x y).

(** ** The filter *)

Definition attitude_init (c : config_param_t) : attitude_ctx_t :=
  let b := imu_zero_bias_config c in
  mk_attitude (mk_quat fone fzero fzero fzero) (mk_euler fzero fzero fzero) true MAHONY_DEFAULT_KP MAHONY_DEFAULT_KI fzero fzero fzero
    (mk_vec fzero fzero fzero) (mk_vec (f32_of_bits (gyro_bias_x b)) (f32_of_bits (gyro_bias_y b)) (f32_of_bits (gyro_bias_z b))).

Definition norm2 (v : vec) : f32 := vx v * vx v + vy v * vy v + vz v * vz v.

Definition lowpass (a l : f32) : f32 := ACC_LOWPASS_ALPHA * a + (fone - ACC_LOWPASS_ALPHA) * l.

(** The correction by gravity: the integral terms and the rotation. *)
Definition gravity_feedback (ctx : attitude_ctx_t) (g : vec) (dt : f32) : attitude_ctx_t * vec :=
  let l := acc_lpf ctx in
  let norm := inv_sqrtf (norm2 l) in
  let ax := vx l * norm in
  let ay := vy l * norm in
  let az := vz l * norm in
  let q := quat ctx in
  let q0q0 := q0 q * q0 q in
  let q0q1 := q0 q * q1 q in
  let q0q2 := q0 q * q2 q in
  let q1q1 := q1 q * q1 q in
  let q1q3 := q1 q * q3 q in
  let q2q2 := q2 q * q2 q in
  let q2q3 := q2 q * q3 q in
  let q3q3 := q3 q * q3 q in
  let halfvx := ftwo * (q1q3 - q0q2) in
  let halfvy := ftwo * (q0q1 + q2q3) in
  let halfvz := q0q0 - q1q1 - q2q2 + q3q3 in
  let halfex := ay * halfvz - az * halfvy in
  let halfey := az * halfvx - ax * halfvz in
  let fbx := integral_fb_x ctx + ki ctx * halfex * dt in
  let fby := integral_fb_y ctx + ki ctx * halfey * dt in
  (set_integral_fb_x fbx (set_integral_fb_y fby ctx),
   mk_vec (vx g + (kp ctx * halfex + fbx)) (vy g + (kp ctx * halfey + fby)) (vz g)).

(** One step of the integration, normalised again. *)
Definition integrate (q : quaternion_t) (g : vec) (dt : f32) : quaternion_t :=
  let gx := vx g * (fhalf * dt) in
  let gy := vy g * (fhalf * dt) in
  let gz := vz g * (fhalf * dt) in
  let qa := q0 q in
  let qb := q1 q in
  let qc := q2 q in
  let n0 := q0 q + (- qb * gx - qc * gy - q3 q * gz) in
  let n1 := q1 q + (qa * gx + qc * gz - q3 q * gy) in
  let n2 := q2 q + (qa * gy - qb * gz + q3 q * gx) in
  let n3 := q3 q + (qa * gz + qb * gy - qc * gx) in
  let norm := inv_sqrtf (n0 * n0 + n1 * n1 + n2 * n2 + n3 * n3) in
  mk_quat (n0 * norm) (n1 * norm) (n2 * norm) (n3 * norm).

(** The bias of one axis, limited. *)
Definition track_bias (bias g : f32) : f32 :=
  let b := bias + GYRO_BIAS_ALPHA * g in
  if flt GYRO_BIAS_MAX (fabsf b) then copysignf GYRO_BIAS_MAX b else b.

Section libm.
Context `{!Libm}.

Definition attitude_get_euler (q : quaternion_t) : euler_angle_t :=
  let sinr_cosp := ftwo * (q0 q * q1 q + q2 q * q3 q) in
  let cosr_cosp := fone - ftwo * (q1 q * q1 q + q2 q * q2 q) in
  let sinp := ftwo * (q0 q * q2 q - q3 q * q1 q) in
  let siny_cosp := ftwo * (q0 q * q3 q + q1 q * q2 q) in
  let cosy_cosp := fone - ftwo * (q2 q * q2 q + q3 q * q3 q) in
  mk_euler (atan2f sinr_cosp cosr_cosp * RAD_TO_DEG)
    (if fle fone (fabsf sinp) then copysignf (lit 90 1) sinp else asinf sinp * RAD_TO_DEG)
    (atan2f siny_cosp cosy_cosp * RAD_TO_DEG).

(** The result code and the new context. *)
Definition attitude_update (conf : config_param_t) (ctx : attitude_ctx_t) (reading : imu_reading_t) (dt : f32) : Z * attitude_ctx_t :=
  if fle dt fzero then (- EINVAL, ctx)%Z else
  let ctx := if initialized ctx then ctx else attitude_init conf in
  let b := gyro_bias ctx in
  let g := gyro reading in
  let comp := mk_vec (vx g - vx b) (vy g - vy b) (vz g - vz b) in
  let a := acc reading in
  let l := acc_lpf ctx in
  let ctx := set_acc_lpf (mk_vec (lowpass (vx a) (vx l)) (lowpass (vy a) (vy l)) (lowpass (vz a) (vz l))) ctx in
  let acc_norm := sqrtf (norm2 (acc_lpf ctx)) in
  let near_gravity := flt GRAVITY_MIN acc_norm && flt acc_norm GRAVITY_MAX in
  let '(ctx, g) := if near_gravity then gravity_feedback ctx comp dt else (ctx, comp) in
  let ctx := set_quat (integrate (quat ctx) g dt) ctx in
  let gyro_norm := sqrtf (norm2 comp) in
  let ctx :=
    if near_gravity && flt gyro_norm GYRO_STATIONARY_THRESH then
      set_gyro_bias (mk_vec (track_bias (vx b) (vx comp)) (track_bias (vy b) (vy comp)) (track_bias (vz b) (vz comp))) ctx
    else ctx in
  (0%Z, set_euler (attitude_get_euler (quat ctx)) ctx).
End libm.

(** The reading in the units of the filter, from milli-g and millidegrees per second. *)
Definition to_reading (data : list Z) : imu_reading_t :=
  let a i := of_int (nth i data 0%Z) * GRAVITY_NOMINAL / lit 1000 1 in
  let g i := of_int (nth i data 0%Z) * (PI_F / lit 180000 1) in
  mk_reading (mk_vec (a 0%nat) (a 1%nat) (a 2%nat)) (mk_vec (g 3%nat) (g 4%nat) (g 5%nat)).

(** The sampling interval. *)
Definition sample_dt (odr : Z) : f32 := fone / of_int odr.

(** ** The bias stays small *)

Definition bias_ok (b : f32) : Prop := is_finite b = true /\ fle (fabsf b) GYRO_BIAS_MAX = true.
Definition biases_ok (v : vec) : Prop := bias_ok (vx v) /\ bias_ok (vy v) /\ bias_ok (vz v).

Lemma track_bias_ok b g : bias_ok b -> is_finite g = true -> bias_ok (track_bias b g).
Proof.
  intros [Hb _] Hg. unfold track_bias. set (x := b + GYRO_BIAS_ALPHA * g).
  assert (Hx : is_nan x = false) by (apply fadd_number; [done|by apply fmul_number]). clearbody x.
  destruct (flt GYRO_BIAS_MAX (fabsf x)) eqn:E; [split; [done|by destruct (sign_of x)]|].
  unfold bias_ok. destruct x as [s|s| |s m e]; [done|done|done|]. split; [done|].
  assert (B : exists m' e', GYRO_BIAS_MAX = S754_finite false m' e') by (vm_compute; eauto).
  destruct B as (m' & e' & B). rewrite B in *. by apply fle_not_flt.
Qed.

(** C39: whatever the sensor delivers, infinities and NaN included, the bias subtracted from the gyroscope stays a number of at most three degrees per second (0.05236) in each axis. *)
Theorem gyro_bias_bounded `{!Libm} conf ctx reading dt :
  biases_ok (gyro_bias ctx) -> biases_ok (gyro_bias (attitude_init conf)) -> biases_ok (gyro_bias (snd (attitude_update conf ctx reading dt))).
Proof.
  intros Hc0 H0. unfold attitude_update. destruct (fle dt fzero); [done|].
  set (c := if initialized ctx then ctx else attitude_init conf). assert (Hc : biases_ok (gyro_bias c)) by (unfold c; by destruct (initialized ctx)).
  clearbody c. cbn [acc_lpf set_acc_lpf]. set (c1 := set_acc_lpf _ c). set (comp := mk_vec (vx (gyro reading) - _) _ _).
  destruct (flt GRAVITY_MIN _ && flt _ GRAVITY_MAX); [|exact Hc].
  assert (Hf : biases_ok (gyro_bias (fst (gravity_feedback c1 comp dt)))) by exact Hc. destruct (gravity_feedback c1 comp dt) as [c2 g2]. cbn [fst] in Hf.
  cbn [andb]. destruct (flt (sqrtf (norm2 comp)) GYRO_STATIONARY_THRESH) eqn:E; [|exact Hf].
  apply norm3_finite in E as (F1 & F2 & F3). destruct Hc as (H1 & H2 & H3). split; [|split]; by apply track_bias_ok.
Qed.

Definition resting_config : config_param_t :=
  mk_config dflt dflt dflt dflt dflt dflt dflt dflt dflt dflt dflt dflt dflt dflt dflt dflt
    dflt dflt dflt dflt dflt dflt dflt dflt dflt dflt dflt dflt dflt dflt dflt dflt.
Definition libm_zero : Libm := {| atan2f _ _ := fzero; asinf _ := fzero |}.

Lemma gyro_bias_bounded_witness :
  let conf := resting_config in
  let ctx := set_acc_lpf (mk_vec fzero fzero GRAVITY_NOMINAL) (attitude_init conf) in
  let ctx' := snd (attitude_update (H := libm_zero) conf ctx (to_reading [0; 0; 1000; 100; -200; 50]%Z) (sample_dt 100)) in
  gyro_bias ctx' <> gyro_bias ctx /\ biases_ok (gyro_bias ctx').
Proof. split; [vm_compute; discriminate|apply gyro_bias_bounded; vm_compute; auto]. Defined.
