(* ===== verification/Board.v ===== *)
(** * What the control threads see of the device ([my_comm.h], [my_main.h], parts of [my_ctrl.c])

    The battery, control, motion and main modules react to interrupts, timers
    and messages, and act by setting pins, starting timers and sending messages
    to other threads.  Here are the names they use for that, the class of the
    device they run on, and the services of [my_ctrl.c] all of them call: the
    level shown by the LEDs and the alarm messages. *)

From S2P Require Import Prelude Str Prog SettingsData Settings.

Open Scope prog_scope.

(** ** Modules, timers, messages, alarms *)

Inductive module_type := MOD_MAIN | MOD_BLE | MOD_CTRL | MOD_LTE | MOD_MAGNETIC_UART | MOD_GSENSOR | MOD_FOTA.

Inductive MY_E_TIMER :=
  | MY_TIMER_LTE_POWER | MY_TIMER_PATM_UPLOAD | MY_TIMER_TEMP_UPLOAD | MY_TIMER_LED_ENABLE | MY_TIMER_LED_BLINK
  | MY_TIMER_IMU_INT_DITHER | MY_TIMER_GSENSOR_STATE_CHECK | MY_TIMER_GSENSOR_ALGORITHM | MY_TIMER_LPSLEEP
  | MY_TIMER_BLUETOOTH_KEY.

(** Timers a module keeps for itself. *)
Inductive k_timer := s_chg_det_timer | s_batt_update_timer | key_timer | light_tamper_timer | light_pull_timer | s_buzzer_timer.

Inductive MY_MAIN_TASK_MSG :=
  | MY_MSG_CTRL_BUZZER_MODE | MY_MSG_CTRL_BUZZER_ON | MY_MSG_CTRL_BUZZER_OFF | MY_MSG_WORK_MODE_SWITCH | MY_MSG_SHOW_CHARG
  | MY_MSG_UPDATE_BATTERY | MY_MSG_RESET_LTE_TIMER | MY_MSG_LTE_PWRON | MY_MSG_GSENSOR_HIGH_POWER | MY_MSG_GSENSOR_LOW_POWER
  | MY_MSG_GSENSOR_INT | MY_MSG_READ_GSENSOR_DATA | MY_MSG_MOTION_CHECK | MY_MSG_CTRL_KEY_SHORT_PRESS | MY_MSG_CTRL_KEY_LONG_PRESS
  | MY_MSG_CTRL_LIGHT_TAMPER_SENSOR_DARK | MY_MSG_CTRL_LIGHT_TAMPER_SENSOR_BRIGHT | MY_MSG_CTRL_LIGHT_PULL_SENSOR_BRIGHT
  | MY_MSG_CTRL_LIGHT_PULL_SENSOR_DARK | MY_MSG_CTRL_SHUTDOWN_REQUEST | MY_MSG_CTRL_PATM_TIMER | MY_MSG_CTRL_TEMP_TIMER
  | MY_MSG_CTRL_PATM_RELOAD | MY_MSG_CTRL_TEMP_RELOAD | MY_MSG_CTRL_PATM_READ | MY_MSG_CTRL_TEMP_READ | MY_MSG_CTRL_STATUS_READ
  | MY_MSG_LED_CTRL_MODE | MY_MSG_LED_ENABLE | MY_MSG_LED_DISABLE | MY_MSG_BLE_TX | MY_MSG_BLE_OPEN_ADV | MY_MSG_BLE_SENSOR_TH_SAMPLE
  | MY_MSG_BLE_SENSOR_BP_SAMPLE | MY_MSG_DFU_START | MY_MSG_DFU_TIMEOUT | MY_MSG_DFU_COMPLETE | MY_MSG_DFU_FAIL | MY_MSG_LTE_BLE_DATA
  | MY_MSG_UPLOAD_WAKEUP | MY_MSG_SCAN_LPSLEEP_ENTER | MY_MSG_SCAN_LPSLEEP_EXIT | MY_MSG_LPSLEEP_ENTER | MY_MSG_LPSLEEP_EXIT
  | MY_MSG_LPSLEEP_BATTERY_CHECK | MY_MSG_LPSLEEP_LTE_SYNC | MY_MSG_LPSLEEP_CLEAR_HOLD_OFF.

Inductive alarm_type_t :=
  | ALARM_CHARGE_IN | ALARM_CHARGE_OUT | ALARM_CHARGE_FULL | ALARM_BAT_SWITCH | ALARM_REMOVE | ALARM_CASE_OPEN | ALARM_MOVE_START
  | ALARM_MOVE_STOP | ALARM_BLE_CONNECTED | ALARM_BLE_CONNECT_ERR | ALARM_HIGH_PATM | ALARM_LOW_PATM | ALARM_HIGH_TEMP | ALARM_LOW_TEMP
  | ALARM_HIGH_HUMI | ALARM_LOW_HUMI | ALARM_FILP | ALARM_FILP_BACK | ALARM_LOW_BAT | ALARM_OTHER.

(** The values of the enumeration. *)
Definition alarm_code (a : alarm_type_t) : Z :=
  match a with
  | ALARM_CHARGE_IN => 1 | ALARM_CHARGE_OUT => 2 | ALARM_CHARGE_FULL => 3 | ALARM_BAT_SWITCH => 4 | ALARM_REMOVE => 5
  | ALARM_CASE_OPEN => 6 | ALARM_MOVE_START => 7 | ALARM_MOVE_STOP => 8 | ALARM_BLE_CONNECTED => 9 | ALARM_BLE_CONNECT_ERR => 10
  | ALARM_HIGH_PATM => 11 | ALARM_LOW_PATM => 12 | ALARM_HIGH_TEMP => 13 | ALARM_LOW_TEMP => 14 | ALARM_HIGH_HUMI => 15
  | ALARM_LOW_HUMI => 16 | ALARM_FILP => 17 | ALARM_FILP_BACK => 18 | ALARM_LOW_BAT => 19 | ALARM_OTHER => 20
  end.

Inductive lte_boot_reason_t := LTE_BOOT_REASON_BOOT_COLD | LTE_BOOT_REASON_INTERVAL | LTE_BOOT_REASON_ALARM | LTE_BOOT_REASON_SCAN | LTE_BOOT_REASON_RESERVED.

(** Pins that are read and pins that are set. *)
Inductive input_pin := charge_det | fun_key | light_tamper_det | light_pull_det.
Inductive output_pin := batt_pwr_en | batt_leds (i : Z) | env_sensor_pwr_gpio | gsensor_pwr_gpio.

(** Power-managed devices ([my_pm.h]). *)
Inductive pm_dev := MY_PM_DEV_GSENSOR | MY_PM_DEV_BATTERY | MY_PM_DEV_PWM.

(** ** The device *)

(** Calls whose result is not used. *)
Inductive board_call :=
  | my_send_msg (dest : module_type) (m : MY_MAIN_TASK_MSG)
  | my_send_msg_data (dest : module_type) (m : MY_MAIN_TASK_MSG) (data : list Z)
  | my_start_timer (t : MY_E_TIMER) (ms : Z) (isPeriod : bool)
  | my_stop_timer (t : MY_E_TIMER)
  | k_timer_start (t : k_timer) (ms period : Z)
  | k_timer_stop (t : k_timer)
  | gpio_pin_set (p : output_pin) (v : Z)
  | pwm_set_pulse (ns : Z)
  | set_lte_boot_reason (r : lte_boot_reason_t)
  | lte_send_command (name param : list Z)
  | my_user_data_write (id : Z) (bytes : list Z)
  | k_msleep (ms : Z)
  | clear_lte_cmdSource
  | nrf_gpio_cfg_sense_input (port pin : Z) (high : bool)
  | nrf_reset_resetreas_clear
  | sys_clock_disable
  | sys_poweroff.

#[export] Instance module_type_eq_dec : EqDecision module_type. Proof. solve_decision. Defined.
#[export] Instance timer_eq_dec : EqDecision MY_E_TIMER. Proof. solve_decision. Defined.
#[export] Instance k_timer_eq_dec : EqDecision k_timer. Proof. solve_decision. Defined.
#[export] Instance msg_eq_dec : EqDecision MY_MAIN_TASK_MSG. Proof. solve_decision. Defined.
#[export] Instance output_pin_eq_dec : EqDecision output_pin. Proof. solve_decision. Defined.
#[export] Instance boot_reason_eq_dec : EqDecision lte_boot_reason_t. Proof. solve_decision. Defined.
#[export] Instance board_call_eq_dec : EqDecision board_call. Proof. solve_decision. Defined.

(** Steps of setting up the hardware; each may fail. *)
Inductive hw_step :=
  | device_ready (d : Z) | pin_configure (p : Z) | pin_interrupt (p : Z) | adc_is_ready | adc_channel_setup | adc_sequence_init
  | pwm_is_ready | barometer_init | temp_humi_api_init | imu_init | imu_set_config | imu_int_pin_config | imu_int_map | imu_set_any_motion_config | imu_feature_enable
  | imu_register_int_callback | pm_register (d : pm_dev).

(** Calls that return a code and, through pointers, values. *)
Inductive board_query :=
  | gpio_pin_get (p : input_pin)
  | adc_read
  | adc_raw_to_millivolts (raw : Z)
  | my_pm_device_resume (d : pm_dev)
  | my_pm_device_suspend (d : pm_dev)
  | k_malloc (n : Z)
  | my_get_system_time_sec
  | k_timer_remaining_get (t : k_timer)
  | barometer_set_work_mode
  | barometer_read
  | temp_humi_api_read
  | gpio_pin_set_dt (p : output_pin) (v : Z)
  | k_uptime_get_32
  | imu_read_int_status
  | imu_get_chip_id
  | hw_setup (step : hw_step)
  | get_lte_power_state
  | g_bLteReady
  | get_lte_factory
  | g_lte_cmdSource
  | g_id
  | g_lte_net_signal_level
  | g_lte_net_flag
  | g_lte_gps_state
  | g_lte_gps_signal
  | g_location_speed
  | my_gsensor_get_state
  | imu_read
  | pwm_set (period pulse : Z)
  | rand_0_to_120_seconds.

(** [board_log] is the list of all calls so far. *)
Class BoardIO (D : Type) := {
  board_do : board_call -> D -> D;
  board_ask : board_query -> D -> D * (Z * list Z);
  board_log : D -> list board_call;
  gConfigParam : D -> config_param_t
}.

(** No call made by a handler changes the settings or makes further calls
    before the handler returns: messages are handled later, by other threads. *)
Class BoardLaws (D : Type) `{BoardIO D} : Prop := {
  law_do_log c d : board_log (board_do c d) = board_log d ++ [c];
  law_do_config c d : gConfigParam (board_do c d) = gConfigParam d;
  law_ask_log q d : board_log (fst (board_ask q d)) = board_log d;
  law_ask_config q d : gConfigParam (fst (board_ask q d)) = gConfigParam d
}.

(** A device whose settings a module changes. *)
Class ConfigIO (D : Type) := {
  config_board :: BoardIO D;
  put_config : config_param_t -> D -> D
}.

Class ConfigLaws (D : Type) `{ConfigIO D} : Prop := {
  config_board_laws :: BoardLaws D;
  law_put_log c d : board_log (put_config c d) = board_log d;
  law_put_config c d : gConfigParam (put_config c d) = c
}.

Section board.
Context {D : Type} `{!BoardIO D} {S : Type}.
Notation board := (prog S D).

Definition do (c : board_call) : board unit := world (fun d => (board_do c d, tt)).
Definition ask (q : board_query) : board (Z * list Z) := world (board_ask q).
Definition ask_ret (q : board_query) : board Z := world (fun d => let '(d, r) := board_ask q d in (d, fst r)).
Definition config : board config_param_t := world (fun d => (d, gConfigParam d)).

(** ** The LEDs of the battery level *)

Inductive my_led_ctrl_cmd_t := CLOSE_LED | OPEN_LED.

Definition my_ctrl_led_process (led_id : Z) (led_cmd : my_led_ctrl_cmd_t) : board unit :=
  match led_cmd with
  | OPEN_LED => do (gpio_pin_set (batt_leds led_id) 1)
  | CLOSE_LED => do (gpio_pin_set (batt_leds led_id) 0)
  end.

(** The three LEDs, the first [level] of them lit. *)
Definition batt_led_set_level (level : Z) : board unit :=
  let level := u8 level in
  let level := if 3 <? level then 3 else level in
  let on i := if i <? level then OPEN_LED else CLOSE_LED in
  my_ctrl_led_process 0 (on 0);;
  my_ctrl_led_process 1 (on 1);;
  my_ctrl_led_process 2 (on 2).

(** ** Alarms *)

(** How an alarm is reported according to the settings: [None] for a type that
    is not known. *)
Definition alarm_rpt (c : config_param_t) (alarm_type : alarm_type_t) (additional_info : option (list Z)) : option Z :=
  match alarm_type with
  | ALARM_LOW_BAT => Some 0
  | ALARM_CHARGE_IN | ALARM_CHARGE_OUT | ALARM_CHARGE_FULL => Some (chargesta_report (batlevel_config c))
  | ALARM_BAT_SWITCH =>
      match additional_info with
      | None => None
      | Some s =>
          let level := atoi s in
          Some (if level =? 0 then batlevel_empty_rpt (batlevel_config c)
                else if level =? 1 then batlevel_low_rpt (batlevel_config c)
                else if level =? 2 then batlevel_normal_rpt (batlevel_config c)
                else if level =? 3 then batlevel_fair_rpt (batlevel_config c)
                else if level =? 4 then batlevel_high_rpt (batlevel_config c)
                else if level =? 5 then batlevel_full_rpt (batlevel_config c)
                else 0)
      end
  | ALARM_REMOVE => Some (pullalm_mode (pullalm_config c))
  | ALARM_CASE_OPEN => Some (remalm_mode (remalm_config c))
  | ALARM_MOVE_START | ALARM_MOVE_STOP => Some (motdetalm_report_type (motdetalm_config c))
  | ALARM_BLE_CONNECTED | ALARM_BLE_CONNECT_ERR => Some (btconnect_report (btconnect_config c))
  | ALARM_HIGH_PATM | ALARM_LOW_PATM => Some (patalm_report_type (patalm_config c))
  | ALARM_HIGH_TEMP | ALARM_LOW_TEMP | ALARM_HIGH_HUMI | ALARM_LOW_HUMI => Some (tempalm_report_type (tempalm_config c))
  | ALARM_FILP | ALARM_FILP_BACK => Some (imu_alm_report (imu_alm_config c))
  | ALARM_OTHER => None
  end.

Definition alarm_text (alarm_type : alarm_type_t) (now rpt : Z) (additional_info : option (list Z)) : list Z :=
  dec (alarm_code alarm_type) ++ cstr "," ++ dec now ++ cstr "," ++ dec rpt ++
  match additional_info with
  | Some (c :: s) => cstr "," ++ c :: s
  | _ => []
  end.

(** [my_scan_upload_on_lte_wakeup]. *)
Definition my_scan_upload_on_lte_wakeup : board unit := do (my_send_msg MOD_BLE MY_MSG_UPLOAD_WAKEUP).

Definition send_alarm_message_to_lte (alarm_type : alarm_type_t) (additional_info : option (list Z)) : board unit :=
  do (set_lte_boot_reason LTE_BOOT_REASON_ALARM);;
  c <- config;;
  match alarm_type, additional_info with
  | ALARM_BAT_SWITCH, None => checked None
  | _, _ =>
      match alarm_rpt c alarm_type additional_info with
      | None => ret tt
      | Some rpt =>
          if 0 <? rpt then
            now <- ask_ret my_get_system_time_sec;;
            do (lte_send_command (cstr "ALARM") (fst (snprintf 64 (alarm_text alarm_type now rpt additional_info))));;
            my_scan_upload_on_lte_wakeup
          else ret tt
      end
  end.
End board.

Definition update_config {D S} `{!ConfigIO D} (f : config_param_t -> config_param_t) : prog S D unit :=
  world (fun d => (put_config (f (gConfigParam d)) d, tt)).

(** ** A module inside another one *)

Section zoom.
Context {S T W : Type} (part : T -> S) (put : S -> T -> T).

(** Code of the inner module, run on its part of the state. *)
Definition zoom {A} (m : prog S W A) : prog T W A := fun y w =>
  match m (part y) w with
  | Done (a, s, w) => Done (a, put s y, w)
  | NoFuel => NoFuel
  | Undef => Undef
  end.

Lemma twp_zoom {A} (m : prog S W A) (Q : A -> T -> W -> Prop) y w :
  twp m (fun a s w => Q a (put s y) w) (part y) w -> twp (zoom m) Q y w.
Proof. unfold twp, zoom. by destruct (m (part y) w) as [[[a s] w']| |]. Qed.
End zoom.

(** ** Exact runs *)

Section runs.
Context {D : Type} `{!BoardIO D} {S : Type}.

(** The device after a sequence of calls. *)
Definition after (cs : list board_call) (d : D) : D := foldl (fun d c => board_do c d) d cs.

Lemma after_app cs cs' d : after (cs ++ cs') d = after cs' (after cs d).
Proof. apply foldl_app. Qed.

Lemma after_log `{!BoardLaws D} cs d : board_log (after cs d) = board_log d ++ cs.
Proof.
  induction cs as [|c cs IH] in d |- *; [by rewrite app_nil_r|]. cbn. fold (after cs (board_do c d)). rewrite IH, law_do_log. by rewrite <- app_assoc.
Qed.

(** [m] makes exactly the calls [cs] and leaves the state [y']. *)
Definition makes (m : prog S D unit) (y y' : S) (cs : list board_call) : Prop := forall d, m y d = Done (tt, y', after cs d).

Lemma makes_ret y : makes (ret tt) y y [].
Proof. done. Qed.
Lemma makes_modify f y : makes (modify f) y (f y) [].
Proof. done. Qed.
Lemma makes_do c y : makes (do c) y y [c].
Proof. done. Qed.
Lemma makes_bind m k y y1 y2 cs1 cs2 : makes m y y1 cs1 -> makes (k tt) y1 y2 cs2 -> makes (bind m k) y y2 (cs1 ++ cs2).
Proof. intros H1 H2 d. unfold bind. rewrite H1, H2. by rewrite after_app. Qed.
Lemma makes_get {A} (f : S -> A) k y y' cs : makes (k (f y)) y y' cs -> makes (bind (get f) k) y y' cs.
Proof. done. Qed.
End runs.

(** ** Rules *)

Section rules.
Context {D : Type} `{!BoardIO D} {S : Type}.
Notation board := (prog S D).

(** Code that leaves the module's state alone and always returns. *)
Definition outward {A} (m : board A) : Prop :=
  forall (Q : A -> S -> D -> Prop) y d, (forall a dv, Q a y dv) -> twp m Q y d.

Lemma outward_do c : outward (do c).
Proof. intros Q y d H. apply twp_world. by intros a d' [= <- <-]. Qed.
Lemma outward_ask q : outward (ask q).
Proof. intros Q y d H. apply twp_world. auto. Qed.
Lemma outward_ask_ret q : outward (ask_ret q).
Proof. intros Q y d H. apply twp_world. intros a d' _. apply H. Qed.
Lemma outward_config : outward config.
Proof. intros Q y d H. apply twp_world. intros a d' _. apply H. Qed.
Lemma outward_ret {A} (a : A) : outward (ret a).
Proof. intros Q y d H. apply twp_ret, H. Qed.
Lemma outward_bind {A B} (m : board A) (k : A -> board B) : outward m -> (forall a, outward (k a)) -> outward (bind m k).
Proof. intros Hm Hk Q y d H. apply twp_bind, Hm. intros a d'. by apply Hk. Qed.
Lemma outward_if {A} (b : bool) (m1 m2 : board A) : outward m1 -> outward m2 -> outward (if b then m1 else m2).
Proof. by destruct b. Qed.
Lemma outward_led led_id cmd : outward (my_ctrl_led_process led_id cmd).
Proof. destruct cmd; apply outward_do. Qed.
Lemma outward_level level : outward (batt_led_set_level level).
Proof. repeat (apply outward_bind; [|intros ?]); apply outward_led. Qed.

Lemma outward_alarm a info : a <> ALARM_BAT_SWITCH \/ info <> None -> outward (send_alarm_message_to_lte a info).
Proof.
  intros H. unfold send_alarm_message_to_lte. apply outward_bind; [apply outward_do|intros _]. apply outward_bind; [apply outward_config|intros c].
  assert (Hend : forall o, outward (match o with None => ret tt | Some rpt => if 0 <? rpt then
      bind (ask_ret my_get_system_time_sec) (fun now => bind (do (lte_send_command (cstr "ALARM") (fst (snprintf 64 (alarm_text a now rpt info)))))
        (fun _ => my_scan_upload_on_lte_wakeup)) else ret tt end)).
  { intros [rpt|]; [|apply outward_ret]. apply outward_if; [|apply outward_ret].
    repeat first [apply outward_do | apply outward_ask_ret | apply outward_bind; [|intros ?]]. }
  destruct a, info; try apply Hend. by destruct H.
Qed.
End rules.

Create HintDb board.
#[export] Hint Resolve outward_do outward_ask outward_ask_ret outward_config outward_ret outward_bind outward_if outward_led outward_level : board.

(** One step of symbolic execution, without what the device answers. *)
Ltac bstep :=
  first
    [ progress tstep
    | lazymatch goal with
      | |- twp (do _) _ _ _ => apply outward_do; intros [] ?
      | |- twp (ask _) _ _ _ => apply outward_ask; intros ? ?
      | |- twp (ask_ret _) _ _ _ => apply outward_ask_ret; intros ? ?
      | |- twp config _ _ _ => apply outward_config; intros ? ?
      | |- twp (batt_led_set_level _) _ _ _ => apply outward_level; intros [] ?
      end ].
