(* ===== verification/Battery.v ===== *)
(** * The battery ([my_battery.c])

    The voltage of the battery is measured every thirty seconds, every ten while
    it is charged, and becomes the percentage that is shown: it follows the
    measurements one percent at a time, unless two measurements in a row agree
    that it is off by five or more.  The percentage decides the level that is
    reported and what the LEDs show.  Code under [#if 0] and log output are left
    out. *)

From S2P Require Import Prelude Str Prog SettingsData Settings Board.

Open Scope prog_scope.

Definition i8 (z : Z) : Z := (z + 128) mod 256 - 128.

(** The value of an [int32_t] expression: overflow is undefined. *)
Definition int32 (z : Z) : option Z := if (-2147483648 <=? z) && (z <=? 2147483647) then Some z else None.

Definition ENODEV : Z := 19.
Definition BATT_ADC_SAMPLE_NUM : Z := 3.
Definition BATT_UPDATE_COUNT : Z := 3.
Definition BATT_TIMER_MS : Z := 100.
Definition CHG_DEBOUNCE_MS : Z := 50.
Definition CHG_CTRL_LED_MS : Z := 500.
Definition CHG_UPDATE_S : Z := 10.
Definition BATT_UPDATE_S : Z := 30.
Definition BATT_EMPTY_VAL : Z := 5.
Definition BATT_LOW_VAL : Z := 30.
Definition BATT_NORMAL_VAL : Z := 45.
Definition BATT_FAIR_VAL : Z := 65.
Definition BATT_HIGH_VAL : Z := 85.
Definition CHG_BATT_LOW_VAL : Z := 30.
Definition CHG_BATT_FAIR_VAL : Z := 60.
Definition CHG_BATT_HIGH_VAL : Z := 85.
Definition LED_BLINK_COUNT : Z := 4.

(** Voltage in millivolts and percentage. *)
Definition BATT_VOLT_PERCENT_MAP : list (Z * Z) :=
  [(3000, 0); (3300, 10); (3500, 20); (3600, 30); (3700, 40); (3800, 50); (3900, 60); (4000, 70); (4100, 80); (4150, 90); (4200, 100)].

Inductive my_batt_state_t := BATT_UNKNOWN | BATT_EMPTY | BATT_LOW | BATT_NORMAL | BATT_FAIR | BATT_HIGH | BATT_FULL.
Inductive my_chg_state_t := CHARG_UNKNOWN | NO_CHARGING | CHARGING | CHARG_FULL.
Inductive led_mode_t := BATT_LED_MODE | CHG_LED_MODE | BT_RADIO_LED_MODE | BT_CONNECT_LED_MODE.
#[export] Instance batt_state_eq_dec : EqDecision my_batt_state_t. Proof. solve_decision. Defined.
#[export] Instance chg_state_eq_dec : EqDecision my_chg_state_t. Proof. solve_decision. Defined.
#[export] Instance led_mode_eq_dec : EqDecision led_mode_t. Proof. solve_decision. Defined.

(** The values of the enumerations. *)
Definition batt_code (s : my_batt_state_t) : Z :=
  match s with BATT_UNKNOWN => -1 | BATT_EMPTY => 0 | BATT_LOW => 1 | BATT_NORMAL => 2 | BATT_FAIR => 3 | BATT_HIGH => 4 | BATT_FULL => 5 end.
Definition led_code (m : led_mode_t) : Z :=
  match m with BATT_LED_MODE => 0 | CHG_LED_MODE => 1 | BT_RADIO_LED_MODE => 2 | BT_CONNECT_LED_MODE => 3 end.

(** [my_chg_batt_state_t], compared and added to in the code. *)
Definition CHG_BATT_LOW : Z := 0.
Definition CHG_BATT_FAIR : Z := 1.
Definition CHG_BATT_HIGH : Z := 2.
Definition CHG_BATT_FULL : Z := 3.

Record led_ctrl_ctx_t := mk_led_ctx { led_status : Z; active_mode : led_mode_t; led_count : Z }.

(** The variables of the module, those that are static in a function included. *)
Record battery := mk_battery {
  s_read_mv : Z;
  s_show_percent : Z;
  s_batt_state : my_batt_state_t;
  s_chg_batt_state : Z;
  s_chg_det_level : Z;
  s_batt_disable_flag : bool;
  s_led_ctrl_ctx : led_ctrl_ctx_t;
  s_led_enable_flag : bool;
  s_led_connect_timer : Z;
  g_charg_state : my_chg_state_t;
  s_last_chg_state : my_chg_state_t;
  s_last_chg_det_level : Z;
  s_last_batt_state : my_batt_state_t;
  s_batt_first_update : bool;
  s_batt_update_count : Z;
  s_jump_percent : Z
}.

Definition set_read_mv (x : Z) (b : battery) : battery := mk_battery x (s_show_percent b) (s_batt_state b) (s_chg_batt_state b) (s_chg_det_level b) (s_batt_disable_flag b) (s_led_ctrl_ctx b) (s_led_enable_flag b) (s_led_connect_timer b) (g_charg_state b) (s_last_chg_state b) (s_last_chg_det_level b) (s_last_batt_state b) (s_batt_first_update b) (s_batt_update_count b) (s_jump_percent b).
Definition set_show_percent (x : Z) (b : battery) : battery := mk_battery (s_read_mv b) x (s_batt_state b) (s_chg_batt_state b) (s_chg_det_level b) (s_batt_disable_flag b) (s_led_ctrl_ctx b) (s_led_enable_flag b) (s_led_connect_timer b) (g_charg_state b) (s_last_chg_state b) (s_last_chg_det_level b) (s_last_batt_state b) (s_batt_first_update b) (s_batt_update_count b) (s_jump_percent b).
Definition set_batt_state (x : my_batt_state_t) (b : battery) : battery := mk_battery (s_read_mv b) (s_show_percent b) x (s_chg_batt_state b) (s_chg_det_level b) (s_batt_disable_flag b) (s_led_ctrl_ctx b) (s_led_enable_flag b) (s_led_connect_timer b) (g_charg_state b) (s_last_chg_state b) (s_last_chg_det_level b) (s_last_batt_state b) (s_batt_first_update b) (s_batt_update_count b) (s_jump_percent b).
Definition set_chg_batt_state (x : Z) (b : battery) : battery := mk_battery (s_read_mv b) (s_show_percent b) (s_batt_state b) x (s_chg_det_level b) (s_batt_disable_flag b) (s_led_ctrl_ctx b) (s_led_enable_flag b) (s_led_connect_timer b) (g_charg_state b) (s_last_chg_state b) (s_last_chg_det_level b) (s_last_batt_state b) (s_batt_first_update b) (s_batt_update_count b) (s_jump_percent b).
Definition set_chg_det_level (x : Z) (b : battery) : battery := mk_battery (s_read_mv b) (s_show_percent b) (s_batt_state b) (s_chg_batt_state b) x (s_batt_disable_flag b) (s_led_ctrl_ctx b) (s_led_enable_flag b) (s_led_connect_timer b) (g_charg_state b) (s_last_chg_state b) (s_last_chg_det_level b) (s_last_batt_state b) (s_batt_first_update b) (s_batt_update_count b) (s_jump_percent b).
Definition set_batt_disable_flag (x : bool) (b : battery) : battery := mk_battery (s_read_mv b) (s_show_percent b) (s_batt_state b) (s_chg_batt_state b) (s_chg_det_level b) x (s_led_ctrl_ctx b) (s_led_enable_flag b) (s_led_connect_timer b) (g_charg_state b) (s_last_chg_state b) (s_last_chg_det_level b) (s_last_batt_state b) (s_batt_first_update b) (s_batt_update_count b) (s_jump_percent b).
Definition set_led_ctrl_ctx (x : led_ctrl_ctx_t) (b : battery) : battery := mk_battery (s_read_mv b) (s_show_percent b) (s_batt_state b) (s_chg_batt_state b) (s_chg_det_level b) (s_batt_disable_flag b) x (s_led_enable_flag b) (s_led_connect_timer b) (g_charg_state b) (s_last_chg_state b) (s_last_chg_det_level b) (s_last_batt_state b) (s_batt_first_update b) (s_batt_update_count b) (s_jump_percent b).
Definition set_led_enable_flag (x : bool) (b : battery) : battery := mk_battery (s_read_mv b) (s_show_percent b) (s_batt_state b) (s_chg_batt_state b) (s_chg_det_level b) (s_batt_disable_flag b) (s_led_ctrl_ctx b) x (s_led_connect_timer b) (g_charg_state b) (s_last_chg_state b) (s_last_chg_det_level b) (s_last_batt_state b) (s_batt_first_update b) (s_batt_update_count b) (s_jump_percent b).
Definition set_led_connect_timer (x : Z) (b : battery) : battery := mk_battery (s_read_mv b) (s_show_percent b) (s_batt_state b) (s_chg_batt_state b) (s_chg_det_level b) (s_batt_disable_flag b) (s_led_ctrl_ctx b) (s_led_enable_flag b) x (g_charg_state b) (s_last_chg_state b) (s_last_chg_det_level b) (s_last_batt_state b) (s_batt_first_update b) (s_batt_update_count b) (s_jump_percent b).
Definition set_charg_state (x : my_chg_state_t) (b : battery) : battery := mk_battery (s_read_mv b) (s_show_percent b) (s_batt_state b) (s_chg_batt_state b) (s_chg_det_level b) (s_batt_disable_flag b) (s_led_ctrl_ctx b) (s_led_enable_flag b) (s_led_connect_timer b) x (s_last_chg_state b) (s_last_chg_det_level b) (s_last_batt_state b) (s_batt_first_update b) (s_batt_update_count b) (s_jump_percent b).
Definition set_last_chg_state (x : my_chg_state_t) (b : battery) : battery := mk_battery (s_read_mv b) (s_show_percent b) (s_batt_state b) (s_chg_batt_state b) (s_chg_det_level b) (s_batt_disable_flag b) (s_led_ctrl_ctx b) (s_led_enable_flag b) (s_led_connect_timer b) (g_charg_state b) x (s_last_chg_det_level b) (s_last_batt_state b) (s_batt_first_update b) (s_batt_update_count b) (s_jump_percent b).
Definition set_last_chg_det_level (x : Z) (b : battery) : battery := mk_battery (s_read_mv b) (s_show_percent b) (s_batt_state b) (s_chg_batt_state b) (s_chg_det_level b) (s_batt_disable_flag b) (s_led_ctrl_ctx b) (s_led_enable_flag b) (s_led_connect_timer b) (g_charg_state b) (s_last_chg_state b) x (s_last_batt_state b) (s_batt_first_update b) (s_batt_update_count b) (s_jump_percent b).
Definition set_last_batt_state (x : my_batt_state_t) (b : battery) : battery := mk_battery (s_read_mv b) (s_show_percent b) (s_batt_state b) (s_chg_batt_state b) (s_chg_det_level b) (s_batt_disable_flag b) (s_led_ctrl_ctx b) (s_led_enable_flag b) (s_led_connect_timer b) (g_charg_state b) (s_last_chg_state b) (s_last_chg_det_level b) x (s_batt_first_update b) (s_batt_update_count b) (s_jump_percent b).
Definition set_batt_first_update (x : bool) (b : battery) : battery := mk_battery (s_read_mv b) (s_show_percent b) (s_batt_state b) (s_chg_batt_state b) (s_chg_det_level b) (s_batt_disable_flag b) (s_led_ctrl_ctx b) (s_led_enable_flag b) (s_led_connect_timer b) (g_charg_state b) (s_last_chg_state b) (s_last_chg_det_level b) (s_last_batt_state b) x (s_batt_update_count b) (s_jump_percent b).
Definition set_batt_update_count (x : Z) (b : battery) : battery := mk_battery (s_read_mv b) (s_show_percent b) (s_batt_state b) (s_chg_batt_state b) (s_chg_det_level b) (s_batt_disable_flag b) (s_led_ctrl_ctx b) (s_led_enable_flag b) (s_led_connect_timer b) (g_charg_state b) (s_last_chg_state b) (s_last_chg_det_level b) (s_last_batt_state b) (s_batt_first_update b) x (s_jump_percent b).
Definition set_jump_percent (x : Z) (b : battery) : battery := mk_battery (s_read_mv b) (s_show_percent b) (s_batt_state b) (s_chg_batt_state b) (s_chg_det_level b) (s_batt_disable_flag b) (s_led_ctrl_ctx b) (s_led_enable_flag b) (s_led_connect_timer b) (g_charg_state b) (s_last_chg_state b) (s_last_chg_det_level b) (s_last_batt_state b) (s_batt_first_update b) (s_batt_update_count b) x.
Definition set_led_status (x : Z) (b : battery) : battery := let c := s_led_ctrl_ctx b in set_led_ctrl_ctx (mk_led_ctx x (active_mode c) (led_count c)) b.
Definition set_active_mode (x : led_mode_t) (b : battery) : battery := let c := s_led_ctrl_ctx b in set_led_ctrl_ctx (mk_led_ctx (led_status c) x (led_count c)) b.
Definition set_led_count (x : Z) (b : battery) : battery := let c := s_led_ctrl_ctx b in set_led_ctrl_ctx (mk_led_ctx (led_status c) (active_mode c) x) b.

Definition battery_start : battery :=
  mk_battery 0 0 BATT_EMPTY CHG_BATT_LOW 0 false (mk_led_ctx 0 BATT_LED_MODE 0) false 100 NO_CHARGING CHARG_UNKNOWN (-1) BATT_UNKNOWN true 0 (-1).

Section battery.
Context {D : Type} `{!BoardIO D}.
Notation batt := (prog battery D).

(** ** Small functions *)

Definition led_enable (on : bool) : batt unit := modify (set_led_enable_flag on).
Definition led_get_enable : batt bool := get s_led_enable_flag.
Definition get_batt_mv : batt Z := get s_read_mv.
Definition get_batt_percent : batt Z := get s_show_percent.
Definition get_charge_state_level : batt Z := ask_ret (gpio_pin_get charge_det).
Definition batt_enable (on : bool) : batt unit := do (gpio_pin_set batt_pwr_en (if on then 1 else 0)).

(** ** Measuring *)

Definition batt_read_mv : batt (Z * Z) :=
  r <- ask adc_read;;
  if fst r <? 0 then ret (fst r, 0) else
  let s_batt_raw := nth 0 (snd r) 0 in
  r <- ask (adc_raw_to_millivolts s_batt_raw);;
  if fst r <? 0 then ret (fst r, 0) else
  ret (0, nth 0 (snd r) 0).

Definition CALC_ACTUAL_MV (avg_mv : Z) : option Z := x ← int32 (avg_mv * (2000 + 680)); Some (Z.quot x 680).

(** The loop over the samples: error code, largest, smallest and sum.  The
    comparisons are with [*mv], the value of the last measurement. *)
Fixpoint sample_loop (n : nat) (mv max_mv min_mv sum_mv : Z) : batt (Z * (Z * Z * Z)) :=
  match n with
  | O => ret (0, (max_mv, min_mv, sum_mv))
  | S n =>
      r <- batt_read_mv;;
      let '(err, read_mv) := r in
      if negb (err =? 0) then ret (err, (max_mv, min_mv, sum_mv)) else
      sum_mv <- checked (int32 (sum_mv + read_mv));;
      sample_loop n mv (if max_mv <? mv then read_mv else max_mv) (if mv <? min_mv then read_mv else min_mv) sum_mv
  end.

(** [my_battery_read_mv(&s_read_mv)]. *)
Definition my_battery_read_mv : batt Z :=
  mv <- get s_read_mv;;
  r <- sample_loop (Z.to_nat BATT_ADC_SAMPLE_NUM) mv 0 10000 0;;
  let '(err, (max_mv, min_mv, sum_mv)) := r in
  if negb (err =? 0) then ret err else
  avg_mv <- checked (int32 (sum_mv - max_mv - min_mv));;
  mv <- checked (CALC_ACTUAL_MV (Z.quot avg_mv (BATT_ADC_SAMPLE_NUM - 2)));;
  modify (set_read_mv mv);;
  ret 0.

Fixpoint find_interval (n : nat) (mv i : Z) : option Z :=
  match n with
  | O => Some i
  | S n =>
      lo ← arr_get BATT_VOLT_PERCENT_MAP i;
      hi ← arr_get BATT_VOLT_PERCENT_MAP (i + 1);
      if (fst lo <=? mv) && (mv <=? fst hi) then Some i else find_interval n mv (i + 1)
  end.

(** The percentage of a voltage. *)
Definition percent_of_mv (mv : Z) : option Z :=
  let entries := zlen BATT_VOLT_PERCENT_MAP in
  first ← arr_get BATT_VOLT_PERCENT_MAP 0;
  last ← arr_get BATT_VOLT_PERCENT_MAP (entries - 1);
  if mv <? fst first then Some 0
  else if fst last <? mv then Some 100
  else
    i ← find_interval (Z.to_nat (entries - 1)) mv 0;
    lo ← arr_get BATT_VOLT_PERCENT_MAP i;
    hi ← arr_get BATT_VOLT_PERCENT_MAP (i + 1);
    Some (i8 (snd lo + Z.quot ((mv - fst lo) * (snd hi - snd lo)) (fst hi - fst lo))).

Definition my_battery_read_percent : batt Z :=
  my_battery_read_mv;;
  mv <- get s_read_mv;;
  checked (percent_of_mv mv).

(** ** LEDs *)

Definition led_status_set (mode : led_mode_t) (on : bool) : batt unit :=
  st <- get (fun b => led_status (s_led_ctrl_ctx b));;
  modify (set_led_status (if on then u8 (Z.lor st (Z.shiftl 1 (led_code mode))) else u8 (Z.land st (Z.lnot (Z.shiftl 1 (led_code mode)))))).

Definition led_status_get (mode : led_mode_t) : batt bool :=
  st <- get (fun b => led_status (s_led_ctrl_ctx b));;
  ret (negb (Z.land st (Z.shiftl 1 (led_code mode)) =? 0)).

Definition led_set_mode (mode : led_mode_t) (on : bool) : batt unit :=
  c <- config;;
  (match mode with
   | CHG_LED_MODE =>
       led_status_set mode on;;
       if on then led_enable true else if negb (led_display (led_config c) =? 2) then led_enable false else ret tt
   | BT_RADIO_LED_MODE => led_status_set mode on;; if on then led_status_set BT_CONNECT_LED_MODE false else ret tt
   | BT_CONNECT_LED_MODE => led_status_set mode on;; if on then led_status_set BT_RADIO_LED_MODE false else ret tt
   | BATT_LED_MODE => ret tt
   end);;
  do (my_send_msg MOD_CTRL MY_MSG_LED_CTRL_MODE).

(** The callback of the timer [MY_TIMER_LED_BLINK]. *)
Definition led_ctrl_callback : batt unit :=
  b <- get id;;
  if negb (s_led_enable_flag b) then ret tt else
  let count := led_count (s_led_ctrl_ctx b) in
  (match active_mode (s_led_ctrl_ctx b) with
   | CHG_LED_MODE =>
       if count mod 3 =? 0 then batt_led_set_level (s_chg_batt_state b + 1);; modify (set_led_count 0)
       else if count mod 3 =? 2 then batt_led_set_level (s_chg_batt_state b) else ret tt
   | BATT_LED_MODE =>
       let mode := Z.rem (batt_code (s_batt_state b)) 2 in
       let level := Z.quot (batt_code (s_batt_state b)) 2 in
       if mode =? 0 then
         if count mod 10 =? 0 then batt_led_set_level (level + 1);; modify (set_led_count 0)
         else if count mod 10 =? 3 then batt_led_set_level level else ret tt
       else batt_led_set_level (level + 1)
   | BT_RADIO_LED_MODE =>
       if count mod 5 =? 0 then batt_led_set_level 3;; modify (set_led_count 0)
       else if count mod 5 =? 1 then batt_led_set_level 0 else ret tt
   | BT_CONNECT_LED_MODE =>
       if count =? LED_BLINK_COUNT * 2 * 5 then led_set_mode BT_CONNECT_LED_MODE false
       else if count mod 2 =? 0 then batt_led_set_level 3
       else if count mod 2 =? 1 then batt_led_set_level 0 else ret tt
   end);;
  modify (fun b => set_led_count (u8 (led_count (s_led_ctrl_ctx b) + 1)) b).

Definition led_sw_callback : batt unit :=
  c <- config;;
  chg <- led_status_get CHG_LED_MODE;;
  if (led_display (led_config c) =? 1) && negb chg then do (my_send_msg MOD_CTRL MY_MSG_LED_DISABLE) else ret tt.

Definition open_led_timer (timer_ms : Z) : batt unit :=
  c <- config;;
  chg <- led_status_get CHG_LED_MODE;;
  if (led_display (led_config c) =? 1) && negb chg then
    do (my_start_timer MY_TIMER_LED_ENABLE timer_ms false);;
    do (my_send_msg MOD_CTRL MY_MSG_LED_ENABLE)
  else ret tt.

Definition bt_led_connect_quick_flick (count : Z) : batt unit :=
  if count =? 0 then checked None else modify (set_led_connect_timer (u16 (500 / count))).

Definition my_led_ctrl_mode : batt unit :=
  do (my_stop_timer MY_TIMER_LED_BLINK);;
  batt_led_set_level 0;;
  modify (set_led_count 0);;
  c <- config;;
  chg <- led_status_get CHG_LED_MODE;;
  if negb chg && (led_display (led_config c) =? 1) then
    modify (set_active_mode BATT_LED_MODE);;
    do (my_start_timer MY_TIMER_LED_BLINK BATT_TIMER_MS true)
  else
  radio <- led_status_get BT_RADIO_LED_MODE;;
  if radio : bool then
    modify (set_active_mode BT_RADIO_LED_MODE);;
    do (my_start_timer MY_TIMER_LED_BLINK 200 true)
  else
  connect <- led_status_get BT_CONNECT_LED_MODE;;
  if connect : bool then
    bt_led_connect_quick_flick LED_BLINK_COUNT;;
    modify (set_active_mode BT_CONNECT_LED_MODE);;
    t <- get s_led_connect_timer;;
    do (my_start_timer MY_TIMER_LED_BLINK t true)
  else if chg : bool then
    modify (set_active_mode CHG_LED_MODE);;
    do (my_start_timer MY_TIMER_LED_BLINK CHG_CTRL_LED_MS true)
  else
    modify (set_active_mode BATT_LED_MODE);;
    do (my_start_timer MY_TIMER_LED_BLINK BATT_TIMER_MS true).

(** ** Reports *)

Definition my_chg_event_reporting : batt unit :=
  b <- get id;;
  if decide (s_last_chg_state b = g_charg_state b) then ret tt else
  (match g_charg_state b with
   | CHARG_UNKNOWN => ret tt
   | NO_CHARGING => send_alarm_message_to_lte ALARM_CHARGE_OUT None
   | CHARGING => send_alarm_message_to_lte ALARM_CHARGE_IN None
   | CHARG_FULL => send_alarm_message_to_lte ALARM_CHARGE_FULL None
   end);;
  modify (set_last_chg_state (g_charg_state b)).

Definition my_battery_event_reporting : batt unit :=
  b <- get id;;
  if decide (s_batt_state b = s_last_batt_state b) then ret tt else
  let cmd_param := fst (snprintf 2 (dec (batt_code (s_batt_state b)))) in
  send_alarm_message_to_lte ALARM_BAT_SWITCH (Some cmd_param);;
  modify (set_last_batt_state (s_batt_state b)).

(** ** The percentage that is shown *)

(** One step towards the measurement, up while charging and down otherwise,
    after [BATT_UPDATE_COUNT] measurements that ask for it. *)
Definition follow (percent : Z) : batt unit :=
  b <- get id;;
  let count := s_batt_update_count b + 1 in
  if decide (g_charg_state b = NO_CHARGING) then
    if percent <? s_show_percent b then
      if BATT_UPDATE_COUNT <=? count then modify (fun b => set_batt_update_count 0 (set_show_percent (i8 (s_show_percent b - 1)) b))
      else modify (set_batt_update_count count)
    else modify (set_batt_update_count 0)
  else
    if s_show_percent b <? percent then
      if BATT_UPDATE_COUNT <=? count then modify (fun b => set_batt_update_count 0 (set_show_percent (i8 (s_show_percent b + 1)) b))
      else modify (set_batt_update_count count)
    else modify (set_batt_update_count 0).

(** A jump is taken over when two measurements agree on it. *)
Definition jump (percent : Z) : batt unit :=
  b <- get id;;
  if 5 <=? Z.abs (percent - s_show_percent b) then
    if s_jump_percent b <? 0 then modify (set_jump_percent percent)
    else if Z.abs (percent - s_jump_percent b) <=? 1 then modify (fun b => set_jump_percent (-1) (set_show_percent percent b))
    else modify (set_jump_percent percent)
  else modify (set_jump_percent (-1)).

Definition batt_class (show : Z) : my_batt_state_t :=
  if show <=? BATT_EMPTY_VAL then BATT_EMPTY
  else if show <=? BATT_LOW_VAL then BATT_LOW
  else if show <=? BATT_NORMAL_VAL then BATT_NORMAL
  else if show <=? BATT_FAIR_VAL then BATT_FAIR
  else if show <=? BATT_HIGH_VAL then BATT_HIGH
  else BATT_FULL.

Definition chg_class (show : Z) : Z :=
  if show <=? CHG_BATT_LOW_VAL then CHG_BATT_LOW
  else if show <=? CHG_BATT_FAIR_VAL then CHG_BATT_FAIR
  else if show <=? CHG_BATT_HIGH_VAL then CHG_BATT_HIGH
  else CHG_BATT_FULL.

(** Whether this call measures, after the timer is started again. *)
Definition restart_timer : batt bool :=
  b <- get id;;
  if decide (g_charg_state b = NO_CHARGING) then
    modify (set_batt_disable_flag false);;
    do (k_timer_start s_batt_update_timer (BATT_UPDATE_S * 1000) 0);;
    ret true
  else if s_batt_disable_flag b then
    modify (set_batt_disable_flag false);;
    do (k_timer_start s_batt_update_timer 1000 0);;
    ret false
  else
    modify (set_batt_disable_flag true);;
    do (k_timer_start s_batt_update_timer ((CHG_UPDATE_S - 1) * 1000) 0);;
    ret true.

(** What is done while the battery is charged. *)
Definition charging_update : batt unit :=
  b <- get id;;
  if decide (g_charg_state b = NO_CHARGING) then ret tt else
  modify (set_chg_batt_state (chg_class (s_show_percent b)));;
  batt_enable true;;
  if (100 <=? s_show_percent b) && negb (bool_decide (g_charg_state b = CHARG_FULL)) then
    modify (set_charg_state CHARG_FULL);;
    do (my_send_msg MOD_CTRL MY_MSG_SHOW_CHARG)
  else ret tt.

Definition my_battery_update_state : batt unit :=
  go <- restart_timer;;
  if negb go then ret tt else
  r <- ask_ret (my_pm_device_resume MY_PM_DEV_BATTERY);;
  if r <? 0 then ret tt else
  percent <- my_battery_read_percent;;
  first <- get s_batt_first_update;;
  (if first : bool then
     modify (fun b => set_batt_first_update false (set_batt_update_count 0 (set_show_percent percent b)));;
     do (my_send_msg MOD_CTRL MY_MSG_SHOW_CHARG)
   else ret tt);;
  follow percent;;
  jump percent;;
  modify (fun b => set_batt_state (batt_class (s_show_percent b)) b);;
  my_battery_event_reporting;;
  charging_update;;
  c <- config;;
  (if lprunning_sw (lprunning_config c) =? 1 then do (my_send_msg MOD_MAIN MY_MSG_LPSLEEP_BATTERY_CHECK) else ret tt);;
  ask_ret (my_pm_device_suspend MY_PM_DEV_BATTERY);;
  ret tt.

(** ** The charger *)

Definition my_battery_show_chgled : batt unit :=
  level <- ask_ret (gpio_pin_get charge_det);;
  (if level =? 1 then
     modify (set_charg_state CHARGING);;
     my_battery_update_state;;
     show <- get s_show_percent;;
     (if 100 <=? show then modify (set_charg_state CHARG_FULL) else ret tt);;
     c <- config;;
     let bt := bluetooth_config c in
     (if (bluetooth_flag bt =? 1) && (bluetooth_sw bt =? 1) && (bluetooth_a bt =? 5)
      then do (my_send_msg MOD_BLE MY_MSG_BLE_OPEN_ADV) else ret tt);;
     led_set_mode CHG_LED_MODE true
   else
     modify (set_charg_state NO_CHARGING);;
     batt_enable true;;
     led_set_mode CHG_LED_MODE false);;
  my_chg_event_reporting.

(** The interrupt of the pin, and the timer that debounces it. *)
Definition batt_gpio_isr : batt unit :=
  level <- ask_ret (gpio_pin_get charge_det);;
  modify (set_chg_det_level level);;
  do (k_timer_start s_chg_det_timer CHG_DEBOUNCE_MS 0).

Definition batt_chg_det_handle : batt unit :=
  b <- get id;;
  if s_chg_det_level b =? s_last_chg_det_level b then ret tt else
  level <- ask_ret (gpio_pin_get charge_det);;
  if s_chg_det_level b =? level then
    modify (set_last_chg_det_level (s_chg_det_level b));;
    do (my_send_msg MOD_CTRL MY_MSG_SHOW_CHARG)
  else ret tt.

Definition batt_update_timer_handler : batt unit :=
  b <- get id;;
  (if s_batt_disable_flag b && (CHG_BATT_FAIR <? s_chg_batt_state b) then batt_enable false else ret tt);;
  do (my_send_msg MOD_CTRL MY_MSG_UPDATE_BATTERY).

(** ** Setting up *)

Definition batt_adc_init : batt Z :=
  ready <- ask_ret (hw_setup adc_is_ready);;
  if ready =? 0 then ret (- ENODEV) else
  err <- ask_ret (hw_setup adc_channel_setup);;
  if err <? 0 then ret err else
  err <- ask_ret (hw_setup adc_sequence_init);;
  if err <? 0 then ret err else ret 0.

Definition battery_pm_init : batt Z :=
  ready <- ask_ret (hw_setup adc_is_ready);;
  ret (if ready =? 0 then - ENODEV else 0).

Definition my_battery_pm_register : batt Z := ask_ret (hw_setup (pm_register MY_PM_DEV_BATTERY)).

(** Ports and pins by number: 0 the charging switch, 1 the charger. *)
Definition batt_gpio_init : batt Z :=
  r0 <- ask_ret (hw_setup (device_ready 0));;
  r1 <- (if r0 =? 0 then ret 0 else ask_ret (hw_setup (device_ready 1)));;
  if r1 =? 0 then ret (- ENODEV) else
  r <- ask_ret (hw_setup (pin_configure 0));;
  if negb (r =? 0) then ret r else
  do (gpio_pin_set batt_pwr_en 0);;
  r <- ask_ret (hw_setup (pin_configure 1));;
  if negb (r =? 0) then ret r else
  r <- ask_ret (hw_setup (pin_interrupt 1));;
  if negb (r =? 0) then ret r else
  do (k_timer_start s_batt_update_timer 0 0);;
  ret 0.
End battery.
