(* ===== verification/BatteryProofs.v ===== *)
(** * The battery: what is shown

    The percentage that is shown stays between 0 and 100 and its level is the
    one reported; with a steady voltage it becomes the percentage the table
    gives; the first measurement after start is wrong. *)

From S2P Require Import Prelude Str Prog SettingsData Settings Board Battery.

Open Scope prog_scope.

(** ** The table *)

(** The percentage of a voltage, written as a formula for each interval. *)
Definition percent_formula (mv : Z) : Z :=
  if mv <? 3000 then 0 else if mv <=? 3300 then (mv - 3000) * 10 / 300 else if mv <=? 3500 then 10 + (mv - 3300) * 10 / 200
  else if mv <=? 4100 then 20 + (mv - 3500) * 10 / 100 else if mv <=? 4200 then 80 + (mv - 4100) * 10 / 50 else 100.

(** The entries of the table at closed indices. *)
Ltac table_entries :=
  repeat match goal with
  | |- context [arr_get BATT_VOLT_PERCENT_MAP ?i] =>
      let e := eval vm_compute in (arr_get BATT_VOLT_PERCENT_MAP i) in change (arr_get BATT_VOLT_PERCENT_MAP i) with e
  end; cbn [mbind option_bind fst snd].

Lemma percent_of_mv_formula mv : percent_of_mv mv = Some (percent_formula mv).
Proof.
  unfold percent_of_mv. change (Z.to_nat (zlen BATT_VOLT_PERCENT_MAP - 1)) with 10%nat. cbn [find_interval]. table_entries.
  unfold percent_formula. destruct (Z.ltb_spec mv 3000); [reflexivity|]. destruct (Z.ltb_spec 4200 mv).
  { by rewrite !(proj2 (Z.leb_gt mv _)) by lia. }
  repeat (rewrite (proj2 (Z.leb_le _ mv)) by lia; cbn [andb];
    match goal with |- context [if mv <=? ?k then Some ?i else _] => destruct (Z.leb_spec mv k) as [?|?] end).
  all: try (exfalso; lia). all: cbn [mbind option_bind]; table_entries; f_equal; rewrite Z.quot_div_nonneg by lia; unfold i8.
  all: repeat (zcase; try lia).
  all: Z.to_euclidean_division_equations; lia.
Qed.

Lemma percent_formula_bounds mv : 0 <= percent_formula mv <= 100.
Proof. unfold percent_formula. repeat zcase; try lia; Z.to_euclidean_division_equations; lia. Qed.

Lemma percent_formula_mono mv mv' : mv <= mv' -> percent_formula mv <= percent_formula mv'.
Proof. intros H. unfold percent_formula. repeat (zcase; try lia); Z.to_euclidean_division_equations; lia. Qed.

(** ** The invariant *)

Record batt_ok (b : battery) : Prop := mk_batt_ok {
  ok_show : 0 <= s_show_percent b <= 100;
  ok_state : s_batt_state b = batt_class (s_show_percent b);
  ok_count : 0 <= s_batt_update_count b < BATT_UPDATE_COUNT;
  ok_jump : -1 <= s_jump_percent b <= 100;
  ok_chg : 0 <= s_chg_batt_state b <= 3;
  ok_led : 0 <= led_status (s_led_ctrl_ctx b) < 256 /\ 0 <= led_count (s_led_ctrl_ctx b) < 256
}.

Lemma batt_ok_start : batt_ok battery_start.
Proof. by split. Qed.

(** The driver returns a voltage of the converter's range. *)
Class AdcSane (D : Type) `{BoardIO D} : Prop :=
  adc_sane raw (d : D) : 0 <= fst (snd (board_ask (adc_raw_to_millivolts raw) d)) ->
    -5000 <= nth 0 (snd (snd (board_ask (adc_raw_to_millivolts raw) d))) 0 <= 5000.

Lemma int32_small z : -2147483648 <= z <= 2147483647 -> int32 z = Some z.
Proof. intros H. unfold int32. by rewrite (proj2 (Z.leb_le _ _)), (proj2 (Z.leb_le _ _)) by lia. Qed.

Lemma i8_small z : -128 <= z <= 127 -> i8 z = z.
Proof. intros H. unfold i8. rewrite Z.mod_small; lia. Qed.

Section spec.
Context {D : Type} `{!BoardIO D} `{!AdcSane D}.
Notation batt := (prog battery D).
Implicit Types (b : battery) (d : D).

Lemma batt_read_mv_spec (Q : Z * Z -> battery -> D -> Prop) b d :
  (forall err v d', err <> 0 \/ -5000 <= v <= 5000 -> Q (err, v) b d') -> twp batt_read_mv Q b d.
Proof.
  intros H. unfold batt_read_mv. bstep. bstep. bstep. { apply twp_ret, H. left. bool2prop. lia. }
  bstep. apply twp_world. intros r d1 E. bstep. { apply twp_ret, H. left. bool2prop. lia. }
  apply twp_ret, H. right. match type of E with board_ask (adc_raw_to_millivolts ?raw) ?d0 = _ => pose proof (adc_sane raw d0) as A end.
  rewrite E in A. apply A. bool2prop. cbn. lia.
Qed.

Lemma sample_loop_spec n mv k (Q : Z * (Z * Z * Z) -> battery -> D -> Prop) mx mn sum b d :
  0 <= k -> k + Z.of_nat n <= 3 -> -10000 <= mx <= 10000 -> -10000 <= mn <= 10000 -> - (5000 * k) <= sum <= 5000 * k ->
  (forall err mx mn sum d', err <> 0 \/ (-10000 <= mx <= 10000 /\ -10000 <= mn <= 10000 /\ -15000 <= sum <= 15000) ->
     Q (err, (mx, mn, sum)) b d') ->
  twp (sample_loop n mv mx mn sum) Q b d.
Proof.
  intros Hk Hn Hx Hm Hs H. induction n as [|n IH] in k, mx, mn, sum, d, Hk, Hn, Hx, Hm, Hs |- *; cbn [sample_loop].
  { apply twp_ret, H. right. lia. }
  bstep. apply batt_read_mv_spec. intros err v d' Hv. bstep. { apply twp_ret, H. left. bool2prop. lia. }
  bstep. assert (Hv' : -5000 <= v <= 5000) by (destruct Hv; [bool2prop|]; lia).
  eapply twp_checked; [apply int32_small; lia|]. apply (IH (k + 1)); try lia; zcase; lia.
Qed.

(** A measurement gives a percentage and touches nothing but the voltage. *)
Lemma my_battery_read_percent_spec (Q : Z -> battery -> D -> Prop) b d :
  (forall p mv d', 0 <= p <= 100 -> Q p (set_read_mv mv b) d') -> twp my_battery_read_percent Q b d.
Proof.
  intros H. unfold my_battery_read_percent. bstep. unfold my_battery_read_mv. bstep. bstep. bstep.
  assert (Hend : forall b' d' mv, b' = set_read_mv mv b ->
    twp (mv <- get s_read_mv;; checked (percent_of_mv mv)) Q b' d').
  { intros b' d' mv ->. bstep. bstep. eapply twp_checked; [apply percent_of_mv_formula|]. apply H, percent_formula_bounds. }
  apply (sample_loop_spec 3 _ 0); try lia. intros err mx mn sum d' Hok. bstep.
  { apply twp_ret, (Hend _ _ (s_read_mv b)). by destruct b. }
  bstep. bool2prop. destruct Hok as [|(? & ? & ?)]; [lia|].
  eapply twp_checked; [apply int32_small; lia|]. bstep. change (BATT_ADC_SAMPLE_NUM - 2) with 1. rewrite Z.quot_1_r.
  unfold CALC_ACTUAL_MV. rewrite int32_small by lia. cbn [mbind option_bind]. eapply twp_checked; [reflexivity|].
  bstep. bstep. apply twp_ret. by eapply Hend.
Qed.

(** ** Each operation keeps it *)

(** A state that differs from [b] in the given way is fine again. *)
Definition stays (m : batt unit) : Prop :=
  forall (Q : unit -> battery -> D -> Prop) b d, batt_ok b -> (forall b' d', batt_ok b' -> Q tt b' d') -> twp m Q b d.

(** [m] does something to a state in which only the level lags behind. *)
Definition lags (b : battery) : Prop := batt_ok (set_batt_state (batt_class (s_show_percent b)) b).

Lemma lags_ok b : batt_ok b -> lags b.
Proof. intros [? E ? ? ? ?]. by split. Qed.

Lemma follow_spec p (Q : unit -> battery -> D -> Prop) b d :
  0 <= p <= 100 -> lags b -> (forall b' d', lags b' -> s_read_mv b' = s_read_mv b -> Q tt b' d') -> twp (follow p) Q b d.
Proof.
  intros Hp [Hs Hst Hc Hj Hg Hl] H. cbn in *. unfold follow. bstep. bstep. unfold BATT_UPDATE_COUNT in *.
  destruct (decide (g_charg_state b = NO_CHARGING)); repeat (bstep; bool2prop); apply H; try done; split; cbn; try done; unfold BATT_UPDATE_COUNT; try lia.
  all: rewrite i8_small; lia.
Qed.

Lemma jump_spec p (Q : unit -> battery -> D -> Prop) b d :
  0 <= p <= 100 -> lags b -> (forall b' d', lags b' -> s_read_mv b' = s_read_mv b -> Q tt b' d') -> twp (jump p) Q b d.
Proof.
  intros Hp [Hs Hst Hc Hj Hg Hl] H. cbn in *. unfold jump. bstep. bstep. repeat (bstep; bool2prop); apply H; try done; split; cbn; try done; lia.
Qed.

Lemma chg_class_range p : 0 <= chg_class p <= 3.
Proof. unfold chg_class. repeat case_match; vm_compute; split; discriminate. Qed.

Lemma event_reporting_stays : stays my_battery_event_reporting.
Proof.
  intros Q b d Hb H. unfold my_battery_event_reporting. bstep. bstep. case_decide; [by apply twp_ret, H|].
  bstep. apply outward_alarm; [by right|]. intros _ d'. bstep. apply H. by destruct Hb.
Qed.

Lemma chg_reporting_stays : stays my_chg_event_reporting.
Proof.
  intros Q b d Hb H. unfold my_chg_event_reporting. bstep. bstep. case_decide; [by apply twp_ret, H|].
  bstep. destruct (g_charg_state b); [apply twp_ret|apply outward_alarm; [by left|intros _ d']..]; bstep; apply H; by destruct Hb.
Qed.

Lemma charging_update_stays : stays charging_update.
Proof.
  intros Q b d Hb H. unfold charging_update, batt_enable. bstep. bstep. case_decide; [by apply twp_ret, H|].
  assert (Hb' : batt_ok (set_chg_batt_state (chg_class (s_show_percent b)) b)) by (destruct Hb; split; cbn; auto using chg_class_range).
  repeat bstep; apply H; try done. by destruct Hb'.
Qed.

Lemma restart_timer_spec (Q : bool -> battery -> D -> Prop) b d :
  batt_ok b -> (forall go b' d', batt_ok b' -> Q go b' d') -> twp restart_timer Q b d.
Proof.
  intros Hb H. unfold restart_timer. bstep. bstep. case_decide; repeat bstep; apply H; by destruct Hb.
Qed.

Lemma update_state_stays : stays my_battery_update_state.
Proof.
  intros Q b d Hb H. unfold my_battery_update_state. bstep. apply restart_timer_spec; [done|]. clear b d Hb. intros go b d Hb.
  bstep; [by apply twp_ret, H|]. bstep. bstep. bstep; [by apply twp_ret, H|]. bstep.
  apply my_battery_read_percent_spec. intros p mv d' Hp. set (b1 := set_read_mv mv b). assert (Hb1 : batt_ok b1) by by destruct Hb.
  clearbody b1. bstep. bstep. bstep.
  assert (Hrest : forall b' d', lags b' ->
    twp (follow p;; jump p;; modify (fun b => set_batt_state (batt_class (s_show_percent b)) b);; my_battery_event_reporting;; charging_update;;
      c <- config;; (if lprunning_sw (lprunning_config c) =? 1 then do (my_send_msg MOD_MAIN MY_MSG_LPSLEEP_BATTERY_CHECK) else ret tt);;
      ask_ret (my_pm_device_suspend MY_PM_DEV_BATTERY);; ret tt) Q b' d').
  { intros b2 d2 H2. bstep. apply follow_spec; [done..|]. intros b3 d3 H3 _. bstep. apply jump_spec; [done..|]. intros b4 d4 H4 _.
    bstep. bstep. bstep. apply event_reporting_stays; [done|]. intros b5 d5 H5. bstep. apply charging_update_stays; [done|].
    intros b6 d6 H6. repeat bstep; by apply H. }
  destruct (s_batt_first_update b1); [do 3 bstep|bstep]; apply Hrest; [|by apply lags_ok].
  destruct Hb1. split; cbn; try done; unfold BATT_UPDATE_COUNT; lia.
Qed.

Lemma led_status_bits st m : 0 <= st < 256 -> 0 <= u8 (Z.lor st m) < 256 /\ 0 <= u8 (Z.land st m) < 256.
Proof. intros _. unfold u8. split; apply Z.mod_pos_bound; lia. Qed.

Lemma led_status_set_stays mode on : stays (led_status_set mode on).
Proof.
  intros Q b d Hb H. unfold led_status_set. bstep. bstep. bstep. apply H. destruct Hb as [? ? ? ? ? [? ?]]. split; cbn; try done.
  split; [|done]. destruct on; apply Z.mod_pos_bound; lia.
Qed.

Lemma led_status_get_spec mode (Q : bool -> battery -> D -> Prop) b d : (forall on, Q on b d) -> twp (led_status_get mode) Q b d.
Proof. intros H. unfold led_status_get. bstep. bstep. apply twp_ret, H. Qed.

Lemma led_set_mode_stays mode on : stays (led_set_mode mode on).
Proof.
  intros Q b d Hb H. unfold led_set_mode. bstep. bstep. bstep.
  assert (Hend : forall b' d', batt_ok b' -> twp (do (my_send_msg MOD_CTRL MY_MSG_LED_CTRL_MODE)) Q b' d') by (intros; bstep; by apply H).
  destruct mode; [apply twp_ret; by apply Hend|..]; bstep; apply led_status_set_stays; try done; intros b' d2 Hb'.
  - unfold led_enable. repeat bstep; try (apply H; by destruct Hb').
  - bstep; [apply led_status_set_stays; [done|]; intros|apply twp_ret]; by apply Hend.
  - bstep; [apply led_status_set_stays; [done|]; intros|apply twp_ret]; by apply Hend.
Qed.

Lemma led_ctrl_callback_stays : stays led_ctrl_callback.
Proof.
  intros Q b d Hb H. unfold led_ctrl_callback. bstep. bstep. bstep; [by apply twp_ret, H|].
  assert (Hend : forall b' d', batt_ok b' -> twp (modify (fun b => set_led_count (u8 (led_count (s_led_ctrl_ctx b) + 1)) b)) Q b' d').
  { intros b' d' [? ? ? ? ? [? ?]]. bstep. apply H. split; cbn; try done. split; [done|]. apply Z.mod_pos_bound; lia. }
  assert (H0 : batt_ok (set_led_count 0 b)) by (destruct Hb as [? ? ? ? ? [? ?]]; split; cbn; try done; lia).
  bstep. destruct (active_mode (s_led_ctrl_ctx b)); repeat (bstep || (by apply Hend)).
  apply led_set_mode_stays; [done|]. intros. by apply Hend.
Qed.

Lemma my_led_ctrl_mode_stays : stays my_led_ctrl_mode.
Proof.
  intros Q b d Hb H. unfold my_led_ctrl_mode. bstep. bstep. bstep. bstep. bstep. bstep. bstep. bstep. bstep. apply led_status_get_spec. intros chg.
  assert (H0 : batt_ok (set_led_count 0 b)) by (destruct Hb as [? ? ? ? ? [? ?]]; split; cbn; try done; lia).
  assert (Hmode : forall m b' d', batt_ok b' -> forall t ms, twp (modify (set_active_mode m);; do (my_start_timer t ms true)) Q b' d').
  { intros m b' d' [? ? ? ? ? [? ?]] t ms. repeat bstep. apply H. by split. }
  bstep; [by apply Hmode|]. bstep. apply led_status_get_spec. intros radio. bstep; [by apply Hmode|]. bstep. apply led_status_get_spec. intros con.
  destruct con; [|bstep; by apply Hmode]. unfold bt_led_connect_quick_flick. repeat bstep; [discriminate|]. apply H. destruct H0. by split.
Qed.

Lemma show_chgled_stays : stays my_battery_show_chgled.
Proof.
  intros Q b d Hb H. unfold my_battery_show_chgled, batt_enable. bstep. bstep. bstep.
  assert (Hset : forall c b, batt_ok b -> batt_ok (set_charg_state c b)) by (intros c b' []; by split).
  assert (Hend : forall b' d', batt_ok b' -> twp my_chg_event_reporting Q b' d') by (intros; by apply chg_reporting_stays).
  bstep.
  - bstep. bstep. bstep. apply update_state_stays; [by apply Hset|]. intros b1 d1 H1. bstep. bstep. bstep.
    assert (Htail : forall b' d', batt_ok b' -> twp (c <- config;; (if (bluetooth_flag (bluetooth_config c) =? 1) && (bluetooth_sw (bluetooth_config c) =? 1) && (bluetooth_a (bluetooth_config c) =? 5)
      then do (my_send_msg MOD_BLE MY_MSG_BLE_OPEN_ADV) else ret tt);; led_set_mode CHG_LED_MODE true) (fun _ => twp my_chg_event_reporting Q) b' d').
    { intros b2 d2 H2. repeat bstep; apply led_set_mode_stays; auto. }
    bstep; [bstep|apply twp_ret]; apply Htail; auto.
  - repeat bstep. apply led_set_mode_stays; auto.
Qed.

Lemma open_led_timer_stays ms : stays (open_led_timer ms).
Proof. intros Q b d Hb H. unfold open_led_timer. bstep. bstep. bstep. apply led_status_get_spec. intros on. repeat bstep; by apply H. Qed.

Lemma led_sw_stays : stays led_sw_callback.
Proof. intros Q b d Hb H. unfold led_sw_callback. bstep. bstep. bstep. apply led_status_get_spec. intros on. repeat bstep; by apply H. Qed.

Lemma interrupts_stay : stays batt_gpio_isr /\ stays batt_chg_det_handle /\ stays batt_update_timer_handler.
Proof.
  split; [|split]; intros Q b d Hb H; [unfold batt_gpio_isr|unfold batt_chg_det_handle|unfold batt_update_timer_handler, batt_enable];
    repeat bstep; apply H; try done; by destruct Hb.
Qed.

(** ** Everything that happens to the module *)

Inductive batt_event :=
  | EvUpdate | EvShowCharge | EvChargerPin | EvDebounced | EvUpdateTimer | EvBlink | EvLedMode | EvLedTimeout
  | EvSetMode (m : led_mode_t) (on : bool) | EvOpenLed (ms : Z) | EvEnable (on : bool).

Definition run_batt (e : batt_event) : batt unit :=
  match e with
  | EvUpdate => my_battery_update_state
  | EvShowCharge => my_battery_show_chgled
  | EvChargerPin => batt_gpio_isr
  | EvDebounced => batt_chg_det_handle
  | EvUpdateTimer => batt_update_timer_handler
  | EvBlink => led_ctrl_callback
  | EvLedMode => my_led_ctrl_mode
  | EvLedTimeout => led_sw_callback
  | EvSetMode m on => led_set_mode m on
  | EvOpenLed ms => open_led_timer ms
  | EvEnable on => led_enable on
  end.

Lemma run_batt_stays e : stays (run_batt e).
Proof.
  pose proof interrupts_stay as (H1 & H2 & H3).
  destruct e; cbn [run_batt]; auto using update_state_stays, show_chgled_stays, led_ctrl_callback_stays, my_led_ctrl_mode_stays, led_sw_stays,
    led_set_mode_stays, open_led_timer_stays.
  intros Q b d Hb H. unfold led_enable. bstep. apply H. by destruct Hb.
Qed.

End spec.

(** ** A steady voltage *)

(** What one measurement of [p] does to the percentage shown, the counter and
    the remembered jump while the battery is not charged. *)
Definition discharge_step (p : Z) (x : Z * Z * Z) : Z * Z * Z :=
  let '(s, c, j) := x in
  let '(s, c) := if p <? s then if BATT_UPDATE_COUNT <=? c + 1 then (s - 1, 0) else (s, c + 1) else (s, 0) in
  if 5 <=? Z.abs (p - s) then
    if j <? 0 then (s, c, p) else if Z.abs (p - j) <=? 1 then (p, c, -1) else (s, c, p)
  else (s, c, -1).

(** How many measurements it takes at most. *)
Definition rank (p : Z) (x : Z * Z * Z) : Z :=
  let '(s, c, j) := x in
  if s =? p then 0 else if s <? p + 5 then 3 * (s - p) - c else if j =? p then 13 else 14.

Definition above (p : Z) (x : Z * Z * Z) : Prop := let '(s, c, j) := x in p <= s <= 100 /\ 0 <= c < 3 /\ -1 <= j <= 100.

Lemma discharge_rank p x : 0 <= p -> above p x -> above p (discharge_step p x) /\ 0 <= rank p (discharge_step p x) <= Z.max 0 (rank p x - 1).
Proof.
  destruct x as [[s c] j]. intros Hp (Hs & Hc & Hj). unfold discharge_step, BATT_UPDATE_COUNT, rank.
  repeat (zcase; cbn [fst snd]); unfold above; repeat zcase; lia.
Qed.

Lemma rank_zero p x : above p x -> rank p x <= 0 -> fst (fst x) = p.
Proof. destruct x as [[s c] j]. intros (Hs & Hc & Hj). unfold rank. repeat zcase; cbn; lia. Qed.

(** The voltage at the pin of the converter is [v] whenever it is read, and the
    converter can be powered. *)
Class SteadyVoltage (D : Type) `{BoardIO D} (v : Z) : Prop := {
  steady_read (d : D) : 0 <= fst (snd (board_ask adc_read d));
  steady_code raw (d : D) : 0 <= fst (snd (board_ask (adc_raw_to_millivolts raw) d));
  steady_value raw (d : D) : nth 0 (snd (snd (board_ask (adc_raw_to_millivolts raw) d))) 0 = v;
  steady_resume (d : D) : 0 <= fst (snd (board_ask (my_pm_device_resume MY_PM_DEV_BATTERY) d))
}.

(** The voltage of the battery for a voltage at the pin. *)
Definition actual_mv (v : Z) : Z := Z.quot (v * 2680) 680.

Section steady.
Context {D : Type} `{!BoardIO D} (v : Z) `{!SteadyVoltage D v}.
Notation batt := (prog battery D).
Hypothesis Hv : 1 <= v <= 1268.

Lemma ask_ret_spec q (Q : Z -> battery -> D -> Prop) b d :
  (forall d', Q (fst (snd (board_ask q d))) b d') -> twp (ask_ret q) Q b d.
Proof. intros H. apply twp_world. intros a d'. specialize (H d'). destruct (board_ask q d) as [d1 r]. by intros [= <- <-]. Qed.

Lemma steady_read_mv (Q : Z * Z -> battery -> D -> Prop) b d : (forall d', Q (0, v) b d') -> twp batt_read_mv Q b d.
Proof.
  intros H. unfold batt_read_mv. bstep. apply twp_world. intros r d1 E. pose proof (steady_read d) as A. rewrite E in A. cbn in A.
  rewrite (proj2 (Z.ltb_ge _ _)) by lia. bstep. apply twp_world. intros r2 d2 E2.
  pose proof (steady_code (nth 0 (snd r) 0) d1) as A2. pose proof (steady_value (nth 0 (snd r) 0) d1) as A3. rewrite E2 in A2, A3. cbn in A2, A3.
  rewrite (proj2 (Z.ltb_ge _ _)) by lia. apply twp_ret. rewrite A3. apply H.
Qed.

Lemma trimmed m : m < 10000 ->
  0 + v + v + v - (if (if (if 0 <? m then v else 0) <? m then v else if 0 <? m then v else 0) <? m
    then v else if (if 0 <? m then v else 0) <? m then v else if 0 <? m then v else 0) -
    (if m <? (if m <? (if m <? 10000 then v else 10000) then v else if m <? 10000 then v else 10000)
     then v else if m <? (if m <? 10000 then v else 10000) then v else if m <? 10000 then v else 10000) =
  if 0 <? m then v else 2 * v.
Proof.
  intros H. rewrite (proj2 (Z.ltb_lt m 10000)) by lia.
  destruct (0 <? m) eqn:E; [destruct (v <? m), (m <? v); cbn; repeat case_match; lia|].
  rewrite !E. rewrite (proj2 (Z.ltb_lt m (if m <? v then v else v))) by (zcase; bool2prop; lia). lia.
Qed.

(** Three equal samples: the last value decides what is taken off. *)
Lemma steady_measure (Q : Z -> battery -> D -> Prop) b d :
  s_read_mv b < 10000 ->
  (let mv := actual_mv (if 0 <? s_read_mv b then v else 2 * v) in forall d', Q (percent_formula mv) (set_read_mv mv b) d') ->
  twp my_battery_read_percent Q b d.
Proof.
  intros Hr H. unfold my_battery_read_percent. bstep. unfold my_battery_read_mv. bstep. bstep. bstep.
  change (Z.to_nat BATT_ADC_SAMPLE_NUM) with 3%nat. cbn [sample_loop].
  do 3 (bstep; apply steady_read_mv; intros ?; cbn [negb Z.eqb]; bstep; eapply twp_checked; [apply int32_small; lia|]).
  apply twp_ret. cbn [negb Z.eqb]. bstep. change (BATT_ADC_SAMPLE_NUM - 2) with 1.
  assert (E : 0 + v + v + v - (if (if (if 0 <? s_read_mv b then v else 0) <? s_read_mv b then v else if 0 <? s_read_mv b then v else 0) <? s_read_mv b
    then v else if (if 0 <? s_read_mv b then v else 0) <? s_read_mv b then v else if 0 <? s_read_mv b then v else 0) -
    (if s_read_mv b <? (if s_read_mv b <? (if s_read_mv b <? 10000 then v else 10000) then v else if s_read_mv b <? 10000 then v else 10000)
     then v else if s_read_mv b <? (if s_read_mv b <? 10000 then v else 10000) then v else if s_read_mv b <? 10000 then v else 10000) =
    if 0 <? s_read_mv b then v else 2 * v) by (by apply trimmed).
  rewrite E. clear E. set (x := if 0 <? s_read_mv b then v else 2 * v) in *. assert (Hx : 0 <= x <= 2536) by (unfold x; zcase; lia).
  eapply twp_checked; [apply int32_small; lia|]. bstep. rewrite Z.quot_1_r. unfold CALC_ACTUAL_MV. rewrite int32_small by lia.
  cbn [mbind option_bind]. eapply twp_checked; [reflexivity|]. bstep. bstep. apply twp_ret. bstep. bstep.
  eapply twp_checked; [apply percent_of_mv_formula|]. apply H.
Qed.

(** What is shown, the counter and the jump. *)
Definition shown (b : battery) : Z * Z * Z := (s_show_percent b, s_batt_update_count b, s_jump_percent b).

(** Not charged and measured before. *)
Definition discharging (b : battery) : Prop :=
  g_charg_state b = NO_CHARGING /\ s_batt_first_update b = false /\ 0 < s_read_mv b < 10000.

(** Everything after the measurement. *)
Definition update_tail (p : Z) : batt unit :=
  follow p;; jump p;; modify (fun b => set_batt_state (batt_class (s_show_percent b)) b);; my_battery_event_reporting;; charging_update;;
  c <- config;; (if lprunning_sw (lprunning_config c) =? 1 then do (my_send_msg MOD_MAIN MY_MSG_LPSLEEP_BATTERY_CHECK) else ret tt);;
  ask_ret (my_pm_device_suspend MY_PM_DEV_BATTERY);; ret tt.

Lemma follow_jump_steady p k (Q : unit -> battery -> D -> Prop) b d :
  g_charg_state b = NO_CHARGING -> 0 <= p -> above p (shown b) ->
  (forall b', shown b' = discharge_step p (shown b) -> g_charg_state b' = NO_CHARGING -> s_batt_first_update b' = s_batt_first_update b ->
     s_read_mv b' = s_read_mv b -> s_last_batt_state b' = s_last_batt_state b -> twp k Q b' d) ->
  twp (follow p;; jump p;; k) Q b d.
Proof.
  intros Hn Hp (Hs & Hc & Hj) H. unfold follow, jump. bstep. bstep. bstep. rewrite decide_True by done.
  unfold shown, discharge_step in H. unfold BATT_UPDATE_COUNT in *.
  repeat (bstep; bool2prop; try lazymatch goal with |- twp k _ _ _ => fail 1 end); cbn in *; bool2prop; rewrite ?i8_small in * by lia.
  all: apply H; cbn; try done; repeat (zcase; try lia); by rewrite ?i8_small by lia.
Qed.

Lemma event_reporting_frame (Q : unit -> battery -> D -> Prop) b d :
  (forall x d', Q tt (set_last_batt_state x b) d') -> twp my_battery_event_reporting Q b d.
Proof.
  intros H. unfold my_battery_event_reporting. bstep. bstep. case_decide.
  - apply twp_ret. specialize (H (s_last_batt_state b) d). by destruct b.
  - bstep. apply outward_alarm; [by right|]. intros _ d'. bstep. apply H.
Qed.

Lemma tail_steady p (Q : unit -> battery -> D -> Prop) b d :
  g_charg_state b = NO_CHARGING -> 0 <= p -> above p (shown b) ->
  (forall b' d', shown b' = discharge_step p (shown b) -> g_charg_state b' = NO_CHARGING -> s_batt_first_update b' = s_batt_first_update b ->
     s_read_mv b' = s_read_mv b -> Q tt b' d') ->
  twp (update_tail p) Q b d.
Proof.
  intros Hn Hp Ha H. unfold update_tail. apply follow_jump_steady; [done..|]. intros b1 E1 E2 E3 E4 _. bstep. bstep. bstep.
  apply event_reporting_frame. intros x d1. unfold charging_update. bstep. bstep. bstep. rewrite decide_True by done.
  repeat bstep; by apply H.
Qed.

Lemma actual_mv_bounds x : 1 <= x <= 2536 -> 0 < actual_mv x < 10000.
Proof. intros H. unfold actual_mv. rewrite Z.quot_div_nonneg by lia. Z.to_euclidean_division_equations; lia. Qed.

Lemma update_steady (Q : unit -> battery -> D -> Prop) b d :
  discharging b -> above (percent_formula (actual_mv v)) (shown b) ->
  (forall b' d', discharging b' -> shown b' = discharge_step (percent_formula (actual_mv v)) (shown b) -> Q tt b' d') ->
  twp my_battery_update_state Q b d.
Proof.
  intros (Hn & Hf & Hr) Ha H. unfold my_battery_update_state, restart_timer. bstep. bstep. bstep. rewrite decide_True by done.
  bstep. bstep. bstep. bstep. bstep. cbn [negb]. bstep. apply ask_ret_spec. intros d1.
  rewrite (proj2 (Z.ltb_ge _ _)) by apply steady_resume. bstep. apply steady_measure; [cbn; lia|]. intros mv d2.
  assert (E : mv = actual_mv v) by (unfold mv; cbn; by rewrite (proj2 (Z.ltb_lt _ _)) by lia). rewrite E. clear mv E.
  bstep. bstep. cbn [s_batt_first_update set_read_mv set_batt_disable_flag]. rewrite Hf. bstep. bstep.
  pose proof (actual_mv_bounds v ltac:(lia)) as Hm. apply (tail_steady (percent_formula (actual_mv v))); [done|apply percent_formula_bounds|done|].
  intros b' d' E1 E2 E3 E4. apply H; [|done]. split; [done|]. split; [by rewrite E3|]. rewrite E4. exact Hm.
Qed.

Lemma first_steady (Q : unit -> battery -> D -> Prop) d :
  (forall b' d', discharging b' -> shown b' = (percent_formula (actual_mv (2 * v)), 0, -1) -> Q tt b' d') ->
  twp my_battery_update_state Q battery_start d.
Proof.
  intros H. unfold my_battery_update_state, restart_timer. bstep. bstep. bstep. rewrite decide_True by done.
  bstep. bstep. bstep. bstep. bstep. cbn [negb]. bstep. apply ask_ret_spec. intros d1.
  rewrite (proj2 (Z.ltb_ge _ _)) by apply steady_resume. bstep. apply steady_measure; [cbn; lia|]. intros mv d2.
  change mv with (actual_mv (2 * v)). clear mv. set (mv := actual_mv (2 * v)) in *. bstep. bstep. cbn [s_batt_first_update set_read_mv set_batt_disable_flag battery_start].
  bstep. bstep. bstep. bstep. pose proof (percent_formula_bounds mv) as Hp.
  apply (tail_steady (percent_formula mv)); [done|lia|cbn; lia|].
  intros b' d' E1 E2 E3 E4. apply H; [|].
  - split; [done|]. split; [done|]. rewrite E4. by apply actual_mv_bounds; lia.
  - rewrite E1. cbn. rewrite Z.ltb_irrefl, Z.sub_diag. done.
Qed.

Fixpoint updates (n : nat) : batt unit := match n with O => ret tt | S n => my_battery_update_state;; updates n end.

Lemma updates_steady n (Q : unit -> battery -> D -> Prop) b d :
  let p := percent_formula (actual_mv v) in
  discharging b -> above p (shown b) -> rank p (shown b) <= Z.of_nat n ->
  (forall b' d', s_show_percent b' = p -> Q tt b' d') -> twp (updates n) Q b d.
Proof.
  intros p Hb Ha Hr H. induction n as [|n IH] in b, d, Hb, Ha, Hr |- *; cbn [updates].
  { apply twp_ret, H. apply (rank_zero p (shown b)); [done|lia]. }
  bstep. apply update_steady; [done..|]. intros b' d' Hb' E. pose proof (percent_formula_bounds (actual_mv v)).
  pose proof (discharge_rank p (shown b) ltac:(unfold p; lia) Ha) as [Ha' Hr']. apply IH; [done|by rewrite E|rewrite E; fold p; lia].
Qed.
End steady.

(** C34: with a steady voltage between 1 and 1268 millivolts at the pin of the converter, which can be read, and no charger, the percentage the table gives for that voltage is shown after the start and at most fourteen more measurements, and stays. *)
Theorem steady_voltage_shown {D} `{!BoardIO D} v `{!SteadyVoltage D v} (d : D) n :
  1 <= v <= 1268 -> (15 <= n)%nat ->
  exists b' d', updates n battery_start d = Done (tt, b', d') /\ Some (s_show_percent b') = percent_of_mv (actual_mv v).
Proof.
  intros Hv Hn. destruct n as [|n]; [lia|].
  assert (W : twp (updates (S n)) (fun _ b' _ => s_show_percent b' = percent_formula (actual_mv v)) battery_start d).
  { cbn [updates]. apply twp_bind, (first_steady v Hv). intros b1 d1 Hb1 E1.
    assert (Hle : percent_formula (actual_mv v) <= percent_formula (actual_mv (2 * v))).
    { apply percent_formula_mono. unfold actual_mv. apply Z.quot_le_mono; lia. }
    pose proof (percent_formula_bounds (actual_mv (2 * v))). apply (updates_steady v Hv); [done|rewrite E1; cbn; lia| |done].
    rewrite E1. unfold rank. repeat zcase; lia. }
  apply twp_done in W as ([] & b' & d' & E & Hs). exists b', d'. split; [done|]. by rewrite Hs, percent_of_mv_formula.
Qed.

Section first.
Context {D : Type} `{!BoardIO D} `{!BoardLaws D} (v : Z) `{!SteadyVoltage D v} (c : config_param_t).
Hypothesis Hc : forall d : D, gConfigParam d = c.
Hypothesis Hrpt : 0 < batlevel_full_rpt (batlevel_config c).

Definition full_alarm (now : Z) : board_call :=
  lte_send_command (cstr "ALARM") (fst (snprintf 64 (alarm_text ALARM_BAT_SWITCH now (batlevel_full_rpt (batlevel_config c)) (Some (cstr "5"))))).

Lemma full_reported (Q : unit -> battery -> D -> Prop) b d :
  s_batt_state b = BATT_FULL -> s_last_batt_state b = BATT_UNKNOWN ->
  (forall d', (exists now, full_alarm now ∈ board_log d') -> Q tt (set_last_batt_state BATT_FULL b) d') ->
  twp my_battery_event_reporting Q b d.
Proof.
  intros E1 E2 H. unfold my_battery_event_reporting. bstep. bstep. rewrite E1, E2, decide_False by done. bstep.
  unfold send_alarm_message_to_lte. bstep. bstep. bstep. apply twp_world. intros c' d' [= <- <-]. rewrite Hc.
  change (fst (snprintf 2 (dec (batt_code BATT_FULL)))) with (cstr "5").
  change (alarm_rpt c ALARM_BAT_SWITCH (Some (cstr "5"))) with (Some (batlevel_full_rpt (batlevel_config c))). cbn match.
  rewrite (proj2 (Z.ltb_lt _ _)) by done. bstep. bstep. bstep. apply twp_world. intros [] d1 [= <-].
  unfold my_scan_upload_on_lte_wakeup. apply twp_world. intros [] d2 [= <-]. bstep. apply H. exists a.
  rewrite !law_do_log. apply elem_of_app. left. apply elem_of_app. right. by apply list_elem_of_singleton.
Qed.

Lemma full_alarm_kept (d : D) call : (exists now, full_alarm now ∈ board_log d) -> exists now, full_alarm now ∈ board_log (board_do call d).
Proof. intros [now H]. exists now. rewrite law_do_log. apply elem_of_app. by left. Qed.

Lemma full_alarm_asked (d : D) q : (exists now, full_alarm now ∈ board_log d) -> exists now, full_alarm now ∈ board_log (fst (board_ask q d)).
Proof. by rewrite law_ask_log. Qed.

Lemma tail_full (Q : unit -> battery -> D -> Prop) b d :
  g_charg_state b = NO_CHARGING -> shown b = (100, 0, -1) -> s_last_batt_state b = BATT_UNKNOWN ->
  (forall b' d', s_show_percent b' = 100 -> (exists now, full_alarm now ∈ board_log d') -> Q tt b' d') ->
  twp (update_tail 100) Q b d.
Proof.
  intros Hn Hs Hl H. unfold update_tail. apply follow_jump_steady; [done|lia|rewrite Hs; cbn; lia|]. intros b1 E1 E2 E3 E4 E5.
  rewrite Hs in E1. change (discharge_step 100 (100, 0, -1)) with (100, 0, -1) in E1. injection E1 as E1 _ _. bstep. bstep. bstep.
  apply full_reported; [cbn; by rewrite E1|cbn; by rewrite E5|]. intros d1 A. unfold charging_update. bstep. bstep. bstep. rewrite decide_True by done.
  bstep. bstep. apply twp_world. intros c' d2 [= <- <-]. rewrite Hc. bstep.
  assert (Hend : forall d2, (exists now, full_alarm now ∈ board_log d2) ->
    twp (ask_ret (my_pm_device_suspend MY_PM_DEV_BATTERY);; ret tt) Q (set_last_batt_state BATT_FULL (set_batt_state (batt_class (s_show_percent b1)) b1)) d2).
  { intros d2 A2. bstep. apply twp_world. intros r d3 E. pose proof (full_alarm_asked d2 (my_pm_device_suspend MY_PM_DEV_BATTERY) A2) as A3.
    destruct (board_ask _ d2) as [d4 r4]. injection E as <- _. apply twp_ret, H; [done|exact A3]. }
  bstep; [apply twp_world; intros [] d2 [= <-]; by apply Hend, full_alarm_kept|apply twp_ret; by apply Hend].
Qed.
End first.

(** A defect: the first measurement after start compares with the variable it is going to set, which is zero, so the two last samples are added instead of the middle one being taken.  Whatever the voltage of the battery, from an empty one on, 100 percent are shown first, and a full battery is reported. *)
Theorem first_measurement_full {D} `{!BoardIO D} `{!BoardLaws D} v `{!SteadyVoltage D v} c (d : D) :
  (forall d : D, gConfigParam d = c) -> 0 < batlevel_full_rpt (batlevel_config c) -> 762 <= v <= 1268 ->
  exists b' d' now, my_battery_update_state battery_start d = Done (tt, b', d') /\ s_show_percent b' = 100 /\ full_alarm c now ∈ board_log d'.
Proof.
  intros Hc Hr Hv.
  assert (W : twp my_battery_update_state (fun _ b' d' => s_show_percent b' = 100 /\ exists now, full_alarm c now ∈ board_log d') battery_start d).
  { unfold my_battery_update_state, restart_timer. bstep. bstep. bstep. rewrite decide_True by done.
    bstep. bstep. bstep. bstep. bstep. cbn [negb]. bstep. apply ask_ret_spec. intros d1.
    rewrite (proj2 (Z.ltb_ge _ _)) by apply steady_resume. bstep. apply (steady_measure v); [lia|cbn; lia|]. intros mv d2.
    assert (E : percent_formula mv = 100).
    { change mv with (actual_mv (2 * v)). unfold actual_mv. rewrite Z.quot_div_nonneg by lia. unfold percent_formula.
      assert (4200 < 2 * v * 2680 / 680) by (Z.to_euclidean_division_equations; lia). repeat (zcase; try lia). }
    rewrite E. bstep. bstep. cbn [s_batt_first_update set_read_mv set_batt_disable_flag battery_start]. bstep. bstep. bstep. bstep.
    apply (tail_full c Hc Hr); [done..|]. intros b' d' E1 E2. by split. }
  apply twp_done in W as ([] & b' & d' & E & Hs & now & A). by exists b', d', now.
Qed.
