(* ===== verification/Ctrl.v ===== *)
(** * The control thread ([my_ctrl.c])

    Key, light sensors, buzzer, pressure, temperature and humidity: interrupts
    and timers turn into messages, measurements into samples for the BLE thread,
    alarms and answers to commands.  The battery module runs in the same thread
    and is part of the state. *)

From Stdlib Require Import SpecFloat.
From S2P Require Import Prelude Str Float32 Prog SettingsData Settings Board Battery.

Open Scope prog_scope.

Definition i16 (z : Z) : Z := (z + 32768) mod 65536 - 32768.

Definition KEY_POLL_PERIOD_MS : Z := 50.
Definition KEY_LONG_PRESS_COUNT : Z := 3000 / KEY_POLL_PERIOD_MS.
Definition EINVAL : Z := 22.

Inductive my_alarm_type_t := LOW_PATM_TEMP_ALARM | NORMAL_PATM_TEMP_ALARM | HIGH_PATM_TEMP_ALARM.
#[export] Instance alarm_level_eq_dec : EqDecision my_alarm_type_t. Proof. solve_decision. Defined.

Inductive my_buzzer_mode_t := BUZZER_STOP | BUZZER_CONTINUOUS_ALARM | BUZZER_FAIL_TONE | BUZZER_ERROR_TONE | BUZZER_GENERAL_ALARM.
Definition buzzer_mode_of (z : Z) : option my_buzzer_mode_t :=
  if z =? 0 then Some BUZZER_STOP else if z =? 1 then Some BUZZER_CONTINUOUS_ALARM else if z =? 2 then Some BUZZER_FAIL_TONE
  else if z =? 3 then Some BUZZER_ERROR_TONE else if z =? 4 then Some BUZZER_GENERAL_ALARM else None.

Record buzzer_ctrl_t := mk_buzzer_ctrl { tick : Z; on_time : Z; off_time : Z; repeat_left : Z; sounding : bool }.
Record my_buzzer_note := mk_note { freq_hz : Z; duration_ms : Z }.

(** [fs_temp_humi_record_t] and [fs_barometer_record_t]. *)
Record th_sample := mk_th_sample { th_timestamp : Z; temperature_x10 : Z; humidity_x10 : Z }.
Record bp_sample := mk_bp_sample { bp_timestamp : Z; pressure_pa : Z }.

(** The alarm state of a quantity and the time of its last alarm. *)
Record alarm_level := mk_level { level_state : my_alarm_type_t; level_last : Z }.

Record ctrl := mk_ctrl {
  key_pressed : bool;
  press_count : Z;
  light_tamper : bool;
  light_pull : bool;
  s_buzzer_ctrl : buzzer_ctrl_t;
  g_temp_humi_sample : th_sample;
  g_barometer_sample : bp_sample;
  s_barometer_alarm : alarm_level;
  s_temp_alarm : alarm_level;
  s_humi_alarm : alarm_level;
  s_sensor_power_state : bool;
  ctrl_battery : battery
}.

Definition set_key_pressed (x : bool) (s : ctrl) : ctrl := mk_ctrl x (press_count s) (light_tamper s) (light_pull s) (s_buzzer_ctrl s) (g_temp_humi_sample s) (g_barometer_sample s) (s_barometer_alarm s) (s_temp_alarm s) (s_humi_alarm s) (s_sensor_power_state s) (ctrl_battery s).
Definition set_press_count (x : Z) (s : ctrl) : ctrl := mk_ctrl (key_pressed s) x (light_tamper s) (light_pull s) (s_buzzer_ctrl s) (g_temp_humi_sample s) (g_barometer_sample s) (s_barometer_alarm s) (s_temp_alarm s) (s_humi_alarm s) (s_sensor_power_state s) (ctrl_battery s).
Definition set_light_tamper (x : bool) (s : ctrl) : ctrl := mk_ctrl (key_pressed s) (press_count s) x (light_pull s) (s_buzzer_ctrl s) (g_temp_humi_sample s) (g_barometer_sample s) (s_barometer_alarm s) (s_temp_alarm s) (s_humi_alarm s) (s_sensor_power_state s) (ctrl_battery s).
Definition set_light_pull (x : bool) (s : ctrl) : ctrl := mk_ctrl (key_pressed s) (press_count s) (light_tamper s) x (s_buzzer_ctrl s) (g_temp_humi_sample s) (g_barometer_sample s) (s_barometer_alarm s) (s_temp_alarm s) (s_humi_alarm s) (s_sensor_power_state s) (ctrl_battery s).
Definition set_buzzer_ctrl (x : buzzer_ctrl_t) (s : ctrl) : ctrl := mk_ctrl (key_pressed s) (press_count s) (light_tamper s) (light_pull s) x (g_temp_humi_sample s) (g_barometer_sample s) (s_barometer_alarm s) (s_temp_alarm s) (s_humi_alarm s) (s_sensor_power_state s) (ctrl_battery s).
Definition set_temp_humi_sample (x : th_sample) (s : ctrl) : ctrl := mk_ctrl (key_pressed s) (press_count s) (light_tamper s) (light_pull s) (s_buzzer_ctrl s) x (g_barometer_sample s) (s_barometer_alarm s) (s_temp_alarm s) (s_humi_alarm s) (s_sensor_power_state s) (ctrl_battery s).
Definition set_barometer_sample (x : bp_sample) (s : ctrl) : ctrl := mk_ctrl (key_pressed s) (press_count s) (light_tamper s) (light_pull s) (s_buzzer_ctrl s) (g_temp_humi_sample s) x (s_barometer_alarm s) (s_temp_alarm s) (s_humi_alarm s) (s_sensor_power_state s) (ctrl_battery s).
Definition set_barometer_alarm (x : alarm_level) (s : ctrl) : ctrl := mk_ctrl (key_pressed s) (press_count s) (light_tamper s) (light_pull s) (s_buzzer_ctrl s) (g_temp_humi_sample s) (g_barometer_sample s) x (s_temp_alarm s) (s_humi_alarm s) (s_sensor_power_state s) (ctrl_battery s).
Definition set_temp_alarm (x : alarm_level) (s : ctrl) : ctrl := mk_ctrl (key_pressed s) (press_count s) (light_tamper s) (light_pull s) (s_buzzer_ctrl s) (g_temp_humi_sample s) (g_barometer_sample s) (s_barometer_alarm s) x (s_humi_alarm s) (s_sensor_power_state s) (ctrl_battery s).
Definition set_humi_alarm (x : alarm_level) (s : ctrl) : ctrl := mk_ctrl (key_pressed s) (press_count s) (light_tamper s) (light_pull s) (s_buzzer_ctrl s) (g_temp_humi_sample s) (g_barometer_sample s) (s_barometer_alarm s) (s_temp_alarm s) x (s_sensor_power_state s) (ctrl_battery s).
Definition set_sensor_power_state (x : bool) (s : ctrl) : ctrl := mk_ctrl (key_pressed s) (press_count s) (light_tamper s) (light_pull s) (s_buzzer_ctrl s) (g_temp_humi_sample s) (g_barometer_sample s) (s_barometer_alarm s) (s_temp_alarm s) (s_humi_alarm s) x (ctrl_battery s).
Definition set_ctrl_battery (x : battery) (s : ctrl) : ctrl := mk_ctrl (key_pressed s) (press_count s) (light_tamper s) (light_pull s) (s_buzzer_ctrl s) (g_temp_humi_sample s) (g_barometer_sample s) (s_barometer_alarm s) (s_temp_alarm s) (s_humi_alarm s) (s_sensor_power_state s) x.

Definition ctrl_start : ctrl :=
  let normal := mk_level NORMAL_PATM_TEMP_ALARM 0 in
  mk_ctrl false 0 false false (mk_buzzer_ctrl 0 0 0 0 false) (mk_th_sample 0 0 0) (mk_bp_sample 0 0) normal normal normal false battery_start.

(** ** Thresholds *)

Definition NO_THRESHOLD : Z := 255.

(** Whether an alarm may be repeated: in the modes that keep the LTE module
    online, after the interval of the settings. *)
Definition may_repeat (c : config_param_t) (interval diff : Z) : bool :=
  let mode := current_mode (device_workmode_config c) in
  ((mode =? MY_MODE_CONTINUOUS) || (mode =? MY_MODE_ALWAYS_ONLINE)) && (interval * 60 <=? diff) && negb (interval =? 0).

(** [threshold * scale], a product of [int]s that must not overflow, is only
    computed for a threshold that is set. *)
Definition beyond (threshold scale : Z) (cmp : Z -> bool) : option bool :=
  if threshold =? NO_THRESHOLD then Some false else limit ← int32 (threshold * scale); Some (cmp limit).

(** The state of a quantity after a measurement, and the alarm to send.  The
    thresholds are in units of [scale]. *)
Definition level_check (c : config_param_t) (low high scale interval : Z) (alarm_low alarm_high : alarm_type_t) (val timestamp : Z) (l : alarm_level)
    : option (alarm_level * option alarm_type_t) :=
  let timestamp_diff := u32 (timestamp - level_last l) in
  let state := if may_repeat c interval timestamp_diff then NORMAL_PATM_TEMP_ALARM else level_state l in
  match beyond low scale (fun limit => val <? limit) with
  | None => None
  | Some true =>
      if decide (state = LOW_PATM_TEMP_ALARM) then Some (mk_level state (level_last l), None)
      else Some (mk_level LOW_PATM_TEMP_ALARM timestamp, Some alarm_low)
  | Some false =>
      match beyond high scale (fun limit => limit <? val) with
      | None => None
      | Some true =>
          if decide (state = HIGH_PATM_TEMP_ALARM) then Some (mk_level state (level_last l), None)
          else Some (mk_level HIGH_PATM_TEMP_ALARM timestamp, Some alarm_high)
      | Some false => Some (mk_level NORMAL_PATM_TEMP_ALARM (level_last l), None)
      end
  end.

Definition normal_level (l : alarm_level) : alarm_level := mk_level NORMAL_PATM_TEMP_ALARM (level_last l).

Section ctrl.
Context {D : Type} `{!BoardIO D}.
Notation task := (prog ctrl D).

Definition in_battery {A} : prog battery D A -> task A := zoom ctrl_battery set_ctrl_battery.

Definition send_alarm (o : option alarm_type_t) : task unit :=
  match o with Some a => send_alarm_message_to_lte a None | None => ret tt end.

Definition sensor_barometer_alarm_check (pressure timestamp : Z) : task unit :=
  c <- config;;
  let p := patalm_config c in
  l <- get s_barometer_alarm;;
  if patalm_sw p =? 1 then
    r <- checked (level_check c (patalm_low_threshold p) (patalm_high_threshold p) 1000 (patalm_report_interval p)
                    ALARM_LOW_PATM ALARM_HIGH_PATM pressure timestamp l);;
    modify (set_barometer_alarm (fst r));;
    send_alarm (snd r)
  else modify (set_barometer_alarm (normal_level l)).

Definition sensor_temp_humi_alarm_check (temp_humi timestamp : Z) : task unit :=
  let temp_val := i16 (Z.land temp_humi 65535) in
  let humi_val := i16 (Z.shiftr temp_humi 16) in
  c <- config;;
  let p := tempalm_config c in
  s <- get id;;
  if tempalm_sw p =? 1 then
    t <- checked (level_check c (temp_low_threshold p) (temp_high_threshold p) 10 (tempalm_report_interval p)
                    ALARM_LOW_TEMP ALARM_HIGH_TEMP temp_val timestamp (s_temp_alarm s));;
    modify (set_temp_alarm (fst t));;
    send_alarm (snd t);;
    h <- checked (level_check c (humi_low_threshold p) (humi_high_threshold p) 10 (tempalm_report_interval p)
                    ALARM_LOW_HUMI ALARM_HIGH_HUMI humi_val timestamp (s_humi_alarm s));;
    modify (set_humi_alarm (fst h));;
    send_alarm (snd h)
  else modify (fun s => set_temp_alarm (normal_level (s_temp_alarm s)) (set_humi_alarm (normal_level (s_humi_alarm s)) s)).

(** ** Measuring *)

Definition patm_upload_timer_handler : task unit := do (my_send_msg MOD_CTRL MY_MSG_CTRL_PATM_TIMER).
Definition temp_upload_timer_handler : task unit := do (my_send_msg MOD_CTRL MY_MSG_CTRL_TEMP_TIMER).

Definition sensor_timer_reload (t : MY_E_TIMER) (interval_min : Z) : task unit :=
  do (my_stop_timer t);;
  if interval_min =? 0 then ret tt else do (my_start_timer t (u32 (interval_min * 60 * 1000)) true).

Definition sensor_patm_timer_reload : task unit :=
  c <- config;; sensor_timer_reload MY_TIMER_PATM_UPLOAD (patm_interval_min (patm_timer_config c)).
Definition sensor_temp_timer_reload : task unit :=
  c <- config;; sensor_timer_reload MY_TIMER_TEMP_UPLOAD (temp_interval_min (temp_timer_config c)).

(** The pressure in pascal, or -1. *)
Definition sensor_collect_barometer : task Z :=
  r <- ask_ret barometer_set_work_mode;;
  if negb (r =? 0) then ret (-1) else
  r <- ask barometer_read;;
  if negb (fst r =? 0) then ret (-1) else
  now <- ask_ret my_get_system_time_sec;;
  let record := mk_bp_sample (u32 now) (u32 (nth 0 (snd r) 0)) in
  modify (set_barometer_sample record);;
  do (my_send_msg MOD_BLE MY_MSG_BLE_SENSOR_BP_SAMPLE);;
  sensor_barometer_alarm_check (i32 (pressure_pa record)) (bp_timestamp record);;
  ret (i32 (pressure_pa record)).

(** Humidity in the upper and temperature in the lower sixteen bits, or -1. *)
Definition sensor_collect_temp_humi : task Z :=
  r <- ask temp_humi_api_read;;
  if negb (fst r =? 0) then ret (-1) else
  now <- ask_ret my_get_system_time_sec;;
  let record := mk_th_sample (u32 now) (i16 (Z.quot (nth 0 (snd r) 0) 10)) (u16 (Z.quot (nth 1 (snd r) 0) 10)) in
  modify (set_temp_humi_sample record);;
  do (my_send_msg MOD_BLE MY_MSG_BLE_SENSOR_TH_SAMPLE);;
  let word := i32 (Z.lor (Z.shiftl (humidity_x10 record) 16) (Z.land (temperature_x10 record) 65535)) in
  sensor_temp_humi_alarm_check word (th_timestamp record);;
  ret word.

(** ** Answers *)

Definition send_lte_msg (s : list Z) : task unit :=
  ok <- ask_ret (k_malloc (zlen s + 1));;
  if ok =? 0 then ret tt else do (my_send_msg_data MOD_LTE MY_MSG_LTE_BLE_DATA s).

(** [send_ble_msg] of [my_lte.c]. *)
Definition send_ble_msg (s : list Z) : task unit :=
  ok <- ask_ret (k_malloc (zlen s + 1));;
  if ok =? 0 then ret tt else do (my_send_msg_data MOD_BLE MY_MSG_BLE_TX s).

Definition id_text : task (list Z) := r <- ask g_id;; ret (snd r).

(** To the LTE module if the command came from there, to the phone otherwise. *)
Definition answer (size : Z) (text : list Z) : task unit :=
  src <- ask_ret g_lte_cmdSource;;
  if negb (src =? 0) then
    do clear_lte_cmdSource;;
    id <- id_text;;
    send_lte_msg (fst (snprintf size (cstr "OK," ++ id ++ cstr "," ++ text)))
  else send_ble_msg (fst (snprintf size text)).

(** The answer when there is no measurement; the text to the phone differs. *)
Definition answer_no_data (size : Z) (factory_text : list Z) : task unit :=
  factory <- ask_ret get_lte_factory;;
  if factory =? 0 then send_lte_msg (fst (snprintf size factory_text)) else
  src <- ask_ret g_lte_cmdSource;;
  if negb (src =? 0) then
    do clear_lte_cmdSource;;
    id <- id_text;;
    send_lte_msg (fst (snprintf size (cstr "OK," ++ id ++ cstr ",NO DATA")))
  else send_ble_msg (cstr "NO Data!").

Definition sensor_patm_read : task unit :=
  p <- sensor_collect_barometer;;
  let p := of_int p in
  if flt p (S754_zero false) then answer_no_data 60 (cstr "RETURN_MCU_PATM: NO DATA") else
  let kpa := fmt_fixed 2 (fdiv p (lit 1000 1)) in
  factory <- ask_ret get_lte_factory;;
  if negb (factory =? 0) then send_lte_msg (fst (snprintf 60 (cstr "RETURN_MCU_PATM:" ++ kpa))) else
  answer 60 (cstr "Atmospheric Pressure " ++ kpa ++ cstr " Kpa").

(** [(temp_humi & 0xFFFF) * 0.1f] and [(temp_humi >> 16) * 0.1f]. *)
Definition temp_text (w : Z) : list Z := fmt_fixed 1 (fmul (of_int (Z.land w 65535)) (lit 1 10)).
Definition humi_text (w : Z) : list Z := fmt_fixed 1 (fmul (of_int (Z.shiftr w 16)) (lit 1 10)).

Definition sensor_temp_read : task unit :=
  w <- sensor_collect_temp_humi;;
  if w <? 0 then answer_no_data 100 (cstr "RETURN_MCU_TEMP:TEMP= NO DATA") else
  factory <- ask_ret get_lte_factory;;
  if negb (factory =? 0) then send_lte_msg (fst (snprintf 100 (cstr "RETURN_MCU_TEMP:TEMP=" ++ temp_text w ++ cstr ",HUMI=" ++ humi_text w))) else
  answer 100 (cstr "Temperature: " ++ temp_text w ++ cstr " degrees Celsius,Humidity: " ++ humi_text w ++ cstr " %").

Definition net_signal_text (v : Z) : list Z :=
  if v =? 0 then cstr "NA" else if (v =? 1) || (v =? 2) then cstr "Weak" else if v =? 3 then cstr "Normal" else if v =? 4 then cstr "Strong" else cstr "Unknown".
Definition gnss_text (v : Z) : list Z :=
  if v =? 0 then cstr "OFF" else if v =? 1 then cstr "Searching" else if v =? 2 then cstr "Fix" else cstr "Unknown".
Definition motion_text (v : Z) : list Z := if v =? 1 then cstr "Static" else if v =? 2 then cstr "Motion" else cstr "Unknown".

Definition device_status_read : task unit :=
  w <- sensor_collect_temp_humi;;
  p <- sensor_collect_barometer;;
  let temperature_str := fst (snprintf 30 (if w <? 0 then cstr "-" else temp_text w ++ cstr "(degrees Celsius)")) in
  let humidity_str := fst (snprintf 30 (if w <? 0 then cstr "-" else humi_text w ++ cstr "%(%RH)")) in
  let pressure_str := fst (snprintf 30 (if p <? 0 then cstr "-" else fmt_fixed 2 (fdiv (of_int p) (lit 1000 1)) ++ cstr "(kPa)")) in
  net <- ask_ret g_lte_net_signal_level;;
  gps <- ask_ret g_lte_gps_state;;
  motion <- ask_ret my_gsensor_get_state;;
  flag <- ask_ret g_lte_net_flag;;
  signal <- ask g_lte_gps_signal;;
  speed <- ask_ret g_location_speed;;
  s <- get id;;
  let b := ctrl_battery s in
  answer 256 (cstr "Battery:" ++ dec (s_show_percent b) ++ cstr "%(" ++
    (if decide (g_charg_state b = NO_CHARGING) then cstr "Discharging" else cstr "Charging") ++ cstr ");Network:" ++
    (if flag =? 0 then cstr "Disconnect" else cstr "Connect") ++ cstr "(" ++ net_signal_text net ++ cstr ");GNSS:" ++ gnss_text gps ++ cstr "(" ++
    snd signal ++ cstr ");Tamper:" ++ (if light_tamper s then cstr "Remove" else cstr "Normal") ++ cstr ";Pull:" ++
    (if light_pull s then cstr "Remove" else cstr "Normal") ++ cstr ";Motion:" ++ motion_text motion ++ cstr "(" ++
    fmt_fixed 2 (f32_of_bits speed) ++ cstr " KM/h);Temperature:" ++ temperature_str ++ cstr ";Humidity:" ++ humidity_str ++
    cstr ";Pressure:" ++ pressure_str).

(** ** Power of the sensors *)

Definition my_sensor_pwr_on (on : bool) : task Z :=
  st <- get s_sensor_power_state;;
  if Bool.eqb st on then ret 0 else
  err <- ask_ret (gpio_pin_set_dt env_sensor_pwr_gpio (if on then 1 else 0));;
  if err =? 0 then modify (set_sensor_power_state on);; ret err else ret err.

(** Ports and pins by number: 2 the power of the sensors, 3 its pin. *)
Definition sensor_module_init : task unit :=
  r <- ask_ret (hw_setup (device_ready 2));;
  if r =? 0 then ret tt else
  r <- ask_ret (hw_setup (device_ready 3));;
  if r =? 0 then ret tt else
  ask_ret (hw_setup (pin_configure 2));;
  my_sensor_pwr_on true;;
  ask_ret (hw_setup barometer_init);;
  ask_ret (hw_setup temp_humi_api_init);;
  sensor_patm_timer_reload;;
  sensor_temp_timer_reload.

(** ** The key *)

Definition key_timer_init : task unit := modify (fun s => set_key_pressed false (set_press_count 0 s)).

Definition send_key_event (m : MY_MAIN_TASK_MSG) : task unit := do (my_send_msg MOD_MAIN m).

(** One poll that reads [level]. *)
Definition key_poll (level : Z) : task unit :=
  s <- get id;;
  if level =? 1 then
    modify (fun s => set_key_pressed true (set_press_count (u32 ((if key_pressed s then press_count s else 0) + 1)) s))
  else if key_pressed s then
    modify (set_key_pressed false);;
    do (k_timer_stop key_timer);;
    (if (press_count s <? KEY_LONG_PRESS_COUNT) && (2 <=? press_count s) then send_key_event MY_MSG_CTRL_KEY_SHORT_PRESS
     else if KEY_LONG_PRESS_COUNT <=? press_count s then send_key_event MY_MSG_CTRL_KEY_LONG_PRESS
     else ret tt);;
    modify (set_press_count 0)
  else ret tt.

Definition key_timer_handler : task unit := level <- ask_ret (gpio_pin_get fun_key);; key_poll level.

(** ** Light *)

(** A light sensor: its pin, its timer, its state and its two messages. *)
Record light := mk_light { light_pin : input_pin; light_timer : k_timer; light_state : ctrl -> bool; put_light : bool -> ctrl -> ctrl;
  bright : MY_MAIN_TASK_MSG; dark : MY_MAIN_TASK_MSG }.
Definition tamper : light :=
  mk_light light_tamper_det light_tamper_timer light_tamper set_light_tamper MY_MSG_CTRL_LIGHT_TAMPER_SENSOR_BRIGHT MY_MSG_CTRL_LIGHT_TAMPER_SENSOR_DARK.
Definition pull : light :=
  mk_light light_pull_det light_pull_timer light_pull set_light_pull MY_MSG_CTRL_LIGHT_PULL_SENSOR_BRIGHT MY_MSG_CTRL_LIGHT_PULL_SENSOR_DARK.

Definition light_sensor_timer_handler (l : light) : task unit :=
  level <- ask_ret (gpio_pin_get (light_pin l));;
  let new_state := level =? 1 in
  st <- get (light_state l);;
  if Bool.eqb new_state st then ret tt else
  modify (put_light l new_state);;
  do (my_send_msg MOD_CTRL (if new_state then bright l else dark l)).

Definition light_sensor_edge_handler (l : light) : task unit :=
  level <- ask_ret (gpio_pin_get (light_pin l));;
  c <- config;;
  st <- get (light_state l);;
  if Bool.eqb (level =? 1) st then do (k_timer_stop (light_timer l))
  else do (k_timer_start (light_timer l) (if st then T2 (ltint_config c) else T1 (ltint_config c)) 0).

Definition light_tamper_sensor_timer_handler : task unit := light_sensor_timer_handler tamper.
Definition light_pull_sensor_timer_handler : task unit := light_sensor_timer_handler pull.
Definition light_tamper_sensor_edge_handler : task unit := light_sensor_edge_handler tamper.
Definition light_pull_sensor_edge_handler : task unit := light_sensor_edge_handler pull.

(** Which of the three pins caused the interrupt. *)
Definition misc_io_isr (key tamper_pin pull_pin : bool) : task unit :=
  (if key then
     remaining <- ask_ret (k_timer_remaining_get key_timer);;
     if remaining =? 0 then do (k_timer_start key_timer KEY_POLL_PERIOD_MS KEY_POLL_PERIOD_MS) else ret tt
   else ret tt);;
  (if tamper_pin then light_tamper_sensor_edge_handler else ret tt);;
  (if pull_pin then light_pull_sensor_edge_handler else ret tt).

(** ** The buzzer *)

Definition ctrl_pwm_pm_init : task Z := ready <- ask_ret (hw_setup pwm_is_ready);; ret (if ready =? 0 then - ENODEV else 0).
Definition my_ctrl_pwm_pm_register : task Z := ask_ret (hw_setup (pm_register MY_PM_DEV_PWM)).
Definition my_ctrl_stop_buzzer : task unit := do (pwm_set_pulse 0).
Definition my_ctrl_start_buzzer : task unit := do (pwm_set_pulse 250000).

Definition my_ctrl_buzzer_play_tone (freq duration : Z) : task Z :=
  let rest := (if 0 <? duration then do (k_msleep duration);; my_ctrl_stop_buzzer else ret tt);; ret 0 in
  if freq =? 0 then my_ctrl_stop_buzzer;; rest else
  let period := u32 (1000000000 / freq) in
  err <- ask_ret (pwm_set period (period / 2));;
  if negb (err =? 0) then ret err else rest.

Fixpoint play_notes (notes : list my_buzzer_note) : task unit :=
  match notes with
  | [] => ret tt
  | n :: notes => my_ctrl_buzzer_play_tone (freq_hz n) (duration_ms n);; do (k_msleep 10);; play_notes notes
  end.
Definition my_ctrl_buzzer_play_sequence (notes : list my_buzzer_note) : task Z :=
  if zlen notes =? 0 then ret (- EINVAL) else play_notes notes;; ret 0.

Definition my_set_buzzer_mode (mode : Z) : task unit :=
  ok <- ask_ret (k_malloc 4);;
  if ok =? 0 then ret tt else do (my_send_msg_data MOD_CTRL MY_MSG_CTRL_BUZZER_MODE [mode]).

Definition g_buzzer_ctrl_config (on off times : Z) : task unit := modify (set_buzzer_ctrl (mk_buzzer_ctrl 0 on off times true)).

(** A mode that is not one of the enumeration starts the pattern set before. *)
Definition my_buzzer_play (mode : option my_buzzer_mode_t) : task unit :=
  let start := do (my_send_msg MOD_CTRL MY_MSG_CTRL_BUZZER_ON);; do (k_timer_stop s_buzzer_timer);; do (k_timer_start s_buzzer_timer 100 100) in
  match mode with
  | None => start
  | Some BUZZER_STOP => do (k_timer_stop s_buzzer_timer);; do (my_send_msg MOD_CTRL MY_MSG_CTRL_BUZZER_OFF)
  | Some BUZZER_CONTINUOUS_ALARM => g_buzzer_ctrl_config 2 5 0;; start
  | Some BUZZER_FAIL_TONE => g_buzzer_ctrl_config 2 2 3;; start
  | Some BUZZER_ERROR_TONE => g_buzzer_ctrl_config 1 1 5;; start
  | Some BUZZER_GENERAL_ALARM => g_buzzer_ctrl_config 2 3 60;; start
  end.

Definition buzzer_timer_handler : task unit :=
  s <- get id;;
  let b := s_buzzer_ctrl s in
  let t := tick b + 1 in
  if sounding b then
    if on_time b <=? t then
      do (my_send_msg MOD_CTRL MY_MSG_CTRL_BUZZER_OFF);;
      (if 0 <? repeat_left b then
         modify (set_buzzer_ctrl (mk_buzzer_ctrl 0 (on_time b) (off_time b) (repeat_left b - 1) false));;
         if repeat_left b - 1 =? 0 then do (k_timer_stop s_buzzer_timer) else ret tt
       else modify (set_buzzer_ctrl (mk_buzzer_ctrl 0 (on_time b) (off_time b) (repeat_left b) false)))
    else modify (set_buzzer_ctrl (mk_buzzer_ctrl t (on_time b) (off_time b) (repeat_left b) true))
  else
    if off_time b <=? t then
      do (my_send_msg MOD_CTRL MY_MSG_CTRL_BUZZER_ON);;
      modify (set_buzzer_ctrl (mk_buzzer_ctrl 0 (on_time b) (off_time b) (repeat_left b) true))
    else modify (set_buzzer_ctrl (mk_buzzer_ctrl t (on_time b) (off_time b) (repeat_left b) false)).

(** ** The thread *)

(** Ports and pins by number: 4 the LEDs. *)
Definition leds_init : task Z :=
  r <- ask_ret (hw_setup (device_ready 4));;
  if r =? 0 then ret (- ENODEV) else
  r <- ask_ret (hw_setup (pin_configure 4));;
  if negb (r =? 0) then ret r else
  r <- ask_ret (hw_setup (pin_configure 5));;
  if negb (r =? 0) then ret r else
  r <- ask_ret (hw_setup (pin_configure 6));;
  ret r.

(** What the thread does before its loop. *)
Definition my_ctrl_task_start : task unit :=
  c <- config;;
  do (my_send_msg MOD_CTRL (if led_display (led_config c) =? 2 then MY_MSG_LED_ENABLE else MY_MSG_LED_DISABLE));;
  do (k_msleep 100).

(** One message of the loop; [data] is the block it carries. *)
Definition my_ctrl_task_handle (m : MY_MAIN_TASK_MSG) (data : list Z) : task unit :=
  match m with
  | MY_MSG_SHOW_CHARG => in_battery my_battery_show_chgled
  | MY_MSG_UPDATE_BATTERY => in_battery my_battery_update_state
  | MY_MSG_CTRL_BUZZER_MODE =>
      match data with
      | mode :: _ => my_buzzer_play (buzzer_mode_of mode)
      | [] => ret tt
      end
  | MY_MSG_CTRL_BUZZER_ON =>
      r <- ask_ret (my_pm_device_resume MY_PM_DEV_PWM);;
      if r <? 0 then ret tt else my_ctrl_start_buzzer
  | MY_MSG_CTRL_BUZZER_OFF => my_ctrl_stop_buzzer;; ask_ret (my_pm_device_suspend MY_PM_DEV_PWM);; ret tt
  | MY_MSG_CTRL_LIGHT_TAMPER_SENSOR_BRIGHT =>
      c <- config;;
      if remalm_sw (remalm_config c) =? 0 then ret tt else send_alarm_message_to_lte ALARM_CASE_OPEN None
  | MY_MSG_CTRL_LIGHT_PULL_SENSOR_BRIGHT =>
      c <- config;;
      if pullalm_sw (pullalm_config c) =? 0 then ret tt else send_alarm_message_to_lte ALARM_REMOVE None
  | MY_MSG_CTRL_PATM_TIMER => sensor_collect_barometer;; ret tt
  | MY_MSG_CTRL_TEMP_TIMER => sensor_collect_temp_humi;; ret tt
  | MY_MSG_CTRL_PATM_RELOAD => sensor_patm_timer_reload
  | MY_MSG_CTRL_TEMP_RELOAD => sensor_temp_timer_reload
  | MY_MSG_CTRL_PATM_READ => sensor_patm_read
  | MY_MSG_CTRL_TEMP_READ => sensor_temp_read
  | MY_MSG_CTRL_STATUS_READ => device_status_read
  | MY_MSG_LED_CTRL_MODE => in_battery my_led_ctrl_mode
  | MY_MSG_LED_ENABLE =>
      c <- config;;
      (if led_display (led_config c) =? 2 then do (my_stop_timer MY_TIMER_LED_ENABLE) else ret tt);;
      in_battery (led_enable true);;
      batt_led_set_level 0;;
      do (my_send_msg MOD_CTRL MY_MSG_LED_CTRL_MODE)
  | MY_MSG_LED_DISABLE =>
      do (my_stop_timer MY_TIMER_LED_BLINK);;
      in_battery (led_enable false);;
      batt_led_set_level 0
  | _ => ret tt
  end.
End ctrl.
