(* ===== verification/CtrlProofs.v ===== *)
(** * The control thread: key, buzzer, alarms

    Presses of the key become exactly the right messages, the buzzer sounds
    exactly its pattern, alarms of a quantity that stays beyond a threshold are
    limited in number, and no event leaves the thread stuck. *)

From S2P Require Import Prelude Str Float32 Prog SettingsData Settings Board Battery BatteryProofs Ctrl.

Open Scope prog_scope.

(** ** The key *)

(** A press seen by [n] polls, followed by at least one poll that finds the key released. *)
Definition press_levels (p : nat * nat) : list Z := repeat 1 (fst p) ++ repeat 0 (S (snd p)).

(** The messages of a press that lasts [n] polls of 50 milliseconds. *)
Definition press_calls (n : Z) : list board_call :=
  k_timer_stop key_timer ::
  if n <? 2 then [] else [my_send_msg MOD_MAIN (if n <? 60 then MY_MSG_CTRL_KEY_SHORT_PRESS else MY_MSG_CTRL_KEY_LONG_PRESS)].

Section key.
Context {D : Type} `{!BoardIO D}.
Notation task := (prog ctrl D).

Fixpoint polls (levels : list Z) : task unit :=
  match levels with [] => ret tt | l :: levels => key_poll l;; polls levels end.

Lemma polls_app a b s d : polls (a ++ b) s d = bind (polls a) (fun _ => polls b) s d.
Proof. induction a as [|l a IH] in s, d |- *; [done|]. cbn [polls app]. unfold bind. destruct (key_poll l s d) as [[[[] s'] d']| |]; [|done..]. apply IH. Qed.

Lemma makes_app a b s s1 s2 cs1 cs2 : makes (polls a) s s1 cs1 -> makes (polls b) s1 s2 cs2 -> makes (polls (a ++ b)) s s2 (cs1 ++ cs2).
Proof. intros H1 H2 d. rewrite polls_app. by eapply makes_bind. Qed.

Lemma released_polls k s : key_pressed s = false -> makes (polls (repeat 0 k)) s s [].
Proof.
  intros H. induction k as [|k IH]; [done|]. cbn [repeat polls]. apply (makes_bind _ _ s s s [] []); [|done].
  intros d. unfold key_poll, bind, get. cbn. by rewrite H.
Qed.

Definition held (n : Z) (s : ctrl) : ctrl := set_key_pressed true (set_press_count n s).

Lemma held_polls n c s : 0 < c -> c + Z.of_nat n < 4294967296 -> makes (polls (repeat 1 n)) (held c s) (held (c + Z.of_nat n) s) [].
Proof.
  intros Hc. induction n as [|n IH] in c, Hc |- *; intros H; [by rewrite Z.add_0_r|]. cbn [repeat polls].
  apply (makes_bind _ _ _ (held (c + 1) s) _ [] []).
  - intros d. unfold key_poll, bind, get, modify. cbn. unfold u32. by rewrite Z.mod_small by lia.
  - replace (c + Z.of_nat (S n)) with (c + 1 + Z.of_nat n) by lia. apply IH; lia.
Qed.

Lemma press_released n s :
  key_pressed s = false -> press_count s = 0 -> makes (key_poll 0) (held n s) s (press_calls n).
Proof.
  intros H1 H2 d. unfold key_poll, bind, get, modify. cbn. change KEY_LONG_PRESS_COUNT with 60. unfold press_calls.
  assert (E : set_press_count 0 (set_key_pressed false (held n s)) = s) by (destruct s; cbn in *; by subst).
  destruct (Z.ltb_spec n 60), (Z.leb_spec 2 n), (Z.ltb_spec n 2); try lia; cbn; try (rewrite (proj2 (Z.leb_gt 60 n)) by lia); try (rewrite (proj2 (Z.leb_le 60 n)) by lia); cbn; by rewrite E.
Qed.

Lemma one_press n k s :
  key_pressed s = false -> press_count s = 0 -> (0 < n)%nat -> Z.of_nat n < 4294967296 ->
  makes (polls (press_levels (n, k))) s s (press_calls (Z.of_nat n)).
Proof.
  intros H1 H2 Hn Hb. unfold press_levels. cbn [fst snd]. destruct n as [|n]; [lia|]. cbn [repeat app polls].
  apply (makes_bind _ _ s (held 1 s) s [] (press_calls (Z.of_nat (S n)))).
  { intros d. unfold key_poll, bind, get, modify. cbn. by rewrite H1. }
  apply (makes_app _ _ _ (held (Z.of_nat (S n)) s) _ [] (press_calls (Z.of_nat (S n)))).
  { replace (Z.of_nat (S n)) with (1 + Z.of_nat n) by lia. apply held_polls; lia. }
  cbn [repeat polls]. rewrite <- (app_nil_r (press_calls _)). eapply makes_bind; [by apply press_released|by apply released_polls].
Qed.
End key.

(** C37: any sequence of presses, each seen by at least one poll and followed by at least one poll that finds the key released, makes exactly these calls: each press stops the polling, and sends no message if it was seen once, the message of a short press if it was seen at least twice but for less than three seconds, and the message of a long press otherwise. *)
Theorem key_presses_reported {D} `{!BoardIO D} ps s (d : D) :
  key_pressed s = false -> press_count s = 0 -> Forall (fun p => (0 < fst p)%nat /\ Z.of_nat (fst p) < 4294967296) ps ->
  polls (concat (map press_levels ps)) s d = Done (tt, s, after (concat (map (fun p => press_calls (Z.of_nat (fst p))) ps)) d).
Proof.
  intros H1 H2 H. revert d. change (makes (polls (concat (map press_levels ps))) s s (concat (map (fun p => press_calls (Z.of_nat (fst p))) ps))).
  induction H as [|[n k] ps [Hn Hb] _ IH]; [done|]. cbn [map concat]. eapply makes_app; [by apply one_press|done].
Qed.

(** ** The buzzer *)

(** The pattern of a mode: ticks of 100 milliseconds on and off, number of times, 0 for no end. *)
Definition pattern (mode : my_buzzer_mode_t) : option (Z * Z * Z) :=
  match mode with
  | BUZZER_STOP => None
  | BUZZER_CONTINUOUS_ALARM => Some (2, 5, 0)
  | BUZZER_FAIL_TONE => Some (2, 2, 3)
  | BUZZER_ERROR_TONE => Some (1, 1, 5)
  | BUZZER_GENERAL_ALARM => Some (2, 3, 60)
  end.

Section buzzer.
Context {D : Type} `{!BoardIO D}.
Context (on off times : Z).
Hypothesis Hon : 0 < on.
Hypothesis Hoff : 0 < off.
Hypothesis Htimes : 0 <= times.
Notation task := (prog ctrl D).
Let period := on + off.

(** Whether tick [t] belongs to the pattern. *)
Definition in_pattern (t : Z) : Prop := 0 <= t /\ (times = 0 \/ t <= (times - 1) * (on + off) + on).

(** The calls at tick [t]: the sound ends after [on] ticks of each period and
    starts again with the next one; after the last time the timer is stopped. *)
Definition tick_calls (t : Z) : list board_call :=
  if t mod (on + off) =? on then my_send_msg MOD_CTRL MY_MSG_CTRL_BUZZER_OFF :: (if t / (on + off) + 1 =? times then [k_timer_stop s_buzzer_timer] else [])
  else if t mod (on + off) =? 0 then [my_send_msg MOD_CTRL MY_MSG_CTRL_BUZZER_ON] else [].

Definition buzzer_at (t : Z) : buzzer_ctrl_t :=
  let k := t / period in
  let m := t mod period in
  mk_buzzer_ctrl (if m <? on then m else m - on) on off (if times =? 0 then 0 else if m <? on then times - k else times - k - 1) (m <? on).

Lemma next_tick t : 0 <= t ->
  (t mod period + 1 < period /\ (t + 1) mod period = t mod period + 1 /\ (t + 1) / period = t / period) \/
  (t mod period + 1 = period /\ (t + 1) mod period = 0 /\ (t + 1) / period = t / period + 1).
Proof.
  intros Ht. assert (Hp : 0 < period) by (unfold period; lia). pose proof (Z.mod_pos_bound t period Hp). pose proof (Z.div_mod t period ltac:(lia)).
  destruct (Z.eq_dec (t mod period + 1) period) as [E|E]; [right|left]; (split; [lia|]).
  - assert (t + 1 = (t / period + 1) * period + 0) as -> by lia. by rewrite Z.add_0_r, Z.mod_mul, Z.div_mul by lia.
  - assert (t + 1 = (t mod period + 1) + (t / period) * period) as -> by lia. rewrite Z.mod_add, Z.div_add by lia.
    rewrite Z.mod_small, Z.div_small by lia. lia.
Qed.

Lemma buzzer_step t s : in_pattern (t + 1) -> 0 <= t -> s_buzzer_ctrl s = buzzer_at t ->
  makes buzzer_timer_handler s (set_buzzer_ctrl (buzzer_at (t + 1)) s) (tick_calls (t + 1)).
Proof.
  intros [_ Ht] H0 Hs d. assert (Hp : 0 < period) by (unfold period; lia).
  pose proof (Z.mod_pos_bound t period Hp) as Hm. pose proof (Z.div_mod t period ltac:(lia)) as Hd. pose proof (Z.div_pos t period H0 Hp) as Hk.
  assert (Hlast : times = 0 \/ (t / period < times /\ (on <= t mod period -> t / period + 1 < times))).
  { destruct Ht as [|Ht]; [by left|right]. fold period in Ht. nia. }
  unfold buzzer_timer_handler, bind, get, modify, tick_calls. cbn [id]. rewrite Hs. unfold buzzer_at. cbn [sounding tick on_time off_time repeat_left].
  fold period. destruct (next_tick t H0) as [(E1 & E2 & E3)|(E1 & E2 & E3)]; rewrite E2, E3; clear E2 E3.
  - destruct (Z.ltb_spec (t mod period) on).
    + destruct (Z.leb_spec on (t mod period + 1)).
      * rewrite (proj2 (Z.eqb_eq (t mod period + 1) on)) by lia. rewrite (proj2 (Z.ltb_ge (t mod period + 1) on)) by lia. cbn -[Z.mul Z.div Z.modulo].
        replace (t mod period + 1 - on) with 0 by lia. destruct (Z.eqb_spec times 0).
        { rewrite (proj2 (Z.eqb_neq (t / period + 1) times)) by lia. done. }
        rewrite (proj2 (Z.ltb_lt 0 (times - t / period))) by lia. cbn -[Z.mul Z.div Z.modulo].
        destruct (Z.eqb_spec (times - t / period - 1) 0), (Z.eqb_spec (t / period + 1) times); try lia; done.
      * rewrite (proj2 (Z.eqb_neq (t mod period + 1) on)) by lia. rewrite (proj2 (Z.eqb_neq (t mod period + 1) 0)) by lia.
        by rewrite (proj2 (Z.ltb_lt (t mod period + 1) on)) by lia.
    + rewrite (proj2 (Z.leb_gt off (t mod period - on + 1))) by (unfold period in *; lia).
      rewrite (proj2 (Z.eqb_neq (t mod period + 1) on)) by lia. rewrite (proj2 (Z.eqb_neq (t mod period + 1) 0)) by lia.
      rewrite (proj2 (Z.ltb_ge (t mod period + 1) on)) by lia. by replace (t mod period + 1 - on) with (t mod period - on + 1) by lia.
  - rewrite (proj2 (Z.ltb_ge (t mod period) on)) by (unfold period in *; lia).
    rewrite (proj2 (Z.leb_le off (t mod period - on + 1))) by (unfold period in *; lia).
    rewrite (proj2 (Z.eqb_neq 0 on)), (proj2 (Z.ltb_lt 0 on)) by lia. cbn -[Z.mul Z.div Z.modulo].
    destruct (Z.eqb_spec times 0); [done|]. by replace (times - (t / period + 1)) with (times - t / period - 1) by lia.
Qed.

Fixpoint ticks (n : nat) : task unit := match n with O => ret tt | S n => buzzer_timer_handler;; ticks n end.

Lemma ticks_makes n t s : in_pattern (t + Z.of_nat n) -> 0 <= t -> s_buzzer_ctrl s = buzzer_at t ->
  makes (ticks n) s (set_buzzer_ctrl (buzzer_at (t + Z.of_nat n)) s) (concat (map (fun i => tick_calls (t + 1 + Z.of_nat i)) (seq 0 n))).
Proof.
  induction n as [|n IH] in t, s |- *; intros [Hn Hr] H0 Hs.
  { rewrite Z.add_0_r, <- Hs. by destruct s. }
  cbn [ticks seq map concat]. rewrite Z.add_0_r. eapply makes_bind; [apply buzzer_step; [split; lia|done..]|].
  replace (t + Z.of_nat (S n)) with (t + 1 + Z.of_nat n) by lia. rewrite <- seq_shift, map_map.
  rewrite (map_ext _ (fun i => tick_calls (t + 1 + 1 + Z.of_nat i))) by (intros i; f_equal; lia).
  assert (E : forall x, set_buzzer_ctrl x s = set_buzzer_ctrl x (set_buzzer_ctrl (buzzer_at (t + 1)) s)) by by destruct s.
  rewrite (E (buzzer_at (t + 1 + Z.of_nat n))). apply IH; [split; lia|lia|by destruct s].
Qed.
End buzzer.

(** After a pattern was chosen, the buzzer is switched on at once, and for every number of ticks of 100 milliseconds up to the end of the pattern the calls made at each tick are exactly those of the pattern: off after the time it sounds, on again with the next period; a pattern with a number of times ends with the timer stopped. *)
Theorem buzzer_pattern {D} `{!BoardIO D} mode on off times s (d : D) n :
  pattern mode = Some (on, off, times) -> in_pattern on off times (Z.of_nat n) ->
  exists s', (my_buzzer_play (Some mode);; ticks n) s d =
    Done (tt, s', after ([my_send_msg MOD_CTRL MY_MSG_CTRL_BUZZER_ON; k_timer_stop s_buzzer_timer; k_timer_start s_buzzer_timer 100 100] ++
      concat (map (fun i => tick_calls on off times (1 + Z.of_nat i)) (seq 0 n))) d).
Proof.
  intros Hm Hn. assert (H : 0 < on /\ 0 < off /\ 0 <= times) by (destruct mode; try discriminate Hm; injection Hm as <- <- <-; lia).
  destruct H as (H1 & H2 & H3).
  assert (M : makes (my_buzzer_play (Some mode);; ticks n) s (set_buzzer_ctrl (buzzer_at on off times (0 + Z.of_nat n)) (set_buzzer_ctrl (buzzer_at on off times 0) s))
    ([my_send_msg MOD_CTRL MY_MSG_CTRL_BUZZER_ON; k_timer_stop s_buzzer_timer; k_timer_start s_buzzer_timer 100 100] ++
      concat (map (fun i => tick_calls on off times (1 + Z.of_nat i)) (seq 0 n)))); [|eexists; apply M].
  eapply makes_bind; [|by apply ticks_makes].
  clear d. intros d. assert (E : buzzer_at on off times 0 = mk_buzzer_ctrl 0 on off times true).
  { unfold buzzer_at. rewrite Z.mod_0_l, Z.div_0_l by lia. rewrite (proj2 (Z.ltb_lt 0 on)) by lia. rewrite Z.sub_0_r. by destruct (Z.eqb_spec times 0) as [->|]. }
  rewrite E. destruct mode; try discriminate Hm; injection Hm as <- <- <-; done.
Qed.

(** ** Alarms of a quantity *)

Section alarms.
Context (c : config_param_t) (low high scale interval : Z) (alarm_low alarm_high : alarm_type_t).

(** The side of the thresholds a value is on; [None] when a threshold overflows. *)
Definition side (val : Z) : option my_alarm_type_t :=
  match beyond low scale (fun limit => val <? limit) with
  | None => None
  | Some true => Some LOW_PATM_TEMP_ALARM
  | Some false => (fun b : bool => if b then HIGH_PATM_TEMP_ALARM else NORMAL_PATM_TEMP_ALARM) <$> beyond high scale (fun limit => limit <? val)
  end.

(** How many alarms a sequence of measurements (value and time) causes. *)
Fixpoint alarm_count (samples : list (Z * Z)) (l : alarm_level) : Z :=
  match samples with
  | [] => 0
  | (val, ts) :: samples =>
      match level_check c low high scale interval alarm_low alarm_high val ts l with
      | Some (l, a) => (if a then 1 else 0) + alarm_count samples l
      | None => 0
      end
  end.

(** Measurements beyond the threshold of [sd], in the order of their times, between [t0] and [t1]. *)
Fixpoint stays_beyond (sd : my_alarm_type_t) (t0 t1 : Z) (samples : list (Z * Z)) : Prop :=
  match samples with
  | [] => t0 <= t1
  | (val, ts) :: samples => side val = Some sd /\ t0 <= ts /\ stays_beyond sd ts t1 samples
  end.

Lemma stays_beyond_le sd t0 t1 samples : stays_beyond sd t0 t1 samples -> t0 <= t1.
Proof. induction samples as [|[v ts] r IH] in t0 |- *; cbn; [done|]. intros (_ & H & Hr). apply IH in Hr. lia. Qed.

Lemma stays_beyond_weaken sd t t0 t1 samples : t <= t0 -> stays_beyond sd t0 t1 samples -> stays_beyond sd t t1 samples.
Proof. destruct samples as [|[v ts] r]; cbn; [lia|]. intros H (H1 & H2 & H3). split; [done|split; [lia|done]]. Qed.

(** One measurement beyond a threshold. *)
Lemma level_check_beyond val ts l sd : side val = Some sd -> sd <> NORMAL_PATM_TEMP_ALARM ->
  exists a, level_check c low high scale interval alarm_low alarm_high val ts l =
    Some (if decide (level_state l = sd) then if may_repeat c interval (u32 (ts - level_last l)) then (mk_level sd ts, Some a) else (mk_level sd (level_last l), None)
          else (mk_level sd ts, Some a)).
Proof.
  intros H Hn. unfold side in H. unfold level_check.
  destruct (beyond low scale _) as [[]|]; cbn in *; [exists alarm_low| |done].
  2: destruct (beyond high scale _) as [[]|]; cbn in *; [exists alarm_high|congruence|done].
  all: injection H as <-; destruct (may_repeat _ _ _); repeat case_decide; congruence.
Qed.

Definition repeats : bool := may_repeat c interval (interval * 60).

Lemma may_repeat_spec diff : may_repeat c interval diff = true -> repeats = true /\ interval * 60 <= diff.
Proof.
  unfold repeats, may_repeat. intros H. bool2prop. split; [|done]. apply andb_true_iff. split; [|by apply negb_true_iff, Z.eqb_neq].
  apply andb_true_iff. split; [done|apply Z.leb_le; lia].
Qed.

(** After an alarm at [t], the next ones keep the interval. *)
Lemma alarms_spaced sd samples t t1 : 0 <= t -> t1 < 4294967296 -> sd <> NORMAL_PATM_TEMP_ALARM -> 0 <= interval -> stays_beyond sd t t1 samples ->
  0 <= alarm_count samples (mk_level sd t) /\
  (repeats = false -> alarm_count samples (mk_level sd t) = 0) /\ alarm_count samples (mk_level sd t) * (interval * 60) <= t1 - t.
Proof.
  intros Ht H1 Hn Hi. assert (G : forall t0 samples, t <= t0 -> stays_beyond sd t0 t1 samples ->
    0 <= alarm_count samples (mk_level sd t) /\ (repeats = false -> alarm_count samples (mk_level sd t) = 0) /\ alarm_count samples (mk_level sd t) * (interval * 60) <= t1 - t).
  { clear samples. intros t0 samples. induction samples as [|[v ts] r IH] in t, Ht, t0 |- *; intros H0 Hs; cbn [alarm_count].
    { apply stays_beyond_le in Hs. lia. }
    destruct Hs as (E & Hts & Hr). destruct (level_check_beyond v ts (mk_level sd t) sd E Hn) as [a ->]. cbn [level_state level_last].
    pose proof (stays_beyond_le _ _ _ _ Hr). rewrite decide_True by done. unfold u32. rewrite Z.mod_small by lia.
    destruct (may_repeat c interval (ts - t)) eqn:R.
    - apply may_repeat_spec in R as [Rp R]. destruct (IH ts ltac:(lia) ts ltac:(lia) Hr) as (P & Q & S). split; [lia|]. split; [congruence|nia].
    - destruct (IH t Ht ts ltac:(lia) Hr) as (P & Q & S). rewrite !Z.add_0_l. auto. }
  by apply G.
Qed.

(** C38: while a quantity stays beyond a threshold, measured at times from [t0] to [t1], it causes at most one alarm, and one more for each full interval in between if the settings ask for repetition and the mode keeps the module online; the first measurement beyond the threshold after one that was not always causes one. *)
Theorem alarms_limited sd samples l t0 t1 :
  sd <> NORMAL_PATM_TEMP_ALARM -> 0 <= t0 -> t1 < 4294967296 -> 0 <= interval -> stays_beyond sd t0 t1 samples ->
  alarm_count samples l <= 1 + (if repeats then (t1 - t0) / (interval * 60) else 0) /\
  (level_state l <> sd -> samples <> [] -> 1 <= alarm_count samples l).
Proof.
  intros Hn H0 H1 Hi Hs.
  assert (Hr : repeats = true -> 0 < interval) by (unfold repeats, may_repeat; intros; bool2prop; lia).
  assert (Hdiv : forall t n, t0 <= t -> n * (interval * 60) <= t1 - t -> repeats = true -> n <= (t1 - t0) / (interval * 60)).
  { intros t n Ht Hm R. specialize (Hr R). apply Z.div_le_lower_bound; lia. }
  assert (Hsafe : 0 <= if repeats then (t1 - t0) / (interval * 60) else 0).
  { destruct repeats eqn:R; [|done]. apply stays_beyond_le in Hs. specialize (Hr eq_refl). apply Z.div_pos; lia. }
  assert (Hafter : forall t r, t0 <= t -> stays_beyond sd t t1 r ->
    0 <= alarm_count r (mk_level sd t) <= if repeats then (t1 - t0) / (interval * 60) else 0).
  { intros t r Ht Hb. destruct (alarms_spaced sd r t t1 ltac:(lia) H1 Hn Hi Hb) as (P & Q & S). split; [done|].
    destruct repeats; [by apply (Hdiv t)|]. by rewrite Q. }
  split.
  - clear - Hs Hsafe Hafter Hn. assert (G : forall t r, t0 <= t -> stays_beyond sd t t1 r -> alarm_count r l <= 1 + if repeats then (t1 - t0) / (interval * 60) else 0).
    { clear Hs samples. intros t r. induction r as [|[v ts] r IH] in t, l |- *; intros Ht Hb; cbn [alarm_count]; [lia|]. destruct Hb as (E & Hts & Hb).
      destruct (level_check_beyond v ts l sd E Hn) as [a ->]. specialize (Hafter ts r ltac:(lia) Hb).
      destruct (decide (level_state l = sd)); [|lia]. destruct (may_repeat _ _ _); [lia|]. specialize (IH (mk_level sd (level_last l)) ts ltac:(lia) Hb). lia. }
    by eapply G.
  - intros Hl Hne. destruct samples as [|[v ts] r]; [done|]. cbn [alarm_count]. destruct Hs as (E & Hts & Hb).
    destruct (level_check_beyond v ts l sd E Hn) as [a ->]. rewrite decide_False by done. specialize (Hafter ts r ltac:(lia) Hb). lia.
Qed.
End alarms.

(** ** Every event of the thread *)

Record ctrl_ok (s : ctrl) : Prop := mk_ctrl_ok {
  cok_battery : batt_ok (ctrl_battery s);
  cok_press : 0 <= press_count s < 4294967296;
  cok_buzzer : 0 <= tick (s_buzzer_ctrl s) <= 5 /\ on_time (s_buzzer_ctrl s) <= 5 /\ off_time (s_buzzer_ctrl s) <= 5 /\ 0 <= repeat_left (s_buzzer_ctrl s) <= 60;
  cok_th : let r := g_temp_humi_sample s in 0 <= th_timestamp r < 4294967296 /\ -32768 <= temperature_x10 r < 32768 /\ 0 <= humidity_x10 r < 65536;
  cok_bp : let r := g_barometer_sample s in 0 <= bp_timestamp r < 4294967296 /\ 0 <= pressure_pa r < 4294967296
}.

Lemma ctrl_ok_start : ctrl_ok ctrl_start.
Proof. split; cbn; try lia. apply batt_ok_start. Qed.

(** Steps that keep the invariant. *)
Ltac cok := match goal with H : ctrl_ok ?s |- ctrl_ok _ => destruct H; split; cbn in *; try done; try lia end.

Section events.
Context {D : Type} `{!BoardIO D} `{!AdcSane D}.
Notation task := (prog ctrl D).

Definition safe {A} (m : task A) : Prop :=
  forall (Q : A -> ctrl -> D -> Prop) s d, ctrl_ok s -> (forall a s' d', ctrl_ok s' -> Q a s' d') -> twp m Q s d.

Lemma safe_outward {A} (m : task A) : outward m -> safe m.
Proof. intros Hm Q s d Hs H. apply Hm. auto. Qed.
Lemma ctrl_safe_bind {A B} (m : task A) (k : A -> task B) : safe m -> (forall a, safe (k a)) -> safe (bind m k).
Proof. intros Hm Hk Q s d Hs H. apply twp_bind, Hm; [done|]. intros a s' d' Hs'. by apply Hk. Qed.
Lemma ctrl_safe_get {A B} (f : ctrl -> A) (k : A -> task B) : (forall s, ctrl_ok s -> forall (Q : B -> ctrl -> D -> Prop) d, (forall a s' d', ctrl_ok s' -> Q a s' d') -> twp (k (f s)) Q s d) -> safe (bind (get f) k).
Proof. intros Hk Q s d Hs H. apply twp_bind, twp_get. by apply Hk. Qed.
Lemma ctrl_safe_modify f : (forall s, ctrl_ok s -> ctrl_ok (f s)) -> safe (modify f).
Proof. intros Hf Q s d Hs H. apply twp_modify. auto. Qed.
Lemma ctrl_safe_if {A} (b : bool) (m1 m2 : task A) : safe m1 -> safe m2 -> safe (if b then m1 else m2).
Proof. by destruct b. Qed.
Lemma safe_battery m : stays m -> safe (in_battery m).
Proof.
  intros Hm Q s d Hs H. apply twp_zoom. apply Hm; [by destruct Hs|]. intros b' d' Hb'. apply H. destruct Hs. by split.
Qed.

Lemma safe_alarm o : match o with Some ALARM_BAT_SWITCH => False | _ => True end -> safe (send_alarm o).
Proof. intros Ho. apply safe_outward. destruct o as [a|]; [|apply outward_ret]. apply outward_alarm. left. by intros ->. Qed.
End events.

Create HintDb safe.
#[export] Hint Resolve ctrl_safe_bind ctrl_safe_if safe_battery : safe.
#[export] Hint Extern 3 (safe _) => apply safe_outward; solve [eauto with board] : safe.
#[export] Hint Extern 2 (safe (modify _)) => apply ctrl_safe_modify; intros ? ?; cok : safe.

(** Alarm thresholds that can be scaled: bytes, and temperatures whose tenfold is an [int]. *)
Record thresholds_fit (c : config_param_t) : Prop := {
  tf_patm_low : 0 <= patalm_low_threshold (patalm_config c) <= 255;
  tf_patm_high : 0 <= patalm_high_threshold (patalm_config c) <= 255;
  tf_temp_low : -214748364 <= temp_low_threshold (tempalm_config c) <= 214748364;
  tf_temp_high : -214748364 <= temp_high_threshold (tempalm_config c) <= 214748364;
  tf_humi_low : 0 <= humi_low_threshold (tempalm_config c) <= 255;
  tf_humi_high : 0 <= humi_high_threshold (tempalm_config c) <= 255
}.

(** Settings with documented values, which is what the commands keep, have such thresholds. *)
Lemma documented_fit c : settings_ok c -> thresholds_fit c.
Proof.
  intros H. unfold settings_ok, for_all in H. cbv beta in H. destruct_and! H.
  assert (Hp : patalm_ok (patalm_config c) = true) by (match goal with H : setting_ok (patalm_config c) |- _ => apply H end).
  assert (Ht : tempalm_ok (tempalm_config c) = true) by (match goal with H : setting_ok (tempalm_config c) |- _ => apply H end).
  unfold patalm_ok, tempalm_ok, threshold_ok, within in *. bool2prop. split; lia.
Qed.

Class ThresholdsFit (D : Type) `{BoardIO D} : Prop := board_thresholds (d : D) : thresholds_fit (gConfigParam d).

Section handlers.
Context {D : Type} `{!BoardIO D} `{!AdcSane D} `{!ThresholdsFit D}.
Notation task := (prog ctrl D).

Lemma beyond_fits threshold scale cmp : -2147483648 <= threshold * scale <= 2147483647 -> exists b, beyond threshold scale cmp = Some b.
Proof. intros H. unfold beyond. rewrite int32_small by done. destruct (_ =? _); by eexists. Qed.

Lemma level_check_safe c low high scale interval a1 a2 val ts l (k : alarm_level * option alarm_type_t -> task unit) :
  -2147483648 <= low * scale <= 2147483647 -> -2147483648 <= high * scale <= 2147483647 -> a1 <> ALARM_BAT_SWITCH -> a2 <> ALARM_BAT_SWITCH ->
  (forall r, safe (send_alarm (snd r) : task unit) -> safe (k r)) -> safe (bind (checked (level_check c low high scale interval a1 a2 val ts l)) k).
Proof.
  intros Hl Hh H1 H2 Hk Q s d Hs HQ. assert (E : exists l' o, level_check c low high scale interval a1 a2 val ts l = Some (l', o) /\ (o = None \/ o = Some a1 \/ o = Some a2)).
  { unfold level_check. destruct (beyond_fits low scale (fun limit => val <? limit) Hl) as [bl ->], (beyond_fits high scale (fun limit => limit <? val) Hh) as [bh ->].
    destruct bl; [|destruct bh]; repeat case_decide; eauto 8. }
  destruct E as (l' & o & E & Ho). apply twp_bind. eapply twp_checked; [exact E|]. apply Hk; [|done|done].
  apply safe_alarm. cbn. destruct Ho as [->|[->| ->]]; [done|by destruct a1|by destruct a2].
Qed.

Lemma config_safe {A} (k : config_param_t -> task A) : (forall c, thresholds_fit c -> safe (k c)) -> safe (bind config k).
Proof. intros Hk Q s d Hs HQ. apply twp_bind, twp_world. intros c d' [= <- <-]. by apply Hk. Qed.

Lemma barometer_alarm_safe p ts : safe (sensor_barometer_alarm_check p ts : task unit).
Proof.
  unfold sensor_barometer_alarm_check. apply config_safe. intros c []. apply ctrl_safe_get. intros s Hs Q d HQ.
  destruct (patalm_sw (patalm_config c) =? 1); [|apply twp_modify, HQ; cok].
  apply level_check_safe; [lia|lia|done|done| |done|done]. intros r Hr. auto with safe.
Qed.

Lemma temp_alarm_safe w ts : safe (sensor_temp_humi_alarm_check w ts : task unit).
Proof.
  unfold sensor_temp_humi_alarm_check. apply config_safe. intros c []. apply ctrl_safe_get. intros s Hs Q d HQ. change (id s) with s.
  destruct (tempalm_sw (tempalm_config c) =? 1); [|apply twp_modify, HQ; cok].
  apply level_check_safe; [lia|lia|done|done| |done|done]. intros r Hr. apply ctrl_safe_bind; [auto with safe|]. intros _. apply ctrl_safe_bind; [done|]. intros _.
  apply level_check_safe; [lia|lia|done|done|]. intros r2 Hr2. auto with safe.
Qed.

Lemma i16_range z : -32768 <= i16 z < 32768.
Proof. unfold i16. pose proof (Z.mod_pos_bound (z + 32768) 65536). lia. Qed.

Lemma collect_barometer_safe : safe (sensor_collect_barometer : task Z).
Proof.
  unfold sensor_collect_barometer. apply ctrl_safe_bind; [auto with safe board|intros r0]. apply ctrl_safe_if; [auto with safe board|].
  apply ctrl_safe_bind; [auto with safe board|intros r]. apply ctrl_safe_if; [auto with safe board|]. apply ctrl_safe_bind; [auto with safe board|intros now].
  apply ctrl_safe_bind; [|intros _; apply ctrl_safe_bind; [auto with safe board|intros _; apply ctrl_safe_bind; [apply barometer_alarm_safe|auto with safe board]]].
  apply ctrl_safe_modify. intros s Hs. cok. split; apply u32_range.
Qed.

Lemma collect_temp_safe : safe (sensor_collect_temp_humi : task Z).
Proof.
  unfold sensor_collect_temp_humi. apply ctrl_safe_bind; [auto with safe board|intros r]. apply ctrl_safe_if; [auto with safe board|].
  apply ctrl_safe_bind; [auto with safe board|intros now].
  apply ctrl_safe_bind; [|intros _; apply ctrl_safe_bind; [auto with safe board|intros _; apply ctrl_safe_bind; [apply temp_alarm_safe|auto with safe board]]].
  apply ctrl_safe_modify. intros s Hs. cok. split; [apply u32_range|]. split; [apply i16_range|apply Z.mod_pos_bound; lia].
Qed.

Lemma send_lte_outward s : outward (send_lte_msg s : task unit).
Proof. unfold send_lte_msg. eauto with board. Qed.
Lemma send_ble_outward s : outward (send_ble_msg s : task unit).
Proof. unfold send_ble_msg. eauto with board. Qed.
Lemma id_text_outward : outward (id_text : task (list Z)).
Proof. unfold id_text. eauto with board. Qed.
#[local] Hint Resolve send_lte_outward send_ble_outward id_text_outward : board.

Lemma answer_outward size text : outward (answer size text : task unit).
Proof. unfold answer. eauto 10 with board. Qed.
Lemma answer_no_data_outward size text : outward (answer_no_data size text : task unit).
Proof. unfold answer_no_data. eauto 12 with board. Qed.
#[local] Hint Resolve answer_outward answer_no_data_outward : board.

Lemma patm_read_safe : safe (sensor_patm_read : task unit).
Proof. unfold sensor_patm_read. apply ctrl_safe_bind; [apply collect_barometer_safe|intros p]. apply safe_outward. cbv zeta. eauto 8 with board. Qed.

Lemma temp_read_safe : safe (sensor_temp_read : task unit).
Proof. unfold sensor_temp_read. apply ctrl_safe_bind; [apply collect_temp_safe|intros p]. apply safe_outward. eauto 8 with board. Qed.

Lemma status_read_safe : safe (device_status_read : task unit).
Proof.
  unfold device_status_read. apply ctrl_safe_bind; [apply collect_temp_safe|intros w]. apply ctrl_safe_bind; [apply collect_barometer_safe|intros p]. cbv zeta.
  repeat (apply ctrl_safe_bind; [solve [auto with safe board]|intros ?]). apply ctrl_safe_get. intros s Hs Q d HQ. apply answer_outward. auto.
Qed.

Lemma reload_outward t n : outward (sensor_timer_reload t n : task unit).
Proof. unfold sensor_timer_reload. eauto with board. Qed.
#[local] Hint Resolve reload_outward : board.

Lemma light_timer_safe l : (forall x s, ctrl_ok s -> ctrl_ok (put_light l x s)) -> safe (light_sensor_timer_handler l : task unit).
Proof.
  intros Hl. unfold light_sensor_timer_handler. apply ctrl_safe_bind; [auto with safe board|intros v]. apply ctrl_safe_get. intros s Hs Q d HQ.
  destruct (Bool.eqb _ _); repeat bstep; auto.
Qed.

Lemma light_edge_safe l : safe (light_sensor_edge_handler l : task unit).
Proof.
  unfold light_sensor_edge_handler. repeat (apply ctrl_safe_bind; [solve [auto with safe board]|intros ?]). apply ctrl_safe_get. intros s Hs Q d HQ. repeat bstep; auto.
Qed.

Lemma misc_isr_safe k t p : safe (misc_io_isr k t p : task unit).
Proof.
  unfold misc_io_isr. apply ctrl_safe_bind; [apply safe_outward; destruct k; eauto with board|intros _].
  apply ctrl_safe_bind; [|intros _]; apply ctrl_safe_if; try apply light_edge_safe; auto with safe board.
Qed.

Lemma key_poll_safe l : safe (key_poll l : task unit).
Proof.
  unfold key_poll. apply ctrl_safe_get. intros s Hs Q d HQ. change (id s) with s.
  assert (H0 : forall n b s, ctrl_ok s -> 0 <= n < 4294967296 -> ctrl_ok (set_key_pressed b (set_press_count n s))) by (intros; cok).
  destruct (l =? 1); [apply twp_modify, HQ, H0; [done|apply u32_range]|]. unfold send_key_event. repeat bstep; apply HQ; cok.
Qed.

Lemma buzzer_play_safe mode : safe (my_buzzer_play mode : task unit).
Proof.
  unfold my_buzzer_play, g_buzzer_ctrl_config. destruct mode as [[]|]; cbv zeta; intros Q s d Hs HQ; repeat bstep; apply HQ; try done; cok.
Qed.

Lemma buzzer_tick_safe : safe (buzzer_timer_handler : task unit).
Proof.
  unfold buzzer_timer_handler. apply ctrl_safe_get. intros s Hs Q d HQ. change (id s) with s. destruct Hs as [? ? (? & ? & ? & ?) ? ?].
  repeat bstep; bool2prop; apply HQ; split; cbn in *; try done; lia.
Qed.

Lemma play_tone_outward freq duration : outward (my_ctrl_buzzer_play_tone freq duration : task Z).
Proof.
  unfold my_ctrl_buzzer_play_tone, my_ctrl_stop_buzzer. cbv zeta.
  assert (H : outward ((if 0 <? duration then do (k_msleep duration);; do (pwm_set_pulse 0) else ret tt);; ret 0 : task Z)) by eauto with board.
  eauto with board.
Qed.

Lemma play_sequence_outward notes : outward (my_ctrl_buzzer_play_sequence notes : task Z).
Proof.
  unfold my_ctrl_buzzer_play_sequence. apply outward_if; [eauto with board|]. apply outward_bind; [|eauto with board].
  induction notes as [|n r IH]; cbn [play_notes]; [eauto with board|]. apply outward_bind; [apply play_tone_outward|eauto with board].
Qed.

Lemma message_safe m data : safe (my_ctrl_task_handle m data : task unit).
Proof.
  assert (Hb : forall e, safe (in_battery (run_batt e) : task unit)) by (intros e; apply safe_battery, run_batt_stays).
  destruct m; cbn [my_ctrl_task_handle]; unfold my_ctrl_start_buzzer, my_ctrl_stop_buzzer, sensor_patm_timer_reload, sensor_temp_timer_reload;
    try solve [auto with safe board].
  - destruct data as [|mode r]; [auto with safe board|apply buzzer_play_safe].
  - exact (Hb EvShowCharge).
  - exact (Hb EvUpdate).
  - apply safe_outward. apply outward_bind; [auto with board|intros c]. apply outward_if; [auto with board|]. apply outward_alarm. by left.
  - apply safe_outward. apply outward_bind; [auto with board|intros c]. apply outward_if; [auto with board|]. apply outward_alarm. by left.
  - apply ctrl_safe_bind; [apply collect_barometer_safe|auto with safe board].
  - apply ctrl_safe_bind; [apply collect_temp_safe|auto with safe board].
  - apply patm_read_safe.
  - apply temp_read_safe.
  - apply status_read_safe.
  - exact (Hb EvLedMode).
  - apply ctrl_safe_bind; [auto with safe board|intros c]. apply ctrl_safe_bind; [auto with safe board|intros _]. apply ctrl_safe_bind; [exact (Hb (EvEnable true))|auto with safe board].
  - apply ctrl_safe_bind; [auto with safe board|intros _]. apply ctrl_safe_bind; [exact (Hb (EvEnable false))|auto with safe board].
Qed.

(** ** Everything that happens to the thread *)

Inductive ctrl_event :=
  | CtrlMessage (m : MY_MAIN_TASK_MSG) (data : list Z) | CtrlBattery (e : batt_event) | CtrlIsr (key tamper_pin pull_pin : bool)
  | CtrlKeyTimer | CtrlTamperTimer | CtrlPullTimer | CtrlBuzzerTimer | CtrlPatmTimer | CtrlTempTimer | CtrlSetBuzzer (mode : Z)
  | CtrlTone (freq duration : Z) | CtrlTones (notes : list my_buzzer_note).

Definition run_ctrl (e : ctrl_event) : task unit :=
  match e with
  | CtrlMessage m data => my_ctrl_task_handle m data
  | CtrlBattery e => in_battery (run_batt e)
  | CtrlIsr k t p => misc_io_isr k t p
  | CtrlKeyTimer => key_timer_handler
  | CtrlTamperTimer => light_tamper_sensor_timer_handler
  | CtrlPullTimer => light_pull_sensor_timer_handler
  | CtrlBuzzerTimer => buzzer_timer_handler
  | CtrlPatmTimer => patm_upload_timer_handler
  | CtrlTempTimer => temp_upload_timer_handler
  | CtrlSetBuzzer mode => my_set_buzzer_mode mode
  | CtrlTone f n => my_ctrl_buzzer_play_tone f n;; ret tt
  | CtrlTones notes => my_ctrl_buzzer_play_sequence notes;; ret tt
  end.

(** Between two events the rest of the device does anything. *)
Inductive ctrl_reached : ctrl -> Prop :=
  | ctrl_boot : ctrl_reached ctrl_start
  | ctrl_next e s s' d d' : ctrl_reached s -> run_ctrl e s d = Done (tt, s', d') -> ctrl_reached s'.

Lemma run_ctrl_safe e : safe (run_ctrl e).
Proof.
  destruct e; cbn [run_ctrl]; unfold patm_upload_timer_handler, temp_upload_timer_handler, my_set_buzzer_mode;
    auto using message_safe, misc_isr_safe, buzzer_tick_safe with safe board.
  - apply safe_battery, run_batt_stays.
  - unfold key_timer_handler. apply ctrl_safe_bind; [auto with safe board|apply key_poll_safe].
  - apply light_timer_safe. intros; cbn; cok.
  - apply light_timer_safe. intros; cbn; cok.
  - apply ctrl_safe_bind; [apply safe_outward, play_tone_outward|auto with safe board].
  - apply ctrl_safe_bind; [apply safe_outward, play_sequence_outward|auto with safe board].
Qed.

Lemma ctrl_reached_ok s : ctrl_reached s -> ctrl_ok s.
Proof.
  induction 1 as [|e s s' d d' _ IH E]; [apply ctrl_ok_start|].
  assert (W : twp (run_ctrl e) (fun _ s' _ => ctrl_ok s') s d) by (apply run_ctrl_safe; auto). unfold twp in W. by rewrite E in W.
Qed.

(** C18: with a converter that reports between -5000 and 5000 millivolts whenever it succeeds, and alarm thresholds of their field's type whose tenfold, for the two temperatures, is an [int] (every documented value is far within): whatever else the converter, the sensors, the charger and the settings say and in whatever order messages, timers and interrupts come, every handler of the control thread and of the battery module returns, without an overflow, a division by zero, an access outside a table or a missing parameter of an alarm; the percentage shown is always between 0 and 100, the level reported is the one of that percentage, and the samples handed to the BLE thread fit their fields. *)
Theorem control_events_safe s :
  ctrl_reached s ->
  let b := ctrl_battery s in
  (0 <= s_show_percent b <= 100 /\ s_batt_state b = batt_class (s_show_percent b) /\ 0 <= s_chg_batt_state b <= 3 /\ -32768 <= temperature_x10 (g_temp_humi_sample s) < 32768 /\ 0 <= humidity_x10 (g_temp_humi_sample s) < 65536) /\
  forall e d, exists s' d', run_ctrl e s d = Done (tt, s', d').
Proof.
  intros H%ctrl_reached_ok. split; [destruct H as [[] ? ? (? & ? & ?) ?]; auto|]. intros e d.
  assert (W : twp (run_ctrl e) (fun _ _ _ => True) s d) by (apply run_ctrl_safe; auto).
  apply twp_done in W as ([] & s' & d' & E & _). eauto.
Qed.
End handlers.
