(* ===== verification/GsensorWindow.v ===== *)
(** * The window of motion interrupts ([my_gsensor.c])

    A ring of the times of the last interrupts, read with a clock of 32 bits of
    milliseconds.  The file gives its operations and shows that counting drops
    exactly what is too old, as long as the ring did not overflow. *)

From stdpp Require Import sorting.
From S2P Require Import Prelude.

Definition TIMESTAMP_QUEUE_SIZE : Z := 500.

Record sliding_window_t := mk_window { timestamps : list Z; head : Z; tail : Z }.

Definition g_int_window_start : sliding_window_t := mk_window (repeat 0 500) 0 0.

Definition next_index (i : Z) : Z := (i + 1) mod TIMESTAMP_QUEUE_SIZE.

Definition sliding_window_add_int (current_time : Z) (w : sliding_window_t) : option sliding_window_t :=
  let next_head := next_index (head w) in
  let t := if next_head =? tail w then next_index (tail w) else tail w in
  ts ← arr_set (timestamps w) (head w) current_time;
  Some (mk_window ts (next_index (head w)) t).

Fixpoint update_tail_loop (fuel : nat) (current_time window_size_ms : Z) (w : sliding_window_t) : option sliding_window_t :=
  if tail w =? head w then Some w else
  match fuel with
  | O => None
  | S fuel =>
      timestamp ← arr_get (timestamps w) (tail w);
      if u32 (current_time - timestamp) <=? window_size_ms then Some w
      else update_tail_loop fuel current_time window_size_ms (mk_window (timestamps w) (head w) (next_index (tail w)))
  end.

(** The loop never needs more steps than the ring has places. *)
Definition sliding_window_update_tail (current_time window_size_ms : Z) (w : sliding_window_t) : option sliding_window_t :=
  update_tail_loop 500 current_time window_size_ms w.

Fixpoint count_loop (fuel : nat) (h i count : Z) : option Z :=
  if i =? h then Some count else
  match fuel with
  | O => None
  | S fuel =>
      let count := u16 (count + 1) in
      let i := u16 (next_index i) in
      if TIMESTAMP_QUEUE_SIZE <=? count then Some count else count_loop fuel h i count
  end.

Definition sliding_window_get_count (current_time window_size_ms : Z) (w : sliding_window_t) : option (sliding_window_t * Z) :=
  w ← sliding_window_update_tail current_time window_size_ms w;
  if tail w =? head w then Some (w, 0) else
  n ← count_loop 500 (head w) (u16 (tail w)) 0;
  Some (w, n).

(** ** The ring as a list *)

Record window_ok (w : sliding_window_t) : Prop := mk_window_ok {
  wok_length : length (timestamps w) = 500%nat;
  wok_head : 0 <= head w < 500;
  wok_tail : 0 <= tail w < 500
}.

Definition used (w : sliding_window_t) : nat := Z.to_nat ((head w - tail w) mod 500).
Definition slot (i : Z) (w : sliding_window_t) : Z := nth (Z.to_nat (i mod 500)) (timestamps w) 0.
Definition contents (w : sliding_window_t) : list Z := map (fun k => slot (tail w + Z.of_nat k) w) (seq 0 (used w)).

Lemma window_ok_start : window_ok g_int_window_start.
Proof. by split. Qed.

Lemma used_bound w : (used w <= 499)%nat.
Proof. unfold used. pose proof (Z.mod_pos_bound (head w - tail w) 500). lia. Qed.

Lemma window_used_cases w : window_ok w ->
  (tail w <= head w /\ Z.of_nat (used w) = head w - tail w) \/ (head w < tail w /\ Z.of_nat (used w) = head w - tail w + 500).
Proof.
  intros [_ ? ?]. unfold used. destruct (Z_le_gt_dec (tail w) (head w)); [left|right]; (split; [lia|]).
  - rewrite Z.mod_small by lia. lia.
  - rewrite <- (Z.mod_unique (head w - tail w) 500 (-1) (head w - tail w + 500)) by lia. lia.
Qed.

Lemma next_cases i : 0 <= i < 500 -> (i = 499 /\ next_index i = 0) \/ (i < 499 /\ next_index i = i + 1).
Proof.
  intros H. unfold next_index, TIMESTAMP_QUEUE_SIZE. destruct (Z.eq_dec i 499) as [->|]; [by left|right]. split; [lia|]. apply Z.mod_small. lia.
Qed.

Lemma contents_length w : length (contents w) = used w.
Proof. unfold contents. by rewrite length_map, length_seq. Qed.

(** Taking the oldest entry. *)
Definition dropped (w : sliding_window_t) : sliding_window_t := mk_window (timestamps w) (head w) (next_index (tail w)).

Lemma dropped_ok w : window_ok w -> window_ok (dropped w).
Proof. intros []. split; [done|done|]. cbn. apply Z.mod_pos_bound. done. Qed.

Lemma contents_cons w : window_ok w -> tail w <> head w -> contents w = slot (tail w) w :: contents (dropped w).
Proof.
  intros Hw Hne. pose proof (window_used_cases w Hw) as H. pose proof (window_used_cases _ (dropped_ok w Hw)) as H'. destruct Hw as [_ ? Ht]. cbn in H'.
  assert (E : used w = S (used (dropped w))) by (destruct (next_cases _ Ht) as [[? En]|[? En]]; rewrite En in H'; lia).
  unfold contents at 1. rewrite E. cbn [seq map]. f_equal; [f_equal; lia|].
  rewrite <- seq_shift, map_map. unfold contents. apply map_ext. intros k. unfold slot. cbn [timestamps tail dropped]. do 2 f_equal.
  unfold next_index, TIMESTAMP_QUEUE_SIZE. rewrite Zplus_mod_idemp_l. f_equal. lia.
Qed.

Lemma slot_get w i : window_ok w -> 0 <= i < 500 -> arr_get (timestamps w) i = Some (slot i w).
Proof.
  intros [Hl _ _] Hi. destruct (arr_get_Some (timestamps w) i) as [x Hx]; [unfold zlen; lia|]. rewrite Hx. f_equal.
  apply arr_get_inv in Hx as [_ Hx]. unfold slot. rewrite Z.mod_small by lia. symmetry. by apply nth_lookup_Some.
Qed.

(** ** The operations on the list *)

Lemma contents_empty w : window_ok w -> tail w = head w -> contents w = [].
Proof. intros _ E. unfold contents, used. by rewrite E, Z.sub_diag. Qed.

Fixpoint drop_while (f : Z -> bool) (l : list Z) : list Z :=
  match l with
  | [] => []
  | x :: r => if f x then drop_while f r else l
  end.

Lemma update_tail_loop_spec fuel now size w :
  window_ok w -> (used w <= fuel)%nat ->
  exists w', update_tail_loop fuel now size w = Some w' /\ window_ok w' /\
    contents w' = drop_while (fun t => negb (u32 (now - t) <=? size)) (contents w).
Proof.
  induction fuel as [|fuel IH] in w |- *; intros Hw Hf.
  - assert (tail w = head w) as E by (pose proof (window_used_cases w Hw); destruct Hw; lia). exists w. cbn. rewrite (proj2 (Z.eqb_eq _ _)) by done.
    by rewrite contents_empty.
  - cbn [update_tail_loop]. destruct (Z.eqb_spec (tail w) (head w)) as [E|E]; [exists w; by rewrite contents_empty|].
    rewrite slot_get by (try done; by destruct Hw). cbn [mbind option_bind]. pose proof (contents_cons w Hw E) as C. rewrite C. cbn [drop_while].
    destruct (u32 (now - slot (tail w) w) <=? size); cbn [negb]; [by exists w; rewrite C|]. apply IH; [by apply dropped_ok|].
    rewrite <- contents_length, C in Hf. cbn in Hf. rewrite contents_length in Hf. change (used (dropped w) <= fuel)%nat. lia.
Qed.

Lemma count_loop_spec fuel w n :
  window_ok w -> (used w <= fuel)%nat -> 0 <= n -> n + Z.of_nat (used w) < 500 ->
  count_loop fuel (head w) (tail w) n = Some (n + Z.of_nat (used w)).
Proof.
  induction fuel as [|fuel IH] in w, n |- *; intros Hw Hf Hn Hb.
  - pose proof (window_used_cases w Hw). cbn. rewrite (proj2 (Z.eqb_eq _ _)) by (destruct Hw; lia). f_equal. lia.
  - cbn [count_loop]. destruct (Z.eqb_spec (tail w) (head w)) as [E|E]; [pose proof (window_used_cases w Hw); f_equal; lia|].
    pose proof (contents_cons w Hw E) as C. apply (f_equal (@length Z)) in C. cbn in C. rewrite !contents_length in C. pose proof (dropped_ok w Hw) as Hd.
    assert (u16 (n + 1) = n + 1) as -> by (apply Z.mod_small; lia). change (next_index (tail w)) with (tail (dropped w)).
    assert (u16 (tail (dropped w)) = tail (dropped w)) as -> by (apply Z.mod_small; destruct Hd; lia).
    rewrite (proj2 (Z.leb_gt _ _)) by (unfold TIMESTAMP_QUEUE_SIZE; lia). change (head w) with (head (dropped w)). rewrite IH; [f_equal|..]; try done; lia.
Qed.

Lemma get_count_spec now size w :
  window_ok w ->
  exists w', sliding_window_get_count now size w = Some (w', Z.of_nat (length (contents w'))) /\ window_ok w' /\
    contents w' = drop_while (fun t => negb (u32 (now - t) <=? size)) (contents w).
Proof.
  intros Hw. destruct (update_tail_loop_spec 500 now size w Hw) as (w' & E & Hw' & C); [pose proof (used_bound w); lia|].
  exists w'. unfold sliding_window_get_count, sliding_window_update_tail. rewrite E. cbn [mbind option_bind]. split; [|done].
  destruct (Z.eqb_spec (tail w') (head w')) as [Ee|Ee]; [by rewrite contents_empty|].
  pose proof (used_bound w'). assert (u16 (tail w') = tail w') as -> by (apply Z.mod_small; destruct Hw'; lia).
  rewrite count_loop_spec by (try done; lia). cbn. by rewrite contents_length.
Qed.

Lemma add_int_spec now w :
  window_ok w ->
  exists w', sliding_window_add_int now w = Some w' /\ window_ok w' /\
    contents w' = (if Nat.eqb (length (contents w)) 499 then tl (contents w) else contents w) ++ [now].
Proof.
  intros Hw. unfold sliding_window_add_int. rewrite arr_set_Some by (destruct Hw; unfold zlen; lia). cbn [mbind option_bind].
  eexists. split; [reflexivity|]. set (w1 := if next_index (head w) =? tail w then dropped w else w).
  assert (H1 : window_ok w1 /\ head w1 = head w /\ timestamps w1 = timestamps w /\ next_index (head w) <> tail w1 /\
    contents w1 = if Nat.eqb (length (contents w)) 499 then tl (contents w) else contents w).
  { pose proof (window_used_cases w Hw) as Hu. rewrite contents_length. unfold w1. destruct Hw as [Hl Hh Ht] eqn:EH.
    pose proof (next_cases _ Hh) as Nh. pose proof (next_cases _ Ht) as Nt.
    destruct (Z.eqb_spec (next_index (head w)) (tail w)) as [E|E].
    - assert (U : used w = 499%nat) by lia. rewrite U. cbn [Nat.eqb]. rewrite (contents_cons w Hw) by lia. cbn [tl].
      split; [by apply dropped_ok|]. cbn. split; [done|]. split; [done|]. split; [lia|done].
    - destruct (Nat.eqb_spec (used w) 499); [lia|]. done. }
  destruct H1 as (Hw1 & Eh & Et & Hn & <-).
  replace (if next_index (head w) =? tail w then next_index (tail w) else tail w) with (tail w1) by (unfold w1; by destruct (_ =? _)).
  rewrite <- Et, <- Eh in *. clear Eh Et. clearbody w1. clear w Hw. set (w' := mk_window _ _ _).
  assert (Hw' : window_ok w') by (destruct Hw1; split; cbn; [by rewrite length_insert|apply Z.mod_pos_bound; done|done]). split; [done|].
  pose proof (window_used_cases _ Hw1) as U1. pose proof (window_used_cases _ Hw') as U2. destruct Hw1 as [Hl Hh Ht]. cbn in U2. pose proof (next_cases _ Hh) as Nh.
  assert (U : used w' = S (used w1)) by lia. unfold contents. rewrite U, seq_S, map_app. cbn [map]. f_equal.
  - apply map_ext_in. intros k Hk%in_seq. unfold slot. cbn [tail timestamps w']. rewrite !nth_lookup, list_lookup_insert_ne; [done|].
    destruct (Z_lt_ge_dec (tail w1 + Z.of_nat k) 500); [rewrite Z.mod_small by lia; lia|].
    rewrite <- (Z.mod_unique (tail w1 + Z.of_nat k) 500 1 (tail w1 + Z.of_nat k - 500)) by lia. lia.
  - unfold slot. cbn [tail timestamps w' Nat.add]. replace ((tail w1 + Z.of_nat (used w1)) mod 500) with (head w1).
    { by rewrite nth_lookup, list_lookup_insert_eq by lia. }
    destruct U1 as [[? ->]|[? ->]]; [rewrite Z.mod_small; lia|]. rewrite <- (Z.mod_unique _ 500 1 (head w1)); lia.
Qed.

(** ** What the count means *)

(** An interrupt or a count at a time of a clock that does not wrap. *)
Inductive window_event := WInterrupt (t : Z) | WCount (t : Z).
Definition event_time (e : window_event) : Z := match e with WInterrupt t | WCount t => t end.

Fixpoint run_window (size : Z) (evs : list window_event) (w : sliding_window_t) : option sliding_window_t :=
  match evs with
  | [] => Some w
  | WInterrupt t :: evs => w ← sliding_window_add_int (u32 t) w; run_window size evs w
  | WCount t :: evs => r ← sliding_window_get_count (u32 t) size w; run_window size evs (fst r)
  end.

Fixpoint interrupts (evs : list window_event) : list Z :=
  match evs with
  | [] => []
  | WInterrupt t :: evs => t :: interrupts evs
  | WCount _ :: evs => interrupts evs
  end.

Definition recent (size now : Z) (ts : list Z) : list Z := List.filter (fun t => now - t <=? size) ts.
Definition expired (size now : Z) (ts : list Z) : list Z := List.filter (fun t => negb (now - t <=? size)) ts.

Lemma u32_diff now t : 0 <= now - t < 4294967296 -> u32 (u32 now - u32 t) = now - t.
Proof. intros H. unfold u32. rewrite <- Zminus_mod. by apply Z.mod_small. Qed.

Section meaning.
Context (size : Z).

(** [now] comes after all times of [l], and the clock did not go once round since. *)
Definition before (l : list Z) (now : Z) : Prop := forall t, t ∈ l -> 0 <= now - t < 4294967296.

Lemma all_recent l now : (forall t, t ∈ l -> now - t <= size) -> recent size now l = l /\ expired size now l = [].
Proof.
  intros H. induction l as [|x l IH]; [done|]. unfold recent, expired in *. cbn. rewrite (proj2 (Z.leb_le (now - x) size)) by (apply H; left). cbn.
  destruct IH as [-> ->]; [|done]. intros t Ht. apply H. by right.
Qed.

Lemma sorted_split l now : StronglySorted Z.le l ->
  l = expired size now l ++ recent size now l /\ (before l now -> drop_while (fun t => negb (u32 (u32 now - t) <=? size)) (map u32 l) = map u32 (recent size now l)).
Proof.
  induction 1 as [|x l Hl IH Hx]; [done|].
  assert (Hb : before (x :: l) now -> before l now /\ u32 (u32 now - u32 x) = now - x).
  { intros Hb. split; [intros t Ht; apply Hb; by right|]. apply u32_diff, Hb. left. }
  destruct (Z.leb_spec (now - x) size) as [H|H].
  - destruct (all_recent (x :: l) now) as [Er Ee].
    { intros t [->|Ht]%elem_of_cons; [done|]. rewrite Forall_forall in Hx. specialize (Hx t Ht). lia. }
    rewrite Er, Ee. split; [done|]. intros [_ E]%Hb. cbn. rewrite E. by rewrite (proj2 (Z.leb_le _ _)) by done.
  - destruct IH as [IH1 IH2]. unfold recent, expired in *. cbn. rewrite (proj2 (Z.leb_gt _ _)) by done. cbn. split; [by rewrite <- IH1|].
    intros [Hb' E]%Hb. rewrite E, (proj2 (Z.leb_gt _ _)) by done. cbn. by apply IH2.
Qed.

(** Of the interrupts [m] before [now] the ring holds the last ones; the others
    are too old, or the ring is full. *)
Definition holds (now : Z) (m p l : list Z) (w : sliding_window_t) : Prop :=
  window_ok w /\ m = p ++ l /\ contents w = map u32 l /\ ((forall t, t ∈ p -> size < now - t) \/ length l = 499%nat).

Lemma holds_later now now' m p l w : now <= now' -> holds now m p l w -> holds now' m p l w.
Proof. intros H (H1 & H2 & H3 & H4). repeat split; try done; try apply H1. destruct H4 as [H4|]; [left|by right]. intros t Ht. specialize (H4 t Ht). lia. Qed.

Lemma interrupt_step now m p l w :
  holds now m p l w -> exists w' p' l', sliding_window_add_int (u32 now) w = Some w' /\ holds now (m ++ [now]) p' l' w'.
Proof.
  intros (Hw & -> & Hc & Hp). destruct (add_int_spec (u32 now) w Hw) as (w' & E & Hw' & Hc'). rewrite Hc, length_map in Hc'. exists w'.
  destruct (Nat.eqb_spec (length l) 499) as [Hl|Hl].
  - destruct l as [|x l]; [done|]. exists (p ++ [x]), (l ++ [now]). split; [done|]. split; [done|]. split; [by rewrite <- !app_assoc|].
    split; [by rewrite map_app|]. right. rewrite length_app. cbn in *. lia.
  - exists p, (l ++ [now]). split; [done|]. split; [done|]. split; [by rewrite <- app_assoc|]. split; [by rewrite map_app|]. left. by destruct Hp.
Qed.

Lemma count_step now m p l w :
  StronglySorted Z.le m -> before m now -> holds now m p l w ->
  exists w' p', sliding_window_get_count (u32 now) size w = Some (w', Z.of_nat (length (recent size now l))) /\ holds now m p' (recent size now l) w'.
Proof.
  intros Hs Hb (Hw & -> & Hc & Hp). destruct (get_count_spec (u32 now) size w Hw) as (w' & E & Hw' & Hc').
  apply StronglySorted_app in Hs as (Hpl & _ & Hl). destruct (sorted_split l now Hl) as [Hsp Hd].
  rewrite Hc, Hd in Hc' by (intros t Ht; apply Hb, elem_of_app; by right). rewrite Hc', length_map in E. exists w', (p ++ expired size now l). split; [done|].
  split; [done|]. split; [by rewrite <- app_assoc, <- Hsp|]. split; [done|].
  assert (He : forall t, t ∈ expired size now l -> t ∈ l /\ size < now - t).
  { intros t Ht%list_elem_of_In. apply filter_In in Ht as [Ht Hn]. split; [by apply list_elem_of_In|]. apply negb_true_iff, Z.leb_gt in Hn. done. }
  destruct (expired size now l) as [|x r]; [rewrite app_nil_r; destruct Hp as [|Hp]; [by left|right; cbn in Hsp; by rewrite <- Hsp]|].
  left. intros t [Ht|Ht]%elem_of_app; [|by apply He]. destruct (He x ltac:(left)) as [Hx Hxe]. specialize (Hpl t x Ht Hx). lia.
Qed.

Lemma run_window_holds evs m p l w t0 now :
  holds t0 m p l w -> StronglySorted Z.le (m ++ map event_time evs ++ [now]) -> before (m ++ map event_time evs) now ->
  (forall t, t ∈ map event_time evs ++ [now] -> t0 <= t) ->
  exists w' p' l', run_window size evs w = Some w' /\ holds now (m ++ interrupts evs) p' l' w' /\
    StronglySorted Z.le (m ++ interrupts evs) /\ before (m ++ interrupts evs) now.
Proof.
  induction evs as [|[t|t] evs IH] in m, p, l, w, t0 |- *; intros Hh Hs Hb Ht0; cbn [run_window interrupts map event_time app] in *.
  - exists w, p, l. rewrite app_nil_r in *. split; [done|]. split; [|split; [by apply StronglySorted_app in Hs as (_ & ? & _)|done]]. eapply holds_later; [|exact Hh]. apply Ht0. left.
  - apply (holds_later t0 t) in Hh; [|apply Ht0; left]. destruct (interrupt_step _ _ _ _ _ Hh) as (w' & p' & l' & -> & Hh'). cbn [mbind option_bind].
    replace (m ++ t :: interrupts evs) with ((m ++ [t]) ++ interrupts evs) by (by rewrite <- app_assoc). apply (IH _ p' l' w' t Hh').
    + by rewrite <- app_assoc.
    + by rewrite <- app_assoc.
    + intros x Hx. apply StronglySorted_app in Hs as (_ & _ & Hs). apply StronglySorted_cons in Hs as [Hs _]. rewrite Forall_forall in Hs. by apply Hs.
  - apply (holds_later t0 t) in Hh; [|apply Ht0; left].
    pose proof Hs as (Hmt & Hm & Hs')%StronglySorted_app. apply StronglySorted_cons in Hs' as [Ht Hs']. rewrite Forall_forall in Ht.
    destruct (count_step t m p l w Hm) as (w' & p' & -> & Hh'); [|done|].
    { intros x Hx. specialize (Hmt x t Hx ltac:(left)). specialize (Hb x). specialize (Ht now). set_unfold in Hb. set_unfold in Ht. 
      assert (0 <= now - x < 4294967296) by auto. assert (t <= now) by auto. lia. }
    cbn [mbind option_bind fst]. apply (IH _ p' (recent size t l) w' t Hh'); [|..].
    + apply StronglySorted_app. split; [|done]. intros x y Hx Hy. apply Hmt; [done|by right].
    + intros x Hx. apply Hb. set_unfold. destruct Hx; auto.
    + done.
Qed.
End meaning.

(** C20: the window counts the interrupts of the last seconds exactly: for interrupts and counts at any times in order, on a clock of 32 bits that went round at most once since the first of them, the count is the number of interrupts that are at most the size of the window old, or 499 if there are more; no operation reads or writes outside the ring and the loops end. *)
Theorem window_counts_interrupts size evs now :
  StronglySorted Z.le (map event_time evs ++ [now]) -> before (map event_time evs) now ->
  exists w w', run_window size evs g_int_window_start = Some w /\
    sliding_window_get_count (u32 now) size w = Some (w', Z.min 499 (Z.of_nat (length (recent size now (interrupts evs))))).
Proof.
  intros Hs Hb.
  assert (H0 : forall t0, holds size t0 [] [] [] g_int_window_start).
  { intros t0. split; [apply window_ok_start|]. split; [done|]. split; [done|]. left. by intros t ?%elem_of_nil. }
  destruct (run_window_holds size evs [] [] [] _ (hd now (map event_time evs)) now (H0 _)) as (w & p & l & Hr & Hh & Hs' & Hb'); [done|done|..].
  { destruct (map event_time evs) as [|x r]; cbn in *; [set_solver|]. apply StronglySorted_cons in Hs as [Hx _]. rewrite Forall_forall in Hx. set_solver. }
  destruct (count_step size now _ p l w Hs' Hb' Hh) as (w' & p' & Hc & _ & E & _ & Hp). exists w, w'. split; [done|]. rewrite Hc. do 2 f_equal.
  cbn [app] in E. rewrite E. unfold recent at 2. rewrite List.filter_app, length_app.
  assert (Hl : List.filter (fun t => now - t <=? size) (recent size now l) = recent size now l).
  { apply all_recent. intros t Ht%list_elem_of_In. apply filter_In in Ht as [_ Ht]. by apply Z.leb_le in Ht. }
  rewrite Hl. destruct Hp as [Hp|Hp]; [|lia].
  assert (List.filter (fun t => now - t <=? size) p' = []) as ->.
  { clear -Hp. induction p' as [|x p' IH]; [done|]. cbn. rewrite (proj2 (Z.leb_gt _ _)) by (apply Hp; left). apply IH. intros t Ht. apply Hp. by right. }
  cbn [length app]. destruct Hh as (Hw & _ & Hcl & _). pose proof (used_bound w) as Hu. rewrite <- contents_length, Hcl, length_map in Hu.
  pose proof (List.filter_length_le (fun t => now - t <=? size) l) as Hf. unfold recent. lia.
Qed.

(** Four interrupts around the time the clock goes round, two of them in the last ten seconds. *)
Lemma window_counts_interrupts_witness :
  let evs := [WInterrupt 4294950000; WInterrupt 4294955000; WCount 4294961000; WInterrupt 4294967290; WInterrupt 4294967300] in
  exists w w', run_window 10000 evs g_int_window_start = Some w /\ sliding_window_get_count (u32 4294972000) 10000 w = Some (w', 2).
Proof.
  apply (window_counts_interrupts 10000 [WInterrupt 4294950000; WInterrupt 4294955000; WCount 4294961000; WInterrupt 4294967290; WInterrupt 4294967300] 4294972000).
  - cbn. repeat (constructor; [|repeat (constructor; [lia|]); constructor]). constructor.
  - intros t Ht. cbn in Ht. set_unfold in Ht. lia.
Defined.
