(* ===== verification/Gsensor.v ===== *)
(** * Motion and attitude ([my_gsensor.c])

    The thread of the motion sensor: its power and set-up through the power
    management of [my_pm.c], the motion interrupts collected in a window, the
    alarms of motion and of turning over, and the policy that switches the LTE
    module on and off with the motion in the smart mode. *)

From Stdlib Require Import SpecFloat.
From S2P Require Import Prelude Prog Pm Layout Float32 SettingsData Settings Attitude Board GsensorWindow.

Open Scope prog_scope.

Definition EIO : Z := 5.
Definition ENODEV : Z := 19.

Inductive gsensor_state_t := STATE_UNKNOWN | STATE_STATIC | STATE_MOTION.
#[export] Instance gsensor_state_eq_dec : EqDecision gsensor_state_t. Proof. solve_decision. Defined.

Inductive imu_odr_t := IMU_ODR_25HZ | IMU_ODR_50HZ | IMU_ODR_100HZ | IMU_ODR_200HZ | IMU_ODR_400HZ | IMU_ODR_800HZ | IMU_ODR_1600HZ | IMU_ODR_OTHER.
Definition imu_odr_to_hz (odr : imu_odr_t) : Z :=
  match odr with
  | IMU_ODR_25HZ => 25 | IMU_ODR_50HZ => 50 | IMU_ODR_100HZ => 100 | IMU_ODR_200HZ => 200 | IMU_ODR_400HZ => 400 | IMU_ODR_800HZ => 800
  | IMU_ODR_1600HZ => 1600 | IMU_ODR_OTHER => 1
  end.
Definition MY_IMU_ODR : imu_odr_t := IMU_ODR_100HZ.
Definition MY_BMI325_ID : Z := 0x45.
Definition IMU_INT_STATUS_ANY_MOTION : Z := 2.

(** The variables of the module; [time_count], [s_is_over_turn] and
    [s_gsensor_power_state] are static in their functions. *)
Record gsensor := mk_gsensor {
  sensor_ready : bool;
  last_gsensor_state : gsensor_state_t;
  current_gsensor_state : gsensor_state_t;
  g_int_window : sliding_window_t;
  s_attitude_ctx : attitude_ctx_t;
  time_count : Z;
  s_is_over_turn : bool;
  s_gsensor_power_state : bool;
  s_chip_id : Z
}.

Definition set_sensor_ready (x : bool) (g : gsensor) : gsensor := mk_gsensor x (last_gsensor_state g) (current_gsensor_state g) (g_int_window g) (s_attitude_ctx g) (time_count g) (s_is_over_turn g) (s_gsensor_power_state g) (s_chip_id g).
Definition set_last_gsensor_state (x : gsensor_state_t) (g : gsensor) : gsensor := mk_gsensor (sensor_ready g) x (current_gsensor_state g) (g_int_window g) (s_attitude_ctx g) (time_count g) (s_is_over_turn g) (s_gsensor_power_state g) (s_chip_id g).
Definition set_current_gsensor_state (x : gsensor_state_t) (g : gsensor) : gsensor := mk_gsensor (sensor_ready g) (last_gsensor_state g) x (g_int_window g) (s_attitude_ctx g) (time_count g) (s_is_over_turn g) (s_gsensor_power_state g) (s_chip_id g).
Definition set_int_window (x : sliding_window_t) (g : gsensor) : gsensor := mk_gsensor (sensor_ready g) (last_gsensor_state g) (current_gsensor_state g) x (s_attitude_ctx g) (time_count g) (s_is_over_turn g) (s_gsensor_power_state g) (s_chip_id g).
Definition set_attitude_ctx (x : attitude_ctx_t) (g : gsensor) : gsensor := mk_gsensor (sensor_ready g) (last_gsensor_state g) (current_gsensor_state g) (g_int_window g) x (time_count g) (s_is_over_turn g) (s_gsensor_power_state g) (s_chip_id g).
Definition set_time_count (x : Z) (g : gsensor) : gsensor := mk_gsensor (sensor_ready g) (last_gsensor_state g) (current_gsensor_state g) (g_int_window g) (s_attitude_ctx g) x (s_is_over_turn g) (s_gsensor_power_state g) (s_chip_id g).
Definition set_is_over_turn (x : bool) (g : gsensor) : gsensor := mk_gsensor (sensor_ready g) (last_gsensor_state g) (current_gsensor_state g) (g_int_window g) (s_attitude_ctx g) (time_count g) x (s_gsensor_power_state g) (s_chip_id g).
Definition set_gsensor_power_state (x : bool) (g : gsensor) : gsensor := mk_gsensor (sensor_ready g) (last_gsensor_state g) (current_gsensor_state g) (g_int_window g) (s_attitude_ctx g) (time_count g) (s_is_over_turn g) x (s_chip_id g).
Definition set_chip_id (x : Z) (g : gsensor) : gsensor := mk_gsensor (sensor_ready g) (last_gsensor_state g) (current_gsensor_state g) (g_int_window g) (s_attitude_ctx g) (time_count g) (s_is_over_turn g) (s_gsensor_power_state g) x.

Definition attitude_zero : attitude_ctx_t :=
  mk_attitude (mk_quat fzero fzero fzero fzero) (mk_euler fzero fzero fzero) false fzero fzero fzero fzero fzero (mk_vec fzero fzero fzero) (mk_vec fzero fzero fzero).
Definition gsensor_start : gsensor := mk_gsensor false STATE_STATIC STATE_STATIC g_int_window_start attitude_zero 0 false false 0.

(** ** Turning over *)

Definition NO_ANGLE : Z := 255.
Definition beyond (angle : f32) (threshold : Z) : bool := flt (of_int threshold) (fabsf angle) && negb (threshold =? NO_ANGLE).
Definition inside (angle : f32) (threshold : Z) : bool := flt (fabsf angle) (of_int threshold) || (threshold =? NO_ANGLE).

Definition tilted (c : imu_alm_config_t) (e : euler_angle_t) : bool :=
  beyond (roll e) (imu_roll_threshold c) || beyond (pitch e) (imu_pitch_threshold c) || beyond (yaw e) (imu_yaw_threshold c).
Definition upright (c : imu_alm_config_t) (e : euler_angle_t) : bool :=
  inside (roll e) (imu_roll_threshold c) && inside (pitch e) (imu_pitch_threshold c) && inside (yaw e) (imu_yaw_threshold c).

(** ** The policy of the smart mode *)

(** [s_smart_sub_mode_table]: whether the module stays on, at rest and in motion. *)
Definition s_smart_sub_mode_table : list (bool * bool) := [(false, false); (false, true); (false, true); (true, true); (true, true); (true, true)].

Section gsensor.
Context {D : Type} `{!BoardIO D}.
Notation task := (prog gsensor D).

Definition gsensor_is_required_mode : task bool :=
  c <- config;;
  let mode := current_mode (device_workmode_config c) in
  ret ((mode =? MY_MODE_SMART) || (mode =? MY_MODE_CONTINUOUS) || (mode =? MY_MODE_ALWAYS_ONLINE)).

(** ** Interrupt and timers *)

Definition imu_int_dither_timer_cb : task unit := do (my_send_msg MOD_GSENSOR MY_MSG_GSENSOR_INT).
Definition gsensor_state_check_timer_cb : task unit := do (my_send_msg MOD_GSENSOR MY_MSG_MOTION_CHECK).
Definition imu_int_callback : task unit := do (my_send_msg MOD_GSENSOR MY_MSG_GSENSOR_INT).
Definition gsensor_algorithm_timer_cb : task unit := do (my_send_msg MOD_GSENSOR MY_MSG_READ_GSENSOR_DATA).

(** ** Power and set-up *)

Definition my_gsensor_pwr_on (on : bool) : task Z :=
  st <- get s_gsensor_power_state;;
  if Bool.eqb st on then ret 0 else
  err <- ask_ret (gpio_pin_set_dt gsensor_pwr_gpio (if on then 1 else 0));;
  if err =? 0 then modify (set_gsensor_power_state on);; ret err else ret err.

(** The first set-up step that fails gives the result. *)
Fixpoint imu_steps (steps : list hw_step) : task Z :=
  match steps with
  | [] => ret 0
  | s :: steps => r <- ask_ret (hw_setup s);; if negb (r =? 0) then ret r else imu_steps steps
  end.

Definition gsensor_motion_int_config : task Z :=
  r <- imu_steps [imu_set_config; imu_int_pin_config; imu_int_map; imu_set_any_motion_config; imu_feature_enable; imu_register_int_callback];;
  if negb (r =? 0) then ret r else
  do (k_msleep 50);;
  do (my_start_timer MY_TIMER_GSENSOR_STATE_CHECK 2000 true);;
  do (my_start_timer MY_TIMER_GSENSOR_ALGORITHM (1000 / imu_odr_to_hz MY_IMU_ODR) true);;
  ret 0.

Definition bmi325_check_id : task bool :=
  r <- ask imu_get_chip_id;;
  if fst r =? 0 then
    let id := u8 (nth 0 (snd r) 0) in
    modify (set_chip_id id);;
    ret (id =? MY_BMI325_ID)
  else ret false.

Definition get_chip_id : task Z := get s_chip_id.

Definition my_bmi325_init : task Z :=
  do (k_msleep 50);;
  r <- ask_ret (hw_setup imu_init);;
  if negb (u8 r =? 0) then ret (- ENODEV) else
  found <- bmi325_check_id;;
  if found : bool then
    required <- gsensor_is_required_mode;;
    err <- (if required : bool then gsensor_motion_int_config else ret 0);;
    if negb (err =? 0) then ret (- ENODEV) else
    modify (set_sensor_ready true);;
    ret 0
  else ret (- ENODEV).

Definition gsensor_pm_init : task Z :=
  err <- my_gsensor_pwr_on false;;
  if negb (err =? 0) then ret err else
  modify (set_sensor_ready false);;
  ret 0.

Definition gsensor_pm_suspend : task Z :=
  do (my_stop_timer MY_TIMER_IMU_INT_DITHER);;
  modify (set_sensor_ready false);;
  do (my_stop_timer MY_TIMER_GSENSOR_STATE_CHECK);;
  do (my_stop_timer MY_TIMER_GSENSOR_ALGORITHM);;
  my_gsensor_pwr_on false;;
  ret 0.

(** At most [n] attempts. *)
Fixpoint init_attempts (n : nat) : task Z :=
  match n with
  | O => ret (- ENODEV)
  | S n =>
      result <- my_bmi325_init;;
      if result =? 0 then ret 0 else
      do (k_msleep 10);;
      match n with O => ret result | _ => init_attempts n end
  end.

Definition gsensor_pm_resume : task Z :=
  my_gsensor_pwr_on true;;
  result <- init_attempts 3;;
  if negb (result =? 0) then
    my_gsensor_pwr_on false;;
    modify (set_sensor_ready false);;
    ret (- EIO)
  else ret 0.

(** Port 7, pin 7: the power of the sensor. *)
Definition my_gsensor_init : task Z :=
  r <- ask_ret (hw_setup (device_ready 7));;
  if r =? 0 then ret (- ENODEV) else
  r <- ask_ret (hw_setup (device_ready 8));;
  if r =? 0 then ret (- ENODEV) else
  err <- ask_ret (hw_setup (pin_configure 7));;
  if negb (err =? 0) then ret err else
  my_gsensor_pwr_on true;;
  ret 0.

(** ** Motion *)

Definition my_gsensor_get_state : task gsensor_state_t := get current_gsensor_state.

Definition smart_mode_apply_lte_policy : task unit :=
  c <- config;;
  let m := device_workmode_config c in
  state <- my_gsensor_get_state;;
  let is_moving := negb (bool_decide (state = STATE_STATIC)) in
  raw_interval <- checked (arr_get (if is_moving then moving_interval m else static_interval m) (sub_mode m));;
  if negb is_moving && (raw_interval =? 0) then do (my_stop_timer MY_TIMER_LTE_POWER) else
  row <- checked (arr_get s_smart_sub_mode_table (sub_mode m));;
  let cell_always_on := if is_moving then snd row else fst row in
  do (my_send_msg MOD_LTE MY_MSG_LTE_PWRON);;
  if cell_always_on : bool then do (my_stop_timer MY_TIMER_LTE_POWER)
  else do (my_start_timer MY_TIMER_LTE_POWER (u32 (raw_interval * 1000)) true).

Definition get_motion_status : task unit :=
  state <- my_gsensor_get_state;;
  c <- config;;
  (if motdetalm_sw (motdetalm_config c) =? 0 then ret tt else
   if decide (state = STATE_STATIC) then send_alarm_message_to_lte ALARM_MOVE_START None
   else send_alarm_message_to_lte ALARM_MOVE_STOP None);;
  smart_mode_apply_lte_policy.

Definition window_count : task Z :=
  now <- ask_ret k_uptime_get_32;;
  c <- config;;
  w <- get g_int_window;;
  r <- checked (sliding_window_get_count (u32 now) (u32 (motdet_duration (motdet_config c) * 1000)) w);;
  modify (set_int_window (fst r));;
  ret (snd r).

Definition sliding_window_judge_state : task gsensor_state_t :=
  int_count <- window_count;;
  c <- config;;
  ret (if motdet_vibration (motdet_config c) <=? int_count then STATE_MOTION else STATE_STATIC).

Definition my_gsensor_motion_state_check : task unit :=
  ready <- get sensor_ready;;
  if negb ready then ret tt else
  window_count;;
  st <- sliding_window_judge_state;;
  modify (set_current_gsensor_state st);;
  last <- get last_gsensor_state;;
  if decide (last = st) then ret tt else
  modify (set_last_gsensor_state st);;
  get_motion_status.

Definition gsensor_int_handler : task unit :=
  r <- ask imu_read_int_status;;
  if Z.land (nth 0 (snd r) 0) IMU_INT_STATUS_ANY_MOTION =? 0 then ret tt else
  now <- ask_ret k_uptime_get_32;;
  w <- get g_int_window;;
  w <- checked (sliding_window_add_int (u32 now) w);;
  modify (set_int_window w).

(** ** Attitude *)

Definition my_gsensor_overturn_check (e : euler_angle_t) : task unit :=
  conf <- config;;
  let c := imu_alm_config conf in
  if imu_alm_sw c =? 0 then modify (fun g => set_is_over_turn false (set_time_count 0 g)) else
  g <- get id;;
  let n := time_count g + 1 in
  if negb (s_is_over_turn g) && tilted c e then
    if imu_duration_time c * imu_odr_to_hz MY_IMU_ODR <? n then
      modify (fun g => set_is_over_turn true (set_time_count 0 g));;
      send_alarm_message_to_lte ALARM_FILP None
    else modify (set_time_count n)
  else if s_is_over_turn g && upright c e then
    if recover_time c * imu_odr_to_hz MY_IMU_ODR <? n then
      modify (fun g => set_is_over_turn false (set_time_count 0 g));;
      send_alarm_message_to_lte ALARM_FILP_BACK None
    else modify (set_time_count n)
  else modify (set_time_count 0).

Definition attitude_read_imu_and_update `{!Libm} (odr : Z) : task (option euler_angle_t) :=
  r <- ask imu_read;;
  if negb (fst r =? 0) then ret None else
  c <- config;;
  ctx <- get s_attitude_ctx;;
  let '(err, ctx) := attitude_update c ctx (to_reading (snd r)) (sample_dt odr) in
  modify (set_attitude_ctx ctx);;
  ret (if err =? 0 then Some (euler ctx) else None).

Definition my_gsensor_read_data `{!Libm} : task unit :=
  o <- attitude_read_imu_and_update (imu_odr_to_hz MY_IMU_ODR);;
  match o with
  | None => ret tt
  | Some e => my_gsensor_overturn_check e
  end.
End gsensor.

(** The bias of the gyroscope is kept with the settings. *)
Definition my_gsensor_save_imu_bias {D} `{!ConfigIO D} : prog gsensor D unit :=
  g <- get id;;
  if negb (sensor_ready g) then ret tt else
  let b := gyro_bias (s_attitude_ctx g) in
  update_config (fun c => put (mk_imu_zero_bias (imu_zero_bias_flag (imu_zero_bias_config c)) (f32_bits (vx b)) (f32_bits (vy b)) (f32_bits (vz b))) c);;
  c <- config;;
  do (my_user_data_write ZMS_ID_IMU_ZERO_BIAS_CONFIG (bytes_of (imu_zero_bias_config c))).

(** ** The thread and the power management *)

(** The contexts of the power management and the variables of the module. *)
Record gthread (D : Type) := mk_gthread { g_pm : list (pm_device_ctx_t (gsensor * D)); g_vars : gsensor }.
Arguments mk_gthread {D} _ _.
Arguments g_pm {D} _.
Arguments g_vars {D} _.

Section thread.
Context {D : Type} `{!BoardIO D} `{!PmRuntime D} `{!Libm}.
Notation thread := (prog (gthread D) D).

(** The buses are the device's. *)
#[export] Instance gsensor_runtime : PmRuntime (gsensor * D) := {|
  has_bus b := has_bus (W := D) b;
  pm_device_runtime_get b w := let '(d, r) := pm_device_runtime_get b (snd w) in ((fst w, d), r);
  pm_device_runtime_put b w := let '(d, r) := pm_device_runtime_put b (snd w) in ((fst w, d), r)
|}.

Definition as_callback (m : prog gsensor D Z) : gsensor * D -> option (gsensor * D * Z) := fun w =>
  match m (fst w) (snd w) with
  | Done (r, g, d) => Some ((g, d), r)
  | _ => None
  end.

Definition gsensor_pm_ops : pm_device_ops_t (gsensor * D) :=
  mk_ops (Some (as_callback gsensor_pm_suspend)) (Some (as_callback gsensor_pm_resume)) (Some (as_callback gsensor_pm_init)).

(** A call of the power management, which calls the module back. *)
Definition in_pm {A} (m : prog (list (pm_device_ctx_t (gsensor * D))) (gsensor * D) A) : thread A := fun y d =>
  match m (g_pm y) (g_vars y, d) with
  | Done (a, p, (g, d)) => Done (a, mk_gthread p g, d)
  | NoFuel => NoFuel
  | Undef => Undef
  end.

Definition in_module {A} : prog gsensor D A -> thread A := zoom g_vars (fun g y => mk_gthread (g_pm y) g).

Definition pm_resume : thread unit := in_pm (Pm.my_pm_device_resume Pm.MY_PM_DEV_GSENSOR);; ret tt.
Definition pm_suspend : thread unit := in_pm (Pm.my_pm_device_suspend Pm.MY_PM_DEV_GSENSOR);; ret tt.

(** What the thread does before its loop. *)
Definition my_gsensor_task_start : thread unit :=
  in_pm (Pm.my_pm_device_register Pm.MY_PM_DEV_GSENSOR (Some gsensor_pm_ops));;
  required <- in_module gsensor_is_required_mode;;
  if required : bool then pm_resume else ret tt.

(** One message of the loop. *)
Definition my_gsensor_task_handle (m : MY_MAIN_TASK_MSG) : thread unit :=
  match m with
  | MY_MSG_GSENSOR_HIGH_POWER => pm_resume
  | MY_MSG_GSENSOR_LOW_POWER => pm_suspend
  | MY_MSG_GSENSOR_INT => in_module gsensor_int_handler
  | MY_MSG_READ_GSENSOR_DATA => in_module my_gsensor_read_data
  | MY_MSG_MOTION_CHECK => in_module my_gsensor_motion_state_check
  | _ => ret tt
  end.
End thread.
