(* ===== verification/GsensorProofs.v ===== *)
(** * Motion and attitude: alarms, power, safety

    The alarms of turning over come exactly when the device was turned, or
    upright again, for the time of the settings; the alarms of motion are
    interchanged; the power of the sensor follows the state of the power
    management; no message leaves the thread stuck. *)

From S2P Require Import Prelude Str Prog Pm Float32 SettingsData Settings Attitude Board GsensorWindow Gsensor.

Open Scope prog_scope.

#[local] Opaque sliding_window_get_count sliding_window_add_int.

(** ** Runs of samples *)

Section runs.
Context {A : Type} (P : A -> bool).

Fixpoint leading (l : list A) : nat := match l with [] => 0 | x :: l => if P x then S (leading l) else 0 end.
(** How many of the last samples satisfy [P]. *)
Definition trailing (l : list A) : nat := leading (rev l).

Lemma trailing_snoc l x : trailing (l ++ [x]) = if P x then S (trailing l) else 0%nat.
Proof. unfold trailing. by rewrite rev_app_distr. Qed.

Lemma leading_split l : exists r, l = take (leading l) l ++ r /\ forallb P (take (leading l) l) = true.
Proof.
  induction l as [|x l (r & IH & Hf)]; [by exists []|]. cbn. destruct (P x) eqn:E; [|by exists (x :: l)]. exists r. cbn. rewrite E. cbn. split; [by f_equal|done].
Qed.

Lemma leading_le l : (leading l <= length l)%nat.
Proof. induction l as [|x l IH]; cbn; [done|]. destruct (P x); lia. Qed.

Lemma forallb_rev l : forallb P (rev l) = forallb P l.
Proof. induction l as [|x l IH]; [done|]. cbn. rewrite forallb_app, IH. cbn. rewrite andb_true_r. apply andb_comm. Qed.

Lemma trailing_split l : exists a r, l = a ++ r /\ forallb P r = true /\ length r = trailing l.
Proof.
  destruct (leading_split (rev l)) as (r & E & Hf). exists (rev r), (rev (take (leading (rev l)) (rev l))).
  split; [rewrite <- rev_app_distr, <- E; by rewrite rev_involutive|]. split; [by rewrite forallb_rev|]. rewrite length_rev, length_take. unfold trailing.
  pose proof (leading_le (rev l)). lia.
Qed.

(** No more than [n] samples in a row satisfy [P]. *)
Definition no_run (n : Z) (l : list A) : Prop := forall a r b, l = a ++ r ++ b -> forallb P r = true -> zlen r <= n.

Lemma no_run_trailing n l : no_run n l -> Z.of_nat (trailing l) <= n.
Proof. intros H. destruct (trailing_split l) as (a & r & E & Hf & <-). apply (H a r []); [by rewrite app_nil_r|done]. Qed.

Lemma no_run_init n l x : no_run n (l ++ [x]) -> no_run n l.
Proof. intros H a r b -> Hf. apply (H a r (b ++ [x])); [by rewrite <- !app_assoc|done]. Qed.
End runs.

(** ** Turning over *)

Section overturn.
Context {D : Type} `{!BoardIO D} (conf : config_param_t).
Hypothesis Hconf : forall d : D, gConfigParam d = conf.
Hypothesis Hsw : imu_alm_sw (imu_alm_config conf) <> 0.
Notation task := (prog gsensor D).
Notation c := (imu_alm_config conf).

(** The samples that count in a state, how many of them are tolerated, and the alarm that follows. *)
Definition counts (turned : bool) (e : euler_angle_t) : bool := if turned then upright c e else tilted c e.
Definition tolerated (turned : bool) : Z := 100 * (if turned then recover_time c else imu_duration_time c).
Definition turn_alarm (turned : bool) : alarm_type_t := if turned then ALARM_FILP_BACK else ALARM_FILP.

Fixpoint checks (es : list euler_angle_t) : task unit :=
  match es with [] => ret tt | e :: es => my_gsensor_overturn_check e;; checks es end.

Lemma checks_app a b g d : checks (a ++ b) g d = bind (checks a) (fun _ => checks b) g d.
Proof. induction a as [|e a IH] in g, d |- *; [done|]. cbn [checks app]. unfold bind. destruct (my_gsensor_overturn_check e g d) as [[[[] g'] d']| |]; [|done..]. apply IH. Qed.

Lemma check_step turned e g d :
  s_is_over_turn g = turned ->
  my_gsensor_overturn_check e g d =
    if counts turned e then
      if tolerated turned <? time_count g + 1 then send_alarm_message_to_lte (turn_alarm turned) None (set_is_over_turn (negb turned) (set_time_count 0 g)) d
      else Done (tt, set_time_count (time_count g + 1) g, d)
    else Done (tt, set_time_count 0 g, d).
Proof.
  intros Ht. unfold my_gsensor_overturn_check, bind, config, world, get, modify. rewrite Hconf, (proj2 (Z.eqb_neq _ _)) by done. cbn [id].
  change (imu_odr_to_hz MY_IMU_ODR) with 100. rewrite Ht. unfold counts, tolerated. rewrite !(Z.mul_comm 100). destruct turned; cbn [negb andb].
  - destruct (upright c e); [|done]. by destruct (_ <? _).
  - destruct (tilted c e); [|done]. by destruct (_ <? _).
Qed.

Lemma checks_quiet turned es g d :
  s_is_over_turn g = turned -> time_count g = 0 -> no_run (counts turned) (tolerated turned) es ->
  checks es g d = Done (tt, set_time_count (Z.of_nat (trailing (counts turned) es)) g, d).
Proof.
  intros Ht H0. induction es as [|e es IH] using rev_ind; intros Hn; [destruct g; cbn in *; by subst|].
  rewrite checks_app. erewrite bind_done by (apply IH; by eapply no_run_init). apply no_run_trailing in Hn. rewrite trailing_snoc in *.
  cbn [checks]. unfold bind. rewrite (check_step turned) by (by destruct g). destruct (counts turned e); [|by destruct g].
  rewrite (proj2 (Z.ltb_ge _ _)) by (cbn; lia). destruct g; unfold set_time_count, ret; cbn. do 4 f_equal. lia.
Qed.

Lemma checks_run turned n es g d :
  s_is_over_turn g = turned -> forallb (counts turned) es = true -> time_count g + zlen es <= tolerated turned -> time_count g = n ->
  checks es g d = Done (tt, set_time_count (n + zlen es) g, d).
Proof.
  intros Ht Hf Hl <-. induction es as [|e es IH] in g, Ht, Hf, Hl |- *; cbn [checks].
  - cbn. rewrite Z.add_0_r. by destruct g.
  - cbn in Hf. apply andb_true_iff in Hf as [He Hf]. rewrite zlen_cons in *. pose proof (zlen_nonneg es).
    unfold bind. rewrite (check_step turned) by done. rewrite He, (proj2 (Z.ltb_ge _ _)) by lia.
    rewrite IH by (try done; destruct g; cbn in *; lia). destruct g; cbn. do 3 f_equal. unfold set_time_count. cbn. f_equal. lia.
Qed.
End overturn.

(** C21: while the device is not turned over ([turned] false), no sequence of samples without more tilted ones in a row than the settings tolerate causes an alarm, and the first longer run of them causes exactly the alarm of turning over, at its first sample beyond the tolerated ones; the alarm leaves the module turned over with nothing counted, where the same holds of upright samples and the alarm of turning back. *)
Theorem overturn_alarms {D} `{!BoardIO D} conf turned (g : gsensor) (d : D) es :
  (forall d : D, gConfigParam d = conf) -> imu_alm_sw (imu_alm_config conf) <> 0 -> 0 <= tolerated conf turned ->
  s_is_over_turn g = turned -> time_count g = 0 -> no_run (counts conf turned) (tolerated conf turned) es ->
  (exists n, 0 <= n <= tolerated conf turned /\ checks es g d = Done (tt, set_time_count n g, d)) /\
  forall run, (es = [] \/ exists es0 e, es = es0 ++ [e] /\ counts conf turned e = false) ->
    forallb (counts conf turned) run = true -> zlen run = tolerated conf turned + 1 ->
    checks (es ++ run) g d = send_alarm_message_to_lte (turn_alarm turned) None (set_is_over_turn (negb turned) (set_time_count 0 g)) d.
Proof.
  intros Hc Hsw Htol Ht H0 Hn. pose proof (checks_quiet conf Hc Hsw turned es g d Ht H0 Hn) as Hq. apply no_run_trailing in Hn. split; [eexists; split; [|exact Hq]; lia|].
  intros run He Hf Hl. rewrite checks_app. erewrite bind_done by exact Hq.
  assert (trailing (counts conf turned) es = 0%nat) as ->.
  { destruct He as [->|(es0 & e & -> & E)]; [done|]. by rewrite trailing_snoc, E. }
  assert (set_time_count (Z.of_nat 0) g = g) as -> by (destruct g; cbn in *; by subst).
  destruct (exists_last (l := run)) as (run0 & e & ->); [intros ->; rewrite zlen_nil in Hl; lia|]. rewrite forallb_app in Hf. cbn in Hf. apply andb_true_iff in Hf as [Hf He'].
  rewrite andb_true_r in He'. rewrite zlen_app in Hl. change (zlen [e]) with 1 in Hl.
  rewrite checks_app. erewrite bind_done by (eapply checks_run; [done|done|done|done|lia|done]). cbn [checks]. unfold bind.
  rewrite (check_step conf Hc Hsw turned) by (by destruct g). rewrite He', (proj2 (Z.ltb_lt _ _)) by (cbn; lia).
  replace (set_time_count 0 (set_time_count (0 + zlen run0) g)) with (set_time_count 0 g) by (by destruct g).
  destruct (send_alarm_message_to_lte _ _ _ _) as [[[[] ?] ?]| |]; done.
Qed.

(** ** The policy *)

(** The settings the policy indexes its tables with. *)
Definition policy_ok (c : config_param_t) : Prop :=
  let m := device_workmode_config c in 0 <= sub_mode m < 6 /\ zlen (static_interval m) = 6 /\ zlen (moving_interval m) = 6.

Lemma settings_policy c : setting_ok (device_workmode_config c) -> policy_ok c.
Proof.
  intros [[(_ & H1 & H2) _] H]. change (workmode_ok (device_workmode_config c) = true) in H. unfold workmode_ok, upto in H. rewrite !andb_true_iff in H.
  unfold policy_ok, zlen. rewrite H1, H2. intuition lia.
Qed.

(** What the policy does in a state. *)
Definition policy_calls (c : config_param_t) (state : gsensor_state_t) : list board_call :=
  let m := device_workmode_config c in
  let moving := negb (bool_decide (state = STATE_STATIC)) in
  let interval := nth (Z.to_nat (sub_mode m)) (if moving then moving_interval m else static_interval m) 0 in
  if negb moving && (interval =? 0) then [my_stop_timer MY_TIMER_LTE_POWER] else
  my_send_msg MOD_LTE MY_MSG_LTE_PWRON ::
  [if (if moving then 1 else 3) <=? sub_mode m then my_stop_timer MY_TIMER_LTE_POWER else my_start_timer MY_TIMER_LTE_POWER (u32 (interval * 1000)) true].

Lemma policy_makes {D} `{!BoardIO D} g (d : D) :
  policy_ok (gConfigParam d) -> smart_mode_apply_lte_policy g d = Done (tt, g, after (policy_calls (gConfigParam d) (current_gsensor_state g)) d).
Proof.
  intros (H1 & H2 & H3). unfold smart_mode_apply_lte_policy, my_gsensor_get_state, bind, config, world, get, policy_calls. set (c := gConfigParam d) in *.
  set (m := device_workmode_config c) in *. set (moving := negb _). set (l := if moving then moving_interval m else static_interval m).
  destruct (arr_get_Some l (sub_mode m)) as [i Hi]; [unfold l; by destruct moving; rewrite ?H2, ?H3|].
  rewrite Hi. apply arr_get_inv in Hi as [_ Hi]. apply nth_lookup_Some with (d := 0) in Hi. rewrite Hi. cbn [checked]. destruct (negb moving && (i =? 0)); [done|].
  assert (E : exists row, arr_get s_smart_sub_mode_table (sub_mode m) = Some row /\ fst row = (3 <=? sub_mode m) /\ snd row = (1 <=? sub_mode m)).
  { assert (K : sub_mode m = 0 \/ sub_mode m = 1 \/ sub_mode m = 2 \/ sub_mode m = 3 \/ sub_mode m = 4 \/ sub_mode m = 5) by lia.
    repeat (destruct K as [K|K]; [rewrite K; eexists; split; [reflexivity|done]|]). rewrite K. eexists. split; [reflexivity|done]. }
  destruct E as (row & -> & E1 & E2). cbn [checked]. rewrite E1, E2. clearbody moving. destruct moving; [destruct (1 <=? sub_mode m)|destruct (3 <=? sub_mode m)]; done.
Qed.

Lemma drop_while_idem f l : drop_while f (drop_while f l) = drop_while f l.
Proof. induction l as [|x l IH]; [done|]. cbn. destruct (f x) eqn:E; [done|]. cbn. by rewrite E. Qed.

(** The state the interrupts in the window stand for. *)
Definition judged (c : config_param_t) (now : Z) (w : sliding_window_t) : gsensor_state_t :=
  match sliding_window_get_count (u32 now) (u32 (motdet_duration (motdet_config c) * 1000)) w with
  | Some (_, n) => if motdet_vibration (motdet_config c) <=? n then STATE_MOTION else STATE_STATIC
  | None => STATE_UNKNOWN
  end.

Section motion.
Context {D : Type} `{!BoardIO D} `{!BoardLaws D} (c : config_param_t) (now : Z).
Hypothesis Hc : forall d : D, gConfigParam d = c.
Hypothesis Hnow : forall d : D, fst (snd (board_ask k_uptime_get_32 d)) = now.

(** Counting twice at the same time counts the same. *)
Lemma count_settles (k : gsensor_state_t -> prog gsensor D unit) (Q : unit -> gsensor -> D -> Prop) g d :
  window_ok (g_int_window g) ->
  (forall w' d', twp (k (judged c now (g_int_window g))) Q (set_int_window w' g) d') ->
  twp (window_count;; st <- sliding_window_judge_state;; k st) Q g d.
Proof.
  intros Hw H. unfold judged in H. set (size := u32 (motdet_duration _ * 1000)) in H. destruct (get_count_spec (u32 now) size (g_int_window g) Hw) as (w1 & E1 & Hw1 & C1).
  destruct (get_count_spec (u32 now) size w1 Hw1) as (w2 & E2 & Hw2 & C2). rewrite C1, drop_while_idem, <- C1 in C2. rewrite E1, <- C2 in H.
  assert (Hcount : forall Q g d w n, sliding_window_get_count (u32 now) size (g_int_window g) = Some (w, n) -> (forall d, Q n (set_int_window w g) d) -> twp (window_count : prog gsensor D Z) Q g d).
  { clear Q g d Hw H E1 C1 w1 Hw1 w2 E2 Hw2 C2. intros Q g d w n E H. unfold window_count. bstep. apply twp_world. intros t d1 E1. specialize (Hnow d). destruct (board_ask _ d) as [d2 r].
    injection E1 as -> <-. cbn in Hnow. rewrite Hnow. bstep. apply twp_world. intros c' d3 [= -> <-]. rewrite Hc. fold size. bstep. bstep. bstep.
    eapply twp_checked; [exact E|]. do 3 bstep. apply H. }
  bstep. eapply Hcount; [exact E1|]. intros d1. bstep. unfold sliding_window_judge_state. bstep. eapply Hcount; [exact E2|]. intros d2.
  bstep. apply twp_world. intros c' d3 [= -> <-]. rewrite Hc. apply twp_ret. 
  change (set_int_window w2 (set_int_window w1 g)) with (set_int_window w2 g). exact (H w2 d3).
Qed.

(** The alarm as it is sent. *)
Definition motion_alarm (a : alarm_type_t) (t : Z) : board_call :=
  lte_send_command (cstr "ALARM") (fst (snprintf 64 (alarm_text a t (motdetalm_report_type (motdetalm_config c)) None))).

Lemma motion_alarm_sent a (Q : unit -> gsensor -> D -> Prop) g d :
  a = ALARM_MOVE_START \/ a = ALARM_MOVE_STOP -> 0 < motdetalm_report_type (motdetalm_config c) ->
  (forall t d', motion_alarm a t ∈ board_log d' -> Q tt g d') -> twp (send_alarm_message_to_lte a None) Q g d.
Proof.
  intros Ha Hr H. assert (E : alarm_rpt c a None = Some (motdetalm_report_type (motdetalm_config c))) by (by destruct Ha as [-> | ->]).
  unfold send_alarm_message_to_lte. do 2 bstep. bstep. apply twp_world. intros c' d1 [= -> <-]. rewrite Hc, E.
  assert (K : twp (if 0 <? motdetalm_report_type (motdetalm_config c) then
      t <- ask_ret my_get_system_time_sec;; do (motion_alarm a t);; my_scan_upload_on_lte_wakeup else ret tt) Q g d1).
  { rewrite (proj2 (Z.ltb_lt _ _)) by done. bstep. bstep. bstep. apply twp_world. intros [] d2 [= <-]. apply twp_world. intros [] d3 [= <-].
    eapply H. rewrite !law_do_log. apply elem_of_app. left. apply elem_of_app. right. left. }
  destruct Ha as [-> | ->]; exact K.
Qed.
End motion.

(** A defect: when the motion check finds that the device came to rest it sends the alarm of starting to move, and when it finds that the device moves it sends the alarm of stopping. *)
Theorem motion_alarms_swapped {D} `{!BoardIO D} `{!BoardLaws D} c now g (d : D) :
  (forall d : D, gConfigParam d = c) -> (forall d : D, fst (snd (board_ask k_uptime_get_32 d)) = now) -> setting_ok (device_workmode_config c) ->
  motdetalm_sw (motdetalm_config c) = 1 -> 0 < motdetalm_report_type (motdetalm_config c) ->
  sensor_ready g = true -> window_ok (g_int_window g) -> last_gsensor_state g <> judged c now (g_int_window g) ->
  exists g' d' t, my_gsensor_motion_state_check g d = Done (tt, g', d') /\ current_gsensor_state g' = judged c now (g_int_window g) /\
    motion_alarm c (if decide (current_gsensor_state g' = STATE_MOTION) then ALARM_MOVE_STOP else ALARM_MOVE_START) t ∈ board_log d'.
Proof.
  intros Hc Hnow Hs%settings_policy Hsw Hr Hready Hw Hl. set (st := judged c now (g_int_window g)) in *.
  assert (Hst : st = STATE_MOTION \/ st = STATE_STATIC).
  { unfold st, judged. set (size := u32 (motdet_duration _ * 1000)). destruct (get_count_spec (u32 now) size (g_int_window g) Hw) as (w1 & -> & _). destruct (_ <=? _); auto. }
  assert (W : twp my_gsensor_motion_state_check (fun _ g' d' => current_gsensor_state g' = st /\ exists t,
    motion_alarm c (if decide (st = STATE_MOTION) then ALARM_MOVE_STOP else ALARM_MOVE_START) t ∈ board_log d') g d).
  { unfold my_gsensor_motion_state_check. bstep. bstep. rewrite Hready. cbn [negb].
    apply (count_settles c now Hc Hnow); [done|]. intros w d1. fold st. do 4 bstep. cbn [last_gsensor_state set_current_gsensor_state set_int_window].
    rewrite decide_False by done. do 2 bstep. set (g1 := set_last_gsensor_state _ _). assert (Eg : current_gsensor_state g1 = st) by done. clearbody g1.
    unfold get_motion_status, my_gsensor_get_state. do 3 bstep. apply twp_world. intros c' d2 [= -> <-]. rewrite Hc, Eg, Hsw. cbn [Z.eqb]. bstep.
    assert (Hend : forall t d2, motion_alarm c (if decide (st = STATE_MOTION) then ALARM_MOVE_STOP else ALARM_MOVE_START) t ∈ board_log d2 ->
      twp smart_mode_apply_lte_policy (fun _ g' d' => current_gsensor_state g' = st /\ exists t,
        motion_alarm c (if decide (st = STATE_MOTION) then ALARM_MOVE_STOP else ALARM_MOVE_START) t ∈ board_log d') g1 d2).
    { intros t d3 Ht. eapply twp_intro; [apply policy_makes; by rewrite Hc|]. split; [done|]. exists t. rewrite after_log. apply elem_of_app. by left. }
    destruct Hst as [Est|Est]; rewrite Est in *; cbn [decide] in *.
    - rewrite decide_False in * by done. rewrite decide_True in * by done. apply (motion_alarm_sent c Hc); [by right|done|exact Hend].
    - rewrite decide_True in * by done. rewrite decide_False in * by done. apply (motion_alarm_sent c Hc); [by left|done|exact Hend]. }
  apply twp_done in W as ([] & g' & d' & E & Hg & t & A). exists g', d', t. by rewrite Hg.
Qed.

(** ** Every message of the thread *)

(** The pin of the power works, and the settings are those the commands allow. *)
Class SensorBoard (D : Type) `{BoardIO D} : Prop := {
  power_pin_works v (d : D) : fst (snd (board_ask (gpio_pin_set_dt gsensor_pwr_gpio v) d)) = 0;
  policy_settings (d : D) : setting_ok (device_workmode_config (gConfigParam d))
}.

Record gsensor_ok (g : gsensor) : Prop := mk_gsensor_ok {
  gok_window : window_ok (g_int_window g);
  gok_current : current_gsensor_state g <> STATE_UNKNOWN;
  gok_last : last_gsensor_state g <> STATE_UNKNOWN
}.

Section module.
Context {D : Type} `{!BoardIO D} `{!SensorBoard D}.
Notation task := (prog gsensor D).

(** The power and the readiness of the sensor, and nothing else but the chip's identity, may change. *)
Definition powered (on ready : bool) (g g' : gsensor) : Prop :=
  exists id, g' = set_gsensor_power_state on (set_sensor_ready ready (set_chip_id id g)).

Lemma powered_refl g : powered (s_gsensor_power_state g) (sensor_ready g) g g.
Proof. exists (s_chip_id g). by destruct g. Qed.
Lemma powered_trans on1 r1 on2 r2 g1 g2 g3 : powered on1 r1 g1 g2 -> powered on2 r2 g2 g3 -> powered on2 r2 g1 g3.
Proof. intros [i ->] [j ->]. by exists j. Qed.
Lemma powered_ok on ready g g' : powered on ready g g' -> gsensor_ok g -> gsensor_ok g'.
Proof. intros [i ->] []. by split. Qed.

Lemma pwr_on_spec on (Q : Z -> gsensor -> D -> Prop) g d :
  (forall d', Q 0 (set_gsensor_power_state on g) d') -> twp (my_gsensor_pwr_on on) Q g d.
Proof.
  intros H. unfold my_gsensor_pwr_on. bstep. bstep. destruct (Bool.eqb (s_gsensor_power_state g) on) eqn:E.
  - apply Bool.eqb_prop in E. apply twp_ret. replace g with (set_gsensor_power_state on g) by (destruct g; cbn in *; by subst). apply H.
  - bstep. apply twp_world. intros r d' Er. pose proof (power_pin_works (if on then 1 else 0) d) as P. destruct (board_ask _ d) as [d1 r1].
    injection Er as -> <-. cbn [fst snd] in P. rewrite P. cbn [Z.eqb]. do 2 bstep. bstep. apply H.
Qed.

Lemma imu_steps_outward steps : outward (imu_steps steps : task Z).
Proof. induction steps as [|s steps IH]; cbn [imu_steps]; eauto with board. Qed.

Lemma motion_int_config_outward : outward (gsensor_motion_int_config : task Z).
Proof. unfold gsensor_motion_int_config. apply outward_bind; [apply imu_steps_outward|eauto 10 with board]. Qed.

Lemma required_mode_outward : outward (gsensor_is_required_mode : task bool).
Proof. unfold gsensor_is_required_mode. eauto with board. Qed.

Lemma bmi325_init_spec (Q : Z -> gsensor -> D -> Prop) g d :
  (forall r g' d', powered (s_gsensor_power_state g) (if r =? 0 then true else sensor_ready g) g g' -> Q r g' d') -> twp my_bmi325_init Q g d.
Proof.
  intros H. assert (Hfail : forall i d', Q (- ENODEV) (set_chip_id i g) d') by (intros i d'; apply H; exists i; by destruct g).
  assert (Hsame : forall d', Q (- ENODEV) g d') by (intros d'; apply H; exists (s_chip_id g); by destruct g).
  unfold my_bmi325_init, bmi325_check_id. do 4 bstep. bstep; [apply twp_ret, Hsame|]. do 3 bstep. bstep; [|do 2 bstep; apply Hsame].
  do 3 bstep. bstep; [|apply twp_ret, Hfail]. bstep. apply required_mode_outward. intros req d1. bstep.
  assert (Hend : forall err d2, twp (if negb (err =? 0) then ret (- ENODEV) else modify (set_sensor_ready true);; ret 0) Q (set_chip_id (u8 (nth 0 (snd a0) 0)) g) d2).
  { intros err d2. bstep; [apply twp_ret, Hfail|]. do 2 bstep. bstep. apply H. eexists. by destruct g. }
  destruct req; [apply motion_int_config_outward; apply Hend|apply twp_ret, Hend].
Qed.

Lemma init_attempts_spec n (Q : Z -> gsensor -> D -> Prop) g d :
  (forall r g' d', powered (s_gsensor_power_state g) (if r =? 0 then true else sensor_ready g) g g' -> Q r g' d') -> twp (init_attempts n) Q g d.
Proof.
  induction n as [|n IH] in g, d |- *; intros H; cbn [init_attempts].
  { apply twp_ret, H. apply powered_refl. }
  bstep. apply bmi325_init_spec. intros r g1 d1 Hg. destruct (Z.eqb_spec r 0) as [->|Hr]; [apply twp_ret, H; exact Hg|]. bstep. bstep.
  destruct n as [|n]; [apply twp_ret, H; by rewrite (proj2 (Z.eqb_neq _ _))|]. apply IH. intros r2 g2 d2 Hg2. apply H.
  destruct Hg as [i ->]. eapply powered_trans; [by exists i|]. exact Hg2.
Qed.

Lemma pm_resume_spec (Q : Z -> gsensor -> D -> Prop) g d :
  (forall g' d', powered true true g g' -> Q 0 g' d') -> (forall g' d', powered false false g g' -> Q (- EIO) g' d') -> twp gsensor_pm_resume Q g d.
Proof.
  intros H1 H2. unfold gsensor_pm_resume. bstep. apply pwr_on_spec. intros d1. bstep. apply init_attempts_spec. intros r g1 d2 Hg.
  destruct (Z.eqb_spec r 0); cbn [negb].
  - apply twp_ret, H1. destruct Hg as [i ->]. exists i. by destruct g.
  - bstep. apply pwr_on_spec. intros d3. do 3 bstep. apply H2. destruct Hg as [i ->]. exists i. by destruct g.
Qed.

Lemma pm_suspend_spec (Q : Z -> gsensor -> D -> Prop) g d : (forall g' d', powered false false g g' -> Q 0 g' d') -> twp gsensor_pm_suspend Q g d.
Proof.
  intros H. unfold gsensor_pm_suspend. do 9 bstep. apply pwr_on_spec. intros d1. apply twp_ret, H. exists (s_chip_id g). by destruct g.
Qed.

Lemma pm_init_spec (Q : Z -> gsensor -> D -> Prop) g d : (forall g' d', powered false false g g' -> Q 0 g' d') -> twp gsensor_pm_init Q g d.
Proof.
  intros H. unfold gsensor_pm_init. bstep. apply pwr_on_spec. intros d1. cbn [Z.eqb negb]. do 3 bstep. apply H. exists (s_chip_id g). by destruct g.
Qed.
End module.

Section handlers.
Context {D : Type} `{!BoardIO D} `{!SensorBoard D} `{libm : !Libm}.
Notation task := (prog gsensor D).

(** Code that keeps the invariant and leaves the power alone. *)
Definition gkeeps (m : task unit) : Prop :=
  forall (Q : unit -> gsensor -> D -> Prop) g d, gsensor_ok g ->
    (forall g' d', gsensor_ok g' -> s_gsensor_power_state g' = s_gsensor_power_state g -> sensor_ready g' = sensor_ready g -> Q tt g' d') -> twp m Q g d.

Lemma int_handler_keeps : gkeeps gsensor_int_handler.
Proof.
  intros Q g d Hg H. unfold gsensor_int_handler. bstep. bstep. bstep; [apply twp_ret, H; done|]. do 4 bstep. bstep.
  destruct (add_int_spec (u32 a0) (g_int_window g)) as (w & E & Hw & _); [by destruct Hg|]. eapply twp_checked; [exact E|]. apply twp_modify, H; try done. by destruct Hg.
Qed.

Lemma overturn_keeps e : gkeeps (my_gsensor_overturn_check e).
Proof.
  intros Q g d Hg H. unfold my_gsensor_overturn_check. bstep. bstep. bstep; [apply twp_modify, H; try done; by destruct Hg|].
  bstep. bstep. destruct (negb (s_is_over_turn g) && tilted (imu_alm_config a) e); [|destruct (s_is_over_turn g && upright (imu_alm_config a) e)].
  - bstep; [do 2 bstep; apply outward_alarm; [by left|]; intros [] ?|apply twp_modify]; apply H; try done; by destruct Hg.
  - bstep; [do 2 bstep; apply outward_alarm; [by left|]; intros [] ?|apply twp_modify]; apply H; try done; by destruct Hg.
  - apply twp_modify, H; try done; by destruct Hg.
Qed.

Lemma read_data_keeps : gkeeps my_gsensor_read_data.
Proof.
  intros Q g d Hg H. unfold my_gsensor_read_data, attitude_read_imu_and_update. bstep. bstep. bstep. bstep; [do 2 bstep; by apply H|]. do 4 bstep.
  destruct (attitude_update _ _ _ _) as [err ctx]. do 3 bstep. set (g1 := set_attitude_ctx ctx g). assert (H1 : gsensor_ok g1) by (by destruct Hg).
  destruct (err =? 0); [|by apply twp_ret, H]. apply (overturn_keeps (euler ctx)); [done|]. intros g' d' Hg' E1 E2. by apply H.
Qed.

Lemma window_count_spec (Q : Z -> gsensor -> D -> Prop) g d :
  gsensor_ok g -> (forall n w d', window_ok w -> Q n (set_int_window w g) d') -> twp window_count Q g d.
Proof.
  intros Hg H. unfold window_count. do 6 bstep. bstep.
  match goal with |- twp (checked (sliding_window_get_count ?t ?s _)) _ _ _ => destruct (get_count_spec t s (g_int_window g)) as (w & E & Hw & _); [by destruct Hg|] end.
  eapply twp_checked; [exact E|]. do 3 bstep. by apply H.
Qed.

Lemma motion_check_keeps : gkeeps my_gsensor_motion_state_check.
Proof.
  intros Q g d Hg H. unfold my_gsensor_motion_state_check, sliding_window_judge_state. bstep. bstep. bstep; [by apply twp_ret, H|].
  bstep. apply window_count_spec; [done|]. intros n w d1 Hw. assert (Hg1 : gsensor_ok (set_int_window w g)) by (by destruct Hg). bstep.
  bstep. apply window_count_spec; [done|]. intros n2 w2 d2 Hw2. do 3 bstep. set (st := if _ <=? n2 then _ else _). assert (Hst : st <> STATE_UNKNOWN) by (unfold st; by destruct (_ <=? _)).
  clearbody st. do 4 bstep. case_decide; [apply twp_ret, H; try done; destruct Hg; by split|]. do 2 bstep. unfold get_motion_status, my_gsensor_get_state. do 4 bstep.
  set (g1 := set_last_gsensor_state _ _). assert (Hend : forall d3, twp smart_mode_apply_lte_policy Q g1 d3).
  { intros d3. eapply twp_intro; [apply policy_makes, settings_policy, policy_settings|]. apply H; done || (destruct Hg; by split). }
  bstep. bstep; [apply twp_ret, Hend|]. case_decide; (apply outward_alarm; [by left|]); intros [] ?; apply Hend.
Qed.
End handlers.

Section thread.
Context {D : Type} `{!BoardIO D} `{!SensorBoard D} `{!PmRuntime D} `{libm : !Libm}.
Notation thread := (prog (gthread D) D).

Record thread_ok (y : gthread D) : Prop := mk_thread_ok {
  tok_vars : gsensor_ok (g_vars y);
  tok_pm : exists ctx rest, g_pm y = ctx :: rest /\ (ops ctx = None \/ ops ctx = Some gsensor_pm_ops) /\
    (ops ctx = None <-> state ctx = MY_PM_STATE_NOT_INIT) /\
    (sensor_ready (g_vars y) = true -> s_gsensor_power_state (g_vars y) = true /\ state ctx = MY_PM_STATE_RESUME) /\
    (state ctx <> MY_PM_STATE_RESUME -> s_gsensor_power_state (g_vars y) = false)
}.

Lemma twp_in_pm {A} m (Q : A -> gthread D -> D -> Prop) y d :
  twp m (fun a p w => Q a (mk_gthread p (fst w)) (snd w)) (g_pm y) (g_vars y, d) -> twp (in_pm m) Q y d.
Proof. unfold twp, in_pm. by destruct (m _ _) as [[[a p] [g d']]| |]. Qed.

Lemma twp_callback (m : prog gsensor D Z) (Q : Z -> list (pm_device_ctx_t (gsensor * D)) -> gsensor * D -> Prop) p g d :
  twp m (fun r g' d' => Q r p (g', d')) g d -> twp (callback (Some (as_callback m))) Q p (g, d).
Proof.
  intros H. apply twp_done in H as (r & g' & d' & E & H). apply twp_world_checked. exists (g', d'), r. split; [|done]. unfold as_callback. cbn. by rewrite E.
Qed.

(** A bus changes the device only. *)
Lemma bus_resume_spec b (Q : Z -> list (pm_device_ctx_t (gsensor * D)) -> gsensor * D -> Prop) p g d :
  (forall r d', Q r p (g, d')) -> twp (runtime_resume b) Q p (g, d).
Proof.
  intros H. unfold runtime_resume. bstep; [apply twp_ret, H|]. bstep. apply twp_world. intros r w E. cbn in E. destruct (pm_device_runtime_get b d) as [d' r'].
  injection E as <- <-. bstep; apply twp_ret, H.
Qed.
Lemma bus_suspend_spec b (Q : Z -> list (pm_device_ctx_t (gsensor * D)) -> gsensor * D -> Prop) p g d :
  (forall r d', Q r p (g, d')) -> twp (runtime_suspend b) Q p (g, d).
Proof.
  intros H. unfold runtime_suspend. bstep; [apply twp_ret, H|]. bstep. apply twp_world. intros r w E. cbn in E. destruct (pm_device_runtime_put b d) as [d' r'].
  injection E as <- <-. bstep; apply twp_ret, H.
Qed.

Definition tkeeps (m : thread unit) : Prop := forall (Q : unit -> gthread D -> D -> Prop) y d, thread_ok y -> (forall y' d', thread_ok y' -> Q tt y' d') -> twp m Q y d.

Lemma pm_resume_keeps : tkeeps pm_resume.
Proof.
  intros Q [p g] d [Hg (ctx & rest & Hp & Ho & Hn & Hr & Hs)] H. cbn in *. subst p.
  assert (Hsame : forall d', Q tt (mk_gthread (ctx :: rest) g) d') by (intros d'; apply H; split; [done|]; by exists ctx, rest).
  unfold pm_resume. bstep. apply twp_in_pm. cbn [g_pm g_vars]. unfold Pm.my_pm_device_resume, ctx_at.
  change (MY_PM_DEV_MAX <=? Pm.MY_PM_DEV_GSENSOR) with false. cbv iota. do 3 bstep.
  eapply twp_checked; [reflexivity|]. destruct Ho as [Ho|Ho]; rewrite Ho; [apply twp_ret, twp_ret, Hsame|].
  case_decide as Hst; [apply twp_ret, twp_ret, Hsame|]. bstep; [apply twp_ret, twp_ret, Hsame|]. apply negb_false_iff, bool_decide_eq_true in Heqb.
  bstep. apply bus_resume_spec. intros r d1. bstep; [apply twp_ret, twp_ret, Hsame|]. bstep. apply twp_callback, pm_resume_spec.
  - intros g' d2 Hpw. cbn [Z.ltb Z.compare]. bstep. unfold set_ctx. do 3 bstep. eapply twp_checked; [reflexivity|]. do 3 bstep. apply H.
    split; [by eapply powered_ok|]. cbn. eexists _, rest. split; [reflexivity|]. cbn. destruct Hpw as [i ->]. cbn. split_and!; solve [done|auto].
  - intros g' d2 Hpw. cbn [Z.ltb Z.compare Z.opp EIO]. apply bus_suspend_spec. intros r3 d3. apply twp_ret, H. split; [by eapply powered_ok|]. cbn. exists ctx, rest.
    destruct Hpw as [i ->]. cbn. split_and!; solve [done|auto].
Qed.

Lemma pm_suspend_keeps : tkeeps pm_suspend.
Proof.
  intros Q [p g] d [Hg (ctx & rest & Hp & Ho & Hn & Hr & Hs)] H. cbn in *. subst p.
  assert (Hsame : forall d', Q tt (mk_gthread (ctx :: rest) g) d') by (intros d'; apply H; split; [done|]; by exists ctx, rest).
  unfold pm_suspend. bstep. apply twp_in_pm. cbn [g_pm g_vars]. unfold Pm.my_pm_device_suspend, ctx_at.
  change (MY_PM_DEV_MAX <=? Pm.MY_PM_DEV_GSENSOR) with false. cbv iota. do 3 bstep.
  eapply twp_checked; [reflexivity|]. destruct Ho as [Ho|Ho]; rewrite Ho; [apply twp_ret, twp_ret, Hsame|].
  case_decide as Hst; [apply twp_ret, twp_ret, Hsame|].
  assert (Hres : state ctx = MY_PM_STATE_RESUME) by (destruct (state ctx) eqn:E; [|done..]; by rewrite (proj2 Hn eq_refl) in Ho).
  bstep. apply twp_callback, pm_suspend_spec. intros g1 d1 Hp1. cbn [Z.ltb Z.compare]. bstep. apply bus_suspend_spec. intros r d2. bstep.
  - bstep. apply twp_callback, pm_resume_spec; intros g2 d3 Hp2; apply twp_ret, twp_ret, H; (split; [by eapply powered_ok, powered_ok|]); cbn; exists ctx, rest;
      destruct Hp2 as [i ->]; cbn; split_and!; solve [done|auto|by intros].
  - bstep. unfold set_ctx. do 3 bstep. eapply twp_checked; [reflexivity|]. do 3 bstep. apply H.
    split; [by eapply powered_ok|]. cbn. eexists _, rest. split; [reflexivity|]. cbn. destruct Hp1 as [i ->]. cbn. split_and!; solve [done|auto].
Qed.

Lemma module_keeps m : gkeeps m -> tkeeps (in_module m).
Proof.
  intros Hm Q [p g] d [Hg (ctx & rest & Hp & Ho & Hn & Hr & Hs)] H. cbn in *. subst p. apply twp_zoom. apply Hm; [done|]. intros g' d' Hg' E1 E2. apply H.
  split; [done|]. exists ctx, rest. cbn. rewrite E1, E2. auto.
Qed.

(** ** From the start *)

(** Six devices, none of them set up, and the sensor as [my_gsensor_init] leaves it. *)
Definition gthread_start (on : bool) : gthread D := mk_gthread (replicate 6 (mk_ctx MY_PM_STATE_NOT_INIT None)) (set_gsensor_power_state on gsensor_start).

Lemma set_ctx_spec c (Q : unit -> list (pm_device_ctx_t (gsensor * D)) -> gsensor * D -> Prop) o rest w :
  Q tt (c :: rest) w -> twp (set_ctx Pm.MY_PM_DEV_GSENSOR c) Q (o :: rest) w.
Proof. intros H. unfold set_ctx. do 3 bstep. eapply twp_checked; [reflexivity|]. by bstep. Qed.

Lemma register_spec (Q : Z -> gthread D -> D -> Prop) ctx rest g d :
  gsensor_ok g -> (forall r y' d', thread_ok y' -> Q r y' d') ->
  twp (in_pm (Pm.my_pm_device_register Pm.MY_PM_DEV_GSENSOR (Some gsensor_pm_ops))) Q (mk_gthread (ctx :: rest) g) d.
Proof.
  intros Hg H. apply twp_in_pm. cbn [g_pm g_vars]. unfold Pm.my_pm_device_register.
  change (MY_PM_DEV_MAX <=? Pm.MY_PM_DEV_GSENSOR) with false. cbv iota. cbn [ops_init gsensor_pm_ops].
  bstep. apply set_ctx_spec. bstep. apply twp_callback, pm_init_spec. intros g1 d1 Hp1. cbn [Z.ltb Z.compare].
  assert (Hok : forall st o, (o = None \/ o = Some gsensor_pm_ops) -> (o = None <-> st = MY_PM_STATE_NOT_INIT) ->
    thread_ok (mk_gthread (mk_ctx st o :: rest) g1)).
  { intros st o Ho Hn. split; [by eapply powered_ok|]. exists (mk_ctx st o), rest. destruct Hp1 as [i ->]. cbn. split_and!; solve [done|auto]. }
  bstep. apply bus_resume_spec. intros r1 d2. bstep; [bstep; apply set_ctx_spec, twp_ret, H, Hok; [by left|done]|].
  bstep. apply bus_suspend_spec. intros r2 d3. bstep; bstep; apply set_ctx_spec, twp_ret, H, Hok; solve [by left|by right|done].
Qed.

Lemma task_start_spec on (Q : unit -> gthread D -> D -> Prop) d :
  (forall y' d', thread_ok y' -> Q tt y' d') -> twp my_gsensor_task_start Q (gthread_start on) d.
Proof.
  intros H. unfold my_gsensor_task_start. bstep. apply register_spec; [split; [apply window_ok_start|done|done]|]. intros r [p g] d1 Hy.
  bstep. apply twp_zoom, required_mode_outward. intros b d2. destruct b; [by apply pm_resume_keeps|]. by apply twp_ret, H.
Qed.

Inductive gthread_reached : gthread D -> Prop :=
  | gthread_boot on y d d' : my_gsensor_task_start (gthread_start on) d = Done (tt, y, d') -> gthread_reached y
  | gthread_next m y y' d d' : gthread_reached y -> my_gsensor_task_handle m y d = Done (tt, y', d') -> gthread_reached y'.

Lemma task_handle_keeps m : tkeeps (my_gsensor_task_handle m).
Proof.
  destruct m; cbn [my_gsensor_task_handle]; try (intros Q y d Hy H; by apply twp_ret, H);
    auto using pm_resume_keeps, pm_suspend_keeps, module_keeps, int_handler_keeps, read_data_keeps, motion_check_keeps.
Qed.

Lemma gthread_reached_ok y : gthread_reached y -> thread_ok y.
Proof.
  induction 1 as [on y d d' E|m y y' d d' _ IH E].
  - assert (W : twp my_gsensor_task_start (fun _ y' _ => thread_ok y') (gthread_start on) d) by (apply task_start_spec; auto). unfold twp in W. by rewrite E in W.
  - assert (W : twp (my_gsensor_task_handle m) (fun _ y' _ => thread_ok y') y d) by (apply task_handle_keeps; auto). unfold twp in W. by rewrite E in W.
Qed.

(** C19: when the pin that powers the sensor can be set and the working mode is one that the commands allow, the thread of the motion sensor always starts and handles every message in every order, whatever the sensor, the bus and the clock answer, without reading or writing outside its tables; a sensor that counts as ready is powered and its device resumed, and a device that is not resumed has its power off. *)
Theorem motion_thread_safe :
  (forall on d, exists y d', my_gsensor_task_start (gthread_start on) d = Done (tt, y, d')) /\
  forall y, gthread_reached y ->
    (exists ctx, g_pm y !! 0%nat = Some ctx /\
      (sensor_ready (g_vars y) = true -> s_gsensor_power_state (g_vars y) = true /\ state ctx = MY_PM_STATE_RESUME) /\
      (state ctx <> MY_PM_STATE_RESUME -> s_gsensor_power_state (g_vars y) = false)) /\
    forall m d, exists y' d', my_gsensor_task_handle m y d = Done (tt, y', d').
Proof.
  split.
  - intros on d. assert (W : twp my_gsensor_task_start (fun _ _ _ => True) (gthread_start on) d) by (apply task_start_spec; auto).
    apply twp_done in W as ([] & y' & d' & E & _). eauto.
  - intros y Hy%gthread_reached_ok. split; [destruct Hy as [_ (ctx & rest & -> & _ & _ & H1 & H2)]; by exists ctx|].
    intros m d. assert (W : twp (my_gsensor_task_handle m) (fun _ _ _ => True) y d) by (apply task_handle_keeps; auto).
    apply twp_done in W as ([] & y' & d' & E & _). eauto.
Qed.
End thread.
