(* ===== verification/Main.v ===== *)
(** * The main thread ([main.c]; power off and start-up of [my_ctrl.c])

    Work modes, low-battery sleep, shutdown and the key.  The state holds the
    variables of [main.c] and of the modules it calls directly: the control
    module with the battery, and the motion sensor.  Sending the processor to
    System OFF does not return; the code after such a call is not reached. *)

From S2P Require Import Prelude Text Str Calendar Prog Layout SettingsData Settings Board Battery Ctrl Attitude GsensorWindow Gsensor.

Open Scope prog_scope.

Definition BLE_BLUETOOTH_KEY_INTERVAL : Z := 5000.

Record main := mk_main {
  s_lprunning_active : bool;
  s_lprunning_saved_mode : Z;
  s_last_work_mode : Z;
  s_lprunning_hold_off : bool;
  g_shutdown_request : bool;
  s_key_state : Z
}.

Definition set_lprunning_active (x : bool) (m : main) : main := mk_main x (s_lprunning_saved_mode m) (s_last_work_mode m) (s_lprunning_hold_off m) (g_shutdown_request m) (s_key_state m).
Definition set_lprunning_saved_mode (x : Z) (m : main) : main := mk_main (s_lprunning_active m) x (s_last_work_mode m) (s_lprunning_hold_off m) (g_shutdown_request m) (s_key_state m).
Definition set_last_work_mode (x : Z) (m : main) : main := mk_main (s_lprunning_active m) (s_lprunning_saved_mode m) x (s_lprunning_hold_off m) (g_shutdown_request m) (s_key_state m).
Definition set_lprunning_hold_off (x : bool) (m : main) : main := mk_main (s_lprunning_active m) (s_lprunning_saved_mode m) (s_last_work_mode m) x (g_shutdown_request m) (s_key_state m).
Definition set_shutdown_request (x : bool) (m : main) : main := mk_main (s_lprunning_active m) (s_lprunning_saved_mode m) (s_last_work_mode m) (s_lprunning_hold_off m) x (s_key_state m).
Definition set_key_state (x : Z) (m : main) : main := mk_main (s_lprunning_active m) (s_lprunning_saved_mode m) (s_last_work_mode m) (s_lprunning_hold_off m) (g_shutdown_request m) x.

Record app := mk_app { a_main : main; a_ctrl : ctrl; a_gsensor : gsensor }.
Definition set_main (x : main) (a : app) : app := mk_app x (a_ctrl a) (a_gsensor a).
Definition set_ctrl (x : ctrl) (a : app) : app := mk_app (a_main a) x (a_gsensor a).
Definition set_gsensor (x : gsensor) (a : app) : app := mk_app (a_main a) (a_ctrl a) x.

Definition main_start : main := mk_main false MY_MODE_SMART MY_MODE_SHUTDOWN false false 0.
Definition app_start : app := mk_app main_start ctrl_start gsensor_start.

Definition put_mode (mode : Z) (m : work_mode_config_t) : work_mode_config_t :=
  mk_workmode (workmode_flag m) mode (reporting_interval_sec m) (reporting_interval_dis m) (reporting_interval_min m) (start_time m) (gnss_sw m)
    (sub_mode m) (static_interval m) (moving_interval m).

Section main.
Context {D : Type} `{!ConfigIO D}.
Notation task := (prog app D).

Definition in_ctrl {A} : prog ctrl D A -> task A := zoom a_ctrl set_ctrl.
Definition in_batt {A} (m : prog battery D A) : task A := in_ctrl (in_battery m).
Definition in_gsensor {A} : prog gsensor D A -> task A := zoom a_gsensor set_gsensor.

(** Assignments to the variables of [main.c]. *)
Definition assign (f : main -> main) : task unit := modify (fun a => set_main (f (a_main a)) a).

(** ** Power off *)

Definition peripheral_close : task unit :=
  in_gsensor (my_gsensor_pwr_on false);;
  in_batt (batt_enable true);;
  batt_led_set_level 0.

Definition enable_wakeup_pin : task unit :=
  do (nrf_gpio_cfg_sense_input 1 9 true);;
  do (nrf_gpio_cfg_sense_input 0 3 false).

Definition save_shutdown_flag (v : Z) : task unit :=
  update_config (fun c => put (mk_shutdown_cfg (shutdown_cfg_flag (shutdown_config c)) v) c);;
  c <- config;;
  do (my_user_data_write ZMS_ID_SHUTDOWN_CONFIG (bytes_of (shutdown_config c))).

Definition go_to_system_off : task unit :=
  in_gsensor my_gsensor_save_imu_bias;;
  save_shutdown_flag 1;;
  do (k_msleep 2000);;
  peripheral_close;;
  do (k_msleep 10);;
  do nrf_reset_resetreas_clear;;
  enable_wakeup_pin;;
  do sys_clock_disable;;
  do sys_poweroff.

Definition go_to_shutdown : task Z :=
  charger <- in_batt get_charge_state_level;;
  if charger =? 0 then
    ready <- ask_ret g_bLteReady;;
    (if ready =? 1 then
       assign (set_shutdown_request true);;
       do (lte_send_command (cstr "PWROFF") (cstr "1"))
     else do (my_send_msg MOD_MAIN MY_MSG_CTRL_SHUTDOWN_REQUEST));;
    ret 0
  else ret (-1).

(** ** Work modes *)

Definition work_mode_text (c : config_param_t) (mode : Z) : option (option (list Z)) :=
  let m := device_workmode_config c in
  if mode =? MY_MODE_CONTINUOUS then
    Some (Some (dec mode ++ cstr "," ++ dec (reporting_interval_sec m) ++ cstr "," ++ dec (reporting_interval_dis m)))
  else if mode =? MY_MODE_LONG_LIFE then
    t ← c_string (start_time m);
    Some (Some (dec mode ++ cstr "," ++ dec (reporting_interval_min m) ++ cstr "," ++ t ++ cstr "," ++ on_off_text (gnss_sw m)))
  else if mode =? MY_MODE_SMART then
    s ← arr_get (static_interval m) (sub_mode m);
    v ← arr_get (moving_interval m) (sub_mode m);
    Some (Some (dec mode ++ cstr "," ++ dec (sub_mode m) ++ cstr "," ++ dec s ++ cstr "," ++ dec v))
  else if mode =? MY_MODE_ALWAYS_ONLINE then Some (Some (dec mode))
  else Some None.

Definition send_work_mode_command (mode : Z) : task unit :=
  c <- config;;
  text <- checked (work_mode_text c mode);;
  match text with
  | Some t => do (lte_send_command (cstr "WMODE") (fst (snprintf 40 t)))
  | None => ret tt
  end.

Definition switch_work_mode (mode : Z) : task unit :=
  ok <- ask_ret (k_malloc 4);;
  if ok =? 0 then ret tt else do (my_send_msg_data MOD_MAIN MY_MSG_WORK_MODE_SWITCH [mode]).

Definition get_lprunning_active : task bool := get (fun a => s_lprunning_active (a_main a)).
Definition get_last_work_mode : task Z := get (fun a => s_last_work_mode (a_main a)).

Definition awaken_lte_timer_callback : task unit :=
  c <- config;;
  (if current_mode (device_workmode_config c) =? MY_MODE_LONG_LIFE then do (my_send_msg MOD_MAIN MY_MSG_RESET_LTE_TIMER) else ret tt);;
  do (set_lte_boot_reason LTE_BOOT_REASON_INTERVAL);;
  do (my_send_msg MOD_LTE MY_MSG_LTE_PWRON).

Definition handle_long_life_mode : task unit :=
  do (my_send_msg MOD_GSENSOR MY_MSG_GSENSOR_LOW_POWER);;
  do (my_send_msg MOD_LTE MY_MSG_LTE_PWRON);;
  do (my_send_msg MOD_MAIN MY_MSG_RESET_LTE_TIMER).

Definition handle_smart_mode : task unit := do (my_send_msg MOD_GSENSOR MY_MSG_GSENSOR_HIGH_POWER).

Definition handle_continuous_mode : task unit :=
  do (my_stop_timer MY_TIMER_LTE_POWER);;
  do (my_send_msg MOD_GSENSOR MY_MSG_GSENSOR_HIGH_POWER);;
  do (my_send_msg MOD_LTE MY_MSG_LTE_PWRON).

Definition handle_always_online_mode : task unit :=
  do (my_stop_timer MY_TIMER_LTE_POWER);;
  do (my_send_msg MOD_GSENSOR MY_MSG_GSENSOR_HIGH_POWER);;
  do (my_send_msg MOD_LTE MY_MSG_LTE_PWRON).

(** The last [switch] of the mode change. *)
Definition handle_mode (mode : Z) : task unit :=
  if mode =? MY_MODE_LONG_LIFE then handle_long_life_mode
  else if mode =? MY_MODE_SMART then handle_smart_mode
  else if mode =? MY_MODE_CONTINUOUS then handle_continuous_mode
  else if mode =? MY_MODE_ALWAYS_ONLINE then handle_always_online_mode
  else ret tt.

(** The mode change once the device is awake. *)
Definition apply_work_mode (mode : Z) : task unit :=
  last <- get_last_work_mode;;
  if last =? mode then ret tt else
  assign (set_last_work_mode mode);;
  if mode =? MY_MODE_SHUTDOWN then go_to_system_off else
  do (set_lte_boot_reason (if (0 <=? mode) && (mode <=? 3) then LTE_BOOT_REASON_INTERVAL else LTE_BOOT_REASON_RESERVED));;
  update_config (fun c => put (put_mode mode (device_workmode_config c)) c);;
  ready <- ask_ret g_bLteReady;;
  (if negb (ready =? 0) then send_work_mode_command mode else do (my_send_msg MOD_LTE MY_MSG_LTE_PWRON));;
  my_scan_upload_on_lte_wakeup;;
  handle_mode mode.

Definition switch_work_mode_internal (mode : Z) : task unit :=
  active <- get_lprunning_active;;
  (if active : bool then
     do (my_stop_timer MY_TIMER_LPSLEEP);;
     assign (fun m => set_last_work_mode MY_MODE_MAX (set_lprunning_hold_off true (set_lprunning_active false m)))
   else ret tt);;
  apply_work_mode mode.

Definition set_reset_lte_timer : task unit :=
  now <- ask_ret my_get_system_time_sec;;
  c <- config;;
  let m := device_workmode_config c in
  t <- checked (c_string (start_time m));;
  timer_interval <- checked (calculate_remaining_seconds (Some t) (reporting_interval_min m) now);;
  if timer_interval =? -1 then ret tt else
  r <- ask rand_0_to_120_seconds;;
  total <- checked (int32 (timer_interval + if fst r =? 0 then nth 0 (snd r) 0 else 0));;
  ms <- checked (int32 (total * 1000));;
  do (my_start_timer MY_TIMER_LTE_POWER (u32 ms) false).

(** ** Low-battery sleep *)

Definition handle_lprunning_lte_sync : task unit :=
  active <- get_lprunning_active;;
  if active : bool then do (lte_send_command (cstr "LPSLEEP") (cstr "1")) else ret tt.

Definition lprunning_wakeup_timer_callback : task unit :=
  on <- ask_ret get_lte_power_state;;
  if negb (on =? 0) then ret tt else
  do (set_lte_boot_reason LTE_BOOT_REASON_INTERVAL);;
  do (my_send_msg MOD_LTE MY_MSG_LTE_PWRON).

Definition handle_lprunning_enter : task unit :=
  active <- get_lprunning_active;;
  if active : bool then ret tt else
  c <- config;;
  assign (fun m => set_lprunning_active true (set_lprunning_saved_mode (current_mode (device_workmode_config c)) m));;
  do (my_send_msg MOD_BLE MY_MSG_SCAN_LPSLEEP_ENTER);;
  do (my_stop_timer MY_TIMER_LTE_POWER);;
  do (my_send_msg MOD_GSENSOR MY_MSG_GSENSOR_LOW_POWER);;
  handle_lprunning_lte_sync;;
  do (my_start_timer MY_TIMER_LPSLEEP (u32 (lprunning_interval (lprunning_config c) * 3600 * 1000)) true).

Definition handle_lprunning_exit : task unit :=
  active <- get_lprunning_active;;
  if negb active then ret tt else
  do (my_stop_timer MY_TIMER_LPSLEEP);;
  assign (fun m => set_last_work_mode MY_MODE_MAX (set_lprunning_active false m));;
  saved <- get (fun a => s_lprunning_saved_mode (a_main a));;
  switch_work_mode_internal saved;;
  do (my_send_msg MOD_BLE MY_MSG_SCAN_LPSLEEP_EXIT).

Definition get_show_percent : task Z := get (fun a => s_show_percent (ctrl_battery (a_ctrl a))).

Definition handle_lprunning_battery_check : task unit :=
  c <- config;;
  if negb (lprunning_sw (lprunning_config c) =? 1) then ret tt else
  show_percent <- get_show_percent;;
  let threshold := lprunning_threshold (lprunning_config c) in
  m <- get a_main;;
  if negb (s_lprunning_active m) && (show_percent <? threshold) then
    if s_lprunning_hold_off m then ret tt else handle_lprunning_enter
  else if negb (s_lprunning_active m) && (threshold <=? show_percent) then
    if s_lprunning_hold_off m then assign (set_lprunning_hold_off false) else ret tt
  else if s_lprunning_active m && (threshold + 5 <=? u32 show_percent) then handle_lprunning_exit
  else ret tt.

(** ** The key and the messages *)

(** [bluetooth_key_timer_cb] and [my_bluetooth_key_process] of [my_ble_core.c]. *)
Definition bluetooth_key_timer_cb : task unit := assign (set_key_state 0).

Definition my_bluetooth_key_process : task unit :=
  c <- config;;
  let b := bluetooth_config c in
  if (bluetooth_flag b =? 0) || (bluetooth_sw b =? 0) || negb (bluetooth_a b =? 5) then ret tt else
  k <- get (fun a => u8 (s_key_state (a_main a) + 1));;
  assign (set_key_state k);;
  (if k =? 1 then do (my_start_timer MY_TIMER_BLUETOOTH_KEY BLE_BLUETOOTH_KEY_INTERVAL false) else ret tt);;
  if 3 <=? k then
    do (my_stop_timer MY_TIMER_BLUETOOTH_KEY);;
    assign (set_key_state 0);;
    do (my_send_msg MOD_BLE MY_MSG_BLE_OPEN_ADV)
  else ret tt.

(** One message of the loop; [data] is the block it carries. *)
Definition main_handle (m : MY_MAIN_TASK_MSG) (data : list Z) : task unit :=
  match m with
  | MY_MSG_CTRL_KEY_SHORT_PRESS =>
      in_batt (open_led_timer 5000);;
      my_bluetooth_key_process;;
      do (lte_send_command (cstr "KEY") (cstr "SHORT"))
  | MY_MSG_CTRL_KEY_LONG_PRESS =>
      do (lte_send_command (cstr "KEY") (cstr "LONG"));;
      c <- config;;
      if pwrlimit_sw (pwrlimit_config c) =? 0 then go_to_shutdown;; ret tt else ret tt
  | MY_MSG_CTRL_SHUTDOWN_REQUEST =>
      assign (set_shutdown_request false);;
      switch_work_mode MY_MODE_SHUTDOWN
  | MY_MSG_WORK_MODE_SWITCH =>
      match data with
      | mode :: _ => switch_work_mode_internal mode
      | [] => ret tt
      end
  | MY_MSG_RESET_LTE_TIMER => set_reset_lte_timer
  | MY_MSG_DFU_START => do (lte_send_command (cstr "OTA") (cstr "ENTER"))
  | MY_MSG_DFU_TIMEOUT => do (lte_send_command (cstr "OTA") (cstr "FAIL"))
  | MY_MSG_DFU_COMPLETE => do (lte_send_command (cstr "OTA") (cstr "SUCCESS"))
  | MY_MSG_DFU_FAIL => do (lte_send_command (cstr "OTA") (cstr "FAIL"))
  | MY_MSG_LPSLEEP_ENTER => handle_lprunning_enter
  | MY_MSG_LPSLEEP_EXIT => handle_lprunning_exit
  | MY_MSG_LPSLEEP_BATTERY_CHECK => handle_lprunning_battery_check
  | MY_MSG_LPSLEEP_LTE_SYNC => handle_lprunning_lte_sync
  | MY_MSG_LPSLEEP_CLEAR_HOLD_OFF => assign (set_lprunning_hold_off false)
  | _ => ret tt
  end.

(** ** Start of the control module *)

(** The time the key is held after a start, in polls; [fuel] bounds the polls. *)
Fixpoint held_polls_loop (fuel : nat) (fun_key_count : Z) : task Z :=
  match fuel with
  | O => no_fuel
  | S fuel =>
      level <- ask_ret (gpio_pin_get fun_key);;
      if level =? 0 then ret fun_key_count else
      do (k_msleep KEY_POLL_PERIOD_MS);;
      held_polls_loop fuel (u32 (fun_key_count + 1))
  end.

(** After a shutdown only the charger or a long press starts the device.
    Whether it stays on. *)
Definition wakeup_check (fuel : nat) : task bool :=
  c <- config;;
  if negb (shutdown_flag (shutdown_config c) =? 1) then ret true else
  charger <- in_batt get_charge_state_level;;
  stay <- (if charger =? 0 then
             n <- held_polls_loop fuel 0;;
             if n <? KEY_LONG_PRESS_COUNT then go_to_system_off;; ret false else ret true
           else ret true);;
  if stay : bool then save_shutdown_flag 0;; ret true else ret false.

(** Ports and pins by number: 9 the key, 10 and 11 the light sensors.  [None]
    when the device went off. *)
Definition misc_io_init (fuel : nat) : task (option Z) :=
  r <- ask_ret (hw_setup (device_ready 9));;
  if r =? 0 then ret (Some (- ENODEV)) else
  r <- ask_ret (hw_setup (device_ready 10));;
  if r =? 0 then ret (Some (- ENODEV)) else
  r <- ask_ret (hw_setup (pin_configure 9));;
  if negb (r =? 0) then ret (Some r) else
  stay <- wakeup_check fuel;;
  if negb stay then ret None else
  r <- ask_ret (hw_setup (pin_configure 10));;
  if negb (r =? 0) then ret (Some r) else
  r <- ask_ret (hw_setup (pin_configure 11));;
  if negb (r =? 0) then ret (Some r) else
  r <- ask_ret (hw_setup (pin_interrupt 9));;
  if negb (r =? 0) then ret (Some r) else
  r <- ask_ret (hw_setup (pin_interrupt 10));;
  if negb (r =? 0) then ret (Some r) else
  level <- ask_ret (gpio_pin_get light_tamper_det);;
  in_ctrl (modify (set_light_tamper (level =? 1)));;
  r <- ask_ret (hw_setup (pin_interrupt 11));;
  if negb (r =? 0) then ret (Some r) else
  level <- ask_ret (gpio_pin_get light_pull_det);;
  in_ctrl (modify (set_light_pull (level =? 1)));;
  in_ctrl key_timer_init;;
  ret (Some 0).

Definition my_ctrl_init (fuel : nat) : task (option Z) :=
  in_batt batt_gpio_init;;
  io <- misc_io_init fuel;;
  match io with
  | None => ret None
  | Some _ =>
      in_ctrl leds_init;;
      in_batt batt_adc_init;;
      r <- in_batt my_battery_pm_register;;
      if r <? 0 then ret (Some r) else
      r <- in_ctrl my_ctrl_pwm_pm_register;;
      if r <? 0 then ret (Some r) else
      in_ctrl sensor_module_init;;
      in_ctrl (my_ctrl_buzzer_play_tone 2000 100);;
      ret (Some 0)
  end.
End main.
