(* ===== verification/MainProofs.v ===== *)
(** * The main thread: low-battery sleep, modes, power on

    The battery has to swing for the device to fall asleep and wake again; a
    mode set by hand wakes the device but not its scanner; a start time of 2400
    is accepted but never used; after a shutdown the key has to be held. *)

From S2P Require Import Prelude Text Str Calendar Prog Layout SettingsData Settings AtCmd AtHandlers Board Battery Ctrl Attitude GsensorWindow Gsensor GsensorProofs Main.

Open Scope prog_scope.

(** ** Counting the sleeps *)

(** The messages that put the scanner to sleep and wake it. *)
Definition sleep_mark (c : board_call) : Z :=
  match c with
  | my_send_msg MOD_BLE MY_MSG_SCAN_LPSLEEP_ENTER | my_send_msg MOD_BLE MY_MSG_SCAN_LPSLEEP_EXIT => 1
  | _ => 0
  end.
Definition marks (cs : list board_call) : Z := foldr (fun c n => sleep_mark c + n) 0 cs.

Lemma marks_app a b : marks (a ++ b) = marks a + marks b.
Proof. induction a as [|c a IH]; [done|]. cbn. fold (marks (a ++ b)) (marks a). lia. Qed.

(** What a check makes of the two flags. *)
Definition lp_step (threshold p : Z) (s : bool * bool) : bool * bool :=
  let '(active, hold_off) := s in
  if active then (negb (threshold + 5 <=? p), hold_off)
  else if p <? threshold then (negb hold_off, hold_off) else (false, false).
Definition switched (s s' : bool * bool) : Z := if Bool.eqb (fst s) (fst s') then 0 else 1.

Fixpoint lp_switches (threshold : Z) (ps : list Z) (s : bool * bool) : Z :=
  match ps with
  | [] => 0
  | p :: ps => switched s (lp_step threshold p s) + lp_switches threshold ps (lp_step threshold p s)
  end.

(** The sum of the changes of the percentage. *)
Fixpoint variation (x : Z) (ps : list Z) : Z :=
  match ps with
  | [] => 0
  | p :: ps => Z.abs (p - x) + variation p ps
  end.

(** How far the percentage [x] is from the next switch. *)
Definition need (threshold x : Z) (active : bool) : Z := Z.max 0 (if active then threshold + 5 - x else x - (threshold - 1)).

Lemma variation_nonneg x ps : 0 <= variation x ps.
Proof. induction ps as [|p ps IH] in x |- *; cbn; [done|]. specialize (IH p). lia. Qed.

Lemma switches_cost threshold ps x s :
  0 <= lp_switches threshold ps s /\
  (1 <= lp_switches threshold ps s -> need threshold x (fst s) + 6 * (lp_switches threshold ps s - 1) <= variation x ps).
Proof.
  induction ps as [|p ps IH] in x, s |- *; [cbn; lia|]. cbn [lp_switches variation]. destruct (IH p (lp_step threshold p s)) as [H0 H1]. clear IH.
  pose proof (variation_nonneg p ps). destruct s as [active hold_off]. unfold lp_step, switched, need in *. cbn [fst snd] in *.
  destruct active.
  - destruct (Z.leb_spec (threshold + 5) p); cbn [negb fst Bool.eqb] in *; lia.
  - destruct (Z.ltb_spec p threshold); [|cbn [fst Bool.eqb] in *; lia]. destruct hold_off; cbn [negb fst Bool.eqb] in *; lia.
Qed.

(** ** What the calls leave *)

Section rules.
Context {D : Type} `{!ConfigIO D} `{!ConfigLaws D} {S : Type}.
Notation task := (prog S D).

Definition sleeps (d : D) : Z := marks (board_log d).

Lemma do_spec c (Q : unit -> S -> D -> Prop) y d :
  (forall d', sleeps d' = sleeps d + sleep_mark c -> gConfigParam d' = gConfigParam d -> Q tt y d') -> twp (do c) Q y d.
Proof. intros H. apply twp_world. intros [] d' [= <-]. apply H; [unfold sleeps; rewrite law_do_log, marks_app; cbn; lia|apply law_do_config]. Qed.
Lemma ask_spec q (Q : Z * list Z -> S -> D -> Prop) y d :
  (forall r d', sleeps d' = sleeps d -> gConfigParam d' = gConfigParam d -> Q r y d') -> twp (ask q) Q y d.
Proof.
  intros H. apply twp_world. intros r d' E. pose proof (law_ask_log q d) as H1. pose proof (law_ask_config q d) as H2. rewrite E in H1, H2. cbn in *.
  apply H; [unfold sleeps; by rewrite H1|done].
Qed.
Lemma ask_ret_spec' q (Q : Z -> S -> D -> Prop) y d :
  (forall r d', sleeps d' = sleeps d -> gConfigParam d' = gConfigParam d -> Q r y d') -> twp (ask_ret q) Q y d.
Proof.
  intros H. apply twp_world. intros r d' E. pose proof (law_ask_log q d) as H1. pose proof (law_ask_config q d) as H2. destruct (board_ask q d) as [d1 r1].
  injection E as -> <-. cbn in *. apply H; [unfold sleeps; by rewrite H1|done].
Qed.
Lemma config_spec (Q : config_param_t -> S -> D -> Prop) y d : Q (gConfigParam d) y d -> twp config Q y d.
Proof. intros H. apply twp_world. by intros c d' [= <- <-]. Qed.
Lemma update_config_spec f (Q : unit -> S -> D -> Prop) y d :
  (forall d', sleeps d' = sleeps d -> gConfigParam d' = f (gConfigParam d) -> Q tt y d') -> twp (update_config f) Q y d.
Proof. intros H. apply twp_world. intros [] d' [= <-]. apply H; [unfold sleeps; by rewrite law_put_log|apply law_put_config]. Qed.
End rules.

(** One step that keeps track of the sleeps and the settings. *)
Ltac mstep :=
  first
    [ progress tstep
    | lazymatch goal with
      | |- twp (do _) _ _ _ => apply do_spec; intros ? ? ?
      | |- twp (ask _) _ _ _ => apply ask_spec; intros ? ? ? ?
      | |- twp (ask_ret _) _ _ _ => apply ask_ret_spec'; intros ? ? ? ?
      | |- twp config _ _ _ => apply config_spec
      | |- twp (update_config _) _ _ _ => apply update_config_spec; intros ? ? ?
      | |- twp (assign _) _ _ _ => apply twp_modify
      end ].

(** ** Switching modes *)

(** What the settings have to be for the modes: tables and text can be read, the mode is one of the four. *)
Definition mode_ok (c : config_param_t) : Prop :=
  policy_ok c /\ is_Some (c_string (start_time (device_workmode_config c))) /\ 0 <= current_mode (device_workmode_config c) <= 3.

Lemma start_time_text t : start_time_ok t = true -> exists a b c d, t = [a; b; c; d; 0] /\ c_string t = Some [a; b; c; d] /\ forallb is_digit [a; b; c; d] = true.
Proof.
  unfold start_time_ok. destruct t as [|a [|b [|c [|d [|z []]]]]]; try done. cbn zeta. rewrite !andb_true_iff. intros [[[[Hd Hz%Z.eqb_eq] _] _] _]. subst z.
  exists a, b, c, d. split; [done|]. split; [|done]. cbn [forallb] in Hd. rewrite !andb_true_iff in Hd. destruct Hd as (H1 & H2 & H3 & H4 & _).
  assert (K : forall x, is_digit x = true -> (x =? 0) = false) by (intros x Hx; apply is_digit_spec in Hx; apply Z.eqb_neq; lia).
  cbn. by rewrite !K.
Qed.

Lemma settings_mode c : setting_ok (device_workmode_config c) -> mode_ok c.
Proof.
  intros H. split; [by apply settings_policy|]. destruct H as [_ H]. change (workmode_ok (device_workmode_config c) = true) in H.
  unfold workmode_ok, upto in H. rewrite !andb_true_iff in H. split; [|intuition lia].
  destruct (start_time_text (start_time (device_workmode_config c))) as (x & y & z & t & _ & E & _); [intuition|]. by rewrite E.
Qed.

Lemma put_mode_ok mode c : mode_ok c -> 0 <= mode <= 3 -> mode_ok (put (put_mode mode (device_workmode_config c)) c).
Proof. by intros (H1 & H2 & H3) Hm. Qed.

Lemma work_mode_text_some c mode : mode_ok c -> is_Some (work_mode_text c mode).
Proof.
  intros ((H1 & H2 & H3) & [t Ht] & _). unfold work_mode_text. destruct (arr_get_Some _ (sub_mode (device_workmode_config c)) (eq_rect_r (fun n => 0 <= _ < n) H1 H2)) as [s Hs].
  destruct (arr_get_Some _ (sub_mode (device_workmode_config c)) (eq_rect_r (fun n => 0 <= _ < n) H1 H3)) as [v Hv]. rewrite Ht, Hs, Hv. cbn.
  repeat destruct (_ =? _); eauto.
Qed.

Section modes.
Context {D : Type} `{!ConfigIO D} `{!ConfigLaws D}.
Notation task := (prog app D).

Definition flags (a : app) : bool * bool := (s_lprunning_active (a_main a), s_lprunning_hold_off (a_main a)).

Lemma send_mode_spec mode (Q : unit -> app -> D -> Prop) a d :
  mode_ok (gConfigParam d) -> (forall d', sleeps d' = sleeps d -> gConfigParam d' = gConfigParam d -> Q tt a d') -> twp (send_work_mode_command mode) Q a d.
Proof.
  intros Hm H. unfold send_work_mode_command. mstep. mstep. mstep. destruct (work_mode_text_some (gConfigParam d) mode Hm) as [o Ho].
  eapply twp_checked; [exact Ho|]. destruct o; [|by apply twp_ret, H]. mstep. apply H; [|done]. cbn in *. lia.
Qed.

Lemma handle_mode_spec mode (Q : unit -> app -> D -> Prop) a d :
  (forall d', sleeps d' = sleeps d -> gConfigParam d' = gConfigParam d -> Q tt a d') -> twp (handle_mode mode) Q a d.
Proof.
  intros H. unfold handle_mode, handle_long_life_mode, handle_smart_mode, handle_continuous_mode, handle_always_online_mode.
  repeat mstep; apply H; cbn in *; congruence || lia.
Qed.

Lemma apply_spec mode (Q : unit -> app -> D -> Prop) a d :
  0 <= mode <= 3 -> mode_ok (gConfigParam d) ->
  (forall a' d', sleeps d' = sleeps d -> lprunning_config (gConfigParam d') = lprunning_config (gConfigParam d) -> mode_ok (gConfigParam d') ->
     a_ctrl a' = a_ctrl a -> flags a' = flags a -> s_last_work_mode (a_main a') = mode -> Q tt a' d') ->
  twp (apply_work_mode mode) Q a d.
Proof.
  intros Hm Hc H. unfold apply_work_mode, get_last_work_mode. mstep. mstep. mstep; [apply twp_ret, H; try done; by apply Z.eqb_eq|]. mstep. mstep.
  rewrite (proj2 (Z.eqb_neq mode MY_MODE_SHUTDOWN)) by (unfold MY_MODE_SHUTDOWN; lia). mstep. apply do_spec. intros d1 S1 G1. cbn [sleep_mark] in S1.
  mstep. apply update_config_spec. intros d2 S2 G2. rewrite G1 in G2. mstep. apply ask_ret_spec'. intros r d3 S3 G3. rewrite G2 in G3. mstep.
  set (a1 := set_main _ a). set (c' := put _ _) in G3. assert (Hok : mode_ok c') by by apply put_mode_ok.
  assert (Hend : forall d4, sleeps d4 = sleeps d -> gConfigParam d4 = c' -> twp (my_scan_upload_on_lte_wakeup;; handle_mode mode) Q a1 d4).
  { intros d4 S4 G4. mstep. unfold my_scan_upload_on_lte_wakeup. apply do_spec. intros d5 S5 G5. apply handle_mode_spec. intros d6 S6 G6. cbn [sleep_mark] in S5.
    apply H; try done; [lia|..]; by rewrite G6, G5, G4. }
  mstep.
  - apply send_mode_spec; [by rewrite G3|]. intros d4 S4 G4. apply Hend; [lia|by rewrite G4].
  - apply do_spec. intros d4 S4 G4. cbn [sleep_mark] in S4. apply Hend; [lia|by rewrite G4].
Qed.

(** A switch to one of the four modes: awake afterwards, and the scanner is told nothing. *)
Lemma switch_spec mode (Q : unit -> app -> D -> Prop) a d :
  0 <= mode <= 3 -> mode_ok (gConfigParam d) ->
  (forall a' d', sleeps d' = sleeps d -> lprunning_config (gConfigParam d') = lprunning_config (gConfigParam d) -> mode_ok (gConfigParam d') ->
     a_ctrl a' = a_ctrl a -> flags a' = (false, s_lprunning_active (a_main a) || s_lprunning_hold_off (a_main a)) -> s_last_work_mode (a_main a') = mode -> Q tt a' d') ->
  twp (switch_work_mode_internal mode) Q a d.
Proof.
  intros Hm Hc H. unfold switch_work_mode_internal, get_lprunning_active. do 3 mstep. destruct (s_lprunning_active (a_main a)) eqn:E.
  - mstep. apply do_spec. intros d1 S1 G1. cbn [sleep_mark] in S1. mstep. apply apply_spec; [done|by rewrite G1|]. intros a' d' S G O C F L. apply H; try done; [lia|by rewrite G, G1].
  - mstep. apply apply_spec; [done|done|]. intros a' d' S G O C F L. apply H; try done. rewrite F. unfold flags. by rewrite E.
Qed.

(** ** The checks of the battery *)

(** The battery thread shows [p] percent. *)
Definition show (p : Z) : task unit :=
  modify (fun a => set_ctrl (set_ctrl_battery (set_show_percent p (ctrl_battery (a_ctrl a))) (a_ctrl a)) a).

Fixpoint battery_checks (ps : list Z) : task unit :=
  match ps with
  | [] => ret tt
  | p :: ps => show p;; main_handle MY_MSG_LPSLEEP_BATTERY_CHECK [];; battery_checks ps
  end.

(** While asleep, the mode to go back to is one of the four. *)
Definition saved_ok (a : app) : Prop := s_lprunning_active (a_main a) = true -> 0 <= s_lprunning_saved_mode (a_main a) <= 3.

Lemma enter_spec (Q : unit -> app -> D -> Prop) a d :
  s_lprunning_active (a_main a) = false -> mode_ok (gConfigParam d) ->
  (forall a' d', sleeps d' = sleeps d + 1 -> gConfigParam d' = gConfigParam d -> flags a' = (true, s_lprunning_hold_off (a_main a)) -> saved_ok a' -> Q tt a' d') ->
  twp handle_lprunning_enter Q a d.
Proof.
  intros Ha Hc H. unfold handle_lprunning_enter, handle_lprunning_lte_sync, get_lprunning_active. mstep. mstep. rewrite Ha. mstep. mstep. mstep. mstep.
  mstep. apply do_spec. intros d1 S1 G1. mstep. apply do_spec. intros d2 S2 G2. mstep. apply do_spec. intros d3 S3 G3. mstep. mstep. mstep.
  cbn [a_main set_main set_lprunning_active s_lprunning_active]. apply do_spec. intros d4 S4 G4. apply do_spec. intros d5 S5 G5. cbn [sleep_mark] in *.
  apply H; [lia|congruence|done|]. intros _. cbn. by destruct Hc as (_ & _ & ?).
Qed.

Lemma exit_spec (Q : unit -> app -> D -> Prop) a d :
  s_lprunning_active (a_main a) = true -> saved_ok a -> mode_ok (gConfigParam d) ->
  (forall a' d', sleeps d' = sleeps d + 1 -> lprunning_config (gConfigParam d') = lprunning_config (gConfigParam d) -> mode_ok (gConfigParam d') ->
    flags a' = (false, s_lprunning_hold_off (a_main a)) -> saved_ok a' -> Q tt a' d') ->
  twp handle_lprunning_exit Q a d.
Proof.
  intros Ha Hsv Hc H. unfold handle_lprunning_exit, get_lprunning_active. mstep. mstep. rewrite Ha. cbn [negb]. mstep. apply do_spec. intros d1 S1 G1.
  mstep. mstep. mstep. mstep. mstep. apply switch_spec; [by apply Hsv|by rewrite G1|]. intros a' d2 S2 G2 O2 C2 F2 L2. apply do_spec. intros d3 S3 G3. cbn [sleep_mark] in *.
  apply H; [lia|by rewrite G3, G2, G1|by rewrite G3|exact F2|]. intros E. injection F2 as F2 _. congruence.
Qed.

Lemma check_spec p (Q : unit -> app -> D -> Prop) a d :
  lprunning_sw (lprunning_config (gConfigParam d)) = 1 -> s_show_percent (ctrl_battery (a_ctrl a)) = p -> 0 <= p <= 100 -> saved_ok a -> mode_ok (gConfigParam d) ->
  (forall a' d', let s' := lp_step (lprunning_threshold (lprunning_config (gConfigParam d))) p (flags a) in
    sleeps d' = sleeps d + switched (flags a) s' -> lprunning_config (gConfigParam d') = lprunning_config (gConfigParam d) -> mode_ok (gConfigParam d') ->
    flags a' = s' -> saved_ok a' -> Q tt a' d') ->
  twp handle_lprunning_battery_check Q a d.
Proof.
  intros Hsw Hp Hr Hsv Hc H. unfold handle_lprunning_battery_check, get_show_percent. mstep. mstep. rewrite Hsw. cbn [Z.eqb negb Pos.eqb]. do 4 mstep. rewrite Hp.
  unfold lp_step, flags, switched in H. cbn [fst] in H. destruct (s_lprunning_active (a_main a)) eqn:Ea; cbn [negb andb].
  - assert (u32 p = p) as -> by (apply Z.mod_small; lia). destruct (_ + 5 <=? p).
    + apply exit_spec; [done..|]. intros a' d' S G O F V. by apply H.
    + apply twp_ret, H; try done; [cbn; lia|by rewrite Ea].
  - destruct (Z.ltb_spec p (lprunning_threshold (lprunning_config (gConfigParam d)))) as [L|L].
    + destruct (s_lprunning_hold_off (a_main a)) eqn:Eh.
      * apply twp_ret, H; try done; [cbn; lia|by rewrite Ea, Eh].
      * apply enter_spec; [done..|]. intros a' d' S G F V. rewrite Eh in F. apply H; try done; by rewrite G.
    + rewrite (proj2 (Z.leb_le _ _)) by done. destruct (s_lprunning_hold_off (a_main a)) eqn:Eh.
      * apply twp_modify, H; try done; [cbn; lia|cbn; by rewrite Ea].
      * apply twp_ret, H; try done; [cbn; lia|by rewrite Ea, Eh].
Qed.

Lemma checks_spec ps (Q : unit -> app -> D -> Prop) a d :
  lprunning_sw (lprunning_config (gConfigParam d)) = 1 -> Forall (fun p => 0 <= p <= 100) ps -> saved_ok a -> mode_ok (gConfigParam d) ->
  (forall a' d', sleeps d' = sleeps d + lp_switches (lprunning_threshold (lprunning_config (gConfigParam d))) ps (flags a) -> Q tt a' d') ->
  twp (battery_checks ps) Q a d.
Proof.
  intros Hsw Hps. induction Hps as [|p ps Hp Hps IH] in a, d, Hsw |- *; intros Hsv Hc H; cbn [battery_checks].
  { apply twp_ret, H. cbn. lia. }
  mstep. unfold show. mstep. mstep. cbn [main_handle]. apply (check_spec p); try done. intros a' d' s' S G O F V. apply IH; [by rewrite G|done|done|]. intros a2 d2 S2.
  apply H. cbn [lp_switches]. rewrite S2, G, F, S. cbn. unfold flags. cbn. fold s'. lia.
Qed.
End modes.

(** C35: falling asleep and waking again need a battery that swings: over any sequence of checks, with the percentages [p :: ps] shown, every switch between awake and asleep after the first one needs a change of the percentage by six points, so that the scanner is told to sleep or to wake at most once more than a sixth of the sum of all changes. *)
Theorem sleep_needs_swings {D} `{!ConfigIO D} `{!ConfigLaws D} p ps a (d : D) :
  lprunning_sw (lprunning_config (gConfigParam d)) = 1 -> Forall (fun p => 0 <= p <= 100) (p :: ps) -> saved_ok a ->
  setting_ok (device_workmode_config (gConfigParam d)) ->
  exists a' d', battery_checks (p :: ps) a d = Done (tt, a', d') /\ 0 <= sleeps d' - sleeps d <= 1 + variation p ps / 6.
Proof.
  intros Hsw Hps Hsv Hc%settings_mode. destruct (switches_cost (lprunning_threshold (lprunning_config (gConfigParam d))) (p :: ps) p (flags a)) as [H0 H1].
  cbn [variation] in H1. rewrite Z.sub_diag in H1. cbn [Z.abs] in H1. set (n := lp_switches _ _ _) in *.
  assert (Hv : 0 <= n <= 1 + variation p ps / 6).
  { split; [done|]. pose proof (variation_nonneg p ps). destruct (Z.eq_dec n 0) as [->|]; [pose proof (Z.div_pos (variation p ps) 6); lia|].
    assert (n - 1 <= variation p ps / 6); [|lia]. apply Z.div_le_lower_bound; [done|]. unfold need in H1. lia. }
  assert (W : twp (battery_checks (p :: ps)) (fun _ _ d' => sleeps d' = sleeps d + n) a d) by (apply checks_spec; auto).
  apply twp_done in W as ([] & a' & d' & E & S). exists a', d'. split; [done|lia].
Qed.

(** A defect: a mode chosen by hand while the device sleeps wakes it, but the scanner, which was switched off with the sleep, is not told to start again: no message to wake it is sent, neither now nor by any number of later checks that find the battery still below the threshold. *)
Theorem manual_switch_leaves_scanner_off {D} `{!ConfigIO D} `{!ConfigLaws D} mode ps a (d : D) :
  lprunning_sw (lprunning_config (gConfigParam d)) = 1 -> setting_ok (device_workmode_config (gConfigParam d)) -> 0 <= mode <= 3 ->
  s_lprunning_active (a_main a) = true -> Forall (fun p => 0 <= p < lprunning_threshold (lprunning_config (gConfigParam d)) /\ p <= 100) ps ->
  exists a' d', (main_handle MY_MSG_WORK_MODE_SWITCH [mode];; battery_checks ps) a d = Done (tt, a', d') /\ sleeps d' = sleeps d.
Proof.
  intros Hsw Hc%settings_mode Hm Ha Hps. 
  assert (Hn : forall t, Forall (fun p => 0 <= p < t /\ p <= 100) ps -> lp_switches t ps (false, true) = 0).
  { clear. intros t. induction 1 as [|p ps Hp Hps IH]; [done|]. cbn [lp_switches].
    replace (lp_step t p (false, true)) with (false, true) by (cbn; by rewrite (proj2 (Z.ltb_lt _ _)) by lia). cbn. lia. }
  assert (W : twp (main_handle MY_MSG_WORK_MODE_SWITCH [mode];; battery_checks ps) (fun _ _ d' => sleeps d' = sleeps d) a d).
  { mstep. cbn [main_handle]. apply switch_spec; [done|done|]. intros a1 d1 S1 G1 O1 C1 F1 L1. rewrite Ha in F1. cbn [orb] in F1.
    apply checks_spec; [by rewrite G1|eapply Forall_impl; [exact Hps|]; cbn; lia|intros E; injection F1 as F1 _; congruence|done|].
    intros a' d' S. rewrite S, S1, F1, G1, Hn by done. lia. }
  apply twp_done in W as ([] & a' & d' & E & S). by exists a', d'.
Qed.

(** ** A start time of 2400 *)

(** A defect: the command of the long-life mode accepts 2400 as the start time, but the time to the next report is not computed for it: the timer that wakes the LTE module is not started. *)
Theorem start_2400_never_wakes {D} `{!ConfigIO D} `{!ConfigLaws D} m interval gnss :
  5 <= interval <= 1440 -> 0 <= gnss <= 1 ->
  exists m', set_long_battery_params m interval (cstr "2400") gnss = Some m' /\
    forall a (d : D), device_workmode_config (gConfigParam d) = m' ->
      exists d', main_handle MY_MSG_RESET_LTE_TIMER [] a d = Done (tt, a, d') /\ board_log d' = board_log d.
Proof.
  intros Hi Hg. unfold set_long_battery_params. rewrite (proj2 (Z.ltb_ge interval 5)), (proj2 (Z.ltb_ge 1440 interval)), (proj2 (Z.ltb_ge 1 gnss)) by lia.
  eexists. split; [reflexivity|]. intros a d Hm. cbn [main_handle]. unfold set_reset_lte_timer, bind, ask_ret, config, world.
  pose proof (law_ask_log my_get_system_time_sec d) as L. pose proof (law_ask_config my_get_system_time_sec d) as G. destruct (board_ask _ d) as [d1 r]. cbn in L, G.
  rewrite G, Hm. cbn [start_time reporting_interval_min]. exists d1. split; [|done].
  change (c_string _) with (Some (cstr "2400")). cbn [checked]. unfold calculate_remaining_seconds. cbn -[Z.leb Z.ltb].
  rewrite (proj2 (Z.leb_gt interval 0)) by lia. by destruct (fst r <? 0).
Qed.

(** ** Power on *)

Section power.
Context {D : Type} `{!ConfigIO D} `{!ConfigLaws D}.
Notation task := (prog app D).

(** The key reads as pressed for [n] polls, then as released. *)
Fixpoint key_held (n : nat) (d : D) : Prop :=
  let level := fst (snd (board_ask (gpio_pin_get fun_key) d)) in
  let d' := fst (board_ask (gpio_pin_get fun_key) d) in
  match n with
  | O => level = 0
  | S n => level <> 0 /\ key_held n (board_do (k_msleep KEY_POLL_PERIOD_MS) d')
  end.

Lemma held_polls_spec n fuel k (Q : Z -> app -> D -> Prop) a d :
  key_held n d -> (n < fuel)%nat -> 0 <= k -> k + Z.of_nat n < 4294967296 ->
  (forall d', gConfigParam d' = gConfigParam d -> Q (k + Z.of_nat n) a d') -> twp (held_polls_loop fuel k) Q a d.
Proof.
  induction n as [|n IH] in fuel, k, d |- *; intros Hk Hf H0 Hb H; (destruct fuel as [|fuel]; [lia|]); cbn [held_polls_loop]; mstep; apply twp_world; intros r d' E;
    cbn in Hk; pose proof (law_ask_config (gpio_pin_get fun_key) d) as G; destruct (board_ask _ d) as [d1 r1]; injection E as -> <-; cbn in Hk, G.
  - rewrite Hk. apply twp_ret. rewrite Z.add_0_r in H. by apply H.
  - destruct Hk as [Hr Hk]. rewrite (proj2 (Z.eqb_neq _ _)) by done. mstep. apply twp_world. intros [] d2 [= <-].
    assert (u32 (k + 1) = k + 1) as -> by (apply Z.mod_small; lia). apply IH; [done|lia|lia|lia|]. intros d3 G'.
    replace (k + 1 + Z.of_nat n) with (k + Z.of_nat (Datatypes.S n)) by lia. apply H. by rewrite G', law_do_config.
Qed.

Lemma save_flag_spec v (Q : unit -> app -> D -> Prop) a d :
  (forall d', shutdown_flag (shutdown_config (gConfigParam d')) = v -> Q tt a d') -> twp (save_shutdown_flag v) Q a d.
Proof. intros H. unfold save_shutdown_flag. mstep. apply update_config_spec. intros d1 _ G1. mstep. mstep. apply do_spec. intros d2 _ G2. apply H. by rewrite G2, G1. Qed.

(** Code that returns and leaves the settings alone. *)
Definition config_kept {S A} (m : prog S D A) : Prop :=
  forall (Q : A -> S -> D -> Prop) y d, (forall x y' d', gConfigParam d' = gConfigParam d -> Q x y' d') -> twp m Q y d.

Lemma kept_do {S} c : config_kept (do c : prog S D unit).
Proof. intros Q y d H. apply do_spec. auto. Qed.
Lemma kept_ask_ret {S} q : config_kept (ask_ret q : prog S D Z).
Proof. intros Q y d H. apply ask_ret_spec'. auto. Qed.
Lemma kept_ret {S A} (x : A) : config_kept (ret x : prog S D A).
Proof. intros Q y d H. by apply twp_ret, H. Qed.
Lemma kept_modify {S} f : config_kept (modify f : prog S D unit).
Proof. intros Q y d H. by apply twp_modify, H. Qed.
Lemma kept_bind {S A B} (m : prog S D A) (k : A -> prog S D B) : config_kept m -> (forall x, config_kept (k x)) -> config_kept (bind m k).
Proof. intros Hm Hk Q y d H. apply twp_bind, Hm. intros x y' d' G. apply Hk. intros x2 y2 d2 G2. apply H. congruence. Qed.
Lemma kept_get {S A B} (f : S -> A) (k : A -> prog S D B) : (forall x, config_kept (k x)) -> config_kept (bind (get f) k).
Proof. intros Hk Q y d H. apply twp_bind, twp_get. by apply Hk. Qed.
Lemma kept_if {S A} (b : bool) (m1 m2 : prog S D A) : config_kept m1 -> config_kept m2 -> config_kept (if b then m1 else m2).
Proof. by destruct b. Qed.
Lemma kept_zoom {S T A} (part : T -> S) put (m : prog S D A) : config_kept m -> config_kept (zoom part put m).
Proof. intros Hm Q y d H. apply twp_zoom, Hm. auto. Qed.

Lemma close_kept : config_kept (peripheral_close : task unit).
Proof.
  assert (Hled : forall i cmd, config_kept (my_ctrl_led_process i cmd : task unit)) by (intros i []; apply kept_do).
  unfold peripheral_close. apply kept_bind; [apply kept_zoom|intros _; apply kept_bind; [apply kept_zoom, kept_zoom, kept_do|intros _]].
  - unfold my_gsensor_pwr_on. apply kept_get. intros st. apply kept_if; [apply kept_ret|]. apply kept_bind; [apply kept_ask_ret|intros err].
    apply kept_if; [apply kept_bind; [apply kept_modify|intros _]|]; apply kept_ret.
  - unfold batt_led_set_level. cbv zeta. apply kept_bind; [apply Hled|intros _]. apply kept_bind; [apply Hled|intros _; apply Hled].
Qed.

Lemma save_bias_returns (Q : unit -> gsensor -> D -> Prop) g d : (forall d', Q tt g d') -> twp my_gsensor_save_imu_bias Q g d.
Proof.
  intros H. unfold my_gsensor_save_imu_bias. mstep. mstep. mstep; [apply twp_ret, H|]. mstep. apply update_config_spec. intros d1 _ _. mstep. mstep. apply do_spec. auto.
Qed.

Lemma system_off_spec (Q : unit -> app -> D -> Prop) a d :
  (forall a' d', last (board_log d') = Some sys_poweroff -> shutdown_flag (shutdown_config (gConfigParam d')) = 1 -> Q tt a' d') -> twp go_to_system_off Q a d.
Proof.
  intros H. unfold go_to_system_off, enable_wakeup_pin. mstep. apply twp_zoom, save_bias_returns. intros d1. mstep. apply save_flag_spec. intros d2 G2.
  mstep. apply kept_do. intros ? ? d3 G3. mstep. apply close_kept. intros ? ? d4 G4. mstep. apply kept_do. intros ? ? d5 G5. mstep. apply kept_do. intros ? ? d6 G6.
  mstep. apply (kept_bind _ _ (kept_do _) (fun _ => kept_do _)). intros ? ? d7 G7. mstep. apply kept_do. intros ? ? d8 G8. apply twp_world. intros [] d9 [= <-].
  apply H; [rewrite law_do_log; apply last_snoc|]. rewrite law_do_config. congruence.
Qed.
End power.

(** C36: a device that was shut down and has no charger stays on after a start only if the key is held for at least three seconds, sixty polls of 50 milliseconds: otherwise the processor is switched off again, as the last thing done, with the mark of the shutdown kept; if it is held long enough the mark is cleared. *)
Theorem wakeup_needs_long_press {D} `{!ConfigIO D} `{!ConfigLaws D} n fuel a (d : D) :
  shutdown_flag (shutdown_config (gConfigParam d)) = 1 -> fst (snd (board_ask (gpio_pin_get charge_det) d)) = 0 ->
  key_held n (fst (board_ask (gpio_pin_get charge_det) d)) -> (n < fuel)%nat -> Z.of_nat n < 4294967296 ->
  exists a' d', wakeup_check fuel a d = Done (60 <=? Z.of_nat n, a', d') /\
    if 60 <=? Z.of_nat n then shutdown_flag (shutdown_config (gConfigParam d')) = 0
    else last (board_log d') = Some sys_poweroff /\ shutdown_flag (shutdown_config (gConfigParam d')) = 1.
Proof.
  intros Hf Hch Hk Hn Hb.
  assert (W : twp (wakeup_check fuel) (fun r _ d' => r = (60 <=? Z.of_nat n) /\ if 60 <=? Z.of_nat n then shutdown_flag (shutdown_config (gConfigParam d')) = 0
    else last (board_log d') = Some sys_poweroff /\ shutdown_flag (shutdown_config (gConfigParam d')) = 1) a d).
  { unfold wakeup_check. mstep. mstep. rewrite Hf. cbn [Z.eqb Pos.eqb negb]. mstep. apply twp_zoom, twp_zoom. unfold get_charge_state_level. apply twp_world. intros r d1 E.
    destruct (board_ask _ d) as [d2 r2]. injection E as -> <-. cbn in Hch, Hk. rewrite Hch. cbn [Z.eqb]. mstep. mstep.
    apply (held_polls_spec n); [done|done|lia|lia|]. intros d3 G3. rewrite Z.add_0_l. change KEY_LONG_PRESS_COUNT with 60.
    destruct (Z.leb_spec 60 (Z.of_nat n)); [rewrite (proj2 (Z.ltb_ge _ _)) by done|rewrite (proj2 (Z.ltb_lt _ _)) by done].
    - mstep. mstep. apply save_flag_spec. intros d4 G4. by mstep.
    - mstep. apply system_off_spec. intros a' d4 L4 G4. mstep. by mstep. }
  apply twp_done in W as (r & a' & d' & E & -> & W). by exists a', d'.
Qed.
