(* ===== verification/BoardSim.v ===== *)
(** * A board

    A device that answers every question in a fixed way and remembers the calls
    made to it, with settings that are fixed or can be changed; on it the
    theorems on the battery, the control thread, the motion sensor and the main
    thread are applied to concrete inputs. *)

From S2P Require Import Prelude Text Str Calendar Prog Pm Layout Float32 SettingsData Settings AtCmd AtHandlers Attitude Board Battery BatteryProofs Ctrl CtrlProofs GsensorWindow Gsensor GsensorProofs Main MainProofs.

Open Scope prog_scope.

(** ** Fixed settings *)

(** The pin of the battery has [v] millivolts, the clock shows [now]. *)
Definition sim_answer (v now : Z) (q : board_query) : Z * list Z :=
  match q with
  | adc_raw_to_millivolts _ => (0, [v])
  | k_uptime_get_32 => (now, [])
  | my_get_system_time_sec => (1700000000, [])
  | imu_get_chip_id => (0, [MY_BMI325_ID])
  | hw_setup (device_ready _) => (1, [])
  | _ => (0, [])
  end.

(** The factory settings, with a report of the full battery. *)
Definition sim_config : config_param_t := put (mk_batlevel FLAG_VALID 1 1 1 1 1 1 1) resting_config.

Definition sim_board (v now : Z) (c : config_param_t) : BoardIO (list board_call) := {|
  board_do call log := log ++ [call];
  board_ask q log := (log, sim_answer v now q);
  board_log log := log;
  gConfigParam _ := c
|}.

(** One volt at the pin, 3.94 at the battery. *)
#[local] Instance board : BoardIO (list board_call) := sim_board 1000 100000 sim_config.
#[local] Instance board_laws : BoardLaws (list board_call).
Proof. split; by intros. Qed.
#[local] Instance board_steady : SteadyVoltage (list board_call) 1000.
Proof. by split. Qed.
#[local] Instance board_adc : AdcSane (list board_call).
Proof. by intros raw d _. Qed.
#[local] Instance board_fit : ThresholdsFit (list board_call).
Proof. intros d. split; by vm_compute. Qed.

Lemma steady_voltage_shown_witness :
  exists b' d', updates 15 battery_start [] = Done (tt, b', d') /\ s_show_percent b' = 64.
Proof.
  destruct (steady_voltage_shown 1000 ([] : list board_call) 15) as (b' & d' & E & H); [lia|lia|]. exists b', d'. split; [exact E|].
  change (Some (s_show_percent b') = Some 64) in H. by injection H.
Defined.

Lemma first_measurement_full_witness :
  exists b' d' now, my_battery_update_state battery_start [] = Done (tt, b', d') /\ s_show_percent b' = 100 /\ full_alarm sim_config now ∈ board_log d'.
Proof. by apply (first_measurement_full 1000 sim_config ([] : list board_call)). Defined.

(** The state after a message that asks for the temperature. *)
Definition after_read : ctrl :=
  match run_ctrl (CtrlMessage MY_MSG_CTRL_TEMP_READ []) ctrl_start ([] : list board_call) with Done (_, s, _) => s | _ => ctrl_start end.

Lemma control_events_safe_witness :
  th_timestamp (g_temp_humi_sample after_read) = 1700000000 /\
  forall e (d : list board_call), exists s' d', run_ctrl e after_read d = Done (tt, s', d').
Proof.
  split; [vm_compute; reflexivity|]. apply (control_events_safe (D := list board_call)).
  apply (ctrl_next (CtrlMessage MY_MSG_CTRL_TEMP_READ []) ctrl_start _ [] 
    match run_ctrl (CtrlMessage MY_MSG_CTRL_TEMP_READ []) ctrl_start ([] : list board_call) with Done (_, _, d) => d | _ => [] end); [constructor|vm_compute; reflexivity].
Defined.

(** A short press, one that is not long enough, and a long one. *)
Lemma key_presses_reported_witness :
  polls (concat (map press_levels [(3, 1); (1, 0); (75, 2)]%nat)) ctrl_start [] = Done (tt, ctrl_start,
    [k_timer_stop key_timer; my_send_msg MOD_MAIN MY_MSG_CTRL_KEY_SHORT_PRESS; k_timer_stop key_timer;
     k_timer_stop key_timer; my_send_msg MOD_MAIN MY_MSG_CTRL_KEY_LONG_PRESS]).
Proof.
  rewrite (key_presses_reported [(3, 1); (1, 0); (75, 2)]%nat ctrl_start ([] : list board_call)); [vm_compute; reflexivity|done|done|].
  repeat (constructor; [cbn; lia|]). constructor.
Defined.

(** Three times on and off, then silence. *)
Lemma buzzer_pattern_witness :
  exists s', (my_buzzer_play (Some BUZZER_FAIL_TONE);; ticks 10) ctrl_start [] = Done (tt, s',
    [my_send_msg MOD_CTRL MY_MSG_CTRL_BUZZER_ON; k_timer_stop s_buzzer_timer; k_timer_start s_buzzer_timer 100 100;
     my_send_msg MOD_CTRL MY_MSG_CTRL_BUZZER_OFF; my_send_msg MOD_CTRL MY_MSG_CTRL_BUZZER_ON; my_send_msg MOD_CTRL MY_MSG_CTRL_BUZZER_OFF;
     my_send_msg MOD_CTRL MY_MSG_CTRL_BUZZER_ON; my_send_msg MOD_CTRL MY_MSG_CTRL_BUZZER_OFF; k_timer_stop s_buzzer_timer]).
Proof.
  destruct (buzzer_pattern BUZZER_FAIL_TONE 2 2 3 ctrl_start ([] : list board_call) 10) as [s' E]; [done|split; [lia|right; lia]|].
  exists s'. rewrite E. vm_compute. reflexivity.
Defined.

(** Half an hour above 30 degrees, measured every ten minutes: one alarm in the smart mode. *)
Lemma alarms_limited_witness :
  alarm_count sim_config 0 30 10 5 ALARM_LOW_TEMP ALARM_HIGH_TEMP [(310, 1000); (320, 1600); (330, 2200); (320, 2800)] (mk_level NORMAL_PATM_TEMP_ALARM 0) = 1.
Proof.
  destruct (alarms_limited sim_config 0 30 10 5 ALARM_LOW_TEMP ALARM_HIGH_TEMP HIGH_PATM_TEMP_ALARM
    [(310, 1000); (320, 1600); (330, 2200); (320, 2800)] (mk_level NORMAL_PATM_TEMP_ALARM 0) 1000 2800) as [H1 H2]; [done|lia|lia|lia|repeat (split; [vm_compute; reflexivity|split; [lia|]]); cbn; lia|].
  change (repeats sim_config 5) with false in H1. cbv iota in H1. specialize (H2 ltac:(done) ltac:(done)). lia.
Defined.

(** ** The motion sensor *)

#[local] Instance board_libm : Libm := libm_zero.
#[local] Instance board_runtime : PmRuntime (list board_call) := {|
  has_bus _ := true;
  pm_device_runtime_get _ d := (d, 0);
  pm_device_runtime_put _ d := (d, 0)
|}.
Lemma sim_mode_ok : setting_ok (device_workmode_config sim_config).
Proof. split; [split; [done|]|]; vm_compute; reflexivity. Qed.
#[local] Instance board_sensor : SensorBoard (list board_call).
Proof. split; [done|]. intros d. apply sim_mode_ok. Qed.

(** Five interrupts in the last ten seconds. *)
Definition shaken : sliding_window_t := default g_int_window_start (run_window 10000 [WInterrupt 95000; WInterrupt 96000; WInterrupt 97000; WInterrupt 98000; WInterrupt 99000] g_int_window_start).

Lemma motion_alarms_swapped_witness :
  let g := set_sensor_ready true (set_int_window shaken gsensor_start) in
  exists g' d' t, my_gsensor_motion_state_check g [] = Done (tt, g', d') /\ current_gsensor_state g' = STATE_MOTION /\ motion_alarm sim_config ALARM_MOVE_STOP t ∈ board_log d'.
Proof.
  intros g. assert (J : judged sim_config 100000 (g_int_window g) = STATE_MOTION) by (vm_compute; reflexivity).
  destruct (motion_alarms_swapped sim_config 100000 g ([] : list board_call)) as (g' & d' & t & E & H1 & H2);
    [done|done|apply sim_mode_ok|done|done|done| |by rewrite J|].
  { split; [vm_compute; reflexivity|..]; vm_compute; split; discriminate || reflexivity. }
  rewrite J in H1. exists g', d', t. split; [exact E|]. split; [exact H1|]. by rewrite H1 in H2.
Defined.

(** Two samples upright, then more than three seconds turned by 45 degrees. *)
Lemma overturn_alarms_witness :
  let e0 := mk_euler (of_int 1) (of_int 0) (of_int 0) in
  let e1 := mk_euler (of_int 45) (of_int 0) (of_int 0) in
  let g := set_is_over_turn true gsensor_start in
  checks ([e0; e0] ++ repeat e1 301) gsensor_start [] = send_alarm_message_to_lte ALARM_FILP None g ([] : list board_call).
Proof.
  intros e0 e1 g. destruct (overturn_alarms sim_config false gsensor_start ([] : list board_call) [e0; e0]) as [_ H]; [done|done|done|done|done| |].
  - intros a r b E Hr. destruct r as [|x r]; [done|]. exfalso. assert (Hx : x ∈ [e0; e0]) by (rewrite E; set_solver).
    cbn [forallb] in Hr. apply andb_true_iff in Hr as [Hr _]. assert (x = e0) as -> by set_solver. vm_compute in Hr. discriminate.
  - apply (H (repeat e1 301)); [right; exists [e0], e0; split; [done|vm_compute; reflexivity]|vm_compute; reflexivity|vm_compute; reflexivity].
Defined.

(** The start in the smart mode switches the sensor on, and an interrupt is handled then. *)
Definition started : gthread (list board_call) :=
  match my_gsensor_task_start (gthread_start true) ([] : list board_call) with Done (_, y, _) => y | _ => gthread_start true end.

Lemma motion_thread_safe_witness :
  sensor_ready (g_vars started) = true /\ s_gsensor_power_state (g_vars started) = true /\
  exists y' d', my_gsensor_task_handle MY_MSG_GSENSOR_INT started ([] : list board_call) = Done (tt, y', d').
Proof.
  assert (R : gthread_reached started).
  { apply (gthread_boot true started [] match my_gsensor_task_start (gthread_start true) ([] : list board_call) with Done (_, _, d) => d | _ => [] end). vm_compute. reflexivity. }
  split; [vm_compute; reflexivity|]. destruct (proj2 (motion_thread_safe (D := list board_call)) started R) as ((ctx & _ & H & _) & Hm).
  split; [apply H; vm_compute; reflexivity|apply Hm].
Defined.

(** ** Settings that change *)

(** The levels the key will show. *)
Record machine := mk_machine { m_log : list board_call; m_config : config_param_t; m_key : list Z }.

#[local] Instance machine_io : BoardIO machine := {|
  board_do call d := mk_machine (m_log d ++ [call]) (m_config d) (m_key d);
  board_ask q d :=
    match q with
    | gpio_pin_get fun_key => (mk_machine (m_log d) (m_config d) (tl (m_key d)), (hd 0 (m_key d), []))
    | _ => (d, sim_answer 1000 100000 q)
    end;
  board_log := m_log;
  gConfigParam := m_config
|}.
#[local] Instance machine_config : ConfigIO machine := {|
  config_board := machine_io;
  put_config c d := mk_machine (m_log d) c (m_key d)
|}.
#[local] Instance machine_laws : ConfigLaws machine.
Proof. split; [split|..]; try done; intros []; try done; by intros [[] ? ?]; try destruct p. Qed.

(** Low-battery sleep below twenty percent. *)
Definition sleep_config : config_param_t := put (mk_lprunning FLAG_VALID 1 20 24) sim_config.

(** Twice around the threshold and back, then up to 26 percent: asleep once, awake once. *)
Lemma sleep_needs_swings_witness :
  exists a' d', battery_checks [22; 19; 21; 19; 23; 26; 20] app_start (mk_machine [] sleep_config []) = Done (tt, a', d') /\ 0 <= sleeps d' <= 4.
Proof.
  destruct (sleep_needs_swings 22 [19; 21; 19; 23; 26; 20] app_start (mk_machine [] sleep_config [])) as (a' & d' & E & H);
    [done|repeat (constructor; [lia|]); constructor|done|apply sim_mode_ok|].
  exists a', d'. split; [exact E|]. change (sleeps (mk_machine [] sleep_config [])) with 0 in H. change (1 + variation 22 [19; 21; 19; 23; 26; 20] / 6) with 4 in H. lia.
Defined.

Lemma manual_switch_leaves_scanner_off_witness :
  let a := set_main (set_lprunning_active true main_start) app_start in
  exists a' d', (main_handle MY_MSG_WORK_MODE_SWITCH [MY_MODE_CONTINUOUS];; battery_checks [15; 12]) a (mk_machine [] sleep_config []) = Done (tt, a', d') /\ sleeps d' = 0.
Proof.
  intros a. destruct (manual_switch_leaves_scanner_off MY_MODE_CONTINUOUS [15; 12] a (mk_machine [] sleep_config [])) as (a' & d' & E & H);
    [done|apply sim_mode_ok|done|done|repeat (constructor; [cbn; lia|]); constructor|].
  by exists a', d'.
Defined.

Lemma start_2400_never_wakes_witness :
  exists m', set_long_battery_params (device_workmode_config sim_config) 240 (cstr "2400") 0 = Some m' /\
    forall a (d : machine), device_workmode_config (gConfigParam d) = m' ->
      exists d', main_handle MY_MSG_RESET_LTE_TIMER [] a d = Done (tt, a, d') /\ board_log d' = board_log d.
Proof. apply (start_2400_never_wakes (D := machine) (ConfigIO0 := machine_config) (device_workmode_config sim_config) 240 0); lia. Defined.

(** After a shutdown: the key held for a second, and for four. *)
Lemma wakeup_needs_long_press_witness :
  let d n := mk_machine [] (put (mk_shutdown_cfg FLAG_VALID 1) sim_config) (repeat 1 n) in
  (exists a' d', wakeup_check 100 app_start (d 20%nat) = Done (false, a', d') /\ last (board_log d') = Some sys_poweroff) /\
  (exists a' d', wakeup_check 100 app_start (d 80%nat) = Done (true, a', d') /\ shutdown_flag (shutdown_config (gConfigParam d')) = 0).
Proof.
  intros d. split.
  - destruct (wakeup_needs_long_press 20 100 app_start (d 20%nat)) as (a' & d' & E & H); [done|done|vm_compute; repeat (split; [discriminate|]); done|lia|lia|].
    exists a', d'. split; [exact E|exact (proj1 H)].
  - destruct (wakeup_needs_long_press 80 100 app_start (d 80%nat)) as (a' & d' & E & H); [done|done|vm_compute; repeat (split; [discriminate|]); done|lia|lia|].
    exists a', d'. split; [exact E|exact H].
Defined.
