(* ===== verification/LteCmd.v ===== *)
(** * The commands of the LTE module ([src/my_lte.c], [inc/my_lte.h])

    A received line is a command of the module ([LTE+...]), an answer to one of
    our messages ([BLE+...]) or a command of the production test.  The file has
    one definition per handler, the queue of messages that wait for an
    answer, and the dispatch of a line; together they are the handlers of the
    thread of [Lte].  The settings, the update session and the work mode are
    those of [Settings], [DfuLte] and [Main]. *)

From S2P Require Import Prelude Text Str FlashStore Prog AtParse Layout SettingsData Settings AtCmd AtHandlers Float32 Main RingBuf Crc OtaFlash Ymodem DfuLte Pm Lte.

Open Scope prog_scope.

Definition MAX_RETRIES : Z := 3.
Definition ACK_TIMEOUT_S : Z := 2.
Definition RETRANSMISSION_QUEUE_SIZE : nat := 10.
Definition ASYNC_QUEUE_SIZE : nat := 6.
Definition MAX_ARGS : Z := 10.
Definition LOCATION_VALIDITY_PERIOD_S : Z := 30 * 60.
Definition LTE_CMD_RESPBUF_SIZE : Z := 1024.

(** ** Data *)

Inductive msg_state_enum_t := MSG_STATE_IDLE | MSG_STATE_PENDING | MSG_STATE_TIMEOUT.

(** [param] is the block the slot owns; moving a slot moves the block. *)
Record retransmission_item_t := mk_item {
  cmd_name : list Z;
  param : option (list Z);
  retry_count : Z;
  send_time : Z;
  state : msg_state_enum_t
}.

Definition no_item : retransmission_item_t := mk_item [] None 0 0 MSG_STATE_IDLE.
Definition pending (x : retransmission_item_t) : bool :=
  match state x with MSG_STATE_PENDING => true | _ => false end.

Definition s_special_cmd_prefixes : list (list Z) := [cstr "MACINFO"; cstr "TAG"].

Record async_resp_tiem_t := mk_async { async_cmd_name : list Z; async_id : list Z; used : bool }.
Definition no_async : async_resp_tiem_t := mk_async [] [] false.

Inductive ble_rsp_t :=
  | BLE_RSP_UNKNOWN | BLE_RSP_LOCATION | BLE_RSP_LED | BLE_RSP_TIME | BLE_RSP_TAG | BLE_RSP_OTA | BLE_RSP_INFO | BLE_RSP_MACINFO
  | BLE_RSP_WMODE | BLE_RSP_PWROFF | BLE_RSP_PULSE | BLE_RSP_TH | BLE_RSP_BP | BLE_RSP_CDATA | BLE_RSP_FACTORY | BLE_RSP_KEY.

Definition ble_rsp_cmd_table : list (list Z * ble_rsp_t) :=
  [(cstr "LOCATION", BLE_RSP_LOCATION); (cstr "LED", BLE_RSP_LED); (cstr "TIME", BLE_RSP_TIME); (cstr "TAG", BLE_RSP_TAG);
   (cstr "OTA", BLE_RSP_OTA); (cstr "INFO", BLE_RSP_INFO); (cstr "MACINFO", BLE_RSP_MACINFO); (cstr "WMODE", BLE_RSP_WMODE);
   (cstr "PWROFF", BLE_RSP_PWROFF); (cstr "PULSE", BLE_RSP_PULSE); (cstr "TH", BLE_RSP_TH); (cstr "BP", BLE_RSP_BP);
   (cstr "CDATA", BLE_RSP_CDATA); (cstr "FACTORY", BLE_RSP_FACTORY); (cstr "KEY", BLE_RSP_KEY)].

Record ble_rsp_result_t := mk_rsp { rsp_type : ble_rsp_t; rsp_cmd_name : list Z; rsp_params : list Z; param_count : Z }.

Record location_storage_t := mk_location { lat : Z; lon : Z; speed : f32; timestamp_s : Z }.

(** The variables of [my_lte.c] that the handlers use.  A character array is
    the string it holds; [s_retrans_check_timer] tells whether the timer runs. *)
Record lte_vars := mk_vars {
  s_retrans_queue : list retransmission_item_t;
  s_retrans_check_timer : bool;
  g_async_queue : list async_resp_tiem_t;
  s_sensor_ble_rsp : ble_rsp_result_t;
  s_4GPoweronStatus : Z;
  v_lte4GVersion : list Z;
  s_lteBootReason : Z;
  g_location_point : location_storage_t;
  s_lte_pulse_count : Z;
  g_lte_net_flag : Z;
  g_lte_net_signal_level : Z;
  g_lte_gps_state : Z;
  g_lte_gps_signal : list Z;
  g_id : list Z
}.

Definition set_retrans (q : list retransmission_item_t) (timer : bool) (v : lte_vars) : lte_vars :=
  mk_vars q timer (g_async_queue v) (s_sensor_ble_rsp v) (s_4GPoweronStatus v) (v_lte4GVersion v) (s_lteBootReason v)
    (g_location_point v) (s_lte_pulse_count v) (g_lte_net_flag v) (g_lte_net_signal_level v) (g_lte_gps_state v) (g_lte_gps_signal v) (g_id v).
Definition set_async (q : list async_resp_tiem_t) (v : lte_vars) : lte_vars :=
  mk_vars (s_retrans_queue v) (s_retrans_check_timer v) q (s_sensor_ble_rsp v) (s_4GPoweronStatus v) (v_lte4GVersion v) (s_lteBootReason v)
    (g_location_point v) (s_lte_pulse_count v) (g_lte_net_flag v) (g_lte_net_signal_level v) (g_lte_gps_state v) (g_lte_gps_signal v) (g_id v).
Definition set_sensor_rsp (r : ble_rsp_result_t) (v : lte_vars) : lte_vars :=
  mk_vars (s_retrans_queue v) (s_retrans_check_timer v) (g_async_queue v) r (s_4GPoweronStatus v) (v_lte4GVersion v) (s_lteBootReason v)
    (g_location_point v) (s_lte_pulse_count v) (g_lte_net_flag v) (g_lte_net_signal_level v) (g_lte_gps_state v) (g_lte_gps_signal v) (g_id v).
Definition set_power_on (status : Z) (version : list Z) (v : lte_vars) : lte_vars :=
  mk_vars (s_retrans_queue v) (s_retrans_check_timer v) (g_async_queue v) (s_sensor_ble_rsp v) status version (s_lteBootReason v)
    (g_location_point v) (s_lte_pulse_count v) (g_lte_net_flag v) (g_lte_net_signal_level v) (g_lte_gps_state v) (g_lte_gps_signal v) (g_id v).
Definition set_lte_boot_reason (r : Z) (v : lte_vars) : lte_vars :=
  mk_vars (s_retrans_queue v) (s_retrans_check_timer v) (g_async_queue v) (s_sensor_ble_rsp v) (s_4GPoweronStatus v) (v_lte4GVersion v) r
    (g_location_point v) (s_lte_pulse_count v) (g_lte_net_flag v) (g_lte_net_signal_level v) (g_lte_gps_state v) (g_lte_gps_signal v) (g_id v).
Definition set_location (p : location_storage_t) (v : lte_vars) : lte_vars :=
  mk_vars (s_retrans_queue v) (s_retrans_check_timer v) (g_async_queue v) (s_sensor_ble_rsp v) (s_4GPoweronStatus v) (v_lte4GVersion v)
    (s_lteBootReason v) p (s_lte_pulse_count v) (g_lte_net_flag v) (g_lte_net_signal_level v) (g_lte_gps_state v) (g_lte_gps_signal v) (g_id v).
Definition set_pulse_count (n : Z) (v : lte_vars) : lte_vars :=
  mk_vars (s_retrans_queue v) (s_retrans_check_timer v) (g_async_queue v) (s_sensor_ble_rsp v) (s_4GPoweronStatus v) (v_lte4GVersion v)
    (s_lteBootReason v) (g_location_point v) n (g_lte_net_flag v) (g_lte_net_signal_level v) (g_lte_gps_state v) (g_lte_gps_signal v) (g_id v).
Definition set_net (flag level : Z) (v : lte_vars) : lte_vars :=
  mk_vars (s_retrans_queue v) (s_retrans_check_timer v) (g_async_queue v) (s_sensor_ble_rsp v) (s_4GPoweronStatus v) (v_lte4GVersion v)
    (s_lteBootReason v) (g_location_point v) (s_lte_pulse_count v) flag level (g_lte_gps_state v) (g_lte_gps_signal v) (g_id v).
Definition set_gps (st : Z) (signal : list Z) (v : lte_vars) : lte_vars :=
  mk_vars (s_retrans_queue v) (s_retrans_check_timer v) (g_async_queue v) (s_sensor_ble_rsp v) (s_4GPoweronStatus v) (v_lte4GVersion v)
    (s_lteBootReason v) (g_location_point v) (s_lte_pulse_count v) (g_lte_net_flag v) (g_lte_net_signal_level v) st signal (g_id v).
Definition set_id (s : list Z) (v : lte_vars) : lte_vars :=
  mk_vars (s_retrans_queue v) (s_retrans_check_timer v) (g_async_queue v) (s_sensor_ble_rsp v) (s_4GPoweronStatus v) (v_lte4GVersion v)
    (s_lteBootReason v) (g_location_point v) (s_lte_pulse_count v) (g_lte_net_flag v) (g_lte_net_signal_level v) (g_lte_gps_state v)
    (g_lte_gps_signal v) s.

(** ** The rest of the device *)

(** Messages to the other threads, with the text they carry. *)
Inductive out_msg :=
  | MY_MSG_LPSLEEP_LTE_SYNC | MY_MSG_UPLOAD_WAKEUP | MY_MSG_CTRL_SHUTDOWN_REQUEST | MY_MSG_UPLOAD_TAG_AND_MAC | MY_MSG_BLE_SENSOR_LTE_ACK
  | MY_MSG_CTRL_TEMP_READ | MY_MSG_CTRL_PATM_READ | MY_MSG_LTE_CMD_RX (text : list Z) | MY_MSG_BLE_TX (text : list Z).

Inductive host_call :=
  | send_out (dest : AtCmd.module_type) (m : out_msg)
  | my_set_system_time (sec : Z)
  | batt_led_set_level (level : Z)
  | batt_enable (on : bool)
  | my_gsensor_save_imu_bias
  | clear_tag_macinfo
  | sys_reboot.

(** [atof] is the conversion of the C library, rounded to [float];
    [ymodem_alloc] is the allocation of [my_ymodem_init]. *)
Class LteHost (D : Type) := {
  host_cmd :: CmdIO D;
  host : host_call -> D -> D;
  my_get_system_time_sec : D -> Z;
  get_batt_percent : D -> Z;
  get_chip_id : D -> Z;
  my_battery_read_mv : D -> D * Z;
  get_light_tamper_state : D -> bool;
  get_light_pull_state : D -> bool;
  my_gsensor_get_state : D -> Z;
  g_shutdown_request : D -> bool;
  bt_get_mac_addr : D -> list Z;
  atof : list Z -> f32;
  ymodem_alloc : D -> D * bool
}.

(** What the handlers share: the variables of [my_lte.c], the settings, and the
    variables of the update session with the image they write. *)
Record lte_env (F : Type) := mk_env {
  vars : lte_vars;
  cfg : globals;
  update : dfu_world unit F
}.
Arguments mk_env {F} _ _ _.
Arguments vars {F} _.
Arguments cfg {F} _.
Arguments update {F} _.

(** ** Strings *)

(** [strcpy], [strcat] and [sprintf] into an array of [n] characters. *)
Definition strcpy (n : Z) (s : list Z) : option (list Z) := if zlen s <? n then Some s else None.

(** A field of the text, in an array of [n] characters, and whether more follow. *)
Definition str_at (data : list Z) (pos n : Z) : option (list Z * bool) :=
  '(out, more) ← my_get_str_at_pos (Some data) pos 44 (replicate (Z.to_nat n) 0) n;
  s ← c_string out;
  Some (s, more).

(** The characters of an array before its end or its first zero. *)
Fixpoint until_nul (l : list Z) : list Z :=
  match l with
  | [] => []
  | c :: l => if c =? 0 then [] else c :: until_nul l
  end.

(** The text before the first [c], and the text after it. *)
Fixpoint split_at (c : Z) (s : list Z) : option (list Z * list Z) :=
  match s with
  | [] => None
  | d :: s => if d =? c then Some ([], s) else '(a, b) ← split_at c s; Some (d :: a, b)
  end.

Definition before (c : Z) (s : list Z) : list Z := match split_at c s with Some (a, _) => a | None => s end.

Definition count_char (c : Z) (s : list Z) : Z := zlen (filter (eq c) s).

(** ** Programs *)

Section cmd.
Context {D F : Type} `{!LteHw D} `{!PmRuntime D} `{!LteHost D} `{!LteUart D} `{!ImageFlash F}.
Notation PW := (list (pm_device_ctx_t (lte * D)) * D)%type.
Notation proto := (prog lte (PW * lte_env F)).

Definition uart {A} (m : prog lte D A) : proto A := frame (lift m).

Definition getv {A} (f : lte_vars -> A) : proto A := world (fun px => (px, f (vars (snd px)))).
Definition setv (f : lte_vars -> lte_vars) : proto unit :=
  world (fun px => (fst px, mk_env (f (vars (snd px))) (cfg (snd px)) (update (snd px)), tt)).

Definition config : proto config_param_t := world (fun px => (px, gConfigParam (cfg (snd px)))).

(** A function of the settings module. *)
Definition settings {A} (m : prog globals D A) : proto A := fun s px =>
  let '(t, w, e) := px in
  match m (cfg e) w with
  | Done (a, g, w) => Done (a, s, (t, w, mk_env (vars e) g (update e)))
  | NoFuel => NoFuel
  | Undef => Undef
  end.

Definition on_dev {A} (f : D -> D * A) : proto A := uart (world f).
Definition do_host (c : host_call) : proto unit := on_dev (fun w => (host c w, tt)).
Definition ask_host {A} (f : D -> A) : proto A := on_dev (fun w => (w, f w)).

(** [my_lte_send_msg(text, strlen(text))] of a string, and the same of
    [my_lte_uart_send]; the results are ignored. *)
Definition answer (text : list Z) : proto unit := frame (my_lte_send_msg (Some (text ++ [0])) (u16 (zlen text))) ;; ret tt.
Definition answer_uart (text : list Z) : proto unit := frame (my_lte_uart_send (text ++ [0]) (u16 (zlen text))) ;; ret tt.

Definition eol : list Z := [13; 10].

(** ** Messages that wait for an answer *)

Definition init_retransmission_queue : proto unit :=
  setv (set_retrans (replicate RETRANSMISSION_QUEUE_SIZE no_item) false).

Definition retrans_queue_is_empty (q : list retransmission_item_t) : bool := negb (existsb pending q).

(** The waiting messages after the first one move forward, up to the first
    slot that is not waiting; the last slot that was moved is cleared. *)
Fixpoint move_forward (q : list retransmission_item_t) : list retransmission_item_t :=
  match q with
  | [] => []
  | _ :: tl =>
      match tl with
      | y :: _ => if pending y then y :: move_forward tl else no_item :: tl
      | [] => [no_item]
      end
  end.

Fixpoint ack_loop (name : list Z) (q : list retransmission_item_t) : list retransmission_item_t :=
  match q with
  | [] => []
  | x :: tl => if pending x && bool_decide (cmd_name x = name) then move_forward q else x :: ack_loop name tl
  end.

Definition stop_if_empty : proto unit :=
  setv (fun v => if retrans_queue_is_empty (s_retrans_queue v) then set_retrans (s_retrans_queue v) false v else v).

Definition check_ack (name : list Z) : proto unit :=
  setv (fun v => set_retrans (ack_loop name (s_retrans_queue v)) (s_retrans_check_timer v) v) ;;
  stop_if_empty.

(** The name to send again: without the number after a special prefix. *)
Fixpoint wire_name (name : list Z) (prefixes : list (list Z)) : list Z :=
  match prefixes with
  | [] => name
  | p :: prefixes =>
      if CMD_MATCHED name p && bool_decide (name !! length p = Some 95) then p else wire_name name prefixes
  end.

(** The loop of [retransmission_check] over the slots from one on. *)
Fixpoint retrans_loop (current_time : Z) (q : list retransmission_item_t) : proto (list retransmission_item_t) :=
  match q with
  | [] => ret []
  | x :: tl =>
      if pending x && (ACK_TIMEOUT_S <=? current_time - send_time x) then
        if retry_count x <? MAX_RETRIES then
          name <- checked (strcpy 32 (cmd_name x)) ;;
          uart (lte_send_command (wire_name name s_special_cmd_prefixes) (param x)) ;;
          rest <- retrans_loop current_time tl ;;
          ret (mk_item (cmd_name x) (param x) (retry_count x + 1) current_time (state x) :: rest)
        else
          do_host clear_tag_macinfo ;;
          uart (my_send_msg MY_MSG_LTE_PWROFF) ;;
          uart (my_send_msg MY_MSG_LTE_PWRON) ;;
          ret (mk_item (cmd_name x) None (retry_count x) (send_time x) MSG_STATE_TIMEOUT :: tl)
      else
        rest <- retrans_loop current_time tl ;;
        ret (x :: rest)
  end.

Definition retransmission_check : proto unit :=
  current_time <- ask_host my_get_system_time_sec ;;
  q <- getv s_retrans_queue ;;
  q <- retrans_loop current_time q ;;
  setv (fun v => set_retrans q (s_retrans_check_timer v) v).

Definition retransmission_poll : proto unit := retransmission_check ;; stop_if_empty.

Definition retrans_check_timer_handler : proto unit := uart (my_send_msg MY_MSG_RETRANS_CHECK).

Definition is_special (name : list Z) : bool := existsb (fun p => bool_decide (p = name)) s_special_cmd_prefixes.

(** The first slot that does not wait. *)
Fixpoint free_slot (q : list retransmission_item_t) (i : nat) : option nat :=
  match q with
  | [] => None
  | x :: q => if pending x then free_slot q (S i) else Some i
  end.

(** The name under which the message waits: the special ones get their first
    parameter. *)
Definition queue_name (name : list Z) (param : option (list Z)) : option (list Z) :=
  match param with
  | Some ((_ :: _) as p) =>
      if is_special name then '(first_param, _) ← str_at p 0 16; strcpy 32 (name ++ cstr "_" ++ first_param) else Some name
  | _ => Some name
  end.

Definition start_timer : proto unit := setv (fun v => set_retrans (s_retrans_queue v) true v).

Definition add_to_retrans_queue (command : list Z) : proto unit :=
  r <- checked (str_at command 0 32) ;;
  let '(name, more) := r in
  let param := if more : bool then Some (drop (length name + 1) command) else None in
  name <- checked (queue_name name param) ;;
  q <- getv s_retrans_queue ;;
  match free_slot q 0 with
  | None => start_timer
  | Some i =>
      ok <- match param with Some p => on_dev (k_malloc (zlen p + 1)) | None => ret true end ;;
      if ok : bool then
        now <- ask_host my_get_system_time_sec ;;
        setv (fun v => set_retrans (<[i := mk_item (take 31 name) param 0 now MSG_STATE_PENDING]> q) (s_retrans_check_timer v) v) ;;
        start_timer
      else
        setv (fun v => set_retrans (alter (fun x => mk_item (cmd_name x) None (retry_count x) (send_time x) (state x)) i q)
                         (s_retrans_check_timer v) v)
  end.

(** ** Replies that come later *)

Definition init_async_queue : proto unit := setv (set_async (replicate ASYNC_QUEUE_SIZE no_async)).

(** The queue with the entry, or [None] when there is no room for it. *)
Fixpoint async_put (x : async_resp_tiem_t) (q : list async_resp_tiem_t) : option (list async_resp_tiem_t) :=
  match q with
  | [] => None
  | y :: q => if used y then q' ← async_put x q; Some (y :: q') else Some (x :: q)
  end.

Definition async_add_item (name id : list Z) : proto Z :=
  q <- getv g_async_queue ;;
  if existsb (fun y => negb (used y)) q then
    name <- checked (strcpy 16 name) ;;
    id <- checked (strcpy 16 id) ;;
    setv (set_async (default q (async_put (mk_async name id true) q))) ;;
    ret 0
  else ret (-1).

Fixpoint async_forward (q : list async_resp_tiem_t) : list async_resp_tiem_t :=
  match q with
  | [] => []
  | _ :: tl =>
      match tl with
      | y :: _ => if used y then y :: async_forward tl else no_async :: tl
      | [] => [no_async]
      end
  end.

(** The identifier of the first entry with this name, and the queue without it. *)
Fixpoint async_take (name : list Z) (q : list async_resp_tiem_t) : option (list Z * list async_resp_tiem_t) :=
  match q with
  | [] => None
  | x :: tl =>
      if used x && bool_decide (async_cmd_name x = name) then Some (async_id x, async_forward q)
      else '(id, q') ← async_take name tl; Some (id, x :: q')
  end.

Definition async_match_and_resp (data : list Z) : proto Z :=
  r <- checked (str_at data 0 16) ;;
  q <- getv g_async_queue ;;
  match async_take (fst r) q with
  | None => ret (-1)
  | Some (id, q) =>
      setv (set_async q) ;;
      b <- uart (MY_MALLOC_BUFFER (zlen data + zlen id + 20)) ;;
      match b with
      | None => ret 0
      | Some resp =>
          let text := cstr "LTE+CMD=" ++ id ++ cstr "," ++ data in
          uart (store resp 0 (text ++ [0])) ;;
          uart (my_send_msg_data (mk_msg MY_MSG_LTE_BLE_DATA (Some resp) (zlen text))) ;;
          ret 0
      end
  end.

(** ** Words of a command line *)

(** The loop of [my_parse_cmd_line] and of [ParseArgs] (with [max_args = 0])
    over the characters from position [p] on: the characters with the
    separators after words overwritten, and where the words begin.  The array
    of pointers has [MAX_ARGS] entries. *)
Fixpoint words_loop (flag max_args : Z) (s : list Z) (p : Z) (in_word : bool) (i : Z) : option (list Z * list Z) :=
  match s with
  | [] => Some ([], [])
  | c :: s' =>
      if negb in_word then
        if negb (c =? flag) then
          if MAX_ARGS <=? i then None
          else if i + 1 =? max_args then Some (s, [p])
          else '(rest, ps) ← words_loop flag max_args s' (p + 1) true (i + 1); Some (c :: rest, p :: ps)
        else '(rest, ps) ← words_loop flag max_args s' (p + 1) false i; Some (c :: rest, ps)
      else if c =? flag then '(rest, ps) ← words_loop flag max_args s' (p + 1) false i; Some (0 :: rest, ps)
      else '(rest, ps) ← words_loop flag max_args s' (p + 1) true i; Some (c :: rest, ps)
  end.

(** The words the pointers refer to. *)
Definition word_at (buf : list Z) (p : Z) : list Z := until_nul (drop (Z.to_nat p) buf).

Definition my_parse_cmd_line (cmdline : list Z) (flag max_args : Z) : option (list (list Z)) :=
  '(buf, ps) ← words_loop flag max_args cmdline 0 false 0;
  Some (map (word_at buf) ps).

Definition ParseArgs (cmdline : list Z) : option (list (list Z)) :=
  my_parse_cmd_line ((fun c => if c =? 9 then 32 else c) <$> cmdline) 32 0.

(** ** Production test *)

Definition arg (args : list (list Z)) (k : nat) : proto (list Z) := checked (args !! k).

(** [sprintf] into [resp]. *)
Definition resp (text : list Z) : proto (list Z) := checked (strcpy 256 text).

Definition hex4 (v : Z) : list Z := hex2 true (v / 256) ++ hex2 true (v mod 256).
Definition mac_digits (addr : list Z) : list Z := concat (hex2 true <$> reverse addr).

(** [hex2hexstr] into [n] characters. *)
Definition hex_string (hex : list Z) (n : Z) : option (list Z) := hex2hexstr hex (replicate (Z.to_nat n) 0) n ≫= c_string.

Definition pcba_license (name : list Z) (flag : Z) (hex : list Z) (set : list Z -> prog globals D bool) (args : list (list Z))
  : proto (list Z) :=
  if zlen args =? 3 then
    if flag =? FLAG_VALID then
      s <- checked (hex_string hex 64) ;;
      resp (cstr "RETURN_" ++ name ++ cstr ":" ++ s)
    else resp (cstr "RETURN_" ++ name)
  else
    p <- arg args 3 ;;
    settings (set p) ;;
    resp (cstr "RETURN_" ++ name ++ cstr "_SET_OK").

Definition pcba_tag (name : list Z) (args : list (list Z)) : proto (list Z) :=
  if zlen args =? 4 then
    cmd <- arg args 2 ;;
    p <- arg args 3 ;;
    r <- settings (my_param_set_jatag_or_jgtag (Some cmd) (Some p)) ;;
    resp (cstr "RETURN_" ++ name ++ cstr "_" ++ p ++ (if r =? 0 then cstr "_OK" else cstr "_FAIL"))
  else resp (cstr "RETURN_" ++ name ++ cstr "_SET_FAIL").

(** A setting that reports whether it was stored. *)
Definition pcba_set (title : list Z) (m : prog globals D Z) : proto (list Z) :=
  r <- settings m ;;
  resp (title ++ (if r =? 0 then cstr "_SET_OK" else cstr "_SET_FAIL")).

Definition pcba_bt (args : list (list Z)) : proto (list Z) :=
  if zlen args <? 3 then resp (cstr "BT params error") else
  cmd <- arg args 2 ;;
  c <- config ;;
  if CMD_MATCHED cmd (cstr "FF") then
    pcba_license (cstr "FF") (ff_flag (lic_ff c)) (ff_hex (lic_ff c)) (fun p => my_param_set_ff p (u8 (zlen p))) args
  else if CMD_MATCHED cmd (cstr "GG") then
    pcba_license (cstr "GG") (gg_flag (lic_gg c)) (gg_hex (lic_gg c)) (fun p => my_param_set_gg p (u8 (zlen p))) args
  else if CMD_MATCHED cmd (cstr "JATAG") then pcba_tag (cstr "JATAG") args
  else if CMD_MATCHED cmd (cstr "JGTAG") then pcba_tag (cstr "JGTAG") args
  else if CMD_MATCHED cmd (cstr "MODIFYGV") then
    if zlen args =? 3 then
      let g := ecdh_g (ECDH_GValue c) in
      resp (cstr "RETURN_GV:" ++ dec g ++ cstr " (" ++ hex4 g ++ cstr ")")
    else p <- arg args 3 ;; pcba_set (cstr "RETURN_MODIFYGV") (my_param_set_Gvalue p)
  else if CMD_MATCHED cmd (cstr "SN") then
    if zlen args =? 3 then
      if sn_flag (gsm_sn c) =? FLAG_VALID then resp (cstr "RETURN_SN:" ++ until_nul (sn_hex (gsm_sn c)))
      else resp (cstr "RETURN_SN")
    else p <- arg args 3 ;; pcba_set (cstr "RETURN_SN") (my_param_set_sn p (u8 (zlen p)))
  else if CMD_MATCHED cmd (cstr "MAC") then
    if zlen args =? 3 then
      edr_addr <- ask_host bt_get_mac_addr ;;
      resp (cstr "RETURN_BT_MAC:" ++ mac_digits edr_addr)
    else p <- arg args 3 ;; pcba_set (cstr "RETURN_BT_MAC") (my_param_set_mac p)
  else ret [].

(** [ON] or [OFF] for the LEDs and for the charger. *)
Definition pcba_switch (title : list Z) (call : bool -> host_call) (args : list (list Z)) : proto (list Z) :=
  if zlen args <? 4 then resp (cstr "MCU params error") else
  p <- arg args 3 ;;
  if CMD_MATCHED p (cstr "ON") then do_host (call true) ;; resp (title ++ cstr ":ON")
  else if CMD_MATCHED p (cstr "OFF") then do_host (call false) ;; resp (title ++ cstr ":OFF")
  else ret [].

Definition light_text (b : bool) : list Z := if b then cstr "LIGHT" else cstr "DARK".

Definition pcba_mcu (args : list (list Z)) : proto (list Z) :=
  if zlen args <? 3 then resp (cstr "MCU params error") else
  cmd <- arg args 2 ;;
  if CMD_MATCHED cmd (cstr "LED") then
    pcba_switch (cstr "RETURN_MCU_LED") (fun on : bool => batt_led_set_level (if on then 3 else 0)) args
  else if CMD_MATCHED cmd (cstr "MAC") then
    if zlen args =? 3 then
      edr_addr <- ask_host bt_get_mac_addr ;;
      resp (cstr "RETURN_MCU_MAC:" ++ mac_digits edr_addr)
    else if zlen args =? 4 then p <- arg args 3 ;; pcba_set (cstr "RETURN_MCU_MAC") (my_param_set_mac p)
    else ret []
  else if CMD_MATCHED cmd (cstr "GSENSOR") then
    id <- ask_host get_chip_id ;;
    resp (cstr "RETURN_MCU_GSENSOR:0x" ++ hex2 true id)
  else if CMD_MATCHED cmd (cstr "CHARGER") then pcba_switch (cstr "RETURN_MCU_CHARGER") batt_enable args
  else if CMD_MATCHED cmd (cstr "VOLT") then
    mv <- on_dev my_battery_read_mv ;;
    resp (cstr "RETURN_MCU_VOLT:" ++ dec mv ++ cstr "MV")
  else if CMD_MATCHED cmd (cstr "LIGHT1") then
    b <- ask_host get_light_tamper_state ;; resp (cstr "RETURN_MCU_LIGHT1:" ++ light_text b)
  else if CMD_MATCHED cmd (cstr "LIGHT2") then
    b <- ask_host get_light_pull_state ;; resp (cstr "RETURN_MCU_LIGHT2:" ++ light_text b)
  else if CMD_MATCHED cmd (cstr "TEMP") then do_host (send_out MOD_CTRL MY_MSG_CTRL_TEMP_READ) ;; ret []
  else if CMD_MATCHED cmd (cstr "PATM") then do_host (send_out MOD_CTRL MY_MSG_CTRL_PATM_READ) ;; ret []
  else ret [].

Definition set_factory_mode (b : bool) : prog globals D unit :=
  modify (fun g => mk_globals (gConfigParam g) (inited g) b (g_lte_cmdSource g)).

Definition my_handle_at_pcba_cmd (args : list (list Z)) : proto (list Z) :=
  p0 <- arg args 0 ;;
  if (zlen args <? 2) || negb (CMD_MATCHED p0 (cstr "PCBA")) then resp (cstr "Factory CMD ERROR") else
  cmd <- arg args 1 ;;
  if CMD_MATCHED cmd (cstr "BT") then pcba_bt args
  else if CMD_MATCHED cmd (cstr "MCU") then pcba_mcu args
  else if CMD_MATCHED cmd (cstr "SHUTDOWN") then
    modify (set_factory false) ;;
    r <- on_dev AtCmd.go_to_shutdown ;;
    if r =? 0 then resp (cstr "RETURN_SHUTDOWN_OK") else ret []
  else if CMD_MATCHED cmd (cstr "FACTORY") then
    modify (set_factory false) ;;
    settings my_param_factory_reset ;;
    uart (lte_send_command (cstr "FACTORY") (Some (cstr "1"))) ;;
    settings (set_factory_mode true) ;;
    resp (cstr "FACTORY set OK")
  else ret [].

(** With no word at all [pParam[0]] is a null pointer. *)
Definition my_handle_at_factory_cmd (args : list (list Z)) : proto (list Z) :=
  p0 <- arg args 0 ;;
  if CMD_MATCHED p0 (cstr "PCBA") then my_handle_at_pcba_cmd args else ret [].

Definition FACTORY_CMD_HEADER : list Z := cstr "AT^GT_CM=".

(** [argc] is 0 when [my_parse_cmd_line] takes it for the limit. *)
Definition my_at_factory_cmd (pfactorycmd : list Z) : proto unit :=
  args <- checked (my_parse_cmd_line (drop (length FACTORY_CMD_HEADER) pfactorycmd) 44 0) ;;
  text <- my_handle_at_factory_cmd args ;;
  answer text.

(** The only local command, [my_at_test], writes to the log. *)
Definition AT_CMD_INNER : list (list Z) := [cstr "TEST"].
Definition GetCmdMatche (cmdline : list Z) : bool := existsb (fun c => bool_decide (c = cmdline)) AT_CMD_INNER.

(** ** Messages to the module *)

Definition send_lte_pulse : proto unit :=
  n <- getv s_lte_pulse_count ;;
  battery_voltage_mv <- ask_host AtCmd.get_batt_mv ;;
  battery_percent <- ask_host get_batt_percent ;;
  ready <- get g_bLteReady ;;
  if negb ready then ret tt else
  uart (lte_send_command (cstr "PULSE")
    (Some (fst (snprintf 20 (dec n ++ cstr "," ++ dec battery_voltage_mv ++ cstr "," ++ dec battery_percent))))) ;;
  ret tt.

Definition lte_pulse_timer_handler : proto unit :=
  setv (fun v => set_pulse_count (u32 (s_lte_pulse_count v + 1)) v) ;;
  uart (my_send_msg MY_MSG_LTE_PULSE).

(** [data_buff] has one character more than the longer licence. *)
Definition send_bt_info_command : proto unit :=
  c <- config ;;
  mac <- checked (hex_string (mac_hex (my_macaddr c)) (LICENSE_FF_STR_LEN + 1)) ;;
  ff <- checked (hex_string (ff_hex (lic_ff c)) (LICENSE_FF_STR_LEN + 1)) ;;
  gg <- checked (hex_string (gg_hex (lic_gg c)) (LICENSE_FF_STR_LEN + 1)) ;;
  let text := mac ++ cstr "," ++ until_nul (sn_hex (gsm_sn c)) ++ cstr "," ++ ff ++ cstr "," ++ gg in
  let size := MY_MAC_LENGTH * 2 + GSM_SN_LENGTH * 2 + LICENSE_GG_STR_LEN + LICENSE_FF_STR_LEN + 10 in
  text <- checked (strcpy size text) ;;
  uart (lte_send_command (cstr "INFO") (Some text)) ;;
  ret tt.

Definition send_led_command : proto unit :=
  c <- config ;;
  uart (lte_send_command (cstr "LED") (Some (fst (snprintf 10 (dec (led_display (led_config c))))))) ;;
  ret tt.

(** [send_work_mode_command] of [main.c]. *)
Definition send_work_mode_command (mode : Z) : proto unit :=
  c <- config ;;
  text <- checked (work_mode_text c mode) ;;
  match text with
  | Some t => uart (lte_send_command (cstr "WMODE") (Some (fst (snprintf 40 t)))) ;; ret tt
  | None => ret tt
  end.

(** ** Commands of the module *)

Definition LTE_PWR_STATE_ABNORMAL : Z := 1.
Definition LTE_BOOT_REASON_BOOT_COLD : Z := 0.
Definition LTE_BOOT_REASON_RESERVED : Z := 255.

Definition my_lte_handle_power_on (data : list Z) : proto Z :=
  power_state <- checked (str_at data 0 4) ;;
  power_reason <- checked (str_at data 1 4) ;;
  version <- checked (str_at data 2 32) ;;
  let status := atoi (fst power_state) in
  setv (set_power_on status (fst version)) ;;
  modify (fun s => set_power (s_lte_power_state s) true s) ;;
  n <- getv s_lte_pulse_count ;;
  (if n =? 0 then setv (set_lte_boot_reason LTE_BOOT_REASON_BOOT_COLD) else ret tt) ;;
  reason <- getv s_lteBootReason ;;
  let boot_reason := if status =? LTE_PWR_STATE_ABNORMAL then LTE_BOOT_REASON_RESERVED else reason in
  modify (set_ota false) ;;
  let text := cstr "LTE+PWRON=OK," ++ dec boot_reason ++ cstr "," ++ SOFTWARE_VERSION ++ eol in
  let '(stored, len) := snprintf 128 text in
  frame (my_lte_send_msg (Some (stored ++ [0])) (u16 len)) ;;
  c <- config ;;
  send_work_mode_command (current_mode (device_workmode_config c)) ;;
  do_host (send_out MOD_MAIN MY_MSG_LPSLEEP_LTE_SYNC) ;;
  do_host (send_out MOD_BLE MY_MSG_UPLOAD_WAKEUP) ;;
  send_bt_info_command ;;
  send_led_command ;;
  send_lte_pulse ;;
  frame my_lte_process_queued_msgs ;;
  ret 0.

Definition my_lte_handle_power_off (data : list Z) : proto Z :=
  result <- checked (str_at data 0 16) ;;
  if negb (u8 (atoi (fst result)) =? 1) then ret (-1) else
  uart (my_send_msg MY_MSG_LTE_PWROFF) ;;
  answer_uart (cstr "LTE+PWROFF=OK" ++ eol) ;;
  req <- ask_host g_shutdown_request ;;
  (if req : bool then do_host (send_out MOD_MAIN MY_MSG_CTRL_SHUTDOWN_REQUEST) else ret tt) ;;
  mode <- settings (get g_factory_mode) ;;
  if mode : bool then
    settings (set_factory_mode false) ;;
    do_host my_gsensor_save_imu_bias ;;
    settings (Settings.update (fun c => mk_shutdown_cfg (shutdown_cfg_flag c) 1)) ;;
    settings (save shutdown_config_t) ;;
    uart (k_sleep 500) ;;
    do_host sys_reboot ;;
    ret 0
  else ret 0.

(** The parameters of [LTE+BTSET] and [LTE+NTCSET] are read and not used. *)
Definition my_lte_handle_bt_set (data : list Z) : proto Z := checked (str_at data 0 16) ;; ret 0.
Definition my_lte_handle_ntc_set (data : list Z) : proto Z := checked (str_at data 0 16) ;; ret 0.
Definition my_lte_handle_transmit (data : list Z) : proto Z := ret 0.

Definition my_lte_handle_time (data : list Z) : proto Z :=
  do_host (my_set_system_time (atoll data)) ;;
  answer (cstr "LTE+TIME=OK" ++ eol) ;;
  ret 0.

Definition my_lte_handle_fota (data : list Z) : proto Z :=
  (if CMD_EQUAL data (cstr "ENTER") then modify (set_ota true) ;; answer (cstr "LTE+FOTA=OK" ++ eol)
   else if CMD_EQUAL data (cstr "EXIT") then modify (set_ota false) ;; answer (cstr "LTE+FOTA=OK" ++ eol)
   else ret tt) ;;
  ret 0.

(** [parm[0]] after the split; a null pointer if no parameter was found. *)
Definition first_parm (rcv_msg : list Z) : option (list Z) :=
  '(_, buf, tar) ← at_cmd_str_analyse PARM_MAX 0 [35] 44 (Some rcv_msg);
  p ← tar !! 0%nat;
  text_at buf p.

(** [LTE+CMD], handled by the BLE thread. *)
Definition my_lte_handle_cmd (data : list Z) : proto Z :=
  r <- checked (str_at data 0 16) ;;
  let '(id, more) := r in
  setv (set_id id) ;;
  text <- (if more : bool then
             command <- checked (strcpy CMD_STRING_LENGTH_MAX (drop (length id + 1) data)) ;;
             let rcv_msg := command ++ replicate (Z.to_nat CMD_STRING_LENGTH_MAX - length command) 0 in
             r <- settings (run_lte_cmd rcv_msg (mk_at_cmd [] 0 [] 0)) ;;
             let '(code, msg) := r in
             if code =? 0 then
               p <- checked (first_parm rcv_msg) ;;
               ret (fst (snprintf LTE_CMD_RESPBUF_SIZE (cstr "LTE+CMD=FAIL," ++ id ++ cstr "," ++ p ++ eol)))
             else if code =? BLE_DATA_TYPE_PACKET_MULTIPLE then
               ret (fst (snprintf LTE_CMD_RESPBUF_SIZE (cstr "LTE+CMD=OK," ++ id ++ cstr "," ++ resp_msg msg ++ eol)))
             else ret []
           else ret (cstr "LTE+CMD=" ++ id ++ cstr ",Missing command parameter" ++ eol)) ;;
  answer text ;;
  ret 0.

Definition my_lte_handle_location (data : list Z) : proto Z :=
  lat_str <- checked (str_at data 0 16) ;;
  lon_str <- checked (str_at data 1 16) ;;
  speed_str <- checked (str_at data 2 16) ;;
  match parse_coordinate_value (Some (fst lat_str)) true, parse_coordinate_value (Some (fst lon_str)) false with
  | Some (lat_value, lat_valid), Some (lon_value, lon_valid) =>
      if (lon_valid =? 0) || (lat_valid =? 0) then answer (cstr "LTE+LOCATION=FAIL" ++ eol) ;; ret (-1)
      else
        now <- ask_host my_get_system_time_sec ;;
        setv (set_location (mk_location lat_value lon_value (atof (fst speed_str)) now)) ;;
        answer (cstr "LTE+LOCATION=OK" ++ eol) ;;
        ret 0
  | _, _ => answer (cstr "LTE+LOCATION=FAIL" ++ eol) ;; ret (-1)
  end.

Definition my_lte_handle_factory (data : list Z) : proto Z :=
  r <- checked (str_at data 0 16) ;;
  let '(result, more) := r in
  text <- (if more : bool then ret (cstr "LTE+FACTORY=FAIL" ++ eol)
           else
             (if CMD_EQUAL result (cstr "ENTER") then modify (set_factory true)
              else if CMD_EQUAL result (cstr "EXIT") then modify (set_factory false)
              else ret tt) ;;
             ret (cstr "LTE+FACTORY=OK" ++ eol)) ;;
  answer text ;;
  ret 0.

Definition my_lte_handle_state (data : list Z) : proto Z :=
  r0 <- checked (str_at data 0 16) ;;
  r1 <- checked (str_at data 1 16) ;;
  r2 <- checked (str_at data 2 16) ;;
  r3 <- checked (str_at data 3 16) ;;
  let network_status := u8 (atoi (fst r0)) in
  let pdp_active_status := u8 (atoi (fst r1)) in
  let platform_login_status := u8 (atoi (fst r2)) in
  let net_signal_level := u8 (atoi (fst r3)) in
  if (1 <? network_status) || (1 <? pdp_active_status) || (1 <? platform_login_status) || (4 <? net_signal_level) then ret (-1) else
  setv (set_net network_status net_signal_level) ;;
  answer_uart (cstr "LTE+STATE=OK" ++ eol) ;;
  ret 0.

Definition my_lte_handle_sn (data : list Z) : proto Z :=
  r <- checked (str_at data 0 20) ;;
  code <- settings (my_param_set_sn (fst r) (u8 (zlen (fst r)))) ;;
  let result := if code =? 0 then cstr "OK"
                else if code =? -1 then cstr "FAIL,BAD_PARAM"
                else if code =? -2 then cstr "FAIL,SAVE_FAIL"
                else fst r in
  answer_uart (fst (snprintf 30 (cstr "LTE+SN=" ++ result ++ eol))) ;;
  ret 0.

(** [STATE_STATIC] is 1 and [STATE_MOTION] is 2. *)
Definition motion_text (state : Z) : list Z :=
  if state =? 1 then cstr "STATIC" else if state =? 2 then cstr "MOTION" else cstr "UNKNOWN".

Definition my_lte_handle_getmot (data : list Z) : proto Z :=
  r <- checked (str_at data 0 16) ;;
  if negb (u8 (atoi (fst r)) =? 1) then ret (-1) else
  state <- ask_host my_gsensor_get_state ;;
  answer_uart (fst (snprintf 30 (cstr "LTE+GETMOT=OK," ++ motion_text state ++ eol))) ;;
  ret 0.

Definition my_lte_handle_gettime (data : list Z) : proto Z :=
  r <- checked (str_at data 0 16) ;;
  if negb (u8 (atoi (fst r)) =? 1) then ret (-1) else
  now <- ask_host my_get_system_time_sec ;;
  answer_uart (fst (snprintf 30 (cstr "LTE+GETTIME=" ++ dec now ++ eol))) ;;
  ret 0.

Definition my_lte_handle_gpsstate (data : list Z) : proto Z :=
  r <- checked (str_at data 0 10) ;;
  let '(result, is_valid) := r in
  let gps_state := u8 (atoi result) in
  if 2 <? gps_state then ret (-1) else
  setv (set_gps gps_state (if (gps_state =? 2) && is_valid then take 49 (drop (length result + 1) data) else [])) ;;
  answer_uart (cstr "LTE+GPSSTATE=OK" ++ eol) ;;
  ret 0.

(** Whether a stored location may be used at [current_time]. *)
Definition my_check_location_valid (point : option location_storage_t) (current_time : Z) : bool :=
  match point with
  | None => false
  | Some p =>
      if timestamp_s p =? 0 then false
      else
        let elapsed_time := current_time - timestamp_s p in
        negb ((elapsed_time <? 0) || (LOCATION_VALIDITY_PERIOD_S <? elapsed_time))
  end.

(** ** Answers of the module *)

Fixpoint rsp_type_of (name : list Z) (table : list (list Z * ble_rsp_t)) : ble_rsp_t :=
  match table with
  | [] => BLE_RSP_UNKNOWN
  | (n, t) :: table => if bool_decide (name = n) then t else rsp_type_of name table
  end.

Inductive rsp_parsed := NotAnswer | Answer (r : ble_rsp_result_t).

(** [None] is a name too long for its array. *)
Definition ble_rsp_parse (rsp_str : list Z) : option rsp_parsed :=
  match split_at 61 rsp_str with
  | None => Some NotAnswer
  | Some (name, rest) =>
      name ← strcpy 32 name;
      let params := before 35 rest in
      let count := match params with [] => 0 | _ => 1 + count_char 44 params end in
      Some (Answer (mk_rsp (rsp_type_of name ble_rsp_cmd_table) name (take 255 params) count))
  end.

(** The name of the message that is answered. *)
Definition acked_name (r : ble_rsp_result_t) : option (list Z) :=
  if is_special (rsp_cmd_name r) then
    '(subcmd, _) ← str_at (rsp_params r) 1 16;
    strcpy 32 (rsp_cmd_name r ++ cstr "_" ++ subcmd)
  else strcpy 32 (rsp_cmd_name r).

Definition my_ble_handle (data : list Z) : proto Z :=
  parsed <- checked (ble_rsp_parse data) ;;
  match parsed with
  | NotAnswer => ret (-1)
  | Answer r =>
      name <- checked (acked_name r) ;;
      check_ack name ;;
      (match rsp_type r with
       | BLE_RSP_TIME =>
           sec <- checked (str_at (rsp_params r) 1 16) ;;
           do_host (my_set_system_time (atoll (fst sec)))
       | BLE_RSP_TAG | BLE_RSP_MACINFO => do_host (send_out MOD_BLE MY_MSG_UPLOAD_TAG_AND_MAC)
       | BLE_RSP_TH | BLE_RSP_BP | BLE_RSP_CDATA =>
           setv (set_sensor_rsp r) ;;
           do_host (send_out MOD_BLE MY_MSG_BLE_SENSOR_LTE_ACK)
       | _ => ret tt
       end) ;;
      ret 0
  end.

Definition my_lte_get_sensor_ble_rsp : proto ble_rsp_result_t := getv s_sensor_ble_rsp.

(** A copy of the text for the BLE thread. *)
Definition pass_to_ble (m : list Z -> out_msg) (text : list Z) (len : Z) : proto unit :=
  b <- uart (MY_MALLOC_BUFFER (len + 1)) ;;
  match b with
  | None => ret tt
  | Some p => uart (store p 0 (text ++ [0])) ;; do_host (send_out MOD_BLE (m text))
  end.

Definition send_ble_msg (send_str : list Z) (len : Z) : proto unit := pass_to_ble MY_MSG_BLE_TX send_str len.

(** ** Update *)

Definition dfu_lte_reason_str (r : dfu_lte_fail_reason_t) : list Z :=
  match r with
  | DFU_LTE_OK => []
  | DFU_LTE_FAIL_BUSY => cstr "BUSY"
  | DFU_LTE_FAIL_PARAM => cstr "PARAM"
  | DFU_LTE_FAIL_SIZE => cstr "SIZE"
  | DFU_LTE_FAIL_YMODEM => cstr "YMODEM"
  | DFU_LTE_FAIL_CRC => cstr "CRC"
  | DFU_LTE_FAIL_FLASH => cstr "FLASH"
  end.

(** [sscanf(param, "START,%u,%8s", &size, crc_str) == 2]: the number as
    [strtoul] reads it, and up to eight characters that are not white space. *)
Fixpoint span_digits (s : list Z) : list Z * list Z :=
  match s with
  | c :: s' => if is_digit c then let '(a, b) := span_digits s' in (c :: a, b) else ([], s)
  | [] => ([], [])
  end.

Fixpoint graphic (n : nat) (s : list Z) : list Z :=
  match n, s with
  | S n, c :: s => if isspace c then [] else c :: graphic n s
  | _, _ => []
  end.

Definition scan_start (param : list Z) : option (Z * list Z) :=
  if CMD_MATCHED param (cstr "START,") then
    let s := skip_space (drop 6 param) in
    let '(neg, s) := match s with
                     | 45 :: s => (true, s)
                     | 43 :: s => (false, s)
                     | _ => (false, s)
                     end in
    let '(ds, s) := span_digits s in
    match ds, s with
    | _ :: _, 44 :: s =>
        let v := Z.min 4294967295 (digits_value ds 0) in
        match graphic 8 (skip_space s) with
        | [] => None
        | crc_str => Some (if neg : bool then u32 (- v) else v, crc_str)
        end
    | _, _ => None
    end
  else None.

(** [strtoul(s, NULL, 16)]. *)
Fixpoint hex_digits (s : list Z) (v : Z) : Z :=
  match s with
  | c :: s => match hex_value c with Some d => hex_digits s (v * 16 + d) | None => v end
  | [] => v
  end.

(** A prefix [0x] only counts before a digit. *)
Definition hex_number (s : list Z) : Z :=
  match s with
  | 48 :: x :: d :: s' =>
      if ((x =? 120) || (x =? 88)) && match hex_value d with Some _ => true | None => false end
      then hex_digits (d :: s') 0 else hex_digits s 0
  | _ => hex_digits s 0
  end.

Definition strtoul16 (s : list Z) : Z :=
  match s with
  | 45 :: s => u32 (- hex_number s)
  | 43 :: s => hex_number s
  | _ => hex_number s
  end.

(** Purging also empties the queue of replies. *)
Definition my_lte_purge_dfu_queues : proto unit := uart purge_queues ;; init_async_queue.

(** The session of [DfuLte] on the UART, the ring buffer and the image; the
    blocking reception drops every message that comes meanwhile. *)
Definition to_session {U V} (u : U) (rb : ring_buffer_t) (d : dfu_world V F) : dfu_world U F :=
  mk_dfu u rb (ota d) (flash d) (s_dfu_total_size d) (s_dfu_expect_crc d) (s_dfu_crc d) (s_dfu_size_mismatch d) (boot_request d) (reset_timer d).

Definition session_prepare (area size crc : Z) : proto dfu_lte_fail_reason_t := fun s px =>
  let '(t, w, e) := px in
  let '(d, reason) := my_dfu_lte_prepare area (update e) size crc in
  Done (reason, s, (t, w, mk_env (vars e) (cfg e) d)).

Definition session_receive (fuel : nat) (area : Z) (alloc : bool) : proto dfu_lte_fail_reason_t := fun s px =>
  let '(t, w, e) := px in
  match my_dfu_lte_start fuel area alloc (to_session w (s_lte_rb s) (update e)) with
  | Done (reason, d) => Done (reason, set_rb (DfuLte.s_lte_rb d) s, (t, DfuLte.uart d, mk_env (vars e) (cfg e) (to_session tt (DfuLte.s_lte_rb d) d)))
  | NoFuel => NoFuel
  | Undef => Undef
  end.

Definition session_start (fuel : nat) (area : Z) : proto dfu_lte_fail_reason_t :=
  my_lte_purge_dfu_queues ;;
  alloc <- on_dev ymodem_alloc ;;
  reason <- session_receive fuel area alloc ;;
  (if alloc : bool then my_lte_purge_dfu_queues else ret tt) ;;
  ret reason.

Definition answer_reason (r : dfu_lte_fail_reason_t) : proto unit :=
  answer (fst (snprintf LTE_CMD_RESPBUF_SIZE (cstr "LTE+MCUOTA=FAIL," ++ dfu_lte_reason_str r ++ eol))).

Definition my_lte_handle_mcuota (fuel : nat) (area : Z) (param : list Z) : proto Z :=
  match scan_start param with
  | Some (size, crc_str) =>
      if zlen crc_str =? 8 then
        reason <- session_prepare area size (strtoul16 crc_str) ;;
        match reason with
        | DFU_LTE_OK =>
            answer (cstr "LTE+MCUOTA=READY" ++ eol) ;;
            reason <- session_start fuel area ;;
            match reason with
            | DFU_LTE_OK => answer (cstr "LTE+MCUOTA=SUCCESS" ++ eol) ;; ret 0
            | _ => answer_reason reason ;; ret 0
            end
        | _ => answer_reason reason ;; ret 0
        end
      else answer (cstr "LTE+MCUOTA=FAIL,PARAM" ++ eol) ;; ret (- EINVAL)
  | None => answer (cstr "LTE+MCUOTA=FAIL,PARAM" ++ eol) ;; ret (- EINVAL)
  end.

(** ** A line *)

(** The rest of the line after its head, when it begins with it. *)
Definition after (head cmd : list Z) : option (list Z) :=
  if CMD_MATCHED cmd head then Some (drop (length head) cmd) else None.

(** The heads in the order in which they are tried, with their handlers. *)
Definition lte_cmd_table (fuel : nat) (area : Z) : list (list Z * (list Z -> proto Z)) :=
  [(cstr "LTE+PWRON=", my_lte_handle_power_on); (cstr "LTE+PWROFF=", my_lte_handle_power_off);
   (cstr "LTE+BTSET=", my_lte_handle_bt_set); (cstr "LTE+TIME=", my_lte_handle_time);
   (cstr "LTE+NTCSET=", my_lte_handle_ntc_set); (cstr "LTE+TRANSMIT=", my_lte_handle_transmit);
   (cstr "LTE+FOTA=", my_lte_handle_fota); (cstr "LTE+MCUOTA=", my_lte_handle_mcuota fuel area);
   (cstr "LTE+CMD=", fun data =>
      if CMD_MATCHED data FACTORY_CMD_HEADER then my_at_factory_cmd data ;; ret (-1)
      else pass_to_ble MY_MSG_LTE_CMD_RX data (zlen data) ;; ret 0);
   (cstr "LTE+LOCATION=", my_lte_handle_location); (cstr "LTE+FACTORY=", my_lte_handle_factory);
   (cstr "LTE+STATE=", my_lte_handle_state); (cstr "LTE+SN=", my_lte_handle_sn);
   (cstr "LTE+GETMOT=", my_lte_handle_getmot); (cstr "LTE+GETTIME=", my_lte_handle_gettime);
   (cstr "LTE+GPSSTATE=", my_lte_handle_gpsstate);
   (cstr "BLE+CMD=", fun data => send_ble_msg data (zlen data) ;; ret 0);
   (cstr "BLE+", my_ble_handle)].

(** What is left: the production test and the local commands. *)
Definition local_cmd (cmd : list Z) : proto Z :=
  if CMD_MATCHED cmd FACTORY_CMD_HEADER then my_at_factory_cmd cmd ;; ret (-1) else
  args <- checked (ParseArgs cmd) ;;
  match args with
  | [] => ret (-1)
  | name :: _ => if GetCmdMatche name then ret 0 else ret (-1)
  end.

Fixpoint dispatch_line (cmd : list Z) (table : list (list Z * (list Z -> proto Z))) : proto Z :=
  match table with
  | [] => local_cmd cmd
  | (head, handler) :: table =>
      match after head cmd with
      | Some data => handler data
      | None => dispatch_line cmd table
      end
  end.

(** [line] are the characters received before the end of the line. *)
Definition my_lte_parse_cmd (fuel : nat) (area : Z) (line : list Z) : proto Z :=
  let cmd := until_nul line in
  if (zlen cmd =? 0) || (zlen line =? 0) then ret (-1) else dispatch_line cmd (lte_cmd_table fuel area).

(** When the thread starts it asks for the time. *)
Definition my_lte_task_start : proto unit := uart (lte_send_command (cstr "TIME") (Some (cstr "1"))) ;; ret tt.

(** The handlers of the thread. *)
Definition lte_protocol (fuel : nat) (area : Z) : lte_handlers (W := D) (X := lte_env F) :=
  mk_handlers (fun line => my_lte_parse_cmd fuel area line ;; ret tt) add_to_retrans_queue retransmission_poll send_lte_pulse.
End cmd.
