(* ===== verification/LteCmdProofs.v ===== *)
(** * The commands of the LTE module: safety, answers, retransmission

    The handlers of [LteCmd] keep the invariant of the LTE thread for every
    line that does not overrun one of three arrays, and exactly the other lines
    do; a message that waits for its answer is taken out of the queue by that
    answer and no other, and is not sent for ever. *)

From stdpp Require Import gmap.
From S2P Require Import Prelude Text TextProofs Str FlashStore Prog AtParse Layout SettingsData Settings AtCmd AtHandlers AtProofs AtSafety AtLine Float32 Main MainProofs RingBuf Crc OtaFlash OtaFlashProofs Ymodem DfuLte DfuLteProofs Pm Lte LteProofs LteSafety LteCmd.

Open Scope prog_scope.

(** ** Strings *)

Lemma until_nul_no_nul l : no_nul (until_nul l).
Proof. induction l as [|c l IH]; cbn [until_nul]; [done|]. destruct (Z.eqb_spec c 0); [done|by constructor]. Qed.

Lemma until_nul_id s : no_nul s -> until_nul s = s.
Proof. induction 1 as [|c s Hc _ IH]; [done|]. cbn [until_nul]. rewrite (proj2 (Z.eqb_neq _ _) Hc). by f_equal. Qed.

Lemma until_nul_len l : zlen (until_nul l) <= zlen l.
Proof. induction l as [|c l IH]; cbn [until_nul]; [done|]. destruct (c =? 0); rewrite ?zlen_cons, ?zlen_nil; pose proof (zlen_nonneg l); lia. Qed.

Lemma field_sub s n c : c ∈ TextProofs.field 44 s n -> c ∈ s.
Proof.
  revert n. induction s as [|d s IH]; intros n; unfold TextProofs.field in *; cbn [split_on].
  - destruct n; cbn; intros H; by apply elem_of_nil in H.
  - destruct (d =? 44).
    + destruct n as [|n]; cbn; [intros H; by apply elem_of_nil in H|]. intros H. right. by apply (IH n).
    + destruct (split_on 44 s) as [|f fs] eqn:E.
      * destruct n as [|n]; cbn; [|intros H; by apply elem_of_nil in H]. rewrite elem_of_cons, elem_of_nil. intros [->|[]]. by left.
      * destruct n as [|n]; cbn.
        -- rewrite elem_of_cons. intros [->|H]; [by left|right]. by apply (IH O).
        -- intros H. right. by apply (IH (S n)).
Qed.

Lemma seps_le sep s : seps sep s <= zlen s.
Proof. unfold seps, zlen. pose proof (length_filter (eq sep) s). lia. Qed.

(** A field read into an array of [n] characters. *)
Lemma str_at_spec data pos n : no_nul data -> zlen data < 65536 -> 0 <= pos -> 2 <= n ->
  let f := TextProofs.field 44 data (Z.to_nat pos) in
  str_at data pos n = Some (take (Z.to_nat (n - 1)) f, (zlen f <? n - 1) && more_after 44 data (Z.to_nat pos)).
Proof.
  intros Hd Hl Hp Hn f. pose proof (seps_le 44 data).
  destruct (my_get_str_at_pos_field data pos 44 (replicate (Z.to_nat n) 0) n) as (out & E & Hz & Ho); [done|lia| |].
  { rewrite zlen_replicate. lia. }
  fold f in E, Ho. unfold str_at. rewrite E. cbn [mbind option_bind].
  apply put_eq in Ho. rewrite Ho, <- app_assoc. simpl ([0] ++ _). rewrite c_string_app; [done|]. apply Forall_take.
  apply Forall_forall. intros c Hc. rewrite Forall_forall in Hd. by apply Hd, (field_sub _ (Z.to_nat pos)).
Qed.

(** All that matters for safety. *)
Lemma str_at_some data pos n : no_nul data -> zlen data < 65536 -> 0 <= pos -> 2 <= n ->
  exists f more, str_at data pos n = Some (f, more) /\ zlen f < n /\ no_nul f.
Proof.
  intros Hd Hl Hp Hn. eexists _, _. split; [by apply str_at_spec|]. rewrite zlen_take. split; [lia|]. apply Forall_take, Forall_forall.
  intros c Hc. rewrite Forall_forall in Hd. by apply Hd, (field_sub _ (Z.to_nat pos)).
Qed.

(** ** Words *)

Definition nonempty_words (l : list (list Z)) : list (list Z) := filter (fun w => w <> []) l.
Definition words (flag : Z) (s : list Z) : list (list Z) := nonempty_words (split_on flag s).

Lemma word_at_cons c buf q p : p < q -> word_at (c :: buf) (q - p) = word_at buf (q - (p + 1)).
Proof. intros H. unfold word_at. by replace (Z.to_nat (q - p)) with (S (Z.to_nat (q - (p + 1)))) by lia. Qed.

Lemma words_later c buf p ps ws :
  Forall2 (fun q w => p + 1 <= q /\ word_at buf (q - (p + 1)) = w) ps ws ->
  Forall2 (fun q w => p <= q /\ word_at (c :: buf) (q - p) = w) ps ws.
Proof. intros H. eapply Forall2_impl; [exact H|]. intros q w [Hq Hw]. rewrite word_at_cons by lia. split; [lia|done]. Qed.

(** The words that begin in the characters that are left; [in_word] says that
    the first of them still belong to the word before. *)
Lemma words_loop_spec flag s : flag <> 0 -> no_nul s -> forall p (in_word : bool) i, 0 <= i <= MAX_ARGS ->
  let l := split_on flag s in
  let new := nonempty_words (if in_word then drop 1 l else l) in
  if i + zlen new <=? MAX_ARGS then
    exists buf ps, words_loop flag 0 s p in_word i = Some (buf, ps) /\ (in_word = true -> until_nul buf = default [] (l !! 0%nat)) /\
      Forall2 (fun q w => p <= q /\ word_at buf (q - p) = w) ps new
  else words_loop flag 0 s p in_word i = None.
Proof.
  intros Hf Hs. induction Hs as [|c s Hc Hs IH]; intros p in_word i Hi; cbn [split_on words_loop].
  { destruct in_word; cbn; rewrite Z.add_0_r, (proj2 (Z.leb_le _ _)) by lia; exists [], []; by split_and!. }
  destruct (split_on_cons flag s) as (f & fs & E). rewrite E in *. destruct in_word; cbn [negb]; destruct (Z.eqb_spec c flag) as [->|Hne]; cbn [negb].
  - specialize (IH (p + 1) false i Hi). cbn zeta beta iota in IH. destruct (_ <=? _); [|by rewrite IH].
    destruct IH as (buf & ps & -> & _ & H). exists (0 :: buf), ps. split_and!; [done|done|by apply words_later].
  - specialize (IH (p + 1) true i Hi). cbn zeta beta iota in IH. change (drop 1 (f :: fs)) with fs in IH. destruct (_ <=? _); [|by rewrite IH].
    destruct IH as (buf & ps & -> & Hb & H). exists (c :: buf), ps. split_and!; [done| |by apply words_later].
    intros _. cbn. rewrite (proj2 (Z.eqb_neq _ _) Hc), Hb by done. done.
  - specialize (IH (p + 1) false i Hi). cbn zeta beta iota in IH. unfold nonempty_words in *. rewrite filter_cons_False by tauto.
    destruct (_ <=? _); [|by rewrite IH]. destruct IH as (buf & ps & -> & _ & H). exists (flag :: buf), ps.
    split_and!; [done|done|by apply words_later].
  - unfold nonempty_words in *. rewrite filter_cons_True by done. rewrite zlen_cons. pose proof (zlen_nonneg (filter (fun w => w <> []) fs)) as Hz.
    unfold MAX_ARGS in *. destruct (Z.leb_spec 10 i) as [H10|H10]; [by rewrite (proj2 (Z.leb_gt _ _)) by lia|].
    rewrite (proj2 (Z.eqb_neq (i + 1) 0)) by lia. specialize (IH (p + 1) true (i + 1) ltac:(lia)). cbn zeta beta iota in IH. change (drop 1 (f :: fs)) with fs in IH.
    rewrite <- Z.add_assoc in IH. destruct (_ <=? _); [|by rewrite IH]. destruct IH as (buf & ps & -> & Hb & H).
    exists (c :: buf), (p :: ps). split_and!; [done|done|]. constructor; [|by apply words_later].
    split; [lia|]. unfold word_at. rewrite Z.sub_diag. change (Z.to_nat 0) with 0%nat. cbn [drop until_nul]. rewrite (proj2 (Z.eqb_neq _ _) Hc), Hb by done. done.
Qed.

(** Splitting a line into words, as both parsers of [my_lte.c] do it when they
    are given no limit: the words between the separators, or an access beyond
    the array of ten pointers when there are more. *)
Lemma parse_words flag s : flag <> 0 -> no_nul s ->
  my_parse_cmd_line s flag 0 = if zlen (words flag s) <=? MAX_ARGS then Some (words flag s) else None.
Proof.
  intros Hf Hs. unfold my_parse_cmd_line. pose proof (words_loop_spec flag s Hf Hs 0 false 0 ltac:(unfold MAX_ARGS; lia)) as H.
  cbn zeta beta iota in H. rewrite Z.add_0_l in H. fold (words flag s) in H. destruct (_ <=? _); [|by rewrite H].
  destruct H as (buf & ps & -> & _ & H). cbn [mbind option_bind]. f_equal. induction H as [|q w ps ws [Hq Hw] _ IH]; [done|].
  cbn [map]. rewrite IH. f_equal. by rewrite <- Hw, Z.sub_0_r.
Qed.

(** ** Settings

    The functions of the settings module that the handlers call keep the
    settings documented. *)

Lemma record_fits n flag hex : is_byte flag -> bytes_ok hex -> length hex = n -> in_type 1 false flag && fits (replicate n u8t) hex = true.
Proof.
  intros Hf Hb Hl. rewrite forall_fits by (done || by apply bytes_forallb). unfold in_type, is_byte in *. change (2 ^ (8 * Z.of_nat 1)) with 256. lia.
Qed.

Lemma gg_ok flag hex : is_byte flag -> bytes_ok hex -> length hex = 24%nat -> setting_ok (mk_gg flag hex).
Proof. intros Hf Hb Hl. split; [|done]. split; [done|]. by apply (record_fits 24 flag hex). Qed.

Lemma mac_ok flag hex : is_byte flag -> bytes_ok hex -> length hex = 6%nat -> setting_ok (mk_mac flag hex).
Proof. intros Hf Hb Hl. split; [|done]. split; [done|]. by apply (record_fits 6 flag hex). Qed.

(** The licences, the serial number and the address have their lengths. *)
Lemma identity_ok c : settings_ok c ->
  (bytes_ok (ff_hex (lic_ff c)) /\ zlen (ff_hex (lic_ff c)) = 29) /\ (bytes_ok (gg_hex (lic_gg c)) /\ zlen (gg_hex (lic_gg c)) = 24) /\
  (bytes_ok (sn_hex (gsm_sn c)) /\ zlen (sn_hex (gsm_sn c)) = 12) /\ (bytes_ok (mac_hex (my_macaddr c)) /\ zlen (mac_hex (my_macaddr c)) = 6).
Proof.
  intros Hc. assert (H : forall n flag hex, in_type 1 false flag && fits (replicate n u8t) hex = true -> bytes_ok hex /\ zlen hex = Z.of_nat n).
  { intros n flag hex E. apply andb_true_iff in E as [_ E]. apply fits_bytes in E as [Hb Hl]. by rewrite <- Hl. }
  pose proof (for_all_field (A := lic_ff_t) _ _ Hc) as [[_ H1] _]. pose proof (for_all_field (A := lic_gg_t) _ _ Hc) as [[_ H2] _].
  pose proof (for_all_field (A := gsm_sn_t) _ _ Hc) as [[_ H3] _]. pose proof (for_all_field (A := macaddr_t) _ _ Hc) as [[_ H4] _].
  change (in_type 1 false (ff_flag (lic_ff c)) && fits (replicate 29 u8t) (ff_hex (lic_ff c)) = true) in H1.
  change (in_type 1 false (gg_flag (lic_gg c)) && fits (replicate 24 u8t) (gg_hex (lic_gg c)) = true) in H2.
  change (in_type 1 false (sn_flag (gsm_sn c)) && fits (replicate 12 u8t) (sn_hex (gsm_sn c)) = true) in H3.
  change (in_type 1 false (mac_flag (my_macaddr c)) && fits (replicate 6 u8t) (mac_hex (my_macaddr c)) = true) in H4.
  apply H in H1, H2, H3, H4. exact (conj H1 (conj H2 (conj H3 H4))).
Qed.

Section setters.
Context {W : Type} `{!CmdIO W}.

Definition keeps_ok {A} (m : prog globals W A) : Prop := forall g w,
  settings_ok (gConfigParam g) -> twp m (fun _ g' _ => settings_ok (gConfigParam g')) g w.

Lemma set_setting {A} `{SettingLaws A} (a : A) c : settings_ok c -> setting_ok a -> settings_ok (put a c).
Proof. intros Hc Ha. by apply (for_all_put _ _ a _ Hc). Qed.

Lemma set_ff_keeps p len : keeps_ok (my_param_set_ff p len).
Proof.
  intros g w Hc. unfold my_param_set_ff. repeat hstep; [done|]. destruct (identity_ok _ Hc) as [[Hb Hl] _].
  destruct (hexstr_to_hex_safe (ff_hex (lic_ff (gConfigParam g))) 29 p) as (hex & r & Eh & Hhl & Hhb); [done|done|lia|].
  eapply twp_checked; [exact Eh|]. unfold saved. repeat hstep. apply set_setting; [done|]. apply ff_ok; [done|done|unfold zlen in Hhl; cbn [fst]; lia].
Qed.

Lemma set_gg_keeps p len : keeps_ok (my_param_set_gg p len).
Proof.
  intros g w Hc. unfold my_param_set_gg. repeat hstep; [done|]. destruct (identity_ok _ Hc) as (_ & [Hb Hl] & _).
  destruct (hexstr_to_hex_safe (gg_hex (lic_gg (gConfigParam g))) 24 p) as (hex & r & Eh & Hhl & Hhb); [done|done|lia|].
  eapply twp_checked; [exact Eh|]. unfold saved. repeat hstep. apply set_setting; [done|]. apply gg_ok; [done|done|unfold zlen in Hhl; cbn [fst]; lia].
Qed.

Lemma set_sn_keeps p : zlen p < 128 -> keeps_ok (my_param_set_sn p (u8 (zlen p))).
Proof.
  intros Hp g w Hc. unfold my_param_set_sn. hstep; [by hstep|]. destruct (check_license_sn p) as [Hsl Hsb]; [done|by apply negb_false_iff|].
  repeat hstep. destruct (identity_ok _ Hc) as (_ & _ & [Hb Hl] & _). rewrite Hsl. change (u8 12) with 12.
  rewrite take_ge by (unfold zlen in Hsl; lia). eapply twp_checked; [apply arr_blit_Some; lia|]. unfold saved. repeat hstep. apply set_setting; [done|].
  unfold zlen in *. change (Z.to_nat 0) with 0%nat. rewrite take_0, drop_ge by lia. apply sn_ok; [done| |].
  - by rewrite app_nil_r.
  - rewrite app_nil_r. simpl. lia.
Qed.

Lemma set_mac_keeps p : zlen p < 65536 -> keeps_ok (my_param_set_mac p).
Proof.
  intros Hp g w Hc. unfold my_param_set_mac. destruct (macstr_to_hex_safe p (replicate 6 0) Hp) as (hex & ok & E & Hl & _); [done|].
  assert (Hb : bytes_ok hex) by (eapply macstr_to_hex_bytes; [exact E|by repeat constructor]).
  hstep. eapply twp_checked; [exact E|]. cbv beta iota. hstep; [by hstep|].
  hstep. destruct (char_array_reverse_spec hex (replicate 6 0)) as [Er _]; [rewrite Hl; done|rewrite Hl; done|]. rewrite Hl in Er.
  change (zlen (replicate 6 0)) with MY_MAC_LENGTH in *.
  eapply twp_checked; [exact Er|]. hstep. eapply twp_checked; [done|]. unfold saved. repeat hstep. apply set_setting; [done|].
  apply mac_ok; [done|by apply Forall_reverse|]. rewrite length_reverse. unfold zlen, MY_MAC_LENGTH in *. lia.
Qed.

Lemma set_Gvalue_keeps p : keeps_ok (my_param_set_Gvalue p).
Proof.
  intros g w Hc. unfold my_param_set_Gvalue. repeat hstep; [done|done|]. unfold saved. repeat hstep. apply set_setting; [done|].
  pose proof (u16_range (atoi p)). set (v := u16 (atoi p)) in *. clearbody v. value_ok.
Qed.

Lemma set_tag_keeps cmd p : keeps_ok (my_param_set_jatag_or_jgtag (Some cmd) (Some p)).
Proof.
  intros g w Hc. unfold my_param_set_jatag_or_jgtag, set_apple, set_google, saved.
  repeat hstep; try done; (apply set_setting; [done|]);
    old Hc adv_valid_value; unfold adv_valid_ok, upto, within in Hd; cbn in *; value_ok.
Qed.

Lemma factory_reset_keeps : keeps_ok my_param_factory_reset.
Proof.
  intros g w Hc. unfold my_param_factory_reset. tstep. eapply twp_mono; [apply storage_init_keeps|]. intros r g' w' E. rewrite <- E in Hc.
  destruct (negb _); [by apply twp_ret|]. tstep. apply twp_world. intros r2 w2 _. by destruct (r2 <? 0); apply twp_ret.
Qed.

Lemma shutdown_keeps : keeps_ok (Settings.update (fun c => mk_shutdown_cfg (shutdown_cfg_flag c) 1)).
Proof.
  intros g w Hc. hstep. apply set_setting; [done|]. old Hc shutdown_config.
  split; [split; [done|cbn; type_bounds; cbn; lia]|done].
Qed.

Lemma save_keeps {A} `{SettingLaws A} : keeps_ok (save A).
Proof. intros g w Hc. by hstep. Qed.

Lemma factory_mode_keeps b : keeps_ok (set_factory_mode b).
Proof. by intros g w Hc. Qed.
End setters.

(** ** Safety

    What the handlers keep of the variables they share. *)

(** A Bluetooth address has six bytes. *)
Class LteHostLaws (D : Type) `{LteHost D} : Prop := {
  law_mac w : zlen (bt_get_mac_addr w) = 6
}.

Definition queue_ok (q : list retransmission_item_t) : Prop := Forall (fun x => zlen (cmd_name x) < 32) q.

Record env_ok {F : Type} (e : lte_env F) : Prop := {
  eo_settings : settings_ok (gConfigParam (cfg e));
  eo_ota : ota_ok (ota (update e));
  eo_queue : queue_ok (s_retrans_queue (vars e))
}.

Section safety.
Context {D F : Type} `{!LteHw D} `{!LteHwLaws D} `{!PmRuntime D} `{!LteHost D} `{!LteHostLaws D} `{!LteUart D} `{!LteUartLaws D}.
Context `{!ImageFlash F} `{!ImageFlashLaws F}.
Notation PW := (list (pm_device_ctx_t (lte * D)) * D)%type.
Notation proto := (prog lte (PW * lte_env F)).
Notation ok := (tsafe (W := D) (env_ok (F := F))).
Local Hint Resolve tsafe_bind tsafe_ret tsafe_get tsafe_if tsafe_frame send_command_lsafe send_retry_lsafe purge_lsafe process_lsafe : lte.

(** Programs with a result of which something is known. *)
Definition yields {A} (m : proto A) (P : A -> Prop) : Prop := forall B (k : A -> proto B), (forall a, P a -> ok (k a)) -> ok (bind m k).

Lemma ok_getv {A} (f : lte_vars -> A) : yields (getv f) (fun a => exists v, queue_ok (s_retrans_queue v) /\ a = f v).
Proof.
  intros B k Hk K s t w x Hs Ht Hx. wstep. apply wp_world. intros a pw [= <- <-]. eapply Hk; [|done..]. exists (vars x). split; [apply Hx|done].
Qed.

Lemma ok_setv f : (forall v, queue_ok (s_retrans_queue v) -> queue_ok (s_retrans_queue (f v))) -> ok (setv f).
Proof.
  intros Hf K s t w x Hs Ht Hx. apply wp_world. intros a pw [= <- <-]. apply kept_now; [done|done|]. destruct Hx. split; [done|done|by apply Hf].
Qed.

Lemma ok_config : yields config settings_ok.
Proof. intros B k Hk K s t w x Hs Ht Hx. wstep. apply wp_world. intros a pw [= <- <-]. eapply Hk; [apply Hx|done..]. Qed.

Lemma ok_settings {A} (m : prog globals D A) : keeps_ok m -> ok (settings m).
Proof.
  intros Hm K s t w x Hs Ht [Hx1 Hx2 Hx3]. specialize (Hm (cfg x) w Hx1). unfold twp in Hm. unfold wp, settings.
  destruct (m (cfg x) w) as [[[a g] w']| |]; [|done..]. by apply kept_now.
Qed.

Lemma ok_uart {A} (m : prog lte D A) : (forall K cs, safe K cs m) -> ok (uart m).
Proof. intros Hm. apply tsafe_frame, lsafe_psafe. intros K cs. by apply psafe_lift. Qed.

Lemma ok_on_dev {A} (f : D -> D * A) : ok (on_dev f).
Proof. apply ok_uart. intros K cs. apply safe_world. Qed.

Lemma ok_do_host c : ok (do_host c).
Proof. apply ok_on_dev. Qed.

Lemma ok_ask_host {A} (f : D -> A) : ok (ask_host f).
Proof. apply ok_on_dev. Qed.

Lemma ok_my_send_msg id : needs_text id = false -> ok (uart (my_send_msg id)).
Proof. intros Hid. apply ok_uart. intros K cs. by apply my_send_msg_safe. Qed.

Lemma ok_command name p : ok (uart (lte_send_command name p)).
Proof. apply tsafe_frame, send_command_lsafe. Qed.

(** A reply of any length. *)
Lemma reply_len (text : list Z) : 0 <= u16 (zlen text) <= zlen (text ++ [0]).
Proof.
  pose proof (u16_range (zlen text)). pose proof (Z.mod_le (zlen text) 65536 (zlen_nonneg _) ltac:(lia)).
  rewrite zlen_app. change (zlen [0]) with 1. unfold u16 in *. lia.
Qed.

Lemma ok_answer text : ok (answer text).
Proof. unfold answer. apply tsafe_bind; [|auto with lte]. apply tsafe_frame, send_msg_lsafe; [apply u16_range|apply reply_len]. Qed.

Lemma ok_answer_uart text : ok (answer_uart text).
Proof.
  unfold answer_uart. apply tsafe_bind; [|auto with lte]. apply tsafe_frame, lsafe_psafe. intros K cs. apply my_lte_uart_send_safe, reply_len.
Qed.

Lemma ok_checked {A} (o : option A) a {B} (k : A -> proto B) : o = Some a -> ok (k a) -> ok (bind (checked o) k).
Proof. intros -> Hk K s t w x Hs Ht Hx. wstep. eapply wp_checked; [done|]. by apply Hk. Qed.

(** A field of the text. *)
Lemma ok_field data pos n : no_nul data -> zlen data < 65536 -> 0 <= pos -> 2 <= n ->
  yields (checked (str_at data pos n)) (fun r => zlen (fst r) < n /\ no_nul (fst r)).
Proof.
  intros Hd Hl Hp Hn B k Hk. destruct (str_at_some data pos n Hd Hl Hp Hn) as (f & more & E & Hf). eapply ok_checked; [exact E|]. by apply Hk.
Qed.

(** Several steps with one result. *)
Lemma ok_assoc {A B C} (m : proto A) (k : A -> proto B) (k' : B -> proto C) : ok (a <- m ;; b <- k a ;; k' b) -> ok (b <- (a <- m ;; k a) ;; k' b).
Proof.
  intros H K s t w x Hs Ht Hx. specialize (H K s t w x Hs Ht Hx). unfold wp, bind in *. by destruct (m s (t, w, x)) as [[[a s'] px]| |].
Qed.

Lemma yields_bind {A B} (m : proto A) (k : A -> proto B) P : ok m -> (forall a, yields (k a) P) -> yields (bind m k) P.
Proof. intros Hm Hk C k' H. apply ok_assoc, tsafe_bind; [done|]. intros a. by apply Hk. Qed.

Lemma yields_then {A B} (m : proto A) (k : A -> proto B) P Q : yields m P -> (forall a, P a -> yields (k a) Q) -> yields (bind m k) Q.
Proof. intros Hm Hk C k' H. apply ok_assoc, Hm. intros a Ha. by apply (Hk a Ha). Qed.

Lemma yields_ret {A} (a : A) (P : A -> Prop) : P a -> yields (ret a) P.
Proof. intros Ha B k Hk. exact (Hk a Ha). Qed.

Lemma yields_checked {A B} (o : option A) a (k : A -> proto B) P : o = Some a -> yields (k a) P -> yields (bind (checked o) k) P.
Proof. intros -> Hk. apply (yields_then _ _ (fun b => b = a)); [|by intros b ->]. intros C k' H. eapply ok_checked; [done|by apply H]. Qed.

Lemma inv_flags K cs s : inv K cs s ->
  (forall p r, inv K cs (set_power p r s)) /\ (forall b, inv K cs (set_ota b s)) /\ (forall b, inv K cs (set_factory b s)).
Proof. intros []. split_and!; by split. Qed.

Lemma ok_set_ota b : ok (modify (set_ota b)).
Proof. apply tsafe_modify. intros K cs s Hs. by apply (inv_flags K cs s). Qed.

Lemma ok_set_factory b : ok (modify (set_factory b)).
Proof. apply tsafe_modify. intros K cs s Hs. by apply (inv_flags K cs s). Qed.

Lemma ok_set_power p r : ok (modify (fun s => set_power (p s) r s)).
Proof. apply tsafe_modify. intros K cs s Hs. by apply (inv_flags K cs s). Qed.

Ltac ok_step :=
  lazymatch goal with
  | |- ok (answer _) => apply ok_answer
  | |- ok (answer_uart _) => apply ok_answer_uart
  | |- ok (do_host _) => apply ok_do_host
  | |- ok (ask_host _) => apply ok_ask_host
  | |- ok (on_dev _) => apply ok_on_dev
  | |- ok (uart (lte_send_command _ _)) => apply ok_command
  | |- ok (uart (my_send_msg _)) => by apply ok_my_send_msg
  | |- ok (ret _) => apply tsafe_ret
  | |- ok (get _) => apply tsafe_get
  | |- ok (modify (set_ota _)) => apply ok_set_ota
  | |- ok (modify (set_factory _)) => apply ok_set_factory
  | |- ok (modify (fun s => set_power _ _ s)) => apply ok_set_power
  | |- ok (setv _) => apply ok_setv; try done
  | |- ok (bind (checked (str_at _ _ _)) _) => apply ok_field; [done|done|done|done|intros [? ?] [? ?]; cbn [fst snd] in *]
  | |- ok (bind (getv _) _) => apply ok_getv; intros ? (? & ? & ->)
  | |- ok (bind config _) => apply ok_config; intros ? ?
  | |- ok (bind _ _) => apply tsafe_bind; [|intros ?]
  | |- ok (if ?b then _ else _) => destruct b eqn:?
  end.

(** *** Messages that wait for an answer *)

Lemma forward_ok q : queue_ok q -> queue_ok (move_forward q).
Proof.
  induction 1 as [|x q Hx Hq IH]; [constructor|]. cbn [move_forward]. destruct q as [|y q]; [by constructor|].
  destruct (pending y); [|by constructor]. constructor; [by apply Forall_cons in Hq as [? _]|done].
Qed.

Lemma ack_ok name q : queue_ok q -> queue_ok (ack_loop name q).
Proof.
  induction 1 as [|x q Hx Hq IH]; [constructor|]. cbn [ack_loop]. destruct (_ && _); [apply forward_ok|]; by constructor.
Qed.

Lemma ok_stop : ok stop_if_empty.
Proof. unfold stop_if_empty. ok_step. intros v Hv. by destruct (retrans_queue_is_empty _). Qed.

Lemma ok_check_ack name : ok (check_ack name).
Proof. unfold check_ack. ok_step; [|apply ok_stop]. ok_step. intros v Hv. by apply ack_ok. Qed.

Lemma retrans_loop_yields now q : queue_ok q -> yields (retrans_loop now q) queue_ok.
Proof.
  induction 1 as [|x q Hx Hq IH]; cbn [retrans_loop]; [apply yields_ret; constructor|].
  destruct (_ && _); [destruct (_ <? _)|].
  - eapply yields_checked; [unfold strcpy; by rewrite (proj2 (Z.ltb_lt _ _) Hx)|]. apply yields_bind; [apply ok_command|]. intros _.
    eapply yields_then; [exact IH|]. intros rest Hr. apply yields_ret. by constructor.
  - do 3 (apply yields_bind; [ok_step|]; intros _). apply yields_ret. by constructor.
  - eapply yields_then; [exact IH|]. intros rest Hr. apply yields_ret. by constructor.
Qed.

Lemma ok_poll : ok retransmission_poll.
Proof.
  unfold retransmission_poll. apply tsafe_bind; [|intros _; apply ok_stop]. unfold retransmission_check. do 2 ok_step.
  apply retrans_loop_yields; [done|]. intros q Hq. by ok_step.
Qed.

Lemma special_len name : is_special name = true -> zlen name <= 7.
Proof.
  unfold is_special. cbn [existsb s_special_cmd_prefixes]. rewrite orb_false_r. intros H.
  apply orb_true_iff in H as [H|H]; apply bool_decide_eq_true in H as <-; vm_compute; discriminate.
Qed.

Lemma special_name name f : is_special name = true -> zlen f < 16 -> strcpy 32 (name ++ cstr "_" ++ f) = Some (name ++ cstr "_" ++ f).
Proof.
  intros Hn Hf. apply special_len in Hn. unfold strcpy. rewrite (proj2 (Z.ltb_lt _ _)); [done|]. rewrite !zlen_app. change (zlen (cstr "_")) with 1. lia.
Qed.

Lemma queue_name_some name (p : option (list Z)) : match p with Some p => no_nul p /\ zlen p < 65536 | None => True end -> is_Some (queue_name name p).
Proof.
  intros Hp. unfold queue_name. destruct p as [[|c p]|]; [done| |done]. destruct (is_special name) eqn:E; [|done]. destruct Hp as [H1 H2].
  destruct (str_at_some (c :: p) 0 16) as (f & more & -> & Hf & _); [done|done|done|done|]. cbn [mbind option_bind]. by rewrite special_name.
Qed.

Lemma drop_len {A} n (l : list A) : zlen (drop n l) <= zlen l.
Proof. unfold zlen. rewrite length_drop. lia. Qed.

Lemma ok_add c : zlen c < 65536 -> no_nul c -> ok (add_to_retrans_queue c).
Proof.
  intros Hl Hn. unfold add_to_retrans_queue. ok_step. pose proof (drop_len (length l + 1) c).
  destruct (queue_name_some l (if b then Some (drop (length l + 1) c) else None)) as [name E]; [destruct b; [split; [by apply Forall_drop|lia]|done]|].
  eapply ok_checked; [exact E|]. ok_step. destruct (free_slot _ 0) as [i|]; [|unfold start_timer; by ok_step].
  ok_step; [destruct b; ok_step|]. match goal with |- ok (if ?r then _ else _) => destruct r end.
  - repeat ok_step; [|by unfold start_timer; ok_step]. intros v _. apply Forall_insert; [done|]. cbn [cmd_name]. rewrite zlen_take. lia.
  - ok_step. intros v _. apply Forall_alter; [done|]. by intros y _ Hy.
Qed.

(** *** Messages to the module *)

Lemma hex_string_spec hex n : bytes_ok hex -> 0 < zlen hex -> 2 * zlen hex + 1 <= n < 65536 -> hex_string hex n = Some (hex_text hex).
Proof.
  intros Hb H0 Hn. unfold hex_string, hex2hexstr. rewrite (proj2 (Z.ltb_ge _ _)) by lia.
  destruct (hex2hexstr_loop_spec hex (replicate (Z.to_nat n) 0) [] (put_nil _)) as (buf & Eb & Hlb & Hpb); [rewrite ?zlen_replicate; change (zlen []) with 0; lia..|].
  change (zlen []) with 0 in Eb. rewrite Eb. cbn [mbind option_bind]. rewrite (put_eq _ _ Hpb). cbn [Datatypes.app]. rewrite <- app_assoc. apply c_string_app, hex_chars_bytes, hex_text_chars, Hb.
Qed.

Lemma ok_pulse : ok send_lte_pulse.
Proof. unfold send_lte_pulse. repeat ok_step. Qed.

Lemma ok_bt_info : ok send_bt_info_command.
Proof.
  unfold send_bt_info_command. ok_step. match goal with H : settings_ok ?c |- _ => destruct (identity_ok c H) as ([Hf1 Hf2] & [Hg1 Hg2] & [Hs1 Hs2] & [Hm1 Hm2]) end.
  eapply ok_checked; [apply hex_string_spec; [done|rewrite Hm2; done|rewrite Hm2; done]|].
  eapply ok_checked; [apply hex_string_spec; [done|rewrite Hf2; done|rewrite Hf2; done]|].
  eapply ok_checked; [apply hex_string_spec; [done|rewrite Hg2; done|rewrite Hg2; done]|].
  pose proof (until_nul_len (sn_hex (gsm_sn a))) as Hsn. eapply ok_checked; [|repeat ok_step].
  unfold strcpy. rewrite (proj2 (Z.ltb_lt _ _)); [done|]. rewrite !zlen_app, !zlen_hex_text, Hm2, Hf2, Hg2. rewrite Hs2 in Hsn.
  change (zlen (cstr ",")) with 1. unfold MY_MAC_LENGTH, GSM_SN_LENGTH, LICENSE_GG_STR_LEN, LICENSE_FF_STR_LEN. lia.
Qed.

Lemma ok_led : ok send_led_command.
Proof. unfold send_led_command. repeat ok_step. Qed.

Lemma ok_work_mode mode : ok (send_work_mode_command mode).
Proof.
  unfold send_work_mode_command. ok_step. destruct (work_mode_text_some a mode) as [t E].
  { apply settings_mode. exact (for_all_field (A := work_mode_config_t) _ _ H). }
  eapply ok_checked; [exact E|]. destruct t; repeat ok_step.
Qed.

(** *** Handlers *)

Section data.
Context (data : list Z) (Hn : no_nul data) (Hl : zlen data < 65536).

Lemma ok_power_on : ok (my_lte_handle_power_on data).
Proof.
  unfold my_lte_handle_power_on. repeat ok_step.
  match goal with |- context [snprintf 128 ?u] => set (text := u); assert (Ht : zlen text <= 127) end.
  { unfold text. rewrite !zlen_app. match goal with |- context [dec ?v] => pose proof (dec_len v) end. change (zlen eol) with 2. cstr_lens. lia. }
  clearbody text. unfold snprintf. rewrite take_ge by (unfold zlen in Ht; lia). ok_step.
  { apply tsafe_frame, send_msg_lsafe; [apply u16_range|apply reply_len]. }
  ok_step. ok_step; [apply ok_work_mode|]. do 2 (ok_step; [ok_step|]). ok_step; [apply ok_bt_info|]. ok_step; [apply ok_led|].
  ok_step; [apply ok_pulse|]. ok_step; [apply tsafe_frame, process_lsafe|ok_step].
Qed.

Lemma ok_power_off : ok (my_lte_handle_power_off data).
Proof.
  unfold my_lte_handle_power_off. repeat ok_step.
  - apply ok_settings. by intros g w Hc.
  - apply ok_settings, factory_mode_keeps.
  - apply ok_settings, shutdown_keeps.
  - apply ok_settings, save_keeps.
  - apply ok_uart. intros K cs. apply k_sleep_safe.
Qed.

Lemma ok_time : ok (my_lte_handle_time data).
Proof. unfold my_lte_handle_time. repeat ok_step. Qed.

Lemma ok_fota : ok (my_lte_handle_fota data).
Proof. unfold my_lte_handle_fota. repeat ok_step. Qed.

Lemma ok_location : ok (my_lte_handle_location data).
Proof.
  unfold my_lte_handle_location. repeat ok_step. destruct (parse_coordinate_value _ true) as [[lat vlat]|]; [|by repeat ok_step].
  destruct (parse_coordinate_value _ false) as [[lon vlon]|]; by repeat ok_step.
Qed.

Lemma ok_factory : ok (my_lte_handle_factory data).
Proof. unfold my_lte_handle_factory. repeat ok_step. Qed.

Lemma ok_state : ok (my_lte_handle_state data).
Proof. unfold my_lte_handle_state. by repeat ok_step. Qed.

Lemma ok_sn : ok (my_lte_handle_sn data).
Proof. unfold my_lte_handle_sn. repeat ok_step. apply ok_settings, set_sn_keeps. cbn [fst]. lia. Qed.

Lemma ok_getmot : ok (my_lte_handle_getmot data).
Proof. unfold my_lte_handle_getmot. by repeat ok_step. Qed.

Lemma ok_gettime : ok (my_lte_handle_gettime data).
Proof. unfold my_lte_handle_gettime. by repeat ok_step. Qed.

Lemma ok_gpsstate : ok (my_lte_handle_gpsstate data).
Proof. unfold my_lte_handle_gpsstate. by repeat ok_step. Qed.
End data.

(** *** Answers *)

Lemma split_at_no_nul c s a b : split_at c s = Some (a, b) -> no_nul s -> no_nul a /\ no_nul b /\ zlen a + zlen b < zlen s.
Proof.
  revert a b. induction s as [|d s IH]; intros a b; cbn [split_at]; [done|]. intros E H. apply Forall_cons in H as [Hd Hs]. rewrite zlen_cons.
  destruct (d =? c); [injection E as <- <-; change (zlen []) with 0; split_and!; [by constructor|done|lia]|].
  destruct (split_at c s) as [[a' b']|]; [|done]. injection E as <- <-. destruct (IH _ _ eq_refl Hs) as (H1 & H2 & H3). rewrite zlen_cons.
  split_and!; [by constructor|done|lia].
Qed.

Lemma before_no_nul c s : no_nul s -> no_nul (before c s) /\ zlen (before c s) <= zlen s.
Proof.
  intros Hs. unfold before. destruct (split_at c s) as [[a b]|] eqn:E; [|done]. destruct (split_at_no_nul _ _ _ _ E Hs) as (H1 & _ & H2).
  pose proof (zlen_nonneg b). split; [done|lia].
Qed.

(** The lines of the module that do not overrun an array. *)
Definition answer_ok (data : list Z) : bool := match split_at 61 data with Some (name, _) => zlen name <? 32 | None => true end.

Lemma ble_rsp_parse_some data : no_nul data -> answer_ok data = true ->
  match ble_rsp_parse data with
  | None => False
  | Some NotAnswer => True
  | Some (Answer r) => no_nul (rsp_params r) /\ zlen (rsp_params r) < 256 /\ is_Some (acked_name r)
  end.
Proof.
  intros Hn Ha. unfold ble_rsp_parse, answer_ok in *. destruct (split_at 61 data) as [[name rest]|] eqn:E; [|done].
  destruct (split_at_no_nul _ _ _ _ E Hn) as (H1 & H2 & _). destruct (before_no_nul 35 rest H2) as [H3 _].
  assert (Es : strcpy 32 name = Some name) by (unfold strcpy; by rewrite Ha). rewrite Es. cbn [mbind option_bind rsp_params].
  assert (H4 : no_nul (take 255 (before 35 rest))) by by apply Forall_take.
  assert (H5 : zlen (take 255 (before 35 rest)) < 256) by (rewrite zlen_take; lia). split_and!; [done|done|].
  unfold acked_name. cbn [rsp_cmd_name rsp_params]. destruct (is_special name) eqn:Hs; [|by rewrite Es].
  destruct (str_at_some (take 255 (before 35 rest)) 1 16) as (f & more & -> & Hf & _); [done|lia|done|done|]. cbn [mbind option_bind].
  by rewrite special_name.
Qed.

Lemma ok_ble_handle data : no_nul data -> answer_ok data = true -> ok (my_ble_handle data).
Proof.
  intros Hn Ha. pose proof (ble_rsp_parse_some data Hn Ha) as H. unfold my_ble_handle.
  destruct (ble_rsp_parse data) as [[|r]|] eqn:E; [|destruct H as (H1 & H2 & [name En])|done]; (eapply ok_checked; [done|]); cbv beta iota; [ok_step|].
  eapply ok_checked; [exact En|]. ok_step; [apply ok_check_ack|]. assert (zlen (rsp_params r) < 65536) by lia. destruct (rsp_type r); by repeat ok_step.
Qed.

(** A block that is handed on. *)
Lemma ok_block n bytes (none : proto unit) (some : ptr -> proto unit) : zlen bytes <= n -> ok none -> (forall p, ok (some p)) ->
  ok (b <- uart (MY_MALLOC_BUFFER n) ;; match b with None => none | Some p => uart (store p 0 bytes) ;; some p end).
Proof.
  intros Hn H0 H1.
  assert (Hm : ok (uart (b <- MY_MALLOC_BUFFER n ;; match b with None => ret None | Some p => store p 0 bytes ;; ret (Some p) end))).
  { apply tsafe_frame, lsafe_twp. intros K cs s t w Hs Ht. apply twp_lift. apply (block_twp K cs); [done|done|intros w'; tstep; by apply (lkept_now K cs s t w' (@None ptr))|].
    intros p b s' w' _ Hs' _ _ _. tstep. by apply (lkept_lost K cs p s' t w' (Some p)). }
  assert (Hk : forall b, ok (match b with None => none | Some p => some p end)) by (intros [p|]; done).
  pose proof (tsafe_bind _ _ _ Hm Hk) as H. intros K s t w x Hs Ht Hx. specialize (H K s t w x Hs Ht Hx).
  unfold wp, uart, frame, lift, bind in *. cbn [fst snd] in *. destruct (MY_MALLOC_BUFFER n s w) as [[[[p|] s'] w']| |]; [|exact H..]. cbn [fst snd] in *.
  destruct (store p 0 bytes s' w') as [[[[] s2] w2]| |]; exact H.
Qed.

Lemma ok_pass m text : ok (pass_to_ble m text (zlen text)).
Proof.
  unfold pass_to_ble. apply ok_block; [rewrite zlen_app; change (zlen [0]) with 1; lia|ok_step|]. intros p. ok_step.
Qed.

(** *** Update *)

Lemma ok_purge : ok my_lte_purge_dfu_queues.
Proof. unfold my_lte_purge_dfu_queues, init_async_queue. ok_step; [apply tsafe_frame, purge_lsafe|by ok_step]. Qed.

Lemma ok_prepare area size crc : ok (session_prepare area size crc).
Proof.
  intros K s t w x Hs Ht [H1 H2 H3]. unfold wp, session_prepare, my_dfu_lte_prepare, my_ota_flash_occupy.
  destruct (size =? 0); [by apply kept_now|]. destruct (area <? size); [by apply kept_now|].
  destruct (s_ota_busy (ota (update x))); apply kept_now; try done. split; [done|by destruct H2|done].
Qed.

Lemma ok_receive fuel area alloc : ok (session_receive fuel area alloc).
Proof.
  intros K s t w x [cs Hs] Ht [H1 H2 H3]. unfold wp, session_receive.
  set (d := to_session w (s_lte_rb s) (update x)).
  pose proof (session_runs (boot_request d) (s_dfu_expect_crc d) area fuel alloc d) as H. destruct (my_dfu_lte_start fuel area alloc d) as [[reason d']| |].
  - destruct H as ([Hrb Ho] & _); [split; [split; [apply Hs|done]|done|done]|]. apply kept_now; [|done|by split]. exists cs. by destruct Hs.
  - done.
  - apply H. split; [split; [apply Hs|done]|done|done].
Qed.

Lemma ok_reason r : ok (answer_reason r).
Proof. apply ok_answer. Qed.

Lemma ok_mcuota fuel area param : ok (my_lte_handle_mcuota fuel area param).
Proof.
  unfold my_lte_handle_mcuota. destruct (scan_start param) as [[size crc]|]; [|by repeat ok_step]. ok_step; [|by repeat ok_step].
  ok_step; [apply ok_prepare|]. destruct a; [|ok_step; [apply ok_reason|ok_step]..].
  unfold session_start. ok_step; [ok_step|]. ok_step.
  - ok_step; [apply ok_purge|]. ok_step; [ok_step|]. ok_step; [apply ok_receive|]. ok_step; [|ok_step]. ok_step; [apply ok_purge|ok_step].
  - match goal with |- context [match ?r with DFU_LTE_OK => _ | _ => _ end] => destruct r end;
    [by repeat ok_step|ok_step; [apply ok_reason|ok_step]..].
Qed.

(** *** Production test *)

Lemma words_len flag s : Forall (fun w => zlen w <= zlen s) (words flag s).
Proof.
  cut (Forall (fun w => zlen w <= zlen s) (split_on flag s)).
  { rewrite !Forall_forall. unfold words, nonempty_words. intros H w Hw. apply list_elem_of_filter in Hw as [_ Hw]. by apply H. }
  induction s as [|c s IH]; cbn [split_on]; [by constructor|].
  destruct (split_on_cons flag s) as (f & fs & E). rewrite E in *. apply Forall_cons in IH as [Hf Hfs]. rewrite zlen_cons. pose proof (zlen_nonneg s).
  assert (Hfs' : Forall (fun w => zlen w <= 1 + zlen s) fs) by (eapply Forall_impl; [exact Hfs|]; cbn; intros; lia).
  destruct (c =? flag); repeat constructor; rewrite ?zlen_cons; change (zlen []) with 0; try done; lia.
Qed.

Lemma ok_resp text : zlen text < 256 -> ok (resp text).
Proof. intros H. apply tsafe_checked. unfold strcpy. by rewrite (proj2 (Z.ltb_lt _ _) H). Qed.

Section args.
Context (args : list (list Z)) (Hargs : Forall (fun w => zlen w <= 127) args).

Lemma arg_yields k : Z.of_nat k < zlen args -> yields (arg args k) (fun p => zlen p <= 127).
Proof.
  intros Hk. destruct (lookup_lt_is_Some_2 args k) as [p E]; [unfold zlen in Hk; lia|]. intros B k' H'.
  eapply ok_checked; [exact E|]. apply H'. by eapply (proj1 (Forall_lookup _ _) Hargs).
Qed.

Ltac arg_step := apply arg_yields; [bool2prop; lia|intros ? ?].
Ltac fits := apply ok_resp; rewrite ?zlen_app; repeat match goal with |- context [dec ?v] => pose proof (dec_len v); generalize dependent (dec v); intros end;
  repeat match goal with |- context [zlen (if ?b then _ else _)] => destruct b end; repeat match goal with |- context [zlen (light_text ?b)] => destruct b; cbn [light_text] end;
  repeat match goal with |- context [zlen (hex2 ?a ?b)] => change (zlen (hex2 a b)) with 2 end; cstr_lens; try lia.

Lemma ok_pcba_set title m : keeps_ok m -> zlen title <= 20 -> ok (pcba_set title m).
Proof. intros Hm Ht. unfold pcba_set. ok_step; [by apply ok_settings|]. fits. Qed.

Lemma ok_pcba_license name flag hex set : zlen name <= 10 -> bytes_ok hex -> 0 < zlen hex <= 29 -> (forall p, keeps_ok (set p)) -> 3 <= zlen args ->
  ok (pcba_license name flag hex set args).
Proof.
  intros Hn Hb Hh Hs Ha. unfold pcba_license. ok_step; [ok_step|].
  - eapply ok_checked; [apply hex_string_spec; [done|lia|lia]|]. fits. rewrite zlen_hex_text. lia.
  - fits.
  - arg_step. ok_step; [by apply ok_settings|]. fits.
Qed.

Lemma ok_pcba_tag name : zlen name <= 10 -> ok (pcba_tag name args).
Proof. intros Hn. unfold pcba_tag. ok_step; [|fits]. do 2 arg_step. ok_step; [apply ok_settings, set_tag_keeps|]. fits. Qed.

Lemma mac_digits_len a : zlen (mac_digits a) = 2 * zlen a.
Proof.
  unfold mac_digits, zlen. rewrite <- (length_reverse a). induction (reverse a) as [|x l IH]; [done|]. cbn [fmap list_fmap concat]. rewrite length_app.
  cbn [length] in *. cbn [fmap] in IH. change (length (hex2 true x)) with 2%nat. lia.
Qed.

Lemma mac_yields : yields (ask_host bt_get_mac_addr) (fun a => zlen (mac_digits a) = 12).
Proof.
  intros B k Hk K s t w x Hs Ht Hx. wstep. unfold wp, ask_host, on_dev, uart, frame, lift, world. cbn [fst snd].
  eapply Hk; [|done..]. by rewrite mac_digits_len, law_mac.
Qed.

Lemma ok_pcba_bt : ok (pcba_bt args).
Proof.
  unfold pcba_bt. ok_step; [fits|]. arg_step. ok_step. destruct (identity_ok _ H0) as ([Hf1 Hf2] & [Hg1 Hg2] & [Hs1 Hs2] & _).
  ok_step; [apply ok_pcba_license; [done|done|lia|intros; apply set_ff_keeps|bool2prop; lia]|].
  ok_step; [apply ok_pcba_license; [done|done|lia|intros; apply set_gg_keeps|bool2prop; lia]|].
  ok_step; [by apply ok_pcba_tag|]. ok_step; [by apply ok_pcba_tag|].
  ok_step; [ok_step; [unfold hex4; fits|arg_step; apply ok_pcba_set; [apply set_Gvalue_keeps|done]]|].
  ok_step; [ok_step; [ok_step; [|fits]|arg_step; apply ok_pcba_set; [apply set_sn_keeps; lia|done]]|].
  { fits. pose proof (until_nul_len (sn_hex (gsm_sn a0))). lia. }
  ok_step; [|ok_step]. ok_step; [apply mac_yields; intros m Hm; fits|]. arg_step. apply ok_pcba_set; [apply set_mac_keeps; lia|done].
Qed.

Lemma ok_pcba_switch title call : zlen title <= 20 -> ok (pcba_switch title call args).
Proof. intros Ht. unfold pcba_switch. ok_step; [fits|]. arg_step. repeat ok_step; fits. Qed.

Lemma ok_pcba_mcu : ok (pcba_mcu args).
Proof.
  unfold pcba_mcu. ok_step; [fits|]. arg_step.
  ok_step; [by apply ok_pcba_switch|].
  ok_step; [ok_step; [apply mac_yields; intros m Hm; fits|ok_step; [arg_step; apply ok_pcba_set; [apply set_mac_keeps; lia|done]|ok_step]]|].
  ok_step; [ok_step; [ok_step|fits]|]. ok_step; [by apply ok_pcba_switch|].
  ok_step; [ok_step; [ok_step|fits]|]. do 2 (ok_step; [ok_step; [ok_step|fits]|]). repeat ok_step.
Qed.

Lemma ok_factory_cmd : 1 <= zlen args -> ok (my_handle_at_factory_cmd args).
Proof.
  intros Ha. unfold my_handle_at_factory_cmd, my_handle_at_pcba_cmd. arg_step. ok_step; [|ok_step]. arg_step. ok_step; [fits|].
  apply orb_false_iff in Heqb0 as [Hb _]. arg_step. ok_step; [apply ok_pcba_bt|]. ok_step; [apply ok_pcba_mcu|].
  ok_step; [repeat ok_step; fits|]. ok_step; [|ok_step]. repeat ok_step.
  - apply ok_settings, factory_reset_keeps.
  - apply ok_settings, factory_mode_keeps.
  - fits.
Qed.
End args.

(** *** A line *)

(** A command of the production test has a word, and there are not more words
    than pointers to them. *)
Definition factory_ok (cmd : list Z) : bool :=
  let n := zlen (words 44 (drop (length FACTORY_CMD_HEADER) cmd)) in (1 <=? n) && (n <=? MAX_ARGS).

Definition data_ok (head data : list Z) : bool :=
  if bool_decide (head = cstr "LTE+CMD=") then if CMD_MATCHED data FACTORY_CMD_HEADER then factory_ok data else true
  else if bool_decide (head = cstr "BLE+") then answer_ok data
  else true.

Definition spaced (cmd : list Z) : list Z := (fun c => if c =? 9 then 32 else c) <$> cmd.

Definition local_ok (cmd : list Z) : bool :=
  if CMD_MATCHED cmd FACTORY_CMD_HEADER then factory_ok cmd else zlen (words 32 (spaced cmd)) <=? MAX_ARGS.

Fixpoint check_line (cmd : list Z) (heads : list (list Z)) : bool :=
  match heads with
  | [] => local_ok cmd
  | head :: heads => match after head cmd with Some data => data_ok head data | None => check_line cmd heads end
  end.

Definition lte_heads : list (list Z) :=
  [cstr "LTE+PWRON="; cstr "LTE+PWROFF="; cstr "LTE+BTSET="; cstr "LTE+TIME="; cstr "LTE+NTCSET="; cstr "LTE+TRANSMIT="; cstr "LTE+FOTA=";
   cstr "LTE+MCUOTA="; cstr "LTE+CMD="; cstr "LTE+LOCATION="; cstr "LTE+FACTORY="; cstr "LTE+STATE="; cstr "LTE+SN="; cstr "LTE+GETMOT=";
   cstr "LTE+GETTIME="; cstr "LTE+GPSSTATE="; cstr "BLE+CMD="; cstr "BLE+"].

(** The lines that do not overrun an array. *)
Definition line_ok (line : list Z) : bool := check_line (until_nul line) lte_heads.

Lemma after_some head cmd data : after head cmd = Some data -> data = drop (length head) cmd.
Proof. unfold after. destruct (CMD_MATCHED cmd head); [|done]. by intros [= <-]. Qed.

Lemma spaced_no_nul cmd : no_nul cmd -> no_nul (spaced cmd).
Proof. intros H. apply Forall_fmap. eapply Forall_impl; [exact H|]. cbn. intros c Hc. by destruct (c =? 9). Qed.

Lemma ok_at_factory cmd : no_nul cmd -> zlen cmd <= 127 -> factory_ok cmd = true -> ok (my_at_factory_cmd cmd).
Proof.
  intros Hn Hl Hf. unfold factory_ok in Hf. apply andb_true_iff in Hf as [H1 H2]. unfold my_at_factory_cmd. set (s := drop _ cmd) in *.
  assert (zlen s <= 127) by (pose proof (drop_len (length FACTORY_CMD_HEADER) cmd); unfold s; lia).
  eapply ok_checked; [rewrite parse_words, H2 by (done || by apply Forall_drop); reflexivity|]. ok_step; [|ok_step]. apply ok_factory_cmd; [|bool2prop; lia].
  eapply Forall_impl; [apply words_len|]. cbv beta. intros w Hw. lia.
Qed.

Lemma ok_local cmd : no_nul cmd -> zlen cmd <= 127 -> local_ok cmd = true -> ok (local_cmd cmd).
Proof.
  intros Hn Hl Hc. unfold local_cmd, local_ok, ParseArgs in *. destruct (CMD_MATCHED cmd FACTORY_CMD_HEADER).
  - ok_step; [by apply ok_at_factory|ok_step].
  - fold (spaced cmd). eapply ok_checked; [rewrite parse_words, Hc by (done || by apply spaced_no_nul); reflexivity|]. destruct (words _ _); repeat ok_step.
Qed.

Lemma ok_dispatch cmd table : no_nul cmd -> zlen cmd <= 127 ->
  Forall (fun e => forall data, no_nul data -> zlen data <= 127 -> data_ok (fst e) data = true -> ok (snd e data)) table ->
  check_line cmd (fst <$> table) = true -> ok (dispatch_line cmd table).
Proof.
  intros Hn Hl Ht. induction Ht as [|[head h] table Hh Ht IH]; cbn [fmap list_fmap fst check_line dispatch_line]; [by apply ok_local|].
  destruct (after head cmd) as [data|] eqn:E; [|done]. apply after_some in E as ->. pose proof (drop_len (length head) cmd).
  intros Hd. apply Hh; [by apply Forall_drop|lia|done].
Qed.

Lemma handlers_ok fuel area :
  Forall (fun e => forall data, no_nul data -> zlen data <= 127 -> data_ok (fst e) data = true -> ok (snd e data)) (lte_cmd_table fuel area).
Proof.
  unfold lte_cmd_table. repeat (apply Forall_cons; split); [..|by apply Forall_nil]; cbn [fst snd]; intros data Hn Hl Hd; assert (zlen data < 65536) by lia.
  - by apply ok_power_on.
  - by apply ok_power_off.
  - unfold my_lte_handle_bt_set. by repeat ok_step.
  - by apply ok_time.
  - unfold my_lte_handle_ntc_set. by repeat ok_step.
  - apply tsafe_ret.
  - by apply ok_fota.
  - apply ok_mcuota.
  - change (data_ok (cstr "LTE+CMD=") data) with (if CMD_MATCHED data FACTORY_CMD_HEADER then factory_ok data else true) in Hd.
    destruct (CMD_MATCHED data FACTORY_CMD_HEADER); (ok_step; [|ok_step]); [by apply ok_at_factory|apply ok_pass].
  - by apply ok_location.
  - by apply ok_factory.
  - by apply ok_state.
  - by apply ok_sn.
  - by apply ok_getmot.
  - by apply ok_gettime.
  - by apply ok_gpsstate.
  - ok_step; [apply ok_pass|ok_step].
  - by apply ok_ble_handle.
Qed.

Lemma ok_parse fuel area line : zlen line <= 127 -> line_ok line = true -> ok (my_lte_parse_cmd fuel area line).
Proof.
  intros Hl Hk. unfold my_lte_parse_cmd. ok_step; [ok_step|]. pose proof (until_nul_len line).
  apply ok_dispatch; [apply until_nul_no_nul|lia|apply handlers_ok|exact Hk].
Qed.

(** The thread up to the first line that overruns an array. *)
Definition until_bad_line (H : lte_handlers (W := D) (X := lte_env F)) : lte_handlers :=
  mk_handlers (fun line => if line_ok line then parse_cmd H line else no_fuel) (add_retrans H) (retrans_poll H) (pulse H).

Lemma protocol_safe fuel area : handlers_safe env_ok (until_bad_line (lte_protocol fuel area)).
Proof.
  split; cbn [until_bad_line lte_protocol parse_cmd add_retrans retrans_poll pulse].
  - intros c Hc. destruct (line_ok c) eqn:E; [|by intros K s t w x]. ok_step; [by apply ok_parse|ok_step].
  - intros c. apply ok_add.
  - apply ok_poll.
  - apply ok_pulse.
Qed.

(** C15: the whole LTE thread with its protocol: whatever lines the module
    sends, commands, production test, answers and updates in any order, mixed
    with interrupts, timers, commands of other threads and retransmissions,
    however the driver, the heap, the storage and the image flash fail, no
    access leaves an object, every block has one owner, the settings stay
    documented and the image writer consistent; up to the first line of one
    of the shapes that [line_ok] excludes, and if the byte after the receive
    buffer can be read. *)
Theorem lte_protocol_safe session_fuel area beyond fuel l K s t w e :
  beyond <> [] -> Forall action_ok l -> einv K s -> tok t -> env_ok e ->
  wp (run_actions (until_bad_line (lte_protocol session_fuel area)) beyond fuel l) (kept env_ok K) s (t, w, e).
Proof. intros Hb Hl Hs Ht He. apply run_actions_tsafe; [apply protocol_safe|done..]. Qed.

(** *** Lines that overrun an array *)

Lemma factory_overrun cmd s px : no_nul cmd -> factory_ok cmd = false -> my_at_factory_cmd (D := D) (F := F) cmd s px = Undef.
Proof.
  intros Hn Hf. unfold factory_ok in Hf. unfold my_at_factory_cmd, bind. rewrite parse_words by (done || by apply Forall_drop).
  set (ws := words _ _) in *. destruct (_ <=? MAX_ARGS); [|done]. rewrite andb_true_r in Hf. destruct ws as [|w ws]; [done|].
  rewrite zlen_cons in Hf. pose proof (zlen_nonneg ws). bool2prop. lia.
Qed.

Lemma local_overrun cmd s px : no_nul cmd -> local_ok cmd = false -> local_cmd (D := D) (F := F) cmd s px = Undef.
Proof.
  intros Hn Hf. unfold local_cmd, local_ok, ParseArgs in *. destruct (CMD_MATCHED cmd FACTORY_CMD_HEADER).
  - unfold bind at 1. by rewrite factory_overrun.
  - fold (spaced cmd). unfold bind. by rewrite parse_words, Hf by (done || by apply spaced_no_nul).
Qed.

Lemma data_overrun fuel area : Forall (fun e => forall data s px, no_nul data -> data_ok (fst e) data = false -> snd e data s px = Undef)
  (lte_cmd_table (D := D) (F := F) fuel area).
Proof.
  unfold lte_cmd_table. repeat (apply Forall_cons; split); [..|by apply Forall_nil]; cbn [fst snd]; intros data s px Hn Hd; try done.
  - change (data_ok (cstr "LTE+CMD=") data) with (if CMD_MATCHED data FACTORY_CMD_HEADER then factory_ok data else true) in Hd.
    destruct (CMD_MATCHED data FACTORY_CMD_HEADER); [|done]. unfold bind at 1. by rewrite factory_overrun.
  - change (answer_ok data = false) in Hd. unfold answer_ok in Hd. unfold my_ble_handle, ble_rsp_parse, bind, strcpy.
    destruct (split_at 61 data) as [[name rest]|]; [|done]. by rewrite Hd.
Qed.

(** C40: the other lines: a command of the production test without a word or
    with more than ten, an answer whose name has 32 characters or more, and
    any other line of more than ten words write or read outside an array. *)
Theorem bad_line_overruns fuel area line s px :
  line_ok line = false -> my_lte_parse_cmd (D := D) (F := F) fuel area line s px = Undef.
Proof.
  unfold line_ok, my_lte_parse_cmd. set (cmd := until_nul line). intros Hk. assert (Hn : no_nul cmd) by apply until_nul_no_nul.
  assert (Hc : cmd <> []) by (by intros E; rewrite E in Hk). pose proof (until_nul_len line) as Hl. fold cmd in Hl.
  assert (0 < zlen cmd) by (destruct cmd as [|c cmd']; [done|]; rewrite zlen_cons; pose proof (zlen_nonneg cmd'); lia).
  rewrite (proj2 (Z.eqb_neq (zlen cmd) 0)), (proj2 (Z.eqb_neq (zlen line) 0)) by lia. cbn [orb]. clearbody cmd.
  change lte_heads with (fst <$> lte_cmd_table (D := D) (F := F) fuel area) in Hk. pose proof (data_overrun fuel area) as Ht. revert Hk Ht.
  generalize (lte_cmd_table (D := D) (F := F) fuel area). intros table Hk Ht.
  induction Ht as [|[head h] table Hh Ht IH]; cbn [fmap list_fmap fst check_line dispatch_line] in *; [by apply local_overrun|].
  destruct (after head cmd) as [data|] eqn:E; [|by apply IH]. apply after_some in E as ->. apply Hh; [by apply Forall_drop|done].
Qed.
End safety.

(** ** Answers and the messages that wait for them *)

Definition waiting (q : list retransmission_item_t) : list retransmission_item_t := filter (fun x => pending x = true) q.

Fixpoint remove_first (name : list Z) (l : list retransmission_item_t) : list retransmission_item_t :=
  match l with
  | [] => []
  | x :: l => if bool_decide (cmd_name x = name) then l else x :: remove_first name l
  end.

Lemma waiting_forward x q : waiting (move_forward (x :: q)) = waiting q.
Proof.
  revert x. induction q as [|y q IH]; intros x; [done|]. cbn [move_forward]. destruct (pending y) eqn:E.
  - specialize (IH y). cbn [move_forward] in IH. unfold waiting in *. rewrite !filter_cons_True by done. f_equal. exact IH.
  - unfold waiting. by rewrite filter_cons_False.
Qed.

Lemma waiting_ack name q : waiting (ack_loop name q) = remove_first name (waiting q).
Proof.
  induction q as [|x q IH]; [done|]. cbn [ack_loop]. destruct (pending x) eqn:E; cbn [andb].
  - unfold waiting in *. rewrite (filter_cons_True (fun x => pending x = true) x q) by done. cbn [remove_first].
    destruct (bool_decide _); [apply waiting_forward|]. rewrite filter_cons_True by done. by rewrite IH.
  - unfold waiting in *. rewrite !filter_cons_False by (by rewrite E). done.
Qed.

Lemma empty_waiting q : retrans_queue_is_empty q = bool_decide (waiting q = []).
Proof.
  unfold retrans_queue_is_empty. induction q as [|x q IH]; [done|]. cbn [existsb]. unfold waiting in *. destruct (pending x) eqn:E.
  - rewrite filter_cons_True by done. done.
  - rewrite filter_cons_False by (by rewrite E). exact IH.
Qed.

Lemma split_at_app c a b : Forall (fun x => x <> c) a -> split_at c (a ++ c :: b) = Some (a, b).
Proof.
  induction 1 as [|x a Hx _ IH]; cbn [split_at Datatypes.app]; [by rewrite Z.eqb_refl|]. by rewrite (proj2 (Z.eqb_neq _ _) Hx), IH.
Qed.

Lemma before_none c s : Forall (fun x => x <> c) s -> before c s = s.
Proof.
  intros H. unfold before. assert (E : split_at c s = None); [|by rewrite E].
  induction H as [|x s Hx _ IH]; [done|]. cbn [split_at]. by rewrite (proj2 (Z.eqb_neq _ _) Hx), IH.
Qed.

Lemma second_field a b : Forall (fun x => x <> 44) a -> TextProofs.field 44 (a ++ 44 :: b) 1 = TextProofs.field 44 b 0.
Proof.
  intros H. unfold TextProofs.field. f_equal. transitivity ((a :: split_on 44 b) !! 1%nat); [|done]. f_equal.
  induction H as [|x a Hx _ IH]; cbn [split_on Datatypes.app]; [by rewrite Z.eqb_refl|]. by rewrite (proj2 (Z.eqb_neq _ _) Hx), IH.
Qed.

Ltac weaken H := eapply Forall_impl; [exact H|]; cbv beta; tauto.

(** What the answer [name=result,p] acknowledges is what the message
    [name,p] waits under. *)
Lemma acked_queued name result p :
  Forall (fun c => c <> 0 /\ c <> 61) name -> zlen name < 32 -> Forall (fun c => c <> 0 /\ c <> 35 /\ c <> 44) result ->
  p <> [] -> Forall (fun c => c <> 0 /\ c <> 35) p -> zlen result + zlen p < 255 ->
  exists r, ble_rsp_parse (name ++ 61 :: result ++ 44 :: p) = Some (Answer r) /\ acked_name r = queue_name name (Some p) /\
    no_nul (rsp_params r) /\ zlen (rsp_params r) < 256.
Proof.
  intros Hn Hl Hr Hp0 Hp Hz. unfold ble_rsp_parse. rewrite split_at_app by (weaken Hn). unfold strcpy at 1.
  rewrite (proj2 (Z.ltb_lt _ _) Hl). cbn [mbind option_bind]. set (params := result ++ 44 :: p).
  assert (Hb : before 35 params = params).
  { apply before_none, Forall_app. split; [weaken Hr|]. constructor; [done|]. weaken Hp. }
  assert (Hpl : zlen params = zlen result + zlen p + 1) by (unfold params; rewrite zlen_app, zlen_cons; lia).
  assert (Hpn : no_nul params).
  { apply Forall_app. split; [weaken Hr|]. constructor; [done|]. weaken Hp. }
  rewrite Hb, take_ge by (unfold zlen in Hpl; unfold zlen in Hz; lia). eexists. split; [done|]. cbn [rsp_params]. split_and!; [|done|lia].
  unfold acked_name, queue_name. cbn [rsp_cmd_name rsp_params]. destruct p as [|c p]; [done|]. destruct (is_special name).
  2: { unfold strcpy. by rewrite (proj2 (Z.ltb_lt _ _) Hl). }
  pose proof (zlen_nonneg result). rewrite (str_at_spec params 1 16), (str_at_spec (c :: p) 0 16) by (done || lia || weaken Hp).
  cbn [mbind option_bind]. unfold params. change (Z.to_nat 1) with 1%nat. rewrite second_field; [done|]. weaken Hr.
Qed.

Section answers.
Context {D F : Type} `{!LteHw D} `{!PmRuntime D} `{!LteHost D} `{!LteUart D} `{!ImageFlash F}.
Notation proto := (prog lte (list (pm_device_ctx_t (lte * D)) * D * lte_env F)).

(** C16: an answer [name=result,p] of the module releases exactly the message
    it answers: the first waiting one that was queued as [name,p], under its
    name or, for the messages of which several may wait, under its name and
    first parameter; the other waiting messages stay, in their order, and the
    timer is stopped when none is left. *)
Theorem answer_releases name result p qn s t w (e : lte_env F) :
  Forall (fun c => c <> 0 /\ c <> 61) name -> zlen name < 32 -> Forall (fun c => c <> 0 /\ c <> 35 /\ c <> 44) result ->
  p <> [] -> Forall (fun c => c <> 0 /\ c <> 35) p -> zlen result + zlen p < 255 -> queue_name name (Some p) = Some qn ->
  exists w' v, my_ble_handle (D := D) (name ++ 61 :: result ++ 44 :: p) s (t, w, e) = Done (0, s, (t, w', mk_env v (cfg e) (update e))) /\
    waiting (s_retrans_queue v) = remove_first qn (waiting (s_retrans_queue (vars e))) /\
    (waiting (s_retrans_queue v) = [] -> s_retrans_check_timer v = false).
Proof.
  intros H2 H3 H4 H5 H6 H7 Hq. destruct (acked_queued name result p H2 H3 H4 H5 H6 H7) as (r & E & Ea & Hn & Hz). rewrite Hq in Ea.
  set (v1 := set_retrans (ack_loop qn (s_retrans_queue (vars e))) (s_retrans_check_timer (vars e)) (vars e)).
  set (v2 := if retrans_queue_is_empty (s_retrans_queue v1) then set_retrans (s_retrans_queue v1) false v1 else v1).
  assert (Hv : waiting (s_retrans_queue v2) = remove_first qn (waiting (s_retrans_queue (vars e))) /\
    (waiting (s_retrans_queue v2) = [] -> s_retrans_check_timer v2 = false)).
  { rewrite <- waiting_ack. unfold v2. rewrite empty_waiting. case_bool_decide as Hw; [by split|]. split; [done|]. by intros Hw'. }
  assert (Ek : forall (k : proto Z), (check_ack (D := D) (F := F) qn ;; k) s (t, w, e) = k s (t, w, mk_env v2 (cfg e) (update e))) by done.
  unfold my_ble_handle. unfold bind at 1. rewrite E. unfold checked at 1. unfold bind at 1. rewrite Ea. unfold checked at 1. rewrite Ek. clear Ek. clearbody v2.
  assert (Hs : exists f more, str_at (rsp_params r) 1 16 = Some (f, more)).
  { destruct (str_at_some (rsp_params r) 1 16) as (f & more & Es & _); [done|lia|done|done|]. by exists f, more. }
  destruct Hs as (f & more & Es). destruct (rsp_type r); unfold bind; rewrite ?Es; eexists _, _; (split; [reflexivity|]); done.
Qed.
End answers.

(** ** The end of the retransmission *)

(** How often a message can still be looked at before it is given up. *)
Definition tries (x : retransmission_item_t) : Z := if pending x then MAX_RETRIES + 1 - retry_count x else 0.
Definition budget (q : list retransmission_item_t) : Z := foldr (fun x n => tries x + n) 0 q.

Definition item_ok (now : Z) (x : retransmission_item_t) : Prop := 0 <= retry_count x <= MAX_RETRIES /\ send_time x <= now.

(** The queue after one pass. *)
Fixpoint resend (now : Z) (q : list retransmission_item_t) : list retransmission_item_t :=
  match q with
  | [] => []
  | x :: q =>
      if pending x && (ACK_TIMEOUT_S <=? now - send_time x) then
        if retry_count x <? MAX_RETRIES then mk_item (cmd_name x) (param x) (retry_count x + 1) now (state x) :: resend now q
        else mk_item (cmd_name x) None (retry_count x) (send_time x) MSG_STATE_TIMEOUT :: q
      else x :: resend now q
  end.

Lemma item_later a b q : a <= b -> Forall (item_ok a) q -> Forall (item_ok b) q.
Proof. intros Hab H. eapply Forall_impl; [exact H|]. intros x [H1 H2]. split; lia. Qed.

Lemma tries_nonneg now x : item_ok now x -> 0 <= tries x.
Proof. intros [H _]. unfold tries. destruct (pending x); lia. Qed.

Lemma budget_nonneg now q : Forall (item_ok now) q -> 0 <= budget q.
Proof. induction 1 as [|x q Hx _ IH]; [done|]. cbn [budget foldr]. pose proof (tries_nonneg now x Hx). unfold budget in IH. lia. Qed.

(** A pass changes nothing or uses up a try; it changes something when a
    message waits long enough. *)
Lemma resend_spec T now q : Forall (item_ok T) q -> T <= now ->
  Forall (item_ok now) (resend now q) /\ (resend now q = q \/ budget (resend now q) < budget q) /\
  (resend now q = q -> T + ACK_TIMEOUT_S <= now -> waiting q = []).
Proof.
  intros H HT. induction H as [|x q [Hr Ht] Hq (IH1 & IH2 & IH3)]; [by split_and!; [|left|]|]. cbn [resend].
  unfold ACK_TIMEOUT_S, MAX_RETRIES, waiting in *. destruct (pending x) eqn:E; cbn [andb].
  - destruct (Z.leb_spec 2 (now - send_time x)); [destruct (Z.ltb_spec (retry_count x) 3)|]; cbn [budget foldr]; fold (budget q).
    + assert (E1 : tries (mk_item (cmd_name x) (param x) (retry_count x + 1) now (state x)) = tries x - 1).
      { unfold tries. change (pending (mk_item _ _ _ _ (state x))) with (pending x). rewrite E. cbn [retry_count]. lia. }
      fold (budget (resend now q)). rewrite E1. split_and!.
      * constructor; [unfold item_ok, MAX_RETRIES; cbn; lia|done].
      * right. destruct IH2 as [->|]; lia.
      * intros Ex. apply (f_equal (fun q => retry_count (default no_item (q !! 0%nat)))) in Ex. cbn in Ex. lia.
    + assert (E1 : tries x = 1) by (unfold tries, MAX_RETRIES; rewrite E; lia). rewrite E1.
      change (tries (mk_item (cmd_name x) None (retry_count x) (send_time x) MSG_STATE_TIMEOUT)) with 0. split_and!.
      * constructor; [unfold item_ok, MAX_RETRIES; cbn; lia|]. by eapply item_later.
      * right. lia.
      * intros Ex. apply (f_equal (fun q => pending (default no_item (q !! 0%nat)))) in Ex. cbn in Ex. congruence.
    + fold (budget (resend now q)). split_and!; [constructor; [split; [done|lia]|done]|destruct IH2 as [->|]; [by left|right; lia]|lia].
  - rewrite filter_cons_False by (by rewrite E). cbn [budget foldr]. fold (budget q) (budget (resend now q)).
    split_and!; [constructor; [split; [done|lia]|done]|destruct IH2 as [->|]; [by left|right; lia]|]. intros [= Ex] Hn. by apply IH3.
Qed.

Lemma budget_waiting now q : Forall (item_ok now) q -> budget q <= 0 -> waiting q = [].
Proof.
  induction 1 as [|x q Hx Hq IH]; [done|]. cbn [budget foldr]. fold (budget q). pose proof (budget_nonneg now q Hq). pose proof (tries_nonneg now x Hx).
  intros Hb. unfold waiting in *. destruct (pending x) eqn:E; [|rewrite filter_cons_False by (by rewrite E); apply IH; lia].
  destruct Hx as [[_ Hr] _]. unfold tries in *. rewrite E in *. unfold MAX_RETRIES in *. lia.
Qed.

Lemma waiting_budget q : waiting q = [] -> budget q = 0.
Proof.
  induction q as [|x q IH]; [done|]. unfold waiting in *. cbn [budget foldr]. fold (budget q). destruct (pending x) eqn:E.
  - by rewrite filter_cons_True.
  - rewrite filter_cons_False by (by rewrite E). intros Hw. unfold tries. rewrite E, (IH Hw). done.
Qed.

Lemma resend_names now q : queue_ok q -> queue_ok (resend now q).
Proof.
  induction 1 as [|x q Hx Hq IH]; [constructor|]. cbn [resend]. destruct (_ && _); [destruct (_ <? _)|]; by constructor.
Qed.

(** The clock does not go back while a message is sent; [pass] lets time go by. *)
Class LteClock (D : Type) `{LteHw D} `{LteHost D} := {
  pass : Z -> D -> D;
  clock_pass n w : my_get_system_time_sec w + n <= my_get_system_time_sec (pass n w);
  clock_malloc n w : my_get_system_time_sec w <= my_get_system_time_sec (fst (k_malloc n w));
  clock_tag w : my_get_system_time_sec w <= my_get_system_time_sec (host clear_tag_macinfo w)
}.

Section ends.
Context {D F : Type} `{!LteHw D} `{!LteHwLaws D} `{!PmRuntime D} `{!LteHost D} `{!LteUart D} `{!ImageFlash F} {HC : LteClock D}.
Notation PW := (list (pm_device_ctx_t (lte * D)) * D)%type.
Notation proto := (prog lte (PW * lte_env F)).
Notation time := my_get_system_time_sec.

(** Polls with these times between them. *)
Fixpoint polls (delays : list Z) : proto unit :=
  match delays with
  | [] => ret tt
  | d :: delays => on_dev (fun w => (pass d w, tt)) ;; retransmission_poll ;; polls delays
  end.

Definition total (delays : list Z) : Z := foldr Z.add 0 delays.

Lemma twp_uart {A} (m : prog lte D A) (Q : A -> lte -> PW * lte_env F -> Prop) s t w e :
  twp m (fun a s' w' => Q a s' (t, w', e)) s w -> twp (uart m) Q s (t, w, e).
Proof. unfold twp, uart, frame, lift. cbn. by destruct (m s w) as [[[a s'] w']| |]. Qed.

Lemma send_keeps_time T cmd v : Prog.keeps (fun w => T <= time w) (lte_send_command cmd v).
Proof.
  assert (Hm : forall n, Prog.keeps (fun w => T <= time w) (world (k_malloc n) : prog lte D bool)).
  { intros n. apply keeps_world. intros w Hw. pose proof (clock_malloc n w). lia. }
  assert (Hs : forall m, Prog.keeps (fun w => T <= time w) (my_send_msg_data m : prog lte D unit)) by (intros m; apply keeps_modify).
  unfold lte_send_command, my_send_msg. apply keeps_bind; [apply keeps_get|]. intros on. apply keeps_bind; [destruct (negb on); [apply Hs|apply keeps_ret]|].
  intros _. apply keeps_bind.
  { unfold MY_MALLOC_BUFFER. apply keeps_bind; [apply Hm|]. intros ok. destruct ok; auto 7 with keeps. }
  intros [p|]; [|apply keeps_ret]. unfold store. repeat (apply keeps_bind; [auto with keeps|intros ?]); auto with keeps.
Qed.

Lemma send_later cmd v K cs s w :
  inv K cs s -> twp (lte_send_command cmd v) (fun _ s' w' => (exists K', K ⊆ K' /\ einv K' s') /\ time w <= time w') s w.
Proof.
  intros Hs. apply twp_post; [|intros a s' w' E; by apply (send_keeps_time (time w) _ _ _ _ _ _ _ E)].
  eapply send_command_twp; [exact Hs|..].
  - intros r s' w' Hs'. exists K. split; [done|by exists cs].
  - intros p r s' w' _ Hs'. exists ({[p]} ∪ K). split; [set_solver|by exists cs].
Qed.
Lemma send_plain_twp K cs id (Q : unit -> lte -> D -> Prop) s w :
  needs_text id = false -> inv K cs s -> (forall s', inv K cs s' -> Q tt s' w) -> twp (my_send_msg id) Q s w.
Proof.
  intros Hid Hs HQ. assert (Ha : at_state K cs s s) by (by split). pose proof (my_send_msg_safe K cs id Hid s s w Ha) as [H _ _ _]. by apply HQ.
Qed.

(** The state between two polls. *)
Definition polled (K : gset ptr) (T : Z) (s : lte) (t : list (pm_device_ctx_t (lte * D))) (w : D) : Prop :=
  (exists K', K ⊆ K' /\ einv K' s) /\ tok t /\ T <= time w.

Lemma retrans_loop_twp K T now (e : lte_env F) q : forall s t w, queue_ok q -> polled K T s t w ->
  twp (retrans_loop now q) (fun q' s' px => q' = resend now q /\ polled K T s' px.1.1 px.1.2 /\ px.2 = e) s (t, w, e).
Proof.
  induction q as [|x q IH]; intros s t w Hq Hp; cbn [retrans_loop resend]; [by tstep|]. apply Forall_cons in Hq as [Hx Hq].
  assert (Hrest : forall y s t w, polled K T s t w -> twp (rest <- retrans_loop now q ;; ret (y :: rest))
    (fun q' s' px => q' = y :: resend now q /\ polled K T s' px.1.1 px.1.2 /\ px.2 = e) s (t, w, e)).
  { intros y s1 t1 w1 Hp1. tstep. eapply twp_mono; [by apply IH|]. intros q' s' px (-> & H). by tstep. }
  destruct (_ && _); [destruct (_ <? _)|by apply Hrest].
  - tstep. eapply twp_checked; [unfold strcpy; by rewrite (proj2 (Z.ltb_lt _ _) Hx)|]. tstep. apply twp_uart.
    destruct Hp as ((K' & HK & [cs Hs]) & Ht & HT). eapply twp_mono; [by eapply send_later|]. intros a s' w' [(K2 & HK2 & Hs') Hw]. apply Hrest.
    split_and!; [exists K2; split; [set_solver|done]|done|lia].
  - destruct Hp as ((K' & HK & [cs Hs]) & Ht & HT). pose proof (clock_tag w). tstep. unfold do_host, on_dev. apply twp_uart, twp_world. intros [] w' [= <-].
    do 2 (tstep; apply twp_uart; eapply send_plain_twp; [done|done|]; clear dependent s; intros s Hs). tstep.
    split_and!; [done|split_and!; [|done|cbn; lia]|done]. exists K'. split; [done|by exists cs].
Qed.

Lemma poll_twp K s t w (e : lte_env F) : queue_ok (s_retrans_queue (vars e)) -> polled K (time w) s t w ->
  twp retransmission_poll (fun _ s' px => let v := vars px.2 in
    polled K (time w) s' px.1.1 px.1.2 /\ s_retrans_queue v = resend (time w) (s_retrans_queue (vars e)) /\
    (waiting (s_retrans_queue v) = [] -> s_retrans_check_timer v = false)) s (t, w, e).
Proof.
  intros Hq Hp. unfold retransmission_poll, retransmission_check. tstep. tstep. unfold ask_host, on_dev. apply twp_uart, twp_world. intros now w' [= <- <-].
  tstep. apply twp_world. intros q px [= <- <-]. tstep. eapply twp_mono; [by apply retrans_loop_twp|]. intros q s' [[t' w'] e'] (-> & Hp' & E). cbn [snd] in E. subst e'.
  apply twp_world. intros [] px [= <-]. cbn [fst snd vars]. apply twp_world. intros [] px [= <-]. cbn [fst snd vars]. split; [exact Hp'|].
  rewrite empty_waiting. case_bool_decide as Hw; [done|]. split; [done|]. by intros Hw'.
Qed.

(** What holds after a poll. *)
Record after_poll (K : gset ptr) (s : lte) (px : PW * lte_env F) : Prop := {
  ap_polled : polled K (time px.1.2) s px.1.1 px.1.2;
  ap_names : queue_ok (s_retrans_queue (vars px.2));
  ap_items : Forall (item_ok (time px.1.2)) (s_retrans_queue (vars px.2))
}.

Lemma resend_none now q : waiting q = [] -> resend now q = q.
Proof.
  induction q as [|x q IH]; [done|]. unfold waiting in *. cbn [resend]. destruct (pending x) eqn:E; [by rewrite filter_cons_True|].
  rewrite filter_cons_False by (by rewrite E). intros Hw. cbn [andb]. by rewrite IH.
Qed.

(** While two seconds go by, a try is used up. *)
Lemma round_twp K T B delays : forall s px, after_poll K s px -> Forall (Z.le 0) delays ->
  let q := s_retrans_queue (vars px.2) in
  budget q < B \/ waiting q = [] \/ (Forall (item_ok T) q /\ T <= time px.1.2 /\ budget q <= B /\ T + ACK_TIMEOUT_S <= time px.1.2 + total delays /\ delays <> []) ->
  twp (polls delays) (fun _ s' px' => let q' := s_retrans_queue (vars px'.2) in
    after_poll K s' px' /\ (budget q' < B \/ waiting q' = []) /\
    (delays <> [] -> waiting q' = [] -> s_retrans_check_timer (vars px'.2) = false)) s px.
Proof.
  induction delays as [|d delays IH]; intros s [[t w] e] [Hp Hn Hi] Hd q HJ; cbn [polls fst snd] in *.
  { tstep. cbn zeta. split_and!; [by split|by destruct HJ as [|[|(_ & _ & _ & _ & ?)]]; [left|right|]|done]. }
  apply Forall_cons in Hd as [Hd0 Hd]. tstep. unfold on_dev. apply twp_uart, twp_world. intros [] w1 [= <-]. pose proof (clock_pass d w) as Hc.
  set (w1 := pass d w) in *. tstep. destruct Hp as (HK & Ht & _). eapply twp_mono; [apply poll_twp; [done|by split_and!]|].
  intros [] s2 [[t2 w2] e2]. cbn zeta. cbn [fst snd]. intros ((HK2 & Ht2 & HT2) & Eq & Htimer). fold q in Eq.
  destruct (resend_spec (time w) (time w1) q Hi) as (Hi2 & Hb2 & _); [lia|]. rewrite <- Eq in Hi2.
  assert (Ha : after_poll K s2 (t2, w2, e2)).
  { split; cbn [fst snd]; [by split_and!|rewrite Eq; by apply resend_names|by eapply item_later]. }
  assert (Hnext : budget (s_retrans_queue (vars e2)) < B \/ waiting (s_retrans_queue (vars e2)) = [] \/
    (Forall (item_ok T) (s_retrans_queue (vars e2)) /\ T <= time w2 /\ budget (s_retrans_queue (vars e2)) <= B /\
      T + ACK_TIMEOUT_S <= time w2 + total delays /\ delays <> [])).
  { rewrite Eq. destruct HJ as [HJ|[HJ|(H1 & H2 & H3 & H4 & _)]].
    - left. destruct Hb2 as [->|]; lia.
    - right. left. by rewrite resend_none.
    - destruct Hb2 as [Es|]; [|left; lia]. rewrite Es. right. cbn [total foldr] in H4. fold (total delays) in H4. destruct delays as [|d' delays].
      + left. destruct (resend_spec T (time w1) q H1) as (_ & _ & Hw); [lia|]. apply Hw; [done|]. change (total []) with 0 in H4. lia.
      + right. split_and!; [done|lia|done|lia|done]. }
  destruct delays as [|d' delays].
  { cbn [polls]. tstep. cbn zeta. cbn [fst snd]. split_and!; [done|by destruct Hnext as [|[|(_ & _ & _ & _ & ?)]]; [left|right|]|by intros _]. }
  eapply twp_mono; [eapply (IH s2 (t2, w2, e2)); done|]. intros [] s3 px3. cbn zeta. intros (H1 & H2 & H3). split_and!; [done|done|]. intros _. by apply H3.
Qed.

Lemma polls_then a b (Q : unit -> lte -> PW * lte_env F -> Prop) s px : twp (polls a) (fun _ => twp (polls b) Q) s px -> twp (polls (a ++ b)) Q s px.
Proof.
  revert s px. induction a as [|d a IH]; intros s px; [done|]. cbn [polls Datatypes.app]. unfold twp at 1 3, bind. destruct (on_dev _ s px) as [[[[] s1] px1]| |]; [|done..].
  destruct (retransmission_poll s1 px1) as [[[[] s2] px2]| |]; [|done..]. apply IH.
Qed.

(** C17: a message that is never answered is not sent for ever.  The queue is
    polled with any times in between; when as many times two seconds have
    passed as there are tries left (each message has at most four), no message
    waits any more and the timer is stopped, whatever the heap does. *)
Theorem retransmission_ends rounds K s t w (e : lte_env F) :
  queue_ok (s_retrans_queue (vars e)) -> Forall (item_ok (time w)) (s_retrans_queue (vars e)) -> einv K s -> tok t ->
  Forall (fun delays => Forall (Z.le 0) delays /\ ACK_TIMEOUT_S <= total delays) rounds ->
  rounds <> [] -> budget (s_retrans_queue (vars e)) <= zlen rounds ->
  twp (polls (concat rounds)) (fun _ _ px => waiting (s_retrans_queue (vars px.2)) = [] /\ s_retrans_check_timer (vars px.2) = false) s (t, w, e).
Proof.
  intros Hq Hi Hs Ht Hr. assert (Ha : after_poll K s (t, w, e)) by (split; [split_and!; [by exists K|done|done]|done|done]).
  change e with ((t, w, e).2) at 1. revert Ha. generalize (t, w, e). clear Hq Hi Hs Ht t w e. intros px. revert s px.
  induction Hr as [|delays rounds [Hd Ht] _ IH]; intros s px Ha Hne Hb; [done|]. cbn [concat]. apply polls_then. rewrite zlen_cons in Hb.
  assert (Hdn : delays <> []) by (by intros ->).
  eapply twp_mono; [apply (round_twp K (time px.1.2) (budget (s_retrans_queue (vars px.2))) delays); [done|done|]|].
  { right. right. split_and!; [apply Ha|done|done|lia|done]. }
  intros [] s' px'. cbn zeta. intros (Ha' & Hb' & Htimer). assert (Hle : budget (s_retrans_queue (vars px'.2)) <= zlen rounds).
  { destruct Hb' as [|Hw]; [lia|]. rewrite (waiting_budget _ Hw). apply zlen_nonneg. }
  destruct rounds as [|r rounds]; [|by apply IH]. cbn [concat polls]. tstep. pose proof (budget_waiting _ _ (ap_items _ _ _ Ha') Hle) as Hw.
  split; [done|by apply Htimer].
Qed.
End ends.

(** ** Commands without an end mark *)

Lemma no_mark_failed s : Forall (fun c => c <> 35) s -> exists code, params s = Failed code.
Proof.
  unfold params. generalize (@nil (list Z)), (@None (list Z * bool)), false. intros ps cur q Hs. revert ps cur q.
  induction Hs as [|c s Hc _ IH]; intros ps cur q; cbn [scan]; [eauto|]. destruct (c =? 34); [destruct q; apply IH|].
  destruct (default _ cur) as [text op]. rewrite (proj2 (Z.eqb_neq c 35) Hc), andb_false_r. destruct (_ && _); [|apply IH].
  destruct (_ <=? _)%nat; [eauto|apply IH].
Qed.

Lemma id_and_command id cmd : Forall (fun c => c <> 0 /\ c <> 44) id -> zlen id < 15 -> no_nul cmd -> cmd <> [] -> zlen cmd < 128 ->
  str_at (id ++ 44 :: cmd) 0 16 = Some (id, true).
Proof.
  intros Hi Hl Hn H0 Hc. assert (Es : split_on 44 (id ++ 44 :: cmd) = id :: split_on 44 cmd).
  { clear Hl. induction Hi as [|c id [_ Hne] _ IH]; cbn [split_on Datatypes.app]; [done|]. by rewrite (proj2 (Z.eqb_neq _ _) Hne), IH. }
  rewrite str_at_spec; [|apply Forall_app; split; [weaken Hi|by constructor]|rewrite zlen_app, zlen_cons; lia|done|done].
  unfold TextProofs.field, more_after. rewrite Es. cbn [lookup list_lookup default drop]. change (Z.to_nat 0) with 0%nat. simpl (default [] _).
  rewrite take_ge by (unfold zlen in Hl; lia). rewrite (proj2 (Z.ltb_lt _ _)) by lia. cbn [andb drop]. do 2 f_equal.
  destruct cmd as [|c cmd]; [done|]. cbn [split_on]. destruct (split_on_cons 44 cmd) as (f & fs & ->). by destruct (c =? 44).
Qed.

Section unterminated.
Context {D F : Type} `{!LteHw D} `{!PmRuntime D} `{!LteHost D} `{!LteUart D} `{!ImageFlash F}.

(** A divergence: a command of the module without the mark [#] at its end is
    not executed, and the module is told that it failed, although the
    comment of [my_lte_handle_cmd] allows to leave the mark out. *)
Theorem unterminated_command_fails id cmd s t w (e : lte_env F) :
  Forall (fun c => c <> 0 /\ c <> 44) id -> zlen id < 15 -> no_nul cmd -> cmd <> [] -> zlen cmd < 128 -> Forall (fun c => c <> 35) cmd ->
  my_lte_handle_cmd (D := D) (id ++ 44 :: cmd) s (t, w, e) =
  (p <- checked (first_parm (cmd ++ replicate (128 - length cmd) 0)) ;;
   answer (fst (snprintf LTE_CMD_RESPBUF_SIZE (cstr "LTE+CMD=FAIL," ++ id ++ cstr "," ++ p ++ eol))) ;; ret 0)
  s (t, call (my_start_timer_cmdsource_clear 2000) w,
     mk_env (set_id id (vars e)) (mk_globals (gConfigParam (cfg e)) (inited (cfg e)) (g_factory_mode (cfg e)) 1) (update e)).
Proof.
  intros Hi Hl Hn H0 Hc Hm. unfold my_lte_handle_cmd. unfold bind at 1. rewrite (id_and_command id cmd) by done. unfold checked at 1.
  assert (Ed : drop (length id + 1) (id ++ 44 :: cmd) = cmd) by (by rewrite drop_app_ge, Nat.add_comm, Nat.add_sub by lia).
  rewrite Ed. assert (Ec : strcpy CMD_STRING_LENGTH_MAX cmd = Some cmd) by (unfold strcpy, CMD_STRING_LENGTH_MAX; by rewrite (proj2 (Z.ltb_lt _ _) Hc)).
  rewrite Ec. change (Z.to_nat CMD_STRING_LENGTH_MAX) with 128%nat. set (msg := cmd ++ replicate (128 - length cmd) 0).
  assert (Er : forall g w, at_recv_cmd_handler (W := D) msg (mk_at_cmd [] 0 [] 0) g w = Done (0, mk_at_cmd [] 0 [] 0, g, w)).
  { intros g w0. unfold zlen in Hc. destruct (no_mark_failed cmd Hm) as [code Ef].
    assert (Em : msg = cmd ++ 0 :: replicate (127 - length cmd) 0) by (unfold msg; by replace (128 - length cmd)%nat with (S (127 - length cmd)) by lia).
    rewrite Em. pose proof (recv_spec cmd (replicate (127 - length cmd) 0) (mk_at_cmd [] 0 [] 0)
      (fun r g' w' => (r, g', w') = (0, mk_at_cmd [] 0 [] 0, g, w0)) g w0 Hn) as H. rewrite Ef in H. specialize (H eq_refl).
    apply twp_done in H as (r & g' & w' & -> & E). by injection E as -> -> ->. }
  assert (Eg : forall k : Z * at_cmd_t -> prog lte _ (list Z), (r <- settings (F := F) (run_lte_cmd msg (mk_at_cmd [] 0 [] 0)) ;; k r) s (t, w, mk_env (set_id id (vars e)) (cfg e) (update e)) =
    k (0, mk_at_cmd [] 0 [] 0) s (t, call (my_start_timer_cmdsource_clear 2000) w,
      mk_env (set_id id (vars e)) (mk_globals (gConfigParam (cfg e)) (inited (cfg e)) (g_factory_mode (cfg e)) 1) (update e))).
  { intros k. unfold bind at 1. unfold settings, run_lte_cmd. unfold bind, modify. by rewrite Er. }
  unfold bind at 1. unfold setv at 1. unfold world at 1. cbn [fst snd vars cfg update].
  unfold bind at 1. unfold bind at 1. unfold checked at 1. fold msg. rewrite Eg. clearbody msg. cbn [Z.eqb]. unfold bind, checked. by destruct (first_parm msg).
Qed.
End unterminated.
