(* ===== verification/LteSim.v ===== *)
(** * The LTE thread, run

    A driver that finishes each transmission, a heap that always has memory
    and a module that has just been switched on: the hypotheses of the
    theorems about the LTE thread and its protocol hold together. *)

From stdpp Require Import gmap.
From S2P Require Import Prelude Text Str FlashStore Prog AtParse Layout SettingsData Settings AtCmd AtHandlers AtProofs AtSim Float32 RingBuf Crc OtaFlash OtaFlashProofs OtaFlashSim Ymodem DfuLte DfuLteProofs Pm Lte LteProofs LteSafety LteSend LteRx LteCmd LteCmdProofs.

Open Scope prog_scope.

Module LteRun.

(** The lines handled so far. *)
Definition world := list (list Z).

#[export] Instance hw : LteHw world := {|
  k_uptime_get _ := 5000;
  k_malloc _ w := (w, true);
  uart_tx_start w := (w, 0);
  rx_enable w := (w, 0);
  rx_disable w := (w, 0);
  gpio_pin_set_dt _ w := (w, 0);
  my_ota_flash_is_busy _ := false;
  sleep _ busy w := (w, if busy then [UART_TX_DONE] else [])
|}.

#[export] Instance hw_laws : LteHwLaws world.
Proof. split. intros ms busy w w' evs [= _ <-]. destruct busy; by repeat constructor. Qed.

#[export] Instance hw_prompt : LtePrompt world.
Proof.
  split; [done|..].
  - intros ms w w' evs _ [= _ <-]. by exists [], [].
  - by intros ms w w' evs [= _ <-].
Qed.

#[export] Instance runtime : PmRuntime world := {|
  has_bus _ := true;
  pm_device_runtime_get _ w := (w, 0);
  pm_device_runtime_put _ w := (w, 0)
|}.

Definition empty_queue : lte_msg_queue_t := mk_queue (replicate 10 (mk_pending None 0)) 0 0 0.

(** The module is on and starting, the UART active, [q] in the message queue. *)
Definition boot (q : list msg_t) (rb : ring_buffer_t) : lte :=
  mk_lte (mk_uart_ctx true 0 true false false) 1 (replicate 1024 0) s_lte_rx_buf_1 rb q empty_queue
    true false false false ∅ None RxOff [] (replicate 128 0) 0.

Definition ring0 : ring_buffer_t := mk_rb 0 0 (replicate 512 0) 512.

Lemma ring0_ok : rb_ok ring0.
Proof. split; done. Qed.

Definition plain (m : msg_t) : Prop := pData m = None /\ needs_text (msgID m) = false.

Lemma boot_ok q rb : rb_ok rb -> Forall plain q -> inv ∅ [] (boot q rb).
Proof.
  intros Hr Hq. assert (Ho : omap pData q = []).
  { induction Hq as [|m q [Hm _] _ IH]; [done|]. cbn. by rewrite Hm. }
  split; cbn; [lia|done|done|done|lia|..].
  - exists []. split; [|done]. split; cbn; try (done || lia). intros i Hi. exists (mk_pending None 0). split; [|by destruct i].
    do 10 (destruct i as [|i]; [done|]). lia.
  - split.
    + by repeat (apply Forall_cons; split; [by intros p|]).
    + eapply Forall_impl; [exact Hq|]. intros m [Hm Hn]. split; [congruence|]. intros p. by rewrite Hm.
    + unfold owned. rewrite Ho. apply NoDup_nil_2.
    + intros p. unfold owned. rewrite Ho. split; [|intros [Hx|Hx]; [by apply elem_of_nil in Hx|set_solver]].
      intros [b Eb]. by rewrite lookup_empty in Eb.
    + intros p. unfold owned. rewrite Ho. intros Hx. by apply elem_of_nil in Hx.
Qed.

Definition table : list (pm_device_ctx_t (lte * world)) :=
  <[Z.to_nat MY_PM_DEV_LTE := mk_ctx MY_PM_STATE_RESUME (Some lte_pm_ops)]> (replicate 6 (mk_ctx MY_PM_STATE_NOT_INIT None)).

Lemma table_ok : tok table.
Proof. split; [done|]. intros c o [= <-] [= <-]. done. Qed.

(** The line is recorded. *)
Definition parse (l : list Z) : prog lte (list (pm_device_ctx_t (lte * world)) * world) unit := fun s tw =>
  Done (tt, s, (tw.1, tw.2 ++ nonempty l)).

(** Handlers that record the lines and do nothing else. *)
Definition recorder : lte_handlers (W := world) (X := list (list Z)) :=
  mk_handlers (fun l s px => Done (tt, s, (px.1, px.2 ++ [l]))) (fun _ => ret tt) (ret tt) (ret tt).

Lemma recorder_safe : handlers_safe (fun _ => True) recorder.
Proof. split; [|by intros; apply tsafe_ret..]. intros c _ K s t w x Hs Ht Hx. by exists K. Qed.

Definition events : list lte_action :=
  [Post MY_MSG_LTE_PWRON; Thread; Command (cstr "TIME") (Some (cstr "1")); Uart (UART_RX_RDY (cstr "LTE+TIME=1" ++ [13; 10]));
   Thread; Thread; WakePin; Thread; CommandRetry (cstr "LED") (Some (cstr "1")); Thread; Thread; Post MY_MSG_RETRANS_CHECK; Thread].

Lemma lte_thread_safe_witness :
  wp (run_actions recorder [0] 600 events) (kept (fun _ => True) ∅) (boot [] ring0) (table, [], []).
Proof.
  apply (lte_thread_safe (fun _ => True) recorder recorder_safe [0] 600 events ∅ (boot [] ring0) table [] []); try done.
  - repeat (apply Forall_cons; split; [done || (cbn; vm_compute; discriminate)|]). apply Forall_nil_2.
  - exists []. apply boot_ok; [apply ring0_ok|done].
  - apply table_ok.
Defined.

Definition full : list msg_t := replicate 10 (mk_msg MY_MSG_LTE_WAKEUP None 0).

Lemma full_queue_leaks_witness : exists p s', lte_send_command (cstr "TIME") (Some (cstr "1")) (boot full ring0) [] = Done (0, s', [])
    /\ my_lte_msgq s' = full /\ s_lte_msg_queue s' = empty_queue
    /\ is_Some (heap s' !! p) /\ heap (boot full ring0) !! p = None /\ p ∉ owned full (queue empty_queue).
Proof.
  destruct (full_queue_leaks ∅ [] (cstr "TIME") (Some (cstr "1")) (boot full ring0) [] []) as (p & s' & H1 & H2 & H3 & H4 & H5 & H6).
  - apply boot_ok; [apply ring0_ok|by repeat constructor].
  - done.
  - done.
  - done.
  - exists p, s'. rewrite H2, H3 in H6. by split_and!.
Defined.

Lemma startup_messages_delivered_witness :
  twp (send_all (replicate 11 (cstr "A") ++ [cstr "B"]) ;; modify (set_power true true) ;; my_lte_process_queued_msgs)
    (fun _ s' _ => inv ∅ [] s' /\ exists fs, frames (replicate 9 (cstr "A") ++ [cstr "B"]) fs /\ sent s' = fs)
    (boot [] ring0) (table, []).
Proof.
  eapply twp_mono; [apply (startup_messages_delivered ∅ (boot [] ring0) table [] (replicate 11 (cstr "A") ++ [cstr "B"]))|].
  - done.
  - apply table_ok.
  - apply boot_ok; [apply ring0_ok|done].
  - done.
  - done.
  - by left.
  - by repeat constructor.
  - intros u s' tw (H1 & fs & H2 & H3). split; [done|]. by exists fs.
Defined.

Definition suspended : lte := set_active false (boot [] ring0).

(** The UART is resumed and the driver asks for a second buffer. *)
Lemma rx_runs : exists s, rtc (rx_step (W := world)) (suspended, []) (s, []) /\ rx s = RxOn s_lte_rx_buf_1 (Some s_lte_rx_buf_2).
Proof.
  eexists. split.
  - eapply rtc_l; [eapply rx_resume; [done|reflexivity]|]. eapply rtc_l; [eapply rx_request; [done|reflexivity]|]. apply rtc_refl.
  - reflexivity.
Qed.

Lemma rx_buffers_distinct_witness :
  exists s cur n, rtc (rx_step (W := world)) (suspended, []) (s, []) /\ rx s = RxOn cur (Some n) /\ n <> cur.
Proof.
  destruct rx_runs as (s & Hr & E). exists s, s_lte_rx_buf_1, s_lte_rx_buf_2. split; [done|]. split; [done|].
  apply (rx_buffers_distinct suspended [] s []); [|done..]. by intros w.
Defined.

Lemma fresh_line q rb : at_line [] (boot q rb).
Proof. by split. Qed.

(** A line of 127 bytes and its CR. *)
Definition ring2 : ring_buffer_t := mk_rb 128 0 (replicate 127 65 ++ [13; 0]) 129.

Lemma recv_reads_past_buffer_witness : read_lines parse [] 1 (boot [] ring2) (table, []) = Undef.
Proof.
  apply (recv_reads_past_buffer parse (fun l s w => conj eq_refl eq_refl) 0 [] (boot [] ring2) (table, [])).
  - by split.
  - apply fresh_line.
  - reflexivity.
Defined.
End LteRun.

(** ** The thread with its protocol

    A device with a clock that notes the calls of other modules; nothing is
    stored, and the module never sends an image. *)

Module ProtoRun.
Import LteRun.

Record device := mk_device { now : Z; calls : list host_call }.

Definition tick (n : Z) (w : device) : device := mk_device (now w + n) (calls w).

#[export] Instance storage : StorageIO device := {
  flash_view _ := [];
  zms_view _ _ := None;
  flash_area_write w _ _ := (w, - EINVAL);
  flash_area_read w _ _ := (w, - EINVAL, []);
  zms_write w _ bs := (w, zlen bs);
  zms_read w _ _ := (w, -2, []);
  crc32_ieee _ := 0
}.

#[export] Instance settings_io : SettingsIO device := {
  flash_area_open w := (w, 0);
  device_is_ready _ := true;
  zms_mount w := (w, 0);
  zms_clear w := (w, 0);
  set_adv_valid_status _ _ w := w
}.

#[export] Instance cmd_io : CmdIO device := {
  call _ w := w;
  go_to_shutdown w := (w, 0);
  AtCmd.get_batt_mv _ := 3900;
  AtCmd.g_charg_state _ := 0;
  AtCmd.get_lprunning_active _ := false;
  AtCmd.get_last_work_mode _ := 0;
  AtCmd.g_bLteReady _ := true;
  AtCmd.g_lte4GVersion _ := cstr "EC800";
  AtCmd.lte_send_command _ _ w := (w, 0);
  AtCmd.k_malloc n w := (w, Some (replicate (Z.to_nat n) 0));
  AtCmd.stack_bytes n _ := replicate (Z.to_nat n) 0
}.

#[export] Instance lte_hw : LteHw device := {|
  k_uptime_get w := 1000 * now w;
  k_malloc _ w := (w, true);
  uart_tx_start w := (w, 0);
  rx_enable w := (w, 0);
  rx_disable w := (w, 0);
  gpio_pin_set_dt _ w := (w, 0);
  Lte.my_ota_flash_is_busy _ := false;
  sleep _ busy w := (tick 1 w, if busy then [UART_TX_DONE] else [])
|}.

#[export] Instance lte_hw_laws : LteHwLaws device.
Proof. split. intros ms busy w w' evs [= _ <-]. destruct busy; by repeat constructor. Qed.

#[export] Instance lte_runtime : PmRuntime device := {|
  has_bus _ := true;
  pm_device_runtime_get _ w := (w, 0);
  pm_device_runtime_put _ w := (w, 0)
|}.

#[export] Instance lte_host : LteHost device := {
  host c w := mk_device (now w) (c :: calls w);
  my_get_system_time_sec := now;
  get_batt_percent _ := 80;
  get_chip_id _ := 0x6A;
  my_battery_read_mv w := (w, 3900);
  get_light_tamper_state _ := false;
  get_light_pull_state _ := true;
  my_gsensor_get_state _ := 1;
  g_shutdown_request _ := false;
  bt_get_mac_addr _ := [1; 2; 3; 4; 5; 6];
  atof _ := of_int 0;
  ymodem_alloc w := (w, true)
}.

#[export] Instance lte_host_laws : LteHostLaws device.
Proof. by split. Qed.

#[export] Instance lte_uart : LteUart device := {
  uptime w := 1000 * now w;
  poll_sleep w := (tick 1 w, []);
  uart_active w := (w, 0);
  tx_wait w := (w, [], 0);
  uart_tx w _ := (w, 0)
}.

#[export] Instance lte_uart_laws : LteUartLaws device.
Proof.
  split.
  - intros u u' evs [= <- <-]. cbn. lia.
  - intros u u' evs [= <- <-]. constructor.
  - intros u u' evs r [= <- <- <-]. constructor.
Qed.

#[export] Program Instance lte_clock : LteClock device := {| pass := tick |}.
Next Obligation. cbn. lia. Qed.
Next Obligation. done. Qed.
Next Obligation. done. Qed.

(** The module after its start, with [q] waiting for answers. *)
Definition start_vars (q : list retransmission_item_t) : lte_vars :=
  mk_vars q true (replicate 6 no_async) (mk_rsp BLE_RSP_UNKNOWN [] [] 0) 0 [] 0 (mk_location 0 0 (of_int 0) 0) 0 0 0 0 [] [].

Definition start_env (q : list retransmission_item_t) : lte_env (list Z) :=
  mk_env (start_vars q) new_device (mk_dfu tt ring0 idle part 0 0 0 false false None).

Lemma start_env_ok q : queue_ok q -> env_ok (start_env q).
Proof. intros Hq. split; [apply new_config_ok|split; done || (cbn; lia)|done]. Qed.

Definition pm_table : list (pm_device_ctx_t (lte * device)) :=
  <[Z.to_nat MY_PM_DEV_LTE := mk_ctx MY_PM_STATE_RESUME (Some lte_pm_ops)]> (replicate 6 (mk_ctx MY_PM_STATE_NOT_INIT None)).

Lemma pm_table_ok : tok pm_table.
Proof. split; [done|]. intros c o [= <-] [= <-]. done. Qed.

Definition received (line : string) : list lte_action := [Uart (UART_RX_RDY (cstr line ++ [13; 10])); Thread; Thread].

(** The module starts, answers, sets the serial number and the time, runs a
    production test and begins an update. *)
Definition session : list lte_action :=
  [Post MY_MSG_LTE_PWRON; Thread] ++ received "LTE+PWRON=0,1,EC800" ++ received "BLE+LED=OK,1" ++ received "LTE+SN=0123456789AB" ++
  received "LTE+CMD=AT^GT_CM=PCBA,MCU,VOLT" ++ [CommandRetry (cstr "TAG") (Some (cstr "A,1")); Thread; Thread] ++
  received "LTE+TIME=1700000000" ++ [Post MY_MSG_RETRANS_CHECK; Thread] ++ received "LTE+MCUOTA=START,100,12345678".

Lemma lte_protocol_safe_witness :
  wp (run_actions (until_bad_line (lte_protocol 100 8192)) [0] 600 session) (kept env_ok ∅) (boot [] ring0) (pm_table, mk_device 10 [], start_env []).
Proof.
  apply (lte_protocol_safe 100 8192 [0] 600 session ∅ (boot [] ring0) pm_table (mk_device 10 []) (start_env [])); [done| | |apply pm_table_ok|].
  - unfold session, received. repeat (apply Forall_cons; split; [done || (cbn; vm_compute; discriminate) || reflexivity|]). apply Forall_nil_2.
  - exists []. apply boot_ok; [apply ring0_ok|done].
  - apply start_env_ok. constructor.
Defined.

(** The last character of the name does not fit. *)
Definition long_answer : list Z := cstr "BLE+" ++ replicate 32 65 ++ cstr "=OK".

Lemma bad_line_overruns_witness :
  my_lte_parse_cmd 1 8192 long_answer (boot [] ring0) (pm_table, mk_device 10 [], start_env []) = Undef.
Proof. apply (bad_line_overruns 1 8192 long_answer (boot [] ring0)). reflexivity. Defined.

Definition tag (name : string) : retransmission_item_t := mk_item (cstr name) (Some (cstr "B,7")) 0 9 MSG_STATE_PENDING.
Definition two_tags : list retransmission_item_t := [tag "TAG_A"; tag "TAG_B"; no_item].

Lemma answer_releases_witness :
  exists w' v, my_ble_handle (cstr "TAG" ++ 61 :: cstr "OK" ++ 44 :: cstr "B,7") (boot [] ring0) (pm_table, mk_device 10 [], start_env two_tags)
      = Done (0, boot [] ring0, (pm_table, w', mk_env v new_device (update (start_env two_tags)))) /\
    waiting (s_retrans_queue v) = [tag "TAG_A"].
Proof.
  destruct (answer_releases (D := device) (cstr "TAG") (cstr "OK") (cstr "B,7") (cstr "TAG_B") (boot [] ring0) pm_table (mk_device 10 []) (start_env two_tags))
    as (w' & v & E & Hw & _).
  - by repeat constructor.
  - done.
  - by repeat constructor.
  - done.
  - by repeat constructor.
  - done.
  - reflexivity.
  - exists w', v. split; [exact E|exact Hw].
Defined.

(** Eight times two seconds, with a poll in between. *)
Definition rounds : list (list Z) := replicate 8 [1; 0; 1].

Lemma retransmission_ends_witness :
  twp (polls (concat rounds)) (fun _ _ px => waiting (s_retrans_queue (vars px.2)) = [] /\ s_retrans_check_timer (vars px.2) = false)
    (boot [] ring0) (pm_table, mk_device 10 [], start_env two_tags).
Proof.
  apply (retransmission_ends rounds ∅ (boot [] ring0) pm_table (mk_device 10 []) (start_env two_tags)).
  - by repeat constructor.
  - repeat (apply Forall_cons; split; [unfold item_ok, MAX_RETRIES; cbn; lia|]). apply Forall_nil_2.
  - exists []. apply boot_ok; [apply ring0_ok|done].
  - apply pm_table_ok.
  - apply Forall_replicate. split; [by repeat constructor|done].
  - done.
  - done.
Defined.

(** ** Lines for the protocol

    The serial number, CR LF LF, the time, CR, and the beginning of a line, in a ring that wraps. *)

Definition sn_line : list Z := cstr "LTE+SN=0123456789AB".
Definition time_line : list Z := cstr "LTE+TIME=1700000000".
Definition stream : list Z := sn_line ++ [13; 10; 10] ++ time_line ++ [13] ++ cstr "LTE+".
Definition ring3 : ring_buffer_t := mk_rb 34 500 (drop 12 stream ++ replicate 466 0 ++ take 12 stream) 512.

Lemma ring3_ok : rb_ok ring3.
Proof. split; vm_compute; intuition congruence. Qed.

Definition protocol : list Z -> prog lte (list (pm_device_ctx_t (lte * device)) * device * lte_env (list Z)) unit := parse_cmd (lte_protocol 100 8192).

(** The device after some lines. *)
Definition after (lines : list (list Z)) : lte * (list (pm_device_ctx_t (lte * device)) * device * lte_env (list Z)) :=
  fold_left (fun st l => match protocol l st.1 st.2 with Done (_, s, px) => (s, px) | _ => st end) lines
    (boot [] ring0, (pm_table, mk_device 10 [], start_env [])).

(** The lines have been handled; the buffers have any contents. *)
Definition handled (lines : list (list Z)) (s : lte) (px : list (pm_device_ctx_t (lte * device)) * device * lte_env (list Z)) : Prop :=
  exists rb b i, s = set_rb rb (set_command b i (after lines).1) /\ px = (after lines).2.

Lemma handled_next ls l : (forall rb b i, protocol l (set_rb rb (set_command b i (after ls).1)) (after ls).2 =
    Done (tt, set_rb rb (set_command b i (after (ls ++ [l])).1), (after (ls ++ [l])).2)) ->
  forall s px, handled ls s px -> twp (protocol l) (fun _ s' px' => same_rx s s' /\ handled (ls ++ [l]) s' px') s px.
Proof. intros H s px (rb & b & i & -> & ->). unfold twp. rewrite H. split; [done|]. by exists rb, b, i. Qed.

Lemma protocol_handles : handles protocol [sn_line; time_line] handled.
Proof.
  split.
  - intros ls l s px Hp. apply handled_next. destruct Hp as [k E]. destruct ls as [|l1 ls]; cbn [app] in E; injection E as <- E.
    + intros rb b i. vm_compute. reflexivity.
    + destruct ls as [|l2 ls]; cbn [app] in E; injection E as <- E; [|by destruct ls]. intros rb b i. vm_compute. reflexivity.
  - intros ls s px H. split; [by split|exact H].
  - intros ls s px rb (rb0 & b & i & -> & ->). by exists rb, b, i.
  - intros ls s px b i (rb & b0 & i0 & -> & ->). by exists rb, b, i.
Qed.

(** The serial number is stored and the clock set, each once. *)
Lemma lines_of_stream_witness :
  twp (read_lines protocol [] 60) (fun _ s' px => contents (s_lte_rb s') = [] /\ at_line (cstr "LTE+") s' /\ handled [sn_line; time_line] s' px)
    (boot [] ring3) (pm_table, mk_device 10 [], start_env []).
Proof.
  pose proof (lines_of_stream protocol handled [] 60 [] (boot [] ring3) (pm_table, mk_device 10 [], start_env [])) as H.
  replace (split_lines [] (contents (s_lte_rb (boot [] ring3)))) with ([sn_line; time_line], cstr "LTE+") in H by (vm_compute; reflexivity).
  eapply twp_mono; [apply H|].
  - exact protocol_handles.
  - exact ring3_ok.
  - apply fresh_line.
  - right. intros k b Hb. apply lookup_lt_Some in Hb. change (length (contents (s_lte_rb (boot [] ring3)))) with 46%nat in Hb. lia.
  - vm_compute. lia.
  - exists ring3, (replicate 128 0), 0. split; reflexivity.
  - intros u s' px (_ & H1 & H2 & H3). split_and!; [exact H1|exact H2|exact H3].
Defined.

End ProtoRun.
